(* ===== verification/_CoqProject ===== *)
-Q . S2P
Prelude.v
Bytes.v
Layout.v
Tables.v
Sorted.v
Host.v
Libc.v
Controller.v
ControllerSpec.v
ClosureData.v
ClosureGraph.v
ClosureGraphSpec.v
Closure.v
ClosureSpec.v
ClosureBuilderSpec.v
ClosureClaims.v
ControllerClaims.v
BlockDevice.v
Filesystem.v
FilesystemClaims.v
Sha256.v
Sha256Spec.v
Sha256Claims.v
Protocol.v
ProtocolSpec.v
ProtocolWire.v
ProtocolClaims.v
ClosureLayout.v
ClosureManifest.v
ClosureManifestSpec.v
ClosureManifestWire.v
ClosureManifestClaims.v
ResourceGrant.v
ResourceGrantSpec.v
ResourceGrantWire.v
ResourceGrantClaims.v
GpuLayout.v
GpuDrmLayout.v
GpuDrmSchema.v
GpuCoreSchema.v
GpuModeSchema.v
GpuVirtgpuSchema.v
GpuAmdgpuSchema.v
GpuI915Schema.v
GpuSession.v
GpuCompletion.v
GpuCompletionSpec.v
GpuSyncFile.v
GpuClaims.v
GpuRequest.v
GpuRequestSpec.v
GpuShapeSpec.v
GpuSemantics.v
GpuRules.v
GpuAmdgpuSpec.v
GpuValidateSpec.v
GpuCommand.v
GpuCommandWire.v
GpuCommandClaims.v
I915Shape.v
AmdgpuShape.v
GpuSchemaClaims.v
Virtqueue.v
VirtqueueSpec.v
VirtqueueInv.v
VirtqueueMemory.v
VirtqueueOps.v
VirtqueueBytes.v
VirtqueueFifo.v
VirtqueuePayload.v
VirtqueueClaims.v
CoreRuntimeLayout.v
CoreRuntime.v
Interleaving.v
CoreRefcount.v
CoreOwnership.v
CoreRuntimeSpec.v
CoreTables.v
CoreTablesSpec.v
CoreRuntimeClaims.v
