(* ===== verification/Prelude.v ===== *)
(** kobox2: a verification development for the sandbox controller and its protocol
    library.

    * The program

    kobox2 runs Linux driver closures in sandboxes.  A host creates a controller
    (src/controller/controller.c) for one sandbox and a closure (src/closure.c) that
    says which artifacts the sandbox loads, what they import from each other and which
    resources they need.  The controller is passive: it hands the host one action at a
    time (allocate, spawn, notify, revoke, reset, release, ...) and waits for the
    completion.  The sandbox gets its closure as a manifest message
    (protocol/src/closure_manifest.c), its resources as a grant (resource_grant.c,
    bound to the manifest by a SHA-256 digest, sha256.c) and talks to services over
    channels (protocol.c) of split-ring virtqueues in shared memory (virtqueue.c,
    virtqueue_memory.c, arch/x86_64/virtqueue_atomic.c).  The contracts of the services
    are message formats: block device, filesystem, GPU session, GPU command and GPU
    completion.  A GPU command carries tables of arguments, spans of shared regions and
    attachments, and is checked against catalogs generated from the DRM schemas (gpu.c);
    the two ends of the driver bridges share hand-written checks of some records
    (include/kobox2/i915_*_shape.h, amdgpu_*_shape.h).  Code in the sandbox uses the core
    runtime (generated/include/kobox2/core_runtime.h): inline atomics, bitmaps and
    reference counts, and tables of operations that the runtime provides.

    * Which file models which part

    Shared: [Prelude] (machine integers, masks, ranges, binary search), [Bytes]
    (buffers and little-endian words), [Layout] (fields of a fixed record, the class
    [WireFormat] of what a codec promises, and [record_wire], which derives it from a
    list of fields), [Tables] (messages made of tables, tilings), [Sorted] (sorted tables
    and their binary search), [Host] (statuses, the
    allocator as a class with C's contract, the interface of the controller to
    closures) and [Libc] (strcmp, and qsort by its standard contract).

    - [Controller]: controller.c; [ControllerSpec] the ledger of what the host holds
      and the invariant; [ControllerClaims].
    - [ClosureData] (storage, builder), [ClosureGraph] (node map, Kahn's algorithm,
      reachability), [Closure] (sealing, cloning): closure.c and closure_internal.h;
      [ClosureBuilderSpec], [ClosureGraphSpec], [ClosureSpec], [ClosureClaims].
    - [Protocol]: protocol.c; [ProtocolSpec], [ProtocolWire], [ProtocolClaims].
    - [ClosureManifest]: closure_manifest.c over the constants of [ClosureLayout];
      [ClosureManifestSpec] (valid manifests, records and strings, and what the decoder
      has checked), [ClosureManifestWire] (what the encoder writes),
      [ClosureManifestClaims].
    - [ResourceGrant]: resource_grant.c; [ResourceGrantSpec] (the abstract grant),
      [ResourceGrantWire], [ResourceGrantClaims].
    - [Sha256]: sha256.c; [Sha256Spec] (FIPS 180-4), [Sha256Claims].
    - [BlockDevice], [Filesystem], [GpuLayout], [GpuSession], [GpuCompletion],
      [GpuSyncFile]: block_device.c, filesystem.c, gpu_session.c, gpu_completion.c and
      gpu_sync_file.h with their specifications; [FilesystemClaims],
      [GpuCompletionSpec], [GpuClaims].
    - [GpuDrmLayout]: the catalogs and constants of the generated DRM headers;
      [GpuRequest] (tables and catalog check), [GpuSemantics] (the rules of the records,
      the AMDGPU check, the whole check), [GpuCommand] (encoder, decoder, accessors):
      gpu.c.  [GpuRequestSpec] (valid regions, spans, attachments, arguments),
      [GpuShapeSpec] (the shape a catalog asks for), [GpuRules] (the record rules as
      tables), [GpuAmdgpuSpec] (the AMDGPU schema as a catalog), [GpuValidateSpec] (the
      specification of a command), [GpuCommandWire], [GpuCommandClaims].
    - [GpuDrmSchema]: what a schema of a command set is, the catalogs it gives, the
      types of fields and the layout that tools/generate_protocol.py makes of them, and
      when a schema is consistent; [GpuCoreSchema], [GpuModeSchema], [GpuVirtgpuSchema],
      [GpuAmdgpuSchema], [GpuI915Schema]: the records, commands and catalogs of
      gpu_drm_*_layout.h and the types of protocol/schema/gpu_drm_*.json;
      [GpuSchemaClaims].
    - [I915Shape]: i915_bo_shape.h, i915_context_shape.h, i915_exec_shape.h;
      [AmdgpuShape]: amdgpu_cs_shape.h, amdgpu_info_shape.h, amdgpu_info_bridge.h;
      [GpuSchemaClaims].
    - [CoreRuntime]: the inline functions of core_runtime.h as interaction trees over the
      compiler's atomic builtins; [CoreRuntimeSpec] (each function run alone),
      [Interleaving] (threads whose builtins interleave), [CoreRefcount] (the reference
      counts of such threads), [CoreOwnership] (references held by threads);
      [CoreTables]: the structures of the operation tables with their LP64 layout, over
      the constants of [CoreRuntimeLayout]; [CoreTablesSpec], [CoreRuntimeClaims].
    - [Virtqueue]: virtqueue.c over an abstract shared memory; [VirtqueueMemory]: the
      mapped memory and the x86_64 atomics behind it; [VirtqueueSpec] (valid chains),
      [VirtqueueInv], [VirtqueueOps] (the invariant of a queue and that every operation
      keeps it, whatever the peer writes), [VirtqueueBytes] (the class of backends that
      deliver bytes, what publication writes, and how the other end reads it back),
      [VirtqueueFifo], [VirtqueuePayload] (two ends that run this code: chains, requests
      and responses as lists), [VirtqueueClaims].

    * How the models correspond to the code

    Definitions carry the names of the C functions.  Unsigned integers are [Z] with the
    truncation written where C can wrap; a buffer is the list of its bytes with the
    size argument beside it; a NULL pointer is [None]; a function's result lists its
    status and the output cells it wrote ([None] when it leaves a cell alone).  The
    controller and the builder pass their state explicitly; allocation goes through
    the allocator class, whose instances may fail at any call.  Virtqueue chains live in
    a store indexed by address, because the slot array, [last_taken] and the caller
    share them, and the peer may change the shared memory between any two accesses.
    Loops are structural recursions, or recursions on fuel with the bound proved enough:
    Kahn's loop and the search take one unit per node ([graph_loops_end], C3), a binary
    search one per element ([bsearch_spec]), reading a chain one per descriptor plus two
    ([read_descriptors_total]), an update of SHA-256 one per byte ([Sha256Claims]).  The
    loops of the reference counts have no bound of their own: they are iterations of
    interaction trees, and what ends them is proved of every schedule of the threads, at
    most (2N+4)K steps for N threads with K calls.

    * What the theorems show

    - [ClosureClaims], C1 to C5: sealing decides the closure specification for any
      sequence of builder calls, no block is lost whichever allocations fail, the graph
      check terminates and decides, builder calls keep the storage well formed, sealing
      is canonical.
    - [ControllerClaims], C6 to C11: in every reachable state the pending action is
      performable on what the host holds and IDLE holds nothing, accepted requests drain
      to the right state, tokens identify actions, the configuration is frozen, refused
      calls change nothing, blocks balance.
    - [ProtocolClaims], C12 to C15: the channel validator decides a specification over
      unbounded ranges; channels and envelopes are exact wire formats.
      docs/ring-transport.md describes fewer channels than the validator accepts: queue
      sizes from 16 on and one event queue in every channel, where the code follows
      transport.json (sizes from 1 on, at most one event queue);
      [documented_channels] says which accepted channels the document means, and
      [undocumented_channels_accepted] evaluates channels outside it.
    - [VirtqueueClaims], C16 to C20: between two ends that run this code the queue is a
      pair of FIFO lists that deliver chains, requests and responses unchanged; the queue
      invariant holds in every reachable state against an arbitrary peer, chain
      validation decides its specification, faults are final, publishing outcome by
      outcome.  C25: virtqueue_memory.c, the backend behind the engine, accepts exactly
      the tables that are disjoint and do not wrap, and is then a store of one byte per
      transport address, access by access.
    - [CoreRuntimeClaims], C21 to C24: reference counts are linearizable, released
      exactly once and lock-free in every interleaving; the single operations do their
      atomic operation, with the memory orders the caller named, or trap.
      [core_tables_layout], a lemma, evaluates the static assertions of the operation
      tables on the LP64 layout, as the compiler does.
    - [BlockDevice], [FilesystemClaims], [GpuClaims], C26 to C29: the service messages
      are exact wire formats; the filesystem policy fails closed, asks for the rights of
      [needs] and has no bypass (an operation that obtains what another one is about
      asks for its rights too); mapping results and sync-file responses are not confused.
      The documents put TRANSFER_DUP (docs/filesystem.md) and SHARED_FILE_VMO
      (protocol/schema/filesystem.json) on the owner's channel, the policy classifies
      both as FRONTEND ([documented_owner_operations]).
    - [Sha256Claims], C30: sha256.c computes FIPS 180-4.
    - [ResourceGrantClaims], [ClosureManifestClaims], C31 to C33: grants and manifests
      are exact wire formats, and validating a grant against a manifest decides that the
      digest is the manifest's and every slot meets its requirement.
    - [GpuCommandClaims], C34 to C37: GPU commands are an exact wire format; their check
      decides a specification of requests, agrees with the generated AMDGPU schema where
      the code has hand-written tables, and reads nothing behind the record.
      [gpu_reserved_field_accepted] shows a reserved field that the check, against the
      documentation, does not look at.
    - [GpuSchemaClaims], C38 to C40: the checks of gpu.c against flat catalogs, and
      against the tables written by hand for AMDGPU, decide conformity to the schema of
      the command, and the fields of accepted records, with the widths of the JSON
      schemas, fill them without overlap; the hand-written shapes follow the schemas, and
      the checks of i915 requests decide what they say.  That the generated headers are
      consistent with themselves and with the types is computed in lemmas
      ([command_sets_consistent], [contracts_of_schemas]).

    * Not modelled

    kb2_gpu_schema_sha256_hex, a constant string; the generated headers of contracts that
    no source file implements (device port, DMA and IOMMU domain, IRQ endpoint, memory
    arena, PCI function, platform device) and module_progress.h, an enumeration that no
    source file uses; the operations that the core runtime provides through its tables,
    and the host and driver programs (process creation, mapping, I/O), which only call
    this code and are not in the repository.  Of memory orders the model has what the
    contract says of them: [CoreRuntime] records the order of every builtin and traps
    where the code does, C24 states which orders a call passes on, but they have no
    effect on a run and the interleavings are sequentially consistent; in the
    virtqueue each endpoint's accesses are sequential and the peer's arbitrary, and the
    calls of two honest ends interleave one by one, the writes of a call delivered before
    the other end's next call. *)

From Stdlib Require Import ZArith Lia.
From stdpp Require Import base numbers tactics list_numbers list.

Open Scope Z_scope.

(** * Machine integers

    C's unsigned types are [Z] values; every place where the C code can wrap
    goes through one of the truncations below. *)

Definition U16_MAX : Z := 2 ^ 16 - 1.
Definition U32_MAX : Z := 2 ^ 32 - 1.
Definition U64_MAX : Z := 2 ^ 64 - 1.
(** [size_t] is 64 bits wide on every supported target. *)
Definition SIZE_MAX : Z := U64_MAX.

Definition u8 (z : Z) : Z := z mod 2 ^ 8.
Definition u16 (z : Z) : Z := z mod 2 ^ 16.
Definition u32 (z : Z) : Z := z mod 2 ^ 32.
Definition u64 (z : Z) : Z := z mod 2 ^ 64.

Definition is_u8 (z : Z) : Prop := 0 <= z < 2 ^ 8.
Definition is_u16 (z : Z) : Prop := 0 <= z < 2 ^ 16.
Definition is_u32 (z : Z) : Prop := 0 <= z < 2 ^ 32.
Definition is_u64 (z : Z) : Prop := 0 <= z < 2 ^ 64.

Lemma u8_small z : is_u8 z -> u8 z = z.
Proof. apply Z.mod_small. Qed.
Lemma u16_small z : is_u16 z -> u16 z = z.
Proof. apply Z.mod_small. Qed.
Lemma u32_small z : is_u32 z -> u32 z = z.
Proof. apply Z.mod_small. Qed.
Lemma u64_small z : is_u64 z -> u64 z = z.
Proof. apply Z.mod_small. Qed.
Lemma u8_range z : is_u8 (u8 z).
Proof. apply Z.mod_pos_bound; lia. Qed.
Lemma u16_range z : is_u16 (u16 z).
Proof. apply Z.mod_pos_bound; lia. Qed.
Lemma u32_range z : is_u32 (u32 z).
Proof. apply Z.mod_pos_bound; lia. Qed.
Lemma u64_range z : is_u64 (u64 z).
Proof. apply Z.mod_pos_bound; lia. Qed.

(** [x &~ m]: the bits of [x] outside the mask [m], C's [x & ~m] on unsigned
    operands. *)
Definition andn (x m : Z) : Z := Z.land x (Z.lnot m).

Declare Scope kobox_scope.
Delimit Scope kobox_scope with kb.
Notation "x &~ m" := (andn x m) (at level 40, left associativity) : kobox_scope.
Open Scope kobox_scope.

(** Two half-open ranges of unbounded integers meet. *)
Definition ranges_meet (a n b m : Z) : Prop := exists x, a <= x < a + n /\ b <= x < b + m.

Lemma ranges_meet_iff a n b m :
  0 < n -> 0 < m -> ranges_meet a n b m <-> a < b + m /\ b < a + n.
Proof.
  intros Hn Hm. split.
  - intros (x & ? & ?). lia.
  - intros [? ?]. exists (Z.max a b). lia.
Qed.

Lemma ranges_meet_sym a n b m : ranges_meet a n b m <-> ranges_meet b m a n.
Proof. split; intros (x & ? & ?); exists x; auto. Qed.

(** * Bit masks *)

Lemma land_ones_small x n : 0 <= n -> 0 <= x < 2 ^ n -> Z.land x (Z.ones n) = x.
Proof. intros. rewrite Z.land_ones by done. by apply Z.mod_small. Qed.

Lemma land_shiftl_disjoint a b n :
  0 <= n -> 0 <= a < 2 ^ n -> Z.land a (Z.shiftl b n) = 0.
Proof.
  intros Hn Ha. apply Z.bits_inj'. intros i Hi.
  rewrite Z.land_spec, Z.bits_0, Z.shiftl_spec by done.
  destruct (Z.lt_ge_cases i n) as [Hlt | Hge].
  - rewrite (Z.testbit_neg_r b) by lia. apply andb_false_r.
  - rewrite <- (Z.mod_small a (2 ^ n)) by done.
    by rewrite Z.mod_pow2_bits_high by lia.
Qed.

Lemma lor_shiftl_add a b n :
  0 <= n -> 0 <= a < 2 ^ n -> Z.lor a (Z.shiftl b n) = a + b * 2 ^ n.
Proof.
  intros Hn Ha.
  rewrite <- Z.shiftl_mul_pow2 by done.
  rewrite <- Z.lxor_lor, Z.add_nocarry_lxor; [done | |]; by apply land_shiftl_disjoint.
Qed.

(** A mask test on the low bits is a test of the remainder. *)
Lemma land_ones_eqb_0 x n : 0 <= n -> (Z.land x (Z.ones n) = 0 <-> x mod 2 ^ n = 0).
Proof. intros. by rewrite Z.land_ones. Qed.

Lemma andn_0_r x : x &~ 0 = x.
Proof. unfold andn. apply Z.land_m1_r. Qed.

Lemma andn_ones x n : 0 <= n -> x &~ Z.ones n = x / 2 ^ n * 2 ^ n.
Proof.
  intros Hn. unfold andn. rewrite <- Z.ldiff_land, Z.ldiff_ones_r by done.
  by rewrite Z.shiftl_mul_pow2, Z.shiftr_div_pow2.
Qed.

(** No bit above the mask: the value is below it. *)
Lemma andn_ones_0 x n : 0 <= n -> 0 <= x -> x &~ Z.ones n = 0 <-> x < 2 ^ n.
Proof.
  intros Hn Hx. rewrite andn_ones by done.
  assert (0 < 2 ^ n) by (apply Z.pow_pos_nonneg; lia).
  split.
  - intros Hz. apply Z.mul_eq_0 in Hz as [Hz | Hz]; [| lia]. apply Z.div_small_iff in Hz; lia.
  - intros Hlt. by rewrite Z.div_small by lia.
Qed.

(** x & (x - 1) is zero for the powers of two. *)
Lemma land_pred_pow2 x : 0 < x -> Z.land x (x - 1) = 0 <-> x = 2 ^ Z.log2 x.
Proof.
  intros Hx. pose proof (Z.log2_spec x Hx) as [Hlo Hhi]. pose proof (Z.log2_nonneg x) as Hk.
  split; intros Heq.
  - destruct (Z.eq_dec x (2 ^ Z.log2 x)) as [| Hne]; [done |]. exfalso.
    assert (Hb : Z.testbit (Z.land x (x - 1)) (Z.log2 x) = true); [| by rewrite Heq, Z.bits_0 in Hb].
    rewrite Z.land_spec, (Z.bit_log2 x) by done. cbn.
    assert (0 < 2 ^ Z.log2 x) by (apply Z.pow_pos_nonneg; lia).
    assert (Hl : Z.log2 (x - 1) = Z.log2 x) by (apply Z.log2_unique; [done | split; lia]).
    rewrite <- Hl. apply Z.bit_log2. lia.
  - clear Hlo Hhi. revert Heq Hk. generalize (Z.log2 x). intros k -> Hk.
    replace (2 ^ k - 1) with (Z.ones k) by (rewrite Z.ones_equiv; lia).
    rewrite Z.land_ones by done. apply Z.mod_same.
    assert (0 < 2 ^ k) by (apply Z.pow_pos_nonneg; lia). lia.
Qed.

(** * Pairs of a list *)

(** [R] relates every element to every later one. *)
Definition pairwise {T} (R : T -> T -> Prop) (l : list T) : Prop :=
  forall i j x y, (i < j)%nat -> l !! i = Some x -> l !! j = Some y -> R x y.

Lemma pairwise_nil {T} (R : T -> T -> Prop) : pairwise R [].
Proof. by intros i j x y _ Hx. Qed.

Lemma pairwise_singleton {T} (R : T -> T -> Prop) x : pairwise R [x].
Proof. intros i [|j] y z Hij Hy Hz; [lia | done]. Qed.

Lemma pairwise_app {T} (R : T -> T -> Prop) l k :
  pairwise R (l ++ k) <->
  pairwise R l /\ pairwise R k /\ forall x y, x ∈ l -> y ∈ k -> R x y.
Proof.
  split.
  - intros Hp. split; [| split].
    + intros i j x y Hij Hx Hy. apply (Hp i j); [done | by apply lookup_app_l_Some ..].
    + intros i j x y Hij Hx Hy. apply (Hp (length l + i)%nat (length l + j)%nat); [lia | |];
        rewrite lookup_app_r by lia; by rewrite Nat.add_comm, Nat.add_sub.
    + intros x y [i Hi]%list_elem_of_lookup [j Hj]%list_elem_of_lookup.
      pose proof (lookup_lt_Some _ _ _ Hi). apply (Hp i (length l + j)%nat); [lia | by apply lookup_app_l_Some |].
      rewrite lookup_app_r by lia. by rewrite Nat.add_comm, Nat.add_sub.
  - intros (Hl & Hk & Hc) i j x y Hij Hx Hy.
    apply lookup_app_Some in Hx as [Hx | [Hi Hx]], Hy as [Hy | [Hj Hy]].
    + by apply (Hl i j).
    + apply Hc; by eapply list_elem_of_lookup_2.
    + pose proof (lookup_lt_Some _ _ _ Hy). lia.
    + apply (Hk (i - length l)%nat (j - length l)%nat); [lia | done | done].
Qed.

Lemma pairwise_cons {T} (R : T -> T -> Prop) x l :
  pairwise R (x :: l) <-> (forall y, y ∈ l -> R x y) /\ pairwise R l.
Proof.
  rewrite (pairwise_app R [x] l). split.
  - intros (_ & Hl & Hc). split; [| done]. intros y Hy. apply Hc; [by left | done].
  - intros [Hc Hl]. split; [apply pairwise_singleton |]. split; [done |].
    intros y z ->%list_elem_of_singleton Hz. by apply Hc.
Qed.

Lemma pairwise_fmap {S T} (R : T -> T -> Prop) (f : S -> T) l :
  pairwise R (f <$> l) <-> pairwise (fun x y => R (f x) (f y)) l.
Proof.
  induction l as [|x l IH]; cbn; [split; intros; apply pairwise_nil |].
  rewrite !pairwise_cons, IH. apply and_iff_compat_r. split.
  - intros Hf y Hy. apply Hf. by apply list_elem_of_fmap_2.
  - intros Hf y (z & -> & Hz)%list_elem_of_fmap. by apply Hf.
Qed.

Lemma NoDup_snoc {T} (l : list T) x : NoDup (l ++ [x]) <-> NoDup l /\ x ∉ l.
Proof. rewrite (Permutation_app_comm l [x]). cbn. rewrite NoDup_cons. tauto. Qed.

Lemma NoDup_snoc_2 {T} (l : list T) x : NoDup l -> x ∉ l -> NoDup (l ++ [x]).
Proof. intros. by apply NoDup_snoc. Qed.

Lemma pairwise_snoc {T} (R : T -> T -> Prop) l x :
  pairwise R (l ++ [x]) <-> pairwise R l /\ forall y, y ∈ l -> R y x.
Proof.
  rewrite pairwise_app. split.
  - intros (Hl & _ & Hc). split; [done |]. intros y Hy. apply Hc; [done | by left].
  - intros [Hl Hc]. split_and!; [done | apply pairwise_singleton |].
    intros y z Hy ->%list_elem_of_singleton. by apply Hc.
Qed.

(** * Binary search

    The search loop the repository writes out for every sorted table: an array
    access [key], the searched key and the half-open range [left, right).  The
    fuel bounds the number of iterations. *)
Fixpoint bsearch (fuel : nat) (key : nat -> Z) (target : Z) (left right : nat) : option nat :=
  match fuel with
  | O => None
  | S fuel =>
      if (left <? right)%nat then
        let middle := (left + (right - left) / 2)%nat in
        if key middle =? target then Some middle
        else if key middle <? target then bsearch fuel key target (S middle) right
        else bsearch fuel key target left middle
      else None
  end.

(** On a strictly increasing range, with one unit of fuel per element, the search
    finds exactly the position of the key. *)
Lemma bsearch_spec fuel key target left right i :
  (forall j k, (left <= j < k)%nat -> (k < right)%nat -> key j < key k) ->
  (right - left <= fuel)%nat ->
  bsearch fuel key target left right = Some i <-> (left <= i < right)%nat /\ key i = target.
Proof.
  revert left right. induction fuel as [|fuel IH]; intros left right Hmono Hfuel; cbn [bsearch].
  { split; [done | lia]. }
  destruct (Nat.ltb_spec left right) as [Hlt | Hge]; [| split; [done | lia]].
  pose proof (Nat.div_lt (right - left) 2 ltac:(lia) ltac:(lia)) as Hhalf.
  set (mid := (left + (right - left) / 2)%nat) in *.
  assert (Hmid : (left <= mid < right)%nat) by lia.
  destruct (Z.eqb_spec (key mid) target) as [Heq | Hne].
  { split; [intros [= <-]; done |]. intros [Hi Hk].
    destruct (Nat.lt_trichotomy i mid) as [Hlt' | [-> | Hlt']]; [| done |].
    - pose proof (Hmono i mid ltac:(lia) ltac:(lia)). lia.
    - pose proof (Hmono mid i ltac:(lia) ltac:(lia)). lia. }
  destruct (Z.ltb_spec (key mid) target) as [Hless | Hmore].
  - rewrite IH by (intros; try apply Hmono; lia). split; intros [Hi Hk]; (split; [| done]); [lia |].
    destruct (decide (i <= mid)%nat); [| lia].
    destruct (decide (i = mid)) as [-> | ]; [lia |].
    pose proof (Hmono i mid ltac:(lia) ltac:(lia)). lia.
  - rewrite IH by (intros; try apply Hmono; lia). split; intros [Hi Hk]; (split; [| done]); [lia |].
    destruct (decide (mid <= i)%nat); [| lia].
    destruct (decide (i = mid)) as [-> | ]; [lia |].
    pose proof (Hmono mid i ltac:(lia) ltac:(lia)). lia.
Qed.

(** The same search where reading a key can fail; the search then gives up. *)
Fixpoint bsearch_opt (fuel : nat) (key : nat -> option Z) (target : Z) (left right : nat) : option nat :=
  match fuel with
  | O => None
  | S fuel =>
      if (left <? right)%nat then
        let middle := (left + (right - left) / 2)%nat in
        match key middle with
        | None => None
        | Some k =>
            if k =? target then Some middle
            else if k <? target then bsearch_opt fuel key target (S middle) right
            else bsearch_opt fuel key target left middle
        end
      else None
  end.

Lemma bsearch_opt_total fuel key keys target left right :
  (forall i, (i < right)%nat -> key i = Some (keys i)) ->
  bsearch_opt fuel key target left right = bsearch fuel keys target left right.
Proof.
  revert left right. induction fuel as [|fuel IH]; intros left right Hk; [done |]. cbn [bsearch bsearch_opt].
  destruct (Nat.ltb_spec left right) as [Hlt | Hge]; [| done].
  pose proof (Nat.div_lt (right - left) 2 ltac:(lia) ltac:(lia)). rewrite Hk by lia.
  destruct (_ =? _); [done |]. destruct (_ <? _); apply IH; intros; apply Hk; lia.
Qed.
