(* ===== verification/Bytes.v ===== *)
(** Byte buffers and little-endian fields.

    A buffer is the memory a [uint8_t *] argument points to, as a list of cells.
    [get_byte]/[put_byte] read and write one cell; [load_u32], [load_u64],
    [store_u32] and [store_u64] are the explicit little-endian accessors of
    protocol/src/protocol.c, and [put_bytes]/[get_bytes] are memcpy, memset and the
    left operand of memcmp.  The lemmas relate a read after a write, field by
    field; the rewrite database [wire] applies them with their range conditions
    discharged by [lia]. *)

From Stdlib Require Import ZArith Lia.
From stdpp Require Import base numbers list list_numbers tactics.
From S2P Require Import Prelude.

Open Scope Z_scope.

Definition blen (b : list Z) : Z := Z.of_nat (length b).

Definition get_byte (b : list Z) (off : Z) : Z := u8 (nth (Z.to_nat off) b 0).
Definition put_byte (b : list Z) (off v : Z) : list Z := <[Z.to_nat off := u8 v]> b.

Definition load_u32 (b : list Z) (off : Z) : Z :=
  Z.lor (Z.lor (Z.lor (get_byte b off)
                      (Z.shiftl (get_byte b (off + 1)) 8))
               (Z.shiftl (get_byte b (off + 2)) 16))
        (Z.shiftl (get_byte b (off + 3)) 24).

Definition load_u64 (b : list Z) (off : Z) : Z :=
  Z.lor (load_u32 b off) (Z.shiftl (load_u32 b (off + 4)) 32).

Definition store_u32 (b : list Z) (off v : Z) : list Z :=
  let b := put_byte b off v in
  let b := put_byte b (off + 1) (Z.shiftr v 8) in
  let b := put_byte b (off + 2) (Z.shiftr v 16) in
  put_byte b (off + 3) (Z.shiftr v 24).

Definition store_u64 (b : list Z) (off v : Z) : list Z :=
  let b := store_u32 b off (u32 v) in
  store_u32 b (off + 4) (u32 (Z.shiftr v 32)).

(** memcpy of a host array into the buffer. *)
Fixpoint put_bytes (b : list Z) (off : Z) (src : list Z) : list Z :=
  match src with
  | [] => b
  | x :: src => put_bytes (put_byte b off x) (off + 1) src
  end.

(** memset(buffer + off, 0, n). *)
Definition zero_bytes (b : list Z) (off n : Z) : list Z :=
  put_bytes b off (replicate (Z.to_nat n) 0).

(** The [n] bytes at [off], as memcpy or memcmp reads them. *)
Definition get_bytes (b : list Z) (off n : Z) : list Z :=
  (fun i => get_byte b (off + i)) <$> seqZ 0 n.

(** memcmp(buffer + off, x, sizeof x) == 0 *)
Definition bytes_equal (b : list Z) (off : Z) (x : list Z) : bool :=
  bool_decide (get_bytes b off (blen x) = x).

(** * Lengths *)

Lemma blen_nonneg b : 0 <= blen b.
Proof. unfold blen. lia. Qed.

Lemma blen_put_byte b off v : blen (put_byte b off v) = blen b.
Proof. unfold blen, put_byte. by rewrite length_insert. Qed.

Lemma blen_store_u32 b off v : blen (store_u32 b off v) = blen b.
Proof. unfold store_u32. by rewrite !blen_put_byte. Qed.

Lemma blen_store_u64 b off v : blen (store_u64 b off v) = blen b.
Proof. unfold store_u64. by rewrite !blen_store_u32. Qed.

Lemma blen_put_bytes b off src : blen (put_bytes b off src) = blen b.
Proof. revert b off. induction src; intros; cbn; [done |]. by rewrite IHsrc, blen_put_byte. Qed.

Lemma blen_zero_bytes b off n : blen (zero_bytes b off n) = blen b.
Proof. apply blen_put_bytes. Qed.

Lemma blen_get_bytes b off n : 0 <= n -> blen (get_bytes b off n) = n.
Proof. intros. unfold blen, get_bytes. rewrite length_fmap, length_seqZ. lia. Qed.

Create Rewrite HintDb blen.
#[export] Hint Rewrite blen_put_byte blen_store_u32 blen_store_u64 blen_put_bytes
  blen_zero_bytes : blen.

(** Range side conditions: lengths of written buffers, then [lia]. *)
Ltac solve_range := autorewrite with blen; lia.

(** * Cells *)

Lemma get_byte_u8 b i : is_u8 (get_byte b i).
Proof. apply u8_range. Qed.

Lemma u8_idemp z : u8 (u8 z) = u8 z.
Proof. apply u8_small, u8_range. Qed.

Lemma get_byte_put_byte_eq b i v : 0 <= i < blen b -> get_byte (put_byte b i v) i = u8 v.
Proof.
  unfold get_byte, put_byte, blen. intros.
  rewrite nth_lookup, list_lookup_insert_eq by lia. apply u8_idemp.
Qed.

Lemma get_byte_put_byte_ne b i j v :
  0 <= i -> 0 <= j -> i <> j -> get_byte (put_byte b i v) j = get_byte b j.
Proof.
  unfold get_byte, put_byte. intros.
  by rewrite !nth_lookup, list_lookup_insert_ne by lia.
Qed.

Lemma get_byte_store_u32_ne b off v j :
  0 <= off -> 0 <= j -> (j < off \/ off + 4 <= j) ->
  get_byte (store_u32 b off v) j = get_byte b j.
Proof. intros. unfold store_u32. by rewrite !get_byte_put_byte_ne by lia. Qed.

Lemma get_byte_store_u64_ne b off v j :
  0 <= off -> 0 <= j -> (j < off \/ off + 8 <= j) ->
  get_byte (store_u64 b off v) j = get_byte b j.
Proof. intros. unfold store_u64. by rewrite !get_byte_store_u32_ne by lia. Qed.

Lemma get_byte_put_bytes_ne b off src j :
  0 <= off -> 0 <= j -> (j < off \/ off + blen src <= j) ->
  get_byte (put_bytes b off src) j = get_byte b j.
Proof.
  revert b off. induction src as [|x src IH]; intros b off Hoff Hj Hne; cbn [put_bytes]; [done |].
  unfold blen in Hne, IH; cbn [length] in Hne.
  rewrite IH by lia. by rewrite get_byte_put_byte_ne by lia.
Qed.

Lemma get_byte_put_bytes_eq b off src j :
  0 <= off -> off + blen src <= blen b -> off <= j < off + blen src ->
  get_byte (put_bytes b off src) j = u8 (nth (Z.to_nat (j - off)) src 0).
Proof.
  revert b off. induction src as [|x src IH]; intros b off Hoff Hlen Hj; cbn [put_bytes].
  { unfold blen in Hj; cbn in Hj. lia. }
  unfold blen in Hj, Hlen, IH; cbn [length] in Hj, Hlen.
  destruct (decide (j = off)) as [-> | Hne].
  - rewrite get_byte_put_bytes_ne, get_byte_put_byte_eq by (unfold blen; lia).
    by rewrite Z.sub_diag.
  - rewrite IH; [| lia | unfold put_byte; rewrite length_insert; lia | lia].
    replace (Z.to_nat (j - off)) with (S (Z.to_nat (j - (off + 1)))) by lia. done.
Qed.

Lemma get_byte_zero_bytes b off n j :
  0 <= off -> 0 <= n -> off + n <= blen b -> off <= j < off + n ->
  get_byte (zero_bytes b off n) j = 0.
Proof.
  intros. unfold zero_bytes.
  assert (Hl : blen (replicate (Z.to_nat n) 0) = n)
    by (unfold blen; rewrite length_replicate; lia).
  rewrite get_byte_put_bytes_eq by lia.
  rewrite nth_lookup, lookup_replicate_2 by lia. done.
Qed.

Lemma get_byte_zero_bytes_ne b off n j :
  0 <= off -> 0 <= n -> 0 <= j -> (j < off \/ off + n <= j) ->
  get_byte (zero_bytes b off n) j = get_byte b j.
Proof.
  intros. unfold zero_bytes.
  assert (Hl : blen (replicate (Z.to_nat n) 0) = n)
    by (unfold blen; rewrite length_replicate; lia).
  by rewrite get_byte_put_bytes_ne by lia.
Qed.

(** * Fields *)

Lemma load_u32_add b off :
  load_u32 b off = get_byte b off + get_byte b (off + 1) * 2 ^ 8 +
                   get_byte b (off + 2) * 2 ^ 16 + get_byte b (off + 3) * 2 ^ 24.
Proof.
  unfold load_u32.
  pose proof (get_byte_u8 b off) as H0. pose proof (get_byte_u8 b (off + 1)) as H1.
  pose proof (get_byte_u8 b (off + 2)) as H2. pose proof (get_byte_u8 b (off + 3)) as H3.
  unfold is_u8 in *.
  rewrite (lor_shiftl_add _ _ 8), (lor_shiftl_add _ _ 16), (lor_shiftl_add _ _ 24) by lia.
  done.
Qed.

Lemma load_u32_range b off : is_u32 (load_u32 b off).
Proof.
  rewrite load_u32_add. unfold is_u32.
  pose proof (get_byte_u8 b off) as H0. pose proof (get_byte_u8 b (off + 1)) as H1.
  pose proof (get_byte_u8 b (off + 2)) as H2. pose proof (get_byte_u8 b (off + 3)) as H3.
  unfold is_u8 in *. lia.
Qed.

Lemma load_u64_add b off : load_u64 b off = load_u32 b off + load_u32 b (off + 4) * 2 ^ 32.
Proof. unfold load_u64. apply lor_shiftl_add; [lia |]. apply load_u32_range. Qed.

Lemma load_u64_range b off : is_u64 (load_u64 b off).
Proof.
  rewrite load_u64_add. unfold is_u64.
  pose proof (load_u32_range b off). pose proof (load_u32_range b (off + 4)).
  unfold is_u32 in *. lia.
Qed.

(** A field is determined by the cells it covers. *)
Lemma load_u32_ext b b' off :
  (forall i, off <= i < off + 4 -> get_byte b i = get_byte b' i) ->
  load_u32 b off = load_u32 b' off.
Proof. intros H. unfold load_u32. by rewrite !H by lia. Qed.

Lemma load_u64_ext b b' off :
  (forall i, off <= i < off + 8 -> get_byte b i = get_byte b' i) ->
  load_u64 b off = load_u64 b' off.
Proof. intros H. unfold load_u64. by rewrite !(load_u32_ext b b') by (intros; apply H; lia). Qed.

Lemma get_bytes_ext b b' off n :
  (forall i, off <= i < off + n -> get_byte b i = get_byte b' i) ->
  get_bytes b off n = get_bytes b' off n.
Proof.
  intros H. unfold get_bytes. apply list_fmap_ext. intros i x Hx.
  apply lookup_seqZ in Hx as [-> ?]. apply H. lia.
Qed.

Section ReadAfterWrite.
Context (b : list Z) (off : Z).

Lemma load_store_u32_eq v :
  0 <= off -> off + 4 <= blen b -> load_u32 (store_u32 b off v) off = u32 v.
Proof.
  intros. rewrite load_u32_add. unfold store_u32.
  rewrite (get_byte_put_byte_eq _ (off + 3)) by solve_range.
  rewrite !(get_byte_put_byte_ne _ (off + 3)) by lia.
  rewrite (get_byte_put_byte_eq _ (off + 2)) by solve_range.
  rewrite !(get_byte_put_byte_ne _ (off + 2)) by lia.
  rewrite (get_byte_put_byte_eq _ (off + 1)) by solve_range.
  rewrite !(get_byte_put_byte_ne _ (off + 1)) by lia.
  rewrite get_byte_put_byte_eq by lia.
  rewrite !Z.shiftr_div_pow2 by lia. unfold u8, u32.
  change (2 ^ 8) with 256. change (2 ^ 16) with 65536. change (2 ^ 24) with 16777216.
  change (2 ^ 32) with 4294967296.
  Z.div_mod_to_equations. lia.
Qed.

Lemma load_u32_store_u32_ne off' v :
  0 <= off -> 0 <= off' -> (off' + 4 <= off \/ off + 4 <= off') ->
  load_u32 (store_u32 b off v) off' = load_u32 b off'.
Proof. intros. apply load_u32_ext. intros. apply get_byte_store_u32_ne; lia. Qed.

Lemma load_u32_store_u64_ne off' v :
  0 <= off -> 0 <= off' -> (off' + 4 <= off \/ off + 8 <= off') ->
  load_u32 (store_u64 b off v) off' = load_u32 b off'.
Proof. intros. apply load_u32_ext. intros. apply get_byte_store_u64_ne; lia. Qed.

Lemma load_u32_put_bytes_ne off' src :
  0 <= off -> 0 <= off' -> (off' + 4 <= off \/ off + blen src <= off') ->
  load_u32 (put_bytes b off src) off' = load_u32 b off'.
Proof. intros. apply load_u32_ext. intros. apply get_byte_put_bytes_ne; lia. Qed.

Lemma load_u64_store_u32_ne off' v :
  0 <= off -> 0 <= off' -> (off' + 8 <= off \/ off + 4 <= off') ->
  load_u64 (store_u32 b off v) off' = load_u64 b off'.
Proof. intros. apply load_u64_ext. intros. apply get_byte_store_u32_ne; lia. Qed.

Lemma load_u64_store_u64_ne off' v :
  0 <= off -> 0 <= off' -> (off' + 8 <= off \/ off + 8 <= off') ->
  load_u64 (store_u64 b off v) off' = load_u64 b off'.
Proof. intros. apply load_u64_ext. intros. apply get_byte_store_u64_ne; lia. Qed.

Lemma load_u64_put_bytes_ne off' src :
  0 <= off -> 0 <= off' -> (off' + 8 <= off \/ off + blen src <= off') ->
  load_u64 (put_bytes b off src) off' = load_u64 b off'.
Proof. intros. apply load_u64_ext. intros. apply get_byte_put_bytes_ne; lia. Qed.

Lemma get_bytes_store_u32_ne off' n v :
  0 <= off -> 0 <= off' -> (off' + n <= off \/ off + 4 <= off') ->
  get_bytes (store_u32 b off v) off' n = get_bytes b off' n.
Proof. intros. apply get_bytes_ext. intros. apply get_byte_store_u32_ne; lia. Qed.

Lemma get_bytes_store_u64_ne off' n v :
  0 <= off -> 0 <= off' -> (off' + n <= off \/ off + 8 <= off') ->
  get_bytes (store_u64 b off v) off' n = get_bytes b off' n.
Proof. intros. apply get_bytes_ext. intros. apply get_byte_store_u64_ne; lia. Qed.

Lemma get_bytes_put_bytes_ne off' n src :
  0 <= off -> 0 <= off' -> (off' + n <= off \/ off + blen src <= off') ->
  get_bytes (put_bytes b off src) off' n = get_bytes b off' n.
Proof. intros. apply get_bytes_ext. intros. apply get_byte_put_bytes_ne; lia. Qed.

Lemma load_u32_zero_bytes n off' :
  0 <= off -> 0 <= n -> off + n <= blen b -> off <= off' -> off' + 4 <= off + n ->
  load_u32 (zero_bytes b off n) off' = 0.
Proof. intros. rewrite load_u32_add, !get_byte_zero_bytes by lia. done. Qed.

Lemma load_u64_zero_bytes n off' :
  0 <= off -> 0 <= n -> off + n <= blen b -> off <= off' -> off' + 8 <= off + n ->
  load_u64 (zero_bytes b off n) off' = 0.
Proof. intros. rewrite load_u64_add, !load_u32_zero_bytes by lia. done. Qed.

Lemma get_bytes_put_bytes_eq src :
  Forall is_u8 src -> 0 <= off -> off + blen src <= blen b ->
  get_bytes (put_bytes b off src) off (blen src) = src.
Proof.
  intros Hsrc Hoff Hlen. apply list_eq. intros i. unfold get_bytes.
  rewrite list_lookup_fmap. destruct (decide (i < length src)%nat) as [Hi | Hi].
  - rewrite lookup_seqZ_lt by (unfold blen; lia). cbn.
    rewrite get_byte_put_bytes_eq by (unfold blen in *; lia).
    replace (Z.to_nat (off + (0 + Z.of_nat i) - off)) with i by lia.
    destruct (lookup_lt_is_Some_2 src i Hi) as [x Hx].
    rewrite nth_lookup, Hx. cbn. f_equal. apply u8_small.
    by eapply Forall_lookup_1.
  - rewrite lookup_ge_None_2 by (rewrite length_seqZ; unfold blen; lia).
    rewrite lookup_ge_None_2 by lia. done.
Qed.
End ReadAfterWrite.

Lemma load_store_u64_eq b off v :
  0 <= off -> off + 8 <= blen b -> load_u64 (store_u64 b off v) off = u64 v.
Proof.
  intros. rewrite load_u64_add. unfold store_u64.
  rewrite load_store_u32_eq by solve_range.
  rewrite load_u32_store_u32_ne, load_store_u32_eq by lia.
  rewrite Z.shiftr_div_pow2 by lia. unfold u32, u64.
  change (2 ^ 32) with 4294967296. change (2 ^ 64) with 18446744073709551616.
  Z.div_mod_to_equations. lia.
Qed.

Create Rewrite HintDb wire.
#[export] Hint Rewrite load_store_u32_eq load_store_u64_eq
  load_u32_store_u32_ne load_u32_store_u64_ne load_u32_put_bytes_ne
  load_u64_store_u32_ne load_u64_store_u64_ne load_u64_put_bytes_ne
  get_bytes_store_u32_ne get_bytes_store_u64_ne get_bytes_put_bytes_ne
  load_u32_zero_bytes load_u64_zero_bytes
  using solve_range : wire.

(** * Buffers as lists *)

Lemma put_byte_splice b off v :
  0 <= off < blen b -> put_byte b off v = take (Z.to_nat off) b ++ u8 v :: drop (S (Z.to_nat off)) b.
Proof. unfold blen, put_byte. intros Ho. apply insert_take_drop. lia. Qed.

Lemma put_bytes_splice b off src :
  0 <= off -> off + blen src <= blen b ->
  put_bytes b off src = take (Z.to_nat off) b ++ (u8 <$> src) ++ drop (Z.to_nat off + length src) b.
Proof.
  revert b off. induction src as [|x src IH]; intros b off Ho Hl.
  { cbn. by rewrite Nat.add_0_r, take_drop. }
  unfold blen in Hl. cbn [length] in Hl. cbn [put_bytes fmap list_fmap length].
  rewrite IH; [| lia | rewrite blen_put_byte; unfold blen; lia].
  rewrite put_byte_splice by (unfold blen; lia). replace (Z.to_nat (off + 1)) with (S (Z.to_nat off)) by lia.
  assert (Ht : length (take (Z.to_nat off) b) = Z.to_nat off) by (rewrite length_take; lia).
  rewrite take_app_ge, drop_app_ge by lia. rewrite Ht.
  replace (S (Z.to_nat off) - Z.to_nat off)%nat with 1%nat by lia.
  replace (S (Z.to_nat off) + length src - Z.to_nat off)%nat with (S (length src)) by lia.
  cbn [take drop firstn skipn]. rewrite drop_drop, <- !app_assoc. rewrite take_0. cbn [app].
  by replace (Z.to_nat off + S (length src))%nat with (S (Z.to_nat off) + length src)%nat by lia.
Qed.

Lemma zero_bytes_splice b off n :
  0 <= off -> 0 <= n -> off + n <= blen b ->
  zero_bytes b off n = take (Z.to_nat off) b ++ replicate (Z.to_nat n) 0 ++ drop (Z.to_nat (off + n)) b.
Proof.
  intros Ho Hn Hl. unfold zero_bytes. rewrite put_bytes_splice; [| done | unfold blen; rewrite length_replicate; unfold blen in Hl; lia].
  rewrite fmap_replicate, length_replicate. by replace (Z.to_nat off + Z.to_nat n)%nat with (Z.to_nat (off + n)) by lia.
Qed.

(** Byte buffers: a list of bytes is what memcpy reads from it. *)
Lemma get_bytes_take b n : Forall is_u8 b -> 0 <= n <= blen b -> get_bytes b 0 n = take (Z.to_nat n) b.
Proof.
  unfold blen. intros Hb Hn. apply list_eq. intros i. unfold get_bytes. rewrite list_lookup_fmap.
  destruct (decide (i < Z.to_nat n)%nat) as [Hi | Hi].
  - rewrite lookup_seqZ_lt by lia. rewrite lookup_take_lt by done. cbn.
    destruct (lookup_lt_is_Some_2 b i) as [x Hx]; [lia |]. rewrite Hx. f_equal. unfold get_byte.
    replace (Z.to_nat (0 + (0 + Z.of_nat i))) with i by lia. rewrite (nth_lookup_Some _ _ _ _ Hx).
    apply u8_small. by eapply Forall_lookup_1.
  - rewrite !lookup_ge_None_2; [done | rewrite length_take; lia | rewrite length_seqZ; lia].
Qed.

Lemma fmap_u8 l : Forall is_u8 l -> u8 <$> l = l.
Proof. intros Hl. rewrite <- (list_fmap_id l) at 2. apply list_fmap_ext. intros i x Hx. by apply u8_small, (Forall_lookup_1 _ _ _ _ Hl Hx). Qed.
