(* ===== verification/Layout.v ===== *)
(** Fixed layouts on the wire.

    Every contract of the protocol library writes a zeroed record field by field and
    reads it back field by field.  [agree] is equality of two buffers on a range; a
    [field] is one little-endian word or byte array at an offset of a record, and the
    lemmas say when a field survives later writes, that a record tiled by its fields
    is determined by them, and that its fields only depend on its bytes.  The range
    conditions are booleans on the offsets, so a codec's proof evaluates them. *)

From Stdlib Require Import ZArith Lia.
From stdpp Require Import base numbers tactics sets list_numbers list.
From S2P Require Import Prelude Bytes.

Open Scope Z_scope.

(** * Agreement of two buffers on a range *)

Definition agree (b b' : list Z) (lo hi : Z) : Prop :=
  forall j, lo <= j < hi -> get_byte b j = get_byte b' j.

Lemma agree_load_u32 b b' lo hi off :
  agree b b' lo hi -> lo <= off -> off + 4 <= hi -> load_u32 b off = load_u32 b' off.
Proof. intros Ha ? ?. apply load_u32_ext. intros. apply Ha. lia. Qed.

Lemma agree_load_u64 b b' lo hi off :
  agree b b' lo hi -> lo <= off -> off + 8 <= hi -> load_u64 b off = load_u64 b' off.
Proof. intros Ha ? ?. apply load_u64_ext. intros. apply Ha. lia. Qed.

Lemma agree_get_bytes b b' lo hi off n :
  agree b b' lo hi -> lo <= off -> off + n <= hi -> get_bytes b off n = get_bytes b' off n.
Proof. intros Ha ? ?. apply get_bytes_ext. intros. apply Ha. lia. Qed.

(** A stored word has the bytes the word was loaded from. *)
Lemma get_byte_store_load_u32 b b' off j :
  0 <= off -> off + 4 <= blen b' -> off <= j < off + 4 ->
  get_byte (store_u32 b' off (load_u32 b off)) j = get_byte b j.
Proof.
  intros Hoff Hlen Hj. rewrite load_u32_add.
  pose proof (get_byte_u8 b off) as H0. pose proof (get_byte_u8 b (off + 1)) as H1.
  pose proof (get_byte_u8 b (off + 2)) as H2. pose proof (get_byte_u8 b (off + 3)) as H3.
  unfold is_u8 in *. unfold store_u32.
  set (v := get_byte b off + _ + _ + _).
  assert (Hv : u8 v = get_byte b off /\ u8 (Z.shiftr v 8) = get_byte b (off + 1) /\
    u8 (Z.shiftr v 16) = get_byte b (off + 2) /\ u8 (Z.shiftr v 24) = get_byte b (off + 3)).
  { rewrite !Z.shiftr_div_pow2 by lia. unfold u8, v.
    change (2 ^ 8) with 256 in *. change (2 ^ 16) with 65536. change (2 ^ 24) with 16777216.
    Z.div_mod_to_equations. lia. }
  destruct Hv as (V0 & V1 & V2 & V3).
  assert (j = off \/ j = off + 1 \/ j = off + 2 \/ j = off + 3) as [-> | [-> | [-> | ->]]] by lia.
  - by rewrite !(get_byte_put_byte_ne _ _ off) by lia; rewrite get_byte_put_byte_eq by lia.
  - rewrite !(get_byte_put_byte_ne _ _ (off + 1)) by lia. by rewrite get_byte_put_byte_eq by solve_range.
  - rewrite !(get_byte_put_byte_ne _ _ (off + 2)) by lia. by rewrite get_byte_put_byte_eq by solve_range.
  - by rewrite get_byte_put_byte_eq by solve_range.
Qed.

Lemma store_load_u64_split b b' off :
  store_u64 b' off (load_u64 b off) =
  store_u32 (store_u32 b' off (load_u32 b off)) (off + 4) (load_u32 b (off + 4)).
Proof.
  unfold store_u64. rewrite load_u64_add.
  pose proof (load_u32_range b off). pose proof (load_u32_range b (off + 4)). unfold is_u32 in *.
  rewrite Z.shiftr_div_pow2 by lia. unfold u32.
  rewrite Z.mod_add, Z.div_add, (Z.div_small (load_u32 b off)) by lia.
  rewrite Z.add_0_l. by rewrite !Z.mod_small by lia.
Qed.

(** Writing a field of [b] extends the range on which the buffers agree. *)
Lemma agree_store_u32 b b' lo off :
  agree b' b lo off -> 0 <= lo <= off -> off + 4 <= blen b' ->
  agree (store_u32 b' off (load_u32 b off)) b lo (off + 4).
Proof.
  intros Ha Hlo Hlen j Hj. destruct (decide (j < off)).
  - rewrite get_byte_store_u32_ne by lia. apply Ha. lia.
  - apply get_byte_store_load_u32; lia.
Qed.

Lemma agree_store_u64 b b' lo off :
  agree b' b lo off -> 0 <= lo <= off -> off + 8 <= blen b' ->
  agree (store_u64 b' off (load_u64 b off)) b lo (off + 8).
Proof.
  intros Ha Hlo Hlen. rewrite store_load_u64_split.
  replace (off + 8) with (off + 4 + 4) by lia.
  apply agree_store_u32; [apply agree_store_u32; [done | lia | lia] | lia | solve_range].
Qed.

Lemma agree_put_bytes b b' lo off src :
  agree b' b lo off -> 0 <= lo <= off -> off + blen src <= blen b' -> Forall is_u8 src ->
  get_bytes b off (blen src) = src -> agree (put_bytes b' off src) b lo (off + blen src).
Proof.
  intros Ha Hlo Hlen Hsrc Heq j Hj. destruct (decide (j < off)).
  - rewrite get_byte_put_bytes_ne by lia. apply Ha. lia.
  - rewrite get_byte_put_bytes_eq by lia.
    assert (Hl : get_bytes b off (blen src) !! Z.to_nat (j - off) = Some (get_byte b j)).
    { unfold get_bytes. rewrite list_lookup_fmap, lookup_seqZ_lt by lia. cbn. do 2 f_equal. lia. }
    rewrite Heq in Hl. rewrite (nth_lookup_Some _ _ _ _ Hl). apply u8_small, get_byte_u8.
Qed.

(** A zero word has zero bytes. *)
Lemma load_u32_zero_bytes_inv b off j :
  load_u32 b off = 0 -> off <= j < off + 4 -> get_byte b j = 0.
Proof.
  rewrite load_u32_add. intros Hz Hj.
  pose proof (get_byte_u8 b off). pose proof (get_byte_u8 b (off + 1)).
  pose proof (get_byte_u8 b (off + 2)). pose proof (get_byte_u8 b (off + 3)). unfold is_u8 in *.
  assert (j = off \/ j = off + 1 \/ j = off + 2 \/ j = off + 3) as [-> | [-> | [-> | ->]]] by lia; lia.
Qed.

Lemma load_u64_zero_bytes_inv b off j :
  load_u64 b off = 0 -> off <= j < off + 8 -> get_byte b j = 0.
Proof.
  rewrite load_u64_add. intros Hz Hj.
  pose proof (load_u32_range b off). pose proof (load_u32_range b (off + 4)). unfold is_u32 in *.
  destruct (decide (j < off + 4)).
  - apply (load_u32_zero_bytes_inv b off); lia.
  - apply (load_u32_zero_bytes_inv b (off + 4)); lia.
Qed.

(** The fields up to a reserved one, then zeros. *)
Lemma agree_extend b b' d m n :
  agree b' b d m -> d <= m -> (forall j, m <= j < n -> get_byte b' j = 0) ->
  (forall j, m <= j < n -> get_byte b j = 0) -> agree b' b d n.
Proof.
  intros Ha Hd Hz Hz' j Hj. destruct (decide (j < m)); [apply Ha; lia |].
  by rewrite Hz, Hz' by lia.
Qed.

Lemma agree_sym b b' lo hi : agree b b' lo hi -> agree b' b lo hi.
Proof. intros Ha j Hj. symmetry. by apply Ha. Qed.

Lemma agree_sub b b' lo hi lo' hi' : agree b b' lo hi -> lo <= lo' -> hi' <= hi -> agree b b' lo' hi'.
Proof. intros Ha ? ? j Hj. apply Ha. lia. Qed.

(** * Fields *)

Inductive field :=
  | U32 (off v : Z)
  | U64 (off v : Z)
  | Raw (off n : Z) (bytes : list Z).

Definition field_off (f : field) : Z :=
  match f with U32 o _ | U64 o _ | Raw o _ _ => o end.

Definition field_len (f : field) : Z :=
  match f with U32 _ _ => 4 | U64 _ _ => 8 | Raw _ n _ => n end.

(** The C statement that writes the field of the record at [d]. *)
Definition put_field (d : Z) (b : list Z) (f : field) : list Z :=
  match f with
  | U32 o v => store_u32 b (d + o) v
  | U64 o v => store_u64 b (d + o) v
  | Raw o _ l => put_bytes b (d + o) l
  end.

Fixpoint put_fields (b : list Z) (d : Z) (fs : list field) : list Z :=
  match fs with
  | [] => b
  | f :: fs => put_fields (put_field d b f) d fs
  end.

(** The value fits the width of the field. *)
Definition field_typed (f : field) : Prop :=
  match f with
  | U32 _ v => is_u32 v
  | U64 _ v => is_u64 v
  | Raw _ n l => blen l = n /\ Forall is_u8 l
  end.

(** Reading the field of the record at [d] gives its value. *)
Definition reads (b : list Z) (d : Z) (f : field) : Prop :=
  match f with
  | U32 o v => load_u32 b (d + o) = v
  | U64 o v => load_u64 b (d + o) = v
  | Raw o n l => get_bytes b (d + o) n = l
  end.

Definition inside (size : Z) (f : field) : bool :=
  (0 <=? field_off f) && (0 <=? field_len f) && (field_off f + field_len f <=? size).

Definition apart (f g : field) : bool :=
  (field_off f + field_len f <=? field_off g) || (field_off g + field_len g <=? field_off f).

(** The fields lie in a record of [size] bytes and do not overlap. *)
Fixpoint separate (size : Z) (fs : list field) : bool :=
  match fs with
  | [] => true
  | f :: fs => inside size f && forallb (apart f) fs && separate size fs
  end.

(** Every byte of the record belongs to a field. *)
Definition covered (size : Z) (fs : list field) : bool :=
  forallb (fun j => existsb (fun f => (field_off f <=? j) && (j <? field_off f + field_len f)) fs) (seqZ 0 size).

Lemma inside_spec size f :
  inside size f = true <-> 0 <= field_off f /\ 0 <= field_len f /\ field_off f + field_len f <= size.
Proof. unfold inside. lia. Qed.

Lemma apart_spec f g :
  apart f g = true <->
  field_off f + field_len f <= field_off g \/ field_off g + field_len g <= field_off f.
Proof. unfold apart. lia. Qed.

(** ** Writing *)

Lemma blen_put_field d b f : blen (put_field d b f) = blen b.
Proof. destruct f; cbn; autorewrite with blen; done. Qed.

Lemma blen_put_fields b d fs : blen (put_fields b d fs) = blen b.
Proof. revert b. induction fs as [|f fs IH]; intros b; [done |]. cbn. by rewrite IH, blen_put_field. Qed.

Lemma put_field_other d b f j :
  field_typed f -> 0 <= d -> 0 <= field_off f -> 0 <= j ->
  j < d + field_off f \/ d + field_off f + field_len f <= j -> get_byte (put_field d b f) j = get_byte b j.
Proof.
  destruct f as [o v | o v | o n l]; cbn; intros Ht Hd Ho Hj Hout.
  - apply get_byte_store_u32_ne; lia.
  - apply get_byte_store_u64_ne; lia.
  - destruct Ht as [<- _]. apply get_byte_put_bytes_ne; lia.
Qed.

Lemma put_field_reads d b f :
  field_typed f -> 0 <= d -> 0 <= field_off f -> d + field_off f + field_len f <= blen b ->
  reads (put_field d b f) d f.
Proof.
  destruct f as [o v | o v | o n l]; cbn; intros Ht Hd Ho Hlen.
  - rewrite load_store_u32_eq by lia. by apply u32_small.
  - rewrite load_store_u64_eq by lia. by apply u64_small.
  - destruct Ht as [<- Ht]. apply get_bytes_put_bytes_eq; [done | lia | lia].
Qed.

(** A field only depends on the bytes it covers. *)
Lemma reads_agree b b' d f :
  agree b b' (d + field_off f) (d + field_off f + field_len f) -> reads b d f -> reads b' d f.
Proof.
  destruct f as [o v | o v | o n l]; cbn; intros Ha <-; symmetry.
  - by apply (agree_load_u32 _ _ _ _ _ Ha).
  - by apply (agree_load_u64 _ _ _ _ _ Ha).
  - by apply (agree_get_bytes _ _ _ _ _ _ Ha).
Qed.

Lemma put_fields_other b d fs size j :
  Forall field_typed fs -> 0 <= d -> 0 <= j ->
  Forall (fun f => inside size f = true /\ (j < d + field_off f \/ d + field_off f + field_len f <= j)) fs ->
  get_byte (put_fields b d fs) j = get_byte b j.
Proof.
  intros Ht Hd Hj Hout. revert b. induction fs as [|f fs IH]; intros b; [done |].
  apply Forall_cons in Ht as [Htf Ht]. apply Forall_cons in Hout as [[Hin%inside_spec Hf] Hout].
  cbn. rewrite IH by done. apply put_field_other; [done | done | lia | done | done].
Qed.

Lemma separate_inside size fs : separate size fs = true -> Forall (fun f => inside size f = true) fs.
Proof.
  induction fs as [|f fs IH]; cbn; [constructor |]. rewrite !andb_true_iff. intros [[Hf _] Hs].
  constructor; [done | by apply IH].
Qed.

Lemma put_fields_outside b d fs size j :
  Forall field_typed fs -> 0 <= d -> 0 <= j -> separate size fs = true -> j < d \/ d + size <= j ->
  get_byte (put_fields b d fs) j = get_byte b j.
Proof.
  intros Ht Hd Hj Hs Hout. apply (put_fields_other b d fs size j); [done | done | done |].
  apply separate_inside in Hs. eapply Forall_impl; [exact Hs |]. intros f Hf. split; [done |].
  apply inside_spec in Hf. lia.
Qed.

(** A field apart from those written keeps its value. *)
Lemma put_fields_keeps b d fs size f :
  Forall field_typed fs -> 0 <= d -> separate size fs = true -> 0 <= field_off f ->
  forallb (apart f) fs = true -> reads b d f -> reads (put_fields b d fs) d f.
Proof.
  intros Ht Hd Hs Hf Ha Hr. eapply reads_agree; [| exact Hr]. intros j Hj. symmetry.
  apply (put_fields_other b d fs size j); [done | done | lia |].
  apply separate_inside in Hs. rewrite forallb_forall in Ha. apply Forall_forall. intros g Hg. split.
  - by eapply Forall_forall in Hs.
  - specialize (Ha g ltac:(by apply list_elem_of_In)). apply apart_spec in Ha. lia.
Qed.

(** Every field written is read back. *)
Lemma put_fields_reads b d fs size :
  Forall field_typed fs -> 0 <= d -> d + size <= blen b -> separate size fs = true ->
  Forall (reads (put_fields b d fs) d) fs.
Proof.
  intros Ht Hd Hlen Hs. revert b Hlen. induction fs as [|f fs IH]; intros b Hlen; [constructor |].
  apply Forall_cons in Ht as [Htf Ht]. cbn in Hs. rewrite !andb_true_iff in Hs. destruct Hs as [[Hf Ha] Hs].
  pose proof Hf as Hf'. apply inside_spec in Hf'. constructor.
  - cbn. apply (put_fields_keeps _ d fs size f); [done | done | done | lia | done |].
    apply put_field_reads; [done | done | lia | lia].
  - cbn. apply IH; [done | done |]. by rewrite blen_put_field.
Qed.

(** A zeroed field. *)
Definition zeroed (f : field) : Prop :=
  match f with
  | U32 _ v | U64 _ v => v = 0
  | Raw _ n l => l = replicate (Z.to_nat n) 0
  end.

Lemma zero_bytes_reads b d size f :
  zeroed f -> inside size f = true -> 0 <= d -> d + size <= blen b -> reads (zero_bytes b d size) d f.
Proof.
  intros Hz Hin%inside_spec Hd Hlen. destruct f as [o v | o v | o n l]; cbn in *; subst.
  - by rewrite load_u32_zero_bytes by lia.
  - by rewrite load_u64_zero_bytes by lia.
  - apply list_eq. intros i. unfold get_bytes. rewrite list_lookup_fmap.
    destruct (decide (i < Z.to_nat n)%nat) as [Hi | Hi].
    + rewrite lookup_seqZ_lt by lia. rewrite lookup_replicate_2 by done. cbn.
      by rewrite get_byte_zero_bytes by lia.
    + rewrite !lookup_ge_None_2; [done | by rewrite length_replicate; lia | by rewrite length_seqZ; lia].
Qed.

(** The record a zeroing encoder leaves: the fields it wrote and the reserved ones. *)
Lemma record_reads b d size written reserved :
  Forall field_typed written -> Forall zeroed reserved -> 0 <= d -> 0 <= size -> d + size <= blen b ->
  separate size written = true ->
  forallb (fun f => inside size f && forallb (apart f) written) reserved = true ->
  Forall (reads (put_fields (zero_bytes b d size) d written) d) (written ++ reserved).
Proof.
  intros Ht Hz Hd Hsz Hlen Hs Hr. apply Forall_app. split.
  - apply (put_fields_reads _ _ _ size); [done | done | by rewrite blen_zero_bytes | done].
  - apply Forall_forall. intros f Hf. rewrite forallb_forall in Hr.
    specialize (Hr f ltac:(by apply list_elem_of_In)). apply andb_true_iff in Hr as [Hin Ha].
    pose proof Hin as Hin'. apply inside_spec in Hin'.
    apply (put_fields_keeps _ d written size f); [done | done | done | lia | done |].
    apply zero_bytes_reads; [by eapply Forall_forall in Hz | done | done | done].
Qed.

(** ** Reading *)

Lemma load_u32_inj b b' o :
  load_u32 b o = load_u32 b' o -> agree b b' o (o + 4).
Proof.
  rewrite !load_u32_add. intros E.
  pose proof (get_byte_u8 b o). pose proof (get_byte_u8 b (o + 1)). pose proof (get_byte_u8 b (o + 2)).
  pose proof (get_byte_u8 b (o + 3)). pose proof (get_byte_u8 b' o). pose proof (get_byte_u8 b' (o + 1)).
  pose proof (get_byte_u8 b' (o + 2)). pose proof (get_byte_u8 b' (o + 3)). unfold is_u8 in *.
  intros j Hj. assert (j = o \/ j = o + 1 \/ j = o + 2 \/ j = o + 3) as [-> | [-> | [-> | ->]]] by lia; lia.
Qed.

Lemma load_u64_inj b b' o :
  load_u64 b o = load_u64 b' o -> agree b b' o (o + 8).
Proof.
  rewrite !load_u64_add. intros E.
  pose proof (load_u32_range b o). pose proof (load_u32_range b (o + 4)).
  pose proof (load_u32_range b' o). pose proof (load_u32_range b' (o + 4)). unfold is_u32 in *.
  intros j Hj. destruct (decide (j < o + 4)).
  - apply (load_u32_inj b b' o); lia.
  - apply (load_u32_inj b b' (o + 4)); lia.
Qed.

Lemma get_bytes_inj b b' o n : get_bytes b o n = get_bytes b' o n -> agree b b' o (o + n).
Proof.
  intros E j Hj. assert (Hl : forall c, get_bytes c o n !! Z.to_nat (j - o) = Some (get_byte c j)).
  { intros c. unfold get_bytes. rewrite list_lookup_fmap, lookup_seqZ_lt by lia. cbn. do 2 f_equal. lia. }
  pose proof (Hl b) as H1. rewrite E, Hl in H1. by simplify_eq.
Qed.

(** Two buffers in which a field has the same value agree on its bytes. *)
Lemma reads_inj b b' d f :
  reads b d f -> reads b' d f -> agree b b' (d + field_off f) (d + field_off f + field_len f).
Proof.
  destruct f as [o v | o v | o n l]; cbn; intros <- E; symmetry in E.
  - by apply load_u32_inj.
  - by apply load_u64_inj.
  - by apply get_bytes_inj.
Qed.

(** A record is determined by the fields that cover it. *)
Lemma covered_agree b b' d fs size :
  covered size fs = true -> Forall (reads b d) fs -> Forall (reads b' d) fs -> agree b b' d (d + size).
Proof.
  intros Hc Hb Hb' j Hj. unfold covered in Hc. rewrite forallb_forall in Hc.
  specialize (Hc (j - d)). rewrite existsb_exists in Hc.
  destruct Hc as (f & Hf & Hin); [apply list_elem_of_In, elem_of_seqZ; lia |].
  apply list_elem_of_In in Hf. rewrite Forall_forall in Hb, Hb'.
  apply (reads_inj b b' d f); [by apply Hb | by apply Hb' | lia].
Qed.

Lemma fields_agree b b' d fs size :
  forallb (inside size) fs = true -> agree b b' d (d + size) -> Forall (reads b d) fs -> Forall (reads b' d) fs.
Proof.
  intros Hin Ha Hb. apply Forall_forall. intros f Hf. rewrite Forall_forall in Hb.
  rewrite forallb_forall in Hin. specialize (Hin f ltac:(by apply list_elem_of_In)).
  apply inside_spec in Hin. eapply reads_agree; [| by apply Hb]. intros j Hj. apply Ha. lia.
Qed.

(** ** Records with a tail of variable size *)

Lemma covered_spec size fs :
  covered size fs = true <->
  forall j, 0 <= j < size -> exists f, f ∈ fs /\ field_off f <= j < field_off f + field_len f.
Proof.
  unfold covered. rewrite forallb_forall. split.
  - intros Hc j Hj. specialize (Hc j). rewrite existsb_exists in Hc.
    destruct Hc as (f & Hf & Hin); [apply list_elem_of_In, elem_of_seqZ; lia |].
    exists f. rewrite list_elem_of_In. split; [done | lia].
  - intros Hc j Hj%list_elem_of_In%elem_of_seqZ. apply existsb_exists.
    destruct (Hc j ltac:(lia)) as (f & Hf & Hin). exists f. rewrite <- list_elem_of_In. split; [done | lia].
Qed.

Lemma covered_extend size fs rest n l :
  covered size (fs ++ rest) = true -> covered (size + n) ((fs ++ [Raw size n l]) ++ rest) = true.
Proof.
  rewrite !covered_spec. intros Hc j Hj. destruct (decide (j < size)) as [Hlt | Hge].
  - destruct (Hc j ltac:(lia)) as (f & Hf & ?). exists f. split; [| done].
    rewrite !elem_of_app in *. tauto.
  - exists (Raw size n l). split; [| cbn; lia]. rewrite !elem_of_app, list_elem_of_singleton. tauto.
Qed.

Lemma inside_extend size n f : 0 <= n -> inside size f = true -> inside (size + n) f = true.
Proof. rewrite !inside_spec. lia. Qed.

Lemma inside_apart size f n l : inside size f = true -> apart f (Raw size n l) = true.
Proof. rewrite inside_spec, apart_spec. cbn. lia. Qed.

Lemma separate_extend size fs n l :
  0 <= size -> 0 <= n -> separate size fs = true -> separate (size + n) (fs ++ [Raw size n l]) = true.
Proof.
  intros Hs Hn. induction fs as [|f fs IH]; cbn [separate app].
  { intros _. rewrite andb_true_r. cbn [forallb]. rewrite andb_true_r. apply inside_spec. cbn. lia. }
  rewrite !andb_true_iff, forallb_app, andb_true_iff. intros [[Hi Ha] Hsep]. split_and!; try done.
  - by apply inside_extend.
  - cbn. by rewrite inside_apart.
  - by apply IH.
Qed.

Lemma apart_extend size fs rest n l :
  0 <= n -> forallb (fun f => inside size f && forallb (apart f) fs) rest = true ->
  forallb (fun f => inside (size + n) f && forallb (apart f) (fs ++ [Raw size n l])) rest = true.
Proof.
  intros Hn. rewrite !forallb_forall. intros Hr f Hf. specialize (Hr f Hf).
  rewrite !andb_true_iff, forallb_app, andb_true_iff in *. destruct Hr as [Hi Ha].
  split; [by apply inside_extend |]. split; [done |]. cbn. by rewrite inside_apart.
Qed.

(** * Wire formats

    What an encoder and a decoder of one message promise their users: the encoder
    accepts exactly the valid values that fit, leaves the buffer alone when it
    refuses and touches no byte past the message; what it wrote decodes to the same
    value; and the decoder accepts nothing but what the encoder writes, byte for
    byte, and looks at no other byte.  [room n x] says which buffer sizes the encoder
    accepts for [x], [fits n x] which message sizes the decoder accepts. *)
Class WireFormat {T : Type} (encode : list Z -> Z -> T -> bool * list Z) (decode : list Z -> Z -> option T)
    (typed valid : T -> Prop) (room fits : Z -> T -> Prop) (wire_size : T -> Z) : Prop := {
  wire_room : forall n x, typed x -> room n x -> wire_size x <= n;
  wire_encodes : forall b n x, typed x -> (encode b n x).1 = true <-> room n x /\ valid x;
  wire_refuses : forall b n x, (encode b n x).1 = false -> (encode b n x).2 = b;
  wire_touches : forall b n x j, typed x -> wire_size x <= j ->
    blen (encode b n x).2 = blen b /\ get_byte (encode b n x).2 j = get_byte b j;
  wire_image : forall b c n m b' c' x, typed x -> n <= blen b -> m <= blen c ->
    encode b n x = (true, b') -> encode c m x = (true, c') -> agree b' c' 0 (wire_size x);
  wire_roundtrip : forall b b' n m x, typed x -> n <= blen b -> encode b n x = (true, b') -> fits m x ->
    decode b' m = Some x;
  wire_exact : forall b n x, n <= blen b -> decode b n = Some x ->
    typed x /\ fits n x /\ exists b', encode b n x = (true, b') /\ agree b' b 0 (wire_size x);
  wire_local : forall b b' n, agree b b' 0 n -> decode b n = decode b' n;
}.

(** No two buffers that differ inside the message decode to the same value. *)
Lemma wire_injective `{WireFormat T encode decode typed valid room fits wire_size} b b' n m x :
  n <= blen b -> m <= blen b' -> decode b n = Some x -> decode b' m = Some x ->
  agree b b' 0 (wire_size x).
Proof.
  intros Hn Hm (Ht & _ & c & Ec & Ac)%wire_exact (_ & _ & c' & Ec' & Ac')%wire_exact; [| done ..].
  pose proof (wire_image b b' n m c c' x Ht Hn Hm Ec Ec') as Ai. intros j Hj.
  by rewrite <- (Ac j Hj), <- (Ac' j Hj), (Ai j Hj).
Qed.

(** ** Records

    A message is a zeroed record, of a size that may depend on the value, into which
    the encoder stores the fields [written x]; [reserved x] are the fields left zero.
    The decoder accepts a buffer exactly when it reads those fields. *)
Section Record.
Context {T : Type} (record_size : T -> Z) (written reserved : T -> list field)
  (typed valid : T -> Prop) (room fits : Z -> T -> Prop)
  (encode : list Z -> Z -> T -> bool * list Z) (decode : list Z -> Z -> option T).
Context (size_nonneg : forall x, typed x -> 0 <= record_size x)
  (written_typed : forall x, typed x -> valid x -> Forall field_typed (written x))
  (reserved_zero : forall x, typed x -> Forall zeroed (reserved x))
  (written_separate : forall x, typed x -> separate (record_size x) (written x) = true)
  (reserved_apart : forall x, typed x ->
     forallb (fun f => inside (record_size x) f && forallb (apart f) (written x)) (reserved x) = true)
  (record_covered : forall x, typed x -> covered (record_size x) (written x ++ reserved x) = true)
  (encode_spec : forall b n x, typed x ->
     (room n x /\ valid x /\
        encode b n x = (true, put_fields (zero_bytes b 0 (record_size x)) 0 (written x))) \/
     (~ (room n x /\ valid x) /\ encode b n x = (false, b)))
  (encode_refuses : forall b n x, (encode b n x).1 = false -> (encode b n x).2 = b)
  (decode_reads : forall b n x, decode b n = Some x ->
     typed x /\ valid x /\ fits n x /\ Forall (reads b 0) (written x ++ reserved x))
  (reads_decode : forall b n x, typed x -> valid x -> fits n x ->
     Forall (reads b 0) (written x ++ reserved x) -> decode b n = Some x)
  (room_size : forall n x, typed x -> room n x -> record_size x <= n)
  (fits_room : forall n x, typed x -> fits n x -> room n x).

Lemma record_inside x : typed x -> forallb (inside (record_size x)) (written x ++ reserved x) = true.
Proof.
  intros Ht. apply forallb_forall. intros f Hf. apply list_elem_of_In, elem_of_app in Hf as [Hf | Hf].
  - by eapply Forall_forall in Hf; [| by apply separate_inside, written_separate].
  - pose proof (reserved_apart x Ht) as Hr. rewrite forallb_forall in Hr.
    apply list_elem_of_In, Hr, andb_true_iff in Hf. apply Hf.
Qed.

Lemma record_written b x :
  typed x -> valid x -> record_size x <= blen b ->
  Forall (reads (put_fields (zero_bytes b 0 (record_size x)) 0 (written x)) 0) (written x ++ reserved x).
Proof. intros. apply (record_reads b 0 (record_size x)); auto with lia. Qed.

Lemma record_encoded b n x b' :
  typed x -> n <= blen b -> encode b n x = (true, b') ->
  record_size x <= n /\ valid x /\ Forall (reads b' 0) (written x ++ reserved x).
Proof.
  intros Ht Hn E. destruct (encode_spec b n x Ht) as [(?%room_size & Hv & E') | [_ E']]; [| done | congruence].
  rewrite E' in E. injection E as <-. split_and!; [done | done |]. apply record_written; [done | done | lia].
Qed.

Lemma record_wire : WireFormat encode decode typed valid room fits record_size.
Proof.
  split.
  - apply room_size.
  - intros b n x Ht. destruct (encode_spec b n x Ht) as [(? & ? & ->) | [Hn ->]]; cbn; naive_solver.
  - apply encode_refuses.
  - intros b n x j Ht Hj. destruct (encode_spec b n x Ht) as [(Hsz%room_size & Hv & ->) | [_ ->]]; [cbn | done | done].
    rewrite blen_put_fields, blen_zero_bytes. split; [done |]. specialize (size_nonneg x Ht).
    rewrite (put_fields_outside _ 0 (written x) (record_size x) j) by (auto || lia).
    apply get_byte_zero_bytes_ne; lia.
  - intros b c n m b' c' x Ht Hn Hm Eb Ec.
    apply record_encoded in Eb as (_ & _ & Hb); [| done | done].
    apply record_encoded in Ec as (_ & _ & Hc); [| done | done].
    by apply (covered_agree b' c' 0 (written x ++ reserved x) (record_size x)); [apply record_covered | |].
  - intros b b' n m x Ht Hn E Hm. apply record_encoded in E as (? & Hv & Hb); [| done | done].
    by apply reads_decode.
  - intros b n x Hn (Ht & Hv & Hf & Hr)%decode_reads. pose proof (room_size n x Ht (fits_room n x Ht Hf)) as Hsz.
    split_and!; [done | done |].
    destruct (encode_spec b n x Ht) as [(_ & _ & E) | [Hno _]]; [| by destruct Hno; auto].
    eexists. split; [exact E |].
    apply (covered_agree _ b 0 (written x ++ reserved x) (record_size x)); [by apply record_covered | | done].
    apply record_written; [done | done | lia].
  - intros b b' n Hag.
    assert (Hdet : forall c c' x, agree c c' 0 n -> decode c n = Some x -> decode c' n = Some x).
    { intros c c' x Hc (Ht & Hv & Hf & Hr)%decode_reads. pose proof (room_size n x Ht (fits_room n x Ht Hf)).
      apply reads_decode; [done | done | done |].
      eapply fields_agree; [by apply record_inside | | exact Hr]. intros j Hj. apply Hc. lia. }
    destruct (decode b n) as [x |] eqn:E; [symmetry; by apply (Hdet b) |].
    destruct (decode b' n) as [x |] eqn:E'; [| done].
    rewrite <- E. apply (Hdet b'); [by apply agree_sym | done].
Qed.
End Record.

(** A record of fixed size: [wf] is the decoder's test of the constant fields, [parse]
    reads the others, and [accept] is its test of the size. *)
Section FixedRecord.
Context {T : Type} (record_size : Z) (written : T -> list field) (reserved : list field)
  (wf : list Z -> bool) (parse : list Z -> T) (typed : T -> Prop) (valid : T -> bool) (accept : Z -> T -> bool).
Context (size_nonneg : 0 <= record_size)
  (written_typed : forall x, typed x -> Forall field_typed (written x))
  (reserved_zero : Forall zeroed reserved)
  (written_separate : forall x, separate record_size (written x) = true)
  (reserved_apart : forall x,
     forallb (fun f => inside record_size f && forallb (apart f) (written x)) reserved = true)
  (record_covered : forall x, covered record_size (written x ++ reserved) = true)
  (parse_typed : forall b, typed (parse b))
  (parse_reads : forall b, wf b = true -> Forall (reads b 0) (written (parse b) ++ reserved))
  (reads_parse : forall b x, typed x -> Forall (reads b 0) (written x ++ reserved) -> wf b = true /\ parse b = x).

Definition record_encode (b : list Z) (n : Z) (x : T) : bool * list Z :=
  if (record_size <=? n) && valid x
  then (true, put_fields (zero_bytes b 0 record_size) 0 (written x)) else (false, b).

Definition record_decode (b : list Z) (n : Z) : option T :=
  if (record_size <=? n) && wf b && (valid (parse b) && accept n (parse b)) then Some (parse b) else None.

Lemma fixed_record_wire :
  WireFormat record_encode record_decode typed (fun x => valid x = true) (fun n _ => record_size <= n)
    (fun n x => record_size <= n /\ accept n x = true) (fun _ => record_size).
Proof.
  apply (record_wire (fun _ => record_size) written (fun _ => reserved)); try done.
  - intros x Ht _. by apply written_typed.
  - intros b n x _. unfold record_encode. destruct (Z.leb_spec record_size n), (valid x); cbn;
      [left | right | right | right]; split_and?; try done; intros []; lia || done.
  - intros b n x. unfold record_encode. by case_match.
  - intros b n x. unfold record_decode.
    destruct (Z.leb_spec record_size n), (wf b) eqn:Hwf, (valid (parse b)) eqn:Hv,
      (accept n (parse b)) eqn:Ha; cbn; intros [= <-].
    split_and!; try done. by apply parse_reads.
  - intros b n x Ht Hv [Hn Ha] Hr. destruct (reads_parse b x Ht Hr) as [Hwf Hp]. unfold record_decode.
    by rewrite Hwf, Hp, Hv, Ha, (proj2 (Z.leb_le _ _)).
  - by intros n x _ [? _].
Qed.
End FixedRecord.

(** A format whose functions are extensionally those of a record. *)
Lemma wire_format_ext {T : Type} encode encode' decode decode' typed (valid valid' : T -> Prop) room fits fits' wire_size :
  (forall b n x, encode' b n x = encode b n x) -> (forall b n, decode' b n = decode b n) ->
  (forall x, typed x -> valid x <-> valid' x) -> (forall n x, fits n x <-> fits' n x) ->
  WireFormat encode decode typed valid room fits wire_size -> WireFormat encode' decode' typed valid' room fits' wire_size.
Proof.
  intros He Hd Hv Hf H. split; intros *; rewrite ?He, ?Hd.
  - apply wire_room.
  - intros Ht. rewrite <- Hv by done. by apply wire_encodes.
  - apply wire_refuses.
  - apply wire_touches.
  - apply wire_image.
  - rewrite <- Hf. apply wire_roundtrip.
  - intros Hn E. rewrite <- Hf. by apply wire_exact.
  - apply wire_local.
Qed.

(** ** C results

    An int-returning encoder's outcome: whether it returned 0, and the buffer; a
    decoder's: the value it wrote when it returned 0. *)
Definition encoder_result (b : list Z) (r : Z * option (list Z)) : bool * list Z := (r.1 =? 0, default b r.2).
Definition decoder_result {T : Type} (r : Z * option T) : option T := if r.1 =? 0 then r.2 else None.

(** A run of bytes tested one by one. *)
Lemma zero_run_reads b d o n :
  0 <= n -> forallb (fun i => get_byte b (d + o + i) =? 0) (seqZ 0 n) = true <-> reads b d (Raw o n (replicate (Z.to_nat n) 0)).
Proof.
  intros Hn. rewrite forallb_forall. cbn [reads]. split.
  - intros Hz. apply list_eq_same_length with (n := Z.to_nat n);
      [by rewrite length_replicate | unfold get_bytes; rewrite length_fmap, length_seqZ; lia |].
    intros i x y Hi Hx Hy. apply lookup_replicate in Hy as [-> _].
    unfold get_bytes in Hx. rewrite list_lookup_fmap, lookup_seqZ_lt in Hx by lia. injection Hx as <-.
    apply Z.eqb_eq, (Hz (0 + Z.of_nat i)), list_elem_of_In, elem_of_seqZ. lia.
  - intros E i Hi%list_elem_of_In%elem_of_seqZ. apply Z.eqb_eq.
    assert (Hl : get_bytes b (d + o) n !! Z.to_nat i = Some (get_byte b (d + o + i))).
    { unfold get_bytes. rewrite list_lookup_fmap, lookup_seqZ_lt by lia. cbn. do 2 f_equal. lia. }
    rewrite E in Hl. apply lookup_replicate in Hl. by destruct Hl as [-> _].
Qed.

Lemma bytes_equal_reads b o l :
  bytes_equal b o l = true <-> reads b 0 (Raw o (blen l) l).
Proof. unfold bytes_equal. cbn. by rewrite bool_decide_eq_true. Qed.

Lemma get_bytes_typed b o n : 0 <= n -> blen (get_bytes b o n) = n /\ Forall is_u8 (get_bytes b o n).
Proof.
  intros Hn. split; [by apply blen_get_bytes |]. unfold get_bytes. apply Forall_fmap, Forall_true.
  intros i. apply get_byte_u8.
Qed.

(** Proof steps of a record codec: the fields of a record are typed, and the parsed
    value has the fields read. *)
Ltac solve_typed :=
  repeat first [apply Forall_cons; split | apply Forall_nil];
  cbn; try first [assumption | apply load_u32_range | apply load_u64_range | done].

Ltac solve_reads :=
  repeat match goal with H : Forall _ (_ :: _) |- _ => apply Forall_cons in H as [? H] end;
  repeat match goal with H : Forall _ [] |- _ => clear H end;
  cbn [reads] in *; rewrite ?Z.add_0_l in *.

(** Offsets of the loads of [b] as literals, and their values from the hypotheses. *)
Ltac literal_offset b o :=
  let v := eval compute in o in
  lazymatch v with o => fail | _ => change (load_u32 b o) with (load_u32 b v) || change (load_u64 b o) with (load_u64 b v) end.

Ltac literal_offset_in b o H :=
  let v := eval compute in o in
  lazymatch v with
  | o => fail
  | _ => change (load_u32 b o) with (load_u32 b v) in H || change (load_u64 b o) with (load_u64 b v) in H
  end.

Ltac literal_offsets b :=
  repeat match goal with
  | |- context [load_u32 b ?o] => literal_offset b o
  | |- context [load_u64 b ?o] => literal_offset b o
  | H : context [load_u32 b ?o] |- _ => literal_offset_in b o H
  | H : context [load_u64 b ?o] |- _ => literal_offset_in b o H
  end.

Ltac rewrite_loads b :=
  repeat match goal with
  | H : load_u32 b ?o = _ |- context [load_u32 b ?o] => rewrite H
  | H : load_u64 b ?o = _ |- context [load_u64 b ?o] => rewrite H
  end.
