(* ===== verification/Tables.v ===== *)
(** Messages made of tables.

    [shift d f] moves a field by [d]; [table base size records] are the fields of
    records of [size] bytes laid one after another.  A list of written and reserved
    fields tiles a range when every byte of the range belongs to a field and no two
    fields share one; tilings compose, so the layout of a message with tables of any
    length follows from the layout of one record of each kind. *)

From Stdlib Require Import ZArith Lia.
From stdpp Require Import base numbers tactics sets list_numbers list.
From S2P Require Import Prelude Bytes Layout.

Open Scope Z_scope.

Definition shift (d : Z) (f : field) : field :=
  match f with
  | U32 o v => U32 (d + o) v
  | U64 o v => U64 (d + o) v
  | Raw o n l => Raw (d + o) n l
  end.

Fixpoint table (base size : Z) (records : list (list field)) : list field :=
  match records with
  | [] => []
  | r :: records => (shift base <$> r) ++ table (base + size) size records
  end.

Lemma shift_off d f : field_off (shift d f) = d + field_off f.
Proof. by destruct f. Qed.
Lemma shift_len d f : field_len (shift d f) = field_len f.
Proof. by destruct f. Qed.
Lemma shift_typed d f : field_typed (shift d f) <-> field_typed f.
Proof. by destruct f. Qed.
Lemma shift_zeroed d f : zeroed (shift d f) <-> zeroed f.
Proof. by destruct f. Qed.

Lemma shift_reads b d e f : reads b e (shift d f) <-> reads b (e + d) f.
Proof. destruct f; cbn; by rewrite Z.add_assoc. Qed.

Lemma put_fields_shift b d fs : put_fields b d fs = put_fields b 0 (shift d <$> fs).
Proof. revert b. induction fs as [|f fs IH]; intros b; [done |]. cbn. rewrite IH. by destruct f. Qed.

Lemma put_fields_app b d fs gs : put_fields b d (fs ++ gs) = put_fields (put_fields b d fs) d gs.
Proof. revert b. induction fs as [|f fs IH]; intros b; [done | apply IH]. Qed.

Lemma table_typed base size records : Forall (Forall field_typed) records -> Forall field_typed (table base size records).
Proof.
  intros H. revert base. induction H as [|r records Hr _ IH]; intros base; [constructor |]. cbn. apply Forall_app.
  split; [| apply IH]. apply Forall_fmap. eapply Forall_impl; [exact Hr |]. intros f. apply shift_typed.
Qed.

Lemma table_zeroed base size records : Forall (Forall zeroed) records -> Forall zeroed (table base size records).
Proof.
  intros H. revert base. induction H as [|r records Hr _ IH]; intros base; [constructor |]. cbn. apply Forall_app.
  split; [| apply IH]. apply Forall_fmap. eapply Forall_impl; [exact Hr |]. intros f. apply shift_zeroed.
Qed.

(** The records of a table are read at their places. *)
Lemma table_reads b base size records :
  Forall (reads b 0) (table base size records) <->
  forall i r, records !! i = Some r -> Forall (reads b (base + size * Z.of_nat i)) r.
Proof.
  assert (Hs : forall d r, Forall (reads b 0) (shift d <$> r) <-> Forall (reads b d) r).
  { intros d r. rewrite Forall_fmap. apply Forall_proper; [| done]. intros f. apply shift_reads. }
  revert base. induction records as [|r records IH]; intros base; cbn [table]; [split; [done | constructor] |].
  rewrite Forall_app, Hs, IH. split.
  - intros [Hr Hrs] [|i] r' E; cbn in E.
    + injection E as <-. by rewrite Z.mul_0_r, Z.add_0_r.
    + replace (base + size * Z.of_nat (S i)) with (base + size + size * Z.of_nat i) by lia. by apply Hrs.
  - intros H. split.
    + specialize (H 0%nat r eq_refl). by rewrite Z.mul_0_r, Z.add_0_r in H.
    + intros i r' E. replace (base + size + size * Z.of_nat i) with (base + size * Z.of_nat (S i)) by lia. by apply H.
Qed.

(** ** Tilings *)

Record tiled (lo hi : Z) (written reserved : list field) : Prop := {
  tile_order : lo <= hi;
  tile_in : forall f, f ∈ written ++ reserved -> lo <= field_off f /\ 0 <= field_len f /\ field_off f + field_len f <= hi;
  tile_written : ForallOrdPairs (fun f g => apart f g = true) written;
  tile_reserved : forall f g, f ∈ reserved -> g ∈ written -> apart f g = true;
  tile_cover : forall j, lo <= j < hi -> exists f, f ∈ written ++ reserved /\ field_off f <= j < field_off f + field_len f;
}.

Lemma separate_pairs size fs : separate size fs = true -> ForallOrdPairs (fun f g => apart f g = true) fs.
Proof.
  induction fs as [|f fs IH]; cbn; [constructor |]. rewrite !andb_true_iff. intros [[_ Ha] Hs].
  constructor; [| by apply IH]. apply Forall_forall. rewrite forallb_forall in Ha. intros g Hg.
  apply Ha. by apply list_elem_of_In.
Qed.

(** A record layout checked by evaluation is a tiling. *)
Lemma tiled_record size written reserved :
  0 <= size -> separate size written = true ->
  forallb (fun f => inside size f && forallb (apart f) written) reserved = true ->
  covered size (written ++ reserved) = true -> tiled 0 size written reserved.
Proof.
  intros Hsz Hs Hr Hc. rewrite forallb_forall in Hr.
  assert (Hres : forall f, f ∈ reserved -> inside size f = true /\ forallb (apart f) written = true).
  { intros f Hf. apply andb_true_iff, Hr, list_elem_of_In, Hf. }
  split; [done | | by eapply separate_pairs | |].
  - intros f [Hf | Hf]%elem_of_app; apply inside_spec.
    + by eapply Forall_forall in Hf; [| by apply separate_inside].
    + by apply Hres.
  - intros f g Hf Hg. destruct (Hres f Hf) as [_ Ha]. rewrite forallb_forall in Ha. apply Ha. by apply list_elem_of_In.
  - by apply covered_spec.
Qed.

Lemma tiled_shift lo hi d written reserved :
  tiled lo hi written reserved -> tiled (d + lo) (d + hi) (shift d <$> written) (shift d <$> reserved).
Proof.
  assert (Ha : forall f g, apart (shift d f) (shift d g) = apart f g).
  { intros f g. unfold apart. rewrite !shift_off, !shift_len. lia. }
  intros [Ho Hi Hw Hr Hc]. split; [lia | | | |].
  - intros f. rewrite <- fmap_app. intros (g & -> & Hg)%list_elem_of_fmap. rewrite shift_off, shift_len.
    specialize (Hi g Hg). lia.
  - clear -Hw Ha. induction Hw as [|f fs Hf _ IH]; [constructor |]. constructor; [| exact IH].
    apply Forall_fmap. eapply Forall_impl; [exact Hf |]. intros g. cbn. by rewrite Ha.
  - intros f g (f' & -> & Hf)%list_elem_of_fmap (g' & -> & Hg)%list_elem_of_fmap. rewrite Ha. by apply Hr.
  - intros j Hj. destruct (Hc (j - d) ltac:(lia)) as (f & Hf & ?). exists (shift d f).
    rewrite <- fmap_app, shift_off, shift_len. split; [by apply list_elem_of_fmap_2 | lia].
Qed.

Lemma pairs_app {A} (R : A -> A -> Prop) l k :
  ForallOrdPairs R l -> ForallOrdPairs R k -> (forall x y, x ∈ l -> y ∈ k -> R x y) -> ForallOrdPairs R (l ++ k).
Proof.
  intros Hl Hk H. induction Hl as [|x l Hx _ IH]; [done |]. cbn. constructor.
  - apply Forall_app. split; [done |]. apply Forall_forall. intros y Hy. apply H; [by left | done].
  - apply IH. intros y z Hy Hz. apply H; [by right | done].
Qed.

Lemma tiled_app lo mid hi ws rs ws' rs' :
  tiled lo mid ws rs -> tiled mid hi ws' rs' -> tiled lo hi (ws ++ ws') (rs ++ rs').
Proof.
  intros [Ho Hi Hw Hr Hc] [Ho' Hi' Hw' Hr' Hc'].
  assert (Hap : forall f g, f ∈ ws ++ rs -> g ∈ ws' ++ rs' -> apart f g = true /\ apart g f = true).
  { intros f g Hf Hg. specialize (Hi f Hf). specialize (Hi' g Hg). rewrite !apart_spec. lia. }
  assert (Hel : forall f, f ∈ (ws ++ ws') ++ rs ++ rs' <-> f ∈ ws ++ rs \/ f ∈ ws' ++ rs').
  { intros f. rewrite !elem_of_app. tauto. }
  split; [lia | | | |].
  - intros f [Hf | Hf]%Hel; [specialize (Hi f Hf) | specialize (Hi' f Hf)]; lia.
  - apply pairs_app; [done | done |]. intros f g Hf Hg. apply (Hap f g); rewrite elem_of_app; by left.
  - intros f g [Hf | Hf]%elem_of_app [Hg | Hg]%elem_of_app; [by apply Hr | | | by apply Hr'].
    + apply (Hap f g); rewrite elem_of_app; [by right | by left].
    + apply (Hap g f); rewrite elem_of_app; [by left | by right].
  - intros j Hj. destruct (decide (j < mid)) as [Hlt | Hge].
    + destruct (Hc j ltac:(lia)) as (f & Hf & ?). exists f. split; [apply Hel; by left | done].
    + destruct (Hc' j ltac:(lia)) as (f & Hf & ?). exists f. split; [apply Hel; by right | done].
Qed.

Lemma tiled_nil lo : tiled lo lo [] [].
Proof. split; [lia | | constructor | |]; [| |intros; lia]; cbn; set_solver. Qed.

Lemma tiled_raw lo n l : 0 <= n -> tiled lo (lo + n) [Raw lo n l] [].
Proof.
  intros Hn. split; [lia | | | |].
  - intros f [-> | H]%elem_of_cons; [cbn; lia |]. by apply elem_of_nil in H.
  - repeat constructor.
  - by intros f g ?%elem_of_nil.
  - intros j Hj. exists (Raw lo n l). split; [left | cbn; lia].
Qed.

Lemma tiled_table base size ws rs :
  0 <= size -> Forall2 (fun w r => tiled 0 size w r) ws rs ->
  tiled base (base + size * Z.of_nat (length ws)) (table base size ws) (table base size rs).
Proof.
  intros Hs H. revert base. induction H as [|w r ws rs Hwr _ IH]; intros base; cbn [table length].
  { rewrite Z.mul_0_r, Z.add_0_r. apply tiled_nil. }
  apply (tiled_app base (base + size)).
  - replace base with (base + 0) at 1 by lia. by apply tiled_shift.
  - replace (base + size * Z.of_nat (S (length ws))) with (base + size + size * Z.of_nat (length ws)) by lia. apply IH.
Qed.

(** A table of one record per element. *)
Lemma tiled_rows {T} (w r : T -> list field) base size (l : list T) :
  0 <= size -> (forall v, tiled 0 size (w v) (r v)) ->
  tiled base (base + size * Z.of_nat (length l)) (table base size (w <$> l)) (table base size (r <$> l)).
Proof.
  intros Hs Hv. rewrite <- (length_fmap w l). apply tiled_table; [done |].
  apply Forall2_fmap, Forall_Forall2_diag, Forall_true. intros v. apply Hv.
Qed.

(** What a zeroing encoder needs of its layout. *)
Lemma tiled_separate size written reserved : tiled 0 size written reserved -> separate size written = true.
Proof.
  intros [_ Hi Hw _ _]. assert (Hin : forall f, f ∈ written -> inside size f = true).
  { intros f Hf. apply inside_spec. specialize (Hi f). rewrite elem_of_app in Hi. specialize (Hi (or_introl Hf)). lia. }
  clear Hi. induction Hw as [|f fs Hf _ IH]; [done |]. cbn. rewrite !andb_true_iff. split_and!.
  - apply Hin. by left.
  - apply forallb_forall. intros g Hg%list_elem_of_In. by eapply Forall_forall in Hf.
  - apply IH. intros g Hg. apply Hin. by right.
Qed.

Lemma tiled_apart size written reserved :
  tiled 0 size written reserved -> forallb (fun f => inside size f && forallb (apart f) written) reserved = true.
Proof.
  intros [_ Hi _ Hr _]. apply forallb_forall. intros f Hf%list_elem_of_In. apply andb_true_iff. split.
  - apply inside_spec. specialize (Hi f). rewrite elem_of_app in Hi. specialize (Hi (or_intror Hf)). lia.
  - apply forallb_forall. intros g Hg%list_elem_of_In. by apply Hr.
Qed.

Lemma tiled_covered size written reserved : tiled 0 size written reserved -> covered size (written ++ reserved) = true.
Proof. intros [_ _ _ _ Hc]. by apply covered_spec. Qed.

(** ** The order of writing

    Fields that lie apart may be written in any order. *)

Lemma apart_sym f g : apart f g = apart g f.
Proof. unfold apart. apply orb_comm. Qed.

Lemma pairs_perm {A} (R : A -> A -> Prop) l k :
  (forall x y, R x y -> R y x) -> l ≡ₚ k -> ForallOrdPairs R l -> ForallOrdPairs R k.
Proof.
  intros Hs Hp. induction Hp as [| x l k Hp IH | x y l | l k k' _ IH _ IH']; [done | | | by auto].
  - intros Hl. inversion Hl as [| ? ? Hx Hr]; subst. constructor; [by rewrite <- Hp | by apply IH].
  - intros Hl. inversion Hl as [| ? ? Hx Hr]; subst. inversion Hr as [| ? ? Hy Hr']; subst.
    apply Forall_cons in Hx as [Hxy Hx]. constructor; [apply Forall_cons; split; [by apply Hs | done] | by constructor].
Qed.

Lemma tiled_perm lo hi w w' r : w ≡ₚ w' -> tiled lo hi w r -> tiled lo hi w' r.
Proof.
  intros Hp [Ho Hi Hw Hr Hc].
  assert (Hel : forall f, f ∈ w' ++ r <-> f ∈ w ++ r) by (intros f; by rewrite !elem_of_app, Hp).
  split; [done | | | |].
  - intros f Hf%Hel. by apply Hi.
  - eapply pairs_perm; [| exact Hp | exact Hw]. intros f g H. by rewrite apart_sym.
  - intros f g Hf Hg. apply Hr; [done | by rewrite Hp].
  - intros j Hj. destruct (Hc j Hj) as (f & Hf & ?). exists f. by rewrite Hel.
Qed.
