(* ===== verification/Sorted.v ===== *)
(** Tables sorted by a key, and the binary searches of them. *)

From Stdlib Require Import ZArith Lia.
From stdpp Require Import base numbers tactics sets list_numbers list.
From S2P Require Import Prelude.

Open Scope Z_scope.

Fixpoint increasing (prior : Z) (l : list Z) : Prop :=
  match l with [] => True | x :: l => prior < x /\ increasing x l end.

Fixpoint nondecreasing (prior : Z) (l : list Z) : Prop :=
  match l with [] => True | x :: l => prior <= x /\ nondecreasing x l end.

Lemma increasing_above p l x : increasing p l -> x ∈ l -> p < x.
Proof.
  revert p. induction l as [|y l IH]; intros p; [by intros _ ?%elem_of_nil |]. intros [Hy Hl] [-> | Hx]%elem_of_cons; [done |].
  specialize (IH y Hl Hx). lia.
Qed.

Lemma nondecreasing_above p l x : nondecreasing p l -> x ∈ l -> p <= x.
Proof.
  revert p. induction l as [|y l IH]; intros p; [by intros _ ?%elem_of_nil |]. intros [Hy Hl] [-> | Hx]%elem_of_cons; [done |].
  specialize (IH y Hl Hx). lia.
Qed.

Lemma increasing_lookup p l i j x y :
  increasing p l -> (i < j)%nat -> l !! i = Some x -> l !! j = Some y -> x < y.
Proof.
  revert p i j. induction l as [|z l IH]; intros p i j; [done |]. intros [Hz Hl] Hij Hi Hj.
  destruct j as [|j]; [lia |]. destruct i as [|i]; cbn in *.
  - injection Hi as <-. by eapply increasing_above; [| eapply list_elem_of_lookup_2].
  - eapply (IH z i j); [done | lia | done | done].
Qed.

Lemma increasing_NoDup p l : increasing p l -> NoDup l.
Proof.
  revert p. induction l as [|x l IH]; intros p; [constructor |]. intros [Hx Hl]. constructor; [| by eapply IH].
  intros Hin. pose proof (increasing_above _ _ _ Hl Hin). lia.
Qed.

(** The binary search of a table sorted by its key. *)
Lemma bsearch_sorted keys k i :
  increasing 0 keys -> bsearch (length keys) (fun i => nth i keys 0) k 0 (length keys) = Some i <-> keys !! i = Some k.
Proof.
  intros Hi. rewrite bsearch_spec; [| | lia].
  - split.
    + intros [Hl <-]. destruct (lookup_lt_is_Some_2 keys i) as [x Hx]; [lia |]. by rewrite (nth_lookup_Some _ _ _ _ Hx).
    + intros Hk. rewrite (nth_lookup_Some _ _ _ _ Hk). apply lookup_lt_Some in Hk. split; [lia | done].
  - intros j m Hj Hm. destruct (lookup_lt_is_Some_2 keys j) as [x Hx]; [lia |].
    destruct (lookup_lt_is_Some_2 keys m) as [y Hy]; [lia |].
    rewrite (nth_lookup_Some _ _ _ _ Hx), (nth_lookup_Some _ _ _ _ Hy). by eapply (increasing_lookup 0 keys j m); [| lia | |].
Qed.

Lemma bsearch_present keys k :
  increasing 0 keys -> bsearch (length keys) (fun i => nth i keys 0) k 0 (length keys) = None <-> k ∉ keys.
Proof.
  intros Hi. rewrite eq_None_not_Some. split; intros Hn H; apply Hn.
  - apply list_elem_of_lookup in H as [i H]. exists i. by apply bsearch_sorted.
  - destruct H as [i H]. apply bsearch_sorted in H; [| done]. by eapply list_elem_of_lookup_2.
Qed.

(** * Scans

    A loop that checks every element against the ones before it, in the order of the
    list. *)
Section Scan.
Context {T : Type}.
Implicit Types (Q : list T -> T -> Prop) (l seen : list T).

Fixpoint each Q seen l : Prop :=
  match l with [] => True | x :: l => Q seen x /\ each Q (seen ++ [x]) l end.

Lemma each_iff (Typed : T -> Prop) Q Q' seen l :
  (forall seen x, Forall Typed seen -> Typed x -> Q seen x <-> Q' seen x) ->
  Forall Typed seen -> Forall Typed l -> each Q seen l <-> each Q' seen l.
Proof.
  intros HQ. revert seen. induction l as [|x l IH]; intros seen Hs; [done |]. intros [Hx Hl]%Forall_cons. cbn.
  rewrite HQ, IH by (done || by apply Forall_app_2, Forall_singleton). done.
Qed.

Lemma each_and Q Q' seen l : each (fun seen x => Q seen x /\ Q' seen x) seen l <-> each Q seen l /\ each Q' seen l.
Proof. revert seen. induction l as [|x l IH]; intros seen; cbn; [done | rewrite IH; tauto]. Qed.

Lemma each_forall (P : T -> Prop) seen l : each (fun _ => P) seen l <-> Forall P l.
Proof. revert seen. induction l as [|x l IH]; intros seen; cbn; [by rewrite Forall_nil | by rewrite IH, Forall_cons]. Qed.

(** Each key is above the one before it. *)
Lemma each_increasing (key : T -> Z) seen l :
  each (fun seen x => from_option key 0 (last seen) < key x) seen l <-> increasing (from_option key 0 (last seen)) (key <$> l).
Proof.
  revert seen. induction l as [|x l IH]; intros seen; [done |]. cbn [each fmap list_fmap increasing].
  by rewrite IH, last_snoc.
Qed.

(** Each element is related to all the earlier ones. *)
Lemma each_pairs (R : T -> T -> Prop) seen l :
  each (fun seen x => Forall (fun y => R y x) seen) seen l <->
  ForallOrdPairs R l /\ Forall (fun x => Forall (fun y => R y x) seen) l.
Proof.
  revert seen. induction l as [|x l IH]; intros seen; cbn [each]; [split; [by repeat constructor | done] |].
  rewrite IH, !Forall_cons. setoid_rewrite Forall_app. setoid_rewrite Forall_singleton. rewrite Forall_and. split.
  - intros (? & ? & ? & ?). split_and!; [by constructor | done | done].
  - intros (Hp & ? & ?). inversion_clear Hp. tauto.
Qed.
End Scan.

(** Pairwise distinct keys. *)
Lemma pairs_distinct {T} (key : T -> Z) (l : list T) :
  ForallOrdPairs (fun x y => key x <> key y) l <-> NoDup (key <$> l).
Proof.
  induction l as [|x l IH]; cbn; [split; constructor |]. rewrite NoDup_cons, <- IH. split.
  - intros Hp. inversion_clear Hp. split; [| done]. intros (y & E & Hy)%list_elem_of_fmap.
    rewrite Forall_forall in H. by apply (H y).
  - intros [Hx Hp]. constructor; [| done]. apply Forall_forall. intros y Hy E. apply Hx. rewrite E. by apply list_elem_of_fmap_2.
Qed.

(** The first element with a key, when the keys are distinct. *)
Lemma find_key {T} (key : T -> Z) (l : list T) k x :
  NoDup (key <$> l) -> List.find (fun y => key y =? k) l = Some x <-> x ∈ l /\ key x = k.
Proof.
  induction l as [|y l IH]; cbn; [by intros _; split; [| intros [?%elem_of_nil _]] |].
  intros [Hy Hn]%NoDup_cons. rewrite elem_of_cons. destruct (Z.eqb_spec (key y) k) as [E | E].
  - split; [intros [= <-]; tauto |]. intros [[-> | Hx] Ek]; [done |]. destruct Hy. rewrite E, <- Ek. by apply list_elem_of_fmap_2.
  - rewrite (IH Hn). split; [tauto |]. intros [[-> | ?] ?]; [done | done].
Qed.

Lemma find_key_None {T} (key : T -> Z) (l : list T) k :
  List.find (fun y => key y =? k) l = None <-> k ∉ (key <$> l).
Proof.
  induction l as [|y l IH]; cbn; [split; [by intros _ ?%elem_of_nil | done] |]. rewrite not_elem_of_cons.
  destruct (Z.eqb_spec (key y) k) as [E | E]; [split; [done | by intros []] | rewrite IH; naive_solver].
Qed.
