(* ===== verification/Host.v ===== *)
(** The host contract of the controller library.

    Status codes (include/kobox2/controller.h), the allocator callbacks every
    object of the library is created with, and the interface through which the
    controller uses closures (src/closure_internal.h).  The allocator belongs to
    the host: it is an abstract state [A] with the two callbacks and the ledger of
    blocks it has handed out, and [AllocatorLaws] is what C's contract for such a
    pair of callbacks says.  [budget] is an executable instance. *)

From Stdlib Require Import ZArith Lia.
From stdpp Require Import base numbers tactics gmap list.
From S2P Require Import Prelude.

Open Scope Z_scope.

Inductive kb2_status : Type :=
| KB2_STATUS_OK
| KB2_STATUS_INVALID_ARGUMENT
| KB2_STATUS_INVALID_STATE
| KB2_STATUS_INVALID_CONFIGURATION
| KB2_STATUS_ACTION_PENDING
| KB2_STATUS_STALE_GENERATION
| KB2_STATUS_STALE_ACTION
| KB2_STATUS_NO_MEMORY
| KB2_STATUS_RESOURCE_DENIED
| KB2_STATUS_RESOURCE_EXHAUSTED
| KB2_STATUS_HOST_FAILURE
| KB2_STATUS_COUNTER_EXHAUSTED.

#[export] Instance kb2_status_eq_dec : EqDecision kb2_status.
Proof. solve_decision. Defined.

(** The C value of a status, as the [(uint64_t)status] casts see it. *)
Definition kb2_status_code (s : kb2_status) : Z :=
  match s with
  | KB2_STATUS_OK => 0
  | KB2_STATUS_INVALID_ARGUMENT => 1
  | KB2_STATUS_INVALID_STATE => 2
  | KB2_STATUS_INVALID_CONFIGURATION => 3
  | KB2_STATUS_ACTION_PENDING => 4
  | KB2_STATUS_STALE_GENERATION => 5
  | KB2_STATUS_STALE_ACTION => 6
  | KB2_STATUS_NO_MEMORY => 7
  | KB2_STATUS_RESOURCE_DENIED => 8
  | KB2_STATUS_RESOURCE_EXHAUSTED => 9
  | KB2_STATUS_HOST_FAILURE => 10
  | KB2_STATUS_COUNTER_EXHAUSTED => 11
  end.

Definition KB2_DIGEST_SIZE : Z := 32.
Definition KB2_LAUNCH_RESET_REQUIRED : Z := 1.

(** kb2_digest_is_zero: the or of all bytes is zero. *)
Definition kb2_digest_is_zero (digest : list Z) : bool :=
  foldl (fun combined byte => u8 (Z.lor combined byte)) 0 digest =? 0.

(** * Allocator *)

(** [allocate a n] is the callback's result ([None] is NULL) and the allocator
    afterwards; [ledger a] maps each outstanding block to the size it was
    requested with. *)
Class Allocator (A : Type) := {
  allocate : A -> Z -> option Z * A;
  deallocate : A -> Z -> Z -> A;
  ledger : A -> gmap Z Z;
}.

Class AllocatorLaws (A : Type) `{Allocator A} := {
  allocate_some : forall a n p a',
    allocate a n = (Some p, a') -> ledger a !! p = None /\ ledger a' = <[p := n]> (ledger a);
  allocate_none : forall a n a',
    allocate a n = (None, a') -> ledger a' = ledger a;
  deallocate_live : forall a p n,
    ledger a !! p = Some n -> ledger (deallocate a p n) = delete p (ledger a);
}.

(** An allocator that hands out fresh addresses and fails once its budget of
    successful calls is spent. *)
Record budget := mkBudget { bg_next : Z; bg_left : nat; bg_live : gmap Z Z }.

Definition budget_fresh (b : budget) : Z :=
  Z.max (bg_next b) (1 + map_fold (fun p _ m => Z.max p m) 0 (bg_live b)).

#[export] Instance budget_allocator : Allocator budget := {
  allocate b n :=
    match bg_left b with
    | O => (None, b)
    | S k =>
        let p := budget_fresh b in
        (Some p, mkBudget (p + 1) k (<[p := n]> (bg_live b)))
    end;
  deallocate b p _ := mkBudget (bg_next b) (bg_left b) (delete p (bg_live b));
  ledger := bg_live;
}.

Lemma map_fold_max_le (m : gmap Z Z) p :
  is_Some (m !! p) -> p <= map_fold (fun p _ m => Z.max p m) 0 m.
Proof.
  revert p. induction m as [|i x m Hi Hfirst IH] using map_first_key_ind; intros p Hp.
  { rewrite lookup_empty in Hp. by destruct Hp. }
  rewrite map_fold_insert_first_key by done.
  destruct (decide (p = i)) as [-> | Hne]; [lia |].
  rewrite lookup_insert_ne in Hp by done. specialize (IH p Hp). lia.
Qed.

#[export] Instance budget_laws : AllocatorLaws budget.
Proof.
  split; cbn.
  - intros a n p a' Hal. destruct (bg_left a); simplify_eq/=. split; [| done].
    destruct (bg_live a !! budget_fresh a) eqn:E; [| done].
    assert (budget_fresh a <= map_fold (fun p _ m => Z.max p m) 0 (bg_live a))
      by (apply map_fold_max_le; eauto).
    unfold budget_fresh in *. lia.
  - intros a n a' Hal. by destruct (bg_left a); simplify_eq/=.
  - done.
Qed.

(** An allocator that never fails. *)
Record bump := mkBump { bp_live : gmap Z Z }.

Definition bump_fresh (b : bump) : Z :=
  1 + map_fold (fun p _ m => Z.max p m) 0 (bp_live b).

#[export] Instance bump_allocator : Allocator bump := {
  allocate b n := (Some (bump_fresh b), mkBump (<[bump_fresh b := n]> (bp_live b)));
  deallocate b p _ := mkBump (delete p (bp_live b));
  ledger := bp_live;
}.

#[export] Instance bump_laws : AllocatorLaws bump.
Proof.
  split; cbn; [| done | done].
  intros a n p a' Hal. simplify_eq/=. split; [| done].
  destruct (bp_live a !! bump_fresh a) eqn:E; [| done].
  assert (bump_fresh a <= map_fold (fun p _ m => Z.max p m) 0 (bp_live a))
    by (apply map_fold_max_le; eauto).
  unfold bump_fresh in *. lia.
Qed.

(** * Ownership of blocks *)

Section Ownership.
Context {A : Type} `{AllocatorLaws A}.

(** The allocator's outstanding blocks are the distinct blocks [bl], each with
    its size, and those of the rest of the program [L]. *)
Definition holds (a : A) (bl : list (Z * Z)) (L : gmap Z Z) : Prop :=
  NoDup (bl.*1) /\ (forall p, p ∈ bl.*1 -> L !! p = None) /\ ledger a = list_to_map bl ∪ L.

(** A block whose pointer may be NULL. *)
Definition opt_block (o : option Z) (n : Z) : list (Z * Z) :=
  match o with Some p => [(p, n)] | None => [] end.

Definition free_opt (a : A) (o : option Z) (n : Z) : A :=
  match o with Some p => deallocate a p n | None => a end.

Lemma holds_nil a L : holds a [] L <-> ledger a = L.
Proof.
  unfold holds. cbn. rewrite (left_id_L ∅ (∪)). split; [tauto |]. intros ->.
  split_and!; [constructor | | done]. intros p Hp. by apply elem_of_nil in Hp.
Qed.

#[export] Instance holds_perm a : Proper ((≡ₚ) ==> eq ==> iff) (holds a).
Proof.
  assert (Himp : forall bl bl' L, bl ≡ₚ bl' -> holds a bl L -> holds a bl' L).
  { intros bl bl' L Hp (Hnd & Hd & Hl). unfold holds. split_and!.
    - by rewrite <- Hp.
    - intros p Hin. apply Hd. by rewrite Hp.
    - rewrite Hl. f_equal. by apply list_to_map_proper. }
  intros bl bl' Hp L ? <-. split; apply Himp; [done | by symmetry].
Qed.

Lemma holds_allocate a n o a' bl L :
  allocate a n = (o, a') -> holds a bl L -> holds a' (opt_block o n ++ bl) L.
Proof.
  intros Ha (Hnd & Hd & Hl). destruct o as [p |].
  - apply allocate_some in Ha as [Hfresh Hl'].
    rewrite Hl in Hfresh. apply lookup_union_None in Hfresh as [Hf1 Hf2].
    unfold holds, opt_block. cbn. split_and!.
    + constructor; [| done]. by apply not_elem_of_list_to_map.
    + intros q [-> | Hq]%elem_of_cons; [done | by apply Hd].
    + by rewrite Hl', Hl, insert_union_l.
  - apply allocate_none in Ha. unfold holds. cbn. by rewrite Ha.
Qed.

Lemma holds_free a o n bl L : holds a (opt_block o n ++ bl) L -> holds (free_opt a o n) bl L.
Proof.
  destruct o as [p |]; [| done]. unfold holds. cbn. intros (Hnd & Hd & Hl).
  apply NoDup_cons in Hnd as [Hp Hnd]. split_and!; [done | |].
  - intros q Hq. apply Hd. by right.
  - rewrite (deallocate_live a p n).
    + rewrite Hl, delete_union, delete_insert_eq, delete_id, delete_id; [done | |].
      * apply Hd. by left.
      * by apply not_elem_of_list_to_map.
    + rewrite Hl. apply lookup_union_Some_l, lookup_insert_eq.
Qed.

Lemma holds_free_some a p n bl L : holds a ((p, n) :: bl) L -> holds (deallocate a p n) bl L.
Proof. apply (holds_free a (Some p)). Qed.
End Ownership.

(** * Closures, as the controller sees them *)

(** [closure_owned c] are the heap blocks a closure object owns. *)
Class ClosureIface (A C : Type) `{Allocator A} := {
  closure_clone : A -> C -> kb2_status * option C * A;
  closure_destroy : A -> option C -> A;
  closure_launch_flags : option C -> Z;
  closure_copy_manifest_digest : option C -> bool -> Z -> kb2_status * option (list Z);
  closure_owned : C -> list (Z * Z);
}.

Definition closure_owned_opt {A C} `{ClosureIface A C} (c : option C) : list (Z * Z) :=
  match c with Some c => closure_owned c | None => [] end.

(** What the closure component promises: cloning either produces a closure with
    the same launch flags, which owns exactly the blocks the allocator handed
    out, or fails and leaves no block behind; destroying gives all blocks back. *)
Class ClosureLaws (A C : Type) `{ClosureIface A C} := {
  clone_ok : forall a c c' a' bl L,
    closure_clone a c = (KB2_STATUS_OK, c', a') -> holds a bl L ->
    exists d, c' = Some d /\ closure_launch_flags (Some d) = closure_launch_flags (Some c) /\
      holds a' (closure_owned d ++ bl) L;
  clone_fail : forall a c s c' a' bl L,
    closure_clone a c = (s, c', a') -> s <> KB2_STATUS_OK -> holds a bl L ->
    c' = None /\ holds a' bl L;
  destroy_owned : forall a c bl L,
    holds a (closure_owned_opt c ++ bl) L -> holds (closure_destroy a c) bl L;
  launch_flags_known : forall c,
    closure_launch_flags c = 0 \/ closure_launch_flags c = KB2_LAUNCH_RESET_REQUIRED;
}.
