(* ===== verification/Libc.v ===== *)
(** The parts of the C library the closure code uses: strcmp, and qsort through
    what the standard promises of it.  The result of qsort is any ordered
    permutation of the array: the order of elements that compare equal is not
    specified, so theorems about sorted storage are stated for every qsort. *)

From Stdlib Require Import ZArith Lia.
From stdpp Require Import base numbers tactics sorting list.
From S2P Require Import Prelude.

Open Scope Z_scope.

(** * Comparison functions *)

(** A comparison function qsort may be called with: its sign is antisymmetric and
    "not greater" is transitive. *)
Class Comparator {T : Type} (cmp : T -> T -> Z) : Prop := {
  cmp_anti : forall x y, cmp x y <= 0 <-> 0 <= cmp y x;
  cmp_trans : forall x y z, cmp x y <= 0 -> cmp y z <= 0 -> cmp x z <= 0;
}.

Definition cmp_le {T} (cmp : T -> T -> Z) (x y : T) : Prop := cmp x y <= 0.

(** left < right ? -1 : left > right *)
Definition cmp_Z (x y : Z) : Z := if x <? y then -1 else if y <? x then 1 else 0.

(** strcmp on the bytes before the NUL. *)
Fixpoint strcmp (lhs rhs : list Z) : Z :=
  match lhs, rhs with
  | [], [] => 0
  | [], _ :: _ => -1
  | _ :: _, [] => 1
  | x :: lhs, y :: rhs => if x <? y then -1 else if y <? x then 1 else strcmp lhs rhs
  end.

(** Order by [f], then by [g]. *)
Definition cmp_lex {T} (f g : T -> T -> Z) (x y : T) : Z :=
  let order := f x y in if order =? 0 then g x y else order.

Definition cmp_on {S T} (key : S -> T) (cmp : T -> T -> Z) (x y : S) : Z := cmp (key x) (key y).

Lemma cmp_Z_le x y : cmp_Z x y <= 0 <-> x <= y.
Proof. unfold cmp_Z. repeat case_match; lia. Qed.

Lemma cmp_Z_0 x y : cmp_Z x y = 0 <-> x = y.
Proof. unfold cmp_Z. repeat case_match; lia. Qed.

#[export] Instance cmp_Z_comparator : Comparator cmp_Z.
Proof.
  split.
  - intros x y. unfold cmp_Z. repeat case_match; lia.
  - intros x y z. rewrite !cmp_Z_le. lia.
Qed.

Lemma strcmp_0 l r : strcmp l r = 0 <-> l = r.
Proof.
  revert r. induction l as [|x l IH]; intros [|y r]; cbn; try done.
  destruct (Z.ltb_spec x y); [split; [done | intros [= -> ->]; lia] |].
  destruct (Z.ltb_spec y x); [split; [done | intros [= -> ->]; lia] |].
  assert (x = y) as -> by lia. rewrite IH. split; [by intros -> | by intros [= ->]].
Qed.

#[export] Instance strcmp_comparator : Comparator strcmp.
Proof.
  split.
  - induction x as [|x l IH]; intros [|y r]; cbn; try lia.
    specialize (IH r). repeat case_match; lia.
  - induction x as [|x l IH]; intros [|y r] [|z t]; cbn; try lia.
    specialize (IH r t). repeat case_match; lia.
Qed.

#[export] Instance cmp_on_comparator {S T} (key : S -> T) cmp `{!Comparator cmp} :
  Comparator (cmp_on key cmp).
Proof. split; [intros x y; apply (cmp_anti (cmp := cmp)) | intros x y z; apply (cmp_trans (cmp := cmp))]. Qed.

Lemma cmp_neg {T} (cmp : T -> T -> Z) `{!Comparator cmp} x y : cmp x y < 0 <-> 0 < cmp y x.
Proof. pose proof (cmp_anti x y). pose proof (cmp_anti y x). lia. Qed.

#[export] Instance cmp_lex_comparator {T} (f g : T -> T -> Z) `{!Comparator f, !Comparator g} :
  Comparator (cmp_lex f g).
Proof.
  split; unfold cmp_lex.
  - intros x y. pose proof (cmp_anti (cmp := f) x y). pose proof (cmp_anti (cmp := f) y x).
    pose proof (cmp_anti (cmp := g) x y). repeat case_match; lia.
  - intros x y z. pose proof (cmp_trans (cmp := f) x y z) as H1.
    pose proof (cmp_trans (cmp := f) z x y) as H2. pose proof (cmp_trans (cmp := f) y z x) as H3.
    pose proof (cmp_trans (cmp := g) x y z).
    pose proof (cmp_anti (cmp := f) x y). pose proof (cmp_anti (cmp := f) y x).
    pose proof (cmp_anti (cmp := f) x z). pose proof (cmp_anti (cmp := f) z x).
    pose proof (cmp_anti (cmp := f) y z). pose proof (cmp_anti (cmp := f) z y).
    repeat case_match; lia.
Qed.

Lemma comparator_ext {T} (f g : T -> T -> Z) :
  (forall x y, f x y = g x y) -> Comparator g -> Comparator f.
Proof.
  intros Hfg [Ha Ht]. split; intros *; rewrite !Hfg; [apply Ha | apply Ht].
Qed.

(** * qsort *)

Class Qsort := qsort : forall T : Type, (T -> T -> Z) -> list T -> list T.

Class QsortLaws `{Qsort} : Prop := {
  qsort_perm : forall T (cmp : T -> T -> Z) l, Comparator cmp -> qsort T cmp l ≡ₚ l;
  qsort_sorted : forall T (cmp : T -> T -> Z) l,
    Comparator cmp -> StronglySorted (cmp_le cmp) (qsort T cmp l);
}.

(** An instance: merge sort. *)
#[export] Instance cmp_le_dec {T} (cmp : T -> T -> Z) : RelDecision (cmp_le cmp).
Proof. intros x y. unfold cmp_le. apply _. Defined.

#[export] Instance merge_qsort : Qsort := fun T cmp l => merge_sort (cmp_le cmp) l.

#[export] Instance merge_qsort_laws : QsortLaws.
Proof.
  split.
  - intros T cmp l _. apply merge_sort_Permutation.
  - intros T cmp l Hc. apply StronglySorted_merge_sort.
    + intros x y z. apply cmp_trans.
    + intros x y. unfold cmp_le. pose proof (cmp_anti (cmp := cmp) x y). lia.
Qed.

(** When distinct elements never compare equal, the sorted array does not depend
    on the order the elements were in, nor on the implementation of qsort. *)
Lemma qsort_unique (q1 q2 : Qsort) (L1 : @QsortLaws q1) (L2 : @QsortLaws q2)
    {T} (cmp : T -> T -> Z) `{!Comparator cmp} l1 l2 :
  l1 ≡ₚ l2 -> (forall x y, x ∈ l1 -> y ∈ l1 -> cmp x y = 0 -> x = y) ->
  @qsort q1 T cmp l1 = @qsort q2 T cmp l2.
Proof.
  intros Hp Hu. pose proof (@qsort_perm q1 L1 T cmp l1 _) as P1.
  pose proof (@qsort_perm q2 L2 T cmp l2 _) as P2.
  apply (StronglySorted_unique_strong (cmp_le cmp)).
  - intros x y Hx Hy Hxy Hyx. rewrite P1 in Hx. rewrite P2, <- Hp in Hy. apply Hu; [done .. |].
    unfold cmp_le in *. pose proof (cmp_anti (cmp := cmp) x y).
    pose proof (cmp_anti (cmp := cmp) y x). lia.
  - apply (@qsort_sorted q1 L1); apply _.
  - apply (@qsort_sorted q2 L2); apply _.
  - by rewrite P1, P2.
Qed.
