(* ===== verification/Controller.v ===== *)
(** The sandbox controller (src/controller/controller.c).

    A controller is a passive state machine: the host calls its API, reads the
    pending action, performs it and reports the completion.  [controller] is
    struct kb2_controller, every function of the file is a definition here, and the
    closure object and the allocator come through the interfaces of [Host].  A
    pointer argument is an [option]; a call on a NULL controller goes through
    [with_controller]. *)

From Stdlib Require Import ZArith Lia.
From stdpp Require Import base numbers list gmap relations tactics.
From S2P Require Import Prelude Host.

Open Scope Z_scope.

(** * Data *)

Inductive kb2_state : Type :=
| KB2_STATE_INVALID
| KB2_STATE_IDLE
| KB2_STATE_STARTING
| KB2_STATE_HANDSHAKING
| KB2_STATE_RUNNING
| KB2_STATE_STOPPING
| KB2_STATE_FAULTED.

Inductive kb2_action_type_t : Type :=
| KB2_ACTION_NONE
| KB2_ACTION_ALLOCATE_RESOURCES
| KB2_ACTION_LAUNCH_SANDBOX
| KB2_ACTION_TRANSFER_RESOURCES
| KB2_ACTION_QUIESCE_SANDBOX
| KB2_ACTION_TERMINATE_SANDBOX
| KB2_ACTION_REVOKE_RESOURCES
| KB2_ACTION_RESET_RESOURCES
| KB2_ACTION_REAP_SANDBOX
| KB2_ACTION_RELEASE_RESOURCES.

Inductive kb2_fault_kind : Type :=
| KB2_FAULT_NONE
| KB2_FAULT_PROCESS_EXIT
| KB2_FAULT_PROTOCOL
| KB2_FAULT_HOST_ACTION
| KB2_FAULT_CONTROLLER.

#[export] Instance kb2_state_eq_dec : EqDecision kb2_state.
Proof. solve_decision. Defined.
#[export] Instance kb2_action_type_eq_dec : EqDecision kb2_action_type_t.
Proof. solve_decision. Defined.
#[export] Instance kb2_fault_kind_eq_dec : EqDecision kb2_fault_kind.
Proof. solve_decision. Defined.

(** The C value of an action type, as [(uint64_t)completed] sees it. *)
Definition kb2_action_code (t : kb2_action_type_t) : Z :=
  match t with
  | KB2_ACTION_NONE => 0
  | KB2_ACTION_ALLOCATE_RESOURCES => 1
  | KB2_ACTION_LAUNCH_SANDBOX => 2
  | KB2_ACTION_TRANSFER_RESOURCES => 3
  | KB2_ACTION_QUIESCE_SANDBOX => 4
  | KB2_ACTION_TERMINATE_SANDBOX => 5
  | KB2_ACTION_REVOKE_RESOURCES => 6
  | KB2_ACTION_RESET_RESOURCES => 7
  | KB2_ACTION_REAP_SANDBOX => 8
  | KB2_ACTION_RELEASE_RESOURCES => 9
  end.

(** Digest and limit kinds reach the API as plain integers. *)
Definition KB2_DIGEST_MANIFEST : Z := 0.
Definition KB2_DIGEST_PROFILE : Z := 1.
Definition KB2_DIGEST_CAPABILITY_SET : Z := 2.
Definition KB2_DIGEST_CHANNEL_SET : Z := 3.
Definition KB2_LIMIT_SHARED_MEMORY_BYTES : Z := 0.
Definition KB2_LIMIT_CHANNEL_COUNT : Z := 1.
Definition KB2_LIMIT_QUEUE_COUNT : Z := 2.
Definition KB2_LIMIT_OUTSTANDING_REQUEST_COUNT : Z := 3.
Definition KB2_DIGEST_KIND_COUNT : Z := 4.
Definition KB2_LIMIT_KIND_COUNT : Z := 4.
Definition KB2_KNOWN_LAUNCH_FLAGS : Z := KB2_LAUNCH_RESET_REQUIRED.

(** sizeof(struct kb2_controller) under LP64. *)
Definition SIZEOF_CONTROLLER : Z := 496.

Section Data.
Context (C : Type).

Record kb2_configuration := mkConfiguration {
  cf_closure : option C;
  cf_digests : list (list Z);
  cf_limits : list Z;
  cf_digest_mask : Z;
  cf_flags : Z;
}.

Record kb2_action := mkAction {
  ac_type : kb2_action_type_t;
  ac_token : Z;
  ac_generation : Z;
  ac_resource_set_id : Z;
  ac_sandbox_id : Z;
  ac_configuration : kb2_configuration;
}.

(** [self] is the address of the object itself. *)
Record kb2_controller := mkController {
  self : Z;
  configuration : kb2_configuration;
  action : kb2_action;
  state : kb2_state;
  fault_kind : kb2_fault_kind;
  fault_code : Z;
  generation : Z;
  next_token : Z;
  resource_set_id : Z;
  sandbox_id : Z;
  action_pending : bool;
  resources_allocated : bool;
  resources_revoked : bool;
  resources_reset : bool;
  process_started : bool;
  process_exited : bool;
  restart_requested : bool;
  graceful_stop : bool;
}.
End Data.

Arguments mkConfiguration {C}.
Arguments cf_closure {C}.
Arguments cf_digests {C}.
Arguments cf_limits {C}.
Arguments cf_digest_mask {C}.
Arguments cf_flags {C}.
Arguments mkAction {C}.
Arguments ac_type {C}.
Arguments ac_token {C}.
Arguments ac_generation {C}.
Arguments ac_resource_set_id {C}.
Arguments ac_sandbox_id {C}.
Arguments ac_configuration {C}.
Arguments mkController {C}.
Arguments self {C}.
Arguments configuration {C}.
Arguments action {C}.
Arguments state {C}.
Arguments fault_kind {C}.
Arguments fault_code {C}.
Arguments generation {C}.
Arguments next_token {C}.
Arguments resource_set_id {C}.
Arguments sandbox_id {C}.
Arguments action_pending {C}.
Arguments resources_allocated {C}.
Arguments resources_revoked {C}.
Arguments resources_reset {C}.
Arguments process_started {C}.
Arguments process_exited {C}.
Arguments restart_requested {C}.
Arguments graceful_stop {C}.

(** Field assignment, [controller->field = value]. *)
Section Assign.
Context {C : Type} (c : kb2_controller C).

Definition set_configuration (v : kb2_configuration C) : kb2_controller C :=
  let '(mkController x0 _ x2 x3 x4 x5 x6 x7 x8 x9 x10 x11 x12 x13 x14 x15 x16 x17) := c in
  mkController x0 v x2 x3 x4 x5 x6 x7 x8 x9 x10 x11 x12 x13 x14 x15 x16 x17.
Definition set_action (v : kb2_action C) : kb2_controller C :=
  let '(mkController x0 x1 _ x3 x4 x5 x6 x7 x8 x9 x10 x11 x12 x13 x14 x15 x16 x17) := c in
  mkController x0 x1 v x3 x4 x5 x6 x7 x8 x9 x10 x11 x12 x13 x14 x15 x16 x17.
Definition set_state (v : kb2_state) : kb2_controller C :=
  let '(mkController x0 x1 x2 _ x4 x5 x6 x7 x8 x9 x10 x11 x12 x13 x14 x15 x16 x17) := c in
  mkController x0 x1 x2 v x4 x5 x6 x7 x8 x9 x10 x11 x12 x13 x14 x15 x16 x17.
Definition set_fault_kind (v : kb2_fault_kind) : kb2_controller C :=
  let '(mkController x0 x1 x2 x3 _ x5 x6 x7 x8 x9 x10 x11 x12 x13 x14 x15 x16 x17) := c in
  mkController x0 x1 x2 x3 v x5 x6 x7 x8 x9 x10 x11 x12 x13 x14 x15 x16 x17.
Definition set_fault_code (v : Z) : kb2_controller C :=
  let '(mkController x0 x1 x2 x3 x4 _ x6 x7 x8 x9 x10 x11 x12 x13 x14 x15 x16 x17) := c in
  mkController x0 x1 x2 x3 x4 v x6 x7 x8 x9 x10 x11 x12 x13 x14 x15 x16 x17.
Definition set_generation (v : Z) : kb2_controller C :=
  let '(mkController x0 x1 x2 x3 x4 x5 _ x7 x8 x9 x10 x11 x12 x13 x14 x15 x16 x17) := c in
  mkController x0 x1 x2 x3 x4 x5 v x7 x8 x9 x10 x11 x12 x13 x14 x15 x16 x17.
Definition set_next_token (v : Z) : kb2_controller C :=
  let '(mkController x0 x1 x2 x3 x4 x5 x6 _ x8 x9 x10 x11 x12 x13 x14 x15 x16 x17) := c in
  mkController x0 x1 x2 x3 x4 x5 x6 v x8 x9 x10 x11 x12 x13 x14 x15 x16 x17.
Definition set_resource_set_id (v : Z) : kb2_controller C :=
  let '(mkController x0 x1 x2 x3 x4 x5 x6 x7 _ x9 x10 x11 x12 x13 x14 x15 x16 x17) := c in
  mkController x0 x1 x2 x3 x4 x5 x6 x7 v x9 x10 x11 x12 x13 x14 x15 x16 x17.
Definition set_sandbox_id (v : Z) : kb2_controller C :=
  let '(mkController x0 x1 x2 x3 x4 x5 x6 x7 x8 _ x10 x11 x12 x13 x14 x15 x16 x17) := c in
  mkController x0 x1 x2 x3 x4 x5 x6 x7 x8 v x10 x11 x12 x13 x14 x15 x16 x17.
Definition set_action_pending (v : bool) : kb2_controller C :=
  let '(mkController x0 x1 x2 x3 x4 x5 x6 x7 x8 x9 _ x11 x12 x13 x14 x15 x16 x17) := c in
  mkController x0 x1 x2 x3 x4 x5 x6 x7 x8 x9 v x11 x12 x13 x14 x15 x16 x17.
Definition set_resources_allocated (v : bool) : kb2_controller C :=
  let '(mkController x0 x1 x2 x3 x4 x5 x6 x7 x8 x9 x10 _ x12 x13 x14 x15 x16 x17) := c in
  mkController x0 x1 x2 x3 x4 x5 x6 x7 x8 x9 x10 v x12 x13 x14 x15 x16 x17.
Definition set_resources_revoked (v : bool) : kb2_controller C :=
  let '(mkController x0 x1 x2 x3 x4 x5 x6 x7 x8 x9 x10 x11 _ x13 x14 x15 x16 x17) := c in
  mkController x0 x1 x2 x3 x4 x5 x6 x7 x8 x9 x10 x11 v x13 x14 x15 x16 x17.
Definition set_resources_reset (v : bool) : kb2_controller C :=
  let '(mkController x0 x1 x2 x3 x4 x5 x6 x7 x8 x9 x10 x11 x12 _ x14 x15 x16 x17) := c in
  mkController x0 x1 x2 x3 x4 x5 x6 x7 x8 x9 x10 x11 x12 v x14 x15 x16 x17.
Definition set_process_started (v : bool) : kb2_controller C :=
  let '(mkController x0 x1 x2 x3 x4 x5 x6 x7 x8 x9 x10 x11 x12 x13 _ x15 x16 x17) := c in
  mkController x0 x1 x2 x3 x4 x5 x6 x7 x8 x9 x10 x11 x12 x13 v x15 x16 x17.
Definition set_process_exited (v : bool) : kb2_controller C :=
  let '(mkController x0 x1 x2 x3 x4 x5 x6 x7 x8 x9 x10 x11 x12 x13 x14 _ x16 x17) := c in
  mkController x0 x1 x2 x3 x4 x5 x6 x7 x8 x9 x10 x11 x12 x13 x14 v x16 x17.
Definition set_restart_requested (v : bool) : kb2_controller C :=
  let '(mkController x0 x1 x2 x3 x4 x5 x6 x7 x8 x9 x10 x11 x12 x13 x14 x15 _ x17) := c in
  mkController x0 x1 x2 x3 x4 x5 x6 x7 x8 x9 x10 x11 x12 x13 x14 x15 v x17.
Definition set_graceful_stop (v : bool) : kb2_controller C :=
  let '(mkController x0 x1 x2 x3 x4 x5 x6 x7 x8 x9 x10 x11 x12 x13 x14 x15 x16 _) := c in
  mkController x0 x1 x2 x3 x4 x5 x6 x7 x8 x9 x10 x11 x12 x13 x14 x15 x16 v.
End Assign.

(** * Operations *)

Section Operations.
Context {A C : Type} `{ClosureIface A C}.
Implicit Types (c : kb2_controller C) (t : kb2_action_type_t) (s : kb2_status).

Definition kb2_digest_kind_valid (kind : Z) : bool :=
  (KB2_DIGEST_MANIFEST <=? kind) && (kind <=? KB2_DIGEST_CHANNEL_SET).

Definition kb2_limit_kind_valid (kind : Z) : bool :=
  (KB2_LIMIT_SHARED_MEMORY_BYTES <=? kind) && (kind <=? KB2_LIMIT_OUTSTANDING_REQUEST_COUNT).

Definition zero_digest : list Z := replicate (Z.to_nat KB2_DIGEST_SIZE) 0.
Definition zero_configuration : kb2_configuration C :=
  mkConfiguration None (replicate 4 zero_digest) (replicate 4 0) 0 0.
Definition zero_action : kb2_action C := mkAction KB2_ACTION_NONE 0 0 0 0 zero_configuration.

Definition kb2_clear_action c : kb2_controller C :=
  set_action_pending (set_action c zero_action) false.

(** The identifiers an action carries, by its type. *)
Definition emitted_resource_set_id c t : Z :=
  match t with
  | KB2_ACTION_LAUNCH_SANDBOX | KB2_ACTION_RESET_RESOURCES | KB2_ACTION_RELEASE_RESOURCES
  | KB2_ACTION_TRANSFER_RESOURCES | KB2_ACTION_QUIESCE_SANDBOX
  | KB2_ACTION_REVOKE_RESOURCES => resource_set_id c
  | _ => 0
  end.

Definition emitted_sandbox_id c t : Z :=
  match t with
  | KB2_ACTION_TRANSFER_RESOURCES | KB2_ACTION_QUIESCE_SANDBOX
  | KB2_ACTION_TERMINATE_SANDBOX | KB2_ACTION_REAP_SANDBOX => sandbox_id c
  | _ => 0
  end.

Definition kb2_emit_action c t : kb2_status * kb2_controller C :=
  if next_token c =? U64_MAX then
    let c := set_state c KB2_STATE_FAULTED in
    let c := set_fault_kind c KB2_FAULT_CONTROLLER in
    let c := set_fault_code c (kb2_status_code KB2_STATUS_COUNTER_EXHAUSTED) in
    (KB2_STATUS_COUNTER_EXHAUSTED, c)
  else
    let c := set_next_token c (u64 (next_token c + 1)) in
    let c := set_action c (mkAction t (next_token c) (generation c)
                             (emitted_resource_set_id c t) (emitted_sandbox_id c t)
                             (configuration c)) in
    (KB2_STATUS_OK, set_action_pending c true).

Definition required_digest_mask : Z :=
  (Z.shiftl 1 KB2_DIGEST_KIND_COUNT - 1) &~ Z.shiftl 1 KB2_DIGEST_MANIFEST.

Definition kb2_validate_configuration c : kb2_status :=
  let cfg := configuration c in
  if bool_decide (cf_closure cfg = None) || negb (cf_digest_mask cfg =? required_digest_mask) then
    KB2_STATUS_INVALID_CONFIGURATION
  else if existsb (fun i => kb2_digest_is_zero (nth i (cf_digests cfg) []))
                  (seq (Z.to_nat KB2_DIGEST_PROFILE) 3) then
    KB2_STATUS_INVALID_CONFIGURATION
  else if existsb (fun i => nth i (cf_limits cfg) 0 =? 0) (seq 0 (Z.to_nat KB2_LIMIT_KIND_COUNT)) then
    KB2_STATUS_INVALID_CONFIGURATION
  else if negb (cf_flags cfg &~ KB2_KNOWN_LAUNCH_FLAGS =? 0) then
    KB2_STATUS_INVALID_CONFIGURATION
  else KB2_STATUS_OK.

Definition kb2_action_result_valid s : bool :=
  bool_decide (s = KB2_STATUS_OK) || bool_decide (s = KB2_STATUS_RESOURCE_DENIED) ||
  bool_decide (s = KB2_STATUS_RESOURCE_EXHAUSTED) || bool_decide (s = KB2_STATUS_HOST_FAILURE).

Definition kb2_begin_start c : kb2_status * kb2_controller C :=
  if (generation c =? U64_MAX) || (next_token c =? U64_MAX) then
    (KB2_STATUS_COUNTER_EXHAUSTED, c)
  else
    let status := kb2_validate_configuration c in
    if negb (bool_decide (status = KB2_STATUS_OK)) then (status, c)
    else
      let c := set_generation c (u64 (generation c + 1)) in
      let c := set_state c KB2_STATE_STARTING in
      let c := set_fault_kind c KB2_FAULT_NONE in
      let c := set_fault_code c 0 in
      let c := set_resource_set_id c 0 in
      let c := set_sandbox_id c 0 in
      let c := set_resources_allocated c false in
      let c := set_resources_revoked c false in
      let c := set_resources_reset c false in
      let c := set_process_started c false in
      let c := set_process_exited c false in
      kb2_emit_action c KB2_ACTION_ALLOCATE_RESOURCES.

Definition kb2_finish_cleanup c : kb2_status * kb2_controller C :=
  let restart := restart_requested c in
  let c := set_restart_requested c false in
  let c := set_state c KB2_STATE_IDLE in
  let c := set_fault_kind c KB2_FAULT_NONE in
  let c := set_fault_code c 0 in
  if restart then
    let '(status, c) := kb2_begin_start c in
    if negb (bool_decide (status = KB2_STATUS_OK)) then
      let c := set_state c KB2_STATE_FAULTED in
      let c := set_fault_kind c KB2_FAULT_CONTROLLER in
      let c := set_fault_code c (kb2_status_code status) in
      (status, c)
    else (status, c)
  else (KB2_STATUS_OK, c).

Definition kb2_next_cleanup_action c : kb2_status * kb2_controller C :=
  let reset_required :=
    negb (Z.land (cf_flags (configuration c)) KB2_LAUNCH_RESET_REQUIRED =? 0) in
  if process_started c then
    kb2_emit_action c (if graceful_stop c then KB2_ACTION_QUIESCE_SANDBOX
                       else KB2_ACTION_TERMINATE_SANDBOX)
  else if resources_allocated c && negb (resources_revoked c) then
    kb2_emit_action c KB2_ACTION_REVOKE_RESOURCES
  else if resources_allocated c && reset_required && negb (resources_reset c) then
    kb2_emit_action c KB2_ACTION_RESET_RESOURCES
  else if process_exited c then
    kb2_emit_action c KB2_ACTION_REAP_SANDBOX
  else if resources_allocated c then
    kb2_emit_action c KB2_ACTION_RELEASE_RESOURCES
  else kb2_finish_cleanup c.

Definition kb2_begin_cleanup c (restart : bool) : kb2_status * kb2_controller C :=
  let c := set_graceful_stop c (negb (bool_decide (state c = KB2_STATE_FAULTED))) in
  let c := set_state c KB2_STATE_STOPPING in
  let c := set_restart_requested c restart in
  kb2_next_cleanup_action c.

(** ** Construction and configuration *)

Definition zero_controller (p : Z) : kb2_controller C :=
  mkController p zero_configuration zero_action KB2_STATE_INVALID KB2_FAULT_NONE 0 0 0 0 0
    false false false false false false false false.

(** The flags say whether the three pointer arguments are non-NULL. *)
Definition kb2_controller_create (a : A) (allocate_given deallocate_given out_given : bool) :
    kb2_status * option (kb2_controller C) * A :=
  if negb allocate_given || negb deallocate_given || negb out_given then
    (KB2_STATUS_INVALID_ARGUMENT, None, a)
  else
    match allocate a SIZEOF_CONTROLLER with
    | (None, a) => (KB2_STATUS_NO_MEMORY, None, a)
    | (Some p, a) =>
        let c := set_state (zero_controller p) KB2_STATE_IDLE in
        (KB2_STATUS_OK, Some c, a)
    end.

Definition kb2_controller_destroy (a : A) (co : option (kb2_controller C)) : A :=
  match co with
  | None => a
  | Some c =>
      let a := closure_destroy a (cf_closure (configuration c)) in
      deallocate a (self c) SIZEOF_CONTROLLER
  end.

Definition not_configurable c : bool :=
  negb (bool_decide (state c = KB2_STATE_IDLE)) || action_pending c.

Definition set_closure_body (a : A) c (closure : option C) : kb2_status * kb2_controller C * A :=
  match closure with
  | None => (KB2_STATUS_INVALID_ARGUMENT, c, a)
  | Some closure =>
      if not_configurable c then (KB2_STATUS_INVALID_STATE, c, a)
      else
        match closure_clone a closure with
        | (KB2_STATUS_OK, copy, a) =>
            let cfg := configuration c in
            let a := closure_destroy a (cf_closure cfg) in
            let cfg := mkConfiguration copy (cf_digests cfg) (cf_limits cfg) (cf_digest_mask cfg)
                         (closure_launch_flags copy) in
            (KB2_STATUS_OK, set_configuration c cfg, a)
        | (status, _, a) => (status, c, a)
        end
  end.

Definition kb2_controller_set_closure (a : A) (co : option (kb2_controller C)) (closure : option C) :
    kb2_status * option (kb2_controller C) * A :=
  match co with
  | None => (KB2_STATUS_INVALID_ARGUMENT, None, a)
  | Some c => let '(s, c, a) := set_closure_body a c closure in (s, Some c, a)
  end.

(** A call on the controller behind the pointer; NULL is an invalid argument. *)
Definition with_controller (co : option (kb2_controller C))
    (f : kb2_controller C -> kb2_status * kb2_controller C) :
    kb2_status * option (kb2_controller C) :=
  match co with
  | None => (KB2_STATUS_INVALID_ARGUMENT, None)
  | Some c => let '(s, c) := f c in (s, Some c)
  end.

(** The digest argument as the KB2_DIGEST_SIZE bytes the code reads. *)
Definition digest_bytes (digest : list Z) : list Z := take (Z.to_nat KB2_DIGEST_SIZE) digest.

Definition set_digest_body c (kind : Z) (digest : option (list Z)) (digest_size : Z) :
    kb2_status * kb2_controller C :=
  match digest with
  | None => (KB2_STATUS_INVALID_ARGUMENT, c)
  | Some digest =>
      if negb (kb2_digest_kind_valid kind) || negb (digest_size =? KB2_DIGEST_SIZE) then
        (KB2_STATUS_INVALID_ARGUMENT, c)
      else if kind =? KB2_DIGEST_MANIFEST then (KB2_STATUS_INVALID_ARGUMENT, c)
      else if not_configurable c then (KB2_STATUS_INVALID_STATE, c)
      else if kb2_digest_is_zero (digest_bytes digest) then (KB2_STATUS_INVALID_CONFIGURATION, c)
      else
        let cfg := configuration c in
        let cfg := mkConfiguration (cf_closure cfg)
                     (<[Z.to_nat kind := digest_bytes digest]> (cf_digests cfg))
                     (cf_limits cfg) (Z.lor (cf_digest_mask cfg) (Z.shiftl 1 kind)) (cf_flags cfg) in
        (KB2_STATUS_OK, set_configuration c cfg)
  end.

Definition kb2_controller_set_digest co kind digest digest_size :=
  with_controller co (fun c => set_digest_body c kind digest digest_size).

Definition set_limit_body c (kind value : Z) : kb2_status * kb2_controller C :=
  if negb (kb2_limit_kind_valid kind) then (KB2_STATUS_INVALID_ARGUMENT, c)
  else if not_configurable c then (KB2_STATUS_INVALID_STATE, c)
  else if value =? 0 then (KB2_STATUS_INVALID_CONFIGURATION, c)
  else
    let cfg := configuration c in
    let cfg := mkConfiguration (cf_closure cfg) (cf_digests cfg)
                 (<[Z.to_nat kind := value]> (cf_limits cfg)) (cf_digest_mask cfg) (cf_flags cfg) in
    (KB2_STATUS_OK, set_configuration c cfg).

Definition kb2_controller_set_limit co kind value :=
  with_controller co (fun c => set_limit_body c kind value).

(** ** Queries *)

Definition kb2_controller_state (co : option (kb2_controller C)) : kb2_state :=
  match co with None => KB2_STATE_INVALID | Some c => state c end.
Definition kb2_controller_generation (co : option (kb2_controller C)) : Z :=
  match co with None => 0 | Some c => generation c end.
Definition kb2_controller_fault_kind (co : option (kb2_controller C)) : kb2_fault_kind :=
  match co with None => KB2_FAULT_NONE | Some c => fault_kind c end.
Definition kb2_controller_fault_code (co : option (kb2_controller C)) : Z :=
  match co with None => 0 | Some c => fault_code c end.

Definition kb2_controller_pending_action (co : option (kb2_controller C)) : option (kb2_action C) :=
  match co with
  | None => None
  | Some c => if action_pending c then Some (action c) else None
  end.

Definition kb2_action_type (ac : option (kb2_action C)) : kb2_action_type_t :=
  match ac with None => KB2_ACTION_NONE | Some ac => ac_type ac end.
Definition kb2_action_token (ac : option (kb2_action C)) : Z :=
  match ac with None => 0 | Some ac => ac_token ac end.
Definition kb2_action_generation (ac : option (kb2_action C)) : Z :=
  match ac with None => 0 | Some ac => ac_generation ac end.
Definition kb2_action_resource_set_id (ac : option (kb2_action C)) : Z :=
  match ac with None => 0 | Some ac => ac_resource_set_id ac end.
Definition kb2_action_sandbox_id (ac : option (kb2_action C)) : Z :=
  match ac with None => 0 | Some ac => ac_sandbox_id ac end.
Definition kb2_action_launch_flags (ac : option (kb2_action C)) : Z :=
  match ac with None => 0 | Some ac => cf_flags (ac_configuration ac) end.
Definition kb2_action_closure (ac : option (kb2_action C)) : option C :=
  match ac with None => None | Some ac => cf_closure (ac_configuration ac) end.

(** The second component is what is written through [digest_out], if anything. *)
Definition kb2_action_copy_digest (ac : option (kb2_action C)) (kind : Z) (out_given : bool)
    (digest_size : Z) : kb2_status * option (list Z) :=
  match ac with
  | None => (KB2_STATUS_INVALID_ARGUMENT, None)
  | Some ac =>
      if negb out_given || negb (kb2_digest_kind_valid kind) ||
         negb (digest_size =? KB2_DIGEST_SIZE) then (KB2_STATUS_INVALID_ARGUMENT, None)
      else if kind =? KB2_DIGEST_MANIFEST then
        closure_copy_manifest_digest (cf_closure (ac_configuration ac)) out_given digest_size
      else (KB2_STATUS_OK, Some (nth (Z.to_nat kind) (cf_digests (ac_configuration ac)) []))
  end.

Definition kb2_action_limit (ac : option (kb2_action C)) (kind : Z) (out_given : bool) :
    kb2_status * option Z :=
  match ac with
  | None => (KB2_STATUS_INVALID_ARGUMENT, None)
  | Some ac =>
      if negb out_given || negb (kb2_limit_kind_valid kind) then (KB2_STATUS_INVALID_ARGUMENT, None)
      else (KB2_STATUS_OK, Some (nth (Z.to_nat kind) (cf_limits (ac_configuration ac)) 0))
  end.

(** ** Lifecycle *)

Definition start_body c : kb2_status * kb2_controller C :=
  if negb (bool_decide (state c = KB2_STATE_IDLE)) then (KB2_STATUS_INVALID_STATE, c)
  else if action_pending c then (KB2_STATUS_ACTION_PENDING, c)
  else kb2_begin_start c.

Definition kb2_controller_start co := with_controller co start_body.

Definition cleanup_from (restart : bool) c : kb2_status * kb2_controller C :=
  if action_pending c then (KB2_STATUS_ACTION_PENDING, c)
  else if negb (bool_decide (state c = KB2_STATE_HANDSHAKING)) &&
          negb (bool_decide (state c = KB2_STATE_RUNNING)) &&
          negb (bool_decide (state c = KB2_STATE_FAULTED)) then (KB2_STATUS_INVALID_STATE, c)
  else kb2_begin_cleanup c restart.

Definition kb2_controller_stop co := with_controller co (cleanup_from false).
Definition kb2_controller_restart co := with_controller co (cleanup_from true).

(** Which identifiers a completion may carry. *)
Definition completion_ids_valid t s (rid sid : Z) : bool :=
  if negb (bool_decide (s = KB2_STATUS_OK)) then (rid =? 0) && (sid =? 0)
  else
    match t with
    | KB2_ACTION_ALLOCATE_RESOURCES => negb (rid =? 0) && (sid =? 0)
    | KB2_ACTION_LAUNCH_SANDBOX => (rid =? 0) && negb (sid =? 0)
    | _ => (rid =? 0) && (sid =? 0)
    end.

Definition host_action_fault c (completed : kb2_action_type_t) : kb2_controller C :=
  let c := set_state c KB2_STATE_FAULTED in
  let c := set_fault_kind c KB2_FAULT_HOST_ACTION in
  set_fault_code c (kb2_action_code completed).

(** The switch over the completed action, after the action was cleared. *)
Definition complete_switch c (completed : kb2_action_type_t) (rid sid : Z) :
    kb2_status * kb2_controller C :=
  match completed with
  | KB2_ACTION_ALLOCATE_RESOURCES =>
      let c := set_resource_set_id c rid in
      let c := set_resources_allocated c true in
      kb2_emit_action c KB2_ACTION_LAUNCH_SANDBOX
  | KB2_ACTION_LAUNCH_SANDBOX =>
      let c := set_sandbox_id c sid in
      let c := set_process_started c true in
      kb2_emit_action c KB2_ACTION_TRANSFER_RESOURCES
  | KB2_ACTION_TRANSFER_RESOURCES => (KB2_STATUS_OK, set_state c KB2_STATE_HANDSHAKING)
  | KB2_ACTION_QUIESCE_SANDBOX | KB2_ACTION_TERMINATE_SANDBOX =>
      let c := set_process_started c false in
      let c := set_process_exited c true in
      kb2_next_cleanup_action c
  | KB2_ACTION_REAP_SANDBOX =>
      let c := set_process_exited c false in
      let c := set_sandbox_id c 0 in
      kb2_next_cleanup_action c
  | KB2_ACTION_REVOKE_RESOURCES => kb2_next_cleanup_action (set_resources_revoked c true)
  | KB2_ACTION_RESET_RESOURCES => kb2_next_cleanup_action (set_resources_reset c true)
  | KB2_ACTION_RELEASE_RESOURCES =>
      let c := set_resources_allocated c false in
      let c := set_resource_set_id c 0 in
      kb2_next_cleanup_action c
  | KB2_ACTION_NONE => (KB2_STATUS_INVALID_STATE, host_action_fault c completed)
  end.

Definition complete_body c (gen token : Z) (result : kb2_status) (rid sid : Z) :
    kb2_status * kb2_controller C :=
  if negb (kb2_action_result_valid result) then (KB2_STATUS_INVALID_ARGUMENT, c)
  else if negb (action_pending c) then (KB2_STATUS_INVALID_STATE, c)
  else if negb (gen =? generation c) then (KB2_STATUS_STALE_GENERATION, c)
  else if negb (token =? ac_token (action c)) then (KB2_STATUS_STALE_ACTION, c)
  else if negb (completion_ids_valid (ac_type (action c)) result rid sid) then
    (KB2_STATUS_INVALID_ARGUMENT, c)
  else
    let completed := ac_type (action c) in
    let c := kb2_clear_action c in
    if negb (bool_decide (result = KB2_STATUS_OK)) then (result, host_action_fault c completed)
    else complete_switch c completed rid sid.

Definition kb2_controller_complete_action co gen token result rid sid :=
  with_controller co (fun c => complete_body c gen token result rid sid).

Definition report_ready_body c (gen : Z) : kb2_status * kb2_controller C :=
  if negb (gen =? generation c) then (KB2_STATUS_STALE_GENERATION, c)
  else if action_pending c then (KB2_STATUS_ACTION_PENDING, c)
  else if negb (bool_decide (state c = KB2_STATE_HANDSHAKING)) then (KB2_STATUS_INVALID_STATE, c)
  else (KB2_STATUS_OK, set_state c KB2_STATE_RUNNING).

Definition kb2_controller_report_ready co gen :=
  with_controller co (fun c => report_ready_body c gen).

Definition report_fault_body c (gen : Z) (kind : kb2_fault_kind) (code : Z) :
    kb2_status * kb2_controller C :=
  if negb (bool_decide (kind = KB2_FAULT_PROCESS_EXIT)) &&
     negb (bool_decide (kind = KB2_FAULT_PROTOCOL)) then (KB2_STATUS_INVALID_ARGUMENT, c)
  else if negb (gen =? generation c) then (KB2_STATUS_STALE_GENERATION, c)
  else if action_pending c then (KB2_STATUS_ACTION_PENDING, c)
  else if negb (bool_decide (state c = KB2_STATE_HANDSHAKING)) &&
          negb (bool_decide (state c = KB2_STATE_RUNNING)) then (KB2_STATUS_INVALID_STATE, c)
  else
    let c := if bool_decide (kind = KB2_FAULT_PROCESS_EXIT)
             then set_process_exited (set_process_started c false) true else c in
    let c := set_state c KB2_STATE_FAULTED in
    let c := set_fault_kind c kind in
    (KB2_STATUS_OK, set_fault_code c code).

Definition kb2_controller_report_fault co gen kind code :=
  with_controller co (fun c => report_fault_body c gen kind code).
End Operations.

#[global] Arguments kb2_emit_action : simpl never.
#[global] Arguments kb2_begin_start : simpl never.
#[global] Arguments kb2_finish_cleanup : simpl never.
#[global] Arguments kb2_next_cleanup_action : simpl never.
#[global] Arguments kb2_validate_configuration : simpl never.
