(* ===== verification/ControllerSpec.v ===== *)
(** Correctness of the sandbox controller.

    The specification is a ledger of what the host has actually done: which
    resource set is allocated, whether it was revoked and reset, and whether the
    sandbox process is alive or waits to be reaped.  [exec] performs an action on
    that ledger and is undefined when the action would be a protocol violation
    (releasing resources of a live process, revoking twice, launching without
    resources, ...).  The controller and the ledger form a transition system;
    its invariant shows that the action a controller asks for can always be
    performed, and that the controller's flags mirror the ledger. *)

From Stdlib Require Import ZArith Lia.
From stdpp Require Import base numbers list gmap relations tactics.
From S2P Require Import Prelude Host Controller.

Open Scope Z_scope.

(** * The host ledger *)

Inductive process : Type :=
| NoProcess
| Live (sid : Z)
| Exited (sid : Z).

#[export] Instance process_eq_dec : EqDecision process.
Proof. solve_decision. Defined.

Record world := mkWorld {
  w_resources : option Z;
  w_revoked : bool;
  w_reset : bool;
  w_process : process;
}.

Definition empty_world : world := mkWorld None false false NoProcess.

(** The fields of a controller, and the clauses of [flags_ok], by name. *)
Ltac open_controller c :=
  destruct c as [slf cf act st fk fc gn tok rd sd ap al rv rs ps pe rq gs].

Ltac open_flags Hf :=
  destruct Hf as [Htok Hgen Hres Hproc Hexcl Hstarted Hexited Hreset]; cbn in *.

Section Spec.
Context {A C : Type} `{ClosureIface A C}.
Implicit Types (c : kb2_controller C) (w : world) (t : kb2_action_type_t).

Definition reset_required_by (cfg : kb2_configuration C) : bool :=
  negb (Z.land (cf_flags cfg) KB2_LAUNCH_RESET_REQUIRED =? 0).

(** What performing an action does to the ledger; [rid] and [sid] are the
    identifiers the host returns for a new resource set and a new sandbox. *)
Definition exec (ac : kb2_action C) (rid sid : Z) (w : world) : option world :=
  let owns := bool_decide (w_resources w = Some (ac_resource_set_id ac)) in
  match ac_type ac with
  | KB2_ACTION_NONE => None
  | KB2_ACTION_ALLOCATE_RESOURCES =>
      if bool_decide (w_resources w = None) && bool_decide (w_process w = NoProcess)
      then Some (mkWorld (Some rid) false false NoProcess) else None
  | KB2_ACTION_LAUNCH_SANDBOX =>
      if owns && negb (w_revoked w) && bool_decide (w_process w = NoProcess)
      then Some (mkWorld (w_resources w) (w_revoked w) (w_reset w) (Live sid)) else None
  | KB2_ACTION_TRANSFER_RESOURCES =>
      if owns && negb (w_revoked w) && bool_decide (w_process w = Live (ac_sandbox_id ac))
      then Some w else None
  | KB2_ACTION_QUIESCE_SANDBOX =>
      if owns && negb (w_revoked w) && bool_decide (w_process w = Live (ac_sandbox_id ac))
      then Some (mkWorld (w_resources w) (w_revoked w) (w_reset w) (Exited (ac_sandbox_id ac)))
      else None
  | KB2_ACTION_TERMINATE_SANDBOX =>
      if bool_decide (w_process w = Live (ac_sandbox_id ac))
      then Some (mkWorld (w_resources w) (w_revoked w) (w_reset w) (Exited (ac_sandbox_id ac)))
      else None
  | KB2_ACTION_REVOKE_RESOURCES =>
      if owns && negb (w_revoked w) &&
         match w_process w with Live _ => false | _ => true end
      then Some (mkWorld (w_resources w) true (w_reset w) (w_process w)) else None
  | KB2_ACTION_RESET_RESOURCES =>
      if owns && w_revoked w && match w_process w with Live _ => false | _ => true end
      then Some (mkWorld (w_resources w) (w_revoked w) true (w_process w)) else None
  | KB2_ACTION_REAP_SANDBOX =>
      if bool_decide (w_process w = Exited (ac_sandbox_id ac))
      then Some (mkWorld (w_resources w) (w_revoked w) (w_reset w) NoProcess) else None
  | KB2_ACTION_RELEASE_RESOURCES =>
      if owns && w_revoked w && (negb (reset_required_by (ac_configuration ac)) || w_reset w) &&
         bool_decide (w_process w = NoProcess)
      then Some empty_world else None
  end.

(** The ledger after the host noticed that the process exited. *)
Definition process_exits (w : world) : world :=
  match w_process w with
  | Live sid => mkWorld (w_resources w) (w_revoked w) (w_reset w) (Exited sid)
  | _ => w
  end.

(** * The system *)

Definition initial_controller (p : Z) : kb2_controller C :=
  set_state (zero_controller p) KB2_STATE_IDLE.

(** A completion that addresses the pending action with admissible identifiers. *)
Definition accepted c (gen token : Z) (s : kb2_status) (rid sid : Z) : bool :=
  kb2_action_result_valid s && action_pending c && (gen =? generation c) &&
  (token =? ac_token (action c)) && completion_ids_valid (ac_type (action c)) s rid sid.

(** One API call.  The host is honest about success: an accepted completion with
    status OK means that the pending action was performed on the ledger. *)
Inductive sys_step : kb2_controller C * world -> kb2_controller C * world -> Prop :=
| step_set_closure a a' closure s c c' w :
    set_closure_body a c closure = (s, c', a') -> sys_step (c, w) (c', w)
| step_set_digest c w kind digest n :
    sys_step (c, w) ((set_digest_body c kind digest n).2, w)
| step_set_limit c w kind value :
    sys_step (c, w) ((set_limit_body c kind value).2, w)
| step_start c w : sys_step (c, w) ((start_body c).2, w)
| step_cleanup c w restart : sys_step (c, w) ((cleanup_from restart c).2, w)
| step_ready c w gen : sys_step (c, w) ((report_ready_body c gen).2, w)
| step_fault c w gen kind code :
    sys_step (c, w)
      ((report_fault_body c gen kind code).2,
       if bool_decide ((report_fault_body c gen kind code).1 = KB2_STATUS_OK) &&
          bool_decide (kind = KB2_FAULT_PROCESS_EXIT)
       then process_exits w else w)
| step_complete_ok c w w' gen token rid sid :
    accepted c gen token KB2_STATUS_OK rid sid = true ->
    exec (action c) rid sid w = Some w' ->
    sys_step (c, w) ((complete_body c gen token KB2_STATUS_OK rid sid).2, w')
| step_complete_failed c w gen token s rid sid :
    s <> KB2_STATUS_OK ->
    sys_step (c, w) ((complete_body c gen token s rid sid).2, w)
| step_complete_rejected c w gen token s rid sid :
    accepted c gen token s rid sid = false ->
    sys_step (c, w) ((complete_body c gen token s rid sid).2, w).

Definition reachable (p : Z) : kb2_controller C * world -> Prop :=
  rtc sys_step (initial_controller p, empty_world).

(** * Invariant *)

(** The cleanup action the flags call for; [None] when nothing is left. *)
Definition cleanup_choice c : option kb2_action_type_t :=
  if process_started c then
    Some (if graceful_stop c then KB2_ACTION_QUIESCE_SANDBOX else KB2_ACTION_TERMINATE_SANDBOX)
  else if resources_allocated c && negb (resources_revoked c) then
    Some KB2_ACTION_REVOKE_RESOURCES
  else if resources_allocated c && reset_required_by (configuration c) &&
          negb (resources_reset c) then Some KB2_ACTION_RESET_RESOURCES
  else if process_exited c then Some KB2_ACTION_REAP_SANDBOX
  else if resources_allocated c then Some KB2_ACTION_RELEASE_RESOURCES
  else None.

Lemma next_cleanup_action_choice c :
  kb2_next_cleanup_action c =
  match cleanup_choice c with
  | Some t => kb2_emit_action c t
  | None => kb2_finish_cleanup c
  end.
Proof.
  unfold kb2_next_cleanup_action, cleanup_choice, reset_required_by.
  by repeat case_match.
Qed.

(** Consistency of the flags, independent of the pending action. *)
Record flags_ok c : Prop := {
  fl_token : 0 <= next_token c <= U64_MAX;
  fl_generation : 0 <= generation c <= U64_MAX;
  fl_resources : resources_allocated c = negb (resource_set_id c =? 0);
  fl_process : process_started c || process_exited c = negb (sandbox_id c =? 0);
  fl_exclusive : process_started c = true -> process_exited c = false;
  fl_started : process_started c = true ->
               resources_allocated c = true /\ resources_revoked c = false;
  fl_exited : process_exited c = true -> resources_allocated c = true;
  fl_reset : resources_reset c = true -> resources_revoked c = true;
}.

(** Nothing of an earlier generation is left. *)
Definition clean c : Prop :=
  resources_allocated c = false /\ process_started c = false /\ process_exited c = false.

(** The phase of the lifecycle: state, pending action type, and what they imply. *)
Definition phase_ok (st : kb2_state) (pending : option kb2_action_type_t) c : Prop :=
  match st, pending with
  | KB2_STATE_IDLE, None => clean c /\ restart_requested c = false
  | KB2_STATE_STARTING, Some KB2_ACTION_ALLOCATE_RESOURCES =>
      clean c /\ resources_revoked c = false /\ resources_reset c = false
  | KB2_STATE_STARTING, Some KB2_ACTION_LAUNCH_SANDBOX =>
      resources_allocated c = true /\ resources_revoked c = false /\
      process_started c = false /\ process_exited c = false
  | KB2_STATE_STARTING, Some KB2_ACTION_TRANSFER_RESOURCES => process_started c = true
  | KB2_STATE_HANDSHAKING, None | KB2_STATE_RUNNING, None => process_started c = true
  | KB2_STATE_STOPPING, Some t => cleanup_choice c = Some t
  | KB2_STATE_FAULTED, None => True
  | _, _ => False
  end.

Definition pending_type c : option kb2_action_type_t :=
  if action_pending c then Some (ac_type (action c)) else None.

(** The action as it was emitted from the present fields. *)
Definition action_of c t : kb2_action C :=
  mkAction t (next_token c) (generation c) (emitted_resource_set_id c t)
    (emitted_sandbox_id c t) (configuration c).

Record ctl_ok c : Prop := {
  ok_flags : flags_ok c;
  ok_action : action c = if action_pending c then action_of c (ac_type (action c))
                         else zero_action;
  ok_config : state c <> KB2_STATE_IDLE -> kb2_validate_configuration c = KB2_STATUS_OK;
  ok_phase : phase_ok (state c) (pending_type c) c;
}.

(** The ledger is what the flags say. *)
Definition tracks c w : Prop :=
  w_resources w = (if resources_allocated c then Some (resource_set_id c) else None) /\
  (resources_allocated c = true ->
     w_revoked w = resources_revoked c /\ w_reset w = resources_reset c) /\
  w_process w = (if process_started c then Live (sandbox_id c)
                 else if process_exited c then Exited (sandbox_id c) else NoProcess).

(** * Preservation *)

Lemma flags_ok_bump c :
  flags_ok c -> next_token c <> U64_MAX -> flags_ok (set_next_token c (u64 (next_token c + 1))).
Proof.
  intros Hf Hne. open_controller c. open_flags Hf.
  split; cbn; try done. rewrite u64_small; unfold is_u64, U64_MAX in *; lia.
Qed.

Lemma emit_ok c t :
  flags_ok c -> action_pending c = false -> action c = zero_action ->
  kb2_validate_configuration c = KB2_STATUS_OK -> phase_ok (state c) (Some t) c ->
  ctl_ok (kb2_emit_action c t).2.
Proof.
  intros Hf Hp Ha Hv Hphase. pose proof (flags_ok_bump c Hf) as Hbump.
  unfold kb2_emit_action. case_match eqn:E; cbn.
  - open_controller c. cbn in *. subst. open_flags Hf. split; cbn; try done.
  - open_controller c. cbn in *. subst.
    assert (Hn : tok <> U64_MAX) by lia. specialize (Hbump Hn). open_flags Hbump.
    split; cbn; try done.
Qed.

Lemma begin_start_ok c :
  flags_ok c -> clean c -> action_pending c = false -> action c = zero_action ->
  (kb2_begin_start c).1 = KB2_STATUS_OK -> ctl_ok (kb2_begin_start c).2.
Proof.
  intros Hf Hc Hp Ha. unfold kb2_begin_start.
  case_match eqn:E; [done |]. case_match eqn:Ev; [by destruct (kb2_validate_configuration c) |].
  intros _. apply emit_ok; open_controller c; cbn in *; try done.
  - open_flags Hf. split; cbn; try done.
    rewrite u64_small; unfold is_u64, U64_MAX in *; lia.
  - by destruct (kb2_validate_configuration _).
Qed.

Lemma begin_start_fail c :
  (kb2_begin_start c).1 <> KB2_STATUS_OK -> (kb2_begin_start c).2 = c.
Proof.
  unfold kb2_begin_start. repeat (case_match; [done |]).
  unfold kb2_emit_action. case_match eqn:E; [| done].
  open_controller c. cbn in *. intros. lia.
Qed.

Lemma finish_cleanup_ok c :
  flags_ok c -> clean c -> action_pending c = false -> action c = zero_action ->
  kb2_validate_configuration c = KB2_STATUS_OK -> ctl_ok (kb2_finish_cleanup c).2.
Proof.
  intros Hf Hc Hp Ha Hv. unfold kb2_finish_cleanup.
  set (c1 := set_fault_code _ _).
  assert (Hf1 : flags_ok c1) by (open_controller c; open_flags Hf; by split).
  assert (Hc1 : clean c1 /\ action_pending c1 = false /\ action c1 = zero_action /\
                restart_requested c1 = false /\ state c1 = KB2_STATE_IDLE /\
                kb2_validate_configuration c1 = KB2_STATUS_OK)
    by (open_controller c; cbn in *; done).
  destruct Hc1 as (Hc1 & Hp1 & Ha1 & Hr1 & Hs1 & Hv1).
  case_match.
  - pose proof (begin_start_ok c1 Hf1 Hc1 Hp1 Ha1) as Hok.
    pose proof (begin_start_fail c1) as Hfail.
    destruct (kb2_begin_start c1) as [status c2]. cbn in *.
    case_match eqn:Es; cbn.
    + rewrite Hfail by (by destruct status). clearbody c1.
      open_controller c1. cbn in *. subst. open_flags Hf1. split; cbn; try done.
    + apply Hok. by destruct status.
  - cbn. clearbody c1. open_controller c1. cbn in *. subst. split; cbn; try done.
Qed.

Lemma next_cleanup_ok c :
  flags_ok c -> state c = KB2_STATE_STOPPING -> action_pending c = false ->
  action c = zero_action -> kb2_validate_configuration c = KB2_STATUS_OK ->
  ctl_ok (kb2_next_cleanup_action c).2.
Proof.
  intros Hf Hs Hp Ha Hv. rewrite next_cleanup_action_choice.
  destruct (cleanup_choice c) as [t |] eqn:Et.
  - apply emit_ok; try done. by rewrite Hs.
  - apply finish_cleanup_ok; try done.
    unfold cleanup_choice in Et. unfold clean.
    destruct (process_started c), (resources_allocated c), (process_exited c);
      repeat case_match; done.
Qed.

(** A completed cleanup action updates its flag and asks for the next action. *)
Lemma cleared_ok c :
  ctl_ok c -> flags_ok (kb2_clear_action c) /\ action (kb2_clear_action c) = zero_action /\
              action_pending (kb2_clear_action c) = false.
Proof. intros [Hf _ _ _]. open_controller c. open_flags Hf. by split. Qed.

Lemma complete_switch_ok c rid sid :
  ctl_ok c -> action_pending c = true ->
  completion_ids_valid (ac_type (action c)) KB2_STATUS_OK rid sid = true ->
  ctl_ok (complete_switch (kb2_clear_action c) (ac_type (action c)) rid sid).2.
Proof.
  intros Hok Hp Hids. destruct Hok as [Hf Ha Hv Hphase].
  unfold completion_ids_valid in Hids. rewrite bool_decide_eq_true_2 in Hids by done.
  unfold pending_type in Hphase. rewrite Hp in Hphase.
  open_controller c. cbn in *. subst ap. open_flags Hf.
  destruct st; try done; cbn in *; specialize (Hv ltac:(done)).
  - (* STARTING *)
    destruct (ac_type act); try done; unfold clean in *; cbn in *; destruct_and?; simplify_eq/=.
    + apply emit_ok; cbn; try done. split; cbn; try done; lia.
    + apply emit_ok; cbn; try done. split; cbn; try done; lia.
  - (* STOPPING *)
    unfold cleanup_choice in Hphase; cbn in Hphase.
    destruct (ac_type act); cbn in *;
      (try by destruct ps, gs, al, rv, rs, pe, (reset_required_by cf));
      apply next_cleanup_ok; cbn; try done;
      destruct ps, gs, al, rv, rs, pe, (reset_required_by cf); cbn in *; try done;
      split; cbn; try done; lia.
Qed.

Lemma complete_ok c gen token s rid sid :
  ctl_ok c -> ctl_ok (complete_body c gen token s rid sid).2.
Proof.
  intros Hok. unfold complete_body.
  case_match; [done |]. case_match eqn:Hp; [done |]. do 2 (case_match; [done |]).
  case_match eqn:Hids; [done |]. apply negb_false_iff in Hp, Hids.
  case_match eqn:Hs; cbn.
  - destruct (cleared_ok c Hok) as (Hf & Ha & Hp'). destruct Hok as [_ _ Hv Hph].
    assert (Hv' : kb2_validate_configuration c = KB2_STATUS_OK).
    { apply Hv. intros Hi. unfold pending_type in Hph. by rewrite Hi, Hp in Hph. }
    open_controller c. cbn in *. open_flags Hf. split; cbn; try done.
  - apply negb_false_iff, bool_decide_eq_true in Hs. subst s. by apply complete_switch_ok.
Qed.

Lemma idle_clean c :
  ctl_ok c -> state c = KB2_STATE_IDLE -> clean c /\ action_pending c = false.
Proof.
  intros [_ _ _ Hph] Hs. unfold phase_ok, pending_type in Hph. rewrite Hs in Hph.
  destruct (action_pending c); [done |]. by destruct Hph.
Qed.

Lemma not_pending_action c : ctl_ok c -> action_pending c = false -> action c = zero_action.
Proof. intros [_ Ha _ _] Hp. by rewrite Hp in Ha. Qed.

Lemma start_ok c : ctl_ok c -> ctl_ok (start_body c).2.
Proof.
  intros Hok. unfold start_body. case_match eqn:Hs; [done |]. case_match eqn:Hp; [done |].
  apply negb_false_iff, bool_decide_eq_true in Hs.
  destruct (idle_clean c Hok Hs) as [Hc _].
  destruct (decide ((kb2_begin_start c).1 = KB2_STATUS_OK)) as [E | E].
  - apply begin_start_ok; try done; [by apply ok_flags | by apply not_pending_action].
  - by rewrite begin_start_fail.
Qed.

Lemma cleanup_from_ok restart c : ctl_ok c -> ctl_ok (cleanup_from restart c).2.
Proof.
  intros Hok. unfold cleanup_from, kb2_begin_cleanup. do 2 (case_match; [done |]).
  pose proof (not_pending_action c Hok ltac:(done)) as Ha. destruct Hok as [Hf _ Hv _].
  apply next_cleanup_ok; open_controller c; cbn in *; try done.
  - open_flags Hf. by split.
  - apply Hv. by destruct st.
Qed.

Lemma ready_ok c gen : ctl_ok c -> ctl_ok (report_ready_body c gen).2.
Proof.
  intros Hok. unfold report_ready_body. do 3 (case_match; [done |]).
  destruct Hok as [Hf Ha Hv Hph]. open_controller c. cbn in *. unfold pending_type in *. cbn in *.
  destruct st; try done. destruct ap; try done. open_flags Hf. split; cbn; try done. auto.
Qed.

Lemma fault_ok c gen kind code : ctl_ok c -> ctl_ok (report_fault_body c gen kind code).2.
Proof.
  intros Hok. unfold report_fault_body. do 4 (case_match; [done |]).
  destruct Hok as [Hf Ha Hv Hph]. open_controller c. cbn in *. unfold pending_type in *. cbn in *.
  destruct ap; [done |]. assert (ps = true) as -> by (by destruct st).
  assert (kb2_validate_configuration (mkController slf cf act st fk fc gn tok rd sd
    false al rv rs true pe rq gs) = KB2_STATUS_OK) by (apply Hv; by destruct st).
  open_flags Hf. case_match; split; cbn; try done; split; cbn; try done; naive_solver.
Qed.

Lemma reconfigured_ok c cfg :
  ctl_ok c -> not_configurable c = false -> ctl_ok (set_configuration c cfg).
Proof.
  intros Hok Hn. unfold not_configurable in Hn. apply orb_false_iff in Hn as [Hi Hp].
  apply negb_false_iff, bool_decide_eq_true in Hi. destruct Hok as [Hf Ha Hv Hph].
  open_controller c. cbn in *. subst. open_flags Hf. split; cbn; try done.
Qed.

Lemma set_digest_ok c kind d n : ctl_ok c -> ctl_ok (set_digest_body c kind d n).2.
Proof.
  intros Hok. unfold set_digest_body. destruct d; [| done].
  repeat (case_match; [done |]). by apply reconfigured_ok.
Qed.

Lemma set_limit_ok c kind v : ctl_ok c -> ctl_ok (set_limit_body c kind v).2.
Proof.
  intros Hok. unfold set_limit_body.
  repeat (case_match; [done |]). by apply reconfigured_ok.
Qed.

Lemma set_closure_effect a c cl s c' a' :
  set_closure_body a c cl = (s, c', a') ->
  c' = c \/ (not_configurable c = false /\ exists cfg, c' = set_configuration c cfg).
Proof.
  intros E. unfold set_closure_body in E. destruct cl; [| by simplify_eq; left].
  case_match eqn:Hn; [by simplify_eq; left |].
  destruct (closure_clone a c0) as [[s1 copy] a1].
  destruct s1; simplify_eq; try (by left). right. eauto.
Qed.

Lemma set_closure_ok a c cl s c' a' :
  set_closure_body a c cl = (s, c', a') -> ctl_ok c -> ctl_ok c'.
Proof.
  intros [-> | (Hn & cfg & ->)]%set_closure_effect Hok; [done |]. by apply reconfigured_ok.
Qed.

Lemma initial_ok p : ctl_ok (initial_controller p).
Proof. split; cbn; try done. Qed.

(** * The ledger follows the flags *)

Definition view c : bool * Z * bool * bool * bool * bool * Z :=
  (resources_allocated c, resource_set_id c, resources_revoked c, resources_reset c,
   process_started c, process_exited c, sandbox_id c).

Lemma tracks_view c c' w : view c = view c' -> tracks c w -> tracks c' w.
Proof. unfold view, tracks. intros E. by injection E as -> -> -> -> -> -> ->. Qed.

Lemma tracks_clean c w :
  clean c -> tracks c w <-> w_resources w = None /\ w_process w = NoProcess.
Proof. intros (Ha & Hs & He). unfold tracks. rewrite Ha, Hs, He. split; [by intros (? & _ & ?) | by intros [? ?]]. Qed.

Lemma emit_view c t : view (kb2_emit_action c t).2 = view c.
Proof. unfold kb2_emit_action. open_controller c. by case_match. Qed.

Lemma emit_tracks c t w : tracks c w -> tracks (kb2_emit_action c t).2 w.
Proof. apply tracks_view. by rewrite emit_view. Qed.

Lemma begin_start_tracks c w : clean c -> tracks c w -> tracks (kb2_begin_start c).2 w.
Proof.
  intros Hc Ht. unfold kb2_begin_start. do 2 (case_match; [done |]).
  apply emit_tracks. apply tracks_clean in Ht; [| done]. apply tracks_clean; [| done].
  by open_controller c; unfold clean; cbn.
Qed.

Lemma finish_cleanup_tracks c w : clean c -> tracks c w -> tracks (kb2_finish_cleanup c).2 w.
Proof.
  intros Hc Ht. unfold kb2_finish_cleanup.
  set (c1 := set_fault_code _ _).
  assert (Hc1 : clean c1) by (by open_controller c).
  assert (Ht1 : tracks c1 w) by (by open_controller c).
  case_match; [| done].
  pose proof (begin_start_tracks c1 w Hc1 Ht1) as Hb.
  destruct (kb2_begin_start c1) as [status c2]. case_match; [| done].
  by destruct c2.
Qed.

Lemma next_cleanup_tracks c w : tracks c w -> tracks (kb2_next_cleanup_action c).2 w.
Proof.
  intros Ht. rewrite next_cleanup_action_choice.
  destruct (cleanup_choice c) as [t |] eqn:Et.
  - by apply emit_tracks.
  - apply finish_cleanup_tracks; [| done]. unfold cleanup_choice in Et. unfold clean.
    destruct (process_started c), (resources_allocated c), (process_exited c);
      repeat case_match; done.
Qed.

(** Performing the pending action on the ledger and completing it on the
    controller keep the two in step. *)
Lemma complete_switch_tracks c w w' rid sid :
  ctl_ok c -> action_pending c = true -> tracks c w ->
  completion_ids_valid (ac_type (action c)) KB2_STATUS_OK rid sid = true ->
  exec (action c) rid sid w = Some w' ->
  tracks (complete_switch (kb2_clear_action c) (ac_type (action c)) rid sid).2 w'.
Proof.
  intros [Hf Ha _ Hph] Hp Ht Hids He. rewrite Hp in Ha.
  unfold pending_type in Hph. rewrite Hp in Hph.
  unfold exec in He. remember (ac_type (action c)) as t eqn:Et.
  rewrite Ha in He. cbn in He. open_controller c. cbn in *. subst ap. open_flags Hf.
  unfold tracks in Ht; cbn in Ht. destruct Ht as (Hr & Hrr & Hpr).
  destruct t; cbn in *; try done;
    (case_match; [| done]); injection He as <-;
    try apply next_cleanup_tracks; try apply emit_tracks;
    unfold tracks; cbn in *;
    repeat match goal with H : _ && _ = true |- _ => apply andb_true_iff in H as [? ?] end;
    repeat match goal with H : bool_decide _ = true |- _ => apply bool_decide_eq_true in H end;
    destruct ps, pe; try congruence; repeat split; intros; cbn; try done;
    try (destruct (Hrr ltac:(done))); try congruence;
    destruct st; unfold clean in Hph; cbn in Hph; destruct_and?; try done; try congruence;
    unfold cleanup_choice in Hph; cbn in Hph; repeat case_match; done.
Qed.

Lemma complete_accepted c gen token rid sid :
  accepted c gen token KB2_STATUS_OK rid sid = true ->
  complete_body c gen token KB2_STATUS_OK rid sid =
  complete_switch (kb2_clear_action c) (ac_type (action c)) rid sid.
Proof.
  unfold accepted, complete_body. intros Hacc.
  rewrite !andb_true_iff in Hacc. destruct Hacc as ((((Hv & Hp) & Hg) & Ht) & Hi).
  by rewrite Hv, Hp, Hg, Ht, Hi.
Qed.

Lemma complete_not_accepted c gen token s rid sid :
  accepted c gen token s rid sid = false -> (complete_body c gen token s rid sid).2 = c.
Proof.
  unfold accepted, complete_body. intros Hacc.
  do 5 (case_match; [done |]).
  repeat match goal with H : negb _ = false |- _ => apply negb_false_iff in H; rewrite H in Hacc end.
  done.
Qed.

Lemma fault_tracks c w gen kind code :
  ctl_ok c -> tracks c w ->
  tracks (report_fault_body c gen kind code).2
    (if bool_decide ((report_fault_body c gen kind code).1 = KB2_STATUS_OK) &&
        bool_decide (kind = KB2_FAULT_PROCESS_EXIT) then process_exits w else w).
Proof.
  intros Hok Ht. unfold report_fault_body.
  do 4 (case_match; [by rewrite bool_decide_eq_false_2 by done |]).
  cbn [fst snd]. rewrite (bool_decide_eq_true_2 (KB2_STATUS_OK = KB2_STATUS_OK)) by done. cbn [andb].
  destruct Hok as [Hf _ _ Hph]. open_controller c. cbn in *. unfold pending_type in Hph. cbn in Hph.
  destruct (bool_decide (kind = KB2_FAULT_PROCESS_EXIT)); [| done].
  destruct ap; [done |]. assert (ps = true) as -> by (by destruct st).
  destruct Ht as (Hr & Hrr & Hp). cbn in *. unfold process_exits, tracks. rewrite Hp. by cbn.
Qed.

Lemma step_preserves c w c' w' :
  sys_step (c, w) (c', w') -> ctl_ok c -> tracks c w -> ctl_ok c' /\ tracks c' w'.
Proof.
  intros Hstep Hok Ht. inversion Hstep; subst; clear Hstep.
  - split; [by eapply set_closure_ok |].
    match goal with E : set_closure_body _ _ _ = _ |- _ =>
      apply set_closure_effect in E as [-> | (_ & cfg & ->)] end; [done |]. by open_controller c.
  - split; [by apply set_digest_ok |]. unfold set_digest_body.
    repeat case_match; try done. by open_controller c.
  - split; [by apply set_limit_ok |]. unfold set_limit_body.
    repeat case_match; try done. by open_controller c.
  - split; [by apply start_ok |]. unfold start_body. case_match eqn:Hs; [done |].
    case_match; [done |]. apply begin_start_tracks; [| done].
    apply idle_clean; [done |]. by apply negb_false_iff, bool_decide_eq_true in Hs.
  - split; [by apply cleanup_from_ok |]. unfold cleanup_from, kb2_begin_cleanup.
    do 2 (case_match; [done |]). apply next_cleanup_tracks. by open_controller c.
  - split; [by apply ready_ok |]. unfold report_ready_body.
    do 3 (case_match; [done |]). by open_controller c.
  - split; [by apply fault_ok | by apply fault_tracks].
  - split; [by apply complete_ok |]. rewrite complete_accepted by done.
    unfold accepted in *. repeat match goal with H : _ && _ = true |- _ => apply andb_true_iff in H as [? ?] end.
    by eapply complete_switch_tracks.
  - split; [by apply complete_ok |]. unfold complete_body.
    do 5 (case_match; [done |]). case_match eqn:Hs; [by open_controller c |].
    by apply negb_false_iff, bool_decide_eq_true in Hs.
  - split; [by apply complete_ok |]. by rewrite complete_not_accepted.
Qed.

Lemma reachable_ok p c w : reachable p (c, w) -> ctl_ok c /\ tracks c w.
Proof.
  intros Hr. change (ctl_ok (c, w).1 /\ tracks (c, w).1 (c, w).2). revert Hr.
  generalize (c, w). apply rtc_ind_r.
  - split; [apply initial_ok | done].
  - intros [c0 w0] [c1 w1] _ Hstep [? ?]. by eapply step_preserves.
Qed.

Lemma pending_exec c w rid sid :
  ctl_ok c -> tracks c w -> action_pending c = true -> is_Some (exec (action c) rid sid w).
Proof.
  intros [Hf Ha _ Hph] Ht Hp. rewrite Hp in Ha. unfold pending_type in Hph. rewrite Hp in Hph.
  rewrite Ha. destruct Ht as (Hr & Hrr & Hpr). unfold exec.
  generalize dependent (ac_type (action c)). intros t _ Hph.
  open_controller c. cbn in *. open_flags Hf.
  rewrite Hr, Hpr. destruct st; try done; destruct t; try done;
    cbn in Hph; unfold clean, cleanup_choice in Hph; cbn in Hph; destruct_and?;
    destruct ps, pe; cbn in *; try done; try (by specialize (Hexcl eq_refl));
    destruct al; cbn in *; try done; try (by specialize (Hexited eq_refl));
    try (by destruct (Hstarted eq_refl));
    destruct (Hrr eq_refl) as [Hr1 Hr2]; rewrite ?Hr1, ?Hr2;
    rewrite ?bool_decide_eq_true_2 by done; cbn; try done;
    try (destruct (Hstarted eq_refl) as [_ ->]; done);
    destruct rv, rs, gs, (reset_required_by cf); cbn in *; done.
Qed.

(** * Serving actions *)

(** A host that performs the pending action and reports success, answering with
    [rid] and [sid] where an identifier is due. *)
Definition serve_one (rid sid : Z) (cw : kb2_controller C * world) :
    option (kb2_controller C * world) :=
  let '(c, w) := cw in
  match kb2_controller_pending_action (Some c) with
  | None => None
  | Some ac =>
      let rid := if bool_decide (ac_type ac = KB2_ACTION_ALLOCATE_RESOURCES) then rid else 0 in
      let sid := if bool_decide (ac_type ac = KB2_ACTION_LAUNCH_SANDBOX) then sid else 0 in
      match exec ac rid sid w with
      | None => None
      | Some w =>
          Some ((complete_body c (ac_generation ac) (ac_token ac) KB2_STATUS_OK rid sid).2, w)
      end
  end.

Fixpoint serve (n : nat) (rid sid : Z) (cw : kb2_controller C * world) :
    option (kb2_controller C * world) :=
  match n with
  | O => Some cw
  | S n => match serve_one rid sid cw with None => None | Some cw => serve n rid sid cw end
  end.

Lemma serve_one_step c w rid sid :
  ctl_ok c -> tracks c w -> action_pending c = true -> rid <> 0 -> sid <> 0 ->
  exists w' r s,
    serve_one rid sid (c, w) =
      Some ((complete_switch (kb2_clear_action c) (ac_type (action c)) r s).2, w') /\
    sys_step (c, w) ((complete_switch (kb2_clear_action c) (ac_type (action c)) r s).2, w') /\
    (ac_type (action c) = KB2_ACTION_ALLOCATE_RESOURCES -> r = rid) /\
    (ac_type (action c) = KB2_ACTION_LAUNCH_SANDBOX -> s = sid).
Proof.
  intros Hok Ht Hp Hrid Hsid. unfold serve_one, kb2_controller_pending_action. rewrite Hp.
  set (r := if bool_decide (ac_type _ = KB2_ACTION_ALLOCATE_RESOURCES) then rid else 0).
  set (s := if bool_decide (ac_type _ = KB2_ACTION_LAUNCH_SANDBOX) then sid else 0).
  destruct (pending_exec c w r s Hok Ht Hp) as [w' Hw]. rewrite Hw.
  assert (Hacc : accepted c (ac_generation (action c)) (ac_token (action c)) KB2_STATUS_OK r s = true).
  { unfold accepted. rewrite Hp, Z.eqb_refl.
    change (kb2_action_result_valid KB2_STATUS_OK) with true.
    destruct Hok as [_ Ha _ _]. rewrite Hp in Ha.
    assert (Hg : ac_generation (action c) = generation c) by (rewrite Ha; done).
    rewrite Hg, Z.eqb_refl. unfold completion_ids_valid, r, s.
    rewrite (bool_decide_eq_true_2 (KB2_STATUS_OK = KB2_STATUS_OK)) by done.
    destruct (ac_type (action c)); repeat case_bool_decide; try done; cbn; lia. }
  exists w', r, s. rewrite <- (complete_accepted _ _ _ _ _ Hacc).
  split; [done |]. split; [by eapply step_complete_ok |].
  split; intros E; unfold r, s; rewrite E; by rewrite bool_decide_eq_true_2.
Qed.

(** Cleanup actions still to be requested. *)
Definition cleanup_left c : nat :=
  Nat.b2n (process_started c) + Nat.b2n (resources_allocated c && negb (resources_revoked c)) +
  Nat.b2n (resources_allocated c && reset_required_by (configuration c) && negb (resources_reset c)) +
  Nat.b2n (process_started c || process_exited c) + Nat.b2n (resources_allocated c).

Lemma cleanup_left_le c : (cleanup_left c <= 5)%nat.
Proof.
  unfold cleanup_left.
  destruct (process_started c), (resources_allocated c), (resources_revoked c),
    (process_exited c), (resources_reset c), (reset_required_by _); cbn; lia.
Qed.

Lemma cleanup_left_choice c : cleanup_left c = O <-> cleanup_choice c = None.
Proof.
  unfold cleanup_left, cleanup_choice.
  destruct (process_started c), (resources_allocated c), (resources_revoked c),
    (process_exited c), (resources_reset c), (reset_required_by _); done.
Qed.

(** Completing a cleanup action crosses exactly one item off the list. *)
Lemma complete_cleanup c r s :
  ctl_ok c -> state c = KB2_STATE_STOPPING -> action_pending c = true ->
  exists c1,
    complete_switch (kb2_clear_action c) (ac_type (action c)) r s = kb2_next_cleanup_action c1 /\
    cleanup_left c = S (cleanup_left c1) /\
    state c1 = KB2_STATE_STOPPING /\ action_pending c1 = false /\ action c1 = zero_action /\
    restart_requested c1 = restart_requested c /\ configuration c1 = configuration c /\
    generation c1 = generation c /\ next_token c1 = next_token c.
Proof.
  intros [Hf _ _ Hph] Hs Hp. unfold pending_type in Hph. rewrite Hp, Hs in Hph. cbn in Hph.
  open_controller c. cbn in *. open_flags Hf. unfold cleanup_choice in Hph; cbn in Hph.
  unfold cleanup_left; cbn.
  destruct (ac_type act); cbn [complete_switch];
    (try (by destruct ps, al, rv, rs, pe, gs, (reset_required_by cf)));
    eexists; (split; [reflexivity |]); cbn;
    destruct ps, al, rv, pe, gs; cbn in *; try done; try (by specialize (Hexcl eq_refl));
    try (by destruct (Hstarted eq_refl));
    destruct rs, (reset_required_by cf); cbn in *; done.
Qed.

Lemma drain n c w rid sid :
  ctl_ok c -> tracks c w -> state c = KB2_STATE_STOPPING -> action_pending c = true ->
  cleanup_left c = S n -> next_token c + Z.of_nat n <= U64_MAX -> rid <> 0 -> sid <> 0 ->
  exists c0 w',
    serve (S n) rid sid (c, w) = Some ((kb2_finish_cleanup c0).2, w') /\
    rtc sys_step (c, w) ((kb2_finish_cleanup c0).2, w') /\
    cleanup_choice c0 = None /\
    action_pending c0 = false /\ restart_requested c0 = restart_requested c /\
    configuration c0 = configuration c /\ generation c0 = generation c /\
    next_token c0 = next_token c + Z.of_nat n.
Proof.
  revert c w. induction n as [|n IH]; intros c w Hok Ht Hs Hp Hleft Htok Hrid Hsid.
  all: destruct (serve_one_step c w rid sid) as (w1 & r & s & Hserve & Hstep & _); try done.
  all: destruct (complete_cleanup c r s) as (c1 & Hc & Hl & Hs1 & Hp1 & Ha1 & Hr1 & Hcf1 & Hg1 & Hn1);
    try done.
  all: rewrite Hc, next_cleanup_action_choice in Hserve, Hstep.
  - assert (Hch : cleanup_choice c1 = None) by (apply cleanup_left_choice; lia).
    rewrite Hch in Hserve, Hstep. exists c1, w1. cbn [serve]. rewrite Hserve.
    split_and!; try done; [by apply rtc_once | lia].
  - destruct (cleanup_choice c1) as [t |] eqn:Hch; [| apply cleanup_left_choice in Hch; lia].
    destruct (step_preserves _ _ _ _ Hstep Hok Ht) as [Hok2 Ht2].
    assert (Hne : next_token c1 =? U64_MAX = false) by lia.
    assert (Htok1 : 0 <= next_token c <= U64_MAX) by (apply (fl_token c), Hok).
    assert (Hu : u64 (next_token c1 + 1) = next_token c1 + 1)
      by (apply u64_small; unfold is_u64, U64_MAX in *; lia).
    unfold kb2_emit_action in *. rewrite Hne in *. cbn [snd] in *.
    edestruct (IH _ _ Hok2 Ht2) as (c0 & w' & Hsv & Hrtc & Hrest);
      [by open_controller c1 | by open_controller c1 | | | done | done |].
    + open_controller c1. cbn in *. unfold cleanup_left in *. cbn in *. lia.
    + open_controller c1. cbn in *. lia.
    + exists c0, w'. cbn [serve]. rewrite Hserve. split; [done |].
      split; [by eapply rtc_l |].
      destruct Hrest as (? & ? & Hq1 & Hq2 & Hq3 & Hq4).
      open_controller c1. cbn in *. split_and!; try congruence. lia.
Qed.

(** * Tokens *)

(** Either a new token was drawn, or the pending action is the old one or gone. *)
Definition advances c c' : Prop :=
  next_token c < next_token c' \/
  (next_token c' = next_token c /\
   (action_pending c' = false \/
    (action c' = action c /\ action_pending c' = action_pending c))).

Lemma advances_trans c1 c2 c3 : advances c1 c2 -> advances c2 c3 -> advances c1 c3.
Proof.
  unfold advances. intros [H1 | (H1 & [H2 | [H2 H3]])] [H4 | (H4 & [H5 | [H5 H6]])];
    try (left; lia); right; (split; [lia |]); try (left; congruence); right; split; congruence.
Qed.

Lemma advances_cleared c c' :
  next_token c' = next_token c -> action_pending c' = false -> advances c c'.
Proof. unfold advances. auto. Qed.

Lemma emit_advances c c' t :
  0 <= next_token c' <= U64_MAX -> next_token c' = next_token c -> action_pending c' = false ->
  advances c (kb2_emit_action c' t).2.
Proof.
  intros Hr Hn Hp. unfold kb2_emit_action. case_match eqn:E.
  - apply advances_cleared; by open_controller c'.
  - left. open_controller c'. cbn in *. rewrite u64_small; unfold is_u64, U64_MAX in *; lia.
Qed.

Lemma begin_start_advances c c' :
  0 <= next_token c' <= U64_MAX -> next_token c' = next_token c -> action_pending c' = false ->
  advances c (kb2_begin_start c').2.
Proof.
  intros Hr Hn Hp. unfold kb2_begin_start.
  do 2 (case_match; [by apply advances_cleared |]).
  apply emit_advances; by open_controller c'.
Qed.

Lemma next_cleanup_advances c c' :
  0 <= next_token c' <= U64_MAX -> next_token c' = next_token c -> action_pending c' = false ->
  advances c (kb2_next_cleanup_action c').2.
Proof.
  intros Hr Hn Hp. rewrite next_cleanup_action_choice. case_match; [by apply emit_advances |].
  unfold kb2_finish_cleanup. set (c1 := set_fault_code _ _).
  assert (Hc1 : 0 <= next_token c1 <= U64_MAX /\ next_token c1 = next_token c /\
               action_pending c1 = false) by (by open_controller c').
  destruct Hc1 as (Hc1 & Hc2 & Hc3). case_match; [| by apply advances_cleared].
  pose proof (begin_start_advances c c1 Hc1 Hc2 Hc3) as Hb.
  destruct (kb2_begin_start c1) as [status c2]. cbn in *. case_match; [| done].
  by open_controller c2.
Qed.

Lemma complete_advances c gen token s rid sid :
  ctl_ok c -> advances c (complete_body c gen token s rid sid).2.
Proof.
  intros Hok. assert (Hrefl : advances c c) by (right; auto).
  pose proof (fl_token c (ok_flags c Hok)) as Hr. unfold complete_body.
  do 5 (case_match; [done |]). case_match; [by apply advances_cleared; open_controller c |].
  destruct (ac_type (action c)); cbn [complete_switch];
    (apply emit_advances || apply next_cleanup_advances || apply advances_cleared);
    by open_controller c.
Qed.

Lemma step_advances c w c' w' : sys_step (c, w) (c', w') -> ctl_ok c -> advances c c'.
Proof.
  intros Hstep Hok. pose proof (fl_token c (ok_flags c Hok)) as Hr.
  assert (Hrefl : advances c c) by (right; auto).
  assert (Hcfg : forall cfg, advances c (set_configuration c cfg)) by (intros cfg; right; open_controller c; cbn; auto).
  inversion Hstep; subst; clear Hstep; try by apply complete_advances.
  - match goal with E : set_closure_body _ _ _ = _ |- _ =>
      apply set_closure_effect in E as [-> | (_ & cfg & ->)] end; auto.
  - unfold set_digest_body. repeat case_match; (done || apply Hcfg).
  - unfold set_limit_body. repeat case_match; (done || apply Hcfg).
  - unfold start_body. case_match; [done |]. case_match; [done |]. by apply begin_start_advances.
  - unfold cleanup_from, kb2_begin_cleanup. do 2 (case_match; [done |]).
    apply next_cleanup_advances; by open_controller c.
  - unfold report_ready_body. repeat case_match; try done. right. open_controller c. cbn. auto.
  - unfold report_fault_body. do 4 (case_match; [done |]). right. open_controller c.
    case_match; cbn; auto.
Qed.

Lemma steps_advance cw cw' :
  rtc sys_step cw cw' -> ctl_ok cw.1 -> tracks cw.1 cw.2 -> advances cw.1 cw'.1.
Proof.
  induction 1 as [cw | [c w] [c1 w1] [c2 w2] Hstep _ IH]; intros Hok Ht; [by right; auto |].
  destruct (step_preserves _ _ _ _ Hstep Hok Ht) as [Hok1 Ht1].
  eapply advances_trans; [by eapply step_advances | by apply IH].
Qed.

(** * The configuration of a generation *)

Lemma emit_configuration c t : configuration (kb2_emit_action c t).2 = configuration c.
Proof. unfold kb2_emit_action. open_controller c. by case_match. Qed.

Lemma begin_start_configuration c : configuration (kb2_begin_start c).2 = configuration c.
Proof.
  unfold kb2_begin_start. do 2 (case_match; [done |]). rewrite emit_configuration.
  by open_controller c.
Qed.

Lemma next_cleanup_configuration c :
  configuration (kb2_next_cleanup_action c).2 = configuration c.
Proof.
  rewrite next_cleanup_action_choice. case_match; [apply emit_configuration |].
  unfold kb2_finish_cleanup. case_match; [| by open_controller c].
  set (c1 := set_fault_code _ _). pose proof (begin_start_configuration c1) as Hb.
  destruct (kb2_begin_start c1) as [status c2]. cbn in Hb.
  case_match; (transitivity (configuration c2); [by open_controller c2 |]); rewrite Hb;
    by open_controller c.
Qed.

Lemma complete_configuration c gen token s rid sid :
  configuration (complete_body c gen token s rid sid).2 = configuration c.
Proof.
  unfold complete_body. do 5 (case_match; [done |]). case_match; [by open_controller c |].
  destruct (ac_type (action c)); cbn [complete_switch];
    rewrite ?emit_configuration, ?next_cleanup_configuration; by open_controller c.
Qed.

Lemma step_configuration c w c' w' :
  sys_step (c, w) (c', w') -> not_configurable c = true -> configuration c' = configuration c.
Proof.
  intros Hstep Hn. inversion Hstep; subst; clear Hstep.
  - match goal with E : set_closure_body _ _ _ = _ |- _ =>
      apply set_closure_effect in E as [-> | (Hn' & _)] end; congruence.
  - unfold set_digest_body. rewrite Hn. by repeat case_match.
  - unfold set_limit_body. rewrite Hn. by repeat case_match.
  - unfold start_body. case_match; [done |]. case_match; [done |].
    apply begin_start_configuration.
  - unfold cleanup_from, kb2_begin_cleanup. do 2 (case_match; [done |]).
    rewrite next_cleanup_configuration. by open_controller c.
  - unfold report_ready_body. repeat case_match; try done. by open_controller c.
  - unfold report_fault_body. do 4 (case_match; [done |]). open_controller c. by case_match.
  - by apply complete_configuration.
  - by apply complete_configuration.
  - by apply complete_configuration.
Qed.
End Spec.
