(* ===== verification/ClosureData.v ===== *)
(** Closure storage and its builder (src/closure_internal.h, src/closure.c).

    A closure describes the artifacts a sandbox loads, their dependencies and
    symbols, and the resources they need.  A growing C array is a [cvec]: its
    block, the records in use and its capacity.  Names are C strings: the bytes
    before the terminating NUL.  Each builder call is the whole C function,
    including the growth of the array through the host's allocator. *)

From Stdlib Require Import ZArith Lia.
From stdpp Require Import base numbers list gmap tactics.
From S2P Require Import Prelude Host.

Open Scope Z_scope.

Definition KB2_CLOSURE_NAME_MAX : Z := 127.
Definition KB2_CLOSURE_MAX_ARTIFACTS : Z := 4096.
Definition KB2_CLOSURE_MAX_DEPENDENCIES : Z := 65536.
Definition KB2_CLOSURE_MAX_SYMBOLS : Z := 65536.
Definition KB2_CLOSURE_MAX_RESOURCES : Z := 16384.
Definition KB2_CLOSURE_MAX_RESOURCE_BINDINGS : Z := 65536.

Definition KB2_ARTIFACT_SHARED_PROVIDER : Z := 0.
Definition KB2_ARTIFACT_RELOCATABLE_MODULE : Z := 1.
Definition KB2_SYMBOL_FUNCTION : Z := 0.
Definition KB2_SYMBOL_OBJECT : Z := 1.
Definition KB2_IMPORT_OPTIONAL : Z := 1.
Definition KB2_RESOURCE_MEMORY : Z := 0.
Definition KB2_RESOURCE_DEVICE : Z := 1.
Definition KB2_RESOURCE_STORAGE : Z := 2.
Definition KB2_RESOURCE_NOTIFICATION : Z := 3.
Definition KB2_RESOURCE_CHANNEL : Z := 4.
Definition KB2_RESOURCE_REQUIRED : Z := 1.
Definition KB2_RESOURCE_SHARED : Z := 2.
Definition KB2_RESOURCE_RESET_REQUIRED : Z := 4.
Definition KB2_KNOWN_IMPORT_FLAGS : Z := KB2_IMPORT_OPTIONAL.
Definition KB2_KNOWN_RESOURCE_FLAGS : Z :=
  Z.lor (Z.lor KB2_RESOURCE_REQUIRED KB2_RESOURCE_SHARED) KB2_RESOURCE_RESET_REQUIRED.

Record artifact := mkArtifact {
  ar_content_digest : list Z;
  ar_namespace_name : list Z;
  ar_init_symbol : list Z;
  ar_quiesce_symbol : list Z;
  ar_cleanup_symbol : list Z;
  ar_node_id : Z;
  ar_kind : Z;
  ar_lifecycle_set : bool;
  ar_native_lifecycle : bool;
  ar_is_root : bool;
}.

Record dependency := mkDependency { dp_consumer : Z; dp_provider : Z }.

Record export := mkExport { ex_symbol : list Z; ex_node_id : Z; ex_kind : Z }.

Record import := mkImport {
  im_consumer_symbol : list Z;
  im_provider_symbol : list Z;
  im_consumer : Z;
  im_provider : Z;
  im_kind : Z;
  im_flags : Z;
}.

Record resource := mkResource {
  rs_interface_schema_digest : list Z;
  rs_required_rights : Z;
  rs_maximum_rights : Z;
  rs_slot_id : Z;
  rs_type : Z;
  rs_minimum_count : Z;
  rs_maximum_count : Z;
  rs_flags : Z;
}.

Record binding := mkBinding { bd_slot_id : Z; bd_node_id : Z }.

#[export] Instance artifact_eq_dec : EqDecision artifact.
Proof. solve_decision. Defined.
#[export] Instance dependency_eq_dec : EqDecision dependency.
Proof. solve_decision. Defined.
#[export] Instance export_eq_dec : EqDecision export.
Proof. solve_decision. Defined.
#[export] Instance import_eq_dec : EqDecision import.
Proof. solve_decision. Defined.
#[export] Instance resource_eq_dec : EqDecision resource.
Proof. solve_decision. Defined.
#[export] Instance binding_eq_dec : EqDecision binding.
Proof. solve_decision. Defined.

(** A heap array of records: [T *items; size_t count, capacity]. *)
Record cvec (T : Type) := mkVec { cv_block : option Z; cv_items : list T; cv_capacity : Z }.
Arguments mkVec {T}.
Arguments cv_block {T}.
Arguments cv_items {T}.
Arguments cv_capacity {T}.

Definition cv_count {T} (v : cvec T) : Z := Z.of_nat (length (cv_items v)).
Definition empty_vec {T} : cvec T := mkVec None [] 0.
Definition cv_push {T} (v : cvec T) (x : T) : cvec T :=
  mkVec (cv_block v) (cv_items v ++ [x]) (cv_capacity v).
Definition cv_update {T} (v : cvec T) (items : list T) : cvec T :=
  mkVec (cv_block v) items (cv_capacity v).

(** Record sizes under LP64. *)
Definition SIZEOF_ARTIFACT : Z := 564.
Definition SIZEOF_DEPENDENCY : Z := 8.
Definition SIZEOF_EXPORT : Z := 136.
Definition SIZEOF_IMPORT : Z := 272.
Definition SIZEOF_RESOURCE : Z := 72.
Definition SIZEOF_BINDING : Z := 8.
Definition SIZEOF_BUILDER : Z := 200.
Definition SIZEOF_CLOSURE : Z := 192.

Record storage := mkStorage {
  artifacts : cvec artifact;
  dependencies : cvec dependency;
  exports : cvec export;
  imports : cvec import;
  resources : cvec resource;
  resource_bindings : cvec binding;
  manifest_digest : list Z;
}.

Definition set_artifacts (s : storage) v :=
  mkStorage v (dependencies s) (exports s) (imports s) (resources s) (resource_bindings s)
    (manifest_digest s).
Definition set_dependencies (s : storage) v :=
  mkStorage (artifacts s) v (exports s) (imports s) (resources s) (resource_bindings s)
    (manifest_digest s).
Definition set_exports (s : storage) v :=
  mkStorage (artifacts s) (dependencies s) v (imports s) (resources s) (resource_bindings s)
    (manifest_digest s).
Definition set_imports (s : storage) v :=
  mkStorage (artifacts s) (dependencies s) (exports s) v (resources s) (resource_bindings s)
    (manifest_digest s).
Definition set_resources (s : storage) v :=
  mkStorage (artifacts s) (dependencies s) (exports s) (imports s) v (resource_bindings s)
    (manifest_digest s).
Definition set_resource_bindings (s : storage) v :=
  mkStorage (artifacts s) (dependencies s) (exports s) (imports s) (resources s) v
    (manifest_digest s).

Record kb2_closure_builder := mkBuilder { bl_self : Z; bl_storage : storage }.

(** ** Validity of arguments *)

Definition name_byte_valid (value : Z) : bool :=
  negb ((value <? 0x21) || (0x7e <? value) || (value =? 47) || (value =? 92)).

Definition kb2_name_valid (name : option (list Z)) (len : Z) : bool :=
  match name with
  | None => false
  | Some name =>
      if (len =? 0) || (KB2_CLOSURE_NAME_MAX <? len) then false
      else forallb (fun i => name_byte_valid (nth i name 0)) (seq 0 (Z.to_nat len))
  end.

(** kb2_copy_name: the string stored for the first [len] bytes of [name]. *)
Definition kb2_copy_name (name : option (list Z)) (len : Z) : list Z :=
  take (Z.to_nat len) (default [] name).

(** strlen(stored) == len && memcmp(stored, name, len) == 0 *)
Definition same_name (stored : list Z) (name : option (list Z)) (len : Z) : bool :=
  (Z.of_nat (length stored) =? len) && bool_decide (stored = kb2_copy_name name len).

Definition kb2_artifact_kind_valid (kind : Z) : bool :=
  (KB2_ARTIFACT_SHARED_PROVIDER <=? kind) && (kind <=? KB2_ARTIFACT_RELOCATABLE_MODULE).
Definition kb2_symbol_kind_valid (kind : Z) : bool :=
  (KB2_SYMBOL_FUNCTION <=? kind) && (kind <=? KB2_SYMBOL_OBJECT).
Definition kb2_resource_type_valid (type : Z) : bool :=
  (KB2_RESOURCE_MEMORY <=? type) && (type <=? KB2_RESOURCE_CHANNEL).

Definition kb2_known_resource_rights (type : Z) : Z :=
  if type =? KB2_RESOURCE_MEMORY then 15
  else if type =? KB2_RESOURCE_DEVICE then 7
  else if type =? KB2_RESOURCE_STORAGE then 15
  else if type =? KB2_RESOURCE_NOTIFICATION then 3
  else if type =? KB2_RESOURCE_CHANNEL then 3
  else 0.

Definition digest_arg (digest : list Z) : list Z := take (Z.to_nat KB2_DIGEST_SIZE) digest.

(** ** Lookups *)

Fixpoint find_index {T} (p : T -> bool) (l : list T) : option nat :=
  match l with
  | [] => None
  | x :: l => if p x then Some O else option_map S (find_index p l)
  end.

Definition kb2_builder_find_artifact (s : storage) (node_id : Z) : option nat :=
  find_index (fun r => ar_node_id r =? node_id) (cv_items (artifacts s)).

Definition kb2_find_export (s : storage) (node_id : Z) (symbol : list Z) (kind : Z) : option nat :=
  find_index (fun r => (ex_node_id r =? node_id) && (ex_kind r =? kind) &&
                       bool_decide (ex_symbol r = symbol)) (cv_items (exports s)).

Definition kb2_has_dependency (s : storage) (consumer provider : Z) : bool :=
  existsb (fun r => (dp_consumer r =? consumer) && (dp_provider r =? provider))
          (cv_items (dependencies s)).

Definition kb2_find_resource (s : storage) (slot_id : Z) : option nat :=
  find_index (fun r => rs_slot_id r =? slot_id) (cv_items (resources s)).

(** ** Builder *)

Section Builder.
Context {A : Type} `{Allocator A}.

Definition kb2_reserve {T} (a : A) (v : cvec T) (item_size maximum_count : Z) :
    kb2_status * cvec T * A :=
  let count := cv_count v in
  let capacity := cv_capacity v in
  if count <? capacity then (KB2_STATUS_OK, v, a)
  else if maximum_count <=? count then (KB2_STATUS_RESOURCE_EXHAUSTED, v, a)
  else
    let new_capacity := if capacity =? 0 then 8 else u64 (capacity * 2) in
    let new_capacity :=
      if (new_capacity <? capacity) || (maximum_count <? new_capacity) then maximum_count
      else new_capacity in
    if SIZE_MAX / item_size <? new_capacity then (KB2_STATUS_RESOURCE_EXHAUSTED, v, a)
    else
      match allocate a (u64 (new_capacity * item_size)) with
      | (None, a) => (KB2_STATUS_NO_MEMORY, v, a)
      | (Some p, a) =>
          let a := match cv_block v with
                   | Some old => deallocate a old (u64 (capacity * item_size))
                   | None => a
                   end in
          (KB2_STATUS_OK, mkVec (Some p) (cv_items v) new_capacity, a)
      end.

Definition zero_storage (digest : list Z) : storage :=
  mkStorage empty_vec empty_vec empty_vec empty_vec empty_vec empty_vec digest.

Definition kb2_closure_builder_create (a : A) (allocate_given deallocate_given : bool)
    (manifest : option (list Z)) (digest_size : Z) (out_given : bool) :
    kb2_status * option kb2_closure_builder * A :=
  match manifest with
  | None => (KB2_STATUS_INVALID_ARGUMENT, None, a)
  | Some manifest =>
      if negb allocate_given || negb deallocate_given || negb (digest_size =? KB2_DIGEST_SIZE) ||
         negb out_given then (KB2_STATUS_INVALID_ARGUMENT, None, a)
      else if kb2_digest_is_zero (digest_arg manifest) then
        (KB2_STATUS_INVALID_CONFIGURATION, None, a)
      else
        match allocate a SIZEOF_BUILDER with
        | (None, a) => (KB2_STATUS_NO_MEMORY, None, a)
        | (Some p, a) =>
            (KB2_STATUS_OK, Some (mkBuilder p (zero_storage (digest_arg manifest))), a)
        end
  end.

(** A builder call: NULL is an invalid argument, and only the storage changes. *)
Definition with_builder (a : A) (b : option kb2_closure_builder)
    (f : A -> storage -> kb2_status * storage * A) : kb2_status * option kb2_closure_builder * A :=
  match b with
  | None => (KB2_STATUS_INVALID_ARGUMENT, None, a)
  | Some b => let '(st, s, a) := f a (bl_storage b) in (st, Some (mkBuilder (bl_self b) s), a)
  end.

(** Reserve a slot and append a record to it. *)
Definition push_record {T} (a : A) (s : storage) (get : storage -> cvec T)
    (set : storage -> cvec T -> storage) (item_size maximum_count : Z) (x : T) :
    kb2_status * storage * A :=
  match kb2_reserve a (get s) item_size maximum_count with
  | (KB2_STATUS_OK, v, a) => (KB2_STATUS_OK, set s (cv_push v x), a)
  | (status, v, a) => (status, set s v, a)
  end.

Definition add_artifact_body (node_id kind : Z) (content_digest : option (list Z))
    (digest_size : Z) (namespace_name : option (list Z)) (namespace_length : Z)
    (a : A) (s : storage) : kb2_status * storage * A :=
  match content_digest with
  | None => (KB2_STATUS_INVALID_ARGUMENT, s, a)
  | Some content_digest =>
      if (node_id =? 0) || negb (kb2_artifact_kind_valid kind) ||
         negb (digest_size =? KB2_DIGEST_SIZE) ||
         negb (kb2_name_valid namespace_name namespace_length) then
        (KB2_STATUS_INVALID_ARGUMENT, s, a)
      else if kb2_digest_is_zero (digest_arg content_digest) then
        (KB2_STATUS_INVALID_CONFIGURATION, s, a)
      else if existsb (fun r => (ar_node_id r =? node_id) ||
                                same_name (ar_namespace_name r) namespace_name namespace_length)
                      (cv_items (artifacts s)) then (KB2_STATUS_INVALID_CONFIGURATION, s, a)
      else
        push_record a s artifacts set_artifacts SIZEOF_ARTIFACT KB2_CLOSURE_MAX_ARTIFACTS
          (mkArtifact (digest_arg content_digest) (kb2_copy_name namespace_name namespace_length)
             [] [] [] node_id kind false false false)
  end.

Definition kb2_closure_builder_add_artifact a b node_id kind content_digest digest_size
    namespace_name namespace_length :=
  with_builder a b (add_artifact_body node_id kind content_digest digest_size namespace_name
                      namespace_length).

(** Write through the record pointer kb2_builder_find_artifact returned. *)
Definition alter_artifact (s : storage) (i : nat) (f : artifact -> artifact) : storage :=
  set_artifacts s (cv_update (artifacts s) (alter f i (cv_items (artifacts s)))).

Definition artifact_at (s : storage) (i : nat) : option artifact := cv_items (artifacts s) !! i.

Definition set_lifecycle_body (node_id : Z) (init : option (list Z)) (init_length : Z)
    (quiesce : option (list Z)) (quiesce_length : Z) (cleanup : option (list Z))
    (cleanup_length : Z) (a : A) (s : storage) : kb2_status * storage * A :=
  if (node_id =? 0) || negb (kb2_name_valid init init_length) ||
     negb (kb2_name_valid quiesce quiesce_length) || negb (kb2_name_valid cleanup cleanup_length)
  then (KB2_STATUS_INVALID_ARGUMENT, s, a)
  else
    match kb2_builder_find_artifact s node_id ≫= fun i => pair i <$> artifact_at s i with
    | None => (KB2_STATUS_INVALID_CONFIGURATION, s, a)
    | Some (i, r) =>
        if ar_lifecycle_set r then (KB2_STATUS_INVALID_CONFIGURATION, s, a)
        else
          (KB2_STATUS_OK,
           alter_artifact s i (fun r =>
             mkArtifact (ar_content_digest r) (ar_namespace_name r)
               (kb2_copy_name init init_length) (kb2_copy_name quiesce quiesce_length)
               (kb2_copy_name cleanup cleanup_length) (ar_node_id r) (ar_kind r)
               true (ar_native_lifecycle r) (ar_is_root r)), a)
    end.

Definition kb2_closure_builder_set_lifecycle a b node_id init init_length quiesce quiesce_length
    cleanup cleanup_length :=
  with_builder a b (set_lifecycle_body node_id init init_length quiesce quiesce_length
                      cleanup cleanup_length).

Definition set_native_lifecycle_body (node_id : Z) (a : A) (s : storage) :
    kb2_status * storage * A :=
  if node_id =? 0 then (KB2_STATUS_INVALID_ARGUMENT, s, a)
  else
    match kb2_builder_find_artifact s node_id ≫= fun i => pair i <$> artifact_at s i with
    | None => (KB2_STATUS_INVALID_CONFIGURATION, s, a)
    | Some (i, r) =>
        if ar_lifecycle_set r then (KB2_STATUS_INVALID_CONFIGURATION, s, a)
        else
          (KB2_STATUS_OK,
           alter_artifact s i (fun r =>
             mkArtifact (ar_content_digest r) (ar_namespace_name r) (ar_init_symbol r)
               (ar_quiesce_symbol r) (ar_cleanup_symbol r) (ar_node_id r) (ar_kind r)
               true true (ar_is_root r)), a)
    end.

Definition kb2_closure_builder_set_native_lifecycle a b node_id :=
  with_builder a b (set_native_lifecycle_body node_id).

Definition mark_root_body (node_id : Z) (a : A) (s : storage) : kb2_status * storage * A :=
  if node_id =? 0 then (KB2_STATUS_INVALID_ARGUMENT, s, a)
  else
    match kb2_builder_find_artifact s node_id ≫= fun i => pair i <$> artifact_at s i with
    | None => (KB2_STATUS_INVALID_CONFIGURATION, s, a)
    | Some (i, r) =>
        if negb (ar_kind r =? KB2_ARTIFACT_RELOCATABLE_MODULE) || ar_is_root r then
          (KB2_STATUS_INVALID_CONFIGURATION, s, a)
        else
          (KB2_STATUS_OK,
           alter_artifact s i (fun r =>
             mkArtifact (ar_content_digest r) (ar_namespace_name r) (ar_init_symbol r)
               (ar_quiesce_symbol r) (ar_cleanup_symbol r) (ar_node_id r) (ar_kind r)
               (ar_lifecycle_set r) (ar_native_lifecycle r) true), a)
    end.

Definition kb2_closure_builder_mark_root a b node_id := with_builder a b (mark_root_body node_id).

Definition add_dependency_body (consumer provider : Z) (a : A) (s : storage) :
    kb2_status * storage * A :=
  if (consumer =? 0) || (provider =? 0) then (KB2_STATUS_INVALID_ARGUMENT, s, a)
  else if (consumer =? provider) || kb2_has_dependency s consumer provider then
    (KB2_STATUS_INVALID_CONFIGURATION, s, a)
  else
    push_record a s dependencies set_dependencies SIZEOF_DEPENDENCY KB2_CLOSURE_MAX_DEPENDENCIES
      (mkDependency consumer provider).

Definition kb2_closure_builder_add_dependency a b consumer provider :=
  with_builder a b (add_dependency_body consumer provider).

Definition add_export_body (node_id : Z) (symbol : option (list Z)) (symbol_length kind : Z)
    (a : A) (s : storage) : kb2_status * storage * A :=
  if (node_id =? 0) || negb (kb2_name_valid symbol symbol_length) ||
     negb (kb2_symbol_kind_valid kind) then (KB2_STATUS_INVALID_ARGUMENT, s, a)
  else if existsb (fun r => (ex_node_id r =? node_id) && same_name (ex_symbol r) symbol symbol_length)
                  (cv_items (exports s)) then (KB2_STATUS_INVALID_CONFIGURATION, s, a)
  else
    push_record a s exports set_exports SIZEOF_EXPORT KB2_CLOSURE_MAX_SYMBOLS
      (mkExport (kb2_copy_name symbol symbol_length) node_id kind).

Definition kb2_closure_builder_add_export a b node_id symbol symbol_length kind :=
  with_builder a b (add_export_body node_id symbol symbol_length kind).

Definition add_import_body (consumer : Z) (consumer_symbol : option (list Z))
    (consumer_symbol_length provider : Z) (provider_symbol : option (list Z))
    (provider_symbol_length kind flags : Z) (a : A) (s : storage) : kb2_status * storage * A :=
  if (consumer =? 0) || negb (kb2_name_valid consumer_symbol consumer_symbol_length) ||
     negb (kb2_name_valid provider_symbol provider_symbol_length) ||
     negb (kb2_symbol_kind_valid kind) || negb (flags &~ KB2_KNOWN_IMPORT_FLAGS =? 0) then
    (KB2_STATUS_INVALID_ARGUMENT, s, a)
  else if existsb (fun r => (im_consumer r =? consumer) &&
                            same_name (im_consumer_symbol r) consumer_symbol consumer_symbol_length)
                  (cv_items (imports s)) then (KB2_STATUS_INVALID_CONFIGURATION, s, a)
  else
    push_record a s imports set_imports SIZEOF_IMPORT KB2_CLOSURE_MAX_SYMBOLS
      (mkImport (kb2_copy_name consumer_symbol consumer_symbol_length)
         (kb2_copy_name provider_symbol provider_symbol_length) consumer provider kind flags).

Definition kb2_closure_builder_add_import a b consumer consumer_symbol consumer_symbol_length
    provider provider_symbol provider_symbol_length kind flags :=
  with_builder a b (add_import_body consumer consumer_symbol consumer_symbol_length provider
                      provider_symbol provider_symbol_length kind flags).

Definition resource_limits_invalid (type minimum_count maximum_count required_rights
    maximum_rights flags : Z) : bool :=
  let known_rights := kb2_known_resource_rights type in
  (maximum_count =? 0) || (maximum_count <? minimum_count) || (maximum_rights =? 0) ||
  negb (maximum_rights &~ known_rights =? 0) || negb (required_rights &~ maximum_rights =? 0) ||
  (negb (Z.land flags KB2_RESOURCE_REQUIRED =? 0) && (minimum_count =? 0)).

Definition add_resource_body (slot_id type : Z) (interface_schema_digest : option (list Z))
    (digest_size minimum_count maximum_count required_rights maximum_rights flags : Z)
    (a : A) (s : storage) : kb2_status * storage * A :=
  match interface_schema_digest with
  | None => (KB2_STATUS_INVALID_ARGUMENT, s, a)
  | Some digest =>
      if (slot_id =? 0) || negb (kb2_resource_type_valid type) ||
         negb (digest_size =? KB2_DIGEST_SIZE) || negb (flags &~ KB2_KNOWN_RESOURCE_FLAGS =? 0) then
        (KB2_STATUS_INVALID_ARGUMENT, s, a)
      else if kb2_digest_is_zero (digest_arg digest) then (KB2_STATUS_INVALID_CONFIGURATION, s, a)
      else if resource_limits_invalid type minimum_count maximum_count required_rights
                maximum_rights flags then (KB2_STATUS_INVALID_CONFIGURATION, s, a)
      else if existsb (fun r => rs_slot_id r =? slot_id) (cv_items (resources s)) then
        (KB2_STATUS_INVALID_CONFIGURATION, s, a)
      else
        push_record a s resources set_resources SIZEOF_RESOURCE KB2_CLOSURE_MAX_RESOURCES
          (mkResource (digest_arg digest) required_rights maximum_rights slot_id type
             minimum_count maximum_count flags)
  end.

Definition kb2_closure_builder_add_resource a b slot_id type interface_schema_digest digest_size
    minimum_count maximum_count required_rights maximum_rights flags :=
  with_builder a b (add_resource_body slot_id type interface_schema_digest digest_size
                      minimum_count maximum_count required_rights maximum_rights flags).

Definition bind_resource_body (slot_id node_id : Z) (a : A) (s : storage) :
    kb2_status * storage * A :=
  if (slot_id =? 0) || (node_id =? 0) then (KB2_STATUS_INVALID_ARGUMENT, s, a)
  else if existsb (fun r => (bd_slot_id r =? slot_id) && (bd_node_id r =? node_id))
                  (cv_items (resource_bindings s)) then (KB2_STATUS_INVALID_CONFIGURATION, s, a)
  else
    push_record a s resource_bindings set_resource_bindings SIZEOF_BINDING
      KB2_CLOSURE_MAX_RESOURCE_BINDINGS (mkBinding slot_id node_id).

Definition kb2_closure_builder_bind_resource a b slot_id node_id :=
  with_builder a b (bind_resource_body slot_id node_id).

(** ** Release *)

Definition kb2_release_array {T} (a : A) (v : cvec T) (item_size : Z) : A :=
  match cv_block v with
  | Some p => deallocate a p (u64 (cv_capacity v * item_size))
  | None => a
  end.

Definition kb2_storage_release (a : A) (s : storage) : A :=
  let a := kb2_release_array a (artifacts s) SIZEOF_ARTIFACT in
  let a := kb2_release_array a (dependencies s) SIZEOF_DEPENDENCY in
  let a := kb2_release_array a (exports s) SIZEOF_EXPORT in
  let a := kb2_release_array a (imports s) SIZEOF_IMPORT in
  let a := kb2_release_array a (resources s) SIZEOF_RESOURCE in
  kb2_release_array a (resource_bindings s) SIZEOF_BINDING.

Definition kb2_closure_builder_destroy (a : A) (b : option kb2_closure_builder) : A :=
  match b with
  | None => a
  | Some b =>
      let a := kb2_storage_release a (bl_storage b) in
      deallocate a (bl_self b) SIZEOF_BUILDER
  end.
End Builder.
