(* ===== verification/ClosureGraph.v ===== *)
(** The dependency graph of a closure (src/closure.c: kb2_sort_node_map,
    kb2_node_map_find, kb2_build_node_map, kb2_validate_graph).

    The C code resolves node ids through a sorted map, stores the edges as linked
    lists in flat arrays, runs Kahn's algorithm to reject cycles and a breadth-first
    search to reject artifacts no root needs.  The array code is modelled as
    written ([None] stands for the SIZE_MAX sentinel of the linked lists); the
    theorems relate it to the graph itself: acyclicity, and reachability from the
    roots. *)

From Stdlib Require Import ZArith Lia.
From stdpp Require Import base numbers tactics sorting relations gmap list_numbers list.
From S2P Require Import Prelude Host ClosureData.

Open Scope Z_scope.

(** * Node map *)

(** struct kb2_node_map_entry: a node id and the index of its artifact. *)
Definition node_map_entry : Type := Z * nat.

(** The inner loop of the insertion sort: entries above [value] move one place
    up, then [value] fills the gap. *)
Fixpoint sort_shift (map : list node_map_entry) (value : node_map_entry) (position : nat) :
    list node_map_entry :=
  match position with
  | O => <[O := value]> map
  | S before =>
      match map !! before with
      | Some e =>
          if value.1 <? e.1 then sort_shift (<[S before := e]> map) value before
          else <[S before := value]> map
      | None => map
      end
  end.

Definition kb2_sort_node_map (map : list node_map_entry) : list node_map_entry :=
  foldl (fun map index =>
           match map !! index with
           | Some value => sort_shift map value index
           | None => map
           end) map (seq 1 (length map - 1)).

Definition node_map_key (map : list node_map_entry) (i : nat) : Z := (nth i map (0, O)).1.

Definition kb2_node_map_find (map : list node_map_entry) (node_id : Z) : option nat :=
  (fun middle => (nth middle map (0, O)).2) <$>
    bsearch (length map) (node_map_key map) node_id 0 (length map).

(** The entries before sorting: map[index] = (artifacts[index].node_id, index). *)
Definition node_map_of (arts : list artifact) : list node_map_entry :=
  imap (fun index r => (ar_node_id r, index)) arts.

(** * Adjacency arrays *)

Record adjacency := mkAdjacency {
  heads : list (option nat);
  next : list (option nat);
  targets : list nat;
  incoming : list Z;
}.

Definition empty_adjacency (n m : nat) : adjacency :=
  mkAdjacency (replicate n None) (replicate m None) (replicate m O) (replicate n 0).

Definition link_edge (g : adjacency) (index consumer provider : nat) : adjacency :=
  mkAdjacency (<[consumer := Some index]> (heads g))
              (<[index := nth consumer (heads g) None]> (next g))
              (<[index := provider]> (targets g))
              (<[provider := u32 (nth provider (incoming g) 0 + 1)]> (incoming g)).

Definition kind_at (arts : list artifact) (i : nat) : Z :=
  match arts !! i with Some r => ar_kind r | None => 0 end.

(** The loop over the dependencies; [None] is the INVALID_CONFIGURATION exit. *)
Fixpoint link_edges (arts : list artifact) (map : list node_map_entry) (index : nat)
    (deps : list dependency) (g : adjacency) : option adjacency :=
  match deps with
  | [] => Some g
  | d :: deps =>
      match kb2_node_map_find map (dp_consumer d), kb2_node_map_find map (dp_provider d) with
      | Some consumer, Some provider =>
          if nth provider (incoming g) 0 =? U32_MAX then None
          else if (kind_at arts consumer =? KB2_ARTIFACT_SHARED_PROVIDER) &&
                  negb (kind_at arts provider =? KB2_ARTIFACT_SHARED_PROVIDER) then None
          else link_edges arts map (S index) deps (link_edge g index consumer provider)
      | _, _ => None
      end
  end.

(** for (edge = heads[node]; edge != SIZE_MAX; edge = next[edge]) *)
Fixpoint edge_chain (fuel : nat) (next : list (option nat)) (edge : option nat) : list nat :=
  match fuel, edge with
  | S fuel, Some e => e :: edge_chain fuel next (nth e next None)
  | _, _ => []
  end.

(** The providers the edge loop of [node] visits, in order. *)
Definition edge_targets (g : adjacency) (node : nat) : list nat :=
  (fun e => nth e (targets g) O) <$>
    edge_chain (length (next g)) (next g) (nth node (heads g) None).

(** * Kahn's algorithm *)

Definition kahn_edge (qi : list nat * list Z) (provider : nat) : list nat * list Z :=
  let '(queue, incoming) := qi in
  let left := u32 (nth provider incoming 0 - 1) in
  let incoming := <[provider := left]> incoming in
  if left =? 0 then (queue ++ [provider], incoming) else (queue, incoming).

(** The loop; the result is the queue and the number of processed nodes, [None]
    when the fuel ran out. *)
Fixpoint kahn (fuel : nat) (adj : nat -> list nat) (queue : list nat) (queue_begin : nat)
    (incoming : list Z) (processed : nat) : option (list nat * nat) :=
  match fuel with
  | O => None
  | S fuel =>
      if (queue_begin <? length queue)%nat then
        let node := nth queue_begin queue O in
        let '(queue, incoming) := foldl kahn_edge (queue, incoming) (adj node) in
        kahn fuel adj queue (S queue_begin) incoming (S processed)
      else Some (queue, processed)
  end.

Definition initial_queue (incoming : list Z) : list nat :=
  filter (fun i => nth i incoming 0 = 0) (seq 0 (length incoming)).

(** * Reachability *)

Definition reach_edge (qr : list nat * list bool) (provider : nat) : list nat * list bool :=
  let '(queue, reachable) := qr in
  if nth provider reachable false then (queue, reachable)
  else (queue ++ [provider], <[provider := true]> reachable).

Fixpoint reach (fuel : nat) (adj : nat -> list nat) (queue : list nat) (queue_begin : nat)
    (reachable : list bool) : option (list nat * list bool) :=
  match fuel with
  | O => None
  | S fuel =>
      if (queue_begin <? length queue)%nat then
        let node := nth queue_begin queue O in
        let '(queue, reachable) := foldl reach_edge (queue, reachable) (adj node) in
        reach fuel adj queue (S queue_begin) reachable
      else Some (queue, reachable)
  end.

Definition root_queue (arts : list artifact) : list nat :=
  filter (fun i => (if arts !! i is Some r then ar_is_root r else false) = true)
    (seq 0 (length arts)).

Definition root_flags (arts : list artifact) : list bool := ar_is_root <$> arts.

(** The body of kb2_validate_graph once its six arrays are allocated.  One unit
    of fuel per node, and one for the final test of the loop condition. *)
Definition graph_status (arts : list artifact) (deps : list dependency)
    (map : list node_map_entry) : kb2_status :=
  let n := length arts in
  match link_edges arts map 0 deps (empty_adjacency n (length deps)) with
  | None => KB2_STATUS_INVALID_CONFIGURATION
  | Some g =>
      match kahn (S n) (edge_targets g) (initial_queue (incoming g)) 0 (incoming g) 0 with
      | None => KB2_STATUS_INVALID_CONFIGURATION
      | Some (_, processed) =>
          if negb (processed =? n)%nat then KB2_STATUS_INVALID_CONFIGURATION
          else
            match reach (S n) (edge_targets g) (root_queue arts) 0 (root_flags arts) with
            | None => KB2_STATUS_INVALID_CONFIGURATION
            | Some (_, reachable) =>
                if forallb id reachable then KB2_STATUS_OK
                else KB2_STATUS_INVALID_CONFIGURATION
            end
      end
  end.

(** * The node map is a correct index *)

Definition key_le (x y : node_map_entry) : Prop := x.1 <= y.1.
Definition key_lt (x y : node_map_entry) : Prop := x.1 < y.1.

Lemma sort_shift_split pre gap post value :
  exists low high,
    pre = low ++ high /\
    sort_shift (pre ++ gap :: post) value (length pre) = low ++ value :: high ++ post /\
    Forall (fun e => value.1 < e.1) high /\
    (forall e, last low = Some e -> e.1 <= value.1).
Proof.
  revert gap post. induction pre as [|e pre IH] using rev_ind; intros gap post.
  { exists [], []. cbn. split_and!; try done. }
  rewrite length_app. cbn [length]. rewrite Nat.add_1_r. cbn [sort_shift].
  rewrite <- app_assoc. cbn [app]. rewrite list_lookup_middle by done.
  destruct (Z.ltb_spec value.1 e.1) as [Hlt | Hge].
  - assert (Hins : <[S (length pre) := e]> (pre ++ e :: gap :: post) = pre ++ e :: e :: post).
    { rewrite insert_app_r_alt by lia. by replace (S (length pre) - length pre)%nat with 1%nat by lia. }
    destruct (IH e (e :: post)) as (low & high & Hpre & Hsh & Hhigh & Hlast).
    exists low, (high ++ [e]). split; [by rewrite Hpre, <- app_assoc |].
    split; [| split; [| done]].
    + etransitivity; [by apply (f_equal (fun l => sort_shift l value (length pre))) |].
      rewrite Hsh. by rewrite <- app_assoc.
    + apply Forall_app. split; [done |]. by constructor.
  - exists (pre ++ [e]), []. rewrite app_nil_r. split; [done |]. split; [| split; [done |]].
    + rewrite insert_app_r_alt by lia.
      replace (S (length pre) - length pre)%nat with 1%nat by lia. cbn.
      by rewrite <- app_assoc.
    + intros e'. rewrite last_snoc. intros [= <-]. done.
Qed.

Lemma sorted_insert low high (value : node_map_entry) :
  StronglySorted key_le (low ++ high) ->
  Forall (fun e => value.1 < e.1) high -> (forall e, last low = Some e -> e.1 <= value.1) ->
  StronglySorted key_le (low ++ value :: high).
Proof.
  intros Hs Hhigh Hlast. induction low as [|x low IH]; cbn in *.
  - constructor; [done |]. eapply Forall_impl; [exact Hhigh |]. cbn. unfold key_le. lia.
  - apply StronglySorted_inv in Hs as [Hs Hx]. constructor.
    + apply IH; [done |]. intros e He. apply Hlast.
      destruct low; [done | by rewrite last_cons_cons].
    + apply Forall_app in Hx as [Hx1 Hx2]. apply Forall_app. split; [done |].
      constructor; [| done]. unfold key_le. destruct low as [|y low] using rev_ind.
      * by apply Hlast.
      * specialize (Hlast y). rewrite app_comm_cons, last_snoc in Hlast.
        specialize (Hlast eq_refl). apply Forall_app in Hx1 as [_ Hy].
        apply Forall_inv in Hy. unfold key_le in Hy. lia.
Qed.

Lemma sort_prefix l k :
  (k < length l)%nat ->
  exists pre,
    foldl (fun map index => match map !! index with
                            | Some value => sort_shift map value index
                            | None => map end) l (seq 1 k) = pre ++ drop (S k) l /\
    StronglySorted key_le pre /\ pre ≡ₚ take (S k) l.
Proof.
  induction k as [|k IH]; intros Hk.
  - destruct l as [|x l]; [cbn in Hk; lia |]. exists [x]. cbn. rewrite drop_0, take_0.
    split; [done |]. split; [repeat constructor | done].
  - destruct IH as (pre & Hfold & Hs & Hp); [lia |].
    rewrite seq_S, foldl_app. cbn [foldl]. rewrite Hfold.
    assert (Hlen : length pre = S k) by (rewrite Hp, length_take; lia).
    destruct (lookup_lt_is_Some_2 l (S k)) as [x Hx]; [lia |].
    rewrite (drop_S l x (S k)) by done. cbn [Nat.add].
    rewrite list_lookup_middle by done.
    destruct (sort_shift_split pre x (drop (S (S k)) l) x) as (low & high & Hpre & Hsh & Hh & Hl).
    rewrite Hlen in Hsh. exists (low ++ x :: high). rewrite Hsh, <- app_assoc.
    split; [done |].
    rewrite Hpre in Hs, Hp. split; [by apply sorted_insert |].
    rewrite (take_S_r l (S k) x) by done. rewrite <- Hp.
    by rewrite <- Permutation_middle, <- Permutation_cons_append.
Qed.

Lemma kb2_sort_node_map_sorts l :
  StronglySorted key_le (kb2_sort_node_map l) /\ kb2_sort_node_map l ≡ₚ l.
Proof.
  unfold kb2_sort_node_map. destruct l as [|x l].
  { split; [constructor | done]. }
  destruct (sort_prefix (x :: l) (length (x :: l) - 1)) as (pre & Hf & Hs & Hp); [cbn; lia |].
  rewrite Hf, drop_ge, app_nil_r by (cbn; lia).
  rewrite take_ge in Hp by (cbn; lia). done.
Qed.

Lemma sorted_lookup {T} (R : relation T) l i j x y :
  StronglySorted R l -> (i < j)%nat -> l !! i = Some x -> l !! j = Some y -> R x y.
Proof.
  intros Hs. revert i j. induction Hs as [|z l Hs IH Hall]; intros i j Hij Hx Hy; [done |].
  destruct j as [|j]; [lia |]. destruct i as [|i]; cbn in *.
  - simplify_eq. rewrite Forall_lookup in Hall. by eapply Hall.
  - eapply (IH i j); [lia | done | done].
Qed.

(** The search in the sorted map finds node ids exactly: with distinct ids the
    result is the index of the artifact that has the id. *)
Lemma node_map_find_spec arts id i :
  NoDup (ar_node_id <$> arts) ->
  kb2_node_map_find (kb2_sort_node_map (node_map_of arts)) id = Some i <->
  exists r, arts !! i = Some r /\ ar_node_id r = id.
Proof.
  intros Hnd. destruct (kb2_sort_node_map_sorts (node_map_of arts)) as [Hs Hp].
  set (m := kb2_sort_node_map (node_map_of arts)) in *.
  assert (Hkeys : NoDup (m.*1)).
  { rewrite Hp. unfold node_map_of. rewrite fmap_imap.
    by rewrite (imap_ext _ (fun _ r => ar_node_id r)), (imap_const ar_node_id). }
  assert (Hnth : forall j, (j < length m)%nat -> m !! j = Some (nth j m (0, O))).
  { intros j Hj. destruct (lookup_lt_is_Some_2 m j Hj) as [e He].
    by rewrite (nth_lookup_Some _ _ _ _ He). }
  assert (Hmem : forall k, (id, k) ∈ m <-> exists r, arts !! k = Some r /\ ar_node_id r = id).
  { intros k. rewrite Hp. unfold node_map_of. rewrite elem_of_lookup_imap. split.
    - intros (k' & r & [= -> ->] & Hr). eauto.
    - intros (r & Hr & <-). eauto. }
  rewrite <- Hmem. unfold kb2_node_map_find. rewrite fmap_Some. setoid_rewrite bsearch_spec.
  - split.
    + intros (mid & [Hr Hk] & ->). apply list_elem_of_lookup. exists mid.
      rewrite Hnth by lia. unfold node_map_key in Hk. destruct (nth mid m _); by subst.
    + intros [j Hj]%list_elem_of_lookup. exists j. unfold node_map_key. rewrite (nth_lookup_Some _ _ _ _ Hj).
      split_and!; [lia | by eapply lookup_lt_Some | done | done].
  - intros j k Hjk Hk. pose proof (sorted_lookup _ _ j k _ _ Hs ltac:(lia) (Hnth j ltac:(lia)) (Hnth k ltac:(lia))) as Hle.
    unfold key_le in Hle. unfold node_map_key.
    assert ((nth j m (0, O)).1 <> (nth k m (0, O)).1); [| lia].
    intros Heq. enough (j = k) by lia. eapply (NoDup_lookup _ _ _ _ Hkeys);
      rewrite list_lookup_fmap, Hnth by lia; cbn; [done | by rewrite Heq].
  - lia.
Qed.

Corollary node_map_find_none arts id :
  NoDup (ar_node_id <$> arts) ->
  kb2_node_map_find (kb2_sort_node_map (node_map_of arts)) id = None <-> id ∉ (ar_node_id <$> arts).
Proof.
  intros Hnd. rewrite eq_None_not_Some, list_elem_of_fmap. split; intros Hn.
  - intros (r & -> & [i Hi]%list_elem_of_lookup). apply Hn. exists i.
    apply node_map_find_spec; eauto.
  - intros [i Hi]. apply node_map_find_spec in Hi as (r & Hr & <-); [| done].
    apply Hn. exists r. split; [done |]. by eapply list_elem_of_lookup_2.
Qed.
