(* ===== verification/ClosureGraphSpec.v ===== *)
(** The dependency graph algorithms against the graph they decide: Kahn's loop
    processes every node exactly when the graph has no cycle, the breadth-first
    search marks exactly the nodes reachable from a root, and neither writes past
    the [artifact_count] entries of its arrays. *)

From Stdlib Require Import ZArith Lia.
From stdpp Require Import base numbers tactics sorting relations gmap list_numbers list.
From S2P Require Import Prelude Host ClosureData ClosureGraph.

Open Scope Z_scope.

(** * Counting edges *)

Definition occ (v : nat) (l : list nat) : nat := length (filter (fun x => x = v) l).

Definition indeg (adj : nat -> list nat) (us : list nat) (v : nat) : nat :=
  sum_list_with (fun u => occ v (adj u)) us.

Lemma occ_cons v x l : occ v (x :: l) = ((if decide (x = v) then 1 else 0) + occ v l)%nat.
Proof. unfold occ. rewrite filter_cons. by case_decide. Qed.

Lemma occ_0 v l : occ v l = O <-> v ∉ l.
Proof.
  induction l as [|x l IH]; [split; [intros _; apply not_elem_of_nil | done] |].
  rewrite occ_cons, not_elem_of_cons, <- IH. case_decide; [| split; [split; [congruence | lia] | lia]].
  split; [lia | intros [? _]; congruence].
Qed.

Lemma indeg_0 adj us v : indeg adj us v = O <-> forall u, u ∈ us -> v ∉ adj u.
Proof.
  unfold indeg. induction us as [|x us IH]; cbn.
  - split; [| done]. intros _ u Hu. by apply elem_of_nil in Hu.
  - setoid_rewrite elem_of_cons. split.
    + intros Hs u [-> | Hu]; [apply occ_0; lia | apply IH; [lia | done]].
    + intros Hn. assert (occ v (adj x) = O) as -> by (apply occ_0, Hn; by left).
      apply IH. intros u Hu. apply Hn. by right.
Qed.

Lemma indeg_perm adj us us' v : us ≡ₚ us' -> indeg adj us v = indeg adj us' v.
Proof. intros Hp. unfold indeg. by rewrite Hp. Qed.

Lemma indeg_cons adj u us v : indeg adj (u :: us) v = (occ v (adj u) + indeg adj us v)%nat.
Proof. done. Qed.

Lemma nth_insert_eq {T} (l : list T) i x d : (i < length l)%nat -> nth i (<[i := x]> l) d = x.
Proof. intros Hi. by rewrite nth_lookup, list_lookup_insert_eq. Qed.

Lemma nth_insert_ne {T} (l : list T) i j x d : i <> j -> nth j (<[i := x]> l) d = nth j l d.
Proof. intros Hi. by rewrite !nth_lookup, list_lookup_insert_ne. Qed.

Lemma nodup_bound (l : list nat) n : NoDup l -> (forall v, v ∈ l -> (v < n)%nat) -> (length l <= n)%nat.
Proof.
  intros Hnd Hb. rewrite <- (length_seq n 0). apply submseteq_length, NoDup_submseteq; [done |].
  intros x Hx. apply elem_of_seq. specialize (Hb x Hx). lia.
Qed.

Section Graph.
Context (n : nat) (adj : nat -> list nat).
Hypothesis adj_lt : forall u v, v ∈ adj u -> (v < n)%nat.
Hypothesis adj_dom : forall u v, v ∈ adj u -> (u < n)%nat.
Hypothesis indeg_small : forall v, Z.of_nat (indeg adj (seq 0 n) v) <= U32_MAX.

Definition edge (u v : nat) : Prop := v ∈ adj u.

Definition acyclic : Prop := forall v, ~ tc edge v v.

(** * Kahn's loop *)

(** Each node but those of [us] has been taken from the queue: the counters are
    the in-degrees left, and the queue holds the nodes whose counter reached
    zero, each after all its predecessors. *)
Record kahn_inv (us queue : list nat) (b : nat) (inc : list Z) : Prop := {
  ki_len : length inc = n;
  ki_split : us ++ take b queue ≡ₚ seq 0 n;
  ki_nodup : NoDup queue;
  ki_bound : forall v, v ∈ queue -> (v < n)%nat;
  ki_inc : forall v, (v < n)%nat -> nth v inc 0 = Z.of_nat (indeg adj us v);
  ki_zero : forall v, (v < n)%nat -> v ∈ queue <-> indeg adj us v = O;
  ki_order : forall j v u, queue !! j = Some v -> edge u v -> u ∈ take j queue;
}.

Lemma kahn_inv_length us queue b inc : kahn_inv us queue b inc -> (length queue <= n)%nat.
Proof. intros H. apply nodup_bound; [apply (ki_nodup _ _ _ _ H) | apply (ki_bound _ _ _ _ H)]. Qed.

(** The edge loop of one node: [us] are the nodes left, [l] the edges of the
    current node not yet visited. *)
Lemma kahn_edges_inv us l queue inc :
  length inc = n -> NoDup queue -> (forall v, v ∈ queue -> (v < n)%nat) ->
  (forall v, (v < n)%nat -> nth v inc 0 = Z.of_nat (indeg adj us v + occ v l)) ->
  (forall v, (v < n)%nat -> v ∈ queue <-> (indeg adj us v + occ v l = 0)%nat) ->
  (forall v, v ∈ l -> (v < n)%nat) ->
  (forall v, (v < n)%nat -> Z.of_nat (indeg adj us v + occ v l) <= U32_MAX) ->
  exists tail inc',
    foldl kahn_edge (queue, inc) l = (queue ++ tail, inc') /\
    length inc' = n /\ NoDup (queue ++ tail) /\ (forall v, v ∈ queue ++ tail -> (v < n)%nat) /\
    (forall v, (v < n)%nat -> nth v inc' 0 = Z.of_nat (indeg adj us v)) /\
    (forall v, (v < n)%nat -> v ∈ queue ++ tail <-> indeg adj us v = O).
Proof.
  revert queue inc. induction l as [|p l IH]; intros queue inc Hlen Hnd Hb Hinc Hz Hl Hs.
  - exists [], inc. rewrite app_nil_r. cbn in *. setoid_rewrite Nat.add_0_r in Hinc.
    setoid_rewrite Nat.add_0_r in Hz. done.
  - assert (Hp : (p < n)%nat) by (apply Hl; by left).
    pose proof (Hinc p Hp) as Hpi. pose proof (Hs p Hp) as Hps. pose proof (Hz p Hp) as Hpz.
    rewrite occ_cons, decide_True in Hpi, Hps, Hpz by done.
    assert (Hstep : forall v, (v < n)%nat ->
              nth v (<[p := Z.of_nat (indeg adj us p + occ p l)]> inc) 0 =
              Z.of_nat (indeg adj us v + occ v l)).
    { intros v Hv. destruct (decide (p = v)) as [<- | Hne].
      - by rewrite nth_insert_eq by lia.
      - rewrite nth_insert_ne, Hinc, occ_cons, decide_False by done. f_equal. }
    assert (Hu : u32 (nth p inc 0 - 1) = Z.of_nat (indeg adj us p + occ p l)).
    { rewrite Hpi, u32_small; unfold is_u32, U32_MAX in *; lia. }
    cbn [foldl kahn_edge]. rewrite Hu.
    assert (Hs' : forall v, (v < n)%nat -> Z.of_nat (indeg adj us v + occ v l) <= U32_MAX).
    { intros v Hv. specialize (Hs v Hv). rewrite occ_cons in Hs. lia. }
    assert (Hother : forall v, (v < n)%nat -> v <> p ->
              v ∈ queue <-> (indeg adj us v + occ v l = 0)%nat).
    { intros v Hv Hne. rewrite (Hz v Hv), occ_cons, decide_False by congruence. done. }
    assert (Hfresh : p ∉ queue) by (rewrite Hpz; lia).
    destruct (Z.eqb_spec (Z.of_nat (indeg adj us p + occ p l)) 0) as [H0 | H0].
    + destruct (IH (queue ++ [p]) (<[p := Z.of_nat (indeg adj us p + occ p l)]> inc))
        as (tail & inc' & Hf & Hr).
      * by rewrite length_insert.
      * apply NoDup_app. split_and!; [done | | apply NoDup_singleton].
        intros x Hx ->%list_elem_of_singleton. done.
      * intros v [Hv | ->%list_elem_of_singleton]%elem_of_app; [by apply Hb | done].
      * exact Hstep.
      * intros v Hv. rewrite elem_of_app, list_elem_of_singleton.
        destruct (decide (v = p)) as [-> | Hne]; [split; [lia | by right] |].
        rewrite <- Hother by done. split; [intros [|]; done | by left].
      * intros v Hv. apply Hl. by right.
      * exact Hs'.
      * exists (p :: tail), inc'. rewrite <- app_assoc in Hf, Hr. done.
    + apply IH; try done.
      * by rewrite length_insert.
      * intros v Hv. destruct (decide (v = p)) as [-> | Hne]; [| by apply Hother].
        split; [done | lia].
      * intros v Hv. apply Hl. by right.
Qed.

Lemma indeg_le us w v : us ++ w ≡ₚ seq 0 n -> (indeg adj us v <= indeg adj (seq 0 n) v)%nat.
Proof.
  intros Hp. rewrite <- (indeg_perm _ _ _ v Hp). unfold indeg.
  rewrite sum_list_with_app. lia.
Qed.

Lemma take_app_le {T} (k l : list T) j : (j <= length k)%nat -> take j (k ++ l) = take j k.
Proof. intros Hj. rewrite take_app. replace (j - length k)%nat with O by lia. by rewrite take_0, app_nil_r. Qed.

(** Taking the next node from the queue keeps the invariant. *)
Lemma kahn_step us queue b inc node :
  kahn_inv us queue b inc -> queue !! b = Some node ->
  exists us' tail inc',
    foldl kahn_edge (queue, inc) (adj node) = (queue ++ tail, inc') /\
    kahn_inv us' (queue ++ tail) (S b) inc'.
Proof.
  intros [Hlen Hsp Hnd Hb Hinc Hz Ho] Hnode.
  assert (Hblt := lookup_lt_Some _ _ _ Hnode).
  assert (Hin : node ∈ us).
  { assert (Hn : node ∈ us ++ take b queue).
    { rewrite Hsp, elem_of_seq. split; [lia | apply Hb; by eapply list_elem_of_lookup_2]. }
    apply elem_of_app in Hn as [Hn | Hn]; [done |].
    apply list_elem_of_lookup in Hn as [i Hi]. apply lookup_take_Some in Hi as [Hi Hlt].
    pose proof (NoDup_lookup _ _ _ _ Hnd Hi Hnode). lia. }
  apply elem_of_Permutation in Hin as [us' Hus].
  assert (Hadd : forall v, (indeg adj us v = indeg adj us' v + occ v (adj node))%nat).
  { intros v. rewrite (indeg_perm _ _ _ v Hus), indeg_cons. lia. }
  destruct (kahn_edges_inv us' (adj node) queue inc) as (tail & inc' & Hf & Hl' & Hnd' & Hb' & Hinc' & Hz');
    [done | done | done | | | by intros; eapply adj_lt | |].
  { intros v Hv. rewrite <- Hadd. by apply Hinc. }
  { intros v Hv. rewrite <- Hadd. by apply Hz. }
  { intros v Hv. rewrite <- Hadd. pose proof (indeg_le us _ v Hsp).
    specialize (indeg_small v). lia. }
  exists us', tail, inc'. split; [done |].
  assert (Hsp' : us' ++ take (S b) (queue ++ tail) ≡ₚ seq 0 n).
  { rewrite take_app_le by lia. rewrite (take_S_r _ _ _ Hnode), <- Hsp, Hus.
    rewrite app_assoc, <- Permutation_cons_append. done. }
  constructor; try done.
  intros j v u Hj Hu. destruct (decide (j < length queue)%nat) as [Hjl | Hjl].
  - rewrite lookup_app_l in Hj by done. rewrite take_app_le by lia. by eapply Ho.
  - assert (Hv0 : indeg adj us' v = O).
    { apply Hz'; [by eapply adj_lt |]. by eapply list_elem_of_lookup_2. }
    assert (Hun : u ∈ us' ++ take (S b) (queue ++ tail)).
    { rewrite Hsp', elem_of_seq. split; [lia | by eapply adj_dom]. }
    apply elem_of_app in Hun as [Hun | Hun].
    { rewrite indeg_0 in Hv0. by destruct (Hv0 u Hun). }
    apply list_elem_of_lookup in Hun as [i Hi]. apply lookup_take_Some in Hi as [Hi Hlt].
    apply list_elem_of_lookup. exists i. apply lookup_take_Some. split; [done | lia].
Qed.

(** With one unit of fuel per node left the loop ends, having taken every node
    of the queue. *)
Lemma kahn_runs fuel us queue b inc :
  kahn_inv us queue b inc -> (b <= length queue)%nat -> (n < fuel + b)%nat ->
  exists us' queue' inc',
    kahn fuel adj queue b inc b = Some (queue', length queue') /\
    kahn_inv us' queue' (length queue') inc'.
Proof.
  revert us queue b inc. induction fuel as [|fuel IH]; intros us queue b inc Hi Hb Hf.
  { pose proof (kahn_inv_length _ _ _ _ Hi). lia. }
  cbn [kahn]. destruct (Nat.ltb_spec b (length queue)) as [Hlt | Hge].
  - destruct (lookup_lt_is_Some_2 _ _ Hlt) as [node Hnode].
    rewrite (nth_lookup_Some _ _ _ _ Hnode).
    destruct (kahn_step _ _ _ _ _ Hi Hnode) as (us' & tail & inc' & -> & Hi').
    apply (IH us'); [done | rewrite length_app; lia | lia].
  - assert (b = length queue) as -> by lia. eauto.
Qed.

Lemma kahn_start inc :
  length inc = n ->
  (forall v, (v < n)%nat -> nth v inc 0 = Z.of_nat (indeg adj (seq 0 n) v)) ->
  kahn_inv (seq 0 n) (initial_queue inc) 0 inc.
Proof.
  intros Hlen Hinc. unfold initial_queue. rewrite Hlen.
  assert (Hin : forall v, v ∈ filter (fun i => nth i inc 0 = 0) (seq 0 n) <->
                          (v < n)%nat /\ indeg adj (seq 0 n) v = O).
  { intros v. rewrite list_elem_of_filter, elem_of_seq. split.
    - intros [Hz [_ Hv]]. cbn in Hv. split; [done |]. rewrite Hinc in Hz by done. lia.
    - intros [Hv Hz]. rewrite Hinc, Hz by done. split; [done | lia]. }
  constructor; try done.
  - by rewrite take_0, app_nil_r.
  - apply NoDup_filter, NoDup_seq.
  - intros v Hv. by apply Hin.
  - intros v Hv. rewrite Hin. tauto.
  - intros j v u Hj Hu. apply list_elem_of_lookup_2, Hin in Hj as [_ Hz].
    rewrite indeg_0 in Hz. destruct (Hz u); [| done].
    apply elem_of_seq. split; [lia | by eapply adj_dom].
Qed.

Lemma edge_lt u v : tc edge u v -> (u < n)%nat /\ (v < n)%nat.
Proof.
  induction 1 as [u v He | u w v He _ [_ Hv]]; split; try done;
    [by eapply adj_dom | by eapply adj_lt | by eapply adj_dom].
Qed.

(** A full queue lists the nodes in topological order, so there is no cycle. *)
Lemma kahn_full_acyclic us queue b inc :
  kahn_inv us queue b inc -> length queue = n -> acyclic.
Proof.
  intros [Hlen Hsp Hnd Hb Hinc Hz Ho] Hfull.
  assert (Hall : forall v, (v < n)%nat -> v ∈ queue).
  { intros v Hv. assert (Hp : queue ≡ₚ seq 0 n); [| rewrite Hp, elem_of_seq; lia].
    apply submseteq_length_Permutation; [| rewrite length_seq; lia].
    apply NoDup_submseteq; [done |]. intros x Hx. apply elem_of_seq. specialize (Hb x Hx). lia. }
  assert (Hpos : forall u v, tc edge u v -> forall j, queue !! j = Some v ->
                   exists i, (i < j)%nat /\ queue !! i = Some u).
  { assert (Hone : forall u v j, edge u v -> queue !! j = Some v ->
                     exists i, (i < j)%nat /\ queue !! i = Some u).
    { intros u v j He Hj. specialize (Ho j v u Hj He).
      apply list_elem_of_lookup in Ho as [i Hi]. apply lookup_take_Some in Hi as [Hi Hlt]. eauto. }
    induction 1 as [u v He | u w v He _ IH]; intros j Hj; [by eapply Hone |].
    destruct (IH j Hj) as (i & Hij & Hi). destruct (Hone u w i He Hi) as (k & Hki & Hk).
    exists k. split; [lia | done]. }
  intros v Hc. destruct (edge_lt _ _ Hc) as [Hv _].
  apply Hall, list_elem_of_lookup in Hv as [j Hj].
  destruct (Hpos v v Hc j Hj) as (i & Hij & Hi).
  pose proof (NoDup_lookup _ _ _ _ Hnd Hi Hj). lia.
Qed.

(** Without a cycle every node ends in the queue. *)
Lemma acyclic_kahn_full us queue inc :
  kahn_inv us queue (length queue) inc -> acyclic -> length queue = n.
Proof.
  intros [Hlen Hsp Hnd Hb Hinc Hz Ho] Hac.
  assert (Hirr : Irreflexive (tc (flip edge))).
  { intros v Hv. apply (Hac v). clear -Hv. 
    assert (Hfl : forall x y, tc (flip edge) x y -> tc edge y x); [| by apply Hfl].
    induction 1 as [x y He | x y z He _ IH]; [by apply tc_once | by eapply tc_r]. }
  assert (Hsn : forall v, (v < n)%nat -> v ∈ queue).
  { intros v. assert (sn (flip edge) v) as Hv.
    { apply tc_finite_sn; [done |]. exists (seq 0 n). intros y Hy. apply elem_of_seq.
      assert (Hdom : forall x y, tc (flip edge) x y -> (y < n)%nat).
      { clear -adj_dom. induction 1 as [x y He | x y z He _ IH]; [by eapply adj_dom | done]. }
      specialize (Hdom _ _ Hy). lia. }
    induction Hv as [v _ IH]. intros Hv. apply Hz; [done |]. apply indeg_0. intros u Hu Hin.
    assert (Huq : u ∈ queue) by (apply IH; [exact Hin | by eapply adj_dom]).
    assert (Hnd' : NoDup (us ++ queue)).
    { rewrite take_ge in Hsp by done. rewrite Hsp. apply NoDup_seq. }
    apply NoDup_app in Hnd' as (_ & Hd & _). by apply (Hd u). }
  apply Nat.le_antisymm; [by apply nodup_bound |].
  rewrite <- (length_seq n 0) at 1. apply submseteq_length, NoDup_submseteq; [apply NoDup_seq |].
  intros x Hx. apply elem_of_seq in Hx. apply Hsn. lia.
Qed.

(** Kahn's algorithm ends and processes all nodes exactly when the graph has no
    cycle. *)
Lemma kahn_spec inc :
  length inc = n ->
  (forall v, (v < n)%nat -> nth v inc 0 = Z.of_nat (indeg adj (seq 0 n) v)) ->
  exists queue processed,
    kahn (S n) adj (initial_queue inc) 0 inc 0 = Some (queue, processed) /\
    (length queue <= n)%nat /\ (processed = n <-> acyclic).
Proof.
  intros Hlen Hinc.
  destruct (kahn_runs (S n) _ _ 0 _ (kahn_start inc Hlen Hinc)) as (us & queue & inc' & Hk & Hi);
    [lia | lia |].
  exists queue, (length queue). split; [done |]. split; [by eapply kahn_inv_length |].
  split; [by eapply kahn_full_acyclic | by eapply acyclic_kahn_full].
Qed.

(** * Breadth-first search *)

Definition from_root (root : nat -> Prop) (v : nat) : Prop := exists r, root r /\ rtc edge r v.

(** The flags are set exactly for the nodes queued so far; these are reachable,
    and the targets of the nodes already taken are among them. *)
Record reach_inv (root : nat -> Prop) (queue : list nat) (flags : list bool) : Prop := {
  ri_len : length flags = n;
  ri_nodup : NoDup queue;
  ri_bound : forall v, v ∈ queue -> (v < n)%nat;
  ri_flag : forall v, (v < n)%nat -> nth v flags false = true <-> v ∈ queue;
  ri_sound : forall v, v ∈ queue -> from_root root v;
  ri_roots : forall v, root v -> v ∈ queue;
}.

Definition expanded (queue : list nat) (b : nat) : Prop :=
  forall j u v, (j < b)%nat -> queue !! j = Some u -> edge u v -> v ∈ queue.

Lemma reach_edges_inv root l queue flags :
  reach_inv root queue flags -> (forall v, v ∈ l -> (v < n)%nat /\ from_root root v) ->
  exists tail flags',
    foldl reach_edge (queue, flags) l = (queue ++ tail, flags') /\
    reach_inv root (queue ++ tail) flags' /\ (forall v, v ∈ l -> v ∈ queue ++ tail).
Proof.
  revert queue flags. induction l as [|p l IH]; intros queue flags Hi Hl.
  { exists [], flags. rewrite app_nil_r. split_and!; [done | done |].
    intros v Hv. by apply elem_of_nil in Hv. }
  destruct (Hl p) as [Hp Hr]; [by left |]. destruct Hi as [Hlen Hnd Hb Hf Hs Hro].
  assert (Hl' : forall v, v ∈ l -> (v < n)%nat /\ from_root root v) by (intros; apply Hl; by right).
  cbn [foldl reach_edge]. destruct (nth p flags false) eqn:E.
  - destruct (IH queue flags) as (tail & flags' & Hfo & Hi' & Hin); [by constructor | done |].
    exists tail, flags'. split_and!; [done | done |].
    intros v [-> | Hv]%elem_of_cons; [| by apply Hin]. apply elem_of_app. left. by apply Hf.
  - assert (Hnew : p ∉ queue).
    { intros Hq. apply Hf in Hq; [congruence | done]. }
    destruct (IH (queue ++ [p]) (<[p := true]> flags)) as (tail & flags' & Hfo & Hi' & Hin); [| done |].
    { constructor.
      - by rewrite length_insert.
      - apply NoDup_app. split_and!; [done | | apply NoDup_singleton].
        intros x Hx ->%list_elem_of_singleton. done.
      - intros v [Hv | ->%list_elem_of_singleton]%elem_of_app; [by apply Hb | done].
      - intros v Hv. rewrite elem_of_app, list_elem_of_singleton.
        destruct (decide (p = v)) as [<- | Hne].
        + rewrite nth_insert_eq by lia. split; [by right | done].
        + rewrite nth_insert_ne, Hf by done. split; [by left | intros [|]; congruence].
      - intros v [Hv | ->%list_elem_of_singleton]%elem_of_app; [by apply Hs | done].
      - intros v Hv. apply elem_of_app. left. by apply Hro. }
    exists (p :: tail), flags'. rewrite <- app_assoc in Hfo, Hi', Hin. cbn [app] in *.
    split_and!; [done | done |]. intros v [-> | Hv]%elem_of_cons; [| by apply Hin].
    apply elem_of_app. right. by left.
Qed.

Lemma reach_runs root fuel queue b flags :
  reach_inv root queue flags -> expanded queue b -> (b <= length queue)%nat -> (n < fuel + b)%nat ->
  exists queue' flags',
    reach fuel adj queue b flags = Some (queue', flags') /\
    reach_inv root queue' flags' /\ expanded queue' (length queue').
Proof.
  revert queue b flags. induction fuel as [|fuel IH]; intros queue b flags Hi He Hb Hfu.
  { pose proof (nodup_bound _ _ (ri_nodup _ _ _ Hi) (ri_bound _ _ _ Hi)). lia. }
  cbn [reach]. destruct (Nat.ltb_spec b (length queue)) as [Hlt | Hge].
  - destruct (lookup_lt_is_Some_2 _ _ Hlt) as [node Hnode].
    rewrite (nth_lookup_Some _ _ _ _ Hnode).
    destruct (reach_edges_inv root (adj node) queue flags Hi) as (tail & flags' & -> & Hi' & Hin).
    { intros v Hv. split; [by eapply adj_lt |].
      destruct (ri_sound _ _ _ Hi node) as (r & Hr & Hrt); [by eapply list_elem_of_lookup_2 |].
      exists r. split; [done | by eapply rtc_r]. }
    apply IH; [done | | rewrite length_app; lia | lia].
    intros j u v Hj Hu Hv. rewrite lookup_app_l in Hu by lia.
    destruct (decide (j = b)) as [-> | Hne]; [simplify_eq; by apply Hin |].
    apply elem_of_app. left. eapply (He j u v); [lia | done | done].
  - assert (b = length queue) as -> by lia. eauto.
Qed.

(** The search ends, and sets exactly the flags of the nodes reachable from a
    root. *)
Lemma reach_spec root queue flags :
  reach_inv root queue flags ->
  exists queue' flags',
    reach (S n) adj queue 0 flags = Some (queue', flags') /\
    (length queue' <= n)%nat /\ length flags' = n /\
    forall v, (v < n)%nat -> nth v flags' false = true <-> from_root root v.
Proof.
  intros Hi. destruct (reach_runs root (S n) queue 0 flags Hi) as (queue' & flags' & Hk & Hi' & He);
    [intros j u v; lia | lia | lia |].
  exists queue', flags'. split_and!; [done | | by apply (ri_len _ _ _ Hi') |].
  { apply nodup_bound; [apply (ri_nodup _ _ _ Hi') | apply (ri_bound _ _ _ Hi')]. }
  intros v Hv. rewrite (ri_flag _ _ _ Hi') by done. split; [apply (ri_sound _ _ _ Hi') |].
  assert (Hclosed : forall u w, rtc edge u w -> u ∈ queue' -> w ∈ queue').
  { induction 1 as [u | u w x Hw _ IH]; intros Hu; [done |]. apply IH.
    apply list_elem_of_lookup in Hu as [j Hj]. eapply (He j u w); [| done | done].
    by eapply lookup_lt_Some. }
  intros (r & Hr & Hrt). apply (Hclosed r v Hrt). by apply (ri_roots _ _ _ Hi').
Qed.
End Graph.

#[export] Instance kahn_proper fuel :
  Proper (pointwise_relation nat eq ==> eq ==> eq ==> eq ==> eq ==> eq) (kahn fuel).
Proof.
  intros f g Hfg queue ? <- b ? <- inc ? <- k ? <-. revert queue b inc k.
  induction fuel as [|fuel IH]; intros queue b inc k; [done |]. cbn [kahn].
  case_match; [| done]. rewrite (Hfg (nth b queue O)). destruct (foldl _ _ _). apply IH.
Qed.

#[export] Instance reach_proper fuel :
  Proper (pointwise_relation nat eq ==> eq ==> eq ==> eq ==> eq) (reach fuel).
Proof.
  intros f g Hfg queue ? <- b ? <- flags ? <-. revert queue b flags.
  induction fuel as [|fuel IH]; intros queue b flags; [done |]. cbn [reach].
  case_match; [| done]. rewrite (Hfg (nth b queue O)). destruct (foldl _ _ _). apply IH.
Qed.

(** * The adjacency arrays represent the edge list *)

Definition succs (E : list (nat * nat)) (u : nat) : list nat :=
  reverse (snd <$> filter (fun e => e.1 = u) E).

Lemma succs_snoc E c p u :
  succs (E ++ [(c, p)]) u = if decide (c = u) then p :: succs E u else succs E u.
Proof.
  unfold succs. rewrite filter_app, filter_cons, filter_nil. cbn [fst].
  case_decide; [| by rewrite app_nil_r]. by rewrite fmap_app, reverse_app.
Qed.

Lemma elem_of_succs E u v : v ∈ succs E u <-> (u, v) ∈ E.
Proof.
  unfold succs. rewrite elem_of_reverse, list_elem_of_fmap. setoid_rewrite list_elem_of_filter.
  split; [intros ([u' v'] & Hv & Hu & H); cbn in *; by subst | intros H; by exists (u, v)].
Qed.

Lemma sum_list_update (f g : nat -> nat) l c d :
  NoDup l -> c ∈ l -> (forall u, u <> c -> g u = f u) -> g c = (f c + d)%nat ->
  sum_list_with g l = (sum_list_with f l + d)%nat.
Proof.
  intros Hnd Hc Hne Hg. apply elem_of_Permutation in Hc as [k Hk]. rewrite Hk in *.
  apply NoDup_cons in Hnd as [Hn _]. cbn. rewrite Hg.
  assert (sum_list_with g k = sum_list_with f k) as ->; [| lia].
  clear -Hn Hne. induction k as [|x k IH]; [done |]. cbn. apply not_elem_of_cons in Hn as [? ?].
  rewrite Hne, IH by congruence. done.
Qed.

Lemma indeg_snoc E c p n v :
  (c < n)%nat ->
  indeg (succs (E ++ [(c, p)])) (seq 0 n) v =
  (indeg (succs E) (seq 0 n) v + (if decide (p = v) then 1 else 0))%nat.
Proof.
  intros Hc. unfold indeg. apply (sum_list_update _ _ _ c).
  - apply NoDup_seq.
  - apply elem_of_seq. lia.
  - intros u Hu. by rewrite succs_snoc, decide_False.
  - rewrite succs_snoc, decide_True, occ_cons by done. lia.
Qed.

Lemma indeg_nil us v : indeg (succs []) us v = O.
Proof. apply indeg_0. intros u _. apply not_elem_of_nil. Qed.

Lemma indeg_le_edges E n v :
  Forall (fun e => (e.1 < n)%nat) E -> (indeg (succs E) (seq 0 n) v <= length E)%nat.
Proof.
  induction E as [|[c p] E IH] using rev_ind; intros Hall.
  - by rewrite indeg_nil.
  - apply Forall_app in Hall as [Hall Hc]. apply Forall_inv in Hc. cbn in Hc.
    rewrite indeg_snoc, length_app by done. specialize (IH Hall). cbn. case_decide; lia.
Qed.

(** From [o] the links visit edges of decreasing index below [bound], whose
    targets are [l]. *)
Fixpoint chain (g : adjacency) (bound : nat) (o : option nat) (l : list nat) : Prop :=
  match l with
  | [] => o = None
  | v :: l => exists e, o = Some e /\ (e < bound)%nat /\ nth e (targets g) O = v /\
                        chain g e (nth e (next g) None) l
  end.

Lemma chain_weaken g b b' o l : (b <= b')%nat -> chain g b o l -> chain g b' o l.
Proof.
  intros Hb. destruct l as [|v l]; [done |]. cbn. intros (e & He & Hl & Hr).
  exists e. split; [done |]. split; [lia | done].
Qed.

Lemma chain_link g index c p b o l :
  (b <= index)%nat -> chain g b o l -> chain (link_edge g index c p) b o l.
Proof.
  revert b o. induction l as [|v l IH]; intros b o Hb; [done |]. cbn.
  intros (e & -> & He & Ht & Hc). exists e. rewrite !nth_insert_ne by lia.
  split_and!; [done | done | done |]. apply IH; [lia | done].
Qed.

Lemma chain_targets g bound o l fuel :
  chain g bound o l -> (bound <= fuel)%nat ->
  (fun e => nth e (targets g) O) <$> edge_chain fuel (next g) o = l.
Proof.
  revert bound o fuel. induction l as [|v l IH]; intros bound o fuel Hc Hf; cbn in Hc.
  - subst. by destruct fuel.
  - destruct Hc as (e & -> & He & Ht & Hc). destruct fuel as [|fuel]; [lia |]. cbn.
    rewrite Ht. f_equal. apply (IH e); [done | lia].
Qed.

Record represents (n m : nat) (g : adjacency) (E : list (nat * nat)) : Prop := {
  rp_heads : length (heads g) = n;
  rp_next : length (next g) = m;
  rp_targets : length (targets g) = m;
  rp_incoming : length (incoming g) = n;
  rp_count : (length E <= m)%nat;
  rp_edges : Forall (fun e => (e.1 < n)%nat /\ (e.2 < n)%nat) E;
  rp_chain : forall u, chain g (length E) (nth u (heads g) None) (succs E u);
  rp_indeg : forall v, (v < n)%nat -> nth v (incoming g) 0 = Z.of_nat (indeg (succs E) (seq 0 n) v);
}.

Lemma nth_replicate_same {T} k (x : T) i : nth i (replicate k x) x = x.
Proof. revert i. induction k as [|k IH]; intros [|i]; try done. cbn. apply IH. Qed.

Lemma represents_empty n m : represents n m (empty_adjacency n m) [].
Proof.
  constructor; cbn; rewrite ?length_replicate; try done; try lia.
  - intros u. apply nth_replicate_same.
  - intros v _. rewrite nth_replicate_same.
    by rewrite indeg_nil.
Qed.

Lemma represents_link n m g E c p :
  represents n m g E -> (c < n)%nat -> (p < n)%nat -> (length E < m)%nat ->
  Z.of_nat m <= U32_MAX ->
  represents n m (link_edge g (length E) c p) (E ++ [(c, p)]).
Proof.
  intros [Hh Hn Ht Hi Hc He Hch Hin] Hcn Hpn Hlt Hm. constructor; cbn; rewrite ?length_insert; try done.
  - rewrite length_app. cbn. lia.
  - apply Forall_app. split; [done | by apply Forall_singleton].
  - intros u. rewrite succs_snoc, length_app. cbn [length].
    destruct (decide (c = u)) as [<- | Hne].
    + rewrite nth_insert_eq by lia. cbn. exists (length E). rewrite !nth_insert_eq by lia.
      split_and!; [done | lia | done |]. by apply chain_link.
    + rewrite nth_insert_ne by done. apply (chain_weaken _ (length E)); [lia |].
      by apply chain_link.
  - intros v Hv. rewrite indeg_snoc by done.
    assert (Hsmall : forall v, (indeg (succs E) (seq 0 n) v <= length E)%nat).
    { intros w. apply indeg_le_edges. eapply Forall_impl; [exact He | by intros e [? ?]]. }
    pose proof (Hsmall p). rewrite (Hin p Hpn). rewrite u32_small.
    + destruct (decide (p = v)) as [<- | Hne].
      * rewrite nth_insert_eq by lia. lia.
      * rewrite nth_insert_ne, Hin by done. lia.
    + unfold is_u32, U32_MAX in *. lia.
Qed.

Lemma represents_targets n m g E u : represents n m g E -> edge_targets g u = succs E u.
Proof.
  intros [Hh Hn Ht Hi Hc He Hch Hin]. unfold edge_targets.
  apply (chain_targets _ (length E)); [apply Hch | lia].
Qed.

(** * The graph over node ids *)

Section Closure.
Context (arts : list artifact).
Hypothesis ids_distinct : NoDup (ar_node_id <$> arts).

Notation node_map := (kb2_sort_node_map (node_map_of arts)).

(** Node [i] of the arrays is the artifact with node id [x]. *)
Definition at_index (i : nat) (x : Z) : Prop := exists r, arts !! i = Some r /\ ar_node_id r = x.

Definition resolves (d : dependency) (e : nat * nat) : Prop :=
  at_index e.1 (dp_consumer d) /\ at_index e.2 (dp_provider d).

(** A dependency the linker accepts: both ends are artifacts, and a shared
    provider only depends on shared providers. *)
Definition dependency_ok (d : dependency) : Prop :=
  exists c p, c ∈ arts /\ p ∈ arts /\ ar_node_id c = dp_consumer d /\ ar_node_id p = dp_provider d /\
    (ar_kind c = KB2_ARTIFACT_SHARED_PROVIDER -> ar_kind p = KB2_ARTIFACT_SHARED_PROVIDER).

Lemma at_index_inj i x y : at_index i x -> at_index i y -> x = y.
Proof. intros (r & Hr & <-) (r' & Hr' & <-). by simplify_eq. Qed.

Lemma at_index_unique i j x : at_index i x -> at_index j x -> i = j.
Proof.
  intros (r & Hr & Hx) (r' & Hr' & Hy). eapply (NoDup_lookup _ _ _ _ ids_distinct);
    rewrite list_lookup_fmap; [by rewrite Hr | rewrite Hr'; cbn; congruence].
Qed.

Lemma at_index_lt i x : at_index i x -> (i < length arts)%nat.
Proof. intros (r & Hr & _). by eapply lookup_lt_Some. Qed.

Lemma at_index_of i x r : at_index i x -> r ∈ arts -> ar_node_id r = x -> arts !! i = Some r.
Proof.
  intros Hi [j Hj]%list_elem_of_lookup Hr.
  by rewrite (at_index_unique i j x Hi (ex_intro _ r (conj Hj Hr))).
Qed.

Lemma find_at_index x : 
  match kb2_node_map_find node_map x with
  | Some i => at_index i x
  | None => forall r, r ∈ arts -> ar_node_id r <> x
  end.
Proof.
  destruct (kb2_node_map_find node_map x) as [i |] eqn:E.
  - by apply node_map_find_spec in E.
  - apply node_map_find_none in E; [| done]. intros r Hr <-. apply E. by apply list_elem_of_fmap_2.
Qed.

Lemma link_edges_spec deps g E m :
  represents (length arts) m g E -> (length E + length deps <= m)%nat -> Z.of_nat m <= U32_MAX ->
  match link_edges arts node_map (length E) deps g with
  | Some g' => Forall dependency_ok deps /\
      exists E', Forall2 resolves deps E' /\ represents (length arts) m g' (E ++ E')
  | None => ~ Forall dependency_ok deps
  end.
Proof.
  revert g E. induction deps as [|d deps IH]; intros g E Hrep Hlen Hm; cbn [link_edges].
  { split; [done |]. exists []. rewrite app_nil_r. split; [constructor | done]. }
  assert (Hbad : ~ dependency_ok d -> ~ Forall dependency_ok (d :: deps)).
  { intros Hn Hall. by apply Forall_cons in Hall as [? _]. }
  pose proof (find_at_index (dp_consumer d)) as Hc. pose proof (find_at_index (dp_provider d)) as Hp.
  destruct (kb2_node_map_find _ (dp_consumer d)) as [c |].
  2: { apply Hbad. intros (rc & rp & Hrc & _ & Hid & _). by apply (Hc rc). }
  destruct (kb2_node_map_find _ (dp_provider d)) as [p |].
  2: { apply Hbad. intros (rc & rp & _ & Hrp & _ & Hid & _). by apply (Hp rp). }
  pose proof (at_index_lt _ _ Hc) as Hcl. pose proof (at_index_lt _ _ Hp) as Hpl.
  cbn [length] in Hlen.
  assert (Hin : nth p (incoming g) 0 < U32_MAX).
  { rewrite (rp_indeg _ _ _ _ Hrep) by done.
    assert (indeg (succs E) (seq 0 (length arts)) p <= length E)%nat; [| lia].
    apply indeg_le_edges. eapply Forall_impl; [apply (rp_edges _ _ _ _ Hrep) | by intros e [? ?]]. }
  rewrite (proj2 (Z.eqb_neq _ _)) by lia.
  assert (Hkind : forall rc rp, arts !! c = Some rc -> arts !! p = Some rp ->
            (kind_at arts c =? KB2_ARTIFACT_SHARED_PROVIDER) &&
            negb (kind_at arts p =? KB2_ARTIFACT_SHARED_PROVIDER) = false <->
            (ar_kind rc = KB2_ARTIFACT_SHARED_PROVIDER -> ar_kind rp = KB2_ARTIFACT_SHARED_PROVIDER)).
  { intros rc rp Hrc Hrp. unfold kind_at. rewrite Hrc, Hrp.
    rewrite andb_false_iff, negb_false_iff, Z.eqb_neq, Z.eqb_eq.
    destruct (decide (ar_kind rc = KB2_ARTIFACT_SHARED_PROVIDER)); tauto. }
  destruct ((kind_at arts c =? KB2_ARTIFACT_SHARED_PROVIDER) && _) eqn:Hk.
  { apply Hbad. intros (rc & rp & Hrc & Hrp & Hcid & Hpid & Himp).
    apply Hkind in Himp; [congruence | by eapply at_index_of | by eapply at_index_of]. }
  assert (Hok : dependency_ok d).
  { destruct Hc as (rc & Hrc & Hcid), Hp as (rp & Hrp & Hpid). exists rc, rp.
    split_and!; [by eapply list_elem_of_lookup_2 .. | done | done | by apply (Hkind rc rp)]. }
  specialize (IH (link_edge g (length E) c p) (E ++ [(c, p)])).
  rewrite length_app in IH. cbn [length] in IH. rewrite Nat.add_1_r in IH.
  destruct (link_edges _ _ _ _ _) as [g' |].
  - destruct IH as (Hall & E' & HE & Hr); [apply represents_link; [done .. | lia | done] | lia | done |].
    split; [by constructor |]. exists ((c, p) :: E'). rewrite <- app_assoc in Hr.
    split; [by constructor | done].
  - intros [_ Hall]%Forall_cons. revert Hall. apply IH; [apply represents_link; [done .. | lia | done] | lia | done].
Qed.

Definition depends (deps : list dependency) (x y : Z) : Prop := mkDependency x y ∈ deps.

(** What kb2_validate_graph decides: dependencies are well-formed, they have no
    cycle, and every artifact is needed, directly or not, by a root. *)
Record graph_ok (deps : list dependency) : Prop := {
  go_deps : Forall dependency_ok deps;
  go_acyclic : forall x, ~ tc (depends deps) x x;
  go_reachable : forall r, r ∈ arts ->
    exists root, root ∈ arts /\ ar_is_root root = true /\
      rtc (depends deps) (ar_node_id root) (ar_node_id r);
}.

Section Transfer.
Context (deps : list dependency) (E : list (nat * nat)).
Hypothesis resolved : Forall2 resolves deps E.

Lemma edge_depends u v :
  edge (succs E) u v -> exists x y, at_index u x /\ at_index v y /\ depends deps x y.
Proof.
  unfold edge. rewrite elem_of_succs. intros [i Hi]%list_elem_of_lookup.
  destruct (Forall2_lookup_r _ _ _ _ _ resolved Hi) as ([x y] & Hd & Hx & Hy).
  exists x, y. split_and!; [done | done |]. by eapply list_elem_of_lookup_2.
Qed.

Lemma depends_edge x y :
  depends deps x y -> exists u v, at_index u x /\ at_index v y /\ edge (succs E) u v.
Proof.
  intros [i Hi]%list_elem_of_lookup.
  destruct (Forall2_lookup_l _ _ _ _ _ resolved Hi) as ([u v] & Hd & Hx & Hy).
  exists u, v. split_and!; [done | done |]. unfold edge. apply elem_of_succs.
  by eapply list_elem_of_lookup_2.
Qed.

Lemma tc_edge_depends u v :
  tc (edge (succs E)) u v -> exists x y, at_index u x /\ at_index v y /\ tc (depends deps) x y.
Proof.
  induction 1 as [u v He | u w v He _ (y & z & Hy & Hz & Ht)].
  - apply edge_depends in He as (x & y & ? & ? & ?). exists x, y. split_and!; [done .. | by apply tc_once].
  - apply edge_depends in He as (x & y' & Hx & Hy' & Hd).
    rewrite (at_index_inj _ _ _ Hy' Hy) in Hd. exists x, z. split_and!; [done .. | by eapply tc_l].
Qed.

Lemma tc_depends_edge x y :
  tc (depends deps) x y -> exists u v, at_index u x /\ at_index v y /\ tc (edge (succs E)) u v.
Proof.
  induction 1 as [x y He | x w y He _ (u & v & Hu & Hv & Ht)].
  - apply depends_edge in He as (u & v & ? & ? & ?). exists u, v. split_and!; [done .. | by apply tc_once].
  - apply depends_edge in He as (t & u' & Hx & Hu' & Hd).
    rewrite (at_index_unique _ _ _ Hu' Hu) in Hd. exists t, v. split_and!; [done .. | by eapply tc_l].
Qed.

Lemma acyclic_depends :
  acyclic (succs E) <-> forall x, ~ tc (depends deps) x x.
Proof.
  split; intros Hac v Hc.
  - apply tc_depends_edge in Hc as (u & w & Hu & Hw & Ht).
    rewrite (at_index_unique _ _ _ Hw Hu) in Ht. by apply (Hac u).
  - apply tc_edge_depends in Hc as (x & y & Hx & Hy & Ht).
    rewrite (at_index_inj _ _ _ Hy Hx) in Ht. by apply (Hac x).
Qed.

Lemma rtc_edge_depends u v x y :
  at_index u x -> at_index v y -> rtc (edge (succs E)) u v <-> rtc (depends deps) x y.
Proof.
  intros Hu Hv. rewrite !rtc_tc. split; intros [Heq | Ht].
  - left. subst. by eapply at_index_inj.
  - right. apply tc_edge_depends in Ht as (x' & y' & Hx & Hy & Ht).
    by rewrite (at_index_inj _ _ _ Hu Hx), (at_index_inj _ _ _ Hv Hy).
  - left. subst. by eapply at_index_unique.
  - right. apply tc_depends_edge in Ht as (u' & v' & Hx & Hy & Ht).
    by rewrite (at_index_unique _ _ _ Hu Hx), (at_index_unique _ _ _ Hv Hy).
Qed.
End Transfer.

Definition root_index (i : nat) : Prop := exists r, arts !! i = Some r /\ ar_is_root r = true.

Lemma root_start E :
  reach_inv (length arts) (succs E) root_index (root_queue arts) (root_flags arts).
Proof.
  assert (Hin : forall v, v ∈ root_queue arts <-> root_index v).
  { intros v. unfold root_queue, root_index. rewrite list_elem_of_filter, elem_of_seq. split.
    - intros [Hr _]. destruct (arts !! v); [eauto | done].
    - intros (r & Hr & Hroot). rewrite Hr. split; [done |].
      pose proof (lookup_lt_Some _ _ _ Hr). lia. }
  constructor.
  - apply length_fmap.
  - apply NoDup_filter, NoDup_seq.
  - intros v (r & Hr & _)%Hin. by eapply lookup_lt_Some.
  - intros v Hv. rewrite Hin. unfold root_flags, root_index. rewrite nth_lookup, list_lookup_fmap.
    destruct (arts !! v) as [r |]; cbn; [| by split; [| intros (r & Hr & _)]].
    split; [eauto | intros (r' & ? & ?); by simplify_eq].
  - intros v Hv%Hin. exists v. split; [done | apply rtc_refl].
  - intros v Hv. by apply Hin.
Qed.

Lemma from_root_depends deps E i r :
  Forall2 resolves deps E -> arts !! i = Some r ->
  from_root (succs E) root_index i <->
  exists root, root ∈ arts /\ ar_is_root root = true /\
    rtc (depends deps) (ar_node_id root) (ar_node_id r).
Proof.
  intros HE Hr. assert (Hi : at_index i (ar_node_id r)) by (exists r; done). split.
  - intros (j & (ro & Hj & Hroot) & Hrt). exists ro.
    split_and!; [by eapply list_elem_of_lookup_2 | done |].
    eapply (rtc_edge_depends _ _ HE j i); [by exists ro | done | done].
  - intros (ro & [j Hj]%list_elem_of_lookup & Hroot & Hrt). exists j. split; [by exists ro |].
    eapply (rtc_edge_depends _ _ HE j i (ar_node_id ro)); [by exists ro | done | done].
Qed.

Lemma forallb_id_nth (l : list bool) : forallb id l = true <-> forall i, (i < length l)%nat -> nth i l false = true.
Proof.
  induction l as [|b l IH]; cbn; [split; [intros; lia | done] |].
  rewrite andb_true_iff, IH. unfold id. split.
  - intros [Hb Hl] [|i] Hi; [done | apply Hl; lia].
  - intros Hl. split; [apply (Hl O); lia | intros i Hi; apply (Hl (S i)); lia].
Qed.

(** On every graph whose dependencies resolve both loops end within their fuel, one
    step per node: Kahn's queue has taken every node exactly when there is no cycle,
    and the search has flagged what the roots reach. *)
Lemma graph_loops_end deps g :
  Z.of_nat (length deps) <= U32_MAX ->
  link_edges arts node_map 0 deps (empty_adjacency (length arts) (length deps)) = Some g ->
  Forall dependency_ok deps /\
  exists E queue processed queue' flags,
    Forall2 resolves deps E /\
    kahn (S (length arts)) (edge_targets g) (initial_queue (incoming g)) 0 (incoming g) 0 = Some (queue, processed) /\
    (processed = length arts <-> acyclic (succs E)) /\
    reach (S (length arts)) (edge_targets g) (root_queue arts) 0 (root_flags arts) = Some (queue', flags) /\
    length flags = length arts /\
    forall v, (v < length arts)%nat -> nth v flags false = true <-> from_root (succs E) root_index v.
Proof.
  intros Hm Hg.
  pose proof (link_edges_spec deps _ [] (length deps) (represents_empty (length arts) (length deps))
                (le_n _) Hm) as Hl. cbn [length app] in Hl. rewrite Hg in Hl.
  destruct Hl as (Hdeps & E & HE & Hrep). split; [done |].
  assert (Hadj : pointwise_relation nat eq (edge_targets g) (succs E))
    by (intros u; by eapply represents_targets).
  assert (Hbd : forall u v, v ∈ succs E u -> (u < length arts)%nat /\ (v < length arts)%nat).
  { intros u v Hv%elem_of_succs. pose proof (rp_edges _ _ _ _ Hrep) as He.
    rewrite Forall_forall in He. by apply (He (u, v)). }
  assert (Hsmall : forall v, Z.of_nat (indeg (succs E) (seq 0 (length arts)) v) <= U32_MAX).
  { intros v. pose proof (rp_count _ _ _ _ Hrep).
    enough (indeg (succs E) (seq 0 (length arts)) v <= length E)%nat by lia.
    apply indeg_le_edges. eapply Forall_impl; [apply (rp_edges _ _ _ _ Hrep) | by intros e [? ?]]. }
  destruct (kahn_spec (length arts) (succs E)) with (inc := incoming g)
    as (queue & processed & Hk & _ & Hac);
    [by intros u v H; apply (Hbd u v H) | by intros u v H; apply (Hbd u v H) | done | apply (rp_incoming _ _ _ _ Hrep) |
     apply (rp_indeg _ _ _ _ Hrep) |].
  destruct (reach_spec (length arts) (succs E)) with (1 := fun u v H => proj2 (Hbd u v H))
    (2 := root_start E) as (queue' & flags & Hr & _ & Hfl & Hflag).
  exists E, queue, processed, queue', flags. rewrite !Hadj. done.
Qed.

(** The graph check accepts exactly the graphs of the specification; every
    other graph is an invalid configuration. *)
Lemma graph_status_spec deps :
  Z.of_nat (length deps) <= U32_MAX ->
  (graph_status arts deps node_map = KB2_STATUS_OK /\ graph_ok deps) \/
  (graph_status arts deps node_map = KB2_STATUS_INVALID_CONFIGURATION /\ ~ graph_ok deps).
Proof.
  intros Hm. unfold graph_status.
  pose proof (link_edges_spec deps _ [] (length deps) (represents_empty (length arts) (length deps))
                (le_n _) Hm) as Hl. cbn [length app] in Hl.
  destruct (link_edges _ _ _ _ _) as [g |] eqn:Hg.
  2: { right. split; [done |]. intros [Hd _ _]. by apply Hl. }
  destruct (graph_loops_end deps g Hm Hg) as (Hdeps & E & queue & processed & queue' & flags & HE & Hk & Hac & Hr & Hfl & Hflag).
  rewrite Hk, Hr. rewrite (acyclic_depends _ _ HE) in Hac.
  destruct (Nat.eqb_spec processed (length arts)) as [Hp | Hp]; cbn [negb].
  2: { right. split; [done |]. intros [_ Ha _]. by apply Hp, Hac. }
  destruct (forallb id flags) eqn:Hall.
  - left. split; [done |]. constructor; [done | by apply Hac |].
    intros r [i Hi]%list_elem_of_lookup. apply (from_root_depends _ _ i _ HE Hi), Hflag.
    + by eapply lookup_lt_Some.
    + rewrite forallb_id_nth in Hall. apply Hall. rewrite Hfl. by eapply lookup_lt_Some.
  - right. split; [done |]. intros [_ _ Hre]. apply not_true_iff_false in Hall. apply Hall.
    apply forallb_id_nth. intros i Hi. rewrite Hfl in Hi.
    destruct (lookup_lt_is_Some_2 _ _ Hi) as [r Hir]. apply Hflag; [done |].
    eapply from_root_depends; [done | done |]. apply Hre. by eapply list_elem_of_lookup_2.
Qed.
End Closure.
