(* ===== verification/Closure.v ===== *)
(** Sealing and cloning closures (src/closure.c: the comparison functions,
    kb2_storage_sort, kb2_validate_*, kb2_clone_array, kb2_closure_clone,
    kb2_closure_builder_seal, kb2_closure_destroy and the accessors).

    Sealing validates the builder's storage with temporary arrays from the host's
    allocator and clones it into an immutable closure whose arrays are sorted. *)

From Stdlib Require Import ZArith Lia.
From stdpp Require Import base numbers tactics sorting relations gmap list_numbers list.
From S2P Require Import Prelude Host Libc ClosureData ClosureGraph.

Open Scope Z_scope.

(** * Canonical order *)

Definition b2z (b : bool) : Z := if b then 1 else 0.

Definition kb2_compare_artifacts (l r : artifact) : Z :=
  if ar_node_id l <? ar_node_id r then -1 else b2z (ar_node_id r <? ar_node_id l).

Definition kb2_compare_dependencies (l r : dependency) : Z :=
  if negb (dp_consumer l =? dp_consumer r) then
    if dp_consumer l <? dp_consumer r then -1 else 1
  else if dp_provider l <? dp_provider r then -1 else b2z (dp_provider r <? dp_provider l).

Definition kb2_compare_exports (l r : export) : Z :=
  if negb (ex_node_id l =? ex_node_id r) then if ex_node_id l <? ex_node_id r then -1 else 1
  else
    let order := strcmp (ex_symbol l) (ex_symbol r) in
    if negb (order =? 0) then order
    else if ex_kind l <? ex_kind r then -1 else b2z (ex_kind r <? ex_kind l).

Definition kb2_compare_imports (l r : import) : Z :=
  if negb (im_consumer l =? im_consumer r) then if im_consumer l <? im_consumer r then -1 else 1
  else
    let order := strcmp (im_consumer_symbol l) (im_consumer_symbol r) in
    if negb (order =? 0) then order
    else if im_provider l <? im_provider r then -1 else b2z (im_provider r <? im_provider l).

Definition kb2_compare_resources (l r : resource) : Z :=
  if rs_slot_id l <? rs_slot_id r then -1 else b2z (rs_slot_id r <? rs_slot_id l).

Definition kb2_compare_resource_bindings (l r : binding) : Z :=
  if negb (bd_slot_id l =? bd_slot_id r) then if bd_slot_id l <? bd_slot_id r then -1 else 1
  else if bd_node_id l <? bd_node_id r then -1 else b2z (bd_node_id r <? bd_node_id l).

Definition kb2_sort_array `{Qsort} {T} (v : cvec T) (compare : T -> T -> Z) : cvec T :=
  if 1 <? cv_count v then cv_update v (qsort T compare (cv_items v)) else v.

Definition kb2_storage_sort `{Qsort} (s : storage) : storage :=
  mkStorage (kb2_sort_array (artifacts s) kb2_compare_artifacts)
    (kb2_sort_array (dependencies s) kb2_compare_dependencies)
    (kb2_sort_array (exports s) kb2_compare_exports)
    (kb2_sort_array (imports s) kb2_compare_imports)
    (kb2_sort_array (resources s) kb2_compare_resources)
    (kb2_sort_array (resource_bindings s) kb2_compare_resource_bindings)
    (manifest_digest s).

(** * Validation *)

Definition lifecycle_exported (s : storage) (r : artifact) : bool :=
  let exported symbol :=
    if kb2_find_export s (ar_node_id r) symbol KB2_SYMBOL_FUNCTION is Some _ then true else false in
  exported (ar_init_symbol r) && exported (ar_quiesce_symbol r) && exported (ar_cleanup_symbol r).

(** The loop of kb2_validate_artifacts: [None] is an INVALID_CONFIGURATION exit,
    otherwise the final root_count and provider_count. *)
Fixpoint validate_artifacts_loop (s : storage) (native : bool) (arts : list artifact)
    (root_count provider_count : nat) : option (nat * nat) :=
  match arts with
  | [] => Some (root_count, provider_count)
  | r :: arts =>
      if negb (ar_lifecycle_set r) || negb (Bool.eqb (ar_native_lifecycle r) native) then None
      else if negb (ar_native_lifecycle r) && negb (lifecycle_exported s r) then None
      else
        let provider_count :=
          (provider_count + (if Z.eqb (ar_kind r) KB2_ARTIFACT_SHARED_PROVIDER then 1 else 0))%nat in
        if ar_is_root r then
          if negb (ar_kind r =? KB2_ARTIFACT_RELOCATABLE_MODULE) then None
          else validate_artifacts_loop s native arts (S root_count) provider_count
        else validate_artifacts_loop s native arts root_count provider_count
  end.

Definition kb2_validate_artifacts (s : storage) : kb2_status :=
  match cv_items (artifacts s) with
  | [] => KB2_STATUS_INVALID_CONFIGURATION
  | first :: _ =>
      match validate_artifacts_loop s (ar_native_lifecycle first) (cv_items (artifacts s)) 0 0 with
      | None => KB2_STATUS_INVALID_CONFIGURATION
      | Some (root_count, provider_count) =>
          if ar_native_lifecycle first && negb (provider_count =? 1)%nat then
            KB2_STATUS_INVALID_CONFIGURATION
          else if (root_count =? 0)%nat then KB2_STATUS_INVALID_CONFIGURATION else KB2_STATUS_OK
      end
  end.

Definition found (map : list node_map_entry) (node_id : Z) : bool :=
  if kb2_node_map_find map node_id is Some _ then true else false.

Definition import_resolved (s : storage) (map : list node_map_entry) (r : import) : bool :=
  found map (im_consumer r) &&
  (if im_provider r =? 0 then true
   else found map (im_provider r) && kb2_has_dependency s (im_consumer r) (im_provider r) &&
        negb ((if kb2_find_export s (im_provider r) (im_provider_symbol r) (im_kind r) is Some _
               then false else true) && (Z.land (im_flags r) KB2_IMPORT_OPTIONAL =? 0))).

Definition kb2_validate_symbols (s : storage) (map : list node_map_entry) : kb2_status :=
  if forallb (fun r => found map (ex_node_id r)) (cv_items (exports s)) &&
     forallb (import_resolved s map) (cv_items (imports s))
  then KB2_STATUS_OK else KB2_STATUS_INVALID_CONFIGURATION.

Definition binding_count (s : storage) (slot_id : Z) : nat :=
  length (filter (fun b => bd_slot_id b = slot_id) (cv_items (resource_bindings s))).

Definition kb2_validate_resources (s : storage) (map : list node_map_entry) : kb2_status :=
  if forallb (fun b => (if kb2_find_resource s (bd_slot_id b) is Some _ then true else false) &&
                       found map (bd_node_id b)) (cv_items (resource_bindings s)) &&
     forallb (fun r => let count := binding_count s (rs_slot_id r) in
                negb ((count =? 0)%nat ||
                      (Z.land (rs_flags r) KB2_RESOURCE_SHARED =? 0) && negb (count =? 1)%nat))
             (cv_items (resources s))
  then KB2_STATUS_OK else KB2_STATUS_INVALID_CONFIGURATION.

Definition SIZEOF_NODE_MAP_ENTRY : Z := 16.
Definition SIZEOF_SIZE_T : Z := 8.
Definition SIZEOF_UINT32 : Z := 4.
Definition SIZEOF_UINT8 : Z := 1.

Section Closures.
Context {A : Type} `{Allocator A} `{Qsort}.

(** The map block and its entries. *)
Definition kb2_build_node_map (a : A) (s : storage) :
    kb2_status * option (Z * list node_map_entry) * A :=
  let count := cv_count (artifacts s) in
  if SIZE_MAX / SIZEOF_NODE_MAP_ENTRY <? count then (KB2_STATUS_RESOURCE_EXHAUSTED, None, a)
  else
    match allocate a (u64 (count * SIZEOF_NODE_MAP_ENTRY)) with
    | (None, a) => (KB2_STATUS_NO_MEMORY, None, a)
    | (Some p, a) =>
        (KB2_STATUS_OK, Some (p, kb2_sort_node_map (node_map_of (cv_items (artifacts s)))), a)
    end.

Definition kb2_validate_graph (a : A) (s : storage) (map : list node_map_entry) : kb2_status * A :=
  let n := cv_count (artifacts s) in
  let m := cv_count (dependencies s) in
  let '(heads, a) := allocate a (u64 (n * SIZEOF_SIZE_T)) in
  let '(queue, a) := allocate a (u64 (n * SIZEOF_SIZE_T)) in
  let '(incoming, a) := allocate a (u64 (n * SIZEOF_UINT32)) in
  let '(reachable, a) := allocate a (u64 (n * SIZEOF_UINT8)) in
  let '(next, a) := if negb (m =? 0) then allocate a (u64 (m * SIZEOF_SIZE_T)) else (None, a) in
  let '(targets, a) := if negb (m =? 0) then allocate a (u64 (m * SIZEOF_SIZE_T)) else (None, a) in
  let status :=
    match heads, queue, incoming, reachable with
    | Some _, Some _, Some _, Some _ =>
        if negb (m =? 0) && (bool_decide (next = None) || bool_decide (targets = None)) then
          KB2_STATUS_NO_MEMORY
        else graph_status (cv_items (artifacts s)) (cv_items (dependencies s)) map
    | _, _, _, _ => KB2_STATUS_NO_MEMORY
    end in
  let a := free_opt a targets (u64 (m * SIZEOF_SIZE_T)) in
  let a := free_opt a next (u64 (m * SIZEOF_SIZE_T)) in
  let a := free_opt a reachable (u64 (n * SIZEOF_UINT8)) in
  let a := free_opt a incoming (u64 (n * SIZEOF_UINT32)) in
  let a := free_opt a queue (u64 (n * SIZEOF_SIZE_T)) in
  let a := free_opt a heads (u64 (n * SIZEOF_SIZE_T)) in
  (status, a).

Definition kb2_validate_storage (a : A) (s : storage) : kb2_status * A :=
  match kb2_validate_artifacts s with
  | KB2_STATUS_OK =>
      match kb2_build_node_map a s with
      | (KB2_STATUS_OK, Some (p, map), a) =>
          let '(status, a) := kb2_validate_graph a s map in
          let status := if bool_decide (status = KB2_STATUS_OK) then kb2_validate_symbols s map
                        else status in
          let status := if bool_decide (status = KB2_STATUS_OK) then kb2_validate_resources s map
                        else status in
          (status, deallocate a p (u64 (cv_count (artifacts s) * SIZEOF_NODE_MAP_ENTRY)))
      | (status, _, a) => (status, a)
      end
  | status => (status, a)
  end.

(** * Clone, seal, destroy *)

Record kb2_closure := mkClosure { cl_self : Z; cl_storage : storage }.

Definition kb2_closure_destroy (a : A) (c : option kb2_closure) : A :=
  match c with
  | None => a
  | Some c =>
      let a := kb2_storage_release a (cl_storage c) in
      deallocate a (cl_self c) SIZEOF_CLOSURE
  end.

Definition kb2_clone_array {T} (a : A) (v : cvec T) (item_size : Z) : kb2_status * cvec T * A :=
  let count := cv_count v in
  if count =? 0 then (KB2_STATUS_OK, empty_vec, a)
  else if SIZE_MAX / item_size <? count then (KB2_STATUS_RESOURCE_EXHAUSTED, empty_vec, a)
  else
    match allocate a (u64 (count * item_size)) with
    | (None, a) => (KB2_STATUS_NO_MEMORY, empty_vec, a)
    | (Some p, a) => (KB2_STATUS_OK, mkVec (Some p) (cv_items v) count, a)
    end.

(** KB2_CLONE_FIELD: the next field, unless an earlier one failed. *)
Definition clone_field {T} (get : storage -> cvec T) (set : storage -> cvec T -> storage)
    (item_size : Z) (source : storage) (r : kb2_status * storage * A) : kb2_status * storage * A :=
  match r with
  | (KB2_STATUS_OK, s, a) =>
      match kb2_clone_array a (get source) item_size with
      | (KB2_STATUS_OK, v, a) => (KB2_STATUS_OK, set s v, a)
      | (status, _, a) => (status, s, a)
      end
  | _ => r
  end.

Definition clone_fields (a : A) (source : storage) : kb2_status * storage * A :=
  clone_field resource_bindings set_resource_bindings SIZEOF_BINDING source
  (clone_field resources set_resources SIZEOF_RESOURCE source
  (clone_field imports set_imports SIZEOF_IMPORT source
  (clone_field exports set_exports SIZEOF_EXPORT source
  (clone_field dependencies set_dependencies SIZEOF_DEPENDENCY source
  (clone_field artifacts set_artifacts SIZEOF_ARTIFACT source
     (KB2_STATUS_OK, zero_storage (manifest_digest source), a)))))).

Definition kb2_closure_clone (a : A) (source : option kb2_closure)
    (allocate_given deallocate_given out_given : bool) : kb2_status * option kb2_closure * A :=
  match source with
  | None => (KB2_STATUS_INVALID_ARGUMENT, None, a)
  | Some source =>
      if negb allocate_given || negb deallocate_given || negb out_given then
        (KB2_STATUS_INVALID_ARGUMENT, None, a)
      else
        match allocate a SIZEOF_CLOSURE with
        | (None, a) => (KB2_STATUS_NO_MEMORY, None, a)
        | (Some p, a) =>
            match clone_fields a (cl_storage source) with
            | (KB2_STATUS_OK, s, a) => (KB2_STATUS_OK, Some (mkClosure p (kb2_storage_sort s)), a)
            | (status, s, a) => (status, None, kb2_closure_destroy a (Some (mkClosure p s)))
            end
        end
  end.

Definition kb2_closure_launch_flags (c : option kb2_closure) : Z :=
  match c with
  | None => 0
  | Some c =>
      if existsb (fun r => negb (Z.land (rs_flags r) KB2_RESOURCE_RESET_REQUIRED =? 0))
                 (cv_items (resources (cl_storage c))) then KB2_LAUNCH_RESET_REQUIRED
      else 0
  end.

(** The stack copy [source] has no heap block of its own; its address is not used. *)
Definition kb2_closure_builder_seal (a : A) (b : option kb2_closure_builder) (out_given : bool) :
    kb2_status * option kb2_closure * A :=
  match b with
  | None => (KB2_STATUS_INVALID_ARGUMENT, None, a)
  | Some b =>
      if negb out_given then (KB2_STATUS_INVALID_ARGUMENT, None, a)
      else
        match kb2_validate_storage a (bl_storage b) with
        | (KB2_STATUS_OK, a) => kb2_closure_clone a (Some (mkClosure 0 (bl_storage b))) true true true
        | (status, a) => (status, None, a)
        end
  end.
End Closures.

(** * Accessors *)

Definition kb2_closure_copy_manifest_digest (c : option kb2_closure) (out_given : bool)
    (digest_size : Z) : kb2_status * option (list Z) :=
  match c with
  | None => (KB2_STATUS_INVALID_ARGUMENT, None)
  | Some c =>
      if negb out_given || negb (digest_size =? KB2_DIGEST_SIZE) then
        (KB2_STATUS_INVALID_ARGUMENT, None)
      else (KB2_STATUS_OK, Some (manifest_digest (cl_storage c)))
  end.

Definition count_of {T} (get : storage -> cvec T) (c : option kb2_closure) : Z :=
  match c with None => 0 | Some c => cv_count (get (cl_storage c)) end.

Definition kb2_closure_artifact_count := count_of artifacts.
Definition kb2_closure_dependency_count := count_of dependencies.
Definition kb2_closure_export_count := count_of exports.
Definition kb2_closure_import_count := count_of imports.
Definition kb2_closure_resource_count := count_of resources.
Definition kb2_closure_resource_binding_count := count_of resource_bindings.

(** The record an accessor reads; [outs] are the output pointers, all required. *)
Definition record_at {T} (get : storage -> cvec T) (c : option kb2_closure) (index : Z)
    (outs : list bool) : kb2_status * option T :=
  match c with
  | None => (KB2_STATUS_INVALID_ARGUMENT, None)
  | Some c =>
      let v := get (cl_storage c) in
      if (cv_count v <=? index) || negb (forallb id outs) then (KB2_STATUS_INVALID_ARGUMENT, None)
      else (KB2_STATUS_OK, cv_items v !! Z.to_nat index)
  end.

Definition kb2_closure_artifact (c : option kb2_closure) (index : Z) (outs : list bool)
    (digest_size : Z) : kb2_status * option (Z * Z * bool * list Z) :=
  if negb (digest_size =? KB2_DIGEST_SIZE) then (KB2_STATUS_INVALID_ARGUMENT, None)
  else
    let '(status, r) := record_at artifacts c index outs in
    (status, (fun r => (ar_node_id r, ar_kind r, ar_is_root r, ar_content_digest r)) <$> r).

Definition kb2_closure_resource (c : option kb2_closure) (index : Z) (outs : list bool)
    (digest_size : Z) : kb2_status * option (Z * Z * list Z * Z * Z * Z * Z * Z) :=
  if negb (digest_size =? KB2_DIGEST_SIZE) then (KB2_STATUS_INVALID_ARGUMENT, None)
  else
    let '(status, r) := record_at resources c index outs in
    (status,
     (fun r => (rs_slot_id r, rs_type r, rs_interface_schema_digest r, rs_minimum_count r,
                rs_maximum_count r, rs_required_rights r, rs_maximum_rights r, rs_flags r)) <$> r).

Definition kb2_closure_resource_binding (c : option kb2_closure) (index : Z) (outs : list bool) :
    kb2_status * option (Z * Z) :=
  let '(status, r) := record_at resource_bindings c index outs in
  (status, (fun r => (bd_slot_id r, bd_node_id r)) <$> r).

(** * The interface the controller uses *)

Definition vec_owned {T} (v : cvec T) (item_size : Z) : list (Z * Z) :=
  opt_block (cv_block v) (u64 (cv_capacity v * item_size)).

(** The array blocks of a storage, in the order kb2_storage_release frees them. *)
Definition storage_owned (s : storage) : list (Z * Z) :=
  vec_owned (artifacts s) SIZEOF_ARTIFACT ++ vec_owned (dependencies s) SIZEOF_DEPENDENCY ++
  vec_owned (exports s) SIZEOF_EXPORT ++ vec_owned (imports s) SIZEOF_IMPORT ++
  vec_owned (resources s) SIZEOF_RESOURCE ++ vec_owned (resource_bindings s) SIZEOF_BINDING.

#[export] Instance closure_iface {A} `{Allocator A} `{Qsort} : ClosureIface A kb2_closure := {
  closure_clone a c := kb2_closure_clone a (Some c) true true true;
  closure_destroy := kb2_closure_destroy;
  closure_launch_flags := kb2_closure_launch_flags;
  closure_copy_manifest_digest := kb2_closure_copy_manifest_digest;
  closure_owned c := storage_owned (cl_storage c) ++ [(cl_self c, SIZEOF_CLOSURE)];
}.
