(* ===== verification/ClosureSpec.v ===== *)
(** What sealing a closure guarantees: validation accepts exactly the storages of
    the specification [storage_ok], every block taken from the allocator is either
    owned by the result or given back, and the sealed closure holds the builder's
    records in canonical order. *)

From Stdlib Require Import ZArith Lia.
From stdpp Require Import base numbers tactics sorting relations gmap list_numbers list.
From S2P Require Import Prelude Host Libc ClosureData ClosureGraph ClosureGraphSpec Closure.

Open Scope Z_scope.

(** * Ownership *)

Section Ledger.
Context {A : Type} `{AllocatorLaws A}.

Lemma release_array_holds {T} a (v : cvec T) item_size bl L :
  holds a (vec_owned v item_size ++ bl) L -> holds (kb2_release_array a v item_size) bl L.
Proof. apply holds_free. Qed.

Lemma storage_release_holds a s bl L :
  holds a (storage_owned s ++ bl) L -> holds (kb2_storage_release a s) bl L.
Proof.
  unfold storage_owned, kb2_storage_release. rewrite <- !app_assoc. intros Hh.
  by do 6 apply release_array_holds.
Qed.

Lemma closure_destroy_holds a c bl L :
  holds a (storage_owned (cl_storage c) ++ (cl_self c, SIZEOF_CLOSURE) :: bl) L ->
  holds (kb2_closure_destroy a (Some c)) bl L.
Proof. intros Hh. by apply holds_free_some, storage_release_holds. Qed.

Lemma build_node_map_holds a s st r a' bl L :
  kb2_build_node_map a s = (st, r, a') -> holds a bl L ->
  match r with
  | Some (p, map) => st = KB2_STATUS_OK /\
      map = kb2_sort_node_map (node_map_of (cv_items (artifacts s))) /\
      holds a' ((p, u64 (cv_count (artifacts s) * SIZEOF_NODE_MAP_ENTRY)) :: bl) L
  | None => st <> KB2_STATUS_OK /\ holds a' bl L
  end.
Proof.
  unfold kb2_build_node_map. intros E Hh. case_match; [by simplify_eq |].
  destruct (allocate a _) as [o a1] eqn:Ea. apply (holds_allocate _ _ _ _ bl L) in Ea; [| done].
  by destruct o; simplify_eq.
Qed.

Lemma validate_graph_holds a s map bl L :
  holds a bl L -> holds (kb2_validate_graph a s map).2 bl L.
Proof.
  intros Hh. unfold kb2_validate_graph.
  set (n := cv_count (artifacts s)). set (m := cv_count (dependencies s)).
  destruct (allocate a _) as [heads a1] eqn:E1. eapply holds_allocate in E1; [| exact Hh].
  destruct (allocate a1 _) as [queue a2] eqn:E2. eapply holds_allocate in E2; [| exact E1].
  destruct (allocate a2 _) as [incoming a3] eqn:E3. eapply holds_allocate in E3; [| exact E2].
  destruct (allocate a3 _) as [reachable a4] eqn:E4. eapply holds_allocate in E4; [| exact E3].
  assert (Hif : forall b a' o bl', holds a' bl' L -> forall a'',
            (if negb (m =? 0) then allocate a' b else (None, a')) = (o, a'') ->
            holds a'' (opt_block o b ++ bl') L).
  { intros b a' o bl' Hh' a'' E. destruct (m =? 0); cbn in E; [by simplify_eq |].
    by eapply holds_allocate. }
  destruct (if negb (m =? 0) then allocate a4 _ else _) as [next a5] eqn:E5.
  apply (Hif _ _ _ _ E4) in E5.
  destruct (if negb (m =? 0) then allocate a5 _ else _) as [targets a6] eqn:E6.
  apply (Hif _ _ _ _ E5) in E6. cbn [snd]. by do 6 apply holds_free.
Qed.

Lemma validate_storage_holds a s bl L :
  holds a bl L -> holds (kb2_validate_storage a s).2 bl L.
Proof.
  intros Hh. unfold kb2_validate_storage. destruct (kb2_validate_artifacts s); try done.
  destruct (kb2_build_node_map a s) as [[st r] a1] eqn:E.
  eapply build_node_map_holds in E; [| exact Hh].
  destruct r as [[p map] |]; [| by destruct E as [? ?], st].
  destruct E as (-> & _ & E). apply (validate_graph_holds _ s map) in E.
  destruct (kb2_validate_graph a1 s map) as [status a2]. cbn [snd] in *. by apply holds_free_some.
Qed.

(** ** Clone *)

Lemma clone_array_holds {T} a (v : cvec T) item_size st v' a' bl L :
  kb2_clone_array a v item_size = (st, v', a') -> holds a bl L ->
  holds a' (vec_owned v' item_size ++ bl) L /\
  ((st = KB2_STATUS_OK /\ cv_items v' = cv_items v) \/
   ((st = KB2_STATUS_NO_MEMORY \/ st = KB2_STATUS_RESOURCE_EXHAUSTED) /\ v' = empty_vec)).
Proof.
  unfold kb2_clone_array. intros E Hh. destruct (Z.eqb_spec (cv_count v) 0) as [Hz |].
  { simplify_eq. split; [done |]. left. split; [done |].
    unfold cv_count in Hz. by destruct (cv_items v). }
  case_match; [simplify_eq; split; [done | auto] |].
  destruct (allocate a _) as [o a1] eqn:Ea. eapply holds_allocate in Ea; [| exact Hh].
  destruct o; simplify_eq; split; auto.
Qed.

Definition failed (st : kb2_status) : Prop :=
  st = KB2_STATUS_NO_MEMORY \/ st = KB2_STATUS_RESOURCE_EXHAUSTED.

(** After cloning some fields: the blocks taken are those of the new storage, and
    the copied fields [P] are the source's. *)
Definition cloned (bl : list (Z * Z)) (L : gmap Z Z) (P : storage -> Prop)
    (r : kb2_status * storage * A) : Prop :=
  holds r.2 (storage_owned r.1.2 ++ bl) L /\ ((r.1.1 = KB2_STATUS_OK /\ P r.1.2) \/ failed r.1.1).

Lemma clone_field_cloned {T} (get : storage -> cvec T) set item_size source bl L P Q r :
  (forall s v, P s -> storage_owned (set s v) ≡ₚ vec_owned v item_size ++ storage_owned s) ->
  (forall s v, P s -> cv_items v = cv_items (get source) -> Q (set s v)) ->
  cloned bl L P r -> cloned bl L Q (clone_field get set item_size source r).
Proof.
  intros Hown HQ [Hh Hst]. destruct r as [[st s] a]. cbn [fst snd] in *.
  destruct Hst as [[-> HP] | Hf].
  - cbn. destruct (kb2_clone_array a (get source) item_size) as [[st v] a1] eqn:E.
    eapply clone_array_holds in E as [Hh1 [[-> Hitems] | [Hf ->]]]; [| | exact Hh].
    + split; cbn; [| left; split; [done | by apply HQ]].
      rewrite Hown by done. by rewrite <- app_assoc.
    + destruct Hf as [-> | ->]; (split; cbn; [exact Hh1 |]); right; [by left | by right].
  - destruct Hf as [-> | ->]; (split; cbn; [exact Hh |]); right; [by left | by right].
Qed.

(** The records of [s], field by field, are those of [s']. *)
Record same_contents (s s' : storage) : Prop := {
  sc_artifacts : cv_items (artifacts s) = cv_items (artifacts s');
  sc_dependencies : cv_items (dependencies s) = cv_items (dependencies s');
  sc_exports : cv_items (exports s) = cv_items (exports s');
  sc_imports : cv_items (imports s) = cv_items (imports s');
  sc_resources : cv_items (resources s) = cv_items (resources s');
  sc_bindings : cv_items (resource_bindings s) = cv_items (resource_bindings s');
  sc_digest : manifest_digest s = manifest_digest s';
}.

(** The first [k] fields hold the source's records, the others are empty. *)
Definition copied_fields (source : storage) (k : nat) (s : storage) : Prop :=
  let copied {T} i (get : storage -> cvec T) :=
    if (i <=? k)%nat then cv_items (get s) = cv_items (get source) else get s = empty_vec in
  manifest_digest s = manifest_digest source /\ copied 1%nat artifacts /\
  copied 2%nat dependencies /\ copied 3%nat exports /\ copied 4%nat imports /\
  copied 5%nat resources /\ copied 6%nat resource_bindings.

(** Setting a field that was empty adds its block to the storage's. *)
Ltac own_step :=
  let Hs := fresh in
  intros ? ? Hs; unfold copied_fields in Hs; cbn in Hs; destruct Hs as (_ & ? & ? & ? & ? & ? & ?);
  unfold storage_owned; cbn;
  repeat match goal with E : _ = empty_vec |- _ => rewrite !E; clear E end;
  cbn [vec_owned empty_vec cv_block opt_block app]; rewrite ?app_nil_r, ?app_assoc;
  first [done | rewrite Permutation_app_comm; by rewrite ?app_assoc].

Ltac field_step :=
  let Hs := fresh in
  intros ? ? Hs ?; unfold copied_fields in Hs |- *; cbn in Hs |- *; destruct Hs as (? & ? & ? & ? & ? & ? & ?); by split_and!.

Lemma clone_fields_cloned a source bl L :
  holds a bl L -> cloned bl L (fun s => same_contents s source) (clone_fields a source).
Proof.
  intros Hh. unfold clone_fields.
  assert (H0' : cloned bl L (copied_fields source 0%nat) (KB2_STATUS_OK, zero_storage (manifest_digest source), a)).
  { split; [done |]. left. done. }
  assert (Hend : forall r, cloned bl L (copied_fields source 6%nat) r -> cloned bl L (fun s => same_contents s source) r).
  { intros r [Hr [[Hst Hp] | Hf]]; (split; [done |]); [left; split; [done |] | by right].
    destruct Hp as (? & ? & ? & ? & ? & ? & ?). by constructor. }
  apply Hend.
  apply (clone_field_cloned _ _ _ _ _ _ (copied_fields source 5%nat)); [by own_step | by field_step |].
  apply (clone_field_cloned _ _ _ _ _ _ (copied_fields source 4%nat)); [by own_step | by field_step |].
  apply (clone_field_cloned _ _ _ _ _ _ (copied_fields source 3%nat)); [by own_step | by field_step |].
  apply (clone_field_cloned _ _ _ _ _ _ (copied_fields source 2%nat)); [by own_step | by field_step |].
  apply (clone_field_cloned _ _ _ _ _ _ (copied_fields source 1%nat)); [by own_step | by field_step |].
  by apply (clone_field_cloned _ _ _ _ _ _ (copied_fields source 0%nat)); [own_step | field_step |].
Qed.
End Ledger.

(** * Canonical order *)

Ltac comparator_by order :=
  apply (comparator_ext _ order); [| apply _];
  intros l r; unfold kb2_compare_artifacts, kb2_compare_dependencies, kb2_compare_exports,
    kb2_compare_imports, kb2_compare_resources, kb2_compare_resource_bindings,
    cmp_lex, cmp_on, cmp_Z, b2z; cbn;
  repeat match goal with
  | |- context [Z.ltb ?x ?y] => destruct (Z.ltb_spec x y)
  | |- context [Z.eqb ?x ?y] => destruct (Z.eqb_spec x y)
  end; cbn; lia.

#[export] Instance compare_artifacts_comparator : Comparator kb2_compare_artifacts.
Proof. comparator_by (cmp_on ar_node_id cmp_Z). Qed.
#[export] Instance compare_dependencies_comparator : Comparator kb2_compare_dependencies.
Proof. comparator_by (cmp_lex (cmp_on dp_consumer cmp_Z) (cmp_on dp_provider cmp_Z)). Qed.
#[export] Instance compare_exports_comparator : Comparator kb2_compare_exports.
Proof.
  comparator_by (cmp_lex (cmp_on ex_node_id cmp_Z)
                   (cmp_lex (cmp_on ex_symbol strcmp) (cmp_on ex_kind cmp_Z))).
Qed.
#[export] Instance compare_imports_comparator : Comparator kb2_compare_imports.
Proof.
  comparator_by (cmp_lex (cmp_on im_consumer cmp_Z)
                   (cmp_lex (cmp_on im_consumer_symbol strcmp) (cmp_on im_provider cmp_Z))).
Qed.
#[export] Instance compare_resources_comparator : Comparator kb2_compare_resources.
Proof. comparator_by (cmp_on rs_slot_id cmp_Z). Qed.
#[export] Instance compare_bindings_comparator : Comparator kb2_compare_resource_bindings.
Proof. comparator_by (cmp_lex (cmp_on bd_slot_id cmp_Z) (cmp_on bd_node_id cmp_Z)). Qed.

Section Sorting.
Context `{QsortLaws}.

Lemma sort_array_perm {T} (v : cvec T) compare `{!Comparator compare} :
  cv_items (kb2_sort_array v compare) ≡ₚ cv_items v.
Proof. unfold kb2_sort_array. case_match; [| done]. by apply qsort_perm. Qed.

Lemma sort_array_sorted {T} (v : cvec T) compare `{!Comparator compare} :
  StronglySorted (cmp_le compare) (cv_items (kb2_sort_array v compare)).
Proof.
  unfold kb2_sort_array. case_match eqn:Hc; [by apply qsort_sorted |].
  apply Z.ltb_ge in Hc. unfold cv_count in Hc. destruct (cv_items v) as [|x [|y l]]; cbn in *; [| | lia];
    repeat constructor.
Qed.

Lemma sort_array_owned {T} (v : cvec T) compare item_size :
  vec_owned (kb2_sort_array v compare) item_size = vec_owned v item_size.
Proof. unfold kb2_sort_array. by case_match. Qed.

Lemma storage_sort_owned s : storage_owned (kb2_storage_sort s) = storage_owned s.
Proof. unfold storage_owned, kb2_storage_sort. cbn. by rewrite !sort_array_owned. Qed.

(** The records of a closure: those of [source], each array in canonical order. *)
Record canonical_copy (source s : storage) : Prop := {
  cc_artifacts : cv_items (artifacts s) ≡ₚ cv_items (artifacts source);
  cc_artifacts_sorted : StronglySorted (cmp_le kb2_compare_artifacts) (cv_items (artifacts s));
  cc_dependencies : cv_items (dependencies s) ≡ₚ cv_items (dependencies source);
  cc_dependencies_sorted : StronglySorted (cmp_le kb2_compare_dependencies) (cv_items (dependencies s));
  cc_exports : cv_items (exports s) ≡ₚ cv_items (exports source);
  cc_exports_sorted : StronglySorted (cmp_le kb2_compare_exports) (cv_items (exports s));
  cc_imports : cv_items (imports s) ≡ₚ cv_items (imports source);
  cc_imports_sorted : StronglySorted (cmp_le kb2_compare_imports) (cv_items (imports s));
  cc_resources : cv_items (resources s) ≡ₚ cv_items (resources source);
  cc_resources_sorted : StronglySorted (cmp_le kb2_compare_resources) (cv_items (resources s));
  cc_bindings : cv_items (resource_bindings s) ≡ₚ cv_items (resource_bindings source);
  cc_bindings_sorted :
    StronglySorted (cmp_le kb2_compare_resource_bindings) (cv_items (resource_bindings s));
  cc_digest : manifest_digest s = manifest_digest source;
}.

Lemma storage_sort_canonical source s :
  same_contents s source -> canonical_copy source (kb2_storage_sort s).
Proof.
  intros []. constructor; cbn [kb2_storage_sort artifacts dependencies exports imports resources
    resource_bindings manifest_digest]; try (apply sort_array_sorted; apply _); [.. | done];
    by (etransitivity; [apply sort_array_perm; apply _ | apply reflexive_eq]).
Qed.

Context {A : Type} `{AllocatorLaws A}.

(** Cloning either copies the whole storage into blocks of its own, or gives back
    every block it took. *)
Lemma closure_clone_spec (a : A) c st r a' bl L :
  kb2_closure_clone a (Some c) true true true = (st, r, a') -> holds a bl L ->
  (st = KB2_STATUS_OK /\ exists d, r = Some d /\ canonical_copy (cl_storage c) (cl_storage d) /\
     holds a' (storage_owned (cl_storage d) ++ (cl_self d, SIZEOF_CLOSURE) :: bl) L) \/
  (failed st /\ r = None /\ holds a' bl L).
Proof.
  cbn. intros E Hh. destruct (allocate a SIZEOF_CLOSURE) as [o a1] eqn:Ea.
  eapply holds_allocate in Ea; [| exact Hh].
  destruct o as [p |]; [| simplify_eq; right; split_and!; [by left | done | done]].
  cbn [opt_block app] in Ea.
  destruct (clone_fields_cloned a1 (cl_storage c) _ _ Ea) as [Hh2 Hst].
  destruct (clone_fields a1 (cl_storage c)) as [[st2 s2] a2]. cbn [fst snd] in *.
  destruct Hst as [[-> Hs] | Hf].
  - simplify_eq. left. split; [done |]. eexists. split; [done |]. cbn.
    split; [by apply storage_sort_canonical | by rewrite storage_sort_owned].
  - right. assert (E' : (st, r, a') = (st2, None, kb2_closure_destroy a2 (Some (mkClosure p s2)))).
    { rewrite <- E. destruct Hf as [-> | ->]; done. }
    simplify_eq. split_and!; [done | done |]. by apply closure_destroy_holds.
Qed.

Lemma existsb_perm {T} (f : T -> bool) l l' : l ≡ₚ l' -> existsb f l = existsb f l'.
Proof.
  intros Hp. apply eq_iff_eq_true. rewrite !existsb_exists. by setoid_rewrite Hp.
Qed.

#[export] Instance closure_laws : ClosureLaws A kb2_closure.
Proof.
  split.
  - intros a c c' a' bl L E Hh. cbn [closure_clone closure_iface] in E.
    destruct (closure_clone_spec _ _ _ _ _ _ _ E Hh) as [(_ & d & -> & Hc & Hh') | ([? | ?] & _)]; [| done ..].
    exists d. split_and!; [done | | by cbn; rewrite <- app_assoc]. cbn.
    by rewrite (existsb_perm _ _ _ (cc_resources _ _ Hc)).
  - intros a c s c' a' bl L E Hs Hh. cbn [closure_clone closure_iface] in E.
    destruct (closure_clone_spec _ _ _ _ _ _ _ E Hh) as [(-> & _) | (_ & ? & ?)]; done.
  - intros a [c |] bl L Hh; [| done]. cbn in *. rewrite <- app_assoc in Hh.
    by apply closure_destroy_holds.
  - intros [c |]; cbn; [case_match; auto | auto].
Qed.
End Sorting.

(** * What validation accepts *)

Definition ids (s : storage) : list Z := ar_node_id <$> cv_items (artifacts s).

Record artifacts_ok (s : storage) : Prop := {
  ao_lifecycle : forall r, r ∈ cv_items (artifacts s) -> ar_lifecycle_set r = true;
  ao_uniform : forall r r', r ∈ cv_items (artifacts s) -> r' ∈ cv_items (artifacts s) ->
    ar_native_lifecycle r = ar_native_lifecycle r';
  ao_exported : forall r symbol, r ∈ cv_items (artifacts s) -> ar_native_lifecycle r = false ->
    symbol ∈ [ar_init_symbol r; ar_quiesce_symbol r; ar_cleanup_symbol r] ->
    mkExport symbol (ar_node_id r) KB2_SYMBOL_FUNCTION ∈ cv_items (exports s);
  ao_root_kind : forall r, r ∈ cv_items (artifacts s) -> ar_is_root r = true ->
    ar_kind r = KB2_ARTIFACT_RELOCATABLE_MODULE;
  ao_root : exists r, r ∈ cv_items (artifacts s) /\ ar_is_root r = true;
  ao_native : forall r, r ∈ cv_items (artifacts s) -> ar_native_lifecycle r = true ->
    length (filter (fun r => ar_kind r = KB2_ARTIFACT_SHARED_PROVIDER) (cv_items (artifacts s))) = 1%nat;
}.

Definition import_ok (s : storage) (r : import) : Prop :=
  im_consumer r ∈ ids s /\
  (im_provider r <> 0 ->
     im_provider r ∈ ids s /\
     mkDependency (im_consumer r) (im_provider r) ∈ cv_items (dependencies s) /\
     (mkExport (im_provider_symbol r) (im_provider r) (im_kind r) ∈ cv_items (exports s) \/
      Z.land (im_flags r) KB2_IMPORT_OPTIONAL <> 0)).

Record symbols_ok (s : storage) : Prop := {
  so_exports : forall r, r ∈ cv_items (exports s) -> ex_node_id r ∈ ids s;
  so_imports : forall r, r ∈ cv_items (imports s) -> import_ok s r;
}.

Record resources_ok (s : storage) : Prop := {
  ro_bindings : forall b, b ∈ cv_items (resource_bindings s) ->
    bd_slot_id b ∈ (rs_slot_id <$> cv_items (resources s)) /\ bd_node_id b ∈ ids s;
  ro_bound : forall r, r ∈ cv_items (resources s) ->
    (1 <= binding_count s (rs_slot_id r))%nat /\
    (Z.land (rs_flags r) KB2_RESOURCE_SHARED = 0 -> binding_count s (rs_slot_id r) = 1%nat);
}.

Record storage_ok (s : storage) : Prop := {
  st_artifacts : artifacts_ok s;
  st_graph : graph_ok (cv_items (artifacts s)) (cv_items (dependencies s));
  st_symbols : symbols_ok s;
  st_resources : resources_ok s;
}.

(** ** The checks decide the specification *)

Lemma find_index_spec {T} (p : T -> bool) l :
  match find_index p l with
  | Some i => exists x, l !! i = Some x /\ p x = true
  | None => forall x, x ∈ l -> p x = false
  end.
Proof.
  induction l as [|x l IH]; cbn.
  - intros x Hx. by apply elem_of_nil in Hx.
  - destruct (p x) eqn:Hp; [by exists x |].
    destruct (find_index p l) as [i |]; cbn; [done |].
    intros y [-> | Hy]%elem_of_cons; [done | by apply IH].
Qed.

Lemma find_index_some {T} (p : T -> bool) l :
  (if find_index p l is Some _ then true else false) = true <-> exists x, x ∈ l /\ p x = true.
Proof.
  pose proof (find_index_spec p l) as Hs. destruct (find_index p l).
  - split; [| done]. intros _. destruct Hs as (x & Hx & Hp). exists x.
    split; [by eapply list_elem_of_lookup_2 | done].
  - split; [done |]. intros (x & Hx & Hp). by rewrite Hs in Hp.
Qed.

Lemma find_export_some s node_id symbol kind :
  (if kb2_find_export s node_id symbol kind is Some _ then true else false) = true <->
  mkExport symbol node_id kind ∈ cv_items (exports s).
Proof.
  unfold kb2_find_export. rewrite find_index_some. split.
  - intros ([sy n k] & Hx & Hp). cbn in Hp.
    apply andb_true_iff in Hp as [[H1 H2]%andb_true_iff H3%bool_decide_eq_true].
    apply Z.eqb_eq in H1, H2. by subst.
  - intros Hx. eexists. split; [exact Hx |]. cbn. by rewrite !Z.eqb_refl, bool_decide_true.
Qed.

Lemma has_dependency_spec s consumer provider :
  kb2_has_dependency s consumer provider = true <->
  mkDependency consumer provider ∈ cv_items (dependencies s).
Proof.
  unfold kb2_has_dependency. rewrite existsb_exists. split.
  - intros ([c p] & Hx & [H1 H2]%andb_true_iff). apply Z.eqb_eq in H1, H2. cbn in *. subst.
    by apply list_elem_of_In.
  - intros Hx. eexists. split; [by apply list_elem_of_In |]. cbn. by rewrite !Z.eqb_refl.
Qed.

Lemma found_spec s x :
  NoDup (ids s) ->
  found (kb2_sort_node_map (node_map_of (cv_items (artifacts s)))) x = true <-> x ∈ ids s.
Proof.
  intros Hnd. unfold found. pose proof (find_at_index _ Hnd x) as Hf.
  unfold ids. rewrite list_elem_of_fmap. destruct (kb2_node_map_find _ x) as [i |].
  - split; [| done]. intros _. destruct Hf as (r & Hr & <-). exists r.
    split; [done | by eapply list_elem_of_lookup_2].
  - split; [done |]. intros (r & -> & Hr). by apply Hf in Hr.
Qed.

Lemma forallb_elem {T} (f : T -> bool) l : forallb f l = true <-> forall x, x ∈ l -> f x = true.
Proof. rewrite forallb_forall. by setoid_rewrite list_elem_of_In. Qed.

Lemma validate_symbols_spec s :
  NoDup (ids s) ->
  (kb2_validate_symbols s (kb2_sort_node_map (node_map_of (cv_items (artifacts s)))) = KB2_STATUS_OK
     /\ symbols_ok s) \/
  (kb2_validate_symbols s (kb2_sort_node_map (node_map_of (cv_items (artifacts s)))) =
     KB2_STATUS_INVALID_CONFIGURATION /\ ~ symbols_ok s).
Proof.
  intros Hnd. unfold kb2_validate_symbols.
  assert (Himp : forall r, import_resolved s (kb2_sort_node_map (node_map_of (cv_items (artifacts s)))) r = true
                 <-> import_ok s r).
  { intros r. unfold import_resolved, import_ok. rewrite andb_true_iff, found_spec by done.
    destruct (Z.eqb_spec (im_provider r) 0) as [Hz | Hz]; [tauto |].
    rewrite !andb_true_iff, found_spec, has_dependency_spec, negb_true_iff, andb_false_iff, Z.eqb_neq by done.
    rewrite <- find_export_some. destruct (kb2_find_export _ _ _ _); intuition done. }
  match goal with |- context [if ?b then _ else _] => destruct b eqn:E end; [left | right]; (split; [done |]).
  - apply andb_true_iff in E as [E1 E2]. rewrite forallb_elem in E1. rewrite forallb_elem in E2.
    constructor; intros r Hr; [by apply found_spec, E1 | by apply Himp, E2].
  - intros [He Hi]. apply not_true_iff_false in E. apply E, andb_true_iff. rewrite !forallb_elem.
    split; intros r Hr; [by apply found_spec, He | by apply Himp, Hi].
Qed.

Lemma validate_resources_spec s :
  NoDup (ids s) ->
  (kb2_validate_resources s (kb2_sort_node_map (node_map_of (cv_items (artifacts s)))) = KB2_STATUS_OK
     /\ resources_ok s) \/
  (kb2_validate_resources s (kb2_sort_node_map (node_map_of (cv_items (artifacts s)))) =
     KB2_STATUS_INVALID_CONFIGURATION /\ ~ resources_ok s).
Proof.
  intros Hnd. unfold kb2_validate_resources.
  assert (Hb : forall b,
    (if kb2_find_resource s (bd_slot_id b) is Some _ then true else false) &&
    found (kb2_sort_node_map (node_map_of (cv_items (artifacts s)))) (bd_node_id b) = true <->
    bd_slot_id b ∈ (rs_slot_id <$> cv_items (resources s)) /\ bd_node_id b ∈ ids s).
  { intros b. rewrite andb_true_iff, found_spec by done. unfold kb2_find_resource.
    rewrite find_index_some, list_elem_of_fmap. setoid_rewrite Z.eqb_eq. naive_solver. }
  assert (Hr : forall r, negb ((binding_count s (rs_slot_id r) =? 0)%nat ||
      (Z.land (rs_flags r) KB2_RESOURCE_SHARED =? 0) && negb (binding_count s (rs_slot_id r) =? 1)%nat) = true <->
      (1 <= binding_count s (rs_slot_id r))%nat /\
      (Z.land (rs_flags r) KB2_RESOURCE_SHARED = 0 -> binding_count s (rs_slot_id r) = 1%nat)).
  { intros r. destruct (Nat.eqb_spec (binding_count s (rs_slot_id r)) 0),
      (Z.eqb_spec (Z.land (rs_flags r) KB2_RESOURCE_SHARED) 0),
      (Nat.eqb_spec (binding_count s (rs_slot_id r)) 1); cbn; split; try done; try lia. }
  match goal with |- context [if ?b then KB2_STATUS_OK else _] => destruct b eqn:E end;
    [left | right]; (split; [done |]).
  - apply andb_true_iff in E as [E1 E2]. rewrite forallb_elem in E1. rewrite forallb_elem in E2.
    constructor; intros x Hx; [by apply Hb, E1 | by apply Hr, E2].
  - intros [H1 H2]. apply not_true_iff_false in E. apply E, andb_true_iff. rewrite !forallb_elem.
    split; intros x Hx; [by apply Hb, H1 | by apply Hr, H2].
Qed.

(** One artifact of the loop. *)
Definition artifact_ok (s : storage) (native : bool) (r : artifact) : Prop :=
  ar_lifecycle_set r = true /\ ar_native_lifecycle r = native /\
  (ar_native_lifecycle r = false -> lifecycle_exported s r = true) /\
  (ar_is_root r = true -> ar_kind r = KB2_ARTIFACT_RELOCATABLE_MODULE).

Lemma lifecycle_exported_spec s r :
  lifecycle_exported s r = true <->
  forall symbol, symbol ∈ [ar_init_symbol r; ar_quiesce_symbol r; ar_cleanup_symbol r] ->
    mkExport symbol (ar_node_id r) KB2_SYMBOL_FUNCTION ∈ cv_items (exports s).
Proof.
  unfold lifecycle_exported. rewrite !andb_true_iff, !find_export_some. split.
  - intros [[? ?] ?] symbol. rewrite !elem_of_cons. intros [-> | [-> | [-> | []%elem_of_nil]]]; done.
  - intros He. split_and!; apply He; set_solver.
Qed.

Lemma validate_artifacts_loop_spec s native arts roots providers :
  match validate_artifacts_loop s native arts roots providers with
  | Some (roots', providers') => Forall (artifact_ok s native) arts /\
      roots' = (roots + length (filter (fun r => ar_is_root r = true) arts))%nat /\
      providers' = (providers +
        length (filter (fun r => ar_kind r = KB2_ARTIFACT_SHARED_PROVIDER) arts))%nat
  | None => ~ Forall (artifact_ok s native) arts
  end.
Proof.
  revert roots providers.
  induction arts as [|r arts IH]; intros roots providers; cbn [validate_artifacts_loop].
  { cbn. split_and!; [constructor | lia | lia]. }
  assert (Hbad : ~ artifact_ok s native r -> ~ Forall (artifact_ok s native) (r :: arts)).
  { intros Hn Hall. by apply Forall_cons in Hall as [? _]. }
  destruct (negb (ar_lifecycle_set r) || _) eqn:E1.
  { apply Hbad. intros (Hl & Hn & _). rewrite Hl, Hn, Bool.eqb_reflx in E1. done. }
  apply orb_false_iff in E1 as [Hl%negb_false_iff Hn%negb_false_iff%Bool.eqb_prop].
  destruct (negb (ar_native_lifecycle r) && _) eqn:E2.
  { apply andb_true_iff in E2 as [Hnat%negb_true_iff Hex%negb_true_iff].
    apply Hbad. intros (_ & _ & He & _). rewrite He in Hex by done. done. }
  assert (Hex : ar_native_lifecycle r = false -> lifecycle_exported s r = true).
  { intros Hnat. rewrite Hnat in E2. by apply negb_false_iff in E2. }
  set (providers' := (providers + _)%nat).
  assert (Hp : (providers' + length (filter (fun r => ar_kind r = KB2_ARTIFACT_SHARED_PROVIDER) arts) =
    providers + length (filter (fun r => ar_kind r = KB2_ARTIFACT_SHARED_PROVIDER) (r :: arts)))%nat).
  { unfold providers'. rewrite filter_cons.
    destruct (Z.eqb_spec (ar_kind r) KB2_ARTIFACT_SHARED_PROVIDER);
      [rewrite decide_True by done | rewrite decide_False by done]; cbn; lia. }
  clearbody providers'. rewrite filter_cons.
  destruct (ar_is_root r) eqn:Hroot; cbn [decide bool_eq_dec].
  - destruct (Z.eqb_spec (ar_kind r) KB2_ARTIFACT_RELOCATABLE_MODULE) as [Hk | Hk]; cbn [negb].
    2: { apply Hbad. intros (_ & _ & _ & Hk'). by apply Hk, Hk'. }
    specialize (IH (S roots) providers'). destruct (validate_artifacts_loop _ _ _ _ _) as [[? ?] |].
    + destruct IH as (Hall & -> & ->). rewrite decide_True by done. cbn [length].
      split_and!; [constructor; [split_and!; by try congruence | done] | lia | done].
    + by intros [_ ?]%Forall_cons.
  - specialize (IH roots providers'). destruct (validate_artifacts_loop _ _ _ _ _) as [[? ?] |].
    + destruct IH as (Hall & -> & ->). rewrite decide_False by done.
      split_and!; [constructor; [split_and!; by try congruence | done] | lia | done].
    + by intros [_ ?]%Forall_cons.
Qed.

Lemma validate_artifacts_spec s :
  (kb2_validate_artifacts s = KB2_STATUS_OK /\ artifacts_ok s) \/
  (kb2_validate_artifacts s = KB2_STATUS_INVALID_CONFIGURATION /\ ~ artifacts_ok s).
Proof.
  unfold kb2_validate_artifacts.
  destruct (cv_items (artifacts s)) as [|first rest] eqn:Earts.
  { right. split; [done |]. intros [_ _ _ _ (r & Hr & _) _]. rewrite Earts in Hr. by apply elem_of_nil in Hr. }
  pose proof (validate_artifacts_loop_spec s (ar_native_lifecycle first) (first :: rest) 0 0) as Hl.
  assert (Hall : artifacts_ok s -> Forall (artifact_ok s (ar_native_lifecycle first)) (first :: rest)).
  { intros [H1 H2 H3 H4 _ _]. rewrite Earts in H1, H2, H3, H4. apply Forall_forall. intros r Hr.
    split_and!; [by apply H1 | apply H2; [done | by left] | | by apply H4].
    intros Hn. apply lifecycle_exported_spec. intros symbol. by apply H3. }
  destruct (validate_artifacts_loop _ _ _ _ _) as [[roots providers] |]; [| right; split; [done | tauto]].
  destruct Hl as (Hok & Hroots & Hprov).
  rewrite Forall_forall in Hok.
  destruct (ar_native_lifecycle first && negb (providers =? 1)%nat) eqn:E1.
  { right. split; [done |]. intros [_ _ _ _ _ Hn].
    apply andb_true_iff in E1 as [Hnat Hp%negb_true_iff%Nat.eqb_neq]. apply Hp. rewrite Hprov.
    rewrite Earts in Hn. by rewrite (Hn first ltac:(by left) Hnat). }
  destruct (Nat.eqb_spec roots 0) as [Hz | Hz].
  { right. split; [done |]. intros [_ _ _ _ (r & Hr & Hroot) _]. rewrite Earts in Hr.
    assert (Hin : r ∈ filter (fun r => ar_is_root r = true) (first :: rest)) by (by apply list_elem_of_filter).
    destruct (filter _ (first :: rest)); [by apply elem_of_nil in Hin | cbn in Hroots; lia]. }
  left. split; [done |]. constructor; rewrite Earts.
  - intros r Hr. by apply Hok.
  - intros r r' Hr Hr'. destruct (Hok r Hr) as (_ & -> & _). by destruct (Hok r' Hr') as (_ & -> & _).
  - intros r symbol Hr Hn. destruct (Hok r Hr) as (_ & _ & He & _).
    apply lifecycle_exported_spec. by apply He.
  - intros r Hr. by apply Hok.
  - destruct (filter (fun r => ar_is_root r = true) (first :: rest)) as [|r l] eqn:Ef; [cbn in Hroots; lia |].
    assert (Hin : r ∈ filter (fun r => ar_is_root r = true) (first :: rest)) by (rewrite Ef; by left).
    apply list_elem_of_filter in Hin as [? ?]. by exists r.
  - intros r Hr Hn. destruct (Hok r Hr) as (_ & Hnat & _). rewrite Hn in Hnat. rewrite <- Hnat in E1.
    apply negb_false_iff, Nat.eqb_eq in E1. lia.
Qed.
