(* ===== verification/ClosureBuilderSpec.v ===== *)
(** The builder's invariant: whatever sequence of builder calls a client makes, in
    whatever order and with whatever arguments, the storage stays well formed
    (distinct ids, names, slots and records, arrays within their limits) and owns
    exactly the blocks it took from the allocator. *)

From Stdlib Require Import ZArith Lia.
From stdpp Require Import base numbers tactics sorting relations gmap list_numbers list.
From S2P Require Import Prelude Host Libc ClosureData ClosureGraph ClosureGraphSpec Closure.
From S2P Require Import ClosureSpec.

Open Scope Z_scope.

(** * Arrays *)

Definition vec_wf {T} (v : cvec T) (maximum_count : Z) : Prop :=
  cv_count v <= cv_capacity v <= maximum_count.

Lemma cv_count_push {T} (v : cvec T) x : cv_count (cv_push v x) = cv_count v + 1.
Proof. unfold cv_count, cv_push. cbn. rewrite length_app. cbn. lia. Qed.

Section Reserve.
Context {A : Type} `{AllocatorLaws A}.

(** Growing keeps the records and replaces the block; a failure changes nothing. *)
Lemma reserve_spec {T} (a : A) (v : cvec T) item_size maximum_count st v' a' bl L :
  kb2_reserve a v item_size maximum_count = (st, v', a') ->
  vec_wf v maximum_count -> maximum_count < 2 ^ 32 -> holds a (vec_owned v item_size ++ bl) L ->
  holds a' (vec_owned v' item_size ++ bl) L /\ cv_items v' = cv_items v /\
  vec_wf v' maximum_count /\
  ((st = KB2_STATUS_OK /\ cv_count v < cv_capacity v') \/ (failed st /\ v' = v)).
Proof.
  unfold kb2_reserve, vec_wf. intros E Hwf Hmax Hh.
  assert (Hcnt : 0 <= cv_count v) by (unfold cv_count; lia).
  destruct (Z.ltb_spec (cv_count v) (cv_capacity v)) as [Hlt | Hge].
  { simplify_eq. split_and!; try done; try lia. by left. }
  destruct (Z.leb_spec maximum_count (cv_count v)) as [Hfull | Hroom].
  { simplify_eq. split_and!; try done; try lia. right. split; [by right | done]. }
  set (grown := if cv_capacity v =? 0 then 8 else u64 (cv_capacity v * 2)) in E.
  set (capped := if (grown <? cv_capacity v) || (maximum_count <? grown) then maximum_count else grown) in E.
  assert (Hcap : cv_count v < capped <= maximum_count).
  { assert (Hg : cv_capacity v < grown).
    { unfold grown. destruct (Z.eqb_spec (cv_capacity v) 0); [lia |].
      rewrite u64_small; unfold is_u64, U64_MAX; lia. }
    unfold capped. destruct (Z.ltb_spec grown (cv_capacity v)), (Z.ltb_spec maximum_count grown);
      cbn; lia. }
  clearbody grown capped.
  case_match; [simplify_eq; split_and!; try done; try lia; right; split; [by right | done] |].
  destruct (allocate a _) as [o a1] eqn:Ea. eapply holds_allocate in Ea; [| exact Hh].
  destruct o as [p |]; simplify_eq.
  - assert (Hown : holds a1 (vec_owned v item_size ++ opt_block (Some p) (u64 (capped * item_size)) ++ bl) L).
    { rewrite app_assoc, (Permutation_app_comm (vec_owned v item_size)), <- app_assoc. done. }
    split_and!; [by apply release_array_holds | done | | cbn; lia |].
    + unfold cv_count in *. cbn [cv_items cv_capacity]. lia.
    + left. unfold cv_count in *. cbn [cv_items cv_capacity]. split; [done | lia].
  - split_and!; try done; try lia. right. split; [by left | done].
Qed.

(** A field of the storage, with the block its array owns. *)
Definition field_law {T} (get : storage -> cvec T) (set : storage -> cvec T -> storage)
    (item_size : Z) : Prop :=
  forall s, (forall v, get (set s v) = v) /\ set s (get s) = s /\
    exists rest, forall v, storage_owned (set s v) ≡ₚ vec_owned v item_size ++ rest.

Lemma push_record_spec {T} (a : A) s (get : storage -> cvec T) set item_size maximum_count x st s' a' bl L :
  push_record a s get set item_size maximum_count x = (st, s', a') ->
  field_law get set item_size -> vec_wf (get s) maximum_count -> maximum_count < 2 ^ 32 ->
  holds a (storage_owned s ++ bl) L ->
  holds a' (storage_owned s' ++ bl) L /\
  exists v, s' = set s v /\ vec_wf v maximum_count /\
    ((st = KB2_STATUS_OK /\ cv_items v = cv_items (get s) ++ [x]) \/
     (failed st /\ v = get s)).
Proof.
  unfold push_record. intros E Hlaw Hwf Hmax Hh.
  destruct (Hlaw s) as (Hget & Hset & rest & Hown).
  destruct (kb2_reserve a (get s) item_size maximum_count) as [[st1 v1] a1] eqn:Er.
  eapply (reserve_spec _ _ _ _ _ _ _ (rest ++ bl) L) in Er as (Hh1 & Hitems & Hwf1 & Hst); [| done .. |].
  2: { rewrite app_assoc, <- Hown. by rewrite Hset. }
  assert (Hh2 : forall items, holds a1 (storage_owned (set s (cv_update v1 items)) ++ bl) L).
  { intros items. rewrite Hown, <- app_assoc. done. }
  destruct Hst as [[-> Hroom] | [Hf ->]].
  - simplify_eq. split; [apply (Hh2 (cv_items v1 ++ [x])) |]. exists (cv_push v1 x).
    split; [done |]. split; [| left; cbn; by rewrite Hitems].
    unfold vec_wf in *. rewrite cv_count_push. cbn.
    assert (cv_count v1 = cv_count (get s)) as -> by (unfold cv_count; by rewrite Hitems). lia.
  - assert (E' : (st, s', a') = (st1, set s (get s), a1)).
    { rewrite <- E. destruct Hf as [-> | ->]; done. }
    simplify_eq. split; [rewrite Hown, <- app_assoc; done |]. exists (get s).
    split; [done |]. split; [done | by right].
Qed.
End Reserve.

Ltac solve_field_law set :=
  intros s; split; [done |]; split; [by destruct s |];
  exists (storage_owned (set s empty_vec)); intros v;
  unfold storage_owned; cbn [vec_owned empty_vec cv_block opt_block app set];
  unfold set; cbn; solve_Permutation.

Lemma artifacts_field : field_law artifacts set_artifacts SIZEOF_ARTIFACT.
Proof. solve_field_law set_artifacts. Qed.
Lemma dependencies_field : field_law dependencies set_dependencies SIZEOF_DEPENDENCY.
Proof. solve_field_law set_dependencies. Qed.
Lemma exports_field : field_law exports set_exports SIZEOF_EXPORT.
Proof. solve_field_law set_exports. Qed.
Lemma imports_field : field_law imports set_imports SIZEOF_IMPORT.
Proof. solve_field_law set_imports. Qed.
Lemma resources_field : field_law resources set_resources SIZEOF_RESOURCE.
Proof. solve_field_law set_resources. Qed.
Lemma bindings_field : field_law resource_bindings set_resource_bindings SIZEOF_BINDING.
Proof. solve_field_law set_resource_bindings. Qed.

(** * Well-formed storage *)

Definition export_key (r : export) : Z * list Z := (ex_node_id r, ex_symbol r).
Definition import_key (r : import) : Z * list Z := (im_consumer r, im_consumer_symbol r).

Definition resource_valid (r : resource) : Prop :=
  resource_limits_invalid (rs_type r) (rs_minimum_count r) (rs_maximum_count r)
    (rs_required_rights r) (rs_maximum_rights r) (rs_flags r) = false.

Record storage_wf (s : storage) : Prop := {
  wf_artifacts : vec_wf (artifacts s) KB2_CLOSURE_MAX_ARTIFACTS;
  wf_dependencies : vec_wf (dependencies s) KB2_CLOSURE_MAX_DEPENDENCIES;
  wf_exports : vec_wf (exports s) KB2_CLOSURE_MAX_SYMBOLS;
  wf_imports : vec_wf (imports s) KB2_CLOSURE_MAX_SYMBOLS;
  wf_resources : vec_wf (resources s) KB2_CLOSURE_MAX_RESOURCES;
  wf_bindings : vec_wf (resource_bindings s) KB2_CLOSURE_MAX_RESOURCE_BINDINGS;
  wf_ids : NoDup (ids s);
  wf_names : NoDup (ar_namespace_name <$> cv_items (artifacts s));
  wf_edges : NoDup (cv_items (dependencies s));
  wf_no_self : Forall (fun d => dp_consumer d <> dp_provider d) (cv_items (dependencies s));
  wf_export_keys : NoDup (export_key <$> cv_items (exports s));
  wf_import_keys : NoDup (import_key <$> cv_items (imports s));
  wf_slots : NoDup (rs_slot_id <$> cv_items (resources s));
  wf_limits : Forall resource_valid (cv_items (resources s));
  wf_pairs : NoDup (cv_items (resource_bindings s));
}.


Lemma existsb_false {T} (f : T -> bool) l : existsb f l = false -> forall x, x ∈ l -> f x = false.
Proof.
  intros He x Hx. apply not_true_iff_false. intros Ht. apply not_true_iff_false in He. apply He.
  apply existsb_exists. exists x. split; [by apply list_elem_of_In | done].
Qed.

(** A valid name is as long as its length argument says: the bytes past the end
    of the buffer would be NULs, which are not valid. *)
Lemma name_valid_length name n :
  kb2_name_valid name (Z.of_nat n) = true -> length (kb2_copy_name name (Z.of_nat n)) = n.
Proof.
  destruct name as [name |]; [| done]. unfold kb2_name_valid, kb2_copy_name.
  case_match; [done |]. rewrite Nat2Z.id, length_take. cbn [default]. intros Hv. apply Nat.min_l. destruct (decide (n <= length name)%nat) as [| Hgt]; [done |].
  rewrite forallb_forall in Hv. specialize (Hv (length name)). rewrite nth_overflow in Hv by done.
  rewrite in_seq in Hv. specialize (Hv ltac:(lia)). done.
Qed.

Lemma same_name_copy name n :
  kb2_name_valid name (Z.of_nat n) = true ->
  same_name (kb2_copy_name name (Z.of_nat n)) name (Z.of_nat n) = true.
Proof.
  intros Hv. unfold same_name. by rewrite name_valid_length, Z.eqb_refl, bool_decide_true.
Qed.

(** * Builder calls *)

Inductive builder_call :=
| AddArtifact (node_id kind : Z) (digest : option (list Z)) (digest_size : nat)
    (name : option (list Z)) (name_length : nat)
| SetLifecycle (node_id : Z) (init : option (list Z)) (init_length : nat)
    (quiesce : option (list Z)) (quiesce_length : nat) (cleanup : option (list Z)) (cleanup_length : nat)
| SetNativeLifecycle (node_id : Z)
| MarkRoot (node_id : Z)
| AddDependency (consumer provider : Z)
| AddExport (node_id : Z) (symbol : option (list Z)) (symbol_length : nat) (kind : Z)
| AddImport (consumer : Z) (consumer_symbol : option (list Z)) (consumer_symbol_length : nat)
    (provider : Z) (provider_symbol : option (list Z)) (provider_symbol_length : nat) (kind flags : Z)
| AddResource (slot_id type : Z) (digest : option (list Z)) (digest_size : nat)
    (minimum_count maximum_count required_rights maximum_rights flags : Z)
| BindResource (slot_id node_id : Z).

Section Calls.
Context {A : Type} `{AllocatorLaws A}.

Definition run_call (call : builder_call) : A -> storage -> kb2_status * storage * A :=
  match call with
  | AddArtifact node_id kind digest digest_size name name_length =>
      add_artifact_body node_id kind digest (Z.of_nat digest_size) name (Z.of_nat name_length)
  | SetLifecycle node_id init init_length quiesce quiesce_length cleanup cleanup_length =>
      set_lifecycle_body node_id init (Z.of_nat init_length) quiesce (Z.of_nat quiesce_length)
        cleanup (Z.of_nat cleanup_length)
  | SetNativeLifecycle node_id => set_native_lifecycle_body node_id
  | MarkRoot node_id => mark_root_body node_id
  | AddDependency consumer provider => add_dependency_body consumer provider
  | AddExport node_id symbol symbol_length kind =>
      add_export_body node_id symbol (Z.of_nat symbol_length) kind
  | AddImport consumer consumer_symbol consumer_symbol_length provider provider_symbol
      provider_symbol_length kind flags =>
      add_import_body consumer consumer_symbol (Z.of_nat consumer_symbol_length) provider
        provider_symbol (Z.of_nat provider_symbol_length) kind flags
  | AddResource slot_id type digest digest_size minimum_count maximum_count required_rights
      maximum_rights flags =>
      add_resource_body slot_id type digest (Z.of_nat digest_size) minimum_count maximum_count
        required_rights maximum_rights flags
  | BindResource slot_id node_id => bind_resource_body slot_id node_id
  end.

(** The builder after a list of calls, each followed by the status it returned. *)
Definition run_calls (calls : list builder_call) (a : A) (s : storage) : storage * A :=
  foldl (fun '(s, a) call => let '(_, s, a) := run_call call a s in (s, a)) (s, a) calls.

Definition builder_inv (bl : list (Z * Z)) (L : gmap Z Z) (a : A) (s : storage) : Prop :=
  storage_wf s /\ holds a (storage_owned s ++ bl) L.

Lemma push_inv {T} (a : A) s (get : storage -> cvec T) set item_size maximum_count x st s' a' bl L :
  push_record a s get set item_size maximum_count x = (st, s', a') ->
  field_law get set item_size -> (storage_wf s -> vec_wf (get s) maximum_count) ->
  maximum_count < 2 ^ 32 ->
  (forall v, storage_wf s -> vec_wf v maximum_count -> cv_items v = cv_items (get s) ++ [x] ->
     storage_wf (set s v)) ->
  builder_inv bl L a s -> builder_inv bl L a' s' /\ (st <> KB2_STATUS_OK -> s' = s).
Proof.
  intros E Hlaw Hv Hmax Hset [Hwf Hh].
  eapply push_record_spec in E as (Hh' & v & -> & Hvw & Hst); [| done | by apply Hv | done | exact Hh].
  destruct Hst as [[-> Hitems] | [Hf ->]].
  - split; [| done]. split; [by apply Hset | done].
  - destruct (Hlaw s) as (_ & Hs & _). rewrite Hs in *. done.
Qed.

(** Early returns leave the builder alone. *)
Ltac early := match goal with
  | E : _ = (_, _, _), H : builder_inv _ _ _ _ |- _ => injection E as <- <- <-; done
  end.

Ltac rebuild := intros v Hwf Hv Hitems; destruct Hwf; constructor; cbn; try done;
  unfold ids in *; cbn; rewrite ?Hitems, ?fmap_app; cbn.

Lemma add_artifact_inv node_id kind digest digest_size name n a s st s' a' bl L :
  add_artifact_body node_id kind digest digest_size name (Z.of_nat n) a s = (st, s', a') ->
  builder_inv bl L a s -> builder_inv bl L a' s' /\ (st <> KB2_STATUS_OK -> s' = s).
Proof.
  unfold add_artifact_body. intros E Hi. destruct digest; [| early].
  case_match eqn:Eg; [early |]. case_match; [early |]. case_match eqn:Ed; [early |].
  apply orb_false_iff in Eg as [_ Hname%negb_false_iff].
  pose proof (existsb_false _ _ Ed) as Hnew. clear Ed.
  eapply push_inv in E; [exact E | apply artifacts_field | by intros [] | done | | done].
  rebuild; apply NoDup_snoc_2; try done;
    intros (r & Heq & Hr)%list_elem_of_fmap; specialize (Hnew r Hr);
    apply orb_false_iff in Hnew as [Hid Hnm].
  - cbn in Heq. apply Z.eqb_neq in Hid. by subst.
  - cbn in Heq. rewrite <- Heq, same_name_copy in Hnm by done. done.
Qed.

Lemma alter_artifact_inv s i f (a : A) bl L :
  (forall r, ar_node_id (f r) = ar_node_id r /\ ar_namespace_name (f r) = ar_namespace_name r) ->
  builder_inv bl L a s -> builder_inv bl L a (alter_artifact s i f).
Proof.
  intros Hf [[] Hh]. split; [| done]. unfold alter_artifact, cv_update.
  assert (Hmap : forall {B} (g : artifact -> B), (forall r, g (f r) = g r) ->
            g <$> alter f i (cv_items (artifacts s)) = g <$> cv_items (artifacts s)).
  { intros B g Hg. apply list_eq. intros j. rewrite !list_lookup_fmap.
    destruct (decide (i = j)) as [-> | Hne].
    - rewrite list_lookup_alter_eq. destruct (cv_items (artifacts s) !! j); cbn; [by rewrite Hg | done].
    - by rewrite list_lookup_alter_ne. }
  constructor; cbn; try done.
  - unfold vec_wf, cv_count in *. cbn. by rewrite length_alter.
  - unfold ids in *. cbn. rewrite Hmap; [done |]. intros r. apply Hf.
  - rewrite Hmap; [done |]. intros r. apply Hf.
Qed.

Lemma set_lifecycle_inv node_id init il quiesce ql cleanup cl a s st s' a' bl L :
  set_lifecycle_body node_id init il quiesce ql cleanup cl a s = (st, s', a') ->
  builder_inv bl L a s -> builder_inv bl L a' s' /\ (st <> KB2_STATUS_OK -> s' = s).
Proof.
  unfold set_lifecycle_body. intros E Hi. case_match; [early |].
  case_match; [| early]. destruct p as [i r]. case_match; [early |].
  injection E as <- <- <-. split; [by apply alter_artifact_inv | done].
Qed.

Lemma set_native_lifecycle_inv node_id a s st s' a' bl L :
  set_native_lifecycle_body node_id a s = (st, s', a') ->
  builder_inv bl L a s -> builder_inv bl L a' s' /\ (st <> KB2_STATUS_OK -> s' = s).
Proof.
  unfold set_native_lifecycle_body. intros E Hi. case_match; [early |].
  case_match; [| early]. destruct p as [i r]. case_match; [early |].
  injection E as <- <- <-. split; [by apply alter_artifact_inv | done].
Qed.

Lemma mark_root_inv node_id a s st s' a' bl L :
  mark_root_body node_id a s = (st, s', a') ->
  builder_inv bl L a s -> builder_inv bl L a' s' /\ (st <> KB2_STATUS_OK -> s' = s).
Proof.
  unfold mark_root_body. intros E Hi. case_match; [early |].
  case_match; [| early]. destruct p as [i r]. case_match; [early |].
  injection E as <- <- <-. split; [by apply alter_artifact_inv | done].
Qed.

Lemma add_dependency_inv consumer provider a s st s' a' bl L :
  add_dependency_body consumer provider a s = (st, s', a') ->
  builder_inv bl L a s -> builder_inv bl L a' s' /\ (st <> KB2_STATUS_OK -> s' = s).
Proof.
  unfold add_dependency_body. intros E Hi. case_match; [early |]. case_match eqn:Eg; [early |].
  apply orb_false_iff in Eg as [Hne%Z.eqb_neq Hnew%not_true_iff_false].
  eapply push_inv in E; [exact E | apply dependencies_field | by intros [] | done | | done].
  rebuild.
  - apply NoDup_snoc_2; [done |]. intros Hin. by apply Hnew, has_dependency_spec.
  - apply Forall_app. split; [done | by apply Forall_singleton].
Qed.

Lemma add_export_inv node_id symbol n kind a s st s' a' bl L :
  add_export_body node_id symbol (Z.of_nat n) kind a s = (st, s', a') ->
  builder_inv bl L a s -> builder_inv bl L a' s' /\ (st <> KB2_STATUS_OK -> s' = s).
Proof.
  unfold add_export_body. intros E Hi. case_match eqn:Eg; [early |]. case_match eqn:Ed; [early |].
  apply orb_false_iff in Eg as [[_ Hname%negb_false_iff]%orb_false_iff _].
  pose proof (existsb_false _ _ Ed) as Hnew. clear Ed.
  eapply push_inv in E; [exact E | apply exports_field | by intros [] | done | | done].
  rebuild. apply NoDup_snoc_2; [done |]. intros (r & [= Hid Hsym] & Hr)%list_elem_of_fmap.
  specialize (Hnew r Hr). rewrite <- Hid, <- Hsym, Z.eqb_refl, same_name_copy in Hnew by done. done.
Qed.

Lemma add_import_inv consumer csym cn provider psym pn kind flags a s st s' a' bl L :
  add_import_body consumer csym (Z.of_nat cn) provider psym (Z.of_nat pn) kind flags a s = (st, s', a') ->
  builder_inv bl L a s -> builder_inv bl L a' s' /\ (st <> KB2_STATUS_OK -> s' = s).
Proof.
  unfold add_import_body. intros E Hi. case_match eqn:Eg; [early |]. case_match eqn:Ed; [early |].
  apply orb_false_iff in Eg as [[[[_ Hname%negb_false_iff]%orb_false_iff _]%orb_false_iff _]%orb_false_iff _].
  pose proof (existsb_false _ _ Ed) as Hnew. clear Ed.
  eapply push_inv in E; [exact E | apply imports_field | by intros [] | done | | done].
  rebuild. apply NoDup_snoc_2; [done |]. intros (r & [= Hid Hsym] & Hr)%list_elem_of_fmap.
  specialize (Hnew r Hr). rewrite <- Hid, <- Hsym, Z.eqb_refl, same_name_copy in Hnew by done. done.
Qed.

Lemma add_resource_inv slot_id type digest digest_size mn mx rr mr flags a s st s' a' bl L :
  add_resource_body slot_id type digest digest_size mn mx rr mr flags a s = (st, s', a') ->
  builder_inv bl L a s -> builder_inv bl L a' s' /\ (st <> KB2_STATUS_OK -> s' = s).
Proof.
  unfold add_resource_body. intros E Hi. destruct digest; [| early].
  case_match; [early |]. case_match; [early |]. case_match eqn:Hlim; [early |].
  case_match eqn:Ed; [early |]. pose proof (existsb_false _ _ Ed) as Hnew. clear Ed.
  eapply push_inv in E; [exact E | apply resources_field | by intros [] | done | | done].
  rebuild.
  - apply NoDup_snoc_2; [done |]. intros (r & Hid & Hr)%list_elem_of_fmap.
    specialize (Hnew r Hr). apply Z.eqb_neq in Hnew. cbn in Hid. by subst.
  - apply Forall_app. split; [done | by apply Forall_singleton].
Qed.

Lemma bind_resource_inv slot_id node_id a s st s' a' bl L :
  bind_resource_body slot_id node_id a s = (st, s', a') ->
  builder_inv bl L a s -> builder_inv bl L a' s' /\ (st <> KB2_STATUS_OK -> s' = s).
Proof.
  unfold bind_resource_body. intros E Hi. case_match; [early |]. case_match eqn:Ed; [early |].
  pose proof (existsb_false _ _ Ed) as Hnew. clear Ed.
  eapply push_inv in E; [exact E | apply bindings_field | by intros [] | done | | done].
  rebuild. apply NoDup_snoc_2; [done |]. intros Hin. specialize (Hnew _ Hin). cbn in Hnew.
  by rewrite !Z.eqb_refl in Hnew.
Qed.

(** A call keeps the invariant, and a call that fails changes no record. *)
Lemma run_call_inv call a s st s' a' bl L :
  run_call call a s = (st, s', a') -> builder_inv bl L a s ->
  builder_inv bl L a' s' /\ (st <> KB2_STATUS_OK -> s' = s).
Proof.
  destruct call; cbn [run_call]; [apply add_artifact_inv | apply set_lifecycle_inv |
    apply set_native_lifecycle_inv | apply mark_root_inv | apply add_dependency_inv |
    apply add_export_inv | apply add_import_inv | apply add_resource_inv | apply bind_resource_inv].
Qed.

Lemma run_calls_inv calls a s bl L :
  builder_inv bl L a s ->
  builder_inv bl L (run_calls calls a s).2 (run_calls calls a s).1.
Proof.
  unfold run_calls. revert a s. induction calls as [|call calls IH]; intros a s Hi; [done |].
  cbn [foldl]. destruct (run_call call a s) as [[st s'] a'] eqn:E.
  apply IH. by eapply run_call_inv.
Qed.

Lemma zero_storage_wf digest : storage_wf (zero_storage digest).
Proof. constructor; cbn; try constructor; try done. Qed.
End Calls.

(** * Sealing *)

Section Seal.
Context {A : Type} `{AllocatorLaws A} `{QsortLaws}.

Definition total_allocator : Prop :=
  forall (a : A) n, exists p a', allocate a n = (Some p, a').

Lemma validate_graph_spec (a : A) s :
  storage_wf s ->
  let map := kb2_sort_node_map (node_map_of (cv_items (artifacts s))) in
  let st := (kb2_validate_graph a s map).1 in
  let ok := graph_ok (cv_items (artifacts s)) (cv_items (dependencies s)) in
  (st = KB2_STATUS_OK /\ ok) \/ (st = KB2_STATUS_INVALID_CONFIGURATION /\ ~ ok) \/
  (st = KB2_STATUS_NO_MEMORY /\ ~ total_allocator).
Proof.
  intros Hwf map st ok.
  assert (Hm : Z.of_nat (length (cv_items (dependencies s))) <= U32_MAX).
  { destruct (wf_dependencies _ Hwf). unfold cv_count, KB2_CLOSURE_MAX_DEPENDENCIES, U32_MAX in *. lia. }
  pose proof (graph_status_spec _ (wf_ids _ Hwf) _ Hm) as Hg. fold map in Hg.
  assert (Hnm : total_allocator -> st = graph_status (cv_items (artifacts s)) (cv_items (dependencies s)) map).
  { intros Ht. subst st. unfold kb2_validate_graph.
    destruct (Ht a (u64 (cv_count (artifacts s) * SIZEOF_SIZE_T))) as (p1 & a1 & ->).
    destruct (Ht a1 (u64 (cv_count (artifacts s) * SIZEOF_SIZE_T))) as (p2 & a2 & ->).
    destruct (Ht a2 (u64 (cv_count (artifacts s) * SIZEOF_UINT32))) as (p3 & a3 & ->).
    destruct (Ht a3 (u64 (cv_count (artifacts s) * SIZEOF_UINT8))) as (p4 & a4 & ->).
    destruct (Ht a4 (u64 (cv_count (dependencies s) * SIZEOF_SIZE_T))) as (p5 & a5 & ->).
    destruct (Ht a5 (u64 (cv_count (dependencies s) * SIZEOF_SIZE_T))) as (p6 & a6 & E6).
    destruct (cv_count (dependencies s) =? 0); cbn [negb andb]; [done |]. by rewrite E6. }
  assert (Hor : st = graph_status (cv_items (artifacts s)) (cv_items (dependencies s)) map \/
                (st = KB2_STATUS_NO_MEMORY /\ ~ st = graph_status (cv_items (artifacts s)) (cv_items (dependencies s)) map)).
  { destruct (decide (st = graph_status (cv_items (artifacts s)) (cv_items (dependencies s)) map)) as [| Hne]; [by left |].
    right. split; [| done]. subst st. revert Hne. unfold kb2_validate_graph.
    repeat match goal with |- context [let '(_, _) := ?x in _] => destruct x end.
    cbn [fst]. repeat case_match; done. }
  destruct Hor as [-> | [-> Hne]]; [destruct Hg; [by left | by right; left] |].
  right; right. split; [done |]. intros Ht. by apply Hne, Hnm.
Qed.

Lemma validate_storage_spec (a : A) s :
  storage_wf s ->
  let st := (kb2_validate_storage a s).1 in
  (st = KB2_STATUS_OK /\ storage_ok s) \/
  (st = KB2_STATUS_INVALID_CONFIGURATION /\ ~ storage_ok s) \/
  (st = KB2_STATUS_NO_MEMORY /\ ~ total_allocator).
Proof.
  intros Hwf. unfold kb2_validate_storage.
  destruct (validate_artifacts_spec s) as [[-> Ha] | [-> Ha]].
  2: { right; left. split; [done |]. by intros []. }
  unfold kb2_build_node_map.
  rewrite (proj2 (Z.ltb_ge _ _)).
  2: { destruct (wf_artifacts _ Hwf). unfold KB2_CLOSURE_MAX_ARTIFACTS in *.
       change (SIZE_MAX / SIZEOF_NODE_MAP_ENTRY) with 1152921504606846975. lia. }
  destruct (allocate a _) as [[p |] a1] eqn:Ea.
  2: { right; right. split; [done |]. intros Ht.
       destruct (Ht a (u64 (cv_count (artifacts s) * SIZEOF_NODE_MAP_ENTRY))) as (p & a' & E). congruence. }
  pose proof (validate_graph_spec a1 s Hwf) as Hg. cbv zeta in Hg.
  destruct (kb2_validate_graph a1 s _) as [st a2]. cbn [fst] in *.
  destruct Hg as [[-> Hg] | [[-> Hg] | [-> Hg]]]; cbn [fst].
  2: { right; left. split; [done |]. by intros []. }
  2: { right; right. done. }
  destruct (validate_symbols_spec s (wf_ids _ Hwf)) as [[-> Hs] | [-> Hs]]; cbn [fst].
  2: { right; left. split; [done |]. by intros []. }
  destruct (validate_resources_spec s (wf_ids _ Hwf)) as [[-> Hr] | [-> Hr]]; cbn [fst].
  - left. done.
  - right; left. split; [done |]. by intros [].
Qed.

(** Within the builder's limits no size overflows: the only failure left is an
    allocation that failed. *)
Definition ok_or_no_memory (st : kb2_status) : Prop :=
  st = KB2_STATUS_OK \/ (st = KB2_STATUS_NO_MEMORY /\ ~ total_allocator).

Lemma allocation_failed (a a' : A) n : allocate a n = (None, a') -> ~ total_allocator.
Proof. intros E Ht. destruct (Ht a n) as (p & a'' & E'). congruence. Qed.

Lemma clone_array_status {T} (a : A) (v : cvec T) item_size :
  0 < item_size <= 1024 -> cv_count v <= 65536 ->
  ok_or_no_memory (kb2_clone_array a v item_size).1.1.
Proof.
  intros Hs Hc. unfold kb2_clone_array. case_match; [by left |].
  rewrite (proj2 (Z.ltb_ge _ _)).
  2: { apply Z.le_trans with (SIZE_MAX / 1024); [change (SIZE_MAX / 1024) with 18014398509481983; lia |].
       apply Z.div_le_compat_l; unfold SIZE_MAX, U64_MAX; lia. }
  destruct (allocate a _) as [[p |] a1] eqn:Ea; [by left |]. right.
  split; [done | by eapply allocation_failed].
Qed.

Lemma clone_field_status {T} (get : storage -> cvec T) set item_size source (r : kb2_status * storage * A) :
  0 < item_size <= 1024 -> cv_count (get source) <= 65536 ->
  ok_or_no_memory r.1.1 -> ok_or_no_memory (clone_field get set item_size source r).1.1.
Proof.
  intros Hs Hc. destruct r as [[st s] a]. cbn [fst].
  intros [-> | [-> Hn]]; [| by right]. cbn.
  pose proof (clone_array_status a (get source) item_size Hs Hc) as Hok.
  destruct (kb2_clone_array a (get source) item_size) as [[st v] a1]. cbn in Hok.
  destruct Hok as [-> | [-> Hn]]; [by left | by right].
Qed.

Lemma clone_status (a : A) s self :
  storage_wf s -> ok_or_no_memory (kb2_closure_clone a (Some (mkClosure self s)) true true true).1.1.
Proof.
  intros [? ? ? ? ? ?]. cbn.
  destruct (allocate a _) as [[p |] a1] eqn:Ea; [| right; split; [done | by eapply allocation_failed]].
  assert (Hok : ok_or_no_memory (clone_fields a1 s).1.1).
  { unfold clone_fields, vec_wf, KB2_CLOSURE_MAX_ARTIFACTS, KB2_CLOSURE_MAX_DEPENDENCIES,
      KB2_CLOSURE_MAX_SYMBOLS, KB2_CLOSURE_MAX_RESOURCES, KB2_CLOSURE_MAX_RESOURCE_BINDINGS in *.
    repeat (apply clone_field_status; [done | lia |]). by left. }
  destruct (clone_fields a1 s) as [[st s2] a2]. cbn in Hok.
  destruct Hok as [-> | [-> Hn]]; [by left | by right].
Qed.

(** The result of sealing a well-formed builder, on every path. *)
Lemma seal_spec (a : A) b st r a' bl L :
  storage_wf (bl_storage b) -> holds a bl L ->
  kb2_closure_builder_seal a (Some b) true = (st, r, a') ->
  (st = KB2_STATUS_OK /\ storage_ok (bl_storage b) /\
     exists c, r = Some c /\ canonical_copy (bl_storage b) (cl_storage c) /\
       holds a' (closure_owned c ++ bl) L) \/
  (st = KB2_STATUS_INVALID_CONFIGURATION /\ ~ storage_ok (bl_storage b) /\ r = None /\ holds a' bl L) \/
  (st = KB2_STATUS_NO_MEMORY /\ ~ total_allocator /\ r = None /\ holds a' bl L).
Proof.
  intros Hwf Hh E. unfold kb2_closure_builder_seal in E. cbn [negb] in E.
  pose proof (validate_storage_spec a _ Hwf) as Hv. cbv zeta in Hv.
  pose proof (validate_storage_holds a (bl_storage b) _ _ Hh) as Hh1.
  destruct (kb2_validate_storage a (bl_storage b)) as [st1 a1]. cbn [fst snd] in *.
  destruct Hv as [[-> Hok] | [[-> Hno] | [-> Hno]]].
  2: { simplify_eq. by right; left. }
  2: { simplify_eq. by right; right. }
  pose proof (clone_status a1 (bl_storage b) 0 Hwf) as Hs. rewrite E in Hs. cbn [fst] in Hs.
  destruct (closure_clone_spec _ _ _ _ _ _ _ E Hh1) as [(-> & c & -> & Hc & Hh2) | (Hf & -> & Hh2)].
  - left. split_and!; [done | done |]. exists c. split_and!; [done | done |].
    cbn. by rewrite <- app_assoc.
  - right; right. destruct Hs as [-> | [-> Hs]]; [by destruct Hf | done].
Qed.

(** * Canonical form *)

(** The key a comparison function orders by is distinct for distinct records of
    a well-formed storage. *)
Lemma compare_zero_keys s :
  storage_wf s ->
  (forall x y, x ∈ cv_items (artifacts s) -> y ∈ cv_items (artifacts s) -> kb2_compare_artifacts x y = 0 -> x = y) /\
  (forall x y, x ∈ cv_items (imports s) -> y ∈ cv_items (imports s) -> kb2_compare_imports x y = 0 -> x = y) /\
  (forall x y, x ∈ cv_items (resources s) -> y ∈ cv_items (resources s) -> kb2_compare_resources x y = 0 -> x = y).
Proof.
  intros Hwf.
  assert (Hkey : forall {T K} (key : T -> K) l, NoDup (key <$> l) -> forall x y, x ∈ l -> y ∈ l -> key x = key y -> x = y).
  { intros T K key l Hnd x y [i Hi]%list_elem_of_lookup [j Hj]%list_elem_of_lookup Hk.
    assert (i = j) as ->; [| by simplify_eq].
    eapply (NoDup_lookup _ _ _ _ Hnd); rewrite list_lookup_fmap; [by rewrite Hi | rewrite Hj; cbn; congruence]. }
  split_and!; intros x y Hx Hy Hc.
  - apply (Hkey _ _ _ _ (wf_ids _ Hwf) x y Hx Hy). revert Hc. unfold kb2_compare_artifacts, b2z.
    repeat case_match; lia.
  - apply (Hkey _ _ _ _ (wf_import_keys _ Hwf) x y Hx Hy). revert Hc. unfold kb2_compare_imports, b2z, import_key.
    destruct (Z.eqb_spec (im_consumer x) (im_consumer y)) as [-> |]; cbn [negb]; [| by case_match].
    destruct (Z.eqb_spec (strcmp (im_consumer_symbol x) (im_consumer_symbol y)) 0) as [Hs | Hs]; cbn [negb]; [| done].
    apply strcmp_0 in Hs. by rewrite Hs.
  - apply (Hkey _ _ _ _ (wf_slots _ Hwf) x y Hx Hy). revert Hc. unfold kb2_compare_resources, b2z.
    repeat case_match; lia.
Qed.
End Seal.

Lemma compare_dependencies_0 x y : kb2_compare_dependencies x y = 0 -> x = y.
Proof.
  destruct x as [c p], y as [c' p']. unfold kb2_compare_dependencies, b2z. cbn.
  destruct (Z.eqb_spec c c'), (Z.ltb_spec p p'), (Z.ltb_spec p' p), (Z.ltb_spec c c'); cbn; try lia.
  intros _. f_equal; lia.
Qed.

Lemma compare_bindings_0 x y : kb2_compare_resource_bindings x y = 0 -> x = y.
Proof.
  destruct x as [c p], y as [c' p']. unfold kb2_compare_resource_bindings, b2z. cbn.
  destruct (Z.eqb_spec c c'), (Z.ltb_spec p p'), (Z.ltb_spec p' p), (Z.ltb_spec c c'); cbn; try lia.
  intros _. f_equal; lia.
Qed.

Lemma compare_exports_0 x y : kb2_compare_exports x y = 0 -> x = y.
Proof.
  destruct x as [sy n k], y as [sy' n' k']. unfold kb2_compare_exports, b2z. cbn.
  destruct (Z.eqb_spec n n'); cbn [negb]; [| by case_match].
  destruct (Z.eqb_spec (strcmp sy sy') 0) as [Hs%strcmp_0 | Hs]; cbn [negb]; [| done].
  destruct (Z.ltb_spec k k'), (Z.ltb_spec k' k); cbn; try lia. intros _. f_equal; [done | lia | lia].
Qed.

(** Two canonical copies of storages with the same records, in any order, have the
    same records in the same order. *)
Lemma canonical_unique s1 s2 c1 c2 :
  storage_wf s1 -> canonical_copy s1 c1 -> canonical_copy s2 c2 ->
  cv_items (artifacts s1) ≡ₚ cv_items (artifacts s2) ->
  cv_items (dependencies s1) ≡ₚ cv_items (dependencies s2) ->
  cv_items (exports s1) ≡ₚ cv_items (exports s2) ->
  cv_items (imports s1) ≡ₚ cv_items (imports s2) ->
  cv_items (resources s1) ≡ₚ cv_items (resources s2) ->
  cv_items (resource_bindings s1) ≡ₚ cv_items (resource_bindings s2) ->
  manifest_digest s1 = manifest_digest s2 ->
  same_contents c1 c2.
Proof.
  intros Hwf [] [] Ha Hd He Hi Hr Hb Hm.
  destruct (compare_zero_keys _ Hwf) as (Ka & Ki & Kr).
  assert (Hu : forall {T} (cmp : T -> T -> Z) `{!Comparator cmp} k1 k2 l1 l2,
             (forall x y, x ∈ k1 -> y ∈ k1 -> cmp x y = 0 -> x = y) -> k1 ≡ₚ k2 ->
             l1 ≡ₚ k1 -> l2 ≡ₚ k2 ->
             StronglySorted (cmp_le cmp) l1 -> StronglySorted (cmp_le cmp) l2 -> l1 = l2).
  { intros T cmp Hc k1 k2 l1 l2 Hk Hkk H1 H2 S1 S2.
    apply (StronglySorted_unique_strong (cmp_le cmp)); [| done | done | by rewrite H1, H2].
    intros x y Hx Hy Hxy Hyx. rewrite H1 in Hx. rewrite H2, <- Hkk in Hy. apply Hk; [done .. |].
    unfold cmp_le in *. pose proof (cmp_anti (cmp := cmp) x y).
    pose proof (cmp_anti (cmp := cmp) y x). lia. }
  constructor.
  - by apply (Hu _ kb2_compare_artifacts _ _ _ _ _ Ka Ha).
  - by apply (Hu _ kb2_compare_dependencies _ _ _ _ _ (fun x y _ _ => compare_dependencies_0 x y) Hd).
  - by apply (Hu _ kb2_compare_exports _ _ _ _ _ (fun x y _ _ => compare_exports_0 x y) He).
  - by apply (Hu _ kb2_compare_imports _ _ _ _ _ Ki Hi).
  - by apply (Hu _ kb2_compare_resources _ _ _ _ _ Kr Hr).
  - by apply (Hu _ kb2_compare_resource_bindings _ _ _ _ _ (fun x y _ _ => compare_bindings_0 x y) Hb).
  - congruence.
Qed.
