(* ===== verification/ClosureClaims.v ===== *)
(** Claims about closures: the builder, the dependency graph and sealing. *)

From Stdlib Require Import ZArith Lia.
From stdpp Require Import base numbers tactics sorting relations gmap list_numbers list.
From S2P Require Import Prelude Host Libc ClosureData ClosureGraph ClosureGraphSpec Closure.
From S2P Require Import ClosureSpec ClosureBuilderSpec.

Open Scope Z_scope.

(** * A client of the builder *)

Section Client.
Context {A : Type} `{AllocatorLaws A} `{QsortLaws}.

(** Create a builder, make the calls, seal. *)
Definition build (calls : list builder_call) (digest : list Z) (a : A) :
    kb2_status * option kb2_closure * option kb2_closure_builder * A :=
  match kb2_closure_builder_create a true true (Some digest) KB2_DIGEST_SIZE true with
  | (KB2_STATUS_OK, Some b, a) =>
      let '(s, a) := run_calls calls a (bl_storage b) in
      let b := mkBuilder (bl_self b) s in
      let '(st, c, a) := kb2_closure_builder_seal a (Some b) true in
      (st, c, Some b, a)
  | (st, b, a) => (st, None, b, a)
  end.

(** ... and destroy everything in the end. *)
Definition build_and_destroy (calls : list builder_call) (digest : list Z) (a : A) : A :=
  let '(_, c, b, a) := build calls digest a in
  kb2_closure_builder_destroy (kb2_closure_destroy a c) b.

Lemma create_spec digest (a : A) L :
  ledger a = L ->
  match kb2_closure_builder_create a true true (Some digest) KB2_DIGEST_SIZE true with
  | (st, Some b, a') => st = KB2_STATUS_OK /\ bl_storage b = zero_storage (digest_arg digest) /\
      builder_inv [(bl_self b, SIZEOF_BUILDER)] L a' (bl_storage b)
  | (st, None, a') => st <> KB2_STATUS_OK /\ ledger a' = L
  end.
Proof.
  intros HL. unfold kb2_closure_builder_create. rewrite Z.eqb_refl. cbn [negb orb].
  destruct (kb2_digest_is_zero _); [done |].
  destruct (allocate a SIZEOF_BUILDER) as [o a1] eqn:Ea.
  eapply (holds_allocate _ _ _ _ [] L) in Ea; [| by apply holds_nil].
  destruct o as [p |].
  - split_and!; [done | done |]. split; [apply zero_storage_wf | done].
  - split; [done |]. by apply holds_nil.
Qed.

Lemma build_spec calls digest (a : A) L :
  ledger a = L ->
  match build calls digest a with
  | (st, c, Some b, a') =>
      storage_wf (bl_storage b) /\
      holds a' (closure_owned_opt c ++ storage_owned (bl_storage b) ++ [(bl_self b, SIZEOF_BUILDER)]) L /\
      ((st = KB2_STATUS_OK /\ storage_ok (bl_storage b) /\
          exists d, c = Some d /\ canonical_copy (bl_storage b) (cl_storage d)) \/
       (st = KB2_STATUS_INVALID_CONFIGURATION /\ ~ storage_ok (bl_storage b) /\ c = None) \/
       (st = KB2_STATUS_NO_MEMORY /\ ~ total_allocator (A := A) /\ c = None))
  | (st, c, None, a') => st <> KB2_STATUS_OK /\ c = None /\ ledger a' = L
  end.
Proof.
  intros HL. unfold build. pose proof (create_spec digest a L HL) as Hc.
  destruct (kb2_closure_builder_create a true true (Some digest) KB2_DIGEST_SIZE true)
    as [[st b] a1].
  destruct b as [b |]; [| destruct Hc as [? ?]; by destruct st].
  destruct Hc as (-> & _ & Hi). apply (run_calls_inv calls) in Hi.
  destruct (run_calls calls a1 (bl_storage b)) as [s a2]. cbn [fst snd] in Hi. destruct Hi as [Hwf Hh].
  destruct (kb2_closure_builder_seal a2 (Some (mkBuilder (bl_self b) s)) true) as [[st c] a3] eqn:E.
  eapply seal_spec in E; [| done | exact Hh]. cbn [bl_storage bl_self] in *.
  split; [done |].
  destruct E as [(-> & Hok & d & -> & Hcc & Hh') | [(-> & Hno & -> & Hh') | (-> & Hno & -> & Hh')]];
    (split; [done |]); [left | right; left | right; right]; eauto.
Qed.
End Client.

(** * A small closure used by the witnesses *)

Module Sample.
Definition digest : list Z := replicate 32 7.
Definition name (c : Z) : option (list Z) := Some [c].

(** A shared provider (node 1) and a module (node 2, a root) that depends on it. *)
Definition calls : list builder_call :=
  [AddArtifact 1 KB2_ARTIFACT_SHARED_PROVIDER (Some digest) 32 (name 97) 1;
   AddArtifact 2 KB2_ARTIFACT_RELOCATABLE_MODULE (Some digest) 32 (name 98) 1;
   SetNativeLifecycle 1; SetNativeLifecycle 2; MarkRoot 2; AddDependency 2 1;
   AddExport 1 (name 115) 1 KB2_SYMBOL_FUNCTION;
   AddImport 2 (name 115) 1 1 (name 115) 1 KB2_SYMBOL_FUNCTION 0;
   AddResource 5 KB2_RESOURCE_STORAGE (Some digest) 32 1 1 1 3 5; BindResource 5 2].

(** The same records, added in another order. *)
Definition calls' : list builder_call :=
  [AddResource 5 KB2_RESOURCE_STORAGE (Some digest) 32 1 1 1 3 5; BindResource 5 2;
   AddDependency 2 1;
   AddArtifact 2 KB2_ARTIFACT_RELOCATABLE_MODULE (Some digest) 32 (name 98) 1;
   SetNativeLifecycle 2; MarkRoot 2;
   AddArtifact 1 KB2_ARTIFACT_SHARED_PROVIDER (Some digest) 32 (name 97) 1;
   SetNativeLifecycle 1;
   AddImport 2 (name 115) 1 1 (name 115) 1 KB2_SYMBOL_FUNCTION 0;
   AddExport 1 (name 115) 1 KB2_SYMBOL_FUNCTION].

(** A module that depends on itself through another one. *)
Definition cyclic_calls : list builder_call := calls ++ [AddDependency 1 2].
End Sample.

(** * Claims *)

(** C1. Sealing decides the specification.  Whatever calls a client made on a
    builder, and whichever of them failed, when memory suffices sealing returns
    OK if and only if the records collected form a valid closure: the lifecycle
    symbols are exported, the dependencies resolve, respect the layering, have no
    cycle and lead from a root to every artifact, the imports resolve to declared
    dependencies and exports, and the resources are bound. *)
Theorem seal_decides_storage_ok {A : Type} `{AllocatorLaws A} `{QsortLaws}
    (calls : list builder_call) (digest : list Z) (a : A) st c b a' :
  total_allocator (A := A) ->
  build calls digest a = (st, c, Some b, a') ->
  (st = KB2_STATUS_OK <-> storage_ok (bl_storage b)) /\
  (st <> KB2_STATUS_OK <-> st = KB2_STATUS_INVALID_CONFIGURATION).
Proof.
  intros Ht E. pose proof (build_spec calls digest a _ eq_refl) as Hs. rewrite E in Hs.
  destruct Hs as (_ & _ & [(-> & ? & _) | [(-> & ? & _) | (-> & Hn & _)]]); [| | by destruct Hn];
    split; split; congruence || tauto.
Qed.

Lemma bump_total : total_allocator (A := bump).
Proof. intros a n. by eexists _, _. Qed.

(** The status of a run, and whether a builder was created. *)
Definition outcome {A} (r : kb2_status * option kb2_closure * option kb2_closure_builder * A) :
    kb2_status * bool := (r.1.1.1, if r.1.2 is Some _ then true else false).

(** The sample closure is accepted, and is therefore valid; with a cycle it is
    rejected, and is therefore not valid. *)
Lemma seal_decides_storage_ok_witness :
  (exists c b a', build Sample.calls Sample.digest (mkBump ∅) = (KB2_STATUS_OK, c, Some b, a') /\
     storage_ok (bl_storage b)) /\
  (exists c b a', build Sample.cyclic_calls Sample.digest (mkBump ∅) =
     (KB2_STATUS_INVALID_CONFIGURATION, c, Some b, a') /\ ~ storage_ok (bl_storage b)).
Proof.
  split.
  - assert (Hst : outcome (build Sample.calls Sample.digest (mkBump ∅)) = (KB2_STATUS_OK, true))
      by (vm_compute; reflexivity).
    destruct (build Sample.calls Sample.digest (mkBump ∅)) as [[[st c] b] a'] eqn:E.
    destruct b as [b |]; [| done]. injection Hst as ->. exists c, b, a'. split; [done |].
    by apply (seal_decides_storage_ok _ _ _ _ _ _ _ bump_total E).
  - assert (Hst : outcome (build Sample.cyclic_calls Sample.digest (mkBump ∅)) =
                  (KB2_STATUS_INVALID_CONFIGURATION, true)) by (vm_compute; reflexivity).
    destruct (build Sample.cyclic_calls Sample.digest (mkBump ∅)) as [[[st c] b] a'] eqn:E.
    destruct b as [b |]; [| done]. injection Hst as ->. exists c, b, a'. split; [done |].
    intros Hok. by apply (seal_decides_storage_ok _ _ _ _ _ _ _ bump_total E) in Hok.
Defined.

(** C2. No leak and no double release.  A client that creates a builder, makes any
    calls, seals and finally destroys the closure and the builder leaves the
    allocator with the blocks it had before, whichever allocations failed on the
    way. *)
Theorem closure_lifecycle_balanced {A : Type} `{AllocatorLaws A} `{QsortLaws}
    (calls : list builder_call) (digest : list Z) (a : A) :
  ledger (build_and_destroy calls digest a) = ledger a.
Proof.
  unfold build_and_destroy. pose proof (build_spec calls digest a _ eq_refl) as Hs.
  destruct (build calls digest a) as [[[st c] b] a']. destruct b as [b |].
  - destruct Hs as (_ & Hh & _). apply destroy_owned in Hh. cbn [closure_destroy closure_iface] in Hh.
    apply storage_release_holds, holds_free_some, holds_nil in Hh. done.
  - by destruct Hs as (_ & -> & ?).
Qed.

(** On an allocator whose third allocation fails, and on one that never fails. *)
Lemma closure_lifecycle_balanced_witness :
  ledger (build_and_destroy Sample.calls Sample.digest (mkBudget 1 2 ∅)) = ∅ /\
  ledger (build_and_destroy Sample.calls Sample.digest (mkBump {[7 := 3]})) = {[7 := 3]}.
Proof.
  split; [exact (closure_lifecycle_balanced (A := budget) _ _ _) |
          exact (closure_lifecycle_balanced (A := bump) _ _ _)].
Defined.

(** C3. The graph check is right and ends.  On artifacts with distinct ids the
    array code of kb2_validate_graph (insertion-sorted index, edge lists, Kahn's
    queue, breadth-first search)
    returns OK exactly when every dependency joins two artifacts and respects the
    layering, no artifact depends on itself through others, and every artifact is
    needed by a root; otherwise it returns INVALID_CONFIGURATION.  On every graph whose
    dependencies resolve, valid or not, both loops end within one step per node, so no
    status stands for fuel that ran out. *)
Theorem validate_graph_decides (arts : list artifact) (deps : list dependency) :
  NoDup (ar_node_id <$> arts) -> Z.of_nat (length deps) <= KB2_CLOSURE_MAX_DEPENDENCIES ->
  let status := graph_status arts deps (kb2_sort_node_map (node_map_of arts)) in
  (status = KB2_STATUS_OK <-> graph_ok arts deps) /\
  (status = KB2_STATUS_INVALID_CONFIGURATION <-> ~ graph_ok arts deps) /\
  forall g, link_edges arts (kb2_sort_node_map (node_map_of arts)) 0 deps
              (empty_adjacency (length arts) (length deps)) = Some g ->
    is_Some (kahn (S (length arts)) (edge_targets g) (initial_queue (incoming g)) 0 (incoming g) 0) /\
    is_Some (reach (S (length arts)) (edge_targets g) (root_queue arts) 0 (root_flags arts)).
Proof.
  intros Hnd Hlen status. assert (Hm : Z.of_nat (length deps) <= U32_MAX)
    by (unfold KB2_CLOSURE_MAX_DEPENDENCIES, U32_MAX in *; lia).
  apply and_assoc. split.
  - destruct (graph_status_spec arts Hnd deps Hm) as [[E ?] | [E ?]]; fold status in E; rewrite E;
      split; split; congruence || tauto.
  - intros g Hg. destruct (graph_loops_end arts Hnd deps g Hm Hg) as (_ & ? & ? & ? & ? & ? & _ & -> & _ & -> & _). by eauto.
Qed.

Lemma validate_graph_decides_witness :
  exists arts deps deps',
    graph_ok arts deps /\ ~ graph_ok arts deps' /\ length arts = 3%nat.
Proof.
  set (art id kind root := mkArtifact Sample.digest [id] [] [] [] id kind true true root).
  set (arts := [art 9 KB2_ARTIFACT_RELOCATABLE_MODULE true; art 4 KB2_ARTIFACT_SHARED_PROVIDER false;
                art 6 KB2_ARTIFACT_SHARED_PROVIDER false]).
  set (deps := [mkDependency 9 4; mkDependency 4 6]).
  exists arts, deps, (deps ++ [mkDependency 6 4]).
  assert (Hnd : NoDup (ar_node_id <$> arts)) by (apply (bool_decide_unpack _); vm_compute; exact I).
  split; [| split; [| reflexivity]].
  - apply (validate_graph_decides arts deps Hnd); [vm_compute; discriminate | vm_compute; reflexivity].
  - apply (validate_graph_decides arts _ Hnd); [vm_compute; discriminate | vm_compute; reflexivity].
Defined.

(** C4. The builder's invariant.  After any sequence of calls the storage has
    distinct node ids, namespace names, dependencies, export and import keys,
    slots and bindings, rights within the limits of the resource types, and every
    array holds at most its maximum number of records within its capacity; and
    each call that fails leaves the records as they were. *)
Theorem builder_calls_keep_storage_wf {A : Type} `{AllocatorLaws A}
    (calls : list builder_call) (call : builder_call) (digest : list Z) (a : A) :
  let '(s, a1) := run_calls calls a (zero_storage digest) in
  storage_wf s /\
  let '(st, s', _) := run_call call a1 s in
  storage_wf s' /\ (st <> KB2_STATUS_OK -> s' = s).
Proof.
  assert (Hi : builder_inv [] (ledger a) a (zero_storage digest))
    by (split; [apply zero_storage_wf | by apply holds_nil]).
  apply (run_calls_inv calls) in Hi. destruct (run_calls calls a (zero_storage digest)) as [s a1].
  cbn [fst snd] in Hi. split; [apply Hi |].
  destruct (run_call call a1 s) as [[st s'] a2] eqn:E. eapply run_call_inv in E as [[? _] ?]; done.
Qed.

Lemma builder_calls_keep_storage_wf_witness :
  let '(s, a1) := run_calls Sample.calls (mkBump ∅) (zero_storage Sample.digest) in
  storage_wf s /\
  let '(st, s', _) := run_call (AddDependency 2 1) a1 s in
  storage_wf s' /\ st <> KB2_STATUS_OK /\ s' = s.
Proof.
  pose proof (builder_calls_keep_storage_wf (A := bump) Sample.calls (AddDependency 2 1)
                Sample.digest (mkBump ∅)) as Hs.
  assert (E : (let '(s, a1) := run_calls Sample.calls (mkBump ∅) (zero_storage Sample.digest) in
               (run_call (AddDependency 2 1) a1 s).1.1) = KB2_STATUS_INVALID_CONFIGURATION)
    by (vm_compute; reflexivity).
  destruct (run_calls _ _ _) as [s a1]. split; [apply Hs |]. destruct Hs as [_ Hs].
  destruct (run_call _ _ _) as [[st s'] a2]. cbn in E. subst st.
  split_and!; [apply Hs | discriminate | by apply Hs].
Defined.

(** C5. The sealed form is canonical.  Two clients that collected the same records
    in different orders, even with different conforming implementations of qsort,
    seal closures with identical contents. *)
Theorem sealed_closure_canonical {A : Type} `{AllocatorLaws A}
    (q1 q2 : Qsort) (L1 : @QsortLaws q1) (L2 : @QsortLaws q2)
    (calls1 calls2 : list builder_call) (digest : list Z) (a1 a2 a1' a2' : A) c1 c2 b1 b2 :
  @build A _ q1 calls1 digest a1 = (KB2_STATUS_OK, Some c1, Some b1, a1') ->
  @build A _ q2 calls2 digest a2 = (KB2_STATUS_OK, Some c2, Some b2, a2') ->
  cv_items (artifacts (bl_storage b1)) ≡ₚ cv_items (artifacts (bl_storage b2)) ->
  cv_items (dependencies (bl_storage b1)) ≡ₚ cv_items (dependencies (bl_storage b2)) ->
  cv_items (exports (bl_storage b1)) ≡ₚ cv_items (exports (bl_storage b2)) ->
  cv_items (imports (bl_storage b1)) ≡ₚ cv_items (imports (bl_storage b2)) ->
  cv_items (resources (bl_storage b1)) ≡ₚ cv_items (resources (bl_storage b2)) ->
  cv_items (resource_bindings (bl_storage b1)) ≡ₚ cv_items (resource_bindings (bl_storage b2)) ->
  manifest_digest (bl_storage b1) = manifest_digest (bl_storage b2) ->
  same_contents (cl_storage c1) (cl_storage c2).
Proof.
  intros E1 E2 ? ? ? ? ? ? ?.
  pose proof (@build_spec A _ _ q1 L1 calls1 digest a1 _ eq_refl) as S1. rewrite E1 in S1.
  pose proof (@build_spec A _ _ q2 L2 calls2 digest a2 _ eq_refl) as S2. rewrite E2 in S2.
  destruct S1 as (Hwf & _ & [(_ & _ & d1 & [= ->] & Hc1) | [(? & _) | (? & _)]]); [| done ..].
  destruct S2 as (_ & _ & [(_ & _ & d2 & [= ->] & Hc2) | [(? & _) | (? & _)]]); [| done ..].
  by apply (canonical_unique (bl_storage b1) (bl_storage b2)).
Qed.

Lemma sealed_closure_canonical_witness :
  exists c1 c2 b1 b2 (a1 a2 : bump),
    build Sample.calls Sample.digest (mkBump ∅) = (KB2_STATUS_OK, Some c1, Some b1, a1) /\
    build Sample.calls' Sample.digest (mkBump ∅) = (KB2_STATUS_OK, Some c2, Some b2, a2) /\
    cv_items (artifacts (bl_storage b1)) <> cv_items (artifacts (bl_storage b2)) /\
    same_contents (cl_storage c1) (cl_storage c2).
Proof.
  eexists _, _, _, _, _, _.
  split; [vm_compute; reflexivity |]. split; [vm_compute; reflexivity |].
  split; [vm_compute; discriminate |].
  eapply (sealed_closure_canonical merge_qsort merge_qsort _ _ Sample.calls Sample.calls' Sample.digest
            (mkBump ∅) (mkBump ∅)); [vm_compute; reflexivity | vm_compute; reflexivity | ..];
    [apply perm_swap | reflexivity ..].
Defined.

(** The index agrees with the linear search.  Finding a node id by binary
    search in the insertion-sorted node map returns the position the scan of
    kb2_builder_find_artifact returns, and SIZE_MAX exactly when the scan finds
    nothing. *)
Lemma node_map_find_is_linear_search (s : storage) (node_id : Z) :
  storage_wf s ->
  kb2_node_map_find (kb2_sort_node_map (node_map_of (cv_items (artifacts s)))) node_id =
  kb2_builder_find_artifact s node_id.
Proof.
  intros Hwf. pose proof (wf_ids _ Hwf) as Hnd. unfold kb2_builder_find_artifact.
  pose proof (find_index_spec (fun r => ar_node_id r =? node_id) (cv_items (artifacts s))) as Hf.
  pose proof (find_at_index _ Hnd node_id) as Hm.
  destruct (kb2_node_map_find _ node_id) as [i |], (find_index _ _) as [j |]; [| | | done].
  - destruct Hf as (r & Hr & Hid%Z.eqb_eq). f_equal. eapply (at_index_unique _ Hnd); [exact Hm |]. by exists r.
  - destruct Hm as (r & Hr & Hid). apply list_elem_of_lookup_2 in Hr. specialize (Hf r Hr).
    apply Z.eqb_neq in Hf. done.
  - destruct Hf as (r & Hr & Hid%Z.eqb_eq). apply list_elem_of_lookup_2 in Hr. by apply Hm in Hid.
Qed.

