(* ===== verification/ControllerClaims.v ===== *)
(** Claims about the sandbox controller.  They hold for every implementation of
    the closure interface; the witnesses run the controller with the closures of
    [Closure]. *)

From Stdlib Require Import ZArith Lia.
From stdpp Require Import base numbers tactics relations gmap list_numbers list.
From S2P Require Import Prelude Host Controller ControllerSpec Libc ClosureData ClosureGraph.
From S2P Require Import Closure ClosureSpec ClosureBuilderSpec ClosureClaims.

Open Scope Z_scope.

(** * Scripts: executable runs of the controller and an obliging host *)

Section Script.
Context {A C : Type} `{ClosureIface A C}.

Inductive api_call :=
| CallSetClosure (closure : option C)
| CallSetDigest (kind : Z) (digest : option (list Z)) (digest_size : Z)
| CallSetLimit (kind value : Z)
| CallStart
| CallCleanup (restart : bool)
| CallReady (gen : Z)
| CallFault (gen : Z) (kind : kb2_fault_kind) (code : Z)
| CallComplete (gen token : Z) (result : kb2_status) (rid sid : Z)
| CallServe (rid sid : Z).

Definition run_api (s : A * kb2_controller C * world) (call : api_call) :
    A * kb2_controller C * world :=
  let '(a, c, w) := s in
  match call with
  | CallSetClosure closure => let '(_, c, a) := set_closure_body a c closure in (a, c, w)
  | CallSetDigest kind digest n => (a, (set_digest_body c kind digest n).2, w)
  | CallSetLimit kind value => (a, (set_limit_body c kind value).2, w)
  | CallStart => (a, (start_body c).2, w)
  | CallCleanup restart => (a, (cleanup_from restart c).2, w)
  | CallReady gen => (a, (report_ready_body c gen).2, w)
  | CallFault gen kind code =>
      (a, (report_fault_body c gen kind code).2,
       if bool_decide ((report_fault_body c gen kind code).1 = KB2_STATUS_OK) &&
          bool_decide (kind = KB2_FAULT_PROCESS_EXIT) then process_exits w else w)
  | CallComplete gen token result rid sid =>
      if accepted c gen token result rid sid && bool_decide (result = KB2_STATUS_OK) then
        match exec (action c) rid sid w with
        | Some w => (a, (complete_body c gen token result rid sid).2, w)
        | None => (a, c, w)
        end
      else (a, (complete_body c gen token result rid sid).2, w)
  | CallServe rid sid =>
      if (rid =? 0) || (sid =? 0) then (a, c, w)
      else match serve_one rid sid (c, w) with Some (c, w) => (a, c, w) | None => (a, c, w) end
  end.

Definition run_script (a : A) (p : Z) (calls : list api_call) : A * kb2_controller C * world :=
  foldl run_api (a, initial_controller p, empty_world) calls.

Lemma run_api_steps a c w call p :
  reachable p (c, w) ->
  rtc sys_step (c, w) ((run_api (a, c, w) call).1.2, (run_api (a, c, w) call).2).
Proof.
  intros Hr. assert (Hs : forall cw, sys_step (c, w) cw -> rtc sys_step (c, w) cw) by (intros; by apply rtc_once).
  destruct call; cbn [run_api]; try (apply Hs; constructor).
  - destruct (set_closure_body a c closure) as [[s c'] a'] eqn:E. apply Hs. by eapply step_set_closure.
  - destruct (accepted c gen token result rid sid) eqn:Ha; cbn [andb].
    + case_bool_decide as Hres; [subst | by apply Hs, step_complete_failed].
      destruct (exec (action c) rid sid w) eqn:He; [by eapply Hs, step_complete_ok | done].
    + by apply Hs, step_complete_rejected.
  - case_match eqn:Hids; [done |]. apply orb_false_iff in Hids as [Hrid Hsid].
    destruct (reachable_ok p c w Hr) as [Hok Ht].
    destruct (action_pending c) eqn:Hp.
    + destruct (serve_one_step c w rid sid Hok Ht Hp) as (w' & r & s & -> & Hstep & _); [lia | lia |].
      by apply Hs.
    + unfold serve_one, kb2_controller_pending_action. by rewrite Hp.
Qed.

Lemma run_calls_steps p calls (s : A * kb2_controller C * world) :
  reachable p (s.1.2, s.2) ->
  rtc sys_step (s.1.2, s.2) ((foldl run_api s calls).1.2, (foldl run_api s calls).2).
Proof.
  revert s. induction calls as [|call calls IH]; intros [[a c] w] Hr; [done |]. cbn [foldl].
  pose proof (run_api_steps a c w call p Hr) as Hstep.
  eapply rtc_trans; [exact Hstep |]. apply IH. by eapply rtc_trans.
Qed.

Lemma run_script_reachable a p calls :
  reachable p ((run_script a p calls).1.2, (run_script a p calls).2).
Proof. apply (run_calls_steps p calls (a, initial_controller p, empty_world)), rtc_refl. Qed.
End Script.
Arguments api_call : clear implicits.

(** * The sample controller *)

Module SampleController.
Definition closure : kb2_closure :=
  match (build Sample.calls Sample.digest (mkBump ∅)).1.1.2 with
  | Some c => c
  | None => mkClosure 0 (zero_storage [])
  end.

Definition configure : list (api_call kb2_closure) :=
  [CallSetClosure (Some closure);
   CallSetDigest KB2_DIGEST_PROFILE (Some Sample.digest) 32;
   CallSetDigest KB2_DIGEST_CAPABILITY_SET (Some Sample.digest) 32;
   CallSetDigest KB2_DIGEST_CHANNEL_SET (Some Sample.digest) 32;
   CallSetLimit KB2_LIMIT_SHARED_MEMORY_BYTES 4096; CallSetLimit KB2_LIMIT_CHANNEL_COUNT 1;
   CallSetLimit KB2_LIMIT_QUEUE_COUNT 1; CallSetLimit KB2_LIMIT_OUTSTANDING_REQUEST_COUNT 8].

Definition starting := configure ++ [CallStart].
Definition running := starting ++ [CallServe 7 9; CallServe 7 9; CallServe 7 9; CallReady 1].

Definition run (calls : list (api_call kb2_closure)) : kb2_controller kb2_closure * world :=
  let '(_, c, w) := run_script (mkBump ∅) 1 calls in (c, w).

Lemma run_reachable calls : reachable (A := bump) 1 ((run calls).1, (run calls).2).
Proof.
  pose proof (run_script_reachable (mkBump ∅) 1 calls) as Hr. unfold run.
  by destruct (run_script (mkBump ∅) 1 calls) as [[? ?] ?].
Qed.

Lemma run_app calls more :
  rtc (sys_step (A := bump)) ((run calls).1, (run calls).2) ((run (calls ++ more)).1, (run (calls ++ more)).2).
Proof.
  pose proof (run_reachable calls) as Hr. unfold run, run_script in *. rewrite foldl_app.
  set (s := foldl run_api _ calls) in *. 
  pose proof (run_calls_steps 1 more s) as Hs. destruct s as [[a c] w]. cbn in Hs, Hr.
  specialize (Hs Hr). by destruct (foldl run_api (a, c, w) more) as [[? ?] ?].
Qed.

Example reaches_running : state (run running).1 = KB2_STATE_RUNNING /\
  (run running).2 = mkWorld (Some 7) false false (Live 9).
Proof. vm_compute. done. Qed.
End SampleController.

(** * Claims *)

Section Claims.
Context {A C : Type} `{ClosureIface A C}.
Implicit Types (c : kb2_controller C) (w : world).

Lemma idle_ledger p c w :
  reachable p (c, w) -> state c = KB2_STATE_IDLE ->
  w_resources w = None /\ w_process w = NoProcess /\ action_pending c = false.
Proof.
  intros [[Hf _ _ Hph] Ht]%reachable_ok Hs. rewrite Hs in Hph.
  unfold pending_type in Hph. destruct (action_pending c); [done |]. destruct Hph as [Hc _].
  apply tracks_clean in Ht as [? ?]; done.
Qed.

(** C6. The action a controller asks for can always be performed.  In every
    reachable state, whatever the clients and a faulty host did before, the pending
    action is defined on the host's ledger: resources are never revoked or released
    under a live process or twice, a sandbox is only launched on allocated
    resources, and resources that need a reset are reset before their release.  In
    the IDLE state the host holds neither resources nor a process for the controller,
    and nothing is asked for. *)
Theorem pending_action_performable p c w :
  reachable p (c, w) ->
  (forall ac rid sid, kb2_controller_pending_action (Some c) = Some ac -> is_Some (exec ac rid sid w)) /\
  (kb2_controller_state (Some c) = KB2_STATE_IDLE ->
   w_resources w = None /\ w_process w = NoProcess /\ kb2_controller_pending_action (Some c) = None).
Proof.
  intros Hr. split.
  - intros ac rid sid Hp. apply reachable_ok in Hr as [Hok Ht]. unfold kb2_controller_pending_action in Hp.
    case_match eqn:E; [| done]. simplify_eq. by apply pending_exec.
  - intros Hs. destruct (idle_ledger p c w Hr Hs) as (? & ? & Hp). unfold kb2_controller_pending_action. by rewrite Hp.
Qed.

(** The cleanup that stop and restart begin, up to its last step. *)
Lemma cleanup_drains p c w restart c1 rid sid :
  reachable p (c, w) -> cleanup_from restart c = (KB2_STATUS_OK, c1) ->
  next_token c + 5 <= U64_MAX -> rid <> 0 -> sid <> 0 ->
  exists n c0 w',
    (n <= 5)%nat /\ serve n rid sid (c1, w) = Some ((kb2_finish_cleanup c0).2, w') /\
    reachable p ((kb2_finish_cleanup c0).2, w') /\
    action_pending c0 = false /\ restart_requested c0 = restart /\
    configuration c0 = configuration c /\ generation c0 = generation c /\
    next_token c <= next_token c0 <= next_token c + 5.
Proof.
  intros Hr E Htok Hrid Hsid. destruct (reachable_ok p c w Hr) as [Hok Ht].
  assert (Hstep : reachable p (c1, w)).
  { eapply rtc_r; [exact Hr |]. replace c1 with (cleanup_from restart c).2 by (by rewrite E). constructor. }
  pose proof (fl_token c (ok_flags c Hok)) as Htk.
  unfold cleanup_from in E. destruct (action_pending c) eqn:Hp; [done |].
  case_match; [done |]. unfold kb2_begin_cleanup in E. rewrite next_cleanup_action_choice in E.
  set (c' := set_restart_requested _ _) in E.
  assert (Hc' : action_pending c' = false /\ restart_requested c' = restart /\
            configuration c' = configuration c /\ generation c' = generation c /\
            next_token c' = next_token c /\ state c' = KB2_STATE_STOPPING)
    by (unfold c'; by open_controller c).
  destruct Hc' as (Hp' & Hr' & Hcf' & Hg' & Hn' & Hs'). clearbody c'.
  destruct (cleanup_choice c') as [t |] eqn:Hch.
  - unfold kb2_emit_action in E. case_match; [done |]. injection E as E.
    destruct (reachable_ok p c1 w Hstep) as [Hok1 Ht1].
    assert (Hc1 : state c1 = KB2_STATE_STOPPING /\ action_pending c1 = true /\
              cleanup_left c1 = cleanup_left c' /\ next_token c1 = next_token c + 1 /\
              restart_requested c1 = restart /\ configuration c1 = configuration c /\
              generation c1 = generation c).
    { rewrite <- E. open_controller c'. cbn in *. subst. split_and!; try done.
      apply u64_small. unfold is_u64, U64_MAX in *. lia. }
    destruct Hc1 as (Hs1 & Hp1 & Hl1 & Hn1 & Hr1 & Hcf1 & Hg1).
    pose proof (cleanup_left_le c') as Hle.
    destruct (cleanup_left c') as [|n] eqn:Hl; [apply cleanup_left_choice in Hl; congruence |].
    destruct (drain n c1 w rid sid) as (c0 & w' & Hsv & Hrtc & _ & Hq1 & Hq2 & Hq3 & Hq4 & Hq5);
      [done | done | done | done | done | lia | done | done |].
    exists (S n), c0, w'. split_and!; try done; try congruence; try lia. by eapply rtc_trans.
  - exists 0%nat, c', w. cbn [serve]. rewrite E. split_and!; try done; lia.
Qed.

Lemma validate_same c c' :
  configuration c = configuration c' -> kb2_validate_configuration c = kb2_validate_configuration c'.
Proof. unfold kb2_validate_configuration. by intros ->. Qed.

Lemma begin_start_starts c :
  kb2_validate_configuration c = KB2_STATUS_OK ->
  0 <= generation c < U64_MAX -> 0 <= next_token c < U64_MAX ->
  exists c', kb2_begin_start c = (KB2_STATUS_OK, c') /\
    state c' = KB2_STATE_STARTING /\ generation c' = generation c + 1 /\
    next_token c' = next_token c + 1 /\ action_pending c' = true /\
    ac_type (action c') = KB2_ACTION_ALLOCATE_RESOURCES.
Proof.
  intros Hv Hg Ht. unfold kb2_begin_start. rewrite Hv.
  rewrite !(proj2 (Z.eqb_neq _ _)) by lia. cbn [orb bool_decide decide_rel kb2_status_eq_dec negb].
  rewrite bool_decide_true by done. cbn [negb]. unfold kb2_emit_action.
  rewrite (proj2 (Z.eqb_neq _ _)) by (open_controller c; cbn in *; lia).
  eexists. split; [reflexivity |]. open_controller c. cbn in *.
  split_and!; try done; apply u64_small; unfold is_u64, U64_MAX in *; lia.
Qed.

(** Stopping drains.  From every reachable state in which stop is accepted, a
    host that performs the requested actions brings the controller to IDLE within
    five completions, with neither resources nor a process left. *)
Lemma stop_drains_to_idle p c w c1 rid sid :
  reachable p (c, w) -> kb2_controller_stop (Some c) = (KB2_STATUS_OK, Some c1) ->
  next_token c + 5 <= U64_MAX -> rid <> 0 -> sid <> 0 ->
  exists n c' w',
    (n <= 5)%nat /\ serve n rid sid (c1, w) = Some (c', w') /\
    state c' = KB2_STATE_IDLE /\ w_resources w' = None /\ w_process w' = NoProcess.
Proof.
  intros Hr E Htok Hrid Hsid. unfold kb2_controller_stop, with_controller in E.
  destruct (cleanup_from false c) as [st c2] eqn:Ec. injection E as -> ->.
  destruct (cleanup_drains p c w false c1 rid sid) as (n & c0 & w' & Hn & Hsv & Hre & Hp0 & Hr0 & _);
    [done .. |].
  assert (Hidle : state (kb2_finish_cleanup c0).2 = KB2_STATE_IDLE).
  { unfold kb2_finish_cleanup. rewrite Hr0. by open_controller c0. }
  destruct (idle_ledger _ _ _ Hre Hidle) as (? & ? & _).
  by exists n, (kb2_finish_cleanup c0).2, w'.
Qed.

(** Restarting begins a fresh generation.  When restart is accepted and the
    counters are not used up, the same host brings the controller within five
    completions to STARTING with the next generation: the old resources and process
    are gone, and the pending action asks for new resources. *)
Lemma restart_reaches_next_generation p c w c1 rid sid :
  reachable p (c, w) -> kb2_controller_restart (Some c) = (KB2_STATUS_OK, Some c1) ->
  next_token c + 6 <= U64_MAX -> generation c < U64_MAX -> rid <> 0 -> sid <> 0 ->
  exists n c' w' ac,
    (n <= 5)%nat /\ serve n rid sid (c1, w) = Some (c', w') /\
    state c' = KB2_STATE_STARTING /\ generation c' = generation c + 1 /\
    kb2_controller_pending_action (Some c') = Some ac /\
    ac_type ac = KB2_ACTION_ALLOCATE_RESOURCES /\
    w_resources w' = None /\ w_process w' = NoProcess.
Proof.
  intros Hr E Htok Hgen Hrid Hsid. unfold kb2_controller_restart, with_controller in E.
  destruct (cleanup_from true c) as [st c2] eqn:Ec. injection E as -> ->.
  destruct (reachable_ok _ _ _ Hr) as [Hok Ht].
  assert (Hcfg : kb2_validate_configuration c = KB2_STATUS_OK).
  { apply (ok_config c Hok). intros Hs. unfold cleanup_from in Ec. rewrite Hs in Ec.
    by destruct (action_pending c). }
  pose proof (fl_token c (ok_flags c Hok)) as Htk. pose proof (fl_generation c (ok_flags c Hok)) as Hgn.
  destruct (cleanup_drains p c w true c1 rid sid) as
    (n & c0 & w' & Hn & Hsv & Hre & Hp0 & Hr0 & Hcf0 & Hg0 & Hn0); [done .. | lia | done | done |].
  set (c' := (kb2_finish_cleanup c0).2) in *.
  assert (Hc' : state c' = KB2_STATE_STARTING /\ generation c' = generation c + 1 /\
    action_pending c' = true /\ ac_type (action c') = KB2_ACTION_ALLOCATE_RESOURCES).
  { unfold c', kb2_finish_cleanup. rewrite Hr0. set (c3 := set_fault_code _ _).
    assert (Hc3 : configuration c3 = configuration c /\ generation c3 = generation c /\
              next_token c3 = next_token c0) by (unfold c3; by open_controller c0).
    destruct Hc3 as (Hcf3 & Hg3 & Hn3).
    destruct (begin_start_starts c3) as (c4 & -> & ? & Hg4 & _ & ? & ?);
      [by rewrite (validate_same c3 c) | lia | lia |].
    rewrite bool_decide_true by done. cbn [negb snd]. rewrite Hg4, Hg3. done. }
  destruct Hc' as (Hs' & Hg' & Hp' & Ht').
  exists n, c', w', (action c'). unfold kb2_controller_pending_action. rewrite Hp'.
  split_and!; try done.
  all: destruct (reachable_ok _ _ _ Hre) as [[_ _ _ Hph] Htr]; rewrite Hs' in Hph;
    unfold pending_type in Hph; rewrite Hp', Ht' in Hph;
    destruct Hph as [Hc _]; by apply tracks_clean in Htr as [? ?].
Qed.

(** ** The way up *)

Lemma emit_room c t :
  0 <= next_token c < U64_MAX ->
  exists c', kb2_emit_action c t = (KB2_STATUS_OK, c') /\ next_token c' = next_token c + 1 /\
    state c' = state c /\ generation c' = generation c /\ action_pending c' = true /\
    ac_type (action c') = t /\ view c' = view c.
Proof.
  intros Ht. unfold kb2_emit_action. rewrite (proj2 (Z.eqb_neq _ _)) by lia.
  eexists. split; [reflexivity |]. open_controller c. cbn in *.
  split_and!; try done. apply u64_small. unfold is_u64, U64_MAX in *. lia.
Qed.

(** Performing the pending start action [t] asks for the next one. *)
Lemma serve_start p c w rid sid t t' upd :
  reachable p (c, w) -> action_pending c = true -> ac_type (action c) = t ->
  next_token c < U64_MAX -> rid <> 0 -> sid <> 0 ->
  (forall r s, (t = KB2_ACTION_ALLOCATE_RESOURCES -> r = rid) -> (t = KB2_ACTION_LAUNCH_SANDBOX -> s = sid) ->
     complete_switch (kb2_clear_action c) t r s = kb2_emit_action (upd c) t') ->
  next_token (upd c) = next_token c -> state (upd c) = state c -> generation (upd c) = generation c ->
  exists c' w',
    serve_one rid sid (c, w) = Some (c', w') /\ reachable p (c', w') /\
    state c' = state c /\ generation c' = generation c /\ next_token c' = next_token c + 1 /\
    action_pending c' = true /\ ac_type (action c') = t' /\ view c' = view (upd c).
Proof.
  intros Hr Hp Ht Htok Hrid Hsid Hsw Hn Hs Hg. destruct (reachable_ok p c w Hr) as [Hok Htr].
  pose proof (fl_token c (ok_flags c Hok)) as Hrange.
  destruct (serve_one_step c w rid sid) as (w' & r & s & Hsv & Hstep & Hrr & Hss); [done .. |].
  rewrite Ht in *. rewrite (Hsw r s Hrr Hss) in Hsv, Hstep.
  destruct (emit_room (upd c) t') as (c' & E & Hn' & Hs' & Hg' & Hp' & Ht' & Hv'); [lia |].
  rewrite E in Hsv, Hstep. cbn [snd] in *. exists c', w'.
  split_and!; try done; try congruence; try lia; by eapply rtc_r.
Qed.

(** Starting reaches the running state.  When start is accepted, a host that
    performs the three requested actions (allocate, launch, transfer) and the
    sandbox's readiness report bring the controller to RUNNING in the next
    generation, and the process lives on the allocated resources. *)
Lemma start_reaches_running p c w c1 rid sid :
  reachable p (c, w) -> kb2_controller_start (Some c) = (KB2_STATUS_OK, Some c1) ->
  next_token c + 3 <= U64_MAX -> rid <> 0 -> sid <> 0 ->
  exists c' w',
    serve 3 rid sid (c1, w) = Some (c', w') /\ state c' = KB2_STATE_HANDSHAKING /\
    w_resources w' = Some rid /\ w_process w' = Live sid /\ w_revoked w' = false /\
    exists c2, kb2_controller_report_ready (Some c') (generation c + 1) = (KB2_STATUS_OK, Some c2) /\
      state c2 = KB2_STATE_RUNNING.
Proof.
  intros Hr E Htok Hrid Hsid. destruct (reachable_ok p c w Hr) as [Hok Ht].
  pose proof (fl_token c (ok_flags c Hok)) as Htk. pose proof (fl_generation c (ok_flags c Hok)) as Hgn.
  unfold kb2_controller_start, with_controller in E.
  destruct (start_body c) as [st cx] eqn:Es. injection E as -> ->.
  assert (Hr1 : reachable p (c1, w)).
  { eapply rtc_r; [exact Hr |]. replace c1 with (start_body c).2 by (by rewrite Es). constructor. }
  unfold start_body in Es. case_match; [done |]. case_match; [done |].
  assert (Hvalid : kb2_validate_configuration c = KB2_STATUS_OK /\ generation c <> U64_MAX).
  { unfold kb2_begin_start in Es. case_match eqn:Hc; [done |]. case_match eqn:Hv.
    { injection Es as Hst _. by rewrite Hst in Hv. }
    apply negb_false_iff, bool_decide_eq_true in Hv. split; [done | lia]. }
  destruct Hvalid as [Hv Hg]. destruct (begin_start_starts c Hv) as (c1' & E' & Hs1 & Hg1 & Hn1 & Hp1 & Ht1);
    [lia | lia |]. rewrite E' in Es. injection Es as ->. clear E'.
  destruct (serve_start p c1 w rid sid _ KB2_ACTION_LAUNCH_SANDBOX
              (fun c => set_resources_allocated (set_resource_set_id (kb2_clear_action c) rid) true)
              Hr1 Hp1 Ht1)
    as (c2 & w2 & Hsv2 & Hr2 & Hs2 & Hg2 & Hn2 & Hp2 & Ht2 & Hv2);
    [lia | done | done | by intros r s' -> | by open_controller c1 .. |].
  destruct (serve_start p c2 w2 rid sid _ KB2_ACTION_TRANSFER_RESOURCES
              (fun c => set_process_started (set_sandbox_id (kb2_clear_action c) sid) true)
              Hr2 Hp2 Ht2)
    as (c3 & w3 & Hsv3 & Hr3 & Hs3 & Hg3 & Hn3 & Hp3 & Ht3 & Hv3);
    [lia | done | done | by intros r s' _ -> | by open_controller c2 .. |].
  destruct (reachable_ok p c3 w3 Hr3) as [Hok3 Htr3].
  destruct (serve_one_step c3 w3 rid sid) as (w4 & r & s' & Hsv4 & Hstep & _); [done .. |].
  rewrite Ht3 in Hsv4, Hstep. cbn [complete_switch snd] in Hsv4, Hstep.
  set (c4 := set_state (kb2_clear_action c3) KB2_STATE_HANDSHAKING) in *.
  assert (Hr4 : reachable p (c4, w4)) by (by eapply rtc_r).
  assert (Hids : resource_set_id c4 = rid /\ sandbox_id c4 = sid).
  { unfold view in Hv2, Hv3. clear -Hv2 Hv3.
    destruct c1, c2, c3. unfold c4. cbn in *. by simplify_eq. }
  destruct Hids as [Hid1 Hid2]. exists c4, w4. cbn [serve]. rewrite Hsv2, Hsv3, Hsv4.
  split; [done |]. assert (Hst4 : state c4 = KB2_STATE_HANDSHAKING) by (unfold c4; by open_controller c3).
  assert (Hp4 : action_pending c4 = false) by (unfold c4; by open_controller c3).
  assert (Hg4 : generation c4 = generation c + 1).
  { transitivity (generation c3); [unfold c4; by open_controller c3 | congruence]. }
  destruct (reachable_ok p c4 w4 Hr4) as [[Hf4 _ _ Hph4] (Hw1 & Hw2 & Hw3)].
  unfold pending_type in Hph4. rewrite Hst4, Hp4 in Hph4. cbn in Hph4.
  destruct (fl_started c4 Hf4 Hph4) as [Hal Hrv]. rewrite Hal in Hw1. rewrite Hph4 in Hw3.
  destruct (Hw2 Hal) as [Hw4 _]. split_and!; try congruence.
  eexists. unfold kb2_controller_report_ready, with_controller, report_ready_body.
  rewrite Hg4, Z.eqb_refl, Hp4, Hst4. cbn. split; [reflexivity |]. by open_controller c4.
Qed.

(** C7. Accepted requests complete.  From every reachable state, with a host that
    performs the requested actions: an accepted stop brings the controller to IDLE within
    five completions, with neither resources nor a process left; an accepted restart
    brings it within five completions to STARTING in the next generation, with the old
    resources and process gone and new resources asked for; an accepted start brings it
    in three completions and the sandbox's readiness report to RUNNING in the next
    generation, with the process on the allocated resources.  Only the counters must not
    be used up. *)
Theorem accepted_requests_complete p c w rid sid :
  reachable p (c, w) -> rid <> 0 -> sid <> 0 ->
  (forall c1, kb2_controller_stop (Some c) = (KB2_STATUS_OK, Some c1) -> next_token c + 5 <= U64_MAX ->
     exists n c' w',
       (n <= 5)%nat /\ serve n rid sid (c1, w) = Some (c', w') /\
       state c' = KB2_STATE_IDLE /\ w_resources w' = None /\ w_process w' = NoProcess) /\
  (forall c1, kb2_controller_restart (Some c) = (KB2_STATUS_OK, Some c1) ->
     next_token c + 6 <= U64_MAX -> generation c < U64_MAX ->
     exists n c' w' ac,
       (n <= 5)%nat /\ serve n rid sid (c1, w) = Some (c', w') /\
       state c' = KB2_STATE_STARTING /\ generation c' = generation c + 1 /\
       kb2_controller_pending_action (Some c') = Some ac /\
       ac_type ac = KB2_ACTION_ALLOCATE_RESOURCES /\
       w_resources w' = None /\ w_process w' = NoProcess) /\
  (forall c1, kb2_controller_start (Some c) = (KB2_STATUS_OK, Some c1) -> next_token c + 3 <= U64_MAX ->
     exists c' w',
       serve 3 rid sid (c1, w) = Some (c', w') /\ state c' = KB2_STATE_HANDSHAKING /\
       w_resources w' = Some rid /\ w_process w' = Live sid /\ w_revoked w' = false /\
       exists c2, kb2_controller_report_ready (Some c') (generation c + 1) = (KB2_STATUS_OK, Some c2) /\
         state c2 = KB2_STATE_RUNNING).
Proof.
  intros Hr Hrid Hsid. split; [| split]; intros.
  - by apply (stop_drains_to_idle p c w).
  - by apply (restart_reaches_next_generation p c w).
  - by apply (start_reaches_running p c w).
Qed.

(** C8. Tokens identify actions.  If a controller asks for an action and, any
    number of calls later, asks for an action with the same token, it is the very
    same action, with the same generation; once another action is pending, a late
    completion of the first one returns an error and changes nothing. *)
Theorem tokens_identify_actions p c w c' w' ac ac' result rid sid :
  reachable p (c, w) -> rtc sys_step (c, w) (c', w') ->
  kb2_controller_pending_action (Some c) = Some ac ->
  kb2_controller_pending_action (Some c') = Some ac' ->
  (ac_token ac' = ac_token ac -> ac' = ac) /\
  (ac' <> ac ->
   let '(status, after) :=
     kb2_controller_complete_action (Some c') (ac_generation ac) (ac_token ac) result rid sid in
   status <> KB2_STATUS_OK /\ after = Some c').
Proof.
  intros Hr Hsteps Hp Hp'. destruct (reachable_ok _ _ _ Hr) as [Hok Ht].
  assert (Hr' : reachable p (c', w')) by (by eapply rtc_trans).
  destruct (reachable_ok _ _ _ Hr') as [Hok' _].
  pose proof (steps_advance _ _ Hsteps Hok Ht) as Hadv. cbn [fst] in Hadv.
  unfold kb2_controller_pending_action in Hp, Hp'.
  destruct (action_pending c) eqn:Hpend; [| done]. destruct (action_pending c') eqn:Hpend'; [| done].
  injection Hp as <-. injection Hp' as <-.
  assert (Htok : ac_token (action c) = next_token c).
  { pose proof (ok_action c Hok) as Ha. rewrite Hpend in Ha. by rewrite Ha. }
  assert (Htok' : ac_token (action c') = next_token c').
  { pose proof (ok_action c' Hok') as Ha. rewrite Hpend' in Ha. by rewrite Ha. }
  assert (Hsame : ac_token (action c') = ac_token (action c) -> action c' = action c).
  { rewrite Htok, Htok'. intros E. destruct Hadv as [Hlt | (_ & [Hn | [Ha _]])]; [lia | congruence | done]. }
  split; [done |]. intros Hne. cbn. unfold complete_body. rewrite Hpend'.
  assert (Hst : ac_token (action c) =? ac_token (action c') = false).
  { apply Z.eqb_neq. intros E. by apply Hne, Hsame. }
  rewrite Hst. cbn [negb]. repeat case_match; simplify_eq; done.
Qed.

(** C9. The configuration of a generation is frozen.  While the controller is not
    idle no call changes its configuration, and the action it asks for carries that
    configuration, its generation and its current token. *)
Theorem configuration_frozen p c w c' w' :
  reachable p (c, w) -> sys_step (c, w) (c', w') -> state c <> KB2_STATE_IDLE ->
  configuration c' = configuration c /\
  (forall ac, kb2_controller_pending_action (Some c) = Some ac ->
     ac_configuration ac = configuration c /\ ac_generation ac = generation c /\
     ac_token ac = next_token c).
Proof.
  intros Hr Hstep Hs. destruct (reachable_ok _ _ _ Hr) as [Hok _]. split.
  - apply (step_configuration _ _ _ _ Hstep). unfold not_configurable.
    by rewrite bool_decide_false.
  - intros ac Hp. unfold kb2_controller_pending_action in Hp.
    destruct (action_pending c) eqn:Hpend; [| done]. injection Hp as <-.
    pose proof (ok_action c Hok) as Ha. rewrite Hpend in Ha. by rewrite Ha.
Qed.

(** The statuses of the internal steps, none of which is a refusal. *)
Definition internal_status (st : kb2_status) : Prop :=
  st = KB2_STATUS_OK \/ st = KB2_STATUS_COUNTER_EXHAUSTED \/ st = KB2_STATUS_INVALID_CONFIGURATION.

Lemma emit_status c t : internal_status (kb2_emit_action c t).1.
Proof. unfold kb2_emit_action, internal_status. case_match; auto. Qed.

Lemma validate_status c : internal_status (kb2_validate_configuration c).
Proof. unfold kb2_validate_configuration, internal_status. repeat case_match; auto. Qed.

Lemma begin_start_status c : internal_status (kb2_begin_start c).1.
Proof.
  unfold kb2_begin_start. case_match; [by right; left |].
  case_match; [apply validate_status | apply emit_status].
Qed.

Lemma next_cleanup_status c : internal_status (kb2_next_cleanup_action c).1.
Proof.
  rewrite next_cleanup_action_choice. case_match; [apply emit_status |]. unfold kb2_finish_cleanup.
  case_match; [| by left]. set (c1 := set_fault_code _ _). pose proof (begin_start_status c1) as Hb.
  destruct (kb2_begin_start c1) as [st c2]. by case_match.
Qed.

Definition refusal (status : kb2_status) : Prop :=
  match status with
  | KB2_STATUS_INVALID_ARGUMENT | KB2_STATUS_INVALID_STATE | KB2_STATUS_ACTION_PENDING
  | KB2_STATUS_STALE_GENERATION | KB2_STATUS_STALE_ACTION => True
  | _ => False
  end.

Lemma refusal_not_internal status : refusal status -> ~ internal_status status.
Proof. by intros Hr [-> | [-> | ->]]. Qed.

Lemma complete_refused c gen token result rid sid st c' :
  ctl_ok c -> complete_body c gen token result rid sid = (st, c') -> refusal st -> c' = c.
Proof.
  intros Hok E Hr. destruct (accepted c gen token result rid sid) eqn:Ha.
  2: { apply complete_not_accepted in Ha. by rewrite E in Ha. }
  exfalso.
  assert (Hp : action_pending c = true /\ kb2_action_result_valid result = true /\
    (if bool_decide (result = KB2_STATUS_OK)
     then complete_switch (kb2_clear_action c) (ac_type (action c)) rid sid
     else (result, host_action_fault (kb2_clear_action c) (ac_type (action c)))) = (st, c')).
  { unfold accepted in Ha. unfold complete_body in E.
    repeat match goal with H : _ && _ = true |- _ => apply andb_true_iff in H as [H ?] end.
    split_and!; [done | done |]. rewrite <- E.
    repeat match goal with H : ?b = true |- context [negb ?b] => rewrite H end. cbn [negb].
    by destruct (bool_decide (result = KB2_STATUS_OK)). }
  destruct Hp as (Hp & Hv & E'). case_bool_decide as Hres.
  - apply (refusal_not_internal st Hr).
    replace st with (complete_switch (kb2_clear_action c) (ac_type (action c)) rid sid).1 by (by rewrite E').
    destruct (ac_type (action c)) eqn:Et; cbn [complete_switch];
      try apply emit_status; try apply next_cleanup_status; [| by left].
    destruct Hok as [_ _ _ Hph]. unfold pending_type in Hph. rewrite Hp, Et in Hph.
    destruct (state c); try done. cbn in Hph. unfold cleanup_choice in Hph.
    by destruct (process_started c), (graceful_stop c), (resources_allocated c), (resources_revoked c),
      (reset_required_by (configuration c)), (resources_reset c), (process_exited c).
  - injection E' as -> _. by destruct st.
Qed.

(** C10. Refused calls change nothing.  A call refused for its arguments, the
    controller's state, a pending action, a stale generation or a stale token
    leaves the controller exactly as it was. *)
Theorem refused_calls_change_nothing (c c' : kb2_controller C) (status : kb2_status) :
  refusal status -> ctl_ok c ->
  (forall (a a' : A) closure, kb2_controller_set_closure a (Some c) closure = (status, Some c', a') -> c' = c) /\
  (forall kind digest n, kb2_controller_set_digest (Some c) kind digest n = (status, Some c') -> c' = c) /\
  (forall kind value, kb2_controller_set_limit (Some c) kind value = (status, Some c') -> c' = c) /\
  (kb2_controller_start (Some c) = (status, Some c') -> c' = c) /\
  (kb2_controller_stop (Some c) = (status, Some c') -> c' = c) /\
  (kb2_controller_restart (Some c) = (status, Some c') -> c' = c) /\
  (forall gen token result rid sid,
     kb2_controller_complete_action (Some c) gen token result rid sid = (status, Some c') -> c' = c) /\
  (forall gen, kb2_controller_report_ready (Some c) gen = (status, Some c') -> c' = c) /\
  (forall gen kind code,
     kb2_controller_report_fault (Some c) gen kind code = (status, Some c') -> c' = c).
Proof.
  intros Href Hok. pose proof (refusal_not_internal _ Href) as Hno.
  assert (Hint : forall r : kb2_status * kb2_controller C, internal_status r.1 -> r <> (status, c')).
  { intros r Hi ->. by apply Hno. }
  assert (Hcl : forall restart, cleanup_from restart c = (status, c') -> c' = c).
  { intros restart E. unfold cleanup_from in E. do 2 (case_match; [by simplify_eq |]).
    by apply Hint in E; [| apply next_cleanup_status]. }
  assert (Hw : forall f, with_controller (Some c) f = (status, Some c') -> f c = (status, c')).
  { intros f E. unfold with_controller in E. destruct (f c). by simplify_eq. }
  unfold kb2_controller_set_digest, kb2_controller_set_limit, kb2_controller_start,
    kb2_controller_stop, kb2_controller_restart, kb2_controller_complete_action,
    kb2_controller_report_ready, kb2_controller_report_fault.
  split.
  { intros a a' closure E. unfold kb2_controller_set_closure, set_closure_body in E.
    repeat case_match; by simplify_eq. }
  split_and!; intros *; intros E; apply Hw in E.
  - unfold set_digest_body in E. repeat case_match; by simplify_eq.
  - unfold set_limit_body in E. repeat case_match; by simplify_eq.
  - unfold start_body in E. do 2 (case_match; [by simplify_eq |]).
    by apply Hint in E; [| apply begin_start_status].
  - by apply Hcl in E.
  - by apply Hcl in E.
  - by eapply complete_refused.
  - unfold report_ready_body in E. repeat case_match; by simplify_eq.
  - unfold report_fault_body in E. repeat case_match; by simplify_eq.
Qed.
End Claims.

(** * Blocks the controller owns *)

Section Owned.
Context {A C : Type} `{ClosureLaws A C} `{!AllocatorLaws A}.
Implicit Types (c : kb2_controller C).

(** The block of the controller and the closure it holds. *)
Definition root c : Z * option C := (self c, cf_closure (configuration c)).

Lemma emit_root c t : root (kb2_emit_action c t).2 = root c.
Proof. unfold kb2_emit_action. open_controller c. by case_match. Qed.

Lemma begin_start_root c : root (kb2_begin_start c).2 = root c.
Proof. unfold kb2_begin_start. do 2 (case_match; [done |]). rewrite emit_root. by open_controller c. Qed.

Lemma next_cleanup_root c : root (kb2_next_cleanup_action c).2 = root c.
Proof.
  rewrite next_cleanup_action_choice. case_match; [apply emit_root |].
  unfold kb2_finish_cleanup. case_match; [| by open_controller c].
  set (c1 := set_fault_code _ _). pose proof (begin_start_root c1) as Hb.
  destruct (kb2_begin_start c1) as [status c2]. cbn in Hb.
  case_match; (transitivity (root c2); [by open_controller c2 |]); rewrite Hb; by open_controller c.
Qed.

Lemma complete_root c gen token s rid sid : root (complete_body c gen token s rid sid).2 = root c.
Proof.
  unfold complete_body. do 5 (case_match; [done |]). case_match; [by open_controller c |].
  destruct (ac_type (action c)); cbn [complete_switch];
    rewrite ?emit_root, ?next_cleanup_root; by open_controller c.
Qed.

Definition owns (L : gmap Z Z) (s : A * kb2_controller C * world) : Prop :=
  holds s.1.1 (closure_owned_opt (root s.1.2).2 ++ [((root s.1.2).1, SIZEOF_CONTROLLER)]) L.

Lemma run_api_owns s call L : owns L s -> owns L (run_api s call).
Proof.
  destruct s as [[a c] w]. intros Ho.
  assert (Hroot : forall c' w', root c' = root c -> owns L (a, c', w')).
  { intros c' w' E. unfold owns in *. cbn [fst snd] in *. by rewrite E. }
  destruct call; cbn [run_api].
  - unfold set_closure_body. destruct closure as [cl |]; [| by apply Hroot].
    destruct (not_configurable c); [by apply Hroot |].
    destruct (closure_clone a cl) as [[st copy] a1] eqn:Ec.
    destruct (decide (st = KB2_STATUS_OK)) as [-> | Hne].
    + eapply clone_ok in Ec as (d & -> & _ & Hh); [| exact Ho]. unfold owns. open_controller c. cbn in *.
      assert (Hh' : holds a1 (closure_owned_opt (cf_closure cf) ++
                (closure_owned d ++ [(slf, SIZEOF_CONTROLLER)])) L).
      { rewrite app_assoc, (Permutation_app_comm (closure_owned_opt _)), <- app_assoc. done. }
      by apply destroy_owned in Hh'.
    + eapply clone_fail in Ec as [-> Hh]; [| done | exact Ho]. by destruct st.
  - apply Hroot. unfold set_digest_body. repeat case_match; try done; by open_controller c.
  - apply Hroot. unfold set_limit_body. repeat case_match; try done; by open_controller c.
  - apply Hroot. unfold start_body. do 2 (case_match; [done |]). apply begin_start_root.
  - apply Hroot. unfold cleanup_from, kb2_begin_cleanup. do 2 (case_match; [done |]).
    rewrite next_cleanup_root. by open_controller c.
  - apply Hroot. unfold report_ready_body. repeat case_match; try done; by open_controller c.
  - apply Hroot. unfold report_fault_body. do 4 (case_match; [done |]). open_controller c. by case_match.
  - case_match; [case_match; [| done] |]; apply Hroot, complete_root.
  - case_match; [done |]. unfold serve_one. case_match eqn:E; [| done].
    unfold kb2_controller_pending_action in E. repeat case_match; simplify_eq; try done;
    apply Hroot, complete_root.
Qed.
End Owned.

(** C11. The controller balances its allocations.  Create a controller, make any
    calls on it (including calls that replace its closure, calls that fail for lack
    of memory and completions of every kind), and destroy it: the allocator is left
    with the blocks it had before. *)
Theorem controller_lifecycle_balanced {A C : Type} `{ClosureLaws A C} `{!AllocatorLaws A}
    (calls : list (api_call C)) (a a0 : A) (c0 : kb2_controller C) :
  kb2_controller_create a true true true = (KB2_STATUS_OK, Some c0, a0) ->
  let '(a1, c1, _) := foldl run_api (a0, c0, empty_world) calls in
  ledger (kb2_controller_destroy a1 (Some c1)) = ledger a.
Proof.
  intros E. cbn in E. destruct (allocate a SIZEOF_CONTROLLER) as [o a'] eqn:Ea.
  eapply (holds_allocate _ _ _ _ [] (ledger a)) in Ea; [| by apply holds_nil].
  destruct o as [p |]; [| done]. injection E as <- <-.
  assert (Ho : owns (ledger a) (a', initial_controller (C := C) p, empty_world)) by exact Ea.
  assert (Hall : owns (ledger a) (foldl run_api (a', initial_controller p, empty_world) calls)).
  { clear Ea. revert Ho. generalize (a', initial_controller (C := C) p, empty_world).
    induction calls as [|call calls IH]; intros s Hs; [done |]. cbn [foldl]. by apply IH, run_api_owns. }
  unfold initial_controller in Hall.
  destruct (foldl run_api _ calls) as [[a1 c1] w1].
  unfold owns, root in Hall. cbn [fst snd] in Hall.
  apply destroy_owned, holds_free_some, holds_nil in Hall. exact Hall.
Qed.

(** * Witnesses *)

Import SampleController.

Lemma pending_action_performable_witness :
  exists ac, kb2_controller_pending_action (Some (run starting).1) = Some ac /\
    is_Some (exec ac 7 9 (run starting).2).
Proof.
  eexists. split; [vm_compute; reflexivity |].
  apply (proj1 (pending_action_performable (A := bump) 1 (run starting).1 (run starting).2 (run_reachable starting))).
  vm_compute. reflexivity.
Defined.

Lemma accepted_requests_complete_witness :
  exists c1, kb2_controller_stop (Some (run running).1) = (KB2_STATUS_OK, Some c1) /\
    exists n c' w', (n <= 5)%nat /\ serve n 7 9 (c1, (run running).2) = Some (c', w') /\
      state c' = KB2_STATE_IDLE /\ w_resources w' = None /\ w_process w' = NoProcess.
Proof.
  eexists. split; [vm_compute; reflexivity |].
  apply (proj1 (accepted_requests_complete (A := bump) 1 (run running).1 (run running).2 7 9
                  (run_reachable running) ltac:(lia) ltac:(lia)));
    [vm_compute; reflexivity | vm_compute; discriminate].
Defined.

(** After the first action was served its token is stale. *)
Lemma tokens_identify_actions_witness :
  let c := (run starting).1 in
  let c' := (run (starting ++ [CallServe 7 9])).1 in
  match kb2_controller_pending_action (Some c), kb2_controller_pending_action (Some c') with
  | Some ac, Some ac' => (ac_token ac' = ac_token ac -> ac' = ac) /\ ac_token ac = 1 /\ ac_token ac' = 2
  | _, _ => False
  end.
Proof.
  intros c c'.
  assert (Htok : (ac_token <$> kb2_controller_pending_action (Some c)) = Some 1) by (vm_compute; reflexivity).
  assert (Htok' : (ac_token <$> kb2_controller_pending_action (Some c')) = Some 2) by (vm_compute; reflexivity).
  destruct (kb2_controller_pending_action (Some c)) as [ac |] eqn:E; [| discriminate Htok].
  destruct (kb2_controller_pending_action (Some c')) as [ac' |] eqn:E'; [| discriminate Htok'].
  injection Htok as Htok. injection Htok' as Htok'. refine (conj _ (conj Htok Htok')).
  exact (proj1 (tokens_identify_actions (A := bump) 1 _ _ _ _ ac ac' KB2_STATUS_OK 0 0
                  (run_reachable starting) (run_app starting [CallServe 7 9]) E E')).
Defined.

Lemma configuration_frozen_witness :
  let c := (run starting).1 in
  state c <> KB2_STATE_IDLE /\
  configuration (set_limit_body c KB2_LIMIT_QUEUE_COUNT 5).2 = configuration c.
Proof.
  intros c. assert (Hne : state c <> KB2_STATE_IDLE) by (vm_compute; discriminate).
  refine (conj Hne _).
  exact (proj1 (configuration_frozen (A := bump) 1 c (run starting).2 _ _ (run_reachable starting)
                  (step_set_limit c (run starting).2 KB2_LIMIT_QUEUE_COUNT 5) Hne)).
Defined.

Lemma refused_calls_change_nothing_witness :
  let c := (run starting).1 in
  kb2_controller_stop (Some c) = (KB2_STATUS_ACTION_PENDING, Some c) /\
  forall c', kb2_controller_stop (Some c) = (KB2_STATUS_ACTION_PENDING, Some c') -> c' = c.
Proof.
  intros c. assert (Hok : ctl_ok c)
    by exact (proj1 (reachable_ok (A := bump) 1 c (run starting).2 (run_reachable starting))).
  split; [vm_compute; reflexivity |]. intros c'.
  exact (proj1 (proj2 (proj2 (proj2 (proj2 (refused_calls_change_nothing (A := bump) c c' KB2_STATUS_ACTION_PENDING I Hok)))))).
Defined.

Lemma controller_lifecycle_balanced_witness :
  exists (c0 : kb2_controller kb2_closure) (a0 : bump),
    kb2_controller_create (mkBump ∅) true true true = (KB2_STATUS_OK, Some c0, a0) /\
    let '(a1, c1, _) := foldl run_api (a0, c0, empty_world) running in
    ledger (kb2_controller_destroy a1 (Some c1)) = ledger (mkBump ∅).
Proof.
  eexists _, _. split; [vm_compute; reflexivity |].
  apply (controller_lifecycle_balanced (A := bump) (C := kb2_closure) running (mkBump ∅)).
  vm_compute. reflexivity.
Defined.
