(* ===== verification/BlockDevice.v ===== *)
(** The block-device contract (protocol/src/block_device.c, protocol/include/kobox2/block_device.h):
    the request/response header and the disk record of a snapshot.

    The functions return 0 or -1; an encoder's result also carries the buffer, a
    decoder's the value it wrote, [None] when it wrote nothing.

    Claims about the block-device contract: both codecs are wire formats. *)

From Stdlib Require Import ZArith Lia.
From stdpp Require Import base numbers tactics list_numbers list.
From S2P Require Import Prelude Bytes Layout.

Open Scope Z_scope.

(** * Layout (block_device_layout.h) *)

Definition KB2_BLOCK_DEVICE_ABI_IDENTITY_BYTES : list Z := [100; 101; 118; 0].
Definition KB2_BLOCK_DEVICE_MAX_TRANSFER : Z := 131072.
Definition KB2_BLOCK_DEVICE_MAX_DISKS : Z := 32.
Definition KB2_BLOCK_DEVICE_OP_SNAPSHOT : Z := 1.
Definition KB2_BLOCK_DEVICE_OP_FLUSH : Z := 4.
Definition KB2_BLOCK_DEVICE_STATUS_UNSUPPORTED : Z := 7.
Definition KB2_BLOCK_DEVICE_HEADER_SIZE : Z := 64.
Definition KB2_BLOCK_DEVICE_HEADER_OPCODE_OFFSET : Z := 4.
Definition KB2_BLOCK_DEVICE_HEADER_STATUS_OFFSET : Z := 8.
Definition KB2_BLOCK_DEVICE_HEADER_COUNT_OFFSET : Z := 12.
Definition KB2_BLOCK_DEVICE_HEADER_GENERATION_OFFSET : Z := 16.
Definition KB2_BLOCK_DEVICE_HEADER_SEQUENCE_OFFSET : Z := 24.
Definition KB2_BLOCK_DEVICE_HEADER_DISKSEQ_OFFSET : Z := 32.
Definition KB2_BLOCK_DEVICE_HEADER_OFFSET_OFFSET : Z := 40.
Definition KB2_BLOCK_DEVICE_HEADER_MAJOR_OFFSET : Z := 48.
Definition KB2_BLOCK_DEVICE_HEADER_MINOR_OFFSET : Z := 52.
Definition KB2_BLOCK_DEVICE_HEADER_LENGTH_OFFSET : Z := 56.
Definition KB2_BLOCK_DEVICE_HEADER_RESERVED_OFFSET : Z := 60.
Definition KB2_BLOCK_DEVICE_DISK_SIZE : Z := 72.
Definition KB2_BLOCK_DEVICE_DISK_DISKSEQ_OFFSET : Z := 0.
Definition KB2_BLOCK_DEVICE_DISK_BYTES_OFFSET : Z := 8.
Definition KB2_BLOCK_DEVICE_DISK_MAJOR_OFFSET : Z := 16.
Definition KB2_BLOCK_DEVICE_DISK_MINOR_OFFSET : Z := 20.
Definition KB2_BLOCK_DEVICE_DISK_LOGICAL_BLOCK_SIZE_OFFSET : Z := 24.
Definition KB2_BLOCK_DEVICE_DISK_PHYSICAL_BLOCK_SIZE_OFFSET : Z := 28.
Definition KB2_BLOCK_DEVICE_DISK_REMOVABLE_OFFSET : Z := 32.
Definition KB2_BLOCK_DEVICE_DISK_READ_ONLY_OFFSET : Z := 36.
Definition KB2_BLOCK_DEVICE_DISK_NAME_OFFSET : Z := 40.

(** * Decoded values *)

Record kb2_block_header := mkBlockHeader {
  bh_opcode : Z;
  bh_status : Z;
  bh_count : Z;
  bh_generation : Z;
  bh_sequence : Z;
  bh_diskseq : Z;
  bh_offset : Z;
  bh_major : Z;
  bh_minor : Z;
  bh_length : Z;
}.

Record kb2_block_disk := mkBlockDisk {
  bd_diskseq : Z;
  bd_bytes : Z;
  bd_major : Z;
  bd_minor : Z;
  bd_logical_block_size : Z;
  bd_physical_block_size : Z;
  bd_removable : Z;
  bd_read_only : Z;
  bd_name : list Z;
}.

(** * Codecs *)

Definition valid_opcode (opcode : Z) : bool :=
  (KB2_BLOCK_DEVICE_OP_SNAPSHOT <=? opcode) && (opcode <=? KB2_BLOCK_DEVICE_OP_FLUSH).

(** One of the first 32 bytes is NUL. *)
Definition name_terminated (name : list Z) : bool := existsb (fun c => c =? 0) (take 32 name).

(** The tests both directions make of a header. *)
Definition header_invalid (h : kb2_block_header) : bool :=
  negb (valid_opcode (bh_opcode h)) || (KB2_BLOCK_DEVICE_STATUS_UNSUPPORTED <? bh_status h) ||
  (KB2_BLOCK_DEVICE_MAX_DISKS <? bh_count h) || (KB2_BLOCK_DEVICE_MAX_TRANSFER <? bh_length h) ||
  (bh_generation h =? 0) || (bh_sequence h =? 0).

Definition kb2_block_header_encode (bytes : option (list Z)) (capacity : Z)
    (header : option kb2_block_header) : Z * option (list Z) :=
  match bytes, header with
  | Some b, Some h =>
      if (capacity <? KB2_BLOCK_DEVICE_HEADER_SIZE) || header_invalid h then (-1, Some b)
      else
        let b := zero_bytes b 0 KB2_BLOCK_DEVICE_HEADER_SIZE in
        let b := put_bytes b 0 KB2_BLOCK_DEVICE_ABI_IDENTITY_BYTES in
        let b := store_u32 b KB2_BLOCK_DEVICE_HEADER_OPCODE_OFFSET (bh_opcode h) in
        let b := store_u32 b KB2_BLOCK_DEVICE_HEADER_STATUS_OFFSET (bh_status h) in
        let b := store_u32 b KB2_BLOCK_DEVICE_HEADER_COUNT_OFFSET (bh_count h) in
        let b := store_u64 b KB2_BLOCK_DEVICE_HEADER_GENERATION_OFFSET (bh_generation h) in
        let b := store_u64 b KB2_BLOCK_DEVICE_HEADER_SEQUENCE_OFFSET (bh_sequence h) in
        let b := store_u64 b KB2_BLOCK_DEVICE_HEADER_DISKSEQ_OFFSET (bh_diskseq h) in
        let b := store_u64 b KB2_BLOCK_DEVICE_HEADER_OFFSET_OFFSET (bh_offset h) in
        let b := store_u32 b KB2_BLOCK_DEVICE_HEADER_MAJOR_OFFSET (bh_major h) in
        let b := store_u32 b KB2_BLOCK_DEVICE_HEADER_MINOR_OFFSET (bh_minor h) in
        let b := store_u32 b KB2_BLOCK_DEVICE_HEADER_LENGTH_OFFSET (bh_length h) in
        (0, Some b)
  | _, _ => (-1, bytes)
  end.

(** The value the decoder fills in. *)
Definition read_header (b : list Z) : kb2_block_header :=
  mkBlockHeader
    (load_u32 b KB2_BLOCK_DEVICE_HEADER_OPCODE_OFFSET)
    (load_u32 b KB2_BLOCK_DEVICE_HEADER_STATUS_OFFSET)
    (load_u32 b KB2_BLOCK_DEVICE_HEADER_COUNT_OFFSET)
    (load_u64 b KB2_BLOCK_DEVICE_HEADER_GENERATION_OFFSET)
    (load_u64 b KB2_BLOCK_DEVICE_HEADER_SEQUENCE_OFFSET)
    (load_u64 b KB2_BLOCK_DEVICE_HEADER_DISKSEQ_OFFSET)
    (load_u64 b KB2_BLOCK_DEVICE_HEADER_OFFSET_OFFSET)
    (load_u32 b KB2_BLOCK_DEVICE_HEADER_MAJOR_OFFSET)
    (load_u32 b KB2_BLOCK_DEVICE_HEADER_MINOR_OFFSET)
    (load_u32 b KB2_BLOCK_DEVICE_HEADER_LENGTH_OFFSET).

Definition kb2_block_header_decode (bytes : option (list Z)) (size : Z) (out_given : bool) :
    Z * option kb2_block_header :=
  match bytes with
  | None => (-1, None)
  | Some b =>
      if negb out_given || (size <? KB2_BLOCK_DEVICE_HEADER_SIZE) ||
         negb (bytes_equal b 0 KB2_BLOCK_DEVICE_ABI_IDENTITY_BYTES) ||
         negb (load_u32 b KB2_BLOCK_DEVICE_HEADER_RESERVED_OFFSET =? 0) then (-1, None)
      else
        let value := read_header b in
        if header_invalid value then (-1, None) else (0, Some value)
  end.

(** The tests both directions make of a disk, the name apart. *)
Definition disk_invalid (d : kb2_block_disk) : bool :=
  (bd_diskseq d =? 0) || (bd_bytes d =? 0) || (bd_logical_block_size d =? 0) ||
  (bd_physical_block_size d =? 0) || (1 <? bd_removable d) || (1 <? bd_read_only d).

Definition kb2_block_disk_encode (bytes : option (list Z)) (capacity : Z)
    (disk : option kb2_block_disk) : Z * option (list Z) :=
  match bytes, disk with
  | Some b, Some d =>
      if (capacity <? KB2_BLOCK_DEVICE_DISK_SIZE) || disk_invalid d || negb (name_terminated (bd_name d))
      then (-1, Some b)
      else
        let b := zero_bytes b 0 KB2_BLOCK_DEVICE_DISK_SIZE in
        let b := store_u64 b KB2_BLOCK_DEVICE_DISK_DISKSEQ_OFFSET (bd_diskseq d) in
        let b := store_u64 b KB2_BLOCK_DEVICE_DISK_BYTES_OFFSET (bd_bytes d) in
        let b := store_u32 b KB2_BLOCK_DEVICE_DISK_MAJOR_OFFSET (bd_major d) in
        let b := store_u32 b KB2_BLOCK_DEVICE_DISK_MINOR_OFFSET (bd_minor d) in
        let b := store_u32 b KB2_BLOCK_DEVICE_DISK_LOGICAL_BLOCK_SIZE_OFFSET (bd_logical_block_size d) in
        let b := store_u32 b KB2_BLOCK_DEVICE_DISK_PHYSICAL_BLOCK_SIZE_OFFSET (bd_physical_block_size d) in
        let b := store_u32 b KB2_BLOCK_DEVICE_DISK_REMOVABLE_OFFSET (bd_removable d) in
        let b := store_u32 b KB2_BLOCK_DEVICE_DISK_READ_ONLY_OFFSET (bd_read_only d) in
        let b := put_bytes b KB2_BLOCK_DEVICE_DISK_NAME_OFFSET (bd_name d) in
        (0, Some b)
  | _, _ => (-1, bytes)
  end.

(** The value the decoder fills in. *)
Definition read_disk (b : list Z) : kb2_block_disk :=
  mkBlockDisk
    (load_u64 b KB2_BLOCK_DEVICE_DISK_DISKSEQ_OFFSET)
    (load_u64 b KB2_BLOCK_DEVICE_DISK_BYTES_OFFSET)
    (load_u32 b KB2_BLOCK_DEVICE_DISK_MAJOR_OFFSET)
    (load_u32 b KB2_BLOCK_DEVICE_DISK_MINOR_OFFSET)
    (load_u32 b KB2_BLOCK_DEVICE_DISK_LOGICAL_BLOCK_SIZE_OFFSET)
    (load_u32 b KB2_BLOCK_DEVICE_DISK_PHYSICAL_BLOCK_SIZE_OFFSET)
    (load_u32 b KB2_BLOCK_DEVICE_DISK_REMOVABLE_OFFSET)
    (load_u32 b KB2_BLOCK_DEVICE_DISK_READ_ONLY_OFFSET)
    (get_bytes b KB2_BLOCK_DEVICE_DISK_NAME_OFFSET 32).

Definition kb2_block_disk_decode (bytes : option (list Z)) (size : Z) (out_given : bool) :
    Z * option kb2_block_disk :=
  match bytes with
  | None => (-1, None)
  | Some b =>
      if negb out_given || (size <? KB2_BLOCK_DEVICE_DISK_SIZE) ||
         negb (name_terminated (get_bytes b KB2_BLOCK_DEVICE_DISK_NAME_OFFSET 32)) then (-1, None)
      else
        let value := read_disk b in
        if disk_invalid value then (-1, None) else (0, Some value)
  end.

(** * Headers *)

Record header_typed (h : kb2_block_header) : Prop := {
  ht_opcode : is_u32 (bh_opcode h);
  ht_status : is_u32 (bh_status h);
  ht_count : is_u32 (bh_count h);
  ht_generation : is_u64 (bh_generation h);
  ht_sequence : is_u64 (bh_sequence h);
  ht_diskseq : is_u64 (bh_diskseq h);
  ht_offset : is_u64 (bh_offset h);
  ht_major : is_u32 (bh_major h);
  ht_minor : is_u32 (bh_minor h);
  ht_length : is_u32 (bh_length h);
}.

(** A known opcode and status, bounded counts, a live generation and sequence. *)
Definition header_ok (h : kb2_block_header) : Prop :=
  1 <= bh_opcode h <= 4 /\ bh_status h <= 7 /\ bh_count h <= 32 /\ bh_length h <= 131072 /\
  bh_generation h <> 0 /\ bh_sequence h <> 0.

Definition header_written (h : kb2_block_header) : list field :=
  [Raw 0 4 KB2_BLOCK_DEVICE_ABI_IDENTITY_BYTES; U32 4 (bh_opcode h); U32 8 (bh_status h); U32 12 (bh_count h);
   U64 16 (bh_generation h); U64 24 (bh_sequence h); U64 32 (bh_diskseq h); U64 40 (bh_offset h);
   U32 48 (bh_major h); U32 52 (bh_minor h); U32 56 (bh_length h)].

Definition header_constants (b : list Z) : bool :=
  bytes_equal b 0 KB2_BLOCK_DEVICE_ABI_IDENTITY_BYTES && (load_u32 b 60 =? 0).

Definition header_encoder (b : list Z) (n : Z) (h : kb2_block_header) : bool * list Z :=
  encoder_result b (kb2_block_header_encode (Some b) n (Some h)).
Definition header_decoder (b : list Z) (n : Z) : option kb2_block_header :=
  decoder_result (kb2_block_header_decode (Some b) n true).

Lemma header_wire :
  WireFormat header_encoder header_decoder header_typed header_ok (fun n _ => 64 <= n) (fun n _ => 64 <= n) (fun _ => 64).
Proof.
  eapply wire_format_ext; [| | | | apply (fixed_record_wire 64 header_written [U32 60 0] header_constants read_header
    header_typed (fun h => negb (header_invalid h)) (fun _ _ => true))].
  - intros b n h. unfold header_encoder, encoder_result, record_encode, kb2_block_header_encode.
    change KB2_BLOCK_DEVICE_HEADER_SIZE with 64.
    destruct (Z.ltb_spec n 64), (Z.leb_spec 64 n); try lia; [done |]. by destruct (header_invalid h).
  - intros b n. unfold header_decoder, decoder_result, record_decode, kb2_block_header_decode, header_constants.
    change KB2_BLOCK_DEVICE_HEADER_SIZE with 64. change KB2_BLOCK_DEVICE_HEADER_RESERVED_OFFSET with 60.
    destruct (Z.ltb_spec n 64), (Z.leb_spec 64 n); try lia; [done |].
    destruct (bytes_equal _ _ _), (load_u32 b 60 =? 0); try done. cbn [negb orb andb]. cbv zeta.
    by destruct (header_invalid (read_header b)).
  - intros h []. unfold header_ok, header_invalid, valid_opcode, KB2_BLOCK_DEVICE_OP_SNAPSHOT,
      KB2_BLOCK_DEVICE_OP_FLUSH, KB2_BLOCK_DEVICE_STATUS_UNSUPPORTED, KB2_BLOCK_DEVICE_MAX_DISKS,
      KB2_BLOCK_DEVICE_MAX_TRANSFER. lia.
  - intros. lia.
  - lia.
  - intros h []. unfold header_written. solve_typed. split; [done |]. by apply (bool_decide_unpack _).
  - by repeat constructor.
  - done.
  - done.
  - done.
  - intros b. split; first [apply load_u32_range | apply load_u64_range].
  - intros b [Hi%bytes_equal_reads Hz%Z.eqb_eq]%andb_true_iff. by repeat (apply Forall_cons; split).
  - intros b h _ Hr. unfold header_written in Hr. cbn [app] in Hr. solve_reads. unfold header_constants, read_header.
    split; [rewrite andb_true_iff, bytes_equal_reads, Z.eqb_eq; done |]. destruct h. cbn in *. by f_equal.
Qed.

(** * Disks *)

Record disk_typed (d : kb2_block_disk) : Prop := {
  dt_diskseq : is_u64 (bd_diskseq d);
  dt_bytes : is_u64 (bd_bytes d);
  dt_major : is_u32 (bd_major d);
  dt_minor : is_u32 (bd_minor d);
  dt_logical : is_u32 (bd_logical_block_size d);
  dt_physical : is_u32 (bd_physical_block_size d);
  dt_removable : is_u32 (bd_removable d);
  dt_read_only : is_u32 (bd_read_only d);
  dt_name : blen (bd_name d) = 32 /\ Forall is_u8 (bd_name d);
}.

(** A live disk with a capacity, block sizes, two flags and a terminated name. *)
Definition disk_ok (d : kb2_block_disk) : Prop :=
  bd_diskseq d <> 0 /\ bd_bytes d <> 0 /\ bd_logical_block_size d <> 0 /\ bd_physical_block_size d <> 0 /\
  bd_removable d <= 1 /\ bd_read_only d <= 1 /\ 0 ∈ bd_name d.

Definition disk_written (d : kb2_block_disk) : list field :=
  [U64 0 (bd_diskseq d); U64 8 (bd_bytes d); U32 16 (bd_major d); U32 20 (bd_minor d);
   U32 24 (bd_logical_block_size d); U32 28 (bd_physical_block_size d); U32 32 (bd_removable d);
   U32 36 (bd_read_only d); Raw 40 32 (bd_name d)].

Definition disk_encoder (b : list Z) (n : Z) (d : kb2_block_disk) : bool * list Z :=
  encoder_result b (kb2_block_disk_encode (Some b) n (Some d)).
Definition disk_decoder (b : list Z) (n : Z) : option kb2_block_disk :=
  decoder_result (kb2_block_disk_decode (Some b) n true).

Lemma name_terminated_spec name : blen name = 32 -> name_terminated name = true <-> 0 ∈ name.
Proof.
  unfold blen, name_terminated. intros Hl. rewrite take_ge by lia. rewrite existsb_exists. split.
  - intros (c & Hc%list_elem_of_In & ->%Z.eqb_eq). done.
  - intros H0. exists 0. split; [by apply list_elem_of_In | done].
Qed.

Lemma disk_wire :
  WireFormat disk_encoder disk_decoder disk_typed disk_ok (fun n _ => 72 <= n) (fun n _ => 72 <= n) (fun _ => 72).
Proof.
  eapply wire_format_ext; [| | | | apply (fixed_record_wire 72 disk_written [] (fun _ => true) read_disk
    disk_typed (fun d => negb (disk_invalid d) && name_terminated (bd_name d)) (fun _ _ => true))].
  - intros b n d. unfold disk_encoder, encoder_result, record_encode, kb2_block_disk_encode.
    change KB2_BLOCK_DEVICE_DISK_SIZE with 72.
    destruct (Z.ltb_spec n 72), (Z.leb_spec 72 n); try lia; [done |].
    by destruct (disk_invalid d), (name_terminated _).
  - intros b n. unfold disk_decoder, decoder_result, record_decode, kb2_block_disk_decode.
    change KB2_BLOCK_DEVICE_DISK_SIZE with 72.
    change (get_bytes b KB2_BLOCK_DEVICE_DISK_NAME_OFFSET 32) with (bd_name (read_disk b)).
    destruct (Z.ltb_spec n 72), (Z.leb_spec 72 n); try lia; [done |].
    by destruct (name_terminated _), (disk_invalid (read_disk b)).
  - intros d []. rewrite andb_true_iff, name_terminated_spec by tauto. unfold disk_ok, disk_invalid, is_u32 in *.
    destruct (bd_diskseq d =? 0) eqn:?, (bd_bytes d =? 0) eqn:?, (bd_logical_block_size d =? 0) eqn:?,
      (bd_physical_block_size d =? 0) eqn:?, (1 <? bd_removable d) eqn:?, (1 <? bd_read_only d) eqn:?;
      cbn; naive_solver lia.
  - intros. lia.
  - lia.
  - intros d []. unfold disk_written. solve_typed.
  - constructor.
  - done.
  - done.
  - done.
  - intros b. split; first [apply load_u32_range | apply load_u64_range | by apply get_bytes_typed].
  - intros b _. by repeat (apply Forall_cons; split).
  - intros b d _ Hr. unfold disk_written in Hr. cbn [app] in Hr. solve_reads. split; [done |].
    unfold read_disk. destruct d. cbn in *. by f_equal.
Qed.

(** * Claims *)

(** C26. The block-device messages are exact wire formats.  For headers and for disk
    records: the encoder accepts exactly the valid values and leaves the buffer alone
    otherwise, it touches no byte past the record, what it writes decodes to the same
    value, and the decoder accepts nothing but the encoder's bytes and looks at no
    byte past the given size. *)
Theorem block_device_wire :
  WireFormat (fun b n h => encoder_result b (kb2_block_header_encode (Some b) n (Some h)))
    (fun b n => decoder_result (kb2_block_header_decode (Some b) n true))
    header_typed header_ok (fun n _ => 64 <= n) (fun n _ => 64 <= n) (fun _ => 64) /\
  WireFormat (fun b n d => encoder_result b (kb2_block_disk_encode (Some b) n (Some d)))
    (fun b n => decoder_result (kb2_block_disk_decode (Some b) n true))
    disk_typed disk_ok (fun n _ => 72 <= n) (fun n _ => 72 <= n) (fun _ => 72).
Proof. exact (conj header_wire disk_wire). Qed.
