(* ===== verification/Filesystem.v ===== *)
(** The filesystem contract (protocol/src/filesystem.c, protocol/include/kobox2/filesystem.h):
    the request and response headers, credentials, path payloads, and the rights an
    operation needs.

    int64_t values are [Z] in their signed range; everything else is unsigned.  The
    functions return 0 or -1; an encoder's result also carries the buffer, a
    decoder's the value it wrote, [None] when it wrote nothing. *)

From Stdlib Require Import ZArith Lia.
From stdpp Require Import base numbers tactics list_numbers list.
From S2P Require Import Prelude Bytes Layout.

Open Scope Z_scope.
Open Scope kobox_scope.

(** * Layout (filesystem_layout.h) *)

Definition KB2_FILESYSTEM_ABI_IDENTITY_BYTES : list Z := [100; 101; 118; 0].
Definition KB2_FILESYSTEM_RIGHT_LOOKUP : Z := 1.
Definition KB2_FILESYSTEM_RIGHT_READ : Z := 2.
Definition KB2_FILESYSTEM_RIGHT_WRITE : Z := 4.
Definition KB2_FILESYSTEM_RIGHT_EXEC : Z := 8.
Definition KB2_FILESYSTEM_RIGHT_STAT : Z := 16.
Definition KB2_FILESYSTEM_RIGHT_SETATTR : Z := 32.
Definition KB2_FILESYSTEM_RIGHT_GETDENTS : Z := 64.
Definition KB2_FILESYSTEM_RIGHT_CREATE : Z := 128.
Definition KB2_FILESYSTEM_RIGHT_REMOVE : Z := 256.
Definition KB2_FILESYSTEM_RIGHT_RENAME : Z := 512.
Definition KB2_FILESYSTEM_SNAPSHOT_QUERY : Z := 1.
Definition KB2_FILESYSTEM_OP_HELLO : Z := 1.
Definition KB2_FILESYSTEM_OP_CLIENT_REGISTER : Z := 2.
Definition KB2_FILESYSTEM_OP_CLIENT_CREDENTIALS : Z := 3.
Definition KB2_FILESYSTEM_OP_CLIENT_UNREGISTER : Z := 4.
Definition KB2_FILESYSTEM_OP_SESSION_ATTACH : Z := 5.
Definition KB2_FILESYSTEM_OP_SESSION_DETACH : Z := 6.
Definition KB2_FILESYSTEM_OP_SERVICE_BIND : Z := 7.
Definition KB2_FILESYSTEM_OP_DEVICE_ROUTE : Z := 8.
Definition KB2_FILESYSTEM_OP_EXEC_OPEN : Z := 9.
Definition KB2_FILESYSTEM_OP_EXEC_PATH : Z := 10.
Definition KB2_FILESYSTEM_OP_EXEC_SELF : Z := 11.
Definition KB2_FILESYSTEM_OP_FILE_VMO : Z := 12.
Definition KB2_FILESYSTEM_OP_SHARED_FILE_VMO : Z := 13.
Definition KB2_FILESYSTEM_OP_OPENAT2 : Z := 14.
Definition KB2_FILESYSTEM_OP_CLOSE : Z := 15.
Definition KB2_FILESYSTEM_OP_DUP : Z := 16.
Definition KB2_FILESYSTEM_OP_TRANSFER_DUP : Z := 17.
Definition KB2_FILESYSTEM_OP_READ : Z := 18.
Definition KB2_FILESYSTEM_OP_PREAD : Z := 19.
Definition KB2_FILESYSTEM_OP_WRITE : Z := 20.
Definition KB2_FILESYSTEM_OP_PWRITE : Z := 21.
Definition KB2_FILESYSTEM_OP_POLL : Z := 22.
Definition KB2_FILESYSTEM_OP_LSEEK : Z := 23.
Definition KB2_FILESYSTEM_OP_GETDENTS64 : Z := 24.
Definition KB2_FILESYSTEM_OP_STATX : Z := 25.
Definition KB2_FILESYSTEM_OP_STATFS : Z := 26.
Definition KB2_FILESYSTEM_OP_FCNTL : Z := 27.
Definition KB2_FILESYSTEM_OP_FSYNC : Z := 28.
Definition KB2_FILESYSTEM_OP_FTRUNCATE : Z := 29.
Definition KB2_FILESYSTEM_OP_MKDIRAT : Z := 30.
Definition KB2_FILESYSTEM_OP_UNLINKAT : Z := 31.
Definition KB2_FILESYSTEM_OP_RENAMEAT2 : Z := 32.
Definition KB2_FILESYSTEM_OP_LINKAT : Z := 33.
Definition KB2_FILESYSTEM_OP_SYMLINKAT : Z := 34.
Definition KB2_FILESYSTEM_OP_READLINKAT : Z := 35.
Definition KB2_FILESYSTEM_OP_READLINK_HANDLE : Z := 36.
Definition KB2_FILESYSTEM_OP_MKNODAT : Z := 37.
Definition KB2_FILESYSTEM_OP_FCHMODAT : Z := 38.
Definition KB2_FILESYSTEM_OP_FCHOWNAT : Z := 39.
Definition KB2_FILESYSTEM_OP_UTIMENSAT : Z := 40.
Definition KB2_FILESYSTEM_OP_FACCESSAT2 : Z := 41.
Definition KB2_FILESYSTEM_OP_SYNC : Z := 42.
Definition KB2_FILESYSTEM_OP_SYNCFS : Z := 43.
Definition KB2_FILESYSTEM_OP_MEMFD_CREATE : Z := 44.
Definition KB2_FILESYSTEM_CREDENTIALS_SIZE : Z := 80.
Definition KB2_FILESYSTEM_CREDENTIALS_UID_OFFSET : Z := 0.
Definition KB2_FILESYSTEM_CREDENTIALS_GID_OFFSET : Z := 4.
Definition KB2_FILESYSTEM_CREDENTIALS_EUID_OFFSET : Z := 8.
Definition KB2_FILESYSTEM_CREDENTIALS_EGID_OFFSET : Z := 12.
Definition KB2_FILESYSTEM_CREDENTIALS_SUID_OFFSET : Z := 16.
Definition KB2_FILESYSTEM_CREDENTIALS_SGID_OFFSET : Z := 20.
Definition KB2_FILESYSTEM_CREDENTIALS_FSUID_OFFSET : Z := 24.
Definition KB2_FILESYSTEM_CREDENTIALS_FSGID_OFFSET : Z := 28.
Definition KB2_FILESYSTEM_CREDENTIALS_CAP_PERMITTED_OFFSET : Z := 32.
Definition KB2_FILESYSTEM_CREDENTIALS_CAP_EFFECTIVE_OFFSET : Z := 40.
Definition KB2_FILESYSTEM_CREDENTIALS_CAP_INHERITABLE_OFFSET : Z := 48.
Definition KB2_FILESYSTEM_CREDENTIALS_CAP_AMBIENT_OFFSET : Z := 56.
Definition KB2_FILESYSTEM_CREDENTIALS_SECUREBITS_OFFSET : Z := 64.
Definition KB2_FILESYSTEM_CREDENTIALS_UMASK_OFFSET : Z := 68.
Definition KB2_FILESYSTEM_CREDENTIALS_RESERVED_OFFSET : Z := 72.
Definition KB2_FILESYSTEM_REQUEST_SIZE : Z := 192.
Definition KB2_FILESYSTEM_REQUEST_OPCODE_OFFSET : Z := 4.
Definition KB2_FILESYSTEM_REQUEST_GENERATION_OFFSET : Z := 8.
Definition KB2_FILESYSTEM_REQUEST_SEQUENCE_OFFSET : Z := 16.
Definition KB2_FILESYSTEM_REQUEST_CLIENT_OFFSET : Z := 24.
Definition KB2_FILESYSTEM_REQUEST_CREDENTIAL_GENERATION_OFFSET : Z := 32.
Definition KB2_FILESYSTEM_REQUEST_HANDLE_OFFSET : Z := 40.
Definition KB2_FILESYSTEM_REQUEST_SECOND_HANDLE_OFFSET : Z := 48.
Definition KB2_FILESYSTEM_REQUEST_OFFSET_OFFSET : Z := 56.
Definition KB2_FILESYSTEM_REQUEST_LENGTH_OFFSET : Z := 64.
Definition KB2_FILESYSTEM_REQUEST_FLAGS_OFFSET : Z := 72.
Definition KB2_FILESYSTEM_REQUEST_MODE_OFFSET : Z := 80.
Definition KB2_FILESYSTEM_REQUEST_RESOLVE_OFFSET : Z := 88.
Definition KB2_FILESYSTEM_REQUEST_MASK_OFFSET : Z := 96.
Definition KB2_FILESYSTEM_REQUEST_UID_OFFSET : Z := 100.
Definition KB2_FILESYSTEM_REQUEST_GID_OFFSET : Z := 104.
Definition KB2_FILESYSTEM_REQUEST_UMASK_OFFSET : Z := 108.
Definition KB2_FILESYSTEM_REQUEST_PATH_OFFSET_OFFSET : Z := 112.
Definition KB2_FILESYSTEM_REQUEST_PATH_LENGTH_OFFSET : Z := 120.
Definition KB2_FILESYSTEM_REQUEST_SECOND_PATH_OFFSET_OFFSET : Z := 128.
Definition KB2_FILESYSTEM_REQUEST_SECOND_PATH_LENGTH_OFFSET : Z := 136.
Definition KB2_FILESYSTEM_REQUEST_GROUPS_OFFSET_OFFSET : Z := 144.
Definition KB2_FILESYSTEM_REQUEST_GROUPS_LENGTH_OFFSET : Z := 152.
Definition KB2_FILESYSTEM_REQUEST_DATA_OFFSET_OFFSET : Z := 160.
Definition KB2_FILESYSTEM_REQUEST_DATA_LENGTH_OFFSET : Z := 168.
Definition KB2_FILESYSTEM_REQUEST_CAPABILITIES_OFFSET : Z := 176.
Definition KB2_FILESYSTEM_REQUEST_RESERVED_OFFSET : Z := 184.
Definition KB2_FILESYSTEM_RESPONSE_SIZE : Z := 64.
Definition KB2_FILESYSTEM_RESPONSE_OPCODE_OFFSET : Z := 4.
Definition KB2_FILESYSTEM_RESPONSE_GENERATION_OFFSET : Z := 8.
Definition KB2_FILESYSTEM_RESPONSE_SEQUENCE_OFFSET : Z := 16.
Definition KB2_FILESYSTEM_RESPONSE_RESULT_OFFSET : Z := 24.
Definition KB2_FILESYSTEM_RESPONSE_HANDLE_OFFSET : Z := 32.
Definition KB2_FILESYSTEM_RESPONSE_DATA_LENGTH_OFFSET : Z := 40.
Definition KB2_FILESYSTEM_RESPONSE_SERVICE_OFFSET : Z := 48.
Definition KB2_FILESYSTEM_RESPONSE_RESERVED_OFFSET : Z := 52.

Definition INT64_MAX : Z := 2 ^ 63 - 1.

(** * Decoded values *)

Record kb2_fs_span := mkSpan { sp_offset : Z; sp_length : Z }.

Record kb2_fs_request := mkRequest {
  rq_opcode : Z;
  rq_generation : Z;
  rq_sequence : Z;
  rq_client : Z;
  rq_credential_generation : Z;
  rq_handle : Z;
  rq_second_handle : Z;
  rq_offset : Z;
  rq_length : Z;
  rq_flags : Z;
  rq_mode : Z;
  rq_resolve : Z;
  rq_mask : Z;
  rq_uid : Z;
  rq_gid : Z;
  rq_umask : Z;
  rq_path : kb2_fs_span;
  rq_second_path : kb2_fs_span;
  rq_groups : kb2_fs_span;
  rq_data : kb2_fs_span;
  rq_capabilities : Z;
}.

Record kb2_fs_response := mkResponse {
  rs_opcode : Z;
  rs_generation : Z;
  rs_sequence : Z;
  rs_result : Z;
  rs_handle : Z;
  rs_data_length : Z;
  rs_service : Z;
}.

Record kb2_fs_credentials := mkCredentials {
  cr_uid : Z;
  cr_gid : Z;
  cr_euid : Z;
  cr_egid : Z;
  cr_suid : Z;
  cr_sgid : Z;
  cr_fsuid : Z;
  cr_fsgid : Z;
  cr_cap_permitted : Z;
  cr_cap_effective : Z;
  cr_cap_inheritable : Z;
  cr_cap_ambient : Z;
  cr_securebits : Z;
  cr_umask : Z;
}.

Inductive kb2_fs_operation_class :=
  | KB2_FS_OPERATION_INVALID
  | KB2_FS_OPERATION_DATA
  | KB2_FS_OPERATION_FRONTEND
  | KB2_FS_OPERATION_OWNER.

(** * Policy *)

Definition opcode_valid (opcode : Z) : bool :=
  (KB2_FILESYSTEM_OP_HELLO <=? opcode) && (opcode <=? KB2_FILESYSTEM_OP_MEMFD_CREATE).

(** [if (flags & mask) rights |= right;] *)
Definition or_if (test : bool) (right rights : Z) : Z := if test then Z.lor rights right else rights.

(** [flags & mask], as a condition. *)
Definition has (flags mask : Z) : bool := negb (Z.land flags mask =? 0).

(** The rights of OPENAT2 and DEVICE_ROUTE. *)
Definition open_rights (flags : Z) : Z :=
  let rights := KB2_FILESYSTEM_RIGHT_LOOKUP in
  if has flags 2097152 then rights
  else
    let rights := or_if (has flags 64) KB2_FILESYSTEM_RIGHT_CREATE rights in
    let rights := or_if (has flags 512) KB2_FILESYSTEM_RIGHT_WRITE rights in
    let rights := or_if (negb (Z.land flags 3 =? 1)) KB2_FILESYSTEM_RIGHT_READ rights in
    or_if (negb (Z.land flags 3 =? 0)) KB2_FILESYSTEM_RIGHT_WRITE rights.

(** The switch; [opcodes] are the case labels of one branch. *)
Definition among (opcode : Z) (opcodes : list Z) : bool := existsb (Z.eqb opcode) opcodes.

Definition request_policy (r : kb2_fs_request) : kb2_fs_operation_class * Z :=
  let op := rq_opcode r in
  if among op [KB2_FILESYSTEM_OP_CLIENT_REGISTER; KB2_FILESYSTEM_OP_CLIENT_CREDENTIALS;
               KB2_FILESYSTEM_OP_CLIENT_UNREGISTER; KB2_FILESYSTEM_OP_SERVICE_BIND;
               KB2_FILESYSTEM_OP_EXEC_OPEN] then (KB2_FS_OPERATION_OWNER, 0)
  else if among op [KB2_FILESYSTEM_OP_HELLO; KB2_FILESYSTEM_OP_SESSION_ATTACH;
                    KB2_FILESYSTEM_OP_SESSION_DETACH; KB2_FILESYSTEM_OP_TRANSFER_DUP] then
    (KB2_FS_OPERATION_FRONTEND, 0)
  else if among op [KB2_FILESYSTEM_OP_SHARED_FILE_VMO] then
    (KB2_FS_OPERATION_FRONTEND,
     or_if (has (rq_flags r) 2) KB2_FILESYSTEM_RIGHT_EXEC
       (or_if (has (rq_flags r) 1) KB2_FILESYSTEM_RIGHT_WRITE KB2_FILESYSTEM_RIGHT_READ))
  else if among op [KB2_FILESYSTEM_OP_EXEC_PATH; KB2_FILESYSTEM_OP_EXEC_SELF] then
    (KB2_FS_OPERATION_FRONTEND, Z.lor KB2_FILESYSTEM_RIGHT_EXEC KB2_FILESYSTEM_RIGHT_READ)
  else if among op [KB2_FILESYSTEM_OP_FILE_VMO] then
    (KB2_FS_OPERATION_FRONTEND,
     or_if (has (rq_flags r) 2) KB2_FILESYSTEM_RIGHT_EXEC KB2_FILESYSTEM_RIGHT_READ)
  else if among op [KB2_FILESYSTEM_OP_READ; KB2_FILESYSTEM_OP_PREAD] then
    (KB2_FS_OPERATION_DATA,
     or_if ((op =? KB2_FILESYSTEM_OP_PREAD) && (rq_mode r =? KB2_FILESYSTEM_SNAPSHOT_QUERY))
       KB2_FILESYSTEM_RIGHT_STAT KB2_FILESYSTEM_RIGHT_READ)
  else if among op [KB2_FILESYSTEM_OP_WRITE; KB2_FILESYSTEM_OP_PWRITE; KB2_FILESYSTEM_OP_FTRUNCATE] then
    (KB2_FS_OPERATION_DATA, KB2_FILESYSTEM_RIGHT_WRITE)
  else if among op [KB2_FILESYSTEM_OP_POLL] then (KB2_FS_OPERATION_DATA, 0)
  else if among op [KB2_FILESYSTEM_OP_GETDENTS64] then (KB2_FS_OPERATION_DATA, KB2_FILESYSTEM_RIGHT_GETDENTS)
  else if among op [KB2_FILESYSTEM_OP_STATX; KB2_FILESYSTEM_OP_STATFS; KB2_FILESYSTEM_OP_READLINKAT;
                    KB2_FILESYSTEM_OP_READLINK_HANDLE] then (KB2_FS_OPERATION_DATA, KB2_FILESYSTEM_RIGHT_STAT)
  else if among op [KB2_FILESYSTEM_OP_FACCESSAT2] then (KB2_FS_OPERATION_DATA, KB2_FILESYSTEM_RIGHT_LOOKUP)
  else if among op [KB2_FILESYSTEM_OP_MKDIRAT; KB2_FILESYSTEM_OP_MKNODAT; KB2_FILESYSTEM_OP_SYMLINKAT;
                    KB2_FILESYSTEM_OP_LINKAT; KB2_FILESYSTEM_OP_MEMFD_CREATE] then
    (KB2_FS_OPERATION_DATA, KB2_FILESYSTEM_RIGHT_CREATE)
  else if among op [KB2_FILESYSTEM_OP_UNLINKAT] then (KB2_FS_OPERATION_DATA, KB2_FILESYSTEM_RIGHT_REMOVE)
  else if among op [KB2_FILESYSTEM_OP_RENAMEAT2] then
    (KB2_FS_OPERATION_DATA, Z.lor KB2_FILESYSTEM_RIGHT_RENAME KB2_FILESYSTEM_RIGHT_REMOVE)
  else if among op [KB2_FILESYSTEM_OP_FCHMODAT; KB2_FILESYSTEM_OP_FCHOWNAT; KB2_FILESYSTEM_OP_UTIMENSAT] then
    (KB2_FS_OPERATION_DATA, KB2_FILESYSTEM_RIGHT_SETATTR)
  else if among op [KB2_FILESYSTEM_OP_DEVICE_ROUTE; KB2_FILESYSTEM_OP_OPENAT2] then
    (if op =? KB2_FILESYSTEM_OP_DEVICE_ROUTE then KB2_FS_OPERATION_FRONTEND else KB2_FS_OPERATION_DATA,
     open_rights (rq_flags r))
  else if among op [KB2_FILESYSTEM_OP_CLOSE; KB2_FILESYSTEM_OP_DUP; KB2_FILESYSTEM_OP_LSEEK;
                    KB2_FILESYSTEM_OP_FCNTL; KB2_FILESYSTEM_OP_FSYNC; KB2_FILESYSTEM_OP_SYNC;
                    KB2_FILESYSTEM_OP_SYNCFS] then (KB2_FS_OPERATION_DATA, 0)
  else (KB2_FS_OPERATION_INVALID, 0).

(** The rights cell is written unless an argument is NULL. *)
Definition kb2_fs_request_policy (request : option kb2_fs_request) (out_given : bool) :
    kb2_fs_operation_class * option Z :=
  match request with
  | Some r =>
      if out_given then let '(class, rights) := request_policy r in (class, Some rights)
      else (KB2_FS_OPERATION_INVALID, None)
  | None => (KB2_FS_OPERATION_INVALID, None)
  end.

(** * Requests *)

Definition signed64 (value : Z) : Z := if value <=? INT64_MAX then value else -1 - (U64_MAX - value).

Definition span_valid (span : kb2_fs_span) (size : Z) : bool :=
  if sp_length span =? 0 then sp_offset span =? 0
  else (KB2_FILESYSTEM_REQUEST_SIZE <=? sp_offset span) && (sp_offset span <=? size) &&
       (sp_length span <=? size - sp_offset span).

Definition spans_overlap (s t : kb2_fs_span) : bool :=
  negb (sp_length s =? 0) && negb (sp_length t =? 0) &&
  (sp_offset s <? u64 (sp_offset t + sp_length t)) && (sp_offset t <? u64 (sp_offset s + sp_length s)).

(** The loop over the spans; [seen] are those before. *)
Fixpoint spans_valid (size : Z) (seen spans : list kb2_fs_span) : bool :=
  match spans with
  | [] => true
  | s :: spans =>
      span_valid s size && negb (existsb (spans_overlap s) seen) && spans_valid size (seen ++ [s]) spans
  end.

Definition request_spans (r : kb2_fs_request) : list kb2_fs_span :=
  [rq_path r; rq_second_path r; rq_groups r; rq_data r].

Definition request_valid (r : kb2_fs_request) (size : Z) : bool :=
  if negb (opcode_valid (rq_opcode r)) || (rq_generation r =? 0) || (rq_sequence r =? 0) ||
     negb (rq_umask r &~ 511 =? 0) || (size <? KB2_FILESYSTEM_REQUEST_SIZE) then false
  else
    spans_valid size [] (request_spans r) &&
    (Z.land (sp_offset (rq_groups r)) 3 =? 0) && (Z.land (sp_length (rq_groups r)) 3 =? 0).

Definition kb2_fs_request_encode (bytes : option (list Z)) (header_size payload_size : Z)
    (request : option kb2_fs_request) : Z * option (list Z) :=
  match bytes, request with
  | Some b, Some r =>
      if (header_size <? KB2_FILESYSTEM_REQUEST_SIZE) || negb (request_valid r payload_size) then (-1, Some b)
      else
        let b := zero_bytes b 0 KB2_FILESYSTEM_REQUEST_SIZE in
        let b := put_bytes b 0 KB2_FILESYSTEM_ABI_IDENTITY_BYTES in
        let b := store_u64 b KB2_FILESYSTEM_REQUEST_GENERATION_OFFSET (rq_generation r) in
        let b := store_u64 b KB2_FILESYSTEM_REQUEST_SEQUENCE_OFFSET (rq_sequence r) in
        let b := store_u64 b KB2_FILESYSTEM_REQUEST_CLIENT_OFFSET (rq_client r) in
        let b := store_u64 b KB2_FILESYSTEM_REQUEST_CREDENTIAL_GENERATION_OFFSET (rq_credential_generation r) in
        let b := store_u64 b KB2_FILESYSTEM_REQUEST_HANDLE_OFFSET (rq_handle r) in
        let b := store_u64 b KB2_FILESYSTEM_REQUEST_SECOND_HANDLE_OFFSET (rq_second_handle r) in
        let b := store_u64 b KB2_FILESYSTEM_REQUEST_LENGTH_OFFSET (rq_length r) in
        let b := store_u64 b KB2_FILESYSTEM_REQUEST_FLAGS_OFFSET (rq_flags r) in
        let b := store_u64 b KB2_FILESYSTEM_REQUEST_MODE_OFFSET (rq_mode r) in
        let b := store_u64 b KB2_FILESYSTEM_REQUEST_RESOLVE_OFFSET (rq_resolve r) in
        let b := store_u64 b KB2_FILESYSTEM_REQUEST_CAPABILITIES_OFFSET (rq_capabilities r) in
        let b := store_u64 b KB2_FILESYSTEM_REQUEST_PATH_OFFSET_OFFSET (sp_offset (rq_path r)) in
        let b := store_u64 b KB2_FILESYSTEM_REQUEST_PATH_LENGTH_OFFSET (sp_length (rq_path r)) in
        let b := store_u64 b KB2_FILESYSTEM_REQUEST_SECOND_PATH_OFFSET_OFFSET (sp_offset (rq_second_path r)) in
        let b := store_u64 b KB2_FILESYSTEM_REQUEST_SECOND_PATH_LENGTH_OFFSET (sp_length (rq_second_path r)) in
        let b := store_u64 b KB2_FILESYSTEM_REQUEST_GROUPS_OFFSET_OFFSET (sp_offset (rq_groups r)) in
        let b := store_u64 b KB2_FILESYSTEM_REQUEST_GROUPS_LENGTH_OFFSET (sp_length (rq_groups r)) in
        let b := store_u64 b KB2_FILESYSTEM_REQUEST_DATA_OFFSET_OFFSET (sp_offset (rq_data r)) in
        let b := store_u64 b KB2_FILESYSTEM_REQUEST_DATA_LENGTH_OFFSET (sp_length (rq_data r)) in
        let b := store_u32 b KB2_FILESYSTEM_REQUEST_OPCODE_OFFSET (rq_opcode r) in
        let b := store_u32 b KB2_FILESYSTEM_REQUEST_MASK_OFFSET (rq_mask r) in
        let b := store_u32 b KB2_FILESYSTEM_REQUEST_UID_OFFSET (rq_uid r) in
        let b := store_u32 b KB2_FILESYSTEM_REQUEST_GID_OFFSET (rq_gid r) in
        let b := store_u32 b KB2_FILESYSTEM_REQUEST_UMASK_OFFSET (rq_umask r) in
        let b := store_u64 b KB2_FILESYSTEM_REQUEST_OFFSET_OFFSET (u64 (rq_offset r)) in
        (0, Some b)
  | _, _ => (-1, bytes)
  end.

(** The value the decoder fills in. *)
Definition read_request (b : list Z) : kb2_fs_request :=
  mkRequest
    (load_u32 b KB2_FILESYSTEM_REQUEST_OPCODE_OFFSET)
    (load_u64 b KB2_FILESYSTEM_REQUEST_GENERATION_OFFSET)
    (load_u64 b KB2_FILESYSTEM_REQUEST_SEQUENCE_OFFSET)
    (load_u64 b KB2_FILESYSTEM_REQUEST_CLIENT_OFFSET)
    (load_u64 b KB2_FILESYSTEM_REQUEST_CREDENTIAL_GENERATION_OFFSET)
    (load_u64 b KB2_FILESYSTEM_REQUEST_HANDLE_OFFSET)
    (load_u64 b KB2_FILESYSTEM_REQUEST_SECOND_HANDLE_OFFSET)
    (signed64 (load_u64 b KB2_FILESYSTEM_REQUEST_OFFSET_OFFSET))
    (load_u64 b KB2_FILESYSTEM_REQUEST_LENGTH_OFFSET)
    (load_u64 b KB2_FILESYSTEM_REQUEST_FLAGS_OFFSET)
    (load_u64 b KB2_FILESYSTEM_REQUEST_MODE_OFFSET)
    (load_u64 b KB2_FILESYSTEM_REQUEST_RESOLVE_OFFSET)
    (load_u32 b KB2_FILESYSTEM_REQUEST_MASK_OFFSET)
    (load_u32 b KB2_FILESYSTEM_REQUEST_UID_OFFSET)
    (load_u32 b KB2_FILESYSTEM_REQUEST_GID_OFFSET)
    (load_u32 b KB2_FILESYSTEM_REQUEST_UMASK_OFFSET)
    (mkSpan (load_u64 b KB2_FILESYSTEM_REQUEST_PATH_OFFSET_OFFSET)
      (load_u64 b KB2_FILESYSTEM_REQUEST_PATH_LENGTH_OFFSET))
    (mkSpan (load_u64 b KB2_FILESYSTEM_REQUEST_SECOND_PATH_OFFSET_OFFSET)
      (load_u64 b KB2_FILESYSTEM_REQUEST_SECOND_PATH_LENGTH_OFFSET))
    (mkSpan (load_u64 b KB2_FILESYSTEM_REQUEST_GROUPS_OFFSET_OFFSET)
      (load_u64 b KB2_FILESYSTEM_REQUEST_GROUPS_LENGTH_OFFSET))
    (mkSpan (load_u64 b KB2_FILESYSTEM_REQUEST_DATA_OFFSET_OFFSET)
      (load_u64 b KB2_FILESYSTEM_REQUEST_DATA_LENGTH_OFFSET))
    (load_u64 b KB2_FILESYSTEM_REQUEST_CAPABILITIES_OFFSET).

Definition kb2_fs_request_decode (bytes : option (list Z)) (header_size payload_size : Z) (out_given : bool) :
    Z * option kb2_fs_request :=
  match bytes with
  | None => (-1, None)
  | Some b =>
      if negb out_given || (header_size <? KB2_FILESYSTEM_REQUEST_SIZE) ||
         negb (bytes_equal b 0 KB2_FILESYSTEM_ABI_IDENTITY_BYTES) ||
         negb (load_u64 b KB2_FILESYSTEM_REQUEST_RESERVED_OFFSET =? 0) then (-1, None)
      else
        let value := read_request b in
        if request_valid value payload_size then (0, Some value) else (-1, None)
  end.

(** A path of the payload ends with its only NUL. *)
Definition path_invalid (b : list Z) (path : kb2_fs_span) : bool :=
  negb (sp_length path =? 0) &&
  let bytes := get_bytes b (sp_offset path) (sp_length path) in
  (negb (List.last bytes 0 =? 0) || existsb (Z.eqb 0) (removelast bytes)).

Definition kb2_fs_request_validate_paths (bytes : option (list Z)) (size : Z)
    (request : option kb2_fs_request) : Z :=
  match bytes, request with
  | Some b, Some r =>
      if negb (request_valid r size) then -1
      else if existsb (path_invalid b) [rq_path r; rq_second_path r] then -1 else 0
  | _, _ => -1
  end.

(** * Responses *)

Definition response_valid (r : kb2_fs_response) : bool :=
  opcode_valid (rs_opcode r) && negb (rs_generation r =? 0) && negb (rs_sequence r =? 0) &&
  (-4095 <=? rs_result r) && (rs_data_length r <=? U64_MAX - KB2_FILESYSTEM_RESPONSE_SIZE) &&
  ((0 <=? rs_result r) ||
   ((rs_handle r =? 0) && (rs_data_length r =? 0) && (rs_service r =? 0))).

Definition kb2_fs_response_encode (bytes : option (list Z)) (capacity : Z)
    (response : option kb2_fs_response) : Z * option (list Z) :=
  match bytes, response with
  | Some b, Some r =>
      if (capacity <? KB2_FILESYSTEM_RESPONSE_SIZE) || negb (response_valid r) then (-1, Some b)
      else
        let b := zero_bytes b 0 KB2_FILESYSTEM_RESPONSE_SIZE in
        let b := put_bytes b 0 KB2_FILESYSTEM_ABI_IDENTITY_BYTES in
        let b := store_u32 b KB2_FILESYSTEM_RESPONSE_OPCODE_OFFSET (rs_opcode r) in
        let b := store_u64 b KB2_FILESYSTEM_RESPONSE_GENERATION_OFFSET (rs_generation r) in
        let b := store_u64 b KB2_FILESYSTEM_RESPONSE_SEQUENCE_OFFSET (rs_sequence r) in
        let b := store_u64 b KB2_FILESYSTEM_RESPONSE_RESULT_OFFSET (u64 (rs_result r)) in
        let b := store_u64 b KB2_FILESYSTEM_RESPONSE_HANDLE_OFFSET (rs_handle r) in
        let b := store_u64 b KB2_FILESYSTEM_RESPONSE_DATA_LENGTH_OFFSET (rs_data_length r) in
        let b := store_u32 b KB2_FILESYSTEM_RESPONSE_SERVICE_OFFSET (rs_service r) in
        (0, Some b)
  | _, _ => (-1, bytes)
  end.

(** The value the decoder fills in. *)
Definition read_response (b : list Z) : kb2_fs_response :=
  mkResponse
    (load_u32 b KB2_FILESYSTEM_RESPONSE_OPCODE_OFFSET)
    (load_u64 b KB2_FILESYSTEM_RESPONSE_GENERATION_OFFSET)
    (load_u64 b KB2_FILESYSTEM_RESPONSE_SEQUENCE_OFFSET)
    (signed64 (load_u64 b KB2_FILESYSTEM_RESPONSE_RESULT_OFFSET))
    (load_u64 b KB2_FILESYSTEM_RESPONSE_HANDLE_OFFSET)
    (load_u64 b KB2_FILESYSTEM_RESPONSE_DATA_LENGTH_OFFSET)
    (load_u32 b KB2_FILESYSTEM_RESPONSE_SERVICE_OFFSET).

Definition kb2_fs_response_decode (bytes : option (list Z)) (size : Z) (out_given : bool) :
    Z * option kb2_fs_response :=
  match bytes with
  | None => (-1, None)
  | Some b =>
      if negb out_given || (size <? KB2_FILESYSTEM_RESPONSE_SIZE) ||
         negb (bytes_equal b 0 KB2_FILESYSTEM_ABI_IDENTITY_BYTES) then (-1, None)
      else if existsb (fun i => negb (get_byte b i =? 0))
                (seqZ KB2_FILESYSTEM_RESPONSE_RESERVED_OFFSET
                   (KB2_FILESYSTEM_RESPONSE_SIZE - KB2_FILESYSTEM_RESPONSE_RESERVED_OFFSET)) then (-1, None)
      else
        let value := read_response b in
        if negb (response_valid value) ||
           negb (rs_data_length value =? size - KB2_FILESYSTEM_RESPONSE_SIZE) then (-1, None)
        else (0, Some value)
  end.

Definition kb2_fs_response_matches (response : option kb2_fs_response) (request : option kb2_fs_request) : bool :=
  match response, request with
  | Some s, Some r =>
      (rs_opcode s =? rq_opcode r) && (rs_generation s =? rq_generation r) && (rs_sequence s =? rq_sequence r)
  | _, _ => false
  end.

(** * Credentials *)

Definition kb2_fs_credentials_encode (bytes : option (list Z)) (capacity : Z)
    (credentials : option kb2_fs_credentials) : Z * option (list Z) :=
  match bytes, credentials with
  | Some b, Some c =>
      if (capacity <? KB2_FILESYSTEM_CREDENTIALS_SIZE) || negb (cr_umask c &~ 511 =? 0) then (-1, Some b)
      else
        let b := zero_bytes b 0 KB2_FILESYSTEM_CREDENTIALS_SIZE in
        let b := store_u32 b KB2_FILESYSTEM_CREDENTIALS_UID_OFFSET (cr_uid c) in
        let b := store_u32 b KB2_FILESYSTEM_CREDENTIALS_GID_OFFSET (cr_gid c) in
        let b := store_u32 b KB2_FILESYSTEM_CREDENTIALS_EUID_OFFSET (cr_euid c) in
        let b := store_u32 b KB2_FILESYSTEM_CREDENTIALS_EGID_OFFSET (cr_egid c) in
        let b := store_u32 b KB2_FILESYSTEM_CREDENTIALS_SUID_OFFSET (cr_suid c) in
        let b := store_u32 b KB2_FILESYSTEM_CREDENTIALS_SGID_OFFSET (cr_sgid c) in
        let b := store_u32 b KB2_FILESYSTEM_CREDENTIALS_FSUID_OFFSET (cr_fsuid c) in
        let b := store_u32 b KB2_FILESYSTEM_CREDENTIALS_FSGID_OFFSET (cr_fsgid c) in
        let b := store_u32 b KB2_FILESYSTEM_CREDENTIALS_SECUREBITS_OFFSET (cr_securebits c) in
        let b := store_u32 b KB2_FILESYSTEM_CREDENTIALS_UMASK_OFFSET (cr_umask c) in
        let b := store_u64 b KB2_FILESYSTEM_CREDENTIALS_CAP_PERMITTED_OFFSET (cr_cap_permitted c) in
        let b := store_u64 b KB2_FILESYSTEM_CREDENTIALS_CAP_EFFECTIVE_OFFSET (cr_cap_effective c) in
        let b := store_u64 b KB2_FILESYSTEM_CREDENTIALS_CAP_INHERITABLE_OFFSET (cr_cap_inheritable c) in
        let b := store_u64 b KB2_FILESYSTEM_CREDENTIALS_CAP_AMBIENT_OFFSET (cr_cap_ambient c) in
        (0, Some b)
  | _, _ => (-1, bytes)
  end.

(** The value the decoder fills in. *)
Definition read_credentials (b : list Z) : kb2_fs_credentials :=
  mkCredentials
    (load_u32 b KB2_FILESYSTEM_CREDENTIALS_UID_OFFSET)
    (load_u32 b KB2_FILESYSTEM_CREDENTIALS_GID_OFFSET)
    (load_u32 b KB2_FILESYSTEM_CREDENTIALS_EUID_OFFSET)
    (load_u32 b KB2_FILESYSTEM_CREDENTIALS_EGID_OFFSET)
    (load_u32 b KB2_FILESYSTEM_CREDENTIALS_SUID_OFFSET)
    (load_u32 b KB2_FILESYSTEM_CREDENTIALS_SGID_OFFSET)
    (load_u32 b KB2_FILESYSTEM_CREDENTIALS_FSUID_OFFSET)
    (load_u32 b KB2_FILESYSTEM_CREDENTIALS_FSGID_OFFSET)
    (load_u64 b KB2_FILESYSTEM_CREDENTIALS_CAP_PERMITTED_OFFSET)
    (load_u64 b KB2_FILESYSTEM_CREDENTIALS_CAP_EFFECTIVE_OFFSET)
    (load_u64 b KB2_FILESYSTEM_CREDENTIALS_CAP_INHERITABLE_OFFSET)
    (load_u64 b KB2_FILESYSTEM_CREDENTIALS_CAP_AMBIENT_OFFSET)
    (load_u32 b KB2_FILESYSTEM_CREDENTIALS_SECUREBITS_OFFSET)
    (load_u32 b KB2_FILESYSTEM_CREDENTIALS_UMASK_OFFSET).

Definition kb2_fs_credentials_decode (bytes : option (list Z)) (size : Z) (out_given : bool) :
    Z * option kb2_fs_credentials :=
  match bytes with
  | None => (-1, None)
  | Some b =>
      if negb out_given || negb (size =? KB2_FILESYSTEM_CREDENTIALS_SIZE) ||
         negb (load_u64 b KB2_FILESYSTEM_CREDENTIALS_RESERVED_OFFSET =? 0) then (-1, None)
      else
        let value := read_credentials b in
        if negb (cr_umask value &~ 511 =? 0) then (-1, None) else (0, Some value)
  end.
