(* ===== verification/FilesystemClaims.v ===== *)
(** Claims about the filesystem contract: its messages are exact wire formats, and
    the rights policy fails closed and has no bypass. *)

From Stdlib Require Import ZArith Lia.
From stdpp Require Import base numbers tactics list_numbers list.
From S2P Require Import Prelude Bytes Layout Filesystem.

Open Scope Z_scope.
Open Scope kobox_scope.

(** * Signed words *)

Lemma signed64_u64 z : -2 ^ 63 <= z < 2 ^ 63 -> signed64 (u64 z) = z.
Proof.
  intros Hz. unfold signed64, INT64_MAX, U64_MAX, u64.
  destruct (decide (0 <= z)).
  - rewrite Z.mod_small by lia. rewrite (proj2 (Z.leb_le _ _)) by lia. done.
  - replace (z mod 2 ^ 64) with (z + 2 ^ 64) by (apply (Z.mod_unique_pos _ _ (-1)); lia).
    rewrite (proj2 (Z.leb_gt _ _)) by lia. lia.
Qed.

Lemma u64_signed64 z : is_u64 z -> u64 (signed64 z) = z /\ -2 ^ 63 <= signed64 z < 2 ^ 63.
Proof.
  unfold is_u64, signed64, INT64_MAX, U64_MAX, u64. intros Hz.
  destruct (Z.leb_spec z (2 ^ 63 - 1)); split; try lia.
  - by rewrite Z.mod_small by lia.
  - symmetry. apply (Z.mod_unique_pos _ _ (-1)); lia.
Qed.

(** * Requests *)

Definition span_typed (s : kb2_fs_span) : Prop := is_u64 (sp_offset s) /\ is_u64 (sp_length s).

Record request_typed (r : kb2_fs_request) : Prop := {
  rqt_opcode : is_u32 (rq_opcode r);
  rqt_generation : is_u64 (rq_generation r);
  rqt_sequence : is_u64 (rq_sequence r);
  rqt_client : is_u64 (rq_client r);
  rqt_credential_generation : is_u64 (rq_credential_generation r);
  rqt_handle : is_u64 (rq_handle r);
  rqt_second_handle : is_u64 (rq_second_handle r);
  rqt_offset : -2 ^ 63 <= rq_offset r < 2 ^ 63;
  rqt_length : is_u64 (rq_length r);
  rqt_flags : is_u64 (rq_flags r);
  rqt_mode : is_u64 (rq_mode r);
  rqt_resolve : is_u64 (rq_resolve r);
  rqt_mask : is_u32 (rq_mask r);
  rqt_uid : is_u32 (rq_uid r);
  rqt_gid : is_u32 (rq_gid r);
  rqt_umask : is_u32 (rq_umask r);
  rqt_spans : Forall span_typed (request_spans r);
  rqt_capabilities : is_u64 (rq_capabilities r);
}.

(** A span of the payload: empty at 0, or inside the payload behind the header. *)
Definition span_ok (size : Z) (s : kb2_fs_span) : Prop :=
  (sp_length s = 0 /\ sp_offset s = 0) \/
  (0 < sp_length s /\ 192 <= sp_offset s /\ sp_offset s + sp_length s <= size).

Definition spans_apart (s t : kb2_fs_span) : Prop :=
  ~ ranges_meet (sp_offset s) (sp_length s) (sp_offset t) (sp_length t).

(** What a request header of a payload of [size] bytes has to satisfy. *)
Record request_ok (size : Z) (r : kb2_fs_request) : Prop := {
  rok_opcode : 1 <= rq_opcode r <= 44;
  rok_generation : rq_generation r <> 0;
  rok_sequence : rq_sequence r <> 0;
  rok_umask : rq_umask r < 512;
  rok_size : 192 <= size;
  rok_spans : Forall (span_ok size) (request_spans r);
  rok_apart : pairwise spans_apart (request_spans r);
  rok_groups : sp_offset (rq_groups r) mod 4 = 0 /\ sp_length (rq_groups r) mod 4 = 0;
}.

Lemma span_valid_spec size s : span_typed s -> span_valid s size = true <-> span_ok size s.
Proof.
  intros [Ho Hl]. unfold span_valid, span_ok, KB2_FILESYSTEM_REQUEST_SIZE, is_u64 in *.
  destruct (Z.eqb_spec (sp_length s) 0); lia.
Qed.

Lemma spans_overlap_spec size s t :
  is_u64 size -> span_typed s -> span_typed t -> span_ok size s -> span_ok size t ->
  spans_overlap s t = true <-> ~ spans_apart t s.
Proof.
  intros Hsize [Hso Hsl] [Hto Htl] Hs Ht. unfold spans_overlap, spans_apart, is_u64, span_ok in *.
  rewrite !u64_small by (unfold is_u64; lia).
  assert (Hm : ranges_meet (sp_offset t) (sp_length t) (sp_offset s) (sp_length s) <->
    0 < sp_length s /\ 0 < sp_length t /\ sp_offset s < sp_offset t + sp_length t /\
    sp_offset t < sp_offset s + sp_length s).
  { destruct (decide (0 < sp_length s)), (decide (0 < sp_length t));
      try (split; [intros (x & ? & ?); lia | lia]). rewrite ranges_meet_iff by lia. lia. }
  rewrite !andb_true_iff, !negb_true_iff, !Z.eqb_neq, !Z.ltb_lt.
  split; [intros ? Hn; apply Hn, Hm; lia |].
  intros Hn. destruct (decide (0 < sp_length s /\ 0 < sp_length t /\ sp_offset s < sp_offset t + sp_length t /\
    sp_offset t < sp_offset s + sp_length s)); [lia |]. destruct Hn. by rewrite Hm.
Qed.

Lemma spans_valid_spec size seen spans :
  is_u64 size -> Forall span_typed (seen ++ spans) -> Forall (span_ok size) seen -> pairwise spans_apart seen ->
  spans_valid size seen spans = true <-> Forall (span_ok size) (seen ++ spans) /\ pairwise spans_apart (seen ++ spans).
Proof.
  intros Hsize. revert seen. induction spans as [|s spans IH]; intros seen Ht Hok Hp; cbn [spans_valid].
  { by rewrite app_nil_r. }
  pose proof Ht as Ht'. apply Forall_app in Ht as [Hts [Hs _]%Forall_cons].
  rewrite !andb_true_iff, negb_true_iff, span_valid_spec by done.
  assert (Hex : span_ok size s -> existsb (spans_overlap s) seen = false <-> forall t, t ∈ seen -> spans_apart t s).
  { intros Hsok. rewrite <- not_true_iff_false, existsb_exists. rewrite Forall_forall in Hok, Hts. split.
    - intros Hn t Hin. destruct (spans_overlap s t) eqn:Eo.
      + destruct Hn. exists t. by rewrite <- list_elem_of_In.
      + intros Hm. rewrite <- not_true_iff_false in Eo. apply Eo. rewrite (spans_overlap_spec size) by auto.
        intros Ha. by apply Ha.
    - intros Ha (t & Hin%list_elem_of_In & Eo). rewrite (spans_overlap_spec size) in Eo by auto. by apply Eo, Ha. }
  replace (seen ++ s :: spans) with ((seen ++ [s]) ++ spans) in Ht' |- * by by rewrite <- app_assoc.
  split.
  - intros [[Hsok Hne] Hv]. rewrite Hex in Hne by done. apply IH; [done | | | done].
    + apply Forall_app. split; [done |]. by constructor.
    + by apply pairwise_snoc.
  - intros [Hf Hpw]. pose proof Hf as Hf'. pose proof Hpw as Hpw'.
    apply Forall_app in Hf as [[_ [Hsok _]%Forall_cons]%Forall_app _].
    apply pairwise_app in Hpw as ([_ Hsn]%pairwise_snoc & _ & _).
    split; [split; [done | by apply Hex] |]. apply IH; [done | | | done].
    + by apply Forall_app; split; [| constructor].
    + by apply pairwise_snoc.
Qed.

Lemma land3_spec x : Z.land x 3 = 0 <-> x mod 4 = 0.
Proof. apply (land_ones_eqb_0 x 2). lia. Qed.

Lemma umask_spec x : is_u32 x -> (x &~ 511 =? 0) = true <-> x < 512.
Proof. intros [? _]. rewrite Z.eqb_eq. apply (andn_ones_0 x 9); lia. Qed.

Lemma opcode_valid_spec op : opcode_valid op = true <-> 1 <= op <= 44.
Proof. unfold opcode_valid, KB2_FILESYSTEM_OP_HELLO, KB2_FILESYSTEM_OP_MEMFD_CREATE. lia. Qed.

Lemma request_valid_spec size r :
  is_u64 size -> request_typed r -> request_valid r size = true <-> request_ok size r.
Proof.
  intros Hsize Ht. pose proof (rqt_spans _ Ht) as Hs. pose proof (umask_spec (rq_umask r) (rqt_umask _ Ht)) as Hu.
  pose proof (spans_valid_spec size [] (request_spans r) Hsize Hs ltac:(constructor) (pairwise_nil _)) as Hv.
  pose proof (opcode_valid_spec (rq_opcode r)) as Ho. cbn [app] in Hv. unfold request_valid.
  change KB2_FILESYSTEM_REQUEST_SIZE with 192. split.
  - destruct (opcode_valid _); [| done]. destruct (Z.eqb_spec (rq_generation r) 0); [done |].
    destruct (Z.eqb_spec (rq_sequence r) 0); [done |]. destruct (rq_umask r &~ 511 =? 0); [| done].
    destruct (Z.ltb_spec size 192); [done |]. cbn [negb orb].
    rewrite !andb_true_iff, Hv, !Z.eqb_eq, !land3_spec. intros [[[? ?] ?] ?].
    by constructor; try done; [apply Ho | apply Hu].
  - intros []. rewrite (proj2 Ho), (proj2 Hu), (proj2 (Z.eqb_neq _ _)), (proj2 (Z.eqb_neq _ _)),
      (proj2 (Z.ltb_ge _ _)) by done. cbn [negb orb].
    rewrite !andb_true_iff, Hv, !Z.eqb_eq, !land3_spec. tauto.
Qed.

Definition request_written (r : kb2_fs_request) : list field :=
  [Raw 0 4 KB2_FILESYSTEM_ABI_IDENTITY_BYTES; U64 8 (rq_generation r); U64 16 (rq_sequence r); U64
   24 (rq_client r); U64 32 (rq_credential_generation r); U64 40 (rq_handle r); U64 48
   (rq_second_handle r); U64 64 (rq_length r); U64 72 (rq_flags r); U64 80 (rq_mode r); U64 88
   (rq_resolve r); U64 176 (rq_capabilities r); U64 112 (sp_offset (rq_path r)); U64 120 (sp_length
   (rq_path r)); U64 128 (sp_offset (rq_second_path r)); U64 136 (sp_length (rq_second_path r)); U64
   144 (sp_offset (rq_groups r)); U64 152 (sp_length (rq_groups r)); U64 160 (sp_offset (rq_data
   r)); U64 168 (sp_length (rq_data r)); U32 4 (rq_opcode r); U32 96 (rq_mask r); U32 100 (rq_uid
   r); U32 104 (rq_gid r); U32 108 (rq_umask r); U64 56 (u64 (rq_offset r))].

Definition request_constants (b : list Z) : bool :=
  bytes_equal b 0 KB2_FILESYSTEM_ABI_IDENTITY_BYTES && (load_u64 b 184 =? 0).

Lemma read_request_typed b : request_typed (read_request b).
Proof.
  split; try first [apply load_u32_range | apply load_u64_range].
  - apply u64_signed64, load_u64_range.
  - repeat apply Forall_cons_2; [split; apply load_u64_range .. | constructor].
Qed.

Lemma request_wire payload :
  is_u64 payload ->
  WireFormat (fun b n r => encoder_result b (kb2_fs_request_encode (Some b) n payload (Some r)))
    (fun b n => decoder_result (kb2_fs_request_decode (Some b) n payload true))
    request_typed (request_ok payload) (fun n _ => 192 <= n) (fun n _ => 192 <= n) (fun _ => 192).
Proof.
  intros Hpay. eapply wire_format_ext; [| | | | apply (fixed_record_wire 192 request_written [U64 184 0] request_constants
    read_request request_typed (fun r => request_valid r payload) (fun _ _ => true))].
  - intros b n r. unfold encoder_result, record_encode, kb2_fs_request_encode.
    change KB2_FILESYSTEM_REQUEST_SIZE with 192.
    destruct (Z.ltb_spec n 192), (Z.leb_spec 192 n); try lia; [done |]. by destruct (request_valid r payload).
  - intros b n. unfold decoder_result, record_decode, kb2_fs_request_decode, request_constants.
    change KB2_FILESYSTEM_REQUEST_SIZE with 192. change KB2_FILESYSTEM_REQUEST_RESERVED_OFFSET with 184.
    destruct (Z.ltb_spec n 192), (Z.leb_spec 192 n); try lia; [done |].
    destruct (bytes_equal _ _ _), (load_u64 b 184 =? 0); try done. cbn [negb orb andb].
    by destruct (request_valid (read_request b) payload).
  - intros r Hr. by apply request_valid_spec.
  - intros. lia.
  - lia.
  - intros r []. unfold request_written, request_spans in *.
    repeat match goal with H : Forall _ (_ :: _) |- _ => apply Forall_cons in H as [[? ?] H] end.
    solve_typed; [split; [done |]; by apply (bool_decide_unpack _) | apply u64_range].
  - by repeat constructor.
  - done.
  - done.
  - done.
  - apply read_request_typed.
  - intros b [Hi%bytes_equal_reads Hz%Z.eqb_eq]%andb_true_iff. repeat (apply Forall_cons; split); try done.
    cbn. symmetry. apply u64_signed64, load_u64_range.
  - intros b r Ht Hr. unfold request_written in Hr. cbn [app] in Hr. solve_reads. unfold request_constants.
    split; [rewrite andb_true_iff, bytes_equal_reads, Z.eqb_eq; done |].
    assert (Hs : signed64 (load_u64 b 56) = rq_offset r)
      by (match goal with H : load_u64 b 56 = _ |- _ => rewrite H end; apply signed64_u64, Ht).
    unfold read_request. destruct r as [? ? ? ? ? ? ? ? ? ? ? ? ? ? ? ? [] [] [] [] ?]. cbn in *.
    by repeat f_equal.
Qed.

(** * Responses *)

Record response_typed (r : kb2_fs_response) : Prop := {
  rst_opcode : is_u32 (rs_opcode r);
  rst_generation : is_u64 (rs_generation r);
  rst_sequence : is_u64 (rs_sequence r);
  rst_result : -2 ^ 63 <= rs_result r < 2 ^ 63;
  rst_handle : is_u64 (rs_handle r);
  rst_data_length : is_u64 (rs_data_length r);
  rst_service : is_u32 (rs_service r);
}.

(** A known operation, an errno in range, and nothing besides the errno on failure. *)
Definition response_ok (r : kb2_fs_response) : Prop :=
  1 <= rs_opcode r <= 44 /\ rs_generation r <> 0 /\ rs_sequence r <> 0 /\ -4095 <= rs_result r /\
  64 + rs_data_length r < 2 ^ 64 /\
  (rs_result r < 0 -> rs_handle r = 0 /\ rs_data_length r = 0 /\ rs_service r = 0).

Definition response_written (r : kb2_fs_response) : list field :=
  [Raw 0 4 KB2_FILESYSTEM_ABI_IDENTITY_BYTES; U32 4 (rs_opcode r); U64 8 (rs_generation r);
   U64 16 (rs_sequence r); U64 24 (u64 (rs_result r)); U64 32 (rs_handle r); U64 40 (rs_data_length r);
   U32 48 (rs_service r)].

Definition response_constants (b : list Z) : bool :=
  bytes_equal b 0 KB2_FILESYSTEM_ABI_IDENTITY_BYTES &&
  negb (existsb (fun i => negb (get_byte b i =? 0)) (seqZ 52 12)).

Lemma response_valid_spec r : response_typed r -> response_valid r = true <-> response_ok r.
Proof.
  intros []. pose proof (opcode_valid_spec (rs_opcode r)) as Ho. unfold response_valid, response_ok, U64_MAX,
    KB2_FILESYSTEM_RESPONSE_SIZE, is_u32, is_u64 in *. destruct (opcode_valid (rs_opcode r)); lia.
Qed.

(** The reserved bytes, read one by one. *)
Lemma no_nonzero_reads b o n :
  0 <= n -> existsb (fun i => negb (get_byte b i =? 0)) (seqZ o n) = false <->
  reads b 0 (Raw o n (replicate (Z.to_nat n) 0)).
Proof.
  intros Hn. rewrite <- (zero_run_reads b 0 o n Hn), forallb_forall, <- not_true_iff_false, existsb_exists. split.
  - intros Hz i Hi%list_elem_of_In%elem_of_seqZ. destruct (get_byte b (0 + o + i) =? 0) eqn:E; [done |]. destruct Hz.
    exists (0 + o + i). rewrite E. split; [| done]. apply list_elem_of_In, elem_of_seqZ. lia.
  - intros H (i & Hi%list_elem_of_In%elem_of_seqZ & Hne). specialize (H (i - o)).
    replace (0 + o + (i - o)) with i in H by lia. rewrite H in Hne; [done |]. apply list_elem_of_In, elem_of_seqZ. lia.
Qed.

Lemma response_wire :
  WireFormat (fun b n r => encoder_result b (kb2_fs_response_encode (Some b) n (Some r)))
    (fun b n => decoder_result (kb2_fs_response_decode (Some b) n true))
    response_typed response_ok (fun n _ => 64 <= n) (fun n r => 64 <= n /\ n = 64 + rs_data_length r) (fun _ => 64).
Proof.
  eapply wire_format_ext; [| | | | apply (fixed_record_wire 64 response_written [Raw 52 12 (replicate 12 0)]
    response_constants read_response response_typed response_valid (fun n r => rs_data_length r =? n - 64))].
  - intros b n r. unfold encoder_result, record_encode, kb2_fs_response_encode.
    change KB2_FILESYSTEM_RESPONSE_SIZE with 64.
    destruct (Z.ltb_spec n 64), (Z.leb_spec 64 n); try lia; [done |]. by destruct (response_valid r).
  - intros b n. unfold decoder_result, record_decode, kb2_fs_response_decode, response_constants.
    change KB2_FILESYSTEM_RESPONSE_SIZE with 64. change KB2_FILESYSTEM_RESPONSE_RESERVED_OFFSET with 52.
    change (64 - 52) with 12. destruct (Z.ltb_spec n 64), (Z.leb_spec 64 n); try lia; [done |].
    destruct (bytes_equal _ _ _), (existsb _ _); try done. cbn [negb orb andb]. cbv zeta.
    by destruct (response_valid _), (rs_data_length _ =? _).
  - intros r Hr. by apply response_valid_spec.
  - intros n r. cbv beta. rewrite Z.eqb_eq. lia.
  - lia.
  - intros r []. unfold response_written. solve_typed; [split; [done |]; by apply (bool_decide_unpack _) | apply u64_range].
  - by repeat constructor.
  - done.
  - done.
  - done.
  - intros b. split; try first [apply load_u32_range | apply load_u64_range]. apply u64_signed64, load_u64_range.
  - intros b [Hi%bytes_equal_reads Hz%negb_true_iff]%andb_true_iff. repeat (apply Forall_cons; split); try done.
    + cbn. symmetry. apply u64_signed64, load_u64_range.
    + by apply no_nonzero_reads.
  - intros b r Ht Hr. unfold response_written in Hr. cbn [app] in Hr.
    assert (Hz : reads b 0 (Raw 52 12 (replicate 12 0)))
      by (rewrite (Forall_forall _ (_ :: _)) in Hr; apply Hr; by repeat first [left | right]).
    solve_reads. unfold response_constants. split.
    + rewrite andb_true_iff, bytes_equal_reads, negb_true_iff. split; [done |]. by apply no_nonzero_reads.
    + assert (Hs : signed64 (load_u64 b 24) = rs_result r)
        by (match goal with H : load_u64 b 24 = _ |- _ => rewrite H end; apply signed64_u64, Ht).
      unfold read_response. destruct r. cbn in *. by f_equal.
Qed.

(** * Credentials *)

Record credentials_typed (c : kb2_fs_credentials) : Prop := {
  crt_uid : is_u32 (cr_uid c);
  crt_gid : is_u32 (cr_gid c);
  crt_euid : is_u32 (cr_euid c);
  crt_egid : is_u32 (cr_egid c);
  crt_suid : is_u32 (cr_suid c);
  crt_sgid : is_u32 (cr_sgid c);
  crt_fsuid : is_u32 (cr_fsuid c);
  crt_fsgid : is_u32 (cr_fsgid c);
  crt_cap_permitted : is_u64 (cr_cap_permitted c);
  crt_cap_effective : is_u64 (cr_cap_effective c);
  crt_cap_inheritable : is_u64 (cr_cap_inheritable c);
  crt_cap_ambient : is_u64 (cr_cap_ambient c);
  crt_securebits : is_u32 (cr_securebits c);
  crt_umask : is_u32 (cr_umask c);
}.

Definition credentials_written (c : kb2_fs_credentials) : list field :=
  [U32 0 (cr_uid c); U32 4 (cr_gid c); U32 8 (cr_euid c); U32 12 (cr_egid c); U32 16 (cr_suid c);
   U32 20 (cr_sgid c); U32 24 (cr_fsuid c); U32 28 (cr_fsgid c); U32 64 (cr_securebits c); U32 68
   (cr_umask c); U64 32 (cr_cap_permitted c); U64 40 (cr_cap_effective c); U64 48
   (cr_cap_inheritable c); U64 56 (cr_cap_ambient c)].

Lemma credentials_wire :
  WireFormat (fun b n c => encoder_result b (kb2_fs_credentials_encode (Some b) n (Some c)))
    (fun b n => decoder_result (kb2_fs_credentials_decode (Some b) n true))
    credentials_typed (fun c => cr_umask c < 512) (fun n _ => 80 <= n) (fun n _ => n = 80) (fun _ => 80).
Proof.
  eapply wire_format_ext; [| | | | apply (fixed_record_wire 80 credentials_written [U64 72 0]
    (fun b => load_u64 b 72 =? 0) read_credentials credentials_typed (fun c => cr_umask c &~ 511 =? 0)
    (fun n _ => n =? 80))].
  - intros b n c. unfold encoder_result, record_encode, kb2_fs_credentials_encode.
    change KB2_FILESYSTEM_CREDENTIALS_SIZE with 80.
    destruct (Z.ltb_spec n 80), (Z.leb_spec 80 n); try lia; [done |]. by destruct (cr_umask c &~ 511 =? 0).
  - intros b n. unfold decoder_result, record_decode, kb2_fs_credentials_decode.
    change KB2_FILESYSTEM_CREDENTIALS_SIZE with 80. change KB2_FILESYSTEM_CREDENTIALS_RESERVED_OFFSET with 72.
    destruct (Z.eqb_spec n 80), (Z.leb_spec 80 n); try lia; cbn [negb orb andb];
      destruct (load_u64 b 72 =? 0), (cr_umask (read_credentials b) &~ 511 =? 0) eqn:E; rewrite ?E; done.
  - intros c []. by apply umask_spec.
  - intros n c. cbv beta. rewrite Z.eqb_eq. lia.
  - lia.
  - intros c []. unfold credentials_written. solve_typed.
  - by repeat constructor.
  - done.
  - done.
  - done.
  - intros b. split; first [apply load_u32_range | apply load_u64_range].
  - intros b Hz%Z.eqb_eq. by repeat (apply Forall_cons; split).
  - intros b c _ Hr. unfold credentials_written in Hr. cbn [app] in Hr. solve_reads.
    split; [by apply Z.eqb_eq |]. unfold read_credentials. destruct c. cbn in *. by f_equal.
Qed.

(** * Paths *)

(** A C string of the payload: its only NUL is its last byte. *)
Definition path_ok (b : list Z) (path : kb2_fs_span) : Prop :=
  sp_length path = 0 \/ exists s, get_bytes b (sp_offset path) (sp_length path) = s ++ [0] /\ 0 ∉ s.

Lemma path_invalid_spec b path : is_u64 (sp_length path) -> path_invalid b path = false <-> path_ok b path.
Proof.
  intros Hl. unfold path_invalid, path_ok. destruct (Z.eqb_spec (sp_length path) 0) as [E | Hne]; cbn [negb andb].
  { split; [by left | done]. }
  assert (Hb : get_bytes b (sp_offset path) (sp_length path) <> []).
  { intros E. apply (f_equal length) in E. unfold get_bytes in E. rewrite length_fmap, length_seqZ in E.
    unfold is_u64 in Hl. cbn in E. lia. }
  set (bytes := get_bytes b (sp_offset path) (sp_length path)) in *.
  destruct (exists_last Hb) as (s & c & E). rewrite E, last_last, removelast_last.
  rewrite orb_false_iff, negb_false_iff, Z.eqb_eq. split.
  - intros [-> Hs]. right. exists s. split; [done |]. intros H0. rewrite <- not_true_iff_false, existsb_exists in Hs.
    apply Hs. exists 0. by rewrite <- list_elem_of_In.
  - intros [? | (s' & Es & H0)]; [done |]. apply app_inj_tail in Es as [<- ->]. split; [done |].
    rewrite <- not_true_iff_false, existsb_exists. by intros (x & Hx%list_elem_of_In & <-%Z.eqb_eq).
Qed.

Lemma validate_paths_spec b n r :
  is_u64 n -> request_typed r ->
  kb2_fs_request_validate_paths (Some b) n (Some r) = 0 <->
  request_ok n r /\ path_ok b (rq_path r) /\ path_ok b (rq_second_path r).
Proof.
  intros Hn Ht. pose proof (request_valid_spec n r Hn Ht) as Hv. pose proof (rqt_spans _ Ht) as Hs.
  unfold request_spans in Hs. apply Forall_cons in Hs as [[_ H1] [[_ H2] _]%Forall_cons].
  pose proof (path_invalid_spec b _ H1). pose proof (path_invalid_spec b _ H2).
  unfold kb2_fs_request_validate_paths. destruct (request_valid r n), (path_invalid b (rq_path r)) eqn:E1,
    (path_invalid b (rq_second_path r)) eqn:E2; cbn [negb existsb]; rewrite ?E1, ?E2; cbn; naive_solver.
Qed.

(** * Policy *)

(** The requests that need a right, right by right. *)
Definition opens (r : kb2_fs_request) : bool :=
  ((rq_opcode r =? 8) || (rq_opcode r =? 14)) && negb (has (rq_flags r) 2097152).

Definition needs (r : kb2_fs_request) : list (Z * bool) :=
  let op := rq_opcode r in
  [(KB2_FILESYSTEM_RIGHT_LOOKUP, among op [8; 14; 41]);
   (KB2_FILESYSTEM_RIGHT_READ,
      among op [10; 11; 12; 13; 18; 19] || opens r && negb (Z.land (rq_flags r) 3 =? 1));
   (KB2_FILESYSTEM_RIGHT_WRITE,
      among op [20; 21; 29] || (op =? 13) && has (rq_flags r) 1 ||
      opens r && (has (rq_flags r) 512 || negb (Z.land (rq_flags r) 3 =? 0)));
   (KB2_FILESYSTEM_RIGHT_EXEC, among op [10; 11] || among op [12; 13] && has (rq_flags r) 2);
   (KB2_FILESYSTEM_RIGHT_STAT, among op [25; 26; 35; 36] || (op =? 19) && (rq_mode r =? 1));
   (KB2_FILESYSTEM_RIGHT_SETATTR, among op [38; 39; 40]);
   (KB2_FILESYSTEM_RIGHT_GETDENTS, among op [24]);
   (KB2_FILESYSTEM_RIGHT_CREATE, among op [30; 33; 34; 37; 44] || opens r && has (rq_flags r) 64);
   (KB2_FILESYSTEM_RIGHT_REMOVE, among op [31; 32]);
   (KB2_FILESYSTEM_RIGHT_RENAME, among op [32])].

Definition needed_rights (r : kb2_fs_request) : Z :=
  foldr (fun rn rights => or_if (snd rn) (fst rn) rights) 0 (needs r).

(** The authority an operation is dispatched under. *)
Definition class_of (opcode : Z) : kb2_fs_operation_class :=
  if among opcode [2; 3; 4; 7; 9] then KB2_FS_OPERATION_OWNER
  else if among opcode [1; 5; 6; 8; 10; 11; 12; 13; 17] then KB2_FS_OPERATION_FRONTEND
  else if opcode_valid opcode then KB2_FS_OPERATION_DATA else KB2_FS_OPERATION_INVALID.

Lemma among_false op ops : op ∉ ops -> among op ops = false.
Proof.
  intros Hn. unfold among. rewrite <- not_true_iff_false, existsb_exists.
  by intros (x & Hx%list_elem_of_In & ->%Z.eqb_eq).
Qed.

Lemma opcode_cases op : opcode_valid op = true -> op ∈ seqZ 1 44.
Proof. rewrite opcode_valid_spec, elem_of_seqZ. lia. Qed.

Lemma policy_unknown r : opcode_valid (rq_opcode r) = false -> request_policy r = (KB2_FS_OPERATION_INVALID, 0).
Proof.
  intros Hop. assert (Hn : forall ops, Forall (fun o => 1 <= o <= 44) ops -> among (rq_opcode r) ops = false).
  { intros ops Hall. apply among_false. intros Hin. rewrite Forall_forall in Hall. apply Hall in Hin.
    apply opcode_valid_spec in Hin. congruence. }
  unfold request_policy. by rewrite !Hn by (repeat constructor; done).
Qed.

Lemma policy_spec r : request_policy r = (class_of (rq_opcode r), needed_rights r).
Proof.
  destruct (opcode_valid (rq_opcode r)) eqn:Hop.
  - pose proof (opcode_cases _ Hop) as Hin. clear Hop.
    unfold request_policy, needed_rights, needs, opens, open_rights. revert Hin.
    generalize (rq_opcode r), (has (rq_flags r) 2097152), (has (rq_flags r) 512), (has (rq_flags r) 64),
      (has (rq_flags r) 2), (has (rq_flags r) 1), (Z.land (rq_flags r) 3 =? 1), (Z.land (rq_flags r) 3 =? 0).
    unfold KB2_FILESYSTEM_SNAPSHOT_QUERY. generalize (rq_mode r =? 1). intros m op p t c x w a1 a0 Hin.
    vm_compute in Hin.
    repeat (apply elem_of_cons in Hin as [-> | Hin]; [vm_compute; by destruct p, t, c, x, w, a1, a0, m |]).
    by apply elem_of_nil in Hin.
  - assert (Hn : forall ops, Forall (fun o => 1 <= o <= 44) ops -> among (rq_opcode r) ops = false).
    { intros ops Hall. apply among_false. intros Hin. rewrite Forall_forall in Hall. apply Hall in Hin.
      apply opcode_valid_spec in Hin. congruence. }
    assert (Hne : forall o, 1 <= o <= 44 -> (rq_opcode r =? o) = false).
    { intros o Ho. apply Z.eqb_neq. intros E. apply opcode_valid_spec in Ho. congruence. }
    rewrite policy_unknown by done. unfold class_of, needed_rights, needs, opens.
    by rewrite !Hn, !Hne, Hop by (repeat constructor; done).
Qed.

Lemma class_invalid op : class_of op = KB2_FS_OPERATION_INVALID <-> opcode_valid op <> true.
Proof.
  unfold class_of. split.
  - repeat case_match; congruence.
  - intros Hop. rewrite !among_false; [by apply not_true_is_false in Hop as -> | |];
      intros Hin; apply Hop, opcode_valid_spec; rewrite !elem_of_cons, elem_of_nil in Hin; lia.
Qed.

Lemma class_no_rights r :
  class_of (rq_opcode r) = KB2_FS_OPERATION_INVALID \/ class_of (rq_opcode r) = KB2_FS_OPERATION_OWNER ->
  needed_rights r = 0.
Proof.
  intros Hc. enough (E : (request_policy r).2 = 0) by by rewrite policy_spec in E.
  destruct Hc as [Hc%class_invalid%not_true_is_false | Hc].
  - by rewrite policy_unknown.
  - unfold request_policy. assert (Ho : among (rq_opcode r)
      [KB2_FILESYSTEM_OP_CLIENT_REGISTER; KB2_FILESYSTEM_OP_CLIENT_CREDENTIALS; KB2_FILESYSTEM_OP_CLIENT_UNREGISTER;
       KB2_FILESYSTEM_OP_SERVICE_BIND; KB2_FILESYSTEM_OP_EXEC_OPEN] = true); [| by rewrite Ho].
    revert Hc. unfold class_of. by repeat case_match.
Qed.

Lemma decoded_opcode b n payload r :
  kb2_fs_request_decode (Some b) n payload true = (0, Some r) -> opcode_valid (rq_opcode r) = true.
Proof.
  unfold kb2_fs_request_decode. case_match; [done |]. case_match eqn:E; [| done]. intros [= <-].
  unfold request_valid in E. by destruct (opcode_valid _).
Qed.

(** ** Authority

    README.md and filesystem.h describe the use of the policy: the data dispatch runs
    an operation of class DATA whose required rights the client was granted. *)

Definition asked_beyond (rights granted : Z) : Z := rights &~ granted.

Definition data_dispatched (granted : Z) (r : kb2_fs_request) : bool :=
  match kb2_fs_request_policy (Some r) true with
  | (KB2_FS_OPERATION_DATA, Some rights) => asked_beyond rights granted =? 0
  | _ => false
  end.

(** The Linux operations of the catalog: all behind the owner, session and exec
    operations, except the duplication across clients. *)
Definition linux_operation (op : Z) : bool :=
  (KB2_FILESYSTEM_OP_OPENAT2 <=? op) && opcode_valid op && negb (op =? KB2_FILESYSTEM_OP_TRANSFER_DUP).

(** The operations on a handle that transfer neither data, names nor attributes. *)
Definition handle_operations : list Z :=
  [KB2_FILESYSTEM_OP_CLOSE; KB2_FILESYSTEM_OP_DUP; KB2_FILESYSTEM_OP_POLL; KB2_FILESYSTEM_OP_LSEEK;
   KB2_FILESYSTEM_OP_FCNTL; KB2_FILESYSTEM_OP_FSYNC; KB2_FILESYSTEM_OP_SYNC; KB2_FILESYSTEM_OP_SYNCFS].

(** O_ACCMODE, O_CREAT and O_TRUNC of an open that is not O_PATH. *)
Definition opens_for_reading (r : kb2_fs_request) : bool := opens r && negb (Z.land (rq_flags r) 3 =? 1).
Definition opens_for_writing (r : kb2_fs_request) : bool := opens r && negb (Z.land (rq_flags r) 3 =? 0).
Definition opens_creating (r : kb2_fs_request) : bool := opens r && has (rq_flags r) 64.
Definition opens_truncating (r : kb2_fs_request) : bool := opens r && has (rq_flags r) 512.

(** The operations that change contents, names or attributes of the file system, or
    hand out a writable file. *)
Definition modifies (r : kb2_fs_request) : bool :=
  among (rq_opcode r)
    [KB2_FILESYSTEM_OP_WRITE; KB2_FILESYSTEM_OP_PWRITE; KB2_FILESYSTEM_OP_FTRUNCATE; KB2_FILESYSTEM_OP_MKDIRAT;
     KB2_FILESYSTEM_OP_UNLINKAT; KB2_FILESYSTEM_OP_RENAMEAT2; KB2_FILESYSTEM_OP_LINKAT;
     KB2_FILESYSTEM_OP_SYMLINKAT; KB2_FILESYSTEM_OP_MKNODAT; KB2_FILESYSTEM_OP_FCHMODAT;
     KB2_FILESYSTEM_OP_FCHOWNAT; KB2_FILESYSTEM_OP_UTIMENSAT; KB2_FILESYSTEM_OP_MEMFD_CREATE] ||
  opens_for_writing r || opens_creating r || opens_truncating r.

(** The rights that let a client change something. *)
Definition modifying_rights : Z :=
  foldr Z.lor 0 [KB2_FILESYSTEM_RIGHT_WRITE; KB2_FILESYSTEM_RIGHT_SETATTR; KB2_FILESYSTEM_RIGHT_CREATE;
                 KB2_FILESYSTEM_RIGHT_REMOVE; KB2_FILESYSTEM_RIGHT_RENAME].

Definition known_rights : Z :=
  foldr Z.lor 0 [KB2_FILESYSTEM_RIGHT_LOOKUP; KB2_FILESYSTEM_RIGHT_READ; KB2_FILESYSTEM_RIGHT_EXEC;
                 KB2_FILESYSTEM_RIGHT_STAT; KB2_FILESYSTEM_RIGHT_GETDENTS; modifying_rights].

(** Reads without the snapshot metadata. *)
Definition plain_read (q : kb2_fs_request) : bool :=
  (rq_opcode q =? KB2_FILESYSTEM_OP_READ) ||
  (rq_opcode q =? KB2_FILESYSTEM_OP_PREAD) && negb (rq_mode q =? KB2_FILESYSTEM_SNAPSHOT_QUERY).

Definition is_op (op : Z) (r : kb2_fs_request) : bool := rq_opcode r =? op.

Definition writes (q : kb2_fs_request) : bool :=
  among (rq_opcode q) [KB2_FILESYSTEM_OP_WRITE; KB2_FILESYSTEM_OP_PWRITE; KB2_FILESYSTEM_OP_FTRUNCATE].

(** [achieves r q]: the first request obtains, or hands out the means for, what the
    second is about, so it must not be cheaper. *)
Inductive achieves (r q : kb2_fs_request) : Prop :=
| open_reads : opens_for_reading r = true -> plain_read q = true -> achieves r q
| open_writes : opens_for_writing r = true -> writes q = true -> achieves r q
| open_truncates : opens_truncating r = true -> is_op KB2_FILESYSTEM_OP_FTRUNCATE q = true -> achieves r q
| open_creates : opens_creating r = true -> is_op KB2_FILESYSTEM_OP_MKNODAT q = true -> achieves r q
| open_resolves :
    among (rq_opcode r) [KB2_FILESYSTEM_OP_DEVICE_ROUTE; KB2_FILESYSTEM_OP_OPENAT2] = true ->
    is_op KB2_FILESYSTEM_OP_FACCESSAT2 q = true -> achieves r q
| route_opens :
    is_op KB2_FILESYSTEM_OP_DEVICE_ROUTE r = true -> is_op KB2_FILESYSTEM_OP_OPENAT2 q = true ->
    rq_flags r = rq_flags q -> achieves r q
| snapshot_reads :
    is_op KB2_FILESYSTEM_OP_PREAD r = true -> plain_read q = true -> achieves r q
| snapshot_stats :
    is_op KB2_FILESYSTEM_OP_PREAD r = true -> rq_mode r = KB2_FILESYSTEM_SNAPSHOT_QUERY ->
    is_op KB2_FILESYSTEM_OP_STATX q = true -> achieves r q
| exec_reads :
    among (rq_opcode r) [KB2_FILESYSTEM_OP_EXEC_PATH; KB2_FILESYSTEM_OP_EXEC_SELF] = true ->
    plain_read q = true -> achieves r q
| mapping_reads :
    among (rq_opcode r) [KB2_FILESYSTEM_OP_FILE_VMO; KB2_FILESYSTEM_OP_SHARED_FILE_VMO] = true ->
    plain_read q = true -> achieves r q
| mapping_executes :
    among (rq_opcode r) [KB2_FILESYSTEM_OP_FILE_VMO; KB2_FILESYSTEM_OP_SHARED_FILE_VMO] = true ->
    has (rq_flags r) 2 = true -> is_op KB2_FILESYSTEM_OP_EXEC_PATH q = true -> achieves r q
| mapping_writes :
    is_op KB2_FILESYSTEM_OP_SHARED_FILE_VMO r = true -> has (rq_flags r) 1 = true -> writes q = true ->
    achieves r q
| rename_removes :
    is_op KB2_FILESYSTEM_OP_RENAMEAT2 r = true -> is_op KB2_FILESYSTEM_OP_UNLINKAT q = true -> achieves r q.

(** A statement on every known opcode and every outcome of the tests of the flags. *)
Ltac opcode_split r Hop :=
  unfold opens_for_reading, opens_for_writing, opens_creating, opens_truncating, needed_rights, needs, opens;
  generalize (has (rq_flags r) 2097152), (has (rq_flags r) 512), (has (rq_flags r) 64),
    (has (rq_flags r) 2), (has (rq_flags r) 1), (Z.land (rq_flags r) 3 =? 1), (Z.land (rq_flags r) 3 =? 0),
    (rq_mode r =? 1);
  revert Hop; generalize (rq_opcode r); intros op Hop p t c x w a1 a0 m; vm_compute in Hop;
  repeat (apply elem_of_cons in Hop as [-> | Hop];
    [vm_compute; by destruct p, t, c, x, w, a1, a0, m |]); by apply elem_of_nil in Hop.

Lemma needed_known r : opcode_valid (rq_opcode r) = true -> asked_beyond (needed_rights r) known_rights = 0.
Proof. intros Hop%opcode_cases. opcode_split r Hop. Qed.

Lemma modifies_valid r : modifies r = true -> opcode_valid (rq_opcode r) = true.
Proof.
  unfold modifies, opens_for_writing, opens_creating, opens_truncating, opens, among. cbn.
  rewrite opcode_valid_spec, !orb_true_iff, !andb_true_iff, !orb_true_iff, !Z.eqb_eq.
  unfold KB2_FILESYSTEM_OP_WRITE, KB2_FILESYSTEM_OP_PWRITE, KB2_FILESYSTEM_OP_FTRUNCATE,
    KB2_FILESYSTEM_OP_MKDIRAT, KB2_FILESYSTEM_OP_UNLINKAT, KB2_FILESYSTEM_OP_RENAMEAT2,
    KB2_FILESYSTEM_OP_LINKAT, KB2_FILESYSTEM_OP_SYMLINKAT, KB2_FILESYSTEM_OP_MKNODAT,
    KB2_FILESYSTEM_OP_FCHMODAT, KB2_FILESYSTEM_OP_FCHOWNAT, KB2_FILESYSTEM_OP_UTIMENSAT,
    KB2_FILESYSTEM_OP_MEMFD_CREATE. lia.
Qed.

Lemma modifies_needs r : modifies r = true -> Z.land (needed_rights r) modifying_rights <> 0.
Proof.
  intros Hm. pose proof (opcode_cases _ (modifies_valid r Hm)) as Hop. revert Hm. unfold modifies.
  opcode_split r Hop.
Qed.

Lemma unprivileged_needs r :
  opcode_valid (rq_opcode r) = true -> class_of (rq_opcode r) = KB2_FS_OPERATION_DATA ->
  needed_rights r = 0 <-> among (rq_opcode r) handle_operations = true.
Proof. intros Hop%opcode_cases. opcode_split r Hop. Qed.

Lemma linux_operation_valid op : linux_operation op = true -> opcode_valid op = true.
Proof. unfold linux_operation. by destruct (opcode_valid op); rewrite ?andb_false_r. Qed.

Lemma class_data op : class_of op = KB2_FS_OPERATION_DATA <-> linux_operation op = true.
Proof.
  destruct (opcode_valid op) eqn:Hop.
  - apply opcode_cases in Hop. vm_compute in Hop.
    repeat (apply elem_of_cons in Hop as [-> | Hop]; [by vm_compute |]). by apply elem_of_nil in Hop.
  - split; [| intros ?%linux_operation_valid; congruence].
    intros Hc. assert (E : class_of op = KB2_FS_OPERATION_INVALID) by (apply class_invalid; congruence). congruence.
Qed.

Lemma dispatched_spec r granted :
  data_dispatched granted r = true <->
  linux_operation (rq_opcode r) = true /\ asked_beyond (needed_rights r) granted = 0.
Proof.
  unfold data_dispatched, kb2_fs_request_policy. rewrite policy_spec. pose proof (class_data (rq_opcode r)) as Hc.
  destruct (class_of (rq_opcode r)); rewrite ?Z.eqb_eq; naive_solver.
Qed.

Lemma unprivileged_dispatch r :
  linux_operation (rq_opcode r) = true /\ asked_beyond (needed_rights r) 0 = 0 <->
  among (rq_opcode r) handle_operations = true.
Proof.
  unfold asked_beyond. rewrite andn_0_r. split.
  - intros [Hl Hn]. apply unprivileged_needs; [by apply linux_operation_valid | | done]. by apply class_data.
  - intros Ha. assert (Hop : rq_opcode r ∈ handle_operations).
    { unfold among in Ha. apply existsb_exists in Ha as (x & Hx%list_elem_of_In & ->%Z.eqb_eq). done. }
    assert (Hl : linux_operation (rq_opcode r) = true).
    { revert Hop. generalize (rq_opcode r). apply Forall_forall. by repeat constructor. }
    split; [done |]. apply unprivileged_needs; [by apply linux_operation_valid | | done]. by apply class_data.
Qed.

Lemma beyond_0 x granted : asked_beyond x granted = 0 <-> forall n, 0 <= n -> Z.testbit x n = true -> Z.testbit granted n = true.
Proof.
  unfold asked_beyond, andn. split.
  - intros E n Hn Hx. apply (f_equal (fun z => Z.testbit z n)) in E.
    rewrite Z.land_spec, Z.lnot_spec, Z.bits_0, Hx in E by done. by destruct (Z.testbit granted n).
  - intros H. apply Z.bits_inj'. intros n Hn. rewrite Z.land_spec, Z.lnot_spec, Z.bits_0 by done.
    specialize (H n Hn). destruct (Z.testbit x n); [by rewrite H | done].
Qed.

Lemma modifying_granted r granted :
  asked_beyond (needed_rights r) granted = 0 -> modifies r = true -> Z.land granted modifying_rights <> 0.
Proof.
  intros Ha Hm%modifies_needs Hg. apply Hm. apply Z.bits_inj'. intros n Hn.
  apply (f_equal (fun z => Z.testbit z n)) in Hg. rewrite Z.land_spec, Z.bits_0 in *.
  rewrite beyond_0 in Ha. specialize (Ha n Hn). destruct (Z.testbit (needed_rights r) n); [| done].
  by rewrite Ha in Hg.
Qed.

(** What the second requests of [achieves] need. *)
Lemma plain_read_needs q : plain_read q = true -> needed_rights q = KB2_FILESYSTEM_RIGHT_READ.
Proof.
  unfold plain_read. intros Hp. assert (Hop : rq_opcode q ∈ [18; 19]).
  { unfold KB2_FILESYSTEM_OP_READ, KB2_FILESYSTEM_OP_PREAD in Hp. rewrite !elem_of_cons. lia. }
  revert Hp. unfold KB2_FILESYSTEM_SNAPSHOT_QUERY. opcode_split q Hop.
Qed.

Lemma among_elem op ops : among op ops = true -> op ∈ ops.
Proof. unfold among. by intros (x & Hx%list_elem_of_In & ->%Z.eqb_eq)%existsb_exists. Qed.

Lemma writes_needs q : writes q = true -> needed_rights q = KB2_FILESYSTEM_RIGHT_WRITE.
Proof. intros Hop%among_elem. opcode_split q Hop. Qed.

Lemma is_op_elem op q : is_op op q = true -> rq_opcode q ∈ [op].
Proof. intros ->%Z.eqb_eq. left. Qed.

(** The operations among them whose rights do not depend on the operands. *)
Lemma is_op_needs q op :
  is_op op q = true -> op ∈ [29; 37; 41; 25; 31; 10] ->
  needed_rights q = needed_rights (mkRequest op 0 0 0 0 0 0 0 0 0 0 0 0 0 0 0 (mkSpan 0 0) (mkSpan 0 0)
    (mkSpan 0 0) (mkSpan 0 0) 0).
Proof.
  intros Hq%is_op_elem Hin. repeat (apply elem_of_cons in Hin as [-> | Hin]; [opcode_split q Hq |]).
  by apply elem_of_nil in Hin.
Qed.

(** A route and an open with the same flags need the same. *)
Lemma route_needs r q :
  is_op KB2_FILESYSTEM_OP_DEVICE_ROUTE r = true -> is_op KB2_FILESYSTEM_OP_OPENAT2 q = true ->
  rq_flags r = rq_flags q -> needed_rights q = needed_rights r.
Proof.
  intros Hr%Z.eqb_eq Hq%Z.eqb_eq E. unfold needed_rights, needs, opens. rewrite Hr, Hq, E. reflexivity.
Qed.

Lemma achieves_needs r q : achieves r q -> asked_beyond (needed_rights q) (needed_rights r) = 0.
Proof.
  assert (Hopens : opens r = true -> rq_opcode r ∈ [8; 14]).
  { unfold opens. intros H. rewrite !elem_of_cons. lia. }
  assert (Hfor : forall x, opens r && x = true -> rq_opcode r ∈ [8; 14]).
  { intros x [? _]%andb_true_iff. by apply Hopens. }
  intros Ha. destruct Ha as [Hr Hq | Hr Hq | Hr Hq | Hr Hq | Hr Hq | Hr Hq E | Hr Hq | Hr E Hq | Hr Hq | Hr Hq
    | Hr E Hq | Hr E Hq | Hr Hq]; try rewrite (plain_read_needs q Hq); try rewrite (writes_needs q Hq).
  1,2,3,4: pose proof (Hfor _ Hr) as Hop.
  all: try (rewrite (is_op_needs q _ Hq) by (repeat first [left | right])); revert Hr; try revert E.
  1,2,3,4: opcode_split r Hop.
  - intros Hop%among_elem. opcode_split r Hop.
  - intros E Hr. rewrite (route_needs r q); [| done ..]. unfold asked_beyond, andn. by rewrite Z.land_lnot_diag.
  - intros Hop%is_op_elem. opcode_split r Hop.
  - unfold KB2_FILESYSTEM_SNAPSHOT_QUERY. rewrite <- Z.eqb_eq. intros E Hop%is_op_elem. revert E. opcode_split r Hop.
  - intros Hop%among_elem. opcode_split r Hop.
  - intros Hop%among_elem. opcode_split r Hop.
  - intros E Hop%among_elem. revert E. opcode_split r Hop.
  - intros E Hop%is_op_elem. revert E. opcode_split r Hop.
  - intros Hop%is_op_elem. opcode_split r Hop.
Qed.

(** * Claims *)

(** C27. The filesystem messages are exact wire formats.  For request headers (with
    any payload size), responses and credentials: the encoder accepts exactly the
    valid values and leaves the buffer alone otherwise, it touches no byte past the
    record, what it writes decodes to the same value, signed fields included, and the
    decoder accepts nothing but the encoder's bytes.  The spans of an accepted request
    lie in the payload behind the header and do not overlap; a response decodes only
    at its exact size; and the path check accepts exactly the payloads whose paths
    are terminated and hold no other NUL. *)
Theorem filesystem_wire payload :
  is_u64 payload ->
  WireFormat (fun b n r => encoder_result b (kb2_fs_request_encode (Some b) n payload (Some r)))
    (fun b n => decoder_result (kb2_fs_request_decode (Some b) n payload true))
    request_typed (request_ok payload) (fun n _ => 192 <= n) (fun n _ => 192 <= n) (fun _ => 192) /\
  WireFormat (fun b n r => encoder_result b (kb2_fs_response_encode (Some b) n (Some r)))
    (fun b n => decoder_result (kb2_fs_response_decode (Some b) n true))
    response_typed response_ok (fun n _ => 64 <= n) (fun n r => 64 <= n /\ n = 64 + rs_data_length r) (fun _ => 64) /\
  WireFormat (fun b n c => encoder_result b (kb2_fs_credentials_encode (Some b) n (Some c)))
    (fun b n => decoder_result (kb2_fs_credentials_decode (Some b) n true))
    credentials_typed (fun c => cr_umask c < 512) (fun n _ => 80 <= n) (fun n _ => n = 80) (fun _ => 80) /\
  forall b r, request_typed r ->
    kb2_fs_request_validate_paths (Some b) payload (Some r) = 0 <->
    request_ok payload r /\ path_ok b (rq_path r) /\ path_ok b (rq_second_path r).
Proof.
  intros Hp. split_and!; [by apply request_wire | apply response_wire | apply credentials_wire |].
  intros b r Hr. by apply validate_paths_spec.
Qed.

(** The request of the witness: an open with a path at the end of the payload. *)
Definition sample_request : kb2_fs_request :=
  mkRequest 14 3 9 1 1 0 0 (-7) 0 66 420 0 0 0 0 18 (mkSpan 192 4) (mkSpan 0 0) (mkSpan 0 0) (mkSpan 0 0) 0.

Lemma filesystem_wire_witness :
  decoder_result (kb2_fs_request_decode
    (Some (encoder_result (replicate 200 7) (kb2_fs_request_encode (Some (replicate 200 7)) 192 196 (Some sample_request))).2)
    192 196 true) = Some sample_request /\ request_ok 196 sample_request.
Proof.
  assert (Hp : is_u64 196) by (unfold is_u64; lia).
  assert (Ht : request_typed sample_request).
  { split; unfold is_u32, is_u64; cbn; try lia. repeat constructor; unfold is_u64; cbn; lia. }
  destruct (filesystem_wire 196 Hp) as (Hw & _).
  destruct (encoder_result (replicate 200 7) (kb2_fs_request_encode (Some (replicate 200 7)) 192 196 (Some sample_request)))
    as [ok b'] eqn:E.
  assert (Hok : ok = true) by (apply (f_equal fst) in E; cbn in E; rewrite <- E; vm_compute; reflexivity).
  subst ok. split.
  - refine (wire_roundtrip (WireFormat := Hw) (replicate 200 7) b' 192 192 sample_request Ht _ E _);
      [vm_compute; discriminate | lia].
  - refine (proj2 (proj1 (wire_encodes (WireFormat := Hw) (replicate 200 7) 192 sample_request Ht) _)).
    cbv beta. by rewrite E.
Defined.

(** C28. The rights policy fails closed and has no bypass.  An opcode is refused
    exactly when the decoder would refuse it; the rights asked for are, right by
    right, those of [needs], and owner operations and unknown ones ask for none.
    The data dispatch of README.md runs, whatever rights a client was granted, Linux
    operations only (no owner, session, exec or transfer operation), and all of them
    for a client with every right; a client without rights gets the operations that
    only move a handle around; what changes contents, names or attributes, an open
    that may write, create or truncate included, takes a modifying right.  A request
    that obtains what another one is about (an open, the route of an open, a snapshot
    read, an executable image, a mapping, a rename) asks for at least the other's
    rights.  TRANSFER_DUP and SHARED_FILE_VMO are FRONTEND, where the documents have
    them on the owner's channel: [documented_owner_operations] states that. *)
Theorem filesystem_policy_fails_closed r class rights :
  kb2_fs_request_policy (Some r) true = (class, Some rights) ->
  class = class_of (rq_opcode r) /\ rights = needed_rights r /\
  (class = KB2_FS_OPERATION_INVALID <-> ~ 1 <= rq_opcode r <= 44) /\
  (class = KB2_FS_OPERATION_INVALID \/ class = KB2_FS_OPERATION_OWNER -> rights = 0) /\
  (forall b n payload, kb2_fs_request_decode (Some b) n payload true = (0, Some r) ->
    class <> KB2_FS_OPERATION_INVALID) /\
  (forall granted, data_dispatched granted r = true <->
    linux_operation (rq_opcode r) = true /\ asked_beyond rights granted = 0) /\
  (data_dispatched known_rights r = true <-> linux_operation (rq_opcode r) = true) /\
  (data_dispatched 0 r = true <-> among (rq_opcode r) handle_operations = true) /\
  (forall granted, data_dispatched granted r = true -> modifies r = true ->
    Z.land granted modifying_rights <> 0) /\
  forall q class' rights', kb2_fs_request_policy (Some q) true = (class', Some rights') ->
    achieves r q -> asked_beyond rights' rights = 0.
Proof.
  unfold data_dispatched. unfold kb2_fs_request_policy at 1 2 3 4 5. rewrite policy_spec. intros [= <- <-].
  assert (Hinv : class_of (rq_opcode r) = KB2_FS_OPERATION_INVALID <-> ~ 1 <= rq_opcode r <= 44).
  { rewrite <- opcode_valid_spec. apply class_invalid. }
  assert (Hd := dispatched_spec r). unfold data_dispatched, kb2_fs_request_policy in Hd. rewrite policy_spec in Hd.
  split_and!; [done | done | done | apply class_no_rights | | done | | | |].
  - intros b n payload E Hc%Hinv. apply Hc. apply decoded_opcode in E. by apply opcode_valid_spec.
  - rewrite Hd. split; [tauto |]. intros Hl. split; [done |]. by apply needed_known, linux_operation_valid.
  - rewrite Hd. apply unprivileged_dispatch.
  - intros granted [_ Ha]%Hd Hm. by apply (modifying_granted r).
  - intros q class' rights'. unfold kb2_fs_request_policy. rewrite policy_spec. intros [= <- <-].
    apply achieves_needs.
Qed.

(** The request of the witness writes; a read-only grant does not dispatch it, and
    it asks for what the reads of the opened file ask for. *)
Definition sample_read : kb2_fs_request :=
  mkRequest 18 3 10 1 1 5 0 0 16 0 0 0 0 0 0 0 (mkSpan 0 0) (mkSpan 0 0) (mkSpan 0 0) (mkSpan 0 0) 0.

Lemma filesystem_policy_fails_closed_witness :
  kb2_fs_request_policy (Some sample_request) true =
    (KB2_FS_OPERATION_DATA, Some (needed_rights sample_request)) /\ needed_rights sample_request = 135 /\
  data_dispatched known_rights sample_request = true /\
  data_dispatched 135 sample_request = true /\ Z.land 135 modifying_rights <> 0 /\
  asked_beyond (needed_rights sample_read) (needed_rights sample_request) = 0.
Proof.
  destruct (kb2_fs_request_policy (Some sample_request) true) as [class [rights |]] eqn:E; [| by vm_compute in E].
  destruct (filesystem_policy_fails_closed sample_request class rights E)
    as (-> & -> & _ & _ & _ & Hd & Hk & _ & Hm & Ha).
  assert (Hg : data_dispatched 135 sample_request = true) by (apply Hd; vm_compute; done).
  split_and!; [vm_compute; reflexivity | vm_compute; reflexivity | apply Hk; vm_compute; reflexivity | done | |].
  - apply (Hm 135 Hg). vm_compute. reflexivity.
  - apply (Ha sample_read KB2_FS_OPERATION_DATA); [vm_compute; reflexivity |].
    apply open_reads; vm_compute; reflexivity.
Defined.

(** docs/filesystem.md (lines 65-66) has TRANSFER_DUP on the owner-only channel and
    filesystem.json calls SHARED_FILE_VMO an owner-only export; the policy classifies
    both as FRONTEND, the first without any right, the second with those of the
    mapping. *)
Lemma documented_owner_operations r :
  (rq_opcode r = KB2_FILESYSTEM_OP_TRANSFER_DUP ->
   kb2_fs_request_policy (Some r) true = (KB2_FS_OPERATION_FRONTEND, Some 0)) /\
  (rq_opcode r = KB2_FILESYSTEM_OP_SHARED_FILE_VMO ->
   exists rights, kb2_fs_request_policy (Some r) true = (KB2_FS_OPERATION_FRONTEND, Some rights) /\
     asked_beyond KB2_FILESYSTEM_RIGHT_READ rights = 0).
Proof.
  unfold kb2_fs_request_policy. rewrite policy_spec. split; intros E.
  - assert (Hop : rq_opcode r ∈ [17]) by (rewrite E; left). opcode_split r Hop.
  - eexists. rewrite E. split; [reflexivity |]. assert (Hop : rq_opcode r ∈ [13]) by (rewrite E; left).
    opcode_split r Hop.
Qed.
