(* ===== verification/Sha256.v ===== *)
(** SHA-256 (protocol/src/sha256.c, protocol/include/kobox2/sha256.h): the compression
    function on 32-bit words and the streaming context.

    Words are integers below 2^32 with the wrap-around written out.  The array
    [words[64]] is the list of the words computed so far.  The buffer a caller passes
    is a list of bytes and a size; NULL is [None]. *)

From Stdlib Require Import ZArith Lia.
From stdpp Require Import base numbers tactics list_numbers list.
From S2P Require Import Prelude Bytes.

Open Scope Z_scope.

Definition KB2_SHA256_DIGEST_SIZE : Z := 32.

Record kb2_sha256_context := mkContext {
  cx_state : list Z;
  cx_byte_count : Z;
  cx_block : list Z;
  cx_block_size : Z;
}.

Definition rotate_right (value shift : Z) : Z :=
  Z.lor (Z.shiftr value shift) (u32 (Z.shiftl value (32 - shift))).

Definition load_be32 (b : list Z) (off : Z) : Z :=
  Z.lor (Z.lor (Z.lor (Z.shiftl (get_byte b off) 24) (Z.shiftl (get_byte b (off + 1)) 16))
               (Z.shiftl (get_byte b (off + 2)) 8))
        (get_byte b (off + 3)).

Definition store_be32 (b : list Z) (off value : Z) : list Z :=
  let b := put_byte b off (Z.shiftr value 24) in
  let b := put_byte b (off + 1) (Z.shiftr value 16) in
  let b := put_byte b (off + 2) (Z.shiftr value 8) in
  put_byte b (off + 3) value.

(** The table, one list per line of the source. *)
Definition constants : list Z :=
  [0x428a2f98; 0x71374491; 0xb5c0fbcf; 0xe9b5dba5; 0x3956c25b; 0x59f111f1] ++
  [0x923f82a4; 0xab1c5ed5; 0xd807aa98; 0x12835b01; 0x243185be; 0x550c7dc3] ++
  [0x72be5d74; 0x80deb1fe; 0x9bdc06a7; 0xc19bf174; 0xe49b69c1; 0xefbe4786] ++
  [0x0fc19dc6; 0x240ca1cc; 0x2de92c6f; 0x4a7484aa; 0x5cb0a9dc; 0x76f988da] ++
  [0x983e5152; 0xa831c66d; 0xb00327c8; 0xbf597fc7; 0xc6e00bf3; 0xd5a79147] ++
  [0x06ca6351; 0x14292967; 0x27b70a85; 0x2e1b2138; 0x4d2c6dfc; 0x53380d13] ++
  [0x650a7354; 0x766a0abb; 0x81c2c92e; 0x92722c85; 0xa2bfe8a1; 0xa81a664b] ++
  [0xc24b8b70; 0xc76c51a3; 0xd192e819; 0xd6990624; 0xf40e3585; 0x106aa070] ++
  [0x19a4c116; 0x1e376c08; 0x2748774c; 0x34b0bcb5; 0x391c0cb3; 0x4ed8aa4a] ++
  [0x5b9cca4f; 0x682e6ff3; 0x748f82ee; 0x78a5636f; 0x84c87814; 0x8cc70208] ++
  [0x90befffa; 0xa4506ceb; 0xbef9a3f7; 0xc67178f2].

Definition word_at (words : list Z) (index : nat) : Z := nth index words 0.

(** The word computed for [index] from the earlier ones. *)
Definition schedule_word (words : list Z) (index : nat) : Z :=
  let w15 := word_at words (index - 15) in
  let w2 := word_at words (index - 2) in
  let s0 := Z.lxor (Z.lxor (rotate_right w15 7) (rotate_right w15 18)) (Z.shiftr w15 3) in
  let s1 := Z.lxor (Z.lxor (rotate_right w2 17) (rotate_right w2 19)) (Z.shiftr w2 10) in
  u32 (word_at words (index - 16) + s0 + word_at words (index - 7) + s1).

(** [n] turns of the loop that extends the words. *)
Fixpoint extend_words (n : nat) (words : list Z) : list Z :=
  match n with
  | O => words
  | S n => extend_words n (words ++ [schedule_word words (length words)])
  end.

Definition block_words (block : list Z) : list Z :=
  extend_words 48 ((fun i => load_be32 block (4 * Z.of_nat i)) <$> seq 0 16).

Record working := mkWorking { wa : Z; wb : Z; wc : Z; wd : Z; we : Z; wf : Z; wg : Z; wh : Z }.

(** One turn of the main loop. *)
Definition round (v : working) (constant word : Z) : working :=
  let '(mkWorking a b c d e f g h) := v in
  let sum1 := Z.lxor (Z.lxor (rotate_right e 6) (rotate_right e 11)) (rotate_right e 25) in
  let choice := Z.lxor (Z.land e f) (Z.land (u32 (Z.lnot e)) g) in
  let temporary1 := u32 (h + sum1 + choice + constant + word) in
  let sum0 := Z.lxor (Z.lxor (rotate_right a 2) (rotate_right a 13)) (rotate_right a 22) in
  let majority := Z.lxor (Z.lxor (Z.land a b) (Z.land a c)) (Z.land b c) in
  let temporary2 := u32 (sum0 + majority) in
  mkWorking (u32 (temporary1 + temporary2)) a b c (u32 (d + temporary1)) e f g.

Definition load_working (state : list Z) : working :=
  mkWorking (word_at state 0) (word_at state 1) (word_at state 2) (word_at state 3)
            (word_at state 4) (word_at state 5) (word_at state 6) (word_at state 7).

(** The additions into [context->state]. *)
Definition add_working (state : list Z) (v : working) : list Z :=
  [u32 (word_at state 0 + wa v); u32 (word_at state 1 + wb v); u32 (word_at state 2 + wc v);
   u32 (word_at state 3 + wd v); u32 (word_at state 4 + we v); u32 (word_at state 5 + wf v);
   u32 (word_at state 6 + wg v); u32 (word_at state 7 + wh v)].

(** [transform] on the state array; the block is read only. *)
Definition transform (state block : list Z) : list Z :=
  let words := block_words block in
  let v := foldl (fun v index => round v (word_at constants index) (word_at words index))
                 (load_working state) (seq 0 64) in
  add_working state v.

Definition set_state (cx : kb2_sha256_context) (state : list Z) : kb2_sha256_context :=
  mkContext state (cx_byte_count cx) (cx_block cx) (cx_block_size cx).
Definition set_block (cx : kb2_sha256_context) (block : list Z) (block_size : Z) : kb2_sha256_context :=
  mkContext (cx_state cx) (cx_byte_count cx) block block_size.

Definition initial : list Z :=
  [0x6a09e667; 0xbb67ae85; 0x3c6ef372; 0xa54ff53a; 0x510e527f; 0x9b05688c; 0x1f83d9ab; 0x5be0cd19].

Definition kb2_sha256_initialize (context : option kb2_sha256_context) : option kb2_sha256_context :=
  match context with
  | None => None
  | Some _ => Some (mkContext initial 0 (replicate 64 0) 0)
  end.

(** The loop of [kb2_sha256_update] over the bytes still to take. *)
Fixpoint update_loop (fuel : nat) (cx : kb2_sha256_context) (bytes : list Z) (size : Z) : kb2_sha256_context :=
  match fuel with
  | O => cx
  | S fuel =>
      if size =? 0 then cx
      else
        let available := 64 - cx_block_size cx in
        let take := if size <? available then size else available in
        let cx := set_block cx (put_bytes (cx_block cx) (cx_block_size cx) (get_bytes bytes 0 take))
                               (cx_block_size cx + take) in
        let bytes := drop (Z.to_nat take) bytes in
        let size := size - take in
        let cx := if cx_block_size cx =? 64
                  then set_block (set_state cx (transform (cx_state cx) (cx_block cx))) (cx_block cx) 0
                  else cx in
        update_loop fuel cx bytes size
  end.

(** Every turn takes at least one byte. *)
Definition update_fuel (size : Z) : nat := S (Z.to_nat size).

Definition kb2_sha256_update (context : option kb2_sha256_context) (data : option (list Z)) (size : Z) :
    option kb2_sha256_context :=
  match context with
  | None => None
  | Some cx =>
      if (bool_decide (data = None) && negb (size =? 0)) || (2 ^ 64 - 1 - cx_byte_count cx <? size) then Some cx
      else
        let cx := mkContext (cx_state cx) (u64 (cx_byte_count cx + size)) (cx_block cx) (cx_block_size cx) in
        Some (update_loop (update_fuel size) cx (default [] data) size)
  end.

(** The bit count, big-endian, in the last eight bytes of the block. *)
Definition store_bit_count (block : list Z) (bit_count : Z) : list Z :=
  foldl (fun block index => put_byte block (63 - Z.of_nat index) (Z.shiftr bit_count (Z.of_nat index * 8)))
        block (seq 0 8).

Definition store_digest (digest state : list Z) : list Z :=
  foldl (fun digest index => store_be32 digest (Z.of_nat index * 4) (word_at state index)) digest (seq 0 8).

Definition zero_context : kb2_sha256_context := mkContext (replicate 8 0) 0 (replicate 64 0) 0.

(** The context and the digest buffer after the call. *)
Definition kb2_sha256_finish (context : option kb2_sha256_context) (digest : option (list Z)) :
    option kb2_sha256_context * option (list Z) :=
  match context, digest with
  | Some cx, Some out =>
      let bit_count := u64 (cx_byte_count cx * 8) in
      let cx := set_block cx (put_byte (cx_block cx) (cx_block_size cx) 128) (cx_block_size cx + 1) in
      let cx :=
        if 56 <? cx_block_size cx then
          let block := zero_bytes (cx_block cx) (cx_block_size cx) (64 - cx_block_size cx) in
          set_block (set_state cx (transform (cx_state cx) block)) block 0
        else cx in
      let block := zero_bytes (cx_block cx) (cx_block_size cx) (56 - cx_block_size cx) in
      let block := store_bit_count block bit_count in
      let state := transform (cx_state cx) block in
      (Some zero_context, Some (store_digest out state))
  | _, _ => (context, digest)
  end.

(** [kb2_sha256]: the digest buffer after the call.  The local context is arbitrary
    before it is initialized. *)
Definition kb2_sha256 (data : option (list Z)) (size : Z) (digest : option (list Z)) : option (list Z) :=
  match digest with
  | None => None
  | Some out =>
      if bool_decide (data = None) && negb (size =? 0) then Some out
      else
        let context := kb2_sha256_initialize (Some zero_context) in
        let context := kb2_sha256_update context data size in
        (kb2_sha256_finish context (Some out)).2
  end.

(** FIPS 180-4 example: the digest of the three bytes abc. *)
Example sha256_abc :
  kb2_sha256 (Some [97; 98; 99]) 3 (Some (replicate 32 0)) =
  Some [0xba; 0x78; 0x16; 0xbf; 0x8f; 0x01; 0xcf; 0xea; 0x41; 0x41; 0x40; 0xde; 0x5d; 0xae; 0x22; 0x23;
        0xb0; 0x03; 0x61; 0xa3; 0x96; 0x17; 0x7a; 0x9c; 0xb4; 0x10; 0xff; 0x61; 0xf2; 0x00; 0x15; 0xad].
Proof. vm_compute. reflexivity. Qed.
