(* ===== verification/Sha256Spec.v ===== *)
(** SHA-256 as FIPS 180-4 defines it, and that the compression function of sha256.c
    computes it.

    The reference is written from the standard: rotations as arithmetic, the message
    schedule as its recurrence, the constants as the fractional bits of square and
    cube roots of the first primes, and the padded message cut into blocks. *)

From Equations Require Import Equations.
From Stdlib Require Import ZArith Lia.
From stdpp Require Import base numbers tactics list_numbers list.
From S2P Require Import Prelude Bytes Layout Sha256.

Open Scope Z_scope.

(** * The standard *)

Definition ROTR (n x : Z) : Z := x / 2 ^ n + x mod 2 ^ n * 2 ^ (32 - n).
Definition SHR (n x : Z) : Z := x / 2 ^ n.

(** Bit by bit: [y] where [x] is set, [z] elsewhere. *)
Definition Ch (x y z : Z) : Z := Z.lor (Z.land x y) (Z.ldiff z x).
(** Bit by bit: the value at least two of the three have. *)
Definition Maj (x y z : Z) : Z := Z.lor (Z.land x y) (Z.land z (Z.lor x y)).

Definition big_sigma0 (x : Z) : Z := Z.lxor (Z.lxor (ROTR 2 x) (ROTR 13 x)) (ROTR 22 x).
Definition big_sigma1 (x : Z) : Z := Z.lxor (Z.lxor (ROTR 6 x) (ROTR 11 x)) (ROTR 25 x).
Definition small_sigma0 (x : Z) : Z := Z.lxor (Z.lxor (ROTR 7 x) (ROTR 18 x)) (SHR 3 x).
Definition small_sigma1 (x : Z) : Z := Z.lxor (Z.lxor (ROTR 17 x) (ROTR 19 x)) (SHR 10 x).

(** ** Constants *)

Definition is_prime (n : nat) : bool := (2 <=? n)%nat && forallb (fun d => negb (n mod d =? 0)%nat) (seq 2 (n - 2)).
Definition primes : list nat := List.filter is_prime (seq 2 310).

(** The largest [r] of [n] bits above [r0] whose cube is at most [x]. *)
Fixpoint cube_root_bits (n : nat) (x r : Z) : Z :=
  match n with
  | O => r
  | S n => let r' := r + 2 ^ Z.of_nat n in cube_root_bits n x (if r' ^ 3 <=? x then r' else r)
  end.
Definition cube_root (x : Z) : Z := cube_root_bits 40 x 0.

Lemma cube_root_bits_spec n x r :
  0 <= r -> r ^ 3 <= x < (r + 2 ^ Z.of_nat n) ^ 3 ->
  0 <= cube_root_bits n x r /\ cube_root_bits n x r ^ 3 <= x < (cube_root_bits n x r + 1) ^ 3.
Proof.
  revert r. induction n as [|n IH]; intros r Hr Hx; [done |]. cbn [cube_root_bits].
  rewrite Nat2Z.inj_succ, Z.pow_succ_r in Hx by lia.
  destruct (Z.leb_spec ((r + 2 ^ Z.of_nat n) ^ 3) x); apply IH; try lia.
Qed.

(** The integer cube root of every number below 2^120. *)
Lemma cube_root_spec x : 0 <= x < 2 ^ 120 -> cube_root x ^ 3 <= x < (cube_root x + 1) ^ 3.
Proof.
  intros Hx. pose proof (cube_root_bits_spec 40 x 0) as Hc. unfold cube_root. set (r := cube_root_bits 40 x 0) in *.
  clearbody r. change ((0 + 2 ^ Z.of_nat 40) ^ 3) with (2 ^ 120) in Hc. change (0 ^ 3) with 0 in Hc. apply Hc; lia.
Qed.

(** The first 32 bits of the fractional parts. *)
Definition cube_root_fraction (p : Z) : Z := cube_root (p * 2 ^ 96) mod 2 ^ 32.
Definition square_root_fraction (p : Z) : Z := Z.sqrt (p * 2 ^ 64) mod 2 ^ 32.

Definition K (t : nat) : Z := cube_root_fraction (Z.of_nat (nth t primes 0%nat)).
Definition H0 : list Z := (fun p => square_root_fraction (Z.of_nat p)) <$> take 8 primes.

(** ** The message schedule *)

(** Word [t] of a block, most significant byte first. *)
Definition message_word (block : list Z) (t : nat) : Z :=
  let o := 4 * Z.of_nat t in
  get_byte block o * 2 ^ 24 + get_byte block (o + 1) * 2 ^ 16 + get_byte block (o + 2) * 2 ^ 8 + get_byte block (o + 3).

Equations W (block : list Z) (t : nat) : Z by wf t lt :=
  W block t with decide (t < 16)%nat => {
    | left _ => message_word block t
    | right _ => (small_sigma1 (W block (t - 2)) + W block (t - 7) + small_sigma0 (W block (t - 15))
                  + W block (t - 16)) mod 2 ^ 32 }.
Next Obligation. lia. Qed.
Next Obligation. lia. Qed.
Next Obligation. lia. Qed.
Next Obligation. lia. Qed.

(** ** Hashing *)

Definition fips_round (v : working) (k w : Z) : working :=
  let '(mkWorking a b c d e f g h) := v in
  let T1 := (h + big_sigma1 e + Ch e f g + k + w) mod 2 ^ 32 in
  let T2 := (big_sigma0 a + Maj a b c) mod 2 ^ 32 in
  mkWorking ((T1 + T2) mod 2 ^ 32) a b c ((d + T1) mod 2 ^ 32) e f g.

Definition compress (H block : list Z) : list Z :=
  add_working H (foldl (fun v t => fips_round v (K t) (W block t)) (load_working H) (seq 0 64)).

Equations hash_blocks (H bytes : list Z) : list Z by wf (length bytes) lt :=
  hash_blocks H bytes with decide (length bytes < 64)%nat => {
    | left _ => H
    | right _ => hash_blocks (compress H (take 64 bytes)) (drop 64 bytes) }.
Next Obligation. intros _ bytes Hlen _. rewrite length_drop. lia. Qed.

(** The bytes of an [n]-byte big-endian number. *)
Definition big_endian (n : nat) (v : Z) : list Z := (fun i => v / 256 ^ (Z.of_nat (n - 1 - i)) mod 256) <$> seq 0 n.

Definition pad (message : list Z) : list Z :=
  message ++ [128] ++ replicate (Z.to_nat ((55 - blen message) mod 64)) 0 ++ big_endian 8 (8 * blen message).

Definition SHA256 (message : list Z) : list Z :=
  concat (big_endian 4 <$> hash_blocks H0 (pad message)).

(** * The constants and the word functions *)

Lemma primes_count : length primes = 64%nat /\ nth 63 primes 0%nat = 311%nat.
Proof. vm_compute. done. Qed.

Lemma constants_K : constants = K <$> seq 0 64.
Proof. vm_compute. reflexivity. Qed.

Lemma initial_H0 : initial = H0.
Proof. vm_compute. reflexivity. Qed.

Lemma testbit_u32 x i : is_u32 x -> 32 <= i -> Z.testbit x i = false.
Proof. intros Hx Hi. rewrite <- (u32_small x Hx). unfold u32. by rewrite Z.mod_pow2_bits_high by lia. Qed.

(** Words are closed under the bit operations. *)
Lemma u32_of_bits x : (forall i, 32 <= i -> Z.testbit x i = false) -> is_u32 x.
Proof.
  intros Hx. assert (x = u32 x) as ->; [| apply u32_range]. unfold u32. rewrite <- Z.land_ones by lia.
  apply Z.bits_inj'. intros i Hi. rewrite Z.land_spec, Z.testbit_ones_nonneg by lia.
  destruct (Z.ltb_spec i 32); [by rewrite andb_true_r |]. by rewrite Hx by lia.
Qed.

Lemma rotate_right_ROTR x n : is_u32 x -> 0 < n < 32 -> rotate_right x n = ROTR n x.
Proof.
  intros Hx Hn. unfold rotate_right, ROTR. rewrite Z.shiftr_div_pow2, Z.shiftl_mul_pow2 by lia.
  assert (Hu : u32 (x * 2 ^ (32 - n)) = x mod 2 ^ n * 2 ^ (32 - n)).
  { unfold u32. replace (2 ^ 32) with (2 ^ n * 2 ^ (32 - n)) by (rewrite <- Z.pow_add_r by lia; f_equal; lia).
    by rewrite Z.mul_mod_distr_r by (apply Z.pow_nonzero; lia). }
  rewrite Hu, <- Z.shiftl_mul_pow2, lor_shiftl_add, Z.shiftl_mul_pow2; [done | lia | lia | | lia].
  unfold is_u32 in Hx. split; [apply Z.div_pos; lia |]. apply Z.div_lt_upper_bound; [lia |].
  rewrite <- Z.pow_add_r by lia. replace (n + (32 - n)) with 32 by lia. lia.
Qed.

Lemma ROTR_u32 x n : is_u32 x -> 0 < n < 32 -> is_u32 (ROTR n x).
Proof.
  intros Hx Hn. unfold ROTR, is_u32 in *.
  assert (H32 : 2 ^ 32 = 2 ^ n * 2 ^ (32 - n)) by (rewrite <- Z.pow_add_r by lia; f_equal; lia).
  pose proof (Z.mod_pos_bound x (2 ^ n) ltac:(lia)). pose proof (Z.div_pos x (2 ^ n) ltac:(lia) ltac:(lia)).
  assert (x / 2 ^ n < 2 ^ (32 - n)) by (apply Z.div_lt_upper_bound; lia).
  assert (0 < 2 ^ (32 - n)) by lia. nia.
Qed.

Lemma lxor_u32 x y : is_u32 x -> is_u32 y -> is_u32 (Z.lxor x y).
Proof. intros. apply u32_of_bits. intros i Hi. by rewrite Z.lxor_spec, !testbit_u32. Qed.

Lemma choice_Ch e f g :
  is_u32 g -> Z.lxor (Z.land e f) (Z.land (u32 (Z.lnot e)) g) = Ch e f g.
Proof.
  intros Hg. unfold Ch, u32. rewrite <- Z.land_ones by lia. apply Z.bits_inj'. intros i Hi.
  rewrite Z.lxor_spec, Z.lor_spec, !Z.land_spec, Z.ldiff_spec, Z.lnot_spec by lia.
  rewrite Z.testbit_ones_nonneg by lia. destruct (Z.ltb_spec i 32).
  - by destruct (Z.testbit e i), (Z.testbit f i), (Z.testbit g i).
  - rewrite (testbit_u32 g) by done. by destruct (Z.testbit e i), (Z.testbit f i).
Qed.

Lemma majority_Maj a b c : Z.lxor (Z.lxor (Z.land a b) (Z.land a c)) (Z.land b c) = Maj a b c.
Proof.
  unfold Maj. apply Z.bits_inj'. intros i Hi. rewrite !Z.lxor_spec, !Z.lor_spec, !Z.land_spec, Z.lor_spec.
  by destruct (Z.testbit a i), (Z.testbit b i), (Z.testbit c i).
Qed.

Lemma big_sigma0_eq x :
  is_u32 x -> Z.lxor (Z.lxor (rotate_right x 2) (rotate_right x 13)) (rotate_right x 22) = big_sigma0 x.
Proof. intros. unfold big_sigma0. by rewrite !rotate_right_ROTR. Qed.

Lemma big_sigma1_eq x :
  is_u32 x -> Z.lxor (Z.lxor (rotate_right x 6) (rotate_right x 11)) (rotate_right x 25) = big_sigma1 x.
Proof. intros. unfold big_sigma1. by rewrite !rotate_right_ROTR. Qed.

Lemma small_sigma0_eq x :
  is_u32 x -> Z.lxor (Z.lxor (rotate_right x 7) (rotate_right x 18)) (Z.shiftr x 3) = small_sigma0 x.
Proof. intros. unfold small_sigma0, SHR. by rewrite !rotate_right_ROTR, Z.shiftr_div_pow2. Qed.

Lemma small_sigma1_eq x :
  is_u32 x -> Z.lxor (Z.lxor (rotate_right x 17) (rotate_right x 19)) (Z.shiftr x 10) = small_sigma1 x.
Proof. intros. unfold small_sigma1, SHR. by rewrite !rotate_right_ROTR, Z.shiftr_div_pow2. Qed.

(** * The schedule *)

Lemma load_be32_word b t : load_be32 b (4 * Z.of_nat t) = message_word b t.
Proof.
  unfold load_be32, message_word. set (o := 4 * Z.of_nat t).
  pose proof (get_byte_u8 b o) as H1. pose proof (get_byte_u8 b (o + 1)) as H2.
  pose proof (get_byte_u8 b (o + 2)) as H3. pose proof (get_byte_u8 b (o + 3)) as H4. unfold is_u8 in *.
  replace (Z.lor _ (get_byte b (o + 3))) with (Z.lor (Z.lor (Z.lor (get_byte b (o + 3)) (Z.shiftl (get_byte b (o + 2)) 8))
    (Z.shiftl (get_byte b (o + 1)) 16)) (Z.shiftl (get_byte b o) 24)).
  - rewrite (lor_shiftl_add _ _ 8), (lor_shiftl_add _ _ 16), (lor_shiftl_add _ _ 24) by lia. lia.
  - apply Z.bits_inj'. intros i Hi. rewrite !Z.lor_spec. by repeat destruct (Z.testbit _ i).
Qed.

Lemma message_word_u32 b t : is_u32 (message_word b t).
Proof.
  unfold message_word. pose proof (get_byte_u8 b (4 * Z.of_nat t)). pose proof (get_byte_u8 b (4 * Z.of_nat t + 1)).
  pose proof (get_byte_u8 b (4 * Z.of_nat t + 2)). pose proof (get_byte_u8 b (4 * Z.of_nat t + 3)).
  unfold is_u8, is_u32 in *. lia.
Qed.

Lemma W_u32 block t : is_u32 (W block t).
Proof. funelim (W block t); [apply message_word_u32 | apply u32_range]. Qed.

Lemma W_word block t : (t < 16)%nat -> W block t = message_word block t.
Proof. intros Ht. simp W. destruct (decide (t < 16)%nat); [done | lia]. Qed.

(** The recurrence of the standard. *)
Lemma W_step block t :
  (16 <= t)%nat ->
  W block t = (small_sigma1 (W block (t - 2)) + W block (t - 7) + small_sigma0 (W block (t - 15)) + W block (t - 16)) mod 2 ^ 32.
Proof. intros Ht. rewrite W_equation_1 at 1. destruct (decide (t < 16)%nat); [lia | done]. Qed.

Lemma word_at_schedule block k t : (t < k)%nat -> word_at (W block <$> seq 0 k) t = W block t.
Proof.
  intros Ht. unfold word_at. apply nth_lookup_Some. rewrite list_lookup_fmap, lookup_seq_lt by done. done.
Qed.

Lemma schedule_word_W block k :
  (16 <= k)%nat -> schedule_word (W block <$> seq 0 k) k = W block k.
Proof.
  intros Hk. rewrite (W_step block k) by done. unfold schedule_word. cbv zeta. rewrite !word_at_schedule by lia.
  rewrite small_sigma0_eq, small_sigma1_eq by apply W_u32. unfold u32. f_equal. lia.
Qed.

Lemma extend_words_W block n k :
  (16 <= k)%nat -> extend_words n (W block <$> seq 0 k) = W block <$> seq 0 (k + n).
Proof.
  revert k. induction n as [|n IH]; intros k Hk; cbn [extend_words]; [by rewrite Nat.add_0_r |].
  rewrite length_fmap, length_seq, schedule_word_W by done.
  replace (k + S n)%nat with (S k + n)%nat by lia. rewrite <- IH by lia. f_equal.
  by rewrite seq_S, fmap_app.
Qed.

Lemma block_words_W block : block_words block = W block <$> seq 0 64.
Proof.
  unfold block_words. change 64%nat with (16 + 48)%nat. rewrite <- (extend_words_W block 48 16) by lia. f_equal.
  apply list_fmap_ext. intros i t Ht%lookup_seq. by rewrite load_be32_word, W_word by lia.
Qed.

(** * The rounds *)

Definition working_u32 (v : working) : Prop :=
  is_u32 (wa v) /\ is_u32 (wb v) /\ is_u32 (wc v) /\ is_u32 (wd v) /\
  is_u32 (we v) /\ is_u32 (wf v) /\ is_u32 (wg v) /\ is_u32 (wh v).

Lemma round_fips v k w : working_u32 v -> round v k w = fips_round v k w.
Proof.
  destruct v as [a b c d e f g h]. unfold working_u32. cbn. intros (Ha & Hb & Hc & Hd & He & Hf & Hg & Hh).
  by rewrite big_sigma0_eq, big_sigma1_eq, choice_Ch, majority_Maj.
Qed.

Lemma fips_round_u32 v k w : working_u32 v -> working_u32 (fips_round v k w).
Proof.
  destruct v as [a b c d e f g h]. unfold working_u32. cbn. intros (Ha & Hb & Hc & Hd & He & Hf & Hg & Hh).
  by split_and!; try apply u32_range.
Qed.

Lemma rounds_fips block v ts :
  working_u32 v -> Forall (fun t => (t < 64)%nat) ts ->
  foldl (fun v t => round v (word_at constants t) (word_at (block_words block) t)) v ts =
  foldl (fun v t => fips_round v (K t) (W block t)) v ts.
Proof.
  intros Hv Hts. revert v Hv. induction Hts as [|t ts Ht _ IH]; intros v Hv; [done |]. cbn [foldl].
  rewrite block_words_W, word_at_schedule by done. rewrite <- block_words_W.
  assert (Hk : word_at constants t = K t).
  { rewrite constants_K. unfold word_at. apply nth_lookup_Some. by rewrite list_lookup_fmap, lookup_seq_lt. }
  rewrite Hk, round_fips by done. apply IH. by apply fips_round_u32.
Qed.

Lemma load_working_u32 state : Forall is_u32 state -> working_u32 (load_working state).
Proof.
  intros Hs. assert (Hw : forall i, is_u32 (word_at state i)).
  { intros i. unfold word_at. destruct (state !! i) as [x |] eqn:E.
    - rewrite (nth_lookup_Some _ _ _ _ E). by eapply Forall_lookup_1.
    - rewrite nth_overflow; [unfold is_u32; lia | by apply lookup_ge_None]. }
  by split_and!; apply Hw.
Qed.

(** The compression function is the standard's. *)
Lemma transform_compress state block : Forall is_u32 state -> transform state block = compress state block.
Proof.
  intros Hs. unfold transform, compress. cbv zeta. rewrite rounds_fips; [done | by apply load_working_u32 |].
  apply Forall_seq. lia.
Qed.

Lemma compress_shape state block : length (compress state block) = 8%nat /\ Forall is_u32 (compress state block).
Proof. unfold compress, add_working. split; [done |]. repeat constructor; apply u32_range. Qed.

(** * Blocks *)

Lemma hash_blocks_short H bytes : (length bytes < 64)%nat -> hash_blocks H bytes = H.
Proof. intros Hl. rewrite hash_blocks_equation_1. by destruct (decide (length bytes < 64)%nat). Qed.

Lemma hash_blocks_cons H block bytes :
  length block = 64%nat -> hash_blocks H (block ++ bytes) = hash_blocks (compress H block) bytes.
Proof.
  intros Hl. rewrite hash_blocks_equation_1. destruct (decide _) as [Hlt | Hge]; [exfalso; rewrite length_app in Hlt; lia |].
  cbn. by rewrite take_app_length', drop_app_length'.
Qed.

Lemma hash_blocks_app H full bytes :
  (length full mod 64 = 0)%nat -> hash_blocks H (full ++ bytes) = hash_blocks (hash_blocks H full) bytes.
Proof.
  intros [k Hk]%Nat.Lcm0.mod_divide. revert H full Hk. induction k as [|k IH]; intros H full Hk.
  { destruct full; [| done]. by rewrite (hash_blocks_short H []) by (cbn; lia). }
  assert (Ht : length (take 64 full) = 64%nat) by (rewrite length_take; lia).
  assert (Hd : length (drop 64 full) = (k * 64)%nat) by (rewrite length_drop; lia).
  rewrite <- (take_drop 64 full), <- app_assoc. rewrite !(hash_blocks_cons H (take 64 full)) by done. by apply IH.
Qed.

Lemma hash_blocks_u32 H bytes :
  length H = 8%nat -> Forall is_u32 H -> length (hash_blocks H bytes) = 8%nat /\ Forall is_u32 (hash_blocks H bytes).
Proof.
  funelim (hash_blocks H bytes); intros; [done |].
  match goal with IH : _ -> _ -> length _ = _ /\ _ |- _ => apply IH; apply compress_shape end.
Qed.
