(* ===== verification/Sha256Claims.v ===== *)
(** The streaming interface of sha256.c computes the digest of the standard, however
    the message is cut into updates. *)

From Stdlib Require Import ZArith Lia.
From stdpp Require Import base numbers tactics list_numbers list.
From S2P Require Import Prelude Bytes Layout Sha256 Sha256Spec.

Open Scope Z_scope.

(** The context has taken in [message]: the state is the hash of its complete blocks
    and the rest waits at the front of the block. *)
Record absorbed (message : list Z) (cx : kb2_sha256_context) : Prop := {
  ab_block : length (cx_block cx) = 64%nat;
  ab_bytes : Forall is_u8 (cx_block cx);
  ab_split : exists full rest, message = full ++ rest /\ (length full mod 64 = 0)%nat /\ (length rest < 64)%nat /\
    cx_block_size cx = blen rest /\ take (length rest) (cx_block cx) = rest /\ cx_state cx = hash_blocks H0 full;
}.

Lemma H0_shape : length H0 = 8%nat /\ Forall is_u32 H0.
Proof. rewrite <- initial_H0. split; [done |]. repeat constructor; unfold is_u32; lia. Qed.

Lemma initialize_absorbed : absorbed [] (mkContext initial 0 (replicate 64 0) 0).
Proof.
  split; [done | by apply Forall_replicate; unfold is_u8; lia |]. exists [], []. cbn.
  rewrite hash_blocks_short, initial_H0 by (cbn; lia). split_and!; done || lia.
Qed.

(** A full block moves from the buffer into the state. *)
Lemma absorb_block full block :
  (length full mod 64 = 0)%nat -> length block = 64%nat ->
  transform (hash_blocks H0 full) block = hash_blocks H0 (full ++ block).
Proof.
  intros Hf Hb. rewrite hash_blocks_app by done. rewrite <- (app_nil_r block) at 2.
  rewrite hash_blocks_cons, (hash_blocks_short _ []) by (done || cbn; lia).
  apply transform_compress, hash_blocks_u32; apply H0_shape.
Qed.

(** One turn of the update loop takes [n] bytes. *)
Lemma fill_block cx rest chunk :
  length (cx_block cx) = 64%nat -> Forall is_u8 (cx_block cx) -> Forall is_u8 chunk ->
  take (length rest) (cx_block cx) = rest -> (length rest + length chunk <= 64)%nat ->
  let block := put_bytes (cx_block cx) (blen rest) chunk in
  length block = 64%nat /\ Forall is_u8 block /\ take (length (rest ++ chunk)) block = rest ++ chunk.
Proof.
  intros Hl Hb Hc Ht Hfit. cbv zeta. rewrite put_bytes_splice by (unfold blen; lia).
  unfold blen. rewrite Nat2Z.id, Ht, fmap_u8 by done. split_and!.
  - rewrite !length_app, length_drop. lia.
  - rewrite !Forall_app. split_and!; [rewrite <- Ht; by apply Forall_take | done | by apply Forall_drop].
  - rewrite app_assoc. by apply take_app_length'.
Qed.

Lemma update_loop_absorbs fuel cx message bytes size :
  absorbed message cx -> Forall is_u8 bytes -> 0 <= size <= blen bytes -> (Z.to_nat size < fuel)%nat ->
  absorbed (message ++ take (Z.to_nat size) bytes) (update_loop fuel cx bytes size) /\
  cx_byte_count (update_loop fuel cx bytes size) = cx_byte_count cx.
Proof.
  revert cx message bytes size. induction fuel as [|fuel IH]; intros cx message bytes size Ha Hu Hs Hf; [lia |].
  cbn [update_loop]. destruct (Z.eqb_spec size 0) as [-> | Hz]; [by rewrite app_nil_r |].
  destruct Ha as [Hl Hb (full & rest & -> & Hfull & Hrest & Hbs & Ht & Hst)].
  rewrite Hbs. unfold blen in Hs. set (n := if size <? 64 - blen rest then size else 64 - blen rest).
  assert (Hn : 0 < n <= size /\ n <= 64 - blen rest /\ (n = size \/ n = 64 - blen rest)).
  { unfold n, blen in *. destruct (Z.ltb_spec size (64 - Z.of_nat (length rest))); lia. }
  destruct Hn as (Hn & Hn64 & Hcase). clearbody n. unfold blen in *.
  rewrite get_bytes_take by (unfold blen; done || lia). set (chunk := take (Z.to_nat n) bytes).
  assert (Hcl : length chunk = Z.to_nat n) by (unfold chunk; rewrite length_take; lia).
  destruct (fill_block cx rest chunk Hl Hb (Forall_take _ _ _ Hu) Ht ltac:(lia)) as (Hl' & Hb' & Ht').
  unfold blen in *. set (block := put_bytes (cx_block cx) (Z.of_nat (length rest)) chunk) in *. clearbody block.
  assert (Hsplit : take (Z.to_nat size) bytes = chunk ++ take (Z.to_nat (size - n)) (drop (Z.to_nat n) bytes)).
  { unfold chunk. replace (Z.to_nat size) with (Z.to_nat n + Z.to_nat (size - n))%nat by lia. symmetry. apply take_take_drop. }
  rewrite Hsplit. cbn [cx_block_size set_block cx_state cx_block cx_byte_count].
  destruct (Z.eqb_spec (Z.of_nat (length rest) + n) 64) as [H64 | H64].
  - replace ((full ++ rest) ++ chunk ++ take (Z.to_nat (size - n)) (drop (Z.to_nat n) bytes))
      with ((full ++ block) ++ take (Z.to_nat (size - n)) (drop (Z.to_nat n) bytes)).
    2: { rewrite <- !app_assoc. f_equal. rewrite (app_assoc rest). f_equal. rewrite <- Ht'. symmetry. apply take_ge.
         rewrite length_app. lia. }
    edestruct (IH (set_block (set_state (set_block cx block (Z.of_nat (length rest) + n)) (transform (cx_state cx) block)) block 0)
      (full ++ block) (drop (Z.to_nat n) bytes) (size - n)) as [Ha Hc];
      [| by apply Forall_drop | unfold blen; rewrite length_drop; lia | lia | by split; [exact Ha | exact Hc]].
    split; cbn [cx_block set_block]; [done | done |]. exists (full ++ block), []. rewrite app_nil_r.
    cbn [cx_block_size cx_state cx_block set_block set_state length]. split_and!; try done; [| lia |].
    + rewrite length_app, Hl'. by rewrite (Nat.Div0.mod_add _ 1 64 : ((length full + 64) mod 64 = _)%nat).
    + rewrite Hst. by apply absorb_block.
  - replace (size - n) with 0 by lia. cbn [take firstn]. rewrite app_nil_r.
    assert (Hdone : forall c b, update_loop fuel c b 0 = c) by (by destruct fuel).
    rewrite Hdone. split; [| done]. split; cbn [cx_block set_block]; [done | done |]. exists full, (rest ++ chunk). rewrite app_assoc, length_app, Hcl.
    split_and!; try done; [lia | cbn [cx_block_size set_block]; unfold blen; rewrite length_app, Hcl; lia | by rewrite <- Hcl, <- length_app].
Qed.

Lemma update_absorbs cx message chunk :
  absorbed message cx -> cx_byte_count cx = blen message -> Forall is_u8 chunk -> blen (message ++ chunk) < 2 ^ 64 ->
  exists cx', kb2_sha256_update (Some cx) (Some chunk) (blen chunk) = Some cx' /\
    absorbed (message ++ chunk) cx' /\ cx_byte_count cx' = blen (message ++ chunk).
Proof.
  intros Ha Hc Hu Hlen. unfold kb2_sha256_update. rewrite Hc. unfold blen in *. rewrite length_app in *.
  rewrite (proj2 (Z.ltb_ge _ _)) by lia. cbn [bool_decide andb orb]. eexists. split; [reflexivity |].
  set (cx0 := mkContext _ _ _ _).
  assert (Ha0 : absorbed message cx0) by (destruct Ha as [? ? ?]; by split).
  destruct (update_loop_absorbs (update_fuel (Z.of_nat (length chunk))) cx0 message chunk (Z.of_nat (length chunk)))
    as [Ha' Hc']; [done | done | unfold blen; lia | unfold update_fuel; lia |].
  rewrite Nat2Z.id, firstn_all in Ha'. split; [exact Ha' |]. etransitivity; [exact Hc' |]. cbn [cx_byte_count cx0].
  rewrite u64_small by (unfold is_u64; lia). lia.
Qed.

(** * The last blocks *)

Lemma u8_shiftr v i : 0 <= i -> u8 (Z.shiftr v (i * 8)) = v / 256 ^ i mod 256.
Proof. intros Hi. rewrite Z.shiftr_div_pow2 by lia. unfold u8. change 256 with (2 ^ 8). by rewrite <- Z.pow_mul_r, Z.mul_comm by lia. Qed.

Lemma store_bit_count_splice p q v :
  length p = 56%nat -> length q = 8%nat -> store_bit_count (p ++ q) v = p ++ big_endian 8 v.
Proof.
  intros Hp Hq. unfold store_bit_count. cbn [seq foldl]. unfold put_byte.
  rewrite !u8_shiftr by lia. do 8 (destruct q as [|? q]; [done |]). destruct q; [| done].
  rewrite !insert_app_r_alt by (rewrite Hp; lia). rewrite Hp. done.
Qed.

Lemma store_be32_splice p q v off :
  off = blen p -> (4 <= length q)%nat -> store_be32 (p ++ q) off v = (p ++ big_endian 4 v) ++ drop 4 q.
Proof.
  intros -> Hq. unfold store_be32, put_byte, blen. do 4 (destruct q as [|? q]; [cbn in Hq; lia |]).
  rewrite !insert_app_r_alt by lia.
  pose proof (u8_shiftr v 3 ltac:(lia)) as H3. pose proof (u8_shiftr v 2 ltac:(lia)) as H2.
  pose proof (u8_shiftr v 1 ltac:(lia)) as H1. change (3 * 8) with 24 in H3. change (2 * 8) with 16 in H2.
  change (1 * 8) with 8 in H1. rewrite H1, H2, H3.
  replace (Z.to_nat (Z.of_nat (length p)) - length p)%nat with 0%nat by lia.
  replace (Z.to_nat (Z.of_nat (length p) + 1) - length p)%nat with 1%nat by lia.
  replace (Z.to_nat (Z.of_nat (length p) + 2) - length p)%nat with 2%nat by lia.
  replace (Z.to_nat (Z.of_nat (length p) + 3) - length p)%nat with 3%nat by lia.
  unfold big_endian. cbn -[Z.div Z.modulo Z.pow u8]. change (256 ^ Z.of_nat 0) with 1. by rewrite Z.div_1_r, <- app_assoc.
Qed.

Lemma store_digest_from state n k p q :
  length p = (4 * k)%nat -> length q = (4 * n)%nat -> length state = (k + n)%nat ->
  foldl (fun digest index => store_be32 digest (Z.of_nat index * 4) (word_at state index)) (p ++ q) (seq k n) =
  p ++ concat (big_endian 4 <$> drop k state).
Proof.
  revert k p q. induction n as [|n IH]; intros k p q Hp Hq Hs.
  { destruct q; [| done]. cbn. by rewrite drop_ge by lia. }
  cbn [seq foldl]. rewrite store_be32_splice by (unfold blen; lia).
  destruct (lookup_lt_is_Some_2 state k) as [x Hx]; [lia |].
  rewrite IH; [| rewrite length_app, Hp; cbn; lia | rewrite length_drop; lia | lia].
  rewrite (drop_S _ _ _ Hx). unfold word_at. rewrite (nth_lookup_Some _ _ _ _ Hx). cbn [fmap list_fmap concat].
  by rewrite <- app_assoc.
Qed.

Lemma store_digest_bytes out state :
  length out = 32%nat -> length state = 8%nat -> store_digest out state = concat (big_endian 4 <$> state).
Proof. intros Ho Hs. by apply (store_digest_from state 8 0 [] out). Qed.

(** The last block: [p], zeros and the bit count. *)
Lemma last_block p q v :
  (length p <= 56)%nat -> (length p + length q = 64)%nat ->
  store_bit_count (zero_bytes (p ++ q) (Z.of_nat (length p)) (56 - Z.of_nat (length p))) v =
  p ++ replicate (56 - length p) 0 ++ big_endian 8 v.
Proof.
  intros Hp Hq. rewrite zero_bytes_splice by (unfold blen; rewrite ?length_app; lia).
  rewrite Nat2Z.id, take_app_length, app_assoc.
  rewrite store_bit_count_splice; [| rewrite length_app, length_replicate; lia | rewrite length_drop, length_app; lia].
  rewrite <- app_assoc. do 3 f_equal. lia.
Qed.

Lemma pad_zeros (full rest : list Z) :
  (length full mod 64 = 0)%nat -> (length rest < 64)%nat ->
  Z.to_nat ((55 - Z.of_nat (length (full ++ rest))) mod 64) =
  if decide (length rest < 56)%nat then (55 - length rest)%nat else (119 - length rest)%nat.
Proof.
  intros [k Hk]%Nat.Lcm0.mod_divide Hr. rewrite length_app, Hk.
  replace (55 - Z.of_nat (k * 64 + length rest)) with (55 - Z.of_nat (length rest) + (- Z.of_nat k) * 64) by lia.
  rewrite Z.mod_add by lia. destruct (decide _).
  - rewrite Z.mod_small by lia. lia.
  - replace (55 - Z.of_nat (length rest)) with (119 - Z.of_nat (length rest) + (-1) * 64) by lia.
    rewrite Z.mod_add, Z.mod_small by lia. lia.
Qed.

(** The message after the complete blocks, padded, fits one or two blocks. *)
Lemma finish_absorbed cx message out :
  absorbed message cx -> cx_byte_count cx = blen message -> blen message < 2 ^ 61 -> length out = 32%nat ->
  kb2_sha256_finish (Some cx) (Some out) = (Some zero_context, Some (SHA256 message)).
Proof.
  intros [Hl Hb (full & rest & -> & Hfull & Hrest & Hbs & Ht & Hst)] Hc Hlen Ho.
  unfold kb2_sha256_finish. f_equal. f_equal. rewrite Hc, Hbs. unfold SHA256, pad.
  set (bits := u64 (blen (full ++ rest) * 8)).
  assert (Hbits : 8 * blen (full ++ rest) = bits).
  { unfold bits. rewrite u64_small; [lia |]. unfold is_u64, blen in *. lia. }
  rewrite Hbits. clearbody bits. cbn [cx_block_size cx_state cx_block set_block set_state].
  rewrite put_byte_splice by (unfold blen; lia). unfold blen. rewrite Nat2Z.id, Ht, Hst, pad_zeros by done.
  change (u8 128) with 128. set (tail := drop (S (length rest)) (cx_block cx)).
  assert (Htail : length tail = (63 - length rest)%nat) by (unfold tail; rewrite length_drop; lia). clearbody tail.
  replace (rest ++ 128 :: tail) with ((rest ++ [128]) ++ tail) by (by rewrite <- app_assoc).
  assert (Hp : Z.of_nat (length rest) + 1 = Z.of_nat (length (rest ++ [128]))) by (rewrite length_app; cbn; lia).
  rewrite Hp. assert (Hpl : length (rest ++ [128]) = S (length rest)) by (rewrite length_app; cbn; lia).
  rewrite <- (app_assoc full rest), (app_assoc rest [128]). set (p := rest ++ [128]) in *. clearbody p.
  rewrite store_digest_bytes; [f_equal; f_equal | done | done].
  destruct (Z.ltb_spec 56 (Z.of_nat (length p))) as [Hlong | Hshort];
    cbn [cx_block_size cx_state cx_block set_block set_state].
  - rewrite decide_False by lia.
    assert (Hz : zero_bytes (p ++ tail) (Z.of_nat (length p)) (64 - Z.of_nat (length p)) = p ++ replicate (64 - length p) 0).
    { rewrite zero_bytes_splice by (unfold blen; rewrite ?length_app; lia). rewrite Nat2Z.id, take_app_length.
      rewrite drop_ge by (rewrite length_app; lia). rewrite app_nil_r. do 2 f_equal. lia. }
    rewrite Hz, absorb_block by (done || rewrite length_app, length_replicate; lia).
    set (b1 := p ++ replicate (64 - length p) 0).
    assert (Hb1 : length b1 = 64%nat) by (unfold b1; rewrite length_app, length_replicate; lia).
    pose proof (last_block [] b1 bits ltac:(cbn; lia) ltac:(cbn; lia)) as Hlast. cbn [app length] in Hlast.
    change (Z.of_nat 0) with 0 in Hlast. rewrite Hlast.
    rewrite absorb_block; [| | rewrite length_app, length_replicate; done].
    + f_equal. unfold b1. rewrite <- !app_assoc. do 2 f_equal. rewrite app_assoc, <- replicate_add. do 2 f_equal. lia.
    + rewrite length_app, Hb1. by rewrite (Nat.Div0.mod_add _ 1 64 : ((length full + 64) mod 64 = _)%nat).
  - rewrite decide_True by lia. rewrite last_block by lia.
    rewrite Hst, absorb_block; [| done | rewrite !length_app, length_replicate; cbn; lia].
    do 5 f_equal. lia.
Qed.

(** * Claims *)

(** Updating a context chunk by chunk. *)
Definition update_all (context : option kb2_sha256_context) (chunks : list (list Z)) : option kb2_sha256_context :=
  foldl (fun context chunk => kb2_sha256_update context (Some chunk) (blen chunk)) context chunks.

Lemma update_all_absorbs chunks cx message :
  absorbed message cx -> cx_byte_count cx = blen message -> Forall (Forall is_u8) chunks ->
  blen (message ++ concat chunks) < 2 ^ 64 ->
  exists cx', update_all (Some cx) chunks = Some cx' /\
    absorbed (message ++ concat chunks) cx' /\ cx_byte_count cx' = blen (message ++ concat chunks).
Proof.
  intros Ha Hc Hu Hl. revert cx message Ha Hc Hl. induction Hu as [|chunk chunks Hch _ IH]; intros cx message Ha Hc Hl.
  { exists cx. cbn. by rewrite app_nil_r. }
  cbn [update_all foldl concat] in *. destruct (update_absorbs cx message chunk) as (cx1 & E & Ha1 & Hc1); try done.
  { unfold blen in *. rewrite !length_app in *. lia. }
  rewrite E. rewrite app_assoc in *. by apply IH.
Qed.

Lemma sha256_one_call message out :
  Forall is_u8 message -> blen message < 2 ^ 61 -> length out = 32%nat ->
  kb2_sha256 (Some message) (blen message) (Some out) = Some (SHA256 message).
Proof.
  intros Hu Hl Ho. unfold kb2_sha256. cbn [bool_decide andb kb2_sha256_initialize].
  destruct (update_absorbs _ [] message initialize_absorbed) as (cx & -> & Ha & Hc); [done | done | cbn; lia |].
  cbn [app] in *. by rewrite (finish_absorbed cx _ out Ha Hc).
Qed.

(** C30. The code computes SHA-256 of FIPS 180-4: initializing a context, updating it
    with the chunks of a message of less than 2^61 bytes, however it is cut, and
    finishing leaves the standard's digest of the message in the digest buffer and a
    zeroed context; the one-call function gives the same digest. *)
Theorem sha256_computes_standard context chunks out :
  Forall (Forall is_u8) chunks -> blen (concat chunks) < 2 ^ 61 -> blen out = KB2_SHA256_DIGEST_SIZE ->
  kb2_sha256_finish (update_all (kb2_sha256_initialize (Some context)) chunks) (Some out) =
    (Some zero_context, Some (SHA256 (concat chunks))) /\
  kb2_sha256 (Some (concat chunks)) (blen (concat chunks)) (Some out) = Some (SHA256 (concat chunks)).
Proof.
  intros Hu Hl Ho. assert (Ho' : length out = 32%nat) by (unfold blen, KB2_SHA256_DIGEST_SIZE in Ho; lia).
  cbn [kb2_sha256_initialize]. split.
  - destruct (update_all_absorbs chunks _ [] initialize_absorbed) as (cx & -> & Ha & Hc); [done | done | cbn; lia |].
    by apply finish_absorbed.
  - apply sha256_one_call; [by apply Forall_concat | done | done].
Qed.

Lemma sha256_computes_standard_witness :
  SHA256 [97; 98; 99] =
    [0xba; 0x78; 0x16; 0xbf; 0x8f; 0x01; 0xcf; 0xea; 0x41; 0x41; 0x40; 0xde; 0x5d; 0xae; 0x22; 0x23;
     0xb0; 0x03; 0x61; 0xa3; 0x96; 0x17; 0x7a; 0x9c; 0xb4; 0x10; 0xff; 0x61; 0xf2; 0x00; 0x15; 0xad].
Proof.
  assert (Hu : Forall (Forall is_u8) [[97]; []; [98; 99]]) by (repeat constructor; unfold is_u8; lia).
  refine (eq_sym (inj Some _ _ (eq_trans (eq_sym sha256_abc) _))).
  refine (proj2 (sha256_computes_standard zero_context [[97]; []; [98; 99]] (replicate 32 0) Hu _ _)).
  - vm_compute. reflexivity.
  - reflexivity.
Defined.
