(* ===== verification/Protocol.v ===== *)
(** The channel protocol (protocol/src/protocol.c, protocol/include/kobox2/protocol.h):
    validation of decoded channels, and the wire form of channels and message
    envelopes.

    Buffers are lists of cells ([Bytes]); the size argument is passed beside the
    buffer as in C, and a pointer that may be NULL is an option.  A decoder's
    output cells are part of its result, since it may write some of them before it
    fails.  The layout constants are those of the generated protocol_layout.h. *)

From Stdlib Require Import ZArith Lia.
From stdpp Require Import base numbers tactics list_numbers list.
From S2P Require Import Prelude Bytes.

Open Scope Z_scope.

Inductive kb2_protocol_status : Type :=
| KB2_PROTOCOL_OK
| KB2_PROTOCOL_INVALID_ARGUMENT
| KB2_PROTOCOL_BUFFER_TOO_SMALL
| KB2_PROTOCOL_OVERFLOW
| KB2_PROTOCOL_MALFORMED
| KB2_PROTOCOL_SCHEMA_MISMATCH.

#[export] Instance kb2_protocol_status_eq_dec : EqDecision kb2_protocol_status.
Proof. solve_decision. Defined.

Record kb2_protocol_channel := mkChannel {
  ch_feature_bits : Z;
  ch_channel_id : Z;
  ch_generation : Z;
  ch_protocol_id : Z;
  ch_flags : Z;
}.

Record kb2_protocol_queue := mkQueue {
  q_queue_id : Z;
  q_role : Z;
  q_queue_size : Z;
  q_flags : Z;
  q_descriptor_address : Z;
  q_available_address : Z;
  q_used_address : Z;
  q_available_notification_id : Z;
  q_used_notification_id : Z;
  q_max_chain_length : Z;
  q_max_indirect_length : Z;
  q_max_outstanding : Z;
}.

Record kb2_protocol_region := mkRegion {
  rg_region_id : Z;
  rg_rights : Z;
  rg_transport_base : Z;
  rg_length : Z;
}.

Record kb2_protocol_message_envelope := mkEnvelope {
  en_protocol_id : Z;
  en_opcode : Z;
  en_flags : Z;
  en_generation : Z;
  en_correlation_id : Z;
  en_payload_length : Z;
}.

(** * Layout *)

Definition kb2_protocol_abi_identity : list Z := [0x64; 0x65; 0x76; 0x00].
Definition kb2_protocol_schema_digest : list Z :=
  [0xf8; 0x55; 0x61; 0x67; 0x8b; 0x4a; 0x58; 0x93; 0x61; 0xae; 0xb4; 0xd4; 0x29; 0x31; 0x21; 0x7c;
   0x2c; 0x7c; 0x58; 0xdc; 0xb3; 0x0a; 0xf4; 0xca; 0xc8; 0xae; 0x74; 0x15; 0xb0; 0xb1; 0xc4; 0x23].

Definition KB2_PROTOCOL_MIN_QUEUES : Z := 1.
Definition KB2_PROTOCOL_MAX_QUEUES : Z := 1024.
Definition KB2_PROTOCOL_MAX_REGIONS : Z := 1024.
Definition KB2_PROTOCOL_QUEUE_SIZE_MIN : Z := 1.
Definition KB2_PROTOCOL_QUEUE_SIZE_MAX : Z := 32768.
Definition KB2_PROTOCOL_TRANSPORT_FEATURES_REQUIRED : Z := 805306368.
Definition KB2_PROTOCOL_CHANNEL_FLAG_MANAGEMENT : Z := 1.
Definition KB2_PROTOCOL_CHANNEL_FLAG_DATA : Z := 2.
Definition KB2_PROTOCOL_QUEUE_ROLE_EVENT : Z := 1.
Definition KB2_PROTOCOL_QUEUE_ROLE_REQUEST : Z := 2.
Definition KB2_PROTOCOL_CHANNEL_REQUEST_QUEUES_MIN : Z := 1.
Definition KB2_PROTOCOL_CHANNEL_EVENT_QUEUES_MAX : Z := 1.
Definition KB2_PROTOCOL_REGION_RIGHT_READ : Z := 1.
Definition KB2_PROTOCOL_REGION_RIGHT_WRITE : Z := 2.
Definition KB2_PROTOCOL_MESSAGE_ENVELOPE_SIZE : Z := 40.
Definition KB2_PROTOCOL_CHANNEL_HEADER_SIZE : Z := 96.
Definition KB2_PROTOCOL_QUEUE_DESCRIPTOR_SIZE : Z := 64.
Definition KB2_PROTOCOL_REGION_DESCRIPTOR_SIZE : Z := 32.

(** * Arithmetic helpers *)

(** [None] when base + count * width does not fit size_t. *)
Definition kb2_size_add_multiply (base count width : Z) : option Z :=
  if negb (count =? 0) && ((SIZE_MAX - base) / count <? width) then None
  else Some (u64 (base + u64 (count * width))).

Definition kb2_u64_range_valid (base length : Z) : bool :=
  negb (length =? 0) && (base <=? u64 (U64_MAX - length)).

Definition kb2_ranges_overlap (left_base left_length right_base right_length : Z) : bool :=
  (left_base <? u64 (right_base + right_length)) && (right_base <? u64 (left_base + left_length)).

(** * Validation *)

Definition kb2_range_has_rights (base length required_rights : Z)
    (regions : list kb2_protocol_region) : bool :=
  if negb (kb2_u64_range_valid base length) then false
  else
    existsb (fun region =>
               (Z.land (rg_rights region) required_rights =? required_rights) &&
               (rg_transport_base region <=? base) &&
               (u64 (base + length) <=? u64 (rg_transport_base region + rg_length region))) regions.

Definition kb2_queue_range_length (queue : kb2_protocol_queue) (range_index : nat) : Z :=
  match range_index with
  | 0%nat => u64 (q_queue_size queue * 16)
  | 1%nat => u64 (6 + u64 (q_queue_size queue * 2))
  | 2%nat => u64 (6 + u64 (q_queue_size queue * 8))
  | _ => 0
  end.

Definition kb2_queue_range_base (queue : kb2_protocol_queue) (range_index : nat) : Z :=
  match range_index with
  | 0%nat => q_descriptor_address queue
  | 1%nat => q_available_address queue
  | 2%nat => q_used_address queue
  | _ => 0
  end.

Definition known_region_rights : Z :=
  Z.lor KB2_PROTOCOL_REGION_RIGHT_READ KB2_PROTOCOL_REGION_RIGHT_WRITE.

Definition region_well_formed (region : kb2_protocol_region) : bool :=
  negb ((rg_region_id region =? 0) || (rg_rights region =? 0) ||
        negb (rg_rights region &~ known_region_rights =? 0) ||
        negb (kb2_u64_range_valid (rg_transport_base region) (rg_length region))).

Definition regions_conflict (region previous : kb2_protocol_region) : bool :=
  (rg_region_id region =? rg_region_id previous) ||
  kb2_ranges_overlap (rg_transport_base region) (rg_length region)
    (rg_transport_base previous) (rg_length previous).

(** The loop over [left]; [seen] are the regions before it. *)
Fixpoint validate_regions_loop (seen regions : list kb2_protocol_region) : bool :=
  match regions with
  | [] => true
  | region :: regions =>
      region_well_formed region && forallb (fun previous => negb (regions_conflict region previous)) seen &&
      validate_regions_loop (seen ++ [region]) regions
  end.

Definition kb2_validate_regions (regions : list kb2_protocol_region) : bool :=
  validate_regions_loop [] regions.

Definition kb2_queue_identity_unique (previous : list kb2_protocol_queue)
    (queue : kb2_protocol_queue) : bool :=
  forallb (fun p =>
    negb ((q_queue_id queue =? q_queue_id p) ||
          (q_available_notification_id queue =? q_available_notification_id p) ||
          (q_available_notification_id queue =? q_used_notification_id p) ||
          (q_used_notification_id queue =? q_available_notification_id p) ||
          (q_used_notification_id queue =? q_used_notification_id p))) previous &&
  negb (q_available_notification_id queue =? q_used_notification_id queue).

Definition queue_ranges_overlap (q : kb2_protocol_queue) (i : nat) (p : kb2_protocol_queue) (j : nat) : bool :=
  kb2_ranges_overlap (kb2_queue_range_base q i) (kb2_queue_range_length q i)
    (kb2_queue_range_base p j) (kb2_queue_range_length p j).

Definition kb2_queue_ranges_unique (previous : list kb2_protocol_queue)
    (queue : kb2_protocol_queue) : bool :=
  forallb (fun current_range =>
    forallb (fun p => forallb (fun j => negb (queue_ranges_overlap queue current_range p j)) (seq 0 3))
            previous &&
    forallb (fun j => negb (queue_ranges_overlap queue current_range queue j)) (seq 0 current_range))
    (seq 0 3).

Definition queue_scalars_valid (queue : kb2_protocol_queue) : bool :=
  negb ((q_queue_id queue =? 0) || negb (q_flags queue =? 0) ||
        (negb (q_role queue =? KB2_PROTOCOL_QUEUE_ROLE_EVENT) &&
         negb (q_role queue =? KB2_PROTOCOL_QUEUE_ROLE_REQUEST)) ||
        (q_queue_size queue <? KB2_PROTOCOL_QUEUE_SIZE_MIN) ||
        (KB2_PROTOCOL_QUEUE_SIZE_MAX <? q_queue_size queue) ||
        negb (Z.land (q_queue_size queue) (u32 (q_queue_size queue - 1)) =? 0) ||
        (q_available_notification_id queue =? 0) || (q_used_notification_id queue =? 0) ||
        (q_max_chain_length queue =? 0) || (q_queue_size queue <? q_max_chain_length queue) ||
        (q_max_indirect_length queue =? 0) ||
        (KB2_PROTOCOL_QUEUE_SIZE_MAX <? q_max_indirect_length queue) ||
        (q_max_outstanding queue =? 0) || (q_queue_size queue <? q_max_outstanding queue)).

Definition queue_rings_valid (queue : kb2_protocol_queue) (regions : list kb2_protocol_region) : bool :=
  negb (negb (Z.land (q_descriptor_address queue) 15 =? 0) ||
        negb (Z.land (q_available_address queue) 1 =? 0) ||
        negb (Z.land (q_used_address queue) 3 =? 0) ||
        negb (kb2_range_has_rights (q_descriptor_address queue) (kb2_queue_range_length queue 0)
                known_region_rights regions) ||
        negb (kb2_range_has_rights (q_available_address queue) (kb2_queue_range_length queue 1)
                known_region_rights regions) ||
        negb (kb2_range_has_rights (q_used_address queue) (kb2_queue_range_length queue 2)
                known_region_rights regions)).

(** The loop over the queues, with the event and request counts. *)
Fixpoint validate_queues_loop (regions : list kb2_protocol_region) (seen queues : list kb2_protocol_queue)
    (event_count request_count : Z) : bool :=
  match queues with
  | [] => (event_count <=? KB2_PROTOCOL_CHANNEL_EVENT_QUEUES_MAX) &&
          (KB2_PROTOCOL_CHANNEL_REQUEST_QUEUES_MIN <=? request_count)
  | queue :: queues =>
      if negb (queue_scalars_valid queue) || negb (kb2_queue_identity_unique seen queue) then false
      else
        let event := q_role queue =? KB2_PROTOCOL_QUEUE_ROLE_EVENT in
        let event_count := if event then event_count + 1 else event_count in
        let request_count := if event then request_count else request_count + 1 in
        if negb (queue_rings_valid queue regions) || negb (kb2_queue_ranges_unique seen queue) then false
        else validate_queues_loop regions (seen ++ [queue]) queues event_count request_count
  end.

Definition kb2_validate_queues (queues : list kb2_protocol_queue)
    (regions : list kb2_protocol_region) : bool :=
  validate_queues_loop regions [] queues 0 0.

(** The first [count] elements of the array behind a pointer. *)
Definition array_items {T} (array : list T) (count : Z) : list T := take (Z.to_nat count) array.

Definition kb2_validate_channel_model (channel : option kb2_protocol_channel)
    (queues : option (list kb2_protocol_queue)) (queue_count : Z)
    (regions : option (list kb2_protocol_region)) (region_count : Z) : bool :=
  match channel, queues, regions with
  | Some channel, Some queues, Some regions =>
      if (queue_count <? KB2_PROTOCOL_MIN_QUEUES) || (KB2_PROTOCOL_MAX_QUEUES <? queue_count) ||
         (region_count =? 0) || (KB2_PROTOCOL_MAX_REGIONS <? region_count) ||
         negb (ch_feature_bits channel =? KB2_PROTOCOL_TRANSPORT_FEATURES_REQUIRED) ||
         (ch_channel_id channel =? 0) || (ch_generation channel =? 0) ||
         (ch_protocol_id channel =? 0) ||
         (negb (ch_flags channel =? KB2_PROTOCOL_CHANNEL_FLAG_MANAGEMENT) &&
          negb (ch_flags channel =? KB2_PROTOCOL_CHANNEL_FLAG_DATA)) then false
      else
        kb2_validate_regions (array_items regions region_count) &&
        kb2_validate_queues (array_items queues queue_count) (array_items regions region_count)
  | _, _, _ => false
  end.

Definition kb2_protocol_channel_validate channel queues queue_count regions region_count :=
  if kb2_validate_channel_model channel queues queue_count regions region_count
  then KB2_PROTOCOL_OK else KB2_PROTOCOL_MALFORMED.

Definition kb2_protocol_copy_schema_digest (out_given : bool) (digest_size : Z) :
    kb2_protocol_status * option (list Z) :=
  if negb out_given || negb (digest_size =? blen kb2_protocol_schema_digest) then
    (KB2_PROTOCOL_INVALID_ARGUMENT, None)
  else (KB2_PROTOCOL_OK, Some kb2_protocol_schema_digest).

(** * Encoding *)

Definition kb2_protocol_channel_encoded_size (queue_count region_count : Z) (out_given : bool) :
    kb2_protocol_status * option Z :=
  if negb out_given || (queue_count <? KB2_PROTOCOL_MIN_QUEUES) ||
     (KB2_PROTOCOL_MAX_QUEUES <? queue_count) || (region_count =? 0) ||
     (KB2_PROTOCOL_MAX_REGIONS <? region_count) then (KB2_PROTOCOL_INVALID_ARGUMENT, None)
  else
    match kb2_size_add_multiply KB2_PROTOCOL_CHANNEL_HEADER_SIZE queue_count
            KB2_PROTOCOL_QUEUE_DESCRIPTOR_SIZE with
    | None => (KB2_PROTOCOL_OVERFLOW, None)
    | Some size =>
        match kb2_size_add_multiply size region_count KB2_PROTOCOL_REGION_DESCRIPTOR_SIZE with
        | None => (KB2_PROTOCOL_OVERFLOW, None)
        | Some size =>
            if U32_MAX <? size then (KB2_PROTOCOL_OVERFLOW, None) else (KB2_PROTOCOL_OK, Some size)
        end
    end.

Definition kb2_encode_queue (b : list Z) (d : Z) (queue : kb2_protocol_queue) : list Z :=
  let b := store_u32 b d (q_queue_id queue) in
  let b := store_u32 b (d + 4) (q_role queue) in
  let b := store_u32 b (d + 8) (q_queue_size queue) in
  let b := store_u32 b (d + 12) (q_flags queue) in
  let b := store_u64 b (d + 16) (q_descriptor_address queue) in
  let b := store_u64 b (d + 24) (q_available_address queue) in
  let b := store_u64 b (d + 32) (q_used_address queue) in
  let b := store_u32 b (d + 40) (q_available_notification_id queue) in
  let b := store_u32 b (d + 44) (q_used_notification_id queue) in
  let b := store_u32 b (d + 48) (q_max_chain_length queue) in
  let b := store_u32 b (d + 52) (q_max_indirect_length queue) in
  store_u32 b (d + 56) (q_max_outstanding queue).

Definition kb2_encode_region (b : list Z) (d : Z) (region : kb2_protocol_region) : list Z :=
  let b := store_u32 b d (rg_region_id region) in
  let b := store_u32 b (d + 4) (rg_rights region) in
  let b := store_u64 b (d + 8) (rg_transport_base region) in
  store_u64 b (d + 16) (rg_length region).

(** for (index ...) encode(buffer + table + index * size, &items[index]) *)
Fixpoint encode_table {T} (encode : list Z -> Z -> T -> list Z) (size : Z) (b : list Z) (d : Z)
    (items : list T) : list Z :=
  match items with
  | [] => b
  | x :: items => encode_table encode size (encode b d x) (d + size) items
  end.

Definition encode_header (b : list Z) (encoded_size queue_count region_count region_table_offset : Z)
    (channel : kb2_protocol_channel) : list Z :=
  let b := store_u32 b 0 (u32 encoded_size) in
  let b := put_bytes b 4 kb2_protocol_abi_identity in
  let b := put_bytes b 8 kb2_protocol_schema_digest in
  let b := store_u64 b 40 (ch_feature_bits channel) in
  let b := store_u64 b 48 (ch_channel_id channel) in
  let b := store_u64 b 56 (ch_generation channel) in
  let b := store_u32 b 64 (ch_protocol_id channel) in
  let b := store_u32 b 68 (ch_flags channel) in
  let b := store_u32 b 72 (u32 queue_count) in
  let b := store_u32 b 76 (u32 region_count) in
  let b := store_u32 b 80 (u32 KB2_PROTOCOL_CHANNEL_HEADER_SIZE) in
  store_u32 b 84 (u32 region_table_offset).

(** The status, *encoded_size_out when it was written, and the buffer. *)
Definition kb2_protocol_channel_encode (buffer : option (list Z)) (buffer_size : Z) (out_given : bool)
    (channel : option kb2_protocol_channel) (queues : option (list kb2_protocol_queue))
    (queue_count : Z) (regions : option (list kb2_protocol_region)) (region_count : Z) :
    kb2_protocol_status * option Z * option (list Z) :=
  match buffer with
  | None => (KB2_PROTOCOL_INVALID_ARGUMENT, None, None)
  | Some b =>
      if negb out_given then (KB2_PROTOCOL_INVALID_ARGUMENT, None, Some b)
      else
        match kb2_protocol_channel_encoded_size queue_count region_count true with
        | (KB2_PROTOCOL_OK, Some encoded_size) =>
            if buffer_size <? encoded_size then
              (KB2_PROTOCOL_BUFFER_TOO_SMALL, Some encoded_size, Some b)
            else if negb (kb2_validate_channel_model channel queues queue_count regions region_count) then
              (KB2_PROTOCOL_MALFORMED, Some encoded_size, Some b)
            else
              match channel, queues, regions with
              | Some channel, Some queues, Some regions =>
                  let region_table_offset :=
                    u64 (KB2_PROTOCOL_CHANNEL_HEADER_SIZE +
                         u64 (queue_count * KB2_PROTOCOL_QUEUE_DESCRIPTOR_SIZE)) in
                  let b := zero_bytes b 0 encoded_size in
                  let b := encode_header b encoded_size queue_count region_count region_table_offset channel in
                  let b := encode_table kb2_encode_queue KB2_PROTOCOL_QUEUE_DESCRIPTOR_SIZE b
                             KB2_PROTOCOL_CHANNEL_HEADER_SIZE (array_items queues queue_count) in
                  let b := encode_table kb2_encode_region KB2_PROTOCOL_REGION_DESCRIPTOR_SIZE b
                             region_table_offset (array_items regions region_count) in
                  (KB2_PROTOCOL_OK, Some encoded_size, Some b)
              | _, _, _ => (KB2_PROTOCOL_MALFORMED, Some encoded_size, Some b)
              end
        | (status, _) => (status, None, Some b)
        end
  end.

(** * Decoding *)

Definition kb2_decode_queue (b : list Z) (s : Z) : kb2_protocol_queue :=
  mkQueue (load_u32 b s) (load_u32 b (s + 4)) (load_u32 b (s + 8)) (load_u32 b (s + 12))
    (load_u64 b (s + 16)) (load_u64 b (s + 24)) (load_u64 b (s + 32))
    (load_u32 b (s + 40)) (load_u32 b (s + 44)) (load_u32 b (s + 48)) (load_u32 b (s + 52))
    (load_u32 b (s + 56)).

Definition kb2_decode_region (b : list Z) (s : Z) : kb2_protocol_region :=
  mkRegion (load_u32 b s) (load_u32 b (s + 4)) (load_u64 b (s + 8)) (load_u64 b (s + 16)).

(** The loop over a table: the records written, and whether all reserved fields
    were zero (it stops at the first that is not). *)
Fixpoint decode_table {T} (decode : list Z -> Z -> T) (reserved_zero : list Z -> Z -> bool) (size : Z)
    (b : list Z) (s : Z) (count : nat) : list T * bool :=
  match count with
  | O => ([], true)
  | S count =>
      if negb (reserved_zero b s) then ([], false)
      else
        let '(items, ok) := decode_table decode reserved_zero size b (s + size) count in
        (decode b s :: items, ok)
  end.

(** The output cells a decode wrote: the counts, the channel and the leading
    entries of the two arrays. *)
Record decode_out := mkDecodeOut {
  out_counts : option (Z * Z);
  out_channel : option kb2_protocol_channel;
  out_queues : list kb2_protocol_queue;
  out_regions : list kb2_protocol_region;
}.

Definition nothing_written : decode_out := mkDecodeOut None None [] [].

Definition kb2_protocol_channel_decode (buffer : option (list Z)) (buffer_size : Z)
    (channel_given queues_given : bool) (queue_capacity : Z) (queue_count_given regions_given : bool)
    (region_capacity : Z) (region_count_given : bool) : kb2_protocol_status * decode_out :=
  match buffer with
  | None => (KB2_PROTOCOL_INVALID_ARGUMENT, nothing_written)
  | Some b =>
      if negb channel_given || negb queues_given || negb queue_count_given || negb regions_given ||
         negb region_count_given then (KB2_PROTOCOL_INVALID_ARGUMENT, nothing_written)
      else if buffer_size <? KB2_PROTOCOL_CHANNEL_HEADER_SIZE then
        (KB2_PROTOCOL_BUFFER_TOO_SMALL, nothing_written)
      else if negb (bytes_equal b 4 kb2_protocol_abi_identity) ||
              negb (bytes_equal b 8 kb2_protocol_schema_digest) then
        (KB2_PROTOCOL_SCHEMA_MISMATCH, nothing_written)
      else if negb (load_u32 b 88 =? 0) || negb (load_u32 b 92 =? 0) then
        (KB2_PROTOCOL_MALFORMED, nothing_written)
      else
        let queue_count := load_u32 b 72 in
        let region_count := load_u32 b 76 in
        let out := mkDecodeOut (Some (queue_count, region_count)) None [] [] in
        match kb2_protocol_channel_encoded_size queue_count region_count true with
        | (KB2_PROTOCOL_OK, Some expected_size) =>
            let queue_table_offset := load_u32 b 80 in
            let region_table_offset := load_u32 b 84 in
            if negb (load_u32 b 0 =? expected_size) ||
               negb (queue_table_offset =? KB2_PROTOCOL_CHANNEL_HEADER_SIZE) ||
               negb (region_table_offset =?
                       u64 (queue_table_offset + u64 (queue_count * KB2_PROTOCOL_QUEUE_DESCRIPTOR_SIZE))) then
              (KB2_PROTOCOL_MALFORMED, out)
            else if (buffer_size <? expected_size) || (queue_capacity <? queue_count) ||
                    (region_capacity <? region_count) then (KB2_PROTOCOL_BUFFER_TOO_SMALL, out)
            else
              let channel := mkChannel (load_u64 b 40) (load_u64 b 48) (load_u64 b 56)
                               (load_u32 b 64) (load_u32 b 68) in
              let '(queues, queues_ok) :=
                decode_table kb2_decode_queue (fun b s => load_u32 b (s + 60) =? 0)
                  KB2_PROTOCOL_QUEUE_DESCRIPTOR_SIZE b queue_table_offset (Z.to_nat queue_count) in
              if negb queues_ok then
                (KB2_PROTOCOL_MALFORMED, mkDecodeOut (out_counts out) (Some channel) queues [])
              else
                let '(regions, regions_ok) :=
                  decode_table kb2_decode_region (fun b s => load_u64 b (s + 24) =? 0)
                    KB2_PROTOCOL_REGION_DESCRIPTOR_SIZE b region_table_offset (Z.to_nat region_count) in
                let out := mkDecodeOut (out_counts out) (Some channel) queues regions in
                if negb regions_ok then (KB2_PROTOCOL_MALFORMED, out)
                else if negb (kb2_validate_channel_model (Some channel) (Some queues) queue_count
                                (Some regions) region_count) then (KB2_PROTOCOL_MALFORMED, out)
                else (KB2_PROTOCOL_OK, out)
        | _ => (KB2_PROTOCOL_MALFORMED, out)
        end
  end.

(** * Message envelopes *)

Definition kb2_protocol_message_envelope_encode (buffer : option (list Z)) (buffer_size : Z)
    (envelope : option kb2_protocol_message_envelope) : kb2_protocol_status * option (list Z) :=
  match buffer, envelope with
  | Some b, Some e =>
      if (en_protocol_id e =? 0) || (en_generation e =? 0) then (KB2_PROTOCOL_INVALID_ARGUMENT, Some b)
      else
        match kb2_size_add_multiply KB2_PROTOCOL_MESSAGE_ENVELOPE_SIZE (en_payload_length e) 1 with
        | None => (KB2_PROTOCOL_OVERFLOW, Some b)
        | Some total_size =>
            if buffer_size <? total_size then (KB2_PROTOCOL_BUFFER_TOO_SMALL, Some b)
            else
              let b := zero_bytes b 0 KB2_PROTOCOL_MESSAGE_ENVELOPE_SIZE in
              let b := store_u32 b 0 (en_protocol_id e) in
              let b := put_bytes b 4 kb2_protocol_abi_identity in
              let b := store_u32 b 8 (en_opcode e) in
              let b := store_u32 b 12 (en_flags e) in
              let b := store_u64 b 16 (en_generation e) in
              let b := store_u64 b 24 (en_correlation_id e) in
              (KB2_PROTOCOL_OK, Some (store_u32 b 32 (en_payload_length e)))
        end
  | _, _ => (KB2_PROTOCOL_INVALID_ARGUMENT, buffer)
  end.

Definition kb2_protocol_message_envelope_decode (buffer : option (list Z)) (buffer_size : Z)
    (out_given : bool) : kb2_protocol_status * option kb2_protocol_message_envelope :=
  match buffer with
  | None => (KB2_PROTOCOL_INVALID_ARGUMENT, None)
  | Some b =>
      if negb out_given then (KB2_PROTOCOL_INVALID_ARGUMENT, None)
      else if buffer_size <? KB2_PROTOCOL_MESSAGE_ENVELOPE_SIZE then
        (KB2_PROTOCOL_BUFFER_TOO_SMALL, None)
      else if negb (bytes_equal b 4 kb2_protocol_abi_identity) then (KB2_PROTOCOL_SCHEMA_MISMATCH, None)
      else if negb (load_u32 b 36 =? 0) then (KB2_PROTOCOL_MALFORMED, None)
      else
        let e := mkEnvelope (load_u32 b 0) (load_u32 b 8) (load_u32 b 12) (load_u64 b 16)
                   (load_u64 b 24) (load_u32 b 32) in
        if (en_protocol_id e =? 0) || (en_generation e =? 0) then (KB2_PROTOCOL_MALFORMED, Some e)
        else
          match kb2_size_add_multiply KB2_PROTOCOL_MESSAGE_ENVELOPE_SIZE (en_payload_length e) 1 with
          | None => (KB2_PROTOCOL_OVERFLOW, Some e)
          | Some total_size =>
              if buffer_size <? total_size then (KB2_PROTOCOL_BUFFER_TOO_SMALL, Some e)
              else (KB2_PROTOCOL_OK, Some e)
          end
  end.
