(* ===== verification/ProtocolSpec.v ===== *)
(** What the channel protocol guarantees: the validator decides a specification
    over unbounded address ranges (so no wrap-around slips through), encoding and
    decoding are inverse to each other, and a decoder only depends on the bytes
    inside the size it was given. *)

From Stdlib Require Import ZArith Lia.
From stdpp Require Import base numbers tactics sets list_numbers list.
From S2P Require Import Prelude Bytes Protocol.

Open Scope Z_scope.

(** * Values of the decoded structures *)

Record channel_typed (c : kb2_protocol_channel) : Prop := {
  ct_feature_bits : is_u64 (ch_feature_bits c);
  ct_channel_id : is_u64 (ch_channel_id c);
  ct_generation : is_u64 (ch_generation c);
  ct_protocol_id : is_u32 (ch_protocol_id c);
  ct_flags : is_u32 (ch_flags c);
}.

Record queue_typed (q : kb2_protocol_queue) : Prop := {
  qt_queue_id : is_u32 (q_queue_id q);
  qt_role : is_u32 (q_role q);
  qt_queue_size : is_u32 (q_queue_size q);
  qt_flags : is_u32 (q_flags q);
  qt_descriptor_address : is_u64 (q_descriptor_address q);
  qt_available_address : is_u64 (q_available_address q);
  qt_used_address : is_u64 (q_used_address q);
  qt_available_notification_id : is_u32 (q_available_notification_id q);
  qt_used_notification_id : is_u32 (q_used_notification_id q);
  qt_max_chain_length : is_u32 (q_max_chain_length q);
  qt_max_indirect_length : is_u32 (q_max_indirect_length q);
  qt_max_outstanding : is_u32 (q_max_outstanding q);
}.

Record region_typed (r : kb2_protocol_region) : Prop := {
  rt_region_id : is_u32 (rg_region_id r);
  rt_rights : is_u32 (rg_rights r);
  rt_transport_base : is_u64 (rg_transport_base r);
  rt_length : is_u64 (rg_length r);
}.

(** * The specification of a channel *)

Definition disjoint_ranges (x y : Z * Z) : Prop := ~ ranges_meet x.1 x.2 y.1 y.2.

Record region_ok (r : kb2_protocol_region) : Prop := {
  ro_id : rg_region_id r <> 0;
  ro_rights : 1 <= rg_rights r <= known_region_rights;
  ro_length : 0 < rg_length r;
  ro_fits : rg_transport_base r + rg_length r <= U64_MAX;
}.

Definition region_range (r : kb2_protocol_region) : Z * Z := (rg_transport_base r, rg_length r).

(** Descriptor table, available ring and used ring, as ranges of addresses. *)
Definition rings (q : kb2_protocol_queue) : list (Z * Z) :=
  [(q_descriptor_address q, 16 * q_queue_size q);
   (q_available_address q, 6 + 2 * q_queue_size q);
   (q_used_address q, 6 + 8 * q_queue_size q)].

Definition notifications (q : kb2_protocol_queue) : list Z :=
  [q_available_notification_id q; q_used_notification_id q].

(** The range lies in a region that may be read and written. *)
Definition covered (regions : list kb2_protocol_region) (range : Z * Z) : Prop :=
  exists r, r ∈ regions /\ rg_rights r = known_region_rights /\
    rg_transport_base r <= range.1 /\ range.1 + range.2 <= rg_transport_base r + rg_length r.

Record queue_ok (regions : list kb2_protocol_region) (q : kb2_protocol_queue) : Prop := {
  qo_id : q_queue_id q <> 0;
  qo_flags : q_flags q = 0;
  qo_role : q_role q = KB2_PROTOCOL_QUEUE_ROLE_EVENT \/ q_role q = KB2_PROTOCOL_QUEUE_ROLE_REQUEST;
  qo_size : exists k, 0 <= k <= 15 /\ q_queue_size q = 2 ^ k;
  qo_available : q_available_notification_id q <> 0;
  qo_used : q_used_notification_id q <> 0;
  qo_chain : 1 <= q_max_chain_length q <= q_queue_size q;
  qo_indirect : 1 <= q_max_indirect_length q <= KB2_PROTOCOL_QUEUE_SIZE_MAX;
  qo_outstanding : 1 <= q_max_outstanding q <= q_queue_size q;
  qo_aligned : q_descriptor_address q mod 16 = 0 /\ q_available_address q mod 2 = 0 /\
               q_used_address q mod 4 = 0;
  qo_covered : forall range, range ∈ rings q -> covered regions range;
}.

Record channel_ok (c : kb2_protocol_channel) (queues : list kb2_protocol_queue)
    (regions : list kb2_protocol_region) : Prop := {
  co_features : ch_feature_bits c = KB2_PROTOCOL_TRANSPORT_FEATURES_REQUIRED;
  co_identity : ch_channel_id c <> 0 /\ ch_generation c <> 0 /\ ch_protocol_id c <> 0;
  co_flags : ch_flags c = KB2_PROTOCOL_CHANNEL_FLAG_MANAGEMENT \/
             ch_flags c = KB2_PROTOCOL_CHANNEL_FLAG_DATA;
  co_regions : Forall region_ok regions;
  co_region_ids : NoDup (rg_region_id <$> regions);
  co_region_ranges : pairwise disjoint_ranges (region_range <$> regions);
  co_queues : Forall (queue_ok regions) queues;
  co_queue_ids : NoDup (q_queue_id <$> queues);
  co_notifications : NoDup (mjoin (notifications <$> queues));
  co_rings : pairwise disjoint_ranges (mjoin (rings <$> queues));
  co_events : Z.of_nat (length (filter (fun q => q_role q = KB2_PROTOCOL_QUEUE_ROLE_EVENT) queues)) <= 1;
  co_requests : 1 <= Z.of_nat (length (filter (fun q => q_role q <> KB2_PROTOCOL_QUEUE_ROLE_EVENT) queues));
}.

(** * Ranges *)

Lemma range_valid_spec base len :
  is_u64 base -> is_u64 len ->
  kb2_u64_range_valid base len = true <-> 0 < len /\ base + len <= U64_MAX.
Proof.
  unfold kb2_u64_range_valid, is_u64, U64_MAX. intros Hb Hl.
  rewrite u64_small by (unfold is_u64; lia). lia.
Qed.

(** On valid ranges the sums do not wrap, and the test decides the intersection. *)
Lemma ranges_overlap_spec b n c m :
  0 <= b -> 0 < n -> b + n <= U64_MAX -> 0 <= c -> 0 < m -> c + m <= U64_MAX ->
  kb2_ranges_overlap b n c m = true <-> ranges_meet b n c m.
Proof.
  unfold U64_MAX. intros. rewrite ranges_meet_iff by done. unfold kb2_ranges_overlap.
  rewrite !u64_small by (unfold is_u64; lia). lia.
Qed.

Lemma region_well_formed_spec r :
  region_typed r -> region_well_formed r = true <-> region_ok r.
Proof.
  intros [Hi Hr Hb Hl]. unfold region_well_formed.
  rewrite negb_true_iff, !orb_false_iff, !negb_false_iff, !Z.eqb_neq, Z.eqb_eq, range_valid_spec by done.
  change known_region_rights with (Z.ones 2). unfold is_u32 in Hr. rewrite andn_ones_0 by lia.
  split.
  - intros [[[? ?] ?] [? ?]]. constructor; try done. change known_region_rights with 3. lia.
  - intros [? H ? ?]. change known_region_rights with 3 in H. split_and!; lia.
Qed.

Lemma regions_conflict_spec r p :
  region_typed r -> region_typed p -> region_ok r -> region_ok p ->
  regions_conflict r p = false <->
  rg_region_id r <> rg_region_id p /\ disjoint_ranges (region_range r) (region_range p).
Proof.
  intros [_ _ Hb _] [_ _ Hb' _] [_ _ Hl Hf] [_ _ Hl' Hf']. unfold is_u64 in *.
  unfold regions_conflict, disjoint_ranges, region_range. cbn.
  rewrite orb_false_iff, Z.eqb_neq, <- not_true_iff_false, ranges_overlap_spec by lia. done.
Qed.

Lemma disjoint_ranges_sym x y : disjoint_ranges x y <-> disjoint_ranges y x.
Proof. unfold disjoint_ranges. by rewrite ranges_meet_sym. Qed.

Lemma validate_regions_loop_spec seen regions :
  Forall region_typed seen -> Forall region_ok seen ->
  NoDup (rg_region_id <$> seen) -> pairwise disjoint_ranges (region_range <$> seen) ->
  Forall region_typed regions ->
  validate_regions_loop seen regions = true <->
  Forall region_ok (seen ++ regions) /\ NoDup (rg_region_id <$> seen ++ regions) /\
  pairwise disjoint_ranges (region_range <$> seen ++ regions).
Proof.
  revert seen. induction regions as [|r regions IH]; intros seen Hst Hso Hnd Hpw Ht; cbn [validate_regions_loop].
  { rewrite app_nil_r. done. }
  apply Forall_cons in Ht as [Hrt Ht].
  replace (seen ++ r :: regions) with ((seen ++ [r]) ++ regions) by (by rewrite <- app_assoc).
  rewrite !andb_true_iff, region_well_formed_spec by done.
  assert (Hconf : region_ok r ->
    forallb (fun previous => negb (regions_conflict r previous)) seen = true <->
    rg_region_id r ∉ (rg_region_id <$> seen) /\
    forall x, x ∈ (region_range <$> seen) -> disjoint_ranges x (region_range r)).
  { intros Hok. rewrite forallb_forall. setoid_rewrite <- list_elem_of_In.
    setoid_rewrite negb_true_iff. rewrite Forall_forall in Hst, Hso. split.
    - intros Hall. split.
      + intros (p & Hid & Hp)%list_elem_of_fmap. specialize (Hall p Hp).
        apply (regions_conflict_spec r p Hrt (Hst p Hp) Hok (Hso p Hp)) in Hall. tauto.
      + intros x (p & -> & Hp)%list_elem_of_fmap. specialize (Hall p Hp).
        apply (regions_conflict_spec r p Hrt (Hst p Hp) Hok (Hso p Hp)) in Hall.
        apply disjoint_ranges_sym, Hall.
    - intros [Hid Hdis] p Hp. apply (regions_conflict_spec r p Hrt (Hst p Hp) Hok (Hso p Hp)). split.
      + intros Heq. apply Hid. rewrite Heq. by apply list_elem_of_fmap_2.
      + apply disjoint_ranges_sym, Hdis. by apply list_elem_of_fmap_2. }
  assert (Hstep : region_ok r -> rg_region_id r ∉ (rg_region_id <$> seen) ->
    (forall x, x ∈ (region_range <$> seen) -> disjoint_ranges x (region_range r)) ->
    validate_regions_loop (seen ++ [r]) regions = true <->
    Forall region_ok ((seen ++ [r]) ++ regions) /\ NoDup (rg_region_id <$> (seen ++ [r]) ++ regions) /\
    pairwise disjoint_ranges (region_range <$> (seen ++ [r]) ++ regions)).
  { intros Hok Hid Hdis. apply IH; [.. | done].
    - apply Forall_app. split; [done | by apply Forall_singleton].
    - apply Forall_app. split; [done | by apply Forall_singleton].
    - rewrite fmap_app. apply NoDup_app. split_and!; [done | | apply NoDup_singleton].
      intros x Hx ->%list_elem_of_singleton. done.
    - rewrite fmap_app. apply pairwise_app. split_and!; [done | apply pairwise_singleton |].
      intros x y Hx ->%list_elem_of_singleton. by apply Hdis. }
  split.
  - intros [[Hok Hc%Hconf] Hl]; [| done]. destruct Hc as [Hid Hdis]. by apply Hstep.
  - intros (Hall & Hids & Hdis).
    assert (Hok : region_ok r).
    { rewrite Forall_forall in Hall. apply Hall. rewrite !elem_of_app. left. right. by left. }
    assert (Hid : rg_region_id r ∉ (rg_region_id <$> seen)).
    { rewrite !fmap_app in Hids. apply NoDup_app in Hids as (Hids & _).
      apply NoDup_app in Hids as (_ & Hids & _). intros Hin. apply (Hids _ Hin). by left. }
    assert (Hd : forall x, x ∈ (region_range <$> seen) -> disjoint_ranges x (region_range r)).
    { rewrite !fmap_app in Hdis. apply pairwise_app in Hdis as (Hdis & _).
      apply pairwise_app in Hdis as (_ & _ & Hdis). intros x Hx. apply Hdis; [done | by left]. }
    split; [split; [done | by apply Hconf] | by apply Hstep].
Qed.

Lemma validate_regions_spec regions :
  Forall region_typed regions ->
  kb2_validate_regions regions = true <->
  Forall region_ok regions /\ NoDup (rg_region_id <$> regions) /\
  pairwise disjoint_ranges (region_range <$> regions).
Proof.
  intros Ht. apply (validate_regions_loop_spec []); [constructor | constructor | constructor | | done].
  apply pairwise_nil.
Qed.

(** * Queues *)

Lemma pow2_in_range n :
  1 <= n <= 32768 -> (Z.land n (n - 1) = 0 <-> exists k, 0 <= k <= 15 /\ n = 2 ^ k).
Proof.
  intros Hn. rewrite land_pred_pow2 by lia. split.
  - intros Heq. exists (Z.log2 n). split; [| done]. split; [apply Z.log2_nonneg |].
    change 15 with (Z.log2 32768). apply Z.log2_le_mono. lia.
  - intros (k & Hk & ->). by rewrite Z.log2_pow2 by lia.
Qed.

(** What the scalar tests establish. *)
Definition scalars_ok (q : kb2_protocol_queue) : Prop :=
  q_queue_id q <> 0 /\ q_flags q = 0 /\
  (q_role q = KB2_PROTOCOL_QUEUE_ROLE_EVENT \/ q_role q = KB2_PROTOCOL_QUEUE_ROLE_REQUEST) /\
  (exists k, 0 <= k <= 15 /\ q_queue_size q = 2 ^ k) /\
  q_available_notification_id q <> 0 /\ q_used_notification_id q <> 0 /\
  1 <= q_max_chain_length q <= q_queue_size q /\
  1 <= q_max_indirect_length q <= KB2_PROTOCOL_QUEUE_SIZE_MAX /\
  1 <= q_max_outstanding q <= q_queue_size q.

Lemma pow2_bounds n : (exists k, 0 <= k <= 15 /\ n = 2 ^ k) -> 1 <= n <= 32768.
Proof.
  intros (k & Hk & ->). change 32768 with (2 ^ 15). change 1 with (2 ^ 0) at 1.
  split; apply Z.pow_le_mono_r; lia.
Qed.

Lemma scalars_size q : scalars_ok q -> 1 <= q_queue_size q <= 32768.
Proof. intros (_ & _ & _ & Hs & _). by apply pow2_bounds. Qed.

Lemma queue_scalars_spec q : queue_typed q -> queue_scalars_valid q = true <-> scalars_ok q.
Proof.
  intros Ht. unfold queue_scalars_valid, scalars_ok.
  destruct Ht as [Hid Hrole Hsize Hflags _ _ _ Hav Hus Hch Hin Hout]. unfold is_u32 in *.
  rewrite negb_true_iff, !orb_false_iff, andb_false_iff, !negb_false_iff, !Z.eqb_neq, !Z.ltb_ge, !Z.eqb_eq.
  unfold KB2_PROTOCOL_QUEUE_SIZE_MIN, KB2_PROTOCOL_QUEUE_SIZE_MAX.
  split.
  - intros Hall. destruct_and! Hall. rewrite u32_small in * by (unfold is_u32; lia).
    rewrite <- pow2_in_range by lia. split_and!; try done; lia.
  - intros (? & ? & ? & Hp & ? & ? & ? & ? & ?). pose proof (pow2_bounds _ Hp).
    rewrite u32_small by (unfold is_u32; lia). rewrite <- pow2_in_range in Hp by lia.
    split_and!; try done; lia.
Qed.

Definition range_fits (x : Z * Z) : Prop := 0 <= x.1 /\ 0 < x.2 /\ x.1 + x.2 <= U64_MAX.

Lemma range_has_rights_spec base len regions :
  Forall region_typed regions -> Forall region_ok regions -> is_u64 base -> is_u64 len -> 0 < len ->
  kb2_range_has_rights base len known_region_rights regions = true <->
  covered regions (base, len).
Proof.
  intros Hrt Hro Hb Hl Hpos. rewrite Forall_forall in Hrt, Hro. unfold kb2_range_has_rights, covered. cbn.
  assert (Hrights : forall r, r ∈ regions ->
            Z.land (rg_rights r) known_region_rights = known_region_rights <-> rg_rights r = known_region_rights).
  { intros r Hr. destruct (Hro r Hr) as [_ Hx _ _]. change known_region_rights with 3 in *.
    assert (rg_rights r = 1 \/ rg_rights r = 2 \/ rg_rights r = 3) as [-> | [-> | ->]] by lia; done. }
  assert (Hin : forall r, r ∈ regions -> 0 <= rg_transport_base r /\ rg_transport_base r + rg_length r <= U64_MAX /\ 0 < rg_length r).
  { intros r Hr. destruct (Hro r Hr) as [_ _ ? ?], (Hrt r Hr) as [_ _ ? _]. unfold is_u64 in *. lia. }
  destruct (kb2_u64_range_valid base len) eqn:Hv; cbn.
  - apply range_valid_spec in Hv as [_ Hfit]; [| done ..]. unfold U64_MAX, is_u64 in *.
    rewrite existsb_exists. setoid_rewrite <- list_elem_of_In.
    split; intros (r & Hr & Hc); exists r; (split; [done |]); specialize (Hrights r Hr); specialize (Hin r Hr).
    + apply andb_true_iff in Hc as [[H1%Z.eqb_eq H2]%andb_true_iff H3].
      rewrite !u64_small in H3 by (unfold is_u64; lia). rewrite <- Hrights. lia.
    + destruct Hc as (H1 & H2 & H3). rewrite <- Hrights in H1.
      rewrite H1, Z.eqb_refl, !u64_small by (unfold is_u64; lia). lia.
  - split; [done |]. intros (r & Hr & _ & H2 & H3). specialize (Hin r Hr).
    apply not_true_iff_false in Hv. exfalso. apply Hv, range_valid_spec; [done | done |]. lia.
Qed.

Lemma range_lengths q :
  1 <= q_queue_size q <= 32768 ->
  kb2_queue_range_length q 0 = 16 * q_queue_size q /\
  kb2_queue_range_length q 1 = 6 + 2 * q_queue_size q /\
  kb2_queue_range_length q 2 = 6 + 8 * q_queue_size q.
Proof.
  intros Hs. unfold kb2_queue_range_length.
  rewrite !(u64_small (_ * _)) by (unfold is_u64; lia). rewrite !u64_small by (unfold is_u64; lia).
  lia.
Qed.

(** Ring placement: alignment and coverage. *)
Definition placed (regions : list kb2_protocol_region) (q : kb2_protocol_queue) : Prop :=
  (q_descriptor_address q mod 16 = 0 /\ q_available_address q mod 2 = 0 /\ q_used_address q mod 4 = 0) /\
  forall range, range ∈ rings q -> covered regions range.

Lemma queue_rings_spec q regions :
  queue_typed q -> Forall region_typed regions -> Forall region_ok regions -> scalars_ok q ->
  queue_rings_valid q regions = true <-> placed regions q.
Proof.
  intros Ht Hrt Hro Hs. pose proof (scalars_size q Hs) as Hsz.
  unfold queue_rings_valid, placed. destruct (range_lengths q Hsz) as (-> & -> & ->).
  rewrite negb_true_iff, !orb_false_iff, !negb_false_iff, !Z.eqb_eq.
  destruct Ht as [_ _ _ _ Hd Ha Hu _ _ _ _ _].
  rewrite !range_has_rights_spec by (first [done | unfold is_u64; lia | lia]).
  change 15 with (Z.ones 4). change 3 with (Z.ones 2). change 1 with (Z.ones 1) at 1.
  rewrite !land_ones_eqb_0 by lia. change (2 ^ 4) with 16. change (2 ^ 2) with 4. change (2 ^ 1) with 2.
  unfold rings. setoid_rewrite elem_of_cons. setoid_rewrite elem_of_cons. setoid_rewrite list_elem_of_singleton.
  split; [intros H; destruct_and! H; split; [done |]; by intros range [-> | [-> | ->]] |].
  intros [? Hc]. destruct_and?. split_and!; try done; apply Hc; auto.
Qed.

Lemma covered_fits regions q range :
  Forall region_ok regions -> queue_typed q -> scalars_ok q ->
  range ∈ rings q -> covered regions range -> range_fits range.
Proof.
  intros Hro Ht Hs Hin (r & Hr & _ & _ & Hfit). pose proof (scalars_size q Hs).
  rewrite Forall_forall in Hro. destruct (Hro r Hr) as [_ _ _ Hlim].
  destruct Ht as [_ _ _ _ Hd Ha Hu _ _ _ _ _]. unfold is_u64 in *.
  assert (0 <= range.1 /\ 0 < range.2); [| unfold range_fits; lia].
  unfold rings in Hin. rewrite !elem_of_cons in Hin.
  destruct Hin as [-> | [-> | [-> | []%elem_of_nil]]]; cbn; lia.
Qed.

Lemma placed_fits regions q :
  Forall region_ok regions -> queue_typed q -> scalars_ok q -> placed regions q ->
  Forall range_fits (rings q).
Proof.
  intros Hro Ht Hs [_ Hc]. apply Forall_forall. intros range Hin. eapply covered_fits; eauto.
Qed.

Definition ring_at (q : kb2_protocol_queue) (i : nat) : Z * Z :=
  (kb2_queue_range_base q i, kb2_queue_range_length q i).

Lemma rings_at q : 1 <= q_queue_size q <= 32768 -> rings q = [ring_at q 0; ring_at q 1; ring_at q 2].
Proof.
  intros Hs. unfold rings, ring_at. destruct (range_lengths q Hs) as (-> & -> & ->). done.
Qed.

Lemma ring_overlap_spec q i p j :
  range_fits (ring_at q i) -> range_fits (ring_at p j) ->
  negb (queue_ranges_overlap q i p j) = true <-> disjoint_ranges (ring_at p j) (ring_at q i).
Proof.
  intros (? & ? & ?) (? & ? & ?). unfold queue_ranges_overlap.
  rewrite negb_true_iff, <- not_true_iff_false, ranges_overlap_spec by done.
  rewrite disjoint_ranges_sym. done.
Qed.

Lemma forallb_seq3 (f : nat -> bool) : forallb f (seq 0 3) = f 0%nat && f 1%nat && f 2%nat.
Proof. cbn. by rewrite andb_true_r, andb_assoc. Qed.

Lemma join_cons {T} (l : list T) ls : mjoin (l :: ls) = l ++ mjoin ls.
Proof. done. Qed.

Lemma queue_ranges_unique_spec previous q :
  Forall scalars_ok previous -> Forall range_fits (mjoin (rings <$> previous)) ->
  scalars_ok q -> Forall range_fits (rings q) ->
  kb2_queue_ranges_unique previous q = true <->
  pairwise disjoint_ranges (rings q) /\
  forall x y, x ∈ mjoin (rings <$> previous) -> y ∈ rings q -> disjoint_ranges x y.
Proof.
  intros Hps Hpf Hs Hf. pose proof (rings_at q (scalars_size q Hs)) as Hq. rewrite Hq in *.
  rewrite !Forall_cons in Hf. destruct Hf as (F0 & F1 & F2 & _).
  assert (Hown : forall i j, range_fits (ring_at q i) -> range_fits (ring_at q j) ->
            negb (queue_ranges_overlap q i q j) = true <-> disjoint_ranges (ring_at q j) (ring_at q i))
    by (intros; by apply ring_overlap_spec).
  assert (Hprev : forall i, range_fits (ring_at q i) ->
    forallb (fun p => forallb (fun j => negb (queue_ranges_overlap q i p j)) (seq 0 3)) previous = true <->
    forall x, x ∈ mjoin (rings <$> previous) -> disjoint_ranges x (ring_at q i)).
  { intros i Hi. clear Hq Hown F0 F1 F2. induction previous as [|p previous IH].
    - cbn. split; [| done]. intros _ x Hx. by apply elem_of_nil in Hx.
    - apply Forall_cons in Hps as [Hp Hps]. rewrite fmap_cons, join_cons in Hpf.
      apply Forall_app in Hpf as [Hpf0 Hpf]. rewrite (rings_at p (scalars_size p Hp)) in Hpf0.
      rewrite !Forall_cons in Hpf0. destruct Hpf0 as (G0 & G1 & G2 & _).
      rewrite fmap_cons, join_cons. cbn [forallb]. rewrite andb_true_iff, (IH Hps Hpf).
      cbn [seq forallb]. rewrite !andb_true_iff, !ring_overlap_spec by done.
      setoid_rewrite elem_of_app. rewrite (rings_at p (scalars_size p Hp)).
      setoid_rewrite elem_of_cons. setoid_rewrite elem_of_cons. setoid_rewrite list_elem_of_singleton.
      split.
      + intros [(? & ? & ? & _) Hr] x [[-> | [-> | ->]] | Hx]; try done. by apply Hr.
      + intros Hall. split_and!; try (apply Hall; auto 6); [done |]. intros x Hx. apply Hall. by right. }
  unfold kb2_queue_ranges_unique. rewrite forallb_seq3, !andb_true_iff, !Hprev by done.
  change (seq 0 0) with (@nil nat). change (seq 0 1) with [0%nat]. change (seq 0 2) with [0%nat; 1%nat].
  cbn [forallb]. rewrite !andb_true_iff, !Hown by done.
  rewrite !pairwise_cons. split.
  - intros H. destruct_and! H. split_and!; try apply pairwise_nil; set_unfold; naive_solver.
  - intros [(H1 & H2 & _) Hx].
    split_and!; first [done | apply H1; set_solver | apply H2; set_solver |
                       intros x Hin; apply Hx; [done | set_solver]].
Qed.

Lemma queue_identity_spec previous q :
  kb2_queue_identity_unique previous q = true <->
  q_queue_id q ∉ (q_queue_id <$> previous) /\
  (forall x, x ∈ mjoin (notifications <$> previous) -> x ∉ notifications q) /\ NoDup (notifications q).
Proof.
  unfold kb2_queue_identity_unique. rewrite andb_true_iff, negb_true_iff, Z.eqb_neq.
  assert (Hn : NoDup (notifications q) <-> q_available_notification_id q <> q_used_notification_id q).
  { unfold notifications. rewrite NoDup_cons, list_elem_of_singleton. split; [tauto |].
    intros Hne. split; [done | apply NoDup_singleton]. }
  rewrite Hn. clear Hn. induction previous as [|p previous IH].
  { cbn. set_unfold. naive_solver. }
  cbn [forallb]. rewrite andb_true_iff, negb_true_iff, !orb_false_iff, !Z.eqb_neq.
  rewrite !fmap_cons, join_cons, not_elem_of_cons.
  assert (Hsplit : forall x, x ∈ notifications p ++ mjoin (notifications <$> previous) <->
    x = q_available_notification_id p \/ x = q_used_notification_id p \/ x ∈ mjoin (notifications <$> previous)).
  { intros x. unfold notifications at 1. rewrite elem_of_app, elem_of_cons, list_elem_of_singleton. tauto. }
  assert (Hq : forall x, x ∈ notifications q <->
    x = q_available_notification_id q \/ x = q_used_notification_id q).
  { intros x. unfold notifications. by rewrite elem_of_cons, list_elem_of_singleton. }
  split.
  - intros [[Hp Hall] Hne]. destruct (proj1 IH (conj Hall Hne)) as (? & Hx & ?). destruct_and! Hp.
    split; [done |]. split; [| done]. intros x [-> | [-> | Hin]]%Hsplit; [| | by apply Hx];
      rewrite Hq; intros [? | ?]; congruence.
  - intros ([Hid Hids] & Hx & Hne).
    assert (Hall : forall x, x ∈ mjoin (notifications <$> previous) -> x ∉ notifications q).
    { intros x Hin. apply Hx, Hsplit. by right; right. }
    destruct (proj2 IH) as [? _]; [done |]. split; [| done]. split; [| done].
    assert (Ha : q_available_notification_id p ∉ notifications q) by (apply Hx, Hsplit; by left).
    assert (Hu : q_used_notification_id p ∉ notifications q) by (apply Hx, Hsplit; by right; left).
    rewrite Hq in Ha, Hu. split_and!; first [done | intros E; apply Ha; rewrite E; tauto |
      intros E; apply Hu; rewrite E; tauto].
Qed.

Definition is_event (q : kb2_protocol_queue) : Prop := q_role q = KB2_PROTOCOL_QUEUE_ROLE_EVENT.

Definition event_total (queues : list kb2_protocol_queue) : Z :=
  Z.of_nat (length (filter (fun q => q_role q = KB2_PROTOCOL_QUEUE_ROLE_EVENT) queues)).
Definition request_total (queues : list kb2_protocol_queue) : Z :=
  Z.of_nat (length (filter (fun q => q_role q <> KB2_PROTOCOL_QUEUE_ROLE_EVENT) queues)).

Lemma totals_cons q queues :
  event_total (q :: queues) =
    (if q_role q =? KB2_PROTOCOL_QUEUE_ROLE_EVENT then 1 else 0) + event_total queues /\
  request_total (q :: queues) =
    (if q_role q =? KB2_PROTOCOL_QUEUE_ROLE_EVENT then 0 else 1) + request_total queues.
Proof.
  unfold event_total, request_total. rewrite !filter_cons.
  destruct (Z.eqb_spec (q_role q) KB2_PROTOCOL_QUEUE_ROLE_EVENT) as [He | He].
  - rewrite decide_True by done. rewrite decide_False by tauto. cbn [length]. lia.
  - rewrite decide_False by done. rewrite decide_True by done. cbn [length]. lia.
Qed.

(** The queues of a valid channel. *)
Record queues_ok (regions : list kb2_protocol_region) (queues : list kb2_protocol_queue) : Prop := {
  qs_queues : Forall (fun q => scalars_ok q /\ placed regions q) queues;
  qs_ids : NoDup (q_queue_id <$> queues);
  qs_notifications : NoDup (mjoin (notifications <$> queues));
  qs_rings : pairwise disjoint_ranges (mjoin (rings <$> queues));
}.

Lemma queues_ok_snoc regions seen q :
  queues_ok regions (seen ++ [q]) <->
  queues_ok regions seen /\ scalars_ok q /\ placed regions q /\
  (q_queue_id q ∉ (q_queue_id <$> seen) /\
   (forall x, x ∈ mjoin (notifications <$> seen) -> x ∉ notifications q) /\ NoDup (notifications q)) /\
  (pairwise disjoint_ranges (rings q) /\
   forall x y, x ∈ mjoin (rings <$> seen) -> y ∈ rings q -> disjoint_ranges x y).
Proof.
  assert (Hj : forall {T} (f : kb2_protocol_queue -> list T), mjoin (f <$> seen ++ [q]) = mjoin (f <$> seen) ++ f q).
  { intros T f. rewrite fmap_app, join_app. cbn. by rewrite app_nil_r. }
  split.
  - intros [Hq Hi Hn Hr]. rewrite !Hj in *. rewrite fmap_app in Hi.
    apply Forall_app in Hq as [Hq [[Hs Hp] _]%Forall_cons].
    apply NoDup_app in Hi as (Hi & Hid & _). apply NoDup_app in Hn as (Hn & Hnd & Hnq).
    apply pairwise_app in Hr as (Hr & Hrq & Hrr).
    split; [by constructor |]. split_and!; try done. intros Hin. by apply (Hid _ Hin), list_elem_of_singleton.
  - intros ([Hq Hi Hn Hr] & Hs & Hp & (Hid & Hnd & Hnq) & Hrq & Hrr). constructor; rewrite ?Hj.
    + apply Forall_app. split; [done | by apply Forall_singleton].
    + rewrite fmap_app. apply NoDup_app. split_and!; [done | | apply NoDup_singleton].
      intros x Hx ->%list_elem_of_singleton. done.
    + apply NoDup_app. done.
    + apply pairwise_app. done.
Qed.

Lemma queues_ok_prefix regions l k : queues_ok regions (l ++ k) -> queues_ok regions l.
Proof.
  induction k as [|q k IH] using rev_ind; [by rewrite app_nil_r |].
  rewrite app_assoc. intros [Hq _]%queues_ok_snoc. by apply IH.
Qed.

Lemma validate_queues_loop_spec regions seen queues events requests :
  Forall region_typed regions -> Forall region_ok regions ->
  Forall queue_typed seen -> queues_ok regions seen -> Forall queue_typed queues ->
  validate_queues_loop regions seen queues events requests = true <->
  queues_ok regions (seen ++ queues) /\
  events + event_total queues <= 1 /\ 1 <= requests + request_total queues.
Proof.
  intros Hrt Hro. revert seen events requests.
  induction queues as [|q queues IH]; intros seen events requests Hst Hso Ht; cbn [validate_queues_loop].
  { rewrite app_nil_r. unfold event_total, request_total. cbn.
    unfold KB2_PROTOCOL_CHANNEL_EVENT_QUEUES_MAX, KB2_PROTOCOL_CHANNEL_REQUEST_QUEUES_MIN.
    rewrite andb_true_iff. split; [intros; split; [done | lia] | intros (_ & ? & ?); lia]. }
  apply Forall_cons in Ht as [Hqt Ht].
  replace (seen ++ q :: queues) with ((seen ++ [q]) ++ queues) by (by rewrite <- app_assoc).
  destruct (totals_cons q queues) as [-> ->].
  assert (Hsf : Forall scalars_ok seen /\ Forall range_fits (mjoin (rings <$> seen))).
  { destruct Hso as [Hq _ _ _]. rewrite Forall_forall in Hq, Hst. split.
    - apply Forall_forall. intros p Hp. by apply Hq.
    - apply Forall_forall. intros x (l & Hx & Hl)%list_elem_of_join.
      apply list_elem_of_fmap in Hl as (p & -> & Hp). destruct (Hq p Hp) as [Hps Hpp].
      pose proof (placed_fits regions p Hro (Hst p Hp) Hps Hpp) as Hf. rewrite Forall_forall in Hf. by apply Hf. }
  destruct Hsf as [Hseen Hfits].
  assert (Hcheck : (queue_scalars_valid q && kb2_queue_identity_unique seen q &&
            (queue_rings_valid q regions && kb2_queue_ranges_unique seen q)) = true <->
            queues_ok regions (seen ++ [q])).
  { rewrite queues_ok_snoc, !andb_true_iff, queue_scalars_spec, queue_identity_spec by done. split.
    - intros [[Hs Hid] [Hr Hu]]. apply queue_rings_spec in Hr; [| done ..].
      apply queue_ranges_unique_spec in Hu; [done .. | by eapply placed_fits].
    - intros (_ & Hs & Hp & Hid & Hu). split; [done |]. split; [by apply queue_rings_spec |].
      apply queue_ranges_unique_spec; [done .. | by eapply placed_fits | done]. }
  destruct (queue_scalars_valid q), (kb2_queue_identity_unique seen q),
    (queue_rings_valid q regions), (kb2_queue_ranges_unique seen q); cbn [negb orb andb] in *;
    try (split; [done | intros [Hall _]; apply queues_ok_prefix, Hcheck in Hall; done]).
  rewrite IH; [| | by apply Hcheck | done].
  - destruct (q_role q =? KB2_PROTOCOL_QUEUE_ROLE_EVENT); (split; intros (? & ? & ?); (split; [done | lia])).
  - apply Forall_app. split; [done | by apply Forall_singleton].
Qed.

(** The validator decides the specification, for every channel whose fields have
    the widths of the structures and whose arrays have the counts given. *)
Lemma channel_model_spec c queues regions :
  channel_typed c -> Forall queue_typed queues -> Forall region_typed regions ->
  kb2_validate_channel_model (Some c) (Some queues) (Z.of_nat (length queues))
    (Some regions) (Z.of_nat (length regions)) = true <->
  1 <= Z.of_nat (length queues) <= KB2_PROTOCOL_MAX_QUEUES /\
  1 <= Z.of_nat (length regions) <= KB2_PROTOCOL_MAX_REGIONS /\ channel_ok c queues regions.
Proof.
  intros Hct Hqt Hrt. unfold kb2_validate_channel_model, array_items.
  rewrite !Nat2Z.id, !firstn_all.
  match goal with |- context [if ?b then _ else _] => destruct b eqn:E end.
  - split; [done |]. intros (Hq & Hr & [Hf (? & ? & ?) Hfl _ _ _ _ _ _ _ _ _]). exfalso.
    rewrite !orb_true_iff, andb_true_iff, !negb_true_iff, !Z.ltb_lt, !Z.eqb_eq, !Z.eqb_neq in E.
    unfold KB2_PROTOCOL_MIN_QUEUES in E. repeat destruct E as [E | E]; try lia; try done.
  - rewrite !orb_false_iff, andb_false_iff, !negb_false_iff, !Z.ltb_ge, !Z.eqb_eq, !Z.eqb_neq in E.
    unfold KB2_PROTOCOL_MIN_QUEUES in E. destruct_and! E.
    rewrite andb_true_iff, validate_regions_spec by done.
    assert (Hnil : queues_ok regions []).
    { constructor; [constructor | constructor | constructor | apply pairwise_nil]. }
    assert (Hspec : Forall region_ok regions ->
      kb2_validate_queues queues regions = true <->
      queues_ok regions queues /\ event_total queues <= 1 /\ 1 <= request_total queues).
    { intros Hro. apply (validate_queues_loop_spec regions [] queues 0 0); done. }
    split.
    + intros [(Hro & Hri & Hrr) Hq]. apply Hspec in Hq as ([Hqq Hqi Hqn Hqr] & He & Hre); [| done].
      split; [lia |]. split; [lia |]. constructor; try done.
      eapply Forall_impl; [exact Hqq |].
      intros q [(? & ? & ? & ? & ? & ? & ? & ? & ?) [? ?]]. by constructor.
    + intros (_ & _ & [_ _ _ Hro Hri Hrr Hqq Hqi Hqn Hqr He Hre]). split; [done |].
      apply Hspec; [done |]. split; [| done]. constructor; try done.
      eapply Forall_impl; [exact Hqq |]. intros q []. split; [| done]. unfold scalars_ok. done.
Qed.

(** * Status results

    A status-returning encoder's outcome: whether it returned OK, and the buffer; a
    decoder's: the value it wrote when it returned OK. *)
Definition status_encoded (b : list Z) (status : kb2_protocol_status) (bytes : option (list Z)) : bool * list Z :=
  (bool_decide (status = KB2_PROTOCOL_OK), default b bytes).
Definition status_decoded {T : Type} (r : kb2_protocol_status * option T) : option T :=
  if bool_decide (r.1 = KB2_PROTOCOL_OK) then r.2 else None.
