(* ===== verification/ProtocolWire.v ===== *)
(** The wire form: encoding then decoding gives back the channel, and a decoded
    buffer is byte for byte the encoding of what was decoded. *)

From Stdlib Require Import ZArith Lia.
From stdpp Require Import base numbers tactics sets list_numbers list.
From S2P Require Import Prelude Bytes Layout Protocol ProtocolSpec.

Open Scope Z_scope.

(** * Tables of fixed-size records *)

(** What the table code needs of a record format: [encode] writes inside its slot,
    [decode] and the reserved test read inside it, and they are inverse. *)
Class Codec {T : Type} (encode : list Z -> Z -> T -> list Z) (decode : list Z -> Z -> T)
    (reserved_zero : list Z -> Z -> bool) (size : Z) (typed : T -> Prop) : Prop := {
  codec_size : 0 < size;
  codec_length : forall b d x, blen (encode b d x) = blen b;
  codec_outside : forall b d x j, 0 <= d -> 0 <= j -> j < d \/ d + size <= j ->
    get_byte (encode b d x) j = get_byte b j;
  codec_decode : forall b d x, 0 <= d -> d + size <= blen b -> typed x ->
    decode (encode b d x) d = x;
  codec_reserved : forall b d x, 0 <= d -> reserved_zero (encode b d x) d = reserved_zero b d;
  codec_read : forall b b' d, agree b b' d (d + size) ->
    decode b d = decode b' d /\ reserved_zero b d = reserved_zero b' d;
  codec_typed : forall b d, typed (decode b d);
  codec_zero : forall b d, (forall j, d <= j < d + size -> get_byte b j = 0) -> reserved_zero b d = true;
  codec_canonical : forall b b' d, 0 <= d -> d + size <= blen b' ->
    (forall j, d <= j < d + size -> get_byte b' j = 0) -> reserved_zero b d = true ->
    agree (encode b' d (decode b d)) b d (d + size);
}.

Section Table.
Context {T : Type} (encode : list Z -> Z -> T -> list Z) (decode : list Z -> Z -> T)
  (reserved_zero : list Z -> Z -> bool) (size : Z) (typed : T -> Prop)
  `{!Codec encode decode reserved_zero size typed}.

Notation encode_items := (encode_table encode size).
Notation decode_items := (decode_table decode reserved_zero size).

Lemma encode_table_length b d items : blen (encode_items b d items) = blen b.
Proof.
  revert b d. induction items as [|x items IH]; intros b d; [done |]. cbn.
  by rewrite IH, codec_length.
Qed.

Lemma encode_table_outside b d items j :
  0 <= d -> 0 <= j -> j < d \/ d + size * Z.of_nat (length items) <= j ->
  get_byte (encode_items b d items) j = get_byte b j.
Proof.
  pose proof codec_size. revert b d. induction items as [|x items IH]; intros b d Hd Hj Hout; [done |].
  cbn [encode_table length] in *. rewrite IH by nia. apply codec_outside; [lia | lia | nia].
Qed.

(** Decoding depends on the slots only. *)
Lemma decode_table_read b b' d n :
  agree b b' d (d + size * Z.of_nat n) -> decode_items b d n = decode_items b' d n.
Proof.
  pose proof codec_size. revert d. induction n as [|n IH]; intros d Ha; [done |]. cbn [decode_table].
  destruct (codec_read b b' d) as [-> ->]; [intros j Hj; apply Ha; nia |].
  case_match; [done |]. rewrite IH; [done |]. intros j Hj. apply Ha. nia.
Qed.

Lemma decode_encode_table b d items :
  0 <= d -> d + size * Z.of_nat (length items) <= blen b -> Forall typed items ->
  (forall j, d <= j < d + size * Z.of_nat (length items) -> get_byte b j = 0) ->
  decode_items (encode_items b d items) d (length items) = (items, true).
Proof.
  pose proof codec_size. revert b d. induction items as [|x items IH]; intros b d Hd Hlen Ht Hz; [done |].
  apply Forall_cons in Ht as [Hx Ht]. cbn [encode_table decode_table length] in *.
  destruct (codec_read (encode_items (encode b d x) (d + size) items) (encode b d x) d) as [Hdec Hres].
  { intros j Hj. apply encode_table_outside; lia. }
  rewrite Hdec, Hres, codec_reserved, codec_zero by (first [done | intros; apply Hz; nia | lia]).
  cbn [negb]. rewrite IH; [rewrite codec_decode; [done | done | nia | done] | lia | | done |].
  - rewrite codec_length. nia.
  - intros j Hj. rewrite codec_outside by nia. apply Hz. nia.
Qed.

(** Re-encoding decoded records reproduces the slots. *)
Lemma encode_decode_table b b' d n items :
  0 <= d -> d + size * Z.of_nat n <= blen b' ->
  (forall j, d <= j < d + size * Z.of_nat n -> get_byte b' j = 0) ->
  decode_items b d n = (items, true) ->
  length items = n /\ Forall typed items /\
  agree (encode_items b' d items) b d (d + size * Z.of_nat n).
Proof.
  pose proof codec_size. revert b' d items.
  induction n as [|n IH]; intros b' d items Hd Hlen Hz E; cbn [decode_table] in E.
  { simplify_eq. split_and!; [done | constructor |]. intros j Hj. lia. }
  destruct (reserved_zero b d) eqn:Hres; cbn [negb] in E; [| done].
  destruct (decode_items b (d + size) n) as [items' ok] eqn:E'. simplify_eq.
  destruct (IH (encode b' d (decode b d)) (d + size) items') as (Hl & Ht & Ha); [lia | | | done |].
  - rewrite codec_length. nia.
  - intros j Hj. rewrite codec_outside by nia. apply Hz. nia.
  - split_and!; [by rewrite <- Hl | constructor; [apply codec_typed | done] |].
    intros j Hj. cbn [encode_table]. destruct (decide (j < d + size)) as [Hlt | Hge].
    + rewrite encode_table_outside by lia.
      apply codec_canonical; [lia | nia | intros; apply Hz; nia | done | lia].
    + apply Ha. nia.
Qed.

Lemma decode_table_typed b d n items ok : decode_items b d n = (items, ok) -> Forall typed items.
Proof.
  revert d items ok. induction n as [|n IH]; intros d items ok E; cbn [decode_table] in E.
  { simplify_eq. constructor. }
  destruct (reserved_zero b d); cbn [negb] in E; [| by simplify_eq].
  destruct (decode_items b (d + size) n) as [items' ok'] eqn:E'. simplify_eq.
  constructor; [apply codec_typed | by eapply IH].
Qed.
End Table.

(** ** Queue descriptors *)

Lemma blen_encode_queue b d q : blen (kb2_encode_queue b d q) = blen b.
Proof. unfold kb2_encode_queue. by autorewrite with blen. Qed.

Lemma blen_encode_region b d r : blen (kb2_encode_region b d r) = blen b.
Proof. unfold kb2_encode_region. by autorewrite with blen. Qed.

(** Consecutive stores of the fields of a buffer, from the last one back. *)
Ltac grow_agree :=
  lazymatch goal with
  | |- agree (store_u32 _ ?off _) _ ?lo ?hi =>
      replace hi with (off + 4) by lia; apply agree_store_u32; [grow_agree | lia | solve_range]
  | |- agree (store_u64 _ ?off _) _ ?lo ?hi =>
      replace hi with (off + 8) by lia; apply agree_store_u64; [grow_agree | lia | solve_range]
  | |- agree _ _ ?lo ?hi => first [assumption | intros ? ?; lia]
  end.

#[export] Instance queue_codec :
  Codec kb2_encode_queue kb2_decode_queue (fun b s => load_u32 b (s + 60) =? 0)
    KB2_PROTOCOL_QUEUE_DESCRIPTOR_SIZE queue_typed.
Proof.
  unfold KB2_PROTOCOL_QUEUE_DESCRIPTOR_SIZE. split.
  - done.
  - apply blen_encode_queue.
  - intros b d x j Hd Hj Hout. unfold kb2_encode_queue.
    repeat first [rewrite get_byte_store_u32_ne by lia | rewrite get_byte_store_u64_ne by lia]. done.
  - intros b d x Hd Hlen []. unfold kb2_decode_queue, kb2_encode_queue.
    autorewrite with wire. rewrite !u32_small, !u64_small by done. by destruct x.
  - intros b d x Hd. unfold kb2_encode_queue. by autorewrite with wire.
  - intros b b' d Ha. unfold kb2_decode_queue.
    rewrite !(agree_load_u32 b b' d (d + 64)), !(agree_load_u64 b b' d (d + 64)) by (done || lia). done.
  - intros b d. constructor; first [apply load_u32_range | apply load_u64_range].
  - intros b d Hz. apply Z.eqb_eq. rewrite load_u32_add, !Hz by lia. done.
  - intros b b' d Hd Hlen Hz Hres%Z.eqb_eq.
    apply (agree_extend _ _ _ (d + 60)); [| lia | | intros; eapply load_u32_zero_bytes_inv; [exact Hres | lia]].
    + unfold kb2_encode_queue, kb2_decode_queue. cbn [q_queue_id q_role q_queue_size q_flags
        q_descriptor_address q_available_address q_used_address q_available_notification_id
        q_used_notification_id q_max_chain_length q_max_indirect_length q_max_outstanding].
      grow_agree.
    + intros j Hj. unfold kb2_encode_queue.
      repeat first [rewrite get_byte_store_u32_ne by lia | rewrite get_byte_store_u64_ne by lia].
      apply Hz. lia.
Qed.

#[export] Instance region_codec :
  Codec kb2_encode_region kb2_decode_region (fun b s => load_u64 b (s + 24) =? 0)
    KB2_PROTOCOL_REGION_DESCRIPTOR_SIZE region_typed.
Proof.
  unfold KB2_PROTOCOL_REGION_DESCRIPTOR_SIZE. split.
  - done.
  - apply blen_encode_region.
  - intros b d x j Hd Hj Hout. unfold kb2_encode_region.
    repeat first [rewrite get_byte_store_u32_ne by lia | rewrite get_byte_store_u64_ne by lia]. done.
  - intros b d x Hd Hlen []. unfold kb2_decode_region, kb2_encode_region.
    autorewrite with wire. rewrite !u32_small, !u64_small by done. by destruct x.
  - intros b d x Hd. unfold kb2_encode_region. by autorewrite with wire.
  - intros b b' d Ha. unfold kb2_decode_region.
    rewrite !(agree_load_u32 b b' d (d + 32)), !(agree_load_u64 b b' d (d + 32)) by (done || lia). done.
  - intros b d. constructor; first [apply load_u32_range | apply load_u64_range].
  - intros b d Hz. apply Z.eqb_eq. rewrite load_u64_add, !load_u32_add, !Hz by lia. done.
  - intros b b' d Hd Hlen Hz Hres%Z.eqb_eq.
    apply (agree_extend _ _ _ (d + 24)); [| lia | | intros; eapply load_u64_zero_bytes_inv; [exact Hres | lia]].
    + unfold kb2_encode_region, kb2_decode_region.
      cbn [rg_region_id rg_rights rg_transport_base rg_length]. grow_agree.
    + intros j Hj. unfold kb2_encode_region.
      repeat first [rewrite get_byte_store_u32_ne by lia | rewrite get_byte_store_u64_ne by lia].
      apply Hz. lia.
Qed.

(** * Channels *)

Lemma size_add_multiply_spec base count width :
  0 <= base <= SIZE_MAX -> 0 <= count -> 0 <= width ->
  kb2_size_add_multiply base count width =
  if decide (base + count * width <= SIZE_MAX) then Some (base + count * width) else None.
Proof.
  intros Hb Hc Hw. unfold kb2_size_add_multiply.
  destruct (Z.eqb_spec count 0) as [-> | Hne]; cbn [negb andb].
  { rewrite decide_True, Z.mul_0_l by lia. change (u64 0) with 0. rewrite Z.add_0_r, u64_small; [done |].
    unfold is_u64, SIZE_MAX, U64_MAX in *. lia. }
  destruct (Z.ltb_spec ((SIZE_MAX - base) / count) width) as [Hlt | Hge].
  - rewrite decide_False; [done |]. intros Hle.
    assert (width <= (SIZE_MAX - base) / count); [| lia]. apply Z.div_le_lower_bound; lia.
  - assert (count * width <= SIZE_MAX - base).
    { pose proof (Z.mul_div_le (SIZE_MAX - base) count ltac:(lia)). nia. }
    rewrite decide_True by lia. unfold SIZE_MAX, U64_MAX in *.
    rewrite (u64_small (count * width)) by (unfold is_u64; nia). rewrite u64_small by (unfold is_u64; lia). done.
Qed.

Definition channel_size (queue_count region_count : Z) : Z := 96 + queue_count * 64 + region_count * 32.

Lemma encoded_size_spec queue_count region_count :
  0 <= queue_count -> 0 <= region_count ->
  kb2_protocol_channel_encoded_size queue_count region_count true =
  if decide (1 <= queue_count <= 1024 /\ 1 <= region_count <= 1024)
  then (KB2_PROTOCOL_OK, Some (channel_size queue_count region_count))
  else (KB2_PROTOCOL_INVALID_ARGUMENT, None).
Proof.
  intros Hq Hr. unfold kb2_protocol_channel_encoded_size, KB2_PROTOCOL_MIN_QUEUES, KB2_PROTOCOL_MAX_QUEUES,
    KB2_PROTOCOL_MAX_REGIONS, KB2_PROTOCOL_CHANNEL_HEADER_SIZE, KB2_PROTOCOL_QUEUE_DESCRIPTOR_SIZE,
    KB2_PROTOCOL_REGION_DESCRIPTOR_SIZE.
  case_decide as Hc.
  - match goal with |- context [if ?b then (KB2_PROTOCOL_INVALID_ARGUMENT, _) else _] =>
      replace b with false by lia end.
    rewrite (size_add_multiply_spec 96) by (unfold SIZE_MAX, U64_MAX; lia).
    rewrite decide_True by (unfold SIZE_MAX, U64_MAX; lia).
    rewrite size_add_multiply_spec by (unfold SIZE_MAX, U64_MAX; lia).
    rewrite decide_True by (unfold SIZE_MAX, U64_MAX; lia).
    rewrite (proj2 (Z.ltb_ge _ _)) by (unfold U32_MAX; lia). done.
  - match goal with |- context [if ?b then (KB2_PROTOCOL_INVALID_ARGUMENT, _) else _] =>
      replace b with true by lia end. done.
Qed.

Lemma blen_encode_header b n q r t c : blen (encode_header b n q r t c) = blen b.
Proof. unfold encode_header. by autorewrite with blen. Qed.

Lemma blen_abi : blen kb2_protocol_abi_identity = 4.
Proof. done. Qed.
Lemma blen_digest : blen kb2_protocol_schema_digest = 32.
Proof. done. Qed.
#[export] Hint Rewrite blen_abi blen_digest : blen.

Lemma encode_header_outside b n q r t c j :
  88 <= j -> get_byte (encode_header b n q r t c) j = get_byte b j.
Proof.
  intros Hj. unfold encode_header.
  repeat first [rewrite get_byte_store_u32_ne by lia | rewrite get_byte_store_u64_ne by lia |
                rewrite get_byte_put_bytes_ne by solve_range]. done.
Qed.

Lemma abi_bytes : Forall is_u8 kb2_protocol_abi_identity.
Proof. unfold is_u8. repeat (constructor; [lia |]). constructor. Qed.
Lemma digest_bytes_u8 : Forall is_u8 kb2_protocol_schema_digest.
Proof. unfold is_u8. repeat (constructor; [lia |]). constructor. Qed.

(** The whole encoded channel, as kb2_protocol_channel_encode writes it. *)
Definition channel_image (b : list Z) (c : kb2_protocol_channel) (queues : list kb2_protocol_queue)
    (regions : list kb2_protocol_region) : list Z :=
  let qc := Z.of_nat (length queues) in
  let rc := Z.of_nat (length regions) in
  let b := zero_bytes b 0 (channel_size qc rc) in
  let b := encode_header b (channel_size qc rc) qc rc (96 + qc * 64) c in
  let b := encode_table kb2_encode_queue 64 b 96 queues in
  encode_table kb2_encode_region 32 b (96 + qc * 64) regions.

Section Image.
Context (b : list Z) (c : kb2_protocol_channel) (queues : list kb2_protocol_queue)
  (regions : list kb2_protocol_region).

Notation qc := (Z.of_nat (length queues)).
Notation rc := (Z.of_nat (length regions)).
Notation size := (channel_size qc rc).

Hypothesis counts : 1 <= qc <= 1024 /\ 1 <= rc <= 1024.
Hypothesis room : size <= blen b.

Lemma encode_is_image buffer_size :
  size <= buffer_size ->
  kb2_validate_channel_model (Some c) (Some queues) qc (Some regions) rc = true ->
  kb2_protocol_channel_encode (Some b) buffer_size true (Some c) (Some queues) qc (Some regions) rc =
  (KB2_PROTOCOL_OK, Some size, Some (channel_image b c queues regions)).
Proof.
  intros Hsize Hv. unfold kb2_protocol_channel_encode. cbn [negb].
  rewrite encoded_size_spec, decide_True by lia. rewrite (proj2 (Z.ltb_ge _ _)) by done.
  rewrite Hv. cbn [negb].
  unfold KB2_PROTOCOL_CHANNEL_HEADER_SIZE, KB2_PROTOCOL_QUEUE_DESCRIPTOR_SIZE,
    KB2_PROTOCOL_REGION_DESCRIPTOR_SIZE, array_items.
  rewrite !Nat2Z.id, !firstn_all.
  rewrite (u64_small (qc * 64)) by (unfold is_u64; lia). rewrite u64_small by (unfold is_u64; lia). done.
Qed.

Definition image_header : list Z := encode_header (zero_bytes b 0 size) size qc rc (96 + qc * 64) c.

Lemma image_header_agree : agree (channel_image b c queues regions) image_header 0 96.
Proof.
  intros j Hj. unfold channel_image. cbv zeta.
  rewrite (encode_table_outside _ _ (fun b s => load_u64 b (s + 24) =? 0) 32 region_typed) by lia.
  rewrite (encode_table_outside _ _ (fun b s => load_u32 b (s + 60) =? 0) 64 queue_typed) by lia. done.
Qed.

Lemma image_zero j : 88 <= j < size -> get_byte image_header j = 0.
Proof.
  intros Hj. unfold image_header. rewrite encode_header_outside by lia.
  apply get_byte_zero_bytes; unfold channel_size in *; lia.
Qed.

Lemma blen_image_header : blen image_header = blen b.
Proof. unfold image_header. rewrite blen_encode_header. apply blen_zero_bytes. Qed.

(** Decoding the tables of the image. *)
Lemma image_tables :
  Forall queue_typed queues -> Forall region_typed regions ->
  decode_table kb2_decode_queue (fun b s => load_u32 b (s + 60) =? 0) 64
    (channel_image b c queues regions) 96 (length queues) = (queues, true) /\
  decode_table kb2_decode_region (fun b s => load_u64 b (s + 24) =? 0) 32
    (channel_image b c queues regions) (96 + qc * 64) (length regions) = (regions, true).
Proof.
  intros Hqt Hrt. unfold channel_size in *. split.
  - rewrite (decode_table_read _ _ _ 64 queue_typed _ (encode_table kb2_encode_queue 64 image_header 96 queues)).
    + apply (decode_encode_table _ _ _ 64 queue_typed); [lia | rewrite blen_image_header; lia | done |].
      intros j Hj. apply image_zero. unfold channel_size. lia.
    + intros j Hj. apply (encode_table_outside _ _ (fun b s => load_u64 b (s + 24) =? 0) 32 region_typed); lia.
  - apply (decode_encode_table _ _ _ 32 region_typed); [lia | | done |].
    + rewrite (encode_table_length _ _ (fun b s => load_u32 b (s + 60) =? 0) 64 queue_typed).
      fold image_header. rewrite blen_image_header. lia.
    + intros j Hj. rewrite (encode_table_outside _ _ (fun b s => load_u32 b (s + 60) =? 0) 64 queue_typed) by lia.
      apply image_zero. unfold channel_size. lia.
Qed.

(** The fields of the header. *)
Lemma image_fields :
  channel_typed c ->
  load_u32 image_header 0 = size /\
  get_bytes image_header 4 4 = kb2_protocol_abi_identity /\
  get_bytes image_header 8 32 = kb2_protocol_schema_digest /\
  mkChannel (load_u64 image_header 40) (load_u64 image_header 48) (load_u64 image_header 56)
    (load_u32 image_header 64) (load_u32 image_header 68) = c /\
  load_u32 image_header 72 = qc /\ load_u32 image_header 76 = rc /\
  load_u32 image_header 80 = 96 /\ load_u32 image_header 84 = 96 + qc * 64 /\
  load_u32 image_header 88 = 0 /\ load_u32 image_header 92 = 0.
Proof.
  intros []. assert (Hl : blen (zero_bytes b 0 size) = blen b) by apply blen_zero_bytes.
  unfold channel_size in *.
  assert (Hz : forall off, 88 <= off -> off + 4 <= 96 -> load_u32 image_header off = 0).
  { intros off H1 H2. rewrite load_u32_add, !image_zero by (unfold channel_size; lia). done. }
  split_and!; try (apply Hz; lia); unfold image_header, encode_header.
  all: autorewrite with wire.
  - do 2 rewrite u32_small by (unfold channel_size, is_u32 in *; first [lia | apply u32_range]). done.
  - apply (get_bytes_put_bytes_eq _ 4); [apply abi_bytes | lia | solve_range].
  - apply (get_bytes_put_bytes_eq _ 8); [apply digest_bytes_u8 | lia | solve_range].
  - rewrite !u64_small, !u32_small by done. by destruct c.
  - by do 2 rewrite (u32_small qc) by (unfold is_u32; lia).
  - by do 2 rewrite (u32_small rc) by (unfold is_u32; lia).
  - done.
  - by do 2 rewrite (u32_small (96 + qc * 64)) by (unfold is_u32; lia).
Qed.

Lemma decode_image buffer_size queue_capacity region_capacity :
  channel_typed c -> Forall queue_typed queues -> Forall region_typed regions ->
  kb2_validate_channel_model (Some c) (Some queues) qc (Some regions) rc = true ->
  size <= buffer_size -> qc <= queue_capacity -> rc <= region_capacity ->
  kb2_protocol_channel_decode (Some (channel_image b c queues regions)) buffer_size true true
    queue_capacity true true region_capacity true =
  (KB2_PROTOCOL_OK, mkDecodeOut (Some (qc, rc)) (Some c) queues regions).
Proof.
  intros Hct Hqt Hrt Hv Hsize Hqcap Hrcap. unfold kb2_protocol_channel_decode. cbn [negb orb].
  destruct (image_tables Hqt Hrt) as [Hqs Hrs].
  destruct (image_fields Hct) as (F0 & F4 & F8 & Fc & F72 & F76 & F80 & F84 & F88 & F92).
  pose proof image_header_agree as Ha.
  assert (Hu32 : forall off, 0 <= off -> off + 4 <= 96 ->
            load_u32 (channel_image b c queues regions) off = load_u32 image_header off)
    by (intros; by eapply agree_load_u32; [exact Ha | lia | lia]).
  assert (Hu64 : forall off, 0 <= off -> off + 8 <= 96 ->
            load_u64 (channel_image b c queues regions) off = load_u64 image_header off)
    by (intros; by eapply agree_load_u64; [exact Ha | lia | lia]).
  rewrite (proj2 (Z.ltb_ge _ _)) by (unfold KB2_PROTOCOL_CHANNEL_HEADER_SIZE, channel_size in *; lia).
  unfold bytes_equal. rewrite blen_abi, blen_digest.
  rewrite !(agree_get_bytes _ _ _ _ _ _ Ha), F4, F8 by lia.
  rewrite !bool_decide_true by done. cbn [negb orb].
  rewrite !Hu32, !Hu64 by lia. rewrite F0, F72, F76, F80, F84, F88, F92. cbn [negb orb Z.eqb].
  rewrite encoded_size_spec, decide_True by lia.
  unfold KB2_PROTOCOL_CHANNEL_HEADER_SIZE, KB2_PROTOCOL_QUEUE_DESCRIPTOR_SIZE, KB2_PROTOCOL_REGION_DESCRIPTOR_SIZE.
  rewrite (u64_small (qc * 64)) by (unfold is_u64; lia). rewrite (u64_small (96 + qc * 64)) by (unfold is_u64; lia).
  rewrite !Z.eqb_refl. cbn [negb orb].
  rewrite !(proj2 (Z.ltb_ge _ _)) by lia. cbn [orb].
  rewrite !Nat2Z.id, Hqs, Hrs. cbn [negb out_counts]. rewrite Fc, Hv. done.
Qed.
End Image.

Lemma decode_table_length {T} (decode : list Z -> Z -> T) reserved_zero size b d n items :
  decode_table decode reserved_zero size b d n = (items, true) -> length items = n.
Proof.
  revert d items. induction n as [|n IH]; intros d items E; cbn in E; [by simplify_eq |].
  destruct (reserved_zero b d); cbn in E; [| done].
  destruct (decode_table decode reserved_zero size b (d + size) n) as [items' ok] eqn:E'.
  simplify_eq. cbn. f_equal. by eapply IH.
Qed.

(** The facts a successful decode establishes about the buffer. *)
Lemma decode_ok_inv b n qcap rcap out :
  kb2_protocol_channel_decode (Some b) n true true qcap true true rcap true = (KB2_PROTOCOL_OK, out) ->
  exists c queues regions,
    out = mkDecodeOut (Some (Z.of_nat (length queues), Z.of_nat (length regions))) (Some c) queues regions /\
    let qc := Z.of_nat (length queues) in
    let rc := Z.of_nat (length regions) in
    (1 <= qc <= 1024 /\ 1 <= rc <= 1024) /\ channel_size qc rc <= n /\ qc <= qcap /\ rc <= rcap /\
    get_bytes b 4 4 = kb2_protocol_abi_identity /\ get_bytes b 8 32 = kb2_protocol_schema_digest /\
    load_u32 b 0 = channel_size qc rc /\ load_u32 b 72 = qc /\ load_u32 b 76 = rc /\
    load_u32 b 80 = 96 /\ load_u32 b 84 = 96 + qc * 64 /\ load_u32 b 88 = 0 /\ load_u32 b 92 = 0 /\
    c = mkChannel (load_u64 b 40) (load_u64 b 48) (load_u64 b 56) (load_u32 b 64) (load_u32 b 68) /\
    decode_table kb2_decode_queue (fun b s => load_u32 b (s + 60) =? 0) 64 b 96 (length queues) = (queues, true) /\
    decode_table kb2_decode_region (fun b s => load_u64 b (s + 24) =? 0) 32 b (96 + qc * 64) (length regions) =
      (regions, true) /\
    kb2_validate_channel_model (Some c) (Some queues) qc (Some regions) rc = true.
Proof.
  unfold kb2_protocol_channel_decode. cbn [negb orb]. intros E.
  case_match; [done |]. case_match eqn:Hid; [done |]. case_match eqn:Hres; [done |].
  apply orb_false_iff in Hid as [Habi%negb_false_iff Hdig%negb_false_iff].
  apply orb_false_iff in Hres as [R0%negb_false_iff%Z.eqb_eq R1%negb_false_iff%Z.eqb_eq].
  unfold bytes_equal in Habi, Hdig. apply bool_decide_eq_true in Habi, Hdig.
  rewrite blen_abi in Habi. rewrite blen_digest in Hdig.
  pose proof (load_u32_range b 72) as Hq. pose proof (load_u32_range b 76) as Hr. unfold is_u32 in Hq, Hr.
  rewrite encoded_size_spec in E by lia. case_decide as Hcounts; [| done].
  case_match eqn:Hoff; [done |]. case_match eqn:Hcap; [done |].
  rewrite !orb_false_iff, !negb_false_iff, !Z.eqb_eq in Hoff.
  rewrite !orb_false_iff, !Z.ltb_ge in Hcap. destruct Hoff as [[Htot Hqt] Hrt], Hcap as [[Hsize Hqc] Hrc].
  unfold KB2_PROTOCOL_CHANNEL_HEADER_SIZE, KB2_PROTOCOL_QUEUE_DESCRIPTOR_SIZE,
    KB2_PROTOCOL_REGION_DESCRIPTOR_SIZE in *.
  rewrite (u64_small (load_u32 b 72 * 64)) in Hrt by (unfold is_u64; lia).
  rewrite Hqt, u64_small in Hrt by (unfold is_u64; lia). rewrite Hqt, Hrt in E.
  destruct (decode_table kb2_decode_queue _ 64 b 96 _) as [queues qok] eqn:Eq.
  destruct qok; cbn [negb] in E; [| done].
  destruct (decode_table kb2_decode_region _ 32 b _ _) as [regions rok] eqn:Er.
  destruct rok; cbn [negb] in E; [| done].
  case_match eqn:Hv; [done |]. apply negb_false_iff in Hv. injection E as <-.
  assert (Hql : length queues = Z.to_nat (load_u32 b 72)).
  { apply (decode_table_length _ _ _ _ _ _ _ Eq). }
  assert (Hrl : length regions = Z.to_nat (load_u32 b 76)).
  { apply (decode_table_length _ _ _ _ _ _ _ Er). }
  assert (Hqz : load_u32 b 72 = Z.of_nat (length queues)) by lia.
  assert (Hrz : load_u32 b 76 = Z.of_nat (length regions)) by lia.
  rewrite Hqz, Hrz, ?Nat2Z.id in *.
  eexists _, queues, regions. split; [reflexivity |]. cbv zeta. cbn [out_counts]. split_and!; try done; lia.
Qed.

Lemma channel_decoded_typed b :
  channel_typed (mkChannel (load_u64 b 40) (load_u64 b 48) (load_u64 b 56) (load_u32 b 64) (load_u32 b 68)).
Proof. constructor; cbn; first [apply load_u32_range | apply load_u64_range]. Qed.

(** The header written from the fields of [b] has the bytes of [b]. *)
Lemma encode_header_decoded b z :
  88 <= blen z -> get_bytes b 4 4 = kb2_protocol_abi_identity ->
  get_bytes b 8 32 = kb2_protocol_schema_digest -> load_u32 b 80 = 96 ->
  agree (encode_header z (load_u32 b 0) (load_u32 b 72) (load_u32 b 76) (load_u32 b 84)
           (mkChannel (load_u64 b 40) (load_u64 b 48) (load_u64 b 56) (load_u32 b 64) (load_u32 b 68)))
    b 0 88.
Proof.
  intros Hlen Habi Hdig H80. unfold encode_header.
  cbn [ch_feature_bits ch_channel_id ch_generation ch_protocol_id ch_flags].
  change (u32 KB2_PROTOCOL_CHANNEL_HEADER_SIZE) with 96. rewrite <- H80.
  rewrite !u32_small by apply load_u32_range.
  set (b4 := store_u32 z 0 (load_u32 b 0)).
  assert (H4 : agree b4 b 0 4) by (apply (agree_store_u32 _ _ 0 0); [intros ? ?; lia | lia | lia]).
  assert (H8 : agree (put_bytes b4 4 kb2_protocol_abi_identity) b 0 8).
  { apply (agree_put_bytes _ _ 0 4 kb2_protocol_abi_identity);
      [done | lia | unfold b4; rewrite blen_abi; solve_range | apply abi_bytes | by rewrite blen_abi]. }
  assert (H40 : agree (put_bytes (put_bytes b4 4 kb2_protocol_abi_identity) 8 kb2_protocol_schema_digest) b 0 40).
  { apply (agree_put_bytes _ _ 0 8 kb2_protocol_schema_digest);
      [done | lia | unfold b4; rewrite blen_digest; solve_range | apply digest_bytes_u8 | by rewrite blen_digest]. }
  revert H40. generalize (blen_put_bytes (put_bytes b4 4 kb2_protocol_abi_identity) 8 kb2_protocol_schema_digest).
  generalize (put_bytes (put_bytes b4 4 kb2_protocol_abi_identity) 8 kb2_protocol_schema_digest) as w.
  intros w Hw H40. rewrite blen_put_bytes in Hw. unfold b4 in Hw. rewrite blen_store_u32 in Hw.
  grow_agree.
Qed.

(** Encoding what was decoded reproduces the bytes of the buffer. *)
Lemma image_of_decoded b b' c queues regions :
  let qc := Z.of_nat (length queues) in
  let rc := Z.of_nat (length regions) in
  (1 <= qc <= 1024 /\ 1 <= rc <= 1024) -> channel_size qc rc <= blen b' ->
  get_bytes b 4 4 = kb2_protocol_abi_identity -> get_bytes b 8 32 = kb2_protocol_schema_digest ->
  load_u32 b 0 = channel_size qc rc -> load_u32 b 72 = qc -> load_u32 b 76 = rc ->
  load_u32 b 80 = 96 -> load_u32 b 84 = 96 + qc * 64 -> load_u32 b 88 = 0 -> load_u32 b 92 = 0 ->
  c = mkChannel (load_u64 b 40) (load_u64 b 48) (load_u64 b 56) (load_u32 b 64) (load_u32 b 68) ->
  decode_table kb2_decode_queue (fun b s => load_u32 b (s + 60) =? 0) 64 b 96 (length queues) = (queues, true) ->
  decode_table kb2_decode_region (fun b s => load_u64 b (s + 24) =? 0) 32 b (96 + qc * 64) (length regions) =
    (regions, true) ->
  agree (channel_image b' c queues regions) b 0 (channel_size qc rc).
Proof.
  intros qc rc Hcounts Hroom Habi Hdig F0 F72 F76 F80 F84 F88 F92 -> Hq Hr.
  set (c := mkChannel _ _ _ _ _). set (h := image_header b' c queues regions).
  assert (Hlen : blen h = blen b') by apply blen_image_header.
  assert (Hz : forall j, 88 <= j < channel_size qc rc -> get_byte h j = 0)
    by (intros; by apply image_zero).
  unfold channel_size in Hroom.
  assert (Hhead : agree h b 0 96).
  { apply (agree_extend _ _ _ 88); [| lia | intros; apply Hz; unfold channel_size; lia |].
    - unfold h, image_header. fold qc rc. rewrite <- F0, <- F84, <- F72, <- F76.
      apply encode_header_decoded; [rewrite blen_zero_bytes; lia | done ..].
    - intros j Hj. destruct (decide (j < 92)); [apply (load_u32_zero_bytes_inv b 88) | apply (load_u32_zero_bytes_inv b 92)];
        first [done | lia]. }
  pose (t := encode_table kb2_encode_queue 64 h 96 queues).
  assert (Ht : blen t = blen b').
  { unfold t. rewrite (encode_table_length _ _ (fun b s => load_u32 b (s + 60) =? 0) 64 queue_typed). done. }
  assert (Hqa : agree t b 96 (96 + 64 * qc)).
  { destruct (encode_decode_table kb2_encode_queue _ _ 64 queue_typed b h 96 (length queues) queues) as (_ & _ & Ha);
      [| | | exact Hq | exact Ha].
    - lia.
    - fold qc. rewrite Hlen. lia.
    - intros j Hj. apply Hz. fold qc in Hj. unfold channel_size. lia. }
  assert (Hra : agree (encode_table kb2_encode_region 32 t (96 + qc * 64) regions) b (96 + qc * 64)
                  (96 + qc * 64 + 32 * rc)).
  { destruct (encode_decode_table kb2_encode_region _ _ 32 region_typed b t (96 + qc * 64) (length regions) regions) as (_ & _ & Ha);
      [| | | exact Hr | exact Ha].
    - lia.
    - fold rc. rewrite Ht. lia.
    - intros j Hj. fold rc in Hj. unfold t.
      rewrite (encode_table_outside _ _ (fun b s => load_u32 b (s + 60) =? 0) 64 queue_typed) by lia.
      apply Hz. unfold channel_size. lia. }
  intros j Hj. change (channel_image b' c queues regions) with
    (encode_table kb2_encode_region 32 t (96 + qc * 64) regions).
  unfold channel_size in Hj. destruct (decide (96 + qc * 64 <= j)); [apply Hra; lia |].
  rewrite (encode_table_outside _ _ (fun b s => load_u64 b (s + 24) =? 0) 32 region_typed) by lia.
  destruct (decide (96 <= j)); [apply Hqa; lia |].
  unfold t. rewrite (encode_table_outside _ _ (fun b s => load_u32 b (s + 60) =? 0) 64 queue_typed) by lia.
  apply Hhead. lia.
Qed.
