(* ===== verification/ProtocolClaims.v ===== *)
(** Claims about the channel protocol: what the validator decides, and the wire
    form of channels and message envelopes. *)

From Stdlib Require Import ZArith Lia.
From stdpp Require Import base numbers tactics sets list_numbers list.
From S2P Require Import Prelude Bytes Layout Protocol ProtocolSpec ProtocolWire.

Open Scope Z_scope.

(** * Channels *)

Record channel_args_typed (c : kb2_protocol_channel) (queues : list kb2_protocol_queue)
    (regions : list kb2_protocol_region) : Prop := {
  cat_channel : channel_typed c;
  cat_queues : Forall queue_typed queues;
  cat_regions : Forall region_typed regions;
}.

Definition counts_ok (queues : list kb2_protocol_queue) (regions : list kb2_protocol_region) : Prop :=
  1 <= Z.of_nat (length queues) <= KB2_PROTOCOL_MAX_QUEUES /\
  1 <= Z.of_nat (length regions) <= KB2_PROTOCOL_MAX_REGIONS.

Definition encoded_length (queues : list kb2_protocol_queue) (regions : list kb2_protocol_region) : Z :=
  channel_size (Z.of_nat (length queues)) (Z.of_nat (length regions)).

(** kb2_protocol_channel_encode with the arrays' own counts. *)
Definition encode_channel (b : list Z) (n : Z) c queues regions :=
  kb2_protocol_channel_encode (Some b) n true (Some c) (Some queues) (Z.of_nat (length queues))
    (Some regions) (Z.of_nat (length regions)).

(** kb2_protocol_channel_decode with every output given. *)
Definition decode_channel (b : list Z) (n queue_capacity region_capacity : Z) :=
  kb2_protocol_channel_decode (Some b) n true true queue_capacity true true region_capacity true.

Definition decoded c (queues : list kb2_protocol_queue) (regions : list kb2_protocol_region) : decode_out :=
  mkDecodeOut (Some (Z.of_nat (length queues), Z.of_nat (length regions))) (Some c) queues regions.

Lemma model_spec c queues regions :
  channel_args_typed c queues regions ->
  kb2_validate_channel_model (Some c) (Some queues) (Z.of_nat (length queues))
    (Some regions) (Z.of_nat (length regions)) = true <->
  counts_ok queues regions /\ channel_ok c queues regions.
Proof. intros [Hc Hq Hr]. rewrite channel_model_spec by done. unfold counts_ok. tauto. Qed.

Lemma channel_image_outside b c queues regions j :
  encoded_length queues regions <= j -> get_byte (channel_image b c queues regions) j = get_byte b j.
Proof.
  unfold encoded_length, channel_size. intros Hj. unfold channel_image. cbv zeta.
  rewrite (encode_table_outside _ _ (fun b s => load_u64 b (s + 24) =? 0) 32 region_typed) by lia.
  rewrite (encode_table_outside _ _ (fun b s => load_u32 b (s + 60) =? 0) 64 queue_typed) by lia.
  rewrite encode_header_outside by lia. apply get_byte_zero_bytes_ne; unfold channel_size; lia.
Qed.

Lemma blen_channel_image b c queues regions : blen (channel_image b c queues regions) = blen b.
Proof.
  unfold channel_image. cbv zeta.
  rewrite (encode_table_length _ _ (fun b s => load_u64 b (s + 24) =? 0) 32 region_typed),
    (encode_table_length _ _ (fun b s => load_u32 b (s + 60) =? 0) 64 queue_typed), blen_encode_header.
  apply blen_zero_bytes.
Qed.

(** Decoding reads the first [n] bytes only. *)
Lemma decode_channel_read b b' n qcap rcap :
  agree b b' 0 n -> decode_channel b n qcap rcap = decode_channel b' n qcap rcap.
Proof.
  intros Ha. unfold decode_channel, kb2_protocol_channel_decode. cbn [negb orb].
  destruct (Z.ltb_spec n KB2_PROTOCOL_CHANNEL_HEADER_SIZE) as [| Hn]; [done |].
  unfold KB2_PROTOCOL_CHANNEL_HEADER_SIZE in Hn.
  unfold bytes_equal. rewrite blen_abi, blen_digest.
  rewrite !(agree_get_bytes b b' 0 n) by (done || lia).
  rewrite !(agree_load_u32 b b' 0 n), !(agree_load_u64 b b' 0 n) by (done || lia).
  repeat match goal with |- (if ?c then (_, nothing_written) else _) = _ => destruct c; [done |] end.
  pose proof (load_u32_range b' 72) as Hq. pose proof (load_u32_range b' 76) as Hr. unfold is_u32 in Hq, Hr.
  rewrite encoded_size_spec by lia. case_decide as Hcounts; [| done].
  match goal with |- (if ?c then _ else _) = _ => destruct c eqn:Hoff; [done |] end.
  match goal with |- (if ?c then _ else _) = _ => destruct c eqn:Hcap; [done |] end.
  rewrite !orb_false_iff, !negb_false_iff, !Z.eqb_eq in Hoff. destruct Hoff as [[_ Hqt] Hrt].
  rewrite !orb_false_iff, !Z.ltb_ge in Hcap. destruct Hcap as [[Hsize _] _].
  unfold KB2_PROTOCOL_CHANNEL_HEADER_SIZE, KB2_PROTOCOL_QUEUE_DESCRIPTOR_SIZE,
    KB2_PROTOCOL_REGION_DESCRIPTOR_SIZE, channel_size in *.
  rewrite (u64_small (load_u32 b' 72 * 64)) in Hrt by (unfold is_u64; lia).
  rewrite Hqt, u64_small in Hrt by (unfold is_u64; lia). rewrite Hqt, Hrt.
  rewrite (decode_table_read kb2_encode_queue _ _ 64 queue_typed b b')
    by (eapply agree_sub; [exact Ha | lia | lia]).
  rewrite (decode_table_read kb2_encode_region _ _ 32 region_typed b b')
    by (eapply agree_sub; [exact Ha | lia | lia]).
  done.
Qed.

(** The outcome of an encode, branch by branch. *)
Inductive encode_outcome (b : list Z) (n : Z) c queues regions :
    kb2_protocol_status * option Z * option (list Z) -> Prop :=
| encode_bad_counts :
    ~ counts_ok queues regions ->
    encode_outcome b n c queues regions (KB2_PROTOCOL_INVALID_ARGUMENT, None, Some b)
| encode_no_room :
    counts_ok queues regions -> n < encoded_length queues regions ->
    encode_outcome b n c queues regions
      (KB2_PROTOCOL_BUFFER_TOO_SMALL, Some (encoded_length queues regions), Some b)
| encode_refused :
    counts_ok queues regions -> encoded_length queues regions <= n -> ~ channel_ok c queues regions ->
    encode_outcome b n c queues regions
      (KB2_PROTOCOL_MALFORMED, Some (encoded_length queues regions), Some b)
| encode_written :
    counts_ok queues regions -> encoded_length queues regions <= n -> channel_ok c queues regions ->
    encode_outcome b n c queues regions
      (KB2_PROTOCOL_OK, Some (encoded_length queues regions), Some (channel_image b c queues regions)).

Lemma encode_channel_outcome b n c queues regions :
  channel_args_typed c queues regions -> n <= blen b ->
  encode_outcome b n c queues regions (encode_channel b n c queues regions).
Proof.
  intros Ht Hn. pose proof (model_spec _ _ _ Ht) as Hm.
  destruct (decide (1 <= Z.of_nat (length queues) <= 1024 /\ 1 <= Z.of_nat (length regions) <= 1024)) as [Hc | Hc].
  - destruct (decide (n < encoded_length queues regions)) as [Hlt | Hge].
    + unfold encode_channel, kb2_protocol_channel_encode. cbn [negb].
      rewrite encoded_size_spec, decide_True by lia. rewrite (proj2 (Z.ltb_lt _ _)) by done.
      by apply encode_no_room.
    + destruct (decide (kb2_validate_channel_model (Some c) (Some queues) (Z.of_nat (length queues))
        (Some regions) (Z.of_nat (length regions)) = true)) as [Hv | Hv].
      * apply Hm in Hv as Hok. unfold encode_channel. rewrite encode_is_image; [| done | | ].
        -- constructor; [done | lia | apply Hok].
        -- unfold encoded_length in Hge. lia.
        -- done.
      * unfold encode_channel, kb2_protocol_channel_encode. cbn [negb].
        rewrite encoded_size_spec, decide_True by lia.
        rewrite (proj2 (Z.ltb_ge _ _)) by (unfold encoded_length in Hge; lia).
        rewrite (not_true_is_false _ Hv). cbn [negb]. constructor; [done | lia |].
        intros Hok. by apply Hv, Hm.
  - unfold encode_channel, kb2_protocol_channel_encode. cbn [negb].
    rewrite encoded_size_spec, decide_False by (done || lia). by constructor.
Qed.

(** ** A sample channel *)

Module SampleChannel.

Definition c : kb2_protocol_channel :=
  mkChannel KB2_PROTOCOL_TRANSPORT_FEATURES_REQUIRED 7 3 9 KB2_PROTOCOL_CHANNEL_FLAG_DATA.

Definition queues : list kb2_protocol_queue :=
  [mkQueue 1 KB2_PROTOCOL_QUEUE_ROLE_REQUEST 4 0 4096 4160 4176 1 2 4 8 4;
   mkQueue 2 KB2_PROTOCOL_QUEUE_ROLE_EVENT 2 0 4224 4256 4268 3 4 2 1 2].

Definition regions : list kb2_protocol_region := [mkRegion 5 3 4096 4096].

Definition buffer : list Z := replicate 300 170.

Lemma typed : channel_args_typed c queues regions.
Proof.
  split; [split | |]; unfold queues, regions, c;
    repeat first [apply List.Forall_nil | apply List.Forall_cons; [split |]];
    unfold is_u32, is_u64; vm_compute; split; congruence.
Qed.

Lemma valid : counts_ok queues regions /\ channel_ok c queues regions.
Proof. apply model_spec; [apply typed | vm_compute; reflexivity]. Qed.

(** A single request queue of one entry, and no event queue. *)
Definition request_queue : list kb2_protocol_queue :=
  [mkQueue 1 KB2_PROTOCOL_QUEUE_ROLE_REQUEST 1 0 4096 4160 4176 1 2 1 1 1].

End SampleChannel.

(** ** The channels of docs/ring-transport.md

    The document asks for more than the validator: one event virtqueue in every
    channel, and queue sizes from 16 on.  The validator follows transport.json
    (queue_size_min 1, channel_event_queues_max 1) and protocol.c:229, where a
    comment rejects a dummy event queue. *)

Definition documented_queue_size_min : Z := 16.

Definition is_event (q : kb2_protocol_queue) : Prop := q_role q = KB2_PROTOCOL_QUEUE_ROLE_EVENT.

#[export] Instance is_event_dec q : Decision (is_event q).
Proof. unfold is_event. apply _. Defined.

(** What the document asks for on top of the specification. *)
Definition documented_profile (queues : list kb2_protocol_queue) : Prop :=
  Exists is_event queues /\ Forall (fun q => documented_queue_size_min <= q_queue_size q) queues.

Definition channel_accepted c queues regions : Prop :=
  kb2_protocol_channel_validate (Some c) (Some queues) (Z.of_nat (length queues))
    (Some regions) (Z.of_nat (length regions)) = KB2_PROTOCOL_OK.

Lemma channel_accepted_spec c queues regions :
  channel_args_typed c queues regions ->
  channel_accepted c queues regions <-> counts_ok queues regions /\ channel_ok c queues regions.
Proof.
  intros Ht%model_spec. unfold channel_accepted, kb2_protocol_channel_validate.
  rewrite <- Ht. by case_match.
Qed.

(** The channels of the document: in the accepted ones, exactly one event queue
    and sizes that are powers of two from 16 through 32768. *)
Lemma documented_channels c queues regions :
  channel_args_typed c queues regions -> channel_accepted c queues regions ->
  documented_profile queues <->
  length (filter is_event queues) = 1%nat /\
  Forall (fun q => exists k, 4 <= k <= 15 /\ q_queue_size q = 2 ^ k) queues.
Proof.
  intros Ht Ha. apply channel_accepted_spec in Ha as [_ Hok]; [| done].
  pose proof (co_events _ _ _ Hok) as He. pose proof (co_queues _ _ _ Hok) as Hq.
  assert (Hlen : length (filter is_event queues) = 1%nat <-> Exists is_event queues).
  { change (Z.of_nat (length (filter is_event queues)) <= 1) in He. rewrite Exists_exists. split.
    - intros H1. destruct (filter is_event queues) as [| q l] eqn:E; [done |]. exists q.
      assert (Hf : q ∈ filter is_event queues) by (rewrite E; left). by apply list_elem_of_filter in Hf as [? ?].
    - intros (q & Hin & Hev). assert (Hf : q ∈ filter is_event queues) by by apply list_elem_of_filter.
      destruct (filter is_event queues); [by apply elem_of_nil in Hf |]. cbn in *. lia. }
  unfold documented_profile. rewrite Hlen. apply and_iff_compat_l. rewrite !Forall_forall in *.
  split; intros H q Hin; specialize (H q Hin); destruct (qo_size _ _ (Hq q Hin)) as (k & Hk & E).
  - exists k. split; [| done]. unfold documented_queue_size_min in H. rewrite E in H.
    change 16 with (2 ^ 4) in H. apply Z.pow_le_mono_r_iff in H; lia.
  - destruct H as (j & Hj & ->). change documented_queue_size_min with (2 ^ 4). apply Z.pow_le_mono_r; lia.
Qed.

(** The validator accepts channels outside the document, on either point. *)
Lemma undocumented_channels_accepted :
  channel_accepted SampleChannel.c SampleChannel.queues SampleChannel.regions /\
  Exists is_event SampleChannel.queues /\ (q_queue_size <$> SampleChannel.queues) = [4; 2] /\
  channel_accepted SampleChannel.c SampleChannel.request_queue SampleChannel.regions /\
  ~ Exists is_event SampleChannel.request_queue /\ (q_queue_size <$> SampleChannel.request_queue) = [1].
Proof.
  split_and!; [vm_compute; reflexivity | by apply (bool_decide_unpack _) | done | vm_compute; reflexivity | |
    done].
  by apply (bool_decide_unpack _).
Qed.

(** ** Claims about channels *)

(** C12. The channel validator accepts exactly the channels that meet the
    specification, and answers MALFORMED to the others: counts within the limits,
    the required features, a non-zero identity, regions with known rights, distinct
    ids and disjoint ranges that do not wrap, queues with distinct ids and
    notification ids, power-of-two sizes and aligned rings each inside one region
    and disjoint from every other ring, at most one event queue and at least one
    request queue.  docs/ring-transport.md asks for more (one event queue, sizes from
    16 on): [documented_channels] and [undocumented_channels_accepted] state the
    difference. *)
Theorem channel_validate_decides c queues regions :
  channel_args_typed c queues regions ->
  let status := kb2_protocol_channel_validate (Some c) (Some queues) (Z.of_nat (length queues))
                  (Some regions) (Z.of_nat (length regions)) in
  (status = KB2_PROTOCOL_OK /\ counts_ok queues regions /\ channel_ok c queues regions) \/
  (status = KB2_PROTOCOL_MALFORMED /\ ~ (counts_ok queues regions /\ channel_ok c queues regions)).
Proof.
  intros Ht. pose proof (model_spec _ _ _ Ht) as Hm. unfold kb2_protocol_channel_validate.
  destruct (kb2_validate_channel_model _ _ _ _ _); [left | right]; (split; [done |]).
  - by apply Hm.
  - intros Hok%Hm. done.
Qed.

Lemma channel_validate_decides_witness :
  channel_ok SampleChannel.c SampleChannel.queues SampleChannel.regions.
Proof.
  destruct (channel_validate_decides SampleChannel.c SampleChannel.queues SampleChannel.regions
              SampleChannel.typed) as [(_ & _ & Hok) | (Hbad & _)]; [exact Hok |].
  vm_compute in Hbad. discriminate Hbad.
Defined.

(** C13. Every branch of the encoder: which counts, sizes and channels it refuses
    with which status and reported size, that a refusal leaves the buffer as it
    was, and that a success changes no byte beyond the reported size. *)
Theorem channel_encode_behaviour b n c queues regions :
  channel_args_typed c queues regions -> n <= blen b ->
  encode_outcome b n c queues regions (encode_channel b n c queues regions) /\
  forall size b', encode_channel b n c queues regions = (KB2_PROTOCOL_OK, size, Some b') ->
    blen b' = blen b /\ forall j, encoded_length queues regions <= j -> get_byte b' j = get_byte b j.
Proof.
  intros Ht Hn. pose proof (encode_channel_outcome b n c queues regions Ht Hn) as Ho.
  split; [done |]. intros size b' E. rewrite E in Ho. inversion Ho; subst.
  split; [apply blen_channel_image | apply channel_image_outside].
Qed.

Lemma channel_encode_behaviour_witness :
  encode_outcome SampleChannel.buffer 300 SampleChannel.c SampleChannel.queues SampleChannel.regions
    (encode_channel SampleChannel.buffer 300 SampleChannel.c SampleChannel.queues SampleChannel.regions).
Proof.
  refine (proj1 (channel_encode_behaviour SampleChannel.buffer 300 _ _ _ SampleChannel.typed _)).
  vm_compute. discriminate.
Defined.

(** Round trip: a channel that meets the specification is encoded when the
    buffer has room, and the bytes decode to the same channel, queues and regions. *)
Lemma channel_roundtrip b n c queues regions queue_capacity region_capacity :
  channel_args_typed c queues regions -> counts_ok queues regions -> channel_ok c queues regions ->
  encoded_length queues regions <= n -> n <= blen b ->
  Z.of_nat (length queues) <= queue_capacity -> Z.of_nat (length regions) <= region_capacity ->
  exists b', encode_channel b n c queues regions =
               (KB2_PROTOCOL_OK, Some (encoded_length queues regions), Some b') /\
    decode_channel b' n queue_capacity region_capacity = (KB2_PROTOCOL_OK, decoded c queues regions).
Proof.
  intros Ht Hc Hok Hroom Hn Hq Hr. exists (channel_image b c queues regions). split.
  - destruct (encode_channel_outcome b n c queues regions Ht Hn); [done | lia | done | done].
  - unfold encoded_length in Hroom. destruct Ht as [Hct Hqt Hrt].
    apply decode_image; [done | lia | done | done | done | | done | done | done].
    apply model_spec; [by split | done].
Qed.

(** The decoder accepts exactly the canonical encodings: it succeeds with a
    result if and only if the result is a well-formed channel that fits the given
    arrays and whose encoding is, byte for byte, what the buffer holds.  So
    everything it returns was validated, and no two buffers that differ inside the
    encoded size decode to the same channel. *)
Lemma channel_decode_exact b n queue_capacity region_capacity out :
  n <= blen b ->
  decode_channel b n queue_capacity region_capacity = (KB2_PROTOCOL_OK, out) <->
  exists c queues regions,
    out = decoded c queues regions /\ channel_args_typed c queues regions /\
    channel_ok c queues regions /\
    Z.of_nat (length queues) <= queue_capacity /\ Z.of_nat (length regions) <= region_capacity /\
    exists b', encode_channel b n c queues regions =
                 (KB2_PROTOCOL_OK, Some (encoded_length queues regions), Some b') /\
      agree b' b 0 (encoded_length queues regions).
Proof.
  intros Hn. split.
  - intros E. apply decode_ok_inv in E as (c & queues & regions & -> & Hcounts & Hroom & Hq & Hr & Habi & Hdig &
      F0 & F72 & F76 & F80 & F84 & F88 & F92 & Hc & Eq & Er & Hv).
    assert (Ht : channel_args_typed c queues regions).
    { split.
      - rewrite Hc. apply channel_decoded_typed.
      - eapply (decode_table_typed kb2_encode_queue _ _ 64 queue_typed); exact Eq.
      - eapply (decode_table_typed kb2_encode_region _ _ 32 region_typed); exact Er. }
    exists c, queues, regions. split; [done |]. apply model_spec in Hv as [_ Hok]; [| done].
    split_and!; [done | done | lia | lia |].
    exists (channel_image b c queues regions). split.
    + destruct (encode_channel_outcome b n c queues regions Ht Hn); [done | unfold encoded_length in *; lia | done | done].
    + by apply image_of_decoded; [done | lia | ..].
  - intros (c & queues & regions & -> & Ht & Hok & Hq & Hr & b' & E & Ha).
    pose proof (encode_channel_outcome b n c queues regions Ht Hn) as Ho. rewrite E in Ho.
    inversion Ho; subst. rewrite (decode_channel_read _ (channel_image b c queues regions)).
    + destruct Ht as [Hct Hqt Hrt]. unfold encoded_length in *.
      apply decode_image; [done | lia | done | done | done | | done | done | done].
      apply model_spec; [by split | done].
    + intros j Hj. destruct (decide (j < encoded_length queues regions)).
      * symmetry. apply Ha. lia.
      * symmetry. apply channel_image_outside. lia.
Qed.

(** The decoder never reads past the given size: its result, output cells
    included, is the same on any two memories that agree on the first [n] bytes,
    whatever the pointers and capacities. *)
Lemma channel_decode_reads_only_buffer b b' n channel_given queues_given queue_capacity
    queue_count_given regions_given region_capacity region_count_given :
  agree b b' 0 n ->
  kb2_protocol_channel_decode (Some b) n channel_given queues_given queue_capacity queue_count_given
    regions_given region_capacity region_count_given =
  kb2_protocol_channel_decode (Some b') n channel_given queues_given queue_capacity queue_count_given
    regions_given region_capacity region_count_given.
Proof.
  intros Ha. destruct channel_given, queues_given, queue_count_given, regions_given, region_count_given;
    try done. exact (decode_channel_read b b' n queue_capacity region_capacity Ha).
Qed.

(** C14. Channels are an exact wire format.  A channel that meets the specification is
    encoded when the buffer has room, and the bytes decode to the same channel, queues
    and regions; the decoder succeeds exactly on the canonical encodings of the channels
    that meet the specification and fit the caller's arrays; and whatever the pointers
    and capacities, its result and output cells depend on the first [n] bytes only. *)
Theorem channel_wire b n queue_capacity region_capacity :
  n <= blen b ->
  (forall c queues regions,
     channel_args_typed c queues regions -> counts_ok queues regions -> channel_ok c queues regions ->
     encoded_length queues regions <= n ->
     Z.of_nat (length queues) <= queue_capacity -> Z.of_nat (length regions) <= region_capacity ->
     exists b', encode_channel b n c queues regions =
                  (KB2_PROTOCOL_OK, Some (encoded_length queues regions), Some b') /\
       decode_channel b' n queue_capacity region_capacity = (KB2_PROTOCOL_OK, decoded c queues regions)) /\
  (forall out,
     decode_channel b n queue_capacity region_capacity = (KB2_PROTOCOL_OK, out) <->
     exists c queues regions,
       out = decoded c queues regions /\ channel_args_typed c queues regions /\ channel_ok c queues regions /\
       Z.of_nat (length queues) <= queue_capacity /\ Z.of_nat (length regions) <= region_capacity /\
       exists b', encode_channel b n c queues regions =
                    (KB2_PROTOCOL_OK, Some (encoded_length queues regions), Some b') /\
         agree b' b 0 (encoded_length queues regions)) /\
  (forall b' channel_given queues_given queue_count_given regions_given region_count_given,
     agree b b' 0 n ->
     kb2_protocol_channel_decode (Some b) n channel_given queues_given queue_capacity queue_count_given
       regions_given region_capacity region_count_given =
     kb2_protocol_channel_decode (Some b') n channel_given queues_given queue_capacity queue_count_given
       regions_given region_capacity region_count_given).
Proof.
  intros Hn. split; [| split].
  - intros. by apply channel_roundtrip.
  - intros out. by apply channel_decode_exact.
  - intros. by apply channel_decode_reads_only_buffer.
Qed.

Lemma channel_wire_witness :
  exists b', encode_channel SampleChannel.buffer 300 SampleChannel.c SampleChannel.queues SampleChannel.regions =
               (KB2_PROTOCOL_OK, Some (encoded_length SampleChannel.queues SampleChannel.regions), Some b') /\
    decode_channel b' 300 4 1 =
      (KB2_PROTOCOL_OK, decoded SampleChannel.c SampleChannel.queues SampleChannel.regions).
Proof.
  assert (Hn : 300 <= blen SampleChannel.buffer) by (vm_compute; discriminate).
  apply (proj1 (channel_wire SampleChannel.buffer 300 4 1 Hn) _ _ _ SampleChannel.typed
           (proj1 SampleChannel.valid) (proj2 SampleChannel.valid)); vm_compute; discriminate.
Defined.

(** * Message envelopes *)

Record envelope_typed (e : kb2_protocol_message_envelope) : Prop := {
  et_protocol_id : is_u32 (en_protocol_id e);
  et_opcode : is_u32 (en_opcode e);
  et_flags : is_u32 (en_flags e);
  et_generation : is_u64 (en_generation e);
  et_correlation_id : is_u64 (en_correlation_id e);
  et_payload_length : is_u32 (en_payload_length e);
}.

Definition envelope_ok (e : kb2_protocol_message_envelope) : Prop :=
  en_protocol_id e <> 0 /\ en_generation e <> 0.

(** The 40 bytes kb2_protocol_message_envelope_encode writes. *)
Definition envelope_image (b : list Z) (e : kb2_protocol_message_envelope) : list Z :=
  let b := zero_bytes b 0 40 in
  let b := store_u32 b 0 (en_protocol_id e) in
  let b := put_bytes b 4 kb2_protocol_abi_identity in
  let b := store_u32 b 8 (en_opcode e) in
  let b := store_u32 b 12 (en_flags e) in
  let b := store_u64 b 16 (en_generation e) in
  let b := store_u64 b 24 (en_correlation_id e) in
  store_u32 b 32 (en_payload_length e).

Lemma envelope_total_size e :
  envelope_typed e ->
  kb2_size_add_multiply KB2_PROTOCOL_MESSAGE_ENVELOPE_SIZE (en_payload_length e) 1 =
  Some (40 + en_payload_length e).
Proof.
  intros [? ? ? ? ? Hp]. unfold is_u32 in Hp. change KB2_PROTOCOL_MESSAGE_ENVELOPE_SIZE with 40.
  rewrite size_add_multiply_spec by (unfold SIZE_MAX, U64_MAX; lia).
  rewrite decide_True by (unfold SIZE_MAX, U64_MAX; lia). f_equal. lia.
Qed.

(** The encoder, branch by branch. *)
Lemma envelope_encode_spec b n e :
  envelope_typed e ->
  kb2_protocol_message_envelope_encode (Some b) n (Some e) =
  if decide (envelope_ok e) then
    if decide (40 + en_payload_length e <= n) then (KB2_PROTOCOL_OK, Some (envelope_image b e))
    else (KB2_PROTOCOL_BUFFER_TOO_SMALL, Some b)
  else (KB2_PROTOCOL_INVALID_ARGUMENT, Some b).
Proof.
  intros Ht. unfold kb2_protocol_message_envelope_encode. rewrite envelope_total_size by done.
  unfold envelope_ok. case_decide as Hok.
  - rewrite (proj2 (orb_false_iff _ _)) by (rewrite !Z.eqb_neq; exact Hok).
    case_decide; [rewrite (proj2 (Z.ltb_ge _ _)) by lia | rewrite (proj2 (Z.ltb_lt _ _)) by lia]; done.
  - rewrite (proj2 (orb_true_iff _ _)); [done |]. rewrite !Z.eqb_eq. lia.
Qed.

Lemma envelope_image_outside b e j : 40 <= j -> get_byte (envelope_image b e) j = get_byte b j.
Proof.
  intros Hj. unfold envelope_image.
  repeat first [rewrite get_byte_store_u32_ne by lia | rewrite get_byte_store_u64_ne by lia |
                rewrite get_byte_put_bytes_ne by solve_range].
  apply get_byte_zero_bytes_ne; lia.
Qed.

Lemma blen_envelope_image b e : blen (envelope_image b e) = blen b.
Proof. unfold envelope_image. by autorewrite with blen. Qed.

Definition decoded_envelope (b : list Z) : kb2_protocol_message_envelope :=
  mkEnvelope (load_u32 b 0) (load_u32 b 8) (load_u32 b 12) (load_u64 b 16) (load_u64 b 24) (load_u32 b 32).

Lemma decoded_envelope_typed b : envelope_typed (decoded_envelope b).
Proof. constructor; cbn; first [apply load_u32_range | apply load_u64_range]. Qed.

(** The decoder, branch by branch. *)
Lemma envelope_decode_spec b n :
  kb2_protocol_message_envelope_decode (Some b) n true =
  if decide (n < 40) then (KB2_PROTOCOL_BUFFER_TOO_SMALL, None)
  else if decide (get_bytes b 4 4 = kb2_protocol_abi_identity) then
    if decide (load_u32 b 36 = 0) then
      if decide (envelope_ok (decoded_envelope b)) then
        if decide (40 + load_u32 b 32 <= n) then (KB2_PROTOCOL_OK, Some (decoded_envelope b))
        else (KB2_PROTOCOL_BUFFER_TOO_SMALL, Some (decoded_envelope b))
      else (KB2_PROTOCOL_MALFORMED, Some (decoded_envelope b))
    else (KB2_PROTOCOL_MALFORMED, None)
  else (KB2_PROTOCOL_SCHEMA_MISMATCH, None).
Proof.
  unfold kb2_protocol_message_envelope_decode. cbn [negb]. change KB2_PROTOCOL_MESSAGE_ENVELOPE_SIZE with 40 at 1.
  case_decide as Hn; [by rewrite (proj2 (Z.ltb_lt _ _)) by done |]. rewrite (proj2 (Z.ltb_ge _ _)) by lia.
  unfold bytes_equal. rewrite blen_abi.
  case_decide as Habi; [rewrite bool_decide_true by done | by rewrite bool_decide_false by done].
  cbn [negb]. case_decide as H36; [rewrite H36 | by rewrite (proj2 (Z.eqb_neq _ _)) by done].
  cbn [Z.eqb negb]. cbv zeta. fold (decoded_envelope b).
  rewrite envelope_total_size by apply decoded_envelope_typed. unfold envelope_ok. case_decide as Hok.
  - rewrite (proj2 (orb_false_iff _ _)) by (rewrite !Z.eqb_neq; exact Hok).
    change (en_payload_length (decoded_envelope b)) with (load_u32 b 32).
    case_decide; [rewrite (proj2 (Z.ltb_ge _ _)) by lia | rewrite (proj2 (Z.ltb_lt _ _)) by lia]; done.
  - rewrite (proj2 (orb_true_iff _ _)); [done |]. rewrite !Z.eqb_eq. lia.
Qed.

(** Reading back the image. *)
Lemma envelope_image_fields b e :
  envelope_typed e -> 40 <= blen b ->
  decoded_envelope (envelope_image b e) = e /\
  get_bytes (envelope_image b e) 4 4 = kb2_protocol_abi_identity /\ load_u32 (envelope_image b e) 36 = 0.
Proof.
  intros [] Hlen. unfold decoded_envelope, envelope_image. cbv zeta. split_and!.
  - autorewrite with wire. rewrite !u32_small, !u64_small by done. by destruct e.
  - autorewrite with wire. apply (get_bytes_put_bytes_eq _ 4); [apply abi_bytes | lia | solve_range].
  - by autorewrite with wire.
Qed.

(** The image of the fields of a buffer has the bytes of the buffer. *)
Lemma envelope_image_decoded b b' :
  40 <= blen b' -> get_bytes b 4 4 = kb2_protocol_abi_identity -> load_u32 b 36 = 0 ->
  agree (envelope_image b' (decoded_envelope b)) b 0 40.
Proof.
  intros Hlen Habi H36. apply (agree_extend _ _ _ 36); [| lia | |].
  - unfold envelope_image, decoded_envelope.
    cbn [en_protocol_id en_opcode en_flags en_generation en_correlation_id en_payload_length].
    set (z := store_u32 (zero_bytes b' 0 40) 0 (load_u32 b 0)).
    assert (H4 : agree z b 0 4).
    { apply (agree_store_u32 _ _ 0 0); [intros ? ?; lia | lia | rewrite blen_zero_bytes; lia]. }
    assert (H8 : agree (put_bytes z 4 kb2_protocol_abi_identity) b 0 8).
    { apply (agree_put_bytes _ _ 0 4 kb2_protocol_abi_identity);
        [done | lia | unfold z; rewrite blen_abi; solve_range | apply abi_bytes | by rewrite blen_abi]. }
    assert (Hw : blen (put_bytes z 4 kb2_protocol_abi_identity) = blen b')
      by (unfold z; by autorewrite with blen).
    revert H8 Hw. generalize (put_bytes z 4 kb2_protocol_abi_identity). intros w H8 Hw. grow_agree.
  - intros j Hj. unfold envelope_image.
    repeat first [rewrite get_byte_store_u32_ne by lia | rewrite get_byte_store_u64_ne by lia |
                  rewrite get_byte_put_bytes_ne by solve_range].
    apply get_byte_zero_bytes; lia.
  - intros j Hj. apply (load_u32_zero_bytes_inv b 36); [done | lia].
Qed.

(** Message envelopes: the encoder refuses a zero protocol id or generation and
    a buffer without room for the payload and leaves the buffer alone; otherwise it
    changes the first 40 bytes only and they decode to the same envelope. *)
Lemma envelope_roundtrip b n e :
  envelope_typed e -> n <= blen b ->
  match kb2_protocol_message_envelope_encode (Some b) n (Some e) with
  | (KB2_PROTOCOL_OK, Some b') =>
      envelope_ok e /\ 40 + en_payload_length e <= n /\ blen b' = blen b /\
      (forall j, 40 <= j -> get_byte b' j = get_byte b j) /\
      kb2_protocol_message_envelope_decode (Some b') n true = (KB2_PROTOCOL_OK, Some e)
  | (status, b') =>
      b' = Some b /\
      ((status = KB2_PROTOCOL_INVALID_ARGUMENT /\ ~ envelope_ok e) \/
       (status = KB2_PROTOCOL_BUFFER_TOO_SMALL /\ envelope_ok e /\ n < 40 + en_payload_length e))
  end.
Proof.
  intros Ht Hn. rewrite envelope_encode_spec by done.
  case_decide as Hok; [| by auto]. case_decide as Hroom; [| split; [done | right; split_and!; [done | done | lia]]].
  destruct Ht as [? ? ? ? ? Hp] eqn:Et. unfold is_u32 in Hp.
  destruct (envelope_image_fields b e) as (He & Habi & H36); [done | lia |].
  split_and!; [done | done | apply blen_envelope_image | apply envelope_image_outside |].
  rewrite envelope_decode_spec, He, decide_False by lia. rewrite !decide_True; [done | | done | done | done].
  change (load_u32 (envelope_image b e) 32) with (en_payload_length (decoded_envelope (envelope_image b e))).
  by rewrite He.
Qed.

(** The envelope decoder accepts exactly the canonical encodings: success with
    [e] means that encoding [e] over the buffer succeeds and changes no byte. *)
Lemma envelope_decode_exact b n e :
  n <= blen b ->
  kb2_protocol_message_envelope_decode (Some b) n true = (KB2_PROTOCOL_OK, Some e) <->
  envelope_typed e /\
  exists b', kb2_protocol_message_envelope_encode (Some b) n (Some e) = (KB2_PROTOCOL_OK, Some b') /\
    agree b' b 0 40.
Proof.
  intros Hn. split.
  - rewrite envelope_decode_spec. repeat (case_decide; [| done] || (case_decide; [done |])). intros [= <-].
    split; [apply decoded_envelope_typed |]. rewrite envelope_encode_spec by apply decoded_envelope_typed.
    rewrite !decide_True by done. eexists. split; [done |]. apply envelope_image_decoded; [lia | done | done].
  - intros (Ht & b' & E & Ha). rewrite envelope_encode_spec in E by done.
    repeat (case_decide; [| done]). injection E as <-.
    assert (Hp : 0 <= en_payload_length e) by (destruct Ht as [? ? ? ? ? Hp]; apply Hp).
    destruct (envelope_image_fields b e Ht) as (He & Habi & H36); [lia |].
    assert (Hd : decoded_envelope b = e).
    { rewrite <- He at 1. unfold decoded_envelope.
      by rewrite !(agree_load_u32 _ _ _ _ _ Ha), !(agree_load_u64 _ _ _ _ _ Ha) by lia. }
    rewrite envelope_decode_spec, decide_False by lia.
    rewrite <- (agree_get_bytes _ _ _ _ _ _ Ha), <- (agree_load_u32 _ _ _ _ 36 Ha), Hd by lia.
    rewrite !decide_True; [done | | done | done | done].
    change (load_u32 b 32) with (en_payload_length (decoded_envelope b)). by rewrite Hd.
Qed.

(** C15. Message envelopes are an exact wire format.  The encoder refuses a zero
    protocol id or generation and a buffer without room for the payload and leaves the
    buffer alone; otherwise it changes the first 40 bytes only and they decode to the
    same envelope.  The decoder succeeds with [e] exactly when encoding [e] over the
    buffer succeeds and changes no byte of the first 40. *)
Theorem envelope_wire b n e :
  n <= blen b ->
  (envelope_typed e ->
   match kb2_protocol_message_envelope_encode (Some b) n (Some e) with
   | (KB2_PROTOCOL_OK, Some b') =>
       envelope_ok e /\ 40 + en_payload_length e <= n /\ blen b' = blen b /\
       (forall j, 40 <= j -> get_byte b' j = get_byte b j) /\
       kb2_protocol_message_envelope_decode (Some b') n true = (KB2_PROTOCOL_OK, Some e)
   | (status, b') =>
       b' = Some b /\
       ((status = KB2_PROTOCOL_INVALID_ARGUMENT /\ ~ envelope_ok e) \/
        (status = KB2_PROTOCOL_BUFFER_TOO_SMALL /\ envelope_ok e /\ n < 40 + en_payload_length e))
   end) /\
  (kb2_protocol_message_envelope_decode (Some b) n true = (KB2_PROTOCOL_OK, Some e) <->
   envelope_typed e /\
   exists b', kb2_protocol_message_envelope_encode (Some b) n (Some e) = (KB2_PROTOCOL_OK, Some b') /\
     agree b' b 0 40).
Proof.
  intros Hn. split.
  - intros Ht. by apply envelope_roundtrip.
  - by apply envelope_decode_exact.
Qed.

Lemma envelope_wire_witness :
  kb2_protocol_message_envelope_decode
    (snd (kb2_protocol_message_envelope_encode (Some (replicate 64 255)) 64 (Some (mkEnvelope 9 4 1 3 77 24)))) 64 true =
  (KB2_PROTOCOL_OK, Some (mkEnvelope 9 4 1 3 77 24)).
Proof.
  pose proof (proj1 (envelope_wire (replicate 64 255) 64 (mkEnvelope 9 4 1 3 77 24) ltac:(vm_compute; discriminate))
                ltac:(split; unfold is_u32, is_u64; cbn; lia)) as H.
  vm_compute in H |- *. exact (proj2 (proj2 (proj2 (proj2 H)))).
Defined.
