(* ===== verification/ClosureLayout.v ===== *)
(** The layout constants of the closure manifest (the generated closure_layout.h). *)

From Stdlib Require Import ZArith.
From stdpp Require Import base list.

Open Scope Z_scope.

Definition KB2_CLOSURE_SCHEMA_SHA256_BYTES : list Z :=
  [71; 254; 95; 24; 131; 97; 140; 59; 23; 221; 39; 159; 76; 135; 115; 178; 65; 155; 207; 71; 223;
  101; 23; 78; 201; 211; 233; 132; 139; 141; 129; 15].
Definition KB2_CLOSURE_ABI_IDENTITY_BYTES : list Z := [100; 101; 118; 0].
Definition KB2_CLOSURE_MAX_ARTIFACTS : Z := 4096.
Definition KB2_CLOSURE_MAX_DEPENDENCIES : Z := 65536.
Definition KB2_CLOSURE_MAX_EXPORTS : Z := 65536.
Definition KB2_CLOSURE_MAX_IMPORTS : Z := 65536.
Definition KB2_CLOSURE_MAX_RESOURCES : Z := 16384.
Definition KB2_CLOSURE_MAX_RESOURCE_BINDINGS : Z := 65536.
Definition KB2_CLOSURE_ARTIFACT_SHARED_PROVIDER : Z := 0.
Definition KB2_CLOSURE_ARTIFACT_RELOCATABLE_MODULE : Z := 1.
Definition KB2_CLOSURE_ARTIFACT_FLAG_ROOT : Z := 1.
Definition KB2_CLOSURE_ARTIFACT_FLAG_NATIVE_LINUX : Z := 2.
Definition KB2_CLOSURE_SYMBOL_FUNCTION : Z := 0.
Definition KB2_CLOSURE_SYMBOL_OBJECT : Z := 1.
Definition KB2_CLOSURE_IMPORT_FLAG_OPTIONAL : Z := 1.
Definition KB2_CLOSURE_RESOURCE_MEMORY : Z := 0.
Definition KB2_CLOSURE_RESOURCE_DEVICE : Z := 1.
Definition KB2_CLOSURE_RESOURCE_STORAGE : Z := 2.
Definition KB2_CLOSURE_RESOURCE_NOTIFICATION : Z := 3.
Definition KB2_CLOSURE_RESOURCE_CHANNEL : Z := 4.
Definition KB2_CLOSURE_RESOURCE_FLAG_REQUIRED : Z := 1.
Definition KB2_CLOSURE_RESOURCE_FLAG_SHARED : Z := 2.
Definition KB2_CLOSURE_RESOURCE_FLAG_RESET_REQUIRED : Z := 4.
Definition KB2_CLOSURE_MEMORY_RIGHT_READ : Z := 1.
Definition KB2_CLOSURE_MEMORY_RIGHT_WRITE : Z := 2.
Definition KB2_CLOSURE_MEMORY_RIGHT_MAP : Z := 4.
Definition KB2_CLOSURE_MEMORY_RIGHT_DMA : Z := 8.
Definition KB2_CLOSURE_DEVICE_RIGHT_COMMAND : Z := 1.
Definition KB2_CLOSURE_DEVICE_RIGHT_MAP : Z := 2.
Definition KB2_CLOSURE_DEVICE_RIGHT_DMA : Z := 4.
Definition KB2_CLOSURE_STORAGE_RIGHT_READ_BLOCKS : Z := 1.
Definition KB2_CLOSURE_STORAGE_RIGHT_WRITE_BLOCKS : Z := 2.
Definition KB2_CLOSURE_STORAGE_RIGHT_FLUSH : Z := 4.
Definition KB2_CLOSURE_STORAGE_RIGHT_DISCARD : Z := 8.
Definition KB2_CLOSURE_NOTIFICATION_RIGHT_WAIT : Z := 1.
Definition KB2_CLOSURE_NOTIFICATION_RIGHT_SIGNAL : Z := 2.
Definition KB2_CLOSURE_CHANNEL_RIGHT_SEND : Z := 1.
Definition KB2_CLOSURE_CHANNEL_RIGHT_RECEIVE : Z := 2.
Definition KB2_CLOSURE_MANIFEST_HEADER_SIZE : Z := 128.
Definition KB2_CLOSURE_MANIFEST_HEADER_TOTAL_SIZE_OFFSET : Z := 0.
Definition KB2_CLOSURE_MANIFEST_HEADER_ABI_IDENTITY_OFFSET : Z := 4.
Definition KB2_CLOSURE_MANIFEST_HEADER_SCHEMA_DIGEST_OFFSET : Z := 8.
Definition KB2_CLOSURE_MANIFEST_HEADER_ARTIFACT_COUNT_OFFSET : Z := 40.
Definition KB2_CLOSURE_MANIFEST_HEADER_DEPENDENCY_COUNT_OFFSET : Z := 44.
Definition KB2_CLOSURE_MANIFEST_HEADER_EXPORT_COUNT_OFFSET : Z := 48.
Definition KB2_CLOSURE_MANIFEST_HEADER_IMPORT_COUNT_OFFSET : Z := 52.
Definition KB2_CLOSURE_MANIFEST_HEADER_RESOURCE_COUNT_OFFSET : Z := 56.
Definition KB2_CLOSURE_MANIFEST_HEADER_RESOURCE_BINDING_COUNT_OFFSET : Z := 60.
Definition KB2_CLOSURE_MANIFEST_HEADER_ARTIFACT_TABLE_OFFSET_OFFSET : Z := 64.
Definition KB2_CLOSURE_MANIFEST_HEADER_DEPENDENCY_TABLE_OFFSET_OFFSET : Z := 68.
Definition KB2_CLOSURE_MANIFEST_HEADER_EXPORT_TABLE_OFFSET_OFFSET : Z := 72.
Definition KB2_CLOSURE_MANIFEST_HEADER_IMPORT_TABLE_OFFSET_OFFSET : Z := 76.
Definition KB2_CLOSURE_MANIFEST_HEADER_RESOURCE_TABLE_OFFSET_OFFSET : Z := 80.
Definition KB2_CLOSURE_MANIFEST_HEADER_RESOURCE_BINDING_TABLE_OFFSET_OFFSET : Z := 84.
Definition KB2_CLOSURE_MANIFEST_HEADER_STRING_TABLE_OFFSET_OFFSET : Z := 88.
Definition KB2_CLOSURE_MANIFEST_HEADER_STRING_TABLE_SIZE_OFFSET : Z := 92.
Definition KB2_CLOSURE_MANIFEST_HEADER_RESERVED_OFFSET : Z := 96.
Definition KB2_CLOSURE_ARTIFACT_DESCRIPTOR_SIZE : Z := 96.
Definition KB2_CLOSURE_ARTIFACT_DESCRIPTOR_NODE_ID_OFFSET : Z := 0.
Definition KB2_CLOSURE_ARTIFACT_DESCRIPTOR_KIND_OFFSET : Z := 4.
Definition KB2_CLOSURE_ARTIFACT_DESCRIPTOR_FLAGS_OFFSET : Z := 8.
Definition KB2_CLOSURE_ARTIFACT_DESCRIPTOR_RESERVED_0_OFFSET : Z := 12.
Definition KB2_CLOSURE_ARTIFACT_DESCRIPTOR_CONTENT_SIZE_OFFSET : Z := 16.
Definition KB2_CLOSURE_ARTIFACT_DESCRIPTOR_CONTENT_DIGEST_OFFSET : Z := 24.
Definition KB2_CLOSURE_ARTIFACT_DESCRIPTOR_NAMESPACE_OFFSET_OFFSET : Z := 56.
Definition KB2_CLOSURE_ARTIFACT_DESCRIPTOR_NAMESPACE_LENGTH_OFFSET : Z := 60.
Definition KB2_CLOSURE_ARTIFACT_DESCRIPTOR_INIT_OFFSET_OFFSET : Z := 64.
Definition KB2_CLOSURE_ARTIFACT_DESCRIPTOR_INIT_LENGTH_OFFSET : Z := 68.
Definition KB2_CLOSURE_ARTIFACT_DESCRIPTOR_QUIESCE_OFFSET_OFFSET : Z := 72.
Definition KB2_CLOSURE_ARTIFACT_DESCRIPTOR_QUIESCE_LENGTH_OFFSET : Z := 76.
Definition KB2_CLOSURE_ARTIFACT_DESCRIPTOR_CLEANUP_OFFSET_OFFSET : Z := 80.
Definition KB2_CLOSURE_ARTIFACT_DESCRIPTOR_CLEANUP_LENGTH_OFFSET : Z := 84.
Definition KB2_CLOSURE_ARTIFACT_DESCRIPTOR_RESERVED_1_OFFSET : Z := 88.
Definition KB2_CLOSURE_DEPENDENCY_DESCRIPTOR_SIZE : Z := 8.
Definition KB2_CLOSURE_DEPENDENCY_DESCRIPTOR_CONSUMER_NODE_ID_OFFSET : Z := 0.
Definition KB2_CLOSURE_DEPENDENCY_DESCRIPTOR_PROVIDER_NODE_ID_OFFSET : Z := 4.
Definition KB2_CLOSURE_SYMBOL_DESCRIPTOR_SIZE : Z := 16.
Definition KB2_CLOSURE_SYMBOL_DESCRIPTOR_NODE_ID_OFFSET : Z := 0.
Definition KB2_CLOSURE_SYMBOL_DESCRIPTOR_KIND_OFFSET : Z := 4.
Definition KB2_CLOSURE_SYMBOL_DESCRIPTOR_NAME_OFFSET_OFFSET : Z := 8.
Definition KB2_CLOSURE_SYMBOL_DESCRIPTOR_NAME_LENGTH_OFFSET : Z := 12.
Definition KB2_CLOSURE_IMPORT_DESCRIPTOR_SIZE : Z := 32.
Definition KB2_CLOSURE_IMPORT_DESCRIPTOR_CONSUMER_NODE_ID_OFFSET : Z := 0.
Definition KB2_CLOSURE_IMPORT_DESCRIPTOR_PROVIDER_NODE_ID_OFFSET : Z := 4.
Definition KB2_CLOSURE_IMPORT_DESCRIPTOR_KIND_OFFSET : Z := 8.
Definition KB2_CLOSURE_IMPORT_DESCRIPTOR_FLAGS_OFFSET : Z := 12.
Definition KB2_CLOSURE_IMPORT_DESCRIPTOR_CONSUMER_NAME_OFFSET_OFFSET : Z := 16.
Definition KB2_CLOSURE_IMPORT_DESCRIPTOR_CONSUMER_NAME_LENGTH_OFFSET : Z := 20.
Definition KB2_CLOSURE_IMPORT_DESCRIPTOR_PROVIDER_NAME_OFFSET_OFFSET : Z := 24.
Definition KB2_CLOSURE_IMPORT_DESCRIPTOR_PROVIDER_NAME_LENGTH_OFFSET : Z := 28.
Definition KB2_CLOSURE_RESOURCE_DESCRIPTOR_SIZE : Z := 72.
Definition KB2_CLOSURE_RESOURCE_DESCRIPTOR_SLOT_ID_OFFSET : Z := 0.
Definition KB2_CLOSURE_RESOURCE_DESCRIPTOR_TYPE_OFFSET : Z := 4.
Definition KB2_CLOSURE_RESOURCE_DESCRIPTOR_MINIMUM_COUNT_OFFSET : Z := 8.
Definition KB2_CLOSURE_RESOURCE_DESCRIPTOR_MAXIMUM_COUNT_OFFSET : Z := 12.
Definition KB2_CLOSURE_RESOURCE_DESCRIPTOR_REQUIRED_RIGHTS_OFFSET : Z := 16.
Definition KB2_CLOSURE_RESOURCE_DESCRIPTOR_MAXIMUM_RIGHTS_OFFSET : Z := 24.
Definition KB2_CLOSURE_RESOURCE_DESCRIPTOR_FLAGS_OFFSET : Z := 32.
Definition KB2_CLOSURE_RESOURCE_DESCRIPTOR_RESERVED_OFFSET : Z := 36.
Definition KB2_CLOSURE_RESOURCE_DESCRIPTOR_INTERFACE_SCHEMA_DIGEST_OFFSET : Z := 40.
Definition KB2_CLOSURE_RESOURCE_BINDING_SIZE : Z := 8.
Definition KB2_CLOSURE_RESOURCE_BINDING_SLOT_ID_OFFSET : Z := 0.
Definition KB2_CLOSURE_RESOURCE_BINDING_NODE_ID_OFFSET : Z := 4.
