(* ===== verification/ClosureManifest.v ===== *)
(** Closure manifests (protocol/src/closure_manifest.c, protocol/include/kobox2/closure_manifest.h):
    the message that describes a closure, with tables of fixed-size records and a
    string table, its encoder and decoder and the accessors of a decoded manifest.

    A string is a pointer and a length; the pointer a decoder returns is the bytes of
    the string.  An output record is [None] when it is not written. *)

From Stdlib Require Import ZArith Lia.
From stdpp Require Import base numbers tactics list_numbers list.
From S2P Require Import Prelude Bytes Layout Protocol ClosureLayout.

Open Scope Z_scope.
Open Scope kobox_scope.

Record kb2_closure_string := mkString {
  st_data : option (list Z);
  st_length : Z;
}.

Record kb2_closure_manifest_artifact_t := mkManifestArtifact {
  ma_node_id : Z;
  ma_kind : Z;
  ma_flags : Z;
  ma_content_size : Z;
  ma_content_digest : list Z;
  ma_namespace_name : kb2_closure_string;
  ma_init_symbol : kb2_closure_string;
  ma_quiesce_symbol : kb2_closure_string;
  ma_cleanup_symbol : kb2_closure_string;
}.

Record kb2_closure_manifest_dependency_t := mkManifestDependency {
  md_consumer_node_id : Z;
  md_provider_node_id : Z;
}.

Record kb2_closure_manifest_symbol := mkManifestSymbol {
  my_node_id : Z;
  my_kind : Z;
  my_name : kb2_closure_string;
}.

Record kb2_closure_manifest_import_t := mkManifestImport {
  mi_consumer_node_id : Z;
  mi_provider_node_id : Z;
  mi_kind : Z;
  mi_flags : Z;
  mi_consumer_name : kb2_closure_string;
  mi_provider_name : kb2_closure_string;
}.

Record kb2_closure_manifest_resource_t := mkManifestResource {
  mr_slot_id : Z;
  mr_type : Z;
  mr_minimum_count : Z;
  mr_maximum_count : Z;
  mr_required_rights : Z;
  mr_maximum_rights : Z;
  mr_flags : Z;
  mr_interface_schema_digest : list Z;
}.

Record kb2_closure_manifest_binding_t := mkManifestBinding {
  mb_slot_id : Z;
  mb_node_id : Z;
}.

Record kb2_closure_manifest_source := mkManifestSource {
  ms_artifacts : option (list kb2_closure_manifest_artifact_t);
  ms_artifact_count : Z;
  ms_dependencies : option (list kb2_closure_manifest_dependency_t);
  ms_dependency_count : Z;
  ms_exports : option (list kb2_closure_manifest_symbol);
  ms_export_count : Z;
  ms_imports : option (list kb2_closure_manifest_import_t);
  ms_import_count : Z;
  ms_resources : option (list kb2_closure_manifest_resource_t);
  ms_resource_count : Z;
  ms_bindings : option (list kb2_closure_manifest_binding_t);
  ms_binding_count : Z;
}.

(** [mf_bytes] is the buffer the manifest was decoded from. *)
Record kb2_closure_manifest := mkManifest {
  mf_bytes : option (list Z);
  mf_size : Z;
  mf_counts : list Z;
  mf_offsets : list Z;
  mf_string_table_size : Z;
}.

Definition ARTIFACTS : nat := 0.
Definition DEPENDENCIES : nat := 1.
Definition EXPORTS : nat := 2.
Definition IMPORTS : nat := 3.
Definition RESOURCES : nat := 4.
Definition BINDINGS : nat := 5.
Definition STRINGS : nat := 6.

Definition count_at (m : kb2_closure_manifest) (table : nat) : Z := nth table (mf_counts m) 0.
Definition offset_at (m : kb2_closure_manifest) (table : nat) : Z := nth table (mf_offsets m) 0.
Definition bytes_of (m : kb2_closure_manifest) : list Z := default [] (mf_bytes m).

Definition add_size (value count item_size : Z) : option Z :=
  if negb (count =? 0) && ((SIZE_MAX - value) / count <? item_size) then None
  else Some (u64 (value + u64 (count * item_size))).

Definition digest_is_zero (digest : list Z) : bool :=
  foldl (fun combined i => u8 (Z.lor combined (get_byte digest i))) 0 (seqZ 0 32) =? 0.

Definition bytes_are_zero (b : list Z) (off size : Z) : bool :=
  forallb (fun i => get_byte b (off + i) =? 0) (seqZ 0 size).

(** A byte of a name: printable, and neither slash. *)
Definition string_byte_valid (byte : Z) : bool :=
  negb ((byte <? 0x21) || (0x7e <? byte) || (byte =? 47) || (byte =? 92)).

Definition string_valid (string : kb2_closure_string) : bool :=
  match st_data string with
  | None => false
  | Some data =>
      negb ((st_length string =? 0) || (127 <? st_length string)) &&
      forallb (fun i => string_byte_valid (get_byte data i)) (seqZ 0 (st_length string))
  end.

(** * Encoding *)

Definition source_artifacts s := array_items (default [] (ms_artifacts s)) (ms_artifact_count s).
Definition source_dependencies s := array_items (default [] (ms_dependencies s)) (ms_dependency_count s).
Definition source_exports s := array_items (default [] (ms_exports s)) (ms_export_count s).
Definition source_imports s := array_items (default [] (ms_imports s)) (ms_import_count s).
Definition source_resources s := array_items (default [] (ms_resources s)) (ms_resource_count s).
Definition source_bindings s := array_items (default [] (ms_bindings s)) (ms_binding_count s).

Definition source_valid (source : option kb2_closure_manifest_source) : bool :=
  match source with
  | None => false
  | Some s =>
      if bool_decide (ms_artifacts s = None) || (ms_artifact_count s =? 0) ||
         (KB2_CLOSURE_MAX_ARTIFACTS <? ms_artifact_count s) ||
         (KB2_CLOSURE_MAX_DEPENDENCIES <? ms_dependency_count s) ||
         (KB2_CLOSURE_MAX_EXPORTS <? ms_export_count s) || (KB2_CLOSURE_MAX_IMPORTS <? ms_import_count s) ||
         (KB2_CLOSURE_MAX_RESOURCES <? ms_resource_count s) ||
         (KB2_CLOSURE_MAX_RESOURCE_BINDINGS <? ms_binding_count s) ||
         (negb (ms_dependency_count s =? 0) && bool_decide (ms_dependencies s = None)) ||
         (negb (ms_export_count s =? 0) && bool_decide (ms_exports s = None)) ||
         (negb (ms_import_count s =? 0) && bool_decide (ms_imports s = None)) ||
         (negb (ms_resource_count s =? 0) && bool_decide (ms_resources s = None)) ||
         (negb (ms_binding_count s =? 0) && bool_decide (ms_bindings s = None)) then false
      else forallb (fun r => negb (digest_is_zero (mr_interface_schema_digest r))) (source_resources s)
  end.

Definition native (flags : Z) : bool := negb (Z.land flags KB2_CLOSURE_ARTIFACT_FLAG_NATIVE_LINUX =? 0).

(** The strings of an artifact are valid and their lengths are added to [size]. *)
Definition artifact_string_size (size : Z) (a : kb2_closure_manifest_artifact_t) : option Z :=
  if negb (string_valid (ma_namespace_name a)) ||
     (if native (ma_flags a)
      then negb (st_length (ma_init_symbol a) =? 0) || negb (st_length (ma_quiesce_symbol a) =? 0) ||
           negb (st_length (ma_cleanup_symbol a) =? 0)
      else negb (string_valid (ma_init_symbol a)) || negb (string_valid (ma_quiesce_symbol a)) ||
           negb (string_valid (ma_cleanup_symbol a))) then None
  else
    size ← add_size size 1 (st_length (ma_namespace_name a));
    size ← add_size size 1 (st_length (ma_init_symbol a));
    size ← add_size size 1 (st_length (ma_quiesce_symbol a));
    add_size size 1 (st_length (ma_cleanup_symbol a)).

Definition export_string_size (size : Z) (e : kb2_closure_manifest_symbol) : option Z :=
  if negb (string_valid (my_name e)) then None else add_size size 1 (st_length (my_name e)).

Definition import_string_size (size : Z) (i : kb2_closure_manifest_import_t) : option Z :=
  if negb (string_valid (mi_consumer_name i)) || negb (string_valid (mi_provider_name i)) then None
  else
    size ← add_size size 1 (st_length (mi_consumer_name i));
    add_size size 1 (st_length (mi_provider_name i)).

(** A loop over a table that adds to a size and may fail. *)
Fixpoint fold_size {T} (f : Z -> T -> option Z) (size : Z) (items : list T) : option Z :=
  match items with
  | [] => Some size
  | x :: items => size ← f size x; fold_size f size items
  end.

Definition source_string_size (s : kb2_closure_manifest_source) : option Z :=
  size ← fold_size artifact_string_size 0 (source_artifacts s);
  size ← fold_size export_string_size size (source_exports s);
  size ← fold_size import_string_size size (source_imports s);
  if size <=? U32_MAX then Some size else None.

Definition kb2_closure_copy_schema_digest (out_given : bool) (digest_size : Z) :
    kb2_protocol_status * option (list Z) :=
  if negb out_given || negb (digest_size =? 32) then (KB2_PROTOCOL_INVALID_ARGUMENT, None)
  else (KB2_PROTOCOL_OK, Some KB2_CLOSURE_SCHEMA_SHA256_BYTES).

(** The chain of additions of [encoded_size]. *)
Definition manifest_size (s : kb2_closure_manifest_source) : option Z :=
  string_size ← source_string_size s;
  size ← add_size KB2_CLOSURE_MANIFEST_HEADER_SIZE (ms_artifact_count s) KB2_CLOSURE_ARTIFACT_DESCRIPTOR_SIZE;
  size ← add_size size (ms_dependency_count s) KB2_CLOSURE_DEPENDENCY_DESCRIPTOR_SIZE;
  size ← add_size size (ms_export_count s) KB2_CLOSURE_SYMBOL_DESCRIPTOR_SIZE;
  size ← add_size size (ms_import_count s) KB2_CLOSURE_IMPORT_DESCRIPTOR_SIZE;
  size ← add_size size (ms_resource_count s) KB2_CLOSURE_RESOURCE_DESCRIPTOR_SIZE;
  size ← add_size size (ms_binding_count s) KB2_CLOSURE_RESOURCE_BINDING_SIZE;
  size ← add_size size 1 string_size;
  if U32_MAX <? size then None else Some size.

Definition kb2_closure_manifest_encoded_size (source : option kb2_closure_manifest_source) (out_given : bool) :
    kb2_protocol_status * option Z :=
  match source with
  | None => (KB2_PROTOCOL_INVALID_ARGUMENT, None)
  | Some s =>
      if negb out_given then (KB2_PROTOCOL_INVALID_ARGUMENT, None)
      else if negb (source_valid source) then (KB2_PROTOCOL_OVERFLOW, None)
      else match manifest_size s with
           | None => (KB2_PROTOCOL_OVERFLOW, None)
           | Some size => (KB2_PROTOCOL_OK, Some size)
           end
  end.

(** The buffer, the cursor after the string and the offset of the string. *)
Definition append_string (b : list Z) (string_table_offset cursor : Z) (string : kb2_closure_string) : list Z * Z * Z :=
  let offset := cursor in
  let b := put_bytes b (string_table_offset + offset) (take (Z.to_nat (st_length string)) (default [] (st_data string))) in
  (b, u32 (cursor + st_length string), offset).

Definition store_string_reference (record offset_field length_field string_table_offset : Z) (string : kb2_closure_string)
    (state : list Z * Z) : list Z * Z :=
  let '(b, cursor) := state in
  if st_length string =? 0 then
    (store_u32 (store_u32 b (record + offset_field) 0) (record + length_field) 0, cursor)
  else
    let '(b, cursor, offset) := append_string b string_table_offset cursor string in
    (store_u32 (store_u32 b (record + offset_field) offset) (record + length_field) (st_length string), cursor).

Definition encode_artifact (strings record : Z) (a : kb2_closure_manifest_artifact_t) (state : list Z * Z) : list Z * Z :=
  let '(b, cursor) := state in
  let b := put_fields b record
    [U32 KB2_CLOSURE_ARTIFACT_DESCRIPTOR_NODE_ID_OFFSET (ma_node_id a);
     U32 KB2_CLOSURE_ARTIFACT_DESCRIPTOR_KIND_OFFSET (ma_kind a);
     U32 KB2_CLOSURE_ARTIFACT_DESCRIPTOR_FLAGS_OFFSET (ma_flags a);
     U64 KB2_CLOSURE_ARTIFACT_DESCRIPTOR_CONTENT_SIZE_OFFSET (ma_content_size a);
     Raw KB2_CLOSURE_ARTIFACT_DESCRIPTOR_CONTENT_DIGEST_OFFSET 32 (ma_content_digest a)] in
  let state := store_string_reference record KB2_CLOSURE_ARTIFACT_DESCRIPTOR_NAMESPACE_OFFSET_OFFSET
                 KB2_CLOSURE_ARTIFACT_DESCRIPTOR_NAMESPACE_LENGTH_OFFSET strings (ma_namespace_name a) (b, cursor) in
  let state := store_string_reference record KB2_CLOSURE_ARTIFACT_DESCRIPTOR_INIT_OFFSET_OFFSET
                 KB2_CLOSURE_ARTIFACT_DESCRIPTOR_INIT_LENGTH_OFFSET strings (ma_init_symbol a) state in
  let state := store_string_reference record KB2_CLOSURE_ARTIFACT_DESCRIPTOR_QUIESCE_OFFSET_OFFSET
                 KB2_CLOSURE_ARTIFACT_DESCRIPTOR_QUIESCE_LENGTH_OFFSET strings (ma_quiesce_symbol a) state in
  store_string_reference record KB2_CLOSURE_ARTIFACT_DESCRIPTOR_CLEANUP_OFFSET_OFFSET
    KB2_CLOSURE_ARTIFACT_DESCRIPTOR_CLEANUP_LENGTH_OFFSET strings (ma_cleanup_symbol a) state.

Definition encode_dependency (strings record : Z) (d : kb2_closure_manifest_dependency_t) (state : list Z * Z) : list Z * Z :=
  (put_fields state.1 record
    [U32 KB2_CLOSURE_DEPENDENCY_DESCRIPTOR_CONSUMER_NODE_ID_OFFSET (md_consumer_node_id d);
     U32 KB2_CLOSURE_DEPENDENCY_DESCRIPTOR_PROVIDER_NODE_ID_OFFSET (md_provider_node_id d)], state.2).

Definition encode_export (strings record : Z) (e : kb2_closure_manifest_symbol) (state : list Z * Z) : list Z * Z :=
  let b := put_fields state.1 record
    [U32 KB2_CLOSURE_SYMBOL_DESCRIPTOR_NODE_ID_OFFSET (my_node_id e);
     U32 KB2_CLOSURE_SYMBOL_DESCRIPTOR_KIND_OFFSET (my_kind e)] in
  store_string_reference record KB2_CLOSURE_SYMBOL_DESCRIPTOR_NAME_OFFSET_OFFSET
    KB2_CLOSURE_SYMBOL_DESCRIPTOR_NAME_LENGTH_OFFSET strings (my_name e) (b, state.2).

Definition encode_import (strings record : Z) (i : kb2_closure_manifest_import_t) (state : list Z * Z) : list Z * Z :=
  let b := put_fields state.1 record
    [U32 KB2_CLOSURE_IMPORT_DESCRIPTOR_CONSUMER_NODE_ID_OFFSET (mi_consumer_node_id i);
     U32 KB2_CLOSURE_IMPORT_DESCRIPTOR_PROVIDER_NODE_ID_OFFSET (mi_provider_node_id i);
     U32 KB2_CLOSURE_IMPORT_DESCRIPTOR_KIND_OFFSET (mi_kind i);
     U32 KB2_CLOSURE_IMPORT_DESCRIPTOR_FLAGS_OFFSET (mi_flags i)] in
  let state := store_string_reference record KB2_CLOSURE_IMPORT_DESCRIPTOR_CONSUMER_NAME_OFFSET_OFFSET
                 KB2_CLOSURE_IMPORT_DESCRIPTOR_CONSUMER_NAME_LENGTH_OFFSET strings (mi_consumer_name i) (b, state.2) in
  store_string_reference record KB2_CLOSURE_IMPORT_DESCRIPTOR_PROVIDER_NAME_OFFSET_OFFSET
    KB2_CLOSURE_IMPORT_DESCRIPTOR_PROVIDER_NAME_LENGTH_OFFSET strings (mi_provider_name i) state.

Definition encode_resource (strings record : Z) (r : kb2_closure_manifest_resource_t) (state : list Z * Z) : list Z * Z :=
  (put_fields state.1 record
    [U32 KB2_CLOSURE_RESOURCE_DESCRIPTOR_SLOT_ID_OFFSET (mr_slot_id r);
     U32 KB2_CLOSURE_RESOURCE_DESCRIPTOR_TYPE_OFFSET (mr_type r);
     U32 KB2_CLOSURE_RESOURCE_DESCRIPTOR_MINIMUM_COUNT_OFFSET (mr_minimum_count r);
     U32 KB2_CLOSURE_RESOURCE_DESCRIPTOR_MAXIMUM_COUNT_OFFSET (mr_maximum_count r);
     U64 KB2_CLOSURE_RESOURCE_DESCRIPTOR_REQUIRED_RIGHTS_OFFSET (mr_required_rights r);
     U64 KB2_CLOSURE_RESOURCE_DESCRIPTOR_MAXIMUM_RIGHTS_OFFSET (mr_maximum_rights r);
     U32 KB2_CLOSURE_RESOURCE_DESCRIPTOR_FLAGS_OFFSET (mr_flags r);
     Raw KB2_CLOSURE_RESOURCE_DESCRIPTOR_INTERFACE_SCHEMA_DIGEST_OFFSET 32 (mr_interface_schema_digest r)], state.2).

Definition encode_binding (strings record : Z) (x : kb2_closure_manifest_binding_t) (state : list Z * Z) : list Z * Z :=
  (put_fields state.1 record
    [U32 KB2_CLOSURE_RESOURCE_BINDING_SLOT_ID_OFFSET (mb_slot_id x);
     U32 KB2_CLOSURE_RESOURCE_BINDING_NODE_ID_OFFSET (mb_node_id x)], state.2).

(** The loop over one table: a record of [size] bytes per item. *)
Fixpoint encode_records {T} (encode : Z -> T -> list Z * Z -> list Z * Z) (size record : Z) (items : list T)
    (state : list Z * Z) : list Z * Z :=
  match items with
  | [] => state
  | x :: items => encode_records encode size (record + size) items (encode record x state)
  end.

Definition descriptor_sizes : list Z :=
  [KB2_CLOSURE_ARTIFACT_DESCRIPTOR_SIZE; KB2_CLOSURE_DEPENDENCY_DESCRIPTOR_SIZE; KB2_CLOSURE_SYMBOL_DESCRIPTOR_SIZE;
   KB2_CLOSURE_IMPORT_DESCRIPTOR_SIZE; KB2_CLOSURE_RESOURCE_DESCRIPTOR_SIZE; KB2_CLOSURE_RESOURCE_BINDING_SIZE].

(** offsets[index + 1] = offsets[index] + counts[index] * sizes[index] *)
Fixpoint table_offsets (offset : Z) (counts sizes : list Z) : list Z :=
  match counts, sizes with
  | count :: counts, size :: sizes => offset :: table_offsets (u32 (offset + u32 (count * size))) counts sizes
  | _, _ => [offset]
  end.

(** The stores of the counts and offsets into the header. *)
Definition store_tables (b : list Z) (counts offsets : list Z) : list Z :=
  foldl (fun b index =>
    store_u32 (store_u32 b (KB2_CLOSURE_MANIFEST_HEADER_ARTIFACT_COUNT_OFFSET + Z.of_nat index * 4) (nth index counts 0))
      (KB2_CLOSURE_MANIFEST_HEADER_ARTIFACT_TABLE_OFFSET_OFFSET + Z.of_nat index * 4) (nth index offsets 0)) b (seq 0 6).

Definition kb2_closure_manifest_encode (buffer : option (list Z)) (buffer_size : Z) (size_given : bool)
    (source : option kb2_closure_manifest_source) : kb2_protocol_status * option Z * option (list Z) :=
  match buffer, source with
  | Some b, Some s =>
      if negb size_given then (KB2_PROTOCOL_INVALID_ARGUMENT, None, Some b)
      else match kb2_closure_manifest_encoded_size source true with
      | (KB2_PROTOCOL_OK, Some encoded_size) =>
          if buffer_size <? encoded_size then (KB2_PROTOCOL_BUFFER_TOO_SMALL, None, Some b)
          else
            let counts := [u32 (ms_artifact_count s); u32 (ms_dependency_count s); u32 (ms_export_count s);
                           u32 (ms_import_count s); u32 (ms_resource_count s); u32 (ms_binding_count s)] in
            let offsets := table_offsets KB2_CLOSURE_MANIFEST_HEADER_SIZE counts descriptor_sizes in
            let table i := nth i offsets 0 in
            let strings := table STRINGS in
            let b := zero_bytes b 0 encoded_size in
            let b := put_fields b 0
              [U32 KB2_CLOSURE_MANIFEST_HEADER_TOTAL_SIZE_OFFSET (u32 encoded_size);
               Raw KB2_CLOSURE_MANIFEST_HEADER_ABI_IDENTITY_OFFSET 4 KB2_CLOSURE_ABI_IDENTITY_BYTES;
               Raw KB2_CLOSURE_MANIFEST_HEADER_SCHEMA_DIGEST_OFFSET 32 KB2_CLOSURE_SCHEMA_SHA256_BYTES] in
            let b := store_tables b counts offsets in
            let b := put_fields b 0
              [U32 KB2_CLOSURE_MANIFEST_HEADER_STRING_TABLE_OFFSET_OFFSET strings;
               U32 KB2_CLOSURE_MANIFEST_HEADER_STRING_TABLE_SIZE_OFFSET (u32 (encoded_size - strings))] in
            let state := (b, 0) in
            let state := encode_records (encode_artifact strings) KB2_CLOSURE_ARTIFACT_DESCRIPTOR_SIZE
                           (table ARTIFACTS) (source_artifacts s) state in
            let state := encode_records (encode_dependency strings) KB2_CLOSURE_DEPENDENCY_DESCRIPTOR_SIZE
                           (table DEPENDENCIES) (source_dependencies s) state in
            let state := encode_records (encode_export strings) KB2_CLOSURE_SYMBOL_DESCRIPTOR_SIZE
                           (table EXPORTS) (source_exports s) state in
            let state := encode_records (encode_import strings) KB2_CLOSURE_IMPORT_DESCRIPTOR_SIZE
                           (table IMPORTS) (source_imports s) state in
            let state := encode_records (encode_resource strings) KB2_CLOSURE_RESOURCE_DESCRIPTOR_SIZE
                           (table RESOURCES) (source_resources s) state in
            let state := encode_records (encode_binding strings) KB2_CLOSURE_RESOURCE_BINDING_SIZE
                           (table BINDINGS) (source_bindings s) state in
            (KB2_PROTOCOL_OK, Some encoded_size, Some state.1)
      | _ => (KB2_PROTOCOL_MALFORMED, None, Some b)
      end
  | _, _ => (KB2_PROTOCOL_INVALID_ARGUMENT, None, buffer)
  end.

(** * Decoding *)

Definition decoded_string (m : kb2_closure_manifest) (offset length : Z) : option kb2_closure_string :=
  if (mf_string_table_size m <? offset) || (mf_string_table_size m - offset <? length) then None
  else
    let string := mkString (Some (get_bytes (bytes_of m) (offset_at m STRINGS + offset) length)) length in
    if string_valid string then Some string else None.

Definition decoded_lifecycle (m : kb2_closure_manifest) (flags offset length : Z) : option kb2_closure_string :=
  if native flags then if (offset =? 0) && (length =? 0) then Some (mkString None 0) else None
  else decoded_string m offset length.

Definition no_string : kb2_closure_string := mkString None 0.
Definition zero_artifact : kb2_closure_manifest_artifact_t :=
  mkManifestArtifact 0 0 0 0 (replicate 32 0) no_string no_string no_string no_string.
Definition zero_symbol : kb2_closure_manifest_symbol := mkManifestSymbol 0 0 no_string.
Definition zero_import : kb2_closure_manifest_import_t := mkManifestImport 0 0 0 0 no_string no_string.
Definition zero_resource : kb2_closure_manifest_resource_t := mkManifestResource 0 0 0 0 0 0 0 (replicate 32 0).

(** The four strings of the artifact record, or the failure of one of them. *)
Definition artifact_strings (m : kb2_closure_manifest) (b : list Z) (record flags : Z) :
    option (kb2_closure_string * kb2_closure_string * kb2_closure_string * kb2_closure_string) :=
  namespace_name ← decoded_string m (load_u32 b (record + KB2_CLOSURE_ARTIFACT_DESCRIPTOR_NAMESPACE_OFFSET_OFFSET))
    (load_u32 b (record + KB2_CLOSURE_ARTIFACT_DESCRIPTOR_NAMESPACE_LENGTH_OFFSET));
  init_symbol ← decoded_lifecycle m flags (load_u32 b (record + KB2_CLOSURE_ARTIFACT_DESCRIPTOR_INIT_OFFSET_OFFSET))
    (load_u32 b (record + KB2_CLOSURE_ARTIFACT_DESCRIPTOR_INIT_LENGTH_OFFSET));
  quiesce_symbol ← decoded_lifecycle m flags (load_u32 b (record + KB2_CLOSURE_ARTIFACT_DESCRIPTOR_QUIESCE_OFFSET_OFFSET))
    (load_u32 b (record + KB2_CLOSURE_ARTIFACT_DESCRIPTOR_QUIESCE_LENGTH_OFFSET));
  cleanup_symbol ← decoded_lifecycle m flags (load_u32 b (record + KB2_CLOSURE_ARTIFACT_DESCRIPTOR_CLEANUP_OFFSET_OFFSET))
    (load_u32 b (record + KB2_CLOSURE_ARTIFACT_DESCRIPTOR_CLEANUP_LENGTH_OFFSET));
  Some (namespace_name, init_symbol, quiesce_symbol, cleanup_symbol).

Definition kb2_closure_manifest_artifact (manifest : option kb2_closure_manifest) (index : Z) (out_given : bool) :
    kb2_protocol_status * option kb2_closure_manifest_artifact_t :=
  match manifest with
  | None => (KB2_PROTOCOL_INVALID_ARGUMENT, None)
  | Some m =>
      if negb out_given then (KB2_PROTOCOL_INVALID_ARGUMENT, None)
      else if count_at m ARTIFACTS <=? index then (KB2_PROTOCOL_MALFORMED, None)
      else
        let b := bytes_of m in
        let record := offset_at m ARTIFACTS + index * KB2_CLOSURE_ARTIFACT_DESCRIPTOR_SIZE in
        let node_id := load_u32 b (record + KB2_CLOSURE_ARTIFACT_DESCRIPTOR_NODE_ID_OFFSET) in
        let kind := load_u32 b (record + KB2_CLOSURE_ARTIFACT_DESCRIPTOR_KIND_OFFSET) in
        let flags := load_u32 b (record + KB2_CLOSURE_ARTIFACT_DESCRIPTOR_FLAGS_OFFSET) in
        let content_size := load_u64 b (record + KB2_CLOSURE_ARTIFACT_DESCRIPTOR_CONTENT_SIZE_OFFSET) in
        let content_digest := get_bytes b (record + KB2_CLOSURE_ARTIFACT_DESCRIPTOR_CONTENT_DIGEST_OFFSET) 32 in
        if (node_id =? 0) || (content_size =? 0) || (KB2_CLOSURE_ARTIFACT_RELOCATABLE_MODULE <? kind) ||
           negb (flags &~ Z.lor KB2_CLOSURE_ARTIFACT_FLAG_ROOT KB2_CLOSURE_ARTIFACT_FLAG_NATIVE_LINUX =? 0) ||
           negb (bytes_are_zero b (record + KB2_CLOSURE_ARTIFACT_DESCRIPTOR_RESERVED_0_OFFSET) 4) ||
           negb (bytes_are_zero b (record + KB2_CLOSURE_ARTIFACT_DESCRIPTOR_RESERVED_1_OFFSET) 8)
        then (KB2_PROTOCOL_MALFORMED, Some zero_artifact)
        else
          match artifact_strings m b record flags with
          | None => (KB2_PROTOCOL_MALFORMED, Some zero_artifact)
          | Some (namespace_name, init_symbol, quiesce_symbol, cleanup_symbol) =>
              (KB2_PROTOCOL_OK, Some (mkManifestArtifact node_id kind flags content_size content_digest
                                        namespace_name init_symbol quiesce_symbol cleanup_symbol))
          end
  end.

Definition kb2_closure_manifest_dependency (manifest : option kb2_closure_manifest) (index : Z) (out_given : bool) :
    kb2_protocol_status * option kb2_closure_manifest_dependency_t :=
  match manifest with
  | None => (KB2_PROTOCOL_INVALID_ARGUMENT, None)
  | Some m =>
      if negb out_given then (KB2_PROTOCOL_INVALID_ARGUMENT, None)
      else if count_at m DEPENDENCIES <=? index then (KB2_PROTOCOL_MALFORMED, None)
      else
        let b := bytes_of m in
        let record := offset_at m DEPENDENCIES + index * KB2_CLOSURE_DEPENDENCY_DESCRIPTOR_SIZE in
        let consumer := load_u32 b (record + KB2_CLOSURE_DEPENDENCY_DESCRIPTOR_CONSUMER_NODE_ID_OFFSET) in
        let provider := load_u32 b (record + KB2_CLOSURE_DEPENDENCY_DESCRIPTOR_PROVIDER_NODE_ID_OFFSET) in
        (if negb (consumer =? 0) && negb (provider =? 0) && negb (consumer =? provider)
         then KB2_PROTOCOL_OK else KB2_PROTOCOL_MALFORMED, Some (mkManifestDependency consumer provider))
  end.

Definition kb2_closure_manifest_export (manifest : option kb2_closure_manifest) (index : Z) (out_given : bool) :
    kb2_protocol_status * option kb2_closure_manifest_symbol :=
  match manifest with
  | None => (KB2_PROTOCOL_INVALID_ARGUMENT, None)
  | Some m =>
      if negb out_given then (KB2_PROTOCOL_INVALID_ARGUMENT, None)
      else if count_at m EXPORTS <=? index then (KB2_PROTOCOL_MALFORMED, None)
      else
        let b := bytes_of m in
        let record := offset_at m EXPORTS + index * KB2_CLOSURE_SYMBOL_DESCRIPTOR_SIZE in
        let node_id := load_u32 b (record + KB2_CLOSURE_SYMBOL_DESCRIPTOR_NODE_ID_OFFSET) in
        let kind := load_u32 b (record + KB2_CLOSURE_SYMBOL_DESCRIPTOR_KIND_OFFSET) in
        if (node_id =? 0) || (KB2_CLOSURE_SYMBOL_OBJECT <? kind) then (KB2_PROTOCOL_MALFORMED, Some zero_symbol)
        else
          match decoded_string m (load_u32 b (record + KB2_CLOSURE_SYMBOL_DESCRIPTOR_NAME_OFFSET_OFFSET))
                  (load_u32 b (record + KB2_CLOSURE_SYMBOL_DESCRIPTOR_NAME_LENGTH_OFFSET)) with
          | None => (KB2_PROTOCOL_MALFORMED, Some zero_symbol)
          | Some name => (KB2_PROTOCOL_OK, Some (mkManifestSymbol node_id kind name))
          end
  end.

Definition kb2_closure_manifest_import (manifest : option kb2_closure_manifest) (index : Z) (out_given : bool) :
    kb2_protocol_status * option kb2_closure_manifest_import_t :=
  match manifest with
  | None => (KB2_PROTOCOL_INVALID_ARGUMENT, None)
  | Some m =>
      if negb out_given then (KB2_PROTOCOL_INVALID_ARGUMENT, None)
      else if count_at m IMPORTS <=? index then (KB2_PROTOCOL_MALFORMED, None)
      else
        let b := bytes_of m in
        let record := offset_at m IMPORTS + index * KB2_CLOSURE_IMPORT_DESCRIPTOR_SIZE in
        let consumer := load_u32 b (record + KB2_CLOSURE_IMPORT_DESCRIPTOR_CONSUMER_NODE_ID_OFFSET) in
        let provider := load_u32 b (record + KB2_CLOSURE_IMPORT_DESCRIPTOR_PROVIDER_NODE_ID_OFFSET) in
        let kind := load_u32 b (record + KB2_CLOSURE_IMPORT_DESCRIPTOR_KIND_OFFSET) in
        let flags := load_u32 b (record + KB2_CLOSURE_IMPORT_DESCRIPTOR_FLAGS_OFFSET) in
        if (consumer =? 0) || (consumer =? provider) || (KB2_CLOSURE_SYMBOL_OBJECT <? kind) ||
           negb (flags &~ KB2_CLOSURE_IMPORT_FLAG_OPTIONAL =? 0) then (KB2_PROTOCOL_MALFORMED, Some zero_import)
        else
          match decoded_string m (load_u32 b (record + KB2_CLOSURE_IMPORT_DESCRIPTOR_CONSUMER_NAME_OFFSET_OFFSET))
                  (load_u32 b (record + KB2_CLOSURE_IMPORT_DESCRIPTOR_CONSUMER_NAME_LENGTH_OFFSET)),
                decoded_string m (load_u32 b (record + KB2_CLOSURE_IMPORT_DESCRIPTOR_PROVIDER_NAME_OFFSET_OFFSET))
                  (load_u32 b (record + KB2_CLOSURE_IMPORT_DESCRIPTOR_PROVIDER_NAME_LENGTH_OFFSET)) with
          | Some consumer_name, Some provider_name =>
              (KB2_PROTOCOL_OK, Some (mkManifestImport consumer provider kind flags consumer_name provider_name))
          | _, _ => (KB2_PROTOCOL_MALFORMED, Some zero_import)
          end
  end.

Definition kb2_closure_manifest_resource (manifest : option kb2_closure_manifest) (index : Z) (out_given : bool) :
    kb2_protocol_status * option kb2_closure_manifest_resource_t :=
  match manifest with
  | None => (KB2_PROTOCOL_INVALID_ARGUMENT, None)
  | Some m =>
      if negb out_given then (KB2_PROTOCOL_INVALID_ARGUMENT, None)
      else if count_at m RESOURCES <=? index then (KB2_PROTOCOL_MALFORMED, None)
      else
        let b := bytes_of m in
        let record := offset_at m RESOURCES + index * KB2_CLOSURE_RESOURCE_DESCRIPTOR_SIZE in
        let r := mkManifestResource
          (load_u32 b (record + KB2_CLOSURE_RESOURCE_DESCRIPTOR_SLOT_ID_OFFSET))
          (load_u32 b (record + KB2_CLOSURE_RESOURCE_DESCRIPTOR_TYPE_OFFSET))
          (load_u32 b (record + KB2_CLOSURE_RESOURCE_DESCRIPTOR_MINIMUM_COUNT_OFFSET))
          (load_u32 b (record + KB2_CLOSURE_RESOURCE_DESCRIPTOR_MAXIMUM_COUNT_OFFSET))
          (load_u64 b (record + KB2_CLOSURE_RESOURCE_DESCRIPTOR_REQUIRED_RIGHTS_OFFSET))
          (load_u64 b (record + KB2_CLOSURE_RESOURCE_DESCRIPTOR_MAXIMUM_RIGHTS_OFFSET))
          (load_u32 b (record + KB2_CLOSURE_RESOURCE_DESCRIPTOR_FLAGS_OFFSET))
          (get_bytes b (record + KB2_CLOSURE_RESOURCE_DESCRIPTOR_INTERFACE_SCHEMA_DIGEST_OFFSET) 32) in
        if (mr_slot_id r =? 0) || (mr_maximum_count r <? mr_minimum_count r) ||
           negb (mr_required_rights r &~ mr_maximum_rights r =? 0) || digest_is_zero (mr_interface_schema_digest r) ||
           negb (bytes_are_zero b (record + KB2_CLOSURE_RESOURCE_DESCRIPTOR_RESERVED_OFFSET) 4)
        then (KB2_PROTOCOL_MALFORMED, Some zero_resource) else (KB2_PROTOCOL_OK, Some r)
  end.

Definition kb2_closure_manifest_binding (manifest : option kb2_closure_manifest) (index : Z) (out_given : bool) :
    kb2_protocol_status * option kb2_closure_manifest_binding_t :=
  match manifest with
  | None => (KB2_PROTOCOL_INVALID_ARGUMENT, None)
  | Some m =>
      if negb out_given then (KB2_PROTOCOL_INVALID_ARGUMENT, None)
      else if count_at m BINDINGS <=? index then (KB2_PROTOCOL_MALFORMED, None)
      else
        let b := bytes_of m in
        let record := offset_at m BINDINGS + index * KB2_CLOSURE_RESOURCE_BINDING_SIZE in
        let slot_id := load_u32 b (record + KB2_CLOSURE_RESOURCE_BINDING_SLOT_ID_OFFSET) in
        let node_id := load_u32 b (record + KB2_CLOSURE_RESOURCE_BINDING_NODE_ID_OFFSET) in
        (if negb (slot_id =? 0) && negb (node_id =? 0) then KB2_PROTOCOL_OK else KB2_PROTOCOL_MALFORMED,
         Some (mkManifestBinding slot_id node_id))
  end.

Definition kb2_closure_manifest_artifact_count (manifest : option kb2_closure_manifest) : Z :=
  match manifest with None => 0 | Some m => count_at m ARTIFACTS end.
Definition kb2_closure_manifest_dependency_count (manifest : option kb2_closure_manifest) : Z :=
  match manifest with None => 0 | Some m => count_at m DEPENDENCIES end.
Definition kb2_closure_manifest_export_count (manifest : option kb2_closure_manifest) : Z :=
  match manifest with None => 0 | Some m => count_at m EXPORTS end.
Definition kb2_closure_manifest_import_count (manifest : option kb2_closure_manifest) : Z :=
  match manifest with None => 0 | Some m => count_at m IMPORTS end.
Definition kb2_closure_manifest_resource_count (manifest : option kb2_closure_manifest) : Z :=
  match manifest with None => 0 | Some m => count_at m RESOURCES end.
Definition kb2_closure_manifest_binding_count (manifest : option kb2_closure_manifest) : Z :=
  match manifest with None => 0 | Some m => count_at m BINDINGS end.

(** The record an accessor wrote when it returned KB2_PROTOCOL_OK. *)
Definition accessed {T} (r : kb2_protocol_status * option T) : option T :=
  match r with (KB2_PROTOCOL_OK, Some x) => Some x | _ => None end.

Definition manifest_artifact (m : kb2_closure_manifest) (i : nat) :=
  accessed (kb2_closure_manifest_artifact (Some m) (Z.of_nat i) true).
Definition manifest_dependency (m : kb2_closure_manifest) (i : nat) :=
  accessed (kb2_closure_manifest_dependency (Some m) (Z.of_nat i) true).
Definition manifest_export (m : kb2_closure_manifest) (i : nat) :=
  accessed (kb2_closure_manifest_export (Some m) (Z.of_nat i) true).
Definition manifest_import (m : kb2_closure_manifest) (i : nat) :=
  accessed (kb2_closure_manifest_import (Some m) (Z.of_nat i) true).
Definition manifest_resource (m : kb2_closure_manifest) (i : nat) :=
  accessed (kb2_closure_manifest_resource (Some m) (Z.of_nat i) true).
Definition manifest_binding (m : kb2_closure_manifest) (i : nat) :=
  accessed (kb2_closure_manifest_binding (Some m) (Z.of_nat i) true).

Definition manifest_has_node (m : kb2_closure_manifest) (node_id : Z) : bool :=
  bool_decide (is_Some (bsearch_opt (Z.to_nat (count_at m ARTIFACTS)) (fun i => ma_node_id <$> manifest_artifact m i) node_id
                          0 (Z.to_nat (count_at m ARTIFACTS)))).

Definition table_limits : list Z :=
  [KB2_CLOSURE_MAX_ARTIFACTS; KB2_CLOSURE_MAX_DEPENDENCIES; KB2_CLOSURE_MAX_EXPORTS; KB2_CLOSURE_MAX_IMPORTS;
   KB2_CLOSURE_MAX_RESOURCES; KB2_CLOSURE_MAX_RESOURCE_BINDINGS].

(** The loop over the table headers: the counts, the offsets and the offset after the
    last table. *)
Fixpoint read_tables (b : list Z) (buffer_size : Z) (index : nat) (limits sizes : list Z) (expected_offset : Z) :
    option (list Z * list Z * Z) :=
  match limits, sizes with
  | limit :: limits, size :: sizes =>
      let count := load_u32 b (KB2_CLOSURE_MANIFEST_HEADER_ARTIFACT_COUNT_OFFSET + Z.of_nat index * 4) in
      let offset := load_u32 b (KB2_CLOSURE_MANIFEST_HEADER_ARTIFACT_TABLE_OFFSET_OFFSET + Z.of_nat index * 4) in
      if (limit <? count) || negb (offset =? expected_offset) then None
      else
        let next := u64 (expected_offset + u64 (count * size)) in
        if buffer_size <? next then None
        else
          '(counts, offsets, last) ← read_tables b buffer_size (S index) limits sizes (u32 next);
          Some (count :: counts, offset :: offsets, last)
  | _, _ => Some ([], [], expected_offset)
  end.

(** The loop over the artifacts: the number of roots. *)
Fixpoint check_artifacts (m : kb2_closure_manifest) (n index : nat) (prior_node_id root_count : Z) : option Z :=
  match n with
  | O => Some root_count
  | S n =>
      artifact ← manifest_artifact m index;
      if ma_node_id artifact <=? prior_node_id then None
      else check_artifacts m n (S index) (ma_node_id artifact)
             (root_count + (if negb (Z.land (ma_flags artifact) KB2_CLOSURE_ARTIFACT_FLAG_ROOT =? 0) then 1 else 0))
  end.

(** A loop over the records of a table that stops at the first one refused. *)
Definition check_records {T} (read : nat -> option T) (accept : T -> bool) (count : Z) : bool :=
  forallb (fun i => match read i with Some x => accept x | None => false end) (seq 0 (Z.to_nat count)).

Definition zero_manifest : kb2_closure_manifest := mkManifest None 0 (replicate 6 0) (replicate 7 0) 0.

Definition check_manifest (m : kb2_closure_manifest) : bool :=
  match check_artifacts m (Z.to_nat (count_at m ARTIFACTS)) 0 0 0 with
  | None => false
  | Some root_count =>
      if root_count =? 0 then false
      else
        check_records (manifest_dependency m)
          (fun d => manifest_has_node m (md_consumer_node_id d) && manifest_has_node m (md_provider_node_id d))
          (count_at m DEPENDENCIES) &&
        check_records (manifest_export m) (fun e => manifest_has_node m (my_node_id e)) (count_at m EXPORTS) &&
        check_records (manifest_import m)
          (fun i => manifest_has_node m (mi_consumer_node_id i) &&
                    ((mi_provider_node_id i =? 0) || manifest_has_node m (mi_provider_node_id i))) (count_at m IMPORTS) &&
        check_records (manifest_resource m) (fun _ => true) (count_at m RESOURCES) &&
        check_records (manifest_binding m) (fun x => manifest_has_node m (mb_node_id x)) (count_at m BINDINGS)
  end.

Definition kb2_closure_manifest_decode (buffer : option (list Z)) (buffer_size : Z) (out_given : bool) :
    kb2_protocol_status * option kb2_closure_manifest :=
  match buffer with
  | None => (KB2_PROTOCOL_INVALID_ARGUMENT, None)
  | Some b =>
      if negb out_given then (KB2_PROTOCOL_INVALID_ARGUMENT, None)
      else if buffer_size <? KB2_CLOSURE_MANIFEST_HEADER_SIZE then (KB2_PROTOCOL_BUFFER_TOO_SMALL, Some zero_manifest)
      else if U32_MAX <? buffer_size then (KB2_PROTOCOL_OVERFLOW, Some zero_manifest)
      else if negb (bytes_equal b KB2_CLOSURE_MANIFEST_HEADER_ABI_IDENTITY_OFFSET KB2_CLOSURE_ABI_IDENTITY_BYTES) ||
              negb (bytes_equal b KB2_CLOSURE_MANIFEST_HEADER_SCHEMA_DIGEST_OFFSET KB2_CLOSURE_SCHEMA_SHA256_BYTES)
      then (KB2_PROTOCOL_SCHEMA_MISMATCH, Some zero_manifest)
      else if negb (load_u32 b KB2_CLOSURE_MANIFEST_HEADER_TOTAL_SIZE_OFFSET =? buffer_size)
      then (KB2_PROTOCOL_MALFORMED, Some zero_manifest)
      else if negb (bytes_are_zero b KB2_CLOSURE_MANIFEST_HEADER_RESERVED_OFFSET 32)
      then (KB2_PROTOCOL_MALFORMED, Some zero_manifest)
      else
        match read_tables b buffer_size 0 table_limits descriptor_sizes KB2_CLOSURE_MANIFEST_HEADER_SIZE with
        | None => (KB2_PROTOCOL_MALFORMED, Some zero_manifest)
        | Some (counts, offsets, expected_offset) =>
            let strings := load_u32 b KB2_CLOSURE_MANIFEST_HEADER_STRING_TABLE_OFFSET_OFFSET in
            let m := mkManifest (Some b) buffer_size counts (offsets ++ [strings])
                       (load_u32 b KB2_CLOSURE_MANIFEST_HEADER_STRING_TABLE_SIZE_OFFSET) in
            if (count_at m ARTIFACTS =? 0) || negb (strings =? expected_offset) ||
               negb (mf_string_table_size m =? buffer_size - expected_offset)
            then (KB2_PROTOCOL_MALFORMED, Some zero_manifest)
            else if check_manifest m then (KB2_PROTOCOL_OK, Some m) else (KB2_PROTOCOL_MALFORMED, Some zero_manifest)
        end
  end.
