(* ===== verification/ClosureManifestSpec.v ===== *)
(** What a closure manifest is: lemmas on the sizes, zero runs and strings of
    closure_manifest.c, and the specification of its messages.

    The decoder's loops over the tables of a manifest: when they accept, every record
    can be read and the manifest is valid, and a valid manifest passes them. *)

From Stdlib Require Import ZArith Lia.
From stdpp Require Import base numbers tactics sets list_numbers list.
From S2P Require Import Prelude Bytes Layout Tables Sorted Protocol ProtocolSpec ClosureLayout ClosureManifest.

Open Scope Z_scope.
Open Scope kobox_scope.

Lemma bytes_are_zero_reads b d o n :
  0 <= n -> bytes_are_zero b (d + o) n = true <-> reads b d (Raw o n (replicate (Z.to_nat n) 0)).
Proof. apply zero_run_reads. Qed.

(** The checked addition, when nothing overflows. *)
Lemma add_size_small value count item :
  0 <= value -> 0 <= count -> 0 <= item -> value + count * item <= SIZE_MAX ->
  add_size value count item = Some (value + count * item).
Proof.
  intros Hv Hc Hi Hs. unfold add_size. assert (Hno : negb (count =? 0) && ((SIZE_MAX - value) / count <? item) = false).
  { destruct (Z.eqb_spec count 0) as [| Hne]; [done |]. cbn [negb andb]. apply Z.ltb_ge.
    apply Z.div_le_lower_bound; lia. }
  rewrite Hno. assert (0 <= count * item) by nia. change SIZE_MAX with (2 ^ 64 - 1) in Hs.
  by rewrite !u64_small by (unfold is_u64; rewrite ?u64_small by (unfold is_u64; lia); lia).
Qed.

(** Reading a whole table through its accessor. *)
Lemma mapM_rows {T} (f : nat -> option T) l :
  (forall i, f i = l !! i) -> mapM f (seq 0 (length l)) = Some l.
Proof.
  intros Hf. apply mapM_Some, Forall2_same_length_lookup_2; [by rewrite length_seq |].
  intros i j x [-> Hi]%lookup_seq Hx. by rewrite Hf.
Qed.

Lemma rows_mapM {T} (f : nat -> option T) n l :
  mapM f (seq 0 n) = Some l -> (forall i, (n <= i)%nat -> f i = None) -> length l = n /\ forall i, f i = l !! i.
Proof.
  intros Hm%mapM_Some Hn. assert (Hl : length l = n) by (rewrite <- (Forall2_length _ _ _ Hm); apply length_seq).
  split; [done |]. intros i. destruct (decide (i < n)%nat) as [Hi | Hi].
  - destruct (lookup_lt_is_Some_2 l i) as [x Hx]; [lia |]. rewrite Hx.
    assert (Hs : seq 0 n !! i = Some i) by (apply lookup_seq; lia).
    apply (Forall2_lookup_lr _ _ _ _ _ _ Hm Hs Hx).
  - rewrite Hn by lia. symmetry. apply lookup_ge_None_2. lia.
Qed.

(** * What the decoder has checked *)

Lemma read_tables_counts b n index limits sizes at_ counts offsets last :
  read_tables b n index limits sizes at_ = Some (counts, offsets, last) -> Forall is_u32 counts.
Proof.
  revert index sizes at_ counts offsets last. induction limits as [|limit limits IH]; intros index [|size sizes] at_ counts offsets last;
    cbn [read_tables]; try (intros E; injection E as <- _ _; constructor).
  destruct (_ || _); [done |]. destruct (_ <? _); [done |].
  destruct (read_tables b n (S index) limits sizes _) as [[[counts' offsets'] last'] |] eqn:E; [| done].
  intros [= <- _ _]. constructor; [apply load_u32_range | by eapply IH].
Qed.

Lemma manifest_decode_inv b n m :
  status_decoded (kb2_closure_manifest_decode (Some b) n true) = Some m ->
  n <= U32_MAX /\ mf_bytes m = Some b /\ mf_size m = n /\ Forall is_u32 (mf_counts m) /\ check_manifest m = true.
Proof.
  unfold kb2_closure_manifest_decode, status_decoded. cbn [negb].
  destruct (n <? _); [done |]. destruct (Z.ltb_spec U32_MAX n); [done |]. destruct (_ || _); [done |].
  destruct (negb _); [done |]. destruct (negb _); [done |].
  destruct (read_tables _ _ _ _ _ _) as [[[counts offsets] last] |] eqn:E; [| done]. destruct (_ || _); [done |].
  destruct (check_manifest _) eqn:Hc; [| done]. cbn. intros [= <-]. split_and!; try done. by eapply read_tables_counts.
Qed.

Lemma count_at_range m t : Forall is_u32 (mf_counts m) -> is_u32 (count_at m t).
Proof.
  intros Hc. unfold count_at. rewrite nth_lookup. destruct (mf_counts m !! t) as [c |] eqn:E; [| cbn; unfold is_u32; lia].
  by eapply Forall_lookup_1 in Hc.
Qed.

(** * The value of a manifest *)

Record manifest_value := mkManifestValue {
  mv_artifacts : list kb2_closure_manifest_artifact_t;
  mv_dependencies : list kb2_closure_manifest_dependency_t;
  mv_exports : list kb2_closure_manifest_symbol;
  mv_imports : list kb2_closure_manifest_import_t;
  mv_resources : list kb2_closure_manifest_resource_t;
  mv_bindings : list kb2_closure_manifest_binding_t;
}.

(** A name: 1 to 127 printable characters, no slash of either kind. *)
Definition name_byte (c : Z) : Prop := 0x21 <= c <= 0x7e /\ c <> 47 /\ c <> 92.
Definition name_ok (s : kb2_closure_string) : Prop :=
  exists l, s = mkString (Some l) (blen l) /\ 1 <= blen l <= 127 /\ Forall name_byte l.

(** The lifecycle symbols of a native artifact are absent, those of a module names. *)
Definition lifecycle_ok (flags : Z) (s : kb2_closure_string) : Prop :=
  if native flags then s = no_string else name_ok s.

Record artifact_ok (a : kb2_closure_manifest_artifact_t) : Prop := {
  ao_size : ma_content_size a <> 0;
  ao_kind : ma_kind a <= KB2_CLOSURE_ARTIFACT_RELOCATABLE_MODULE;
  ao_flags : ma_flags a &~ Z.lor KB2_CLOSURE_ARTIFACT_FLAG_ROOT KB2_CLOSURE_ARTIFACT_FLAG_NATIVE_LINUX = 0;
  ao_namespace : name_ok (ma_namespace_name a);
  ao_init : lifecycle_ok (ma_flags a) (ma_init_symbol a);
  ao_quiesce : lifecycle_ok (ma_flags a) (ma_quiesce_symbol a);
  ao_cleanup : lifecycle_ok (ma_flags a) (ma_cleanup_symbol a);
}.

Definition dependency_ok (nodes : list Z) (d : kb2_closure_manifest_dependency_t) : Prop :=
  md_consumer_node_id d ∈ nodes /\ md_provider_node_id d ∈ nodes /\ md_consumer_node_id d <> md_provider_node_id d.

Definition export_ok (nodes : list Z) (e : kb2_closure_manifest_symbol) : Prop :=
  my_node_id e ∈ nodes /\ my_kind e <= KB2_CLOSURE_SYMBOL_OBJECT /\ name_ok (my_name e).

(** Provider 0 is an import the host resolves. *)
Record import_ok (nodes : list Z) (i : kb2_closure_manifest_import_t) : Prop := {
  io_consumer : mi_consumer_node_id i ∈ nodes;
  io_provider : mi_provider_node_id i = 0 \/ mi_provider_node_id i ∈ nodes;
  io_distinct : mi_consumer_node_id i <> mi_provider_node_id i;
  io_kind : mi_kind i <= KB2_CLOSURE_SYMBOL_OBJECT;
  io_flags : mi_flags i &~ KB2_CLOSURE_IMPORT_FLAG_OPTIONAL = 0;
  io_consumer_name : name_ok (mi_consumer_name i);
  io_provider_name : name_ok (mi_provider_name i);
}.

Definition zero_interface : list Z := replicate 32 0.

Record resource_ok (r : kb2_closure_manifest_resource_t) : Prop := {
  ro_slot : mr_slot_id r <> 0;
  ro_count : mr_minimum_count r <= mr_maximum_count r;
  ro_rights : mr_required_rights r &~ mr_maximum_rights r = 0;
  ro_interface : mr_interface_schema_digest r <> zero_interface;
}.

Definition binding_ok (nodes : list Z) (x : kb2_closure_manifest_binding_t) : Prop :=
  mb_slot_id x <> 0 /\ mb_node_id x ∈ nodes.

Definition node_ids (x : manifest_value) : list Z := ma_node_id <$> mv_artifacts x.
Definition is_root (a : kb2_closure_manifest_artifact_t) : Prop := Z.land (ma_flags a) KB2_CLOSURE_ARTIFACT_FLAG_ROOT <> 0.

Record table_sizes_ok (x : manifest_value) : Prop := {
  ts_artifacts : 0 < Z.of_nat (length (mv_artifacts x)) <= KB2_CLOSURE_MAX_ARTIFACTS;
  ts_dependencies : Z.of_nat (length (mv_dependencies x)) <= KB2_CLOSURE_MAX_DEPENDENCIES;
  ts_exports : Z.of_nat (length (mv_exports x)) <= KB2_CLOSURE_MAX_EXPORTS;
  ts_imports : Z.of_nat (length (mv_imports x)) <= KB2_CLOSURE_MAX_IMPORTS;
  ts_resources : Z.of_nat (length (mv_resources x)) <= KB2_CLOSURE_MAX_RESOURCES;
  ts_bindings : Z.of_nat (length (mv_bindings x)) <= KB2_CLOSURE_MAX_RESOURCE_BINDINGS;
}.

(** A valid manifest: nodes in order with a root among them, every reference to a
    node resolved, every record valid. *)
Record manifest_ok (x : manifest_value) : Prop := {
  mok_sizes : table_sizes_ok x;
  mok_sorted : increasing 0 (node_ids x);
  mok_root : Exists is_root (mv_artifacts x);
  mok_artifacts : Forall artifact_ok (mv_artifacts x);
  mok_dependencies : Forall (dependency_ok (node_ids x)) (mv_dependencies x);
  mok_exports : Forall (export_ok (node_ids x)) (mv_exports x);
  mok_imports : Forall (import_ok (node_ids x)) (mv_imports x);
  mok_resources : Forall resource_ok (mv_resources x);
  mok_bindings : Forall (binding_ok (node_ids x)) (mv_bindings x);
}.

(** ** Widths *)

(** A string value: no bytes, or the bytes its length counts. *)
Definition string_typed (s : kb2_closure_string) : Prop :=
  match st_data s with
  | None => st_length s = 0
  | Some l => l <> [] /\ blen l = st_length s /\ Forall is_u8 l /\ is_u32 (st_length s)
  end.

Definition digest_typed (l : list Z) : Prop := blen l = 32 /\ Forall is_u8 l.

Record artifact_typed (a : kb2_closure_manifest_artifact_t) : Prop := {
  at_node : is_u32 (ma_node_id a);
  at_kind : is_u32 (ma_kind a);
  at_flags : is_u32 (ma_flags a);
  at_size : is_u64 (ma_content_size a);
  at_digest : digest_typed (ma_content_digest a);
  at_namespace : string_typed (ma_namespace_name a);
  at_init : string_typed (ma_init_symbol a);
  at_quiesce : string_typed (ma_quiesce_symbol a);
  at_cleanup : string_typed (ma_cleanup_symbol a);
}.

Definition dependency_typed (d : kb2_closure_manifest_dependency_t) : Prop :=
  is_u32 (md_consumer_node_id d) /\ is_u32 (md_provider_node_id d).

Definition export_typed (e : kb2_closure_manifest_symbol) : Prop :=
  is_u32 (my_node_id e) /\ is_u32 (my_kind e) /\ string_typed (my_name e).

Record import_typed (i : kb2_closure_manifest_import_t) : Prop := {
  it_consumer : is_u32 (mi_consumer_node_id i);
  it_provider : is_u32 (mi_provider_node_id i);
  it_kind : is_u32 (mi_kind i);
  it_flags : is_u32 (mi_flags i);
  it_consumer_name : string_typed (mi_consumer_name i);
  it_provider_name : string_typed (mi_provider_name i);
}.

Record resource_typed (r : kb2_closure_manifest_resource_t) : Prop := {
  rt_slot : is_u32 (mr_slot_id r);
  rt_type : is_u32 (mr_type r);
  rt_minimum : is_u32 (mr_minimum_count r);
  rt_maximum : is_u32 (mr_maximum_count r);
  rt_required : is_u64 (mr_required_rights r);
  rt_rights : is_u64 (mr_maximum_rights r);
  rt_flags : is_u32 (mr_flags r);
  rt_interface : digest_typed (mr_interface_schema_digest r);
}.

Definition manifest_binding_typed (x : kb2_closure_manifest_binding_t) : Prop :=
  is_u32 (mb_slot_id x) /\ is_u32 (mb_node_id x).

Record manifest_typed (x : manifest_value) : Prop := {
  mt_artifacts : Forall artifact_typed (mv_artifacts x);
  mt_dependencies : Forall dependency_typed (mv_dependencies x);
  mt_exports : Forall export_typed (mv_exports x);
  mt_imports : Forall import_typed (mv_imports x);
  mt_resources : Forall resource_typed (mv_resources x);
  mt_bindings : Forall manifest_binding_typed (mv_bindings x);
}.

(** * Strings *)

Lemma string_byte_valid_spec c : string_byte_valid c = true <-> name_byte c.
Proof. unfold string_byte_valid, name_byte. lia. Qed.

Lemma get_byte_lookup l i x : Forall is_u8 l -> l !! i = Some x -> get_byte l (Z.of_nat i) = x.
Proof.
  intros Hu Hx. unfold get_byte. rewrite Nat2Z.id, (nth_lookup_Some _ _ _ _ Hx). apply u8_small.
  by eapply Forall_lookup_1 in Hx.
Qed.

Lemma string_valid_spec l :
  Forall is_u8 l -> string_valid (mkString (Some l) (blen l)) = true <-> name_ok (mkString (Some l) (blen l)).
Proof.
  intros Hu. unfold string_valid. cbn [st_data st_length].
  assert (Hall : forallb (fun i => string_byte_valid (get_byte l i)) (seqZ 0 (blen l)) = true <-> Forall name_byte l).
  { rewrite forallb_forall, Forall_lookup. unfold blen. split.
    - intros H i x Hx. specialize (H (Z.of_nat i)). rewrite (get_byte_lookup l i x), string_byte_valid_spec in H by done.
      apply H, list_elem_of_In, elem_of_seqZ. apply lookup_lt_Some in Hx. lia.
    - intros H i Hi%list_elem_of_In%elem_of_seqZ. destruct (lookup_lt_is_Some_2 l (Z.to_nat i)) as [x Hx]; [lia |].
      rewrite <- (Z2Nat.id i) by lia. rewrite (get_byte_lookup l _ x), string_byte_valid_spec by done. by eapply H. }
  pose proof (blen_nonneg l) as Hl. rewrite andb_true_iff, Hall, negb_true_iff, orb_false_iff. unfold name_ok. split.
  - intros [[? ?] ?]. exists l. split_and!; [done | lia | lia | done].
  - intros (l' & [= <- _] & ? & ?). split_and!; [lia | lia | done].
Qed.

Lemma name_ok_string s : string_typed s -> string_valid s = true <-> name_ok s.
Proof.
  destruct s as [[l |] n]; unfold string_typed; cbn.
  - intros (_ & <- & Hu & _). by apply string_valid_spec.
  - intros ->. split; [done |]. by intros (l & ? & _).
Qed.

Lemma name_ok_typed s : name_ok s -> string_typed s.
Proof.
  intros (l & -> & Hl & Hn). unfold string_typed. cbn. split_and!; [intros ->; destruct Hl as [Hl _]; by apply Hl | done | | unfold is_u32; lia].
  eapply Forall_impl; [exact Hn |]. unfold name_byte, is_u8. lia.
Qed.

Lemma name_ok_length s : name_ok s -> 1 <= st_length s <= 127.
Proof. by intros (l & -> & Hl & _). Qed.

(** The bytes [offset, offset + length) of the string table, inside it and a name. *)
Lemma decoded_string_spec m offset length s :
  0 <= length ->
  decoded_string m offset length = Some s <->
  offset + length <= mf_string_table_size m /\ name_ok s /\
  s = mkString (Some (get_bytes (bytes_of m) (offset_at m STRINGS + offset) length)) length.
Proof.
  intros Hl. unfold decoded_string. set (data := get_bytes _ _ length).
  destruct (get_bytes_typed (bytes_of m) (offset_at m STRINGS + offset) length Hl) as [Hd Hu]. fold data in Hd, Hu.
  pose proof (string_valid_spec data Hu) as Hv. rewrite Hd in Hv.
  destruct (Z.ltb_spec (mf_string_table_size m) offset), (Z.ltb_spec (mf_string_table_size m - offset) length); cbn [orb];
    try (split; [done | intros (? & _ & _); lia]).
  destruct (string_valid _).
  - split; [intros [= <-] | by intros (_ & _ & ->)]. split_and!; [lia | by apply Hv | done].
  - split; [done |]. intros (_ & Hn & ->). by apply Hv in Hn.
Qed.

(** A reference the encoder writes and the string the decoder finds behind it. *)
Definition refers (m : kb2_closure_manifest) (offset : Z) (s : kb2_closure_string) : Prop :=
  offset + st_length s <= mf_string_table_size m /\
  forall l, st_data s = Some l -> get_bytes (bytes_of m) (offset_at m STRINGS + offset) (st_length s) = l.

Lemma refers_decoded m offset s : refers m offset s -> name_ok s -> decoded_string m offset (st_length s) = Some s.
Proof.
  intros [Hb Hd] Hn. pose proof (name_ok_length s Hn). apply decoded_string_spec; [lia |]. split_and!; [done | done |].
  destruct Hn as (l & -> & _). cbn in *. by rewrite (Hd l eq_refl).
Qed.

Lemma decoded_lifecycle_sound m flags offset length s :
  0 <= length -> decoded_lifecycle m flags offset length = Some s -> lifecycle_ok flags s.
Proof.
  intros Hl. unfold decoded_lifecycle, lifecycle_ok. destruct (native flags).
  - destruct (_ && _); [by intros [= <-] | done].
  - by intros (_ & ? & _)%decoded_string_spec.
Qed.

Lemma lifecycle_ok_typed flags s : lifecycle_ok flags s -> string_typed s.
Proof. unfold lifecycle_ok. destruct (native flags); [by intros -> | apply name_ok_typed]. Qed.

Lemma lifecycle_decoded m flags offset s :
  (st_length s = 0 -> offset = 0) -> (st_length s <> 0 -> refers m offset s) -> lifecycle_ok flags s ->
  decoded_lifecycle m flags offset (st_length s) = Some s.
Proof.
  intros Hz Hr. unfold decoded_lifecycle, lifecycle_ok. destruct (native flags).
  - intros ->. cbn in *. by rewrite Hz.
  - intros Hn. pose proof (name_ok_length s Hn). apply refers_decoded; [apply Hr; lia | done].
Qed.

(** * Records

    [o1] to [o4] are the offsets of the record's strings in the string table. *)

Definition artifact_record (o1 o2 o3 o4 : Z) (a : kb2_closure_manifest_artifact_t) : list field :=
  [U32 0 (ma_node_id a); U32 4 (ma_kind a); U32 8 (ma_flags a); U64 16 (ma_content_size a); Raw 24 32 (ma_content_digest a);
   U32 56 o1; U32 60 (st_length (ma_namespace_name a)); U32 64 o2; U32 68 (st_length (ma_init_symbol a));
   U32 72 o3; U32 76 (st_length (ma_quiesce_symbol a)); U32 80 o4; U32 84 (st_length (ma_cleanup_symbol a))].
Definition artifact_reserved : list field := [Raw 12 4 (replicate 4 0); Raw 88 8 (replicate 8 0)].

Definition dependency_record (d : kb2_closure_manifest_dependency_t) : list field :=
  [U32 0 (md_consumer_node_id d); U32 4 (md_provider_node_id d)].

Definition export_record (o : Z) (e : kb2_closure_manifest_symbol) : list field :=
  [U32 0 (my_node_id e); U32 4 (my_kind e); U32 8 o; U32 12 (st_length (my_name e))].

Definition import_record (o1 o2 : Z) (i : kb2_closure_manifest_import_t) : list field :=
  [U32 0 (mi_consumer_node_id i); U32 4 (mi_provider_node_id i); U32 8 (mi_kind i); U32 12 (mi_flags i);
   U32 16 o1; U32 20 (st_length (mi_consumer_name i)); U32 24 o2; U32 28 (st_length (mi_provider_name i))].

Definition resource_record (r : kb2_closure_manifest_resource_t) : list field :=
  [U32 0 (mr_slot_id r); U32 4 (mr_type r); U32 8 (mr_minimum_count r); U32 12 (mr_maximum_count r);
   U64 16 (mr_required_rights r); U64 24 (mr_maximum_rights r); U32 32 (mr_flags r); Raw 40 32 (mr_interface_schema_digest r)].
Definition resource_reserved : list field := [Raw 36 4 (replicate 4 0)].

Definition manifest_binding_record (x : kb2_closure_manifest_binding_t) : list field :=
  [U32 0 (mb_slot_id x); U32 4 (mb_node_id x)].

(** ** What an accepted record satisfies *)

Lemma interface_is_zero_spec d : digest_typed d -> digest_is_zero d = true <-> d = zero_interface.
Proof.
  intros [Hl Hu]. unfold digest_is_zero.
  assert (Hfold : forall l acc, is_u8 acc ->
    foldl (fun combined i => u8 (Z.lor combined (get_byte d i))) acc l = 0 <->
    acc = 0 /\ forall i, i ∈ l -> get_byte d i = 0).
  { induction l as [|i l IH]; intros acc Ha; cbn [foldl].
    - split; [| tauto]. intros ->. split; [done |]. by intros i ?%elem_of_nil.
    - pose proof (get_byte_u8 d i) as Hb. assert (Hlor : is_u8 (Z.lor acc (get_byte d i))).
      { unfold is_u8 in *. split; [apply Z.lor_nonneg; lia |]. apply Z.log2_lt_cancel.
        destruct (Z.eq_dec (Z.lor acc (get_byte d i)) 0) as [-> | Hne]; [done |].
        rewrite Z.log2_lor by lia. change (Z.log2 (2 ^ 8)) with 8.
        pose proof (Z.log2_lt_pow2 acc 8). pose proof (Z.log2_lt_pow2 (get_byte d i) 8).
        destruct (Z.eq_dec acc 0) as [-> |], (Z.eq_dec (get_byte d i) 0) as [E |]; rewrite ?E; cbn in *; lia. }
      rewrite IH by apply u8_range. rewrite u8_small, Z.lor_eq_0_iff by done. setoid_rewrite elem_of_cons. naive_solver. }
  rewrite Z.eqb_eq, Hfold by (unfold is_u8; lia). split.
  - intros [_ H]. apply list_eq_same_length with (n := 32%nat); [done | unfold blen in Hl; lia |].
    intros i x y Hi Hx Hy. apply lookup_replicate in Hy as [-> _]. rewrite <- (get_byte_lookup d i x) by done.
    apply H, elem_of_seqZ. lia.
  - intros ->. split; [done |]. intros i Hi%elem_of_seqZ. rewrite <- (Z2Nat.id i) by lia.
    apply get_byte_lookup; [by apply Forall_replicate |]. apply lookup_replicate_2. lia.
Qed.

Lemma manifest_artifact_sound m i a :
  manifest_artifact m i = Some a ->
  Z.of_nat i < count_at m ARTIFACTS /\ ma_node_id a <> 0 /\ artifact_ok a /\ artifact_typed a.
Proof.
  unfold manifest_artifact, kb2_closure_manifest_artifact. cbn [negb]. cbv zeta.
  destruct (Z.leb_spec (count_at m ARTIFACTS) (Z.of_nat i)); [done |].
  set (b := bytes_of m). set (d := offset_at m ARTIFACTS + _). destruct (_ || _) eqn:E; [done |].
  unfold artifact_strings. destruct (_ ≫= _) as [[[[ns s1] s2] s3] |] eqn:Es; [| done]. cbn [accessed]. intros [= <-].
  rewrite !orb_false_iff, !negb_false_iff in E. destruct E as [[[[[E1 E2] E3] E4] _] _].
  apply bind_Some in Es as (n' & D1 & Es). apply bind_Some in Es as (s1' & D2 & Es). apply bind_Some in Es as (s2' & D3 & Es).
  apply bind_Some in Es as (s3' & D4 & [= -> -> -> ->]).
  apply decoded_string_spec in D1 as (_ & D1 & _); [| apply load_u32_range].
  apply decoded_lifecycle_sound in D2; [| apply load_u32_range]. apply decoded_lifecycle_sound in D3; [| apply load_u32_range].
  apply decoded_lifecycle_sound in D4; [| apply load_u32_range]. split_and!; [done | cbn; lia | |].
  - split; cbn; try done; lia.
  - split; cbn; try first [apply load_u32_range | apply load_u64_range].
    + by apply get_bytes_typed.
    + by apply name_ok_typed.
    + by eapply lifecycle_ok_typed.
    + by eapply lifecycle_ok_typed.
    + by eapply lifecycle_ok_typed.
Qed.

Lemma manifest_dependency_sound m i d :
  manifest_dependency m i = Some d ->
  Z.of_nat i < count_at m DEPENDENCIES /\ dependency_typed d /\
  md_consumer_node_id d <> 0 /\ md_provider_node_id d <> 0 /\ md_consumer_node_id d <> md_provider_node_id d.
Proof.
  unfold manifest_dependency, kb2_closure_manifest_dependency. cbn [negb]. cbv zeta.
  destruct (Z.leb_spec (count_at m DEPENDENCIES) (Z.of_nat i)); [done |].
  destruct (_ && _) eqn:E; [| done]. cbn [accessed]. intros [= <-]. unfold dependency_typed. cbn.
  split_and!; try apply load_u32_range; lia.
Qed.

Lemma manifest_export_sound m i e :
  manifest_export m i = Some e ->
  Z.of_nat i < count_at m EXPORTS /\ export_typed e /\ my_node_id e <> 0 /\ my_kind e <= KB2_CLOSURE_SYMBOL_OBJECT /\
  name_ok (my_name e).
Proof.
  unfold manifest_export, kb2_closure_manifest_export. cbn [negb]. cbv zeta.
  destruct (Z.leb_spec (count_at m EXPORTS) (Z.of_nat i)); [done |]. destruct (_ || _) eqn:E; [done |].
  destruct (decoded_string _ _ _) as [s |] eqn:D; [| done]. cbn [accessed]. intros [= <-].
  apply decoded_string_spec in D as (_ & D & _); [| apply load_u32_range]. unfold export_typed. cbn.
  split_and!; try apply load_u32_range; try lia; [by apply name_ok_typed | done].
Qed.

Lemma manifest_import_sound m i x :
  manifest_import m i = Some x ->
  Z.of_nat i < count_at m IMPORTS /\ import_typed x /\
  mi_consumer_node_id x <> 0 /\ mi_consumer_node_id x <> mi_provider_node_id x /\
  mi_kind x <= KB2_CLOSURE_SYMBOL_OBJECT /\ mi_flags x &~ KB2_CLOSURE_IMPORT_FLAG_OPTIONAL = 0 /\
  name_ok (mi_consumer_name x) /\ name_ok (mi_provider_name x).
Proof.
  unfold manifest_import, kb2_closure_manifest_import. cbn [negb]. cbv zeta.
  destruct (Z.leb_spec (count_at m IMPORTS) (Z.of_nat i)); [done |]. destruct (_ || _) eqn:E; [done |].
  destruct (decoded_string _ _ _) as [s |] eqn:D; [| done]. destruct (decoded_string m _ _) as [s' |] eqn:D' in |- *; [| done].
  cbn [accessed]. intros [= <-]. rewrite !orb_false_iff, negb_false_iff in E. destruct E as [[[E1 E2] E3] E4].
  apply decoded_string_spec in D as (_ & D & _); [| apply load_u32_range].
  apply decoded_string_spec in D' as (_ & D' & _); [| apply load_u32_range]. cbn.
  split_and!; try done; try lia. split; cbn; try apply load_u32_range; by apply name_ok_typed.
Qed.

Lemma manifest_resource_sound m i r :
  manifest_resource m i = Some r -> Z.of_nat i < count_at m RESOURCES /\ resource_typed r /\ resource_ok r.
Proof.
  unfold manifest_resource, kb2_closure_manifest_resource. cbn [negb]. cbv zeta.
  destruct (Z.leb_spec (count_at m RESOURCES) (Z.of_nat i)); [done |]. destruct (_ || _) eqn:E; [done |].
  cbn [accessed]. intros [= <-]. cbn in E. rewrite !orb_false_iff, negb_false_iff in E. destruct E as [[[[E1 E2] E3] E4] _].
  assert (Hd : forall o, digest_typed (get_bytes (bytes_of m) o 32)) by (intros o; by apply get_bytes_typed).
  apply not_true_iff_false in E4. rewrite interface_is_zero_spec in E4 by apply Hd. split_and!; [done | |].
  - split; cbn; try first [apply load_u32_range | apply load_u64_range | apply Hd].
  - split; cbn; try done; lia.
Qed.

Lemma manifest_binding_sound m i x :
  manifest_binding m i = Some x ->
  Z.of_nat i < count_at m BINDINGS /\ manifest_binding_typed x /\ mb_slot_id x <> 0 /\ mb_node_id x <> 0.
Proof.
  unfold manifest_binding, kb2_closure_manifest_binding. cbn [negb]. cbv zeta.
  destruct (Z.leb_spec (count_at m BINDINGS) (Z.of_nat i)); [done |]. destruct (_ && _) eqn:E; [| done].
  cbn [accessed]. intros [= <-]. unfold manifest_binding_typed. cbn. split_and!; try apply load_u32_range; lia.
Qed.

(** ** A valid record is accepted where its fields are read *)

Notation row m t size i := (offset_at m t + size * Z.of_nat i).

Definition refers_if (m : kb2_closure_manifest) (offset : Z) (s : kb2_closure_string) : Prop :=
  (st_length s = 0 -> offset = 0) /\ (st_length s <> 0 -> refers m offset s).

Lemma refers_if_name m offset s : refers_if m offset s -> name_ok s -> decoded_string m offset (st_length s) = Some s.
Proof. intros [_ Hr] Hn. pose proof (name_ok_length s Hn). apply refers_decoded; [apply Hr; lia | done]. Qed.

Lemma refers_if_lifecycle m flags offset s :
  refers_if m offset s -> lifecycle_ok flags s -> decoded_lifecycle m flags offset (st_length s) = Some s.
Proof. intros [Hz Hr]. by apply lifecycle_decoded. Qed.

(** The values of the reads of [b] from the hypotheses. *)
Ltac rewrite_reads b :=
  repeat match goal with
  | H : load_u32 b ?o = _ |- context [load_u32 b ?o] => rewrite H
  | H : load_u64 b ?o = _ |- context [load_u64 b ?o] => rewrite H
  | H : get_bytes b ?o ?n = _ |- context [get_bytes b ?o ?n] => rewrite H
  end.

Lemma manifest_artifact_complete m i a o1 o2 o3 o4 :
  Z.of_nat i < count_at m ARTIFACTS -> ma_node_id a <> 0 -> artifact_ok a ->
  Forall (reads (bytes_of m) (row m ARTIFACTS 96 i)) (artifact_record o1 o2 o3 o4 a ++ artifact_reserved) ->
  refers_if m o1 (ma_namespace_name a) -> refers_if m o2 (ma_init_symbol a) ->
  refers_if m o3 (ma_quiesce_symbol a) -> refers_if m o4 (ma_cleanup_symbol a) ->
  manifest_artifact m i = Some a.
Proof.
  intros Hi Hid [Hs Hk Hf Hn H2 H3 H4] Hr R1 R2 R3 R4. unfold manifest_artifact, kb2_closure_manifest_artifact.
  rewrite (proj2 (Z.leb_gt _ _)) by done. cbn [negb]. rewrite (Z.mul_comm (Z.of_nat i)).
  change KB2_CLOSURE_ARTIFACT_DESCRIPTOR_SIZE with 96. cbv zeta.
  set (b := bytes_of m) in *. set (d := row m ARTIFACTS 96 i) in *. apply Forall_app in Hr as [Hr Hz].
  apply Forall_cons in Hz as [Hz1 [Hz2 _]%Forall_cons].
  apply bytes_are_zero_reads in Hz1; [| lia]. apply bytes_are_zero_reads in Hz2; [| lia].
  unfold KB2_CLOSURE_ARTIFACT_DESCRIPTOR_RESERVED_0_OFFSET, KB2_CLOSURE_ARTIFACT_DESCRIPTOR_RESERVED_1_OFFSET.
  rewrite Hz1, Hz2. unfold artifact_record in Hr. solve_reads. unfold artifact_strings.
  unfold KB2_CLOSURE_ARTIFACT_DESCRIPTOR_NODE_ID_OFFSET, KB2_CLOSURE_ARTIFACT_DESCRIPTOR_KIND_OFFSET,
    KB2_CLOSURE_ARTIFACT_DESCRIPTOR_FLAGS_OFFSET, KB2_CLOSURE_ARTIFACT_DESCRIPTOR_CONTENT_SIZE_OFFSET,
    KB2_CLOSURE_ARTIFACT_DESCRIPTOR_CONTENT_DIGEST_OFFSET, KB2_CLOSURE_ARTIFACT_DESCRIPTOR_NAMESPACE_OFFSET_OFFSET,
    KB2_CLOSURE_ARTIFACT_DESCRIPTOR_NAMESPACE_LENGTH_OFFSET, KB2_CLOSURE_ARTIFACT_DESCRIPTOR_INIT_OFFSET_OFFSET,
    KB2_CLOSURE_ARTIFACT_DESCRIPTOR_INIT_LENGTH_OFFSET, KB2_CLOSURE_ARTIFACT_DESCRIPTOR_QUIESCE_OFFSET_OFFSET,
    KB2_CLOSURE_ARTIFACT_DESCRIPTOR_QUIESCE_LENGTH_OFFSET, KB2_CLOSURE_ARTIFACT_DESCRIPTOR_CLEANUP_OFFSET_OFFSET,
    KB2_CLOSURE_ARTIFACT_DESCRIPTOR_CLEANUP_LENGTH_OFFSET.
  rewrite_reads b.
  rewrite (refers_if_name m o1 _ R1 Hn). cbn [mbind option_bind].
  rewrite (refers_if_lifecycle m _ o2 _ R2 H2), (refers_if_lifecycle m _ o3 _ R3 H3), (refers_if_lifecycle m _ o4 _ R4 H4).
  cbn [mbind option_bind]. rewrite Hf, (proj2 (Z.eqb_neq _ _) Hid), (proj2 (Z.eqb_neq _ _) Hs).
  rewrite (proj2 (Z.ltb_ge _ _)) by done. cbn. by destruct a.
Qed.

Lemma manifest_dependency_complete m i d :
  Z.of_nat i < count_at m DEPENDENCIES ->
  md_consumer_node_id d <> 0 -> md_provider_node_id d <> 0 -> md_consumer_node_id d <> md_provider_node_id d ->
  Forall (reads (bytes_of m) (row m DEPENDENCIES 8 i)) (dependency_record d) -> manifest_dependency m i = Some d.
Proof.
  intros Hi H1 H2 H3 Hr. unfold manifest_dependency, kb2_closure_manifest_dependency.
  rewrite (proj2 (Z.leb_gt _ _)) by done. cbn [negb]. rewrite (Z.mul_comm (Z.of_nat i)).
  change KB2_CLOSURE_DEPENDENCY_DESCRIPTOR_SIZE with 8. cbv zeta. set (b := bytes_of m) in *. set (d' := row m DEPENDENCIES 8 i) in *.
  unfold dependency_record in Hr. solve_reads. unfold KB2_CLOSURE_DEPENDENCY_DESCRIPTOR_CONSUMER_NODE_ID_OFFSET,
    KB2_CLOSURE_DEPENDENCY_DESCRIPTOR_PROVIDER_NODE_ID_OFFSET. rewrite_reads b.
  rewrite !(proj2 (Z.eqb_neq _ _)) by done. cbn. by destruct d.
Qed.

Lemma manifest_export_complete m i e o :
  Z.of_nat i < count_at m EXPORTS -> my_node_id e <> 0 -> my_kind e <= KB2_CLOSURE_SYMBOL_OBJECT -> name_ok (my_name e) ->
  Forall (reads (bytes_of m) (row m EXPORTS 16 i)) (export_record o e) -> refers_if m o (my_name e) ->
  manifest_export m i = Some e.
Proof.
  intros Hi H1 H2 Hn Hr R. unfold manifest_export, kb2_closure_manifest_export.
  rewrite (proj2 (Z.leb_gt _ _)) by done. cbn [negb]. rewrite (Z.mul_comm (Z.of_nat i)).
  change KB2_CLOSURE_SYMBOL_DESCRIPTOR_SIZE with 16. cbv zeta. set (b := bytes_of m) in *. set (d := row m EXPORTS 16 i) in *.
  unfold export_record in Hr. solve_reads. unfold KB2_CLOSURE_SYMBOL_DESCRIPTOR_NODE_ID_OFFSET,
    KB2_CLOSURE_SYMBOL_DESCRIPTOR_KIND_OFFSET, KB2_CLOSURE_SYMBOL_DESCRIPTOR_NAME_OFFSET_OFFSET,
    KB2_CLOSURE_SYMBOL_DESCRIPTOR_NAME_LENGTH_OFFSET. rewrite_reads b.
  rewrite (proj2 (Z.eqb_neq _ _) H1), (proj2 (Z.ltb_ge _ _) H2), (refers_if_name m o _ R Hn). cbn. by destruct e.
Qed.

Lemma manifest_import_complete m i x o1 o2 :
  Z.of_nat i < count_at m IMPORTS -> mi_consumer_node_id x <> 0 -> mi_consumer_node_id x <> mi_provider_node_id x ->
  mi_kind x <= KB2_CLOSURE_SYMBOL_OBJECT -> mi_flags x &~ KB2_CLOSURE_IMPORT_FLAG_OPTIONAL = 0 ->
  name_ok (mi_consumer_name x) -> name_ok (mi_provider_name x) ->
  Forall (reads (bytes_of m) (row m IMPORTS 32 i)) (import_record o1 o2 x) ->
  refers_if m o1 (mi_consumer_name x) -> refers_if m o2 (mi_provider_name x) -> manifest_import m i = Some x.
Proof.
  intros Hi H1 H2 H3 H4 Hn1 Hn2 Hr R1 R2. unfold manifest_import, kb2_closure_manifest_import.
  rewrite (proj2 (Z.leb_gt _ _)) by done. cbn [negb]. rewrite (Z.mul_comm (Z.of_nat i)).
  change KB2_CLOSURE_IMPORT_DESCRIPTOR_SIZE with 32. cbv zeta. set (b := bytes_of m) in *. set (d := row m IMPORTS 32 i) in *.
  unfold import_record in Hr. solve_reads. unfold KB2_CLOSURE_IMPORT_DESCRIPTOR_CONSUMER_NODE_ID_OFFSET,
    KB2_CLOSURE_IMPORT_DESCRIPTOR_PROVIDER_NODE_ID_OFFSET, KB2_CLOSURE_IMPORT_DESCRIPTOR_KIND_OFFSET,
    KB2_CLOSURE_IMPORT_DESCRIPTOR_FLAGS_OFFSET, KB2_CLOSURE_IMPORT_DESCRIPTOR_CONSUMER_NAME_OFFSET_OFFSET,
    KB2_CLOSURE_IMPORT_DESCRIPTOR_CONSUMER_NAME_LENGTH_OFFSET, KB2_CLOSURE_IMPORT_DESCRIPTOR_PROVIDER_NAME_OFFSET_OFFSET,
    KB2_CLOSURE_IMPORT_DESCRIPTOR_PROVIDER_NAME_LENGTH_OFFSET. rewrite_reads b.
  rewrite (proj2 (Z.eqb_neq _ _) H1), (proj2 (Z.eqb_neq _ _) H2), (proj2 (Z.ltb_ge _ _) H3), H4.
  rewrite (refers_if_name m o1 _ R1 Hn1), (refers_if_name m o2 _ R2 Hn2). cbn. by destruct x.
Qed.

Lemma manifest_resource_complete m i r :
  Z.of_nat i < count_at m RESOURCES -> resource_typed r -> resource_ok r ->
  Forall (reads (bytes_of m) (row m RESOURCES 72 i)) (resource_record r ++ resource_reserved) -> manifest_resource m i = Some r.
Proof.
  intros Hi [_ _ _ _ _ _ _ Hd] [H1 H2 H3 H4] Hr. unfold manifest_resource, kb2_closure_manifest_resource.
  rewrite (proj2 (Z.leb_gt _ _)) by done. cbn [negb]. rewrite (Z.mul_comm (Z.of_nat i)).
  change KB2_CLOSURE_RESOURCE_DESCRIPTOR_SIZE with 72. cbv zeta. set (b := bytes_of m) in *. set (d := row m RESOURCES 72 i) in *.
  apply Forall_app in Hr as [Hr [Hz _]%Forall_cons]. apply bytes_are_zero_reads in Hz; [| lia].
  unfold KB2_CLOSURE_RESOURCE_DESCRIPTOR_RESERVED_OFFSET. rewrite Hz.
  unfold resource_record in Hr. solve_reads. unfold KB2_CLOSURE_RESOURCE_DESCRIPTOR_SLOT_ID_OFFSET,
    KB2_CLOSURE_RESOURCE_DESCRIPTOR_TYPE_OFFSET, KB2_CLOSURE_RESOURCE_DESCRIPTOR_MINIMUM_COUNT_OFFSET,
    KB2_CLOSURE_RESOURCE_DESCRIPTOR_MAXIMUM_COUNT_OFFSET, KB2_CLOSURE_RESOURCE_DESCRIPTOR_REQUIRED_RIGHTS_OFFSET,
    KB2_CLOSURE_RESOURCE_DESCRIPTOR_MAXIMUM_RIGHTS_OFFSET, KB2_CLOSURE_RESOURCE_DESCRIPTOR_FLAGS_OFFSET,
    KB2_CLOSURE_RESOURCE_DESCRIPTOR_INTERFACE_SCHEMA_DIGEST_OFFSET. rewrite_reads b.
  cbn [mr_slot_id mr_type mr_minimum_count mr_maximum_count mr_required_rights
    mr_maximum_rights mr_flags mr_interface_schema_digest].
  assert (Hdz : digest_is_zero (mr_interface_schema_digest r) = false).
  { apply not_true_iff_false. by rewrite interface_is_zero_spec. }
  rewrite (proj2 (Z.eqb_neq _ _) H1), (proj2 (Z.ltb_ge _ _) H2), H3, Hdz. cbn. by destruct r.
Qed.

Lemma manifest_binding_complete m i x :
  Z.of_nat i < count_at m BINDINGS -> mb_slot_id x <> 0 -> mb_node_id x <> 0 ->
  Forall (reads (bytes_of m) (row m BINDINGS 8 i)) (manifest_binding_record x) -> manifest_binding m i = Some x.
Proof.
  intros Hi H1 H2 Hr. unfold manifest_binding, kb2_closure_manifest_binding.
  rewrite (proj2 (Z.leb_gt _ _)) by done. cbn [negb]. rewrite (Z.mul_comm (Z.of_nat i)).
  change KB2_CLOSURE_RESOURCE_BINDING_SIZE with 8. cbv zeta. set (b := bytes_of m) in *. set (d := row m BINDINGS 8 i) in *.
  unfold manifest_binding_record in Hr. solve_reads.
  unfold KB2_CLOSURE_RESOURCE_BINDING_SLOT_ID_OFFSET, KB2_CLOSURE_RESOURCE_BINDING_NODE_ID_OFFSET. rewrite_reads b.
  rewrite !(proj2 (Z.eqb_neq _ _)) by done. cbn. by destruct x.
Qed.

(** The accessors of [m] give the records of [x]. *)
Record manifest_rows (m : kb2_closure_manifest) (x : manifest_value) : Prop := {
  mr_artifact : forall i, manifest_artifact m i = mv_artifacts x !! i;
  mr_dependency : forall i, manifest_dependency m i = mv_dependencies x !! i;
  mr_export : forall i, manifest_export m i = mv_exports x !! i;
  mr_import : forall i, manifest_import m i = mv_imports x !! i;
  mr_resource : forall i, manifest_resource m i = mv_resources x !! i;
  mr_binding : forall i, manifest_binding m i = mv_bindings x !! i;
  mr_artifact_count : count_at m ARTIFACTS = Z.of_nat (length (mv_artifacts x));
  mr_dependency_count : count_at m DEPENDENCIES = Z.of_nat (length (mv_dependencies x));
  mr_export_count : count_at m EXPORTS = Z.of_nat (length (mv_exports x));
  mr_import_count : count_at m IMPORTS = Z.of_nat (length (mv_imports x));
  mr_resource_count : count_at m RESOURCES = Z.of_nat (length (mv_resources x));
  mr_binding_count : count_at m BINDINGS = Z.of_nat (length (mv_bindings x));
}.

(** Reading every record through the accessors. *)
Definition manifest_read (m : kb2_closure_manifest) : option manifest_value :=
  artifacts ← mapM (manifest_artifact m) (seq 0 (Z.to_nat (kb2_closure_manifest_artifact_count (Some m))));
  dependencies ← mapM (manifest_dependency m) (seq 0 (Z.to_nat (kb2_closure_manifest_dependency_count (Some m))));
  exports ← mapM (manifest_export m) (seq 0 (Z.to_nat (kb2_closure_manifest_export_count (Some m))));
  imports ← mapM (manifest_import m) (seq 0 (Z.to_nat (kb2_closure_manifest_import_count (Some m))));
  resources ← mapM (manifest_resource m) (seq 0 (Z.to_nat (kb2_closure_manifest_resource_count (Some m))));
  bindings ← mapM (manifest_binding m) (seq 0 (Z.to_nat (kb2_closure_manifest_binding_count (Some m))));
  Some (mkManifestValue artifacts dependencies exports imports resources bindings).

Lemma manifest_read_rows m x : manifest_rows m x -> manifest_read m = Some x.
Proof.
  intros []. unfold manifest_read. cbn [kb2_closure_manifest_artifact_count kb2_closure_manifest_dependency_count
    kb2_closure_manifest_export_count kb2_closure_manifest_import_count kb2_closure_manifest_resource_count
    kb2_closure_manifest_binding_count].
  repeat match goal with H : count_at m _ = _ |- _ => rewrite H, Nat2Z.id; clear H end.
  rewrite !mapM_rows by done. cbn. by destruct x.
Qed.

Lemma accessor_none {T} (P : T -> Prop) (f : nat -> option T) count :
  (forall i a, f i = Some a -> Z.of_nat i < count /\ P a) -> forall i, (Z.to_nat count <= i)%nat -> f i = None.
Proof. intros H i Hi. apply eq_None_not_Some. intros [a [Ha _]%H]. lia. Qed.

Lemma manifest_rows_read m x :
  Forall is_u32 (mf_counts m) -> manifest_read m = Some x -> manifest_rows m x.
Proof.
  intros Hc Hx. assert (Hn : forall t, 0 <= count_at m t) by (intros t; pose proof (count_at_range m t Hc); unfold is_u32 in *; lia).
  unfold manifest_read in Hx. apply bind_Some in Hx as (l1 & M1 & Hx). apply bind_Some in Hx as (l2 & M2 & Hx).
  apply bind_Some in Hx as (l3 & M3 & Hx). apply bind_Some in Hx as (l4 & M4 & Hx).
  apply bind_Some in Hx as (l5 & M5 & Hx). apply bind_Some in Hx as (l6 & M6 & Hx). injection Hx as <-.
  apply rows_mapM in M1 as [L1 R1]; [| apply (accessor_none _ _ _ (manifest_artifact_sound m))].
  apply rows_mapM in M2 as [L2 R2]; [| apply (accessor_none _ _ _ (manifest_dependency_sound m))].
  apply rows_mapM in M3 as [L3 R3]; [| apply (accessor_none _ _ _ (manifest_export_sound m))].
  apply rows_mapM in M4 as [L4 R4]; [| apply (accessor_none _ _ _ (manifest_import_sound m))].
  apply rows_mapM in M5 as [L5 R5]; [| apply (accessor_none _ _ _ (manifest_resource_sound m))].
  apply rows_mapM in M6 as [L6 R6]; [| apply (accessor_none _ _ _ (manifest_binding_sound m))].
  cbn [kb2_closure_manifest_artifact_count kb2_closure_manifest_dependency_count kb2_closure_manifest_export_count
    kb2_closure_manifest_import_count kb2_closure_manifest_resource_count kb2_closure_manifest_binding_count] in *.
  split; cbn [mv_artifacts mv_dependencies mv_exports mv_imports mv_resources mv_bindings]; try done;
    match goal with |- count_at m ?t = _ => specialize (Hn t); lia end.
Qed.

(** * The loops *)

Definition roots (l : list kb2_closure_manifest_artifact_t) : Z :=
  foldr (fun a n => n + (if negb (Z.land (ma_flags a) KB2_CLOSURE_ARTIFACT_FLAG_ROOT =? 0) then 1 else 0)) 0 l.

Lemma roots_spec l : 0 <= roots l /\ (roots l <> 0 <-> Exists is_root l).
Proof.
  induction l as [|a l [Hn IH]]; cbn [roots foldr]; [split; [done |]; rewrite Exists_nil; done |]. fold (roots l).
  rewrite Exists_cons, <- IH. unfold is_root. destruct (Z.eqb_spec (Z.land (ma_flags a) KB2_CLOSURE_ARTIFACT_FLAG_ROOT) 0); cbn [negb]; lia.
Qed.

Section Rows.
Context (m : kb2_closure_manifest) (x : manifest_value) (Hrows : manifest_rows m x).

Lemma check_artifacts_spec l index p rc r :
  drop index (mv_artifacts x) = l ->
  check_artifacts m (length l) index p rc = Some r <-> increasing p (ma_node_id <$> l) /\ r = rc + roots l.
Proof.
  revert index p rc. induction l as [|a l IH]; intros index p rc Hd; cbn [length check_artifacts].
  { cbn. split; [intros [= <-]; split; [done | lia] | intros [_ ->]; f_equal; lia]. }
  assert (Hi : mv_artifacts x !! index = Some a) by by rewrite <- (Nat.add_0_r index), <- lookup_drop, Hd.
  rewrite (mr_artifact _ _ Hrows), Hi. cbn [mbind option_bind fmap list_fmap increasing roots foldr]. fold (roots l).
  erewrite drop_S in Hd by done. injection Hd as Hd.
  destruct (Z.leb_spec (ma_node_id a) p); [split; [done | lia] |]. rewrite IH by done. split; intros [? ->]; (split; [tauto | lia]).
Qed.

Lemma manifest_has_node_spec id : increasing 0 (node_ids x) -> manifest_has_node m id = true <-> id ∈ node_ids x.
Proof.
  intros Hi. unfold manifest_has_node. rewrite (mr_artifact_count _ _ Hrows), Nat2Z.id, bool_decide_eq_true.
  erewrite (bsearch_opt_total _ _ (fun i => nth i (node_ids x) 0)).
  - rewrite <- (length_fmap ma_node_id (mv_artifacts x)). fold (node_ids x). rewrite <- not_eq_None_Some, bsearch_present by done.
    split; [apply dec_stable | by intros ? ?].
  - intros i Hlt. rewrite (mr_artifact _ _ Hrows). destruct (lookup_lt_is_Some_2 _ _ Hlt) as [a Ha]. rewrite Ha. cbn. f_equal.
    symmetry. apply nth_lookup_Some. unfold node_ids. by rewrite list_lookup_fmap, Ha.
Qed.

Lemma check_records_spec {T} (read : nat -> option T) accept (l : list T) :
  (forall i, read i = l !! i) -> check_records read accept (Z.of_nat (length l)) = true <-> Forall (fun y => accept y = true) l.
Proof.
  intros Hr. unfold check_records. rewrite Nat2Z.id, forallb_forall, Forall_lookup. split.
  - intros H i y Hy. specialize (H i). rewrite Hr, Hy in H. apply H, list_elem_of_In, elem_of_seq.
    apply lookup_lt_Some in Hy. lia.
  - intros H i Hi%list_elem_of_In%elem_of_seq. rewrite Hr. destruct (lookup_lt_is_Some_2 l i) as [y Hy]; [lia |].
    rewrite Hy. by eapply H.
Qed.

Lemma check_manifest_spec :
  check_manifest m = true <->
  increasing 0 (node_ids x) /\ Exists is_root (mv_artifacts x) /\
  Forall (fun d => md_consumer_node_id d ∈ node_ids x /\ md_provider_node_id d ∈ node_ids x) (mv_dependencies x) /\
  Forall (fun e => my_node_id e ∈ node_ids x) (mv_exports x) /\
  Forall (fun i => mi_consumer_node_id i ∈ node_ids x /\ (mi_provider_node_id i = 0 \/ mi_provider_node_id i ∈ node_ids x)) (mv_imports x) /\
  Forall (fun y => mb_node_id y ∈ node_ids x) (mv_bindings x).
Proof.
  unfold check_manifest. rewrite (mr_artifact_count _ _ Hrows), (mr_dependency_count _ _ Hrows), (mr_export_count _ _ Hrows),
    (mr_import_count _ _ Hrows), (mr_resource_count _ _ Hrows), (mr_binding_count _ _ Hrows), Nat2Z.id.
  destruct (check_artifacts _ _ _ _ _) as [r |] eqn:E.
  2: { split; [done |]. intros [Hi _].
       assert (check_artifacts m (length (mv_artifacts x)) 0 0 0 = Some (0 + roots (mv_artifacts x))) by by apply check_artifacts_spec.
       congruence. }
  apply check_artifacts_spec in E as [Hi ->]; [| done]. fold (node_ids x) in Hi.
  destruct (roots_spec (mv_artifacts x)) as [_ Hroot]. rewrite Z.add_0_l.
  destruct (Z.eqb_spec (roots (mv_artifacts x)) 0) as [Hz | Hnz]; [split; [done | intros (_ & ? & _); by apply Hroot in H] |].
  rewrite !andb_true_iff, !check_records_spec by apply Hrows.
  assert (Hin : forall id, manifest_has_node m id = true <-> id ∈ node_ids x) by (intros id; by apply manifest_has_node_spec).
  setoid_rewrite andb_true_iff. setoid_rewrite orb_true_iff. setoid_rewrite Hin. setoid_rewrite Z.eqb_eq.
  split; [intros [[[[? ?] ?] _] ?]; split_and!; try done; by apply Hroot |]. intros (_ & _ & ? & ? & ? & ?).
  split_and!; try done. by apply Forall_true.
Qed.
End Rows.

(** * Soundness: what a decoded manifest guarantees *)

Lemma check_artifacts_read m n index p rc r :
  check_artifacts m n index p rc = Some r -> Forall (fun i => is_Some (manifest_artifact m i)) (seq index n).
Proof.
  revert index p rc. induction n as [|n IH]; intros index p rc; cbn [check_artifacts seq]; [constructor |].
  intros (a & Ha & H)%bind_Some. constructor; [by eexists |]. destruct (_ <=? _); [done |]. by eapply IH.
Qed.

Lemma check_records_read {T} (read : nat -> option T) accept count :
  check_records read accept count = true -> Forall (fun i => is_Some (read i)) (seq 0 (Z.to_nat count)).
Proof.
  unfold check_records. rewrite forallb_forall, Forall_forall. intros H i Hi%list_elem_of_In.
  specialize (H i Hi). by destruct (read i).
Qed.

Lemma check_manifest_read m : check_manifest m = true -> is_Some (manifest_read m).
Proof.
  unfold check_manifest. destruct (check_artifacts _ _ _ _ _) as [r |] eqn:E; [| done]. destruct (r =? 0); [done |].
  rewrite !andb_true_iff. intros [[[[R2 R3] R4] R5] R6]. apply check_artifacts_read in E.
  apply check_records_read in R2, R3, R4, R5, R6.
  apply mapM_is_Some in E as [l1 E], R2 as [l2 R2], R3 as [l3 R3], R4 as [l4 R4], R5 as [l5 R5], R6 as [l6 R6].
  unfold manifest_read. cbn [kb2_closure_manifest_artifact_count kb2_closure_manifest_dependency_count
    kb2_closure_manifest_export_count kb2_closure_manifest_import_count kb2_closure_manifest_resource_count
    kb2_closure_manifest_binding_count]. rewrite E, R2, R3, R4, R5, R6. by eexists.
Qed.

Lemma read_tables_limits b n index limits sizes at_ counts offsets last :
  length sizes = length limits -> read_tables b n index limits sizes at_ = Some (counts, offsets, last) ->
  Forall2 Z.le counts limits.
Proof.
  revert index sizes at_ counts offsets last.
  induction limits as [|limit limits IH]; intros index [|size sizes] at_ counts offsets last Hl; cbn [read_tables]; try done.
  { intros [= <- _ _]. constructor. }
  destruct (Z.ltb_spec limit (load_u32 b (KB2_CLOSURE_MANIFEST_HEADER_ARTIFACT_COUNT_OFFSET + Z.of_nat index * 4))); [done |].
  destruct (negb _); [done |]. cbn [orb]. destruct (_ <? _); [done |].
  destruct (read_tables b n (S index) limits sizes _) as [[[counts' offsets'] last'] |] eqn:E; [| done].
  intros [= <- _ _]. injection Hl as Hl. constructor; [done | exact (IH _ _ _ _ _ _ Hl E)].
Qed.

Lemma manifest_decode_limits b n m :
  status_decoded (kb2_closure_manifest_decode (Some b) n true) = Some m ->
  Forall2 Z.le (mf_counts m) table_limits /\ count_at m ARTIFACTS <> 0.
Proof.
  unfold kb2_closure_manifest_decode, status_decoded. cbn [negb].
  destruct (n <? _); [done |]. destruct (U32_MAX <? n); [done |]. destruct (_ || _); [done |].
  destruct (negb _); [done |]. destruct (negb _); [done |].
  destruct (read_tables _ _ _ _ _ _) as [[[counts offsets] last] |] eqn:E; [| done].
  destruct (Z.eqb_spec (count_at (mkManifest (Some b) n counts (offsets ++ [load_u32 b KB2_CLOSURE_MANIFEST_HEADER_STRING_TABLE_OFFSET_OFFSET])
    (load_u32 b KB2_CLOSURE_MANIFEST_HEADER_STRING_TABLE_SIZE_OFFSET)) ARTIFACTS) 0); [done |]. cbn [orb].
  destruct (_ || _); [done |]. destruct (check_manifest _); [| done]. cbn. intros [= <-]. split; [| done].
  by apply read_tables_limits in E.
Qed.

Lemma rows_forall {T} (P : T -> Prop) (f : nat -> option T) l :
  (forall i, f i = l !! i) -> (forall i y, f i = Some y -> P y) -> Forall P l.
Proof. intros Hf HP. apply Forall_lookup. intros i y Hi. rewrite <- Hf in Hi. by eapply HP. Qed.

Lemma manifest_decode_sound b n m :
  status_decoded (kb2_closure_manifest_decode (Some b) n true) = Some m ->
  exists x, manifest_rows m x /\ manifest_typed x /\ manifest_ok x.
Proof.
  intros Hd. pose proof (manifest_decode_limits b n m Hd) as [Hlim Hne].
  apply manifest_decode_inv in Hd as (_ & _ & _ & Hcounts & Hc).
  destruct (check_manifest_read m Hc) as [x Hx]. exists x. pose proof (manifest_rows_read m x Hcounts Hx) as Hrows.
  apply (check_manifest_spec m x Hrows) in Hc as (Hi & Hr & Hd & He & Him & Hb). split; [done |].
  pose proof Hrows as [R1 R2 R3 R4 R5 R6 C1 C2 C3 C4 C5 C6]. split.
  - split; eapply rows_forall; try eassumption; intros i y Hy.
    + by apply manifest_artifact_sound in Hy as (_ & _ & _ & ?).
    + by apply manifest_dependency_sound in Hy as (_ & ? & _).
    + by apply manifest_export_sound in Hy as (_ & ? & _).
    + by apply manifest_import_sound in Hy as (_ & ? & _).
    + by apply manifest_resource_sound in Hy as (_ & ? & _).
    + by apply manifest_binding_sound in Hy as (_ & ? & _).
  - assert (Hl : forall t limit, table_limits !! t = Some limit -> count_at m t <= limit).
    { intros t limit Ht. unfold count_at. rewrite nth_lookup.
      destruct (Forall2_lookup_r _ _ _ _ _ Hlim Ht) as (c & Hct & Hle). by rewrite Hct. }
    split; try done.
    + pose proof (Hl ARTIFACTS _ eq_refl). pose proof (Hl DEPENDENCIES _ eq_refl). pose proof (Hl EXPORTS _ eq_refl).
      pose proof (Hl IMPORTS _ eq_refl). pose proof (Hl RESOURCES _ eq_refl). pose proof (Hl BINDINGS _ eq_refl).
      split; lia.
    + eapply rows_forall; [exact R1 |]. intros i y Hy. by apply manifest_artifact_sound in Hy as (_ & _ & ? & _).
    + apply Forall_lookup. intros i y Hy. pose proof (Forall_lookup_1 _ _ _ _ Hd Hy) as [? ?]. rewrite <- R2 in Hy.
      by apply manifest_dependency_sound in Hy as (_ & _ & _ & _ & ?).
    + apply Forall_lookup. intros i y Hy. pose proof (Forall_lookup_1 _ _ _ _ He Hy) as ?. rewrite <- R3 in Hy.
      by apply manifest_export_sound in Hy as (_ & _ & _ & ? & ?).
    + apply Forall_lookup. intros i y Hy. pose proof (Forall_lookup_1 _ _ _ _ Him Hy) as [? ?]. rewrite <- R4 in Hy.
      by apply manifest_import_sound in Hy as (_ & _ & _ & ? & ? & ? & ? & ?).
    + eapply rows_forall; [exact R5 |]. intros i y Hy. by apply manifest_resource_sound in Hy as (_ & _ & ?).
    + apply Forall_lookup. intros i y Hy. pose proof (Forall_lookup_1 _ _ _ _ Hb Hy) as ?. rewrite <- R6 in Hy.
      by apply manifest_binding_sound in Hy as (_ & _ & ? & _).
Qed.
