(* ===== verification/ClosureManifestWire.v ===== *)
(** Closure manifests on the wire: what the encoder writes, field by field, and that
    decoding it gives the manifest back. *)

From Stdlib Require Import ZArith Lia.
From stdpp Require Import base numbers tactics sets list_numbers list.
From S2P Require Import Prelude Bytes Layout Tables Sorted Protocol ProtocolSpec ClosureLayout.
From S2P Require Import ClosureManifest ClosureManifestSpec.

Open Scope Z_scope.
Open Scope kobox_scope.

(** * Tables of records with strings

    A record refers to strings that are laid one after another in the string table
    from a cursor on: [recf c y] are the fields of the record of [y] when its strings
    start at [c], [textf c y] the strings themselves, [len y] their size. *)

Section Records.
Context {T : Type} (recf textf : Z -> T -> list field) (len : T -> Z).

Fixpoint records (c : Z) (items : list T) : list (list field) :=
  match items with [] => [] | y :: items => recf c y :: records (c + len y) items end.

Fixpoint texts (c : Z) (items : list T) : list field :=
  match items with [] => [] | y :: items => textf c y ++ texts (c + len y) items end.

Fixpoint text_total (items : list T) : Z :=
  match items with [] => 0 | y :: items => len y + text_total items end.

(** The place of the strings of item [i]. *)
Definition text_at (c : Z) (items : list T) (i : nat) : Z := c + text_total (take i items).

Lemma length_records c items : length (records c items) = length items.
Proof. revert c. induction items as [|y items IH]; intros c; [done |]. cbn. by rewrite IH. Qed.

Lemma records_lookup c items i y : items !! i = Some y -> records c items !! i = Some (recf (text_at c items i) y).
Proof.
  revert c i. induction items as [|z items IH]; intros c [|i]; cbn; try done.
  - intros [= ->]. unfold text_at. cbn. by rewrite Z.add_0_r.
  - intros Hi. rewrite (IH _ _ Hi). unfold text_at. cbn. by rewrite Z.add_assoc.
Qed.

Lemma texts_lookup c items i y f : items !! i = Some y -> f ∈ textf (text_at c items i) y -> f ∈ texts c items.
Proof.
  revert c i. induction items as [|z items IH]; intros c [|i]; cbn [lookup list_lookup texts]; try done.
  - intros [= ->]. unfold text_at. cbn. rewrite Z.add_0_r. intros Hf. apply elem_of_app. by left.
  - intros Hi Hf. apply elem_of_app. right. apply (IH _ _ Hi). unfold text_at in *. cbn in Hf. by rewrite Z.add_assoc in Hf.
Qed.

Lemma text_total_nonneg items : Forall (fun y => 0 <= len y) items -> 0 <= text_total items.
Proof. induction 1; cbn; lia. Qed.

Lemma text_at_range items i y c :
  Forall (fun y => 0 <= len y) items -> items !! i = Some y ->
  c <= text_at c items i /\ text_at c items i + len y <= c + text_total items.
Proof.
  intros Hl. unfold text_at. revert c i. induction Hl as [|z items Hz Hl IH]; intros c [|i]; cbn; try done.
  - intros [= ->]. pose proof (text_total_nonneg items Hl). lia.
  - intros Hi. specialize (IH c i Hi). lia.
Qed.

Lemma texts_tiled c items :
  (forall c y, y ∈ items -> tiled c (c + len y) (textf c y) []) -> tiled c (c + text_total items) (texts c items) [].
Proof.
  revert c. induction items as [|y items IH]; intros c Ht; cbn [texts text_total].
  - rewrite Z.add_0_r. apply tiled_nil.
  - apply (tiled_app c (c + len y) _ _ [] _ []); [apply Ht; by left |].
    rewrite Z.add_assoc. apply IH. intros c' z Hz. apply Ht. by right.
Qed.

(** An encoder of one record at [record], its strings at [strings + c]. *)
Definition encodes (encode : Z -> T -> list Z * Z -> list Z * Z) (strings : Z) (y : T) : Prop :=
  forall record c, 0 <= c -> c + len y < 2 ^ 32 ->
  exists fs, fs ≡ₚ (shift record <$> recf c y) ++ (shift strings <$> textf c y) /\
    forall b, encode record y (b, c) = (put_fields b 0 fs, c + len y).

Lemma encode_records_fields encode strings size base items c :
  Forall (encodes encode strings) items -> Forall (fun y => 0 <= len y) items ->
  0 <= c -> c + text_total items < 2 ^ 32 ->
  exists fs, fs ≡ₚ table base size (records c items) ++ (shift strings <$> texts c items) /\
    forall b, encode_records encode size base items (b, c) = (put_fields b 0 fs, c + text_total items).
Proof.
  intros He Hl. revert base c. induction He as [|y items Hy _ IH]; intros base c Hc Ht; cbn [text_total] in *.
  - exists []. split; [done |]. intros b. cbn. by rewrite Z.add_0_r.
  - apply Forall_cons in Hl as [Hly Hl]. pose proof (text_total_nonneg items Hl).
    destruct (Hy base c) as (f1 & P1 & E1); [done | lia |].
    destruct (IH Hl (base + size) (c + len y)) as (f2 & P2 & E2); [lia | lia |].
    exists (f1 ++ f2). split.
    + cbn [records texts table]. rewrite P1, P2, fmap_app. solve_Permutation.
    + intros b. cbn [encode_records]. rewrite E1, E2, put_fields_app. f_equal. lia.
Qed.
End Records.

(** * Strings *)

(** The string in the table at [c], and the offset the record has for it. *)
Definition string_text (c : Z) (s : kb2_closure_string) : list field :=
  if st_length s =? 0 then [] else [Raw c (st_length s) (default [] (st_data s))].
Definition string_ref (c : Z) (s : kb2_closure_string) : Z := if st_length s =? 0 then 0 else c.

Lemma string_length_range s : string_typed s -> 0 <= st_length s < 2 ^ 32.
Proof.
  unfold string_typed. destruct (st_data s) as [l |]; [intros (_ & _ & _ & H); exact H | intros ->; lia].
Qed.

Lemma string_text_tiled c s : string_typed s -> tiled c (c + st_length s) (string_text c s) [].
Proof.
  intros Ht. pose proof (string_length_range s Ht) as Hl. unfold string_text.
  destruct (Z.eqb_spec (st_length s) 0) as [-> | Hne]; [rewrite Z.add_0_r; apply tiled_nil |].
  split; [lia | | by repeat constructor | |].
  - intros f. cbn [app]. intros ->%list_elem_of_singleton. cbn. lia.
  - by intros f g ?%elem_of_nil.
  - intros j Hj. eexists. split; [by apply list_elem_of_singleton | cbn; lia].
Qed.

Lemma string_text_typed c s : string_typed s -> Forall field_typed (string_text c s).
Proof.
  unfold string_typed, string_text. intros Ht. destruct (Z.eqb_spec (st_length s) 0) as [E | E]; [constructor |].
  apply Forall_singleton. cbn. destruct (st_data s) as [l |]; [by destruct Ht as (_ & ? & ? & _) | done].
Qed.

Lemma store_string_reference_fields record o1 o2 strings s b c :
  string_typed s -> 0 <= c -> c + st_length s < 2 ^ 32 ->
  store_string_reference record o1 o2 strings s (b, c) =
  (put_fields b 0 ((shift strings <$> string_text c s) ++ [U32 (record + o1) (string_ref c s); U32 (record + o2) (st_length s)]),
   c + st_length s).
Proof.
  intros Ht Hc Hl. pose proof (string_length_range s Ht) as Hr.
  unfold store_string_reference, string_text, string_ref, append_string.
  destruct (Z.eqb_spec (st_length s) 0) as [E | E]; cbn [fmap list_fmap app put_fields put_field shift]; rewrite !Z.add_0_l.
  - rewrite E. by rewrite Z.add_0_r.
  - rewrite u32_small by (unfold is_u32; lia). do 4 f_equal. rewrite take_ge; [done |].
    unfold string_typed in Ht. destruct (st_data s) as [l |]; cbn; [| lia]. destruct Ht as (_ & Hb & _). unfold blen in Hb. lia.
Qed.

(** * The record of each table *)

Definition artifact_text_size (a : kb2_closure_manifest_artifact_t) : Z :=
  st_length (ma_namespace_name a) + st_length (ma_init_symbol a) + st_length (ma_quiesce_symbol a) + st_length (ma_cleanup_symbol a).
Definition artifact_at (c : Z) (a : kb2_closure_manifest_artifact_t) : list field :=
  let c1 := c + st_length (ma_namespace_name a) in let c2 := c1 + st_length (ma_init_symbol a) in
  let c3 := c2 + st_length (ma_quiesce_symbol a) in
  artifact_record (string_ref c (ma_namespace_name a)) (string_ref c1 (ma_init_symbol a))
    (string_ref c2 (ma_quiesce_symbol a)) (string_ref c3 (ma_cleanup_symbol a)) a.
Definition artifact_text (c : Z) (a : kb2_closure_manifest_artifact_t) : list field :=
  let c1 := c + st_length (ma_namespace_name a) in let c2 := c1 + st_length (ma_init_symbol a) in
  let c3 := c2 + st_length (ma_quiesce_symbol a) in
  string_text c (ma_namespace_name a) ++ string_text c1 (ma_init_symbol a) ++
  string_text c2 (ma_quiesce_symbol a) ++ string_text c3 (ma_cleanup_symbol a).

Definition export_text_size (e : kb2_closure_manifest_symbol) : Z := st_length (my_name e).
Definition export_at (c : Z) (e : kb2_closure_manifest_symbol) : list field := export_record (string_ref c (my_name e)) e.
Definition export_text (c : Z) (e : kb2_closure_manifest_symbol) : list field := string_text c (my_name e).

Definition import_text_size (i : kb2_closure_manifest_import_t) : Z :=
  st_length (mi_consumer_name i) + st_length (mi_provider_name i).
Definition import_at (c : Z) (i : kb2_closure_manifest_import_t) : list field :=
  import_record (string_ref c (mi_consumer_name i)) (string_ref (c + st_length (mi_consumer_name i)) (mi_provider_name i)) i.
Definition import_text (c : Z) (i : kb2_closure_manifest_import_t) : list field :=
  string_text c (mi_consumer_name i) ++ string_text (c + st_length (mi_consumer_name i)) (mi_provider_name i).

Definition no_size {T} (_ : T) : Z := 0.
Definition no_text {T} (_ : Z) (_ : T) : list field := [].

Lemma encode_artifact_fields strings a :
  artifact_typed a -> encodes artifact_at artifact_text artifact_text_size (encode_artifact strings) strings a.
Proof.
  intros [_ _ _ _ _ T1 T2 T3 T4] record c Hc Hl. unfold artifact_text_size in *.
  pose proof (string_length_range _ T1). pose proof (string_length_range _ T2). pose proof (string_length_range _ T3).
  pose proof (string_length_range _ T4). set (n1 := st_length (ma_namespace_name a)) in *.
  set (n2 := st_length (ma_init_symbol a)) in *. set (n3 := st_length (ma_quiesce_symbol a)) in *.
  set (n4 := st_length (ma_cleanup_symbol a)) in *.
  eexists. split; [| intros b; unfold encode_artifact; rewrite !store_string_reference_fields by (done || lia)].
  2: { rewrite (put_fields_shift b record), <- !put_fields_app. f_equal. fold n1 n2 n3 n4. lia. }
  unfold artifact_at, artifact_text. fold n1 n2 n3 n4. rewrite !fmap_app. cbn [fmap list_fmap artifact_record shift].
  generalize (shift strings <$> string_text c (ma_namespace_name a)), (shift strings <$> string_text (c + n1) (ma_init_symbol a)),
    (shift strings <$> string_text (c + n1 + n2) (ma_quiesce_symbol a)),
    (shift strings <$> string_text (c + n1 + n2 + n3) (ma_cleanup_symbol a)). intros t1 t2 t3 t4.
  unfold KB2_CLOSURE_ARTIFACT_DESCRIPTOR_NODE_ID_OFFSET. cbn [app].
  solve_Permutation.
Qed.

Lemma encode_export_fields strings e :
  export_typed e -> encodes export_at export_text export_text_size (encode_export strings) strings e.
Proof.
  intros (_ & _ & T1) record c Hc Hl. unfold export_text_size in *. eexists.
  split; [| intros b; unfold encode_export; cbn [fst snd]; rewrite store_string_reference_fields by (done || lia);
    rewrite (put_fields_shift b record), <- put_fields_app; reflexivity].
  unfold export_at, export_text. cbn [fmap list_fmap export_record shift app]. solve_Permutation.
Qed.

Lemma encode_import_fields strings i :
  import_typed i -> encodes import_at import_text import_text_size (encode_import strings) strings i.
Proof.
  intros [_ _ _ _ T1 T2] record c Hc Hl. unfold import_text_size in *.
  pose proof (string_length_range _ T1). pose proof (string_length_range _ T2). eexists.
  split; [| intros b; unfold encode_import; cbn [fst snd]; rewrite !store_string_reference_fields by (done || lia);
    rewrite (put_fields_shift b record), <- !put_fields_app, Z.add_assoc; reflexivity].
  unfold import_at, import_text. rewrite fmap_app. cbn [fmap list_fmap import_record shift app].
  generalize (shift strings <$> string_text c (mi_consumer_name i)),
    (shift strings <$> string_text (c + st_length (mi_consumer_name i)) (mi_provider_name i)). intros t1 t2.
  solve_Permutation.
Qed.

(** Records without strings are written as they are. *)
Lemma encode_plain_fields {T} (recf : T -> list field) (encode : Z -> T -> list Z * Z -> list Z * Z) strings y :
  (forall record b c, encode record y (b, c) = (put_fields b record (recf y), c)) ->
  encodes (fun _ => recf) no_text no_size encode strings y.
Proof.
  intros He record c Hc Hl. exists (shift record <$> recf y). split; [by rewrite app_nil_r |].
  intros b. rewrite He, put_fields_shift. unfold no_size. by rewrite Z.add_0_r.
Qed.

(** * The fields of an encoded manifest *)

Definition artifact_base : Z := 128.
Definition dependency_base (x : manifest_value) : Z := artifact_base + 96 * Z.of_nat (length (mv_artifacts x)).
Definition export_base (x : manifest_value) : Z := dependency_base x + 8 * Z.of_nat (length (mv_dependencies x)).
Definition import_base (x : manifest_value) : Z := export_base x + 16 * Z.of_nat (length (mv_exports x)).
Definition resource_base (x : manifest_value) : Z := import_base x + 32 * Z.of_nat (length (mv_imports x)).
Definition binding_base (x : manifest_value) : Z := resource_base x + 72 * Z.of_nat (length (mv_resources x)).
Definition string_base (x : manifest_value) : Z := binding_base x + 8 * Z.of_nat (length (mv_bindings x)).

Definition export_cursor (x : manifest_value) : Z := text_total artifact_text_size (mv_artifacts x).
Definition import_cursor (x : manifest_value) : Z := export_cursor x + text_total export_text_size (mv_exports x).
Definition text_size (x : manifest_value) : Z := import_cursor x + text_total import_text_size (mv_imports x).

Definition manifest_wire_size (x : manifest_value) : Z := string_base x + text_size x.

Definition manifest_header (x : manifest_value) : list field :=
  [U32 0 (manifest_wire_size x); Raw 4 4 KB2_CLOSURE_ABI_IDENTITY_BYTES; Raw 8 32 KB2_CLOSURE_SCHEMA_SHA256_BYTES;
   U32 40 (Z.of_nat (length (mv_artifacts x))); U32 64 artifact_base;
   U32 44 (Z.of_nat (length (mv_dependencies x))); U32 68 (dependency_base x);
   U32 48 (Z.of_nat (length (mv_exports x))); U32 72 (export_base x);
   U32 52 (Z.of_nat (length (mv_imports x))); U32 76 (import_base x);
   U32 56 (Z.of_nat (length (mv_resources x))); U32 80 (resource_base x);
   U32 60 (Z.of_nat (length (mv_bindings x))); U32 84 (binding_base x);
   U32 88 (string_base x); U32 92 (text_size x)].
Definition manifest_header_reserved : list field := [Raw 96 32 (replicate 32 0)].

(** The six tables and, after them, the strings. *)
Definition manifest_body (x : manifest_value) (strings : list field) : list field :=
  table artifact_base 96 (records artifact_at artifact_text_size 0 (mv_artifacts x)) ++
  (table (dependency_base x) 8 (records (fun _ => dependency_record) no_size 0 (mv_dependencies x)) ++
   (table (export_base x) 16 (records export_at export_text_size (export_cursor x) (mv_exports x)) ++
    (table (import_base x) 32 (records import_at import_text_size (import_cursor x) (mv_imports x)) ++
     (table (resource_base x) 72 (records (fun _ => resource_record) no_size 0 (mv_resources x)) ++
      (table (binding_base x) 8 (records (fun _ => manifest_binding_record) no_size 0 (mv_bindings x)) ++ strings))))).

Definition manifest_texts (x : manifest_value) : list field :=
  texts artifact_text artifact_text_size 0 (mv_artifacts x) ++
  (texts export_text export_text_size (export_cursor x) (mv_exports x) ++
   texts import_text import_text_size (import_cursor x) (mv_imports x)).

Definition manifest_written (x : manifest_value) : list field :=
  manifest_header x ++ manifest_body x (shift (string_base x) <$> manifest_texts x).

Definition reserved_rows {T} (reserved : list field) (items : list T) : list (list field) := (fun _ => reserved) <$> items.

Definition manifest_reserved (x : manifest_value) : list field :=
  manifest_header_reserved ++
  (table artifact_base 96 (reserved_rows artifact_reserved (mv_artifacts x)) ++
   (table (dependency_base x) 8 (reserved_rows [] (mv_dependencies x)) ++
    (table (export_base x) 16 (reserved_rows [] (mv_exports x)) ++
     (table (import_base x) 32 (reserved_rows [] (mv_imports x)) ++
      (table (resource_base x) 72 (reserved_rows resource_reserved (mv_resources x)) ++
       (table (binding_base x) 8 (reserved_rows [] (mv_bindings x)) ++ [])))))).

(** ** The layout tiles the message *)

Lemma records_tiled {T} (recf : Z -> T -> list field) len c base size reserved (items : list T) :
  0 <= size -> (forall c y, tiled 0 size (recf c y) reserved) ->
  tiled base (base + size * Z.of_nat (length items)) (table base size (records recf len c items))
    (table base size (reserved_rows reserved items)).
Proof.
  intros Hs Ht. rewrite <- (length_records recf len c items). apply tiled_table; [done |].
  revert c. induction items as [|y items IH]; intros c; constructor; [apply Ht | apply IH].
Qed.

Lemma artifact_text_tiled c a : artifact_typed a -> tiled c (c + artifact_text_size a) (artifact_text c a) [].
Proof.
  intros [_ _ _ _ _ T1 T2 T3 T4]. unfold artifact_text, artifact_text_size. cbv zeta. rewrite !Z.add_assoc.
  apply (tiled_app _ _ _ _ [] _ []) with (2 := tiled_app _ _ _ _ [] _ [] (string_text_tiled _ _ T2)
    (tiled_app _ _ _ _ [] _ [] (string_text_tiled _ _ T3) (string_text_tiled _ _ T4))).
  by apply string_text_tiled.
Qed.

Lemma import_text_tiled c i : import_typed i -> tiled c (c + import_text_size i) (import_text c i) [].
Proof.
  intros [_ _ _ _ T1 T2]. unfold import_text, import_text_size. rewrite Z.add_assoc.
  by apply (tiled_app _ _ _ _ [] _ []) with (1 := string_text_tiled _ _ T1), string_text_tiled.
Qed.

Lemma manifest_texts_tiled x : manifest_typed x -> tiled 0 (text_size x) (manifest_texts x) [].
Proof.
  intros [T1 _ T3 T4 _ _]. rewrite Forall_forall in T1. rewrite Forall_forall in T3. rewrite Forall_forall in T4. unfold manifest_texts, text_size.
  apply (tiled_app 0 (export_cursor x) _ _ [] _ []).
  { apply (texts_tiled _ _ 0). intros c y Hy. by apply artifact_text_tiled, T1. }
  apply (tiled_app _ (import_cursor x) _ _ [] _ []).
  - apply texts_tiled. intros c y Hy. apply string_text_tiled. by destruct (T3 y Hy) as (_ & _ & ?).
  - apply texts_tiled. intros c y Hy. by apply import_text_tiled, T4.
Qed.

Lemma manifest_tiled x : manifest_typed x -> tiled 0 (manifest_wire_size x) (manifest_written x) (manifest_reserved x).
Proof.
  intros Ht. unfold manifest_written, manifest_body, manifest_reserved. apply (tiled_app 0 artifact_base).
  { apply tiled_record; [done | vm_compute; reflexivity | vm_compute; reflexivity | vm_compute; reflexivity]. }
  apply (tiled_app _ (dependency_base x)); [apply records_tiled; [done |] |].
  { intros c y. apply tiled_record; done || vm_compute; reflexivity. }
  apply (tiled_app _ (export_base x)); [apply records_tiled; [done |] |].
  { intros c y. apply tiled_record; done || vm_compute; reflexivity. }
  apply (tiled_app _ (import_base x)); [apply records_tiled; [done |] |].
  { intros c y. apply tiled_record; done || vm_compute; reflexivity. }
  apply (tiled_app _ (resource_base x)); [apply records_tiled; [done |] |].
  { intros c y. apply tiled_record; done || vm_compute; reflexivity. }
  apply (tiled_app _ (binding_base x)); [apply records_tiled; [done |] |].
  { intros c y. apply tiled_record; done || vm_compute; reflexivity. }
  apply (tiled_app _ (string_base x)); [apply records_tiled; [done |] |].
  { intros c y. apply tiled_record; done || vm_compute; reflexivity. }
  pose proof (tiled_shift 0 _ (string_base x) _ _ (manifest_texts_tiled x Ht)) as Hs. rewrite Z.add_0_r in Hs. exact Hs.
Qed.

(** ** Sizes *)

(** What the encoder asks of a manifest: the table sizes, and names where strings are
    needed. *)
Record manifest_encodable (x : manifest_value) : Prop := {
  me_sizes : table_sizes_ok x;
  me_artifacts : Forall (fun a => name_ok (ma_namespace_name a) /\ lifecycle_ok (ma_flags a) (ma_init_symbol a) /\
    lifecycle_ok (ma_flags a) (ma_quiesce_symbol a) /\ lifecycle_ok (ma_flags a) (ma_cleanup_symbol a)) (mv_artifacts x);
  me_exports : Forall (fun e => name_ok (my_name e)) (mv_exports x);
  me_imports : Forall (fun i => name_ok (mi_consumer_name i) /\ name_ok (mi_provider_name i)) (mv_imports x);
  me_resources : Forall (fun r => mr_interface_schema_digest r <> zero_interface) (mv_resources x);
}.

Lemma manifest_ok_encodable x : manifest_ok x -> manifest_encodable x.
Proof.
  intros [Hs _ _ Ha _ He Hi Hr _]. split; [done | ..].
  - eapply Forall_impl; [exact Ha |]. by intros a [].
  - eapply Forall_impl; [exact He |]. by intros e (_ & _ & ?).
  - eapply Forall_impl; [exact Hi |]. by intros i [].
  - eapply Forall_impl; [exact Hr |]. by intros r [].
Qed.

Lemma lifecycle_ok_length flags s : lifecycle_ok flags s -> 0 <= st_length s <= 127.
Proof.
  unfold lifecycle_ok. destruct (native flags); [intros ->; cbn; lia |]. intros ?%name_ok_length. lia.
Qed.

Lemma text_total_bound {T} (len : T -> Z) k items :
  Forall (fun y => 0 <= len y <= k) items -> 0 <= text_total len items <= k * Z.of_nat (length items).
Proof. induction 1; cbn [text_total length]; lia. Qed.

Lemma manifest_text_bounds x :
  manifest_encodable x ->
  0 <= export_cursor x <= 508 * Z.of_nat (length (mv_artifacts x)) /\
  0 <= text_total export_text_size (mv_exports x) <= 127 * Z.of_nat (length (mv_exports x)) /\
  0 <= text_total import_text_size (mv_imports x) <= 254 * Z.of_nat (length (mv_imports x)).
Proof.
  intros [_ Ha He Hi _]. unfold export_cursor. split; [| split]; apply text_total_bound.
  - eapply Forall_impl; [exact Ha |]. intros a (H1%name_ok_length & H2%lifecycle_ok_length & H3%lifecycle_ok_length &
      H4%lifecycle_ok_length). unfold artifact_text_size. lia.
  - eapply Forall_impl; [exact He |]. intros e H1%name_ok_length. unfold export_text_size. lia.
  - eapply Forall_impl; [exact Hi |]. intros i (H1%name_ok_length & H2%name_ok_length). unfold import_text_size. lia.
Qed.

Definition artifact_names (a : kb2_closure_manifest_artifact_t) : Prop :=
  name_ok (ma_namespace_name a) /\ lifecycle_ok (ma_flags a) (ma_init_symbol a) /\
  lifecycle_ok (ma_flags a) (ma_quiesce_symbol a) /\ lifecycle_ok (ma_flags a) (ma_cleanup_symbol a).

Lemma string_absent s : string_typed s -> st_length s = 0 <-> s = no_string.
Proof.
  destruct s as [[l |] n]; unfold string_typed; cbn; [| by intros ->]. intros (Hl & Hb & _ & _).
  split; [| done]. intros ->. destruct l; [done | unfold blen in Hb; cbn in Hb; lia].
Qed.

Lemma add_size_one size n : 0 <= size -> 0 <= n < 2 ^ 32 -> size < 2 ^ 63 -> add_size size 1 n = Some (size + n).
Proof. intros. rewrite add_size_small by (unfold SIZE_MAX, U64_MAX; lia). f_equal. lia. Qed.

Lemma artifact_string_size_ok size a :
  artifact_typed a -> artifact_names a -> 0 <= size < 2 ^ 40 -> artifact_string_size size a = Some (size + artifact_text_size a).
Proof.
  intros [_ _ _ _ _ T1 T2 T3 T4] (N1 & N2 & N3 & N4) Hs. unfold artifact_string_size, artifact_text_size.
  pose proof (string_length_range _ T1). pose proof (string_length_range _ T2). pose proof (string_length_range _ T3).
  pose proof (string_length_range _ T4). rewrite (proj2 (name_ok_string _ T1) N1). cbn [negb orb].
  assert (Hc : (if native (ma_flags a)
    then negb (st_length (ma_init_symbol a) =? 0) || negb (st_length (ma_quiesce_symbol a) =? 0) ||
         negb (st_length (ma_cleanup_symbol a) =? 0)
    else negb (string_valid (ma_init_symbol a)) || negb (string_valid (ma_quiesce_symbol a)) ||
         negb (string_valid (ma_cleanup_symbol a))) = false).
  { unfold lifecycle_ok in *. destruct (native (ma_flags a)).
    - apply string_absent in N2, N3, N4; [| done ..]. by rewrite N2, N3, N4.
    - by rewrite (proj2 (name_ok_string _ T2) N2), (proj2 (name_ok_string _ T3) N3), (proj2 (name_ok_string _ T4) N4). }
  rewrite Hc. rewrite add_size_one by lia. cbn [mbind option_bind]. rewrite add_size_one by lia. cbn [mbind option_bind].
  rewrite add_size_one by lia. cbn [mbind option_bind]. rewrite add_size_one by lia. f_equal. lia.
Qed.

Lemma artifact_string_size_names size a r : artifact_typed a -> artifact_string_size size a = Some r -> artifact_names a.
Proof.
  intros [_ _ _ _ _ T1 T2 T3 T4]. unfold artifact_string_size. destruct (_ || _) eqn:E; [done |]. intros _.
  rewrite orb_false_iff, negb_false_iff, name_ok_string in E by done. destruct E as [E1 E2]. split; [done |].
  unfold lifecycle_ok. destruct (native (ma_flags a)); rewrite !orb_false_iff, !negb_false_iff in E2; destruct E2 as [[E2 E3] E4].
  - split_and!; apply string_absent; try done; lia.
  - by rewrite name_ok_string in E2, E3, E4.
Qed.

Lemma fold_size_ok {T} (f : Z -> T -> option Z) (len : T -> Z) k size items :
  (forall s y, y ∈ items -> 0 <= s < 2 ^ 40 -> f s y = Some (s + len y)) -> Forall (fun y => 0 <= len y <= k) items ->
  0 <= size -> size + k * Z.of_nat (length items) < 2 ^ 40 -> fold_size f size items = Some (size + text_total len items).
Proof.
  intros Hf Hl. revert size. induction Hl as [|y items Hy Hl IH]; intros size Hs Hb; cbn [fold_size text_total].
  { f_equal. lia. }
  assert (0 <= k * Z.of_nat (length items)) by nia. cbn [length] in Hb. rewrite Nat2Z.inj_succ, Z.mul_succ_r in Hb.
  rewrite Hf by (try (by left); lia). cbn [mbind option_bind].
  rewrite IH; [f_equal; lia | | lia | lia]. intros s z Hz. apply Hf. by right.
Qed.

Lemma fold_size_inv {T} (f : Z -> T -> option Z) (P : T -> Prop) size items r :
  (forall s y r, y ∈ items -> f s y = Some r -> P y) -> fold_size f size items = Some r -> Forall P items.
Proof.
  revert size. induction items as [|y items IH]; intros size Hf; cbn [fold_size]; [constructor |].
  intros (s & Hs & H)%bind_Some. constructor; [eapply Hf; [by left | exact Hs] |].
  eapply IH; [| exact H]. intros s' z r' Hz. apply Hf. by right.
Qed.

Definition manifest_source (x : manifest_value) : kb2_closure_manifest_source :=
  mkManifestSource (Some (mv_artifacts x)) (Z.of_nat (length (mv_artifacts x)))
    (Some (mv_dependencies x)) (Z.of_nat (length (mv_dependencies x))) (Some (mv_exports x)) (Z.of_nat (length (mv_exports x)))
    (Some (mv_imports x)) (Z.of_nat (length (mv_imports x))) (Some (mv_resources x)) (Z.of_nat (length (mv_resources x)))
    (Some (mv_bindings x)) (Z.of_nat (length (mv_bindings x))).

Lemma manifest_source_items x :
  source_artifacts (manifest_source x) = mv_artifacts x /\ source_dependencies (manifest_source x) = mv_dependencies x /\
  source_exports (manifest_source x) = mv_exports x /\ source_imports (manifest_source x) = mv_imports x /\
  source_resources (manifest_source x) = mv_resources x /\ source_bindings (manifest_source x) = mv_bindings x.
Proof.
  unfold source_artifacts, source_dependencies, source_exports, source_imports, source_resources, source_bindings, array_items.
  cbn. rewrite !Nat2Z.id. by rewrite !take_ge.
Qed.

(** The size computation accepts exactly the encodable manifests. *)
Lemma source_string_size_ok x :
  manifest_typed x -> manifest_encodable x -> source_string_size (manifest_source x) = Some (text_size x).
Proof.
  intros [T1 _ T3 T4 _ _] He. pose proof (manifest_text_bounds x He) as (B1 & B2 & B3).
  destruct He as [[? _ ? ? _ _] Ha Hex Hi _]. unfold KB2_CLOSURE_MAX_ARTIFACTS, KB2_CLOSURE_MAX_EXPORTS, KB2_CLOSURE_MAX_IMPORTS in *.
  unfold source_string_size. destruct (manifest_source_items x) as (-> & _ & -> & -> & _).
  rewrite (fold_size_ok _ artifact_text_size 508); [| | | lia | lia].
  2: { intros s y Hy Hs. rewrite Forall_forall in T1. rewrite Forall_forall in Ha. apply artifact_string_size_ok; auto. by apply Ha. }
  2: { eapply Forall_impl; [exact Ha |]. intros a (H1%name_ok_length & H2%lifecycle_ok_length & H3%lifecycle_ok_length &
         H4%lifecycle_ok_length). unfold artifact_text_size. lia. }
  cbn [mbind option_bind]. rewrite Z.add_0_l. fold (export_cursor x).
  rewrite (fold_size_ok _ export_text_size 127); [| | | lia | lia].
  2: { intros s y Hy Hs. rewrite Forall_forall in Hex. rewrite Forall_forall in T3. destruct (T3 y Hy) as (_ & _ & Ht).
       pose proof (string_length_range _ Ht). unfold export_string_size, export_text_size.
       rewrite (proj2 (name_ok_string _ Ht) (Hex y Hy)). cbn [negb]. apply add_size_one; lia. }
  2: { eapply Forall_impl; [exact Hex |]. intros e H1%name_ok_length. unfold export_text_size. lia. }
  cbn [mbind option_bind]. fold (import_cursor x).
  rewrite (fold_size_ok _ import_text_size 254); [| | | unfold import_cursor; lia | unfold import_cursor; lia].
  2: { intros s y Hy Hs. rewrite Forall_forall in Hi. rewrite Forall_forall in T4. destruct (T4 y Hy) as [_ _ _ _ Ht1 Ht2].
       destruct (Hi y Hy) as [Hn1 Hn2]. pose proof (string_length_range _ Ht1). pose proof (string_length_range _ Ht2).
       unfold import_string_size, import_text_size.
       rewrite (proj2 (name_ok_string _ Ht1) Hn1), (proj2 (name_ok_string _ Ht2) Hn2). cbn [negb orb].
       rewrite add_size_one by lia. cbn [mbind option_bind]. rewrite add_size_one by lia. f_equal. lia. }
  2: { eapply Forall_impl; [exact Hi |]. intros i (H1%name_ok_length & H2%name_ok_length). unfold import_text_size. lia. }
  cbn [mbind option_bind]. fold (text_size x). rewrite (proj2 (Z.leb_le _ _)); [done |].
  unfold text_size, import_cursor, U32_MAX. lia.
Qed.

Lemma source_string_size_names x r :
  manifest_typed x -> source_string_size (manifest_source x) = Some r ->
  Forall artifact_names (mv_artifacts x) /\ Forall (fun e => name_ok (my_name e)) (mv_exports x) /\
  Forall (fun i => name_ok (mi_consumer_name i) /\ name_ok (mi_provider_name i)) (mv_imports x).
Proof.
  intros [T1 _ T3 T4 _ _]. rewrite Forall_forall in T1. rewrite Forall_forall in T3. rewrite Forall_forall in T4.
  unfold source_string_size. destruct (manifest_source_items x) as (-> & _ & -> & -> & _).
  intros (s1 & F1 & H)%bind_Some. apply bind_Some in H as (s2 & F2 & H). apply bind_Some in H as (s3 & F3 & _). split_and!.
  - eapply fold_size_inv; [| exact F1]. intros s y r' Hy. apply artifact_string_size_names. by apply T1.
  - eapply fold_size_inv; [| exact F2]. intros s y r' Hy. destruct (T3 y Hy) as (_ & _ & Ht). unfold export_string_size.
    destruct (string_valid (my_name y)) eqn:E; [| done]. intros _. by apply name_ok_string.
  - eapply fold_size_inv; [| exact F3]. intros s y r' Hy. destruct (T4 y Hy) as [_ _ _ _ Ht1 Ht2]. unfold import_string_size.
    destruct (string_valid (mi_consumer_name y)) eqn:E1; [| done]. destruct (string_valid (mi_provider_name y)) eqn:E2; [| done].
    intros _. split; by apply name_ok_string.
Qed.

Lemma manifest_source_valid x :
  manifest_typed x -> source_valid (Some (manifest_source x)) = true <->
  table_sizes_ok x /\ Forall (fun r => mr_interface_schema_digest r <> zero_interface) (mv_resources x).
Proof.
  intros [_ _ _ _ T5 _]. unfold source_valid. destruct (manifest_source_items x) as (_ & _ & _ & _ & -> & _).
  cbn [manifest_source ms_artifacts ms_dependencies ms_exports ms_imports ms_resources ms_bindings ms_artifact_count
    ms_dependency_count ms_export_count ms_import_count ms_resource_count ms_binding_count].
  rewrite !(bool_decide_eq_false_2 (Some _ = None)) by done. rewrite !andb_false_r, !orb_false_r, !orb_false_l.
  assert (Hz : forallb (fun r => negb (digest_is_zero (mr_interface_schema_digest r))) (mv_resources x) = true <->
    Forall (fun r => mr_interface_schema_digest r <> zero_interface) (mv_resources x)).
  { rewrite forallb_forall, Forall_forall. rewrite Forall_forall in T5. split; intros H r Hr.
    - destruct (T5 r Hr) as [_ _ _ _ _ _ _ Hd]. specialize (H r ltac:(by apply list_elem_of_In)).
      apply negb_true_iff, not_true_iff_false in H. by rewrite interface_is_zero_spec in H.
    - apply list_elem_of_In in Hr. destruct (T5 r Hr) as [_ _ _ _ _ _ _ Hd].
      apply negb_true_iff, not_true_iff_false. rewrite interface_is_zero_spec by done. by apply H. }
  destruct (_ || _) eqn:E.
  - split; [done |]. intros [[] _]. exfalso. lia.
  - rewrite Hz. split; [| by intros [_ ?]]. intros H. split; [| done]. split; lia.
Qed.

Lemma manifest_bases x :
  manifest_encodable x ->
  128 <= dependency_base x <= export_base x /\ export_base x <= import_base x <= resource_base x /\
  resource_base x <= binding_base x <= string_base x /\ string_base x <= manifest_wire_size x < 2 ^ 31 /\
  0 <= export_cursor x <= import_cursor x /\ import_cursor x <= text_size x < 2 ^ 31.
Proof.
  intros He. pose proof (manifest_text_bounds x He) as (B1 & B2 & B3). destruct He as [[] _ _ _ _].
  unfold manifest_wire_size, text_size, import_cursor, string_base, binding_base, resource_base, import_base, export_base,
    dependency_base, artifact_base, KB2_CLOSURE_MAX_ARTIFACTS, KB2_CLOSURE_MAX_DEPENDENCIES, KB2_CLOSURE_MAX_EXPORTS,
    KB2_CLOSURE_MAX_IMPORTS, KB2_CLOSURE_MAX_RESOURCES, KB2_CLOSURE_MAX_RESOURCE_BINDINGS in *. lia.
Qed.

Lemma manifest_size_spec x :
  manifest_typed x -> manifest_encodable x -> manifest_size (manifest_source x) = Some (manifest_wire_size x).
Proof.
  intros Ht He. pose proof (manifest_bases x He) as (B1 & B2 & B3 & B4 & B5 & B6). unfold manifest_size.
  rewrite (source_string_size_ok x Ht He). cbn [mbind option_bind manifest_source ms_artifact_count ms_dependency_count
    ms_export_count ms_import_count ms_resource_count ms_binding_count].
  unfold manifest_wire_size, string_base, binding_base, resource_base, import_base, export_base, dependency_base,
    artifact_base in *.
  change KB2_CLOSURE_MANIFEST_HEADER_SIZE with 128. change KB2_CLOSURE_ARTIFACT_DESCRIPTOR_SIZE with 96.
  change KB2_CLOSURE_DEPENDENCY_DESCRIPTOR_SIZE with 8. change KB2_CLOSURE_SYMBOL_DESCRIPTOR_SIZE with 16.
  change KB2_CLOSURE_IMPORT_DESCRIPTOR_SIZE with 32. change KB2_CLOSURE_RESOURCE_DESCRIPTOR_SIZE with 72.
  change KB2_CLOSURE_RESOURCE_BINDING_SIZE with 8.
  do 7 (rewrite add_size_small by (unfold SIZE_MAX, U64_MAX; lia); cbn [mbind option_bind]).
  rewrite (proj2 (Z.ltb_ge _ _)) by (unfold U32_MAX; lia). f_equal. lia.
Qed.

(** The table headers the encoder computes. *)
Lemma manifest_offsets x :
  manifest_encodable x ->
  table_offsets 128 [u32 (Z.of_nat (length (mv_artifacts x))); u32 (Z.of_nat (length (mv_dependencies x)));
    u32 (Z.of_nat (length (mv_exports x))); u32 (Z.of_nat (length (mv_imports x)));
    u32 (Z.of_nat (length (mv_resources x))); u32 (Z.of_nat (length (mv_bindings x)))] descriptor_sizes =
  [artifact_base; dependency_base x; export_base x; import_base x; resource_base x; binding_base x; string_base x].
Proof.
  intros He. pose proof (manifest_bases x He) as (B1 & B2 & B3 & B4 & B5 & B6). destruct He as [[] _ _ _ _].
  unfold descriptor_sizes, KB2_CLOSURE_MAX_ARTIFACTS, KB2_CLOSURE_MAX_DEPENDENCIES, KB2_CLOSURE_MAX_EXPORTS,
    KB2_CLOSURE_MAX_IMPORTS, KB2_CLOSURE_MAX_RESOURCES, KB2_CLOSURE_MAX_RESOURCE_BINDINGS in *.
  change KB2_CLOSURE_ARTIFACT_DESCRIPTOR_SIZE with 96.
  change KB2_CLOSURE_DEPENDENCY_DESCRIPTOR_SIZE with 8. change KB2_CLOSURE_SYMBOL_DESCRIPTOR_SIZE with 16.
  change KB2_CLOSURE_IMPORT_DESCRIPTOR_SIZE with 32. change KB2_CLOSURE_RESOURCE_DESCRIPTOR_SIZE with 72.
  change KB2_CLOSURE_RESOURCE_BINDING_SIZE with 8. rewrite !(u32_small (Z.of_nat _)) by (unfold is_u32; lia).
  cbn [table_offsets]. rewrite !(u32_small (Z.of_nat _ * _)) by (unfold is_u32; lia).
  unfold string_base, binding_base, resource_base, import_base, export_base, dependency_base, artifact_base in *.
  rewrite !(Z.mul_comm (Z.of_nat _)).
  rewrite (u32_small (128 + _)) by (unfold is_u32; lia). rewrite (u32_small (128 + _ + _)) by (unfold is_u32; lia).
  rewrite (u32_small (128 + _ + _ + _)) by (unfold is_u32; lia). rewrite (u32_small (128 + _ + _ + _ + _)) by (unfold is_u32; lia).
  rewrite (u32_small (128 + _ + _ + _ + _ + _)) by (unfold is_u32; lia).
  by rewrite (u32_small (128 + _ + _ + _ + _ + _ + _)) by (unfold is_u32; lia).
Qed.

(** ** The encoder writes these fields *)

Definition manifest_encoder (b : list Z) (n : Z) (x : manifest_value) : bool * list Z :=
  let '(st, _, out) := kb2_closure_manifest_encode (Some b) n true (Some (manifest_source x)) in status_encoded b st out.

Lemma store_tables_fields b c0 c1 c2 c3 c4 c5 o0 o1 o2 o3 o4 o5 o6 :
  store_tables b [c0; c1; c2; c3; c4; c5] [o0; o1; o2; o3; o4; o5; o6] =
  put_fields b 0 [U32 40 c0; U32 64 o0; U32 44 c1; U32 68 o1; U32 48 c2; U32 72 o2; U32 52 c3; U32 76 o3; U32 56 c4; U32 80 o4;
    U32 60 c5; U32 84 o5].
Proof. reflexivity. Qed.

(** The six loops after the header. *)
Definition encode_tables (x : manifest_value) (b : list Z) : list Z :=
  let s := string_base x in
  (encode_records (encode_binding s) 8 (binding_base x) (mv_bindings x)
    (encode_records (encode_resource s) 72 (resource_base x) (mv_resources x)
      (encode_records (encode_import s) 32 (import_base x) (mv_imports x)
        (encode_records (encode_export s) 16 (export_base x) (mv_exports x)
          (encode_records (encode_dependency s) 8 (dependency_base x) (mv_dependencies x)
            (encode_records (encode_artifact s) 96 artifact_base (mv_artifacts x) (b, 0))))))).1.

Lemma no_size_nonneg {T} (l : list T) : Forall (fun y => 0 <= no_size y) l.
Proof. by apply Forall_true. Qed.
Lemma no_size_total {T} (l : list T) : text_total no_size l = 0.
Proof. induction l as [|y l IH]; [done |]. cbn. by rewrite IH. Qed.
Lemma no_text_texts {T} c (l : list T) : texts no_text no_size c l = [].
Proof. revert c. induction l as [|y l IH]; intros c; [done |]. cbn. apply IH. Qed.

(** Cursors do not matter to records without strings. *)
Lemma records_plain {T} (recf : T -> list field) c (l : list T) :
  records (fun _ => recf) no_size c l = records (fun _ => recf) no_size 0 l.
Proof.
  revert c. assert (H : forall c, records (fun _ => recf) no_size c l = recf <$> l); [| intros c; by rewrite !H].
  induction l as [|y l IH]; intros c; [done |]. cbn. by rewrite IH.
Qed.

Lemma encode_plain_table {T} (recf : T -> list field) encode (strings size base : Z) (l : list T) c :
  (forall record b c y, encode record y (b, c) = (put_fields b record (recf y), c)) -> 0 <= c < 2 ^ 32 ->
  exists fs, fs ≡ₚ table base size (records (fun _ => recf) no_size 0 l) /\
    forall b, encode_records encode size base l (b, c) = (put_fields b 0 fs, c).
Proof.
  intros He Hc. destruct (encode_records_fields (fun _ => recf) no_text no_size encode strings size base l c)
    as (fs & P & E); [| apply no_size_nonneg | lia | rewrite no_size_total; lia |].
  { apply Forall_true. intros y. by apply encode_plain_fields. }
  exists fs. rewrite no_text_texts, app_nil_r, records_plain in P. split; [done |].
  intros b. rewrite E, no_size_total. f_equal. lia.
Qed.

Lemma encode_tables_fields x :
  manifest_typed x -> manifest_encodable x ->
  exists fs, fs ≡ₚ manifest_body x (shift (string_base x) <$> manifest_texts x) /\
    forall b, encode_tables x b = put_fields b 0 fs.
Proof.
  intros Ht He. pose proof (manifest_bases x He) as (_ & _ & _ & _ & B5 & B6). pose proof Ht as [T1 _ T3 T4 _ _].
  set (s := string_base x).
  destruct (encode_records_fields artifact_at artifact_text artifact_text_size (encode_artifact s) s 96 artifact_base
    (mv_artifacts x) 0) as (f1 & P1 & E1); [| | lia | rewrite Z.add_0_l; fold (export_cursor x); lia |].
  { eapply Forall_impl; [exact T1 |]. intros a. apply encode_artifact_fields. }
  { eapply Forall_impl; [exact T1 |]. intros a [_ _ _ _ _ S1 S2 S3 S4]. unfold artifact_text_size.
    pose proof (string_length_range _ S1). pose proof (string_length_range _ S2). pose proof (string_length_range _ S3).
    pose proof (string_length_range _ S4). lia. }
  rewrite Z.add_0_l in E1. fold (export_cursor x) in E1.
  destruct (encode_plain_table dependency_record (encode_dependency s) s 8 (dependency_base x) (mv_dependencies x)
    (export_cursor x)) as (f2 & P2 & E2); [done | lia |].
  destruct (encode_records_fields export_at export_text export_text_size (encode_export s) s 16 (export_base x)
    (mv_exports x) (export_cursor x)) as (f3 & P3 & E3); [| | lia | fold (import_cursor x); lia |].
  { eapply Forall_impl; [exact T3 |]. intros e. apply encode_export_fields. }
  { eapply Forall_impl; [exact T3 |]. intros e (_ & _ & S1). pose proof (string_length_range _ S1). unfold export_text_size. lia. }
  fold (import_cursor x) in E3.
  destruct (encode_records_fields import_at import_text import_text_size (encode_import s) s 32 (import_base x)
    (mv_imports x) (import_cursor x)) as (f4 & P4 & E4); [| | lia | fold (text_size x); lia |].
  { eapply Forall_impl; [exact T4 |]. intros i. apply encode_import_fields. }
  { eapply Forall_impl; [exact T4 |]. intros i [_ _ _ _ S1 S2]. pose proof (string_length_range _ S1).
    pose proof (string_length_range _ S2). unfold import_text_size. lia. }
  fold (text_size x) in E4.
  destruct (encode_plain_table resource_record (encode_resource s) s 72 (resource_base x) (mv_resources x)
    (text_size x)) as (f5 & P5 & E5); [done | lia |].
  destruct (encode_plain_table manifest_binding_record (encode_binding s) s 8 (binding_base x) (mv_bindings x)
    (text_size x)) as (f6 & P6 & E6); [done | lia |].
  exists (f1 ++ f2 ++ f3 ++ f4 ++ f5 ++ f6). split.
  - unfold manifest_body, manifest_texts. rewrite P1, P2, P3, P4, P5, P6, !fmap_app. fold s. solve_Permutation.
  - intros b. unfold encode_tables. fold s. by rewrite E1, E2, E3, E4, E5, E6, !put_fields_app.
Qed.

Lemma manifest_encode_spec b n x :
  manifest_typed x ->
  (manifest_encodable x /\ manifest_wire_size x <= n /\
    exists fs, fs ≡ₚ manifest_written x /\
      manifest_encoder b n x = (true, put_fields (zero_bytes b 0 (manifest_wire_size x)) 0 fs)) \/
  (~ (manifest_encodable x /\ manifest_wire_size x <= n) /\ manifest_encoder b n x = (false, b)).
Proof.
  intros Ht. unfold manifest_encoder, kb2_closure_manifest_encode, kb2_closure_manifest_encoded_size. cbn [negb].
  pose proof (manifest_source_valid x Ht) as Hv. destruct (source_valid (Some (manifest_source x))); cbn [negb].
  2: { right. split; [| done]. intros [[Hs _ _ _ Hr] _]. assert (false = true) by by apply Hv. done. }
  destruct (proj1 Hv eq_refl) as [Hsz Hres].
  destruct (manifest_size (manifest_source x)) as [size |] eqn:Esz.
  2: { right. split; [| done]. intros [He _]. by rewrite manifest_size_spec in Esz. }
  assert (He : manifest_encodable x).
  { unfold manifest_size in Esz. apply bind_Some in Esz as (r & Es & _).
    apply source_string_size_names in Es as (Ha & Hex & Hi); [| done]. by split. }
  rewrite (manifest_size_spec x Ht He) in Esz. injection Esz as <-.
  destruct (Z.ltb_spec n (manifest_wire_size x)) as [Hlt | Hle]; [right; split; [intros []; lia | done] |].
  left. split; [done |]. split; [done |].
  destruct (encode_tables_fields x Ht He) as (fs & P & E). exists (manifest_header x ++ fs).
  split; [unfold manifest_written; by rewrite P |]. unfold status_encoded. rewrite bool_decide_eq_true_2 by done. cbn [default]. f_equal.
  destruct (manifest_source_items x) as (-> & -> & -> & -> & -> & ->).
  pose proof (manifest_bases x He) as (B1 & B2 & B3 & B4 & B5 & B6).
  cbn [manifest_source ms_artifact_count ms_dependency_count ms_export_count ms_import_count ms_resource_count ms_binding_count].
  change KB2_CLOSURE_MANIFEST_HEADER_SIZE with 128. rewrite (manifest_offsets x He).
  cbn [nth ARTIFACTS DEPENDENCIES EXPORTS IMPORTS RESOURCES BINDINGS STRINGS]. rewrite store_tables_fields, <- !put_fields_app.
  rewrite (put_fields_app _ _ (manifest_header x) fs), <- E. unfold encode_tables. do 7 f_equal.
  unfold manifest_header. destruct Hsz. unfold KB2_CLOSURE_MAX_ARTIFACTS, KB2_CLOSURE_MAX_DEPENDENCIES, KB2_CLOSURE_MAX_EXPORTS,
    KB2_CLOSURE_MAX_IMPORTS, KB2_CLOSURE_MAX_RESOURCES, KB2_CLOSURE_MAX_RESOURCE_BINDINGS in *.
  rewrite !(u32_small (Z.of_nat _)) by (unfold is_u32; lia). rewrite !u32_small by (unfold is_u32; lia).
  replace (manifest_wire_size x - string_base x) with (text_size x) by (unfold manifest_wire_size; lia). done.
Qed.

(** ** The fields fit their widths *)

Lemma records_forall {T} (recf : Z -> T -> list field) len c (P : list field -> Prop) (items : list T) :
  (forall i y, items !! i = Some y -> P (recf (text_at len c items i) y)) -> Forall P (records recf len c items).
Proof.
  intros H. apply Forall_lookup. intros i f Hf. assert (Hi : (i < length items)%nat).
  { apply lookup_lt_Some in Hf. by rewrite length_records in Hf. }
  destruct (lookup_lt_is_Some_2 items i Hi) as [y Hy]. rewrite (records_lookup recf len c items i y Hy) in Hf.
  injection Hf as <-. by apply H.
Qed.

Lemma string_ref_range c s : 0 <= c < 2 ^ 32 -> is_u32 (string_ref c s).
Proof. unfold string_ref, is_u32. destruct (_ =? 0); lia. Qed.

Lemma texts_typed {T} (textf : Z -> T -> list field) len c (items : list T) :
  (forall c y, y ∈ items -> Forall field_typed (textf c y)) -> Forall field_typed (texts textf len c items).
Proof.
  revert c. induction items as [|y items IH]; intros c H; [constructor |]. cbn. apply Forall_app. split; [apply H; by left |].
  apply IH. intros c' z Hz. apply H. by right.
Qed.

Ltac typed_row := repeat (apply Forall_cons; split); cbn [field_typed]; try done; try (apply string_ref_range; lia); try (unfold is_u32; lia).

Lemma artifact_at_typed c a :
  artifact_typed a -> 0 <= c -> c + artifact_text_size a < 2 ^ 32 -> Forall field_typed (artifact_at c a).
Proof.
  intros [? ? ? ? ? T1 T2 T3 T4] Hc Hl. unfold artifact_text_size in Hl. pose proof (string_length_range _ T1).
  pose proof (string_length_range _ T2). pose proof (string_length_range _ T3). pose proof (string_length_range _ T4).
  unfold artifact_at, artifact_record. typed_row.
Qed.

Lemma import_at_typed c i :
  import_typed i -> 0 <= c -> c + import_text_size i < 2 ^ 32 -> Forall field_typed (import_at c i).
Proof.
  intros [? ? ? ? T1 T2] Hc Hl. unfold import_text_size in Hl. pose proof (string_length_range _ T1).
  pose proof (string_length_range _ T2). unfold import_at, import_record. typed_row.
Qed.

Lemma export_at_typed c e :
  export_typed e -> 0 <= c -> c + export_text_size e < 2 ^ 32 -> Forall field_typed (export_at c e).
Proof.
  intros (? & ? & T1) Hc Hl. unfold export_text_size in Hl. pose proof (string_length_range _ T1).
  unfold export_at, export_record. typed_row.
Qed.

(** The sizes of the strings of an encodable manifest. *)
Lemma manifest_text_sizes x :
  manifest_typed x ->
  Forall (fun a => 0 <= artifact_text_size a) (mv_artifacts x) /\ Forall (fun e => 0 <= export_text_size e) (mv_exports x) /\
  Forall (fun i => 0 <= import_text_size i) (mv_imports x).
Proof.
  intros [T1 _ T3 T4 _ _]. split_and!.
  - eapply Forall_impl; [exact T1 |]. intros a [_ _ _ _ _ S1 S2 S3 S4]. unfold artifact_text_size.
    pose proof (string_length_range _ S1). pose proof (string_length_range _ S2). pose proof (string_length_range _ S3).
    pose proof (string_length_range _ S4). lia.
  - eapply Forall_impl; [exact T3 |]. intros e (_ & _ & S1). pose proof (string_length_range _ S1). unfold export_text_size. lia.
  - eapply Forall_impl; [exact T4 |]. intros i [_ _ _ _ S1 S2]. pose proof (string_length_range _ S1).
    pose proof (string_length_range _ S2). unfold import_text_size. lia.
Qed.

Lemma manifest_written_typed x : manifest_typed x -> manifest_encodable x -> Forall field_typed (manifest_written x).
Proof.
  intros Ht He. pose proof (manifest_bases x He) as (B1 & B2 & B3 & B4 & B5 & B6).
  pose proof (manifest_text_sizes x Ht) as (L1 & L3 & L4). pose proof Ht as [T1 T2 T3 T4 T5 T6].
  destruct He as [[] _ _ _ _]. unfold KB2_CLOSURE_MAX_ARTIFACTS, KB2_CLOSURE_MAX_DEPENDENCIES, KB2_CLOSURE_MAX_EXPORTS,
    KB2_CLOSURE_MAX_IMPORTS, KB2_CLOSURE_MAX_RESOURCES, KB2_CLOSURE_MAX_RESOURCE_BINDINGS in *.
  unfold manifest_written, manifest_body, manifest_texts. rewrite !fmap_app, !Forall_app. split_and!.
  - unfold manifest_header, artifact_base. typed_row; (split; [done | repeat constructor; done]).
  - apply table_typed, records_forall. intros i y Hy.
    pose proof (text_at_range artifact_text_size _ i y 0 L1 Hy) as [? ?]. unfold text_size, import_cursor, export_cursor in *.
    apply artifact_at_typed; [by eapply Forall_lookup_1 in T1 | lia | lia].
  - apply table_typed, records_forall. intros i y Hy. eapply Forall_lookup_1 in T2 as [? ?]; [| exact Hy].
    unfold dependency_record. typed_row.
  - apply table_typed, records_forall. intros i y Hy.
    pose proof (text_at_range export_text_size _ i y (export_cursor x) L3 Hy) as [? ?]. unfold text_size, import_cursor in *.
    apply export_at_typed; [by eapply Forall_lookup_1 in T3 | lia | lia].
  - apply table_typed, records_forall. intros i y Hy.
    pose proof (text_at_range import_text_size _ i y (import_cursor x) L4 Hy) as [? ?]. unfold text_size in *.
    apply import_at_typed; [by eapply Forall_lookup_1 in T4 | lia | lia].
  - apply table_typed, records_forall. intros i y Hy. eapply Forall_lookup_1 in T5 as []; [| exact Hy].
    unfold resource_record. typed_row.
  - apply table_typed, records_forall. intros i y Hy. eapply Forall_lookup_1 in T6 as [? ?]; [| exact Hy].
    unfold manifest_binding_record. typed_row.
  - apply Forall_fmap. eapply Forall_impl; [| intros f Hf; by apply shift_typed]. apply texts_typed. intros c y Hy.
    rewrite Forall_forall in T1. destruct (T1 y Hy). unfold artifact_text. rewrite !Forall_app. split_and!; by apply string_text_typed.
  - apply Forall_fmap. eapply Forall_impl; [| intros f Hf; by apply shift_typed]. apply texts_typed. intros c y Hy.
    rewrite Forall_forall in T3. destruct (T3 y Hy) as (_ & _ & ?). by apply string_text_typed.
  - apply Forall_fmap. eapply Forall_impl; [| intros f Hf; by apply shift_typed]. apply texts_typed. intros c y Hy.
    rewrite Forall_forall in T4. destruct (T4 y Hy). unfold import_text. rewrite !Forall_app. split_and!; by apply string_text_typed.
Qed.

Lemma manifest_reserved_zero x : Forall zeroed (manifest_reserved x).
Proof.
  assert (Ht : forall T base size reserved (l : list T), Forall zeroed reserved -> Forall zeroed (table base size (reserved_rows reserved l))).
  { intros. apply table_zeroed. unfold reserved_rows. apply Forall_fmap, Forall_true. done. }
  unfold manifest_reserved. rewrite !Forall_app. split_and!; try apply Ht; by repeat constructor.
Qed.

(** The encoded message has every field of the manifest. *)
Lemma manifest_encoded_reads b x fs :
  manifest_typed x -> manifest_encodable x -> manifest_wire_size x <= blen b -> fs ≡ₚ manifest_written x ->
  Forall (reads (put_fields (zero_bytes b 0 (manifest_wire_size x)) 0 fs) 0) (manifest_written x ++ manifest_reserved x).
Proof.
  intros Ht He Hb P. pose proof (manifest_bases x He) as (B1 & B2 & B3 & B4 & B5 & B6).
  assert (Htile : tiled 0 (manifest_wire_size x) fs (manifest_reserved x)).
  { eapply tiled_perm; [symmetry; exact P | by apply manifest_tiled]. }
  rewrite <- P. apply record_reads; try done; try lia.
  - rewrite P. by apply manifest_written_typed.
  - apply manifest_reserved_zero.
  - by eapply tiled_separate.
  - by eapply tiled_apart.
Qed.
