(* ===== verification/ClosureManifestClaims.v ===== *)
(** Claims about closure manifests: a decoded manifest is valid and all its records can
    be read, and what the encoder writes decodes to the manifest it was given. *)

From Stdlib Require Import ZArith Lia.
From stdpp Require Import base numbers tactics sets list_numbers list.
From S2P Require Import Prelude Bytes Layout Tables Sorted Protocol ProtocolSpec ClosureLayout.
From S2P Require Import ClosureManifest ClosureManifestSpec ClosureManifestWire.

Open Scope Z_scope.
Open Scope kobox_scope.

(** * Decoding the fields of a manifest *)

(** The manifest a decoder makes of a buffer with the fields of [x]. *)
Definition manifest_at (b : list Z) (x : manifest_value) : kb2_closure_manifest :=
  mkManifest (Some b) (manifest_wire_size x)
    [Z.of_nat (length (mv_artifacts x)); Z.of_nat (length (mv_dependencies x)); Z.of_nat (length (mv_exports x));
     Z.of_nat (length (mv_imports x)); Z.of_nat (length (mv_resources x)); Z.of_nat (length (mv_bindings x))]
    [artifact_base; dependency_base x; export_base x; import_base x; resource_base x; binding_base x; string_base x]
    (text_size x).

Section Decode.
Context (b : list Z) (x : manifest_value) (Ht : manifest_typed x) (Hok : manifest_ok x)
  (Hreads : Forall (reads b 0) (manifest_written x ++ manifest_reserved x)).

Let m : kb2_closure_manifest := manifest_at b x.

(** The row [i] of a table. *)
Lemma row_reads {T} (recf : Z -> T -> list field) len c reserved base size (items : list T) i y :
  Forall (reads b 0) (table base size (records recf len c items)) ->
  Forall (reads b 0) (table base size (reserved_rows reserved items)) -> items !! i = Some y ->
  Forall (reads b (base + size * Z.of_nat i)) (recf (text_at len c items i) y ++ reserved).
Proof.
  rewrite !table_reads. intros Hw Hr Hy. apply Forall_app. split.
  - apply Hw. by apply records_lookup.
  - apply Hr. unfold reserved_rows. by rewrite list_lookup_fmap, Hy.
Qed.

(** A string whose bytes are read is the one its reference finds. *)
Lemma text_refers c s :
  string_typed s -> Forall (reads b 0) (shift (string_base x) <$> string_text c s) -> c + st_length s <= text_size x ->
  refers_if m (string_ref c s) s.
Proof.
  intros Hs Hr Hc. unfold string_text, string_ref in *. split; intros Hl.
  - by rewrite Hl.
  - rewrite (proj2 (Z.eqb_neq _ _) Hl) in *. split; [done |]. intros l El. cbn [fmap list_fmap shift] in Hr.
    apply Forall_cons in Hr as [Hr _]. cbn [reads] in Hr. rewrite El, Z.add_0_l in Hr. exact Hr.
Qed.

Lemma texts_reads {T} (textf : Z -> T -> list field) len c (items : list T) i y :
  Forall (reads b 0) (shift (string_base x) <$> texts textf len c items) -> items !! i = Some y ->
  Forall (reads b 0) (shift (string_base x) <$> textf (text_at len c items i) y).
Proof.
  rewrite !Forall_fmap, !Forall_forall. intros H Hy f Hf. apply H. by eapply texts_lookup.
Qed.

(** An accessor that finds every row of a table is the table. *)
Lemma rows_lookup {T} (P : T -> Prop) (f : nat -> option T) count (l : list T) i :
  (forall i y, f i = Some y -> Z.of_nat i < count /\ P y) -> count = Z.of_nat (length l) ->
  (forall i y, l !! i = Some y -> f i = Some y) -> f i = l !! i.
Proof.
  intros Hs -> Hf. destruct (l !! i) as [y |] eqn:E; [by apply Hf |]. apply lookup_ge_None in E.
  apply eq_None_not_Some. intros [y [Hy _]%Hs]. lia.
Qed.

(** The tables with their strings, as read from the buffer. *)
Lemma manifest_reads_tables :
  (Forall (reads b 0) (table artifact_base 96 (records artifact_at artifact_text_size 0 (mv_artifacts x))) /\
   Forall (reads b 0) (table artifact_base 96 (reserved_rows artifact_reserved (mv_artifacts x))) /\
   Forall (reads b 0) (shift (string_base x) <$> texts artifact_text artifact_text_size 0 (mv_artifacts x))) /\
  Forall (reads b 0) (table (dependency_base x) 8 (records (fun _ => dependency_record) no_size 0 (mv_dependencies x))) /\
  (Forall (reads b 0) (table (export_base x) 16 (records export_at export_text_size (export_cursor x) (mv_exports x))) /\
   Forall (reads b 0) (shift (string_base x) <$> texts export_text export_text_size (export_cursor x) (mv_exports x))) /\
  (Forall (reads b 0) (table (import_base x) 32 (records import_at import_text_size (import_cursor x) (mv_imports x))) /\
   Forall (reads b 0) (shift (string_base x) <$> texts import_text import_text_size (import_cursor x) (mv_imports x))) /\
  (Forall (reads b 0) (table (resource_base x) 72 (records (fun _ => resource_record) no_size 0 (mv_resources x))) /\
   Forall (reads b 0) (table (resource_base x) 72 (reserved_rows resource_reserved (mv_resources x)))) /\
  Forall (reads b 0) (table (binding_base x) 8 (records (fun _ => manifest_binding_record) no_size 0 (mv_bindings x))).
Proof.
  pose proof Hreads as Hw. unfold manifest_written, manifest_body, manifest_texts, manifest_reserved in Hw.
  rewrite !fmap_app, !Forall_app in Hw. tauto.
Qed.

Lemma node_nonzero id : id ∈ node_ids x -> id <> 0.
Proof. intros Hin. destruct Hok as [_ Hi _ _ _ _ _ _ _]. pose proof (increasing_above _ _ _ Hi Hin). lia. Qed.

Lemma no_reserved {T} base size (items : list T) : Forall (reads b 0) (table base size (reserved_rows [] items)).
Proof. revert base. induction items as [|y items IH]; intros base; [constructor | apply IH]. Qed.

Lemma artifact_rows i y : mv_artifacts x !! i = Some y -> manifest_artifact m i = Some y.
Proof.
  intros Hy. destruct manifest_reads_tables as [(W & V & X) _]. pose proof (manifest_text_sizes x Ht) as (L & L3 & L4).
  pose proof (text_total_nonneg _ _ L3). pose proof (text_total_nonneg _ _ L4).
  pose proof (row_reads _ _ _ _ _ _ _ _ _ W V Hy) as Hrow. pose proof (texts_reads _ _ _ _ _ _ X Hy) as Htext.
  pose proof (text_at_range _ _ i y 0 L Hy) as [_ Hend]. set (c := text_at artifact_text_size 0 (mv_artifacts x) i) in *.
  rewrite Z.add_0_l in Hend. fold (export_cursor x) in Hend. unfold artifact_text_size at 1 in Hend.
  pose proof Ht as [T _ _ _ _ _]. eapply Forall_lookup_1 in T as [_ _ _ _ _ S1 S2 S3 S4]; [| exact Hy].
  pose proof (string_length_range _ S1). pose proof (string_length_range _ S2). pose proof (string_length_range _ S3).
  pose proof (string_length_range _ S4).
  unfold artifact_text in Htext. rewrite !fmap_app, !Forall_app in Htext. destruct Htext as (X1 & X2 & X3 & X4).
  assert (Hlim : export_cursor x <= text_size x) by (unfold text_size, import_cursor; lia).
  eapply (manifest_artifact_complete m i y); [| | | exact Hrow | ..]; try (apply text_refers; [done | done | lia]).
  - apply lookup_lt_Some in Hy. cbn. lia.
  - apply node_nonzero, list_elem_of_fmap_2. by eapply list_elem_of_lookup_2.
  - destruct Hok as [_ _ _ Ha _ _ _ _ _]. by eapply Forall_lookup_1 in Ha.
Qed.

Lemma dependency_rows i y : mv_dependencies x !! i = Some y -> manifest_dependency m i = Some y.
Proof.
  intros Hy. destruct manifest_reads_tables as (_ & W & _).
  pose proof (row_reads _ _ _ _ _ _ _ _ _ W (no_reserved _ _ _) Hy) as Hrow. rewrite app_nil_r in Hrow.
  destruct Hok as [_ _ _ _ Hd _ _ _ _]. eapply Forall_lookup_1 in Hd as (H1%node_nonzero & H2%node_nonzero & H3); [| exact Hy].
  apply manifest_dependency_complete; [| done ..]. apply lookup_lt_Some in Hy. cbn. lia.
Qed.

Lemma export_rows i y : mv_exports x !! i = Some y -> manifest_export m i = Some y.
Proof.
  intros Hy. destruct manifest_reads_tables as (_ & _ & [W X] & _). pose proof (manifest_text_sizes x Ht) as (_ & L & L4).
  pose proof (text_total_nonneg _ _ L4).
  pose proof (row_reads _ _ _ _ _ _ _ _ _ W (no_reserved _ _ _) Hy) as Hrow. rewrite app_nil_r in Hrow.
  pose proof (texts_reads _ _ _ _ _ _ X Hy) as Htext. pose proof (text_at_range _ _ i y (export_cursor x) L Hy) as [_ Hend].
  fold (import_cursor x) in Hend. unfold export_text_size at 2 in Hend.
  pose proof Ht as [_ _ T _ _ _]. eapply Forall_lookup_1 in T as (_ & _ & S1); [| exact Hy].
  destruct Hok as [_ _ _ _ _ He _ _ _]. eapply Forall_lookup_1 in He as (H1%node_nonzero & H2 & H3); [| exact Hy].
  eapply manifest_export_complete; [| done | done | done | exact Hrow |].
  - apply lookup_lt_Some in Hy. cbn. lia.
  - apply text_refers; [done | done |]. unfold text_size. lia.
Qed.

Lemma import_rows i y : mv_imports x !! i = Some y -> manifest_import m i = Some y.
Proof.
  intros Hy. destruct manifest_reads_tables as (_ & _ & _ & [W X] & _). pose proof (manifest_text_sizes x Ht) as (_ & _ & L).
  pose proof (row_reads _ _ _ _ _ _ _ _ _ W (no_reserved _ _ _) Hy) as Hrow. rewrite app_nil_r in Hrow.
  pose proof (texts_reads _ _ _ _ _ _ X Hy) as Htext. pose proof (text_at_range _ _ i y (import_cursor x) L Hy) as [_ Hend].
  fold (text_size x) in Hend. unfold import_text_size at 2 in Hend.
  pose proof Ht as [_ _ _ T _ _]. eapply Forall_lookup_1 in T as [_ _ _ _ S1 S2]; [| exact Hy].
  pose proof (string_length_range _ S1). pose proof (string_length_range _ S2).
  unfold import_text in Htext. rewrite fmap_app, Forall_app in Htext. destruct Htext as [X1 X2].
  destruct Hok as [_ _ _ _ _ _ Hi _ _]. eapply Forall_lookup_1 in Hi as [H1%node_nonzero H2 H3 H4 H5 H6 H7]; [| exact Hy].
  eapply manifest_import_complete; [| done | done | done | done | done | done | exact Hrow | |];
    try (apply text_refers; [done | done | lia]). apply lookup_lt_Some in Hy. cbn. lia.
Qed.

Lemma resource_rows i y : mv_resources x !! i = Some y -> manifest_resource m i = Some y.
Proof.
  intros Hy. destruct manifest_reads_tables as (_ & _ & _ & _ & [W V] & _).
  pose proof (row_reads _ _ _ _ _ _ _ _ _ W V Hy) as Hrow. pose proof Ht as [_ _ _ _ T _].
  destruct Hok as [_ _ _ _ _ _ _ Hr _]. apply manifest_resource_complete;
    [| by eapply Forall_lookup_1 in T | by eapply Forall_lookup_1 in Hr | done]. apply lookup_lt_Some in Hy. cbn. lia.
Qed.

Lemma binding_rows i y : mv_bindings x !! i = Some y -> manifest_binding m i = Some y.
Proof.
  intros Hy. destruct manifest_reads_tables as (_ & _ & _ & _ & _ & W).
  pose proof (row_reads _ _ _ _ _ _ _ _ _ W (no_reserved _ _ _) Hy) as Hrow. rewrite app_nil_r in Hrow.
  destruct Hok as [_ _ _ _ _ _ _ _ Hb]. eapply Forall_lookup_1 in Hb as (H1 & H2%node_nonzero); [| exact Hy].
  apply manifest_binding_complete; [| done ..]. apply lookup_lt_Some in Hy. cbn. lia.
Qed.

Lemma manifest_at_rows : manifest_rows m x.
Proof.
  split; try reflexivity; intros i.
  - apply (rows_lookup _ _ (Z.of_nat (length (mv_artifacts x))) _ i (manifest_artifact_sound m)); [done | apply artifact_rows].
  - apply (rows_lookup _ _ (Z.of_nat (length (mv_dependencies x))) _ i (manifest_dependency_sound m)); [done | apply dependency_rows].
  - apply (rows_lookup _ _ (Z.of_nat (length (mv_exports x))) _ i (manifest_export_sound m)); [done | apply export_rows].
  - apply (rows_lookup _ _ (Z.of_nat (length (mv_imports x))) _ i (manifest_import_sound m)); [done | apply import_rows].
  - apply (rows_lookup _ _ (Z.of_nat (length (mv_resources x))) _ i (manifest_resource_sound m)); [done | apply resource_rows].
  - apply (rows_lookup _ _ (Z.of_nat (length (mv_bindings x))) _ i (manifest_binding_sound m)); [done | apply binding_rows].
Qed.
End Decode.

(** One table header. *)
Lemma read_tables_step b n index limit limits size sizes at_ count next counts offsets last :
  load_u32 b (KB2_CLOSURE_MANIFEST_HEADER_ARTIFACT_COUNT_OFFSET + Z.of_nat index * 4) = count ->
  load_u32 b (KB2_CLOSURE_MANIFEST_HEADER_ARTIFACT_TABLE_OFFSET_OFFSET + Z.of_nat index * 4) = at_ ->
  0 <= count <= limit -> 0 <= at_ -> next = at_ + size * count -> at_ <= next <= n -> n <= U32_MAX ->
  read_tables b n (S index) limits sizes next = Some (counts, offsets, last) ->
  read_tables b n index (limit :: limits) (size :: sizes) at_ = Some (count :: counts, at_ :: offsets, last).
Proof.
  intros Ec Ea Hc Ha -> Hn Hu R. cbn [read_tables]. rewrite Ec, Ea. rewrite (proj2 (Z.ltb_ge _ _)) by lia.
  rewrite Z.eqb_refl. cbn [negb orb]. unfold U32_MAX in Hu.
  rewrite (u64_small (count * size)) by (unfold is_u64; lia). rewrite (Z.mul_comm count).
  rewrite (u64_small (at_ + size * count)) by (unfold is_u64; lia). rewrite (proj2 (Z.ltb_ge _ _)) by lia.
  rewrite u32_small by (unfold is_u32; lia). by rewrite R.
Qed.

Lemma manifest_read_tables b x :
  manifest_encodable x -> Forall (reads b 0) (manifest_header x) ->
  read_tables b (manifest_wire_size x) 0 table_limits descriptor_sizes KB2_CLOSURE_MANIFEST_HEADER_SIZE =
  Some ([Z.of_nat (length (mv_artifacts x)); Z.of_nat (length (mv_dependencies x)); Z.of_nat (length (mv_exports x));
         Z.of_nat (length (mv_imports x)); Z.of_nat (length (mv_resources x)); Z.of_nat (length (mv_bindings x))],
        [artifact_base; dependency_base x; export_base x; import_base x; resource_base x; binding_base x], string_base x).
Proof.
  intros He Hr. pose proof (manifest_bases x He) as (B1 & B2 & B3 & B4 & B5 & B6). destruct He as [[S1 S2 S3 S4 S5 S6] _ _ _ _].
  unfold manifest_header in Hr. solve_reads. unfold table_limits, descriptor_sizes.
  assert (Hu : manifest_wire_size x <= U32_MAX) by (unfold U32_MAX; lia). change KB2_CLOSURE_MANIFEST_HEADER_SIZE with artifact_base.
  unfold artifact_base in *.
  eapply (read_tables_step b _ 0 _ _ _ _ _ _ (dependency_base x)); [eassumption | eassumption | lia | done | done | lia | done |].
  eapply (read_tables_step b _ 1 _ _ _ _ _ _ (export_base x)); [eassumption | eassumption | lia | lia | done | lia | done |].
  eapply (read_tables_step b _ 2 _ _ _ _ _ _ (import_base x)); [eassumption | eassumption | lia | lia | done | lia | done |].
  eapply (read_tables_step b _ 3 _ _ _ _ _ _ (resource_base x)); [eassumption | eassumption | lia | lia | done | lia | done |].
  eapply (read_tables_step b _ 4 _ _ _ _ _ _ (binding_base x)); [eassumption | eassumption | lia | lia | done | lia | done |].
  eapply (read_tables_step b _ 5 _ _ _ _ _ _ (string_base x)); [eassumption | eassumption | lia | lia | done | lia | done |].
  done.
Qed.

Lemma manifest_decoded b x :
  manifest_typed x -> manifest_ok x -> Forall (reads b 0) (manifest_written x ++ manifest_reserved x) ->
  status_decoded (kb2_closure_manifest_decode (Some b) (manifest_wire_size x) true) = Some (manifest_at b x).
Proof.
  intros Ht Hok Hr. pose proof (manifest_at_rows b x Ht Hok Hr) as Hrows. pose proof (manifest_ok_encodable x Hok) as He.
  pose proof (manifest_bases x He) as (B1 & B2 & B3 & B4 & B5 & B6).
  assert (Hc : check_manifest (manifest_at b x) = true).
  { apply (check_manifest_spec _ x Hrows). destruct Hok as [_ Hi Hroot _ Hd Hex Him _ Hb]. split_and!; try done.
    - eapply Forall_impl; [exact Hd |]. by intros d (? & ? & _).
    - eapply Forall_impl; [exact Hex |]. by intros e (? & _).
    - eapply Forall_impl; [exact Him |]. by intros i [].
    - eapply Forall_impl; [exact Hb |]. by intros y (_ & ?). }
  unfold manifest_written, manifest_reserved in Hr. rewrite !Forall_app in Hr. destruct Hr as [[Hh _] [Hz _]].
  pose proof (manifest_read_tables b x He Hh) as Hread.
  apply Forall_singleton, bytes_are_zero_reads in Hz; [| lia].
  unfold kb2_closure_manifest_decode, status_decoded. cbn [negb]. rewrite Hread.
  change KB2_CLOSURE_MANIFEST_HEADER_SIZE with 128. rewrite (proj2 (Z.ltb_ge _ _)) by lia.
  rewrite (proj2 (Z.ltb_ge _ _)) by (unfold U32_MAX; lia).
  change KB2_CLOSURE_MANIFEST_HEADER_RESERVED_OFFSET with (0 + 96). rewrite Hz.
  unfold manifest_header in Hh. solve_reads.
  rewrite (proj2 (bytes_equal_reads b _ KB2_CLOSURE_ABI_IDENTITY_BYTES)) by done.
  rewrite (proj2 (bytes_equal_reads b _ KB2_CLOSURE_SCHEMA_SHA256_BYTES)) by done. cbn [negb orb].
  unfold KB2_CLOSURE_MANIFEST_HEADER_TOTAL_SIZE_OFFSET, KB2_CLOSURE_MANIFEST_HEADER_STRING_TABLE_OFFSET_OFFSET,
    KB2_CLOSURE_MANIFEST_HEADER_STRING_TABLE_SIZE_OFFSET. rewrite_reads b. rewrite !Z.eqb_refl. cbn [negb orb app].
  fold (manifest_at b x). cbn [manifest_at mf_string_table_size]. destruct He as [[S1 _ _ _ _ _] _ _ _ _].
  change (count_at (manifest_at b x) ARTIFACTS) with (Z.of_nat (length (mv_artifacts x))).
  rewrite (proj2 (Z.eqb_neq _ _)) by lia.
  replace (manifest_wire_size x - string_base x) with (text_size x) by (unfold manifest_wire_size; lia).
  rewrite Z.eqb_refl. cbn [negb orb]. fold (manifest_at b x). by rewrite Hc.
Qed.

(** * The claims *)

(** What an accepting encoder leaves in the buffer. *)
Lemma manifest_encoded b n x :
  manifest_typed x -> manifest_encodable x -> manifest_wire_size x <= n -> n <= blen b ->
  exists b', manifest_encoder b n x = (true, b') /\ blen b' = blen b /\
    (forall j, manifest_wire_size x <= j -> get_byte b' j = get_byte b j) /\
    Forall (reads b' 0) (manifest_written x ++ manifest_reserved x).
Proof.
  intros Ht He Hn Hb. pose proof (manifest_bases x He) as (B1 & B2 & B3 & B4 & B5 & B6).
  destruct (manifest_encode_spec b n x Ht) as [(_ & _ & fs & P & E) | [[] _]]; [| done].
  exists (put_fields (zero_bytes b 0 (manifest_wire_size x)) 0 fs).
  assert (Htile : tiled 0 (manifest_wire_size x) fs (manifest_reserved x)).
  { eapply tiled_perm; [symmetry; exact P | by apply manifest_tiled]. }
  split_and!; [done | by rewrite blen_put_fields, blen_zero_bytes | | apply manifest_encoded_reads; [done | done | lia | done]].
  intros j Hj. rewrite (put_fields_outside _ _ _ (manifest_wire_size x));
    [apply get_byte_zero_bytes_ne; lia | rewrite P; by apply manifest_written_typed | done | lia | | lia].
  by eapply tiled_separate.
Qed.

(** The decoder applied to a buffer, with the records its accessors give. *)
Definition manifest_decoder (b : list Z) (n : Z) : option manifest_value :=
  status_decoded (kb2_closure_manifest_decode (Some b) n true) ≫= manifest_read.

Lemma manifest_encoded_decodes b x :
  manifest_typed x -> manifest_ok x -> Forall (reads b 0) (manifest_written x ++ manifest_reserved x) ->
  manifest_decoder b (manifest_wire_size x) = Some x.
Proof.
  intros Ht Hok Hr. unfold manifest_decoder. rewrite manifest_decoded by done. cbn [mbind option_bind].
  apply manifest_read_rows. by apply manifest_at_rows.
Qed.

(** Encoding a closure manifest: the encoder accepts exactly the manifests with
    table sizes within the limits, names where names are needed and interfaces that
    are not zero, if they fit; a refused one leaves the buffer alone, an accepted one
    changes no byte past its size; and a valid manifest (nodes in order with a root
    among them, every reference resolved) decodes, record by record and string by
    string, to what was encoded. *)
Lemma manifest_roundtrip b n x :
  manifest_typed x -> n <= blen b ->
  ((manifest_encoder b n x).1 = true <-> manifest_encodable x /\ manifest_wire_size x <= n) /\
  ((manifest_encoder b n x).1 = false -> (manifest_encoder b n x).2 = b) /\
  (forall b', manifest_encoder b n x = (true, b') ->
    blen b' = blen b /\ (forall j, manifest_wire_size x <= j -> get_byte b' j = get_byte b j) /\
    (manifest_ok x -> manifest_decoder b' (manifest_wire_size x) = Some x)) /\
  (manifest_ok x -> manifest_encodable x).
Proof.
  intros Ht Hb. split_and!.
  - destruct (manifest_encode_spec b n x Ht) as [(He & Hn & fs & _ & ->) | [Hno ->]]; [done |]. by split.
  - destruct (manifest_encode_spec b n x Ht) as [(He & Hn & fs & _ & ->) | [Hno ->]]; done.
  - intros b' E. destruct (manifest_encode_spec b n x Ht) as [(He & Hn & _) | [_ E']]; [| congruence].
    destruct (manifest_encoded b n x Ht He Hn Hb) as (c & Ec & Hl & Hout & Hr). replace b' with c by congruence.
    split_and!; [done | done |]. intros Hok. by apply manifest_encoded_decodes.
  - apply manifest_ok_encodable.
Qed.

(** Every manifest the decoder accepts can be read completely and is valid: each
    accessor succeeds on every index below its count, every value has its width, and
    the manifest is well formed. Encoding what was read gives bytes, possibly others,
    that decode to the same manifest. *)
Lemma manifest_decode_valid b n m :
  status_decoded (kb2_closure_manifest_decode (Some b) n true) = Some m ->
  exists x, manifest_read m = Some x /\ manifest_typed x /\ manifest_ok x /\
    forall c, manifest_wire_size x <= blen c ->
      exists c', manifest_encoder c (blen c) x = (true, c') /\ manifest_decoder c' (manifest_wire_size x) = Some x.
Proof.
  intros (x & Hrows & Ht & Hok)%manifest_decode_sound. exists x. split_and!; [by apply manifest_read_rows | done | done |].
  intros c Hc. destruct (manifest_encoded c (blen c) x Ht (manifest_ok_encodable x Hok) Hc ltac:(lia)) as (c' & E & _ & _ & Hr).
  exists c'. split; [done |]. by apply manifest_encoded_decodes.
Qed.

(** A root module with its lifecycle symbols that imports a function of a native one. *)
Definition text (l : list Z) : kb2_closure_string := mkString (Some l) (blen l).
Definition sample_value : manifest_value :=
  mkManifestValue
    [mkManifestArtifact 1 1 KB2_CLOSURE_ARTIFACT_FLAG_ROOT 64 (replicate 32 5) (text [97]) (text [105]) (text [113; 49]) (text [99]);
     mkManifestArtifact 4 0 KB2_CLOSURE_ARTIFACT_FLAG_NATIVE_LINUX 128 (replicate 32 6) (text [98; 98]) no_string no_string no_string]
    [mkManifestDependency 1 4] [mkManifestSymbol 4 0 (text [102])]
    [mkManifestImport 1 4 0 0 (text [102]) (text [102])]
    [mkManifestResource 3 0 1 2 1 3 KB2_CLOSURE_RESOURCE_FLAG_REQUIRED (replicate 32 9)] [mkManifestBinding 3 1].

Lemma sample_value_typed : manifest_typed sample_value.
Proof.
  split; repeat (apply Forall_cons; split); try constructor; cbn;
    repeat match goal with |- Forall _ _ => constructor | |- _ /\ _ => split | |- digest_typed _ => split end;
    unfold string_typed, is_u32, is_u64, is_u8, KB2_CLOSURE_ARTIFACT_FLAG_ROOT; cbn; try done; try lia.
Qed.

Lemma sample_names : name_ok (text [97]) /\ name_ok (text [105]) /\ name_ok (text [113; 49]) /\ name_ok (text [99]) /\
  name_ok (text [98; 98]) /\ name_ok (text [102]).
Proof.
  split_and!; eexists; (split; [reflexivity |]); (split; [split; vm_compute; discriminate |]); repeat constructor; unfold name_byte; lia.
Qed.

Lemma sample_value_ok : manifest_ok sample_value.
Proof.
  destruct sample_names as (N1 & N2 & N3 & N4 & N5 & N6). split.
  - split; cbn; done.
  - done.
  - by left.
  - repeat (apply Forall_cons; split); [.. | constructor]; split; done.
  - apply Forall_singleton. unfold dependency_ok, node_ids. cbn. split_and!; [by left | by right; left | done].
  - apply Forall_singleton. unfold export_ok, node_ids. cbn. split_and!; [by right; left | done | done].
  - apply Forall_singleton. split; cbn; try done; [by left | by right; right; left].
  - apply Forall_singleton. by split.
  - apply Forall_singleton. split; [done | by left].
Qed.

Definition sample_bytes : list Z :=
  Eval vm_compute in (manifest_encoder (replicate 500 7) 500 sample_value).2.

(** C33. Closure manifests are a wire format for the valid manifests.  The encoder
    accepts exactly the manifests with table sizes within the limits, names where names
    are needed and interfaces that are not zero, if they fit; a refused one leaves the
    buffer alone, an accepted one changes no byte past its size; and a valid manifest
    (nodes in order with a root among them, every reference resolved) decodes, record by
    record and string by string, to what was encoded.  Every manifest the decoder accepts
    is valid and can be read completely through the accessors, and encoding what was read
    gives bytes, possibly others, that decode to the same manifest. *)
Theorem manifest_wire b n :
  n <= blen b ->
  (forall x, manifest_typed x ->
     ((manifest_encoder b n x).1 = true <-> manifest_encodable x /\ manifest_wire_size x <= n) /\
     ((manifest_encoder b n x).1 = false -> (manifest_encoder b n x).2 = b) /\
     (forall b', manifest_encoder b n x = (true, b') ->
       blen b' = blen b /\ (forall j, manifest_wire_size x <= j -> get_byte b' j = get_byte b j) /\
       (manifest_ok x -> manifest_decoder b' (manifest_wire_size x) = Some x)) /\
     (manifest_ok x -> manifest_encodable x)) /\
  (forall m, status_decoded (kb2_closure_manifest_decode (Some b) n true) = Some m ->
     exists x, manifest_read m = Some x /\ manifest_typed x /\ manifest_ok x /\
       forall c, manifest_wire_size x <= blen c ->
         exists c', manifest_encoder c (blen c) x = (true, c') /\ manifest_decoder c' (manifest_wire_size x) = Some x).
Proof.
  intros Hb. split.
  - intros x Ht. by apply manifest_roundtrip.
  - intros m. apply manifest_decode_valid.
Qed.

Lemma manifest_wire_witness :
  manifest_decoder sample_bytes (manifest_wire_size sample_value) = Some sample_value /\ manifest_wire_size sample_value < 500.
Proof.
  split; [| vm_compute; reflexivity].
  refine (proj2 (proj2 (proj1 (proj2 (proj2 (proj1 (manifest_wire (replicate 500 7) 500 _) sample_value sample_value_typed)))
    sample_bytes _)) sample_value_ok); vm_compute; done.
Defined.
