(* ===== verification/ResourceGrant.v ===== *)
(** Resource grants (protocol/src/resource_grant.c, protocol/include/kobox2/resource_grant.h):
    the message that hands a sandbox the resources its closure asks for, its encoder and
    decoder, the accessors of a decoded grant, and the check of a grant against the
    manifest of the closure.

    An array behind a pointer and a count is a list and the count; NULL is [None], and
    so is the SIZE_MAX that a search returns when it finds nothing.  A decoded grant
    keeps the buffer it points into.  [run key keys] is the number of turns of a loop
    that advances a cursor while the key under it is [key]. *)

From Stdlib Require Import ZArith Lia.
From stdpp Require Import base numbers tactics list_numbers list.
From S2P Require Import Prelude Bytes Layout Sha256 Protocol ClosureLayout ClosureManifest.

Open Scope Z_scope.
Open Scope kobox_scope.

Definition KB2_RESOURCE_GRANT_SCHEMA_DIGEST_SIZE : Z := 32.
Definition KB2_RESOURCE_GRANT_SCHEMA_SHA256_BYTES : list Z :=
  [55; 54; 89; 165; 105; 11; 98; 39; 151; 121; 147; 89; 62; 129; 108; 156; 139; 59; 159; 202; 181;
  4; 41; 163; 118; 93; 255; 198; 178; 181; 235; 226].
Definition KB2_RESOURCE_GRANT_ABI_IDENTITY_BYTES : list Z := [100; 101; 118; 0].
Definition KB2_RESOURCE_GRANT_MAX_SLOTS : Z := 16384.
Definition KB2_RESOURCE_GRANT_MAX_OBJECTS : Z := 65536.
Definition KB2_RESOURCE_GRANT_MAX_HANDLE_BINDINGS : Z := 65536.
Definition KB2_RESOURCE_GRANT_SLOT_ABSENT : Z := 0.
Definition KB2_RESOURCE_GRANT_SLOT_PRESENT : Z := 1.
Definition KB2_RESOURCE_GRANT_GRANT_HEADER_SIZE : Z := 128.
Definition KB2_RESOURCE_GRANT_GRANT_HEADER_TOTAL_SIZE_OFFSET : Z := 0.
Definition KB2_RESOURCE_GRANT_GRANT_HEADER_ABI_IDENTITY_OFFSET : Z := 4.
Definition KB2_RESOURCE_GRANT_GRANT_HEADER_SCHEMA_DIGEST_OFFSET : Z := 8.
Definition KB2_RESOURCE_GRANT_GRANT_HEADER_GENERATION_OFFSET : Z := 40.
Definition KB2_RESOURCE_GRANT_GRANT_HEADER_CLOSURE_MANIFEST_DIGEST_OFFSET : Z := 48.
Definition KB2_RESOURCE_GRANT_GRANT_HEADER_SLOT_COUNT_OFFSET : Z := 80.
Definition KB2_RESOURCE_GRANT_GRANT_HEADER_OBJECT_COUNT_OFFSET : Z := 84.
Definition KB2_RESOURCE_GRANT_GRANT_HEADER_HANDLE_BINDING_COUNT_OFFSET : Z := 88.
Definition KB2_RESOURCE_GRANT_GRANT_HEADER_SLOT_TABLE_OFFSET_OFFSET : Z := 92.
Definition KB2_RESOURCE_GRANT_GRANT_HEADER_OBJECT_TABLE_OFFSET_OFFSET : Z := 96.
Definition KB2_RESOURCE_GRANT_GRANT_HEADER_HANDLE_BINDING_TABLE_OFFSET_OFFSET : Z := 100.
Definition KB2_RESOURCE_GRANT_GRANT_HEADER_RESERVED_OFFSET : Z := 104.
Definition KB2_RESOURCE_GRANT_SLOT_GRANT_SIZE : Z := 64.
Definition KB2_RESOURCE_GRANT_SLOT_GRANT_SLOT_ID_OFFSET : Z := 0.
Definition KB2_RESOURCE_GRANT_SLOT_GRANT_RESOURCE_TYPE_OFFSET : Z := 4.
Definition KB2_RESOURCE_GRANT_SLOT_GRANT_STATE_OFFSET : Z := 8.
Definition KB2_RESOURCE_GRANT_SLOT_GRANT_OBJECT_START_OFFSET : Z := 12.
Definition KB2_RESOURCE_GRANT_SLOT_GRANT_OBJECT_COUNT_OFFSET : Z := 16.
Definition KB2_RESOURCE_GRANT_SLOT_GRANT_RESERVED_OFFSET : Z := 20.
Definition KB2_RESOURCE_GRANT_SLOT_GRANT_INTERFACE_SCHEMA_DIGEST_OFFSET : Z := 32.
Definition KB2_RESOURCE_GRANT_OBJECT_SIZE : Z := 32.
Definition KB2_RESOURCE_GRANT_OBJECT_SLOT_ID_OFFSET : Z := 0.
Definition KB2_RESOURCE_GRANT_OBJECT_RESERVED_OFFSET : Z := 4.
Definition KB2_RESOURCE_GRANT_OBJECT_OBJECT_ID_OFFSET : Z := 8.
Definition KB2_RESOURCE_GRANT_OBJECT_GRANTED_RIGHTS_OFFSET : Z := 16.
Definition KB2_RESOURCE_GRANT_OBJECT_HANDLE_START_OFFSET : Z := 24.
Definition KB2_RESOURCE_GRANT_OBJECT_HANDLE_COUNT_OFFSET : Z := 28.
Definition KB2_RESOURCE_GRANT_HANDLE_BINDING_SIZE : Z := 16.
Definition KB2_RESOURCE_GRANT_HANDLE_BINDING_OBJECT_ID_OFFSET : Z := 0.
Definition KB2_RESOURCE_GRANT_HANDLE_BINDING_ROLE_OFFSET : Z := 8.
Definition KB2_RESOURCE_GRANT_HANDLE_BINDING_TRANSFER_HANDLE_INDEX_OFFSET : Z := 12.

Record kb2_resource_grant_slot_source := mkSlotSource {
  ss_slot_id : Z;
  ss_resource_type : Z;
  ss_state : Z;
  ss_interface_schema_digest : list Z;
}.

Record kb2_resource_grant_object_source := mkObjectSource {
  os_slot_id : Z;
  os_object_id : Z;
  os_granted_rights : Z;
}.

Record kb2_resource_grant_handle_binding_t := mkHandleBinding {
  hb_object_id : Z;
  hb_role : Z;
  hb_transfer_handle_index : Z;
}.

Record kb2_resource_grant_source := mkGrantSource {
  gs_generation : Z;
  gs_closure_manifest_digest : list Z;
  gs_slots : option (list kb2_resource_grant_slot_source);
  gs_slot_count : Z;
  gs_objects : option (list kb2_resource_grant_object_source);
  gs_object_count : Z;
  gs_handle_bindings : option (list kb2_resource_grant_handle_binding_t);
  gs_handle_binding_count : Z;
}.

Record kb2_resource_grant_slot_t := mkGrantSlot {
  sl_slot_id : Z;
  sl_resource_type : Z;
  sl_state : Z;
  sl_object_start : Z;
  sl_object_count : Z;
  sl_interface_schema_digest : list Z;
}.

Record kb2_resource_grant_object_t := mkGrantObject {
  ob_slot_id : Z;
  ob_object_id : Z;
  ob_granted_rights : Z;
  ob_handle_start : Z;
  ob_handle_count : Z;
}.

(** [gr_bytes] is the buffer the grant was decoded from. *)
Record kb2_resource_grant := mkGrant {
  gr_bytes : option (list Z);
  gr_size : Z;
  gr_generation : Z;
  gr_closure_manifest_digest : list Z;
  gr_counts : list Z;
  gr_offsets : list Z;
}.

Definition SLOTS : nat := 0.
Definition OBJECTS : nat := 1.
Definition HANDLE_BINDINGS : nat := 2.

Definition grant_count (g : kb2_resource_grant) (table : nat) : Z := nth table (gr_counts g) 0.
Definition grant_offset (g : kb2_resource_grant) (table : nat) : Z := nth table (gr_offsets g) 0.
Definition grant_bytes (g : kb2_resource_grant) : list Z := default [] (gr_bytes g).

Definition digest_is_zero (digest : list Z) : bool := bytes_are_zero digest 0 KB2_RESOURCE_GRANT_SCHEMA_DIGEST_SIZE.

Definition known_rights (type : Z) : Z :=
  if type =? KB2_CLOSURE_RESOURCE_MEMORY then
    Z.lor (Z.lor (Z.lor KB2_CLOSURE_MEMORY_RIGHT_READ KB2_CLOSURE_MEMORY_RIGHT_WRITE) KB2_CLOSURE_MEMORY_RIGHT_MAP)
      KB2_CLOSURE_MEMORY_RIGHT_DMA
  else if type =? KB2_CLOSURE_RESOURCE_DEVICE then
    Z.lor (Z.lor KB2_CLOSURE_DEVICE_RIGHT_COMMAND KB2_CLOSURE_DEVICE_RIGHT_MAP) KB2_CLOSURE_DEVICE_RIGHT_DMA
  else if type =? KB2_CLOSURE_RESOURCE_STORAGE then
    Z.lor (Z.lor (Z.lor KB2_CLOSURE_STORAGE_RIGHT_READ_BLOCKS KB2_CLOSURE_STORAGE_RIGHT_WRITE_BLOCKS)
      KB2_CLOSURE_STORAGE_RIGHT_FLUSH) KB2_CLOSURE_STORAGE_RIGHT_DISCARD
  else if type =? KB2_CLOSURE_RESOURCE_NOTIFICATION then
    Z.lor KB2_CLOSURE_NOTIFICATION_RIGHT_WAIT KB2_CLOSURE_NOTIFICATION_RIGHT_SIGNAL
  else if type =? KB2_CLOSURE_RESOURCE_CHANNEL then
    Z.lor KB2_CLOSURE_CHANNEL_RIGHT_SEND KB2_CLOSURE_CHANNEL_RIGHT_RECEIVE
  else 0.

(** * Validating a source *)

Fixpoint run (key : Z) (keys : list Z) : nat :=
  match keys with
  | k :: keys => if k =? key then S (run key keys) else O
  | [] => O
  end.

Definition source_slots (s : kb2_resource_grant_source) : list kb2_resource_grant_slot_source :=
  array_items (default [] (gs_slots s)) (gs_slot_count s).
Definition source_objects (s : kb2_resource_grant_source) : list kb2_resource_grant_object_source :=
  array_items (default [] (gs_objects s)) (gs_object_count s).
Definition source_bindings (s : kb2_resource_grant_source) : list kb2_resource_grant_handle_binding_t :=
  array_items (default [] (gs_handle_bindings s)) (gs_handle_binding_count s).

Definition source_slot_index (slots : list kb2_resource_grant_slot_source) (slot_id : Z) : option nat :=
  bsearch (length slots) (fun i => nth i (ss_slot_id <$> slots) 0) slot_id 0 (length slots).

Definition source_object_index (objects : list kb2_resource_grant_object_source) (object_id : Z) : option nat :=
  bsearch (length objects) (fun i => nth i (os_object_id <$> objects) 0) object_id 0 (length objects).

Fixpoint slots_valid (slots : list kb2_resource_grant_slot_source) (prior_slot_id : Z) : bool :=
  match slots with
  | [] => true
  | slot :: slots =>
      if (ss_slot_id slot <=? prior_slot_id) || (KB2_CLOSURE_RESOURCE_CHANNEL <? ss_resource_type slot) ||
         (KB2_RESOURCE_GRANT_SLOT_PRESENT <? ss_state slot) || digest_is_zero (ss_interface_schema_digest slot)
      then false else slots_valid slots (ss_slot_id slot)
  end.

Fixpoint objects_valid (slots : list kb2_resource_grant_slot_source) (objects : list kb2_resource_grant_object_source)
    (prior_object_slot prior_object_id : Z) : bool :=
  match objects with
  | [] => true
  | object :: objects =>
      match source_slot_index slots (os_slot_id object) with
      | None => false
      | Some slot_index =>
          let slot := nth slot_index slots (mkSlotSource 0 0 0 []) in
          if (os_slot_id object <? prior_object_slot) || (os_object_id object <=? prior_object_id) ||
             (os_granted_rights object =? 0) || negb (ss_state slot =? KB2_RESOURCE_GRANT_SLOT_PRESENT) then false
          else
            let rights := known_rights (ss_resource_type slot) in
            if (rights =? 0) || negb (os_granted_rights object &~ rights =? 0) then false
            else objects_valid slots objects (os_slot_id object) (os_object_id object)
      end
  end.

(** The loop that attributes the objects to the slots: the cursor at its end. *)
Fixpoint groups_valid (slots : list kb2_resource_grant_slot_source) (keys : list Z) (object_cursor : nat) : option nat :=
  match slots with
  | [] => Some object_cursor
  | slot :: slots =>
      let n := run (ss_slot_id slot) (drop object_cursor keys) in
      if ((ss_state slot =? KB2_RESOURCE_GRANT_SLOT_ABSENT) && negb (n =? 0)%nat) ||
         ((ss_state slot =? KB2_RESOURCE_GRANT_SLOT_PRESENT) && (n =? 0)%nat)
      then None else groups_valid slots keys (object_cursor + n)
  end.

Fixpoint bindings_valid (objects : list kb2_resource_grant_object_source) (bindings : list kb2_resource_grant_handle_binding_t)
    (index : nat) (prior_handle_object prior_role : Z) : bool :=
  match bindings with
  | [] => true
  | binding :: bindings =>
      if bool_decide (source_object_index objects (hb_object_id binding) = None) ||
         negb (hb_transfer_handle_index binding =? Z.of_nat index) || (hb_object_id binding <? prior_handle_object) ||
         ((hb_object_id binding =? prior_handle_object) && ((index =? 0)%nat || (hb_role binding <=? prior_role)))
      then false else bindings_valid objects bindings (S index) (hb_object_id binding) (hb_role binding)
  end.

Definition source_valid (source : option kb2_resource_grant_source) : bool :=
  match source with
  | None => false
  | Some s =>
      if (gs_generation s =? 0) || digest_is_zero (gs_closure_manifest_digest s) ||
         (KB2_RESOURCE_GRANT_MAX_SLOTS <? gs_slot_count s) || (KB2_RESOURCE_GRANT_MAX_OBJECTS <? gs_object_count s) ||
         (KB2_RESOURCE_GRANT_MAX_HANDLE_BINDINGS <? gs_handle_binding_count s) ||
         (negb (gs_slot_count s =? 0) && bool_decide (gs_slots s = None)) ||
         (negb (gs_object_count s =? 0) && bool_decide (gs_objects s = None)) ||
         (negb (gs_handle_binding_count s =? 0) && bool_decide (gs_handle_bindings s = None)) then false
      else if negb (slots_valid (source_slots s) 0) then false
      else if negb (objects_valid (source_slots s) (source_objects s) 0 0) then false
      else
        match groups_valid (source_slots s) (os_slot_id <$> source_objects s) 0 with
        | None => false
        | Some object_cursor =>
            if negb (Z.of_nat object_cursor =? gs_object_count s) then false
            else bindings_valid (source_objects s) (source_bindings s) 0 0 0
        end
  end.

(** * Encoding *)

Definition kb2_resource_grant_copy_schema_digest (out_given : bool) (digest_size : Z) :
    kb2_protocol_status * option (list Z) :=
  if negb out_given || negb (digest_size =? KB2_RESOURCE_GRANT_SCHEMA_DIGEST_SIZE) then (KB2_PROTOCOL_INVALID_ARGUMENT, None)
  else (KB2_PROTOCOL_OK, Some KB2_RESOURCE_GRANT_SCHEMA_SHA256_BYTES).

(** The chain of additions of [encoded_size]. *)
Definition grant_size (s : kb2_resource_grant_source) : option Z :=
  size ← add_size KB2_RESOURCE_GRANT_GRANT_HEADER_SIZE (gs_slot_count s) KB2_RESOURCE_GRANT_SLOT_GRANT_SIZE;
  size ← add_size size (gs_object_count s) KB2_RESOURCE_GRANT_OBJECT_SIZE;
  size ← add_size size (gs_handle_binding_count s) KB2_RESOURCE_GRANT_HANDLE_BINDING_SIZE;
  if U32_MAX <? size then None else Some size.

Definition kb2_resource_grant_encoded_size (source : option kb2_resource_grant_source) (out_given : bool) :
    kb2_protocol_status * option Z :=
  match source with
  | None => (KB2_PROTOCOL_INVALID_ARGUMENT, None)
  | Some s =>
      if negb out_given then (KB2_PROTOCOL_INVALID_ARGUMENT, None)
      else if negb (source_valid source) then (KB2_PROTOCOL_MALFORMED, None)
      else match grant_size s with
           | None => (KB2_PROTOCOL_MALFORMED, None)
           | Some size => (KB2_PROTOCOL_OK, Some size)
           end
  end.

Definition slot_record (slot : kb2_resource_grant_slot_source) (start count : nat) : list field :=
  [U32 KB2_RESOURCE_GRANT_SLOT_GRANT_SLOT_ID_OFFSET (ss_slot_id slot);
   U32 KB2_RESOURCE_GRANT_SLOT_GRANT_RESOURCE_TYPE_OFFSET (ss_resource_type slot);
   U32 KB2_RESOURCE_GRANT_SLOT_GRANT_STATE_OFFSET (ss_state slot);
   U32 KB2_RESOURCE_GRANT_SLOT_GRANT_OBJECT_START_OFFSET (u32 (Z.of_nat start));
   U32 KB2_RESOURCE_GRANT_SLOT_GRANT_OBJECT_COUNT_OFFSET (u32 (Z.of_nat count));
   Raw KB2_RESOURCE_GRANT_SLOT_GRANT_INTERFACE_SCHEMA_DIGEST_OFFSET 32 (ss_interface_schema_digest slot)].

Definition object_record (object : kb2_resource_grant_object_source) (start count : nat) : list field :=
  [U32 KB2_RESOURCE_GRANT_OBJECT_SLOT_ID_OFFSET (os_slot_id object);
   U64 KB2_RESOURCE_GRANT_OBJECT_OBJECT_ID_OFFSET (os_object_id object);
   U64 KB2_RESOURCE_GRANT_OBJECT_GRANTED_RIGHTS_OFFSET (os_granted_rights object);
   U32 KB2_RESOURCE_GRANT_OBJECT_HANDLE_START_OFFSET (u32 (Z.of_nat start));
   U32 KB2_RESOURCE_GRANT_OBJECT_HANDLE_COUNT_OFFSET (u32 (Z.of_nat count))].

Definition binding_record (binding : kb2_resource_grant_handle_binding_t) : list field :=
  [U64 KB2_RESOURCE_GRANT_HANDLE_BINDING_OBJECT_ID_OFFSET (hb_object_id binding);
   U32 KB2_RESOURCE_GRANT_HANDLE_BINDING_ROLE_OFFSET (hb_role binding);
   U32 KB2_RESOURCE_GRANT_HANDLE_BINDING_TRANSFER_HANDLE_INDEX_OFFSET (hb_transfer_handle_index binding)].

Fixpoint encode_slots (b : list Z) (record : Z) (slots : list kb2_resource_grant_slot_source) (keys : list Z)
    (object_cursor : nat) : list Z :=
  match slots with
  | [] => b
  | slot :: slots =>
      let n := run (ss_slot_id slot) (drop object_cursor keys) in
      let b := put_fields b record (slot_record slot object_cursor n) in
      encode_slots b (record + KB2_RESOURCE_GRANT_SLOT_GRANT_SIZE) slots keys (object_cursor + n)
  end.

Fixpoint encode_objects (b : list Z) (record : Z) (objects : list kb2_resource_grant_object_source) (keys : list Z)
    (handle_cursor : nat) : list Z :=
  match objects with
  | [] => b
  | object :: objects =>
      let n := run (os_object_id object) (drop handle_cursor keys) in
      let b := put_fields b record (object_record object handle_cursor n) in
      encode_objects b (record + KB2_RESOURCE_GRANT_OBJECT_SIZE) objects keys (handle_cursor + n)
  end.

Fixpoint encode_bindings (b : list Z) (record : Z) (bindings : list kb2_resource_grant_handle_binding_t) : list Z :=
  match bindings with
  | [] => b
  | binding :: bindings =>
      encode_bindings (put_fields b record (binding_record binding)) (record + KB2_RESOURCE_GRANT_HANDLE_BINDING_SIZE) bindings
  end.

Definition kb2_resource_grant_encode (buffer : option (list Z)) (buffer_size : Z) (size_given : bool)
    (source : option kb2_resource_grant_source) : kb2_protocol_status * option Z * option (list Z) :=
  match buffer, source with
  | Some b, Some s =>
      if negb size_given then (KB2_PROTOCOL_INVALID_ARGUMENT, None, Some b)
      else match kb2_resource_grant_encoded_size source true with
      | (KB2_PROTOCOL_OK, Some encoded_size) =>
          if buffer_size <? encoded_size then (KB2_PROTOCOL_BUFFER_TOO_SMALL, None, Some b)
          else
            let slot_offset := KB2_RESOURCE_GRANT_GRANT_HEADER_SIZE in
            let object_offset := u32 (slot_offset + u32 (u32 (gs_slot_count s) * KB2_RESOURCE_GRANT_SLOT_GRANT_SIZE)) in
            let handle_offset := u32 (object_offset + u32 (u32 (gs_object_count s) * KB2_RESOURCE_GRANT_OBJECT_SIZE)) in
            let b := zero_bytes b 0 encoded_size in
            let b := put_fields b 0
              [U32 KB2_RESOURCE_GRANT_GRANT_HEADER_TOTAL_SIZE_OFFSET (u32 encoded_size);
               Raw KB2_RESOURCE_GRANT_GRANT_HEADER_ABI_IDENTITY_OFFSET 4 KB2_RESOURCE_GRANT_ABI_IDENTITY_BYTES;
               Raw KB2_RESOURCE_GRANT_GRANT_HEADER_SCHEMA_DIGEST_OFFSET 32 KB2_RESOURCE_GRANT_SCHEMA_SHA256_BYTES;
               U64 KB2_RESOURCE_GRANT_GRANT_HEADER_GENERATION_OFFSET (gs_generation s);
               Raw KB2_RESOURCE_GRANT_GRANT_HEADER_CLOSURE_MANIFEST_DIGEST_OFFSET 32 (gs_closure_manifest_digest s);
               U32 KB2_RESOURCE_GRANT_GRANT_HEADER_SLOT_COUNT_OFFSET (u32 (gs_slot_count s));
               U32 KB2_RESOURCE_GRANT_GRANT_HEADER_OBJECT_COUNT_OFFSET (u32 (gs_object_count s));
               U32 KB2_RESOURCE_GRANT_GRANT_HEADER_HANDLE_BINDING_COUNT_OFFSET (u32 (gs_handle_binding_count s));
               U32 KB2_RESOURCE_GRANT_GRANT_HEADER_SLOT_TABLE_OFFSET_OFFSET slot_offset;
               U32 KB2_RESOURCE_GRANT_GRANT_HEADER_OBJECT_TABLE_OFFSET_OFFSET object_offset;
               U32 KB2_RESOURCE_GRANT_GRANT_HEADER_HANDLE_BINDING_TABLE_OFFSET_OFFSET handle_offset] in
            let b := encode_slots b slot_offset (source_slots s) (os_slot_id <$> source_objects s) 0 in
            let b := encode_objects b object_offset (source_objects s) (hb_object_id <$> source_bindings s) 0 in
            let b := encode_bindings b handle_offset (source_bindings s) in
            (KB2_PROTOCOL_OK, Some encoded_size, Some b)
      | _ => (KB2_PROTOCOL_MALFORMED, None, Some b)
      end
  | _, _ => (KB2_PROTOCOL_INVALID_ARGUMENT, None, buffer)
  end.

(** * Accessors *)

Definition zero_slot : kb2_resource_grant_slot_t := mkGrantSlot 0 0 0 0 0 (replicate 32 0).
Definition zero_object : kb2_resource_grant_object_t := mkGrantObject 0 0 0 0 0.

Definition kb2_resource_grant_slot_count (grant : option kb2_resource_grant) : Z :=
  match grant with None => 0 | Some g => grant_count g SLOTS end.
Definition kb2_resource_grant_object_count (grant : option kb2_resource_grant) : Z :=
  match grant with None => 0 | Some g => grant_count g OBJECTS end.
Definition kb2_resource_grant_handle_binding_count (grant : option kb2_resource_grant) : Z :=
  match grant with None => 0 | Some g => grant_count g HANDLE_BINDINGS end.

Definition kb2_resource_grant_slot (grant : option kb2_resource_grant) (index : Z) (out_given : bool) :
    kb2_protocol_status * option kb2_resource_grant_slot_t :=
  match grant with
  | None => (KB2_PROTOCOL_INVALID_ARGUMENT, None)
  | Some g =>
      if negb out_given then (KB2_PROTOCOL_INVALID_ARGUMENT, None)
      else if grant_count g SLOTS <=? index then (KB2_PROTOCOL_MALFORMED, None)
      else
        let b := grant_bytes g in
        let record := grant_offset g SLOTS + index * KB2_RESOURCE_GRANT_SLOT_GRANT_SIZE in
        let slot := mkGrantSlot
          (load_u32 b (record + KB2_RESOURCE_GRANT_SLOT_GRANT_SLOT_ID_OFFSET))
          (load_u32 b (record + KB2_RESOURCE_GRANT_SLOT_GRANT_RESOURCE_TYPE_OFFSET))
          (load_u32 b (record + KB2_RESOURCE_GRANT_SLOT_GRANT_STATE_OFFSET))
          (load_u32 b (record + KB2_RESOURCE_GRANT_SLOT_GRANT_OBJECT_START_OFFSET))
          (load_u32 b (record + KB2_RESOURCE_GRANT_SLOT_GRANT_OBJECT_COUNT_OFFSET))
          (get_bytes b (record + KB2_RESOURCE_GRANT_SLOT_GRANT_INTERFACE_SCHEMA_DIGEST_OFFSET) 32) in
        if (sl_slot_id slot =? 0) || (KB2_CLOSURE_RESOURCE_CHANNEL <? sl_resource_type slot) ||
           (KB2_RESOURCE_GRANT_SLOT_PRESENT <? sl_state slot) || digest_is_zero (sl_interface_schema_digest slot) ||
           negb (bytes_are_zero b (record + KB2_RESOURCE_GRANT_SLOT_GRANT_RESERVED_OFFSET) 12)
        then (KB2_PROTOCOL_MALFORMED, Some zero_slot) else (KB2_PROTOCOL_OK, Some slot)
  end.

Definition kb2_resource_grant_object (grant : option kb2_resource_grant) (index : Z) (out_given : bool) :
    kb2_protocol_status * option kb2_resource_grant_object_t :=
  match grant with
  | None => (KB2_PROTOCOL_INVALID_ARGUMENT, None)
  | Some g =>
      if negb out_given then (KB2_PROTOCOL_INVALID_ARGUMENT, None)
      else if grant_count g OBJECTS <=? index then (KB2_PROTOCOL_MALFORMED, None)
      else
        let b := grant_bytes g in
        let record := grant_offset g OBJECTS + index * KB2_RESOURCE_GRANT_OBJECT_SIZE in
        let object := mkGrantObject
          (load_u32 b (record + KB2_RESOURCE_GRANT_OBJECT_SLOT_ID_OFFSET))
          (load_u64 b (record + KB2_RESOURCE_GRANT_OBJECT_OBJECT_ID_OFFSET))
          (load_u64 b (record + KB2_RESOURCE_GRANT_OBJECT_GRANTED_RIGHTS_OFFSET))
          (load_u32 b (record + KB2_RESOURCE_GRANT_OBJECT_HANDLE_START_OFFSET))
          (load_u32 b (record + KB2_RESOURCE_GRANT_OBJECT_HANDLE_COUNT_OFFSET)) in
        if (ob_slot_id object =? 0) || (ob_object_id object =? 0) || (ob_granted_rights object =? 0) ||
           negb (bytes_are_zero b (record + KB2_RESOURCE_GRANT_OBJECT_RESERVED_OFFSET) 4)
        then (KB2_PROTOCOL_MALFORMED, Some zero_object) else (KB2_PROTOCOL_OK, Some object)
  end.

Definition kb2_resource_grant_handle_binding (grant : option kb2_resource_grant) (index : Z) (out_given : bool) :
    kb2_protocol_status * option kb2_resource_grant_handle_binding_t :=
  match grant with
  | None => (KB2_PROTOCOL_INVALID_ARGUMENT, None)
  | Some g =>
      if negb out_given then (KB2_PROTOCOL_INVALID_ARGUMENT, None)
      else if grant_count g HANDLE_BINDINGS <=? index then (KB2_PROTOCOL_MALFORMED, Some (mkHandleBinding 0 0 0))
      else
        let b := grant_bytes g in
        let record := grant_offset g HANDLE_BINDINGS + index * KB2_RESOURCE_GRANT_HANDLE_BINDING_SIZE in
        let binding := mkHandleBinding
          (load_u64 b (record + KB2_RESOURCE_GRANT_HANDLE_BINDING_OBJECT_ID_OFFSET))
          (load_u32 b (record + KB2_RESOURCE_GRANT_HANDLE_BINDING_ROLE_OFFSET))
          (load_u32 b (record + KB2_RESOURCE_GRANT_HANDLE_BINDING_TRANSFER_HANDLE_INDEX_OFFSET)) in
        (if hb_object_id binding =? 0 then KB2_PROTOCOL_MALFORMED else KB2_PROTOCOL_OK, Some binding)
  end.

Definition grant_slot (g : kb2_resource_grant) (i : nat) := accessed (kb2_resource_grant_slot (Some g) (Z.of_nat i) true).
Definition grant_object (g : kb2_resource_grant) (i : nat) := accessed (kb2_resource_grant_object (Some g) (Z.of_nat i) true).
Definition grant_binding (g : kb2_resource_grant) (i : nat) :=
  accessed (kb2_resource_grant_handle_binding (Some g) (Z.of_nat i) true).

(** * Decoding *)

Definition decoded_slot_index (g : kb2_resource_grant) (slot_id : Z) : option nat :=
  bsearch_opt (Z.to_nat (grant_count g SLOTS)) (fun i => sl_slot_id <$> grant_slot g i) slot_id
    0 (Z.to_nat (grant_count g SLOTS)).

Definition decoded_object_index (g : kb2_resource_grant) (object_id : Z) : option nat :=
  bsearch_opt (Z.to_nat (grant_count g OBJECTS)) (fun i => ob_object_id <$> grant_object g i) object_id
    0 (Z.to_nat (grant_count g OBJECTS)).

Definition grant_limits : list Z :=
  [KB2_RESOURCE_GRANT_MAX_SLOTS; KB2_RESOURCE_GRANT_MAX_OBJECTS; KB2_RESOURCE_GRANT_MAX_HANDLE_BINDINGS].
Definition grant_sizes : list Z :=
  [KB2_RESOURCE_GRANT_SLOT_GRANT_SIZE; KB2_RESOURCE_GRANT_OBJECT_SIZE; KB2_RESOURCE_GRANT_HANDLE_BINDING_SIZE].
Definition grant_offset_fields : list Z :=
  [KB2_RESOURCE_GRANT_GRANT_HEADER_SLOT_TABLE_OFFSET_OFFSET; KB2_RESOURCE_GRANT_GRANT_HEADER_OBJECT_TABLE_OFFSET_OFFSET;
   KB2_RESOURCE_GRANT_GRANT_HEADER_HANDLE_BINDING_TABLE_OFFSET_OFFSET].

(** The loop over the three tables: the offsets, and the offset after the last table. *)
Fixpoint read_offsets (b : list Z) (buffer_size : Z) (counts limits sizes fields : list Z) (expected_offset : Z) :
    option (list Z * Z) :=
  match counts, limits, sizes, fields with
  | count :: counts, limit :: limits, size :: sizes, field :: fields =>
      let offset := load_u32 b field in
      if (limit <? count) || negb (offset =? expected_offset) then None
      else
        let next := u64 (expected_offset + u64 (count * size)) in
        if buffer_size <? next then None
        else
          '(offsets, last) ← read_offsets b buffer_size counts limits sizes fields (u32 next);
          Some (offset :: offsets, last)
  | _, _, _, _ => Some ([], expected_offset)
  end.

(** The loop over the slots: the object cursor at its end. *)
Fixpoint check_slots (g : kb2_resource_grant) (n index : nat) (prior_slot_id object_cursor : Z) : option Z :=
  match n with
  | O => Some object_cursor
  | S n =>
      slot ← grant_slot g index;
      if (sl_slot_id slot <=? prior_slot_id) || negb (sl_object_start slot =? object_cursor) ||
         (grant_count g OBJECTS - object_cursor <? sl_object_count slot) ||
         ((sl_state slot =? KB2_RESOURCE_GRANT_SLOT_ABSENT) && negb (sl_object_count slot =? 0)) ||
         ((sl_state slot =? KB2_RESOURCE_GRANT_SLOT_PRESENT) && (sl_object_count slot =? 0)) then None
      else if forallb (fun i => match grant_object g (Z.to_nat object_cursor + i) with
                                | Some object => ob_slot_id object =? sl_slot_id slot
                                | None => false
                                end) (seq 0 (Z.to_nat (sl_object_count slot)))
      then check_slots g n (S index) (sl_slot_id slot) (object_cursor + sl_object_count slot)
      else None
  end.

(** The loop over the objects: the handle cursor at its end. *)
Fixpoint check_objects (g : kb2_resource_grant) (n index : nat) (prior_object_slot prior_object_id handle_cursor : Z) :
    option Z :=
  match n with
  | O => Some handle_cursor
  | S n =>
      object ← grant_object g index;
      if (ob_slot_id object <? prior_object_slot) || (ob_object_id object <=? prior_object_id) ||
         negb (ob_handle_start object =? handle_cursor) ||
         (grant_count g HANDLE_BINDINGS - handle_cursor <? ob_handle_count object) then None
      else
        slot_index ← decoded_slot_index g (ob_slot_id object);
        slot ← grant_slot g slot_index;
        if negb (sl_state slot =? KB2_RESOURCE_GRANT_SLOT_PRESENT) then None
        else
          let rights := known_rights (sl_resource_type slot) in
          if (rights =? 0) || negb (ob_granted_rights object &~ rights =? 0) then None
          else if forallb (fun i => match grant_binding g (Z.to_nat handle_cursor + i) with
                                    | Some binding => hb_object_id binding =? ob_object_id object
                                    | None => false
                                    end) (seq 0 (Z.to_nat (ob_handle_count object)))
          then check_objects g n (S index) (ob_slot_id object) (ob_object_id object) (handle_cursor + ob_handle_count object)
          else None
  end.

Fixpoint check_bindings (g : kb2_resource_grant) (n index : nat) (prior_handle_object prior_role : Z) : bool :=
  match n with
  | O => true
  | S n =>
      match grant_binding g index with
      | None => false
      | Some binding =>
          if bool_decide (decoded_object_index g (hb_object_id binding) = None) ||
             negb (hb_transfer_handle_index binding =? Z.of_nat index) || (hb_object_id binding <? prior_handle_object) ||
             ((hb_object_id binding =? prior_handle_object) && ((index =? 0)%nat || (hb_role binding <=? prior_role)))
          then false else check_bindings g n (S index) (hb_object_id binding) (hb_role binding)
      end
  end.

(** The loops of the decoder over the three tables. *)
Definition check_grant (g : kb2_resource_grant) : bool :=
  match check_slots g (Z.to_nat (grant_count g SLOTS)) 0 0 0 with
  | None => false
  | Some object_cursor =>
      if negb (object_cursor =? grant_count g OBJECTS) then false
      else
        match check_objects g (Z.to_nat (grant_count g OBJECTS)) 0 0 0 0 with
        | None => false
        | Some handle_cursor =>
            if negb (handle_cursor =? grant_count g HANDLE_BINDINGS) then false
            else check_bindings g (Z.to_nat (grant_count g HANDLE_BINDINGS)) 0 0 0
        end
  end.

Definition zero_grant : kb2_resource_grant := mkGrant None 0 0 (replicate 32 0) (replicate 3 0) (replicate 3 0).

Definition kb2_resource_grant_decode (buffer : option (list Z)) (buffer_size : Z) (out_given : bool) :
    kb2_protocol_status * option kb2_resource_grant :=
  match buffer with
  | None => (KB2_PROTOCOL_INVALID_ARGUMENT, None)
  | Some b =>
      if negb out_given then (KB2_PROTOCOL_INVALID_ARGUMENT, None)
      else if buffer_size <? KB2_RESOURCE_GRANT_GRANT_HEADER_SIZE then (KB2_PROTOCOL_BUFFER_TOO_SMALL, Some zero_grant)
      else if U32_MAX <? buffer_size then (KB2_PROTOCOL_OVERFLOW, Some zero_grant)
      else if negb (bytes_equal b KB2_RESOURCE_GRANT_GRANT_HEADER_ABI_IDENTITY_OFFSET KB2_RESOURCE_GRANT_ABI_IDENTITY_BYTES) ||
              negb (bytes_equal b KB2_RESOURCE_GRANT_GRANT_HEADER_SCHEMA_DIGEST_OFFSET KB2_RESOURCE_GRANT_SCHEMA_SHA256_BYTES)
      then (KB2_PROTOCOL_SCHEMA_MISMATCH, Some zero_grant)
      else if negb (load_u32 b KB2_RESOURCE_GRANT_GRANT_HEADER_TOTAL_SIZE_OFFSET =? buffer_size) ||
              negb (bytes_are_zero b KB2_RESOURCE_GRANT_GRANT_HEADER_RESERVED_OFFSET 24)
      then (KB2_PROTOCOL_MALFORMED, Some zero_grant)
      else
        let generation := load_u64 b KB2_RESOURCE_GRANT_GRANT_HEADER_GENERATION_OFFSET in
        let digest := get_bytes b KB2_RESOURCE_GRANT_GRANT_HEADER_CLOSURE_MANIFEST_DIGEST_OFFSET 32 in
        let counts := [load_u32 b KB2_RESOURCE_GRANT_GRANT_HEADER_SLOT_COUNT_OFFSET;
                       load_u32 b KB2_RESOURCE_GRANT_GRANT_HEADER_OBJECT_COUNT_OFFSET;
                       load_u32 b KB2_RESOURCE_GRANT_GRANT_HEADER_HANDLE_BINDING_COUNT_OFFSET] in
        match read_offsets b buffer_size counts grant_limits grant_sizes grant_offset_fields
                KB2_RESOURCE_GRANT_GRANT_HEADER_SIZE with
        | None => (KB2_PROTOCOL_MALFORMED, Some zero_grant)
        | Some (offsets, expected_offset) =>
            if negb (expected_offset =? buffer_size) || (generation =? 0) || digest_is_zero digest
            then (KB2_PROTOCOL_MALFORMED, Some zero_grant)
            else
              let g := mkGrant (Some b) buffer_size generation digest counts offsets in
              if check_grant g then (KB2_PROTOCOL_OK, Some g) else (KB2_PROTOCOL_MALFORMED, Some zero_grant)
        end
  end.

(** * Checking a grant against a manifest *)

(** The checks of one slot against the requirement of the same index; [None] goes on
    to the next slot. *)
Definition check_requirement (g : kb2_resource_grant) (slot : kb2_resource_grant_slot_t)
    (requirement : kb2_closure_manifest_resource_t) : option kb2_protocol_status :=
  if negb (sl_slot_id slot =? mr_slot_id requirement) || negb (sl_resource_type slot =? mr_type requirement) ||
     negb (bool_decide (sl_interface_schema_digest slot = mr_interface_schema_digest requirement))
  then Some KB2_PROTOCOL_SCHEMA_MISMATCH
  else if sl_state slot =? KB2_RESOURCE_GRANT_SLOT_ABSENT then
    if negb (Z.land (mr_flags requirement) KB2_CLOSURE_RESOURCE_FLAG_REQUIRED =? 0) then Some KB2_PROTOCOL_MALFORMED
    else None
  else if (sl_object_count slot <? mr_minimum_count requirement) || (mr_maximum_count requirement <? sl_object_count slot)
  then Some KB2_PROTOCOL_MALFORMED
  else if forallb (fun i => match grant_object g (Z.to_nat (sl_object_start slot) + i) with
                            | Some object =>
                                (Z.land (ob_granted_rights object) (mr_required_rights requirement) =?
                                   mr_required_rights requirement) &&
                                (ob_granted_rights object &~ mr_maximum_rights requirement =? 0)
                            | None => false
                            end) (seq 0 (Z.to_nat (sl_object_count slot)))
  then None else Some KB2_PROTOCOL_MALFORMED.

Fixpoint check_requirements (g : kb2_resource_grant) (m : kb2_closure_manifest) (n index : nat) : kb2_protocol_status :=
  match n with
  | O => KB2_PROTOCOL_OK
  | S n =>
      match manifest_resource m index, grant_slot g index with
      | Some requirement, Some slot =>
          match check_requirement g slot requirement with
          | Some status => status
          | None => check_requirements g m n (S index)
          end
      | _, _ => KB2_PROTOCOL_MALFORMED
      end
  end.

Definition kb2_resource_grant_validate_manifest (grant : option kb2_resource_grant) (manifest : option kb2_closure_manifest) :
    kb2_protocol_status :=
  match grant, manifest with
  | Some g, Some m =>
      if bool_decide (gr_bytes g = None) || bool_decide (mf_bytes m = None) then KB2_PROTOCOL_INVALID_ARGUMENT
      else if negb (bool_decide (kb2_sha256 (mf_bytes m) (mf_size m) (Some (replicate 32 0)) =
                                   Some (gr_closure_manifest_digest g)))
      then KB2_PROTOCOL_SCHEMA_MISMATCH
      else if negb (grant_count g SLOTS =? kb2_closure_manifest_resource_count (Some m)) then KB2_PROTOCOL_MALFORMED
      else check_requirements g m (Z.to_nat (grant_count g SLOTS)) 0
  | _, _ => KB2_PROTOCOL_INVALID_ARGUMENT
  end.
