(* ===== verification/ResourceGrantSpec.v ===== *)
(** What a resource grant is: the abstract value behind the three tables, when it is
    valid, and that the checks of the encoder and of the decoder decide it. *)

From Stdlib Require Import ZArith Lia.
From stdpp Require Import base numbers tactics sets list_numbers list.
From S2P Require Import Prelude Bytes Layout Tables Sorted Protocol ProtocolSpec ClosureLayout.
From S2P Require Import ClosureManifest ClosureManifestSpec ResourceGrant.

Open Scope Z_scope.
Open Scope kobox_scope.

(** * Groups

    A table whose rows carry the key of the row they belong to is cut into runs of
    equal keys. *)

Fixpoint runs (ids keys : list Z) : list nat :=
  match ids with
  | [] => []
  | id :: ids => let n := run id keys in n :: runs ids (drop n keys)
  end.

Fixpoint run_rest (ids keys : list Z) : list Z :=
  match ids with
  | [] => keys
  | id :: ids => run_rest ids (drop (run id keys) keys)
  end.

(** The keys are [counts] copies of the ids, in order. *)
Fixpoint grouped (ids : list Z) (counts : list nat) (keys : list Z) : Prop :=
  match ids, counts with
  | [], [] => keys = []
  | id :: ids, c :: counts => take c keys = replicate c id /\ grouped ids counts (drop c keys)
  | _, _ => False
  end.

Lemma run_take key keys : take (run key keys) keys = replicate (run key keys) key.
Proof.
  induction keys as [|k keys IH]; [done |]. cbn. destruct (Z.eqb_spec k key) as [-> | _]; [| done]. cbn. by rewrite IH.
Qed.

Lemma run_le key keys : (run key keys <= length keys)%nat.
Proof. induction keys as [|k keys IH]; [done |]. cbn. destruct (k =? key); lia. Qed.

Lemma run_replicate key n keys : run key (replicate n key ++ keys) = (n + run key keys)%nat.
Proof. induction n as [|n IH]; [done |]. cbn. by rewrite Z.eqb_refl, IH. Qed.

Lemma run_absent key keys : key ∉ keys -> run key keys = 0%nat.
Proof. destruct keys as [|k keys]; [done |]. cbn. rewrite not_elem_of_cons. intros [Hne _]. by destruct (Z.eqb_spec k key). Qed.

Lemma grouped_split ids counts keys :
  length counts = length ids ->
  grouped ids counts keys <-> keys = concat (zip_with replicate counts ids).
Proof.
  revert counts keys. induction ids as [|id ids IH]; intros [|c counts] keys Hl; try done. cbn. injection Hl as Hl.
  rewrite IH by done. split.
  - intros [Ht Hd]. by rewrite <- Ht, <- Hd, take_drop.
  - intros ->. rewrite take_app_length', drop_app_length' by by rewrite length_replicate. done.
Qed.

Lemma grouped_length ids counts keys : grouped ids counts keys -> length counts = length ids.
Proof.
  revert counts keys. induction ids as [|id ids IH]; intros [|c counts] keys; try done. cbn. intros [_ ?%IH]. lia.
Qed.

Lemma grouped_in ids counts keys k : grouped ids counts keys -> k ∈ keys -> k ∈ ids.
Proof.
  revert counts keys. induction ids as [|id ids IH]; intros [|c counts] keys; try done; cbn; [intros -> | intros [Ht Hd]].
  { by intros ?%elem_of_nil. }
  rewrite <- (take_drop c keys), Ht. intros [[-> _]%elem_of_replicate | Hk]%elem_of_app; [by left | right; by eapply IH].
Qed.

(** On increasing ids the runs are the groups. *)
Lemma grouped_runs p ids counts keys :
  increasing p ids -> grouped ids counts keys -> counts = runs ids keys /\ run_rest ids keys = [].
Proof.
  revert p counts keys. induction ids as [|id ids IH]; intros p [|c counts] keys; try done. cbn. intros [_ Hi] [Ht Hd].
  assert (Hn : run id keys = c).
  { rewrite <- (take_drop c keys), Ht, run_replicate. rewrite run_absent; [lia |]. intros Hin.
    pose proof (grouped_in _ _ _ _ Hd Hin) as Hin'. pose proof (increasing_above _ _ _ Hi Hin'). lia. }
  rewrite Hn. destruct (IH id counts (drop c keys) Hi Hd) as [<- ->]. done.
Qed.

Lemma runs_grouped ids keys : run_rest ids keys = [] -> grouped ids (runs ids keys) keys.
Proof.
  revert keys. induction ids as [|id ids IH]; intros keys; cbn; [done |]. intros H. split; [apply run_take | by apply IH].
Qed.

Lemma nondecreasing_drop_run p id keys :
  nondecreasing p keys -> Forall (fun k => id <= k) keys -> Forall (fun k => id < k) (drop (run id keys) keys) /\
  nondecreasing id (drop (run id keys) keys).
Proof.
  revert p. induction keys as [|k keys IH]; intros p; [done |]. intros [Hp Hn] [Hk Hks]%Forall_cons. cbn.
  destruct (Z.eqb_spec k id) as [-> | Hne]; cbn; [by apply (IH id) |].
  split; [| split; [done | done]]. constructor; [lia |]. apply Forall_forall. intros x Hx.
  pose proof (nondecreasing_above _ _ _ Hn Hx). lia.
Qed.

(** Sorted keys that all name an id leave nothing over. *)
Lemma sorted_covered p q ids keys :
  increasing p ids -> nondecreasing q keys -> (forall k, k ∈ keys -> k ∈ ids) -> run_rest ids keys = [].
Proof.
  revert p q keys. induction ids as [|id ids IH]; intros p q keys; cbn.
  { intros _ _ Hk. destruct keys as [|k keys]; [done |]. destruct (proj1 (elem_of_nil k)). apply Hk. by left. }
  intros [_ Hi] Hn Hk. assert (Hge : Forall (fun k => id <= k) keys).
  { apply Forall_forall. intros k Hin. apply Hk, elem_of_cons in Hin as [-> | Hin]; [lia |].
    pose proof (increasing_above _ _ _ Hi Hin). lia. }
  destruct (nondecreasing_drop_run q id keys Hn Hge) as [Hgt Hn'].
  apply (IH id id); [done | done |]. intros k Hin.
  assert (Hin' : k ∈ keys) by (rewrite <- (take_drop (run id keys) keys); apply elem_of_app; by right).
  apply Hk, elem_of_cons in Hin' as [-> | ?]; [| done]. eapply Forall_forall in Hgt; [| exact Hin]. lia.
Qed.

(** * Records

    A row of a table as it is on the wire, with the range of the rows of the next
    table that belong to it. *)

Definition slot_fields (s : kb2_resource_grant_slot_t) : list field :=
  [U32 0 (sl_slot_id s); U32 4 (sl_resource_type s); U32 8 (sl_state s); U32 12 (sl_object_start s);
   U32 16 (sl_object_count s); Raw 32 32 (sl_interface_schema_digest s)].
Definition slot_reserved : list field := [Raw 20 12 (replicate 12 0)].

Definition object_fields (o : kb2_resource_grant_object_t) : list field :=
  [U32 0 (ob_slot_id o); U64 8 (ob_object_id o); U64 16 (ob_granted_rights o); U32 24 (ob_handle_start o);
   U32 28 (ob_handle_count o)].
Definition object_reserved : list field := [Raw 4 4 (replicate 4 0)].

Definition binding_fields (x : kb2_resource_grant_handle_binding_t) : list field :=
  [U64 0 (hb_object_id x); U32 8 (hb_role x); U32 12 (hb_transfer_handle_index x)].

Definition zero_digest : list Z := replicate 32 0.

Record slot_view_ok (s : kb2_resource_grant_slot_t) : Prop := {
  svo_id : sl_slot_id s <> 0;
  svo_type : sl_resource_type s <= KB2_CLOSURE_RESOURCE_CHANNEL;
  svo_state : sl_state s <= KB2_RESOURCE_GRANT_SLOT_PRESENT;
  svo_digest : sl_interface_schema_digest s <> zero_digest;
}.

Record object_view_ok (o : kb2_resource_grant_object_t) : Prop := {
  ovo_slot : ob_slot_id o <> 0;
  ovo_id : ob_object_id o <> 0;
  ovo_rights : ob_granted_rights o <> 0;
}.

Lemma digest_is_zero_spec l : blen l = 32 -> Forall is_u8 l -> digest_is_zero l = true <-> l = zero_digest.
Proof.
  intros Hl Hu. unfold digest_is_zero, KB2_RESOURCE_GRANT_SCHEMA_DIGEST_SIZE.
  change 0 with (0 + 0) at 1. rewrite bytes_are_zero_reads by lia. cbn [reads].
  rewrite get_bytes_take by (done || lia). rewrite take_ge by (unfold blen in Hl; lia). done.
Qed.

Lemma digest_nonzero b o : digest_is_zero (get_bytes b o 32) = false <-> get_bytes b o 32 <> zero_digest.
Proof.
  destruct (get_bytes_typed b o 32 ltac:(lia)) as [Hl Hu]. rewrite <- not_true_iff_false.
  by rewrite digest_is_zero_spec.
Qed.

(** What an accessor returns: the record at its index, when it is in range and valid. *)
Lemma grant_slot_spec g i s :
  grant_slot g i = Some s <->
  Z.of_nat i < grant_count g SLOTS /\ slot_view_ok s /\
  Forall (reads (grant_bytes g) (grant_offset g SLOTS + 64 * Z.of_nat i)) (slot_fields s ++ slot_reserved).
Proof.
  unfold grant_slot, kb2_resource_grant_slot. cbn [negb].
  destruct (Z.leb_spec (grant_count g SLOTS) (Z.of_nat i)) as [Hge | Hlt].
  { split; [done | intros [? _]; lia]. }
  set (b := grant_bytes g). rewrite (Z.mul_comm (Z.of_nat i)). change KB2_RESOURCE_GRANT_SLOT_GRANT_SIZE with 64.
  set (d := grant_offset g SLOTS + 64 * Z.of_nat i).
  set (s' := mkGrantSlot _ _ _ _ _ _).
  assert (Hok : (sl_slot_id s' =? 0) || (KB2_CLOSURE_RESOURCE_CHANNEL <? sl_resource_type s') ||
      (KB2_RESOURCE_GRANT_SLOT_PRESENT <? sl_state s') || digest_is_zero (sl_interface_schema_digest s') = false <->
      slot_view_ok s').
  { rewrite !orb_false_iff. cbn [sl_interface_schema_digest s']. rewrite digest_nonzero. split.
    - intros [[[? ?] ?] ?]. split; [lia | lia | lia | done].
    - intros []. split_and!; [lia | lia | lia | done]. }
  assert (Hz : bytes_are_zero b (d + KB2_RESOURCE_GRANT_SLOT_GRANT_RESERVED_OFFSET) 12 = true <->
    Forall (reads b d) slot_reserved).
  { rewrite bytes_are_zero_reads by lia. unfold slot_reserved. by rewrite Forall_singleton. }
  rewrite Forall_app, <- Hz. destruct (bytes_are_zero b _ 12); rewrite ?orb_true_r; cbn [negb];
    [rewrite orb_false_r | split; [done | by intros (_ & _ & _ & ?)]].
  destruct (_ || digest_is_zero _) eqn:E.
  - split; [done |]. intros (_ & Hs & Hr & _). enough (s' = s) as <- by (apply Hok in Hs; congruence).
    unfold slot_fields in Hr. solve_reads. destruct s. cbn in *. subst s'. by f_equal.
  - cbn [accessed]. split.
    + intros [= <-]. split_and!; [done | by apply Hok | | done]. unfold slot_fields.
      repeat (apply Forall_cons; split); done.
    + intros (_ & Hs & Hr & _). unfold slot_fields in Hr. solve_reads. f_equal. destruct s. cbn in *. subst s'.
      by f_equal.
Qed.

Lemma grant_object_spec g i o :
  grant_object g i = Some o <->
  Z.of_nat i < grant_count g OBJECTS /\ object_view_ok o /\
  Forall (reads (grant_bytes g) (grant_offset g OBJECTS + 32 * Z.of_nat i)) (object_fields o ++ object_reserved).
Proof.
  unfold grant_object, kb2_resource_grant_object. cbn [negb].
  destruct (Z.leb_spec (grant_count g OBJECTS) (Z.of_nat i)) as [Hge | Hlt].
  { split; [done | intros [? _]; lia]. }
  set (b := grant_bytes g). rewrite (Z.mul_comm (Z.of_nat i)). change KB2_RESOURCE_GRANT_OBJECT_SIZE with 32.
  set (d := grant_offset g OBJECTS + 32 * Z.of_nat i). set (o' := mkGrantObject _ _ _ _ _).
  assert (Hok : (ob_slot_id o' =? 0) || (ob_object_id o' =? 0) || (ob_granted_rights o' =? 0) = false <->
      object_view_ok o').
  { rewrite !orb_false_iff. split; [intros [[? ?] ?]; split; lia | intros []; lia]. }
  assert (Hz : bytes_are_zero b (d + KB2_RESOURCE_GRANT_OBJECT_RESERVED_OFFSET) 4 = true <->
    Forall (reads b d) object_reserved).
  { rewrite bytes_are_zero_reads by lia. unfold object_reserved. by rewrite Forall_singleton. }
  rewrite Forall_app, <- Hz. destruct (bytes_are_zero b _ 4); rewrite ?orb_true_r; cbn [negb];
    [rewrite orb_false_r | split; [done | by intros (_ & _ & _ & ?)]].
  destruct (_ || (ob_granted_rights o' =? 0)) eqn:E.
  - split; [done |]. intros (_ & Hs & Hr & _). enough (o' = o) as <- by (apply Hok in Hs; congruence).
    unfold object_fields in Hr. solve_reads. destruct o. cbn in *. subst o'. by f_equal.
  - cbn [accessed]. split.
    + intros [= <-]. split_and!; [done | by apply Hok | | done]. unfold object_fields.
      repeat (apply Forall_cons; split); done.
    + intros (_ & Hs & Hr & _). unfold object_fields in Hr. solve_reads. f_equal. destruct o. cbn in *. subst o'.
      by f_equal.
Qed.

Lemma grant_binding_spec g i x :
  grant_binding g i = Some x <->
  Z.of_nat i < grant_count g HANDLE_BINDINGS /\ hb_object_id x <> 0 /\
  Forall (reads (grant_bytes g) (grant_offset g HANDLE_BINDINGS + 16 * Z.of_nat i)) (binding_fields x).
Proof.
  unfold grant_binding, kb2_resource_grant_handle_binding. cbn [negb].
  destruct (Z.leb_spec (grant_count g HANDLE_BINDINGS) (Z.of_nat i)) as [Hge | Hlt].
  { split; [done | intros [? _]; lia]. }
  set (b := grant_bytes g). rewrite (Z.mul_comm (Z.of_nat i)). change KB2_RESOURCE_GRANT_HANDLE_BINDING_SIZE with 16.
  set (d := grant_offset g HANDLE_BINDINGS + 16 * Z.of_nat i). set (x' := mkHandleBinding _ _ _).
  assert (Heq : Forall (reads b d) (binding_fields x) <-> x' = x).
  { unfold binding_fields. split.
    - intros Hr. solve_reads. destruct x. cbn in *. subst x'. by f_equal.
    - intros <-. repeat (apply Forall_cons; split); done. }
  rewrite Heq. destruct (Z.eqb_spec (hb_object_id x') 0) as [E | Hne]; cbn [accessed].
  - split; [done |]. intros (_ & Hx & <-). done.
  - split; [intros [= <-]; done | by intros (_ & _ & ->)].
Qed.

(** * The value of a grant *)

Record grant_value := mkGrantValue {
  gv_generation : Z;
  gv_digest : list Z;
  gv_slots : list kb2_resource_grant_slot_source;
  gv_objects : list kb2_resource_grant_object_source;
  gv_bindings : list kb2_resource_grant_handle_binding_t;
}.

Definition as_source (x : grant_value) : kb2_resource_grant_source :=
  mkGrantSource (gv_generation x) (gv_digest x) 
    (Some (gv_slots x)) (Z.of_nat (length (gv_slots x))) (Some (gv_objects x)) (Z.of_nat (length (gv_objects x)))
    (Some (gv_bindings x)) (Z.of_nat (length (gv_bindings x))).

Record slot_typed (s : kb2_resource_grant_slot_source) : Prop := {
  st_id : is_u32 (ss_slot_id s);
  st_type : is_u32 (ss_resource_type s);
  st_state : is_u32 (ss_state s);
  st_digest : blen (ss_interface_schema_digest s) = 32 /\ Forall is_u8 (ss_interface_schema_digest s);
}.

Record object_typed (o : kb2_resource_grant_object_source) : Prop := {
  ot_slot : is_u32 (os_slot_id o);
  ot_id : is_u64 (os_object_id o);
  ot_rights : is_u64 (os_granted_rights o);
}.

Record binding_typed (x : kb2_resource_grant_handle_binding_t) : Prop := {
  bt_object : is_u64 (hb_object_id x);
  bt_role : is_u32 (hb_role x);
  bt_index : is_u32 (hb_transfer_handle_index x);
}.

Record grant_typed (x : grant_value) : Prop := {
  gt_generation : is_u64 (gv_generation x);
  gt_digest : blen (gv_digest x) = 32 /\ Forall is_u8 (gv_digest x);
  gt_slots : Forall slot_typed (gv_slots x);
  gt_objects : Forall object_typed (gv_objects x);
  gt_bindings : Forall binding_typed (gv_bindings x);
}.

Record slot_ok (s : kb2_resource_grant_slot_source) : Prop := {
  so_type : ss_resource_type s <= KB2_CLOSURE_RESOURCE_CHANNEL;
  so_state : ss_state s = KB2_RESOURCE_GRANT_SLOT_ABSENT \/ ss_state s = KB2_RESOURCE_GRANT_SLOT_PRESENT;
  so_digest : ss_interface_schema_digest s <> zero_digest;
}.

(** The slot an object belongs to is present and its type has the rights granted. *)
Definition object_ok (slots : list kb2_resource_grant_slot_source) (o : kb2_resource_grant_object_source) : Prop :=
  os_granted_rights o <> 0 /\
  exists s, s ∈ slots /\ ss_slot_id s = os_slot_id o /\ ss_state s = KB2_RESOURCE_GRANT_SLOT_PRESENT /\
    os_granted_rights o &~ known_rights (ss_resource_type s) = 0.

(** Handle [index] of the transfer, after those for [object] and [role]. *)
Fixpoint bindings_ordered (index : nat) (prior : Z * Z) (l : list kb2_resource_grant_handle_binding_t) : Prop :=
  match l with
  | [] => True
  | x :: l =>
      hb_transfer_handle_index x = Z.of_nat index /\
      (prior.1 < hb_object_id x \/ hb_object_id x = prior.1 /\ index <> 0%nat /\ prior.2 < hb_role x) /\
      bindings_ordered (S index) (hb_object_id x, hb_role x) l
  end.

(** A valid grant: rows in order, every object in a present slot whose type has the
    rights granted, every present slot with an object, every handle on an object. *)
Record grant_ok (x : grant_value) : Prop := {
  gok_generation : gv_generation x <> 0;
  gok_digest : gv_digest x <> zero_digest;
  gok_slot_limit : Z.of_nat (length (gv_slots x)) <= KB2_RESOURCE_GRANT_MAX_SLOTS;
  gok_object_limit : Z.of_nat (length (gv_objects x)) <= KB2_RESOURCE_GRANT_MAX_OBJECTS;
  gok_binding_limit : Z.of_nat (length (gv_bindings x)) <= KB2_RESOURCE_GRANT_MAX_HANDLE_BINDINGS;
  gok_slots_sorted : increasing 0 (ss_slot_id <$> gv_slots x);
  gok_slots : Forall slot_ok (gv_slots x);
  gok_objects_sorted : increasing 0 (os_object_id <$> gv_objects x);
  gok_objects_grouped : nondecreasing 0 (os_slot_id <$> gv_objects x);
  gok_objects : Forall (object_ok (gv_slots x)) (gv_objects x);
  gok_present : forall s, s ∈ gv_slots x -> ss_state s = KB2_RESOURCE_GRANT_SLOT_PRESENT ->
    ss_slot_id s ∈ (os_slot_id <$> gv_objects x);
  gok_bindings_sorted : bindings_ordered 0 (0, 0) (gv_bindings x);
  gok_bindings : forall y, y ∈ gv_bindings x -> hb_object_id y ∈ (os_object_id <$> gv_objects x);
}.

(** * The encoder's checks decide validity *)

Lemma slots_valid_spec slots p :
  Forall slot_typed slots ->
  slots_valid slots p = true <-> increasing p (ss_slot_id <$> slots) /\ Forall slot_ok slots.
Proof.
  intros Ht. revert p. induction Ht as [|s slots [_ Hty Hst [Hd Hu]] _ IH]; intros p; cbn; [by split |].
  assert (Hok : slot_ok s <-> ss_resource_type s <= KB2_CLOSURE_RESOURCE_CHANNEL /\
    ss_state s <= KB2_RESOURCE_GRANT_SLOT_PRESENT /\ digest_is_zero (ss_interface_schema_digest s) = false).
  { rewrite <- not_true_iff_false, digest_is_zero_spec by done. unfold KB2_RESOURCE_GRANT_SLOT_PRESENT, is_u32 in *.
    unfold KB2_RESOURCE_GRANT_SLOT_ABSENT in *. split.
    - intros [? Hs ?]. split_and!; [done | | done]. unfold KB2_RESOURCE_GRANT_SLOT_PRESENT,
        KB2_RESOURCE_GRANT_SLOT_ABSENT in Hs. lia.
    - intros (? & ? & ?). split; [done | | done]. unfold KB2_RESOURCE_GRANT_SLOT_PRESENT,
        KB2_RESOURCE_GRANT_SLOT_ABSENT. lia. }
  rewrite Forall_cons, Hok.
  destruct (Z.leb_spec (ss_slot_id s) p), (Z.ltb_spec KB2_CLOSURE_RESOURCE_CHANNEL (ss_resource_type s)),
    (Z.ltb_spec KB2_RESOURCE_GRANT_SLOT_PRESENT (ss_state s)), (digest_is_zero (ss_interface_schema_digest s)); cbn [orb];
    try (split; [done | intros; exfalso; intuition (lia || done)]).
  rewrite IH. intuition lia.
Qed.

Lemma object_ok_at slots i s o :
  increasing 0 (ss_slot_id <$> slots) -> slots !! i = Some s -> ss_slot_id s = os_slot_id o ->
  object_ok slots o <-> os_granted_rights o <> 0 /\ ss_state s = KB2_RESOURCE_GRANT_SLOT_PRESENT /\
    os_granted_rights o &~ known_rights (ss_resource_type s) = 0.
Proof.
  intros Hi Hs Hid. split; [| intros (? & ? & ?); split; [done |]; exists s; split_and!; try done; by eapply list_elem_of_lookup_2].
  intros (Hr & s' & (j & Hj)%list_elem_of_lookup & Hid' & Hp & Hk).
  enough (s' = s) as -> by done. assert (j = i) as ->; [| congruence].
  apply increasing_NoDup in Hi. rewrite NoDup_alt in Hi. apply (Hi j i (os_slot_id o)); rewrite list_lookup_fmap.
  - by rewrite Hj; cbn; f_equal.
  - by rewrite Hs; cbn; f_equal.
Qed.

Lemma objects_valid_spec slots objects ps pid :
  increasing 0 (ss_slot_id <$> slots) ->
  objects_valid slots objects ps pid = true <->
  nondecreasing ps (os_slot_id <$> objects) /\ increasing pid (os_object_id <$> objects) /\
  Forall (object_ok slots) objects.
Proof.
  intros Hi. revert ps pid. induction objects as [|o objects IH]; intros ps pid; cbn; [by split |].
  rewrite Forall_cons. unfold source_slot_index. rewrite <- (length_fmap ss_slot_id slots).
  destruct (bsearch _ _ _ _ _) as [i |] eqn:E.
  - apply bsearch_sorted in E; [| done]. rewrite list_lookup_fmap in E. apply fmap_Some in E as (s & Hs & Hid).
    rewrite (nth_lookup_Some _ _ _ _ Hs), (object_ok_at slots i s o) by done.
    destruct (Z.ltb_spec (os_slot_id o) ps), (Z.leb_spec (os_object_id o) pid), (Z.eqb_spec (os_granted_rights o) 0),
      (Z.eqb_spec (ss_state s) KB2_RESOURCE_GRANT_SLOT_PRESENT); cbn [orb negb];
      try (split; [done | intros; exfalso; intuition (lia || done)]).
    destruct (Z.eqb_spec (os_granted_rights o &~ known_rights (ss_resource_type s)) 0) as [Hk | Hk]; cbn [negb];
      rewrite ?orb_false_r, ?orb_true_r; [| split; [done | intros; exfalso; intuition (lia || done)]].
    destruct (Z.eqb_spec (known_rights (ss_resource_type s)) 0) as [Hz | Hz]; [| rewrite IH; intuition lia].
    rewrite Hz, andn_0_r in Hk. split; [done | intros; exfalso; intuition (lia || done)].
  - split; [done |]. intros (_ & _ & (_ & s & Hs & Hid & _) & _). apply bsearch_present in E; [| done].
    destruct E. rewrite <- Hid. by apply list_elem_of_fmap_2.
Qed.

(** Absent slots have no object, present ones some. *)
Definition state_count (state : Z) (n : nat) : Prop :=
  (state = KB2_RESOURCE_GRANT_SLOT_ABSENT -> n = 0%nat) /\ (state = KB2_RESOURCE_GRANT_SLOT_PRESENT -> n <> 0%nat).

Lemma groups_valid_spec slots keys cursor :
  (cursor <= length keys)%nat ->
  groups_valid slots keys cursor = Some (length keys) <->
  Forall2 (fun s n => state_count (ss_state s) n) slots (runs (ss_slot_id <$> slots) (drop cursor keys)) /\
  run_rest (ss_slot_id <$> slots) (drop cursor keys) = [].
Proof.
  revert cursor. induction slots as [|s slots IH]; intros cursor Hc; cbn.
  { assert (length (drop cursor keys) = 0%nat <-> cursor = length keys) as Hd by (rewrite length_drop; lia).
    rewrite <- length_zero_iff_nil, Hd. split; [intros [= ->]; split; [constructor | done] | by intros [_ ->]]. }
  set (n := run (ss_slot_id s) (drop cursor keys)). rewrite Forall2_cons_iff, drop_drop.
  assert (Hn : (n <= length keys - cursor)%nat) by (rewrite <- length_drop; apply run_le).
  specialize (IH (cursor + n)%nat ltac:(lia)). unfold state_count.
  destruct (Z.eqb_spec (ss_state s) KB2_RESOURCE_GRANT_SLOT_ABSENT), (Z.eqb_spec (ss_state s) KB2_RESOURCE_GRANT_SLOT_PRESENT),
    (Nat.eqb_spec n 0); cbn; try tauto; intuition (done || congruence).
Qed.

(** In a grouped table the rows with members are those some key names; [front] are
    keys of earlier rows. *)
Lemma runs_members p ids front keys :
  increasing p ids -> Forall (fun k => k <= p) front -> run_rest ids keys = [] ->
  Forall2 (fun id n => n <> 0%nat <-> id ∈ front ++ keys) ids (runs ids keys).
Proof.
  revert p front keys. induction ids as [|id ids IH]; intros p front keys; cbn; [constructor |]. intros [Hp Hi] Hf Hr.
  pose proof (take_drop (run id keys) keys) as Hsplit. rewrite run_take in Hsplit.
  constructor.
  - assert (Hid : id ∉ front) by (intros Hin; eapply Forall_forall in Hf; [| exact Hin]; lia).
    rewrite elem_of_app. destruct (run id keys) as [|n] eqn:E.
    + split; [done | intros [? | Hk]; [done |]]. rewrite drop_0 in Hr.
      pose proof (grouped_in _ _ _ _ (runs_grouped _ _ Hr) Hk) as Hin.
      pose proof (increasing_above _ _ _ Hi Hin). lia.
    + split; [intros _; right | done]. rewrite <- Hsplit. by left.
  - specialize (IH id (front ++ replicate (run id keys) id) (drop (run id keys) keys)).
    rewrite <- app_assoc, Hsplit in IH. apply IH; [done | | done].
    apply Forall_app. split; [eapply Forall_impl; [exact Hf | cbn; lia] |].
    apply Forall_forall. intros k [-> _]%elem_of_replicate. lia.
Qed.

(** The present slots are those with objects. *)
Lemma state_counts_spec slots objects :
  increasing 0 (ss_slot_id <$> slots) -> Forall slot_ok slots -> Forall (object_ok slots) objects ->
  run_rest (ss_slot_id <$> slots) (os_slot_id <$> objects) = [] ->
  Forall2 (fun s n => state_count (ss_state s) n) slots (runs (ss_slot_id <$> slots) (os_slot_id <$> objects)) <->
  (forall s, s ∈ slots -> ss_state s = KB2_RESOURCE_GRANT_SLOT_PRESENT -> ss_slot_id s ∈ (os_slot_id <$> objects)).
Proof.
  intros Hi Hs Ho Hr. pose proof (runs_members 0 _ [] _ Hi (Forall_nil_2 _) Hr) as Hm. cbn [app] in Hm.
  apply Forall2_fmap_l in Hm. cbn in Hm. set (keys := os_slot_id <$> objects) in *.
  assert (Hp : forall s, s ∈ slots -> ss_slot_id s ∈ keys -> ss_state s = KB2_RESOURCE_GRANT_SLOT_PRESENT).
  { intros s (i & Hsi)%list_elem_of_lookup (o & Eo & Hin)%list_elem_of_fmap. rewrite Forall_forall in Ho.
    specialize (Ho o Hin). by apply (object_ok_at slots i s o) in Ho as (_ & ? & _). }
  assert (Hlen : length (runs (ss_slot_id <$> slots) keys) = length slots) by (symmetry; by eapply Forall2_length).
  split.
  - intros H s (i & Hsi)%list_elem_of_lookup Hps. destruct (Forall2_lookup_l _ _ _ _ _ H Hsi) as (n & Hn & _ & Hc).
    destruct (Forall2_lookup_l _ _ _ _ _ Hm Hsi) as (n' & Hn' & Hm'). simplify_eq. by apply Hm', Hc.
  - intros H. apply Forall2_same_length_lookup_2; [done |]. intros i s n Hsi Hn.
    pose proof (Forall2_lookup_lr _ _ _ _ _ _ Hm Hsi Hn) as Hm'. cbn in Hm'.
    assert (Hin : s ∈ slots) by (by eapply list_elem_of_lookup_2). split.
    + intros Ha. destruct (decide (n = 0%nat)) as [| Hne]; [done |]. apply Hm', Hp in Hne; [| done].
      unfold KB2_RESOURCE_GRANT_SLOT_PRESENT, KB2_RESOURCE_GRANT_SLOT_ABSENT in *. congruence.
    + intros Hps. apply Hm'. by apply H.
Qed.

Lemma bindings_valid_spec objects l index po pr :
  increasing 0 (os_object_id <$> objects) ->
  bindings_valid objects l index po pr = true <->
  bindings_ordered index (po, pr) l /\ (forall y, y ∈ l -> hb_object_id y ∈ (os_object_id <$> objects)).
Proof.
  intros Hi. revert index po pr. induction l as [|x l IH]; intros index po pr; cbn.
  { split; [split; [done |] | done]. by intros y ?%elem_of_nil. }
  assert (Hin : source_object_index objects (hb_object_id x) = None <-> hb_object_id x ∉ (os_object_id <$> objects)).
  { unfold source_object_index. rewrite <- (length_fmap os_object_id objects). by apply bsearch_present. }
  assert (Hall : (forall y, y ∈ x :: l -> hb_object_id y ∈ (os_object_id <$> objects)) <->
    hb_object_id x ∈ (os_object_id <$> objects) /\ (forall y, y ∈ l -> hb_object_id y ∈ (os_object_id <$> objects))).
  { setoid_rewrite elem_of_cons. naive_solver. }
  rewrite Hall. destruct (bool_decide _) eqn:E; cbn [orb].
  { apply bool_decide_eq_true, Hin in E. split; [done | tauto]. }
  apply bool_decide_eq_false in E. rewrite Hin in E. apply dec_stable in E.
  destruct (Z.eqb_spec (hb_transfer_handle_index x) (Z.of_nat index)), (Z.ltb_spec (hb_object_id x) po),
    (Z.eqb_spec (hb_object_id x) po), (Nat.eqb_spec index 0), (Z.leb_spec (hb_role x) pr); cbn [orb andb negb];
    try (split; [done | intros; exfalso; intuition (lia || done)]); rewrite IH; intuition (lia || done).
Qed.

Lemma source_items x :
  source_slots (as_source x) = gv_slots x /\ source_objects (as_source x) = gv_objects x /\
  source_bindings (as_source x) = gv_bindings x.
Proof.
  unfold source_slots, source_objects, source_bindings, array_items. cbn. rewrite !Nat2Z.id. by rewrite !take_ge.
Qed.

Lemma object_ok_in slots objects :
  Forall (object_ok slots) objects -> forall k, k ∈ (os_slot_id <$> objects) -> k ∈ (ss_slot_id <$> slots).
Proof.
  intros Ho k (o & -> & Hin)%list_elem_of_fmap. rewrite Forall_forall in Ho.
  destruct (Ho o Hin) as (_ & s & Hs & <- & _). by apply list_elem_of_fmap_2.
Qed.

Lemma grant_objects_grouped x : grant_ok x -> run_rest (ss_slot_id <$> gv_slots x) (os_slot_id <$> gv_objects x) = [].
Proof.
  intros []. apply (sorted_covered 0 0); [done | done |]. by apply object_ok_in.
Qed.

(** [source_valid] decides validity. *)
Lemma source_valid_spec x : grant_typed x -> source_valid (Some (as_source x)) = true <-> grant_ok x.
Proof.
  intros [Hgen [Hdl Hdu] Hts Hto Htb]. unfold source_valid.
  destruct (source_items x) as (-> & -> & ->). cbn [as_source gs_generation gs_closure_manifest_digest gs_slot_count
    gs_object_count gs_handle_binding_count gs_slots gs_objects gs_handle_bindings].
  rewrite !(bool_decide_eq_false_2 (Some _ = None)) by done. rewrite !andb_false_r, !orb_false_r.
  assert (Hd : digest_is_zero (gv_digest x) = false <-> gv_digest x <> zero_digest).
  { by rewrite <- not_true_iff_false, digest_is_zero_spec. }
  destruct (_ || _) eqn:Ehead.
  { split; [done |]. intros Hok. exfalso. destruct Hok. apply Hd in gok_digest0.
    rewrite gok_digest0 in Ehead. lia. }
  rewrite !orb_false_iff, Hd in Ehead. destruct Ehead as [[[[Hg Hdz] Hl1] Hl2] Hl3].
  destruct (slots_valid (gv_slots x) 0) eqn:Es; cbn [negb].
  2: { split; [done |]. intros []. apply not_true_iff_false in Es. destruct Es. by apply slots_valid_spec. }
  apply slots_valid_spec in Es as [Hsi Hso]; [| done].
  destruct (objects_valid _ _ 0 0) eqn:Eo; cbn [negb].
  2: { split; [done |]. intros []. apply not_true_iff_false in Eo. destruct Eo. by apply objects_valid_spec. }
  apply objects_valid_spec in Eo as (Hon & Hoi & Hoo); [| done].
  pose proof (sorted_covered 0 0 _ _ Hsi Hon (object_ok_in _ _ Hoo)) as Hrest.
  pose proof (groups_valid_spec (gv_slots x) (os_slot_id <$> gv_objects x) 0 ltac:(lia)) as Hgr.
  rewrite drop_0, state_counts_spec, length_fmap in Hgr by done.
  destruct (groups_valid _ _ 0) as [c |] eqn:Ec.
  2: { split; [done |]. intros []. assert (None = Some (length (gv_objects x))) by by apply Hgr. done. }
  destruct (Z.eqb_spec (Z.of_nat c) (Z.of_nat (length (gv_objects x)))) as [E | Hne]; cbn [negb].
  2: { split; [done |]. intros []. assert (Some c = Some (length (gv_objects x))) as [= ->] by by apply Hgr. done. }
  assert (Hc : Some c = Some (length (gv_objects x))) by (f_equal; lia). apply Hgr in Hc as [Hp _].
  rewrite bindings_valid_spec by done. split.
  - intros [Hb Hbi]. split; try done; lia.
  - intros []. done.
Qed.

(** * The fields of an encoded grant *)

Definition grant_wire_size (x : grant_value) : Z :=
  128 + 64 * Z.of_nat (length (gv_slots x)) + 32 * Z.of_nat (length (gv_objects x)) + 16 * Z.of_nat (length (gv_bindings x)).

Definition header_fields (generation : Z) (digest : list Z) (s o h : Z) : list field :=
  [U32 0 (128 + 64 * s + 32 * o + 16 * h); Raw 4 4 KB2_RESOURCE_GRANT_ABI_IDENTITY_BYTES;
   Raw 8 32 KB2_RESOURCE_GRANT_SCHEMA_SHA256_BYTES; U64 40 generation; Raw 48 32 digest; U32 80 s; U32 84 o; U32 88 h;
   U32 92 128; U32 96 (128 + 64 * s); U32 100 (128 + 64 * s + 32 * o)].
Definition header_reserved : list field := [Raw 104 24 (replicate 24 0)].

(** The rows with the ranges of their members, from a cursor on. *)
Fixpoint slot_views (slots : list kb2_resource_grant_slot_source) (keys : list Z) (cursor : nat) :
    list kb2_resource_grant_slot_t :=
  match slots with
  | [] => []
  | s :: slots =>
      let n := run (ss_slot_id s) (drop cursor keys) in
      mkGrantSlot (ss_slot_id s) (ss_resource_type s) (ss_state s) (Z.of_nat cursor) (Z.of_nat n)
        (ss_interface_schema_digest s) :: slot_views slots keys (cursor + n)
  end.

Fixpoint object_views (objects : list kb2_resource_grant_object_source) (keys : list Z) (cursor : nat) :
    list kb2_resource_grant_object_t :=
  match objects with
  | [] => []
  | o :: objects =>
      let n := run (os_object_id o) (drop cursor keys) in
      mkGrantObject (os_slot_id o) (os_object_id o) (os_granted_rights o) (Z.of_nat cursor) (Z.of_nat n)
        :: object_views objects keys (cursor + n)
  end.

Definition grant_slot_views x := slot_views (gv_slots x) (os_slot_id <$> gv_objects x) 0.
Definition grant_object_views x := object_views (gv_objects x) (hb_object_id <$> gv_bindings x) 0.

Lemma length_slot_views slots keys c : length (slot_views slots keys c) = length slots.
Proof. revert c. induction slots as [|s slots IH]; intros c; [done |]. cbn. by rewrite IH. Qed.
Lemma length_object_views objects keys c : length (object_views objects keys c) = length objects.
Proof. revert c. induction objects as [|o objects IH]; intros c; [done |]. cbn. by rewrite IH. Qed.

Definition object_base x := 128 + 64 * Z.of_nat (length (gv_slots x)).
Definition binding_base x := object_base x + 32 * Z.of_nat (length (gv_objects x)).

Definition grant_written (x : grant_value) : list field :=
  header_fields (gv_generation x) (gv_digest x) (Z.of_nat (length (gv_slots x))) (Z.of_nat (length (gv_objects x)))
    (Z.of_nat (length (gv_bindings x))) ++
  (table 128 64 (slot_fields <$> grant_slot_views x) ++
   (table (object_base x) 32 (object_fields <$> grant_object_views x) ++
    table (binding_base x) 16 (binding_fields <$> gv_bindings x))).

Definition grant_reserved (x : grant_value) : list field :=
  header_reserved ++
  (table 128 64 ((fun _ => slot_reserved) <$> grant_slot_views x) ++
   (table (object_base x) 32 ((fun _ => object_reserved) <$> grant_object_views x) ++
    table (binding_base x) 16 ((fun _ => []) <$> gv_bindings x))).

Lemma grant_tiled x : tiled 0 (grant_wire_size x) (grant_written x) (grant_reserved x).
Proof.
  unfold grant_written, grant_reserved. apply (tiled_app 0 128).
  { apply tiled_record; [done | vm_compute; reflexivity | vm_compute; reflexivity | vm_compute; reflexivity]. }
  apply (tiled_app 128 (object_base x)); [| apply (tiled_app _ (binding_base x))].
  - unfold object_base, grant_slot_views. rewrite <- (length_slot_views (gv_slots x) (os_slot_id <$> gv_objects x) 0).
    apply tiled_rows; [done |]. intros v. apply tiled_record; done || vm_compute; reflexivity.
  - unfold binding_base, grant_object_views. rewrite <- (length_object_views (gv_objects x) (hb_object_id <$> gv_bindings x) 0).
    apply tiled_rows; [done |]. intros v. apply tiled_record; done || vm_compute; reflexivity.
  - replace (grant_wire_size x) with (binding_base x + 16 * Z.of_nat (length (gv_bindings x)))
      by (unfold grant_wire_size, binding_base, object_base; lia).
    apply tiled_rows; [done |]. intros v. apply tiled_record; done || vm_compute; reflexivity.
Qed.
