(* ===== verification/ResourceGrantWire.v ===== *)
(** Resource grants on the wire: the encoder writes the fields of the specification,
    the decoder accepts exactly the buffers that have them. *)

From Stdlib Require Import ZArith Lia.
From stdpp Require Import base numbers tactics sets list_numbers list.
From S2P Require Import Prelude Bytes Layout Tables Sorted Protocol ProtocolSpec ClosureLayout.
From S2P Require Import ClosureManifest ClosureManifestSpec ResourceGrant ResourceGrantSpec.

Open Scope Z_scope.
Open Scope kobox_scope.

(** * Encoding *)

Definition grant_encoder (b : list Z) (n : Z) (x : grant_value) : bool * list Z :=
  let '(st, _, out) := kb2_resource_grant_encode (Some b) n true (Some (as_source x)) in status_encoded b st out.

Lemma encode_slots_fields b base slots keys c :
  (c <= length keys)%nat -> Z.of_nat (length keys) < 2 ^ 32 ->
  encode_slots b base slots keys c = put_fields b 0 (table base 64 (slot_fields <$> slot_views slots keys c)).
Proof.
  revert b base c. induction slots as [|s slots IH]; intros b base c Hc Hk; [done |].
  cbn [encode_slots slot_views fmap list_fmap table].
  pose proof (run_le (ss_slot_id s) (drop c keys)) as Hr. rewrite length_drop in Hr.
  rewrite IH by lia. rewrite put_fields_app, <- put_fields_shift. f_equal. unfold slot_record.
  rewrite !u32_small by (unfold is_u32; lia). done.
Qed.

Lemma encode_objects_fields b base objects keys c :
  (c <= length keys)%nat -> Z.of_nat (length keys) < 2 ^ 32 ->
  encode_objects b base objects keys c = put_fields b 0 (table base 32 (object_fields <$> object_views objects keys c)).
Proof.
  revert b base c. induction objects as [|o objects IH]; intros b base c Hc Hk; [done |].
  cbn [encode_objects object_views fmap list_fmap table].
  pose proof (run_le (os_object_id o) (drop c keys)) as Hr. rewrite length_drop in Hr.
  rewrite IH by lia. rewrite put_fields_app, <- put_fields_shift. f_equal. unfold object_record.
  rewrite !u32_small by (unfold is_u32; lia). done.
Qed.

Lemma encode_bindings_fields b base l :
  encode_bindings b base l = put_fields b 0 (table base 16 (binding_fields <$> l)).
Proof.
  revert b base. induction l as [|x l IH]; intros b base; [done |]. cbn [encode_bindings fmap list_fmap table].
  by rewrite IH, put_fields_app, <- put_fields_shift.
Qed.

(** The sizes of a valid grant stay far below 2^32. *)
Lemma grant_sizes_small x :
  grant_ok x -> grant_wire_size x < 2 ^ 32 /\ object_base x < 2 ^ 32 /\ binding_base x < 2 ^ 32.
Proof.
  intros []. unfold grant_wire_size, binding_base, object_base, KB2_RESOURCE_GRANT_MAX_SLOTS,
    KB2_RESOURCE_GRANT_MAX_OBJECTS, KB2_RESOURCE_GRANT_MAX_HANDLE_BINDINGS in *. lia.
Qed.

Lemma grant_size_spec x : grant_ok x -> grant_size (as_source x) = Some (grant_wire_size x).
Proof.
  intros Hok. pose proof (grant_sizes_small x Hok) as (Hs & _ & _). unfold grant_size, grant_wire_size in *.
  change KB2_RESOURCE_GRANT_GRANT_HEADER_SIZE with 128. change KB2_RESOURCE_GRANT_SLOT_GRANT_SIZE with 64.
  change KB2_RESOURCE_GRANT_OBJECT_SIZE with 32. change KB2_RESOURCE_GRANT_HANDLE_BINDING_SIZE with 16.
  cbn [as_source gs_slot_count gs_object_count gs_handle_binding_count].
  rewrite add_size_small by (unfold SIZE_MAX, U64_MAX; lia). cbn [mbind option_bind].
  rewrite add_size_small by (unfold SIZE_MAX, U64_MAX; lia). cbn [mbind option_bind].
  rewrite add_size_small by (unfold SIZE_MAX, U64_MAX; lia). cbn [mbind option_bind].
  destruct (Z.ltb_spec U32_MAX (128 + Z.of_nat (length (gv_slots x)) * 64 + Z.of_nat (length (gv_objects x)) * 32 +
    Z.of_nat (length (gv_bindings x)) * 16)) as [H |]; [unfold U32_MAX in H; lia | f_equal; lia].
Qed.

Lemma grant_encode_spec b n x :
  grant_typed x ->
  (grant_wire_size x <= n /\ grant_ok x /\
     grant_encoder b n x = (true, put_fields (zero_bytes b 0 (grant_wire_size x)) 0 (grant_written x))) \/
  (~ (grant_wire_size x <= n /\ grant_ok x) /\ grant_encoder b n x = (false, b)).
Proof.
  intros Ht. unfold grant_encoder, kb2_resource_grant_encode, kb2_resource_grant_encoded_size. cbn [negb].
  destruct (source_valid (Some (as_source x))) eqn:Hv; cbn [negb].
  2: { right. split; [| done]. intros [_ Hok]. apply source_valid_spec in Hok; [congruence | done]. }
  apply source_valid_spec in Hv; [| done]. rewrite grant_size_spec by done.
  destruct (Z.ltb_spec n (grant_wire_size x)) as [Hlt |]; [right; split; [intros []; lia | done] |].
  left. split_and!; [done | done |]. unfold status_encoded. rewrite bool_decide_eq_true_2 by done. cbn [default]. f_equal.
  destruct (source_items x) as (-> & -> & ->). pose proof Hv as [_ _ Hl1 Hl2 Hl3 _ _ _ _ _ _ _ _].
  unfold KB2_RESOURCE_GRANT_MAX_SLOTS, KB2_RESOURCE_GRANT_MAX_OBJECTS, KB2_RESOURCE_GRANT_MAX_HANDLE_BINDINGS in *.
  rewrite encode_bindings_fields, encode_objects_fields, encode_slots_fields by (rewrite ?length_fmap; lia).
  cbn [as_source gs_slot_count gs_object_count gs_handle_binding_count gs_generation gs_closure_manifest_digest].
  pose proof (grant_sizes_small x Hv) as (Hs1 & Hs2 & Hs3). unfold grant_wire_size, object_base, binding_base in *.
  change KB2_RESOURCE_GRANT_GRANT_HEADER_SIZE with 128. change KB2_RESOURCE_GRANT_SLOT_GRANT_SIZE with 64.
  change KB2_RESOURCE_GRANT_OBJECT_SIZE with 32.
  rewrite !(u32_small (Z.of_nat _)) by (unfold is_u32; lia).
  rewrite !(u32_small (Z.of_nat _ * _)) by (unfold is_u32; lia).
  rewrite (u32_small (128 + _)) by (unfold is_u32; lia). rewrite (u32_small (128 + _ + _)) by (unfold is_u32; lia).
  rewrite (u32_small (128 + _ + _ + _)) by (unfold is_u32; lia).
  unfold grant_written, object_base, binding_base. rewrite !put_fields_app.
  rewrite !(Z.mul_comm (Z.of_nat _)). done.
Qed.

(** * The decoder's checks *)

Definition slot_source (s : kb2_resource_grant_slot_t) : kb2_resource_grant_slot_source :=
  mkSlotSource (sl_slot_id s) (sl_resource_type s) (sl_state s) (sl_interface_schema_digest s).
Definition object_source (o : kb2_resource_grant_object_t) : kb2_resource_grant_object_source :=
  mkObjectSource (ob_slot_id o) (ob_object_id o) (ob_granted_rights o).

(** The rows are where their members are, one range after another. *)
Fixpoint placed (cursor : Z) (l : list (Z * Z)) : Prop :=
  match l with [] => True | (start, count) :: l => start = cursor /\ placed (cursor + count) l end.

Notation slot_ranges l := ((fun s => (sl_object_start s, sl_object_count s)) <$> l).
Notation object_ranges l := ((fun o => (ob_handle_start o, ob_handle_count o)) <$> l).

Lemma slot_views_spec l keys c :
  Forall (fun s => 0 <= sl_object_count s) l ->
  l = slot_views (slot_source <$> l) keys c <->
  placed (Z.of_nat c) (slot_ranges l) /\ (Z.to_nat ∘ sl_object_count) <$> l = runs (sl_slot_id <$> l) (drop c keys).
Proof.
  intros Hl. revert c. induction Hl as [|s l Hs _ IH]; intros c; [done |].
  cbn [fmap list_fmap slot_views runs placed compose slot_source ss_slot_id ss_resource_type ss_state
    ss_interface_schema_digest]. set (n := run (sl_slot_id s) (drop c keys)). rewrite drop_drop.
  destruct s as [id ty st start count digest]. cbn in *. split.
  - intros [= -> -> E]. rewrite <- Nat2Z.inj_add. apply IH in E as [? E]. split; [done |].
    fold n. rewrite Nat2Z.id. by f_equal.
  - intros [[-> Hp] [= Hn E]]. assert (count = Z.of_nat n) as -> by lia. rewrite Nat2Z.id in *.
    rewrite <- Nat2Z.inj_add in Hp. f_equal. apply IH. done.
Qed.

Lemma object_views_spec l keys c :
  Forall (fun o => 0 <= ob_handle_count o) l ->
  l = object_views (object_source <$> l) keys c <->
  placed (Z.of_nat c) (object_ranges l) /\ (Z.to_nat ∘ ob_handle_count) <$> l = runs (ob_object_id <$> l) (drop c keys).
Proof.
  intros Hl. revert c. induction Hl as [|o l Ho _ IH]; intros c; [done |].
  cbn [fmap list_fmap object_views runs placed compose object_source os_slot_id os_object_id os_granted_rights].
  set (n := run (ob_object_id o) (drop c keys)). rewrite drop_drop.
  destruct o as [slot id rights start count]. cbn in *. split.
  - intros [= -> -> E]. rewrite <- Nat2Z.inj_add. apply IH in E as [? E]. split; [done |].
    fold n. rewrite Nat2Z.id. by f_equal.
  - intros [[-> Hp] [= Hn E]]. assert (count = Z.of_nat n) as -> by lia. rewrite Nat2Z.id in *.
    rewrite <- Nat2Z.inj_add in Hp. f_equal. apply IH. done.
Qed.

(** The loop over the members of a row. *)
Lemma members_spec {T} (read : nat -> option T) (rows : list T) (key : T -> Z) id cursor count :
  (forall i, read i = rows !! i) ->
  forallb (fun i => match read (cursor + i)%nat with Some x => key x =? id | None => false end) (seq 0 count) = true <->
  take count (drop cursor (key <$> rows)) = replicate count id.
Proof.
  intros Hr. rewrite forallb_forall. split.
  - intros H. assert (Hi : forall i, (i < count)%nat -> (key <$> rows) !! (cursor + i)%nat = Some id).
    { intros i Hi. specialize (H i). rewrite <- list_elem_of_In, elem_of_seq, Hr in H. specialize (H ltac:(lia)).
      rewrite list_lookup_fmap. destruct (rows !! (cursor + i)%nat); [cbn | done]. f_equal. by apply Z.eqb_eq. }
    apply list_eq. intros i. destruct (decide (i < count)%nat).
    + by rewrite lookup_take_lt, lookup_drop, Hi, lookup_replicate_2 by done.
    + rewrite !lookup_ge_None_2; [done | rewrite length_replicate; lia | rewrite length_take; lia].
  - intros E i Hi%list_elem_of_In%elem_of_seq. rewrite Hr.
    assert (Hl : take count (drop cursor (key <$> rows)) !! i = Some id) by by rewrite E, lookup_replicate_2 by lia.
    rewrite lookup_take_lt, lookup_drop, list_lookup_fmap in Hl by lia.
    destruct (rows !! (cursor + i)%nat); [cbn in Hl | done]. apply Z.eqb_eq. by simplify_eq.
Qed.

Lemma grouped_fits ids counts keys count id :
  grouped (id :: ids) (count :: counts) keys -> (count <= length keys)%nat.
Proof.
  intros [Ht _]. apply (f_equal length) in Ht. rewrite length_replicate, length_take in Ht. lia.
Qed.

(** A decoded grant whose rows are all valid. *)
Record rows (g : kb2_resource_grant) (slots : list kb2_resource_grant_slot_t)
    (objects : list kb2_resource_grant_object_t) (bindings : list kb2_resource_grant_handle_binding_t) : Prop := {
  row_slots : forall i, grant_slot g i = slots !! i;
  row_objects : forall i, grant_object g i = objects !! i;
  row_bindings : forall i, grant_binding g i = bindings !! i;
  row_slot_count : grant_count g SLOTS = Z.of_nat (length slots);
  row_object_count : grant_count g OBJECTS = Z.of_nat (length objects);
  row_binding_count : grant_count g HANDLE_BINDINGS = Z.of_nat (length bindings);
  row_slot_ranges : Forall (fun s => 0 <= sl_object_count s) slots;
  row_object_ranges : Forall (fun o => 0 <= ob_handle_count o) objects;
  row_objects_ok : Forall object_view_ok objects;
}.

Section Checks.
Context (g : kb2_resource_grant) (slots : list kb2_resource_grant_slot_t)
  (objects : list kb2_resource_grant_object_t) (bindings : list kb2_resource_grant_handle_binding_t)
  (Hrows : rows g slots objects bindings).

Lemma drop_cons_lookup {T} (l : list T) i x l' : drop i l = x :: l' -> l !! i = Some x /\ drop (S i) l = l'.
Proof.
  intros E. assert (Hi : l !! i = Some x) by by rewrite <- (Nat.add_0_r i), <- lookup_drop, E.
  split; [done |]. erewrite drop_S in E by done. by simplify_eq.
Qed.

Lemma check_slots_spec l index p c :
  drop index slots = l -> (c <= length objects)%nat ->
  check_slots g (length l) index p (Z.of_nat c) = Some (Z.of_nat (length objects)) <->
  increasing p (sl_slot_id <$> l) /\ placed (Z.of_nat c) (slot_ranges l) /\
  grouped (sl_slot_id <$> l) ((Z.to_nat ∘ sl_object_count) <$> l) (drop c (ob_slot_id <$> objects)) /\
  Forall (fun s => state_count (sl_state s) (Z.to_nat (sl_object_count s))) l.
Proof.
  destruct Hrows as [Hs Ho _ _ Hoc _ Hr _ _].
  revert index p c. induction l as [|s l IH]; intros index p c Hd Hc; cbn [length check_slots].
  { cbn. split.
    - intros [= E]. split_and!; [done | done | apply drop_ge; rewrite length_fmap; lia | constructor].
    - intros (_ & _ & E & _). apply (f_equal length) in E. rewrite length_drop, length_fmap in E. cbn in E. f_equal. lia. }
  apply drop_cons_lookup in Hd as [Hl Hd]. rewrite Hs, Hl. cbn [mbind option_bind].
  assert (Hcount : 0 <= sl_object_count s) by by eapply (Forall_lookup_1 _ _ _ _ Hr).
  rewrite Nat2Z.id, Hoc. set (n := Z.to_nat (sl_object_count s)) in *.
  assert (En : sl_object_count s = Z.of_nat n) by lia.
  pose proof (members_spec _ _ ob_slot_id (sl_slot_id s) c n Ho) as Hm.
  cbn [fmap list_fmap increasing placed grouped compose]. fold n. rewrite Forall_cons, drop_drop. fold n.
  unfold state_count at 1. rewrite En.
  pose proof (length_fmap ob_slot_id objects) as Hlen.
  assert (Hfit : take n (drop c (ob_slot_id <$> objects)) = replicate n (sl_slot_id s) -> (n <= length objects - c)%nat).
  { intros E%(f_equal length). rewrite length_replicate, length_take, length_drop, Hlen in E. lia. }
  destruct (Z.leb_spec (sl_slot_id s) p), (Z.eqb_spec (sl_object_start s) (Z.of_nat c)),
    (Z.ltb_spec (Z.of_nat (length objects) - Z.of_nat c) (Z.of_nat n)); cbn [orb negb];
    try (split; [done | intros; exfalso; intuition (lia || done)]).
  destruct (Z.eqb_spec (sl_state s) KB2_RESOURCE_GRANT_SLOT_ABSENT), (Z.eqb_spec (sl_state s) KB2_RESOURCE_GRANT_SLOT_PRESENT),
    (Z.eqb_spec (Z.of_nat n) 0); cbn [orb andb negb]; try (split; [done | intros; exfalso; intuition (lia || done)]);
    (destruct (forallb _ _); [| split; [done | intros (_ & _ & [Ht _] & _); by apply Hm in Ht]]);
    rewrite <- Nat2Z.inj_add, IH by (done || lia); intuition (lia || congruence).
Qed.

Lemma decoded_slot_index_spec id :
  decoded_slot_index g id = source_slot_index (slot_source <$> slots) id.
Proof.
  destruct Hrows as [Hs _ _ Hsc _ _ _ _ _]. unfold decoded_slot_index, source_slot_index.
  rewrite Hsc, Nat2Z.id, length_fmap. apply bsearch_opt_total. intros i Hi. rewrite Hs.
  destruct (lookup_lt_is_Some_2 slots i Hi) as [s E]. rewrite E. cbn. f_equal. symmetry. apply nth_lookup_Some.
  by rewrite !list_lookup_fmap, E.
Qed.

Lemma decoded_object_index_spec id :
  decoded_object_index g id = source_object_index (object_source <$> objects) id.
Proof.
  destruct Hrows as [_ Ho _ _ Hoc _ _ _ _]. unfold decoded_object_index, source_object_index.
  rewrite Hoc, Nat2Z.id, length_fmap. apply bsearch_opt_total. intros i Hi. rewrite Ho.
  destruct (lookup_lt_is_Some_2 objects i Hi) as [o E]. rewrite E. cbn. f_equal. symmetry. apply nth_lookup_Some.
  by rewrite !list_lookup_fmap, E.
Qed.

Lemma check_objects_spec l index ps pid c :
  increasing 0 (sl_slot_id <$> slots) -> drop index objects = l -> (c <= length bindings)%nat ->
  check_objects g (length l) index ps pid (Z.of_nat c) = Some (Z.of_nat (length bindings)) <->
  nondecreasing ps (ob_slot_id <$> l) /\ increasing pid (ob_object_id <$> l) /\
  placed (Z.of_nat c) (object_ranges l) /\
  grouped (ob_object_id <$> l) ((Z.to_nat ∘ ob_handle_count) <$> l) (drop c (hb_object_id <$> bindings)) /\
  Forall (fun o => object_ok (slot_source <$> slots) (object_source o)) l.
Proof.
  intros Hi. destruct Hrows as [Hs Ho Hb _ _ Hbc _ Hr Hov].
  assert (Hi' : increasing 0 (ss_slot_id <$> (slot_source <$> slots))) by by rewrite <- list_fmap_compose.
  revert index ps pid c. induction l as [|o l IH]; intros index ps pid c Hd Hc; cbn [length check_objects].
  { cbn. split.
    - intros [= E]. split_and!; [done | done | done | apply drop_ge; rewrite length_fmap; lia | constructor].
    - intros (_ & _ & _ & E & _). apply (f_equal length) in E. rewrite length_drop, length_fmap in E. cbn in E. f_equal. lia. }
  apply drop_cons_lookup in Hd as [Hl Hd]. rewrite Ho, Hl. cbn [mbind option_bind].
  assert (Hcount : 0 <= ob_handle_count o) by by eapply (Forall_lookup_1 _ _ _ _ Hr).
  assert (Hrights : ob_granted_rights o <> 0) by apply (Forall_lookup_1 _ _ _ _ Hov Hl).
  rewrite Nat2Z.id, Hbc, decoded_slot_index_spec. set (n := Z.to_nat (ob_handle_count o)) in *.
  assert (En : ob_handle_count o = Z.of_nat n) by lia.
  pose proof (members_spec _ _ hb_object_id (ob_object_id o) c n Hb) as Hm.
  cbn [fmap list_fmap nondecreasing increasing placed grouped compose]. fold n. rewrite Forall_cons, drop_drop. fold n.
  rewrite En. pose proof (length_fmap hb_object_id bindings) as Hlen.
  assert (Hfit : take n (drop c (hb_object_id <$> bindings)) = replicate n (ob_object_id o) -> (n <= length bindings - c)%nat).
  { intros E%(f_equal length). rewrite length_replicate, length_take, length_drop, Hlen in E. lia. }
  destruct (Z.ltb_spec (ob_slot_id o) ps), (Z.leb_spec (ob_object_id o) pid),
    (Z.eqb_spec (ob_handle_start o) (Z.of_nat c)), (Z.ltb_spec (Z.of_nat (length bindings) - Z.of_nat c) (Z.of_nat n));
    cbn [orb negb]; try (split; [done | intros; exfalso; intuition (lia || done)]).
  unfold source_slot_index. rewrite <- (length_fmap ss_slot_id (slot_source <$> slots)).
  destruct (bsearch _ _ _ _ _) as [i |] eqn:E; cbn [mbind option_bind].
  2: { split; [done |]. intros (_ & _ & _ & _ & (_ & s & Hin & Hid & _) & _). apply bsearch_present in E; [| done].
       destruct E. cbn in Hid. rewrite <- Hid. by apply list_elem_of_fmap_2. }
  apply bsearch_sorted in E; [| done]. rewrite !list_lookup_fmap in E.
  apply fmap_Some in E as (s' & E & Hid). apply fmap_Some in E as (s & Hsi & ->).
  rewrite Hs, Hsi. cbn [mbind option_bind].
  rewrite (object_ok_at (slot_source <$> slots) i (slot_source s) (object_source o)) by (done || by rewrite list_lookup_fmap, Hsi).
  cbn [slot_source ss_state ss_resource_type object_source os_granted_rights].
  destruct (Z.eqb_spec (sl_state s) KB2_RESOURCE_GRANT_SLOT_PRESENT); cbn [negb];
    [| split; [done | intros; exfalso; intuition done]].
  destruct (Z.eqb_spec (ob_granted_rights o &~ known_rights (sl_resource_type s)) 0) as [Hk | Hk]; cbn [negb];
    rewrite ?orb_false_r, ?orb_true_r; [| split; [done | intros; exfalso; intuition done]].
  destruct (Z.eqb_spec (known_rights (sl_resource_type s)) 0) as [Hz | Hz]; [by rewrite Hz, andn_0_r in Hk |].
  destruct (forallb _ _); [| split; [done | intros (_ & _ & _ & [Ht _] & _); by apply Hm in Ht]].
  rewrite <- Nat2Z.inj_add, IH by (done || lia). intuition (lia || congruence).
Qed.

Lemma check_bindings_spec l index po pr :
  drop index bindings = l ->
  check_bindings g (length l) index po pr = bindings_valid (object_source <$> objects) l index po pr.
Proof.
  destruct Hrows as [_ _ Hb _ _ _ _ _ _]. revert index po pr.
  induction l as [|x l IH]; intros index po pr Hd; [done |]. cbn [length check_bindings bindings_valid].
  apply drop_cons_lookup in Hd as [Hl Hd]. rewrite Hb, Hl, decoded_object_index_spec, IH by done. done.
Qed.
End Checks.

Lemma bindings_nondecreasing index prior l :
  bindings_ordered index prior l -> nondecreasing prior.1 (hb_object_id <$> l).
Proof.
  revert index prior. induction l as [|x l IH]; intros index prior; cbn; [done |]. intros (_ & Ho & Hl).
  split; [lia |]. apply (IH _ _ Hl).
Qed.

(** ** The three tables together *)

Definition rows_value (generation : Z) (digest : list Z) slots objects bindings : grant_value :=
  mkGrantValue generation digest (slot_source <$> slots) (object_source <$> objects) bindings.

Lemma source_ids (slots : list kb2_resource_grant_slot_t) (objects : list kb2_resource_grant_object_t) :
  ss_slot_id <$> (slot_source <$> slots) = sl_slot_id <$> slots /\
  os_slot_id <$> (object_source <$> objects) = ob_slot_id <$> objects /\
  os_object_id <$> (object_source <$> objects) = ob_object_id <$> objects.
Proof. by rewrite <- !list_fmap_compose. Qed.

Section Tables.
Context (g : kb2_resource_grant) (slots : list kb2_resource_grant_slot_t)
  (objects : list kb2_resource_grant_object_t) (bindings : list kb2_resource_grant_handle_binding_t)
  (Hrows : rows g slots objects bindings) (Hviews : Forall slot_view_ok slots)
  (Hstates : Forall (fun s => 0 <= sl_state s) slots) (Hgen : gr_generation g <> 0)
  (Hdig : gr_closure_manifest_digest g <> zero_digest)
  (Hslots : Z.of_nat (length slots) <= KB2_RESOURCE_GRANT_MAX_SLOTS)
  (Hobjects : Z.of_nat (length objects) <= KB2_RESOURCE_GRANT_MAX_OBJECTS)
  (Hbindings : Z.of_nat (length bindings) <= KB2_RESOURCE_GRANT_MAX_HANDLE_BINDINGS).

Local Notation x := (rows_value (gr_generation g) (gr_closure_manifest_digest g) slots objects bindings).

Lemma rows_slot_ok : Forall slot_ok (slot_source <$> slots).
Proof.
  apply Forall_fmap, Forall_forall. intros s Hs. rewrite Forall_forall in Hviews, Hstates.
  specialize (Hstates s Hs). destruct (Hviews s Hs) as [_ Ht Hp Hd]. split; [done | | done]. cbn.
  unfold KB2_RESOURCE_GRANT_SLOT_PRESENT, KB2_RESOURCE_GRANT_SLOT_ABSENT in *. lia.
Qed.

Lemma check_grant_sound : check_grant g = true -> grant_ok x /\ slots = grant_slot_views x /\ objects = grant_object_views x.
Proof.
  pose proof Hrows as [_ _ _ Hsc Hoc Hbc Hsr Hor Hov]. destruct (source_ids slots objects) as (Es & Eo & Ei).
  unfold check_grant. rewrite Hsc, Hoc, Hbc, !Nat2Z.id.
  destruct (check_slots _ _ _ _ _) as [c |] eqn:Ec; [| done]. destruct (Z.eqb_spec c (Z.of_nat (length objects))) as [-> |]; [| done].
  apply (check_slots_spec _ _ _ _ Hrows slots 0 0 0 eq_refl ltac:(lia)) in Ec as (Hsi & Hsp & Hsg & Hss).
  destruct (check_objects _ _ _ _ _ _) as [c |] eqn:Ec; [| done]. destruct (Z.eqb_spec c (Z.of_nat (length bindings))) as [-> |]; [| done].
  apply (check_objects_spec _ _ _ _ Hrows objects 0 0 0 0 Hsi eq_refl ltac:(lia)) in Ec as (Hon & Hoi & Hop & Hog & Hoo).
  cbn [negb]. rewrite (check_bindings_spec _ _ _ _ Hrows bindings 0 0 0 eq_refl).
  rewrite bindings_valid_spec, Ei by by rewrite Ei. intros [Hbo Hbi]. rewrite drop_0 in *.
  destruct (grouped_runs _ _ _ _ Hsi Hsg) as [Hsc' Hsr']. destruct (grouped_runs _ _ _ _ Hoi Hog) as [Hoc' Hor'].
  split_and!.
  - assert (Hobj : Forall (object_ok (slot_source <$> slots)) (object_source <$> objects)) by by apply Forall_fmap.
    split; cbn [rows_value gv_generation gv_digest gv_slots gv_objects gv_bindings]; rewrite ?length_fmap, ?Es, ?Eo, ?Ei;
      try done; [apply rows_slot_ok |].
    rewrite <- Eo. apply state_counts_spec; rewrite ?Es, ?Eo; [done | apply rows_slot_ok | done | done |].
    rewrite <- Hsc'. apply Forall2_fmap. by apply Forall_Forall2_diag.
  - unfold grant_slot_views. cbn [rows_value gv_slots gv_objects]. rewrite Eo. apply slot_views_spec; [done |].
    by rewrite drop_0.
  - unfold grant_object_views. cbn [rows_value gv_objects gv_bindings]. apply object_views_spec; [done |].
    by rewrite drop_0.
Qed.

Lemma check_grant_complete : grant_ok x -> slots = grant_slot_views x -> objects = grant_object_views x -> check_grant g = true.
Proof.
  intros Hok Hvs Hvo. pose proof (grant_objects_grouped x Hok) as Hrest.
  pose proof Hrows as [_ _ _ Hsc Hoc Hbc Hsr Hor Hov]. destruct (source_ids slots objects) as (Es & Eo & Ei).
  destruct Hok as [_ _ _ _ _ Hsi Hso Hoi Hon Hoo Hpr Hbo Hbi].
  unfold grant_slot_views, grant_object_views in *.
  cbn [rows_value gv_slots gv_objects gv_bindings] in *. rewrite ?Es, ?Eo, ?Ei in *.
  apply slot_views_spec in Hvs as [Hsp Hsc']; [| done]. apply object_views_spec in Hvo as [Hop Hoc']; [| done].
  rewrite drop_0 in *. unfold check_grant. rewrite Hsc, Hoc, Hbc, !Nat2Z.id.
  assert (Hcs : check_slots g (length slots) 0 0 0 = Some (Z.of_nat (length objects))).
  { apply (check_slots_spec _ _ _ _ Hrows slots 0 0 0 eq_refl ltac:(lia)). rewrite drop_0.
    split_and!; [done | done | rewrite Hsc'; by apply runs_grouped |].
    pose proof (state_counts_spec (slot_source <$> slots) (object_source <$> objects)) as Hst. rewrite Es, Eo in Hst.
    apply Hst in Hpr; [| done ..]. rewrite <- Hsc', Forall2_fmap_l, Forall2_fmap_r in Hpr.
    apply Forall_lookup. intros i s Hi. apply (Forall2_lookup_lr _ _ _ _ _ _ Hpr Hi Hi). }
  rewrite Hcs, Z.eqb_refl. cbn [negb].
  assert (Hco : check_objects g (length objects) 0 0 0 0 = Some (Z.of_nat (length bindings))).
  { apply (check_objects_spec _ _ _ _ Hrows objects 0 0 0 0 Hsi eq_refl ltac:(lia)). rewrite drop_0.
    split_and!; [done | done | done | | rewrite Forall_fmap in Hoo; exact Hoo].
    rewrite Hoc'. apply runs_grouped. apply (sorted_covered 0 0); [done | by apply (bindings_nondecreasing 0 (0, 0)) |].
    intros k (y & -> & Hy)%list_elem_of_fmap. by apply Hbi. }
  rewrite Hco, Z.eqb_refl. cbn [negb].
  rewrite (check_bindings_spec _ _ _ _ Hrows bindings 0 0 0 eq_refl). apply bindings_valid_spec; by rewrite Ei.
Qed.
End Tables.

(** * The decoder *)

Definition grant_at (b : list Z) (generation : Z) (digest : list Z) (s o h : Z) : kb2_resource_grant :=
  mkGrant (Some b) (128 + 64 * s + 32 * o + 16 * h) generation digest [s; o; h]
    [128; 128 + 64 * s; 128 + 64 * s + 32 * o].

Lemma read_offsets_step b n count counts limit limits size sizes f fields at_ r :
  0 <= count -> limit <= 65536 -> 0 < size <= 64 -> 0 <= at_ <= 2 ^ 31 -> n <= U32_MAX ->
  read_offsets b n (count :: counts) (limit :: limits) (size :: sizes) (f :: fields) at_ = Some r <->
  count <= limit /\ load_u32 b f = at_ /\ at_ + size * count <= n /\
  exists offsets last, r = (at_ :: offsets, last) /\
    read_offsets b n counts limits sizes fields (at_ + size * count) = Some (offsets, last).
Proof.
  intros Hc Hl Hs Ha Hn. cbn [read_offsets].
  destruct (Z.ltb_spec limit count); [split; [done | lia] |].
  destruct (Z.eqb_spec (load_u32 b f) at_) as [E |]; cbn [negb orb]; [| split; [done | intros (_ & ? & _); done]].
  assert (Hx : u64 (at_ + u64 (count * size)) = at_ + size * count).
  { rewrite (u64_small (count * size)) by (unfold is_u64; nia). rewrite u64_small by (unfold is_u64; nia). lia. }
  rewrite Hx. destruct (Z.ltb_spec n (at_ + size * count)); [split; [done | lia] |].
  rewrite u32_small by (unfold is_u32; unfold U32_MAX in Hn; nia). rewrite E.
  destruct (read_offsets b n counts limits sizes fields _) as [[offsets last] |]; cbn.
  - split; [intros [= <-]; split_and!; try done; by eexists _, _ | by intros (_ & _ & _ & ? & ? & -> & [= -> ->])].
  - split; [done | by intros (_ & _ & _ & ? & ? & _ & ?)].
Qed.

Lemma read_offsets_spec b n s o h offsets :
  is_u32 s -> is_u32 o -> is_u32 h -> n <= U32_MAX ->
  read_offsets b n [s; o; h] grant_limits grant_sizes grant_offset_fields KB2_RESOURCE_GRANT_GRANT_HEADER_SIZE =
    Some (offsets, n) <->
  (s <= KB2_RESOURCE_GRANT_MAX_SLOTS /\ o <= KB2_RESOURCE_GRANT_MAX_OBJECTS /\ h <= KB2_RESOURCE_GRANT_MAX_HANDLE_BINDINGS) /\
  (load_u32 b 92 = 128 /\ load_u32 b 96 = 128 + 64 * s /\ load_u32 b 100 = 128 + 64 * s + 32 * o) /\
  n = 128 + 64 * s + 32 * o + 16 * h /\ offsets = [128; 128 + 64 * s; 128 + 64 * s + 32 * o].
Proof.
  unfold is_u32, grant_limits, grant_sizes, grant_offset_fields, KB2_RESOURCE_GRANT_MAX_SLOTS, KB2_RESOURCE_GRANT_MAX_OBJECTS,
    KB2_RESOURCE_GRANT_MAX_HANDLE_BINDINGS. intros Hs Ho Hh Hn.
  change KB2_RESOURCE_GRANT_GRANT_HEADER_SIZE with 128. change KB2_RESOURCE_GRANT_SLOT_GRANT_SIZE with 64.
  change KB2_RESOURCE_GRANT_OBJECT_SIZE with 32. change KB2_RESOURCE_GRANT_HANDLE_BINDING_SIZE with 16.
  change KB2_RESOURCE_GRANT_GRANT_HEADER_SLOT_TABLE_OFFSET_OFFSET with 92.
  change KB2_RESOURCE_GRANT_GRANT_HEADER_OBJECT_TABLE_OFFSET_OFFSET with 96.
  change KB2_RESOURCE_GRANT_GRANT_HEADER_HANDLE_BINDING_TABLE_OFFSET_OFFSET with 100.
  rewrite read_offsets_step by lia. split.
  - intros (Hl1 & E1 & _ & o1 & n1 & [= -> <-] & R). apply read_offsets_step in R as (Hl2 & E2 & _ & o2 & n2 & [= -> <-] & R); [| lia ..].
    apply read_offsets_step in R as (Hl3 & E3 & _ & o3 & n3 & [= -> <-] & R); [| lia ..]. cbn in R. injection R as <- <-.
    done.
  - intros ((Hl1 & Hl2 & Hl3) & (E1 & E2 & E3) & -> & ->). split_and!; [done | done | lia |].
    eexists _, _. split; [done |]. apply read_offsets_step; [lia .. |]. split_and!; [done | done | lia |].
    eexists _, _. split; [done |]. apply read_offsets_step; [lia .. |]. split_and!; [done | done | lia |].
    by eexists _, _.
Qed.

(** The header: what the decoder accepts, and the grant it hands to its table checks. *)
Lemma decode_header b n g :
  status_decoded (kb2_resource_grant_decode (Some b) n true) = Some g <->
  exists generation digest s o h,
    is_u64 generation /\ (blen digest = 32 /\ Forall is_u8 digest) /\ is_u32 s /\ is_u32 o /\ is_u32 h /\
    Forall (reads b 0) (header_fields generation digest s o h ++ header_reserved) /\
    n = 128 + 64 * s + 32 * o + 16 * h /\ generation <> 0 /\ digest <> zero_digest /\
    (s <= KB2_RESOURCE_GRANT_MAX_SLOTS /\ o <= KB2_RESOURCE_GRANT_MAX_OBJECTS /\ h <= KB2_RESOURCE_GRANT_MAX_HANDLE_BINDINGS) /\
    g = grant_at b generation digest s o h /\ check_grant g = true.
Proof.
  unfold kb2_resource_grant_decode, status_decoded. cbn [negb].
  change KB2_RESOURCE_GRANT_GRANT_HEADER_SIZE with 128.
  change KB2_RESOURCE_GRANT_GRANT_HEADER_ABI_IDENTITY_OFFSET with 4.
  change KB2_RESOURCE_GRANT_GRANT_HEADER_SCHEMA_DIGEST_OFFSET with 8.
  change KB2_RESOURCE_GRANT_GRANT_HEADER_TOTAL_SIZE_OFFSET with 0.
  change KB2_RESOURCE_GRANT_GRANT_HEADER_RESERVED_OFFSET with (0 + 104).
  change KB2_RESOURCE_GRANT_GRANT_HEADER_GENERATION_OFFSET with 40.
  change KB2_RESOURCE_GRANT_GRANT_HEADER_CLOSURE_MANIFEST_DIGEST_OFFSET with 48.
  change KB2_RESOURCE_GRANT_GRANT_HEADER_SLOT_COUNT_OFFSET with 80.
  change KB2_RESOURCE_GRANT_GRANT_HEADER_OBJECT_COUNT_OFFSET with 84.
  change KB2_RESOURCE_GRANT_GRANT_HEADER_HANDLE_BINDING_COUNT_OFFSET with 88. cbv zeta.
  pose proof (get_bytes_typed b 48 32 ltac:(lia)) as Hdt.
  pose proof (bytes_are_zero_reads b 0 104 24 ltac:(lia)) as Hz.
  pose proof (bytes_equal_reads b 4 KB2_RESOURCE_GRANT_ABI_IDENTITY_BYTES) as Ha.
  pose proof (bytes_equal_reads b 8 KB2_RESOURCE_GRANT_SCHEMA_SHA256_BYTES) as Hsch.
  split.
  - destruct (Z.ltb_spec n 128); [done |]. destruct (Z.ltb_spec U32_MAX n); [done |].
    destruct (bytes_equal b 4 _); [| done]. destruct (bytes_equal b 8 _); [| done]. cbn [negb orb].
    destruct (Z.eqb_spec (load_u32 b 0) n); [| done]. destruct (bytes_are_zero b _ 24); [| done]. cbn [negb orb].
    destruct (read_offsets _ _ _ _ _ _ _) as [[offsets last] |] eqn:Er; [| done].
    destruct (Z.eqb_spec last n) as [-> |]; [| done]. cbn [negb orb].
    destruct (Z.eqb_spec (load_u64 b 40) 0) as [| Hg]; [done |].
    destruct (digest_is_zero _) eqn:Ed; [done |]. apply digest_nonzero in Ed. cbn [orb].
    apply read_offsets_spec in Er as (Hlim & Hoff & Hn & ->); try apply load_u32_range; [| done].
    rewrite Hn. fold (grant_at b (load_u64 b 40) (get_bytes b 48 32) (load_u32 b 80) (load_u32 b 84) (load_u32 b 88)).
    destruct (check_grant _) eqn:Ec; [| done]. cbn. intros [= <-].
    exists (load_u64 b 40), (get_bytes b 48 32), (load_u32 b 80), (load_u32 b 84), (load_u32 b 88). split_and!; try done; try first [apply load_u64_range | apply load_u32_range | apply Hdt | apply Hlim].
    unfold header_fields, header_reserved. cbn [app]. destruct Hoff as (O1 & O2 & O3).
    repeat (apply Forall_cons; split); try done; try (by apply Ha); try (by apply Hsch); try (by apply Hz). by rewrite <- Hn.
  - intros (gen & digest & s & o & h & Hg & Hd & Hs & Ho & Hh & Hr & -> & Hg0 & Hd0 & Hlim & -> & Hc).
    unfold header_fields, header_reserved in Hr. cbn [app] in Hr.
    assert (Hr' := Hr). solve_reads. rewrite (proj2 Ha) by done. rewrite (proj2 Hsch) by done.
    rewrite (proj2 Hz) by done.
    repeat match goal with H : load_u32 b ?k = _ |- _ => rewrite !H; revert H | H : load_u64 b ?k = _ |- _ => rewrite !H; revert H
      | H : get_bytes b 48 32 = _ |- _ => rewrite !H; revert H end. intros.
    set (n := 128 + 64 * s + 32 * o + 16 * h).
    assert (Hn : 128 <= n <= U32_MAX).
    { unfold n, is_u32, U32_MAX, KB2_RESOURCE_GRANT_MAX_SLOTS, KB2_RESOURCE_GRANT_MAX_OBJECTS,
        KB2_RESOURCE_GRANT_MAX_HANDLE_BINDINGS in *. lia. }
    rewrite (proj2 (Z.ltb_ge n 128)), (proj2 (Z.ltb_ge U32_MAX n)), Z.eqb_refl by lia. cbn [negb orb].
    pose proof (proj2 (read_offsets_spec b n s o h [128; 128 + 64 * s; 128 + 64 * s + 32 * o] Hs Ho Hh ltac:(lia))) as Hro.
    change KB2_RESOURCE_GRANT_GRANT_HEADER_SIZE with 128 in Hro. rewrite Hro by (split_and!; done || tauto).
    rewrite Z.eqb_refl, (proj2 (Z.eqb_neq gen 0)) by done. cbn [negb orb].
    destruct (digest_is_zero digest) eqn:Ed; [by apply digest_is_zero_spec in Ed; [| apply Hd ..] |].
    fold (grant_at b gen digest s o h) in *. unfold n. unfold grant_at in Hc. rewrite Hc. done.
Qed.

(** Decoding a grant and reading every row through the accessors. *)
Definition grant_decoder (b : list Z) (n : Z) : option grant_value :=
  g ← status_decoded (kb2_resource_grant_decode (Some b) n true);
  slots ← mapM (grant_slot g) (seq 0 (Z.to_nat (kb2_resource_grant_slot_count (Some g))));
  objects ← mapM (grant_object g) (seq 0 (Z.to_nat (kb2_resource_grant_object_count (Some g))));
  bindings ← mapM (grant_binding g) (seq 0 (Z.to_nat (kb2_resource_grant_handle_binding_count (Some g))));
  Some (rows_value (gr_generation g) (gr_closure_manifest_digest g) slots objects bindings).

(** The fields of a grant, table by table. *)
Lemma grant_reads b x :
  Forall (reads b 0) (grant_written x ++ grant_reserved x) <->
  Forall (reads b 0) (header_fields (gv_generation x) (gv_digest x) (Z.of_nat (length (gv_slots x)))
    (Z.of_nat (length (gv_objects x))) (Z.of_nat (length (gv_bindings x))) ++ header_reserved) /\
  (forall i v, grant_slot_views x !! i = Some v ->
    Forall (reads b (128 + 64 * Z.of_nat i)) (slot_fields v ++ slot_reserved)) /\
  (forall i v, grant_object_views x !! i = Some v ->
    Forall (reads b (object_base x + 32 * Z.of_nat i)) (object_fields v ++ object_reserved)) /\
  (forall i v, gv_bindings x !! i = Some v ->
    Forall (reads b (binding_base x + 16 * Z.of_nat i)) (binding_fields v)).
Proof.
  assert (Htab : forall {T} (w r : T -> list field) base size (l : list T),
    Forall (reads b 0) (table base size (w <$> l)) /\ Forall (reads b 0) (table base size (r <$> l)) <->
    forall i v, l !! i = Some v -> Forall (reads b (base + size * Z.of_nat i)) (w v ++ r v)).
  { intros T w r base size l. rewrite !table_reads. setoid_rewrite Forall_app. split.
    - intros [Hw Hr] i v Hi. split; [apply Hw | apply Hr]; by rewrite list_lookup_fmap, Hi.
    - intros H. split; intros i f; rewrite list_lookup_fmap, fmap_Some; intros (v & Hi & ->); by apply (H i v Hi). }
  unfold grant_written, grant_reserved.
  pose proof (Htab _ slot_fields (fun _ => slot_reserved) 128 64 (grant_slot_views x)) as H1.
  pose proof (Htab _ object_fields (fun _ => object_reserved) (object_base x) 32 (grant_object_views x)) as H2.
  pose proof (Htab _ binding_fields (fun _ => []) (binding_base x) 16 (gv_bindings x)) as H3.
  setoid_rewrite app_nil_r in H3. rewrite <- H1, <- H2, <- H3. rewrite !Forall_app. tauto.
Qed.

Lemma slot_view_typed b d v :
  Forall (reads b d) (slot_fields v) -> slot_typed (slot_source v) /\ 0 <= sl_object_count v /\ 0 <= sl_state v.
Proof.
  unfold slot_fields. intros Hr. solve_reads. destruct v. cbn in *. subst.
  split; [split; cbn; try apply load_u32_range; by apply get_bytes_typed |].
  split; apply load_u32_range.
Qed.

Lemma object_view_typed b d v :
  Forall (reads b d) (object_fields v) -> object_typed (object_source v) /\ 0 <= ob_handle_count v.
Proof.
  unfold object_fields. intros Hr. solve_reads. destruct v. cbn in *. subst.
  split; [split; cbn; try apply load_u32_range; apply load_u64_range |]. apply load_u32_range.
Qed.

Lemma binding_view_typed b d v : Forall (reads b d) (binding_fields v) -> binding_typed v.
Proof.
  unfold binding_fields. intros Hr. solve_reads. destruct v. cbn in *. subst.
  split; cbn; try apply load_u32_range; apply load_u64_range.
Qed.

(** The accessors of a decoded grant are reads at the row's place. *)
Lemma grant_at_slot b generation digest s o h i v :
  grant_slot (grant_at b generation digest s o h) i = Some v <->
  Z.of_nat i < s /\ slot_view_ok v /\ Forall (reads b (128 + 64 * Z.of_nat i)) (slot_fields v ++ slot_reserved).
Proof. apply grant_slot_spec. Qed.
Lemma grant_at_object b generation digest s o h i v :
  grant_object (grant_at b generation digest s o h) i = Some v <->
  Z.of_nat i < o /\ object_view_ok v /\
  Forall (reads b (128 + 64 * s + 32 * Z.of_nat i)) (object_fields v ++ object_reserved).
Proof. apply grant_object_spec. Qed.
Lemma grant_at_binding b generation digest s o h i v :
  grant_binding (grant_at b generation digest s o h) i = Some v <->
  Z.of_nat i < h /\ hb_object_id v <> 0 /\
  Forall (reads b (128 + 64 * s + 32 * o + 16 * Z.of_nat i)) (binding_fields v).
Proof. apply grant_binding_spec. Qed.

Lemma grant_decode_reads b n x :
  grant_decoder b n = Some x ->
  grant_typed x /\ grant_ok x /\ n = grant_wire_size x /\ Forall (reads b 0) (grant_written x ++ grant_reserved x).
Proof.
  unfold grant_decoder. intros (g & Hd & Hx)%bind_Some.
  apply decode_header in Hd as (gen & digest & s & o & h & Hg & Hdg & Hs & Ho & Hh & Hhr & Hn & Hg0 & Hd0 & Hlim & -> & Hc).
  apply bind_Some in Hx as (slots & Ms & Hx). apply bind_Some in Hx as (objects & Mo & Hx).
  apply bind_Some in Hx as (bindings & Mb & Hx). injection Hx as <-.
  change (kb2_resource_grant_slot_count _) with s in Ms. change (kb2_resource_grant_object_count _) with o in Mo.
  change (kb2_resource_grant_handle_binding_count _) with h in Mb. unfold is_u32 in Hs, Ho, Hh.
  apply rows_mapM in Ms as [Ls Rs]. 2: { intros i Hi. apply eq_None_not_Some. intros [v (? & _)%grant_at_slot]. lia. }
  apply rows_mapM in Mo as [Lo Ro]. 2: { intros i Hi. apply eq_None_not_Some. intros [v (? & _)%grant_at_object]. lia. }
  apply rows_mapM in Mb as [Lb Rb]. 2: { intros i Hi. apply eq_None_not_Some. intros [v (? & _)%grant_at_binding]. lia. }
  set (g := grant_at b gen digest s o h) in *.
  assert (Es : s = Z.of_nat (length slots)) by lia. assert (Eo : o = Z.of_nat (length objects)) by lia.
  assert (Eb : h = Z.of_nat (length bindings)) by lia.
  assert (Ss : forall i v, slots !! i = Some v -> slot_view_ok v /\
    Forall (reads b (128 + 64 * Z.of_nat i)) (slot_fields v ++ slot_reserved)).
  { intros i v Hi. rewrite <- Rs in Hi. by apply grant_at_slot in Hi as (_ & ? & ?). }
  assert (So : forall i v, objects !! i = Some v -> object_view_ok v /\
    Forall (reads b (128 + 64 * s + 32 * Z.of_nat i)) (object_fields v ++ object_reserved)).
  { intros i v Hi. rewrite <- Ro in Hi. by apply grant_at_object in Hi as (_ & ? & ?). }
  assert (Sb : forall i v, bindings !! i = Some v -> Forall (reads b (128 + 64 * s + 32 * o + 16 * Z.of_nat i)) (binding_fields v)).
  { intros i v Hi. rewrite <- Rb in Hi. by apply grant_at_binding in Hi as (_ & _ & ?). }
  assert (Ts : Forall (fun v => slot_typed (slot_source v) /\ 0 <= sl_object_count v /\ 0 <= sl_state v) slots).
  { apply Forall_lookup. intros i v Hi. apply Ss in Hi as [_ [Hi _]%Forall_app]. by eapply slot_view_typed. }
  assert (To : Forall (fun v => object_typed (object_source v) /\ 0 <= ob_handle_count v) objects).
  { apply Forall_lookup. intros i v Hi. apply So in Hi as [_ [Hi _]%Forall_app]. by eapply object_view_typed. }
  assert (Hrows : rows g slots objects bindings).
  { split; try done.
    - by eapply Forall_impl; [exact Ts | cbn; tauto].
    - by eapply Forall_impl; [exact To | cbn; tauto].
    - apply Forall_lookup. intros i v Hi. by apply So in Hi as [? _]. }
  assert (Hvs : Forall slot_view_ok slots) by (apply Forall_lookup; intros i v Hi; by apply Ss in Hi as [? _]).
  assert (Hst : Forall (fun v => 0 <= sl_state v) slots) by (eapply Forall_impl; [exact Ts | cbn; tauto]).
  destruct (check_grant_sound g slots objects bindings Hrows Hvs Hst) as (Hok & Vs & Vo); try done; [lia .. |].
  cbn [gr_generation gr_closure_manifest_digest g grant_at] in *. split_and!.
  - split; [done | done | apply Forall_fmap; eapply Forall_impl; [exact Ts | cbn; tauto] |
      apply Forall_fmap; eapply Forall_impl; [exact To | cbn; tauto] |].
    apply Forall_lookup. intros i v Hi. by eapply binding_view_typed, Sb.
  - done.
  - unfold grant_wire_size. cbn [rows_value gv_slots gv_objects gv_bindings]. rewrite !length_fmap. lia.
  - apply grant_reads. rewrite <- Vs, <- Vo. unfold binding_base, object_base.
    cbn [rows_value gv_generation gv_digest gv_slots gv_objects gv_bindings]. rewrite !length_fmap, <- Es, <- Eo, <- Eb.
    split_and!; [done | by intros i v [_ ?]%Ss | by intros i v [_ ?]%So | done].
Qed.

Lemma slot_source_views slots keys c : slot_source <$> slot_views slots keys c = slots.
Proof. revert c. induction slots as [|[] slots IH]; intros c; [done |]. cbn. by rewrite IH. Qed.
Lemma object_source_views objects keys c : object_source <$> object_views objects keys c = objects.
Proof. revert c. induction objects as [|[] objects IH]; intros c; [done |]. cbn. by rewrite IH. Qed.

Lemma slot_views_counts slots keys c : Forall (fun s => 0 <= sl_object_count s) (slot_views slots keys c).
Proof. revert c. induction slots as [|s slots IH]; intros c; constructor; [cbn; lia | apply IH]. Qed.
Lemma object_views_counts objects keys c : Forall (fun o => 0 <= ob_handle_count o) (object_views objects keys c).
Proof. revert c. induction objects as [|o objects IH]; intros c; constructor; [cbn; lia | apply IH]. Qed.

Lemma grant_slot_views_ok x : grant_typed x -> grant_ok x -> Forall slot_view_ok (grant_slot_views x).
Proof.
  intros _ [_ _ _ _ _ Hsi Hso _ _ _ _ _ _]. apply Forall_forall. intros v Hv.
  assert (Hin : slot_source v ∈ gv_slots x).
  { rewrite <- (slot_source_views (gv_slots x) (os_slot_id <$> gv_objects x) 0). by apply list_elem_of_fmap_2. }
  rewrite Forall_forall in Hso. destruct (Hso _ Hin) as [Ht Hs Hd].
  pose proof (increasing_above _ _ _ Hsi (list_elem_of_fmap_2 _ _ _ Hin)) as Hp. cbn in *.
  unfold KB2_RESOURCE_GRANT_SLOT_PRESENT, KB2_RESOURCE_GRANT_SLOT_ABSENT in *.
  split; [lia | done | unfold KB2_RESOURCE_GRANT_SLOT_PRESENT; lia | done].
Qed.

Lemma grant_object_views_ok x : grant_ok x -> Forall object_view_ok (grant_object_views x).
Proof.
  intros [_ _ _ _ _ Hsi _ Hoi _ Hoo _ _ _]. apply Forall_forall. intros v Hv.
  assert (Hin : object_source v ∈ gv_objects x).
  { rewrite <- (object_source_views (gv_objects x) (hb_object_id <$> gv_bindings x) 0). by apply list_elem_of_fmap_2. }
  pose proof (increasing_above _ _ _ Hoi (list_elem_of_fmap_2 _ _ _ Hin)) as Hp.
  rewrite Forall_forall in Hoo. destruct (Hoo _ Hin) as (Hr & s & Hs & Hid & _).
  pose proof (increasing_above _ _ _ Hsi (list_elem_of_fmap_2 _ _ _ Hs)) as Hp'. cbn in *.
  split; [lia | lia | done].
Qed.

Lemma grant_rows b x :
  grant_typed x -> grant_ok x -> Forall (reads b 0) (grant_written x ++ grant_reserved x) ->
  rows (grant_at b (gv_generation x) (gv_digest x) (Z.of_nat (length (gv_slots x))) (Z.of_nat (length (gv_objects x)))
          (Z.of_nat (length (gv_bindings x))))
    (grant_slot_views x) (grant_object_views x) (gv_bindings x).
Proof.
  intros Ht Hok (_ & Hs & Ho & Hb)%grant_reads.
  pose proof (grant_slot_views_ok x Ht Hok) as Hsv. pose proof (grant_object_views_ok x Hok) as Hov.
  assert (Ls : length (grant_slot_views x) = length (gv_slots x)) by apply length_slot_views.
  assert (Lo : length (grant_object_views x) = length (gv_objects x)) by apply length_object_views.
  split; try done; try (cbn; lia).
  - intros i. destruct (grant_slot_views x !! i) as [v |] eqn:E.
    + pose proof (lookup_lt_Some _ _ _ E). apply grant_at_slot.
      split_and!; [lia | by eapply Forall_lookup_1 in Hsv | by apply Hs].
    + apply lookup_ge_None in E. apply eq_None_not_Some. intros [v (? & _)%grant_at_slot]. lia.
  - intros i. destruct (grant_object_views x !! i) as [v |] eqn:E.
    + pose proof (lookup_lt_Some _ _ _ E). apply grant_at_object.
      split_and!; [lia | by eapply Forall_lookup_1 in Hov | by apply Ho].
    + apply lookup_ge_None in E. apply eq_None_not_Some. intros [v (? & _)%grant_at_object]. lia.
  - intros i. destruct (gv_bindings x !! i) as [v |] eqn:E.
    + pose proof (lookup_lt_Some _ _ _ E). apply grant_at_binding. split_and!; [lia | | by apply Hb].
      destruct Hok as [_ _ _ _ _ _ _ Hoi _ _ _ _ Hbi]. specialize (Hbi v ltac:(by eapply list_elem_of_lookup_2)).
      pose proof (increasing_above _ _ _ Hoi Hbi). lia.
    + apply lookup_ge_None in E. apply eq_None_not_Some. intros [v (? & _)%grant_at_binding]. lia.
  - apply slot_views_counts.
  - apply object_views_counts.
Qed.

(** The grant a decoder makes of the bytes of a valid value. *)
Definition decoded_grant (b : list Z) (x : grant_value) : kb2_resource_grant :=
  grant_at b (gv_generation x) (gv_digest x) (Z.of_nat (length (gv_slots x))) (Z.of_nat (length (gv_objects x)))
    (Z.of_nat (length (gv_bindings x))).

Lemma views_value x :
  rows_value (gv_generation x) (gv_digest x) (grant_slot_views x) (grant_object_views x) (gv_bindings x) = x.
Proof.
  unfold rows_value, grant_slot_views, grant_object_views. rewrite slot_source_views, object_source_views. by destruct x.
Qed.

Lemma grant_decoded b x :
  grant_typed x -> grant_ok x -> Forall (reads b 0) (grant_written x ++ grant_reserved x) ->
  status_decoded (kb2_resource_grant_decode (Some b) (grant_wire_size x) true) = Some (decoded_grant b x).
Proof.
  intros Ht Hok Hr. pose proof (grant_rows b x Ht Hok Hr) as Hrows. apply grant_reads in Hr as (Hh & _).
  pose proof Hok as [Hg0 Hd0 Hl1 Hl2 Hl3 _ _ _ _ _ _ _ _]. pose proof Ht as [Htg Htd _ _ _].
  assert (Hc : check_grant (decoded_grant b x) = true).
  { apply (check_grant_complete _ _ _ _ Hrows); cbn [gr_generation gr_closure_manifest_digest grant_at]; by rewrite views_value. }
  apply decode_header. exists (gv_generation x), (gv_digest x), (Z.of_nat (length (gv_slots x))),
    (Z.of_nat (length (gv_objects x))), (Z.of_nat (length (gv_bindings x))).
  unfold is_u32, KB2_RESOURCE_GRANT_MAX_SLOTS, KB2_RESOURCE_GRANT_MAX_OBJECTS, KB2_RESOURCE_GRANT_MAX_HANDLE_BINDINGS in *.
  split_and!; first [done | apply Htd | lia].
Qed.

Lemma grant_reads_decode b n x :
  grant_typed x -> grant_ok x -> n = grant_wire_size x ->
  Forall (reads b 0) (grant_written x ++ grant_reserved x) -> grant_decoder b n = Some x.
Proof.
  intros Ht Hok -> Hr. pose proof (grant_rows b x Ht Hok Hr) as Hrows.
  fold (decoded_grant b x) in Hrows. unfold grant_decoder. rewrite (grant_decoded b x Ht Hok Hr). cbn [mbind option_bind].
  change (kb2_resource_grant_slot_count (Some (decoded_grant b x))) with (Z.of_nat (length (gv_slots x))).
  change (kb2_resource_grant_object_count (Some (decoded_grant b x))) with (Z.of_nat (length (gv_objects x))).
  change (kb2_resource_grant_handle_binding_count (Some (decoded_grant b x))) with (Z.of_nat (length (gv_bindings x))).
  assert (Ls : length (grant_slot_views x) = length (gv_slots x)) by apply length_slot_views.
  assert (Lo : length (grant_object_views x) = length (gv_objects x)) by apply length_object_views.
  rewrite !Nat2Z.id, <- Ls, <- Lo.
  rewrite (mapM_rows _ _ (row_slots _ _ _ _ Hrows)). cbn [mbind option_bind].
  rewrite (mapM_rows _ _ (row_objects _ _ _ _ Hrows)). cbn [mbind option_bind].
  rewrite (mapM_rows _ _ (row_bindings _ _ _ _ Hrows)). cbn [mbind option_bind].
  cbn [decoded_grant grant_at gr_generation gr_closure_manifest_digest]. by rewrite views_value.
Qed.

(** * The wire format *)

Lemma slot_views_bounds slots keys c :
  (c <= length keys)%nat ->
  Forall (fun v => 0 <= sl_object_start v /\ 0 <= sl_object_count v /\
            sl_object_start v + sl_object_count v <= Z.of_nat (length keys)) (slot_views slots keys c).
Proof.
  revert c. induction slots as [|s slots IH]; intros c Hc; [constructor |].
  pose proof (run_le (ss_slot_id s) (drop c keys)) as Hr. rewrite length_drop in Hr.
  constructor; [cbn; lia | apply IH; lia].
Qed.

Lemma object_views_bounds objects keys c :
  (c <= length keys)%nat ->
  Forall (fun v => 0 <= ob_handle_start v /\ 0 <= ob_handle_count v /\
            ob_handle_start v + ob_handle_count v <= Z.of_nat (length keys)) (object_views objects keys c).
Proof.
  revert c. induction objects as [|o objects IH]; intros c Hc; [constructor |].
  pose proof (run_le (os_object_id o) (drop c keys)) as Hr. rewrite length_drop in Hr.
  constructor; [cbn; lia | apply IH; lia].
Qed.

Lemma slot_fields_typed x v :
  grant_typed x -> grant_ok x -> v ∈ grant_slot_views x -> Forall field_typed (slot_fields v).
Proof.
  intros [_ _ Hts _ _] [_ _ _ Hl2 _ _ _ _ _ _ _ _ _] Hv. unfold KB2_RESOURCE_GRANT_MAX_OBJECTS in Hl2.
  pose proof (slot_views_bounds (gv_slots x) (os_slot_id <$> gv_objects x) 0 ltac:(lia)) as Hb.
  rewrite length_fmap in Hb. rewrite <- (slot_source_views (gv_slots x) (os_slot_id <$> gv_objects x) 0), Forall_fmap in Hts.
  eapply Forall_forall in Hb; [| exact Hv]. eapply Forall_forall in Hts as [? ? ? ?]; [| exact Hv]. cbn in *.
  unfold slot_fields. repeat (apply Forall_cons; split); cbn; try first [done | unfold is_u32; lia].
Qed.

Lemma object_fields_typed x v :
  grant_typed x -> grant_ok x -> v ∈ grant_object_views x -> Forall field_typed (object_fields v).
Proof.
  intros [_ _ _ Hto _] [_ _ _ _ Hl3 _ _ _ _ _ _ _ _] Hv. unfold KB2_RESOURCE_GRANT_MAX_HANDLE_BINDINGS in Hl3.
  pose proof (object_views_bounds (gv_objects x) (hb_object_id <$> gv_bindings x) 0 ltac:(lia)) as Hb.
  rewrite length_fmap in Hb. rewrite <- (object_source_views (gv_objects x) (hb_object_id <$> gv_bindings x) 0), Forall_fmap in Hto.
  eapply Forall_forall in Hb; [| exact Hv]. eapply Forall_forall in Hto as [? ? ?]; [| exact Hv]. cbn in *.
  unfold object_fields. repeat (apply Forall_cons; split); cbn; try first [done | unfold is_u32; lia].
Qed.

Lemma grant_written_typed x : grant_typed x -> grant_ok x -> Forall field_typed (grant_written x).
Proof.
  intros Ht Hok. pose proof (grant_sizes_small x Hok) as (Hs1 & Hs2 & Hs3). pose proof Ht as [Hg Hd _ _ Htb].
  unfold grant_wire_size, object_base, binding_base in *. unfold grant_written. rewrite !Forall_app. split_and!.
  - unfold header_fields. repeat (apply Forall_cons; split); [.. | constructor]; cbn [field_typed]; unfold is_u32;
      try lia; try done; split; [done | repeat constructor; done | done | repeat constructor; done].
  - apply table_typed, Forall_fmap, Forall_forall. intros v Hv. by eapply slot_fields_typed.
  - apply table_typed, Forall_fmap, Forall_forall. intros v Hv. by eapply object_fields_typed.
  - apply table_typed, Forall_fmap. eapply Forall_impl; [exact Htb |]. intros v [? ? ?]. unfold binding_fields.
    by repeat (apply Forall_cons; split).
Qed.

Lemma grant_reserved_zero x : Forall zeroed (grant_reserved x).
Proof.
  unfold grant_reserved. rewrite !Forall_app. split_and!; [by repeat constructor | ..]; apply table_zeroed, Forall_fmap, Forall_true;
    intros v; by repeat constructor.
Qed.

Lemma grant_wire :
  WireFormat grant_encoder grant_decoder grant_typed grant_ok (fun n x => grant_wire_size x <= n)
    (fun n x => n = grant_wire_size x) grant_wire_size.
Proof.
  apply (record_wire grant_wire_size grant_written grant_reserved).
  - intros x _. unfold grant_wire_size. lia.
  - apply grant_written_typed.
  - intros x _. apply grant_reserved_zero.
  - intros x _. eapply tiled_separate, grant_tiled.
  - intros x _. eapply tiled_apart, grant_tiled.
  - intros x _. eapply tiled_covered, grant_tiled.
  - apply grant_encode_spec.
  - intros b n x. unfold grant_encoder, kb2_resource_grant_encode, status_encoded. cbn [negb].
    destruct (kb2_resource_grant_encoded_size _ _) as [[] [size |]]; try done. by destruct (n <? size).
  - apply grant_decode_reads.
  - apply grant_reads_decode.
  - done.
  - intros n x _ ->. lia.
Qed.
