(* ===== verification/ResourceGrantClaims.v ===== *)
(** Claims about resource grants: the wire format, and the check of a grant against
    the manifest of the closure it is for. *)

From Stdlib Require Import ZArith Lia.
From stdpp Require Import base numbers tactics sets list_numbers list.
From S2P Require Import Prelude Bytes Layout Tables Sorted Protocol ProtocolSpec ClosureLayout.
From S2P Require Import Sha256 Sha256Spec Sha256Claims ClosureManifest ClosureManifestSpec.
From S2P Require Import ResourceGrant ResourceGrantSpec ResourceGrantWire.

Open Scope Z_scope.
Open Scope kobox_scope.

(** A grant of a memory object with one handle and of nothing else. *)
Definition sample_slot : kb2_resource_grant_slot_source := mkSlotSource 3 0 1 (replicate 32 9).
Definition absent_slot : kb2_resource_grant_slot_source := mkSlotSource 5 1 0 (replicate 32 8).
Definition sample_grant (digest : list Z) : grant_value :=
  mkGrantValue 1 digest [sample_slot; absent_slot] [mkObjectSource 3 7 3] [mkHandleBinding 7 2 0].

Lemma sample_grant_ok digest : digest <> zero_digest -> grant_ok (sample_grant digest).
Proof.
  intros Hd. split; cbn; try done.
  - repeat (apply Forall_cons; split); [.. | constructor]; split; cbn; try done; [by right | by left].
  - apply Forall_singleton. split; [done |]. exists sample_slot. split_and!; try done. by left.
  - intros s [-> | [-> | []%elem_of_nil]%elem_of_cons]%elem_of_cons; [by left | done].
  - split; [done | split; [by left | done]].
  - intros y [-> | []%elem_of_nil]%elem_of_cons. by left.
Qed.

(** C31. Resource grants are an exact wire format: the encoder accepts exactly the
    valid grants (rows in order, every object in a present slot whose type has the
    rights granted, every present slot with an object, every handle on an object) that
    fit, reports their size, leaves the buffer alone otherwise and touches no byte past
    the message; what it wrote decodes, through the accessors, to the same grant; and
    the decoder accepts nothing but the encoder's bytes for a valid grant and looks at
    no byte past the given size. *)
Theorem resource_grant_wire :
  WireFormat grant_encoder grant_decoder grant_typed grant_ok (fun n x => grant_wire_size x <= n)
    (fun n x => n = grant_wire_size x) grant_wire_size /\
  (forall x, grant_typed x ->
     (grant_ok x /\ kb2_resource_grant_encoded_size (Some (as_source x)) true = (KB2_PROTOCOL_OK, Some (grant_wire_size x))) \/
     (~ grant_ok x /\ kb2_resource_grant_encoded_size (Some (as_source x)) true = (KB2_PROTOCOL_MALFORMED, None))).
Proof.
  split; [exact grant_wire |]. intros x Ht. unfold kb2_resource_grant_encoded_size. cbn [negb].
  destruct (source_valid (Some (as_source x))) eqn:Hv; cbn [negb].
  - left. apply source_valid_spec in Hv; [| done]. by rewrite grant_size_spec.
  - right. split; [| done]. intros Hok%source_valid_spec; [congruence | done].
Qed.

(** * Checking a grant against a manifest *)

(** The slot [s] of a grant with [objects] satisfies the requirement [r]. *)
Record requirement_met (objects : list kb2_resource_grant_object_source) (s : kb2_resource_grant_slot_source)
    (r : kb2_closure_manifest_resource_t) : Prop := {
  rm_slot : ss_slot_id s = mr_slot_id r;
  rm_type : ss_resource_type s = mr_type r;
  rm_interface : ss_interface_schema_digest s = mr_interface_schema_digest r;
  rm_absent : ss_state s = KB2_RESOURCE_GRANT_SLOT_ABSENT -> Z.land (mr_flags r) KB2_CLOSURE_RESOURCE_FLAG_REQUIRED = 0;
  rm_present : ss_state s = KB2_RESOURCE_GRANT_SLOT_PRESENT ->
    let granted := filter (fun o => os_slot_id o = ss_slot_id s) objects in
    mr_minimum_count r <= Z.of_nat (length granted) <= mr_maximum_count r /\
    Forall (fun o => Z.land (os_granted_rights o) (mr_required_rights r) = mr_required_rights r /\
                     os_granted_rights o &~ mr_maximum_rights r = 0) granted;
}.

Lemma filter_none {T} (P : T -> Prop) `{forall x, Decision (P x)} l : Forall (fun x => ~ P x) l -> filter P l = [].
Proof. induction 1 as [|x l Hx _ IH]; [done |]. by rewrite filter_cons_False. Qed.
Lemma filter_all {T} (P : T -> Prop) `{forall x, Decision (P x)} l : Forall P l -> filter P l = l.
Proof. induction 1 as [|x l Hx _ IH]; [done |]. by rewrite filter_cons_True, IH. Qed.

(** The range of a slot holds exactly the objects that name it. *)
Lemma slot_range_objects p slots objects c i v :
  increasing p (ss_slot_id <$> slots) ->
  run_rest (ss_slot_id <$> slots) (drop c (os_slot_id <$> objects)) = [] ->
  slot_views slots (os_slot_id <$> objects) c !! i = Some v ->
  take (Z.to_nat (sl_object_count v)) (drop (Z.to_nat (sl_object_start v)) objects) =
  filter (fun o => os_slot_id o = sl_slot_id v) (drop c objects).
Proof.
  revert p c i. induction slots as [|s slots IH]; intros p c i; [done |]. cbn [fmap list_fmap increasing run_rest slot_views].
  set (n := run (ss_slot_id s) (drop c (os_slot_id <$> objects))). rewrite drop_drop. intros [_ Hi] Hr.
  assert (Hhead : Forall (fun o => os_slot_id o = ss_slot_id s) (take n (drop c objects))).
  { apply (Forall_fmap os_slot_id (fun k => k = ss_slot_id s)). rewrite fmap_take, fmap_drop. unfold n.
    rewrite run_take. apply Forall_replicate. done. }
  rewrite <- (take_drop n (drop c objects)), drop_drop, filter_app. destruct i as [|i]; cbn [lookup list_lookup].
  - intros [= <-]. cbn [sl_slot_id sl_object_start sl_object_count]. rewrite !Nat2Z.id.
    rewrite filter_all by done. rewrite (filter_none _ (drop (c + n) objects)); [by rewrite app_nil_r |].
    apply (Forall_fmap os_slot_id (fun k => k <> ss_slot_id s)). rewrite fmap_drop. apply Forall_forall. intros k Hk ->.
    pose proof (grouped_in _ _ _ _ (runs_grouped _ _ Hr) Hk) as Hin. pose proof (increasing_above _ _ _ Hi Hin). lia.
  - intros Hv. rewrite (IH _ _ _ Hi Hr Hv). rewrite (filter_none _ (take n (drop c objects))); [done |].
    eapply Forall_impl; [exact Hhead |]. cbn. intros o -> E. apply list_elem_of_lookup_2 in Hv.
    assert (Hin : sl_slot_id v ∈ (ss_slot_id <$> slots)).
    { rewrite <- (slot_source_views slots (os_slot_id <$> objects) (c + n)), <- list_fmap_compose. by apply list_elem_of_fmap_2. }
    rewrite <- E in Hin. pose proof (increasing_above _ _ _ Hi Hin). lia.
Qed.

(** The loop over the objects of a slot. *)
Lemma accepted_spec {T} (read : nat -> option T) (rows : list T) (accept : T -> bool) cursor count :
  (forall i, read i = rows !! i) -> (cursor + count <= length rows)%nat ->
  forallb (fun i => match read (cursor + i)%nat with Some x => accept x | None => false end) (seq 0 count) = true <->
  Forall (fun x => accept x = true) (take count (drop cursor rows)).
Proof.
  intros Hr Hl. rewrite forallb_forall, Forall_lookup. split.
  - intros H i x Hx. destruct (decide (i < count)%nat) as [Hi | Hi].
    + rewrite lookup_take_lt, lookup_drop in Hx by done. specialize (H i).
      rewrite <- list_elem_of_In, elem_of_seq, Hr, Hx in H. apply H. lia.
    + rewrite lookup_ge_None_2 in Hx; [done | rewrite length_take; lia].
  - intros H i Hi%list_elem_of_In%elem_of_seq. rewrite Hr.
    destruct (lookup_lt_is_Some_2 rows (cursor + i)) as [x Hx]; [lia |]. rewrite Hx. apply (H i).
    by rewrite lookup_take_lt, lookup_drop by lia.
Qed.

Section Validate.
Context (g : kb2_resource_grant) (x : grant_value)
  (Hrows : rows g (grant_slot_views x) (grant_object_views x) (gv_bindings x)) (Hok : grant_ok x).

Lemma check_requirement_spec i v r :
  grant_slot_views x !! i = Some v ->
  check_requirement g v r = None <-> requirement_met (gv_objects x) (slot_source v) r.
Proof.
  intros Hv. pose proof Hok as [_ _ _ _ _ Hsi Hso _ _ _ _ _ _]. pose proof (grant_objects_grouped x Hok) as Hrest.
  assert (Hin : slot_source v ∈ gv_slots x).
  { rewrite <- (slot_source_views (gv_slots x) (os_slot_id <$> gv_objects x) 0). apply list_elem_of_fmap_2.
    by eapply list_elem_of_lookup_2. }
  rewrite Forall_forall in Hso. destruct (Hso _ Hin) as [_ Hst _]. clear Hso Hin.
  pose proof (slot_range_objects 0 (gv_slots x) (gv_objects x) 0 i v Hsi ltac:(by rewrite drop_0) Hv) as Hrange.
  rewrite drop_0 in Hrange.
  pose proof (slot_views_bounds (gv_slots x) (os_slot_id <$> gv_objects x) 0 ltac:(lia)) as Hb.
  eapply Forall_lookup_1 in Hb as (Hb1 & Hb2 & Hb3); [| exact Hv]. rewrite length_fmap in Hb3.
  assert (Hlen : length (grant_object_views x) = length (gv_objects x)) by apply length_object_views.
  set (granted := filter (fun o => os_slot_id o = sl_slot_id v) (gv_objects x)) in *.
  assert (Hcount : sl_object_count v = Z.of_nat (length granted)).
  { rewrite <- Hrange, length_take, length_drop. lia. }
  pose proof (accepted_spec (grant_object g) (grant_object_views x)
    (fun object => (Z.land (ob_granted_rights object) (mr_required_rights r) =? mr_required_rights r) &&
                   (ob_granted_rights object &~ mr_maximum_rights r =? 0))
    (Z.to_nat (sl_object_start v)) (Z.to_nat (sl_object_count v)) (row_objects _ _ _ _ Hrows) ltac:(lia)) as Hacc.
  assert (Hgr : Forall (fun o => (Z.land (ob_granted_rights o) (mr_required_rights r) =? mr_required_rights r) &&
      (ob_granted_rights o &~ mr_maximum_rights r =? 0) = true)
      (take (Z.to_nat (sl_object_count v)) (drop (Z.to_nat (sl_object_start v)) (grant_object_views x))) <->
    Forall (fun o => Z.land (os_granted_rights o) (mr_required_rights r) = mr_required_rights r /\
                     os_granted_rights o &~ mr_maximum_rights r = 0) granted).
  { rewrite <- Hrange. rewrite <- (object_source_views (gv_objects x) (hb_object_id <$> gv_bindings x) 0) at 1.
    rewrite <- fmap_drop, <- fmap_take, Forall_fmap. apply Forall_proper; [| done]. intros o. cbn.
    by rewrite andb_true_iff, !Z.eqb_eq. }
  rewrite Hgr in Hacc. clear Hgr Hrange. unfold check_requirement.
  assert (Hmet : requirement_met (gv_objects x) (slot_source v) r <->
    sl_slot_id v = mr_slot_id r /\ sl_resource_type v = mr_type r /\
    sl_interface_schema_digest v = mr_interface_schema_digest r /\
    (sl_state v = KB2_RESOURCE_GRANT_SLOT_ABSENT -> Z.land (mr_flags r) KB2_CLOSURE_RESOURCE_FLAG_REQUIRED = 0) /\
    (sl_state v = KB2_RESOURCE_GRANT_SLOT_PRESENT ->
      mr_minimum_count r <= Z.of_nat (length granted) <= mr_maximum_count r /\
      Forall (fun o => Z.land (os_granted_rights o) (mr_required_rights r) = mr_required_rights r /\
                       os_granted_rights o &~ mr_maximum_rights r = 0) granted)).
  { split; [intros []; done | by intros (? & ? & ? & ? & ?)]. }
  rewrite Hmet, Hcount in *. clear Hmet. cbn in Hst.
  destruct (Z.eqb_spec (sl_slot_id v) (mr_slot_id r)); [| split; [done | by intros [? _]]].
  destruct (Z.eqb_spec (sl_resource_type v) (mr_type r)); [| split; [done | by intros (_ & ? & _)]].
  destruct (decide (sl_interface_schema_digest v = mr_interface_schema_digest r)) as [Hd | Hd];
    [rewrite bool_decide_eq_true_2 by done | rewrite bool_decide_eq_false_2 by done; split; [done | by intros (_ & _ & ? & _)]].
  cbn [negb orb]. unfold KB2_RESOURCE_GRANT_SLOT_PRESENT, KB2_RESOURCE_GRANT_SLOT_ABSENT in *.
  destruct Hst as [-> | ->]; cbn [Z.eqb].
  - destruct (Z.eqb_spec (Z.land (mr_flags r) KB2_CLOSURE_RESOURCE_FLAG_REQUIRED) 0); cbn [negb]; [| naive_solver]. split; [done | done].
  - destruct (Z.ltb_spec (Z.of_nat (length granted)) (mr_minimum_count r)),
      (Z.ltb_spec (mr_maximum_count r) (Z.of_nat (length granted))); cbn [orb];
      try (split; [done | intros (_ & _ & _ & _ & Hp); destruct (Hp eq_refl); lia]).
    destruct (forallb _ _).
    + split; [| done]. intros _. split_and!; try done. intros _. split; [lia |]. by apply Hacc.
    + split; [done |]. intros (_ & _ & _ & _ & Hp). destruct (Hp eq_refl) as [_ Hf]. by apply Hacc in Hf.
Qed.

Lemma check_requirements_spec m reqs n index :
  (forall i, manifest_resource m i = reqs !! i) ->
  (index + n)%nat = length (gv_slots x) -> length reqs = length (gv_slots x) ->
  check_requirements g m n index = KB2_PROTOCOL_OK <->
  Forall2 (requirement_met (gv_objects x)) (drop index (gv_slots x)) (drop index reqs).
Proof.
  intros Hm Hn Hr. pose proof (slot_source_views (gv_slots x) (os_slot_id <$> gv_objects x) 0) as Hsrc.
  fold (grant_slot_views x) in Hsrc. revert index Hn. induction n as [|n IH]; intros index Hn; cbn [check_requirements].
  { rewrite !drop_ge by lia. split; [constructor | done]. }
  destruct (lookup_lt_is_Some_2 (gv_slots x) index) as [s Hs]; [lia |].
  destruct (lookup_lt_is_Some_2 reqs index) as [r Hri]; [lia |].
  pose proof Hs as Hs'. rewrite <- Hsrc, list_lookup_fmap in Hs'. apply fmap_Some in Hs' as (v & Hv & ->).
  rewrite Hm, Hri, (row_slots _ _ _ _ Hrows), Hv, (drop_S _ _ _ Hs), (drop_S _ _ _ Hri), Forall2_cons_iff.
  rewrite <- (check_requirement_spec index v r Hv), <- IH by lia. destruct (check_requirement g v r) as [st |] eqn:E; [| tauto].
  split; [| by intros [? _]]. intros ->. exfalso. unfold check_requirement in E. repeat case_match; done.
Qed.
End Validate.

(** The resources of a decoded manifest, read through the accessor. *)
Definition manifest_resources (m : kb2_closure_manifest) : option (list kb2_closure_manifest_resource_t) :=
  mapM (manifest_resource m) (seq 0 (Z.to_nat (kb2_closure_manifest_resource_count (Some m)))).

(** C32. Validating a decoded grant against a decoded manifest answers OK exactly when
    the grant carries the SHA-256 digest of the manifest's bytes and its slots meet the
    manifest's requirements one by one: the same slot, type and interface, absent only
    where not required, and otherwise as many objects as asked for, each with the
    required rights and none beyond the maximum. *)
Theorem grant_validation_decides gb gn g x mb m requirements :
  status_decoded (kb2_resource_grant_decode (Some gb) gn true) = Some g -> grant_decoder gb gn = Some x ->
  status_decoded (kb2_closure_manifest_decode (Some mb) (blen mb) true) = Some m ->
  manifest_resources m = Some requirements -> Forall is_u8 mb ->
  kb2_resource_grant_validate_manifest (Some g) (Some m) = KB2_PROTOCOL_OK <->
  gv_digest x = SHA256 mb /\ Forall2 (requirement_met (gv_objects x)) (gv_slots x) requirements.
Proof.
  intros Hg Hx Hm Hreq Hu. apply grant_decode_reads in Hx as (Ht & Hok & -> & Hr).
  rewrite (grant_decoded gb x Ht Hok Hr) in Hg. injection Hg as <-.
  pose proof (grant_rows gb x Ht Hok Hr) as Hrows. fold (decoded_grant gb x) in Hrows.
  apply manifest_decode_inv in Hm as (Hsize & Hmb & Hms & Hcounts & _). unfold U32_MAX in Hsize.
  pose proof (count_at_range m RESOURCES Hcounts) as Hcount. unfold is_u32 in Hcount.
  apply rows_mapM in Hreq as [Hlen Hrow].
  2: { intros i Hi. unfold manifest_resource, kb2_closure_manifest_resource. cbn [negb] in *.
       by rewrite (proj2 (Z.leb_le (count_at m RESOURCES) (Z.of_nat i))) by (cbn in Hi; lia). }
  cbn [kb2_closure_manifest_resource_count] in Hlen.
  unfold kb2_resource_grant_validate_manifest. rewrite Hmb, Hms.
  rewrite sha256_one_call by (done || lia). cbn [decoded_grant grant_at gr_bytes gr_closure_manifest_digest].
  rewrite !bool_decide_eq_false_2 by done. cbn [orb]. fold (decoded_grant gb x).
  change (grant_count (decoded_grant gb x) SLOTS) with (Z.of_nat (length (gv_slots x))).
  destruct (decide (gv_digest x = SHA256 mb)) as [Hd | Hd].
  2: { rewrite bool_decide_eq_false_2 by congruence. split; [done | by intros [? _]]. }
  rewrite bool_decide_eq_true_2 by congruence. cbn [negb kb2_closure_manifest_resource_count].
  destruct (Z.eqb_spec (Z.of_nat (length (gv_slots x))) (count_at m RESOURCES)) as [E | Hne]; cbn [negb].
  - rewrite Nat2Z.id. pose proof (check_requirements_spec (decoded_grant gb x) x Hrows Hok m requirements
      (length (gv_slots x)) 0 Hrow eq_refl ltac:(lia)) as Hspec. rewrite !drop_0 in Hspec. tauto.
  - split; [done |]. intros [_ Hf%Forall2_length]. lia.
Qed.

(** A manifest with one native artifact that requires the memory of [sample_slot] and
    can do without the device of [absent_slot]. *)
Definition sample_manifest_source : kb2_closure_manifest_source :=
  mkManifestSource
    (Some [mkManifestArtifact 1 1 3 64 (replicate 32 5) (mkString (Some [109; 101; 109]) 3) no_string no_string no_string]) 1
    None 0 None 0 None 0
    (Some [mkManifestResource 3 0 1 2 1 3 KB2_CLOSURE_RESOURCE_FLAG_REQUIRED (replicate 32 9);
           mkManifestResource 5 1 0 1 0 0 0 (replicate 32 8)]) 2
    None 0.

Definition sample_manifest : list Z :=
  Eval vm_compute in
    let size := default 0 (kb2_closure_manifest_encoded_size (Some sample_manifest_source) true).2 in
    default [] (kb2_closure_manifest_encode (Some (replicate (Z.to_nat size) 0)) size true (Some sample_manifest_source)).2.

Definition sample_digest : list Z :=
  Eval vm_compute in default [] (kb2_sha256 (Some sample_manifest) (blen sample_manifest) (Some (replicate 32 0))).

Definition sample_grant_bytes : list Z :=
  Eval vm_compute in (grant_encoder (replicate 304 0) 304 (sample_grant sample_digest)).2.

Lemma grant_validation_decides_witness :
  exists g m, status_decoded (kb2_resource_grant_decode (Some sample_grant_bytes) (blen sample_grant_bytes) true) = Some g /\
    status_decoded (kb2_closure_manifest_decode (Some sample_manifest) (blen sample_manifest) true) = Some m /\
    kb2_resource_grant_validate_manifest (Some g) (Some m) = KB2_PROTOCOL_OK.
Proof.
  destruct (status_decoded (kb2_resource_grant_decode (Some sample_grant_bytes) (blen sample_grant_bytes) true)) as [g |] eqn:Hg;
    [| vm_compute in Hg; discriminate].
  destruct (status_decoded (kb2_closure_manifest_decode (Some sample_manifest) (blen sample_manifest) true)) as [m |] eqn:Hm;
    [| vm_compute in Hm; discriminate].
  exists g, m. split_and!; [done | done |].
  destruct (manifest_resources m) as [requirements |] eqn:Hr;
    [| vm_compute in Hm; injection Hm as <-; vm_compute in Hr; discriminate].
  refine (proj2 (grant_validation_decides sample_grant_bytes (blen sample_grant_bytes) g (sample_grant sample_digest)
    sample_manifest m requirements Hg _ Hm Hr _) _).
  - vm_compute. reflexivity.
  - repeat constructor; unfold is_u8; lia.
  - split.
    + apply (inj Some). rewrite <- (sha256_one_call sample_manifest (replicate 32 0)); [vm_compute; reflexivity | | done | done].
      repeat constructor; unfold is_u8; lia.
    + vm_compute in Hm. injection Hm as <-. vm_compute in Hr. injection Hr as <-.
      repeat constructor; cbn; try done.
Defined.
