(* ===== verification/GpuLayout.v ===== *)
(** The layout constants of the GPU contract the modelled code uses (the generated
    gpu_layout.h and the mapping results of the DRM command sets). *)

From Stdlib Require Import ZArith.
From stdpp Require Import base list.

Open Scope Z_scope.

(** gpu_layout.h *)
Definition KB2_GPU_SCHEMA_SHA256_BYTES : list Z :=
  [212; 9; 60; 33; 244; 127; 186; 167; 107; 13; 135; 224; 25; 30; 217; 158; 26; 133; 62; 100; 100;
  109; 97; 114; 35; 224; 244; 116; 160; 198; 64; 4].
Definition KB2_GPU_ABI_IDENTITY_BYTES : list Z := [100; 101; 118; 0].
Definition KB2_GPU_MAX_INLINE_BYTES : Z := 4096.
Definition KB2_GPU_OPCODE_SESSION_OPEN : Z := 2.
Definition KB2_GPU_OPCODE_SESSION_CLOSE : Z := 3.
Definition KB2_GPU_NODE_PRIMARY : Z := 1.
Definition KB2_GPU_NODE_RENDER : Z := 2.
Definition KB2_GPU_SPAN_RIGHT_READ : Z := 1.
Definition KB2_GPU_SPAN_RIGHT_WRITE : Z := 2.
Definition KB2_GPU_ARGUMENT_INLINE : Z := 7.
Definition KB2_GPU_ARGUMENT_ATTACHMENT : Z := 9.
Definition KB2_GPU_ARGUMENT_FLAG_OUTPUT : Z := 2.
Definition KB2_GPU_ATTACHMENT_MEMORY : Z := 1.
Definition KB2_GPU_ATTACHMENT_SYNCOBJ : Z := 6.
Definition KB2_GPU_ATTACHMENT_BORROW : Z := 1.
Definition KB2_GPU_ATTACHMENT_SHARE : Z := 2.
Definition KB2_GPU_ATTACHMENT_MOVE : Z := 3.
Definition KB2_GPU_ATTACHMENT_FLAG_OUTPUT : Z := 2.
Definition KB2_GPU_STATUS_OK : Z := 0.
Definition KB2_GPU_STATUS_DEVICE_LOST : Z := 15.
Definition KB2_GPU_DISPOSITION_COMPLETED : Z := 1.
Definition KB2_GPU_ARGUMENT_DESCRIPTOR_SIZE : Z := 32.
Definition KB2_GPU_ARGUMENT_DESCRIPTOR_ARGUMENT_ID_OFFSET : Z := 0.
Definition KB2_GPU_ARGUMENT_DESCRIPTOR_KIND_OFFSET : Z := 4.
Definition KB2_GPU_ARGUMENT_DESCRIPTOR_FLAGS_OFFSET : Z := 8.
Definition KB2_GPU_ARGUMENT_DESCRIPTOR_RECORD_SCHEMA_ID_OFFSET : Z := 12.
Definition KB2_GPU_ARGUMENT_DESCRIPTOR_VALUE_OFFSET : Z := 16.
Definition KB2_GPU_ARGUMENT_DESCRIPTOR_COUNT_OFFSET : Z := 24.
Definition KB2_GPU_ARGUMENT_DESCRIPTOR_RESERVED_OFFSET : Z := 28.
Definition KB2_GPU_ATTACHMENT_DESCRIPTOR_SIZE : Z := 48.
Definition KB2_GPU_ATTACHMENT_DESCRIPTOR_ATTACHMENT_ID_OFFSET : Z := 0.
Definition KB2_GPU_ATTACHMENT_DESCRIPTOR_OBJECT_CLASS_OFFSET : Z := 4.
Definition KB2_GPU_ATTACHMENT_DESCRIPTOR_EXCHANGE_ID_OFFSET : Z := 8.
Definition KB2_GPU_ATTACHMENT_DESCRIPTOR_GENERATION_OFFSET : Z := 16.
Definition KB2_GPU_ATTACHMENT_DESCRIPTOR_RIGHTS_OFFSET : Z := 24.
Definition KB2_GPU_ATTACHMENT_DESCRIPTOR_ROLE_OFFSET : Z := 32.
Definition KB2_GPU_ATTACHMENT_DESCRIPTOR_OWNERSHIP_OFFSET : Z := 36.
Definition KB2_GPU_ATTACHMENT_DESCRIPTOR_FLAGS_OFFSET : Z := 40.
Definition KB2_GPU_ATTACHMENT_DESCRIPTOR_RESERVED_OFFSET : Z := 44.
Definition KB2_GPU_COMPLETION_HEADER_SIZE : Z := 104.
Definition KB2_GPU_COMPLETION_HEADER_TOTAL_SIZE_OFFSET : Z := 0.
Definition KB2_GPU_COMPLETION_HEADER_ABI_IDENTITY_OFFSET : Z := 4.
Definition KB2_GPU_COMPLETION_HEADER_SCHEMA_DIGEST_OFFSET : Z := 8.
Definition KB2_GPU_COMPLETION_HEADER_SESSION_ID_OFFSET : Z := 40.
Definition KB2_GPU_COMPLETION_HEADER_STATUS_OFFSET : Z := 48.
Definition KB2_GPU_COMPLETION_HEADER_DISPOSITION_OFFSET : Z := 52.
Definition KB2_GPU_COMPLETION_HEADER_ARGUMENT_COUNT_OFFSET : Z := 56.
Definition KB2_GPU_COMPLETION_HEADER_SPAN_COUNT_OFFSET : Z := 60.
Definition KB2_GPU_COMPLETION_HEADER_ATTACHMENT_COUNT_OFFSET : Z := 64.
Definition KB2_GPU_COMPLETION_HEADER_INLINE_LENGTH_OFFSET : Z := 68.
Definition KB2_GPU_COMPLETION_HEADER_ARGUMENT_TABLE_OFFSET_OFFSET : Z := 72.
Definition KB2_GPU_COMPLETION_HEADER_SPAN_TABLE_OFFSET_OFFSET : Z := 76.
Definition KB2_GPU_COMPLETION_HEADER_ATTACHMENT_TABLE_OFFSET_OFFSET : Z := 80.
Definition KB2_GPU_COMPLETION_HEADER_INLINE_OFFSET_OFFSET : Z := 84.
Definition KB2_GPU_COMPLETION_HEADER_DETAIL_SET_ID_OFFSET : Z := 88.
Definition KB2_GPU_COMPLETION_HEADER_DETAIL_CODE_OFFSET : Z := 92.
Definition KB2_GPU_COMPLETION_HEADER_RESERVED_OFFSET : Z := 96.
Definition KB2_GPU_SESSION_OPEN_REQUEST_SIZE : Z := 24.
Definition KB2_GPU_SESSION_OPEN_REQUEST_NODE_TYPE_OFFSET : Z := 0.
Definition KB2_GPU_SESSION_OPEN_REQUEST_FLAGS_OFFSET : Z := 4.
Definition KB2_GPU_SESSION_OPEN_REQUEST_CLIENT_ID_OFFSET : Z := 8.
Definition KB2_GPU_SESSION_OPEN_REQUEST_RESERVED_OFFSET : Z := 16.
Definition KB2_GPU_SESSION_OPEN_RESPONSE_SIZE : Z := 32.
Definition KB2_GPU_SESSION_OPEN_RESPONSE_SESSION_ID_OFFSET : Z := 0.
Definition KB2_GPU_SESSION_OPEN_RESPONSE_TOPOLOGY_EPOCH_OFFSET : Z := 8.
Definition KB2_GPU_SESSION_OPEN_RESPONSE_CAPABILITIES_OFFSET : Z := 16.
Definition KB2_GPU_SESSION_OPEN_RESPONSE_RESERVED_OFFSET : Z := 24.
Definition KB2_GPU_SESSION_CLOSE_REQUEST_SIZE : Z := 16.
Definition KB2_GPU_SESSION_CLOSE_REQUEST_SESSION_ID_OFFSET : Z := 0.
Definition KB2_GPU_SESSION_CLOSE_REQUEST_FLAGS_OFFSET : Z := 8.
Definition KB2_GPU_SESSION_CLOSE_REQUEST_RESERVED_OFFSET : Z := 12.

(** gpu_drm_virtgpu_layout.h *)
Definition KB2_GPU_DRM_VIRTGPU_RECORD_MAPPING_RESULT : Z := 102.
Definition KB2_GPU_DRM_VIRTGPU_RECORD_MAPPING_RESULT_SIZE : Z := 24.
Definition KB2_GPU_DRM_VIRTGPU_RECORD_MAPPING_RESULT_MAPPING_ID_OFFSET : Z := 0.
Definition KB2_GPU_DRM_VIRTGPU_RECORD_MAPPING_RESULT_LENGTH_OFFSET : Z := 8.
Definition KB2_GPU_DRM_VIRTGPU_RECORD_MAPPING_RESULT_CACHE_POLICY_OFFSET : Z := 16.
Definition KB2_GPU_DRM_VIRTGPU_RECORD_MAPPING_RESULT_RESERVED_OFFSET : Z := 20.
Definition KB2_GPU_DRM_VIRTGPU_COMMAND_MAP_COMPLETION_ATTACHMENT_MAPPING_ARGUMENT_ID : Z := 2.
Definition KB2_GPU_DRM_VIRTGPU_COMMAND_MAP_COMPLETION_ATTACHMENT_MAPPING_ROLE : Z := 1.

(** gpu_drm_mode_layout.h *)
Definition KB2_GPU_DRM_MODE_RECORD_MAPPING_RESULT : Z := 145.
Definition KB2_GPU_DRM_MODE_RECORD_MAPPING_RESULT_SIZE : Z := 24.
Definition KB2_GPU_DRM_MODE_RECORD_MAPPING_RESULT_MAPPING_ID_OFFSET : Z := 0.
Definition KB2_GPU_DRM_MODE_RECORD_MAPPING_RESULT_LENGTH_OFFSET : Z := 8.
Definition KB2_GPU_DRM_MODE_RECORD_MAPPING_RESULT_CACHE_POLICY_OFFSET : Z := 16.
Definition KB2_GPU_DRM_MODE_RECORD_MAPPING_RESULT_RESERVED_OFFSET : Z := 20.
Definition KB2_GPU_DRM_MODE_COMMAND_MAP_DUMB_COMPLETION_ATTACHMENT_MAPPING_ARGUMENT_ID : Z := 2.
Definition KB2_GPU_DRM_MODE_COMMAND_MAP_DUMB_COMPLETION_ATTACHMENT_MAPPING_ROLE : Z := 1.

(** gpu_drm_amdgpu_layout.h *)
Definition KB2_GPU_DRM_AMDGPU_RECORD_GEM_MMAP_RESULT : Z := 104.
Definition KB2_GPU_DRM_AMDGPU_RECORD_GEM_MMAP_RESULT_SIZE : Z := 24.
Definition KB2_GPU_DRM_AMDGPU_RECORD_GEM_MMAP_RESULT_MAPPING_ID_OFFSET : Z := 0.
Definition KB2_GPU_DRM_AMDGPU_RECORD_GEM_MMAP_RESULT_LENGTH_OFFSET : Z := 8.
Definition KB2_GPU_DRM_AMDGPU_RECORD_GEM_MMAP_RESULT_CACHE_POLICY_OFFSET : Z := 16.
Definition KB2_GPU_DRM_AMDGPU_RECORD_GEM_MMAP_RESULT_RESERVED_OFFSET : Z := 20.
Definition KB2_GPU_DRM_AMDGPU_COMMAND_GEM_MMAP_COMPLETION_ATTACHMENT_CPU_MAPPING_ARGUMENT_ID : Z :=
  2.
Definition KB2_GPU_DRM_AMDGPU_COMMAND_GEM_MMAP_COMPLETION_ATTACHMENT_CPU_MAPPING_ROLE : Z := 1.

(** gpu_drm_i915_layout.h *)
Definition KB2_GPU_DRM_I915_RECORD_GEM_MMAP_RESULT : Z := 122.
Definition KB2_GPU_DRM_I915_RECORD_GEM_MMAP_RESULT_SIZE : Z := 24.
Definition KB2_GPU_DRM_I915_RECORD_GEM_MMAP_RESULT_MAPPING_ID_OFFSET : Z := 0.
Definition KB2_GPU_DRM_I915_RECORD_GEM_MMAP_RESULT_LENGTH_OFFSET : Z := 8.
Definition KB2_GPU_DRM_I915_RECORD_GEM_MMAP_RESULT_CACHE_POLICY_OFFSET : Z := 16.
Definition KB2_GPU_DRM_I915_RECORD_GEM_MMAP_RESULT_RESERVED_OFFSET : Z := 20.
Definition KB2_GPU_DRM_I915_COMMAND_GEM_MMAP_OFFSET_COMPLETION_ATTACHMENT_CPU_MAPPING_ARGUMENT_ID : Z :=
  2.
Definition KB2_GPU_DRM_I915_COMMAND_GEM_MMAP_OFFSET_COMPLETION_ATTACHMENT_CPU_MAPPING_ROLE : Z := 1.
