(* ===== verification/GpuDrmLayout.v ===== *)
(** The constants of the generated DRM layouts (gpu_layout.h and gpu_drm_*_layout.h) that
    gpu.c and the driver shapes use, and the request catalogs.  A catalog is the C macro
    that applies its argument [X] to every row. *)

From Stdlib Require Import ZArith.
From stdpp Require Import base list.
From S2P Require Import GpuLayout.

Open Scope Z_scope.

(** gpu_layout.h *)
Definition KB2_GPU_SCHEMA_DIGEST_SIZE : Z := 32.
Definition KB2_GPU_ABI_IDENTITY_SIZE : Z := 4.
Definition KB2_GPU_MAX_ARGUMENTS : Z := 256.
Definition KB2_GPU_MAX_SPANS : Z := 128.
Definition KB2_GPU_MAX_ATTACHMENTS : Z := 64.
Definition KB2_GPU_PROFILE_VIRGL : Z := 1.
Definition KB2_GPU_PROFILE_I915 : Z := 2.
Definition KB2_GPU_PROFILE_AMDGPU : Z := 3.
Definition KB2_GPU_QUEUE_DISPLAY : Z := 2.
Definition KB2_GPU_QUEUE_EXECUTION : Z := 3.
Definition KB2_GPU_SPAN_FLAG_INPUT : Z := 1.
Definition KB2_GPU_SPAN_FLAG_OUTPUT : Z := 2.
Definition KB2_GPU_ARGUMENT_U64 : Z := 1.
Definition KB2_GPU_ARGUMENT_I64 : Z := 2.
Definition KB2_GPU_ARGUMENT_BOOL : Z := 3.
Definition KB2_GPU_ARGUMENT_ENUM : Z := 4.
Definition KB2_GPU_ARGUMENT_BITSET : Z := 5.
Definition KB2_GPU_ARGUMENT_OBJECT : Z := 6.
Definition KB2_GPU_ARGUMENT_SPAN : Z := 8.
Definition KB2_GPU_ARGUMENT_FLAG_INPUT : Z := 1.
Definition KB2_GPU_ATTACHMENT_SESSION : Z := 5.
Definition KB2_GPU_ATTACHMENT_FLAG_INPUT : Z := 1.
Definition KB2_GPU_OPCODE_DMA_BUF_EXPORT_SYNC_FILE : Z := 5.
Definition KB2_GPU_OPCODE_DMA_BUF_IMPORT_SYNC_FILE : Z := 6.
Definition KB2_GPU_OPCODE_SYNC_FILE_RELEASE : Z := 7.
Definition KB2_GPU_COMMAND_HEADER_SIZE : Z := 128.
Definition KB2_GPU_COMMAND_HEADER_TOTAL_SIZE_OFFSET : Z := 0.
Definition KB2_GPU_COMMAND_HEADER_ABI_IDENTITY_OFFSET : Z := 4.
Definition KB2_GPU_COMMAND_HEADER_SCHEMA_DIGEST_OFFSET : Z := 8.
Definition KB2_GPU_COMMAND_HEADER_GENERATION_OFFSET : Z := 40.
Definition KB2_GPU_COMMAND_HEADER_SESSION_ID_OFFSET : Z := 48.
Definition KB2_GPU_COMMAND_HEADER_COMMAND_SET_ID_OFFSET : Z := 56.
Definition KB2_GPU_COMMAND_HEADER_COMMAND_ID_OFFSET : Z := 60.
Definition KB2_GPU_COMMAND_HEADER_FLAGS_OFFSET : Z := 64.
Definition KB2_GPU_COMMAND_HEADER_ARGUMENT_COUNT_OFFSET : Z := 68.
Definition KB2_GPU_COMMAND_HEADER_SPAN_COUNT_OFFSET : Z := 72.
Definition KB2_GPU_COMMAND_HEADER_ATTACHMENT_COUNT_OFFSET : Z := 76.
Definition KB2_GPU_COMMAND_HEADER_INLINE_LENGTH_OFFSET : Z := 80.
Definition KB2_GPU_COMMAND_HEADER_ARGUMENT_TABLE_OFFSET_OFFSET : Z := 84.
Definition KB2_GPU_COMMAND_HEADER_SPAN_TABLE_OFFSET_OFFSET : Z := 88.
Definition KB2_GPU_COMMAND_HEADER_ATTACHMENT_TABLE_OFFSET_OFFSET : Z := 92.
Definition KB2_GPU_COMMAND_HEADER_INLINE_OFFSET_OFFSET : Z := 96.
Definition KB2_GPU_COMMAND_HEADER_RESERVED_0_OFFSET : Z := 100.
Definition KB2_GPU_COMMAND_HEADER_DEADLINE_NS_OFFSET : Z := 104.
Definition KB2_GPU_COMMAND_HEADER_RESERVED_1_OFFSET : Z := 112.
Definition KB2_GPU_SPAN_DESCRIPTOR_SIZE : Z := 40.
Definition KB2_GPU_SPAN_DESCRIPTOR_SPAN_ID_OFFSET : Z := 0.
Definition KB2_GPU_SPAN_DESCRIPTOR_REGION_ID_OFFSET : Z := 4.
Definition KB2_GPU_SPAN_DESCRIPTOR_OFFSET_OFFSET : Z := 8.
Definition KB2_GPU_SPAN_DESCRIPTOR_LENGTH_OFFSET : Z := 16.
Definition KB2_GPU_SPAN_DESCRIPTOR_RIGHTS_OFFSET : Z := 24.
Definition KB2_GPU_SPAN_DESCRIPTOR_RECORD_SCHEMA_ID_OFFSET : Z := 28.
Definition KB2_GPU_SPAN_DESCRIPTOR_ELEMENT_COUNT_OFFSET : Z := 32.
Definition KB2_GPU_SPAN_DESCRIPTOR_FLAGS_OFFSET : Z := 36.
Definition KB2_GPU_DMA_BUF_EXPORT_SYNC_FILE_REQUEST_SIZE : Z := 32.
Definition KB2_GPU_DMA_BUF_EXPORT_SYNC_FILE_RESPONSE_SIZE : Z := 40.
Definition KB2_GPU_DMA_BUF_IMPORT_SYNC_FILE_REQUEST_SIZE : Z := 24.
Definition KB2_GPU_DMA_BUF_IMPORT_SYNC_FILE_RESPONSE_SIZE : Z := 32.
Definition KB2_GPU_SYNC_FILE_RELEASE_REQUEST_SIZE : Z := 8.
Definition KB2_GPU_SYNC_FILE_RELEASE_RESPONSE_SIZE : Z := 16.

(** gpu_drm_core_layout.h *)
Definition KB2_GPU_DRM_CORE_SCHEMA_SHA256_BYTES : list Z :=
  [92; 145; 37; 61; 14; 51; 216; 35; 220; 218; 57; 80; 25; 160; 181; 238; 50; 120; 78; 215; 11; 151;
  75; 224; 107; 28; 63; 57; 202; 123; 171; 39].
Definition KB2_GPU_DRM_CORE_SET_ID : Z := 1.
Definition KB2_GPU_DRM_CORE_COMMAND_COUNT : Z := 28.
Definition KB2_GPU_DRM_CORE_POLL_READABLE : Z := 1.
Definition KB2_GPU_DRM_CORE_COMMAND_VERSION : Z := 1.
Definition KB2_GPU_DRM_CORE_COMMAND_GET_UNIQUE : Z := 2.
Definition KB2_GPU_DRM_CORE_COMMAND_GET_CLIENT : Z := 3.
Definition KB2_GPU_DRM_CORE_COMMAND_SET_CLIENT_NAME : Z := 8.
Definition KB2_GPU_DRM_CORE_COMMAND_GEM_CLOSE : Z := 9.
Definition KB2_GPU_DRM_CORE_COMMAND_GEM_FLINK : Z := 10.
Definition KB2_GPU_DRM_CORE_COMMAND_GEM_OPEN : Z := 11.
Definition KB2_GPU_DRM_CORE_COMMAND_PRIME_ATTACHMENT_TO_HANDLE : Z := 14.
Definition KB2_GPU_DRM_CORE_COMMAND_SYNCOBJ_CREATE : Z := 15.
Definition KB2_GPU_DRM_CORE_COMMAND_SYNCOBJ_DESTROY : Z := 16.
Definition KB2_GPU_DRM_CORE_COMMAND_SYNCOBJ_ATTACHMENT_TO_HANDLE : Z := 18.
Definition KB2_GPU_DRM_CORE_COMMAND_SYNCOBJ_WAIT : Z := 19.
Definition KB2_GPU_DRM_CORE_COMMAND_SYNCOBJ_RESET : Z := 20.
Definition KB2_GPU_DRM_CORE_COMMAND_SYNCOBJ_SIGNAL : Z := 21.
Definition KB2_GPU_DRM_CORE_COMMAND_SYNCOBJ_TIMELINE_WAIT : Z := 22.
Definition KB2_GPU_DRM_CORE_COMMAND_SYNCOBJ_QUERY : Z := 23.
Definition KB2_GPU_DRM_CORE_COMMAND_SYNCOBJ_TIMELINE_SIGNAL : Z := 25.
Definition KB2_GPU_DRM_CORE_COMMAND_POLL_EVENTS : Z := 27.
Definition KB2_GPU_DRM_CORE_COMMAND_READ_EVENTS : Z := 28.
Definition KB2_GPU_DRM_CORE_RECORD_VERSION_REQUEST_SIZE : Z := 16.
Definition KB2_GPU_DRM_CORE_RECORD_VERSION_REQUEST_NAME_CAPACITY_OFFSET : Z := 0.
Definition KB2_GPU_DRM_CORE_RECORD_VERSION_REQUEST_DATE_CAPACITY_OFFSET : Z := 4.
Definition KB2_GPU_DRM_CORE_RECORD_VERSION_REQUEST_DESCRIPTION_CAPACITY_OFFSET : Z := 8.
Definition KB2_GPU_DRM_CORE_RECORD_VERSION_REQUEST_RESERVED_OFFSET : Z := 12.
Definition KB2_GPU_DRM_CORE_RECORD_LENGTH_REQUEST_SIZE : Z := 8.
Definition KB2_GPU_DRM_CORE_RECORD_LENGTH_REQUEST_CAPACITY_OFFSET : Z := 0.
Definition KB2_GPU_DRM_CORE_RECORD_LENGTH_REQUEST_RESERVED_OFFSET : Z := 4.
Definition KB2_GPU_DRM_CORE_RECORD_CLIENT_REQUEST_SIZE : Z := 8.
Definition KB2_GPU_DRM_CORE_RECORD_CLIENT_REQUEST_RESERVED_OFFSET : Z := 4.
Definition KB2_GPU_DRM_CORE_RECORD_SET_VERSION_SIZE : Z := 16.
Definition KB2_GPU_DRM_CORE_RECORD_CAP_REQUEST_SIZE : Z := 8.
Definition KB2_GPU_DRM_CORE_RECORD_CLIENT_CAP_REQUEST_SIZE : Z := 16.
Definition KB2_GPU_DRM_CORE_RECORD_CLIENT_NAME_REQUEST_SIZE : Z := 8.
Definition KB2_GPU_DRM_CORE_RECORD_CLIENT_NAME_REQUEST_NAME_BYTES_OFFSET : Z := 0.
Definition KB2_GPU_DRM_CORE_RECORD_CLIENT_NAME_REQUEST_RESERVED_OFFSET : Z := 4.
Definition KB2_GPU_DRM_CORE_RECORD_GEM_HANDLE_REQUEST_SIZE : Z := 8.
Definition KB2_GPU_DRM_CORE_RECORD_GEM_HANDLE_REQUEST_RESERVED_OFFSET : Z := 4.
Definition KB2_GPU_DRM_CORE_RECORD_SCALAR_U32_SIZE : Z := 4.
Definition KB2_GPU_DRM_CORE_RECORD_GEM_OPEN_REQUEST_SIZE : Z := 8.
Definition KB2_GPU_DRM_CORE_RECORD_GEM_OPEN_REQUEST_RESERVED_OFFSET : Z := 4.
Definition KB2_GPU_DRM_CORE_RECORD_GEM_CHANGE_HANDLE_REQUEST_SIZE : Z := 8.
Definition KB2_GPU_DRM_CORE_RECORD_PRIME_EXPORT_REQUEST_SIZE : Z := 8.
Definition KB2_GPU_DRM_CORE_RECORD_PRIME_IMPORT_REQUEST_SIZE : Z := 8.
Definition KB2_GPU_DRM_CORE_RECORD_PRIME_IMPORT_REQUEST_FLAGS_OFFSET : Z := 0.
Definition KB2_GPU_DRM_CORE_RECORD_PRIME_IMPORT_REQUEST_RESERVED_OFFSET : Z := 4.
Definition KB2_GPU_DRM_CORE_RECORD_SYNCOBJ_CREATE_REQUEST_SIZE : Z := 8.
Definition KB2_GPU_DRM_CORE_RECORD_SYNCOBJ_CREATE_REQUEST_RESERVED_OFFSET : Z := 4.
Definition KB2_GPU_DRM_CORE_RECORD_SYNCOBJ_EXPORT_REQUEST_SIZE : Z := 16.
Definition KB2_GPU_DRM_CORE_RECORD_SYNCOBJ_IMPORT_REQUEST_SIZE : Z := 16.
Definition KB2_GPU_DRM_CORE_RECORD_SYNCOBJ_IMPORT_REQUEST_FLAGS_OFFSET : Z := 0.
Definition KB2_GPU_DRM_CORE_RECORD_SYNCOBJ_IMPORT_REQUEST_HANDLE_OFFSET : Z := 4.
Definition KB2_GPU_DRM_CORE_RECORD_SYNCOBJ_WAIT_REQUEST_SIZE : Z := 16.
Definition KB2_GPU_DRM_CORE_RECORD_SYNCOBJ_WAIT_REQUEST_HANDLE_COUNT_OFFSET : Z := 0.
Definition KB2_GPU_DRM_CORE_RECORD_SYNCOBJ_WAIT_REQUEST_FLAGS_OFFSET : Z := 4.
Definition KB2_GPU_DRM_CORE_RECORD_SYNCOBJ_WAIT_REQUEST_FENCE_DEADLINE_NS_OFFSET : Z := 8.
Definition KB2_GPU_DRM_CORE_RECORD_SYNCOBJ_ARRAY_REQUEST_SIZE : Z := 8.
Definition KB2_GPU_DRM_CORE_RECORD_SYNCOBJ_ARRAY_REQUEST_HANDLE_COUNT_OFFSET : Z := 0.
Definition KB2_GPU_DRM_CORE_RECORD_SYNCOBJ_ARRAY_REQUEST_FLAGS_OFFSET : Z := 4.
Definition KB2_GPU_DRM_CORE_RECORD_SYNCOBJ_QUERY_REQUEST_SIZE : Z := 8.
Definition KB2_GPU_DRM_CORE_RECORD_SYNCOBJ_QUERY_REQUEST_HANDLE_COUNT_OFFSET : Z := 0.
Definition KB2_GPU_DRM_CORE_RECORD_SYNCOBJ_QUERY_REQUEST_FLAGS_OFFSET : Z := 4.
Definition KB2_GPU_DRM_CORE_RECORD_SYNCOBJ_TRANSFER_REQUEST_SIZE : Z := 32.
Definition KB2_GPU_DRM_CORE_RECORD_SYNCOBJ_EVENT_ARM_REQUEST_SIZE : Z := 16.
Definition KB2_GPU_DRM_CORE_COMMAND_VERSION_REQUEST_INLINE_RECORD : Z := 102.
Definition KB2_GPU_DRM_CORE_COMMAND_GET_UNIQUE_REQUEST_INLINE_RECORD : Z := 104.
Definition KB2_GPU_DRM_CORE_COMMAND_GET_CLIENT_REQUEST_INLINE_RECORD : Z := 106.
Definition KB2_GPU_DRM_CORE_COMMAND_GET_STATS_REQUEST_INLINE_RECORD : Z := 0.
Definition KB2_GPU_DRM_CORE_COMMAND_SET_VERSION_REQUEST_INLINE_RECORD : Z := 110.
Definition KB2_GPU_DRM_CORE_COMMAND_GET_CAP_REQUEST_INLINE_RECORD : Z := 111.
Definition KB2_GPU_DRM_CORE_COMMAND_SET_CLIENT_CAP_REQUEST_INLINE_RECORD : Z := 113.
Definition KB2_GPU_DRM_CORE_COMMAND_SET_CLIENT_NAME_REQUEST_INLINE_RECORD : Z := 114.
Definition KB2_GPU_DRM_CORE_COMMAND_GEM_CLOSE_REQUEST_INLINE_RECORD : Z := 115.
Definition KB2_GPU_DRM_CORE_COMMAND_GEM_FLINK_REQUEST_INLINE_RECORD : Z := 115.
Definition KB2_GPU_DRM_CORE_COMMAND_GEM_OPEN_REQUEST_INLINE_RECORD : Z := 117.
Definition KB2_GPU_DRM_CORE_COMMAND_GEM_CHANGE_HANDLE_REQUEST_INLINE_RECORD : Z := 119.
Definition KB2_GPU_DRM_CORE_COMMAND_PRIME_HANDLE_TO_ATTACHMENT_REQUEST_INLINE_RECORD : Z := 120.
Definition KB2_GPU_DRM_CORE_COMMAND_PRIME_ATTACHMENT_TO_HANDLE_REQUEST_INLINE_RECORD : Z := 121.
Definition KB2_GPU_DRM_CORE_COMMAND_SYNCOBJ_CREATE_REQUEST_INLINE_RECORD : Z := 122.
Definition KB2_GPU_DRM_CORE_COMMAND_SYNCOBJ_DESTROY_REQUEST_INLINE_RECORD : Z := 115.
Definition KB2_GPU_DRM_CORE_COMMAND_SYNCOBJ_HANDLE_TO_ATTACHMENT_REQUEST_INLINE_RECORD : Z := 124.
Definition KB2_GPU_DRM_CORE_COMMAND_SYNCOBJ_ATTACHMENT_TO_HANDLE_REQUEST_INLINE_RECORD : Z := 125.
Definition KB2_GPU_DRM_CORE_COMMAND_SYNCOBJ_WAIT_REQUEST_INLINE_RECORD : Z := 126.
Definition KB2_GPU_DRM_CORE_COMMAND_SYNCOBJ_RESET_REQUEST_INLINE_RECORD : Z := 129.
Definition KB2_GPU_DRM_CORE_COMMAND_SYNCOBJ_SIGNAL_REQUEST_INLINE_RECORD : Z := 129.
Definition KB2_GPU_DRM_CORE_COMMAND_SYNCOBJ_TIMELINE_WAIT_REQUEST_INLINE_RECORD : Z := 126.
Definition KB2_GPU_DRM_CORE_COMMAND_SYNCOBJ_QUERY_REQUEST_INLINE_RECORD : Z := 131.
Definition KB2_GPU_DRM_CORE_COMMAND_SYNCOBJ_TRANSFER_REQUEST_INLINE_RECORD : Z := 132.
Definition KB2_GPU_DRM_CORE_COMMAND_SYNCOBJ_TIMELINE_SIGNAL_REQUEST_INLINE_RECORD : Z := 129.
Definition KB2_GPU_DRM_CORE_COMMAND_SYNCOBJ_EVENT_ARM_REQUEST_INLINE_RECORD : Z := 133.
Definition KB2_GPU_DRM_CORE_COMMAND_POLL_EVENTS_REQUEST_INLINE_RECORD : Z := 116.
Definition KB2_GPU_DRM_CORE_COMMAND_READ_EVENTS_REQUEST_INLINE_RECORD : Z := 104.

Definition KB2_GPU_DRM_CORE_REQUEST_CONTRACT_CATALOG {T} (X : Z -> Z -> Z -> Z -> Z -> T) : list T :=
  [X 1 KB2_GPU_DRM_CORE_COMMAND_VERSION_REQUEST_INLINE_RECORD KB2_GPU_DRM_CORE_RECORD_VERSION_REQUEST_SIZE 3 0;
   X 2 KB2_GPU_DRM_CORE_COMMAND_GET_UNIQUE_REQUEST_INLINE_RECORD KB2_GPU_DRM_CORE_RECORD_LENGTH_REQUEST_SIZE 1 0;
   X 3 KB2_GPU_DRM_CORE_COMMAND_GET_CLIENT_REQUEST_INLINE_RECORD KB2_GPU_DRM_CORE_RECORD_CLIENT_REQUEST_SIZE 0 0;
   X 4 KB2_GPU_DRM_CORE_COMMAND_GET_STATS_REQUEST_INLINE_RECORD 0 1 0;
   X 5 KB2_GPU_DRM_CORE_COMMAND_SET_VERSION_REQUEST_INLINE_RECORD KB2_GPU_DRM_CORE_RECORD_SET_VERSION_SIZE 0 0;
   X 6 KB2_GPU_DRM_CORE_COMMAND_GET_CAP_REQUEST_INLINE_RECORD KB2_GPU_DRM_CORE_RECORD_CAP_REQUEST_SIZE 0 0;
   X 7 KB2_GPU_DRM_CORE_COMMAND_SET_CLIENT_CAP_REQUEST_INLINE_RECORD KB2_GPU_DRM_CORE_RECORD_CLIENT_CAP_REQUEST_SIZE 0 0;
   X 8 KB2_GPU_DRM_CORE_COMMAND_SET_CLIENT_NAME_REQUEST_INLINE_RECORD KB2_GPU_DRM_CORE_RECORD_CLIENT_NAME_REQUEST_SIZE 1 0;
   X 9 KB2_GPU_DRM_CORE_COMMAND_GEM_CLOSE_REQUEST_INLINE_RECORD KB2_GPU_DRM_CORE_RECORD_GEM_HANDLE_REQUEST_SIZE 0 0;
   X 10 KB2_GPU_DRM_CORE_COMMAND_GEM_FLINK_REQUEST_INLINE_RECORD KB2_GPU_DRM_CORE_RECORD_GEM_HANDLE_REQUEST_SIZE 0 0;
   X 11 KB2_GPU_DRM_CORE_COMMAND_GEM_OPEN_REQUEST_INLINE_RECORD KB2_GPU_DRM_CORE_RECORD_GEM_OPEN_REQUEST_SIZE 0 0;
   X 12 KB2_GPU_DRM_CORE_COMMAND_GEM_CHANGE_HANDLE_REQUEST_INLINE_RECORD KB2_GPU_DRM_CORE_RECORD_GEM_CHANGE_HANDLE_REQUEST_SIZE 0 0;
   X 13 KB2_GPU_DRM_CORE_COMMAND_PRIME_HANDLE_TO_ATTACHMENT_REQUEST_INLINE_RECORD KB2_GPU_DRM_CORE_RECORD_PRIME_EXPORT_REQUEST_SIZE 0 0;
   X 14 KB2_GPU_DRM_CORE_COMMAND_PRIME_ATTACHMENT_TO_HANDLE_REQUEST_INLINE_RECORD KB2_GPU_DRM_CORE_RECORD_PRIME_IMPORT_REQUEST_SIZE 0 1;
   X 15 KB2_GPU_DRM_CORE_COMMAND_SYNCOBJ_CREATE_REQUEST_INLINE_RECORD KB2_GPU_DRM_CORE_RECORD_SYNCOBJ_CREATE_REQUEST_SIZE 0 0;
   X 16 KB2_GPU_DRM_CORE_COMMAND_SYNCOBJ_DESTROY_REQUEST_INLINE_RECORD KB2_GPU_DRM_CORE_RECORD_GEM_HANDLE_REQUEST_SIZE 0 0;
   X 17 KB2_GPU_DRM_CORE_COMMAND_SYNCOBJ_HANDLE_TO_ATTACHMENT_REQUEST_INLINE_RECORD KB2_GPU_DRM_CORE_RECORD_SYNCOBJ_EXPORT_REQUEST_SIZE 0 0;
   X 18 KB2_GPU_DRM_CORE_COMMAND_SYNCOBJ_ATTACHMENT_TO_HANDLE_REQUEST_INLINE_RECORD KB2_GPU_DRM_CORE_RECORD_SYNCOBJ_IMPORT_REQUEST_SIZE 0 1;
   X 19 KB2_GPU_DRM_CORE_COMMAND_SYNCOBJ_WAIT_REQUEST_INLINE_RECORD KB2_GPU_DRM_CORE_RECORD_SYNCOBJ_WAIT_REQUEST_SIZE 1 0;
   X 20 KB2_GPU_DRM_CORE_COMMAND_SYNCOBJ_RESET_REQUEST_INLINE_RECORD KB2_GPU_DRM_CORE_RECORD_SYNCOBJ_ARRAY_REQUEST_SIZE 1 0;
   X 21 KB2_GPU_DRM_CORE_COMMAND_SYNCOBJ_SIGNAL_REQUEST_INLINE_RECORD KB2_GPU_DRM_CORE_RECORD_SYNCOBJ_ARRAY_REQUEST_SIZE 1 0;
   X 22 KB2_GPU_DRM_CORE_COMMAND_SYNCOBJ_TIMELINE_WAIT_REQUEST_INLINE_RECORD KB2_GPU_DRM_CORE_RECORD_SYNCOBJ_WAIT_REQUEST_SIZE 1 0;
   X 23 KB2_GPU_DRM_CORE_COMMAND_SYNCOBJ_QUERY_REQUEST_INLINE_RECORD KB2_GPU_DRM_CORE_RECORD_SYNCOBJ_QUERY_REQUEST_SIZE 1 0;
   X 24 KB2_GPU_DRM_CORE_COMMAND_SYNCOBJ_TRANSFER_REQUEST_INLINE_RECORD KB2_GPU_DRM_CORE_RECORD_SYNCOBJ_TRANSFER_REQUEST_SIZE 0 0;
   X 25 KB2_GPU_DRM_CORE_COMMAND_SYNCOBJ_TIMELINE_SIGNAL_REQUEST_INLINE_RECORD KB2_GPU_DRM_CORE_RECORD_SYNCOBJ_ARRAY_REQUEST_SIZE 1 0;
   X 26 KB2_GPU_DRM_CORE_COMMAND_SYNCOBJ_EVENT_ARM_REQUEST_INLINE_RECORD KB2_GPU_DRM_CORE_RECORD_SYNCOBJ_EVENT_ARM_REQUEST_SIZE 0 1;
   X 27 KB2_GPU_DRM_CORE_COMMAND_POLL_EVENTS_REQUEST_INLINE_RECORD KB2_GPU_DRM_CORE_RECORD_SCALAR_U32_SIZE 0 0;
   X 28 KB2_GPU_DRM_CORE_COMMAND_READ_EVENTS_REQUEST_INLINE_RECORD KB2_GPU_DRM_CORE_RECORD_LENGTH_REQUEST_SIZE 1 0].

Definition KB2_GPU_DRM_CORE_REQUEST_SPAN_CATALOG {T} (X : Z -> Z -> Z -> Z -> Z -> Z -> Z -> T) : list T :=
  [X 1 2 2 0 4096 101 1; X 1 3 2 0 4096 101 1; X 1 4 2 0 4096 101 1; X 2 2 2 0 4096 101 1; X 4 2 2 0 15 108 16;
   X 8 2 1 1 64 101 1; X 19 2 1 1 65536 128 4; X 20 2 1 1 65536 128 4; X 21 2 1 1 65536 128 4;
   X 22 2 1 1 65536 130 16; X 23 2 3 1 65536 130 16; X 25 2 1 1 65536 130 16; X 28 2 2 1 512 101 1].

Definition KB2_GPU_DRM_CORE_REQUEST_ATTACHMENT_CATALOG {T} (X : Z -> Z -> Z -> Z -> Z -> Z -> T) : list T :=
  [X 14 2 1 2 0 2; X 18 2 1 2 0 6; X 18 2 1 2 0 3; X 26 2 1 2 0 4].

(** gpu_drm_mode_layout.h *)
Definition KB2_GPU_DRM_MODE_SCHEMA_SHA256_BYTES : list Z :=
  [67; 234; 146; 144; 217; 21; 168; 232; 188; 22; 213; 226; 117; 47; 138; 7; 108; 227; 147; 120; 89;
  150; 16; 246; 225; 126; 51; 111; 237; 186; 102; 51].
Definition KB2_GPU_DRM_MODE_SET_ID : Z := 2.
Definition KB2_GPU_DRM_MODE_COMMAND_COUNT : Z := 44.
Definition KB2_GPU_DRM_MODE_CONNECTOR_FLAG_FORCE_PROBE : Z := 1.
Definition KB2_GPU_DRM_MODE_CURSOR_FLAG_BUFFER : Z := 1.
Definition KB2_GPU_DRM_MODE_CURSOR_FLAG_MOVE : Z := 2.
Definition KB2_GPU_DRM_MODE_DIRTY_FLAG_COPY : Z := 1.
Definition KB2_GPU_DRM_MODE_DIRTY_FLAG_FILL : Z := 2.
Definition KB2_GPU_DRM_MODE_PAGE_FLIP_FLAG_EVENT : Z := 1.
Definition KB2_GPU_DRM_MODE_PAGE_FLIP_FLAG_ASYNC : Z := 2.
Definition KB2_GPU_DRM_MODE_PAGE_FLIP_FLAG_TARGET_ABSOLUTE : Z := 4.
Definition KB2_GPU_DRM_MODE_PAGE_FLIP_FLAG_TARGET_RELATIVE : Z := 8.
Definition KB2_GPU_DRM_MODE_ATOMIC_FLAG_TEST_ONLY : Z := 256.
Definition KB2_GPU_DRM_MODE_ATOMIC_FLAG_NONBLOCK : Z := 512.
Definition KB2_GPU_DRM_MODE_ATOMIC_FLAG_ALLOW_MODESET : Z := 1024.
Definition KB2_GPU_DRM_MODE_COMMAND_WAIT_VBLANK : Z := 5.
Definition KB2_GPU_DRM_MODE_COMMAND_CRTC_GET_SEQUENCE : Z := 6.
Definition KB2_GPU_DRM_MODE_COMMAND_CRTC_QUEUE_SEQUENCE : Z := 7.
Definition KB2_GPU_DRM_MODE_COMMAND_GET_RESOURCES : Z := 8.
Definition KB2_GPU_DRM_MODE_COMMAND_GET_CRTC : Z := 9.
Definition KB2_GPU_DRM_MODE_COMMAND_SET_CRTC : Z := 10.
Definition KB2_GPU_DRM_MODE_COMMAND_CURSOR : Z := 11.
Definition KB2_GPU_DRM_MODE_COMMAND_GET_GAMMA : Z := 12.
Definition KB2_GPU_DRM_MODE_COMMAND_SET_GAMMA : Z := 13.
Definition KB2_GPU_DRM_MODE_COMMAND_GET_ENCODER : Z := 14.
Definition KB2_GPU_DRM_MODE_COMMAND_GET_CONNECTOR : Z := 15.
Definition KB2_GPU_DRM_MODE_COMMAND_ATTACH_MODE : Z := 16.
Definition KB2_GPU_DRM_MODE_COMMAND_DETACH_MODE : Z := 17.
Definition KB2_GPU_DRM_MODE_COMMAND_GET_PROPERTY : Z := 18.
Definition KB2_GPU_DRM_MODE_COMMAND_SET_PROPERTY : Z := 19.
Definition KB2_GPU_DRM_MODE_COMMAND_GET_PROPERTY_BLOB : Z := 20.
Definition KB2_GPU_DRM_MODE_COMMAND_GET_FB : Z := 21.
Definition KB2_GPU_DRM_MODE_COMMAND_ADD_FB : Z := 22.
Definition KB2_GPU_DRM_MODE_COMMAND_REMOVE_FB : Z := 23.
Definition KB2_GPU_DRM_MODE_COMMAND_PAGE_FLIP : Z := 24.
Definition KB2_GPU_DRM_MODE_COMMAND_DIRTY_FB : Z := 25.
Definition KB2_GPU_DRM_MODE_COMMAND_CREATE_DUMB : Z := 26.
Definition KB2_GPU_DRM_MODE_COMMAND_MAP_DUMB : Z := 27.
Definition KB2_GPU_DRM_MODE_COMMAND_GET_PLANE_RESOURCES : Z := 29.
Definition KB2_GPU_DRM_MODE_COMMAND_GET_PLANE : Z := 30.
Definition KB2_GPU_DRM_MODE_COMMAND_SET_PLANE : Z := 31.
Definition KB2_GPU_DRM_MODE_COMMAND_ADD_FB2 : Z := 32.
Definition KB2_GPU_DRM_MODE_COMMAND_OBJECT_GET_PROPERTIES : Z := 33.
Definition KB2_GPU_DRM_MODE_COMMAND_OBJECT_SET_PROPERTY : Z := 34.
Definition KB2_GPU_DRM_MODE_COMMAND_CURSOR2 : Z := 35.
Definition KB2_GPU_DRM_MODE_COMMAND_ATOMIC : Z := 36.
Definition KB2_GPU_DRM_MODE_COMMAND_CREATE_PROPERTY_BLOB : Z := 37.
Definition KB2_GPU_DRM_MODE_COMMAND_DESTROY_PROPERTY_BLOB : Z := 38.
Definition KB2_GPU_DRM_MODE_COMMAND_CREATE_LEASE : Z := 39.
Definition KB2_GPU_DRM_MODE_COMMAND_LIST_LESSEES : Z := 40.
Definition KB2_GPU_DRM_MODE_COMMAND_GET_LEASE : Z := 41.
Definition KB2_GPU_DRM_MODE_COMMAND_GET_FB2 : Z := 43.
Definition KB2_GPU_DRM_MODE_COMMAND_CLOSE_FB : Z := 44.
Definition KB2_GPU_DRM_MODE_RECORD_OBJECT_ID_SIZE : Z := 4.
Definition KB2_GPU_DRM_MODE_RECORD_MAGIC_SIZE : Z := 4.
Definition KB2_GPU_DRM_MODE_RECORD_WAIT_VBLANK_REQUEST_SIZE : Z := 24.
Definition KB2_GPU_DRM_MODE_RECORD_CRTC_SEQUENCE_REQUEST_SIZE : Z := 16.
Definition KB2_GPU_DRM_MODE_RECORD_CRTC_QUEUE_SEQUENCE_REQUEST_SIZE : Z := 32.
Definition KB2_GPU_DRM_MODE_RECORD_RESOURCES_REQUEST_SIZE : Z := 16.
Definition KB2_GPU_DRM_MODE_RECORD_RESOURCES_REQUEST_FB_CAPACITY_OFFSET : Z := 0.
Definition KB2_GPU_DRM_MODE_RECORD_RESOURCES_REQUEST_CRTC_CAPACITY_OFFSET : Z := 4.
Definition KB2_GPU_DRM_MODE_RECORD_RESOURCES_REQUEST_CONNECTOR_CAPACITY_OFFSET : Z := 8.
Definition KB2_GPU_DRM_MODE_RECORD_RESOURCES_REQUEST_ENCODER_CAPACITY_OFFSET : Z := 12.
Definition KB2_GPU_DRM_MODE_RECORD_CRTC_GET_REQUEST_SIZE : Z := 16.
Definition KB2_GPU_DRM_MODE_RECORD_CRTC_GET_REQUEST_RESERVED_OFFSET : Z := 12.
Definition KB2_GPU_DRM_MODE_RECORD_CRTC_SET_REQUEST_SIZE : Z := 32.
Definition KB2_GPU_DRM_MODE_RECORD_CRTC_SET_REQUEST_MODE_VALID_OFFSET : Z := 24.
Definition KB2_GPU_DRM_MODE_RECORD_CRTC_SET_REQUEST_CONNECTOR_COUNT_OFFSET : Z := 28.
Definition KB2_GPU_DRM_MODE_RECORD_CURSOR_REQUEST_SIZE : Z := 40.
Definition KB2_GPU_DRM_MODE_RECORD_CURSOR_REQUEST_FLAGS_OFFSET : Z := 8.
Definition KB2_GPU_DRM_MODE_RECORD_CURSOR_REQUEST_RESERVED_OFFSET : Z := 36.
Definition KB2_GPU_DRM_MODE_RECORD_GAMMA_REQUEST_SIZE : Z := 16.
Definition KB2_GPU_DRM_MODE_RECORD_GAMMA_REQUEST_ENTRY_COUNT_OFFSET : Z := 12.
Definition KB2_GPU_DRM_MODE_RECORD_ENCODER_REQUEST_SIZE : Z := 16.
Definition KB2_GPU_DRM_MODE_RECORD_CONNECTOR_REQUEST_SIZE : Z := 32.
Definition KB2_GPU_DRM_MODE_RECORD_CONNECTOR_REQUEST_MODE_CAPACITY_OFFSET : Z := 12.
Definition KB2_GPU_DRM_MODE_RECORD_CONNECTOR_REQUEST_PROPERTY_CAPACITY_OFFSET : Z := 16.
Definition KB2_GPU_DRM_MODE_RECORD_CONNECTOR_REQUEST_ENCODER_CAPACITY_OFFSET : Z := 20.
Definition KB2_GPU_DRM_MODE_RECORD_CONNECTOR_REQUEST_FLAGS_OFFSET : Z := 24.
Definition KB2_GPU_DRM_MODE_RECORD_CONNECTOR_REQUEST_RESERVED_OFFSET : Z := 28.
Definition KB2_GPU_DRM_MODE_RECORD_MODE_COMMAND_REQUEST_SIZE : Z := 16.
Definition KB2_GPU_DRM_MODE_RECORD_PROPERTY_REQUEST_SIZE : Z := 24.
Definition KB2_GPU_DRM_MODE_RECORD_PROPERTY_REQUEST_VALUE_CAPACITY_OFFSET : Z := 12.
Definition KB2_GPU_DRM_MODE_RECORD_PROPERTY_REQUEST_ENUM_CAPACITY_OFFSET : Z := 16.
Definition KB2_GPU_DRM_MODE_RECORD_PROPERTY_REQUEST_RESERVED_OFFSET : Z := 20.
Definition KB2_GPU_DRM_MODE_RECORD_SET_PROPERTY_REQUEST_SIZE : Z := 24.
Definition KB2_GPU_DRM_MODE_RECORD_BLOB_GET_REQUEST_SIZE : Z := 16.
Definition KB2_GPU_DRM_MODE_RECORD_BLOB_GET_REQUEST_CAPACITY_OFFSET : Z := 12.
Definition KB2_GPU_DRM_MODE_RECORD_FB_GET_REQUEST_SIZE : Z := 16.
Definition KB2_GPU_DRM_MODE_RECORD_FB_LEGACY_CREATE_SIZE : Z := 36.
Definition KB2_GPU_DRM_MODE_RECORD_OBJECT_ID_REQUEST_SIZE : Z := 16.
Definition KB2_GPU_DRM_MODE_RECORD_PAGE_FLIP_REQUEST_SIZE : Z := 32.
Definition KB2_GPU_DRM_MODE_RECORD_PAGE_FLIP_REQUEST_FLAGS_OFFSET : Z := 16.
Definition KB2_GPU_DRM_MODE_RECORD_PAGE_FLIP_REQUEST_SEQUENCE_OFFSET : Z := 20.
Definition KB2_GPU_DRM_MODE_RECORD_PAGE_FLIP_REQUEST_EVENT_TOKEN_OFFSET : Z := 24.
Definition KB2_GPU_DRM_MODE_RECORD_DIRTY_FB_REQUEST_SIZE : Z := 24.
Definition KB2_GPU_DRM_MODE_RECORD_DIRTY_FB_REQUEST_FLAGS_OFFSET : Z := 12.
Definition KB2_GPU_DRM_MODE_RECORD_DIRTY_FB_REQUEST_RECTANGLE_COUNT_OFFSET : Z := 20.
Definition KB2_GPU_DRM_MODE_RECORD_DUMB_CREATE_REQUEST_SIZE : Z := 16.
Definition KB2_GPU_DRM_MODE_RECORD_DUMB_CREATE_REQUEST_FLAGS_OFFSET : Z := 12.
Definition KB2_GPU_DRM_MODE_RECORD_MAP_REQUEST_SIZE : Z := 8.
Definition KB2_GPU_DRM_MODE_RECORD_MAP_REQUEST_MAPPING_RIGHTS_OFFSET : Z := 4.
Definition KB2_GPU_DRM_MODE_RECORD_PLANE_RESOURCES_REQUEST_SIZE : Z := 8.
Definition KB2_GPU_DRM_MODE_RECORD_PLANE_RESOURCES_REQUEST_PLANE_CAPACITY_OFFSET : Z := 0.
Definition KB2_GPU_DRM_MODE_RECORD_PLANE_RESOURCES_REQUEST_RESERVED_OFFSET : Z := 4.
Definition KB2_GPU_DRM_MODE_RECORD_PLANE_GET_REQUEST_SIZE : Z := 16.
Definition KB2_GPU_DRM_MODE_RECORD_PLANE_GET_REQUEST_FORMAT_CAPACITY_OFFSET : Z := 12.
Definition KB2_GPU_DRM_MODE_RECORD_PLANE_SET_REQUEST_SIZE : Z := 56.
Definition KB2_GPU_DRM_MODE_RECORD_FB2_SIZE : Z := 108.
Definition KB2_GPU_DRM_MODE_RECORD_FB2_FB_ID_OFFSET : Z := 8.
Definition KB2_GPU_DRM_MODE_RECORD_OBJECT_PROPERTIES_REQUEST_SIZE : Z := 24.
Definition KB2_GPU_DRM_MODE_RECORD_OBJECT_PROPERTIES_REQUEST_PROPERTY_CAPACITY_OFFSET : Z := 16.
Definition KB2_GPU_DRM_MODE_RECORD_OBJECT_PROPERTIES_REQUEST_RESERVED_OFFSET : Z := 20.
Definition KB2_GPU_DRM_MODE_RECORD_OBJECT_SET_PROPERTY_REQUEST_SIZE : Z := 32.
Definition KB2_GPU_DRM_MODE_RECORD_CURSOR2_REQUEST_SIZE : Z := 44.
Definition KB2_GPU_DRM_MODE_RECORD_CURSOR2_REQUEST_FLAGS_OFFSET : Z := 8.
Definition KB2_GPU_DRM_MODE_RECORD_ATOMIC_REQUEST_SIZE : Z := 32.
Definition KB2_GPU_DRM_MODE_RECORD_ATOMIC_REQUEST_EVENT_TOKEN_OFFSET : Z := 8.
Definition KB2_GPU_DRM_MODE_RECORD_ATOMIC_REQUEST_FLAGS_OFFSET : Z := 16.
Definition KB2_GPU_DRM_MODE_RECORD_ATOMIC_REQUEST_OBJECT_COUNT_OFFSET : Z := 20.
Definition KB2_GPU_DRM_MODE_RECORD_ATOMIC_REQUEST_PROPERTY_COUNT_OFFSET : Z := 24.
Definition KB2_GPU_DRM_MODE_RECORD_ATOMIC_REQUEST_FENCE_CAPACITY_OFFSET : Z := 28.
Definition KB2_GPU_DRM_MODE_RECORD_BLOB_CREATE_REQUEST_SIZE : Z := 16.
Definition KB2_GPU_DRM_MODE_RECORD_BLOB_CREATE_REQUEST_BYTES_OFFSET : Z := 8.
Definition KB2_GPU_DRM_MODE_RECORD_BLOB_CREATE_REQUEST_RESERVED_OFFSET : Z := 12.
Definition KB2_GPU_DRM_MODE_RECORD_LEASE_CREATE_REQUEST_SIZE : Z := 16.
Definition KB2_GPU_DRM_MODE_RECORD_LEASE_CREATE_REQUEST_OBJECT_COUNT_OFFSET : Z := 8.
Definition KB2_GPU_DRM_MODE_RECORD_CAPACITY_REQUEST_SIZE : Z := 8.
Definition KB2_GPU_DRM_MODE_RECORD_CAPACITY_REQUEST_CAPACITY_OFFSET : Z := 0.
Definition KB2_GPU_DRM_MODE_RECORD_CAPACITY_REQUEST_RESERVED_OFFSET : Z := 4.
Definition KB2_GPU_DRM_MODE_RECORD_LEASE_GET_REQUEST_SIZE : Z := 16.
Definition KB2_GPU_DRM_MODE_RECORD_LEASE_GET_REQUEST_OBJECT_CAPACITY_OFFSET : Z := 8.
Definition KB2_GPU_DRM_MODE_RECORD_LEASE_GET_REQUEST_RESERVED_OFFSET : Z := 12.
Definition KB2_GPU_DRM_MODE_RECORD_LEASE_REVOKE_REQUEST_SIZE : Z := 8.
Definition KB2_GPU_DRM_MODE_COMMAND_GET_MAGIC_REQUEST_INLINE_RECORD : Z := 0.
Definition KB2_GPU_DRM_MODE_COMMAND_AUTH_MAGIC_REQUEST_INLINE_RECORD : Z := 104.
Definition KB2_GPU_DRM_MODE_COMMAND_SET_MASTER_REQUEST_INLINE_RECORD : Z := 0.
Definition KB2_GPU_DRM_MODE_COMMAND_DROP_MASTER_REQUEST_INLINE_RECORD : Z := 0.
Definition KB2_GPU_DRM_MODE_COMMAND_WAIT_VBLANK_REQUEST_INLINE_RECORD : Z := 106.
Definition KB2_GPU_DRM_MODE_COMMAND_CRTC_GET_SEQUENCE_REQUEST_INLINE_RECORD : Z := 108.
Definition KB2_GPU_DRM_MODE_COMMAND_CRTC_QUEUE_SEQUENCE_REQUEST_INLINE_RECORD : Z := 110.
Definition KB2_GPU_DRM_MODE_COMMAND_GET_RESOURCES_REQUEST_INLINE_RECORD : Z := 112.
Definition KB2_GPU_DRM_MODE_COMMAND_GET_CRTC_REQUEST_INLINE_RECORD : Z := 115.
Definition KB2_GPU_DRM_MODE_COMMAND_SET_CRTC_REQUEST_INLINE_RECORD : Z := 117.
Definition KB2_GPU_DRM_MODE_COMMAND_CURSOR_REQUEST_INLINE_RECORD : Z := 118.
Definition KB2_GPU_DRM_MODE_COMMAND_GET_GAMMA_REQUEST_INLINE_RECORD : Z := 119.
Definition KB2_GPU_DRM_MODE_COMMAND_SET_GAMMA_REQUEST_INLINE_RECORD : Z := 119.
Definition KB2_GPU_DRM_MODE_COMMAND_GET_ENCODER_REQUEST_INLINE_RECORD : Z := 122.
Definition KB2_GPU_DRM_MODE_COMMAND_GET_CONNECTOR_REQUEST_INLINE_RECORD : Z := 124.
Definition KB2_GPU_DRM_MODE_COMMAND_ATTACH_MODE_REQUEST_INLINE_RECORD : Z := 127.
Definition KB2_GPU_DRM_MODE_COMMAND_DETACH_MODE_REQUEST_INLINE_RECORD : Z := 127.
Definition KB2_GPU_DRM_MODE_COMMAND_GET_PROPERTY_REQUEST_INLINE_RECORD : Z := 128.
Definition KB2_GPU_DRM_MODE_COMMAND_SET_PROPERTY_REQUEST_INLINE_RECORD : Z := 131.
Definition KB2_GPU_DRM_MODE_COMMAND_GET_PROPERTY_BLOB_REQUEST_INLINE_RECORD : Z := 132.
Definition KB2_GPU_DRM_MODE_COMMAND_GET_FB_REQUEST_INLINE_RECORD : Z := 134.
Definition KB2_GPU_DRM_MODE_COMMAND_ADD_FB_REQUEST_INLINE_RECORD : Z := 136.
Definition KB2_GPU_DRM_MODE_COMMAND_REMOVE_FB_REQUEST_INLINE_RECORD : Z := 138.
Definition KB2_GPU_DRM_MODE_COMMAND_PAGE_FLIP_REQUEST_INLINE_RECORD : Z := 139.
Definition KB2_GPU_DRM_MODE_COMMAND_DIRTY_FB_REQUEST_INLINE_RECORD : Z := 140.
Definition KB2_GPU_DRM_MODE_COMMAND_CREATE_DUMB_REQUEST_INLINE_RECORD : Z := 142.
Definition KB2_GPU_DRM_MODE_COMMAND_MAP_DUMB_REQUEST_INLINE_RECORD : Z := 144.
Definition KB2_GPU_DRM_MODE_COMMAND_DESTROY_DUMB_REQUEST_INLINE_RECORD : Z := 102.
Definition KB2_GPU_DRM_MODE_COMMAND_GET_PLANE_RESOURCES_REQUEST_INLINE_RECORD : Z := 146.
Definition KB2_GPU_DRM_MODE_COMMAND_GET_PLANE_REQUEST_INLINE_RECORD : Z := 147.
Definition KB2_GPU_DRM_MODE_COMMAND_SET_PLANE_REQUEST_INLINE_RECORD : Z := 149.
Definition KB2_GPU_DRM_MODE_COMMAND_ADD_FB2_REQUEST_INLINE_RECORD : Z := 150.
Definition KB2_GPU_DRM_MODE_COMMAND_OBJECT_GET_PROPERTIES_REQUEST_INLINE_RECORD : Z := 151.
Definition KB2_GPU_DRM_MODE_COMMAND_OBJECT_SET_PROPERTY_REQUEST_INLINE_RECORD : Z := 152.
Definition KB2_GPU_DRM_MODE_COMMAND_CURSOR2_REQUEST_INLINE_RECORD : Z := 153.
Definition KB2_GPU_DRM_MODE_COMMAND_ATOMIC_REQUEST_INLINE_RECORD : Z := 154.
Definition KB2_GPU_DRM_MODE_COMMAND_CREATE_PROPERTY_BLOB_REQUEST_INLINE_RECORD : Z := 157.
Definition KB2_GPU_DRM_MODE_COMMAND_DESTROY_PROPERTY_BLOB_REQUEST_INLINE_RECORD : Z := 138.
Definition KB2_GPU_DRM_MODE_COMMAND_CREATE_LEASE_REQUEST_INLINE_RECORD : Z := 158.
Definition KB2_GPU_DRM_MODE_COMMAND_LIST_LESSEES_REQUEST_INLINE_RECORD : Z := 160.
Definition KB2_GPU_DRM_MODE_COMMAND_GET_LEASE_REQUEST_INLINE_RECORD : Z := 162.
Definition KB2_GPU_DRM_MODE_COMMAND_REVOKE_LEASE_REQUEST_INLINE_RECORD : Z := 163.
Definition KB2_GPU_DRM_MODE_COMMAND_GET_FB2_REQUEST_INLINE_RECORD : Z := 134.
Definition KB2_GPU_DRM_MODE_COMMAND_CLOSE_FB_REQUEST_INLINE_RECORD : Z := 138.

Definition KB2_GPU_DRM_MODE_REQUEST_CONTRACT_CATALOG {T} (X : Z -> Z -> Z -> Z -> Z -> T) : list T :=
  [X 1 KB2_GPU_DRM_MODE_COMMAND_GET_MAGIC_REQUEST_INLINE_RECORD 0 0 0;
   X 2 KB2_GPU_DRM_MODE_COMMAND_AUTH_MAGIC_REQUEST_INLINE_RECORD KB2_GPU_DRM_MODE_RECORD_MAGIC_SIZE 0 0;
   X 3 KB2_GPU_DRM_MODE_COMMAND_SET_MASTER_REQUEST_INLINE_RECORD 0 0 0;
   X 4 KB2_GPU_DRM_MODE_COMMAND_DROP_MASTER_REQUEST_INLINE_RECORD 0 0 0;
   X 5 KB2_GPU_DRM_MODE_COMMAND_WAIT_VBLANK_REQUEST_INLINE_RECORD KB2_GPU_DRM_MODE_RECORD_WAIT_VBLANK_REQUEST_SIZE 0 0;
   X 6 KB2_GPU_DRM_MODE_COMMAND_CRTC_GET_SEQUENCE_REQUEST_INLINE_RECORD KB2_GPU_DRM_MODE_RECORD_CRTC_SEQUENCE_REQUEST_SIZE 0 0;
   X 7 KB2_GPU_DRM_MODE_COMMAND_CRTC_QUEUE_SEQUENCE_REQUEST_INLINE_RECORD KB2_GPU_DRM_MODE_RECORD_CRTC_QUEUE_SEQUENCE_REQUEST_SIZE 0 0;
   X 8 KB2_GPU_DRM_MODE_COMMAND_GET_RESOURCES_REQUEST_INLINE_RECORD KB2_GPU_DRM_MODE_RECORD_RESOURCES_REQUEST_SIZE 4 0;
   X 9 KB2_GPU_DRM_MODE_COMMAND_GET_CRTC_REQUEST_INLINE_RECORD KB2_GPU_DRM_MODE_RECORD_CRTC_GET_REQUEST_SIZE 1 0;
   X 10 KB2_GPU_DRM_MODE_COMMAND_SET_CRTC_REQUEST_INLINE_RECORD KB2_GPU_DRM_MODE_RECORD_CRTC_SET_REQUEST_SIZE 2 0;
   X 11 KB2_GPU_DRM_MODE_COMMAND_CURSOR_REQUEST_INLINE_RECORD KB2_GPU_DRM_MODE_RECORD_CURSOR_REQUEST_SIZE 0 0;
   X 12 KB2_GPU_DRM_MODE_COMMAND_GET_GAMMA_REQUEST_INLINE_RECORD KB2_GPU_DRM_MODE_RECORD_GAMMA_REQUEST_SIZE 3 0;
   X 13 KB2_GPU_DRM_MODE_COMMAND_SET_GAMMA_REQUEST_INLINE_RECORD KB2_GPU_DRM_MODE_RECORD_GAMMA_REQUEST_SIZE 3 0;
   X 14 KB2_GPU_DRM_MODE_COMMAND_GET_ENCODER_REQUEST_INLINE_RECORD KB2_GPU_DRM_MODE_RECORD_ENCODER_REQUEST_SIZE 0 0;
   X 15 KB2_GPU_DRM_MODE_COMMAND_GET_CONNECTOR_REQUEST_INLINE_RECORD KB2_GPU_DRM_MODE_RECORD_CONNECTOR_REQUEST_SIZE 3 0;
   X 16 KB2_GPU_DRM_MODE_COMMAND_ATTACH_MODE_REQUEST_INLINE_RECORD KB2_GPU_DRM_MODE_RECORD_MODE_COMMAND_REQUEST_SIZE 1 0;
   X 17 KB2_GPU_DRM_MODE_COMMAND_DETACH_MODE_REQUEST_INLINE_RECORD KB2_GPU_DRM_MODE_RECORD_MODE_COMMAND_REQUEST_SIZE 1 0;
   X 18 KB2_GPU_DRM_MODE_COMMAND_GET_PROPERTY_REQUEST_INLINE_RECORD KB2_GPU_DRM_MODE_RECORD_PROPERTY_REQUEST_SIZE 2 0;
   X 19 KB2_GPU_DRM_MODE_COMMAND_SET_PROPERTY_REQUEST_INLINE_RECORD KB2_GPU_DRM_MODE_RECORD_SET_PROPERTY_REQUEST_SIZE 0 0;
   X 20 KB2_GPU_DRM_MODE_COMMAND_GET_PROPERTY_BLOB_REQUEST_INLINE_RECORD KB2_GPU_DRM_MODE_RECORD_BLOB_GET_REQUEST_SIZE 1 0;
   X 21 KB2_GPU_DRM_MODE_COMMAND_GET_FB_REQUEST_INLINE_RECORD KB2_GPU_DRM_MODE_RECORD_FB_GET_REQUEST_SIZE 0 0;
   X 22 KB2_GPU_DRM_MODE_COMMAND_ADD_FB_REQUEST_INLINE_RECORD KB2_GPU_DRM_MODE_RECORD_FB_LEGACY_CREATE_SIZE 0 0;
   X 23 KB2_GPU_DRM_MODE_COMMAND_REMOVE_FB_REQUEST_INLINE_RECORD KB2_GPU_DRM_MODE_RECORD_OBJECT_ID_REQUEST_SIZE 0 0;
   X 24 KB2_GPU_DRM_MODE_COMMAND_PAGE_FLIP_REQUEST_INLINE_RECORD KB2_GPU_DRM_MODE_RECORD_PAGE_FLIP_REQUEST_SIZE 0 0;
   X 25 KB2_GPU_DRM_MODE_COMMAND_DIRTY_FB_REQUEST_INLINE_RECORD KB2_GPU_DRM_MODE_RECORD_DIRTY_FB_REQUEST_SIZE 1 0;
   X 26 KB2_GPU_DRM_MODE_COMMAND_CREATE_DUMB_REQUEST_INLINE_RECORD KB2_GPU_DRM_MODE_RECORD_DUMB_CREATE_REQUEST_SIZE 0 0;
   X 27 KB2_GPU_DRM_MODE_COMMAND_MAP_DUMB_REQUEST_INLINE_RECORD KB2_GPU_DRM_MODE_RECORD_MAP_REQUEST_SIZE 0 0;
   X 28 KB2_GPU_DRM_MODE_COMMAND_DESTROY_DUMB_REQUEST_INLINE_RECORD KB2_GPU_DRM_MODE_RECORD_OBJECT_ID_SIZE 0 0;
   X 29 KB2_GPU_DRM_MODE_COMMAND_GET_PLANE_RESOURCES_REQUEST_INLINE_RECORD KB2_GPU_DRM_MODE_RECORD_PLANE_RESOURCES_REQUEST_SIZE 1 0;
   X 30 KB2_GPU_DRM_MODE_COMMAND_GET_PLANE_REQUEST_INLINE_RECORD KB2_GPU_DRM_MODE_RECORD_PLANE_GET_REQUEST_SIZE 1 0;
   X 31 KB2_GPU_DRM_MODE_COMMAND_SET_PLANE_REQUEST_INLINE_RECORD KB2_GPU_DRM_MODE_RECORD_PLANE_SET_REQUEST_SIZE 0 0;
   X 32 KB2_GPU_DRM_MODE_COMMAND_ADD_FB2_REQUEST_INLINE_RECORD KB2_GPU_DRM_MODE_RECORD_FB2_SIZE 0 0;
   X 33 KB2_GPU_DRM_MODE_COMMAND_OBJECT_GET_PROPERTIES_REQUEST_INLINE_RECORD KB2_GPU_DRM_MODE_RECORD_OBJECT_PROPERTIES_REQUEST_SIZE 1 0;
   X 34 KB2_GPU_DRM_MODE_COMMAND_OBJECT_SET_PROPERTY_REQUEST_INLINE_RECORD KB2_GPU_DRM_MODE_RECORD_OBJECT_SET_PROPERTY_REQUEST_SIZE 0 0;
   X 35 KB2_GPU_DRM_MODE_COMMAND_CURSOR2_REQUEST_INLINE_RECORD KB2_GPU_DRM_MODE_RECORD_CURSOR2_REQUEST_SIZE 0 0;
   X 36 KB2_GPU_DRM_MODE_COMMAND_ATOMIC_REQUEST_INLINE_RECORD KB2_GPU_DRM_MODE_RECORD_ATOMIC_REQUEST_SIZE 3 0;
   X 37 KB2_GPU_DRM_MODE_COMMAND_CREATE_PROPERTY_BLOB_REQUEST_INLINE_RECORD KB2_GPU_DRM_MODE_RECORD_BLOB_CREATE_REQUEST_SIZE 1 0;
   X 38 KB2_GPU_DRM_MODE_COMMAND_DESTROY_PROPERTY_BLOB_REQUEST_INLINE_RECORD KB2_GPU_DRM_MODE_RECORD_OBJECT_ID_REQUEST_SIZE 0 0;
   X 39 KB2_GPU_DRM_MODE_COMMAND_CREATE_LEASE_REQUEST_INLINE_RECORD KB2_GPU_DRM_MODE_RECORD_LEASE_CREATE_REQUEST_SIZE 1 0;
   X 40 KB2_GPU_DRM_MODE_COMMAND_LIST_LESSEES_REQUEST_INLINE_RECORD KB2_GPU_DRM_MODE_RECORD_CAPACITY_REQUEST_SIZE 1 0;
   X 41 KB2_GPU_DRM_MODE_COMMAND_GET_LEASE_REQUEST_INLINE_RECORD KB2_GPU_DRM_MODE_RECORD_LEASE_GET_REQUEST_SIZE 1 0;
   X 42 KB2_GPU_DRM_MODE_COMMAND_REVOKE_LEASE_REQUEST_INLINE_RECORD KB2_GPU_DRM_MODE_RECORD_LEASE_REVOKE_REQUEST_SIZE 0 0;
   X 43 KB2_GPU_DRM_MODE_COMMAND_GET_FB2_REQUEST_INLINE_RECORD KB2_GPU_DRM_MODE_RECORD_FB_GET_REQUEST_SIZE 0 0;
   X 44 KB2_GPU_DRM_MODE_COMMAND_CLOSE_FB_REQUEST_INLINE_RECORD KB2_GPU_DRM_MODE_RECORD_OBJECT_ID_REQUEST_SIZE 0 0].

Definition KB2_GPU_DRM_MODE_REQUEST_SPAN_CATALOG {T} (X : Z -> Z -> Z -> Z -> Z -> Z -> Z -> T) : list T :=
  [X 8 2 2 0 65536 102 4; X 8 3 2 0 65536 102 4; X 8 4 2 0 65536 102 4; X 8 5 2 0 65536 102 4; X 9 2 2 1 1 114 68;
   X 10 2 1 0 65536 102 4; X 10 3 1 0 1 114 68; X 12 2 2 1 65536 120 2; X 12 3 2 1 65536 120 2;
   X 12 4 2 1 65536 120 2; X 13 2 1 1 65536 120 2; X 13 3 1 1 65536 120 2; X 13 4 1 1 65536 120 2;
   X 15 2 2 0 4096 114 68; X 15 3 2 0 65536 125 16; X 15 4 2 0 65536 102 4; X 16 2 1 1 1 114 68;
   X 17 2 1 1 1 114 68; X 18 2 2 0 65536 103 8; X 18 3 2 0 65536 129 40; X 20 2 2 0 16777216 101 1;
   X 25 2 1 0 256 141 16; X 29 2 2 0 65536 102 4; X 30 2 2 0 65536 102 4; X 33 2 2 0 65536 125 16;
   X 36 2 1 1 65536 155 16; X 36 3 1 1 65536 156 32; X 36 4 2 0 65536 165 16; X 37 2 1 0 16777216 101 1;
   X 39 2 1 0 65536 102 4; X 40 2 2 0 65536 161 8; X 41 2 2 0 65536 102 4].

(** gpu_drm_virtgpu_layout.h *)
Definition KB2_GPU_DRM_VIRTGPU_SCHEMA_SHA256_BYTES : list Z :=
  [86; 56; 170; 174; 113; 39; 31; 137; 153; 195; 242; 28; 77; 215; 192; 254; 63; 42; 89; 221; 67; 35;
  113; 244; 105; 158; 222; 105; 194; 205; 175; 187].
Definition KB2_GPU_DRM_VIRTGPU_SET_ID : Z := 3.
Definition KB2_GPU_DRM_VIRTGPU_COMMAND_COUNT : Z := 11.
Definition KB2_GPU_DRM_VIRTGPU_EXEC_FLAG_FENCE_IN : Z := 1.
Definition KB2_GPU_DRM_VIRTGPU_EXEC_FLAG_FENCE_OUT : Z := 2.
Definition KB2_GPU_DRM_VIRTGPU_EXEC_FLAG_RING_INDEX : Z := 4.
Definition KB2_GPU_DRM_VIRTGPU_CONTEXT_PARAMETER_CAPSET_ID : Z := 1.
Definition KB2_GPU_DRM_VIRTGPU_CONTEXT_PARAMETER_RING_COUNT : Z := 2.
Definition KB2_GPU_DRM_VIRTGPU_CONTEXT_PARAMETER_POLL_RING_MASK : Z := 4.
Definition KB2_GPU_DRM_VIRTGPU_CONTEXT_PARAMETER_DEBUG_NAME : Z := 8.
Definition KB2_GPU_DRM_VIRTGPU_COMMAND_MAP : Z := 1.
Definition KB2_GPU_DRM_VIRTGPU_COMMAND_EXECBUFFER : Z := 2.
Definition KB2_GPU_DRM_VIRTGPU_COMMAND_RESOURCE_CREATE : Z := 4.
Definition KB2_GPU_DRM_VIRTGPU_COMMAND_RESOURCE_INFO : Z := 5.
Definition KB2_GPU_DRM_VIRTGPU_COMMAND_WAIT : Z := 8.
Definition KB2_GPU_DRM_VIRTGPU_COMMAND_GET_CAPS : Z := 9.
Definition KB2_GPU_DRM_VIRTGPU_COMMAND_RESOURCE_CREATE_BLOB : Z := 10.
Definition KB2_GPU_DRM_VIRTGPU_COMMAND_CONTEXT_INIT : Z := 11.
Definition KB2_GPU_DRM_VIRTGPU_RECORD_MAP_REQUEST_SIZE : Z := 8.
Definition KB2_GPU_DRM_VIRTGPU_RECORD_MAP_REQUEST_MAPPING_RIGHTS_OFFSET : Z := 4.
Definition KB2_GPU_DRM_VIRTGPU_RECORD_EXECBUFFER_REQUEST_SIZE : Z := 24.
Definition KB2_GPU_DRM_VIRTGPU_RECORD_EXECBUFFER_REQUEST_FLAGS_OFFSET : Z := 0.
Definition KB2_GPU_DRM_VIRTGPU_RECORD_EXECBUFFER_REQUEST_RING_INDEX_OFFSET : Z := 4.
Definition KB2_GPU_DRM_VIRTGPU_RECORD_EXECBUFFER_REQUEST_COMMAND_BYTES_OFFSET : Z := 8.
Definition KB2_GPU_DRM_VIRTGPU_RECORD_EXECBUFFER_REQUEST_BO_HANDLE_COUNT_OFFSET : Z := 12.
Definition KB2_GPU_DRM_VIRTGPU_RECORD_EXECBUFFER_REQUEST_INPUT_SYNCOBJ_COUNT_OFFSET : Z := 16.
Definition KB2_GPU_DRM_VIRTGPU_RECORD_EXECBUFFER_REQUEST_OUTPUT_SYNCOBJ_COUNT_OFFSET : Z := 20.
Definition KB2_GPU_DRM_VIRTGPU_RECORD_GETPARAM_REQUEST_SIZE : Z := 8.
Definition KB2_GPU_DRM_VIRTGPU_RECORD_RESOURCE_CREATE_REQUEST_SIZE : Z := 56.
Definition KB2_GPU_DRM_VIRTGPU_RECORD_RESOURCE_CREATE_REQUEST_RESERVED_OFFSET : Z := 52.
Definition KB2_GPU_DRM_VIRTGPU_RECORD_RESOURCE_INFO_REQUEST_SIZE : Z := 8.
Definition KB2_GPU_DRM_VIRTGPU_RECORD_RESOURCE_INFO_REQUEST_RESERVED_OFFSET : Z := 4.
Definition KB2_GPU_DRM_VIRTGPU_RECORD_TRANSFER_REQUEST_SIZE : Z := 44.
Definition KB2_GPU_DRM_VIRTGPU_RECORD_WAIT_REQUEST_SIZE : Z := 8.
Definition KB2_GPU_DRM_VIRTGPU_RECORD_WAIT_REQUEST_FLAGS_OFFSET : Z := 4.
Definition KB2_GPU_DRM_VIRTGPU_RECORD_GET_CAPS_REQUEST_SIZE : Z := 16.
Definition KB2_GPU_DRM_VIRTGPU_RECORD_GET_CAPS_REQUEST_RESPONSE_CAPACITY_OFFSET : Z := 8.
Definition KB2_GPU_DRM_VIRTGPU_RECORD_GET_CAPS_REQUEST_RESERVED_OFFSET : Z := 12.
Definition KB2_GPU_DRM_VIRTGPU_RECORD_RESOURCE_CREATE_BLOB_REQUEST_SIZE : Z := 32.
Definition KB2_GPU_DRM_VIRTGPU_RECORD_RESOURCE_CREATE_BLOB_REQUEST_COMMAND_BYTES_OFFSET : Z := 16.
Definition KB2_GPU_DRM_VIRTGPU_RECORD_RESOURCE_CREATE_BLOB_REQUEST_RESERVED_OFFSET : Z := 20.
Definition KB2_GPU_DRM_VIRTGPU_RECORD_CONTEXT_INIT_REQUEST_SIZE : Z := 24.
Definition KB2_GPU_DRM_VIRTGPU_RECORD_CONTEXT_INIT_REQUEST_PARAMETER_MASK_OFFSET : Z := 0.
Definition KB2_GPU_DRM_VIRTGPU_RECORD_CONTEXT_INIT_REQUEST_CAPSET_ID_OFFSET : Z := 4.
Definition KB2_GPU_DRM_VIRTGPU_RECORD_CONTEXT_INIT_REQUEST_RING_COUNT_OFFSET : Z := 8.
Definition KB2_GPU_DRM_VIRTGPU_RECORD_CONTEXT_INIT_REQUEST_DEBUG_NAME_BYTES_OFFSET : Z := 12.
Definition KB2_GPU_DRM_VIRTGPU_RECORD_CONTEXT_INIT_REQUEST_POLL_RING_MASK_OFFSET : Z := 16.
Definition KB2_GPU_DRM_VIRTGPU_COMMAND_MAP_REQUEST_INLINE_RECORD : Z := 101.
Definition KB2_GPU_DRM_VIRTGPU_COMMAND_EXECBUFFER_REQUEST_INLINE_RECORD : Z := 103.
Definition KB2_GPU_DRM_VIRTGPU_COMMAND_GETPARAM_REQUEST_INLINE_RECORD : Z := 108.
Definition KB2_GPU_DRM_VIRTGPU_COMMAND_RESOURCE_CREATE_REQUEST_INLINE_RECORD : Z := 110.
Definition KB2_GPU_DRM_VIRTGPU_COMMAND_RESOURCE_INFO_REQUEST_INLINE_RECORD : Z := 112.
Definition KB2_GPU_DRM_VIRTGPU_COMMAND_TRANSFER_FROM_HOST_3D_REQUEST_INLINE_RECORD : Z := 114.
Definition KB2_GPU_DRM_VIRTGPU_COMMAND_TRANSFER_TO_HOST_3D_REQUEST_INLINE_RECORD : Z := 114.
Definition KB2_GPU_DRM_VIRTGPU_COMMAND_WAIT_REQUEST_INLINE_RECORD : Z := 115.
Definition KB2_GPU_DRM_VIRTGPU_COMMAND_GET_CAPS_REQUEST_INLINE_RECORD : Z := 116.
Definition KB2_GPU_DRM_VIRTGPU_COMMAND_RESOURCE_CREATE_BLOB_REQUEST_INLINE_RECORD : Z := 118.
Definition KB2_GPU_DRM_VIRTGPU_COMMAND_CONTEXT_INIT_REQUEST_INLINE_RECORD : Z := 120.

Definition KB2_GPU_DRM_VIRTGPU_REQUEST_CONTRACT_CATALOG {T} (X : Z -> Z -> Z -> Z -> Z -> T) : list T :=
  [X 1 KB2_GPU_DRM_VIRTGPU_COMMAND_MAP_REQUEST_INLINE_RECORD KB2_GPU_DRM_VIRTGPU_RECORD_MAP_REQUEST_SIZE 0 0;
   X 2 KB2_GPU_DRM_VIRTGPU_COMMAND_EXECBUFFER_REQUEST_INLINE_RECORD KB2_GPU_DRM_VIRTGPU_RECORD_EXECBUFFER_REQUEST_SIZE 4 1;
   X 3 KB2_GPU_DRM_VIRTGPU_COMMAND_GETPARAM_REQUEST_INLINE_RECORD KB2_GPU_DRM_VIRTGPU_RECORD_GETPARAM_REQUEST_SIZE 0 0;
   X 4 KB2_GPU_DRM_VIRTGPU_COMMAND_RESOURCE_CREATE_REQUEST_INLINE_RECORD KB2_GPU_DRM_VIRTGPU_RECORD_RESOURCE_CREATE_REQUEST_SIZE 0 0;
   X 5 KB2_GPU_DRM_VIRTGPU_COMMAND_RESOURCE_INFO_REQUEST_INLINE_RECORD KB2_GPU_DRM_VIRTGPU_RECORD_RESOURCE_INFO_REQUEST_SIZE 0 0;
   X 6 KB2_GPU_DRM_VIRTGPU_COMMAND_TRANSFER_FROM_HOST_3D_REQUEST_INLINE_RECORD KB2_GPU_DRM_VIRTGPU_RECORD_TRANSFER_REQUEST_SIZE 0 0;
   X 7 KB2_GPU_DRM_VIRTGPU_COMMAND_TRANSFER_TO_HOST_3D_REQUEST_INLINE_RECORD KB2_GPU_DRM_VIRTGPU_RECORD_TRANSFER_REQUEST_SIZE 0 0;
   X 8 KB2_GPU_DRM_VIRTGPU_COMMAND_WAIT_REQUEST_INLINE_RECORD KB2_GPU_DRM_VIRTGPU_RECORD_WAIT_REQUEST_SIZE 0 0;
   X 9 KB2_GPU_DRM_VIRTGPU_COMMAND_GET_CAPS_REQUEST_INLINE_RECORD KB2_GPU_DRM_VIRTGPU_RECORD_GET_CAPS_REQUEST_SIZE 1 0;
   X 10 KB2_GPU_DRM_VIRTGPU_COMMAND_RESOURCE_CREATE_BLOB_REQUEST_INLINE_RECORD KB2_GPU_DRM_VIRTGPU_RECORD_RESOURCE_CREATE_BLOB_REQUEST_SIZE 1 0;
   X 11 KB2_GPU_DRM_VIRTGPU_COMMAND_CONTEXT_INIT_REQUEST_INLINE_RECORD KB2_GPU_DRM_VIRTGPU_RECORD_CONTEXT_INIT_REQUEST_SIZE 1 0].

Definition KB2_GPU_DRM_VIRTGPU_REQUEST_SPAN_CATALOG {T} (X : Z -> Z -> Z -> Z -> Z -> Z -> Z -> T) : list T :=
  [X 2 2 1 1 16777216 104 1; X 2 3 1 0 65536 105 4; X 2 4 1 0 65536 106 16; X 2 5 1 0 65536 106 16;
   X 9 2 2 0 1048576 104 1; X 10 2 1 0 16777216 104 1; X 11 2 1 0 64 104 1].

Definition KB2_GPU_DRM_VIRTGPU_REQUEST_ATTACHMENT_CATALOG {T} (X : Z -> Z -> Z -> Z -> Z -> Z -> T) : list T :=
  [X 2 6 1 2 1 3].

(** gpu_drm_amdgpu_layout.h *)
Definition KB2_GPU_DRM_AMDGPU_SCHEMA_SHA256_BYTES : list Z :=
  [173; 88; 100; 72; 15; 237; 152; 61; 204; 211; 206; 16; 213; 217; 28; 250; 30; 200; 202; 204; 66;
  200; 55; 171; 202; 35; 222; 38; 166; 186; 165; 41].
Definition KB2_GPU_DRM_AMDGPU_SET_ID : Z := 5.
Definition KB2_GPU_DRM_AMDGPU_COMMAND_COUNT : Z := 20.
Definition KB2_GPU_DRM_AMDGPU_MAX_BO_LIST_ENTRIES : Z := 65536.
Definition KB2_GPU_DRM_AMDGPU_MAX_INFO_BYTES : Z := 1048576.
Definition KB2_GPU_DRM_AMDGPU_MAX_SYNC_HANDLES : Z := 65536.
Definition KB2_GPU_DRM_AMDGPU_MAX_VM_MAPPINGS : Z := 65536.
Definition KB2_GPU_DRM_AMDGPU_COMMAND_BO_LIST : Z := 4.
Definition KB2_GPU_DRM_AMDGPU_COMMAND_CS : Z := 5.
Definition KB2_GPU_DRM_AMDGPU_COMMAND_INFO : Z := 6.
Definition KB2_GPU_DRM_AMDGPU_COMMAND_GEM_METADATA : Z := 7.
Definition KB2_GPU_DRM_AMDGPU_COMMAND_GEM_WAIT_IDLE : Z := 8.
Definition KB2_GPU_DRM_AMDGPU_COMMAND_GEM_VA : Z := 9.
Definition KB2_GPU_DRM_AMDGPU_COMMAND_WAIT_CS : Z := 10.
Definition KB2_GPU_DRM_AMDGPU_COMMAND_GEM_OP : Z := 11.
Definition KB2_GPU_DRM_AMDGPU_COMMAND_GEM_USERPTR : Z := 12.
Definition KB2_GPU_DRM_AMDGPU_COMMAND_WAIT_FENCES : Z := 13.
Definition KB2_GPU_DRM_AMDGPU_COMMAND_FENCE_TO_HANDLE : Z := 15.
Definition KB2_GPU_DRM_AMDGPU_COMMAND_SCHED : Z := 16.
Definition KB2_GPU_DRM_AMDGPU_COMMAND_USERQ : Z := 17.
Definition KB2_GPU_DRM_AMDGPU_COMMAND_USERQ_SIGNAL : Z := 18.
Definition KB2_GPU_DRM_AMDGPU_COMMAND_USERQ_WAIT : Z := 19.
Definition KB2_GPU_DRM_AMDGPU_COMMAND_GEM_LIST_HANDLES : Z := 20.
Definition KB2_GPU_DRM_AMDGPU_RECORD_GEM_CREATE_REQUEST : Z := 101.
Definition KB2_GPU_DRM_AMDGPU_RECORD_GEM_CREATE_REQUEST_SIZE : Z := 32.
Definition KB2_GPU_DRM_AMDGPU_RECORD_GEM_HANDLE_RESULT : Z := 102.
Definition KB2_GPU_DRM_AMDGPU_RECORD_GEM_HANDLE_RESULT_SIZE : Z := 8.
Definition KB2_GPU_DRM_AMDGPU_RECORD_GEM_MMAP_REQUEST : Z := 103.
Definition KB2_GPU_DRM_AMDGPU_RECORD_GEM_MMAP_REQUEST_SIZE : Z := 8.
Definition KB2_GPU_DRM_AMDGPU_RECORD_CONTEXT_REQUEST : Z := 105.
Definition KB2_GPU_DRM_AMDGPU_RECORD_CONTEXT_REQUEST_SIZE : Z := 16.
Definition KB2_GPU_DRM_AMDGPU_RECORD_CONTEXT_RESULT : Z := 106.
Definition KB2_GPU_DRM_AMDGPU_RECORD_CONTEXT_RESULT_SIZE : Z := 32.
Definition KB2_GPU_DRM_AMDGPU_RECORD_BO_LIST_REQUEST : Z := 107.
Definition KB2_GPU_DRM_AMDGPU_RECORD_BO_LIST_REQUEST_SIZE : Z := 16.
Definition KB2_GPU_DRM_AMDGPU_RECORD_BO_LIST_REQUEST_ENTRY_COUNT_OFFSET : Z := 8.
Definition KB2_GPU_DRM_AMDGPU_RECORD_BO_LIST_REQUEST_RESERVED_OFFSET : Z := 12.
Definition KB2_GPU_DRM_AMDGPU_RECORD_BO_LIST_ENTRY : Z := 108.
Definition KB2_GPU_DRM_AMDGPU_RECORD_BO_LIST_ENTRY_SIZE : Z := 8.
Definition KB2_GPU_DRM_AMDGPU_RECORD_BO_LIST_RESULT : Z := 109.
Definition KB2_GPU_DRM_AMDGPU_RECORD_BO_LIST_RESULT_SIZE : Z := 8.
Definition KB2_GPU_DRM_AMDGPU_RECORD_CS_REQUEST : Z := 110.
Definition KB2_GPU_DRM_AMDGPU_RECORD_CS_REQUEST_SIZE : Z := 16.
Definition KB2_GPU_DRM_AMDGPU_RECORD_CS_REQUEST_CHUNK_COUNT_OFFSET : Z := 8.
Definition KB2_GPU_DRM_AMDGPU_RECORD_CS_CHUNK_IB : Z := 111.
Definition KB2_GPU_DRM_AMDGPU_RECORD_CS_CHUNK_IB_SIZE : Z := 32.
Definition KB2_GPU_DRM_AMDGPU_RECORD_CS_CHUNK_USER_FENCE : Z := 112.
Definition KB2_GPU_DRM_AMDGPU_RECORD_CS_CHUNK_USER_FENCE_SIZE : Z := 8.
Definition KB2_GPU_DRM_AMDGPU_RECORD_CS_CHUNK_DEPENDENCY : Z := 113.
Definition KB2_GPU_DRM_AMDGPU_RECORD_CS_CHUNK_DEPENDENCY_SIZE : Z := 24.
Definition KB2_GPU_DRM_AMDGPU_RECORD_CS_CHUNK_SYNCOBJ_IN : Z := 114.
Definition KB2_GPU_DRM_AMDGPU_RECORD_CS_CHUNK_SYNCOBJ_IN_SIZE : Z := 4.
Definition KB2_GPU_DRM_AMDGPU_RECORD_CS_CHUNK_SYNCOBJ_OUT : Z := 115.
Definition KB2_GPU_DRM_AMDGPU_RECORD_CS_CHUNK_SYNCOBJ_OUT_SIZE : Z := 4.
Definition KB2_GPU_DRM_AMDGPU_RECORD_CS_CHUNK_BO_HANDLE : Z := 116.
Definition KB2_GPU_DRM_AMDGPU_RECORD_CS_CHUNK_BO_HANDLE_SIZE : Z := 8.
Definition KB2_GPU_DRM_AMDGPU_RECORD_CS_CHUNK_SCHEDULED_DEPENDENCY : Z := 117.
Definition KB2_GPU_DRM_AMDGPU_RECORD_CS_CHUNK_SCHEDULED_DEPENDENCY_SIZE : Z := 24.
Definition KB2_GPU_DRM_AMDGPU_RECORD_CS_CHUNK_TIMELINE_WAIT : Z := 118.
Definition KB2_GPU_DRM_AMDGPU_RECORD_CS_CHUNK_TIMELINE_WAIT_SIZE : Z := 16.
Definition KB2_GPU_DRM_AMDGPU_RECORD_CS_CHUNK_TIMELINE_SIGNAL : Z := 119.
Definition KB2_GPU_DRM_AMDGPU_RECORD_CS_CHUNK_TIMELINE_SIGNAL_SIZE : Z := 16.
Definition KB2_GPU_DRM_AMDGPU_RECORD_CS_CHUNK_GFX_SHADOW : Z := 120.
Definition KB2_GPU_DRM_AMDGPU_RECORD_CS_CHUNK_GFX_SHADOW_SIZE : Z := 32.
Definition KB2_GPU_DRM_AMDGPU_RECORD_CS_RESULT : Z := 121.
Definition KB2_GPU_DRM_AMDGPU_RECORD_CS_RESULT_SIZE : Z := 8.
Definition KB2_GPU_DRM_AMDGPU_RECORD_INFO_REQUEST : Z := 122.
Definition KB2_GPU_DRM_AMDGPU_RECORD_INFO_REQUEST_SIZE : Z := 32.
Definition KB2_GPU_DRM_AMDGPU_RECORD_INFO_REQUEST_QUERY_OFFSET : Z := 0.
Definition KB2_GPU_DRM_AMDGPU_RECORD_INFO_REQUEST_RESPONSE_RECORD_ID_OFFSET : Z := 4.
Definition KB2_GPU_DRM_AMDGPU_RECORD_INFO_REQUEST_RESPONSE_CAPACITY_OFFSET : Z := 8.
Definition KB2_GPU_DRM_AMDGPU_RECORD_INFO_REQUEST_FLAGS_OFFSET : Z := 12.
Definition KB2_GPU_DRM_AMDGPU_RECORD_INFO_RESULT : Z := 123.
Definition KB2_GPU_DRM_AMDGPU_RECORD_INFO_RESULT_SIZE : Z := 16.
Definition KB2_GPU_DRM_AMDGPU_RECORD_SCALAR_U32 : Z := 124.
Definition KB2_GPU_DRM_AMDGPU_RECORD_SCALAR_U32_SIZE : Z := 4.
Definition KB2_GPU_DRM_AMDGPU_RECORD_SCALAR_U64 : Z := 125.
Definition KB2_GPU_DRM_AMDGPU_RECORD_SCALAR_U64_SIZE : Z := 8.
Definition KB2_GPU_DRM_AMDGPU_RECORD_BYTE : Z := 126.
Definition KB2_GPU_DRM_AMDGPU_RECORD_BYTE_SIZE : Z := 1.
Definition KB2_GPU_DRM_AMDGPU_RECORD_INFO_GDS : Z := 127.
Definition KB2_GPU_DRM_AMDGPU_RECORD_INFO_GDS_SIZE : Z := 32.
Definition KB2_GPU_DRM_AMDGPU_RECORD_INFO_VRAM_GTT : Z := 128.
Definition KB2_GPU_DRM_AMDGPU_RECORD_INFO_VRAM_GTT_SIZE : Z := 24.
Definition KB2_GPU_DRM_AMDGPU_RECORD_INFO_MEMORY : Z := 129.
Definition KB2_GPU_DRM_AMDGPU_RECORD_INFO_MEMORY_SIZE : Z := 96.
Definition KB2_GPU_DRM_AMDGPU_RECORD_INFO_FIRMWARE : Z := 130.
Definition KB2_GPU_DRM_AMDGPU_RECORD_INFO_FIRMWARE_SIZE : Z := 8.
Definition KB2_GPU_DRM_AMDGPU_RECORD_INFO_VBIOS : Z := 131.
Definition KB2_GPU_DRM_AMDGPU_RECORD_INFO_VBIOS_SIZE : Z := 200.
Definition KB2_GPU_DRM_AMDGPU_RECORD_INFO_HW_IP : Z := 132.
Definition KB2_GPU_DRM_AMDGPU_RECORD_INFO_HW_IP_SIZE : Z := 36.
Definition KB2_GPU_DRM_AMDGPU_RECORD_INFO_DEVICE : Z := 133.
Definition KB2_GPU_DRM_AMDGPU_RECORD_INFO_DEVICE_SIZE : Z := 436.
Definition KB2_GPU_DRM_AMDGPU_RECORD_INFO_NUM_HANDLES : Z := 134.
Definition KB2_GPU_DRM_AMDGPU_RECORD_INFO_NUM_HANDLES_SIZE : Z := 8.
Definition KB2_GPU_DRM_AMDGPU_RECORD_INFO_VCE_CLOCK_ENTRY : Z := 135.
Definition KB2_GPU_DRM_AMDGPU_RECORD_INFO_VCE_CLOCK_ENTRY_SIZE : Z := 16.
Definition KB2_GPU_DRM_AMDGPU_RECORD_INFO_VIDEO_CAPS : Z := 136.
Definition KB2_GPU_DRM_AMDGPU_RECORD_INFO_VIDEO_CAPS_SIZE : Z := 192.
Definition KB2_GPU_DRM_AMDGPU_RECORD_INFO_GPUVM_FAULT : Z := 137.
Definition KB2_GPU_DRM_AMDGPU_RECORD_INFO_GPUVM_FAULT_SIZE : Z := 16.
Definition KB2_GPU_DRM_AMDGPU_RECORD_INFO_USERQ_METADATA : Z := 138.
Definition KB2_GPU_DRM_AMDGPU_RECORD_INFO_USERQ_METADATA_SIZE : Z := 16.
Definition KB2_GPU_DRM_AMDGPU_RECORD_GEM_METADATA_REQUEST : Z := 139.
Definition KB2_GPU_DRM_AMDGPU_RECORD_GEM_METADATA_REQUEST_SIZE : Z := 288.
Definition KB2_GPU_DRM_AMDGPU_RECORD_GEM_METADATA_REQUEST_DATA_SIZE_OFFSET : Z := 24.
Definition KB2_GPU_DRM_AMDGPU_RECORD_GEM_METADATA_REQUEST_RESERVED_OFFSET : Z := 28.
Definition KB2_GPU_DRM_AMDGPU_RECORD_GEM_METADATA_RESULT : Z := 140.
Definition KB2_GPU_DRM_AMDGPU_RECORD_GEM_METADATA_RESULT_SIZE : Z := 280.
Definition KB2_GPU_DRM_AMDGPU_RECORD_GEM_WAIT_IDLE_REQUEST : Z := 141.
Definition KB2_GPU_DRM_AMDGPU_RECORD_GEM_WAIT_IDLE_REQUEST_SIZE : Z := 8.
Definition KB2_GPU_DRM_AMDGPU_RECORD_GEM_WAIT_IDLE_RESULT : Z := 142.
Definition KB2_GPU_DRM_AMDGPU_RECORD_GEM_WAIT_IDLE_RESULT_SIZE : Z := 8.
Definition KB2_GPU_DRM_AMDGPU_RECORD_GEM_VA_REQUEST : Z := 143.
Definition KB2_GPU_DRM_AMDGPU_RECORD_GEM_VA_REQUEST_SIZE : Z := 56.
Definition KB2_GPU_DRM_AMDGPU_RECORD_GEM_VA_REQUEST_INPUT_SYNCOBJ_COUNT_OFFSET : Z := 12.
Definition KB2_GPU_DRM_AMDGPU_RECORD_GEM_VA_REQUEST_RESERVED_OFFSET : Z := 52.
Definition KB2_GPU_DRM_AMDGPU_RECORD_WAIT_CS_REQUEST : Z := 144.
Definition KB2_GPU_DRM_AMDGPU_RECORD_WAIT_CS_REQUEST_SIZE : Z := 24.
Definition KB2_GPU_DRM_AMDGPU_RECORD_WAIT_STATUS_RESULT : Z := 145.
Definition KB2_GPU_DRM_AMDGPU_RECORD_WAIT_STATUS_RESULT_SIZE : Z := 8.
Definition KB2_GPU_DRM_AMDGPU_RECORD_GEM_OP_REQUEST : Z := 146.
Definition KB2_GPU_DRM_AMDGPU_RECORD_GEM_OP_REQUEST_SIZE : Z := 24.
Definition KB2_GPU_DRM_AMDGPU_RECORD_GEM_OP_REQUEST_MAPPING_CAPACITY_OFFSET : Z := 16.
Definition KB2_GPU_DRM_AMDGPU_RECORD_GEM_OP_REQUEST_RESERVED_OFFSET : Z := 20.
Definition KB2_GPU_DRM_AMDGPU_RECORD_GEM_CREATE_INFO : Z := 147.
Definition KB2_GPU_DRM_AMDGPU_RECORD_GEM_CREATE_INFO_SIZE : Z := 32.
Definition KB2_GPU_DRM_AMDGPU_RECORD_GEM_VM_ENTRY : Z := 148.
Definition KB2_GPU_DRM_AMDGPU_RECORD_GEM_VM_ENTRY_SIZE : Z := 32.
Definition KB2_GPU_DRM_AMDGPU_RECORD_GEM_OP_RESULT : Z := 149.
Definition KB2_GPU_DRM_AMDGPU_RECORD_GEM_OP_RESULT_SIZE : Z := 16.
Definition KB2_GPU_DRM_AMDGPU_RECORD_GEM_USERPTR_REQUEST : Z := 150.
Definition KB2_GPU_DRM_AMDGPU_RECORD_GEM_USERPTR_REQUEST_SIZE : Z := 24.
Definition KB2_GPU_DRM_AMDGPU_RECORD_GEM_USERPTR_REQUEST_RESERVED_OFFSET : Z := 20.
Definition KB2_GPU_DRM_AMDGPU_RECORD_FENCE : Z := 151.
Definition KB2_GPU_DRM_AMDGPU_RECORD_FENCE_SIZE : Z := 24.
Definition KB2_GPU_DRM_AMDGPU_RECORD_WAIT_FENCES_REQUEST : Z := 152.
Definition KB2_GPU_DRM_AMDGPU_RECORD_WAIT_FENCES_REQUEST_SIZE : Z := 8.
Definition KB2_GPU_DRM_AMDGPU_RECORD_WAIT_FENCES_REQUEST_FENCE_COUNT_OFFSET : Z := 0.
Definition KB2_GPU_DRM_AMDGPU_RECORD_WAIT_FENCES_RESULT : Z := 153.
Definition KB2_GPU_DRM_AMDGPU_RECORD_WAIT_FENCES_RESULT_SIZE : Z := 8.
Definition KB2_GPU_DRM_AMDGPU_RECORD_VM_REQUEST : Z := 154.
Definition KB2_GPU_DRM_AMDGPU_RECORD_VM_REQUEST_SIZE : Z := 8.
Definition KB2_GPU_DRM_AMDGPU_RECORD_VM_RESULT : Z := 155.
Definition KB2_GPU_DRM_AMDGPU_RECORD_VM_RESULT_SIZE : Z := 8.
Definition KB2_GPU_DRM_AMDGPU_RECORD_FENCE_TO_HANDLE_REQUEST : Z := 156.
Definition KB2_GPU_DRM_AMDGPU_RECORD_FENCE_TO_HANDLE_REQUEST_SIZE : Z := 32.
Definition KB2_GPU_DRM_AMDGPU_RECORD_FENCE_TO_HANDLE_REQUEST_RESERVED_OFFSET : Z := 28.
Definition KB2_GPU_DRM_AMDGPU_RECORD_FENCE_TO_HANDLE_RESULT : Z := 157.
Definition KB2_GPU_DRM_AMDGPU_RECORD_FENCE_TO_HANDLE_RESULT_SIZE : Z := 8.
Definition KB2_GPU_DRM_AMDGPU_RECORD_SCHED_REQUEST : Z := 158.
Definition KB2_GPU_DRM_AMDGPU_RECORD_SCHED_REQUEST_SIZE : Z := 16.
Definition KB2_GPU_DRM_AMDGPU_RECORD_SCHED_REQUEST_RESERVED_OFFSET : Z := 12.
Definition KB2_GPU_DRM_AMDGPU_RECORD_USERQ_REQUEST : Z := 159.
Definition KB2_GPU_DRM_AMDGPU_RECORD_USERQ_REQUEST_SIZE : Z := 64.
Definition KB2_GPU_DRM_AMDGPU_RECORD_USERQ_REQUEST_MQD_RECORD_ID_OFFSET : Z := 56.
Definition KB2_GPU_DRM_AMDGPU_RECORD_USERQ_REQUEST_MQD_SIZE_OFFSET : Z := 60.
Definition KB2_GPU_DRM_AMDGPU_RECORD_USERQ_RESULT : Z := 160.
Definition KB2_GPU_DRM_AMDGPU_RECORD_USERQ_RESULT_SIZE : Z := 8.
Definition KB2_GPU_DRM_AMDGPU_RECORD_USERQ_MQD_GFX11 : Z := 161.
Definition KB2_GPU_DRM_AMDGPU_RECORD_USERQ_MQD_GFX11_SIZE : Z := 16.
Definition KB2_GPU_DRM_AMDGPU_RECORD_USERQ_MQD_SDMA_GFX11 : Z := 162.
Definition KB2_GPU_DRM_AMDGPU_RECORD_USERQ_MQD_SDMA_GFX11_SIZE : Z := 8.
Definition KB2_GPU_DRM_AMDGPU_RECORD_USERQ_MQD_COMPUTE_GFX11 : Z := 163.
Definition KB2_GPU_DRM_AMDGPU_RECORD_USERQ_MQD_COMPUTE_GFX11_SIZE : Z := 8.
Definition KB2_GPU_DRM_AMDGPU_RECORD_USERQ_SIGNAL_REQUEST : Z := 164.
Definition KB2_GPU_DRM_AMDGPU_RECORD_USERQ_SIGNAL_REQUEST_SIZE : Z := 16.
Definition KB2_GPU_DRM_AMDGPU_RECORD_USERQ_SIGNAL_REQUEST_SYNCOBJ_COUNT_OFFSET : Z := 4.
Definition KB2_GPU_DRM_AMDGPU_RECORD_USERQ_SIGNAL_REQUEST_READ_BO_COUNT_OFFSET : Z := 8.
Definition KB2_GPU_DRM_AMDGPU_RECORD_USERQ_SIGNAL_REQUEST_WRITE_BO_COUNT_OFFSET : Z := 12.
Definition KB2_GPU_DRM_AMDGPU_RECORD_HANDLE_U32 : Z := 165.
Definition KB2_GPU_DRM_AMDGPU_RECORD_HANDLE_U32_SIZE : Z := 4.
Definition KB2_GPU_DRM_AMDGPU_RECORD_TIMELINE_SYNCOBJ : Z := 166.
Definition KB2_GPU_DRM_AMDGPU_RECORD_TIMELINE_SYNCOBJ_SIZE : Z := 16.
Definition KB2_GPU_DRM_AMDGPU_RECORD_USERQ_WAIT_REQUEST : Z := 167.
Definition KB2_GPU_DRM_AMDGPU_RECORD_USERQ_WAIT_REQUEST_SIZE : Z := 24.
Definition KB2_GPU_DRM_AMDGPU_RECORD_USERQ_WAIT_REQUEST_SYNCOBJ_COUNT_OFFSET : Z := 4.
Definition KB2_GPU_DRM_AMDGPU_RECORD_USERQ_WAIT_REQUEST_TIMELINE_SYNCOBJ_COUNT_OFFSET : Z := 8.
Definition KB2_GPU_DRM_AMDGPU_RECORD_USERQ_WAIT_REQUEST_READ_BO_COUNT_OFFSET : Z := 12.
Definition KB2_GPU_DRM_AMDGPU_RECORD_USERQ_WAIT_REQUEST_WRITE_BO_COUNT_OFFSET : Z := 16.
Definition KB2_GPU_DRM_AMDGPU_RECORD_USERQ_WAIT_REQUEST_OUTPUT_CAPACITY_OFFSET : Z := 20.
Definition KB2_GPU_DRM_AMDGPU_RECORD_USERQ_FENCE_INFO : Z := 168.
Definition KB2_GPU_DRM_AMDGPU_RECORD_USERQ_FENCE_INFO_SIZE : Z := 16.
Definition KB2_GPU_DRM_AMDGPU_RECORD_USERQ_WAIT_RESULT : Z := 169.
Definition KB2_GPU_DRM_AMDGPU_RECORD_USERQ_WAIT_RESULT_SIZE : Z := 8.
Definition KB2_GPU_DRM_AMDGPU_RECORD_GEM_LIST_HANDLES_REQUEST : Z := 170.
Definition KB2_GPU_DRM_AMDGPU_RECORD_GEM_LIST_HANDLES_REQUEST_SIZE : Z := 8.
Definition KB2_GPU_DRM_AMDGPU_RECORD_GEM_LIST_HANDLES_REQUEST_ENTRY_CAPACITY_OFFSET : Z := 0.
Definition KB2_GPU_DRM_AMDGPU_RECORD_GEM_LIST_HANDLES_REQUEST_RESERVED_OFFSET : Z := 4.
Definition KB2_GPU_DRM_AMDGPU_RECORD_GEM_LIST_HANDLES_ENTRY : Z := 171.
Definition KB2_GPU_DRM_AMDGPU_RECORD_GEM_LIST_HANDLES_ENTRY_SIZE : Z := 40.
Definition KB2_GPU_DRM_AMDGPU_RECORD_GEM_LIST_HANDLES_RESULT : Z := 172.
Definition KB2_GPU_DRM_AMDGPU_RECORD_GEM_LIST_HANDLES_RESULT_SIZE : Z := 8.
Definition KB2_GPU_DRM_AMDGPU_INFO_QUERY_ACCELERATION_WORKING : Z := 0.
Definition KB2_GPU_DRM_AMDGPU_INFO_QUERY_CRTC_FROM_ID : Z := 1.
Definition KB2_GPU_DRM_AMDGPU_INFO_QUERY_HW_IP_INFO : Z := 2.
Definition KB2_GPU_DRM_AMDGPU_INFO_QUERY_HW_IP_COUNT : Z := 3.
Definition KB2_GPU_DRM_AMDGPU_INFO_QUERY_TIMESTAMP : Z := 5.
Definition KB2_GPU_DRM_AMDGPU_INFO_QUERY_FIRMWARE_VERSION : Z := 14.
Definition KB2_GPU_DRM_AMDGPU_INFO_QUERY_BYTES_MOVED : Z := 15.
Definition KB2_GPU_DRM_AMDGPU_INFO_QUERY_VRAM_USAGE : Z := 16.
Definition KB2_GPU_DRM_AMDGPU_INFO_QUERY_GTT_USAGE : Z := 17.
Definition KB2_GPU_DRM_AMDGPU_INFO_QUERY_GDS_CONFIG : Z := 19.
Definition KB2_GPU_DRM_AMDGPU_INFO_QUERY_VRAM_GTT : Z := 20.
Definition KB2_GPU_DRM_AMDGPU_INFO_QUERY_READ_MMR_REGISTER : Z := 21.
Definition KB2_GPU_DRM_AMDGPU_INFO_QUERY_DEVICE_INFO : Z := 22.
Definition KB2_GPU_DRM_AMDGPU_INFO_QUERY_VISIBLE_VRAM_USAGE : Z := 23.
Definition KB2_GPU_DRM_AMDGPU_INFO_QUERY_EVICTION_COUNT : Z := 24.
Definition KB2_GPU_DRM_AMDGPU_INFO_QUERY_MEMORY_INFO : Z := 25.
Definition KB2_GPU_DRM_AMDGPU_INFO_QUERY_VCE_CLOCK_TABLE : Z := 26.
Definition KB2_GPU_DRM_AMDGPU_INFO_QUERY_VBIOS : Z := 27.
Definition KB2_GPU_DRM_AMDGPU_INFO_QUERY_VIDEO_HANDLE_COUNT : Z := 28.
Definition KB2_GPU_DRM_AMDGPU_INFO_QUERY_SENSOR : Z := 29.
Definition KB2_GPU_DRM_AMDGPU_INFO_QUERY_VRAM_CPU_PAGE_FAULTS : Z := 30.
Definition KB2_GPU_DRM_AMDGPU_INFO_QUERY_VRAM_LOST_COUNTER : Z := 31.
Definition KB2_GPU_DRM_AMDGPU_INFO_QUERY_RAS_ENABLED_FEATURES : Z := 32.
Definition KB2_GPU_DRM_AMDGPU_INFO_QUERY_VIDEO_CAPS : Z := 33.
Definition KB2_GPU_DRM_AMDGPU_INFO_QUERY_MAXIMUM_IBS : Z := 34.
Definition KB2_GPU_DRM_AMDGPU_INFO_QUERY_GPUVM_FAULT : Z := 35.
Definition KB2_GPU_DRM_AMDGPU_INFO_QUERY_USERQ_FIRMWARE_AREAS : Z := 36.
Definition KB2_GPU_DRM_AMDGPU_INLINE_ARGUMENT_ID : Z := 1.
Definition KB2_GPU_DRM_AMDGPU_COMMAND_GEM_CREATE_REQUEST_INLINE_RECORD : Z := 101.
Definition KB2_GPU_DRM_AMDGPU_COMMAND_GEM_MMAP_REQUEST_INLINE_RECORD : Z := 103.
Definition KB2_GPU_DRM_AMDGPU_COMMAND_CONTEXT_REQUEST_INLINE_RECORD : Z := 105.
Definition KB2_GPU_DRM_AMDGPU_COMMAND_BO_LIST_REQUEST_INLINE_RECORD : Z := 107.
Definition KB2_GPU_DRM_AMDGPU_COMMAND_CS_REQUEST_INLINE_RECORD : Z := 110.
Definition KB2_GPU_DRM_AMDGPU_COMMAND_CS_REQUEST_SPAN_CHUNKS_MINIMUM : Z := 1.
Definition KB2_GPU_DRM_AMDGPU_COMMAND_CS_REQUEST_SPAN_CHUNKS_MAXIMUM : Z := 64.
Definition KB2_GPU_DRM_AMDGPU_COMMAND_CS_REQUEST_SPAN_CHUNKS_ELEMENT_MINIMUM : Z := 1.
Definition KB2_GPU_DRM_AMDGPU_COMMAND_CS_REQUEST_SPAN_CHUNKS_ELEMENT_MAXIMUM : Z := 65536.
Definition KB2_GPU_DRM_AMDGPU_COMMAND_INFO_REQUEST_INLINE_RECORD : Z := 122.
Definition KB2_GPU_DRM_AMDGPU_COMMAND_GEM_METADATA_REQUEST_INLINE_RECORD : Z := 139.
Definition KB2_GPU_DRM_AMDGPU_COMMAND_GEM_WAIT_IDLE_REQUEST_INLINE_RECORD : Z := 141.
Definition KB2_GPU_DRM_AMDGPU_COMMAND_GEM_VA_REQUEST_INLINE_RECORD : Z := 143.
Definition KB2_GPU_DRM_AMDGPU_COMMAND_WAIT_CS_REQUEST_INLINE_RECORD : Z := 144.
Definition KB2_GPU_DRM_AMDGPU_COMMAND_GEM_OP_REQUEST_INLINE_RECORD : Z := 146.
Definition KB2_GPU_DRM_AMDGPU_COMMAND_GEM_USERPTR_REQUEST_INLINE_RECORD : Z := 150.
Definition KB2_GPU_DRM_AMDGPU_COMMAND_WAIT_FENCES_REQUEST_INLINE_RECORD : Z := 152.
Definition KB2_GPU_DRM_AMDGPU_COMMAND_VM_REQUEST_INLINE_RECORD : Z := 154.
Definition KB2_GPU_DRM_AMDGPU_COMMAND_FENCE_TO_HANDLE_REQUEST_INLINE_RECORD : Z := 156.
Definition KB2_GPU_DRM_AMDGPU_COMMAND_SCHED_REQUEST_INLINE_RECORD : Z := 158.
Definition KB2_GPU_DRM_AMDGPU_COMMAND_USERQ_REQUEST_INLINE_RECORD : Z := 159.
Definition KB2_GPU_DRM_AMDGPU_COMMAND_USERQ_SIGNAL_REQUEST_INLINE_RECORD : Z := 164.
Definition KB2_GPU_DRM_AMDGPU_COMMAND_USERQ_WAIT_REQUEST_INLINE_RECORD : Z := 167.
Definition KB2_GPU_DRM_AMDGPU_COMMAND_GEM_LIST_HANDLES_REQUEST_INLINE_RECORD : Z := 170.

Definition KB2_GPU_DRM_AMDGPU_RECORD_CATALOG {T} (X : Z -> Z -> T) : list T :=
  [X KB2_GPU_DRM_AMDGPU_RECORD_GEM_CREATE_REQUEST KB2_GPU_DRM_AMDGPU_RECORD_GEM_CREATE_REQUEST_SIZE;
   X KB2_GPU_DRM_AMDGPU_RECORD_GEM_HANDLE_RESULT KB2_GPU_DRM_AMDGPU_RECORD_GEM_HANDLE_RESULT_SIZE;
   X KB2_GPU_DRM_AMDGPU_RECORD_GEM_MMAP_REQUEST KB2_GPU_DRM_AMDGPU_RECORD_GEM_MMAP_REQUEST_SIZE;
   X KB2_GPU_DRM_AMDGPU_RECORD_GEM_MMAP_RESULT KB2_GPU_DRM_AMDGPU_RECORD_GEM_MMAP_RESULT_SIZE;
   X KB2_GPU_DRM_AMDGPU_RECORD_CONTEXT_REQUEST KB2_GPU_DRM_AMDGPU_RECORD_CONTEXT_REQUEST_SIZE;
   X KB2_GPU_DRM_AMDGPU_RECORD_CONTEXT_RESULT KB2_GPU_DRM_AMDGPU_RECORD_CONTEXT_RESULT_SIZE;
   X KB2_GPU_DRM_AMDGPU_RECORD_BO_LIST_REQUEST KB2_GPU_DRM_AMDGPU_RECORD_BO_LIST_REQUEST_SIZE;
   X KB2_GPU_DRM_AMDGPU_RECORD_BO_LIST_ENTRY KB2_GPU_DRM_AMDGPU_RECORD_BO_LIST_ENTRY_SIZE;
   X KB2_GPU_DRM_AMDGPU_RECORD_BO_LIST_RESULT KB2_GPU_DRM_AMDGPU_RECORD_BO_LIST_RESULT_SIZE;
   X KB2_GPU_DRM_AMDGPU_RECORD_CS_REQUEST KB2_GPU_DRM_AMDGPU_RECORD_CS_REQUEST_SIZE;
   X KB2_GPU_DRM_AMDGPU_RECORD_CS_CHUNK_IB KB2_GPU_DRM_AMDGPU_RECORD_CS_CHUNK_IB_SIZE;
   X KB2_GPU_DRM_AMDGPU_RECORD_CS_CHUNK_USER_FENCE KB2_GPU_DRM_AMDGPU_RECORD_CS_CHUNK_USER_FENCE_SIZE;
   X KB2_GPU_DRM_AMDGPU_RECORD_CS_CHUNK_DEPENDENCY KB2_GPU_DRM_AMDGPU_RECORD_CS_CHUNK_DEPENDENCY_SIZE;
   X KB2_GPU_DRM_AMDGPU_RECORD_CS_CHUNK_SYNCOBJ_IN KB2_GPU_DRM_AMDGPU_RECORD_CS_CHUNK_SYNCOBJ_IN_SIZE;
   X KB2_GPU_DRM_AMDGPU_RECORD_CS_CHUNK_SYNCOBJ_OUT KB2_GPU_DRM_AMDGPU_RECORD_CS_CHUNK_SYNCOBJ_OUT_SIZE;
   X KB2_GPU_DRM_AMDGPU_RECORD_CS_CHUNK_BO_HANDLE KB2_GPU_DRM_AMDGPU_RECORD_CS_CHUNK_BO_HANDLE_SIZE;
   X KB2_GPU_DRM_AMDGPU_RECORD_CS_CHUNK_SCHEDULED_DEPENDENCY KB2_GPU_DRM_AMDGPU_RECORD_CS_CHUNK_SCHEDULED_DEPENDENCY_SIZE;
   X KB2_GPU_DRM_AMDGPU_RECORD_CS_CHUNK_TIMELINE_WAIT KB2_GPU_DRM_AMDGPU_RECORD_CS_CHUNK_TIMELINE_WAIT_SIZE;
   X KB2_GPU_DRM_AMDGPU_RECORD_CS_CHUNK_TIMELINE_SIGNAL KB2_GPU_DRM_AMDGPU_RECORD_CS_CHUNK_TIMELINE_SIGNAL_SIZE;
   X KB2_GPU_DRM_AMDGPU_RECORD_CS_CHUNK_GFX_SHADOW KB2_GPU_DRM_AMDGPU_RECORD_CS_CHUNK_GFX_SHADOW_SIZE;
   X KB2_GPU_DRM_AMDGPU_RECORD_CS_RESULT KB2_GPU_DRM_AMDGPU_RECORD_CS_RESULT_SIZE;
   X KB2_GPU_DRM_AMDGPU_RECORD_INFO_REQUEST KB2_GPU_DRM_AMDGPU_RECORD_INFO_REQUEST_SIZE;
   X KB2_GPU_DRM_AMDGPU_RECORD_INFO_RESULT KB2_GPU_DRM_AMDGPU_RECORD_INFO_RESULT_SIZE;
   X KB2_GPU_DRM_AMDGPU_RECORD_SCALAR_U32 KB2_GPU_DRM_AMDGPU_RECORD_SCALAR_U32_SIZE;
   X KB2_GPU_DRM_AMDGPU_RECORD_SCALAR_U64 KB2_GPU_DRM_AMDGPU_RECORD_SCALAR_U64_SIZE;
   X KB2_GPU_DRM_AMDGPU_RECORD_BYTE KB2_GPU_DRM_AMDGPU_RECORD_BYTE_SIZE;
   X KB2_GPU_DRM_AMDGPU_RECORD_INFO_GDS KB2_GPU_DRM_AMDGPU_RECORD_INFO_GDS_SIZE;
   X KB2_GPU_DRM_AMDGPU_RECORD_INFO_VRAM_GTT KB2_GPU_DRM_AMDGPU_RECORD_INFO_VRAM_GTT_SIZE;
   X KB2_GPU_DRM_AMDGPU_RECORD_INFO_MEMORY KB2_GPU_DRM_AMDGPU_RECORD_INFO_MEMORY_SIZE;
   X KB2_GPU_DRM_AMDGPU_RECORD_INFO_FIRMWARE KB2_GPU_DRM_AMDGPU_RECORD_INFO_FIRMWARE_SIZE;
   X KB2_GPU_DRM_AMDGPU_RECORD_INFO_VBIOS KB2_GPU_DRM_AMDGPU_RECORD_INFO_VBIOS_SIZE;
   X KB2_GPU_DRM_AMDGPU_RECORD_INFO_HW_IP KB2_GPU_DRM_AMDGPU_RECORD_INFO_HW_IP_SIZE;
   X KB2_GPU_DRM_AMDGPU_RECORD_INFO_DEVICE KB2_GPU_DRM_AMDGPU_RECORD_INFO_DEVICE_SIZE;
   X KB2_GPU_DRM_AMDGPU_RECORD_INFO_NUM_HANDLES KB2_GPU_DRM_AMDGPU_RECORD_INFO_NUM_HANDLES_SIZE;
   X KB2_GPU_DRM_AMDGPU_RECORD_INFO_VCE_CLOCK_ENTRY KB2_GPU_DRM_AMDGPU_RECORD_INFO_VCE_CLOCK_ENTRY_SIZE;
   X KB2_GPU_DRM_AMDGPU_RECORD_INFO_VIDEO_CAPS KB2_GPU_DRM_AMDGPU_RECORD_INFO_VIDEO_CAPS_SIZE;
   X KB2_GPU_DRM_AMDGPU_RECORD_INFO_GPUVM_FAULT KB2_GPU_DRM_AMDGPU_RECORD_INFO_GPUVM_FAULT_SIZE;
   X KB2_GPU_DRM_AMDGPU_RECORD_INFO_USERQ_METADATA KB2_GPU_DRM_AMDGPU_RECORD_INFO_USERQ_METADATA_SIZE;
   X KB2_GPU_DRM_AMDGPU_RECORD_GEM_METADATA_REQUEST KB2_GPU_DRM_AMDGPU_RECORD_GEM_METADATA_REQUEST_SIZE;
   X KB2_GPU_DRM_AMDGPU_RECORD_GEM_METADATA_RESULT KB2_GPU_DRM_AMDGPU_RECORD_GEM_METADATA_RESULT_SIZE;
   X KB2_GPU_DRM_AMDGPU_RECORD_GEM_WAIT_IDLE_REQUEST KB2_GPU_DRM_AMDGPU_RECORD_GEM_WAIT_IDLE_REQUEST_SIZE;
   X KB2_GPU_DRM_AMDGPU_RECORD_GEM_WAIT_IDLE_RESULT KB2_GPU_DRM_AMDGPU_RECORD_GEM_WAIT_IDLE_RESULT_SIZE;
   X KB2_GPU_DRM_AMDGPU_RECORD_GEM_VA_REQUEST KB2_GPU_DRM_AMDGPU_RECORD_GEM_VA_REQUEST_SIZE;
   X KB2_GPU_DRM_AMDGPU_RECORD_WAIT_CS_REQUEST KB2_GPU_DRM_AMDGPU_RECORD_WAIT_CS_REQUEST_SIZE;
   X KB2_GPU_DRM_AMDGPU_RECORD_WAIT_STATUS_RESULT KB2_GPU_DRM_AMDGPU_RECORD_WAIT_STATUS_RESULT_SIZE;
   X KB2_GPU_DRM_AMDGPU_RECORD_GEM_OP_REQUEST KB2_GPU_DRM_AMDGPU_RECORD_GEM_OP_REQUEST_SIZE;
   X KB2_GPU_DRM_AMDGPU_RECORD_GEM_CREATE_INFO KB2_GPU_DRM_AMDGPU_RECORD_GEM_CREATE_INFO_SIZE;
   X KB2_GPU_DRM_AMDGPU_RECORD_GEM_VM_ENTRY KB2_GPU_DRM_AMDGPU_RECORD_GEM_VM_ENTRY_SIZE;
   X KB2_GPU_DRM_AMDGPU_RECORD_GEM_OP_RESULT KB2_GPU_DRM_AMDGPU_RECORD_GEM_OP_RESULT_SIZE;
   X KB2_GPU_DRM_AMDGPU_RECORD_GEM_USERPTR_REQUEST KB2_GPU_DRM_AMDGPU_RECORD_GEM_USERPTR_REQUEST_SIZE;
   X KB2_GPU_DRM_AMDGPU_RECORD_FENCE KB2_GPU_DRM_AMDGPU_RECORD_FENCE_SIZE;
   X KB2_GPU_DRM_AMDGPU_RECORD_WAIT_FENCES_REQUEST KB2_GPU_DRM_AMDGPU_RECORD_WAIT_FENCES_REQUEST_SIZE;
   X KB2_GPU_DRM_AMDGPU_RECORD_WAIT_FENCES_RESULT KB2_GPU_DRM_AMDGPU_RECORD_WAIT_FENCES_RESULT_SIZE;
   X KB2_GPU_DRM_AMDGPU_RECORD_VM_REQUEST KB2_GPU_DRM_AMDGPU_RECORD_VM_REQUEST_SIZE;
   X KB2_GPU_DRM_AMDGPU_RECORD_VM_RESULT KB2_GPU_DRM_AMDGPU_RECORD_VM_RESULT_SIZE;
   X KB2_GPU_DRM_AMDGPU_RECORD_FENCE_TO_HANDLE_REQUEST KB2_GPU_DRM_AMDGPU_RECORD_FENCE_TO_HANDLE_REQUEST_SIZE;
   X KB2_GPU_DRM_AMDGPU_RECORD_FENCE_TO_HANDLE_RESULT KB2_GPU_DRM_AMDGPU_RECORD_FENCE_TO_HANDLE_RESULT_SIZE;
   X KB2_GPU_DRM_AMDGPU_RECORD_SCHED_REQUEST KB2_GPU_DRM_AMDGPU_RECORD_SCHED_REQUEST_SIZE;
   X KB2_GPU_DRM_AMDGPU_RECORD_USERQ_REQUEST KB2_GPU_DRM_AMDGPU_RECORD_USERQ_REQUEST_SIZE;
   X KB2_GPU_DRM_AMDGPU_RECORD_USERQ_RESULT KB2_GPU_DRM_AMDGPU_RECORD_USERQ_RESULT_SIZE;
   X KB2_GPU_DRM_AMDGPU_RECORD_USERQ_MQD_GFX11 KB2_GPU_DRM_AMDGPU_RECORD_USERQ_MQD_GFX11_SIZE;
   X KB2_GPU_DRM_AMDGPU_RECORD_USERQ_MQD_SDMA_GFX11 KB2_GPU_DRM_AMDGPU_RECORD_USERQ_MQD_SDMA_GFX11_SIZE;
   X KB2_GPU_DRM_AMDGPU_RECORD_USERQ_MQD_COMPUTE_GFX11 KB2_GPU_DRM_AMDGPU_RECORD_USERQ_MQD_COMPUTE_GFX11_SIZE;
   X KB2_GPU_DRM_AMDGPU_RECORD_USERQ_SIGNAL_REQUEST KB2_GPU_DRM_AMDGPU_RECORD_USERQ_SIGNAL_REQUEST_SIZE;
   X KB2_GPU_DRM_AMDGPU_RECORD_HANDLE_U32 KB2_GPU_DRM_AMDGPU_RECORD_HANDLE_U32_SIZE;
   X KB2_GPU_DRM_AMDGPU_RECORD_TIMELINE_SYNCOBJ KB2_GPU_DRM_AMDGPU_RECORD_TIMELINE_SYNCOBJ_SIZE;
   X KB2_GPU_DRM_AMDGPU_RECORD_USERQ_WAIT_REQUEST KB2_GPU_DRM_AMDGPU_RECORD_USERQ_WAIT_REQUEST_SIZE;
   X KB2_GPU_DRM_AMDGPU_RECORD_USERQ_FENCE_INFO KB2_GPU_DRM_AMDGPU_RECORD_USERQ_FENCE_INFO_SIZE;
   X KB2_GPU_DRM_AMDGPU_RECORD_USERQ_WAIT_RESULT KB2_GPU_DRM_AMDGPU_RECORD_USERQ_WAIT_RESULT_SIZE;
   X KB2_GPU_DRM_AMDGPU_RECORD_GEM_LIST_HANDLES_REQUEST KB2_GPU_DRM_AMDGPU_RECORD_GEM_LIST_HANDLES_REQUEST_SIZE;
   X KB2_GPU_DRM_AMDGPU_RECORD_GEM_LIST_HANDLES_ENTRY KB2_GPU_DRM_AMDGPU_RECORD_GEM_LIST_HANDLES_ENTRY_SIZE;
   X KB2_GPU_DRM_AMDGPU_RECORD_GEM_LIST_HANDLES_RESULT KB2_GPU_DRM_AMDGPU_RECORD_GEM_LIST_HANDLES_RESULT_SIZE].

Definition KB2_GPU_DRM_AMDGPU_REQUEST_INLINE_CATALOG {T} (X : Z -> Z -> T) : list T :=
  [X KB2_GPU_DRM_AMDGPU_COMMAND_GEM_CREATE_REQUEST_INLINE_RECORD KB2_GPU_DRM_AMDGPU_RECORD_GEM_CREATE_REQUEST_SIZE;
   X KB2_GPU_DRM_AMDGPU_COMMAND_GEM_MMAP_REQUEST_INLINE_RECORD KB2_GPU_DRM_AMDGPU_RECORD_GEM_MMAP_REQUEST_SIZE;
   X KB2_GPU_DRM_AMDGPU_COMMAND_CONTEXT_REQUEST_INLINE_RECORD KB2_GPU_DRM_AMDGPU_RECORD_CONTEXT_REQUEST_SIZE;
   X KB2_GPU_DRM_AMDGPU_COMMAND_BO_LIST_REQUEST_INLINE_RECORD KB2_GPU_DRM_AMDGPU_RECORD_BO_LIST_REQUEST_SIZE;
   X KB2_GPU_DRM_AMDGPU_COMMAND_CS_REQUEST_INLINE_RECORD KB2_GPU_DRM_AMDGPU_RECORD_CS_REQUEST_SIZE;
   X KB2_GPU_DRM_AMDGPU_COMMAND_INFO_REQUEST_INLINE_RECORD KB2_GPU_DRM_AMDGPU_RECORD_INFO_REQUEST_SIZE;
   X KB2_GPU_DRM_AMDGPU_COMMAND_GEM_METADATA_REQUEST_INLINE_RECORD KB2_GPU_DRM_AMDGPU_RECORD_GEM_METADATA_REQUEST_SIZE;
   X KB2_GPU_DRM_AMDGPU_COMMAND_GEM_WAIT_IDLE_REQUEST_INLINE_RECORD KB2_GPU_DRM_AMDGPU_RECORD_GEM_WAIT_IDLE_REQUEST_SIZE;
   X KB2_GPU_DRM_AMDGPU_COMMAND_GEM_VA_REQUEST_INLINE_RECORD KB2_GPU_DRM_AMDGPU_RECORD_GEM_VA_REQUEST_SIZE;
   X KB2_GPU_DRM_AMDGPU_COMMAND_WAIT_CS_REQUEST_INLINE_RECORD KB2_GPU_DRM_AMDGPU_RECORD_WAIT_CS_REQUEST_SIZE;
   X KB2_GPU_DRM_AMDGPU_COMMAND_GEM_OP_REQUEST_INLINE_RECORD KB2_GPU_DRM_AMDGPU_RECORD_GEM_OP_REQUEST_SIZE;
   X KB2_GPU_DRM_AMDGPU_COMMAND_GEM_USERPTR_REQUEST_INLINE_RECORD KB2_GPU_DRM_AMDGPU_RECORD_GEM_USERPTR_REQUEST_SIZE;
   X KB2_GPU_DRM_AMDGPU_COMMAND_WAIT_FENCES_REQUEST_INLINE_RECORD KB2_GPU_DRM_AMDGPU_RECORD_WAIT_FENCES_REQUEST_SIZE;
   X KB2_GPU_DRM_AMDGPU_COMMAND_VM_REQUEST_INLINE_RECORD KB2_GPU_DRM_AMDGPU_RECORD_VM_REQUEST_SIZE;
   X KB2_GPU_DRM_AMDGPU_COMMAND_FENCE_TO_HANDLE_REQUEST_INLINE_RECORD KB2_GPU_DRM_AMDGPU_RECORD_FENCE_TO_HANDLE_REQUEST_SIZE;
   X KB2_GPU_DRM_AMDGPU_COMMAND_SCHED_REQUEST_INLINE_RECORD KB2_GPU_DRM_AMDGPU_RECORD_SCHED_REQUEST_SIZE;
   X KB2_GPU_DRM_AMDGPU_COMMAND_USERQ_REQUEST_INLINE_RECORD KB2_GPU_DRM_AMDGPU_RECORD_USERQ_REQUEST_SIZE;
   X KB2_GPU_DRM_AMDGPU_COMMAND_USERQ_SIGNAL_REQUEST_INLINE_RECORD KB2_GPU_DRM_AMDGPU_RECORD_USERQ_SIGNAL_REQUEST_SIZE;
   X KB2_GPU_DRM_AMDGPU_COMMAND_USERQ_WAIT_REQUEST_INLINE_RECORD KB2_GPU_DRM_AMDGPU_RECORD_USERQ_WAIT_REQUEST_SIZE;
   X KB2_GPU_DRM_AMDGPU_COMMAND_GEM_LIST_HANDLES_REQUEST_INLINE_RECORD KB2_GPU_DRM_AMDGPU_RECORD_GEM_LIST_HANDLES_REQUEST_SIZE].

Definition KB2_GPU_DRM_AMDGPU_REQUEST_CONTRACT_CATALOG {T} (X : Z -> Z -> Z -> Z -> Z -> T) : list T :=
  [X 1 KB2_GPU_DRM_AMDGPU_COMMAND_GEM_CREATE_REQUEST_INLINE_RECORD KB2_GPU_DRM_AMDGPU_RECORD_GEM_CREATE_REQUEST_SIZE 0 0;
   X 2 KB2_GPU_DRM_AMDGPU_COMMAND_GEM_MMAP_REQUEST_INLINE_RECORD KB2_GPU_DRM_AMDGPU_RECORD_GEM_MMAP_REQUEST_SIZE 0 0;
   X 3 KB2_GPU_DRM_AMDGPU_COMMAND_CONTEXT_REQUEST_INLINE_RECORD KB2_GPU_DRM_AMDGPU_RECORD_CONTEXT_REQUEST_SIZE 0 0;
   X 4 KB2_GPU_DRM_AMDGPU_COMMAND_BO_LIST_REQUEST_INLINE_RECORD KB2_GPU_DRM_AMDGPU_RECORD_BO_LIST_REQUEST_SIZE 1 0;
   X 5 KB2_GPU_DRM_AMDGPU_COMMAND_CS_REQUEST_INLINE_RECORD KB2_GPU_DRM_AMDGPU_RECORD_CS_REQUEST_SIZE 1 0;
   X 6 KB2_GPU_DRM_AMDGPU_COMMAND_INFO_REQUEST_INLINE_RECORD KB2_GPU_DRM_AMDGPU_RECORD_INFO_REQUEST_SIZE 1 0;
   X 7 KB2_GPU_DRM_AMDGPU_COMMAND_GEM_METADATA_REQUEST_INLINE_RECORD KB2_GPU_DRM_AMDGPU_RECORD_GEM_METADATA_REQUEST_SIZE 0 0;
   X 8 KB2_GPU_DRM_AMDGPU_COMMAND_GEM_WAIT_IDLE_REQUEST_INLINE_RECORD KB2_GPU_DRM_AMDGPU_RECORD_GEM_WAIT_IDLE_REQUEST_SIZE 0 0;
   X 9 KB2_GPU_DRM_AMDGPU_COMMAND_GEM_VA_REQUEST_INLINE_RECORD KB2_GPU_DRM_AMDGPU_RECORD_GEM_VA_REQUEST_SIZE 1 0;
   X 10 KB2_GPU_DRM_AMDGPU_COMMAND_WAIT_CS_REQUEST_INLINE_RECORD KB2_GPU_DRM_AMDGPU_RECORD_WAIT_CS_REQUEST_SIZE 0 0;
   X 11 KB2_GPU_DRM_AMDGPU_COMMAND_GEM_OP_REQUEST_INLINE_RECORD KB2_GPU_DRM_AMDGPU_RECORD_GEM_OP_REQUEST_SIZE 1 0;
   X 12 KB2_GPU_DRM_AMDGPU_COMMAND_GEM_USERPTR_REQUEST_INLINE_RECORD KB2_GPU_DRM_AMDGPU_RECORD_GEM_USERPTR_REQUEST_SIZE 0 1;
   X 13 KB2_GPU_DRM_AMDGPU_COMMAND_WAIT_FENCES_REQUEST_INLINE_RECORD KB2_GPU_DRM_AMDGPU_RECORD_WAIT_FENCES_REQUEST_SIZE 1 0;
   X 14 KB2_GPU_DRM_AMDGPU_COMMAND_VM_REQUEST_INLINE_RECORD KB2_GPU_DRM_AMDGPU_RECORD_VM_REQUEST_SIZE 0 0;
   X 15 KB2_GPU_DRM_AMDGPU_COMMAND_FENCE_TO_HANDLE_REQUEST_INLINE_RECORD KB2_GPU_DRM_AMDGPU_RECORD_FENCE_TO_HANDLE_REQUEST_SIZE 0 0;
   X 16 KB2_GPU_DRM_AMDGPU_COMMAND_SCHED_REQUEST_INLINE_RECORD KB2_GPU_DRM_AMDGPU_RECORD_SCHED_REQUEST_SIZE 0 1;
   X 17 KB2_GPU_DRM_AMDGPU_COMMAND_USERQ_REQUEST_INLINE_RECORD KB2_GPU_DRM_AMDGPU_RECORD_USERQ_REQUEST_SIZE 1 0;
   X 18 KB2_GPU_DRM_AMDGPU_COMMAND_USERQ_SIGNAL_REQUEST_INLINE_RECORD KB2_GPU_DRM_AMDGPU_RECORD_USERQ_SIGNAL_REQUEST_SIZE 3 0;
   X 19 KB2_GPU_DRM_AMDGPU_COMMAND_USERQ_WAIT_REQUEST_INLINE_RECORD KB2_GPU_DRM_AMDGPU_RECORD_USERQ_WAIT_REQUEST_SIZE 5 0;
   X 20 KB2_GPU_DRM_AMDGPU_COMMAND_GEM_LIST_HANDLES_REQUEST_INLINE_RECORD KB2_GPU_DRM_AMDGPU_RECORD_GEM_LIST_HANDLES_REQUEST_SIZE 1 0].

Definition KB2_GPU_DRM_AMDGPU_REQUEST_SPAN_CATALOG {T} (X : Z -> Z -> Z -> Z -> Z -> Z -> Z -> T) : list T :=
  [X 4 2 1 0 65536 108 8; X 5 2 1 1 64 111 32; X 5 2 1 1 64 112 8; X 5 2 1 1 64 113 24; X 5 2 1 1 64 114 4;
   X 5 2 1 1 64 115 4; X 5 2 1 1 64 116 8; X 5 2 1 1 64 117 24; X 5 2 1 1 64 118 16; X 5 2 1 1 64 119 16;
   X 5 2 1 1 64 120 32; X 6 2 2 1 1048576 124 4; X 6 2 2 1 1048576 125 8; X 6 2 2 1 1048576 126 1;
   X 6 2 2 1 1048576 127 32; X 6 2 2 1 1048576 128 24; X 6 2 2 1 1048576 129 96; X 6 2 2 1 1048576 130 8;
   X 6 2 2 1 1048576 131 200; X 6 2 2 1 1048576 132 36; X 6 2 2 1 1048576 133 436; X 6 2 2 1 1048576 134 8;
   X 6 2 2 1 1048576 135 16; X 6 2 2 1 1048576 136 192; X 6 2 2 1 1048576 137 16; X 6 2 2 1 1048576 138 16;
   X 9 2 1 0 65536 165 4; X 11 2 2 0 65536 147 32; X 11 2 2 0 65536 148 32; X 13 2 1 1 65536 151 24;
   X 17 2 1 0 1 161 16; X 17 2 1 0 1 162 8; X 17 2 1 0 1 163 8; X 18 2 1 0 65536 165 4; X 18 3 1 0 65536 165 4;
   X 18 4 1 0 65536 165 4; X 19 2 1 0 65536 165 4; X 19 3 1 0 65536 166 16; X 19 4 1 0 65536 165 4;
   X 19 5 1 0 65536 165 4; X 19 6 2 0 65536 168 16; X 20 2 2 0 65536 171 40].

Definition KB2_GPU_DRM_AMDGPU_REQUEST_ATTACHMENT_CATALOG {T} (X : Z -> Z -> Z -> Z -> Z -> Z -> T) : list T :=
  [X 12 2 1 2 0 1; X 16 2 1 1 0 5].

(** gpu_drm_i915_layout.h *)
Definition KB2_GPU_DRM_I915_SCHEMA_SHA256_BYTES : list Z :=
  [40; 6; 232; 70; 79; 44; 67; 123; 119; 205; 253; 141; 124; 87; 161; 224; 174; 22; 241; 78; 201; 55;
  108; 223; 24; 4; 102; 38; 226; 158; 73; 144].
Definition KB2_GPU_DRM_I915_SET_ID : Z := 4.
Definition KB2_GPU_DRM_I915_COMMAND_COUNT : Z := 16.
Definition KB2_GPU_DRM_I915_COMMAND_GEM_CREATE : Z := 5.
Definition KB2_GPU_DRM_I915_COMMAND_GEM_BUSY : Z := 7.
Definition KB2_GPU_DRM_I915_COMMAND_GEM_MADVISE : Z := 8.
Definition KB2_GPU_DRM_I915_COMMAND_GEM_WAIT : Z := 9.
Definition KB2_GPU_DRM_I915_COMMAND_GEM_SET_DOMAIN : Z := 10.
Definition KB2_GPU_DRM_I915_COMMAND_GEM_SET_CACHING : Z := 11.
Definition KB2_GPU_DRM_I915_MAX_CONTEXT_PARAMS : Z := 64.
Definition KB2_GPU_DRM_I915_MAX_CONTEXT_ENGINES : Z := 4096.
Definition KB2_GPU_DRM_I915_MAX_CONTEXT_ENGINES_PER_PARAM : Z := 64.
Definition KB2_GPU_DRM_I915_COMMAND_CONTEXT_CREATE : Z := 13.
Definition KB2_GPU_DRM_I915_COMMAND_CONTEXT_DESTROY : Z := 15.
Definition KB2_GPU_DRM_I915_MAX_EXEC_OBJECTS : Z := 8192.
Definition KB2_GPU_DRM_I915_MAX_EXEC_FENCES : Z := 65536.
Definition KB2_GPU_DRM_I915_MAX_EXEC_BYTES : Z := 1048576.
Definition KB2_GPU_DRM_I915_RECORD_GETPARAM_REQUEST_SIZE : Z := 8.
Definition KB2_GPU_DRM_I915_RECORD_QUERY_REQUEST_SIZE : Z := 16.
Definition KB2_GPU_DRM_I915_RECORD_APERTURE_REQUEST_SIZE : Z := 8.
Definition KB2_GPU_DRM_I915_RECORD_CONTEXT_PARAM_REQUEST_SIZE : Z := 16.
Definition KB2_GPU_DRM_I915_RECORD_GEM_CREATE : Z := 111.
Definition KB2_GPU_DRM_I915_RECORD_GEM_CREATE_SIZE : Z := 16.
Definition KB2_GPU_DRM_I915_RECORD_CREATE_EXT_REQUEST_SIZE : Z := 24.
Definition KB2_GPU_DRM_I915_RECORD_GEM_BUSY : Z := 115.
Definition KB2_GPU_DRM_I915_RECORD_GEM_BUSY_SIZE : Z := 8.
Definition KB2_GPU_DRM_I915_RECORD_GEM_MADVISE : Z := 116.
Definition KB2_GPU_DRM_I915_RECORD_GEM_MADVISE_SIZE : Z := 12.
Definition KB2_GPU_DRM_I915_RECORD_GEM_WAIT : Z := 117.
Definition KB2_GPU_DRM_I915_RECORD_GEM_WAIT_SIZE : Z := 16.
Definition KB2_GPU_DRM_I915_RECORD_GEM_SET_DOMAIN : Z := 118.
Definition KB2_GPU_DRM_I915_RECORD_GEM_SET_DOMAIN_SIZE : Z := 12.
Definition KB2_GPU_DRM_I915_RECORD_GEM_SET_CACHING : Z := 119.
Definition KB2_GPU_DRM_I915_RECORD_GEM_SET_CACHING_SIZE : Z := 8.
Definition KB2_GPU_DRM_I915_RECORD_GEM_WAIT_RESULT_SIZE : Z := 24.
Definition KB2_GPU_DRM_I915_RECORD_GEM_MMAP_REQUEST_SIZE : Z := 16.
Definition KB2_GPU_DRM_I915_RECORD_CONTEXT_HANDLE_SIZE : Z := 8.
Definition KB2_GPU_DRM_I915_RECORD_CONTEXT_CREATE_REQUEST_SIZE : Z := 16.
Definition KB2_GPU_DRM_I915_RECORD_CONTEXT_SETPARAM_REQUEST_SIZE : Z := 16.
Definition KB2_GPU_DRM_I915_RECORD_EXEC_REQUEST_SIZE : Z := 32.
Definition KB2_GPU_DRM_I915_COMMAND_GETPARAM_REQUEST_INLINE_RECORD : Z := 101.
Definition KB2_GPU_DRM_I915_COMMAND_QUERY_REQUEST_INLINE_RECORD : Z := 103.
Definition KB2_GPU_DRM_I915_COMMAND_GET_APERTURE_REQUEST_INLINE_RECORD : Z := 107.
Definition KB2_GPU_DRM_I915_COMMAND_CONTEXT_GETPARAM_REQUEST_INLINE_RECORD : Z := 109.
Definition KB2_GPU_DRM_I915_COMMAND_GEM_CREATE_REQUEST_INLINE_RECORD : Z := 111.
Definition KB2_GPU_DRM_I915_COMMAND_GEM_CREATE_EXT_REQUEST_INLINE_RECORD : Z := 112.
Definition KB2_GPU_DRM_I915_COMMAND_GEM_BUSY_REQUEST_INLINE_RECORD : Z := 115.
Definition KB2_GPU_DRM_I915_COMMAND_GEM_MADVISE_REQUEST_INLINE_RECORD : Z := 116.
Definition KB2_GPU_DRM_I915_COMMAND_GEM_WAIT_REQUEST_INLINE_RECORD : Z := 117.
Definition KB2_GPU_DRM_I915_COMMAND_GEM_SET_DOMAIN_REQUEST_INLINE_RECORD : Z := 118.
Definition KB2_GPU_DRM_I915_COMMAND_GEM_SET_CACHING_REQUEST_INLINE_RECORD : Z := 119.
Definition KB2_GPU_DRM_I915_COMMAND_GEM_MMAP_OFFSET_REQUEST_INLINE_RECORD : Z := 121.
Definition KB2_GPU_DRM_I915_COMMAND_CONTEXT_CREATE_REQUEST_INLINE_RECORD : Z := 124.
Definition KB2_GPU_DRM_I915_COMMAND_CONTEXT_SETPARAM_REQUEST_INLINE_RECORD : Z := 125.
Definition KB2_GPU_DRM_I915_COMMAND_CONTEXT_DESTROY_REQUEST_INLINE_RECORD : Z := 123.
Definition KB2_GPU_DRM_I915_COMMAND_EXECBUFFER_REQUEST_INLINE_RECORD : Z := 128.

Definition KB2_GPU_DRM_I915_REQUEST_CONTRACT_CATALOG {T} (X : Z -> Z -> Z -> Z -> Z -> T) : list T :=
  [X 1 KB2_GPU_DRM_I915_COMMAND_GETPARAM_REQUEST_INLINE_RECORD KB2_GPU_DRM_I915_RECORD_GETPARAM_REQUEST_SIZE 0 0;
   X 2 KB2_GPU_DRM_I915_COMMAND_QUERY_REQUEST_INLINE_RECORD KB2_GPU_DRM_I915_RECORD_QUERY_REQUEST_SIZE 2 0;
   X 3 KB2_GPU_DRM_I915_COMMAND_GET_APERTURE_REQUEST_INLINE_RECORD KB2_GPU_DRM_I915_RECORD_APERTURE_REQUEST_SIZE 0 0;
   X 4 KB2_GPU_DRM_I915_COMMAND_CONTEXT_GETPARAM_REQUEST_INLINE_RECORD KB2_GPU_DRM_I915_RECORD_CONTEXT_PARAM_REQUEST_SIZE 0 0;
   X 5 KB2_GPU_DRM_I915_COMMAND_GEM_CREATE_REQUEST_INLINE_RECORD KB2_GPU_DRM_I915_RECORD_GEM_CREATE_SIZE 0 0;
   X 6 KB2_GPU_DRM_I915_COMMAND_GEM_CREATE_EXT_REQUEST_INLINE_RECORD KB2_GPU_DRM_I915_RECORD_CREATE_EXT_REQUEST_SIZE 1 0;
   X 7 KB2_GPU_DRM_I915_COMMAND_GEM_BUSY_REQUEST_INLINE_RECORD KB2_GPU_DRM_I915_RECORD_GEM_BUSY_SIZE 0 0;
   X 8 KB2_GPU_DRM_I915_COMMAND_GEM_MADVISE_REQUEST_INLINE_RECORD KB2_GPU_DRM_I915_RECORD_GEM_MADVISE_SIZE 0 0;
   X 9 KB2_GPU_DRM_I915_COMMAND_GEM_WAIT_REQUEST_INLINE_RECORD KB2_GPU_DRM_I915_RECORD_GEM_WAIT_SIZE 0 0;
   X 10 KB2_GPU_DRM_I915_COMMAND_GEM_SET_DOMAIN_REQUEST_INLINE_RECORD KB2_GPU_DRM_I915_RECORD_GEM_SET_DOMAIN_SIZE 0 0;
   X 11 KB2_GPU_DRM_I915_COMMAND_GEM_SET_CACHING_REQUEST_INLINE_RECORD KB2_GPU_DRM_I915_RECORD_GEM_SET_CACHING_SIZE 0 0;
   X 12 KB2_GPU_DRM_I915_COMMAND_GEM_MMAP_OFFSET_REQUEST_INLINE_RECORD KB2_GPU_DRM_I915_RECORD_GEM_MMAP_REQUEST_SIZE 0 0;
   X 13 KB2_GPU_DRM_I915_COMMAND_CONTEXT_CREATE_REQUEST_INLINE_RECORD KB2_GPU_DRM_I915_RECORD_CONTEXT_CREATE_REQUEST_SIZE 2 0;
   X 14 KB2_GPU_DRM_I915_COMMAND_CONTEXT_SETPARAM_REQUEST_INLINE_RECORD KB2_GPU_DRM_I915_RECORD_CONTEXT_SETPARAM_REQUEST_SIZE 2 0;
   X 15 KB2_GPU_DRM_I915_COMMAND_CONTEXT_DESTROY_REQUEST_INLINE_RECORD KB2_GPU_DRM_I915_RECORD_CONTEXT_HANDLE_SIZE 0 0;
   X 16 KB2_GPU_DRM_I915_COMMAND_EXECBUFFER_REQUEST_INLINE_RECORD KB2_GPU_DRM_I915_RECORD_EXEC_REQUEST_SIZE 2 0].

Definition KB2_GPU_DRM_I915_REQUEST_SPAN_CATALOG {T} (X : Z -> Z -> Z -> Z -> Z -> Z -> Z -> T) : list T :=
  [X 2 2 3 0 64 104 24; X 2 3 3 0 16777216 105 1; X 6 2 1 0 64 114 4; X 13 2 1 0 64 126 32; X 13 3 1 0 4096 127 4;
   X 14 2 1 0 64 126 32; X 14 3 1 0 4096 127 4; X 16 2 3 1 8192 129 40; X 16 3 1 0 65536 130 8].
