(* ===== verification/GpuDrmSchema.v ===== *)
(** Schemas of the DRM command sets, the data behind the generated headers
    gpu_drm_*_layout.h, and what makes a schema and its catalogs consistent.

    The headers define a record as an identifier, a size and the offsets of its fields,
    and a command as a group of constants; the catalogs, which gpu.c expands, repeat
    the same facts as tables.  [derived] is the catalogs that a schema gives.  The widths
    of the fields are in the JSON schemas only; a table of types gives them, and the
    layout that tools/generate_protocol.py makes of them is compared with the headers. *)

From Stdlib Require Import ZArith Lia String.
From stdpp Require Import base numbers tactics strings list_numbers list.
From S2P Require Import Prelude.

Open Scope string_scope.
Open Scope list_scope.
Open Scope Z_scope.

(** * Schemas *)

Record record_schema := mkRecordSchema { rs_id : Z; rs_size : Z; rs_fields : list (string * Z) }.

(** Argument, role, direction, bounds on the number of elements, whether the span is
    repeated and then the bounds of each, and the records an element may be. *)
Record span_schema := mkSpanSchema {
  ss_argument_id : Z;
  ss_role : Z;
  ss_direction : Z;
  ss_minimum : Z;
  ss_maximum : Z;
  ss_repeated : Z;
  ss_element : option (Z * Z);
  ss_records : list Z;
}.

Record attachment_schema := mkAttachmentSchema {
  as_argument_id : Z;
  as_role : Z;
  as_ownership : Z;
  as_optional : Z;
  as_classes : list Z;
}.

(** A request or a completion: the inline record, 0 for none, and the arguments. *)
Record side_schema := mkSideSchema {
  sd_inline_record : Z;
  sd_span_count : Z;
  sd_attachment_count : Z;
  sd_spans : list span_schema;
  sd_attachments : list attachment_schema;
}.

Record command_schema := mkCommandSchema {
  cs_id : Z;
  cs_uapi_number : option Z;
  cs_inline_argument_id : Z;
  cs_request : side_schema;
  cs_completion : side_schema;
}.

Record schema := mkSchema {
  sc_command_count : Z;
  sc_record_count : Z;
  sc_records : list record_schema;
  sc_commands : list command_schema;
}.

(** * Types

    The types of a record's fields, as the "records" of the JSON schemas have them, and
    what generate_protocol.py makes of them. *)

Inductive field_type : Type :=
| TU8
| TU16
| TU32
| TU64
| TI16
| TI32
| TI64
| TArray (count : Z) (element : field_type).

#[global] Instance field_type_eq_dec : EqDecision field_type.
Proof. solve_decision. Defined.

Fixpoint field_size (t : field_type) : Z :=
  match t with
  | TU8 => 1
  | TU16 | TI16 => 2
  | TU32 | TI32 => 4
  | TU64 | TI64 => 8
  | TArray count element => count * field_size element
  end.

Notation typed_field := (string * field_type)%type.

(** Name, offset and width of each field. *)
Fixpoint layout (offset : Z) (fields : list typed_field) : list (string * (Z * Z)) :=
  match fields with
  | [] => []
  | f :: fields => (f.1, (offset, field_size f.2)) :: layout (offset + field_size f.2) fields
  end.

Definition record_bytes (fields : list typed_field) : Z := foldr (fun f n => field_size f.2 + n) 0 fields.

(** The fields of a record by its identifier. *)
Notation type_table := (list (Z * list typed_field)).

Definition types_of (types : type_table) (id : Z) : option (list typed_field) :=
  snd <$> List.find (fun x => x.1 =? id) types.

(** * Catalogs *)

Definition row2 (a b : Z) : list Z := [a; b].
Definition row5 (a b c d e : Z) : list Z := [a; b; c; d; e].
Definition row6 (a b c d e f : Z) : list Z := [a; b; c; d; e; f].
Definition row7 (a b c d e f g : Z) : list Z := [a; b; c; d; e; f; g].

Record catalogs := mkCatalogs {
  ct_record : list (list Z);
  ct_request_inline : list (list Z);
  ct_request_contract : list (list Z);
  ct_request_span : list (list Z);
  ct_request_attachment : list (list Z);
  ct_completion_inline : list (list Z);
  ct_completion_contract : list (list Z);
  ct_completion_attachment : list (list Z);
}.

#[global] Instance catalogs_eq_dec : EqDecision catalogs.
Proof. solve_decision. Defined.

(** The size of a record, 0 when there is none. *)
Definition record_size_of (s : schema) (id : Z) : Z :=
  match List.find (fun r => rs_id r =? id) (sc_records s) with
  | Some r => rs_size r
  | None => 0
  end.

Definition inline_rows (s : schema) (side : command_schema -> side_schema) : list (list Z) :=
  (fun c => row2 (sd_inline_record (side c)) (record_size_of s (sd_inline_record (side c)))) <$> sc_commands s.

Definition contract_rows (s : schema) (side : command_schema -> side_schema) : list (list Z) :=
  (fun c => row5 (cs_id c) (sd_inline_record (side c)) (record_size_of s (sd_inline_record (side c)))
              (sd_span_count (side c)) (sd_attachment_count (side c))) <$> sc_commands s.

(** A row for every record an element of the span may be. *)
Definition span_rows (s : schema) (side : command_schema -> side_schema) : list (list Z) :=
  c ← sc_commands s; x ← sd_spans (side c); r ← ss_records x;
  [row7 (cs_id c) (ss_argument_id x) (ss_direction x) (ss_minimum x) (ss_maximum x) r (record_size_of s r)].

(** A row for every class the object may have. *)
Definition attachment_rows (s : schema) (side : command_schema -> side_schema) : list (list Z) :=
  c ← sc_commands s; x ← sd_attachments (side c); k ← as_classes x;
  [row6 (cs_id c) (as_argument_id x) (as_role x) (as_ownership x) (as_optional x) k].

Definition derived (s : schema) : catalogs :=
  mkCatalogs ((fun r => row2 (rs_id r) (rs_size r)) <$> sc_records s)
    (inline_rows s cs_request) (contract_rows s cs_request) (span_rows s cs_request) (attachment_rows s cs_request)
    (inline_rows s cs_completion) (contract_rows s cs_completion) (attachment_rows s cs_completion).

(** * Consistency *)

(** The record of the header is what the generator makes of the types: the fields one
    behind the other from the start, the size their sum. *)
Definition record_follows (types : type_table) (r : record_schema) : Prop :=
  match types_of types (rs_id r) with
  | Some fields =>
      rs_fields r = (fun f => (f.1, f.2.1)) <$> layout 0 fields /\ rs_size r = record_bytes fields /\
      NoDup fields.*1 /\ Forall (fun f => 1 <= field_size f.2) fields
  | None => False
  end.

Definition record_known (s : schema) (id : Z) : Prop := id ∈ rs_id <$> sc_records s.

(** The counts are those of the arguments, every record exists, and no two arguments of
    the message, the inline record among them, have the same identifier. *)
Definition side_consistent (s : schema) (inline_argument_id : Z) (x : side_schema) : Prop :=
  (sd_inline_record x = 0 \/ record_known s (sd_inline_record x)) /\
  sd_span_count x = Z.of_nat (length (sd_spans x)) /\
  sd_attachment_count x = Z.of_nat (length (sd_attachments x)) /\
  Forall (fun y => ss_minimum y <= ss_maximum y /\ ss_records y <> [] /\ Forall (record_known s) (ss_records y)) (sd_spans x) /\
  Forall (fun y => as_classes y <> []) (sd_attachments x) /\
  NoDup (inline_argument_id :: (ss_argument_id <$> sd_spans x) ++ (as_argument_id <$> sd_attachments x)).

Definition schema_consistent (types : type_table) (s : schema) : Prop :=
  sc_record_count s = Z.of_nat (length (sc_records s)) /\ NoDup (rs_id <$> sc_records s) /\
  Forall (record_follows types) (sc_records s) /\
  cs_id <$> sc_commands s = seqZ 1 (sc_command_count s) /\
  NoDup (omap cs_uapi_number (sc_commands s)) /\
  Forall (fun c => side_consistent s (cs_inline_argument_id c) (cs_request c) /\
                   side_consistent s (cs_inline_argument_id c) (cs_completion c)) (sc_commands s).
