(* ===== verification/GpuCoreSchema.v ===== *)
(** The schema of the DRM core command set, as protocol/generated/include/kobox2/gpu_drm_core_layout.h
    defines it: a definition per record and per command, and the catalogs that the other
    files do not use; the types of the fields are those of protocol/schema/gpu_drm_core.json. *)

From Stdlib Require Import ZArith String.
From stdpp Require Import base strings list.
From S2P Require Import GpuDrmLayout GpuDrmSchema.

Open Scope string_scope.
Open Scope list_scope.
Open Scope Z_scope.

(** * Records *)

Definition core_record_BYTE : record_schema :=
  mkRecordSchema 101 1 [("VALUE", 0)].

Definition core_record_VERSION_REQUEST : record_schema :=
  mkRecordSchema 102 16 [("NAME_CAPACITY", 0); ("DATE_CAPACITY", 4); ("DESCRIPTION_CAPACITY", 8); ("RESERVED", 12)].

Definition core_record_VERSION_RESULT : record_schema :=
  mkRecordSchema 103 32 [("MAJOR", 0); ("MINOR", 4); ("PATCH", 8); ("RESERVED", 12); ("NAME_BYTES", 16); ("DATE_BYTES", 20);
    ("DESCRIPTION_BYTES", 24); ("REQUIRED_FLAGS", 28)].

Definition core_record_LENGTH_REQUEST : record_schema :=
  mkRecordSchema 104 8 [("CAPACITY", 0); ("RESERVED", 4)].

Definition core_record_LENGTH_RESULT : record_schema :=
  mkRecordSchema 105 8 [("BYTES", 0); ("REQUIRED_BYTES", 4)].

Definition core_record_CLIENT_REQUEST : record_schema :=
  mkRecordSchema 106 8 [("INDEX", 0); ("RESERVED", 4)].

Definition core_record_CLIENT_RESULT : record_schema :=
  mkRecordSchema 107 40 [("AUTHENTICATED", 0); ("RESERVED", 4); ("PROCESS_ID", 8); ("USER_ID", 16); ("MAGIC", 24); ("IOCTL_COUNT", 32)].

Definition core_record_STAT_ENTRY : record_schema :=
  mkRecordSchema 108 16 [("VALUE", 0); ("TYPE", 8); ("RESERVED", 12)].

Definition core_record_COUNT_RESULT : record_schema :=
  mkRecordSchema 109 8 [("COUNT", 0); ("REQUIRED_COUNT", 4)].

Definition core_record_SET_VERSION : record_schema :=
  mkRecordSchema 110 16 [("INTERFACE_MAJOR", 0); ("INTERFACE_MINOR", 4); ("DRIVER_MAJOR", 8); ("DRIVER_MINOR", 12)].

Definition core_record_CAP_REQUEST : record_schema :=
  mkRecordSchema 111 8 [("CAPABILITY", 0)].

Definition core_record_SCALAR_U64 : record_schema :=
  mkRecordSchema 112 8 [("VALUE", 0)].

Definition core_record_CLIENT_CAP_REQUEST : record_schema :=
  mkRecordSchema 113 16 [("CAPABILITY", 0); ("VALUE", 8)].

Definition core_record_CLIENT_NAME_REQUEST : record_schema :=
  mkRecordSchema 114 8 [("NAME_BYTES", 0); ("RESERVED", 4)].

Definition core_record_GEM_HANDLE_REQUEST : record_schema :=
  mkRecordSchema 115 8 [("HANDLE", 0); ("RESERVED", 4)].

Definition core_record_SCALAR_U32 : record_schema :=
  mkRecordSchema 116 4 [("VALUE", 0)].

Definition core_record_GEM_OPEN_REQUEST : record_schema :=
  mkRecordSchema 117 8 [("NAME", 0); ("RESERVED", 4)].

Definition core_record_GEM_OPEN_RESULT : record_schema :=
  mkRecordSchema 118 16 [("HANDLE", 0); ("RESERVED", 4); ("SIZE", 8)].

Definition core_record_GEM_CHANGE_HANDLE_REQUEST : record_schema :=
  mkRecordSchema 119 8 [("HANDLE", 0); ("NEW_HANDLE", 4)].

Definition core_record_PRIME_EXPORT_REQUEST : record_schema :=
  mkRecordSchema 120 8 [("HANDLE", 0); ("FLAGS", 4)].

Definition core_record_PRIME_IMPORT_REQUEST : record_schema :=
  mkRecordSchema 121 8 [("FLAGS", 0); ("RESERVED", 4)].

Definition core_record_SYNCOBJ_CREATE_REQUEST : record_schema :=
  mkRecordSchema 122 8 [("FLAGS", 0); ("RESERVED", 4)].

Definition core_record_SYNCOBJ_HANDLE_RESULT : record_schema :=
  mkRecordSchema 123 8 [("HANDLE", 0); ("RESERVED", 4)].

Definition core_record_SYNCOBJ_EXPORT_REQUEST : record_schema :=
  mkRecordSchema 124 16 [("HANDLE", 0); ("FLAGS", 4); ("POINT", 8)].

Definition core_record_SYNCOBJ_IMPORT_REQUEST : record_schema :=
  mkRecordSchema 125 16 [("FLAGS", 0); ("HANDLE", 4); ("POINT", 8)].

Definition core_record_SYNCOBJ_WAIT_REQUEST : record_schema :=
  mkRecordSchema 126 16 [("HANDLE_COUNT", 0); ("FLAGS", 4); ("FENCE_DEADLINE_NS", 8)].

Definition core_record_WAIT_RESULT : record_schema :=
  mkRecordSchema 127 8 [("FIRST_SIGNALED", 0); ("RESERVED", 4)].

Definition core_record_HANDLE_U32 : record_schema :=
  mkRecordSchema 128 4 [("HANDLE", 0)].

Definition core_record_SYNCOBJ_ARRAY_REQUEST : record_schema :=
  mkRecordSchema 129 8 [("HANDLE_COUNT", 0); ("FLAGS", 4)].

Definition core_record_TIMELINE_SYNCOBJ : record_schema :=
  mkRecordSchema 130 16 [("HANDLE", 0); ("RESERVED", 4); ("POINT", 8)].

Definition core_record_SYNCOBJ_QUERY_REQUEST : record_schema :=
  mkRecordSchema 131 8 [("HANDLE_COUNT", 0); ("FLAGS", 4)].

Definition core_record_SYNCOBJ_TRANSFER_REQUEST : record_schema :=
  mkRecordSchema 132 32 [("SOURCE_HANDLE", 0); ("DESTINATION_HANDLE", 4); ("SOURCE_POINT", 8); ("DESTINATION_POINT", 16); ("FLAGS", 24);
    ("RESERVED", 28)].

Definition core_record_SYNCOBJ_EVENT_ARM_REQUEST : record_schema :=
  mkRecordSchema 133 16 [("HANDLE", 0); ("FLAGS", 4); ("POINT", 8)].

Definition core_records : list record_schema :=
  [core_record_BYTE; core_record_VERSION_REQUEST; core_record_VERSION_RESULT; core_record_LENGTH_REQUEST;
   core_record_LENGTH_RESULT; core_record_CLIENT_REQUEST; core_record_CLIENT_RESULT; core_record_STAT_ENTRY;
   core_record_COUNT_RESULT; core_record_SET_VERSION; core_record_CAP_REQUEST; core_record_SCALAR_U64;
   core_record_CLIENT_CAP_REQUEST; core_record_CLIENT_NAME_REQUEST; core_record_GEM_HANDLE_REQUEST;
   core_record_SCALAR_U32; core_record_GEM_OPEN_REQUEST; core_record_GEM_OPEN_RESULT;
   core_record_GEM_CHANGE_HANDLE_REQUEST; core_record_PRIME_EXPORT_REQUEST; core_record_PRIME_IMPORT_REQUEST;
   core_record_SYNCOBJ_CREATE_REQUEST; core_record_SYNCOBJ_HANDLE_RESULT; core_record_SYNCOBJ_EXPORT_REQUEST;
   core_record_SYNCOBJ_IMPORT_REQUEST; core_record_SYNCOBJ_WAIT_REQUEST; core_record_WAIT_RESULT;
   core_record_HANDLE_U32; core_record_SYNCOBJ_ARRAY_REQUEST; core_record_TIMELINE_SYNCOBJ;
   core_record_SYNCOBJ_QUERY_REQUEST; core_record_SYNCOBJ_TRANSFER_REQUEST; core_record_SYNCOBJ_EVENT_ARM_REQUEST].

(** * Commands *)

Definition core_command_VERSION : command_schema :=
  mkCommandSchema 1 (Some 0) 1
    (mkSideSchema 102 3 0 [mkSpanSchema 2 1 2 0 4096 0 None [101]; mkSpanSchema 3 2 2 0 4096 0 None [101];
      mkSpanSchema 4 3 2 0 4096 0 None [101]] [])
    (mkSideSchema 103 0 0 [] []).

Definition core_command_GET_UNIQUE : command_schema :=
  mkCommandSchema 2 (Some 1) 1
    (mkSideSchema 104 1 0 [mkSpanSchema 2 1 2 0 4096 0 None [101]] [])
    (mkSideSchema 105 0 0 [] []).

Definition core_command_GET_CLIENT : command_schema :=
  mkCommandSchema 3 (Some 5) 1
    (mkSideSchema 106 0 0 [] [])
    (mkSideSchema 107 0 0 [] []).

Definition core_command_GET_STATS : command_schema :=
  mkCommandSchema 4 (Some 6) 1
    (mkSideSchema 0 1 0 [mkSpanSchema 2 1 2 0 15 0 None [108]] [])
    (mkSideSchema 109 0 0 [] []).

Definition core_command_SET_VERSION : command_schema :=
  mkCommandSchema 5 (Some 7) 1
    (mkSideSchema 110 0 0 [] [])
    (mkSideSchema 110 0 0 [] []).

Definition core_command_GET_CAP : command_schema :=
  mkCommandSchema 6 (Some 12) 1
    (mkSideSchema 111 0 0 [] [])
    (mkSideSchema 112 0 0 [] []).

Definition core_command_SET_CLIENT_CAP : command_schema :=
  mkCommandSchema 7 (Some 13) 1
    (mkSideSchema 113 0 0 [] [])
    (mkSideSchema 0 0 0 [] []).

Definition core_command_SET_CLIENT_NAME : command_schema :=
  mkCommandSchema 8 (Some 209) 1
    (mkSideSchema 114 1 0 [mkSpanSchema 2 1 1 1 64 0 None [101]] [])
    (mkSideSchema 0 0 0 [] []).

Definition core_command_GEM_CLOSE : command_schema :=
  mkCommandSchema 9 (Some 9) 1
    (mkSideSchema 115 0 0 [] [])
    (mkSideSchema 0 0 0 [] []).

Definition core_command_GEM_FLINK : command_schema :=
  mkCommandSchema 10 (Some 10) 1
    (mkSideSchema 115 0 0 [] [])
    (mkSideSchema 116 0 0 [] []).

Definition core_command_GEM_OPEN : command_schema :=
  mkCommandSchema 11 (Some 11) 1
    (mkSideSchema 117 0 0 [] [])
    (mkSideSchema 118 0 0 [] []).

Definition core_command_GEM_CHANGE_HANDLE : command_schema :=
  mkCommandSchema 12 (Some 210) 1
    (mkSideSchema 119 0 0 [] [])
    (mkSideSchema 0 0 0 [] []).

Definition core_command_PRIME_HANDLE_TO_ATTACHMENT : command_schema :=
  mkCommandSchema 13 (Some 45) 1
    (mkSideSchema 120 0 0 [] [])
    (mkSideSchema 0 0 1 [] [mkAttachmentSchema 2 1 3 0 [2]]).

Definition core_command_PRIME_ATTACHMENT_TO_HANDLE : command_schema :=
  mkCommandSchema 14 (Some 46) 1
    (mkSideSchema 121 0 1 [] [mkAttachmentSchema 2 1 2 0 [2]])
    (mkSideSchema 123 0 0 [] []).

Definition core_command_SYNCOBJ_CREATE : command_schema :=
  mkCommandSchema 15 (Some 191) 1
    (mkSideSchema 122 0 0 [] [])
    (mkSideSchema 123 0 0 [] []).

Definition core_command_SYNCOBJ_DESTROY : command_schema :=
  mkCommandSchema 16 (Some 192) 1
    (mkSideSchema 115 0 0 [] [])
    (mkSideSchema 0 0 0 [] []).

Definition core_command_SYNCOBJ_HANDLE_TO_ATTACHMENT : command_schema :=
  mkCommandSchema 17 (Some 193) 1
    (mkSideSchema 124 0 0 [] [])
    (mkSideSchema 0 0 1 [] [mkAttachmentSchema 2 1 3 0 [6; 3]]).

Definition core_command_SYNCOBJ_ATTACHMENT_TO_HANDLE : command_schema :=
  mkCommandSchema 18 (Some 194) 1
    (mkSideSchema 125 0 1 [] [mkAttachmentSchema 2 1 2 0 [6; 3]])
    (mkSideSchema 123 0 0 [] []).

Definition core_command_SYNCOBJ_WAIT : command_schema :=
  mkCommandSchema 19 (Some 195) 1
    (mkSideSchema 126 1 0 [mkSpanSchema 2 1 1 1 65536 0 None [128]] [])
    (mkSideSchema 127 0 0 [] []).

Definition core_command_SYNCOBJ_RESET : command_schema :=
  mkCommandSchema 20 (Some 196) 1
    (mkSideSchema 129 1 0 [mkSpanSchema 2 1 1 1 65536 0 None [128]] [])
    (mkSideSchema 0 0 0 [] []).

Definition core_command_SYNCOBJ_SIGNAL : command_schema :=
  mkCommandSchema 21 (Some 197) 1
    (mkSideSchema 129 1 0 [mkSpanSchema 2 1 1 1 65536 0 None [128]] [])
    (mkSideSchema 0 0 0 [] []).

Definition core_command_SYNCOBJ_TIMELINE_WAIT : command_schema :=
  mkCommandSchema 22 (Some 202) 1
    (mkSideSchema 126 1 0 [mkSpanSchema 2 1 1 1 65536 0 None [130]] [])
    (mkSideSchema 127 0 0 [] []).

Definition core_command_SYNCOBJ_QUERY : command_schema :=
  mkCommandSchema 23 (Some 203) 1
    (mkSideSchema 131 1 0 [mkSpanSchema 2 1 3 1 65536 0 None [130]] [])
    (mkSideSchema 109 0 0 [] []).

Definition core_command_SYNCOBJ_TRANSFER : command_schema :=
  mkCommandSchema 24 (Some 204) 1
    (mkSideSchema 132 0 0 [] [])
    (mkSideSchema 0 0 0 [] []).

Definition core_command_SYNCOBJ_TIMELINE_SIGNAL : command_schema :=
  mkCommandSchema 25 (Some 205) 1
    (mkSideSchema 129 1 0 [mkSpanSchema 2 1 1 1 65536 0 None [130]] [])
    (mkSideSchema 0 0 0 [] []).

Definition core_command_SYNCOBJ_EVENT_ARM : command_schema :=
  mkCommandSchema 26 (Some 207) 1
    (mkSideSchema 133 0 1 [] [mkAttachmentSchema 2 1 2 0 [4]])
    (mkSideSchema 0 0 0 [] []).

Definition core_command_POLL_EVENTS : command_schema :=
  mkCommandSchema 27 None 1
    (mkSideSchema 116 0 0 [] [])
    (mkSideSchema 116 0 0 [] []).

Definition core_command_READ_EVENTS : command_schema :=
  mkCommandSchema 28 None 1
    (mkSideSchema 104 1 0 [mkSpanSchema 2 1 2 1 512 0 None [101]] [])
    (mkSideSchema 105 0 0 [] []).

Definition core_commands : list command_schema :=
  [core_command_VERSION; core_command_GET_UNIQUE; core_command_GET_CLIENT; core_command_GET_STATS;
   core_command_SET_VERSION; core_command_GET_CAP; core_command_SET_CLIENT_CAP; core_command_SET_CLIENT_NAME;
   core_command_GEM_CLOSE; core_command_GEM_FLINK; core_command_GEM_OPEN; core_command_GEM_CHANGE_HANDLE;
   core_command_PRIME_HANDLE_TO_ATTACHMENT; core_command_PRIME_ATTACHMENT_TO_HANDLE; core_command_SYNCOBJ_CREATE;
   core_command_SYNCOBJ_DESTROY; core_command_SYNCOBJ_HANDLE_TO_ATTACHMENT; core_command_SYNCOBJ_ATTACHMENT_TO_HANDLE;
   core_command_SYNCOBJ_WAIT; core_command_SYNCOBJ_RESET; core_command_SYNCOBJ_SIGNAL;
   core_command_SYNCOBJ_TIMELINE_WAIT; core_command_SYNCOBJ_QUERY; core_command_SYNCOBJ_TRANSFER;
   core_command_SYNCOBJ_TIMELINE_SIGNAL; core_command_SYNCOBJ_EVENT_ARM; core_command_POLL_EVENTS;
   core_command_READ_EVENTS].

(** * Catalogs *)

Definition KB2_GPU_DRM_CORE_RECORD_CATALOG {T} (X : Z -> Z -> T) : list T :=
  [X 101 1; X 102 16; X 103 32; X 104 8; X 105 8; X 106 8; X 107 40; X 108 16; X 109 8; X 110 16; X 111 8; X 112 8;
   X 113 16; X 114 8; X 115 8; X 116 4; X 117 8; X 118 16; X 119 8; X 120 8; X 121 8; X 122 8; X 123 8; X 124 16;
   X 125 16; X 126 16; X 127 8; X 128 4; X 129 8; X 130 16; X 131 8; X 132 32; X 133 16].

Definition KB2_GPU_DRM_CORE_REQUEST_INLINE_CATALOG {T} (X : Z -> Z -> T) : list T :=
  [X 102 16; X 104 8; X 106 8; X 0 0; X 110 16; X 111 8; X 113 16; X 114 8; X 115 8; X 115 8; X 117 8; X 119 8;
   X 120 8; X 121 8; X 122 8; X 115 8; X 124 16; X 125 16; X 126 16; X 129 8; X 129 8; X 126 16; X 131 8; X 132 32;
   X 129 8; X 133 16; X 116 4; X 104 8].

Definition KB2_GPU_DRM_CORE_COMPLETION_INLINE_CATALOG {T} (X : Z -> Z -> T) : list T :=
  [X 103 32; X 105 8; X 107 40; X 109 8; X 110 16; X 112 8; X 0 0; X 0 0; X 0 0; X 116 4; X 118 16; X 0 0; X 0 0;
   X 123 8; X 123 8; X 0 0; X 0 0; X 123 8; X 127 8; X 0 0; X 0 0; X 127 8; X 109 8; X 0 0; X 0 0; X 0 0; X 116 4;
   X 105 8].

Definition KB2_GPU_DRM_CORE_COMPLETION_CONTRACT_CATALOG {T} (X : Z -> Z -> Z -> Z -> Z -> T) : list T :=
  [X 1 103 32 0 0; X 2 105 8 0 0; X 3 107 40 0 0; X 4 109 8 0 0; X 5 110 16 0 0; X 6 112 8 0 0; X 7 0 0 0 0;
   X 8 0 0 0 0; X 9 0 0 0 0; X 10 116 4 0 0; X 11 118 16 0 0; X 12 0 0 0 0; X 13 0 0 0 1; X 14 123 8 0 0;
   X 15 123 8 0 0; X 16 0 0 0 0; X 17 0 0 0 1; X 18 123 8 0 0; X 19 127 8 0 0; X 20 0 0 0 0; X 21 0 0 0 0;
   X 22 127 8 0 0; X 23 109 8 0 0; X 24 0 0 0 0; X 25 0 0 0 0; X 26 0 0 0 0; X 27 116 4 0 0; X 28 105 8 0 0].

Definition KB2_GPU_DRM_CORE_COMPLETION_ATTACHMENT_CATALOG {T} (X : Z -> Z -> Z -> Z -> Z -> Z -> T) : list T :=
  [X 13 2 1 3 0 2; X 17 2 1 3 0 6; X 17 2 1 3 0 3].

Definition core_catalogs : catalogs :=
  mkCatalogs (KB2_GPU_DRM_CORE_RECORD_CATALOG row2) (KB2_GPU_DRM_CORE_REQUEST_INLINE_CATALOG row2)
    (KB2_GPU_DRM_CORE_REQUEST_CONTRACT_CATALOG row5) (KB2_GPU_DRM_CORE_REQUEST_SPAN_CATALOG row7)
    (KB2_GPU_DRM_CORE_REQUEST_ATTACHMENT_CATALOG row6) (KB2_GPU_DRM_CORE_COMPLETION_INLINE_CATALOG row2)
    (KB2_GPU_DRM_CORE_COMPLETION_CONTRACT_CATALOG row5) (KB2_GPU_DRM_CORE_COMPLETION_ATTACHMENT_CATALOG row6).

Definition core_schema : schema :=
  mkSchema 28 33 core_records core_commands.

(** * Types

    The types of the fields of each record, as protocol/schema/gpu_drm_core.json has them. *)

Definition core_types : type_table :=
 [(101, [("VALUE", TU8)]);
  (102, [("NAME_CAPACITY", TU32); ("DATE_CAPACITY", TU32); ("DESCRIPTION_CAPACITY", TU32); ("RESERVED", TU32)]);
  (103, [("MAJOR", TI32); ("MINOR", TI32); ("PATCH", TI32); ("RESERVED", TU32); ("NAME_BYTES", TU32);
     ("DATE_BYTES", TU32); ("DESCRIPTION_BYTES", TU32); ("REQUIRED_FLAGS", TU32)]);
  (104, [("CAPACITY", TU32); ("RESERVED", TU32)]);
  (105, [("BYTES", TU32); ("REQUIRED_BYTES", TU32)]);
  (106, [("INDEX", TI32); ("RESERVED", TU32)]);
  (107, [("AUTHENTICATED", TI32); ("RESERVED", TU32); ("PROCESS_ID", TU64); ("USER_ID", TU64); ("MAGIC", TU64);
     ("IOCTL_COUNT", TU64)]);
  (108, [("VALUE", TU64); ("TYPE", TU32); ("RESERVED", TU32)]);
  (109, [("COUNT", TU32); ("REQUIRED_COUNT", TU32)]);
  (110, [("INTERFACE_MAJOR", TI32); ("INTERFACE_MINOR", TI32); ("DRIVER_MAJOR", TI32); ("DRIVER_MINOR", TI32)]);
  (111, [("CAPABILITY", TU64)]);
  (112, [("VALUE", TU64)]);
  (113, [("CAPABILITY", TU64); ("VALUE", TU64)]);
  (114, [("NAME_BYTES", TU32); ("RESERVED", TU32)]);
  (115, [("HANDLE", TU32); ("RESERVED", TU32)]);
  (116, [("VALUE", TU32)]);
  (117, [("NAME", TU32); ("RESERVED", TU32)]);
  (118, [("HANDLE", TU32); ("RESERVED", TU32); ("SIZE", TU64)]);
  (119, [("HANDLE", TU32); ("NEW_HANDLE", TU32)]);
  (120, [("HANDLE", TU32); ("FLAGS", TU32)]);
  (121, [("FLAGS", TU32); ("RESERVED", TU32)]);
  (122, [("FLAGS", TU32); ("RESERVED", TU32)]);
  (123, [("HANDLE", TU32); ("RESERVED", TU32)]);
  (124, [("HANDLE", TU32); ("FLAGS", TU32); ("POINT", TU64)]);
  (125, [("FLAGS", TU32); ("HANDLE", TU32); ("POINT", TU64)]);
  (126, [("HANDLE_COUNT", TU32); ("FLAGS", TU32); ("FENCE_DEADLINE_NS", TU64)]);
  (127, [("FIRST_SIGNALED", TU32); ("RESERVED", TU32)]);
  (128, [("HANDLE", TU32)]);
  (129, [("HANDLE_COUNT", TU32); ("FLAGS", TU32)]);
  (130, [("HANDLE", TU32); ("RESERVED", TU32); ("POINT", TU64)]);
  (131, [("HANDLE_COUNT", TU32); ("FLAGS", TU32)]);
  (132, [("SOURCE_HANDLE", TU32); ("DESTINATION_HANDLE", TU32); ("SOURCE_POINT", TU64); ("DESTINATION_POINT", TU64);
     ("FLAGS", TU32); ("RESERVED", TU32)]);
  (133, [("HANDLE", TU32); ("FLAGS", TU32); ("POINT", TU64)])].
