(* ===== verification/GpuModeSchema.v ===== *)
(** The schema of the mode setting command set, as protocol/generated/include/kobox2/gpu_drm_mode_layout.h
    defines it: a definition per record and per command, and the catalogs that the other
    files do not use; the types of the fields are those of protocol/schema/gpu_drm_mode.json. *)

From Stdlib Require Import ZArith String.
From stdpp Require Import base strings list.
From S2P Require Import GpuDrmLayout GpuDrmSchema.

Open Scope string_scope.
Open Scope list_scope.
Open Scope Z_scope.

(** * Records *)

Definition mode_record_BYTE : record_schema :=
  mkRecordSchema 101 1 [("VALUE", 0)].

Definition mode_record_OBJECT_ID : record_schema :=
  mkRecordSchema 102 4 [("ID", 0)].

Definition mode_record_SCALAR_U64 : record_schema :=
  mkRecordSchema 103 8 [("VALUE", 0)].

Definition mode_record_MAGIC : record_schema :=
  mkRecordSchema 104 4 [("VALUE", 0)].

Definition mode_record_TOPOLOGY_REQUEST : record_schema :=
  mkRecordSchema 105 8 [("TOPOLOGY_EPOCH", 0)].

Definition mode_record_WAIT_VBLANK_REQUEST : record_schema :=
  mkRecordSchema 106 24 [("TOPOLOGY_EPOCH", 0); ("TYPE", 8); ("SEQUENCE", 12); ("EVENT_TOKEN", 16)].

Definition mode_record_WAIT_VBLANK_RESULT : record_schema :=
  mkRecordSchema 107 16 [("TYPE", 0); ("SEQUENCE", 4); ("TIMESTAMP_NS", 8)].

Definition mode_record_CRTC_SEQUENCE_REQUEST : record_schema :=
  mkRecordSchema 108 16 [("TOPOLOGY_EPOCH", 0); ("CRTC_ID", 8); ("RESERVED", 12)].

Definition mode_record_CRTC_SEQUENCE_RESULT : record_schema :=
  mkRecordSchema 109 24 [("ACTIVE", 0); ("RESERVED", 4); ("SEQUENCE", 8); ("TIMESTAMP_NS", 16)].

Definition mode_record_CRTC_QUEUE_SEQUENCE_REQUEST : record_schema :=
  mkRecordSchema 110 32 [("TOPOLOGY_EPOCH", 0); ("CRTC_ID", 8); ("FLAGS", 12); ("SEQUENCE", 16); ("EVENT_TOKEN", 24)].

Definition mode_record_SEQUENCE_RESULT : record_schema :=
  mkRecordSchema 111 8 [("SEQUENCE", 0)].

Definition mode_record_RESOURCES_REQUEST : record_schema :=
  mkRecordSchema 112 16 [("FB_CAPACITY", 0); ("CRTC_CAPACITY", 4); ("CONNECTOR_CAPACITY", 8); ("ENCODER_CAPACITY", 12)].

Definition mode_record_RESOURCES_RESULT : record_schema :=
  mkRecordSchema 113 40 [("TOPOLOGY_EPOCH", 0); ("FB_COUNT", 8); ("CRTC_COUNT", 12); ("CONNECTOR_COUNT", 16); ("ENCODER_COUNT", 20);
    ("MIN_WIDTH", 24); ("MAX_WIDTH", 28); ("MIN_HEIGHT", 32); ("MAX_HEIGHT", 36)].

Definition mode_record_MODE_INFO : record_schema :=
  mkRecordSchema 114 68 [("CLOCK_KHZ", 0); ("HDISPLAY", 4); ("HSYNC_START", 6); ("HSYNC_END", 8); ("HTOTAL", 10); ("HSKEW", 12);
    ("VDISPLAY", 14); ("VSYNC_START", 16); ("VSYNC_END", 18); ("VTOTAL", 20); ("VSCAN", 22); ("VREFRESH", 24);
    ("FLAGS", 28); ("TYPE", 32); ("NAME", 36)].

Definition mode_record_CRTC_GET_REQUEST : record_schema :=
  mkRecordSchema 115 16 [("TOPOLOGY_EPOCH", 0); ("CRTC_ID", 8); ("RESERVED", 12)].

Definition mode_record_CRTC_RESULT : record_schema :=
  mkRecordSchema 116 40 [("TOPOLOGY_EPOCH", 0); ("CRTC_ID", 8); ("FB_ID", 12); ("X", 16); ("Y", 20); ("GAMMA_SIZE", 24);
    ("MODE_VALID", 28); ("RESERVED", 32)].

Definition mode_record_CRTC_SET_REQUEST : record_schema :=
  mkRecordSchema 117 32 [("TOPOLOGY_EPOCH", 0); ("CRTC_ID", 8); ("FB_ID", 12); ("X", 16); ("Y", 20); ("MODE_VALID", 24);
    ("CONNECTOR_COUNT", 28)].

Definition mode_record_CURSOR_REQUEST : record_schema :=
  mkRecordSchema 118 40 [("TOPOLOGY_EPOCH", 0); ("FLAGS", 8); ("CRTC_ID", 12); ("X", 16); ("Y", 20); ("WIDTH", 24); ("HEIGHT", 28);
    ("HANDLE", 32); ("RESERVED", 36)].

Definition mode_record_GAMMA_REQUEST : record_schema :=
  mkRecordSchema 119 16 [("TOPOLOGY_EPOCH", 0); ("CRTC_ID", 8); ("ENTRY_COUNT", 12)].

Definition mode_record_LUT_VALUE : record_schema :=
  mkRecordSchema 120 2 [("VALUE", 0)].

Definition mode_record_COUNT_RESULT : record_schema :=
  mkRecordSchema 121 8 [("COUNT", 0); ("REQUIRED_COUNT", 4)].

Definition mode_record_ENCODER_REQUEST : record_schema :=
  mkRecordSchema 122 16 [("TOPOLOGY_EPOCH", 0); ("ENCODER_ID", 8); ("RESERVED", 12)].

Definition mode_record_ENCODER_RESULT : record_schema :=
  mkRecordSchema 123 32 [("TOPOLOGY_EPOCH", 0); ("ENCODER_ID", 8); ("ENCODER_TYPE", 12); ("CRTC_ID", 16); ("POSSIBLE_CRTCS", 20);
    ("POSSIBLE_CLONES", 24); ("RESERVED", 28)].

Definition mode_record_CONNECTOR_REQUEST : record_schema :=
  mkRecordSchema 124 32 [("TOPOLOGY_EPOCH", 0); ("CONNECTOR_ID", 8); ("MODE_CAPACITY", 12); ("PROPERTY_CAPACITY", 16);
    ("ENCODER_CAPACITY", 20); ("FLAGS", 24); ("RESERVED", 28)].

Definition mode_record_PROPERTY_VALUE : record_schema :=
  mkRecordSchema 125 16 [("PROPERTY_ID", 0); ("RESERVED", 4); ("VALUE", 8)].

Definition mode_record_CONNECTOR_RESULT : record_schema :=
  mkRecordSchema 126 56 [("TOPOLOGY_EPOCH", 0); ("ENCODER_ID", 8); ("CONNECTOR_ID", 12); ("CONNECTOR_TYPE", 16); ("CONNECTOR_TYPE_ID", 20);
    ("CONNECTION", 24); ("WIDTH_MM", 28); ("HEIGHT_MM", 32); ("SUBPIXEL", 36); ("MODE_COUNT", 40);
    ("PROPERTY_COUNT", 44); ("ENCODER_COUNT", 48); ("RESERVED", 52)].

Definition mode_record_MODE_COMMAND_REQUEST : record_schema :=
  mkRecordSchema 127 16 [("TOPOLOGY_EPOCH", 0); ("CONNECTOR_ID", 8); ("RESERVED", 12)].

Definition mode_record_PROPERTY_REQUEST : record_schema :=
  mkRecordSchema 128 24 [("TOPOLOGY_EPOCH", 0); ("PROPERTY_ID", 8); ("VALUE_CAPACITY", 12); ("ENUM_CAPACITY", 16); ("RESERVED", 20)].

Definition mode_record_PROPERTY_ENUM : record_schema :=
  mkRecordSchema 129 40 [("VALUE", 0); ("NAME", 8)].

Definition mode_record_PROPERTY_RESULT : record_schema :=
  mkRecordSchema 130 56 [("TOPOLOGY_EPOCH", 0); ("FLAGS", 8); ("VALUE_COUNT", 12); ("ENUM_COUNT", 16); ("RESERVED", 20); ("NAME", 24)].

Definition mode_record_SET_PROPERTY_REQUEST : record_schema :=
  mkRecordSchema 131 24 [("TOPOLOGY_EPOCH", 0); ("CONNECTOR_ID", 8); ("PROPERTY_ID", 12); ("VALUE", 16)].

Definition mode_record_BLOB_GET_REQUEST : record_schema :=
  mkRecordSchema 132 16 [("TOPOLOGY_EPOCH", 0); ("BLOB_ID", 8); ("CAPACITY", 12)].

Definition mode_record_LENGTH_RESULT : record_schema :=
  mkRecordSchema 133 8 [("BYTES", 0); ("REQUIRED_BYTES", 4)].

Definition mode_record_FB_GET_REQUEST : record_schema :=
  mkRecordSchema 134 16 [("TOPOLOGY_EPOCH", 0); ("FB_ID", 8); ("RESERVED", 12)].

Definition mode_record_FB_LEGACY : record_schema :=
  mkRecordSchema 135 40 [("TOPOLOGY_EPOCH", 0); ("FB_ID", 8); ("WIDTH", 12); ("HEIGHT", 16); ("PITCH", 20); ("BITS_PER_PIXEL", 24);
    ("DEPTH", 28); ("HANDLE", 32); ("RESERVED", 36)].

Definition mode_record_FB_LEGACY_CREATE : record_schema :=
  mkRecordSchema 136 36 [("TOPOLOGY_EPOCH", 0); ("WIDTH", 8); ("HEIGHT", 12); ("PITCH", 16); ("BITS_PER_PIXEL", 20); ("DEPTH", 24);
    ("HANDLE", 28); ("RESERVED", 32)].

Definition mode_record_OBJECT_ID_RESULT : record_schema :=
  mkRecordSchema 137 16 [("TOPOLOGY_EPOCH", 0); ("OBJECT_ID", 8); ("RESERVED", 12)].

Definition mode_record_OBJECT_ID_REQUEST : record_schema :=
  mkRecordSchema 138 16 [("TOPOLOGY_EPOCH", 0); ("OBJECT_ID", 8); ("RESERVED", 12)].

Definition mode_record_PAGE_FLIP_REQUEST : record_schema :=
  mkRecordSchema 139 32 [("TOPOLOGY_EPOCH", 0); ("CRTC_ID", 8); ("FB_ID", 12); ("FLAGS", 16); ("SEQUENCE", 20); ("EVENT_TOKEN", 24)].

Definition mode_record_DIRTY_FB_REQUEST : record_schema :=
  mkRecordSchema 140 24 [("TOPOLOGY_EPOCH", 0); ("FB_ID", 8); ("FLAGS", 12); ("COLOR", 16); ("RECTANGLE_COUNT", 20)].

Definition mode_record_RECTANGLE : record_schema :=
  mkRecordSchema 141 16 [("X1", 0); ("Y1", 4); ("X2", 8); ("Y2", 12)].

Definition mode_record_DUMB_CREATE_REQUEST : record_schema :=
  mkRecordSchema 142 16 [("HEIGHT", 0); ("WIDTH", 4); ("BITS_PER_PIXEL", 8); ("FLAGS", 12)].

Definition mode_record_DUMB_CREATE_RESULT : record_schema :=
  mkRecordSchema 143 16 [("HANDLE", 0); ("PITCH", 4); ("SIZE", 8)].

Definition mode_record_MAP_REQUEST : record_schema :=
  mkRecordSchema 144 8 [("HANDLE", 0); ("MAPPING_RIGHTS", 4)].

Definition mode_record_MAPPING_RESULT : record_schema :=
  mkRecordSchema 145 24 [("MAPPING_ID", 0); ("LENGTH", 8); ("CACHE_POLICY", 16); ("RESERVED", 20)].

Definition mode_record_PLANE_RESOURCES_REQUEST : record_schema :=
  mkRecordSchema 146 8 [("PLANE_CAPACITY", 0); ("RESERVED", 4)].

Definition mode_record_PLANE_GET_REQUEST : record_schema :=
  mkRecordSchema 147 16 [("TOPOLOGY_EPOCH", 0); ("PLANE_ID", 8); ("FORMAT_CAPACITY", 12)].

Definition mode_record_PLANE_RESULT : record_schema :=
  mkRecordSchema 148 36 [("TOPOLOGY_EPOCH", 0); ("PLANE_ID", 8); ("CRTC_ID", 12); ("FB_ID", 16); ("POSSIBLE_CRTCS", 20);
    ("GAMMA_SIZE", 24); ("FORMAT_COUNT", 28); ("RESERVED", 32)].

Definition mode_record_PLANE_SET_REQUEST : record_schema :=
  mkRecordSchema 149 56 [("TOPOLOGY_EPOCH", 0); ("PLANE_ID", 8); ("CRTC_ID", 12); ("FB_ID", 16); ("FLAGS", 20); ("CRTC_X", 24);
    ("CRTC_Y", 28); ("CRTC_WIDTH", 32); ("CRTC_HEIGHT", 36); ("SOURCE_X", 40); ("SOURCE_Y", 44); ("SOURCE_WIDTH", 48);
    ("SOURCE_HEIGHT", 52)].

Definition mode_record_FB2 : record_schema :=
  mkRecordSchema 150 108 [("TOPOLOGY_EPOCH", 0); ("FB_ID", 8); ("WIDTH", 12); ("HEIGHT", 16); ("PIXEL_FORMAT", 20); ("FLAGS", 24);
    ("HANDLES", 28); ("PITCHES", 44); ("OFFSETS", 60); ("MODIFIERS", 76)].

Definition mode_record_OBJECT_PROPERTIES_REQUEST : record_schema :=
  mkRecordSchema 151 24 [("TOPOLOGY_EPOCH", 0); ("OBJECT_ID", 8); ("OBJECT_TYPE", 12); ("PROPERTY_CAPACITY", 16); ("RESERVED", 20)].

Definition mode_record_OBJECT_SET_PROPERTY_REQUEST : record_schema :=
  mkRecordSchema 152 32 [("TOPOLOGY_EPOCH", 0); ("OBJECT_ID", 8); ("OBJECT_TYPE", 12); ("PROPERTY_ID", 16); ("RESERVED", 20); ("VALUE", 24)].

Definition mode_record_CURSOR2_REQUEST : record_schema :=
  mkRecordSchema 153 44 [("TOPOLOGY_EPOCH", 0); ("FLAGS", 8); ("CRTC_ID", 12); ("X", 16); ("Y", 20); ("WIDTH", 24); ("HEIGHT", 28);
    ("HANDLE", 32); ("HOTSPOT_X", 36); ("HOTSPOT_Y", 40)].

Definition mode_record_ATOMIC_REQUEST : record_schema :=
  mkRecordSchema 154 32 [("TOPOLOGY_EPOCH", 0); ("EVENT_TOKEN", 8); ("FLAGS", 16); ("OBJECT_COUNT", 20); ("PROPERTY_COUNT", 24);
    ("FENCE_CAPACITY", 28)].

Definition mode_record_ATOMIC_OBJECT : record_schema :=
  mkRecordSchema 155 16 [("OBJECT_ID", 0); ("FIRST_PROPERTY", 4); ("PROPERTY_COUNT", 8); ("RESERVED", 12)].

Definition mode_record_ATOMIC_PROPERTY : record_schema :=
  mkRecordSchema 156 32 [("PROPERTY_ID", 0); ("VALUE_KIND", 4); ("VALUE", 8); ("SYNCOBJ_HANDLE", 16); ("RESERVED", 20);
    ("SYNCOBJ_POINT", 24)].

Definition mode_record_BLOB_CREATE_REQUEST : record_schema :=
  mkRecordSchema 157 16 [("TOPOLOGY_EPOCH", 0); ("BYTES", 8); ("RESERVED", 12)].

Definition mode_record_LEASE_CREATE_REQUEST : record_schema :=
  mkRecordSchema 158 16 [("TOPOLOGY_EPOCH", 0); ("OBJECT_COUNT", 8); ("FLAGS", 12)].

Definition mode_record_LEASE_CREATE_RESULT : record_schema :=
  mkRecordSchema 159 16 [("TOPOLOGY_EPOCH", 0); ("LESSEE_ID", 8); ("RESERVED", 12)].

Definition mode_record_CAPACITY_REQUEST : record_schema :=
  mkRecordSchema 160 8 [("CAPACITY", 0); ("RESERVED", 4)].

Definition mode_record_LESSEE_ID : record_schema :=
  mkRecordSchema 161 8 [("ID", 0)].

Definition mode_record_LEASE_GET_REQUEST : record_schema :=
  mkRecordSchema 162 16 [("TOPOLOGY_EPOCH", 0); ("OBJECT_CAPACITY", 8); ("RESERVED", 12)].

Definition mode_record_LEASE_REVOKE_REQUEST : record_schema :=
  mkRecordSchema 163 8 [("LESSEE_ID", 0); ("RESERVED", 4)].

Definition mode_record_TOPOLOGY_COUNT_RESULT : record_schema :=
  mkRecordSchema 164 16 [("TOPOLOGY_EPOCH", 0); ("COUNT", 8); ("REQUIRED_COUNT", 12)].

Definition mode_record_ATOMIC_FENCE_RESULT : record_schema :=
  mkRecordSchema 165 16 [("PROPERTY_INDEX", 0); ("SYNCOBJ_HANDLE", 4); ("SYNCOBJ_POINT", 8)].

Definition mode_record_ATOMIC_RESULT : record_schema :=
  mkRecordSchema 166 16 [("TOPOLOGY_EPOCH", 0); ("FENCE_COUNT", 8); ("REQUIRED_FENCE_COUNT", 12)].

Definition mode_records : list record_schema :=
  [mode_record_BYTE; mode_record_OBJECT_ID; mode_record_SCALAR_U64; mode_record_MAGIC; mode_record_TOPOLOGY_REQUEST;
   mode_record_WAIT_VBLANK_REQUEST; mode_record_WAIT_VBLANK_RESULT; mode_record_CRTC_SEQUENCE_REQUEST;
   mode_record_CRTC_SEQUENCE_RESULT; mode_record_CRTC_QUEUE_SEQUENCE_REQUEST; mode_record_SEQUENCE_RESULT;
   mode_record_RESOURCES_REQUEST; mode_record_RESOURCES_RESULT; mode_record_MODE_INFO; mode_record_CRTC_GET_REQUEST;
   mode_record_CRTC_RESULT; mode_record_CRTC_SET_REQUEST; mode_record_CURSOR_REQUEST; mode_record_GAMMA_REQUEST;
   mode_record_LUT_VALUE; mode_record_COUNT_RESULT; mode_record_ENCODER_REQUEST; mode_record_ENCODER_RESULT;
   mode_record_CONNECTOR_REQUEST; mode_record_PROPERTY_VALUE; mode_record_CONNECTOR_RESULT;
   mode_record_MODE_COMMAND_REQUEST; mode_record_PROPERTY_REQUEST; mode_record_PROPERTY_ENUM;
   mode_record_PROPERTY_RESULT; mode_record_SET_PROPERTY_REQUEST; mode_record_BLOB_GET_REQUEST;
   mode_record_LENGTH_RESULT; mode_record_FB_GET_REQUEST; mode_record_FB_LEGACY; mode_record_FB_LEGACY_CREATE;
   mode_record_OBJECT_ID_RESULT; mode_record_OBJECT_ID_REQUEST; mode_record_PAGE_FLIP_REQUEST;
   mode_record_DIRTY_FB_REQUEST; mode_record_RECTANGLE; mode_record_DUMB_CREATE_REQUEST;
   mode_record_DUMB_CREATE_RESULT; mode_record_MAP_REQUEST; mode_record_MAPPING_RESULT;
   mode_record_PLANE_RESOURCES_REQUEST; mode_record_PLANE_GET_REQUEST; mode_record_PLANE_RESULT;
   mode_record_PLANE_SET_REQUEST; mode_record_FB2; mode_record_OBJECT_PROPERTIES_REQUEST;
   mode_record_OBJECT_SET_PROPERTY_REQUEST; mode_record_CURSOR2_REQUEST; mode_record_ATOMIC_REQUEST;
   mode_record_ATOMIC_OBJECT; mode_record_ATOMIC_PROPERTY; mode_record_BLOB_CREATE_REQUEST;
   mode_record_LEASE_CREATE_REQUEST; mode_record_LEASE_CREATE_RESULT; mode_record_CAPACITY_REQUEST;
   mode_record_LESSEE_ID; mode_record_LEASE_GET_REQUEST; mode_record_LEASE_REVOKE_REQUEST;
   mode_record_TOPOLOGY_COUNT_RESULT; mode_record_ATOMIC_FENCE_RESULT; mode_record_ATOMIC_RESULT].

(** * Commands *)

Definition mode_command_GET_MAGIC : command_schema :=
  mkCommandSchema 1 (Some 2) 1
    (mkSideSchema 0 0 0 [] [])
    (mkSideSchema 104 0 0 [] []).

Definition mode_command_AUTH_MAGIC : command_schema :=
  mkCommandSchema 2 (Some 17) 1
    (mkSideSchema 104 0 0 [] [])
    (mkSideSchema 0 0 0 [] []).

Definition mode_command_SET_MASTER : command_schema :=
  mkCommandSchema 3 (Some 30) 1
    (mkSideSchema 0 0 0 [] [])
    (mkSideSchema 0 0 0 [] []).

Definition mode_command_DROP_MASTER : command_schema :=
  mkCommandSchema 4 (Some 31) 1
    (mkSideSchema 0 0 0 [] [])
    (mkSideSchema 0 0 0 [] []).

Definition mode_command_WAIT_VBLANK : command_schema :=
  mkCommandSchema 5 (Some 58) 1
    (mkSideSchema 106 0 0 [] [])
    (mkSideSchema 107 0 0 [] []).

Definition mode_command_CRTC_GET_SEQUENCE : command_schema :=
  mkCommandSchema 6 (Some 59) 1
    (mkSideSchema 108 0 0 [] [])
    (mkSideSchema 109 0 0 [] []).

Definition mode_command_CRTC_QUEUE_SEQUENCE : command_schema :=
  mkCommandSchema 7 (Some 60) 1
    (mkSideSchema 110 0 0 [] [])
    (mkSideSchema 111 0 0 [] []).

Definition mode_command_GET_RESOURCES : command_schema :=
  mkCommandSchema 8 (Some 160) 1
    (mkSideSchema 112 4 0 [mkSpanSchema 2 1 2 0 65536 0 None [102]; mkSpanSchema 3 2 2 0 65536 0 None [102];
      mkSpanSchema 4 3 2 0 65536 0 None [102]; mkSpanSchema 5 4 2 0 65536 0 None [102]] [])
    (mkSideSchema 113 0 0 [] []).

Definition mode_command_GET_CRTC : command_schema :=
  mkCommandSchema 9 (Some 161) 1
    (mkSideSchema 115 1 0 [mkSpanSchema 2 1 2 1 1 0 None [114]] [])
    (mkSideSchema 116 0 0 [] []).

Definition mode_command_SET_CRTC : command_schema :=
  mkCommandSchema 10 (Some 162) 1
    (mkSideSchema 117 2 0 [mkSpanSchema 2 1 1 0 65536 0 None [102]; mkSpanSchema 3 2 1 0 1 0 None [114]] [])
    (mkSideSchema 0 0 0 [] []).

Definition mode_command_CURSOR : command_schema :=
  mkCommandSchema 11 (Some 163) 1
    (mkSideSchema 118 0 0 [] [])
    (mkSideSchema 0 0 0 [] []).

Definition mode_command_GET_GAMMA : command_schema :=
  mkCommandSchema 12 (Some 164) 1
    (mkSideSchema 119 3 0 [mkSpanSchema 2 1 2 1 65536 0 None [120]; mkSpanSchema 3 2 2 1 65536 0 None [120];
      mkSpanSchema 4 3 2 1 65536 0 None [120]] [])
    (mkSideSchema 121 0 0 [] []).

Definition mode_command_SET_GAMMA : command_schema :=
  mkCommandSchema 13 (Some 165) 1
    (mkSideSchema 119 3 0 [mkSpanSchema 2 1 1 1 65536 0 None [120]; mkSpanSchema 3 2 1 1 65536 0 None [120];
      mkSpanSchema 4 3 1 1 65536 0 None [120]] [])
    (mkSideSchema 0 0 0 [] []).

Definition mode_command_GET_ENCODER : command_schema :=
  mkCommandSchema 14 (Some 166) 1
    (mkSideSchema 122 0 0 [] [])
    (mkSideSchema 123 0 0 [] []).

Definition mode_command_GET_CONNECTOR : command_schema :=
  mkCommandSchema 15 (Some 167) 1
    (mkSideSchema 124 3 0 [mkSpanSchema 2 1 2 0 4096 0 None [114]; mkSpanSchema 3 2 2 0 65536 0 None [125];
      mkSpanSchema 4 3 2 0 65536 0 None [102]] [])
    (mkSideSchema 126 0 0 [] []).

Definition mode_command_ATTACH_MODE : command_schema :=
  mkCommandSchema 16 (Some 168) 1
    (mkSideSchema 127 1 0 [mkSpanSchema 2 1 1 1 1 0 None [114]] [])
    (mkSideSchema 0 0 0 [] []).

Definition mode_command_DETACH_MODE : command_schema :=
  mkCommandSchema 17 (Some 169) 1
    (mkSideSchema 127 1 0 [mkSpanSchema 2 1 1 1 1 0 None [114]] [])
    (mkSideSchema 0 0 0 [] []).

Definition mode_command_GET_PROPERTY : command_schema :=
  mkCommandSchema 18 (Some 170) 1
    (mkSideSchema 128 2 0 [mkSpanSchema 2 1 2 0 65536 0 None [103]; mkSpanSchema 3 2 2 0 65536 0 None [129]] [])
    (mkSideSchema 130 0 0 [] []).

Definition mode_command_SET_PROPERTY : command_schema :=
  mkCommandSchema 19 (Some 171) 1
    (mkSideSchema 131 0 0 [] [])
    (mkSideSchema 0 0 0 [] []).

Definition mode_command_GET_PROPERTY_BLOB : command_schema :=
  mkCommandSchema 20 (Some 172) 1
    (mkSideSchema 132 1 0 [mkSpanSchema 2 1 2 0 16777216 0 None [101]] [])
    (mkSideSchema 133 0 0 [] []).

Definition mode_command_GET_FB : command_schema :=
  mkCommandSchema 21 (Some 173) 1
    (mkSideSchema 134 0 0 [] [])
    (mkSideSchema 135 0 0 [] []).

Definition mode_command_ADD_FB : command_schema :=
  mkCommandSchema 22 (Some 174) 1
    (mkSideSchema 136 0 0 [] [])
    (mkSideSchema 137 0 0 [] []).

Definition mode_command_REMOVE_FB : command_schema :=
  mkCommandSchema 23 (Some 175) 1
    (mkSideSchema 138 0 0 [] [])
    (mkSideSchema 0 0 0 [] []).

Definition mode_command_PAGE_FLIP : command_schema :=
  mkCommandSchema 24 (Some 176) 1
    (mkSideSchema 139 0 0 [] [])
    (mkSideSchema 0 0 0 [] []).

Definition mode_command_DIRTY_FB : command_schema :=
  mkCommandSchema 25 (Some 177) 1
    (mkSideSchema 140 1 0 [mkSpanSchema 2 1 1 0 256 0 None [141]] [])
    (mkSideSchema 0 0 0 [] []).

Definition mode_command_CREATE_DUMB : command_schema :=
  mkCommandSchema 26 (Some 178) 1
    (mkSideSchema 142 0 0 [] [])
    (mkSideSchema 143 0 0 [] []).

Definition mode_command_MAP_DUMB : command_schema :=
  mkCommandSchema 27 (Some 179) 1
    (mkSideSchema 144 0 0 [] [])
    (mkSideSchema 145 0 1 [] [mkAttachmentSchema 2 1 2 0 [1]]).

Definition mode_command_DESTROY_DUMB : command_schema :=
  mkCommandSchema 28 (Some 180) 1
    (mkSideSchema 102 0 0 [] [])
    (mkSideSchema 0 0 0 [] []).

Definition mode_command_GET_PLANE_RESOURCES : command_schema :=
  mkCommandSchema 29 (Some 181) 1
    (mkSideSchema 146 1 0 [mkSpanSchema 2 1 2 0 65536 0 None [102]] [])
    (mkSideSchema 164 0 0 [] []).

Definition mode_command_GET_PLANE : command_schema :=
  mkCommandSchema 30 (Some 182) 1
    (mkSideSchema 147 1 0 [mkSpanSchema 2 1 2 0 65536 0 None [102]] [])
    (mkSideSchema 148 0 0 [] []).

Definition mode_command_SET_PLANE : command_schema :=
  mkCommandSchema 31 (Some 183) 1
    (mkSideSchema 149 0 0 [] [])
    (mkSideSchema 0 0 0 [] []).

Definition mode_command_ADD_FB2 : command_schema :=
  mkCommandSchema 32 (Some 184) 1
    (mkSideSchema 150 0 0 [] [])
    (mkSideSchema 137 0 0 [] []).

Definition mode_command_OBJECT_GET_PROPERTIES : command_schema :=
  mkCommandSchema 33 (Some 185) 1
    (mkSideSchema 151 1 0 [mkSpanSchema 2 1 2 0 65536 0 None [125]] [])
    (mkSideSchema 164 0 0 [] []).

Definition mode_command_OBJECT_SET_PROPERTY : command_schema :=
  mkCommandSchema 34 (Some 186) 1
    (mkSideSchema 152 0 0 [] [])
    (mkSideSchema 0 0 0 [] []).

Definition mode_command_CURSOR2 : command_schema :=
  mkCommandSchema 35 (Some 187) 1
    (mkSideSchema 153 0 0 [] [])
    (mkSideSchema 0 0 0 [] []).

Definition mode_command_ATOMIC : command_schema :=
  mkCommandSchema 36 (Some 188) 1
    (mkSideSchema 154 3 0 [mkSpanSchema 2 1 1 1 65536 0 None [155]; mkSpanSchema 3 2 1 1 65536 0 None [156];
      mkSpanSchema 4 3 2 0 65536 0 None [165]] [])
    (mkSideSchema 166 0 0 [] []).

Definition mode_command_CREATE_PROPERTY_BLOB : command_schema :=
  mkCommandSchema 37 (Some 189) 1
    (mkSideSchema 157 1 0 [mkSpanSchema 2 1 1 0 16777216 0 None [101]] [])
    (mkSideSchema 137 0 0 [] []).

Definition mode_command_DESTROY_PROPERTY_BLOB : command_schema :=
  mkCommandSchema 38 (Some 190) 1
    (mkSideSchema 138 0 0 [] [])
    (mkSideSchema 0 0 0 [] []).

Definition mode_command_CREATE_LEASE : command_schema :=
  mkCommandSchema 39 (Some 198) 1
    (mkSideSchema 158 1 0 [mkSpanSchema 2 1 1 0 65536 0 None [102]] [])
    (mkSideSchema 159 0 1 [] [mkAttachmentSchema 2 1 3 0 [5]]).

Definition mode_command_LIST_LESSEES : command_schema :=
  mkCommandSchema 40 (Some 199) 1
    (mkSideSchema 160 1 0 [mkSpanSchema 2 1 2 0 65536 0 None [161]] [])
    (mkSideSchema 121 0 0 [] []).

Definition mode_command_GET_LEASE : command_schema :=
  mkCommandSchema 41 (Some 200) 1
    (mkSideSchema 162 1 0 [mkSpanSchema 2 1 2 0 65536 0 None [102]] [])
    (mkSideSchema 164 0 0 [] []).

Definition mode_command_REVOKE_LEASE : command_schema :=
  mkCommandSchema 42 (Some 201) 1
    (mkSideSchema 163 0 0 [] [])
    (mkSideSchema 0 0 0 [] []).

Definition mode_command_GET_FB2 : command_schema :=
  mkCommandSchema 43 (Some 206) 1
    (mkSideSchema 134 0 0 [] [])
    (mkSideSchema 150 0 0 [] []).

Definition mode_command_CLOSE_FB : command_schema :=
  mkCommandSchema 44 (Some 208) 1
    (mkSideSchema 138 0 0 [] [])
    (mkSideSchema 0 0 0 [] []).

Definition mode_commands : list command_schema :=
  [mode_command_GET_MAGIC; mode_command_AUTH_MAGIC; mode_command_SET_MASTER; mode_command_DROP_MASTER;
   mode_command_WAIT_VBLANK; mode_command_CRTC_GET_SEQUENCE; mode_command_CRTC_QUEUE_SEQUENCE;
   mode_command_GET_RESOURCES; mode_command_GET_CRTC; mode_command_SET_CRTC; mode_command_CURSOR;
   mode_command_GET_GAMMA; mode_command_SET_GAMMA; mode_command_GET_ENCODER; mode_command_GET_CONNECTOR;
   mode_command_ATTACH_MODE; mode_command_DETACH_MODE; mode_command_GET_PROPERTY; mode_command_SET_PROPERTY;
   mode_command_GET_PROPERTY_BLOB; mode_command_GET_FB; mode_command_ADD_FB; mode_command_REMOVE_FB;
   mode_command_PAGE_FLIP; mode_command_DIRTY_FB; mode_command_CREATE_DUMB; mode_command_MAP_DUMB;
   mode_command_DESTROY_DUMB; mode_command_GET_PLANE_RESOURCES; mode_command_GET_PLANE; mode_command_SET_PLANE;
   mode_command_ADD_FB2; mode_command_OBJECT_GET_PROPERTIES; mode_command_OBJECT_SET_PROPERTY; mode_command_CURSOR2;
   mode_command_ATOMIC; mode_command_CREATE_PROPERTY_BLOB; mode_command_DESTROY_PROPERTY_BLOB;
   mode_command_CREATE_LEASE; mode_command_LIST_LESSEES; mode_command_GET_LEASE; mode_command_REVOKE_LEASE;
   mode_command_GET_FB2; mode_command_CLOSE_FB].

(** * Catalogs *)

Definition KB2_GPU_DRM_MODE_RECORD_CATALOG {T} (X : Z -> Z -> T) : list T :=
  [X 101 1; X 102 4; X 103 8; X 104 4; X 105 8; X 106 24; X 107 16; X 108 16; X 109 24; X 110 32; X 111 8; X 112 16;
   X 113 40; X 114 68; X 115 16; X 116 40; X 117 32; X 118 40; X 119 16; X 120 2; X 121 8; X 122 16; X 123 32;
   X 124 32; X 125 16; X 126 56; X 127 16; X 128 24; X 129 40; X 130 56; X 131 24; X 132 16; X 133 8; X 134 16;
   X 135 40; X 136 36; X 137 16; X 138 16; X 139 32; X 140 24; X 141 16; X 142 16; X 143 16; X 144 8; X 145 24;
   X 146 8; X 147 16; X 148 36; X 149 56; X 150 108; X 151 24; X 152 32; X 153 44; X 154 32; X 155 16; X 156 32;
   X 157 16; X 158 16; X 159 16; X 160 8; X 161 8; X 162 16; X 163 8; X 164 16; X 165 16; X 166 16].

Definition KB2_GPU_DRM_MODE_REQUEST_INLINE_CATALOG {T} (X : Z -> Z -> T) : list T :=
  [X 0 0; X 104 4; X 0 0; X 0 0; X 106 24; X 108 16; X 110 32; X 112 16; X 115 16; X 117 32; X 118 40; X 119 16;
   X 119 16; X 122 16; X 124 32; X 127 16; X 127 16; X 128 24; X 131 24; X 132 16; X 134 16; X 136 36; X 138 16;
   X 139 32; X 140 24; X 142 16; X 144 8; X 102 4; X 146 8; X 147 16; X 149 56; X 150 108; X 151 24; X 152 32;
   X 153 44; X 154 32; X 157 16; X 138 16; X 158 16; X 160 8; X 162 16; X 163 8; X 134 16; X 138 16].

Definition KB2_GPU_DRM_MODE_COMPLETION_INLINE_CATALOG {T} (X : Z -> Z -> T) : list T :=
  [X 104 4; X 0 0; X 0 0; X 0 0; X 107 16; X 109 24; X 111 8; X 113 40; X 116 40; X 0 0; X 0 0; X 121 8; X 0 0;
   X 123 32; X 126 56; X 0 0; X 0 0; X 130 56; X 0 0; X 133 8; X 135 40; X 137 16; X 0 0; X 0 0; X 0 0; X 143 16;
   X 145 24; X 0 0; X 164 16; X 148 36; X 0 0; X 137 16; X 164 16; X 0 0; X 0 0; X 166 16; X 137 16; X 0 0; X 159 16;
   X 121 8; X 164 16; X 0 0; X 150 108; X 0 0].

Definition KB2_GPU_DRM_MODE_COMPLETION_CONTRACT_CATALOG {T} (X : Z -> Z -> Z -> Z -> Z -> T) : list T :=
  [X 1 104 4 0 0; X 2 0 0 0 0; X 3 0 0 0 0; X 4 0 0 0 0; X 5 107 16 0 0; X 6 109 24 0 0; X 7 111 8 0 0;
   X 8 113 40 0 0; X 9 116 40 0 0; X 10 0 0 0 0; X 11 0 0 0 0; X 12 121 8 0 0; X 13 0 0 0 0; X 14 123 32 0 0;
   X 15 126 56 0 0; X 16 0 0 0 0; X 17 0 0 0 0; X 18 130 56 0 0; X 19 0 0 0 0; X 20 133 8 0 0; X 21 135 40 0 0;
   X 22 137 16 0 0; X 23 0 0 0 0; X 24 0 0 0 0; X 25 0 0 0 0; X 26 143 16 0 0; X 27 145 24 0 1; X 28 0 0 0 0;
   X 29 164 16 0 0; X 30 148 36 0 0; X 31 0 0 0 0; X 32 137 16 0 0; X 33 164 16 0 0; X 34 0 0 0 0; X 35 0 0 0 0;
   X 36 166 16 0 0; X 37 137 16 0 0; X 38 0 0 0 0; X 39 159 16 0 1; X 40 121 8 0 0; X 41 164 16 0 0; X 42 0 0 0 0;
   X 43 150 108 0 0; X 44 0 0 0 0].

Definition KB2_GPU_DRM_MODE_COMPLETION_ATTACHMENT_CATALOG {T} (X : Z -> Z -> Z -> Z -> Z -> Z -> T) : list T :=
  [X 27 2 1 2 0 1; X 39 2 1 3 0 5].

Definition mode_catalogs : catalogs :=
  mkCatalogs (KB2_GPU_DRM_MODE_RECORD_CATALOG row2) (KB2_GPU_DRM_MODE_REQUEST_INLINE_CATALOG row2)
    (KB2_GPU_DRM_MODE_REQUEST_CONTRACT_CATALOG row5) (KB2_GPU_DRM_MODE_REQUEST_SPAN_CATALOG row7) []
    (KB2_GPU_DRM_MODE_COMPLETION_INLINE_CATALOG row2) (KB2_GPU_DRM_MODE_COMPLETION_CONTRACT_CATALOG row5)
    (KB2_GPU_DRM_MODE_COMPLETION_ATTACHMENT_CATALOG row6).

Definition mode_schema : schema :=
  mkSchema 44 66 mode_records mode_commands.

(** * Types

    The types of the fields of each record, as protocol/schema/gpu_drm_mode.json has them. *)

Definition mode_types : type_table :=
 [(101, [("VALUE", TU8)]);
  (102, [("ID", TU32)]);
  (103, [("VALUE", TU64)]);
  (104, [("VALUE", TU32)]);
  (105, [("TOPOLOGY_EPOCH", TU64)]);
  (106, [("TOPOLOGY_EPOCH", TU64); ("TYPE", TU32); ("SEQUENCE", TU32); ("EVENT_TOKEN", TU64)]);
  (107, [("TYPE", TU32); ("SEQUENCE", TU32); ("TIMESTAMP_NS", TI64)]);
  (108, [("TOPOLOGY_EPOCH", TU64); ("CRTC_ID", TU32); ("RESERVED", TU32)]);
  (109, [("ACTIVE", TU32); ("RESERVED", TU32); ("SEQUENCE", TU64); ("TIMESTAMP_NS", TI64)]);
  (110, [("TOPOLOGY_EPOCH", TU64); ("CRTC_ID", TU32); ("FLAGS", TU32); ("SEQUENCE", TU64); ("EVENT_TOKEN", TU64)]);
  (111, [("SEQUENCE", TU64)]);
  (112, [("FB_CAPACITY", TU32); ("CRTC_CAPACITY", TU32); ("CONNECTOR_CAPACITY", TU32); ("ENCODER_CAPACITY", TU32)]);
  (113, [("TOPOLOGY_EPOCH", TU64); ("FB_COUNT", TU32); ("CRTC_COUNT", TU32); ("CONNECTOR_COUNT", TU32);
     ("ENCODER_COUNT", TU32); ("MIN_WIDTH", TU32); ("MAX_WIDTH", TU32); ("MIN_HEIGHT", TU32); ("MAX_HEIGHT", TU32)]);
  (114, [("CLOCK_KHZ", TU32); ("HDISPLAY", TU16); ("HSYNC_START", TU16); ("HSYNC_END", TU16); ("HTOTAL", TU16);
     ("HSKEW", TU16); ("VDISPLAY", TU16); ("VSYNC_START", TU16); ("VSYNC_END", TU16); ("VTOTAL", TU16);
     ("VSCAN", TU16); ("VREFRESH", TU32); ("FLAGS", TU32); ("TYPE", TU32); ("NAME", TArray 32 TU8)]);
  (115, [("TOPOLOGY_EPOCH", TU64); ("CRTC_ID", TU32); ("RESERVED", TU32)]);
  (116, [("TOPOLOGY_EPOCH", TU64); ("CRTC_ID", TU32); ("FB_ID", TU32); ("X", TU32); ("Y", TU32);
     ("GAMMA_SIZE", TU32); ("MODE_VALID", TU32); ("RESERVED", TArray 2 TU32)]);
  (117, [("TOPOLOGY_EPOCH", TU64); ("CRTC_ID", TU32); ("FB_ID", TU32); ("X", TU32); ("Y", TU32);
     ("MODE_VALID", TU32); ("CONNECTOR_COUNT", TU32)]);
  (118, [("TOPOLOGY_EPOCH", TU64); ("FLAGS", TU32); ("CRTC_ID", TU32); ("X", TI32); ("Y", TI32); ("WIDTH", TU32);
     ("HEIGHT", TU32); ("HANDLE", TU32); ("RESERVED", TU32)]);
  (119, [("TOPOLOGY_EPOCH", TU64); ("CRTC_ID", TU32); ("ENTRY_COUNT", TU32)]);
  (120, [("VALUE", TU16)]);
  (121, [("COUNT", TU32); ("REQUIRED_COUNT", TU32)]);
  (122, [("TOPOLOGY_EPOCH", TU64); ("ENCODER_ID", TU32); ("RESERVED", TU32)]);
  (123, [("TOPOLOGY_EPOCH", TU64); ("ENCODER_ID", TU32); ("ENCODER_TYPE", TU32); ("CRTC_ID", TU32);
     ("POSSIBLE_CRTCS", TU32); ("POSSIBLE_CLONES", TU32); ("RESERVED", TU32)]);
  (124, [("TOPOLOGY_EPOCH", TU64); ("CONNECTOR_ID", TU32); ("MODE_CAPACITY", TU32); ("PROPERTY_CAPACITY", TU32);
     ("ENCODER_CAPACITY", TU32); ("FLAGS", TU32); ("RESERVED", TU32)]);
  (125, [("PROPERTY_ID", TU32); ("RESERVED", TU32); ("VALUE", TU64)]);
  (126, [("TOPOLOGY_EPOCH", TU64); ("ENCODER_ID", TU32); ("CONNECTOR_ID", TU32); ("CONNECTOR_TYPE", TU32);
     ("CONNECTOR_TYPE_ID", TU32); ("CONNECTION", TU32); ("WIDTH_MM", TU32); ("HEIGHT_MM", TU32); ("SUBPIXEL", TU32);
     ("MODE_COUNT", TU32); ("PROPERTY_COUNT", TU32); ("ENCODER_COUNT", TU32); ("RESERVED", TU32)]);
  (127, [("TOPOLOGY_EPOCH", TU64); ("CONNECTOR_ID", TU32); ("RESERVED", TU32)]);
  (128, [("TOPOLOGY_EPOCH", TU64); ("PROPERTY_ID", TU32); ("VALUE_CAPACITY", TU32); ("ENUM_CAPACITY", TU32);
     ("RESERVED", TU32)]);
  (129, [("VALUE", TU64); ("NAME", TArray 32 TU8)]);
  (130, [("TOPOLOGY_EPOCH", TU64); ("FLAGS", TU32); ("VALUE_COUNT", TU32); ("ENUM_COUNT", TU32); ("RESERVED", TU32);
     ("NAME", TArray 32 TU8)]);
  (131, [("TOPOLOGY_EPOCH", TU64); ("CONNECTOR_ID", TU32); ("PROPERTY_ID", TU32); ("VALUE", TU64)]);
  (132, [("TOPOLOGY_EPOCH", TU64); ("BLOB_ID", TU32); ("CAPACITY", TU32)]);
  (133, [("BYTES", TU32); ("REQUIRED_BYTES", TU32)]);
  (134, [("TOPOLOGY_EPOCH", TU64); ("FB_ID", TU32); ("RESERVED", TU32)]);
  (135, [("TOPOLOGY_EPOCH", TU64); ("FB_ID", TU32); ("WIDTH", TU32); ("HEIGHT", TU32); ("PITCH", TU32);
     ("BITS_PER_PIXEL", TU32); ("DEPTH", TU32); ("HANDLE", TU32); ("RESERVED", TU32)]);
  (136, [("TOPOLOGY_EPOCH", TU64); ("WIDTH", TU32); ("HEIGHT", TU32); ("PITCH", TU32); ("BITS_PER_PIXEL", TU32);
     ("DEPTH", TU32); ("HANDLE", TU32); ("RESERVED", TU32)]);
  (137, [("TOPOLOGY_EPOCH", TU64); ("OBJECT_ID", TU32); ("RESERVED", TU32)]);
  (138, [("TOPOLOGY_EPOCH", TU64); ("OBJECT_ID", TU32); ("RESERVED", TU32)]);
  (139, [("TOPOLOGY_EPOCH", TU64); ("CRTC_ID", TU32); ("FB_ID", TU32); ("FLAGS", TU32); ("SEQUENCE", TU32);
     ("EVENT_TOKEN", TU64)]);
  (140, [("TOPOLOGY_EPOCH", TU64); ("FB_ID", TU32); ("FLAGS", TU32); ("COLOR", TU32); ("RECTANGLE_COUNT", TU32)]);
  (141, [("X1", TI32); ("Y1", TI32); ("X2", TI32); ("Y2", TI32)]);
  (142, [("HEIGHT", TU32); ("WIDTH", TU32); ("BITS_PER_PIXEL", TU32); ("FLAGS", TU32)]);
  (143, [("HANDLE", TU32); ("PITCH", TU32); ("SIZE", TU64)]);
  (144, [("HANDLE", TU32); ("MAPPING_RIGHTS", TU32)]);
  (145, [("MAPPING_ID", TU64); ("LENGTH", TU64); ("CACHE_POLICY", TU32); ("RESERVED", TU32)]);
  (146, [("PLANE_CAPACITY", TU32); ("RESERVED", TU32)]);
  (147, [("TOPOLOGY_EPOCH", TU64); ("PLANE_ID", TU32); ("FORMAT_CAPACITY", TU32)]);
  (148, [("TOPOLOGY_EPOCH", TU64); ("PLANE_ID", TU32); ("CRTC_ID", TU32); ("FB_ID", TU32); ("POSSIBLE_CRTCS", TU32);
     ("GAMMA_SIZE", TU32); ("FORMAT_COUNT", TU32); ("RESERVED", TU32)]);
  (149, [("TOPOLOGY_EPOCH", TU64); ("PLANE_ID", TU32); ("CRTC_ID", TU32); ("FB_ID", TU32); ("FLAGS", TU32);
     ("CRTC_X", TI32); ("CRTC_Y", TI32); ("CRTC_WIDTH", TU32); ("CRTC_HEIGHT", TU32); ("SOURCE_X", TU32);
     ("SOURCE_Y", TU32); ("SOURCE_WIDTH", TU32); ("SOURCE_HEIGHT", TU32)]);
  (150, [("TOPOLOGY_EPOCH", TU64); ("FB_ID", TU32); ("WIDTH", TU32); ("HEIGHT", TU32); ("PIXEL_FORMAT", TU32);
     ("FLAGS", TU32); ("HANDLES", TArray 4 TU32); ("PITCHES", TArray 4 TU32); ("OFFSETS", TArray 4 TU32);
     ("MODIFIERS", TArray 4 TU64)]);
  (151, [("TOPOLOGY_EPOCH", TU64); ("OBJECT_ID", TU32); ("OBJECT_TYPE", TU32); ("PROPERTY_CAPACITY", TU32);
     ("RESERVED", TU32)]);
  (152, [("TOPOLOGY_EPOCH", TU64); ("OBJECT_ID", TU32); ("OBJECT_TYPE", TU32); ("PROPERTY_ID", TU32);
     ("RESERVED", TU32); ("VALUE", TU64)]);
  (153, [("TOPOLOGY_EPOCH", TU64); ("FLAGS", TU32); ("CRTC_ID", TU32); ("X", TI32); ("Y", TI32); ("WIDTH", TU32);
     ("HEIGHT", TU32); ("HANDLE", TU32); ("HOTSPOT_X", TI32); ("HOTSPOT_Y", TI32)]);
  (154, [("TOPOLOGY_EPOCH", TU64); ("EVENT_TOKEN", TU64); ("FLAGS", TU32); ("OBJECT_COUNT", TU32);
     ("PROPERTY_COUNT", TU32); ("FENCE_CAPACITY", TU32)]);
  (155, [("OBJECT_ID", TU32); ("FIRST_PROPERTY", TU32); ("PROPERTY_COUNT", TU32); ("RESERVED", TU32)]);
  (156, [("PROPERTY_ID", TU32); ("VALUE_KIND", TU32); ("VALUE", TU64); ("SYNCOBJ_HANDLE", TU32); ("RESERVED", TU32);
     ("SYNCOBJ_POINT", TU64)]);
  (157, [("TOPOLOGY_EPOCH", TU64); ("BYTES", TU32); ("RESERVED", TU32)]);
  (158, [("TOPOLOGY_EPOCH", TU64); ("OBJECT_COUNT", TU32); ("FLAGS", TU32)]);
  (159, [("TOPOLOGY_EPOCH", TU64); ("LESSEE_ID", TU32); ("RESERVED", TU32)]);
  (160, [("CAPACITY", TU32); ("RESERVED", TU32)]);
  (161, [("ID", TU64)]);
  (162, [("TOPOLOGY_EPOCH", TU64); ("OBJECT_CAPACITY", TU32); ("RESERVED", TU32)]);
  (163, [("LESSEE_ID", TU32); ("RESERVED", TU32)]);
  (164, [("TOPOLOGY_EPOCH", TU64); ("COUNT", TU32); ("REQUIRED_COUNT", TU32)]);
  (165, [("PROPERTY_INDEX", TU32); ("SYNCOBJ_HANDLE", TU32); ("SYNCOBJ_POINT", TU64)]);
  (166, [("TOPOLOGY_EPOCH", TU64); ("FENCE_COUNT", TU32); ("REQUIRED_FENCE_COUNT", TU32)])].
