(* ===== verification/GpuVirtgpuSchema.v ===== *)
(** The schema of the virtgpu command set, as protocol/generated/include/kobox2/gpu_drm_virtgpu_layout.h
    defines it: a definition per record and per command, and the catalogs that the other
    files do not use; the types of the fields are those of protocol/schema/gpu_drm_virtgpu.json. *)

From Stdlib Require Import ZArith String.
From stdpp Require Import base strings list.
From S2P Require Import GpuDrmLayout GpuDrmSchema.

Open Scope string_scope.
Open Scope list_scope.
Open Scope Z_scope.

(** * Records *)

Definition virtgpu_record_MAP_REQUEST : record_schema :=
  mkRecordSchema 101 8 [("HANDLE", 0); ("MAPPING_RIGHTS", 4)].

Definition virtgpu_record_MAPPING_RESULT : record_schema :=
  mkRecordSchema 102 24 [("MAPPING_ID", 0); ("LENGTH", 8); ("CACHE_POLICY", 16); ("RESERVED", 20)].

Definition virtgpu_record_EXECBUFFER_REQUEST : record_schema :=
  mkRecordSchema 103 24 [("FLAGS", 0); ("RING_INDEX", 4); ("COMMAND_BYTES", 8); ("BO_HANDLE_COUNT", 12); ("INPUT_SYNCOBJ_COUNT", 16);
    ("OUTPUT_SYNCOBJ_COUNT", 20)].

Definition virtgpu_record_BYTE : record_schema :=
  mkRecordSchema 104 1 [("VALUE", 0)].

Definition virtgpu_record_HANDLE_U32 : record_schema :=
  mkRecordSchema 105 4 [("HANDLE", 0)].

Definition virtgpu_record_EXEC_SYNCOBJ : record_schema :=
  mkRecordSchema 106 16 [("HANDLE", 0); ("FLAGS", 4); ("POINT", 8)].

Definition virtgpu_record_EXECBUFFER_RESULT : record_schema :=
  mkRecordSchema 107 8 [("FLAGS", 0); ("RESERVED", 4)].

Definition virtgpu_record_GETPARAM_REQUEST : record_schema :=
  mkRecordSchema 108 8 [("PARAMETER", 0)].

Definition virtgpu_record_SCALAR_U64 : record_schema :=
  mkRecordSchema 109 8 [("VALUE", 0)].

Definition virtgpu_record_RESOURCE_CREATE_REQUEST : record_schema :=
  mkRecordSchema 110 56 [("TARGET", 0); ("FORMAT", 4); ("BIND", 8); ("WIDTH", 12); ("HEIGHT", 16); ("DEPTH", 20); ("ARRAY_SIZE", 24);
    ("LAST_LEVEL", 28); ("SAMPLE_COUNT", 32); ("FLAGS", 36); ("BACKING_HANDLE", 40); ("REQUESTED_SIZE", 44);
    ("REQUESTED_STRIDE", 48); ("RESERVED", 52)].

Definition virtgpu_record_RESOURCE_CREATE_RESULT : record_schema :=
  mkRecordSchema 111 16 [("BO_HANDLE", 0); ("RESOURCE_HANDLE", 4); ("SIZE", 8); ("STRIDE", 12)].

Definition virtgpu_record_RESOURCE_INFO_REQUEST : record_schema :=
  mkRecordSchema 112 8 [("BO_HANDLE", 0); ("RESERVED", 4)].

Definition virtgpu_record_RESOURCE_INFO_RESULT : record_schema :=
  mkRecordSchema 113 16 [("RESOURCE_HANDLE", 0); ("SIZE", 4); ("BLOB_MEMORY", 8); ("RESERVED", 12)].

Definition virtgpu_record_TRANSFER_REQUEST : record_schema :=
  mkRecordSchema 114 44 [("BO_HANDLE", 0); ("X", 4); ("Y", 8); ("Z", 12); ("WIDTH", 16); ("HEIGHT", 20); ("DEPTH", 24); ("LEVEL", 28);
    ("OFFSET", 32); ("STRIDE", 36); ("LAYER_STRIDE", 40)].

Definition virtgpu_record_WAIT_REQUEST : record_schema :=
  mkRecordSchema 115 8 [("HANDLE", 0); ("FLAGS", 4)].

Definition virtgpu_record_GET_CAPS_REQUEST : record_schema :=
  mkRecordSchema 116 16 [("CAPSET_ID", 0); ("CAPSET_VERSION", 4); ("RESPONSE_CAPACITY", 8); ("RESERVED", 12)].

Definition virtgpu_record_GET_CAPS_RESULT : record_schema :=
  mkRecordSchema 117 8 [("RESPONSE_BYTES", 0); ("REQUIRED_BYTES", 4)].

Definition virtgpu_record_RESOURCE_CREATE_BLOB_REQUEST : record_schema :=
  mkRecordSchema 118 32 [("BLOB_MEMORY", 0); ("BLOB_FLAGS", 4); ("SIZE", 8); ("COMMAND_BYTES", 16); ("RESERVED", 20); ("BLOB_ID", 24)].

Definition virtgpu_record_RESOURCE_CREATE_BLOB_RESULT : record_schema :=
  mkRecordSchema 119 8 [("BO_HANDLE", 0); ("RESOURCE_HANDLE", 4)].

Definition virtgpu_record_CONTEXT_INIT_REQUEST : record_schema :=
  mkRecordSchema 120 24 [("PARAMETER_MASK", 0); ("CAPSET_ID", 4); ("RING_COUNT", 8); ("DEBUG_NAME_BYTES", 12); ("POLL_RING_MASK", 16)].

Definition virtgpu_records : list record_schema :=
  [virtgpu_record_MAP_REQUEST; virtgpu_record_MAPPING_RESULT; virtgpu_record_EXECBUFFER_REQUEST; virtgpu_record_BYTE;
   virtgpu_record_HANDLE_U32; virtgpu_record_EXEC_SYNCOBJ; virtgpu_record_EXECBUFFER_RESULT;
   virtgpu_record_GETPARAM_REQUEST; virtgpu_record_SCALAR_U64; virtgpu_record_RESOURCE_CREATE_REQUEST;
   virtgpu_record_RESOURCE_CREATE_RESULT; virtgpu_record_RESOURCE_INFO_REQUEST; virtgpu_record_RESOURCE_INFO_RESULT;
   virtgpu_record_TRANSFER_REQUEST; virtgpu_record_WAIT_REQUEST; virtgpu_record_GET_CAPS_REQUEST;
   virtgpu_record_GET_CAPS_RESULT; virtgpu_record_RESOURCE_CREATE_BLOB_REQUEST;
   virtgpu_record_RESOURCE_CREATE_BLOB_RESULT; virtgpu_record_CONTEXT_INIT_REQUEST].

(** * Commands *)

Definition virtgpu_command_MAP : command_schema :=
  mkCommandSchema 1 (Some 1) 1
    (mkSideSchema 101 0 0 [] [])
    (mkSideSchema 102 0 1 [] [mkAttachmentSchema 2 1 2 0 [1]]).

Definition virtgpu_command_EXECBUFFER : command_schema :=
  mkCommandSchema 2 (Some 2) 1
    (mkSideSchema 103 4 1 [mkSpanSchema 2 1 1 1 16777216 0 None [104]; mkSpanSchema 3 2 1 0 65536 0 None [105];
      mkSpanSchema 4 3 1 0 65536 0 None [106]; mkSpanSchema 5 4 1 0 65536 0 None [106]] [mkAttachmentSchema 6 1 2 1 [3]])
    (mkSideSchema 107 0 1 [] [mkAttachmentSchema 2 1 3 1 [3]]).

Definition virtgpu_command_GETPARAM : command_schema :=
  mkCommandSchema 3 (Some 3) 1
    (mkSideSchema 108 0 0 [] [])
    (mkSideSchema 109 0 0 [] []).

Definition virtgpu_command_RESOURCE_CREATE : command_schema :=
  mkCommandSchema 4 (Some 4) 1
    (mkSideSchema 110 0 0 [] [])
    (mkSideSchema 111 0 0 [] []).

Definition virtgpu_command_RESOURCE_INFO : command_schema :=
  mkCommandSchema 5 (Some 5) 1
    (mkSideSchema 112 0 0 [] [])
    (mkSideSchema 113 0 0 [] []).

Definition virtgpu_command_TRANSFER_FROM_HOST_3D : command_schema :=
  mkCommandSchema 6 (Some 6) 1
    (mkSideSchema 114 0 0 [] [])
    (mkSideSchema 0 0 0 [] []).

Definition virtgpu_command_TRANSFER_TO_HOST_3D : command_schema :=
  mkCommandSchema 7 (Some 7) 1
    (mkSideSchema 114 0 0 [] [])
    (mkSideSchema 0 0 0 [] []).

Definition virtgpu_command_WAIT : command_schema :=
  mkCommandSchema 8 (Some 8) 1
    (mkSideSchema 115 0 0 [] [])
    (mkSideSchema 0 0 0 [] []).

Definition virtgpu_command_GET_CAPS : command_schema :=
  mkCommandSchema 9 (Some 9) 1
    (mkSideSchema 116 1 0 [mkSpanSchema 2 1 2 0 1048576 0 None [104]] [])
    (mkSideSchema 117 0 0 [] []).

Definition virtgpu_command_RESOURCE_CREATE_BLOB : command_schema :=
  mkCommandSchema 10 (Some 10) 1
    (mkSideSchema 118 1 0 [mkSpanSchema 2 1 1 0 16777216 0 None [104]] [])
    (mkSideSchema 119 0 0 [] []).

Definition virtgpu_command_CONTEXT_INIT : command_schema :=
  mkCommandSchema 11 (Some 11) 1
    (mkSideSchema 120 1 0 [mkSpanSchema 2 1 1 0 64 0 None [104]] [])
    (mkSideSchema 0 0 0 [] []).

Definition virtgpu_commands : list command_schema :=
  [virtgpu_command_MAP; virtgpu_command_EXECBUFFER; virtgpu_command_GETPARAM; virtgpu_command_RESOURCE_CREATE;
   virtgpu_command_RESOURCE_INFO; virtgpu_command_TRANSFER_FROM_HOST_3D; virtgpu_command_TRANSFER_TO_HOST_3D;
   virtgpu_command_WAIT; virtgpu_command_GET_CAPS; virtgpu_command_RESOURCE_CREATE_BLOB; virtgpu_command_CONTEXT_INIT].

(** * Catalogs *)

Definition KB2_GPU_DRM_VIRTGPU_RECORD_CATALOG {T} (X : Z -> Z -> T) : list T :=
  [X 101 8; X 102 24; X 103 24; X 104 1; X 105 4; X 106 16; X 107 8; X 108 8; X 109 8; X 110 56; X 111 16; X 112 8;
   X 113 16; X 114 44; X 115 8; X 116 16; X 117 8; X 118 32; X 119 8; X 120 24].

Definition KB2_GPU_DRM_VIRTGPU_REQUEST_INLINE_CATALOG {T} (X : Z -> Z -> T) : list T :=
  [X 101 8; X 103 24; X 108 8; X 110 56; X 112 8; X 114 44; X 114 44; X 115 8; X 116 16; X 118 32; X 120 24].

Definition KB2_GPU_DRM_VIRTGPU_COMPLETION_INLINE_CATALOG {T} (X : Z -> Z -> T) : list T :=
  [X 102 24; X 107 8; X 109 8; X 111 16; X 113 16; X 0 0; X 0 0; X 0 0; X 117 8; X 119 8; X 0 0].

Definition KB2_GPU_DRM_VIRTGPU_COMPLETION_CONTRACT_CATALOG {T} (X : Z -> Z -> Z -> Z -> Z -> T) : list T :=
  [X 1 102 24 0 1; X 2 107 8 0 1; X 3 109 8 0 0; X 4 111 16 0 0; X 5 113 16 0 0; X 6 0 0 0 0; X 7 0 0 0 0;
   X 8 0 0 0 0; X 9 117 8 0 0; X 10 119 8 0 0; X 11 0 0 0 0].

Definition KB2_GPU_DRM_VIRTGPU_COMPLETION_ATTACHMENT_CATALOG {T} (X : Z -> Z -> Z -> Z -> Z -> Z -> T) : list T :=
  [X 1 2 1 2 0 1; X 2 2 1 3 1 3].

Definition virtgpu_catalogs : catalogs :=
  mkCatalogs (KB2_GPU_DRM_VIRTGPU_RECORD_CATALOG row2) (KB2_GPU_DRM_VIRTGPU_REQUEST_INLINE_CATALOG row2)
    (KB2_GPU_DRM_VIRTGPU_REQUEST_CONTRACT_CATALOG row5) (KB2_GPU_DRM_VIRTGPU_REQUEST_SPAN_CATALOG row7)
    (KB2_GPU_DRM_VIRTGPU_REQUEST_ATTACHMENT_CATALOG row6) (KB2_GPU_DRM_VIRTGPU_COMPLETION_INLINE_CATALOG row2)
    (KB2_GPU_DRM_VIRTGPU_COMPLETION_CONTRACT_CATALOG row5) (KB2_GPU_DRM_VIRTGPU_COMPLETION_ATTACHMENT_CATALOG row6).

Definition virtgpu_schema : schema :=
  mkSchema 11 20 virtgpu_records virtgpu_commands.

(** * Types

    The types of the fields of each record, as protocol/schema/gpu_drm_virtgpu.json has them. *)

Definition virtgpu_types : type_table :=
 [(101, [("HANDLE", TU32); ("MAPPING_RIGHTS", TU32)]);
  (102, [("MAPPING_ID", TU64); ("LENGTH", TU64); ("CACHE_POLICY", TU32); ("RESERVED", TU32)]);
  (103, [("FLAGS", TU32); ("RING_INDEX", TU32); ("COMMAND_BYTES", TU32); ("BO_HANDLE_COUNT", TU32);
     ("INPUT_SYNCOBJ_COUNT", TU32); ("OUTPUT_SYNCOBJ_COUNT", TU32)]);
  (104, [("VALUE", TU8)]);
  (105, [("HANDLE", TU32)]);
  (106, [("HANDLE", TU32); ("FLAGS", TU32); ("POINT", TU64)]);
  (107, [("FLAGS", TU32); ("RESERVED", TU32)]);
  (108, [("PARAMETER", TU64)]);
  (109, [("VALUE", TU64)]);
  (110, [("TARGET", TU32); ("FORMAT", TU32); ("BIND", TU32); ("WIDTH", TU32); ("HEIGHT", TU32); ("DEPTH", TU32);
     ("ARRAY_SIZE", TU32); ("LAST_LEVEL", TU32); ("SAMPLE_COUNT", TU32); ("FLAGS", TU32); ("BACKING_HANDLE", TU32);
     ("REQUESTED_SIZE", TU32); ("REQUESTED_STRIDE", TU32); ("RESERVED", TU32)]);
  (111, [("BO_HANDLE", TU32); ("RESOURCE_HANDLE", TU32); ("SIZE", TU32); ("STRIDE", TU32)]);
  (112, [("BO_HANDLE", TU32); ("RESERVED", TU32)]);
  (113, [("RESOURCE_HANDLE", TU32); ("SIZE", TU32); ("BLOB_MEMORY", TU32); ("RESERVED", TU32)]);
  (114, [("BO_HANDLE", TU32); ("X", TU32); ("Y", TU32); ("Z", TU32); ("WIDTH", TU32); ("HEIGHT", TU32);
     ("DEPTH", TU32); ("LEVEL", TU32); ("OFFSET", TU32); ("STRIDE", TU32); ("LAYER_STRIDE", TU32)]);
  (115, [("HANDLE", TU32); ("FLAGS", TU32)]);
  (116, [("CAPSET_ID", TU32); ("CAPSET_VERSION", TU32); ("RESPONSE_CAPACITY", TU32); ("RESERVED", TU32)]);
  (117, [("RESPONSE_BYTES", TU32); ("REQUIRED_BYTES", TU32)]);
  (118, [("BLOB_MEMORY", TU32); ("BLOB_FLAGS", TU32); ("SIZE", TU64); ("COMMAND_BYTES", TU32); ("RESERVED", TU32);
     ("BLOB_ID", TU64)]);
  (119, [("BO_HANDLE", TU32); ("RESOURCE_HANDLE", TU32)]);
  (120, [("PARAMETER_MASK", TU32); ("CAPSET_ID", TU32); ("RING_COUNT", TU32); ("DEBUG_NAME_BYTES", TU32);
     ("POLL_RING_MASK", TU64)])].
