(* ===== verification/GpuAmdgpuSchema.v ===== *)
(** The schema of the amdgpu command set, as protocol/generated/include/kobox2/gpu_drm_amdgpu_layout.h
    defines it: a definition per record and per command, and the catalogs that the other
    files do not use; the types of the fields are those of protocol/schema/gpu_drm_amdgpu.json. *)

From Stdlib Require Import ZArith String.
From stdpp Require Import base strings list.
From S2P Require Import GpuDrmLayout GpuDrmSchema.

Open Scope string_scope.
Open Scope list_scope.
Open Scope Z_scope.

(** * Records *)

Definition amdgpu_record_GEM_CREATE_REQUEST : record_schema :=
  mkRecordSchema 101 32 [("BO_SIZE", 0); ("ALIGNMENT", 8); ("DOMAINS", 16); ("DOMAIN_FLAGS", 24)].

Definition amdgpu_record_GEM_HANDLE_RESULT : record_schema :=
  mkRecordSchema 102 8 [("HANDLE", 0); ("RESERVED", 4)].

Definition amdgpu_record_GEM_MMAP_REQUEST : record_schema :=
  mkRecordSchema 103 8 [("HANDLE", 0); ("MAPPING_RIGHTS", 4)].

Definition amdgpu_record_GEM_MMAP_RESULT : record_schema :=
  mkRecordSchema 104 24 [("MAPPING_ID", 0); ("LENGTH", 8); ("CACHE_POLICY", 16); ("RESERVED", 20)].

Definition amdgpu_record_CONTEXT_REQUEST : record_schema :=
  mkRecordSchema 105 16 [("OPERATION", 0); ("FLAGS", 4); ("CONTEXT_ID", 8); ("PRIORITY", 12)].

Definition amdgpu_record_CONTEXT_RESULT : record_schema :=
  mkRecordSchema 106 32 [("RESULT_KIND", 0); ("CONTEXT_ID", 4); ("FLAGS", 8); ("HANGS", 16); ("RESET_STATUS", 20); ("STABLE_PSTATE", 24);
    ("RESERVED", 28)].

Definition amdgpu_record_BO_LIST_REQUEST : record_schema :=
  mkRecordSchema 107 16 [("OPERATION", 0); ("LIST_HANDLE", 4); ("ENTRY_COUNT", 8); ("RESERVED", 12)].

Definition amdgpu_record_BO_LIST_ENTRY : record_schema :=
  mkRecordSchema 108 8 [("BO_HANDLE", 0); ("PRIORITY", 4)].

Definition amdgpu_record_BO_LIST_RESULT : record_schema :=
  mkRecordSchema 109 8 [("LIST_HANDLE", 0); ("RESERVED", 4)].

Definition amdgpu_record_CS_REQUEST : record_schema :=
  mkRecordSchema 110 16 [("CONTEXT_ID", 0); ("BO_LIST_HANDLE", 4); ("CHUNK_COUNT", 8); ("FLAGS", 12)].

Definition amdgpu_record_CS_CHUNK_IB : record_schema :=
  mkRecordSchema 111 32 [("FLAGS", 0); ("IP_TYPE", 4); ("IP_INSTANCE", 8); ("RING", 12); ("VA_START", 16); ("IB_BYTES", 24);
    ("RESERVED", 28)].

Definition amdgpu_record_CS_CHUNK_USER_FENCE : record_schema :=
  mkRecordSchema 112 8 [("BO_HANDLE", 0); ("OFFSET", 4)].

Definition amdgpu_record_CS_CHUNK_DEPENDENCY : record_schema :=
  mkRecordSchema 113 24 [("IP_TYPE", 0); ("IP_INSTANCE", 4); ("RING", 8); ("CONTEXT_ID", 12); ("SEQUENCE", 16)].

Definition amdgpu_record_CS_CHUNK_SYNCOBJ_IN : record_schema :=
  mkRecordSchema 114 4 [("HANDLE", 0)].

Definition amdgpu_record_CS_CHUNK_SYNCOBJ_OUT : record_schema :=
  mkRecordSchema 115 4 [("HANDLE", 0)].

Definition amdgpu_record_CS_CHUNK_BO_HANDLE : record_schema :=
  mkRecordSchema 116 8 [("BO_HANDLE", 0); ("PRIORITY", 4)].

Definition amdgpu_record_CS_CHUNK_SCHEDULED_DEPENDENCY : record_schema :=
  mkRecordSchema 117 24 [("IP_TYPE", 0); ("IP_INSTANCE", 4); ("RING", 8); ("CONTEXT_ID", 12); ("SEQUENCE", 16)].

Definition amdgpu_record_CS_CHUNK_TIMELINE_WAIT : record_schema :=
  mkRecordSchema 118 16 [("HANDLE", 0); ("FLAGS", 4); ("POINT", 8)].

Definition amdgpu_record_CS_CHUNK_TIMELINE_SIGNAL : record_schema :=
  mkRecordSchema 119 16 [("HANDLE", 0); ("FLAGS", 4); ("POINT", 8)].

Definition amdgpu_record_CS_CHUNK_GFX_SHADOW : record_schema :=
  mkRecordSchema 120 32 [("SHADOW_VA", 0); ("CSA_VA", 8); ("GDS_VA", 16); ("FLAGS", 24)].

Definition amdgpu_record_CS_RESULT : record_schema :=
  mkRecordSchema 121 8 [("SUBMISSION_HANDLE", 0)].

Definition amdgpu_record_INFO_REQUEST : record_schema :=
  mkRecordSchema 122 32 [("QUERY", 0); ("RESPONSE_RECORD_ID", 4); ("RESPONSE_CAPACITY", 8); ("FLAGS", 12); ("SELECTOR", 16)].

Definition amdgpu_record_INFO_RESULT : record_schema :=
  mkRecordSchema 123 16 [("RESPONSE_RECORD_ID", 0); ("RESPONSE_COUNT", 4); ("RESPONSE_BYTES", 8); ("REQUIRED_COUNT", 12)].

Definition amdgpu_record_SCALAR_U32 : record_schema :=
  mkRecordSchema 124 4 [("VALUE", 0)].

Definition amdgpu_record_SCALAR_U64 : record_schema :=
  mkRecordSchema 125 8 [("VALUE", 0)].

Definition amdgpu_record_BYTE : record_schema :=
  mkRecordSchema 126 1 [("VALUE", 0)].

Definition amdgpu_record_INFO_GDS : record_schema :=
  mkRecordSchema 127 32 [("GDS_GFX_PARTITION_SIZE", 0); ("COMPUTE_PARTITION_SIZE", 4); ("GDS_TOTAL_SIZE", 8);
    ("GWS_PER_GFX_PARTITION", 12); ("GWS_PER_COMPUTE_PARTITION", 16); ("OA_PER_GFX_PARTITION", 20);
    ("OA_PER_COMPUTE_PARTITION", 24); ("RESERVED", 28)].

Definition amdgpu_record_INFO_VRAM_GTT : record_schema :=
  mkRecordSchema 128 24 [("VRAM_SIZE", 0); ("VRAM_CPU_ACCESSIBLE_SIZE", 8); ("GTT_SIZE", 16)].

Definition amdgpu_record_INFO_MEMORY : record_schema :=
  mkRecordSchema 129 96 [("VRAM", 0); ("CPU_ACCESSIBLE_VRAM", 32); ("GTT", 64)].

Definition amdgpu_record_INFO_FIRMWARE : record_schema :=
  mkRecordSchema 130 8 [("VERSION", 0); ("FEATURE", 4)].

Definition amdgpu_record_INFO_VBIOS : record_schema :=
  mkRecordSchema 131 200 [("NAME", 0); ("PART_NUMBER", 64); ("VERSION", 128); ("RESERVED", 132); ("VERSION_STRING", 136); ("DATE", 168)].

Definition amdgpu_record_INFO_HW_IP : record_schema :=
  mkRecordSchema 132 36 [("VERSION_MAJOR", 0); ("VERSION_MINOR", 4); ("CAPABILITIES", 8); ("IB_START_ALIGNMENT", 16);
    ("IB_SIZE_ALIGNMENT", 20); ("AVAILABLE_RINGS", 24); ("IP_DISCOVERY_VERSION", 28); ("USERQ_NUM_SLOTS", 32)].

Definition amdgpu_record_INFO_DEVICE : record_schema :=
  mkRecordSchema 133 436 [("DEVICE_ID", 0); ("CHIP_REV", 4); ("EXTERNAL_REV", 8); ("PCI_REV", 12); ("FAMILY", 16);
    ("NUM_SHADER_ENGINES", 20); ("NUM_SHADER_ARRAYS_PER_ENGINE", 24); ("GPU_COUNTER_FREQUENCY", 28);
    ("MAX_ENGINE_CLOCK", 32); ("MAX_MEMORY_CLOCK", 40); ("CU_ACTIVE_NUMBER", 48); ("CU_ALWAYS_ON_MASK", 52);
    ("CU_BITMAP", 56); ("ENABLED_RB_PIPES_MASK", 120); ("NUM_RB_PIPES", 124); ("NUM_HW_GFX_CONTEXTS", 128);
    ("PCIE_GENERATION", 132); ("IDS_FLAGS", 136); ("VIRTUAL_ADDRESS_OFFSET", 144); ("VIRTUAL_ADDRESS_MAX", 152);
    ("VIRTUAL_ADDRESS_ALIGNMENT", 160); ("PTE_FRAGMENT_SIZE", 164); ("GART_PAGE_SIZE", 168); ("CE_RAM_SIZE", 172);
    ("VRAM_TYPE", 176); ("VRAM_BIT_WIDTH", 180); ("VCE_HARVEST_CONFIG", 184); ("GC_DOUBLE_OFFCHIP_LDS_BUF", 188);
    ("PRIM_BUF_GPU_ADDR", 192); ("POS_BUF_GPU_ADDR", 200); ("CONTROL_SIDEBAND_GPU_ADDR", 208);
    ("PARAMETER_CACHE_GPU_ADDR", 216); ("PRIM_BUF_SIZE", 224); ("POS_BUF_SIZE", 228); ("CONTROL_SIDEBAND_SIZE", 232);
    ("PARAMETER_CACHE_SIZE", 236); ("WAVEFRONT_SIZE", 240); ("NUM_SHADER_VISIBLE_VGPRS", 244);
    ("NUM_CU_PER_SHADER_ARRAY", 248); ("NUM_TCC_BLOCKS", 252); ("GS_VGT_TABLE_DEPTH", 256);
    ("GS_PRIM_BUFFER_DEPTH", 260); ("MAX_GS_WAVES_PER_VGT", 264); ("PCIE_NUM_LANES", 268);
    ("CU_ALWAYS_ON_BITMAP", 272); ("HIGH_VA_OFFSET", 336); ("HIGH_VA_MAX", 344);
    ("PA_SC_TILE_STEERING_OVERRIDE", 352); ("TCC_DISABLED_MASK", 356); ("MIN_ENGINE_CLOCK", 364);
    ("MIN_MEMORY_CLOCK", 372); ("TCP_CACHE_SIZE", 380); ("NUM_SQC_PER_WGP", 384); ("SQC_DATA_CACHE_SIZE", 388);
    ("SQC_INSTRUCTION_CACHE_SIZE", 392); ("GL1_CACHE_SIZE", 396); ("GL2_CACHE_SIZE", 400); ("MALL_SIZE", 404);
    ("ENABLED_RB_PIPES_MASK_HIGH", 412); ("SHADOW_SIZE", 416); ("SHADOW_ALIGNMENT", 420); ("CSA_SIZE", 424);
    ("CSA_ALIGNMENT", 428); ("USERQ_IP_MASK", 432)].

Definition amdgpu_record_INFO_NUM_HANDLES : record_schema :=
  mkRecordSchema 134 8 [("MAXIMUM", 0); ("USED", 4)].

Definition amdgpu_record_INFO_VCE_CLOCK_ENTRY : record_schema :=
  mkRecordSchema 135 16 [("SYSTEM_CLOCK", 0); ("MEMORY_CLOCK", 4); ("VCE_CLOCK", 8); ("RESERVED", 12)].

Definition amdgpu_record_INFO_VIDEO_CAPS : record_schema :=
  mkRecordSchema 136 192 [("CODEC_INFO", 0)].

Definition amdgpu_record_INFO_GPUVM_FAULT : record_schema :=
  mkRecordSchema 137 16 [("ADDRESS", 0); ("STATUS", 8); ("VMHUB", 12)].

Definition amdgpu_record_INFO_USERQ_METADATA : record_schema :=
  mkRecordSchema 138 16 [("SHADOW_SIZE", 0); ("SHADOW_ALIGNMENT", 4); ("CSA_SIZE", 8); ("CSA_ALIGNMENT", 12)].

Definition amdgpu_record_GEM_METADATA_REQUEST : record_schema :=
  mkRecordSchema 139 288 [("HANDLE", 0); ("OPERATION", 4); ("FLAGS", 8); ("TILING_INFO", 16); ("DATA_SIZE", 24); ("RESERVED", 28);
    ("DATA", 32)].

Definition amdgpu_record_GEM_METADATA_RESULT : record_schema :=
  mkRecordSchema 140 280 [("FLAGS", 0); ("TILING_INFO", 8); ("DATA_SIZE", 16); ("RESERVED", 20); ("DATA", 24)].

Definition amdgpu_record_GEM_WAIT_IDLE_REQUEST : record_schema :=
  mkRecordSchema 141 8 [("HANDLE", 0); ("FLAGS", 4)].

Definition amdgpu_record_GEM_WAIT_IDLE_RESULT : record_schema :=
  mkRecordSchema 142 8 [("BUSY", 0); ("DOMAIN", 4)].

Definition amdgpu_record_GEM_VA_REQUEST : record_schema :=
  mkRecordSchema 143 56 [("HANDLE", 0); ("OPERATION", 4); ("FLAGS", 8); ("INPUT_SYNCOBJ_COUNT", 12); ("VA_ADDRESS", 16);
    ("OFFSET_IN_BO", 24); ("MAP_SIZE", 32); ("TIMELINE_POINT", 40); ("TIMELINE_SYNCOBJ_OUT", 48); ("RESERVED", 52)].

Definition amdgpu_record_WAIT_CS_REQUEST : record_schema :=
  mkRecordSchema 144 24 [("SUBMISSION_HANDLE", 0); ("IP_TYPE", 8); ("IP_INSTANCE", 12); ("RING", 16); ("CONTEXT_ID", 20)].

Definition amdgpu_record_WAIT_STATUS_RESULT : record_schema :=
  mkRecordSchema 145 8 [("BUSY", 0); ("RESERVED", 4)].

Definition amdgpu_record_GEM_OP_REQUEST : record_schema :=
  mkRecordSchema 146 24 [("HANDLE", 0); ("OPERATION", 4); ("VALUE", 8); ("MAPPING_CAPACITY", 16); ("RESERVED", 20)].

Definition amdgpu_record_GEM_CREATE_INFO : record_schema :=
  mkRecordSchema 147 32 [("BO_SIZE", 0); ("ALIGNMENT", 8); ("DOMAINS", 16); ("DOMAIN_FLAGS", 24)].

Definition amdgpu_record_GEM_VM_ENTRY : record_schema :=
  mkRecordSchema 148 32 [("ADDRESS", 0); ("SIZE", 8); ("OFFSET", 16); ("FLAGS", 24)].

Definition amdgpu_record_GEM_OP_RESULT : record_schema :=
  mkRecordSchema 149 16 [("RESULT_RECORD_ID", 0); ("RESULT_COUNT", 4); ("REQUIRED_COUNT", 8); ("RESERVED", 12)].

Definition amdgpu_record_GEM_USERPTR_REQUEST : record_schema :=
  mkRecordSchema 150 24 [("ATTACHMENT_OFFSET", 0); ("SIZE", 8); ("FLAGS", 16); ("RESERVED", 20)].

Definition amdgpu_record_FENCE : record_schema :=
  mkRecordSchema 151 24 [("CONTEXT_ID", 0); ("IP_TYPE", 4); ("IP_INSTANCE", 8); ("RING", 12); ("SEQUENCE", 16)].

Definition amdgpu_record_WAIT_FENCES_REQUEST : record_schema :=
  mkRecordSchema 152 8 [("FENCE_COUNT", 0); ("WAIT_ALL", 4)].

Definition amdgpu_record_WAIT_FENCES_RESULT : record_schema :=
  mkRecordSchema 153 8 [("SIGNALED", 0); ("FIRST_SIGNALED", 4)].

Definition amdgpu_record_VM_REQUEST : record_schema :=
  mkRecordSchema 154 8 [("OPERATION", 0); ("FLAGS", 4)].

Definition amdgpu_record_VM_RESULT : record_schema :=
  mkRecordSchema 155 8 [("FLAGS", 0)].

Definition amdgpu_record_FENCE_TO_HANDLE_REQUEST : record_schema :=
  mkRecordSchema 156 32 [("CONTEXT_ID", 0); ("IP_TYPE", 4); ("IP_INSTANCE", 8); ("RING", 12); ("SEQUENCE", 16); ("OUTPUT_KIND", 24);
    ("RESERVED", 28)].

Definition amdgpu_record_FENCE_TO_HANDLE_RESULT : record_schema :=
  mkRecordSchema 157 8 [("OUTPUT_KIND", 0); ("SYNCOBJ_HANDLE", 4)].

Definition amdgpu_record_SCHED_REQUEST : record_schema :=
  mkRecordSchema 158 16 [("OPERATION", 0); ("PRIORITY", 4); ("CONTEXT_ID", 8); ("RESERVED", 12)].

Definition amdgpu_record_USERQ_REQUEST : record_schema :=
  mkRecordSchema 159 64 [("OPERATION", 0); ("QUEUE_ID", 4); ("IP_TYPE", 8); ("DOORBELL_HANDLE", 12); ("DOORBELL_OFFSET", 16);
    ("FLAGS", 20); ("QUEUE_VA", 24); ("QUEUE_SIZE", 32); ("READ_POINTER_VA", 40); ("WRITE_POINTER_VA", 48);
    ("MQD_RECORD_ID", 56); ("MQD_SIZE", 60)].

Definition amdgpu_record_USERQ_RESULT : record_schema :=
  mkRecordSchema 160 8 [("QUEUE_ID", 0); ("RESERVED", 4)].

Definition amdgpu_record_USERQ_MQD_GFX11 : record_schema :=
  mkRecordSchema 161 16 [("SHADOW_VA", 0); ("CSA_VA", 8)].

Definition amdgpu_record_USERQ_MQD_SDMA_GFX11 : record_schema :=
  mkRecordSchema 162 8 [("CSA_VA", 0)].

Definition amdgpu_record_USERQ_MQD_COMPUTE_GFX11 : record_schema :=
  mkRecordSchema 163 8 [("EOP_VA", 0)].

Definition amdgpu_record_USERQ_SIGNAL_REQUEST : record_schema :=
  mkRecordSchema 164 16 [("QUEUE_ID", 0); ("SYNCOBJ_COUNT", 4); ("READ_BO_COUNT", 8); ("WRITE_BO_COUNT", 12)].

Definition amdgpu_record_HANDLE_U32 : record_schema :=
  mkRecordSchema 165 4 [("HANDLE", 0)].

Definition amdgpu_record_TIMELINE_SYNCOBJ : record_schema :=
  mkRecordSchema 166 16 [("HANDLE", 0); ("FLAGS", 4); ("POINT", 8)].

Definition amdgpu_record_USERQ_WAIT_REQUEST : record_schema :=
  mkRecordSchema 167 24 [("WAIT_QUEUE_ID", 0); ("SYNCOBJ_COUNT", 4); ("TIMELINE_SYNCOBJ_COUNT", 8); ("READ_BO_COUNT", 12);
    ("WRITE_BO_COUNT", 16); ("OUTPUT_CAPACITY", 20)].

Definition amdgpu_record_USERQ_FENCE_INFO : record_schema :=
  mkRecordSchema 168 16 [("GPU_VA", 0); ("VALUE", 8)].

Definition amdgpu_record_USERQ_WAIT_RESULT : record_schema :=
  mkRecordSchema 169 8 [("FENCE_COUNT", 0); ("REQUIRED_COUNT", 4)].

Definition amdgpu_record_GEM_LIST_HANDLES_REQUEST : record_schema :=
  mkRecordSchema 170 8 [("ENTRY_CAPACITY", 0); ("RESERVED", 4)].

Definition amdgpu_record_GEM_LIST_HANDLES_ENTRY : record_schema :=
  mkRecordSchema 171 40 [("GEM_HANDLE", 0); ("FLAGS", 4); ("SIZE", 8); ("PREFERRED_DOMAINS", 16); ("ALLOCATION_FLAGS", 24);
    ("ALIGNMENT", 32)].

Definition amdgpu_record_GEM_LIST_HANDLES_RESULT : record_schema :=
  mkRecordSchema 172 8 [("ENTRY_COUNT", 0); ("REQUIRED_COUNT", 4)].

Definition amdgpu_records : list record_schema :=
  [amdgpu_record_GEM_CREATE_REQUEST; amdgpu_record_GEM_HANDLE_RESULT; amdgpu_record_GEM_MMAP_REQUEST;
   amdgpu_record_GEM_MMAP_RESULT; amdgpu_record_CONTEXT_REQUEST; amdgpu_record_CONTEXT_RESULT;
   amdgpu_record_BO_LIST_REQUEST; amdgpu_record_BO_LIST_ENTRY; amdgpu_record_BO_LIST_RESULT; amdgpu_record_CS_REQUEST;
   amdgpu_record_CS_CHUNK_IB; amdgpu_record_CS_CHUNK_USER_FENCE; amdgpu_record_CS_CHUNK_DEPENDENCY;
   amdgpu_record_CS_CHUNK_SYNCOBJ_IN; amdgpu_record_CS_CHUNK_SYNCOBJ_OUT; amdgpu_record_CS_CHUNK_BO_HANDLE;
   amdgpu_record_CS_CHUNK_SCHEDULED_DEPENDENCY; amdgpu_record_CS_CHUNK_TIMELINE_WAIT;
   amdgpu_record_CS_CHUNK_TIMELINE_SIGNAL; amdgpu_record_CS_CHUNK_GFX_SHADOW; amdgpu_record_CS_RESULT;
   amdgpu_record_INFO_REQUEST; amdgpu_record_INFO_RESULT; amdgpu_record_SCALAR_U32; amdgpu_record_SCALAR_U64;
   amdgpu_record_BYTE; amdgpu_record_INFO_GDS; amdgpu_record_INFO_VRAM_GTT; amdgpu_record_INFO_MEMORY;
   amdgpu_record_INFO_FIRMWARE; amdgpu_record_INFO_VBIOS; amdgpu_record_INFO_HW_IP; amdgpu_record_INFO_DEVICE;
   amdgpu_record_INFO_NUM_HANDLES; amdgpu_record_INFO_VCE_CLOCK_ENTRY; amdgpu_record_INFO_VIDEO_CAPS;
   amdgpu_record_INFO_GPUVM_FAULT; amdgpu_record_INFO_USERQ_METADATA; amdgpu_record_GEM_METADATA_REQUEST;
   amdgpu_record_GEM_METADATA_RESULT; amdgpu_record_GEM_WAIT_IDLE_REQUEST; amdgpu_record_GEM_WAIT_IDLE_RESULT;
   amdgpu_record_GEM_VA_REQUEST; amdgpu_record_WAIT_CS_REQUEST; amdgpu_record_WAIT_STATUS_RESULT;
   amdgpu_record_GEM_OP_REQUEST; amdgpu_record_GEM_CREATE_INFO; amdgpu_record_GEM_VM_ENTRY;
   amdgpu_record_GEM_OP_RESULT; amdgpu_record_GEM_USERPTR_REQUEST; amdgpu_record_FENCE;
   amdgpu_record_WAIT_FENCES_REQUEST; amdgpu_record_WAIT_FENCES_RESULT; amdgpu_record_VM_REQUEST;
   amdgpu_record_VM_RESULT; amdgpu_record_FENCE_TO_HANDLE_REQUEST; amdgpu_record_FENCE_TO_HANDLE_RESULT;
   amdgpu_record_SCHED_REQUEST; amdgpu_record_USERQ_REQUEST; amdgpu_record_USERQ_RESULT;
   amdgpu_record_USERQ_MQD_GFX11; amdgpu_record_USERQ_MQD_SDMA_GFX11; amdgpu_record_USERQ_MQD_COMPUTE_GFX11;
   amdgpu_record_USERQ_SIGNAL_REQUEST; amdgpu_record_HANDLE_U32; amdgpu_record_TIMELINE_SYNCOBJ;
   amdgpu_record_USERQ_WAIT_REQUEST; amdgpu_record_USERQ_FENCE_INFO; amdgpu_record_USERQ_WAIT_RESULT;
   amdgpu_record_GEM_LIST_HANDLES_REQUEST; amdgpu_record_GEM_LIST_HANDLES_ENTRY; amdgpu_record_GEM_LIST_HANDLES_RESULT].

(** * Commands *)

Definition amdgpu_command_GEM_CREATE : command_schema :=
  mkCommandSchema 1 (Some 0) 1
    (mkSideSchema 101 0 0 [] [])
    (mkSideSchema 102 0 0 [] []).

Definition amdgpu_command_GEM_MMAP : command_schema :=
  mkCommandSchema 2 (Some 1) 1
    (mkSideSchema 103 0 0 [] [])
    (mkSideSchema 104 0 1 [] [mkAttachmentSchema 2 1 2 0 [1]]).

Definition amdgpu_command_CONTEXT : command_schema :=
  mkCommandSchema 3 (Some 2) 1
    (mkSideSchema 105 0 0 [] [])
    (mkSideSchema 106 0 0 [] []).

Definition amdgpu_command_BO_LIST : command_schema :=
  mkCommandSchema 4 (Some 3) 1
    (mkSideSchema 107 1 0 [mkSpanSchema 2 1 1 0 65536 0 None [108]] [])
    (mkSideSchema 109 0 0 [] []).

Definition amdgpu_command_CS : command_schema :=
  mkCommandSchema 5 (Some 4) 1
    (mkSideSchema 110 1 0 [mkSpanSchema 2 1 1 1 64 1 (Some (1, 65536)) [111; 112; 113; 114; 115; 116; 117; 118; 119; 120]] [])
    (mkSideSchema 121 0 0 [] []).

Definition amdgpu_command_INFO : command_schema :=
  mkCommandSchema 6 (Some 5) 1
    (mkSideSchema 122 1 0 [mkSpanSchema 2 1 2 1 1048576 0 None [124; 125; 126; 127; 128; 129; 130; 131; 132; 133; 134; 135; 136; 137; 138]] [])
    (mkSideSchema 123 0 0 [] []).

Definition amdgpu_command_GEM_METADATA : command_schema :=
  mkCommandSchema 7 (Some 6) 1
    (mkSideSchema 139 0 0 [] [])
    (mkSideSchema 140 0 0 [] []).

Definition amdgpu_command_GEM_WAIT_IDLE : command_schema :=
  mkCommandSchema 8 (Some 7) 1
    (mkSideSchema 141 0 0 [] [])
    (mkSideSchema 142 0 0 [] []).

Definition amdgpu_command_GEM_VA : command_schema :=
  mkCommandSchema 9 (Some 8) 1
    (mkSideSchema 143 1 0 [mkSpanSchema 2 1 1 0 65536 0 None [165]] [])
    (mkSideSchema 0 0 0 [] []).

Definition amdgpu_command_WAIT_CS : command_schema :=
  mkCommandSchema 10 (Some 9) 1
    (mkSideSchema 144 0 0 [] [])
    (mkSideSchema 145 0 0 [] []).

Definition amdgpu_command_GEM_OP : command_schema :=
  mkCommandSchema 11 (Some 16) 1
    (mkSideSchema 146 1 0 [mkSpanSchema 2 1 2 0 65536 0 None [147; 148]] [])
    (mkSideSchema 149 0 0 [] []).

Definition amdgpu_command_GEM_USERPTR : command_schema :=
  mkCommandSchema 12 (Some 17) 1
    (mkSideSchema 150 0 1 [] [mkAttachmentSchema 2 1 2 0 [1]])
    (mkSideSchema 102 0 0 [] []).

Definition amdgpu_command_WAIT_FENCES : command_schema :=
  mkCommandSchema 13 (Some 18) 1
    (mkSideSchema 152 1 0 [mkSpanSchema 2 1 1 1 65536 0 None [151]] [])
    (mkSideSchema 153 0 0 [] []).

Definition amdgpu_command_VM : command_schema :=
  mkCommandSchema 14 (Some 19) 1
    (mkSideSchema 154 0 0 [] [])
    (mkSideSchema 155 0 0 [] []).

Definition amdgpu_command_FENCE_TO_HANDLE : command_schema :=
  mkCommandSchema 15 (Some 20) 1
    (mkSideSchema 156 0 0 [] [])
    (mkSideSchema 157 0 1 [] [mkAttachmentSchema 2 1 3 1 [6; 3]]).

Definition amdgpu_command_SCHED : command_schema :=
  mkCommandSchema 16 (Some 21) 1
    (mkSideSchema 158 0 1 [] [mkAttachmentSchema 2 1 1 0 [5]])
    (mkSideSchema 0 0 0 [] []).

Definition amdgpu_command_USERQ : command_schema :=
  mkCommandSchema 17 (Some 22) 1
    (mkSideSchema 159 1 0 [mkSpanSchema 2 1 1 0 1 0 None [161; 162; 163]] [])
    (mkSideSchema 160 0 0 [] []).

Definition amdgpu_command_USERQ_SIGNAL : command_schema :=
  mkCommandSchema 18 (Some 23) 1
    (mkSideSchema 164 3 0 [mkSpanSchema 2 1 1 0 65536 0 None [165]; mkSpanSchema 3 2 1 0 65536 0 None [165];
      mkSpanSchema 4 3 1 0 65536 0 None [165]] [])
    (mkSideSchema 0 0 0 [] []).

Definition amdgpu_command_USERQ_WAIT : command_schema :=
  mkCommandSchema 19 (Some 24) 1
    (mkSideSchema 167 5 0 [mkSpanSchema 2 1 1 0 65536 0 None [165]; mkSpanSchema 3 2 1 0 65536 0 None [166];
      mkSpanSchema 4 3 1 0 65536 0 None [165]; mkSpanSchema 5 4 1 0 65536 0 None [165];
      mkSpanSchema 6 5 2 0 65536 0 None [168]] [])
    (mkSideSchema 169 0 0 [] []).

Definition amdgpu_command_GEM_LIST_HANDLES : command_schema :=
  mkCommandSchema 20 (Some 25) 1
    (mkSideSchema 170 1 0 [mkSpanSchema 2 1 2 0 65536 0 None [171]] [])
    (mkSideSchema 172 0 0 [] []).

Definition amdgpu_commands : list command_schema :=
  [amdgpu_command_GEM_CREATE; amdgpu_command_GEM_MMAP; amdgpu_command_CONTEXT; amdgpu_command_BO_LIST;
   amdgpu_command_CS; amdgpu_command_INFO; amdgpu_command_GEM_METADATA; amdgpu_command_GEM_WAIT_IDLE;
   amdgpu_command_GEM_VA; amdgpu_command_WAIT_CS; amdgpu_command_GEM_OP; amdgpu_command_GEM_USERPTR;
   amdgpu_command_WAIT_FENCES; amdgpu_command_VM; amdgpu_command_FENCE_TO_HANDLE; amdgpu_command_SCHED;
   amdgpu_command_USERQ; amdgpu_command_USERQ_SIGNAL; amdgpu_command_USERQ_WAIT; amdgpu_command_GEM_LIST_HANDLES].

(** * Catalogs *)

Definition KB2_GPU_DRM_AMDGPU_COMPLETION_INLINE_CATALOG {T} (X : Z -> Z -> T) : list T :=
  [X 102 8; X 104 24; X 106 32; X 109 8; X 121 8; X 123 16; X 140 280; X 142 8; X 0 0; X 145 8; X 149 16; X 102 8;
   X 153 8; X 155 8; X 157 8; X 0 0; X 160 8; X 0 0; X 169 8; X 172 8].

Definition KB2_GPU_DRM_AMDGPU_COMPLETION_CONTRACT_CATALOG {T} (X : Z -> Z -> Z -> Z -> Z -> T) : list T :=
  [X 1 102 8 0 0; X 2 104 24 0 1; X 3 106 32 0 0; X 4 109 8 0 0; X 5 121 8 0 0; X 6 123 16 0 0; X 7 140 280 0 0;
   X 8 142 8 0 0; X 9 0 0 0 0; X 10 145 8 0 0; X 11 149 16 0 0; X 12 102 8 0 0; X 13 153 8 0 0; X 14 155 8 0 0;
   X 15 157 8 0 1; X 16 0 0 0 0; X 17 160 8 0 0; X 18 0 0 0 0; X 19 169 8 0 0; X 20 172 8 0 0].

Definition KB2_GPU_DRM_AMDGPU_COMPLETION_ATTACHMENT_CATALOG {T} (X : Z -> Z -> Z -> Z -> Z -> Z -> T) : list T :=
  [X 2 2 1 2 0 1; X 15 2 1 3 1 6; X 15 2 1 3 1 3].

Definition amdgpu_catalogs : catalogs :=
  mkCatalogs (KB2_GPU_DRM_AMDGPU_RECORD_CATALOG row2) (KB2_GPU_DRM_AMDGPU_REQUEST_INLINE_CATALOG row2)
    (KB2_GPU_DRM_AMDGPU_REQUEST_CONTRACT_CATALOG row5) (KB2_GPU_DRM_AMDGPU_REQUEST_SPAN_CATALOG row7)
    (KB2_GPU_DRM_AMDGPU_REQUEST_ATTACHMENT_CATALOG row6) (KB2_GPU_DRM_AMDGPU_COMPLETION_INLINE_CATALOG row2)
    (KB2_GPU_DRM_AMDGPU_COMPLETION_CONTRACT_CATALOG row5) (KB2_GPU_DRM_AMDGPU_COMPLETION_ATTACHMENT_CATALOG row6).

Definition amdgpu_schema : schema :=
  mkSchema 20 72 amdgpu_records amdgpu_commands.

(** * Types

    The types of the fields of each record, as protocol/schema/gpu_drm_amdgpu.json has them. *)

Definition amdgpu_types : type_table :=
 [(101, [("BO_SIZE", TU64); ("ALIGNMENT", TU64); ("DOMAINS", TU64); ("DOMAIN_FLAGS", TU64)]);
  (102, [("HANDLE", TU32); ("RESERVED", TU32)]);
  (103, [("HANDLE", TU32); ("MAPPING_RIGHTS", TU32)]);
  (104, [("MAPPING_ID", TU64); ("LENGTH", TU64); ("CACHE_POLICY", TU32); ("RESERVED", TU32)]);
  (105, [("OPERATION", TU32); ("FLAGS", TU32); ("CONTEXT_ID", TU32); ("PRIORITY", TI32)]);
  (106, [("RESULT_KIND", TU32); ("CONTEXT_ID", TU32); ("FLAGS", TU64); ("HANGS", TU32); ("RESET_STATUS", TU32);
     ("STABLE_PSTATE", TU32); ("RESERVED", TU32)]);
  (107, [("OPERATION", TU32); ("LIST_HANDLE", TU32); ("ENTRY_COUNT", TU32); ("RESERVED", TU32)]);
  (108, [("BO_HANDLE", TU32); ("PRIORITY", TU32)]);
  (109, [("LIST_HANDLE", TU32); ("RESERVED", TU32)]);
  (110, [("CONTEXT_ID", TU32); ("BO_LIST_HANDLE", TU32); ("CHUNK_COUNT", TU32); ("FLAGS", TU32)]);
  (111, [("FLAGS", TU32); ("IP_TYPE", TU32); ("IP_INSTANCE", TU32); ("RING", TU32); ("VA_START", TU64);
     ("IB_BYTES", TU32); ("RESERVED", TU32)]);
  (112, [("BO_HANDLE", TU32); ("OFFSET", TU32)]);
  (113, [("IP_TYPE", TU32); ("IP_INSTANCE", TU32); ("RING", TU32); ("CONTEXT_ID", TU32); ("SEQUENCE", TU64)]);
  (114, [("HANDLE", TU32)]);
  (115, [("HANDLE", TU32)]);
  (116, [("BO_HANDLE", TU32); ("PRIORITY", TU32)]);
  (117, [("IP_TYPE", TU32); ("IP_INSTANCE", TU32); ("RING", TU32); ("CONTEXT_ID", TU32); ("SEQUENCE", TU64)]);
  (118, [("HANDLE", TU32); ("FLAGS", TU32); ("POINT", TU64)]);
  (119, [("HANDLE", TU32); ("FLAGS", TU32); ("POINT", TU64)]);
  (120, [("SHADOW_VA", TU64); ("CSA_VA", TU64); ("GDS_VA", TU64); ("FLAGS", TU64)]);
  (121, [("SUBMISSION_HANDLE", TU64)]);
  (122, [("QUERY", TU32); ("RESPONSE_RECORD_ID", TU32); ("RESPONSE_CAPACITY", TU32); ("FLAGS", TU32);
     ("SELECTOR", TArray 4 TU32)]);
  (123, [("RESPONSE_RECORD_ID", TU32); ("RESPONSE_COUNT", TU32); ("RESPONSE_BYTES", TU32); ("REQUIRED_COUNT", TU32)]);
  (124, [("VALUE", TU32)]);
  (125, [("VALUE", TU64)]);
  (126, [("VALUE", TU8)]);
  (127, [("GDS_GFX_PARTITION_SIZE", TU32); ("COMPUTE_PARTITION_SIZE", TU32); ("GDS_TOTAL_SIZE", TU32);
     ("GWS_PER_GFX_PARTITION", TU32); ("GWS_PER_COMPUTE_PARTITION", TU32); ("OA_PER_GFX_PARTITION", TU32);
     ("OA_PER_COMPUTE_PARTITION", TU32); ("RESERVED", TU32)]);
  (128, [("VRAM_SIZE", TU64); ("VRAM_CPU_ACCESSIBLE_SIZE", TU64); ("GTT_SIZE", TU64)]);
  (129, [("VRAM", TArray 4 TU64); ("CPU_ACCESSIBLE_VRAM", TArray 4 TU64); ("GTT", TArray 4 TU64)]);
  (130, [("VERSION", TU32); ("FEATURE", TU32)]);
  (131, [("NAME", TArray 64 TU8); ("PART_NUMBER", TArray 64 TU8); ("VERSION", TU32); ("RESERVED", TU32);
     ("VERSION_STRING", TArray 32 TU8); ("DATE", TArray 32 TU8)]);
  (132, [("VERSION_MAJOR", TU32); ("VERSION_MINOR", TU32); ("CAPABILITIES", TU64); ("IB_START_ALIGNMENT", TU32);
     ("IB_SIZE_ALIGNMENT", TU32); ("AVAILABLE_RINGS", TU32); ("IP_DISCOVERY_VERSION", TU32);
     ("USERQ_NUM_SLOTS", TU32)]);
  (133, [("DEVICE_ID", TU32); ("CHIP_REV", TU32); ("EXTERNAL_REV", TU32); ("PCI_REV", TU32); ("FAMILY", TU32);
     ("NUM_SHADER_ENGINES", TU32); ("NUM_SHADER_ARRAYS_PER_ENGINE", TU32); ("GPU_COUNTER_FREQUENCY", TU32);
     ("MAX_ENGINE_CLOCK", TU64); ("MAX_MEMORY_CLOCK", TU64); ("CU_ACTIVE_NUMBER", TU32); ("CU_ALWAYS_ON_MASK", TU32);
     ("CU_BITMAP", TArray 16 TU32); ("ENABLED_RB_PIPES_MASK", TU32); ("NUM_RB_PIPES", TU32);
     ("NUM_HW_GFX_CONTEXTS", TU32); ("PCIE_GENERATION", TU32); ("IDS_FLAGS", TU64); ("VIRTUAL_ADDRESS_OFFSET", TU64);
     ("VIRTUAL_ADDRESS_MAX", TU64); ("VIRTUAL_ADDRESS_ALIGNMENT", TU32); ("PTE_FRAGMENT_SIZE", TU32);
     ("GART_PAGE_SIZE", TU32); ("CE_RAM_SIZE", TU32); ("VRAM_TYPE", TU32); ("VRAM_BIT_WIDTH", TU32);
     ("VCE_HARVEST_CONFIG", TU32); ("GC_DOUBLE_OFFCHIP_LDS_BUF", TU32); ("PRIM_BUF_GPU_ADDR", TU64);
     ("POS_BUF_GPU_ADDR", TU64); ("CONTROL_SIDEBAND_GPU_ADDR", TU64); ("PARAMETER_CACHE_GPU_ADDR", TU64);
     ("PRIM_BUF_SIZE", TU32); ("POS_BUF_SIZE", TU32); ("CONTROL_SIDEBAND_SIZE", TU32);
     ("PARAMETER_CACHE_SIZE", TU32); ("WAVEFRONT_SIZE", TU32); ("NUM_SHADER_VISIBLE_VGPRS", TU32);
     ("NUM_CU_PER_SHADER_ARRAY", TU32); ("NUM_TCC_BLOCKS", TU32); ("GS_VGT_TABLE_DEPTH", TU32);
     ("GS_PRIM_BUFFER_DEPTH", TU32); ("MAX_GS_WAVES_PER_VGT", TU32); ("PCIE_NUM_LANES", TU32);
     ("CU_ALWAYS_ON_BITMAP", TArray 16 TU32); ("HIGH_VA_OFFSET", TU64); ("HIGH_VA_MAX", TU64);
     ("PA_SC_TILE_STEERING_OVERRIDE", TU32); ("TCC_DISABLED_MASK", TU64); ("MIN_ENGINE_CLOCK", TU64);
     ("MIN_MEMORY_CLOCK", TU64); ("TCP_CACHE_SIZE", TU32); ("NUM_SQC_PER_WGP", TU32); ("SQC_DATA_CACHE_SIZE", TU32);
     ("SQC_INSTRUCTION_CACHE_SIZE", TU32); ("GL1_CACHE_SIZE", TU32); ("GL2_CACHE_SIZE", TU32); ("MALL_SIZE", TU64);
     ("ENABLED_RB_PIPES_MASK_HIGH", TU32); ("SHADOW_SIZE", TU32); ("SHADOW_ALIGNMENT", TU32); ("CSA_SIZE", TU32);
     ("CSA_ALIGNMENT", TU32); ("USERQ_IP_MASK", TU32)]);
  (134, [("MAXIMUM", TU32); ("USED", TU32)]);
  (135, [("SYSTEM_CLOCK", TU32); ("MEMORY_CLOCK", TU32); ("VCE_CLOCK", TU32); ("RESERVED", TU32)]);
  (136, [("CODEC_INFO", TArray 48 TU32)]);
  (137, [("ADDRESS", TU64); ("STATUS", TU32); ("VMHUB", TU32)]);
  (138, [("SHADOW_SIZE", TU32); ("SHADOW_ALIGNMENT", TU32); ("CSA_SIZE", TU32); ("CSA_ALIGNMENT", TU32)]);
  (139, [("HANDLE", TU32); ("OPERATION", TU32); ("FLAGS", TU64); ("TILING_INFO", TU64); ("DATA_SIZE", TU32);
     ("RESERVED", TU32); ("DATA", TArray 256 TU8)]);
  (140, [("FLAGS", TU64); ("TILING_INFO", TU64); ("DATA_SIZE", TU32); ("RESERVED", TU32); ("DATA", TArray 256 TU8)]);
  (141, [("HANDLE", TU32); ("FLAGS", TU32)]);
  (142, [("BUSY", TU32); ("DOMAIN", TU32)]);
  (143, [("HANDLE", TU32); ("OPERATION", TU32); ("FLAGS", TU32); ("INPUT_SYNCOBJ_COUNT", TU32); ("VA_ADDRESS", TU64);
     ("OFFSET_IN_BO", TU64); ("MAP_SIZE", TU64); ("TIMELINE_POINT", TU64); ("TIMELINE_SYNCOBJ_OUT", TU32);
     ("RESERVED", TU32)]);
  (144, [("SUBMISSION_HANDLE", TU64); ("IP_TYPE", TU32); ("IP_INSTANCE", TU32); ("RING", TU32); ("CONTEXT_ID", TU32)]);
  (145, [("BUSY", TU32); ("RESERVED", TU32)]);
  (146, [("HANDLE", TU32); ("OPERATION", TU32); ("VALUE", TU64); ("MAPPING_CAPACITY", TU32); ("RESERVED", TU32)]);
  (147, [("BO_SIZE", TU64); ("ALIGNMENT", TU64); ("DOMAINS", TU64); ("DOMAIN_FLAGS", TU64)]);
  (148, [("ADDRESS", TU64); ("SIZE", TU64); ("OFFSET", TU64); ("FLAGS", TU64)]);
  (149, [("RESULT_RECORD_ID", TU32); ("RESULT_COUNT", TU32); ("REQUIRED_COUNT", TU32); ("RESERVED", TU32)]);
  (150, [("ATTACHMENT_OFFSET", TU64); ("SIZE", TU64); ("FLAGS", TU32); ("RESERVED", TU32)]);
  (151, [("CONTEXT_ID", TU32); ("IP_TYPE", TU32); ("IP_INSTANCE", TU32); ("RING", TU32); ("SEQUENCE", TU64)]);
  (152, [("FENCE_COUNT", TU32); ("WAIT_ALL", TU32)]);
  (153, [("SIGNALED", TU32); ("FIRST_SIGNALED", TU32)]);
  (154, [("OPERATION", TU32); ("FLAGS", TU32)]);
  (155, [("FLAGS", TU64)]);
  (156, [("CONTEXT_ID", TU32); ("IP_TYPE", TU32); ("IP_INSTANCE", TU32); ("RING", TU32); ("SEQUENCE", TU64);
     ("OUTPUT_KIND", TU32); ("RESERVED", TU32)]);
  (157, [("OUTPUT_KIND", TU32); ("SYNCOBJ_HANDLE", TU32)]);
  (158, [("OPERATION", TU32); ("PRIORITY", TI32); ("CONTEXT_ID", TU32); ("RESERVED", TU32)]);
  (159, [("OPERATION", TU32); ("QUEUE_ID", TU32); ("IP_TYPE", TU32); ("DOORBELL_HANDLE", TU32);
     ("DOORBELL_OFFSET", TU32); ("FLAGS", TU32); ("QUEUE_VA", TU64); ("QUEUE_SIZE", TU64); ("READ_POINTER_VA", TU64);
     ("WRITE_POINTER_VA", TU64); ("MQD_RECORD_ID", TU32); ("MQD_SIZE", TU32)]);
  (160, [("QUEUE_ID", TU32); ("RESERVED", TU32)]);
  (161, [("SHADOW_VA", TU64); ("CSA_VA", TU64)]);
  (162, [("CSA_VA", TU64)]);
  (163, [("EOP_VA", TU64)]);
  (164, [("QUEUE_ID", TU32); ("SYNCOBJ_COUNT", TU32); ("READ_BO_COUNT", TU32); ("WRITE_BO_COUNT", TU32)]);
  (165, [("HANDLE", TU32)]);
  (166, [("HANDLE", TU32); ("FLAGS", TU32); ("POINT", TU64)]);
  (167, [("WAIT_QUEUE_ID", TU32); ("SYNCOBJ_COUNT", TU32); ("TIMELINE_SYNCOBJ_COUNT", TU32); ("READ_BO_COUNT", TU32);
     ("WRITE_BO_COUNT", TU32); ("OUTPUT_CAPACITY", TU32)]);
  (168, [("GPU_VA", TU64); ("VALUE", TU64)]);
  (169, [("FENCE_COUNT", TU32); ("REQUIRED_COUNT", TU32)]);
  (170, [("ENTRY_CAPACITY", TU32); ("RESERVED", TU32)]);
  (171, [("GEM_HANDLE", TU32); ("FLAGS", TU32); ("SIZE", TU64); ("PREFERRED_DOMAINS", TU64);
     ("ALLOCATION_FLAGS", TU64); ("ALIGNMENT", TU64)]);
  (172, [("ENTRY_COUNT", TU32); ("REQUIRED_COUNT", TU32)])].
