(* ===== verification/GpuI915Schema.v ===== *)
(** The schema of the i915 command set, as protocol/generated/include/kobox2/gpu_drm_i915_layout.h
    defines it: a definition per record and per command, and the catalogs that the other
    files do not use; the types of the fields are those of protocol/schema/gpu_drm_i915.json. *)

From Stdlib Require Import ZArith String.
From stdpp Require Import base strings list.
From S2P Require Import GpuDrmLayout GpuDrmSchema.

Open Scope string_scope.
Open Scope list_scope.
Open Scope Z_scope.

(** * Records *)

Definition i915_record_GETPARAM_REQUEST : record_schema :=
  mkRecordSchema 101 8 [("PARAMETER", 0); ("RESERVED", 4)].

Definition i915_record_GETPARAM_RESULT : record_schema :=
  mkRecordSchema 102 8 [("VALUE", 0); ("RESULT", 4)].

Definition i915_record_QUERY_REQUEST : record_schema :=
  mkRecordSchema 103 16 [("COUNT", 0); ("FLAGS", 4); ("BLOB_BYTES", 8)].

Definition i915_record_QUERY_ITEM : record_schema :=
  mkRecordSchema 104 24 [("QUERY_ID", 0); ("LENGTH", 8); ("FLAGS", 12); ("DATA_OFFSET", 16)].

Definition i915_record_BYTE : record_schema :=
  mkRecordSchema 105 1 [("VALUE", 0)].

Definition i915_record_QUERY_RESULT : record_schema :=
  mkRecordSchema 106 16 [("COUNT", 0); ("RESERVED", 4); ("BLOB_BYTES", 8)].

Definition i915_record_APERTURE_REQUEST : record_schema :=
  mkRecordSchema 107 8 [("RESERVED", 0)].

Definition i915_record_APERTURE_RESULT : record_schema :=
  mkRecordSchema 108 16 [("TOTAL_BYTES", 0); ("AVAILABLE_BYTES", 8)].

Definition i915_record_CONTEXT_PARAM_REQUEST : record_schema :=
  mkRecordSchema 109 16 [("CONTEXT_ID", 0); ("RESERVED", 4); ("PARAMETER", 8)].

Definition i915_record_CONTEXT_PARAM_RESULT : record_schema :=
  mkRecordSchema 110 8 [("VALUE", 0)].

Definition i915_record_GEM_CREATE : record_schema :=
  mkRecordSchema 111 16 [("SIZE", 0); ("HANDLE", 8); ("RESERVED", 12)].

Definition i915_record_CREATE_EXT_REQUEST : record_schema :=
  mkRecordSchema 112 24 [("SIZE", 0); ("FLAGS", 8); ("REGION_COUNT", 12); ("RESERVED", 16)].

Definition i915_record_CREATE_EXT_RESULT : record_schema :=
  mkRecordSchema 113 16 [("SIZE", 0); ("HANDLE", 8); ("RESERVED", 12)].

Definition i915_record_MEMORY_REGION : record_schema :=
  mkRecordSchema 114 4 [("MEMORY_CLASS", 0); ("MEMORY_INSTANCE", 2)].

Definition i915_record_GEM_BUSY : record_schema :=
  mkRecordSchema 115 8 [("HANDLE", 0); ("BUSY", 4)].

Definition i915_record_GEM_MADVISE : record_schema :=
  mkRecordSchema 116 12 [("HANDLE", 0); ("ADVICE", 4); ("RETAINED", 8)].

Definition i915_record_GEM_WAIT : record_schema :=
  mkRecordSchema 117 16 [("HANDLE", 0); ("FLAGS", 4); ("TIMEOUT_NS", 8)].

Definition i915_record_GEM_SET_DOMAIN : record_schema :=
  mkRecordSchema 118 12 [("HANDLE", 0); ("READ_DOMAINS", 4); ("WRITE_DOMAIN", 8)].

Definition i915_record_GEM_SET_CACHING : record_schema :=
  mkRecordSchema 119 8 [("HANDLE", 0); ("CACHING", 4)].

Definition i915_record_GEM_WAIT_RESULT : record_schema :=
  mkRecordSchema 120 24 [("HANDLE", 0); ("FLAGS", 4); ("TIMEOUT_NS", 8); ("RESULT", 16); ("RESERVED", 20)].

Definition i915_record_GEM_MMAP_REQUEST : record_schema :=
  mkRecordSchema 121 16 [("HANDLE", 0); ("MAPPING_RIGHTS", 4); ("CACHE_KIND", 8); ("RESERVED", 12)].

Definition i915_record_GEM_MMAP_RESULT : record_schema :=
  mkRecordSchema 122 24 [("MAPPING_ID", 0); ("LENGTH", 8); ("CACHE_POLICY", 16); ("RESERVED", 20)].

Definition i915_record_CONTEXT_HANDLE : record_schema :=
  mkRecordSchema 123 8 [("CONTEXT_ID", 0); ("RESERVED", 4)].

Definition i915_record_CONTEXT_CREATE_REQUEST : record_schema :=
  mkRecordSchema 124 16 [("FLAGS", 0); ("PARAM_COUNT", 4); ("ENGINE_COUNT", 8); ("RESERVED", 12)].

Definition i915_record_CONTEXT_SETPARAM_REQUEST : record_schema :=
  mkRecordSchema 125 16 [("CONTEXT_ID", 0); ("PARAM_COUNT", 4); ("ENGINE_COUNT", 8); ("RESERVED", 12)].

Definition i915_record_CONTEXT_PARAM : record_schema :=
  mkRecordSchema 126 32 [("PARAMETER", 0); ("VALUE", 8); ("SIZE", 16); ("ENGINE_FIRST", 20); ("ENGINE_COUNT", 24); ("RESERVED", 28)].

Definition i915_record_ENGINE : record_schema :=
  mkRecordSchema 127 4 [("ENGINE_CLASS", 0); ("ENGINE_INSTANCE", 2)].

Definition i915_record_EXEC_REQUEST : record_schema :=
  mkRecordSchema 128 32 [("OBJECT_COUNT", 0); ("FENCE_COUNT", 4); ("BATCH_START", 8); ("BATCH_LENGTH", 12); ("FLAGS", 16);
    ("CONTEXT_ID", 24); ("RESERVED", 28)].

Definition i915_record_EXEC_OBJECT : record_schema :=
  mkRecordSchema 129 40 [("HANDLE", 0); ("RESERVED", 4); ("ALIGNMENT", 8); ("OFFSET", 16); ("FLAGS", 24); ("PAD_TO_SIZE", 32)].

Definition i915_record_EXEC_FENCE : record_schema :=
  mkRecordSchema 130 8 [("HANDLE", 0); ("FLAGS", 4)].

Definition i915_record_EXEC_RESULT : record_schema :=
  mkRecordSchema 131 8 [("RESULT", 0); ("RESERVED", 4)].

Definition i915_records : list record_schema :=
  [i915_record_GETPARAM_REQUEST; i915_record_GETPARAM_RESULT; i915_record_QUERY_REQUEST; i915_record_QUERY_ITEM;
   i915_record_BYTE; i915_record_QUERY_RESULT; i915_record_APERTURE_REQUEST; i915_record_APERTURE_RESULT;
   i915_record_CONTEXT_PARAM_REQUEST; i915_record_CONTEXT_PARAM_RESULT; i915_record_GEM_CREATE;
   i915_record_CREATE_EXT_REQUEST; i915_record_CREATE_EXT_RESULT; i915_record_MEMORY_REGION; i915_record_GEM_BUSY;
   i915_record_GEM_MADVISE; i915_record_GEM_WAIT; i915_record_GEM_SET_DOMAIN; i915_record_GEM_SET_CACHING;
   i915_record_GEM_WAIT_RESULT; i915_record_GEM_MMAP_REQUEST; i915_record_GEM_MMAP_RESULT; i915_record_CONTEXT_HANDLE;
   i915_record_CONTEXT_CREATE_REQUEST; i915_record_CONTEXT_SETPARAM_REQUEST; i915_record_CONTEXT_PARAM;
   i915_record_ENGINE; i915_record_EXEC_REQUEST; i915_record_EXEC_OBJECT; i915_record_EXEC_FENCE;
   i915_record_EXEC_RESULT].

(** * Commands *)

Definition i915_command_GETPARAM : command_schema :=
  mkCommandSchema 1 (Some 6) 1
    (mkSideSchema 101 0 0 [] [])
    (mkSideSchema 102 0 0 [] []).

Definition i915_command_QUERY : command_schema :=
  mkCommandSchema 2 (Some 57) 1
    (mkSideSchema 103 2 0 [mkSpanSchema 2 1 3 0 64 0 None [104]; mkSpanSchema 3 2 3 0 16777216 0 None [105]] [])
    (mkSideSchema 106 0 0 [] []).

Definition i915_command_GET_APERTURE : command_schema :=
  mkCommandSchema 3 (Some 35) 1
    (mkSideSchema 107 0 0 [] [])
    (mkSideSchema 108 0 0 [] []).

Definition i915_command_CONTEXT_GETPARAM : command_schema :=
  mkCommandSchema 4 (Some 52) 1
    (mkSideSchema 109 0 0 [] [])
    (mkSideSchema 110 0 0 [] []).

Definition i915_command_GEM_CREATE : command_schema :=
  mkCommandSchema 5 (Some 27) 1
    (mkSideSchema 111 0 0 [] [])
    (mkSideSchema 111 0 0 [] []).

Definition i915_command_GEM_CREATE_EXT : command_schema :=
  mkCommandSchema 6 (Some 60) 1
    (mkSideSchema 112 1 0 [mkSpanSchema 2 1 1 0 64 0 None [114]] [])
    (mkSideSchema 113 0 0 [] []).

Definition i915_command_GEM_BUSY : command_schema :=
  mkCommandSchema 7 (Some 23) 1
    (mkSideSchema 115 0 0 [] [])
    (mkSideSchema 115 0 0 [] []).

Definition i915_command_GEM_MADVISE : command_schema :=
  mkCommandSchema 8 (Some 38) 1
    (mkSideSchema 116 0 0 [] [])
    (mkSideSchema 116 0 0 [] []).

Definition i915_command_GEM_WAIT : command_schema :=
  mkCommandSchema 9 (Some 44) 1
    (mkSideSchema 117 0 0 [] [])
    (mkSideSchema 120 0 0 [] []).

Definition i915_command_GEM_SET_DOMAIN : command_schema :=
  mkCommandSchema 10 (Some 31) 1
    (mkSideSchema 118 0 0 [] [])
    (mkSideSchema 0 0 0 [] []).

Definition i915_command_GEM_SET_CACHING : command_schema :=
  mkCommandSchema 11 (Some 47) 1
    (mkSideSchema 119 0 0 [] [])
    (mkSideSchema 0 0 0 [] []).

Definition i915_command_GEM_MMAP_OFFSET : command_schema :=
  mkCommandSchema 12 (Some 36) 1
    (mkSideSchema 121 0 0 [] [])
    (mkSideSchema 122 0 1 [] [mkAttachmentSchema 2 1 2 0 [1]]).

Definition i915_command_CONTEXT_CREATE : command_schema :=
  mkCommandSchema 13 (Some 45) 1
    (mkSideSchema 124 2 0 [mkSpanSchema 2 1 1 0 64 0 None [126]; mkSpanSchema 3 2 1 0 4096 0 None [127]] [])
    (mkSideSchema 123 0 0 [] []).

Definition i915_command_CONTEXT_SETPARAM : command_schema :=
  mkCommandSchema 14 (Some 53) 1
    (mkSideSchema 125 2 0 [mkSpanSchema 2 1 1 0 64 0 None [126]; mkSpanSchema 3 2 1 0 4096 0 None [127]] [])
    (mkSideSchema 0 0 0 [] []).

Definition i915_command_CONTEXT_DESTROY : command_schema :=
  mkCommandSchema 15 (Some 46) 1
    (mkSideSchema 123 0 0 [] [])
    (mkSideSchema 0 0 0 [] []).

Definition i915_command_EXECBUFFER : command_schema :=
  mkCommandSchema 16 (Some 41) 1
    (mkSideSchema 128 2 0 [mkSpanSchema 2 1 3 1 8192 0 None [129]; mkSpanSchema 3 2 1 0 65536 0 None [130]] [])
    (mkSideSchema 131 0 0 [] []).

Definition i915_commands : list command_schema :=
  [i915_command_GETPARAM; i915_command_QUERY; i915_command_GET_APERTURE; i915_command_CONTEXT_GETPARAM;
   i915_command_GEM_CREATE; i915_command_GEM_CREATE_EXT; i915_command_GEM_BUSY; i915_command_GEM_MADVISE;
   i915_command_GEM_WAIT; i915_command_GEM_SET_DOMAIN; i915_command_GEM_SET_CACHING; i915_command_GEM_MMAP_OFFSET;
   i915_command_CONTEXT_CREATE; i915_command_CONTEXT_SETPARAM; i915_command_CONTEXT_DESTROY; i915_command_EXECBUFFER].

(** * Catalogs *)

Definition KB2_GPU_DRM_I915_RECORD_CATALOG {T} (X : Z -> Z -> T) : list T :=
  [X 101 8; X 102 8; X 103 16; X 104 24; X 105 1; X 106 16; X 107 8; X 108 16; X 109 16; X 110 8; X 111 16; X 112 24;
   X 113 16; X 114 4; X 115 8; X 116 12; X 117 16; X 118 12; X 119 8; X 120 24; X 121 16; X 122 24; X 123 8; X 124 16;
   X 125 16; X 126 32; X 127 4; X 128 32; X 129 40; X 130 8; X 131 8].

Definition KB2_GPU_DRM_I915_REQUEST_INLINE_CATALOG {T} (X : Z -> Z -> T) : list T :=
  [X 101 8; X 103 16; X 107 8; X 109 16; X 111 16; X 112 24; X 115 8; X 116 12; X 117 16; X 118 12; X 119 8; X 121 16;
   X 124 16; X 125 16; X 123 8; X 128 32].

Definition KB2_GPU_DRM_I915_COMPLETION_INLINE_CATALOG {T} (X : Z -> Z -> T) : list T :=
  [X 102 8; X 106 16; X 108 16; X 110 8; X 111 16; X 113 16; X 115 8; X 116 12; X 120 24; X 0 0; X 0 0; X 122 24;
   X 123 8; X 0 0; X 0 0; X 131 8].

Definition KB2_GPU_DRM_I915_COMPLETION_CONTRACT_CATALOG {T} (X : Z -> Z -> Z -> Z -> Z -> T) : list T :=
  [X 1 102 8 0 0; X 2 106 16 0 0; X 3 108 16 0 0; X 4 110 8 0 0; X 5 111 16 0 0; X 6 113 16 0 0; X 7 115 8 0 0;
   X 8 116 12 0 0; X 9 120 24 0 0; X 10 0 0 0 0; X 11 0 0 0 0; X 12 122 24 0 1; X 13 123 8 0 0; X 14 0 0 0 0;
   X 15 0 0 0 0; X 16 131 8 0 0].

Definition KB2_GPU_DRM_I915_COMPLETION_ATTACHMENT_CATALOG {T} (X : Z -> Z -> Z -> Z -> Z -> Z -> T) : list T :=
  [X 12 2 1 2 0 1].

Definition i915_catalogs : catalogs :=
  mkCatalogs (KB2_GPU_DRM_I915_RECORD_CATALOG row2) (KB2_GPU_DRM_I915_REQUEST_INLINE_CATALOG row2)
    (KB2_GPU_DRM_I915_REQUEST_CONTRACT_CATALOG row5) (KB2_GPU_DRM_I915_REQUEST_SPAN_CATALOG row7) []
    (KB2_GPU_DRM_I915_COMPLETION_INLINE_CATALOG row2) (KB2_GPU_DRM_I915_COMPLETION_CONTRACT_CATALOG row5)
    (KB2_GPU_DRM_I915_COMPLETION_ATTACHMENT_CATALOG row6).

Definition i915_schema : schema :=
  mkSchema 16 31 i915_records i915_commands.

(** * Types

    The types of the fields of each record, as protocol/schema/gpu_drm_i915.json has them. *)

Definition i915_types : type_table :=
 [(101, [("PARAMETER", TI32); ("RESERVED", TU32)]);
  (102, [("VALUE", TI32); ("RESULT", TI32)]);
  (103, [("COUNT", TU32); ("FLAGS", TU32); ("BLOB_BYTES", TU64)]);
  (104, [("QUERY_ID", TU64); ("LENGTH", TI32); ("FLAGS", TU32); ("DATA_OFFSET", TU64)]);
  (105, [("VALUE", TU8)]);
  (106, [("COUNT", TU32); ("RESERVED", TU32); ("BLOB_BYTES", TU64)]);
  (107, [("RESERVED", TU64)]);
  (108, [("TOTAL_BYTES", TU64); ("AVAILABLE_BYTES", TU64)]);
  (109, [("CONTEXT_ID", TU32); ("RESERVED", TU32); ("PARAMETER", TU64)]);
  (110, [("VALUE", TU64)]);
  (111, [("SIZE", TU64); ("HANDLE", TU32); ("RESERVED", TU32)]);
  (112, [("SIZE", TU64); ("FLAGS", TU32); ("REGION_COUNT", TU32); ("RESERVED", TU64)]);
  (113, [("SIZE", TU64); ("HANDLE", TU32); ("RESERVED", TU32)]);
  (114, [("MEMORY_CLASS", TU16); ("MEMORY_INSTANCE", TU16)]);
  (115, [("HANDLE", TU32); ("BUSY", TU32)]);
  (116, [("HANDLE", TU32); ("ADVICE", TU32); ("RETAINED", TU32)]);
  (117, [("HANDLE", TU32); ("FLAGS", TU32); ("TIMEOUT_NS", TI64)]);
  (118, [("HANDLE", TU32); ("READ_DOMAINS", TU32); ("WRITE_DOMAIN", TU32)]);
  (119, [("HANDLE", TU32); ("CACHING", TU32)]);
  (120, [("HANDLE", TU32); ("FLAGS", TU32); ("TIMEOUT_NS", TI64); ("RESULT", TI32); ("RESERVED", TU32)]);
  (121, [("HANDLE", TU32); ("MAPPING_RIGHTS", TU32); ("CACHE_KIND", TU32); ("RESERVED", TU32)]);
  (122, [("MAPPING_ID", TU64); ("LENGTH", TU64); ("CACHE_POLICY", TU32); ("RESERVED", TU32)]);
  (123, [("CONTEXT_ID", TU32); ("RESERVED", TU32)]);
  (124, [("FLAGS", TU32); ("PARAM_COUNT", TU32); ("ENGINE_COUNT", TU32); ("RESERVED", TU32)]);
  (125, [("CONTEXT_ID", TU32); ("PARAM_COUNT", TU32); ("ENGINE_COUNT", TU32); ("RESERVED", TU32)]);
  (126, [("PARAMETER", TU64); ("VALUE", TU64); ("SIZE", TU32); ("ENGINE_FIRST", TU32); ("ENGINE_COUNT", TU32);
     ("RESERVED", TU32)]);
  (127, [("ENGINE_CLASS", TU16); ("ENGINE_INSTANCE", TU16)]);
  (128, [("OBJECT_COUNT", TU32); ("FENCE_COUNT", TU32); ("BATCH_START", TU32); ("BATCH_LENGTH", TU32);
     ("FLAGS", TU64); ("CONTEXT_ID", TU32); ("RESERVED", TU32)]);
  (129, [("HANDLE", TU32); ("RESERVED", TU32); ("ALIGNMENT", TU64); ("OFFSET", TU64); ("FLAGS", TU64);
     ("PAD_TO_SIZE", TU64)]);
  (130, [("HANDLE", TU32); ("FLAGS", TU32)]);
  (131, [("RESULT", TI32); ("RESERVED", TU32)])].
