(* ===== verification/GpuSession.v ===== *)
(** GPU sessions (protocol/src/gpu_session.c, protocol/include/kobox2/gpu_session.h):
    the open and close requests and the completion of both.

    A function's result is its status and its output cells: the buffer, the size cell
    of an encoder, the value of a decoder ([None] when it is not written).

    The GPU session messages are exact wire formats. *)

From Stdlib Require Import ZArith Lia.
From stdpp Require Import base numbers tactics list_numbers list.
From S2P Require Import Prelude Bytes Layout Protocol ProtocolSpec GpuLayout.

Open Scope Z_scope.

Record kb2_gpu_session_open := mkSessionOpen { so_node_type : Z; so_client_id : Z }.

Record kb2_gpu_session_completion := mkSessionCompletion {
  sc_opcode : Z;
  sc_status : Z;
  sc_session_id : Z;
  sc_topology_epoch : Z;
  sc_capabilities : Z;
}.

(** * Open *)

Definition valid_open (r : kb2_gpu_session_open) : bool :=
  negb (so_client_id r =? 0) &&
  ((so_node_type r =? KB2_GPU_NODE_RENDER) || (so_node_type r =? KB2_GPU_NODE_PRIMARY)).

Definition kb2_gpu_session_open_encode (bytes : option (list Z)) (size : Z)
    (request : option kb2_gpu_session_open) : kb2_protocol_status * option (list Z) :=
  match bytes, request with
  | Some b, Some r =>
      if negb (valid_open r) then (KB2_PROTOCOL_INVALID_ARGUMENT, Some b)
      else if negb (size =? KB2_GPU_SESSION_OPEN_REQUEST_SIZE) then (KB2_PROTOCOL_MALFORMED, Some b)
      else
        let b := zero_bytes b 0 size in
        let b := store_u32 b KB2_GPU_SESSION_OPEN_REQUEST_NODE_TYPE_OFFSET (so_node_type r) in
        let b := store_u64 b KB2_GPU_SESSION_OPEN_REQUEST_CLIENT_ID_OFFSET (so_client_id r) in
        (KB2_PROTOCOL_OK, Some b)
  | _, _ => (KB2_PROTOCOL_INVALID_ARGUMENT, bytes)
  end.

Definition kb2_gpu_session_open_decode (bytes : option (list Z)) (size : Z) (out_given : bool) :
    kb2_protocol_status * option kb2_gpu_session_open :=
  match bytes with
  | None => (KB2_PROTOCOL_INVALID_ARGUMENT, None)
  | Some b =>
      if negb out_given then (KB2_PROTOCOL_INVALID_ARGUMENT, None)
      else if negb (size =? KB2_GPU_SESSION_OPEN_REQUEST_SIZE) then (KB2_PROTOCOL_MALFORMED, None)
      else
        let request := mkSessionOpen (load_u32 b KB2_GPU_SESSION_OPEN_REQUEST_NODE_TYPE_OFFSET)
                         (load_u64 b KB2_GPU_SESSION_OPEN_REQUEST_CLIENT_ID_OFFSET) in
        if negb (valid_open request) ||
           negb (load_u32 b KB2_GPU_SESSION_OPEN_REQUEST_FLAGS_OFFSET =? 0) ||
           negb (load_u64 b KB2_GPU_SESSION_OPEN_REQUEST_RESERVED_OFFSET =? 0)
        then (KB2_PROTOCOL_MALFORMED, None) else (KB2_PROTOCOL_OK, Some request)
  end.

(** * Close *)

Definition kb2_gpu_session_close_encode (bytes : option (list Z)) (size session_id : Z) :
    kb2_protocol_status * option (list Z) :=
  match bytes with
  | None => (KB2_PROTOCOL_INVALID_ARGUMENT, None)
  | Some b =>
      if session_id =? 0 then (KB2_PROTOCOL_INVALID_ARGUMENT, Some b)
      else if negb (size =? KB2_GPU_SESSION_CLOSE_REQUEST_SIZE) then (KB2_PROTOCOL_MALFORMED, Some b)
      else
        let b := zero_bytes b 0 size in
        let b := store_u64 b KB2_GPU_SESSION_CLOSE_REQUEST_SESSION_ID_OFFSET session_id in
        (KB2_PROTOCOL_OK, Some b)
  end.

Definition kb2_gpu_session_close_decode (bytes : option (list Z)) (size : Z) (out_given : bool) :
    kb2_protocol_status * option Z :=
  match bytes with
  | None => (KB2_PROTOCOL_INVALID_ARGUMENT, None)
  | Some b =>
      if negb out_given then (KB2_PROTOCOL_INVALID_ARGUMENT, None)
      else if negb (size =? KB2_GPU_SESSION_CLOSE_REQUEST_SIZE) then (KB2_PROTOCOL_MALFORMED, None)
      else
        let session := load_u64 b KB2_GPU_SESSION_CLOSE_REQUEST_SESSION_ID_OFFSET in
        if (session =? 0) || negb (load_u32 b KB2_GPU_SESSION_CLOSE_REQUEST_FLAGS_OFFSET =? 0) ||
           negb (load_u32 b KB2_GPU_SESSION_CLOSE_REQUEST_RESERVED_OFFSET =? 0)
        then (KB2_PROTOCOL_MALFORMED, None) else (KB2_PROTOCOL_OK, Some session)
  end.

(** * Completions *)

Definition valid_completion (c : kb2_gpu_session_completion) : bool :=
  if KB2_GPU_STATUS_DEVICE_LOST <? sc_status c then false
  else if sc_opcode c =? KB2_GPU_OPCODE_SESSION_OPEN then
    if sc_status c =? KB2_GPU_STATUS_OK then negb (sc_session_id c =? 0) && negb (sc_topology_epoch c =? 0)
    else (sc_session_id c =? 0) && (sc_topology_epoch c =? 0) && (sc_capabilities c =? 0)
  else (sc_opcode c =? KB2_GPU_OPCODE_SESSION_CLOSE) && negb (sc_session_id c =? 0) &&
       (sc_topology_epoch c =? 0) && (sc_capabilities c =? 0).

Definition completion_payload (opcode status : Z) : Z :=
  if (opcode =? KB2_GPU_OPCODE_SESSION_OPEN) && (status =? 0) then KB2_GPU_SESSION_OPEN_RESPONSE_SIZE else 0.

Definition kb2_gpu_session_completion_encode (bytes : option (list Z)) (capacity : Z) (size_given : bool)
    (completion : option kb2_gpu_session_completion) : kb2_protocol_status * option Z * option (list Z) :=
  match bytes, completion with
  | Some b, Some c =>
      if negb size_given then (KB2_PROTOCOL_INVALID_ARGUMENT, None, Some b)
      else if negb (valid_completion c) then (KB2_PROTOCOL_MALFORMED, None, Some b)
      else
        let payload := completion_payload (sc_opcode c) (sc_status c) in
        let size := KB2_GPU_COMPLETION_HEADER_SIZE + payload in
        if capacity <? size then (KB2_PROTOCOL_BUFFER_TOO_SMALL, None, Some b)
        else
          let b := zero_bytes b 0 size in
          let b := store_u32 b KB2_GPU_COMPLETION_HEADER_TOTAL_SIZE_OFFSET (u32 size) in
          let b := put_bytes b KB2_GPU_COMPLETION_HEADER_ABI_IDENTITY_OFFSET KB2_GPU_ABI_IDENTITY_BYTES in
          let b := put_bytes b KB2_GPU_COMPLETION_HEADER_SCHEMA_DIGEST_OFFSET KB2_GPU_SCHEMA_SHA256_BYTES in
          let b := store_u64 b KB2_GPU_COMPLETION_HEADER_SESSION_ID_OFFSET (sc_session_id c) in
          let b := store_u32 b KB2_GPU_COMPLETION_HEADER_STATUS_OFFSET (sc_status c) in
          let b := store_u32 b KB2_GPU_COMPLETION_HEADER_DISPOSITION_OFFSET KB2_GPU_DISPOSITION_COMPLETED in
          let b := store_u32 b KB2_GPU_COMPLETION_HEADER_INLINE_LENGTH_OFFSET (u32 payload) in
          let b := store_u32 b KB2_GPU_COMPLETION_HEADER_ARGUMENT_TABLE_OFFSET_OFFSET
                     KB2_GPU_COMPLETION_HEADER_SIZE in
          let b := store_u32 b KB2_GPU_COMPLETION_HEADER_SPAN_TABLE_OFFSET_OFFSET
                     KB2_GPU_COMPLETION_HEADER_SIZE in
          let b := store_u32 b KB2_GPU_COMPLETION_HEADER_ATTACHMENT_TABLE_OFFSET_OFFSET
                     KB2_GPU_COMPLETION_HEADER_SIZE in
          let b := store_u32 b KB2_GPU_COMPLETION_HEADER_INLINE_OFFSET_OFFSET
                     KB2_GPU_COMPLETION_HEADER_SIZE in
          let b :=
            if payload =? 0 then b
            else
              let result := KB2_GPU_COMPLETION_HEADER_SIZE in
              let b := store_u64 b (result + KB2_GPU_SESSION_OPEN_RESPONSE_SESSION_ID_OFFSET) (sc_session_id c) in
              let b := store_u64 b (result + KB2_GPU_SESSION_OPEN_RESPONSE_TOPOLOGY_EPOCH_OFFSET)
                         (sc_topology_epoch c) in
              store_u64 b (result + KB2_GPU_SESSION_OPEN_RESPONSE_CAPABILITIES_OFFSET) (sc_capabilities c) in
          (KB2_PROTOCOL_OK, Some size, Some b)
  | _, _ => (KB2_PROTOCOL_INVALID_ARGUMENT, None, bytes)
  end.

(** The header tests of the decoder. *)
Definition session_header_valid (b : list Z) (size payload : Z) : bool :=
  negb (negb (size =? KB2_GPU_COMPLETION_HEADER_SIZE + payload) ||
        negb (load_u32 b KB2_GPU_COMPLETION_HEADER_TOTAL_SIZE_OFFSET =? size) ||
        negb (load_u32 b KB2_GPU_COMPLETION_HEADER_DISPOSITION_OFFSET =? KB2_GPU_DISPOSITION_COMPLETED) ||
        negb (load_u32 b KB2_GPU_COMPLETION_HEADER_ARGUMENT_COUNT_OFFSET =? 0) ||
        negb (load_u32 b KB2_GPU_COMPLETION_HEADER_SPAN_COUNT_OFFSET =? 0) ||
        negb (load_u32 b KB2_GPU_COMPLETION_HEADER_ATTACHMENT_COUNT_OFFSET =? 0) ||
        negb (load_u32 b KB2_GPU_COMPLETION_HEADER_INLINE_LENGTH_OFFSET =? payload) ||
        negb (load_u32 b KB2_GPU_COMPLETION_HEADER_ARGUMENT_TABLE_OFFSET_OFFSET =?
                KB2_GPU_COMPLETION_HEADER_SIZE) ||
        negb (load_u32 b KB2_GPU_COMPLETION_HEADER_SPAN_TABLE_OFFSET_OFFSET =?
                KB2_GPU_COMPLETION_HEADER_SIZE) ||
        negb (load_u32 b KB2_GPU_COMPLETION_HEADER_ATTACHMENT_TABLE_OFFSET_OFFSET =?
                KB2_GPU_COMPLETION_HEADER_SIZE) ||
        negb (load_u32 b KB2_GPU_COMPLETION_HEADER_INLINE_OFFSET_OFFSET =?
                KB2_GPU_COMPLETION_HEADER_SIZE) ||
        negb (load_u32 b KB2_GPU_COMPLETION_HEADER_DETAIL_SET_ID_OFFSET =? 0) ||
        negb (load_u32 b KB2_GPU_COMPLETION_HEADER_DETAIL_CODE_OFFSET =? 0) ||
        negb (load_u64 b KB2_GPU_COMPLETION_HEADER_RESERVED_OFFSET =? 0)).

Definition kb2_gpu_session_completion_decode (bytes : option (list Z)) (size opcode : Z) (out_given : bool) :
    kb2_protocol_status * option kb2_gpu_session_completion :=
  match bytes with
  | None => (KB2_PROTOCOL_INVALID_ARGUMENT, None)
  | Some b =>
      if negb out_given then (KB2_PROTOCOL_INVALID_ARGUMENT, None)
      else if size <? KB2_GPU_COMPLETION_HEADER_SIZE then (KB2_PROTOCOL_BUFFER_TOO_SMALL, None)
      else if negb (bytes_equal b KB2_GPU_COMPLETION_HEADER_ABI_IDENTITY_OFFSET KB2_GPU_ABI_IDENTITY_BYTES) ||
              negb (bytes_equal b KB2_GPU_COMPLETION_HEADER_SCHEMA_DIGEST_OFFSET KB2_GPU_SCHEMA_SHA256_BYTES)
      then (KB2_PROTOCOL_SCHEMA_MISMATCH, None)
      else
        let session_id := load_u64 b KB2_GPU_COMPLETION_HEADER_SESSION_ID_OFFSET in
        let status := load_u32 b KB2_GPU_COMPLETION_HEADER_STATUS_OFFSET in
        let payload := completion_payload opcode status in
        if negb (session_header_valid b size payload) then (KB2_PROTOCOL_MALFORMED, None)
        else
          let result := KB2_GPU_COMPLETION_HEADER_SIZE in
          if negb (payload =? 0) &&
             (negb (load_u64 b (result + KB2_GPU_SESSION_OPEN_RESPONSE_SESSION_ID_OFFSET) =? session_id) ||
              negb (load_u64 b (result + KB2_GPU_SESSION_OPEN_RESPONSE_RESERVED_OFFSET) =? 0))
          then (KB2_PROTOCOL_MALFORMED, None)
          else
            let completion :=
              if payload =? 0 then mkSessionCompletion opcode status session_id 0 0
              else mkSessionCompletion opcode status session_id
                     (load_u64 b (result + KB2_GPU_SESSION_OPEN_RESPONSE_TOPOLOGY_EPOCH_OFFSET))
                     (load_u64 b (result + KB2_GPU_SESSION_OPEN_RESPONSE_CAPABILITIES_OFFSET)) in
            if negb (valid_completion completion) then (KB2_PROTOCOL_MALFORMED, None)
            else (KB2_PROTOCOL_OK, Some completion)
  end.

(** * Open and close *)

Definition session_open_typed (r : kb2_gpu_session_open) : Prop :=
  is_u32 (so_node_type r) /\ is_u64 (so_client_id r).

(** A client and one of the two node types. *)
Definition session_open_ok (r : kb2_gpu_session_open) : Prop :=
  so_client_id r <> 0 /\ (so_node_type r = 1 \/ so_node_type r = 2).

Lemma valid_open_spec r : valid_open r = true <-> session_open_ok r.
Proof. unfold valid_open, session_open_ok, KB2_GPU_NODE_RENDER, KB2_GPU_NODE_PRIMARY. lia. Qed.

Lemma session_open_wire :
  WireFormat (fun b n r => let '(st, out) := kb2_gpu_session_open_encode (Some b) n (Some r) in status_encoded b st out)
    (fun b n => status_decoded (kb2_gpu_session_open_decode (Some b) n true))
    session_open_typed session_open_ok (fun n _ => n = 24) (fun n _ => n = 24) (fun _ => 24).
Proof.
  apply (record_wire (fun _ => 24) (fun r => [U32 0 (so_node_type r); U64 8 (so_client_id r)])
           (fun _ => [U32 4 0; U64 16 0])).
  - lia.
  - intros r [? ?] _. solve_typed.
  - by repeat constructor.
  - done.
  - done.
  - done.
  - intros b n r _. unfold kb2_gpu_session_open_encode. rewrite <- valid_open_spec.
    destruct (valid_open r); cbn; [| by right; split; [intros [_ ?] |]].
    destruct (Z.eqb_spec n KB2_GPU_SESSION_OPEN_REQUEST_SIZE) as [-> | Hn]; cbn; [by left |].
    right. split; [by intros [? _] | done].
  - intros b n r. unfold kb2_gpu_session_open_encode. by destruct (valid_open r), (_ =? _).
  - intros b n r. unfold kb2_gpu_session_open_decode, status_decoded. cbn [negb].
    destruct (Z.eqb_spec n KB2_GPU_SESSION_OPEN_REQUEST_SIZE) as [-> | Hn]; cbn [negb]; [| done]. cbv zeta.
    destruct (valid_open _) eqn:Hv; [| done]. cbn [negb orb].
    destruct (Z.eqb_spec (load_u32 b KB2_GPU_SESSION_OPEN_REQUEST_FLAGS_OFFSET) 0); [| done].
    destruct (Z.eqb_spec (load_u64 b KB2_GPU_SESSION_OPEN_REQUEST_RESERVED_OFFSET) 0); [| done].
    intros [= <-]. split_and!; [split; [apply load_u32_range | apply load_u64_range] | by apply valid_open_spec | done |].
    by repeat (apply Forall_cons; split).
  - intros b n r _ Hv -> Hr. cbn [app] in Hr. solve_reads. apply valid_open_spec in Hv.
    unfold kb2_gpu_session_open_decode, status_decoded, KB2_GPU_SESSION_OPEN_REQUEST_NODE_TYPE_OFFSET,
      KB2_GPU_SESSION_OPEN_REQUEST_CLIENT_ID_OFFSET, KB2_GPU_SESSION_OPEN_REQUEST_FLAGS_OFFSET,
      KB2_GPU_SESSION_OPEN_REQUEST_RESERVED_OFFSET. cbv zeta. destruct r as [node client]. cbn in *. subst.
    rewrite Hv. by repeat match goal with H : _ = 0 |- _ => rewrite H end.
  - lia.
  - done.
Qed.

Lemma session_close_wire :
  WireFormat (fun b n s => let '(st, out) := kb2_gpu_session_close_encode (Some b) n s in status_encoded b st out)
    (fun b n => status_decoded (kb2_gpu_session_close_decode (Some b) n true))
    is_u64 (fun s => s <> 0) (fun n _ => n = 16) (fun n _ => n = 16) (fun _ => 16).
Proof.
  apply (record_wire (fun _ => 16) (fun s => [U64 0 s]) (fun _ => [U32 8 0; U32 12 0])).
  - lia.
  - intros s ? _. solve_typed.
  - by repeat constructor.
  - done.
  - done.
  - done.
  - intros b n s _. unfold kb2_gpu_session_close_encode.
    destruct (Z.eqb_spec s 0) as [-> | Hs]; cbn; [by right; split; [intros [_ ?] |] |].
    destruct (Z.eqb_spec n KB2_GPU_SESSION_CLOSE_REQUEST_SIZE) as [-> | Hn]; cbn; [by left |].
    right. split; [by intros [? _] | done].
  - intros b n s. unfold kb2_gpu_session_close_encode. by destruct (s =? 0), (n =? KB2_GPU_SESSION_CLOSE_REQUEST_SIZE).
  - intros b n s. unfold kb2_gpu_session_close_decode, status_decoded. cbn [negb].
    destruct (Z.eqb_spec n KB2_GPU_SESSION_CLOSE_REQUEST_SIZE) as [-> | Hn]; cbn [negb]; [| done]. cbv zeta.
    destruct (Z.eqb_spec (load_u64 b KB2_GPU_SESSION_CLOSE_REQUEST_SESSION_ID_OFFSET) 0); [done |].
    destruct (Z.eqb_spec (load_u32 b KB2_GPU_SESSION_CLOSE_REQUEST_FLAGS_OFFSET) 0); [| done].
    destruct (Z.eqb_spec (load_u32 b KB2_GPU_SESSION_CLOSE_REQUEST_RESERVED_OFFSET) 0); [| done].
    intros [= <-]. split_and!; [apply load_u64_range | done | done |]. by repeat (apply Forall_cons; split).
  - intros b n s _ Hs -> Hr. cbn [app] in Hr. solve_reads.
    unfold kb2_gpu_session_close_decode, status_decoded, KB2_GPU_SESSION_CLOSE_REQUEST_SESSION_ID_OFFSET,
      KB2_GPU_SESSION_CLOSE_REQUEST_FLAGS_OFFSET, KB2_GPU_SESSION_CLOSE_REQUEST_RESERVED_OFFSET. cbv zeta. subst.
    destruct (Z.eqb_spec (load_u64 b 0) 0); [done |]. by repeat match goal with H : _ = 0 |- _ => rewrite H end.
  - lia.
  - done.
Qed.

(** * Completions *)

Record session_completion_typed (opcode : Z) (c : kb2_gpu_session_completion) : Prop := {
  sct_opcode : sc_opcode c = opcode;
  sct_status : is_u32 (sc_status c);
  sct_session_id : is_u64 (sc_session_id c);
  sct_topology_epoch : is_u64 (sc_topology_epoch c);
  sct_capabilities : is_u64 (sc_capabilities c);
}.

(** A successful open names the session and the topology; a failed open carries
    nothing; a close names the session. *)
Definition session_completion_ok (c : kb2_gpu_session_completion) : Prop :=
  sc_status c <= 15 /\
  ((sc_opcode c = 2 /\ sc_status c = 0 /\ sc_session_id c <> 0 /\ sc_topology_epoch c <> 0) \/
   (sc_opcode c = 2 /\ sc_status c <> 0 /\ sc_session_id c = 0 /\ sc_topology_epoch c = 0 /\ sc_capabilities c = 0) \/
   (sc_opcode c = 3 /\ sc_session_id c <> 0 /\ sc_topology_epoch c = 0 /\ sc_capabilities c = 0)).

Lemma valid_completion_spec c : valid_completion c = true <-> session_completion_ok c.
Proof.
  unfold valid_completion, session_completion_ok, KB2_GPU_STATUS_DEVICE_LOST, KB2_GPU_OPCODE_SESSION_OPEN,
    KB2_GPU_OPCODE_SESSION_CLOSE, KB2_GPU_STATUS_OK.
  destruct (Z.ltb_spec 15 (sc_status c)), (Z.eqb_spec (sc_opcode c) 2), (Z.eqb_spec (sc_status c) 0); lia.
Qed.

(** Whether the completion carries the open response. *)
Definition carries_session (opcode status : Z) : bool := (opcode =? 2) && (status =? 0).

Definition session_header_written (payload : Z) (c : kb2_gpu_session_completion) : list field :=
  [U32 0 (104 + payload); Raw 4 4 KB2_GPU_ABI_IDENTITY_BYTES; Raw 8 32 KB2_GPU_SCHEMA_SHA256_BYTES;
   U64 40 (sc_session_id c); U32 48 (sc_status c); U32 52 1; U32 68 payload; U32 72 104; U32 76 104; U32 80 104;
   U32 84 104].

Definition session_written (c : kb2_gpu_session_completion) : list field :=
  if carries_session (sc_opcode c) (sc_status c)
  then session_header_written 32 c ++
       [U64 104 (sc_session_id c); U64 112 (sc_topology_epoch c); U64 120 (sc_capabilities c)]
  else session_header_written 0 c.

Definition session_reserved (c : kb2_gpu_session_completion) : list field :=
  [U32 56 0; U32 60 0; U32 64 0; U32 88 0; U32 92 0; U64 96 0] ++
  if carries_session (sc_opcode c) (sc_status c) then [U64 128 0] else [].

Definition session_completion_size (c : kb2_gpu_session_completion) : Z :=
  if carries_session (sc_opcode c) (sc_status c) then 136 else 104.

Lemma session_header_spec b n payload :
  session_header_valid b n payload = true <->
  n = 104 + payload /\ load_u32 b 0 = n /\ load_u32 b 52 = 1 /\ load_u32 b 56 = 0 /\ load_u32 b 60 = 0 /\
  load_u32 b 64 = 0 /\ load_u32 b 68 = payload /\ load_u32 b 72 = 104 /\ load_u32 b 76 = 104 /\
  load_u32 b 80 = 104 /\ load_u32 b 84 = 104 /\ load_u32 b 88 = 0 /\ load_u32 b 92 = 0 /\ load_u64 b 96 = 0.
Proof.
  unfold session_header_valid. rewrite !negb_orb, !negb_involutive, !andb_true_iff, !Z.eqb_eq. tauto.
Qed.

Lemma session_payload opcode status :
  completion_payload opcode status = if carries_session opcode status then 32 else 0.
Proof. done. Qed.

Lemma gpu_identity_typed : field_typed (Raw 4 4 KB2_GPU_ABI_IDENTITY_BYTES).
Proof. split; [done |]. by apply (bool_decide_unpack _). Qed.

Lemma gpu_digest_typed : field_typed (Raw 8 32 KB2_GPU_SCHEMA_SHA256_BYTES).
Proof. split; [done |]. by apply (bool_decide_unpack _). Qed.

Definition session_encoder (b : list Z) (n : Z) (c : kb2_gpu_session_completion) : bool * list Z :=
  let '(st, _, out) := kb2_gpu_session_completion_encode (Some b) n true (Some c) in status_encoded b st out.

Lemma session_encode_spec b n c :
  (session_completion_size c <= n /\ session_completion_ok c /\
     session_encoder b n c = (true, put_fields (zero_bytes b 0 (session_completion_size c)) 0 (session_written c))) \/
  (~ (session_completion_size c <= n /\ session_completion_ok c) /\ session_encoder b n c = (false, b)).
Proof.
  unfold session_encoder, kb2_gpu_session_completion_encode. rewrite <- valid_completion_spec. cbn [negb].
  destruct (valid_completion c); cbn [negb]; [| right; by split; [intros [_ ?] |]].
  rewrite session_payload. unfold session_completion_size, session_written. change KB2_GPU_COMPLETION_HEADER_SIZE with 104.
  destruct (carries_session _ _).
  - change (104 + 32) with 136. destruct (Z.ltb_spec n 136); [right | left]; split_and?; try done; intros []; lia.
  - change (104 + 0) with 104. destruct (Z.ltb_spec n 104); [right | left]; split_and?; try done; intros []; lia.
Qed.

Definition session_decoder (opcode : Z) (b : list Z) (n : Z) : option kb2_gpu_session_completion :=
  status_decoded (kb2_gpu_session_completion_decode (Some b) n opcode true).

Lemma session_decode_reads opcode b n c :
  session_decoder opcode b n = Some c ->
  session_completion_typed opcode c /\ session_completion_ok c /\ n = session_completion_size c /\
  Forall (reads b 0) (session_written c ++ session_reserved c).
Proof.
  unfold session_decoder, kb2_gpu_session_completion_decode, status_decoded. cbn [negb].
  destruct (Z.ltb_spec n KB2_GPU_COMPLETION_HEADER_SIZE); [done |].
  destruct (bytes_equal b _ KB2_GPU_ABI_IDENTITY_BYTES) eqn:Hi; [| done].
  destruct (bytes_equal b _ KB2_GPU_SCHEMA_SHA256_BYTES) eqn:Hs; [| done]. cbn [negb orb]. cbv zeta.
  apply bytes_equal_reads in Hi, Hs. rewrite session_payload.
  destruct (session_header_valid b n _) eqn:Hh; [| done]. cbn [negb].
  apply session_header_spec in Hh as (Hn & H0 & H52 & H56 & H60 & H64 & H68 & H72 & H76 & H80 & H84 & H88 & H92 & H96).
  destruct (carries_session opcode _) eqn:Hc; cbn [Z.eqb negb andb].
  - destruct (Z.eqb_spec (load_u64 b (KB2_GPU_COMPLETION_HEADER_SIZE + KB2_GPU_SESSION_OPEN_RESPONSE_SESSION_ID_OFFSET))
      (load_u64 b KB2_GPU_COMPLETION_HEADER_SESSION_ID_OFFSET)) as [Hid |]; [| done].
    destruct (Z.eqb_spec (load_u64 b (KB2_GPU_COMPLETION_HEADER_SIZE + KB2_GPU_SESSION_OPEN_RESPONSE_RESERVED_OFFSET)) 0)
      as [Hz |]; [| done]. cbn [negb orb]. destruct (valid_completion _) eqn:Hv; [| done].
    intros [= <-]. apply valid_completion_spec in Hv.
    unfold session_completion_size, session_written, session_reserved. cbn [sc_opcode sc_status]. rewrite Hc.
    split_and!; [split; first [apply load_u32_range | apply load_u64_range | done] | done | done |].
    rewrite Hn in H0. by repeat (apply Forall_cons; split).
  - destruct (valid_completion _) eqn:Hv; [| done]. intros [= <-]. apply valid_completion_spec in Hv.
    unfold session_completion_size, session_written, session_reserved. cbn [sc_opcode sc_status]. rewrite Hc.
    split_and!; [split; first [apply load_u32_range | apply load_u64_range | done] | done | lia |].
    rewrite Hn in H0. by repeat (apply Forall_cons; split).
Qed.

Lemma session_reads_decode opcode b n c :
  session_completion_typed opcode c -> session_completion_ok c -> n = session_completion_size c ->
  Forall (reads b 0) (session_written c ++ session_reserved c) -> session_decoder opcode b n = Some c.
Proof.
  intros [<- _ _ _ _] Hok%valid_completion_spec -> Hr. destruct c as [opcode status session epoch caps].
  unfold session_written, session_reserved, session_completion_size in *. cbn [sc_opcode sc_status] in *.
  unfold session_decoder, kb2_gpu_session_completion_decode, status_decoded. cbn [negb]. rewrite session_payload.
  assert (Hid : bytes_equal b 4 KB2_GPU_ABI_IDENTITY_BYTES = true /\ bytes_equal b 8 KB2_GPU_SCHEMA_SHA256_BYTES = true
    /\ load_u32 b 48 = status /\ load_u64 b 40 = session).
  { rewrite !bytes_equal_reads. apply Forall_app in Hr as [Hr _].
    destruct (carries_session _ _); unfold session_header_written in Hr; cbn [app] in Hr; solve_reads; done. }
  destruct Hid as (Hi & Hs & Hst & Hse).
  assert (Hh : session_header_valid b (if carries_session opcode status then 136 else 104)
                 (if carries_session opcode status then 32 else 0) = true).
  { apply session_header_spec. destruct (carries_session _ _); unfold session_header_written in Hr; cbn [app] in Hr; solve_reads; by split_and!. }
  change KB2_GPU_COMPLETION_HEADER_ABI_IDENTITY_OFFSET with 4. change KB2_GPU_COMPLETION_HEADER_SCHEMA_DIGEST_OFFSET with 8.
  change KB2_GPU_COMPLETION_HEADER_STATUS_OFFSET with 48. change KB2_GPU_COMPLETION_HEADER_SESSION_ID_OFFSET with 40.
  change KB2_GPU_COMPLETION_HEADER_SIZE with 104. rewrite Hi, Hs, Hst, Hse, Hh. cbn [negb orb].
  destruct (carries_session opcode status) eqn:Hc; cbn [Z.eqb negb andb Z.ltb Z.compare Pos.compare Pos.compare_cont].
  - unfold session_header_written in Hr. cbn [app] in Hr. solve_reads.
    change (104 + KB2_GPU_SESSION_OPEN_RESPONSE_SESSION_ID_OFFSET) with 104.
    change (104 + KB2_GPU_SESSION_OPEN_RESPONSE_RESERVED_OFFSET) with 128.
    change (104 + KB2_GPU_SESSION_OPEN_RESPONSE_TOPOLOGY_EPOCH_OFFSET) with 112.
    change (104 + KB2_GPU_SESSION_OPEN_RESPONSE_CAPABILITIES_OFFSET) with 120.
    repeat match goal with H : load_u64 b ?o = _ |- context [load_u64 b ?o] => rewrite H end.
    rewrite Z.eqb_refl. cbn [negb orb Z.eqb sc_session_id sc_topology_epoch sc_capabilities] in *. by rewrite Hok.
  - assert (Hz : epoch = 0 /\ caps = 0).
    { apply valid_completion_spec in Hok as [_ Hok]. unfold carries_session in Hc. cbn in *. lia. }
    destruct Hz as [-> ->]. by rewrite Hok.
Qed.

Lemma session_completion_wire opcode :
  WireFormat session_encoder (session_decoder opcode) (session_completion_typed opcode) session_completion_ok
    (fun n c => session_completion_size c <= n) (fun n c => n = session_completion_size c) session_completion_size.
Proof.
  apply (record_wire session_completion_size session_written session_reserved).
  - intros c _. unfold session_completion_size. case_match; lia.
  - intros c [] _. unfold session_written, session_header_written.
    case_match; cbn [app]; solve_typed; first [apply gpu_identity_typed | apply gpu_digest_typed | done].
  - intros c _. unfold session_reserved. case_match; by repeat constructor.
  - intros c _. unfold session_completion_size, session_written. by case_match.
  - intros c _. unfold session_completion_size, session_written, session_reserved. by case_match.
  - intros c _. unfold session_completion_size, session_written, session_reserved. by case_match.
  - intros b n c _. apply session_encode_spec.
  - intros b n c. destruct (session_encode_spec b n c) as [(_ & _ & ->) | [_ ->]]; done.
  - apply session_decode_reads.
  - apply session_reads_decode.
  - done.
  - intros n c _ ->. done.
Qed.
