(* ===== verification/GpuCompletion.v ===== *)
(** GPU command completions (protocol/src/gpu_completion.c, protocol/include/kobox2/gpu.h):
    inline results, results that carry one attachment, and the mapping results of the
    four DRM command sets, which share one codec parameterised by their record format.

    [put_fields b d fs] performs the stores of the list at the record [d], in order.
    A pointer to result bytes is an option; the decoder's pointer into the buffer is
    the bytes it points to. *)

From Stdlib Require Import ZArith Lia.
From stdpp Require Import base numbers tactics list_numbers list.
From S2P Require Import Prelude Bytes Layout Protocol GpuLayout.

Open Scope Z_scope.
Open Scope kobox_scope.

Record kb2_gpu_inline_completion := mkInlineCompletion {
  ic_session_id : Z;
  ic_status : Z;
  ic_record_schema_id : Z;
  ic_data : option (list Z);
  ic_length : Z;
}.

Record kb2_gpu_attachment := mkAttachment {
  at_attachment_id : Z;
  at_object_class : Z;
  at_exchange_id : Z;
  at_generation : Z;
  at_rights : Z;
  at_role : Z;
  at_ownership : Z;
  at_flags : Z;
}.

Record kb2_gpu_attachment_completion := mkAttachmentCompletion {
  ac_session_id : Z;
  ac_status : Z;
  ac_argument_id : Z;
  ac_attachment : kb2_gpu_attachment;
}.

Definition KB2_GPU_MAPPING_CACHE_UC : Z := 2.

Record kb2_gpu_virtgpu_map_completion := mkMapCompletion {
  mc_session_id : Z;
  mc_status : Z;
  mc_mapping_id : Z;
  mc_length : Z;
  mc_cache_policy : Z;
  mc_exchange_id : Z;
  mc_generation : Z;
  mc_rights : Z;
}.

(** * Validity *)

Definition valid (c : kb2_gpu_inline_completion) : bool :=
  negb (ic_session_id c =? 0) && (ic_status c <=? KB2_GPU_STATUS_DEVICE_LOST) &&
  (ic_length c <=? KB2_GPU_MAX_INLINE_BYTES) &&
  (if negb (ic_length c =? 0) then bool_decide (is_Some (ic_data c)) && negb (ic_record_schema_id c =? 0)
   else ic_record_schema_id c =? 0) &&
  ((ic_status c =? KB2_GPU_STATUS_OK) || (ic_length c =? 0)).

Definition map_valid (c : kb2_gpu_virtgpu_map_completion) : bool :=
  let known_rights := Z.lor KB2_GPU_SPAN_RIGHT_READ KB2_GPU_SPAN_RIGHT_WRITE in
  if (mc_session_id c =? 0) || (KB2_GPU_STATUS_DEVICE_LOST <? mc_status c) then false
  else if negb (mc_status c =? KB2_GPU_STATUS_OK) then
    (mc_mapping_id c =? 0) && (mc_length c =? 0) && (mc_cache_policy c =? 0) && (mc_exchange_id c =? 0) &&
    (mc_generation c =? 0) && (mc_rights c =? 0)
  else
    negb (mc_mapping_id c =? 0) && (Z.land (mc_mapping_id c) 4095 =? 0) &&
    (mc_cache_policy c <=? KB2_GPU_MAPPING_CACHE_UC) && negb (mc_length c =? 0) &&
    (Z.land (mc_length c) 4095 =? 0) && negb (mc_exchange_id c =? 0) && negb (mc_generation c =? 0) &&
    negb (mc_rights c =? 0) && (mc_rights c &~ known_rights =? 0).

Definition attachment_completion_valid (c : kb2_gpu_attachment_completion) : bool :=
  let a := ac_attachment c in
  if (ac_session_id c =? 0) || (KB2_GPU_STATUS_DEVICE_LOST <? ac_status c) then false
  else if negb (ac_status c =? KB2_GPU_STATUS_OK) then
    (ac_argument_id c =? 0) && (at_attachment_id a =? 0) && (at_object_class a =? 0) && (at_exchange_id a =? 0) &&
    (at_generation a =? 0) && (at_rights a =? 0) && (at_role a =? 0) && (at_ownership a =? 0) && (at_flags a =? 0)
  else
    negb (ac_argument_id c =? 0) && negb (at_attachment_id a =? 0) &&
    (KB2_GPU_ATTACHMENT_MEMORY <=? at_object_class a) && (at_object_class a <=? KB2_GPU_ATTACHMENT_SYNCOBJ) &&
    negb (at_exchange_id a =? 0) && negb (at_generation a =? 0) && negb (at_rights a =? 0) &&
    negb (at_role a =? 0) && (KB2_GPU_ATTACHMENT_BORROW <=? at_ownership a) &&
    (at_ownership a <=? KB2_GPU_ATTACHMENT_MOVE) && (at_flags a =? KB2_GPU_ATTACHMENT_FLAG_OUTPUT).

(** * Record formats of the mapping results *)

Record mapping_completion_format := mkFormat {
  fm_record_schema_id : Z;
  fm_record_size : Z;
  fm_mapping_id_offset : Z;
  fm_length_offset : Z;
  fm_cache_policy_offset : Z;
  fm_reserved_offset : Z;
  fm_attachment_argument_id : Z;
  fm_attachment_role : Z;
}.

Definition virtgpu_map_format : mapping_completion_format :=
  mkFormat KB2_GPU_DRM_VIRTGPU_RECORD_MAPPING_RESULT KB2_GPU_DRM_VIRTGPU_RECORD_MAPPING_RESULT_SIZE
    KB2_GPU_DRM_VIRTGPU_RECORD_MAPPING_RESULT_MAPPING_ID_OFFSET
    KB2_GPU_DRM_VIRTGPU_RECORD_MAPPING_RESULT_LENGTH_OFFSET
    KB2_GPU_DRM_VIRTGPU_RECORD_MAPPING_RESULT_CACHE_POLICY_OFFSET
    KB2_GPU_DRM_VIRTGPU_RECORD_MAPPING_RESULT_RESERVED_OFFSET
    KB2_GPU_DRM_VIRTGPU_COMMAND_MAP_COMPLETION_ATTACHMENT_MAPPING_ARGUMENT_ID
    KB2_GPU_DRM_VIRTGPU_COMMAND_MAP_COMPLETION_ATTACHMENT_MAPPING_ROLE.

Definition mode_map_format : mapping_completion_format :=
  mkFormat KB2_GPU_DRM_MODE_RECORD_MAPPING_RESULT KB2_GPU_DRM_MODE_RECORD_MAPPING_RESULT_SIZE
    KB2_GPU_DRM_MODE_RECORD_MAPPING_RESULT_MAPPING_ID_OFFSET
    KB2_GPU_DRM_MODE_RECORD_MAPPING_RESULT_LENGTH_OFFSET
    KB2_GPU_DRM_MODE_RECORD_MAPPING_RESULT_CACHE_POLICY_OFFSET
    KB2_GPU_DRM_MODE_RECORD_MAPPING_RESULT_RESERVED_OFFSET
    KB2_GPU_DRM_MODE_COMMAND_MAP_DUMB_COMPLETION_ATTACHMENT_MAPPING_ARGUMENT_ID
    KB2_GPU_DRM_MODE_COMMAND_MAP_DUMB_COMPLETION_ATTACHMENT_MAPPING_ROLE.

Definition amdgpu_map_format : mapping_completion_format :=
  mkFormat KB2_GPU_DRM_AMDGPU_RECORD_GEM_MMAP_RESULT KB2_GPU_DRM_AMDGPU_RECORD_GEM_MMAP_RESULT_SIZE
    KB2_GPU_DRM_AMDGPU_RECORD_GEM_MMAP_RESULT_MAPPING_ID_OFFSET
    KB2_GPU_DRM_AMDGPU_RECORD_GEM_MMAP_RESULT_LENGTH_OFFSET
    KB2_GPU_DRM_AMDGPU_RECORD_GEM_MMAP_RESULT_CACHE_POLICY_OFFSET
    KB2_GPU_DRM_AMDGPU_RECORD_GEM_MMAP_RESULT_RESERVED_OFFSET
    KB2_GPU_DRM_AMDGPU_COMMAND_GEM_MMAP_COMPLETION_ATTACHMENT_CPU_MAPPING_ARGUMENT_ID
    KB2_GPU_DRM_AMDGPU_COMMAND_GEM_MMAP_COMPLETION_ATTACHMENT_CPU_MAPPING_ROLE.

Definition i915_map_format : mapping_completion_format :=
  mkFormat KB2_GPU_DRM_I915_RECORD_GEM_MMAP_RESULT KB2_GPU_DRM_I915_RECORD_GEM_MMAP_RESULT_SIZE
    KB2_GPU_DRM_I915_RECORD_GEM_MMAP_RESULT_MAPPING_ID_OFFSET
    KB2_GPU_DRM_I915_RECORD_GEM_MMAP_RESULT_LENGTH_OFFSET
    KB2_GPU_DRM_I915_RECORD_GEM_MMAP_RESULT_CACHE_POLICY_OFFSET
    KB2_GPU_DRM_I915_RECORD_GEM_MMAP_RESULT_RESERVED_OFFSET
    KB2_GPU_DRM_I915_COMMAND_GEM_MMAP_OFFSET_COMPLETION_ATTACHMENT_CPU_MAPPING_ARGUMENT_ID
    KB2_GPU_DRM_I915_COMMAND_GEM_MMAP_OFFSET_COMPLETION_ATTACHMENT_CPU_MAPPING_ROLE.

(** * Inline results *)

Definition kb2_gpu_inline_completion_encode (buffer : option (list Z)) (capacity : Z) (size_given : bool)
    (completion : option kb2_gpu_inline_completion) : kb2_protocol_status * option Z * option (list Z) :=
  match buffer, completion with
  | Some b, Some c =>
      if negb size_given then (KB2_PROTOCOL_INVALID_ARGUMENT, None, Some b)
      else if negb (valid c) then (KB2_PROTOCOL_MALFORMED, None, Some b)
      else
        let offset := KB2_GPU_COMPLETION_HEADER_SIZE +
                      (if ic_length c =? 0 then 0 else KB2_GPU_ARGUMENT_DESCRIPTOR_SIZE) in
        let size := offset + ic_length c in
        if capacity <? size then (KB2_PROTOCOL_BUFFER_TOO_SMALL, None, Some b)
        else
          let b := zero_bytes b 0 size in
          let b := put_fields b 0
            [U32 KB2_GPU_COMPLETION_HEADER_TOTAL_SIZE_OFFSET (u32 size);
             Raw KB2_GPU_COMPLETION_HEADER_ABI_IDENTITY_OFFSET 4 KB2_GPU_ABI_IDENTITY_BYTES;
             Raw KB2_GPU_COMPLETION_HEADER_SCHEMA_DIGEST_OFFSET 32 KB2_GPU_SCHEMA_SHA256_BYTES;
             U64 KB2_GPU_COMPLETION_HEADER_SESSION_ID_OFFSET (ic_session_id c);
             U32 KB2_GPU_COMPLETION_HEADER_STATUS_OFFSET (ic_status c);
             U32 KB2_GPU_COMPLETION_HEADER_DISPOSITION_OFFSET KB2_GPU_DISPOSITION_COMPLETED;
             U32 KB2_GPU_COMPLETION_HEADER_ARGUMENT_COUNT_OFFSET (if ic_length c =? 0 then 0 else 1);
             U32 KB2_GPU_COMPLETION_HEADER_INLINE_LENGTH_OFFSET (u32 (ic_length c));
             U32 KB2_GPU_COMPLETION_HEADER_ARGUMENT_TABLE_OFFSET_OFFSET KB2_GPU_COMPLETION_HEADER_SIZE;
             U32 KB2_GPU_COMPLETION_HEADER_SPAN_TABLE_OFFSET_OFFSET (u32 offset);
             U32 KB2_GPU_COMPLETION_HEADER_ATTACHMENT_TABLE_OFFSET_OFFSET (u32 offset);
             U32 KB2_GPU_COMPLETION_HEADER_INLINE_OFFSET_OFFSET (u32 offset)] in
          let b :=
            if ic_length c =? 0 then b
            else
              let b := put_fields b KB2_GPU_COMPLETION_HEADER_SIZE
                [U32 KB2_GPU_ARGUMENT_DESCRIPTOR_ARGUMENT_ID_OFFSET 1;
                 U32 KB2_GPU_ARGUMENT_DESCRIPTOR_KIND_OFFSET KB2_GPU_ARGUMENT_INLINE;
                 U32 KB2_GPU_ARGUMENT_DESCRIPTOR_FLAGS_OFFSET KB2_GPU_ARGUMENT_FLAG_OUTPUT;
                 U32 KB2_GPU_ARGUMENT_DESCRIPTOR_RECORD_SCHEMA_ID_OFFSET (ic_record_schema_id c);
                 U32 KB2_GPU_ARGUMENT_DESCRIPTOR_COUNT_OFFSET (u32 (ic_length c))] in
              put_bytes b offset (default [] (ic_data c)) in
          (KB2_PROTOCOL_OK, Some size, Some b)
  | _, _ => (KB2_PROTOCOL_INVALID_ARGUMENT, None, buffer)
  end.

(** The header tests of the inline decoder. *)
Definition inline_header_valid (b : list Z) (size expected_session offset length : Z) : bool :=
  negb ((KB2_GPU_MAX_INLINE_BYTES <? length) ||
        negb (load_u64 b KB2_GPU_COMPLETION_HEADER_SESSION_ID_OFFSET =? expected_session) ||
        negb (size =? offset + length) ||
        negb (load_u32 b KB2_GPU_COMPLETION_HEADER_TOTAL_SIZE_OFFSET =? size) ||
        negb (load_u32 b KB2_GPU_COMPLETION_HEADER_DISPOSITION_OFFSET =? KB2_GPU_DISPOSITION_COMPLETED) ||
        negb (load_u32 b KB2_GPU_COMPLETION_HEADER_ARGUMENT_COUNT_OFFSET =? (if length =? 0 then 0 else 1)) ||
        negb (load_u32 b KB2_GPU_COMPLETION_HEADER_SPAN_COUNT_OFFSET =? 0) ||
        negb (load_u32 b KB2_GPU_COMPLETION_HEADER_ATTACHMENT_COUNT_OFFSET =? 0) ||
        negb (load_u32 b KB2_GPU_COMPLETION_HEADER_ARGUMENT_TABLE_OFFSET_OFFSET =?
                KB2_GPU_COMPLETION_HEADER_SIZE) ||
        negb (load_u32 b KB2_GPU_COMPLETION_HEADER_SPAN_TABLE_OFFSET_OFFSET =? offset) ||
        negb (load_u32 b KB2_GPU_COMPLETION_HEADER_ATTACHMENT_TABLE_OFFSET_OFFSET =? offset) ||
        negb (load_u32 b KB2_GPU_COMPLETION_HEADER_INLINE_OFFSET_OFFSET =? offset) ||
        negb (load_u32 b KB2_GPU_COMPLETION_HEADER_DETAIL_SET_ID_OFFSET =? 0) ||
        negb (load_u32 b KB2_GPU_COMPLETION_HEADER_DETAIL_CODE_OFFSET =? 0) ||
        negb (load_u64 b KB2_GPU_COMPLETION_HEADER_RESERVED_OFFSET =? 0)).

(** The tests of the argument descriptor of an inline result. *)
Definition inline_argument_valid (b : list Z) (argument length : Z) : bool :=
  negb (negb (load_u32 b (argument + KB2_GPU_ARGUMENT_DESCRIPTOR_ARGUMENT_ID_OFFSET) =? 1) ||
        negb (load_u32 b (argument + KB2_GPU_ARGUMENT_DESCRIPTOR_KIND_OFFSET) =? KB2_GPU_ARGUMENT_INLINE) ||
        negb (load_u32 b (argument + KB2_GPU_ARGUMENT_DESCRIPTOR_FLAGS_OFFSET) =? KB2_GPU_ARGUMENT_FLAG_OUTPUT) ||
        negb (load_u64 b (argument + KB2_GPU_ARGUMENT_DESCRIPTOR_VALUE_OFFSET) =? 0) ||
        negb (load_u32 b (argument + KB2_GPU_ARGUMENT_DESCRIPTOR_COUNT_OFFSET) =? length) ||
        negb (load_u32 b (argument + KB2_GPU_ARGUMENT_DESCRIPTOR_RESERVED_OFFSET) =? 0)).

Definition kb2_gpu_inline_completion_decode (buffer : option (list Z)) (size expected_session : Z)
    (out_given : bool) : kb2_protocol_status * option kb2_gpu_inline_completion :=
  match buffer with
  | None => (KB2_PROTOCOL_INVALID_ARGUMENT, None)
  | Some b =>
      if negb out_given || (expected_session =? 0) then (KB2_PROTOCOL_INVALID_ARGUMENT, None)
      else if size <? KB2_GPU_COMPLETION_HEADER_SIZE then (KB2_PROTOCOL_BUFFER_TOO_SMALL, None)
      else if negb (bytes_equal b KB2_GPU_COMPLETION_HEADER_ABI_IDENTITY_OFFSET KB2_GPU_ABI_IDENTITY_BYTES) ||
              negb (bytes_equal b KB2_GPU_COMPLETION_HEADER_SCHEMA_DIGEST_OFFSET KB2_GPU_SCHEMA_SHA256_BYTES)
      then (KB2_PROTOCOL_SCHEMA_MISMATCH, None)
      else
        let length := load_u32 b KB2_GPU_COMPLETION_HEADER_INLINE_LENGTH_OFFSET in
        let offset := KB2_GPU_COMPLETION_HEADER_SIZE +
                      (if length =? 0 then 0 else KB2_GPU_ARGUMENT_DESCRIPTOR_SIZE) in
        if negb (inline_header_valid b size expected_session offset length) then (KB2_PROTOCOL_MALFORMED, None)
        else
          let argument := KB2_GPU_COMPLETION_HEADER_SIZE in
          if negb (length =? 0) && negb (inline_argument_valid b argument length)
          then (KB2_PROTOCOL_MALFORMED, None)
          else
            let completion := mkInlineCompletion
              (load_u64 b KB2_GPU_COMPLETION_HEADER_SESSION_ID_OFFSET)
              (load_u32 b KB2_GPU_COMPLETION_HEADER_STATUS_OFFSET)
              (if length =? 0 then 0
               else load_u32 b (argument + KB2_GPU_ARGUMENT_DESCRIPTOR_RECORD_SCHEMA_ID_OFFSET))
              (if length =? 0 then None else Some (get_bytes b offset length))
              length in
            if negb (valid completion) then (KB2_PROTOCOL_MALFORMED, None)
            else (KB2_PROTOCOL_OK, Some completion)
  end.

(** The completion of a failed command: no result. *)
Definition error_completion (session_id status : Z) : kb2_gpu_inline_completion :=
  mkInlineCompletion session_id status 0 None 0.

(** * Results with an attachment *)

Definition kb2_gpu_attachment_completion_encode (buffer : option (list Z)) (capacity : Z) (size_given : bool)
    (completion : option kb2_gpu_attachment_completion) : kb2_protocol_status * option Z * option (list Z) :=
  match buffer, completion with
  | Some b, Some c =>
      if negb size_given then (KB2_PROTOCOL_INVALID_ARGUMENT, None, Some b)
      else if negb (attachment_completion_valid c) then (KB2_PROTOCOL_MALFORMED, None, Some b)
      else if negb (ac_status c =? KB2_GPU_STATUS_OK) then
        kb2_gpu_inline_completion_encode (Some b) capacity true (Some (error_completion (ac_session_id c) (ac_status c)))
      else
        let argument_offset := KB2_GPU_COMPLETION_HEADER_SIZE in
        let attachment_offset := argument_offset + KB2_GPU_ARGUMENT_DESCRIPTOR_SIZE in
        let size := attachment_offset + KB2_GPU_ATTACHMENT_DESCRIPTOR_SIZE in
        if capacity <? size then (KB2_PROTOCOL_BUFFER_TOO_SMALL, None, Some b)
        else
          let b := zero_bytes b 0 size in
          let b := put_fields b 0
            [U32 KB2_GPU_COMPLETION_HEADER_TOTAL_SIZE_OFFSET (u32 size);
             Raw KB2_GPU_COMPLETION_HEADER_ABI_IDENTITY_OFFSET 4 KB2_GPU_ABI_IDENTITY_BYTES;
             Raw KB2_GPU_COMPLETION_HEADER_SCHEMA_DIGEST_OFFSET 32 KB2_GPU_SCHEMA_SHA256_BYTES;
             U64 KB2_GPU_COMPLETION_HEADER_SESSION_ID_OFFSET (ac_session_id c);
             U32 KB2_GPU_COMPLETION_HEADER_STATUS_OFFSET (ac_status c);
             U32 KB2_GPU_COMPLETION_HEADER_DISPOSITION_OFFSET KB2_GPU_DISPOSITION_COMPLETED;
             U32 KB2_GPU_COMPLETION_HEADER_ARGUMENT_COUNT_OFFSET 1;
             U32 KB2_GPU_COMPLETION_HEADER_ATTACHMENT_COUNT_OFFSET 1;
             U32 KB2_GPU_COMPLETION_HEADER_ARGUMENT_TABLE_OFFSET_OFFSET (u32 argument_offset);
             U32 KB2_GPU_COMPLETION_HEADER_SPAN_TABLE_OFFSET_OFFSET (u32 attachment_offset);
             U32 KB2_GPU_COMPLETION_HEADER_ATTACHMENT_TABLE_OFFSET_OFFSET (u32 attachment_offset);
             U32 KB2_GPU_COMPLETION_HEADER_INLINE_OFFSET_OFFSET (u32 size)] in
          let b := put_fields b argument_offset
            [U32 KB2_GPU_ARGUMENT_DESCRIPTOR_ARGUMENT_ID_OFFSET (ac_argument_id c);
             U32 KB2_GPU_ARGUMENT_DESCRIPTOR_KIND_OFFSET KB2_GPU_ARGUMENT_ATTACHMENT;
             U32 KB2_GPU_ARGUMENT_DESCRIPTOR_FLAGS_OFFSET KB2_GPU_ARGUMENT_FLAG_OUTPUT;
             U64 KB2_GPU_ARGUMENT_DESCRIPTOR_VALUE_OFFSET (at_attachment_id (ac_attachment c));
             U32 KB2_GPU_ARGUMENT_DESCRIPTOR_COUNT_OFFSET 1] in
          let b := put_fields b attachment_offset
            [U32 KB2_GPU_ATTACHMENT_DESCRIPTOR_ATTACHMENT_ID_OFFSET (at_attachment_id (ac_attachment c));
             U32 KB2_GPU_ATTACHMENT_DESCRIPTOR_OBJECT_CLASS_OFFSET (at_object_class (ac_attachment c));
             U64 KB2_GPU_ATTACHMENT_DESCRIPTOR_EXCHANGE_ID_OFFSET (at_exchange_id (ac_attachment c));
             U64 KB2_GPU_ATTACHMENT_DESCRIPTOR_GENERATION_OFFSET (at_generation (ac_attachment c));
             U64 KB2_GPU_ATTACHMENT_DESCRIPTOR_RIGHTS_OFFSET (at_rights (ac_attachment c));
             U32 KB2_GPU_ATTACHMENT_DESCRIPTOR_ROLE_OFFSET (at_role (ac_attachment c));
             U32 KB2_GPU_ATTACHMENT_DESCRIPTOR_OWNERSHIP_OFFSET (at_ownership (ac_attachment c));
             U32 KB2_GPU_ATTACHMENT_DESCRIPTOR_FLAGS_OFFSET (at_flags (ac_attachment c))] in
          (KB2_PROTOCOL_OK, Some size, Some b)
  | _, _ => (KB2_PROTOCOL_INVALID_ARGUMENT, None, buffer)
  end.

(** The header tests shared by the two decoders of results with an attachment, with
    the counts and offsets each expects. *)
Definition attachment_header_valid (b : list Z) (size expected_session expected_size arguments inline_length
    attachment_offset inline_offset : Z) : bool :=
  negb (negb (size =? expected_size) ||
        negb (bytes_equal b KB2_GPU_COMPLETION_HEADER_ABI_IDENTITY_OFFSET KB2_GPU_ABI_IDENTITY_BYTES) ||
        negb (bytes_equal b KB2_GPU_COMPLETION_HEADER_SCHEMA_DIGEST_OFFSET KB2_GPU_SCHEMA_SHA256_BYTES) ||
        negb (load_u32 b KB2_GPU_COMPLETION_HEADER_TOTAL_SIZE_OFFSET =? size) ||
        negb (load_u64 b KB2_GPU_COMPLETION_HEADER_SESSION_ID_OFFSET =? expected_session) ||
        negb (load_u32 b KB2_GPU_COMPLETION_HEADER_DISPOSITION_OFFSET =? KB2_GPU_DISPOSITION_COMPLETED) ||
        negb (load_u32 b KB2_GPU_COMPLETION_HEADER_ARGUMENT_COUNT_OFFSET =? arguments) ||
        negb (load_u32 b KB2_GPU_COMPLETION_HEADER_SPAN_COUNT_OFFSET =? 0) ||
        negb (load_u32 b KB2_GPU_COMPLETION_HEADER_ATTACHMENT_COUNT_OFFSET =? 1) ||
        negb (load_u32 b KB2_GPU_COMPLETION_HEADER_INLINE_LENGTH_OFFSET =? inline_length) ||
        negb (load_u32 b KB2_GPU_COMPLETION_HEADER_ARGUMENT_TABLE_OFFSET_OFFSET =?
                KB2_GPU_COMPLETION_HEADER_SIZE) ||
        negb (load_u32 b KB2_GPU_COMPLETION_HEADER_SPAN_TABLE_OFFSET_OFFSET =? attachment_offset) ||
        negb (load_u32 b KB2_GPU_COMPLETION_HEADER_ATTACHMENT_TABLE_OFFSET_OFFSET =? attachment_offset) ||
        negb (load_u32 b KB2_GPU_COMPLETION_HEADER_INLINE_OFFSET_OFFSET =? inline_offset) ||
        negb (load_u32 b KB2_GPU_COMPLETION_HEADER_DETAIL_SET_ID_OFFSET =? 0) ||
        negb (load_u32 b KB2_GPU_COMPLETION_HEADER_DETAIL_CODE_OFFSET =? 0) ||
        negb (load_u64 b KB2_GPU_COMPLETION_HEADER_RESERVED_OFFSET =? 0)).

Definition zero_attachment : kb2_gpu_attachment := mkAttachment 0 0 0 0 0 0 0 0.

Definition kb2_gpu_attachment_completion_decode (buffer : option (list Z))
    (size expected_session expected_generation : Z) (out_given : bool) :
    kb2_protocol_status * option kb2_gpu_attachment_completion :=
  match buffer with
  | None => (KB2_PROTOCOL_INVALID_ARGUMENT, None)
  | Some b =>
      if negb out_given || (expected_session =? 0) || (expected_generation =? 0)
      then (KB2_PROTOCOL_INVALID_ARGUMENT, None)
      else if size <? KB2_GPU_COMPLETION_HEADER_SIZE then (KB2_PROTOCOL_BUFFER_TOO_SMALL, None)
      else
        let status := load_u32 b KB2_GPU_COMPLETION_HEADER_STATUS_OFFSET in
        if negb (status =? KB2_GPU_STATUS_OK) then
          match kb2_gpu_inline_completion_decode (Some b) size expected_session true with
          | (KB2_PROTOCOL_OK, Some error) =>
              (KB2_PROTOCOL_OK,
               Some (mkAttachmentCompletion (ic_session_id error) (ic_status error) 0 zero_attachment))
          | (decoded, _) => (decoded, None)
          end
        else
          let argument := KB2_GPU_COMPLETION_HEADER_SIZE in
          let attachment := argument + KB2_GPU_ARGUMENT_DESCRIPTOR_SIZE in
          let expected_size := attachment + KB2_GPU_ATTACHMENT_DESCRIPTOR_SIZE in
          if negb (attachment_header_valid b size expected_session expected_size 1 0 attachment size)
          then (KB2_PROTOCOL_MALFORMED, None)
          else
            let completion := mkAttachmentCompletion expected_session status
              (load_u32 b (argument + KB2_GPU_ARGUMENT_DESCRIPTOR_ARGUMENT_ID_OFFSET))
              (mkAttachment
                 (load_u32 b (attachment + KB2_GPU_ATTACHMENT_DESCRIPTOR_ATTACHMENT_ID_OFFSET))
                 (load_u32 b (attachment + KB2_GPU_ATTACHMENT_DESCRIPTOR_OBJECT_CLASS_OFFSET))
                 (load_u64 b (attachment + KB2_GPU_ATTACHMENT_DESCRIPTOR_EXCHANGE_ID_OFFSET))
                 (load_u64 b (attachment + KB2_GPU_ATTACHMENT_DESCRIPTOR_GENERATION_OFFSET))
                 (load_u64 b (attachment + KB2_GPU_ATTACHMENT_DESCRIPTOR_RIGHTS_OFFSET))
                 (load_u32 b (attachment + KB2_GPU_ATTACHMENT_DESCRIPTOR_ROLE_OFFSET))
                 (load_u32 b (attachment + KB2_GPU_ATTACHMENT_DESCRIPTOR_OWNERSHIP_OFFSET))
                 (load_u32 b (attachment + KB2_GPU_ATTACHMENT_DESCRIPTOR_FLAGS_OFFSET))) in
            if negb (load_u32 b (argument + KB2_GPU_ARGUMENT_DESCRIPTOR_KIND_OFFSET) =?
                       KB2_GPU_ARGUMENT_ATTACHMENT) ||
               negb (load_u32 b (argument + KB2_GPU_ARGUMENT_DESCRIPTOR_FLAGS_OFFSET) =?
                       KB2_GPU_ARGUMENT_FLAG_OUTPUT) ||
               negb (load_u32 b (argument + KB2_GPU_ARGUMENT_DESCRIPTOR_RECORD_SCHEMA_ID_OFFSET) =? 0) ||
               negb (load_u64 b (argument + KB2_GPU_ARGUMENT_DESCRIPTOR_VALUE_OFFSET) =?
                       at_attachment_id (ac_attachment completion)) ||
               negb (load_u32 b (argument + KB2_GPU_ARGUMENT_DESCRIPTOR_COUNT_OFFSET) =? 1) ||
               negb (load_u32 b (argument + KB2_GPU_ARGUMENT_DESCRIPTOR_RESERVED_OFFSET) =? 0) ||
               negb (at_generation (ac_attachment completion) =? expected_generation) ||
               negb (load_u32 b (attachment + KB2_GPU_ATTACHMENT_DESCRIPTOR_RESERVED_OFFSET) =? 0) ||
               negb (attachment_completion_valid completion)
            then (KB2_PROTOCOL_MALFORMED, None) else (KB2_PROTOCOL_OK, Some completion)
  end.

(** * Mapping results *)

Definition mapping_completion_encode (buffer : option (list Z)) (capacity : Z) (size_given : bool)
    (completion : option kb2_gpu_virtgpu_map_completion) (format : mapping_completion_format) :
    kb2_protocol_status * option Z * option (list Z) :=
  match buffer, completion with
  | Some b, Some c =>
      if negb size_given then (KB2_PROTOCOL_INVALID_ARGUMENT, None, Some b)
      else if negb (map_valid c) then (KB2_PROTOCOL_MALFORMED, None, Some b)
      else if negb (mc_status c =? KB2_GPU_STATUS_OK) then
        kb2_gpu_inline_completion_encode (Some b) capacity true (Some (error_completion (mc_session_id c) (mc_status c)))
      else
        let argument_offset := KB2_GPU_COMPLETION_HEADER_SIZE in
        let attachment_offset := argument_offset + 2 * KB2_GPU_ARGUMENT_DESCRIPTOR_SIZE in
        let inline_offset := attachment_offset + KB2_GPU_ATTACHMENT_DESCRIPTOR_SIZE in
        let size := inline_offset + fm_record_size format in
        if capacity <? size then (KB2_PROTOCOL_BUFFER_TOO_SMALL, None, Some b)
        else
          let b := zero_bytes b 0 size in
          let b := put_fields b 0
            [U32 KB2_GPU_COMPLETION_HEADER_TOTAL_SIZE_OFFSET (u32 size);
             Raw KB2_GPU_COMPLETION_HEADER_ABI_IDENTITY_OFFSET 4 KB2_GPU_ABI_IDENTITY_BYTES;
             Raw KB2_GPU_COMPLETION_HEADER_SCHEMA_DIGEST_OFFSET 32 KB2_GPU_SCHEMA_SHA256_BYTES;
             U64 KB2_GPU_COMPLETION_HEADER_SESSION_ID_OFFSET (mc_session_id c);
             U32 KB2_GPU_COMPLETION_HEADER_STATUS_OFFSET KB2_GPU_STATUS_OK;
             U32 KB2_GPU_COMPLETION_HEADER_DISPOSITION_OFFSET KB2_GPU_DISPOSITION_COMPLETED;
             U32 KB2_GPU_COMPLETION_HEADER_ARGUMENT_COUNT_OFFSET 2;
             U32 KB2_GPU_COMPLETION_HEADER_ATTACHMENT_COUNT_OFFSET 1;
             U32 KB2_GPU_COMPLETION_HEADER_INLINE_LENGTH_OFFSET (fm_record_size format);
             U32 KB2_GPU_COMPLETION_HEADER_ARGUMENT_TABLE_OFFSET_OFFSET (u32 argument_offset);
             U32 KB2_GPU_COMPLETION_HEADER_SPAN_TABLE_OFFSET_OFFSET (u32 attachment_offset);
             U32 KB2_GPU_COMPLETION_HEADER_ATTACHMENT_TABLE_OFFSET_OFFSET (u32 attachment_offset);
             U32 KB2_GPU_COMPLETION_HEADER_INLINE_OFFSET_OFFSET (u32 inline_offset)] in
          let b := put_fields b argument_offset
            [U32 KB2_GPU_ARGUMENT_DESCRIPTOR_ARGUMENT_ID_OFFSET 1;
             U32 KB2_GPU_ARGUMENT_DESCRIPTOR_KIND_OFFSET KB2_GPU_ARGUMENT_INLINE;
             U32 KB2_GPU_ARGUMENT_DESCRIPTOR_FLAGS_OFFSET KB2_GPU_ARGUMENT_FLAG_OUTPUT;
             U32 KB2_GPU_ARGUMENT_DESCRIPTOR_RECORD_SCHEMA_ID_OFFSET (fm_record_schema_id format);
             U32 KB2_GPU_ARGUMENT_DESCRIPTOR_COUNT_OFFSET (fm_record_size format)] in
          let b := put_fields b (argument_offset + KB2_GPU_ARGUMENT_DESCRIPTOR_SIZE)
            [U32 KB2_GPU_ARGUMENT_DESCRIPTOR_ARGUMENT_ID_OFFSET (fm_attachment_argument_id format);
             U32 KB2_GPU_ARGUMENT_DESCRIPTOR_KIND_OFFSET KB2_GPU_ARGUMENT_ATTACHMENT;
             U32 KB2_GPU_ARGUMENT_DESCRIPTOR_FLAGS_OFFSET KB2_GPU_ARGUMENT_FLAG_OUTPUT;
             U64 KB2_GPU_ARGUMENT_DESCRIPTOR_VALUE_OFFSET 1;
             U32 KB2_GPU_ARGUMENT_DESCRIPTOR_COUNT_OFFSET 1] in
          let b := put_fields b attachment_offset
            [U32 KB2_GPU_ATTACHMENT_DESCRIPTOR_ATTACHMENT_ID_OFFSET 1;
             U32 KB2_GPU_ATTACHMENT_DESCRIPTOR_OBJECT_CLASS_OFFSET KB2_GPU_ATTACHMENT_MEMORY;
             U64 KB2_GPU_ATTACHMENT_DESCRIPTOR_EXCHANGE_ID_OFFSET (mc_exchange_id c);
             U64 KB2_GPU_ATTACHMENT_DESCRIPTOR_GENERATION_OFFSET (mc_generation c);
             U64 KB2_GPU_ATTACHMENT_DESCRIPTOR_RIGHTS_OFFSET (mc_rights c);
             U32 KB2_GPU_ATTACHMENT_DESCRIPTOR_ROLE_OFFSET (fm_attachment_role format);
             U32 KB2_GPU_ATTACHMENT_DESCRIPTOR_OWNERSHIP_OFFSET KB2_GPU_ATTACHMENT_SHARE;
             U32 KB2_GPU_ATTACHMENT_DESCRIPTOR_FLAGS_OFFSET KB2_GPU_ATTACHMENT_FLAG_OUTPUT] in
          let b := put_fields b inline_offset
            [U64 (fm_mapping_id_offset format) (mc_mapping_id c);
             U64 (fm_length_offset format) (mc_length c);
             U32 (fm_cache_policy_offset format) (mc_cache_policy c)] in
          (KB2_PROTOCOL_OK, Some size, Some b)
  | _, _ => (KB2_PROTOCOL_INVALID_ARGUMENT, None, buffer)
  end.

(** The descriptor tests of the mapping decoder. *)
Definition mapping_descriptors_valid (b : list Z) (expected_generation inline_argument attachment_argument
    attachment record : Z) (format : mapping_completion_format) : bool :=
  negb (negb (load_u32 b (inline_argument + KB2_GPU_ARGUMENT_DESCRIPTOR_ARGUMENT_ID_OFFSET) =? 1) ||
        negb (load_u32 b (inline_argument + KB2_GPU_ARGUMENT_DESCRIPTOR_KIND_OFFSET) =? KB2_GPU_ARGUMENT_INLINE) ||
        negb (load_u32 b (inline_argument + KB2_GPU_ARGUMENT_DESCRIPTOR_FLAGS_OFFSET) =?
                KB2_GPU_ARGUMENT_FLAG_OUTPUT) ||
        negb (load_u32 b (inline_argument + KB2_GPU_ARGUMENT_DESCRIPTOR_RECORD_SCHEMA_ID_OFFSET) =?
                fm_record_schema_id format) ||
        negb (load_u64 b (inline_argument + KB2_GPU_ARGUMENT_DESCRIPTOR_VALUE_OFFSET) =? 0) ||
        negb (load_u32 b (inline_argument + KB2_GPU_ARGUMENT_DESCRIPTOR_COUNT_OFFSET) =? fm_record_size format) ||
        negb (load_u32 b (inline_argument + KB2_GPU_ARGUMENT_DESCRIPTOR_RESERVED_OFFSET) =? 0) ||
        negb (load_u32 b (attachment_argument + KB2_GPU_ARGUMENT_DESCRIPTOR_ARGUMENT_ID_OFFSET) =?
                fm_attachment_argument_id format) ||
        negb (load_u32 b (attachment_argument + KB2_GPU_ARGUMENT_DESCRIPTOR_KIND_OFFSET) =?
                KB2_GPU_ARGUMENT_ATTACHMENT) ||
        negb (load_u32 b (attachment_argument + KB2_GPU_ARGUMENT_DESCRIPTOR_FLAGS_OFFSET) =?
                KB2_GPU_ARGUMENT_FLAG_OUTPUT) ||
        negb (load_u32 b (attachment_argument + KB2_GPU_ARGUMENT_DESCRIPTOR_RECORD_SCHEMA_ID_OFFSET) =? 0) ||
        negb (load_u64 b (attachment_argument + KB2_GPU_ARGUMENT_DESCRIPTOR_VALUE_OFFSET) =? 1) ||
        negb (load_u32 b (attachment_argument + KB2_GPU_ARGUMENT_DESCRIPTOR_COUNT_OFFSET) =? 1) ||
        negb (load_u32 b (attachment_argument + KB2_GPU_ARGUMENT_DESCRIPTOR_RESERVED_OFFSET) =? 0) ||
        negb (load_u32 b (attachment + KB2_GPU_ATTACHMENT_DESCRIPTOR_ATTACHMENT_ID_OFFSET) =? 1) ||
        negb (load_u32 b (attachment + KB2_GPU_ATTACHMENT_DESCRIPTOR_OBJECT_CLASS_OFFSET) =?
                KB2_GPU_ATTACHMENT_MEMORY) ||
        negb (load_u64 b (attachment + KB2_GPU_ATTACHMENT_DESCRIPTOR_GENERATION_OFFSET) =? expected_generation) ||
        negb (load_u32 b (attachment + KB2_GPU_ATTACHMENT_DESCRIPTOR_ROLE_OFFSET) =? fm_attachment_role format) ||
        negb (load_u32 b (attachment + KB2_GPU_ATTACHMENT_DESCRIPTOR_OWNERSHIP_OFFSET) =? KB2_GPU_ATTACHMENT_SHARE) ||
        negb (load_u32 b (attachment + KB2_GPU_ATTACHMENT_DESCRIPTOR_FLAGS_OFFSET) =?
                KB2_GPU_ATTACHMENT_FLAG_OUTPUT) ||
        negb (load_u32 b (attachment + KB2_GPU_ATTACHMENT_DESCRIPTOR_RESERVED_OFFSET) =? 0) ||
        negb (load_u32 b (record + fm_reserved_offset format) =? 0)).

Definition mapping_completion_decode (buffer : option (list Z)) (size expected_session expected_generation : Z)
    (out_given : bool) (format : mapping_completion_format) :
    kb2_protocol_status * option kb2_gpu_virtgpu_map_completion :=
  match buffer with
  | None => (KB2_PROTOCOL_INVALID_ARGUMENT, None)
  | Some b =>
      if negb out_given || (expected_session =? 0) || (expected_generation =? 0)
      then (KB2_PROTOCOL_INVALID_ARGUMENT, None)
      else if size <? KB2_GPU_COMPLETION_HEADER_SIZE then (KB2_PROTOCOL_BUFFER_TOO_SMALL, None)
      else
        let status := load_u32 b KB2_GPU_COMPLETION_HEADER_STATUS_OFFSET in
        if negb (status =? KB2_GPU_STATUS_OK) then
          match kb2_gpu_inline_completion_decode (Some b) size expected_session true with
          | (KB2_PROTOCOL_OK, Some error) =>
              (KB2_PROTOCOL_OK, Some (mkMapCompletion (ic_session_id error) (ic_status error) 0 0 0 0 0 0))
          | (decoded, _) => (decoded, None)
          end
        else
          let argument_offset := KB2_GPU_COMPLETION_HEADER_SIZE in
          let attachment_offset := argument_offset + 2 * KB2_GPU_ARGUMENT_DESCRIPTOR_SIZE in
          let inline_offset := attachment_offset + KB2_GPU_ATTACHMENT_DESCRIPTOR_SIZE in
          let expected_size := inline_offset + fm_record_size format in
          if negb (attachment_header_valid b size expected_session expected_size 2 (fm_record_size format)
                     attachment_offset inline_offset)
          then (KB2_PROTOCOL_MALFORMED, None)
          else if negb (mapping_descriptors_valid b expected_generation argument_offset
                          (argument_offset + KB2_GPU_ARGUMENT_DESCRIPTOR_SIZE) attachment_offset inline_offset format)
          then (KB2_PROTOCOL_MALFORMED, None)
          else
            let completion := mkMapCompletion expected_session KB2_GPU_STATUS_OK
              (load_u64 b (inline_offset + fm_mapping_id_offset format))
              (load_u64 b (inline_offset + fm_length_offset format))
              (load_u32 b (inline_offset + fm_cache_policy_offset format))
              (load_u64 b (attachment_offset + KB2_GPU_ATTACHMENT_DESCRIPTOR_EXCHANGE_ID_OFFSET))
              expected_generation
              (load_u64 b (attachment_offset + KB2_GPU_ATTACHMENT_DESCRIPTOR_RIGHTS_OFFSET)) in
            if negb (map_valid completion) then (KB2_PROTOCOL_MALFORMED, None)
            else (KB2_PROTOCOL_OK, Some completion)
  end.

Definition kb2_gpu_virtgpu_map_completion_encode b capacity size_given c :=
  mapping_completion_encode b capacity size_given c virtgpu_map_format.
Definition kb2_gpu_virtgpu_map_completion_decode b size session generation out_given :=
  mapping_completion_decode b size session generation out_given virtgpu_map_format.

Definition kb2_gpu_mode_map_completion_encode b capacity size_given c :=
  mapping_completion_encode b capacity size_given c mode_map_format.
Definition kb2_gpu_mode_map_completion_decode b size session generation out_given :=
  mapping_completion_decode b size session generation out_given mode_map_format.

Definition kb2_gpu_amdgpu_map_completion_encode b capacity size_given c :=
  mapping_completion_encode b capacity size_given c amdgpu_map_format.
Definition kb2_gpu_amdgpu_map_completion_decode b size session generation out_given :=
  mapping_completion_decode b size session generation out_given amdgpu_map_format.

Definition kb2_gpu_i915_map_completion_encode b capacity size_given c :=
  mapping_completion_encode b capacity size_given c i915_map_format.
Definition kb2_gpu_i915_map_completion_decode b size session generation out_given :=
  mapping_completion_decode b size session generation out_given i915_map_format.
