(* ===== verification/GpuCompletionSpec.v ===== *)
(** The GPU completions are exact wire formats, and the four mapping results cannot be
    mistaken for each other.

    The mapping results of the four DRM command sets are exact wire formats, and the
    bytes of one are refused as the result of another. *)

From Stdlib Require Import ZArith Lia.
From stdpp Require Import base numbers tactics list_numbers list.
From S2P Require Import Prelude Bytes Layout Tables Protocol ProtocolSpec GpuLayout GpuSession GpuCompletion.

Open Scope Z_scope.
Open Scope kobox_scope.

(** * Inline results *)

Record inline_typed (session : Z) (c : kb2_gpu_inline_completion) : Prop := {
  it_session : ic_session_id c = session /\ is_u64 session;
  it_status : is_u32 (ic_status c);
  it_schema : is_u32 (ic_record_schema_id c);
  it_length : is_u32 (ic_length c);
  it_data : match ic_data c with
            | None => True
            | Some l => ic_length c <> 0 /\ blen l = ic_length c /\ Forall is_u8 l
            end;
}.

(** A session, a known status, and a typed result of at most 4096 bytes on success only. *)
Definition inline_ok (c : kb2_gpu_inline_completion) : Prop :=
  ic_session_id c <> 0 /\ ic_status c <= 15 /\ ic_length c <= 4096 /\
  ((ic_length c = 0 /\ ic_record_schema_id c = 0) \/
   (ic_length c <> 0 /\ is_Some (ic_data c) /\ ic_record_schema_id c <> 0 /\ ic_status c = 0)).

Lemma valid_spec c : valid c = true <-> inline_ok c.
Proof.
  unfold valid, inline_ok, KB2_GPU_STATUS_DEVICE_LOST, KB2_GPU_MAX_INLINE_BYTES, KB2_GPU_STATUS_OK.
  rewrite !andb_true_iff, orb_true_iff, negb_true_iff, Z.eqb_neq, !Z.leb_le, !Z.eqb_eq.
  destruct (Z.eqb_spec (ic_length c) 0); cbn [negb].
  - rewrite Z.eqb_eq. naive_solver lia.
  - rewrite andb_true_iff, bool_decide_eq_true, negb_true_iff, Z.eqb_neq. naive_solver lia.
Qed.

(** The completion header: argument count, the other counts that are written, and
    the offsets of the tables behind the arguments. *)
Definition completion_header (session status size arguments : Z) (counts : list field) (offset inline_offset : Z) :
    list field :=
  [U32 0 size; Raw 4 4 KB2_GPU_ABI_IDENTITY_BYTES; Raw 8 32 KB2_GPU_SCHEMA_SHA256_BYTES;
   U64 40 session; U32 48 status; U32 52 1; U32 56 arguments] ++ counts ++
  [U32 72 104; U32 76 offset; U32 80 offset; U32 84 inline_offset].

Definition header_reserved : list field := [U32 60 0; U32 88 0; U32 92 0; U64 96 0].

(** The argument descriptor at [o]. *)
Definition argument_written (o id kind schema value count : Z) : list field :=
  [U32 o id; U32 (o + 4) kind; U32 (o + 8) 2; U32 (o + 12) schema; U64 (o + 16) value; U32 (o + 24) count].

Lemma inline_header_spec b n session offset length status :
  bytes_equal b 4 KB2_GPU_ABI_IDENTITY_BYTES = true -> bytes_equal b 8 KB2_GPU_SCHEMA_SHA256_BYTES = true ->
  load_u32 b 48 = status -> load_u32 b 68 = length ->
  inline_header_valid b n session offset length = true <->
  length <= 4096 /\ n = offset + length /\
  Forall (reads b 0)
    (completion_header session status n (if length =? 0 then 0 else 1) [U32 68 length] offset offset ++
     U32 64 0 :: header_reserved).
Proof.
  intros Hi%bytes_equal_reads Hd%bytes_equal_reads Hs Hl. unfold inline_header_valid, completion_header, header_reserved.
  cbn [app]. rewrite !negb_orb, !negb_involutive, !andb_true_iff, negb_true_iff, Z.ltb_ge, !Z.eqb_eq, !Forall_cons, Forall_nil.
  change (blen KB2_GPU_ABI_IDENTITY_BYTES) with 4 in Hi. change (blen KB2_GPU_SCHEMA_SHA256_BYTES) with 32 in Hd.
  cbn [reads] in *. rewrite ?Z.add_0_l in *. unfold KB2_GPU_MAX_INLINE_BYTES in *. tauto.
Qed.

Lemma inline_argument_spec b length schema :
  load_u32 b 116 = schema ->
  inline_argument_valid b 104 length = true <->
  Forall (reads b 0) (argument_written 104 1 7 schema 0 length ++ [U32 132 0]).
Proof.
  intros Hs. unfold inline_argument_valid, argument_written. cbn [app].
  rewrite !negb_orb, !negb_involutive, !andb_true_iff, !Z.eqb_eq, !Forall_cons, Forall_nil. cbn [reads].
  rewrite ?Z.add_0_l. cbn in *. tauto.
Qed.

Definition inline_offset (c : kb2_gpu_inline_completion) : Z := 104 + (if ic_length c =? 0 then 0 else 32).

Definition inline_size (c : kb2_gpu_inline_completion) : Z := inline_offset c + ic_length c.

Definition inline_fixed (c : kb2_gpu_inline_completion) : list field :=
  completion_header (ic_session_id c) (ic_status c) (inline_size c) (if ic_length c =? 0 then 0 else 1)
    [U32 68 (ic_length c)] (inline_offset c) (inline_offset c) ++
  (if ic_length c =? 0 then [] else
   [U32 104 1; U32 108 7; U32 112 2; U32 116 (ic_record_schema_id c); U32 128 (ic_length c)]).

Definition inline_written (c : kb2_gpu_inline_completion) : list field :=
  inline_fixed c ++ [Raw (inline_offset c) (ic_length c) (default [] (ic_data c))].

Definition inline_reserved (c : kb2_gpu_inline_completion) : list field :=
  U32 64 0 :: header_reserved ++ (if ic_length c =? 0 then [] else [U64 120 0; U32 132 0]).

Definition inline_encoder (b : list Z) (n : Z) (c : kb2_gpu_inline_completion) : bool * list Z :=
  let '(st, _, out) := kb2_gpu_inline_completion_encode (Some b) n true (Some c) in status_encoded b st out.

Definition inline_decoder (session : Z) (b : list Z) (n : Z) : option kb2_gpu_inline_completion :=
  status_decoded (kb2_gpu_inline_completion_decode (Some b) n session true).

Lemma inline_encode_spec session b n c :
  inline_typed session c ->
  (inline_size c <= n /\ inline_ok c /\
     inline_encoder b n c = (true, put_fields (zero_bytes b 0 (inline_size c)) 0 (inline_written c))) \/
  (~ (inline_size c <= n /\ inline_ok c) /\ inline_encoder b n c = (false, b)).
Proof.
  intros [_ _ _ Hlen Hdata]. unfold inline_encoder, kb2_gpu_inline_completion_encode. cbn [negb].
  destruct (valid c) eqn:Hv; cbn [negb]; [| right; rewrite <- valid_spec, Hv; by split; [intros [_ ?] |]].
  apply valid_spec in Hv. change KB2_GPU_COMPLETION_HEADER_SIZE with 104. change KB2_GPU_ARGUMENT_DESCRIPTOR_SIZE with 32.
  fold (inline_offset c). fold (inline_size c).
  destruct (Z.ltb_spec n (inline_size c)); [right; split; [intros []; lia | done] |]. left. split_and!; [done | done |].
  assert (Hsmall : u32 (inline_size c) = inline_size c /\ u32 (inline_offset c) = inline_offset c /\
    u32 (ic_length c) = ic_length c).
  { unfold inline_size, inline_offset, inline_ok, is_u32 in *. rewrite !u32_small; [done | ..]; unfold is_u32; case_match; lia. }
  destruct Hsmall as (-> & -> & ->). unfold status_encoded. rewrite bool_decide_eq_true_2 by done. cbn [default]. f_equal.
  unfold inline_written, inline_fixed. destruct (Z.eqb_spec (ic_length c) 0) as [Hz | Hz].
  - destruct (ic_data c) as [l |] eqn:Hl; [destruct Hdata as [? _]; lia |]. rewrite app_nil_r, put_fields_app.
    cbn [put_fields put_field default]. done.
  - rewrite <- app_assoc, put_fields_app. cbn [put_fields put_field default app]. rewrite !Z.add_0_l. done.
Qed.

Lemma inline_decode_reads session b n c :
  inline_decoder session b n = Some c ->
  inline_typed session c /\ inline_ok c /\ n = inline_size c /\
  Forall (reads b 0) (inline_written c ++ inline_reserved c).
Proof.
  unfold inline_decoder, kb2_gpu_inline_completion_decode, status_decoded. cbn [negb orb].
  destruct (Z.eqb_spec session 0); [done |]. destruct (Z.ltb_spec n KB2_GPU_COMPLETION_HEADER_SIZE); [done |].
  destruct (bytes_equal b _ KB2_GPU_ABI_IDENTITY_BYTES) eqn:Hi; [| done].
  destruct (bytes_equal b _ KB2_GPU_SCHEMA_SHA256_BYTES) eqn:Hd; [| done]. cbn [negb orb]. cbv zeta.
  destruct (inline_header_valid b n session _ _) eqn:Hh; [| done]. cbn [negb].
  apply (inline_header_spec b n session _ _ (load_u32 b 48)) in Hh as (Hl & Hn & Hh); [| done ..].
  change KB2_GPU_COMPLETION_HEADER_INLINE_LENGTH_OFFSET with 68 in *. change KB2_GPU_COMPLETION_HEADER_SIZE with 104 in *.
  change KB2_GPU_ARGUMENT_DESCRIPTOR_SIZE with 32 in *. change (104 + KB2_GPU_ARGUMENT_DESCRIPTOR_RECORD_SCHEMA_ID_OFFSET) with 116.
  change KB2_GPU_COMPLETION_HEADER_SESSION_ID_OFFSET with 40. change KB2_GPU_COMPLETION_HEADER_STATUS_OFFSET with 48.
  assert (Hs : load_u64 b 40 = session) by (unfold completion_header in Hh; cbn [app] in Hh; solve_reads; done).
  pose proof (load_u32_range b 68) as Hlr. pose proof (load_u64_range b 40) as Hsr. rewrite Hs in *.
  unfold inline_written, inline_fixed, inline_reserved, inline_size, inline_offset.
  destruct (Z.eqb_spec (load_u32 b 68) 0) as [Hz | Hz]; cbn [negb andb].
  - destruct (valid _) eqn:Hv; cbn [negb]; [| done]. intros [= <-]. apply valid_spec in Hv. cbn in Hn |- *. rewrite Hz in *. cbn.
    split_and!; [split; cbn; first [done | apply load_u32_range] | done | lia |]. rewrite Hn in Hh.
    unfold header_reserved in *. cbn in Hh. solve_reads. by repeat (apply Forall_cons; split).
  - destruct (inline_argument_valid b 104 _) eqn:Ha; cbn [negb]; [| done].
    destruct (valid _) eqn:Hv; cbn [negb]; [| done]. intros [= <-]. apply valid_spec in Hv.
    apply (inline_argument_spec b _ (load_u32 b 116)) in Ha; [| done].
    cbn [ic_session_id ic_status ic_record_schema_id ic_length ic_data default]. rewrite (proj2 (Z.eqb_neq _ _) Hz).
    split_and!; [split; cbn; try first [done | apply load_u32_range] | done | lia |].
    + split; [done |]. apply get_bytes_typed. unfold is_u32 in Hlr. lia.
    + rewrite Hn in Hh. unfold completion_header, header_reserved, argument_written in *. cbn [app] in Hh, Ha. solve_reads.
      by repeat (apply Forall_cons; split).
Qed.

Lemma inline_reads_decode session b n c :
  session <> 0 -> inline_typed session c -> inline_ok c -> n = inline_size c ->
  Forall (reads b 0) (inline_written c ++ inline_reserved c) -> inline_decoder session b n = Some c.
Proof.
  intros Hs [[Hid _] _ _ Hlr Hdata] Hok -> Hr. destruct c as [s status schema data length]. cbn in Hid, Hlr, Hdata. subst s.
  unfold inline_written, inline_fixed, inline_reserved, completion_header, header_reserved in Hr.
  cbn [ic_session_id ic_status ic_record_schema_id ic_data ic_length] in Hr.
  unfold inline_decoder, kb2_gpu_inline_completion_decode, status_decoded. cbn [negb orb].
  rewrite (proj2 (Z.eqb_neq _ _) Hs). change KB2_GPU_COMPLETION_HEADER_SIZE with 104.
  change KB2_GPU_COMPLETION_HEADER_INLINE_LENGTH_OFFSET with 68. change KB2_GPU_ARGUMENT_DESCRIPTOR_SIZE with 32.
  change (104 + KB2_GPU_ARGUMENT_DESCRIPTOR_RECORD_SCHEMA_ID_OFFSET) with 116. 
  change KB2_GPU_COMPLETION_HEADER_SESSION_ID_OFFSET with 40. change KB2_GPU_COMPLETION_HEADER_STATUS_OFFSET with 48.
  assert (Hf : bytes_equal b 4 KB2_GPU_ABI_IDENTITY_BYTES = true /\ bytes_equal b 8 KB2_GPU_SCHEMA_SHA256_BYTES = true /\
    load_u32 b 48 = status /\ load_u64 b 40 = session /\ load_u32 b 68 = length).
  { rewrite !bytes_equal_reads. cbn [app] in Hr. solve_reads. done. }
  destruct Hf as (Hi & Hd & Hst & Hse & Hle).
  change KB2_GPU_COMPLETION_HEADER_ABI_IDENTITY_OFFSET with 4. change KB2_GPU_COMPLETION_HEADER_SCHEMA_DIGEST_OFFSET with 8.
  rewrite Hi, Hd, Hst, Hse, Hle. cbn [negb orb]. unfold inline_size, inline_offset in *. cbn [ic_length] in *.
  assert (Hsz : 104 <= 104 + (if length =? 0 then 0 else 32) + length) by (unfold is_u32 in Hlr; case_match; lia).
  rewrite (proj2 (Z.ltb_ge _ _) Hsz).
  pose proof (proj2 (inline_header_spec b (104 + (if length =? 0 then 0 else 32) + length) session
    (104 + (if length =? 0 then 0 else 32)) length status Hi Hd Hst Hle)) as Hh.
  rewrite Hh; cbn [negb].
  2: { split_and!; [apply Hok | done |]. unfold completion_header, header_reserved. destruct (length =? 0); cbn [app] in *; solve_reads;
    by repeat (apply Forall_cons; split). }
  apply valid_spec in Hok. destruct (Z.eqb_spec length 0) as [-> | Hz]; cbn [negb andb].
  - destruct data as [l |]; [by destruct Hdata |]. apply valid_spec in Hok as Hsch. unfold inline_ok in Hsch. cbn in Hsch.
    assert (schema = 0) as -> by lia. by rewrite Hok.
  - cbn [app] in Hr. solve_reads.
    assert (Ha : inline_argument_valid b 104 length = true).
    { apply (inline_argument_spec b length schema); [done |]. unfold argument_written. cbn [app].
      by repeat (apply Forall_cons; split). }
    rewrite Ha. cbn [negb]. apply valid_spec in Hok as Hsch. unfold inline_ok in Hsch. cbn in Hsch.
    destruct data as [l |]; [| by destruct Hsch as (_ & _ & _ & [[? ?] | (_ & [? [=]] & _)])].
    cbn [default] in *. replace (load_u32 b 116) with schema. replace (get_bytes b (104 + 32) length) with l. by rewrite Hok.
Qed.

Lemma inline_fixed_separate c :
  separate (inline_offset c) (inline_fixed c) = true /\
  forallb (fun f => inside (inline_offset c) f && forallb (apart f) (inline_fixed c)) (inline_reserved c) = true /\
  Layout.covered (inline_offset c) (inline_fixed c ++ inline_reserved c) = true.
Proof. unfold inline_fixed, inline_reserved, inline_offset, inline_size. by destruct (ic_length c =? 0). Qed.

Lemma inline_written_typed session c :
  inline_typed session c -> inline_ok c -> Forall field_typed (inline_written c).
Proof.
  intros [[Hid Hs] Hst Hsc Hl Hd] Hok. unfold inline_written, inline_fixed, completion_header. rewrite !Forall_app.
  assert (Hsz : is_u32 (inline_size c) /\ is_u32 (inline_offset c)).
  { destruct Hok as (_ & _ & Hle & _). unfold inline_size, inline_offset, is_u32 in *. destruct (ic_length c =? 0); split; lia. }
  destruct Hsz. rewrite Hid in *. split_and!.
  - solve_typed; first [apply gpu_identity_typed | apply gpu_digest_typed | destruct (ic_length c =? 0); unfold is_u32; lia].
  - solve_typed.
  - solve_typed.
  - destruct (ic_length c =? 0); solve_typed.
  - apply Forall_singleton. unfold inline_ok in Hok. cbn. destruct (ic_data c) as [l |]; [tauto |]. cbn.
    destruct Hok as (_ & _ & _ & [[-> _] | (_ & [? [=]] & _)]). split; [done | constructor].
Qed.

Lemma inline_wire session :
  session <> 0 ->
  WireFormat inline_encoder (inline_decoder session) (inline_typed session) inline_ok
    (fun n c => inline_size c <= n) (fun n c => n = inline_size c) inline_size.
Proof.
  intros Hs. assert (Hnn : forall c, inline_typed session c -> 0 <= ic_length c /\ 0 <= inline_offset c).
  { intros c [_ _ _ Hl _]. unfold is_u32, inline_offset in *. case_match; lia. }
  apply (record_wire inline_size inline_written inline_reserved).
  - intros c [? ?]%Hnn. unfold inline_size. lia.
  - apply inline_written_typed.
  - intros c _. unfold inline_reserved. case_match; by repeat constructor.
  - intros c [? ?]%Hnn. by apply separate_extend, inline_fixed_separate.
  - intros c [? ?]%Hnn. by apply apart_extend, inline_fixed_separate.
  - intros c _. apply covered_extend, inline_fixed_separate.
  - intros b n c Ht. by apply (inline_encode_spec session).
  - intros b n c. unfold inline_encoder, kb2_gpu_inline_completion_encode. cbn [negb].
    destruct (valid c); [| done]. by destruct (Z.ltb n _).
  - apply inline_decode_reads.
  - intros b n c. by apply inline_reads_decode.
  - done.
  - intros n c _ ->. done.
Qed.

(** ** Failed commands *)

Lemma error_typed session status :
  is_u64 session -> is_u32 status -> inline_typed session (error_completion session status).
Proof. intros. split; cbn; try done. Qed.

Lemma error_size session status : inline_size (error_completion session status) = 104.
Proof. done. Qed.

Lemma error_decoded session b n c :
  inline_decoder session b n = Some c -> ic_status c <> 0 -> c = error_completion session (ic_status c).
Proof.
  intros ([[Hid _] _ _ _ Hd] & (_ & _ & _ & Hl) & _)%inline_decode_reads Hs.
  destruct c as [s status schema data length]. cbn in *. destruct Hl as [[-> ->] | (_ & _ & _ & ?)]; [| done].
  destruct data; [by destruct Hd |]. by subst.
Qed.

(** * Results with an attachment *)

Definition attachment_written (o id class exchange generation rights role ownership flags : Z) : list field :=
  [U32 o id; U32 (o + 4) class; U64 (o + 8) exchange; U64 (o + 16) generation; U64 (o + 24) rights;
   U32 (o + 32) role; U32 (o + 36) ownership; U32 (o + 40) flags].

Lemma attachment_header_spec b n session size arguments inline offset inline_offset status :
  load_u32 b 48 = status ->
  attachment_header_valid b n session size arguments inline offset inline_offset = true <->
  n = size /\
  Forall (reads b 0)
    (completion_header session status n arguments [U32 64 1; U32 68 inline] offset inline_offset ++ header_reserved).
Proof.
  intros Hs. unfold attachment_header_valid, completion_header, header_reserved. cbn [app].
  rewrite !negb_orb, !negb_involutive, !andb_true_iff, !Z.eqb_eq, !bytes_equal_reads, !Forall_cons, Forall_nil.
  change (blen KB2_GPU_ABI_IDENTITY_BYTES) with 4. change (blen KB2_GPU_SCHEMA_SHA256_BYTES) with 32.
  cbn [reads]. rewrite ?Z.add_0_l. tauto.
Qed.

Record attachment_typed (session generation : Z) (c : kb2_gpu_attachment_completion) : Prop := {
  act_session : ac_session_id c = session /\ is_u64 session;
  act_status : is_u32 (ac_status c);
  act_argument : is_u32 (ac_argument_id c);
  act_generation : ac_status c = 0 -> at_generation (ac_attachment c) = generation;
  act_id : is_u32 (at_attachment_id (ac_attachment c));
  act_class : is_u32 (at_object_class (ac_attachment c));
  act_exchange : is_u64 (at_exchange_id (ac_attachment c));
  act_generation_range : is_u64 (at_generation (ac_attachment c));
  act_rights : is_u64 (at_rights (ac_attachment c));
  act_role : is_u32 (at_role (ac_attachment c));
  act_ownership : is_u32 (at_ownership (ac_attachment c));
  act_flags : is_u32 (at_flags (ac_attachment c));
}.

(** A failed command carries nothing; a successful one names its argument and an
    output attachment of a known class and ownership. *)
Definition attachment_ok (c : kb2_gpu_attachment_completion) : Prop :=
  let a := ac_attachment c in
  ac_session_id c <> 0 /\
  ((1 <= ac_status c <= 15 /\ ac_argument_id c = 0 /\ a = zero_attachment) \/
   (ac_status c = 0 /\ ac_argument_id c <> 0 /\ at_attachment_id a <> 0 /\ 1 <= at_object_class a <= 6 /\
    at_exchange_id a <> 0 /\ at_generation a <> 0 /\ at_rights a <> 0 /\ at_role a <> 0 /\
    1 <= at_ownership a <= 3 /\ at_flags a = 2)).

Lemma attachment_valid_spec c :
  is_u32 (ac_status c) -> attachment_completion_valid c = true <-> attachment_ok c.
Proof.
  unfold attachment_completion_valid, attachment_ok, is_u32, KB2_GPU_STATUS_DEVICE_LOST, KB2_GPU_STATUS_OK,
    KB2_GPU_ATTACHMENT_MEMORY, KB2_GPU_ATTACHMENT_SYNCOBJ, KB2_GPU_ATTACHMENT_BORROW, KB2_GPU_ATTACHMENT_MOVE,
    KB2_GPU_ATTACHMENT_FLAG_OUTPUT, zero_attachment. intros Hr.
  destruct c as [s st arg [id class ex gen rights role own flags]]. cbn [ac_session_id ac_status ac_argument_id ac_attachment
    at_attachment_id at_object_class at_exchange_id at_generation at_rights at_role at_ownership at_flags] in *.
  destruct (Z.eqb_spec s 0), (Z.ltb_spec 15 st), (Z.eqb_spec st 0); cbn [orb negb]; try (split; [done | lia]).
  - rewrite !andb_true_iff, !negb_true_iff, !Z.eqb_neq, !Z.leb_le, !Z.eqb_eq.
    split; [intros; split; [done | right; lia] | intros [_ [[? _] | ?]]; lia].
  - rewrite !andb_true_iff, !Z.eqb_eq. split.
    + intros. destruct_and?. subst. split; [done | left; split_and!; [lia | lia | done | done]].
    + intros [_ [(_ & -> & [= -> -> -> -> -> -> -> ->]) | [? _]]]; [done | lia].
Qed.

Lemma error_ok session status : session <> 0 -> 1 <= status <= 15 -> inline_ok (error_completion session status).
Proof. intros. unfold inline_ok. cbn. lia. Qed.

Definition attachment_record (c : kb2_gpu_attachment_completion) : list field :=
  let a := ac_attachment c in
  if ac_status c =? 0 then
    completion_header (ac_session_id c) (ac_status c) 184 1 [U32 64 1] 136 184 ++
    [U32 104 (ac_argument_id c); U32 108 9; U32 112 2; U64 120 (at_attachment_id a); U32 128 1] ++
    attachment_written 136 (at_attachment_id a) (at_object_class a) (at_exchange_id a) (at_generation a)
      (at_rights a) (at_role a) (at_ownership a) (at_flags a)
  else inline_written (error_completion (ac_session_id c) (ac_status c)).

Definition attachment_reserved (c : kb2_gpu_attachment_completion) : list field :=
  if ac_status c =? 0 then U32 68 0 :: header_reserved ++ [U32 116 0; U32 132 0; U32 180 0]
  else inline_reserved (error_completion (ac_session_id c) (ac_status c)).

Definition attachment_size (c : kb2_gpu_attachment_completion) : Z := if ac_status c =? 0 then 184 else 104.

Definition attachment_encoder (b : list Z) (n : Z) (c : kb2_gpu_attachment_completion) : bool * list Z :=
  let '(st, _, out) := kb2_gpu_attachment_completion_encode (Some b) n true (Some c) in status_encoded b st out.

Definition attachment_decoder (session generation : Z) (b : list Z) (n : Z) : option kb2_gpu_attachment_completion :=
  status_decoded (kb2_gpu_attachment_completion_decode (Some b) n session generation true).

Lemma attachment_encode_spec session generation b n c :
  attachment_typed session generation c ->
  (attachment_size c <= n /\ attachment_ok c /\
     attachment_encoder b n c = (true, put_fields (zero_bytes b 0 (attachment_size c)) 0 (attachment_record c))) \/
  (~ (attachment_size c <= n /\ attachment_ok c) /\ attachment_encoder b n c = (false, b)).
Proof.
  intros Ht. pose proof (act_status _ _ _ Ht) as Hst. pose proof (act_session _ _ _ Ht) as [Hid Hs].
  unfold attachment_encoder, kb2_gpu_attachment_completion_encode. cbn [negb]. rewrite <- (attachment_valid_spec c Hst).
  destruct (attachment_completion_valid c) eqn:Hv; cbn [negb]; [| right; by split; [intros [_ ?] |]].
  apply attachment_valid_spec in Hv; [| done]. change KB2_GPU_STATUS_OK with 0. unfold attachment_size, attachment_record.
  destruct (Z.eqb_spec (ac_status c) 0) as [Hz | Hz]; cbn [negb].
  - cbv zeta. change (KB2_GPU_COMPLETION_HEADER_SIZE + KB2_GPU_ARGUMENT_DESCRIPTOR_SIZE + KB2_GPU_ATTACHMENT_DESCRIPTOR_SIZE) with 184.
    destruct (Z.ltb_spec n 184); [right; split; [intros []; lia | done] | left]. split_and!; [lia | done |].
    rewrite !put_fields_app. done.
  - assert (Ht' : inline_typed session (error_completion (ac_session_id c) (ac_status c))).
    { rewrite Hid. by apply error_typed. }
    destruct (inline_encode_spec session b n _ Ht') as [(? & ? & E) | [Hno E]]; [left; by split_and! | right].
    split; [| done]. intros [Hsz _]. apply Hno. split; [done |]. destruct Hv as [? [[? _] | [? _]]]; [by apply error_ok | done].
Qed.

Lemma status_decoded_some {T U : Type} (r : kb2_protocol_status * option T) (f : T -> U) x :
  status_decoded (match r with (KB2_PROTOCOL_OK, Some e) => (KB2_PROTOCOL_OK, Some (f e)) | (st, _) => (st, None) end) = Some x <->
  exists e, status_decoded r = Some e /\ x = f e.
Proof.
  unfold status_decoded. destruct r as [[] [e |]]; cbn; split; try done; try (by intros (? & ? & ?)).
  - intros [= <-]. eauto.
  - by intros (? & [= ->] & ->).
Qed.

Lemma attachment_decode_reads session generation b n c :
  attachment_decoder session generation b n = Some c ->
  attachment_typed session generation c /\ attachment_ok c /\ n = attachment_size c /\
  Forall (reads b 0) (attachment_record c ++ attachment_reserved c).
Proof.
  unfold attachment_decoder, kb2_gpu_attachment_completion_decode. cbn [negb orb].
  destruct (Z.eqb_spec session 0); [done |]. destruct (Z.eqb_spec generation 0); [done |]. cbn [orb].
  destruct (Z.ltb_spec n KB2_GPU_COMPLETION_HEADER_SIZE); [done |]. cbv zeta.
  change KB2_GPU_COMPLETION_HEADER_STATUS_OFFSET with 48. change KB2_GPU_STATUS_OK with 0.
  unfold attachment_record, attachment_reserved, attachment_size.
  destruct (Z.eqb_spec (load_u32 b 48) 0) as [Hz | Hz]; cbn [negb].
  - destruct (attachment_header_valid b n session _ _ _ _ _) eqn:Hh; cbn [negb]; [| done].
    apply (attachment_header_spec b n session _ _ _ _ _ (load_u32 b 48)) in Hh as [Hn Hh]; [| done].
    destruct (_ || _) eqn:Hd; [done |]. intros [= <-].
    rewrite !orb_false_iff, !negb_false_iff, !Z.eqb_eq in Hd.
    cbn [ac_session_id ac_status ac_argument_id ac_attachment at_attachment_id at_object_class at_exchange_id
      at_generation at_rights at_role at_ownership at_flags] in *. rewrite (proj2 (Z.eqb_eq _ _) Hz).
    destruct Hd as ((((((((Hk & Hf) & Hr) & Hv) & Hc) & Hr') & Hg) & Hr'') & Hok).
    apply attachment_valid_spec in Hok; [| apply load_u32_range].
    unfold completion_header, header_reserved in Hh. cbn [app] in Hh. solve_reads. subst n.
    split_and!; [split; cbn; first [apply load_u32_range | apply load_u64_range | done | idtac] | done | done |].
    + split; [done |]. subst session. apply load_u64_range.
    + by repeat (apply Forall_cons; split).
  - intros (e & He & ->)%status_decoded_some. pose proof He as Hd.
    apply inline_decode_reads in Hd as ([[Hid Hse] Hst _ _ _] & Hok & Hn & Hr).
    assert (Hes : ic_status e = load_u32 b 48).
    { clear -Hr. unfold inline_written, inline_fixed, completion_header in Hr. cbn [app] in Hr. solve_reads. done. }
    assert (Hez : ic_status e <> 0) by congruence. apply error_decoded in He; [| done].
    cbn [ac_session_id ac_status]. rewrite (proj2 (Z.eqb_neq _ _) Hez), Hid. rewrite He in Hn, Hr. cbn [ic_status] in Hn, Hr.
    split_and!; [split; cbn; done | | done | done].
    unfold attachment_ok. cbn [ac_session_id ac_status ac_argument_id ac_attachment]. split; [congruence |]. left.
    split_and!; [unfold is_u32 in Hst; lia | apply Hok | done | done].
Qed.

Lemma attachment_reads_decode session generation b n c :
  session <> 0 -> generation <> 0 -> attachment_typed session generation c -> attachment_ok c -> n = attachment_size c ->
  Forall (reads b 0) (attachment_record c ++ attachment_reserved c) ->
  attachment_decoder session generation b n = Some c.
Proof.
  intros Hs Hg Ht Hok -> Hr. pose proof (act_session _ _ _ Ht) as [Hid Hsr]. pose proof (act_status _ _ _ Ht) as Hst.
  unfold attachment_decoder, kb2_gpu_attachment_completion_decode. cbn [negb orb].
  rewrite (proj2 (Z.eqb_neq _ _) Hs), (proj2 (Z.eqb_neq _ _) Hg). cbn [orb]. cbv zeta.
  change KB2_GPU_COMPLETION_HEADER_STATUS_OFFSET with 48. change KB2_GPU_STATUS_OK with 0.
  unfold attachment_record, attachment_reserved, attachment_size in *.
  destruct (Z.eqb_spec (ac_status c) 0) as [Hz | Hz].
  - pose proof (act_generation _ _ _ Ht Hz) as Hge. apply attachment_valid_spec in Hok; [| done].
    destruct c as [s st arg [id class ex gen rights role own flags]].
    cbn [ac_session_id ac_status ac_argument_id ac_attachment at_attachment_id at_object_class at_exchange_id
      at_generation at_rights at_role at_ownership at_flags] in *. subst s st gen.
    unfold completion_header, header_reserved, attachment_written in Hr. cbn [app] in Hr. solve_reads.
    assert (Hh : attachment_header_valid b 184 session 184 1 0 136 184 = true).
    { apply (attachment_header_spec b 184 session _ _ _ _ _ 0); [done |]. split; [done |].
      unfold completion_header, header_reserved. cbn [app]. by repeat (apply Forall_cons; split). }
    literal_offsets b. rewrite_loads b. cbn [Z.eqb negb].
    change (KB2_GPU_COMPLETION_HEADER_SIZE + KB2_GPU_ARGUMENT_DESCRIPTOR_SIZE + KB2_GPU_ATTACHMENT_DESCRIPTOR_SIZE) with 184.
    change (KB2_GPU_COMPLETION_HEADER_SIZE + KB2_GPU_ARGUMENT_DESCRIPTOR_SIZE) with 136.
    rewrite Hh, Hok, !Z.eqb_refl. done.
  - assert (He : inline_decoder session b 104 = Some (error_completion session (ac_status c))).
    { apply inline_reads_decode; [done | by apply error_typed | | done | by rewrite <- Hid at 1 2].
      destruct Hok as [_ [[? _] | [? _]]]; [by apply error_ok | done]. }
    assert (Hl : load_u32 b 48 = ac_status c).
    { unfold inline_written, inline_fixed, completion_header in Hr. cbn [app] in Hr. solve_reads. done. }
    rewrite Hl, (proj2 (Z.eqb_neq _ _) Hz). cbn [negb]. change (104 <? KB2_GPU_COMPLETION_HEADER_SIZE) with false. cbn [orb].
    apply status_decoded_some. eexists. split; [exact He |].
    destruct Hok as [_ [(_ & Ha & Hat) | [? _]]]; [| done]. destruct c. cbn in *. by subst.
Qed.

Lemma attachment_wire session generation :
  session <> 0 -> generation <> 0 ->
  WireFormat attachment_encoder (attachment_decoder session generation) (attachment_typed session generation) attachment_ok
    (fun n c => attachment_size c <= n) (fun n c => n = attachment_size c) attachment_size.
Proof.
  intros Hs Hg.
  apply (record_wire attachment_size attachment_record attachment_reserved).
  - intros c _. unfold attachment_size. case_match; lia.
  - intros c Ht Hok. pose proof (act_session _ _ _ Ht) as [Hid ?]. unfold attachment_record.
    destruct (Z.eqb_spec (ac_status c) 0) as [Hz | Hz].
    + destruct Ht. rewrite Hid. unfold completion_header, attachment_written. cbn [app].
      solve_typed; first [apply gpu_identity_typed | apply gpu_digest_typed | unfold is_u32, is_u64 in *; lia].
    + rewrite Hid. apply (inline_written_typed session); [apply error_typed; by destruct Ht |].
      destruct Hok as [_ [[? _] | [? _]]]; [by apply error_ok | done].
  - intros c _. unfold attachment_reserved. case_match; by repeat constructor.
  - intros c _. unfold attachment_size, attachment_record. by case_match.
  - intros c _. unfold attachment_size, attachment_record, attachment_reserved. by case_match.
  - intros c _. unfold attachment_size, attachment_record, attachment_reserved. by case_match.
  - apply attachment_encode_spec.
  - intros b n c. unfold attachment_encoder, kb2_gpu_attachment_completion_encode, kb2_gpu_inline_completion_encode.
    cbn [negb]. destruct (attachment_completion_valid c); [| done]. destruct (ac_status c =? _); cbn [negb].
    + by destruct (n <? _).
    + destruct (valid _); [| done]. by destruct (n <? _).
  - apply attachment_decode_reads.
  - intros b n c. by apply attachment_reads_decode.
  - done.
  - intros n c _ ->. done.
Qed.

(** The command sets differ in the schema of the inline record only. *)
Definition mapping_format (schema : Z) : mapping_completion_format := mkFormat schema 24 0 8 16 20 2 1.

Record mapping_typed (session generation : Z) (c : kb2_gpu_virtgpu_map_completion) : Prop := {
  mct_session : mc_session_id c = session /\ is_u64 session;
  mct_status : is_u32 (mc_status c);
  mct_mapping : is_u64 (mc_mapping_id c);
  mct_length : is_u64 (mc_length c);
  mct_cache : is_u32 (mc_cache_policy c);
  mct_exchange : is_u64 (mc_exchange_id c);
  mct_generation : mc_status c = 0 -> mc_generation c = generation;
  mct_generation_range : is_u64 (mc_generation c);
  mct_rights : is_u64 (mc_rights c);
}.

(** A failed command carries nothing; a successful one maps whole pages, readable or
    writable, under a known cache policy. *)
Definition mapping_ok (c : kb2_gpu_virtgpu_map_completion) : Prop :=
  mc_session_id c <> 0 /\
  ((1 <= mc_status c <= 15 /\ c = mkMapCompletion (mc_session_id c) (mc_status c) 0 0 0 0 0 0) \/
   (mc_status c = 0 /\ mc_mapping_id c <> 0 /\ mc_mapping_id c mod 4096 = 0 /\ mc_cache_policy c <= 2 /\
    mc_length c <> 0 /\ mc_length c mod 4096 = 0 /\ mc_exchange_id c <> 0 /\ mc_generation c <> 0 /\
    1 <= mc_rights c <= 3)).

Lemma page_aligned x : Z.land x 4095 = 0 <-> x mod 4096 = 0.
Proof. apply (land_ones_eqb_0 x 12). lia. Qed.

Lemma map_valid_spec session generation c :
  mapping_typed session generation c -> map_valid c = true <-> mapping_ok c.
Proof.
  intros [_ Hst _ _ _ _ _ _ Hr]. unfold map_valid, mapping_ok.
  change (Z.lor KB2_GPU_SPAN_RIGHT_READ KB2_GPU_SPAN_RIGHT_WRITE) with (Z.ones 2).
  change KB2_GPU_STATUS_OK with 0. change KB2_GPU_STATUS_DEVICE_LOST with 15. change KB2_GPU_MAPPING_CACHE_UC with 2.
  unfold is_u32, is_u64 in *. destruct c as [s st id len cache ex gen rights].
  cbn [mc_session_id mc_status mc_mapping_id mc_length mc_cache_policy mc_exchange_id mc_generation mc_rights] in *.
  destruct (Z.eqb_spec s 0), (Z.ltb_spec 15 st), (Z.eqb_spec st 0); cbn [orb negb]; try (split; [done | lia]).
  - rewrite !andb_true_iff, !negb_true_iff, !Z.eqb_neq, Z.leb_le, !Z.eqb_eq, !page_aligned, andn_ones_0 by lia.
    split; [intros; split; [done | right; lia] | intros [_ [[? _] | ?]]; lia].
  - rewrite !andb_true_iff, !Z.eqb_eq. split.
    + intros. destruct_and?. subst. split; [done | left; split; [lia | done]].
    + intros [_ [(_ & [= -> -> -> -> -> ->]) | [? _]]]; [done | lia].
Qed.

(** ** The record *)

Definition mapping_written (schema : Z) (c : kb2_gpu_virtgpu_map_completion) : list field :=
  if mc_status c =? 0 then
    completion_header (mc_session_id c) 0 240 2 [U32 64 1; U32 68 24] 168 216 ++
    [U32 104 1; U32 108 7; U32 112 2; U32 116 schema; U32 128 24] ++
    [U32 136 2; U32 140 9; U32 144 2; U64 152 1; U32 160 1] ++
    attachment_written 168 1 1 (mc_exchange_id c) (mc_generation c) (mc_rights c) 1 2 2 ++
    [U64 216 (mc_mapping_id c); U64 224 (mc_length c); U32 232 (mc_cache_policy c)]
  else inline_written (error_completion (mc_session_id c) (mc_status c)).

Definition mapping_reserved (c : kb2_gpu_virtgpu_map_completion) : list field :=
  if mc_status c =? 0
  then header_reserved ++ [U64 120 0; U32 132 0; U32 148 0; U32 164 0; U32 212 0; U32 236 0]
  else inline_reserved (error_completion (mc_session_id c) (mc_status c)).

Definition mapping_size (c : kb2_gpu_virtgpu_map_completion) : Z := if mc_status c =? 0 then 240 else 104.

Definition mapping_encoder (format : mapping_completion_format) (b : list Z) (n : Z)
    (c : kb2_gpu_virtgpu_map_completion) : bool * list Z :=
  let '(st, _, out) := mapping_completion_encode (Some b) n true (Some c) format in status_encoded b st out.

Definition mapping_decoder (format : mapping_completion_format) (session generation : Z) (b : list Z) (n : Z) :
    option kb2_gpu_virtgpu_map_completion :=
  status_decoded (mapping_completion_decode (Some b) n session generation true format).

(** The constant fields of the descriptors. *)
Definition mapping_constants (schema generation : Z) : list field :=
  [U32 104 1; U32 108 7; U32 112 2; U32 116 schema; U64 120 0; U32 128 24; U32 132 0;
   U32 136 2; U32 140 9; U32 144 2; U32 148 0; U64 152 1; U32 160 1; U32 164 0;
   U32 168 1; U32 172 1; U64 184 generation; U32 200 1; U32 204 2; U32 208 2; U32 212 0; U32 236 0].

Lemma mapping_descriptors_spec b schema generation :
  mapping_descriptors_valid b generation 104 136 168 216 (mapping_format schema) = true <->
  Forall (reads b 0) (mapping_constants schema generation).
Proof.
  unfold mapping_descriptors_valid, mapping_constants.
  rewrite !negb_orb, !negb_involutive, !andb_true_iff, !Z.eqb_eq, !Forall_cons, Forall_nil. cbn [reads].
  rewrite ?Z.add_0_l. literal_offsets b. cbn [mapping_format fm_record_schema_id fm_record_size fm_attachment_argument_id fm_attachment_role].
  change KB2_GPU_ARGUMENT_INLINE with 7. change KB2_GPU_ARGUMENT_ATTACHMENT with 9. change KB2_GPU_ARGUMENT_FLAG_OUTPUT with 2.
  change KB2_GPU_ATTACHMENT_MEMORY with 1. change KB2_GPU_ATTACHMENT_SHARE with 2. change KB2_GPU_ATTACHMENT_FLAG_OUTPUT with 2.
  split; intros; destruct_and?; split_and!; done.
Qed.

Lemma mapping_encode_spec schema session generation b n c :
  mapping_typed session generation c ->
  (mapping_size c <= n /\ mapping_ok c /\
     mapping_encoder (mapping_format schema) b n c =
       (true, put_fields (zero_bytes b 0 (mapping_size c)) 0 (mapping_written schema c))) \/
  (~ (mapping_size c <= n /\ mapping_ok c) /\ mapping_encoder (mapping_format schema) b n c = (false, b)).
Proof.
  intros Ht. pose proof (mct_status _ _ _ Ht) as Hst. pose proof (mct_session _ _ _ Ht) as [Hid Hs].
  unfold mapping_encoder, mapping_completion_encode. cbn [negb]. rewrite <- (map_valid_spec _ _ c Ht).
  destruct (map_valid c) eqn:Hv; cbn [negb]; [| right; by split; [intros [_ ?] |]].
  apply (map_valid_spec _ _ c Ht) in Hv. change KB2_GPU_STATUS_OK with 0. unfold mapping_size, mapping_written.
  destruct (Z.eqb_spec (mc_status c) 0) as [Hz | Hz]; cbn [negb].
  - cbv zeta. change (KB2_GPU_COMPLETION_HEADER_SIZE + 2 * KB2_GPU_ARGUMENT_DESCRIPTOR_SIZE +
      KB2_GPU_ATTACHMENT_DESCRIPTOR_SIZE + fm_record_size (mapping_format schema)) with 240.
    destruct (Z.ltb_spec n 240); [right; split; [intros []; lia | done] | left]. split_and!; [lia | done |].
    rewrite !put_fields_app. done.
  - assert (Ht' : inline_typed session (error_completion (mc_session_id c) (mc_status c))).
    { rewrite Hid. by apply error_typed. }
    destruct (inline_encode_spec session b n _ Ht') as [(? & ? & E) | [Hno E]]; [left; by split_and! | right].
    split; [| done]. intros [Hsz _]. apply Hno. split; [done |]. destruct Hv as [? [[? _] | [? _]]]; [by apply error_ok | done].
Qed.

Lemma mapping_decode_reads schema session generation b n c :
  mapping_decoder (mapping_format schema) session generation b n = Some c ->
  mapping_typed session generation c /\ mapping_ok c /\ n = mapping_size c /\
  Forall (reads b 0) (mapping_written schema c ++ mapping_reserved c).
Proof.
  unfold mapping_decoder, mapping_completion_decode. cbn [negb orb].
  destruct (Z.eqb_spec session 0); [done |]. destruct (Z.eqb_spec generation 0); [done |]. cbn [orb].
  destruct (Z.ltb_spec n KB2_GPU_COMPLETION_HEADER_SIZE); [done |]. cbv zeta.
  change KB2_GPU_COMPLETION_HEADER_STATUS_OFFSET with 48. change KB2_GPU_STATUS_OK with 0.
  unfold mapping_written, mapping_reserved, mapping_size.
  destruct (Z.eqb_spec (load_u32 b 48) 0) as [Hz | Hz]; cbn [negb].
  - destruct (attachment_header_valid b n session _ _ _ _ _) eqn:Hh; cbn [negb]; [| done].
    apply (attachment_header_spec b n session _ _ _ _ _ 0 Hz) in Hh as [Hn Hh].
    destruct (mapping_descriptors_valid _ _ _ _ _ _ _) eqn:Hd; cbn [negb]; [| done].
    apply mapping_descriptors_spec in Hd. destruct (map_valid _) eqn:Hok; [| done]. cbn [negb]. intros [= <-].
    unfold completion_header, header_reserved, mapping_constants in *. cbn [app] in Hh. solve_reads.
    assert (Ht : mapping_typed session generation (mkMapCompletion session 0
      (load_u64 b (104 + 2 * 32 + 48 + 0)) (load_u64 b (104 + 2 * 32 + 48 + 8)) (load_u32 b (104 + 2 * 32 + 48 + 16))
      (load_u64 b (104 + 2 * 32 + 8)) generation (load_u64 b (104 + 2 * 32 + 24)))).
    { split; cbn; try first [apply load_u32_range | apply load_u64_range | done];
        [split; [done |] |]; subst; apply load_u64_range. }
    apply (map_valid_spec session generation) in Hok; [| exact Ht]. subst n.
    split_and!; [exact Ht | exact Hok | done |]. cbn [mc_status Z.eqb]. unfold attachment_written. cbn [app].
    literal_offsets b. by repeat (apply Forall_cons; split).
  - intros (e & He & ->)%status_decoded_some. pose proof He as Hd.
    apply inline_decode_reads in Hd as ([[Hid Hse] Hst _ _ _] & Hok & Hn & Hr).
    assert (Hes : ic_status e = load_u32 b 48).
    { clear -Hr. unfold inline_written, inline_fixed, completion_header in Hr. cbn [app] in Hr. solve_reads. done. }
    assert (Hez : ic_status e <> 0) by congruence. apply error_decoded in He; [| done].
    cbn [mc_session_id mc_status]. rewrite (proj2 (Z.eqb_neq _ _) Hez), Hid. rewrite He in Hn, Hr. cbn [ic_status] in Hn, Hr.
    split_and!; [split; cbn; done | | done | done].
    unfold mapping_ok. cbn [mc_session_id mc_status]. split; [congruence |]. left.
    split; [split; [unfold is_u32 in Hst; lia | apply Hok] | done].
Qed.

Lemma mapping_reads_decode schema session generation b n c :
  session <> 0 -> generation <> 0 -> mapping_typed session generation c -> mapping_ok c -> n = mapping_size c ->
  Forall (reads b 0) (mapping_written schema c ++ mapping_reserved c) ->
  mapping_decoder (mapping_format schema) session generation b n = Some c.
Proof.
  intros Hs Hg Ht Hok -> Hr. pose proof (mct_session _ _ _ Ht) as [Hid Hsr]. pose proof (mct_status _ _ _ Ht) as Hst.
  unfold mapping_decoder, mapping_completion_decode. cbn [negb orb].
  rewrite (proj2 (Z.eqb_neq _ _) Hs), (proj2 (Z.eqb_neq _ _) Hg). cbn [orb]. cbv zeta.
  change KB2_GPU_COMPLETION_HEADER_STATUS_OFFSET with 48. change KB2_GPU_STATUS_OK with 0.
  unfold mapping_written, mapping_reserved, mapping_size in *.
  destruct (Z.eqb_spec (mc_status c) 0) as [Hz | Hz].
  - pose proof (mct_generation _ _ _ Ht Hz) as Hge. apply (map_valid_spec _ _ c Ht) in Hok.
    destruct c as [s st id len cache ex gen rights].
    cbn [mc_session_id mc_status mc_mapping_id mc_length mc_cache_policy mc_exchange_id mc_generation mc_rights] in *. subst s st gen.
    unfold completion_header, header_reserved, attachment_written in Hr. cbn [app] in Hr. solve_reads. literal_offsets b.
    assert (Hh : attachment_header_valid b 240 session 240 2 24 168 216 = true).
    { apply (attachment_header_spec b 240 session _ _ _ _ _ 0); [done |]. split; [done |].
      unfold completion_header, header_reserved. cbn [app]. by repeat (apply Forall_cons; split). }
    assert (Hd : mapping_descriptors_valid b generation 104 136 168 216 (mapping_format schema) = true).
    { apply mapping_descriptors_spec. unfold mapping_constants. by repeat (apply Forall_cons; split). }
    rewrite_loads b. cbn [Z.eqb negb].
    change (KB2_GPU_COMPLETION_HEADER_SIZE + 2 * KB2_GPU_ARGUMENT_DESCRIPTOR_SIZE) with 168.
    change (KB2_GPU_COMPLETION_HEADER_SIZE + KB2_GPU_ARGUMENT_DESCRIPTOR_SIZE) with 136.
    change (168 + KB2_GPU_ATTACHMENT_DESCRIPTOR_SIZE) with 216. change (216 + fm_record_size (mapping_format schema)) with 240.
    change (fm_record_size (mapping_format schema)) with 24. change KB2_GPU_COMPLETION_HEADER_SIZE with 104.
    rewrite Hh, Hd, Hok. done.
  - assert (He : inline_decoder session b 104 = Some (error_completion session (mc_status c))).
    { apply inline_reads_decode; [done | by apply error_typed | | done | by rewrite <- Hid at 1 2].
      destruct Hok as [_ [[? _] | [? _]]]; [by apply error_ok | done]. }
    assert (Hl : load_u32 b 48 = mc_status c).
    { unfold inline_written, inline_fixed, completion_header in Hr. cbn [app] in Hr. solve_reads. done. }
    rewrite Hl, (proj2 (Z.eqb_neq _ _) Hz). cbn [negb]. change (104 <? KB2_GPU_COMPLETION_HEADER_SIZE) with false. cbn [orb].
    apply status_decoded_some. eexists. split; [exact He |].
    destruct Hok as [_ [(_ & ->) | [? _]]]; [cbn; by rewrite Hid | done].
Qed.

Lemma mapping_wire schema session generation :
  is_u32 schema -> session <> 0 -> generation <> 0 ->
  WireFormat (mapping_encoder (mapping_format schema)) (mapping_decoder (mapping_format schema) session generation)
    (mapping_typed session generation) mapping_ok (fun n c => mapping_size c <= n) (fun n c => n = mapping_size c) mapping_size.
Proof.
  intros Hsch Hs Hg. apply (record_wire mapping_size (mapping_written schema) mapping_reserved).
  - intros c _. unfold mapping_size. case_match; lia.
  - intros c Ht Hok. pose proof (mct_session _ _ _ Ht) as [Hid ?]. unfold mapping_written.
    destruct (Z.eqb_spec (mc_status c) 0) as [Hz | Hz].
    + destruct Ht. rewrite Hid. unfold completion_header, attachment_written. cbn [app].
      solve_typed; first [apply gpu_identity_typed | apply gpu_digest_typed | unfold is_u32, is_u64 in *; lia].
    + rewrite Hid. apply (inline_written_typed session); [apply error_typed; by destruct Ht |].
      destruct Hok as [_ [[? _] | [? _]]]; [by apply error_ok | done].
  - intros c _. unfold mapping_reserved. case_match; by repeat constructor.
  - intros c _. unfold mapping_size, mapping_written. by case_match.
  - intros c _. unfold mapping_size, mapping_written, mapping_reserved. by case_match.
  - intros c _. unfold mapping_size, mapping_written, mapping_reserved. by case_match.
  - apply mapping_encode_spec.
  - intros b n c. unfold mapping_encoder, mapping_completion_encode, kb2_gpu_inline_completion_encode.
    cbn [negb]. destruct (map_valid c); [| done]. destruct (mc_status c =? _); cbn [negb].
    + by destruct (n <? _).
    + destruct (valid _); [| done]. by destruct (n <? _).
  - apply mapping_decode_reads.
  - intros b n c. by apply mapping_reads_decode.
  - done.
  - intros n c _ ->. done.
Qed.

(** The schema of the inline record separates the formats. *)
Lemma mapping_schemas schema schema' session session' generation generation' b n c c' :
  mapping_decoder (mapping_format schema) session generation b n = Some c ->
  mapping_decoder (mapping_format schema') session' generation' b n = Some c' ->
  mc_status c = 0 -> schema = schema'.
Proof.
  intros (_ & _ & _ & Hr)%mapping_decode_reads (_ & _ & _ & Hr')%mapping_decode_reads Hz.
  unfold mapping_written in *. rewrite Hz in Hr. destruct (Z.eqb_spec (mc_status c') 0) as [Hz' | Hz'].
  - unfold completion_header in *. cbn [Z.eqb app] in *. solve_reads. congruence.
  - unfold inline_written, inline_fixed, completion_header in *. cbn [Z.eqb app] in *. solve_reads.
    cbn [error_completion ic_status] in *. congruence.
Qed.
