(* ===== verification/GpuSyncFile.v ===== *)
(** Sync-file control messages between the GPU owner and its clients
    (protocol/include/kobox2/gpu_sync_file.h): requests to export a sync file from a
    buffer, to import one and to release one, and their responses.

    A function's result is its status and its output cells, as in [GpuSession].

    The sync-file messages are exact wire formats. *)

From Stdlib Require Import ZArith Lia.
From stdpp Require Import base numbers tactics list_numbers list.
From S2P Require Import Prelude Bytes Layout Protocol ProtocolSpec GpuDrmLayout.

Open Scope Z_scope.

Record kb2_gpu_sync_file_request := mkSyncFileRequest {
  sf_opcode : Z;
  sf_token : Z;
  sf_flags : Z;
  sf_session_id : Z;
  sf_sync_file_token : Z;
}.

(** The loops over the eight bytes of a word. *)
Definition kb2_gpu_sync_file_load (p : list Z) (offset : Z) : Z :=
  foldl (fun value i => Z.lor value (Z.shiftl (get_byte p (offset + i)) (i * 8))) 0 (seqZ 0 8).

Definition kb2_gpu_sync_file_store (p : list Z) (offset value : Z) : list Z :=
  foldl (fun p i => put_byte p (offset + i) (Z.shiftr value (i * 8))) p (seqZ 0 8).

Definition kb2_gpu_sync_file_request_size (op : Z) : Z :=
  if op =? KB2_GPU_OPCODE_DMA_BUF_EXPORT_SYNC_FILE then KB2_GPU_DMA_BUF_EXPORT_SYNC_FILE_REQUEST_SIZE
  else if op =? KB2_GPU_OPCODE_DMA_BUF_IMPORT_SYNC_FILE then KB2_GPU_DMA_BUF_IMPORT_SYNC_FILE_REQUEST_SIZE
  else if op =? KB2_GPU_OPCODE_SYNC_FILE_RELEASE then KB2_GPU_SYNC_FILE_RELEASE_REQUEST_SIZE
  else 0.

Definition kb2_gpu_sync_file_response_size (op : Z) : Z :=
  if op =? KB2_GPU_OPCODE_DMA_BUF_EXPORT_SYNC_FILE then KB2_GPU_DMA_BUF_EXPORT_SYNC_FILE_RESPONSE_SIZE
  else if op =? KB2_GPU_OPCODE_DMA_BUF_IMPORT_SYNC_FILE then KB2_GPU_DMA_BUF_IMPORT_SYNC_FILE_RESPONSE_SIZE
  else if op =? KB2_GPU_OPCODE_SYNC_FILE_RELEASE then KB2_GPU_SYNC_FILE_RELEASE_RESPONSE_SIZE
  else 0.

Definition kb2_gpu_sync_file_request_valid (r : option kb2_gpu_sync_file_request) : bool :=
  match r with
  | None => false
  | Some r =>
      if sf_token r =? 0 then false
      else if sf_opcode r =? KB2_GPU_OPCODE_DMA_BUF_EXPORT_SYNC_FILE then
        negb (sf_session_id r =? 0) && (sf_sync_file_token r =? 0)
      else if sf_opcode r =? KB2_GPU_OPCODE_DMA_BUF_IMPORT_SYNC_FILE then
        negb (sf_sync_file_token r =? 0) && (sf_session_id r =? 0)
      else if sf_opcode r =? KB2_GPU_OPCODE_SYNC_FILE_RELEASE then
        (sf_flags r =? 0) && (sf_session_id r =? 0) && (sf_sync_file_token r =? 0)
      else false
  end.

(** * Requests *)

Definition kb2_gpu_sync_file_request_encode (bytes : option (list Z)) (size : Z)
    (request : option kb2_gpu_sync_file_request) : kb2_protocol_status * option (list Z) :=
  match bytes, request with
  | Some p, Some r =>
      if negb (kb2_gpu_sync_file_request_valid request) ||
         negb (size =? kb2_gpu_sync_file_request_size (sf_opcode r)) then (KB2_PROTOCOL_MALFORMED, Some p)
      else
        let p := zero_bytes p 0 size in
        let p := kb2_gpu_sync_file_store p 0 (sf_token r) in
        let p :=
          if sf_opcode r =? KB2_GPU_OPCODE_DMA_BUF_EXPORT_SYNC_FILE then
            let p := kb2_gpu_sync_file_store p 8 (sf_flags r) in
            kb2_gpu_sync_file_store p 16 (sf_session_id r)
          else if sf_opcode r =? KB2_GPU_OPCODE_DMA_BUF_IMPORT_SYNC_FILE then
            let p := kb2_gpu_sync_file_store p 8 (sf_sync_file_token r) in
            kb2_gpu_sync_file_store p 16 (sf_flags r)
          else p in
        (KB2_PROTOCOL_OK, Some p)
  | _, _ => (KB2_PROTOCOL_MALFORMED, bytes)
  end.

Definition kb2_gpu_sync_file_request_decode (bytes : option (list Z)) (size op : Z) (out_given : bool) :
    kb2_protocol_status * option kb2_gpu_sync_file_request :=
  let expected := kb2_gpu_sync_file_request_size op in
  match bytes with
  | None => (KB2_PROTOCOL_MALFORMED, None)
  | Some p =>
      if negb out_given || (expected =? 0) || negb (size =? expected) then (KB2_PROTOCOL_MALFORMED, None)
      else
        let token := kb2_gpu_sync_file_load p 0 in
        if (op =? KB2_GPU_OPCODE_DMA_BUF_EXPORT_SYNC_FILE) && negb (kb2_gpu_sync_file_load p 24 =? 0)
        then (KB2_PROTOCOL_MALFORMED, None)
        else
          let r :=
            if op =? KB2_GPU_OPCODE_DMA_BUF_EXPORT_SYNC_FILE then
              mkSyncFileRequest op token (kb2_gpu_sync_file_load p 8) (kb2_gpu_sync_file_load p 16) 0
            else if op =? KB2_GPU_OPCODE_DMA_BUF_IMPORT_SYNC_FILE then
              mkSyncFileRequest op token (kb2_gpu_sync_file_load p 16) 0 (kb2_gpu_sync_file_load p 8)
            else mkSyncFileRequest op token 0 0 0 in
          if negb (kb2_gpu_sync_file_request_valid (Some r)) then (KB2_PROTOCOL_MALFORMED, None)
          else (KB2_PROTOCOL_OK, Some r)
  end.

(** * Responses

    The result is a C [int], on the wire the two's complement of its 64-bit value. *)

Definition signed64 (z : Z) : Z := if z <? 2 ^ 63 then z else z - 2 ^ 64.

Definition result_invalid (op result exported : Z) : bool :=
  (0 <? result) || (result <? -4095) ||
  (if op =? KB2_GPU_OPCODE_DMA_BUF_EXPORT_SYNC_FILE then
     (if negb (result =? 0) then negb (exported =? 0) else exported =? 0)
   else negb (exported =? 0)).

Definition kb2_gpu_sync_file_response_encode (bytes : option (list Z)) (size : Z)
    (request : option kb2_gpu_sync_file_request) (result exported : Z) : kb2_protocol_status * option (list Z) :=
  match bytes, request with
  | Some p, Some r =>
      if negb (kb2_gpu_sync_file_request_valid request) ||
         negb (size =? kb2_gpu_sync_file_response_size (sf_opcode r)) || result_invalid (sf_opcode r) result exported
      then (KB2_PROTOCOL_MALFORMED, Some p)
      else
        let p := zero_bytes p 0 size in
        let p := kb2_gpu_sync_file_store p 0 (sf_token r) in
        let p :=
          if sf_opcode r =? KB2_GPU_OPCODE_DMA_BUF_EXPORT_SYNC_FILE then
            let p := kb2_gpu_sync_file_store p 8 (sf_flags r) in
            let p := kb2_gpu_sync_file_store p 16 (sf_session_id r) in
            kb2_gpu_sync_file_store p 24 exported
          else if sf_opcode r =? KB2_GPU_OPCODE_DMA_BUF_IMPORT_SYNC_FILE then
            let p := kb2_gpu_sync_file_store p 8 (sf_sync_file_token r) in
            kb2_gpu_sync_file_store p 16 (sf_flags r)
          else p in
        let p := kb2_gpu_sync_file_store p (size - 8) (u64 result) in
        (KB2_PROTOCOL_OK, Some p)
  | _, _ => (KB2_PROTOCOL_MALFORMED, bytes)
  end.

(** The value is the result and the exported token. *)
Definition kb2_gpu_sync_file_response_decode (bytes : option (list Z)) (size : Z)
    (request : option kb2_gpu_sync_file_request) (result_given exported_given : bool) :
    kb2_protocol_status * option (Z * Z) :=
  match bytes, request with
  | Some p, Some r =>
      if negb result_given || negb exported_given || negb (kb2_gpu_sync_file_request_valid request) ||
         negb (size =? kb2_gpu_sync_file_response_size (sf_opcode r)) || negb (kb2_gpu_sync_file_load p 0 =? sf_token r)
      then (KB2_PROTOCOL_MALFORMED, None)
      else if (sf_opcode r =? KB2_GPU_OPCODE_DMA_BUF_EXPORT_SYNC_FILE) &&
              (negb (kb2_gpu_sync_file_load p 8 =? sf_flags r) || negb (kb2_gpu_sync_file_load p 16 =? sf_session_id r))
      then (KB2_PROTOCOL_MALFORMED, None)
      else if (sf_opcode r =? KB2_GPU_OPCODE_DMA_BUF_IMPORT_SYNC_FILE) &&
              (negb (kb2_gpu_sync_file_load p 8 =? sf_sync_file_token r) || negb (kb2_gpu_sync_file_load p 16 =? sf_flags r))
      then (KB2_PROTOCOL_MALFORMED, None)
      else
        let token := if sf_opcode r =? KB2_GPU_OPCODE_DMA_BUF_EXPORT_SYNC_FILE then kb2_gpu_sync_file_load p 24 else 0 in
        let status := signed64 (kb2_gpu_sync_file_load p (size - 8)) in
        if (0 <? status) || (status <? -4095) ||
           ((sf_opcode r =? KB2_GPU_OPCODE_DMA_BUF_EXPORT_SYNC_FILE) &&
            (if negb (status =? 0) then negb (token =? 0) else token =? 0))
        then (KB2_PROTOCOL_MALFORMED, None)
        else (KB2_PROTOCOL_OK, Some (status, token))
  | _, _ => (KB2_PROTOCOL_MALFORMED, None)
  end.

(** * The byte loops are the little-endian accessors *)

Lemma sync_file_load p offset : kb2_gpu_sync_file_load p offset = load_u64 p offset.
Proof.
  unfold kb2_gpu_sync_file_load, load_u64, load_u32. cbn [seqZ]. change (seqZ 0 8) with [0; 1; 2; 3; 4; 5; 6; 7].
  cbn [foldl]. rewrite !Z.shiftl_lor, !Z.shiftl_shiftl by lia.
  replace (offset + 4 + 1) with (offset + 5) by lia. replace (offset + 4 + 2) with (offset + 6) by lia.
  replace (offset + 4 + 3) with (offset + 7) by lia. rewrite Z.add_0_r, Z.lor_0_l, Z.shiftl_0_r, !Z.lor_assoc. done.
Qed.

Lemma u8_shiftr_mod v n k : 0 <= n -> n + 8 <= k -> u8 (Z.shiftr (v mod 2 ^ k) n) = u8 (Z.shiftr v n).
Proof.
  intros Hn Hk. unfold u8. rewrite <- !Z.land_ones by lia. apply Z.bits_inj'. intros i Hi.
  rewrite !Z.land_spec, !Z.shiftr_spec, Z.land_spec by lia. destruct (Z.lt_ge_cases i 8) as [Hlt | Hge].
  - by rewrite (Z.ones_spec_low k) by lia; rewrite andb_true_r.
  - by rewrite !(Z.ones_spec_high 8), !andb_false_r by lia.
Qed.

Lemma put_byte_cong p i v v' : u8 v = u8 v' -> put_byte p i v = put_byte p i v'.
Proof. unfold put_byte. by intros ->. Qed.

Lemma sync_file_store p offset value : kb2_gpu_sync_file_store p offset value = store_u64 p offset value.
Proof.
  unfold kb2_gpu_sync_file_store, store_u64, store_u32. change (seqZ 0 8) with [0; 1; 2; 3; 4; 5; 6; 7].
  cbn [foldl]. unfold u32. rewrite Z.add_0_r, Z.shiftr_0_r.
  replace (offset + 4 + 1) with (offset + 5) by lia. replace (offset + 4 + 2) with (offset + 6) by lia.
  replace (offset + 4 + 3) with (offset + 7) by lia.
  repeat match goal with |- put_byte ?p ?i ?v = put_byte ?q ?i ?w =>
    transitivity (put_byte p i w); [apply put_byte_cong | f_equal] end.
  all: first [rewrite u8_shiftr_mod by lia | rewrite <- (Z.shiftr_0_r (_ `mod` _)), u8_shiftr_mod by lia].
  all: by rewrite ?Z.shiftr_shiftr, ?Z.shiftr_0_r by lia.
Qed.

(** * What is valid *)

Definition opcode_known (op : Z) : Prop := op = 5 \/ op = 6 \/ op = 7.

Definition sync_request_typed (op : Z) (r : kb2_gpu_sync_file_request) : Prop :=
  opcode_known op /\ sf_opcode r = op /\
  is_u64 (sf_token r) /\ is_u64 (sf_flags r) /\ is_u64 (sf_session_id r) /\ is_u64 (sf_sync_file_token r).

(** An export names the session that gets the file, an import the file, a release only
    the token; flags belong to export and import. *)
Definition sync_request_ok (r : kb2_gpu_sync_file_request) : Prop :=
  sf_token r <> 0 /\
  match sf_opcode r with
  | 5 => sf_session_id r <> 0 /\ sf_sync_file_token r = 0
  | 6 => sf_sync_file_token r <> 0 /\ sf_session_id r = 0
  | 7 => sf_flags r = 0 /\ sf_session_id r = 0 /\ sf_sync_file_token r = 0
  | _ => False
  end.

(** A result is zero or a negative error number; a successful export, and nothing
    else, has a token. *)
Definition sync_result_ok (r : kb2_gpu_sync_file_request) (x : Z * Z) : Prop :=
  -4095 <= x.1 <= 0 /\ (x.2 <> 0 <-> sf_opcode r = 5 /\ x.1 = 0).

Definition request_fields (r : kb2_gpu_sync_file_request) : list field :=
  U64 0 (sf_token r) ::
  match sf_opcode r with
  | 5 => [U64 8 (sf_flags r); U64 16 (sf_session_id r)]
  | 6 => [U64 8 (sf_sync_file_token r); U64 16 (sf_flags r)]
  | _ => []
  end.

Definition request_reserved (r : kb2_gpu_sync_file_request) : list field :=
  match sf_opcode r with 5 => [U64 24 0] | _ => [] end.

Definition response_fields (r : kb2_gpu_sync_file_request) (x : Z * Z) : list field :=
  request_fields r ++
  match sf_opcode r with
  | 5 => [U64 24 x.2; U64 32 (u64 x.1)]
  | 6 => [U64 24 (u64 x.1)]
  | _ => [U64 8 (u64 x.1)]
  end.

Lemma sync_request_valid_spec op r :
  opcode_known op -> sf_opcode r = op -> kb2_gpu_sync_file_request_valid (Some r) = true <-> sync_request_ok r.
Proof.
  intros Hop E. unfold kb2_gpu_sync_file_request_valid, sync_request_ok. rewrite E.
  destruct Hop as [-> | [-> | ->]]; cbn; destruct (Z.eqb_spec (sf_token r) 0); lia.
Qed.

Lemma signed64_of_result z : -4095 <= z <= 0 -> signed64 (u64 z) = z.
Proof.
  intros Hz. unfold signed64, u64. destruct (decide (z = 0)) as [-> | Hne]; [done |].
  assert (E : z mod 2 ^ 64 = z + 2 ^ 64) by (symmetry; apply (Z.mod_unique_pos z (2 ^ 64) (-1)); lia).
  rewrite E, (proj2 (Z.ltb_ge _ _)); lia.
Qed.

Lemma result_of_signed64 z : is_u64 z -> u64 (signed64 z) = z.
Proof.
  intros Hz. unfold signed64, u64, is_u64 in *. destruct (Z.ltb_spec z (2 ^ 63)).
  - by apply Z.mod_small.
  - rewrite <- (Z.mod_add _ 1) by lia. replace (z - 2 ^ 64 + 1 * 2 ^ 64) with z by lia. by apply Z.mod_small.
Qed.

(** * Requests *)

Lemma sync_request_decode_inv op b n r :
  status_decoded (kb2_gpu_sync_file_request_decode (Some b) n op true) = Some r ->
  opcode_known op /\ n = kb2_gpu_sync_file_request_size op /\ sync_request_typed op r /\
  kb2_gpu_sync_file_request_valid (Some r) = true /\ Forall (reads b 0) (request_fields r ++ request_reserved r).
Proof.
  unfold kb2_gpu_sync_file_request_decode, status_decoded. rewrite !sync_file_load. cbn [negb orb].
  destruct (Z.eqb_spec (kb2_gpu_sync_file_request_size op) 0) as [| Hs]; [done |]. cbn [orb].
  destruct (Z.eqb_spec n (kb2_gpu_sync_file_request_size op)) as [-> | Hn]; [| done]. cbn [negb].
  assert (Hop : opcode_known op).
  { unfold opcode_known. unfold kb2_gpu_sync_file_request_size in Hs. revert Hs.
    destruct (Z.eqb_spec op KB2_GPU_OPCODE_DMA_BUF_EXPORT_SYNC_FILE); [by left |].
    destruct (Z.eqb_spec op KB2_GPU_OPCODE_DMA_BUF_IMPORT_SYNC_FILE); [by right; left |].
    destruct (Z.eqb_spec op KB2_GPU_OPCODE_SYNC_FILE_RELEASE); [by right; right | done]. }
  pose proof (load_u64_range b). 
  destruct Hop as [-> | [-> | ->]]; cbn -[load_u64 kb2_gpu_sync_file_request_valid].
  1: destruct (Z.eqb_spec (load_u64 b 24) 0); [| done]; cbn [negb].
  all: destruct (kb2_gpu_sync_file_request_valid _) eqn:Hv; [| done]; intros [= <-].
  all: split; [unfold opcode_known; lia |]; split; [done |]; split; [| split; [done | by repeat constructor]].
  all: split; [unfold opcode_known; lia |]; by repeat split; try apply H.
Qed.

Definition sync_request_encoder (b : list Z) (n : Z) (r : kb2_gpu_sync_file_request) : bool * list Z :=
  let '(st, out) := kb2_gpu_sync_file_request_encode (Some b) n (Some r) in status_encoded b st out.

Definition sync_request_decoder (op : Z) (b : list Z) (n : Z) : option kb2_gpu_sync_file_request :=
  status_decoded (kb2_gpu_sync_file_request_decode (Some b) n op true).

Lemma sync_request_wire op :
  WireFormat sync_request_encoder (sync_request_decoder op) (sync_request_typed op) sync_request_ok
    (fun n _ => n = kb2_gpu_sync_file_request_size op) (fun n _ => n = kb2_gpu_sync_file_request_size op)
    (fun _ => kb2_gpu_sync_file_request_size op).
Proof.
  apply (record_wire (fun _ => kb2_gpu_sync_file_request_size op) request_fields request_reserved).
  - intros r ([-> | [-> | ->]] & _); done.
  - intros r ([-> | [-> | ->]] & E & ? & ? & ? & ?) _; unfold request_fields; rewrite E; solve_typed.
  - intros r ([-> | [-> | ->]] & E & _); unfold request_reserved; rewrite E; by repeat constructor.
  - intros r ([-> | [-> | ->]] & E & _); unfold request_fields; by rewrite E.
  - intros r ([-> | [-> | ->]] & E & _); unfold request_fields, request_reserved; by rewrite E.
  - intros r ([-> | [-> | ->]] & E & _); unfold request_fields, request_reserved; by rewrite E.
  - intros b n r (Hop & E & _). rewrite <- (sync_request_valid_spec op r Hop E).
    unfold sync_request_encoder, kb2_gpu_sync_file_request_encode, request_fields. rewrite E, !sync_file_store.
    destruct (kb2_gpu_sync_file_request_valid (Some r)); cbn [negb orb]; [| by right; split; [intros [_ ?] |]].
    destruct (Z.eqb_spec n (kb2_gpu_sync_file_request_size op)) as [-> | Hn]; cbn [negb]; [| by right; split; [intros [? _] |]].
    left. split; [done |]. split; [done |].
    destruct Hop as [-> | [-> | ->]]; cbn -[store_u64 zero_bytes kb2_gpu_sync_file_store]; rewrite ?sync_file_store; reflexivity.
  - intros b n r. unfold sync_request_encoder, kb2_gpu_sync_file_request_encode. by destruct (negb _ || negb _).
  - intros b n r E. apply sync_request_decode_inv in E as (Hop & -> & Ht & Hv & Hr).
    split; [exact Ht |]. split; [apply (sync_request_valid_spec op r Hop); [apply Ht | done] | done].
  - intros b n r (Hop & E & _) Hok -> Hr. pose proof Hok as Hv. apply (sync_request_valid_spec op r Hop E) in Hv.
    destruct Hok as [_ Hok].
    unfold sync_request_decoder, kb2_gpu_sync_file_request_decode, status_decoded, request_fields, request_reserved in *. rewrite !sync_file_load.
    rewrite E in Hr, Hok. destruct r as [o token flags session file]. cbn in E. subst o.
    destruct Hop as [-> | [-> | ->]]; cbn [app] in Hr; solve_reads; cbn in Hok;
      [destruct Hok as [_ ->] | destruct Hok as [_ ->] | destruct Hok as (-> & -> & ->)];
      cbn -[load_u64 kb2_gpu_sync_file_request_valid];
      repeat match goal with H : load_u64 b _ = _ |- _ => rewrite H; clear H end;
      cbn -[kb2_gpu_sync_file_request_valid]; cbn [sf_token sf_flags sf_session_id sf_sync_file_token] in Hv; rewrite Hv; done.
  - intros n r Ht ->. done.
  - done.
Qed.

(** * Responses *)

Definition sync_result_typed (x : Z * Z) : Prop := - 2 ^ 31 <= x.1 < 2 ^ 31 /\ is_u64 x.2.

Lemma result_invalid_spec r x : result_invalid (sf_opcode r) x.1 x.2 = false <-> sync_result_ok r x.
Proof.
  unfold result_invalid, sync_result_ok. change KB2_GPU_OPCODE_DMA_BUF_EXPORT_SYNC_FILE with 5.
  destruct (Z.eqb_spec (sf_opcode r) 5), (Z.eqb_spec x.1 0); cbn [negb]; lia.
Qed.

Definition sync_response_encoder (r : kb2_gpu_sync_file_request) (b : list Z) (n : Z) (x : Z * Z) : bool * list Z :=
  let '(st, out) := kb2_gpu_sync_file_response_encode (Some b) n (Some r) x.1 x.2 in status_encoded b st out.

Definition sync_response_decoder (r : kb2_gpu_sync_file_request) (b : list Z) (n : Z) : option (Z * Z) :=
  status_decoded (kb2_gpu_sync_file_response_decode (Some b) n (Some r) true true).

Section Response.
Context (op : Z) (r : kb2_gpu_sync_file_request) (Ht : sync_request_typed op r) (Hok : sync_request_ok r).

Lemma response_decode_inv b n x :
  sync_response_decoder r b n = Some x ->
  n = kb2_gpu_sync_file_response_size op /\ sync_result_ok r x /\ sync_result_typed x /\
  Forall (reads b 0) (response_fields r x).
Proof.
  destruct Ht as (Hop & E & _). pose proof Hok as Hv. apply (sync_request_valid_spec op r Hop E) in Hv.
  unfold sync_response_decoder, kb2_gpu_sync_file_response_decode, status_decoded, response_fields, request_fields.
  rewrite !sync_file_load, Hv, E.
  cbn [negb orb]. destruct (Z.eqb_spec n (kb2_gpu_sync_file_response_size op)) as [-> |]; [| done]. cbn [negb orb].
  destruct (Z.eqb_spec (load_u64 b 0) (sf_token r)) as [H0 |]; [| done]. cbn [negb].
  assert (Hres : forall z t, (0 <? signed64 z) || (signed64 z <? -4095) ||
            ((op =? 5) && (if negb (signed64 z =? 0) then negb (t =? 0) else t =? 0)) = false ->
            is_u64 z -> is_u64 t -> (op <> 5 -> t = 0) -> sync_result_ok r (signed64 z, t) /\ sync_result_typed (signed64 z, t)).
  { intros z t Hf Hz Hu H5. unfold sync_result_ok, sync_result_typed, is_u64 in *. rewrite E. cbn [fst snd].
    destruct (Z.eqb_spec op 5), (Z.eqb_spec (signed64 z) 0); cbn [negb andb] in Hf; lia. }
  pose proof (load_u64_range b) as Hr. unfold KB2_GPU_OPCODE_DMA_BUF_EXPORT_SYNC_FILE, KB2_GPU_OPCODE_DMA_BUF_IMPORT_SYNC_FILE.
  destruct Hop as [-> | [-> | ->]]; cbn -[load_u64 signed64].
  - destruct (Z.eqb_spec (load_u64 b 8) (sf_flags r)); [| done]. destruct (Z.eqb_spec (load_u64 b 16) (sf_session_id r)); [| done].
    cbn -[load_u64 signed64]. destruct (_ || _) eqn:Hf; [done |]. intros [= <-]. destruct (Hres _ _ Hf) as [? ?]; try done.
    split_and!; [done | done | done |]. repeat constructor; try done. cbn -[load_u64 u64 signed64]. by rewrite result_of_signed64.
  - destruct (Z.eqb_spec (load_u64 b 8) (sf_sync_file_token r)); [| done]. destruct (Z.eqb_spec (load_u64 b 16) (sf_flags r)); [| done].
    cbn -[load_u64 signed64]. destruct (_ || _) eqn:Hf; [done |]. intros [= <-]. destruct (Hres _ 0 Hf) as [? ?]; try done.
    split_and!; [done | done | done |]. repeat constructor; try done. cbn -[load_u64 u64 signed64]. by rewrite result_of_signed64.
  - destruct (_ || _) eqn:Hf; [done |]. intros [= <-]. destruct (Hres _ 0 Hf) as [? ?]; try done.
    split_and!; [done | done | done |]. repeat constructor; try done. cbn -[load_u64 u64 signed64]. by rewrite result_of_signed64.
Qed.

Lemma sync_response_wire :
  WireFormat (sync_response_encoder r) (sync_response_decoder r)
    sync_result_typed (sync_result_ok r)
    (fun n _ => n = kb2_gpu_sync_file_response_size op) (fun n _ => n = kb2_gpu_sync_file_response_size op)
    (fun _ => kb2_gpu_sync_file_response_size op).
Proof.
  destruct Ht as (Hop & E & ? & ? & ? & ?). pose proof Hok as Hv. apply (sync_request_valid_spec op r Hop E) in Hv.
  apply (record_wire (fun _ => kb2_gpu_sync_file_response_size op) (response_fields r) (fun _ => [])).
  - intros _ _. by destruct Hop as [-> | [-> | ->]].
  - intros x [? ?] _. unfold response_fields, request_fields. rewrite E. pose proof (u64_range x.1).
    destruct Hop as [-> | [-> | ->]]; cbn [app]; solve_typed.
  - by repeat constructor.
  - intros x _. unfold response_fields, request_fields. rewrite E. by destruct Hop as [-> | [-> | ->]].
  - done.
  - intros x _. unfold response_fields, request_fields. rewrite E. by destruct Hop as [-> | [-> | ->]].
  - intros b n x _. rewrite <- result_invalid_spec. unfold sync_response_encoder, kb2_gpu_sync_file_response_encode, response_fields, request_fields.
    rewrite Hv, E, !sync_file_store. cbn [negb orb].
    destruct (Z.eqb_spec n (kb2_gpu_sync_file_response_size op)) as [-> | Hn]; cbn [negb orb]; [| by right; split; [intros [? _] |]].
    destruct (result_invalid op x.1 x.2); [by right; split; [intros [_ ?] |] |]. left. split; [done |]. split; [done |].
    destruct Hop as [-> | [-> | ->]]; cbn -[store_u64 zero_bytes kb2_gpu_sync_file_store u64]; rewrite ?sync_file_store; reflexivity.
  - intros b n x. unfold sync_response_encoder, kb2_gpu_sync_file_response_encode. by destruct (negb _ || _ || _).
  - intros b n x Hd. apply response_decode_inv in Hd as (? & ? & ? & ?). by rewrite app_nil_r.
  - intros b n x _ Hx -> Hr. rewrite app_nil_r in Hr. pose proof Hx as [Hle Hex]. apply result_invalid_spec in Hx.
    unfold sync_response_decoder, kb2_gpu_sync_file_response_decode, status_decoded, response_fields, request_fields in *. rewrite !sync_file_load, Hv.
    rewrite E in *. destruct x as [result exported]. cbn [fst snd] in *. unfold result_invalid in Hx.
    assert (Hx0 : exported = 0 \/ op = 5) by (destruct Hop as [-> | [-> | ->]]; lia).
    destruct Hop as [-> | [-> | ->]]; cbn [app] in Hr; solve_reads; cbn -[load_u64 u64 signed64] in Hx |- *;
      literal_offsets b; rewrite_loads b; rewrite ?Z.eqb_refl, signed64_of_result by done; cbn -[u64 signed64].
    + by rewrite Hx.
    + assert (exported = 0) as -> by lia. cbn in Hx. by rewrite Hx.
    + assert (exported = 0) as -> by lia. cbn in Hx. by rewrite Hx.
  - by intros n x _ ->.
  - done.
Qed.
End Response.

(** A response answers one request: the bytes repeat what names it. *)
Lemma sync_response_identifies op op' r r' b n x x' :
  sync_request_typed op r -> sync_request_ok r -> sync_request_typed op' r' -> sync_request_ok r' ->
  sync_response_decoder r b n = Some x -> sync_response_decoder r' b n = Some x' -> r = r'.
Proof.
  intros Ht Hok Ht' Hok' (Hn & _ & _ & Hr)%(response_decode_inv op r Ht Hok) (Hn' & _ & _ & Hr')%(response_decode_inv op' r' Ht' Hok').
  destruct Ht as (Hop & E & _), Ht' as (Hop' & E' & _), Hok as [_ Hok], Hok' as [_ Hok'].
  assert (op = op') as <- by (subst n; destruct Hop as [-> | [-> | ->]], Hop' as [-> | [-> | ->]]; done). clear Hn Hn' Hop'.
  unfold response_fields, request_fields in Hr, Hr'. rewrite E in Hr, Hok. rewrite E' in Hr', Hok'. destruct r, r'. cbn in E, E'. subst.
  destruct Hop as [-> | [-> | ->]]; cbn -[u64] in Hr, Hr', Hok, Hok'; solve_reads; f_equal; intuition congruence.
Qed.
