(* ===== verification/GpuClaims.v ===== *)
(** Claims about the GPU session, sync-file and completion messages. *)

From Stdlib Require Import ZArith Lia.
From stdpp Require Import base numbers tactics sets list_numbers list.
From S2P Require Import Prelude Bytes Layout Protocol ProtocolSpec GpuLayout GpuSession.
From S2P Require Import GpuCompletion GpuCompletionSpec GpuSyncFile.

Open Scope Z_scope.

Definition mapping_formats : list mapping_completion_format :=
  [virtgpu_map_format; mode_map_format; amdgpu_map_format; i915_map_format].

Lemma mapping_formats_shape f : f ∈ mapping_formats -> exists schema, is_u32 schema /\ f = mapping_format schema.
Proof.
  unfold mapping_formats. rewrite !elem_of_cons, elem_of_nil. unfold is_u32.
  intros [-> | [-> | [-> | [-> | []]]]]; eexists; (split; [| reflexivity]); split; vm_compute; done.
Qed.

(** A mapping result is accepted only for the command it answers: bytes that one
    command set's decoder accepts as a successful mapping are refused by the decoders
    of the other three, and by every decoder that expects another session or another
    generation of the attachment. *)
Lemma mapping_results_separate format format' session session' generation generation' b n c :
  format ∈ mapping_formats -> format' ∈ mapping_formats ->
  mapping_decoder format session generation b n = Some c -> mc_status c = 0 ->
  (format, session, generation) <> (format', session', generation') ->
  mapping_decoder format' session' generation' b n = None.
Proof.
  intros (schema & _ & ->)%mapping_formats_shape (schema' & _ & ->)%mapping_formats_shape Hd Hz Hne.
  destruct (mapping_decoder (mapping_format schema') session' generation' b n) as [c' |] eqn:Hd'; [| done].
  destruct Hne. pose proof (mapping_schemas _ _ _ _ _ _ _ _ _ _ Hd Hd' Hz) as <-.
  apply mapping_decode_reads in Hd as (Ht & Hok & Hn & Hr). apply mapping_decode_reads in Hd' as (Ht' & Hok' & Hn' & Hr').
  assert (Hz' : mc_status c' = 0).
  { unfold mapping_size in Hn, Hn'. rewrite Hz in Hn. cbn in Hn. subst n.
    destruct (Z.eqb_spec (mc_status c') 0); [done | discriminate]. }
  destruct (mct_session _ _ _ Ht) as [Hs _]. destruct (mct_session _ _ _ Ht') as [Hs' _].
  pose proof (mct_generation _ _ _ Ht Hz) as Hg. pose proof (mct_generation _ _ _ Ht' Hz') as Hg'.
  unfold mapping_written in *. rewrite Hz in Hr. rewrite Hz' in Hr'.
  unfold completion_header, attachment_written in *. cbn [Z.eqb app] in *. solve_reads. congruence.
Qed.

(** C29. The GPU messages beside the commands are exact wire formats: opening and
    closing a session, the completion of either, the result of a command inline, as
    an attachment, or as a mapping in each of the four command sets, and the export,
    import and release of a sync file and their responses.  Each encoder
    accepts exactly the valid values that fit and leaves the buffer alone otherwise,
    touches no byte past the message and writes bytes that decode to the same value;
    each decoder accepts nothing but its encoder's bytes, for the expected session and
    generation only, and looks at no byte past the given size.  A response to a
    sync-file request is accepted for that request only, and a mapping only for the
    command it answers: bytes that one command set's decoder accepts as a successful
    mapping are refused by the decoders of the other three, and by every decoder that
    expects another session or another generation of the attachment. *)
Theorem gpu_wire session generation :
  session <> 0 -> generation <> 0 ->
  WireFormat (fun b n r => let '(st, out) := kb2_gpu_session_open_encode (Some b) n (Some r) in status_encoded b st out)
    (fun b n => status_decoded (kb2_gpu_session_open_decode (Some b) n true))
    session_open_typed session_open_ok (fun n _ => n = 24) (fun n _ => n = 24) (fun _ => 24) /\
  WireFormat (fun b n s => let '(st, out) := kb2_gpu_session_close_encode (Some b) n s in status_encoded b st out)
    (fun b n => status_decoded (kb2_gpu_session_close_decode (Some b) n true))
    is_u64 (fun s => s <> 0) (fun n _ => n = 16) (fun n _ => n = 16) (fun _ => 16) /\
  (forall opcode,
    WireFormat session_encoder (session_decoder opcode) (session_completion_typed opcode) session_completion_ok
      (fun n c => session_completion_size c <= n) (fun n c => n = session_completion_size c) session_completion_size) /\
  WireFormat inline_encoder (inline_decoder session) (inline_typed session) inline_ok
    (fun n c => inline_size c <= n) (fun n c => n = inline_size c) inline_size /\
  WireFormat attachment_encoder (attachment_decoder session generation) (attachment_typed session generation) attachment_ok
    (fun n c => attachment_size c <= n) (fun n c => n = attachment_size c) attachment_size /\
  (forall format, format ∈ mapping_formats ->
    WireFormat (mapping_encoder format) (mapping_decoder format session generation) (mapping_typed session generation)
      mapping_ok (fun n c => mapping_size c <= n) (fun n c => n = mapping_size c) mapping_size) /\
  (forall op,
    WireFormat sync_request_encoder (sync_request_decoder op) (sync_request_typed op) sync_request_ok
      (fun n _ => n = kb2_gpu_sync_file_request_size op) (fun n _ => n = kb2_gpu_sync_file_request_size op)
      (fun _ => kb2_gpu_sync_file_request_size op)) /\
  (forall op r, sync_request_typed op r -> sync_request_ok r ->
    WireFormat (sync_response_encoder r) (sync_response_decoder r) sync_result_typed (sync_result_ok r)
      (fun n _ => n = kb2_gpu_sync_file_response_size op) (fun n _ => n = kb2_gpu_sync_file_response_size op)
      (fun _ => kb2_gpu_sync_file_response_size op) /\
    forall op' r' b n x x', sync_request_typed op' r' -> sync_request_ok r' ->
      sync_response_decoder r b n = Some x -> sync_response_decoder r' b n = Some x' -> r = r') /\
  (forall format format' session' generation' b n c,
    format ∈ mapping_formats -> format' ∈ mapping_formats ->
    mapping_decoder format session generation b n = Some c -> mc_status c = 0 ->
    (format, session, generation) <> (format', session', generation') ->
    mapping_decoder format' session' generation' b n = None).
Proof.
  intros Hs Hg. split_and!.
  - apply session_open_wire.
  - apply session_close_wire.
  - apply session_completion_wire.
  - by apply inline_wire.
  - by apply attachment_wire.
  - intros format (schema & Hsch & ->)%mapping_formats_shape. by apply mapping_wire.
  - apply sync_request_wire.
  - intros op r Ht Hok. split; [by apply sync_response_wire |].
    intros op' r' b n x x' Ht' Hok'. by apply (sync_response_identifies op op').
  - intros format format' session' generation' b n c. apply mapping_results_separate.
Qed.

(** A mapping of two pages. *)
Definition sample_mapping : kb2_gpu_virtgpu_map_completion := mkMapCompletion 5 0 4096 8192 1 77 9 3.

Definition mapping_bytes (format : mapping_completion_format) : list Z :=
  (mapping_encoder format (replicate 240 7) 240 sample_mapping).2.

Lemma gpu_wire_witness :
  mapping_decoder mode_map_format 5 9 (mapping_bytes mode_map_format) 240 = Some sample_mapping /\
  mapping_decoder mode_map_format 5 9 (mapping_bytes virtgpu_map_format) 240 = None.
Proof.
  destruct (gpu_wire 5 9 ltac:(lia) ltac:(lia)) as (_ & _ & _ & _ & _ & Hw & _ & _ & Hsep). split.
  2: { refine (Hsep virtgpu_map_format mode_map_format 5 9 (mapping_bytes virtgpu_map_format) 240 sample_mapping _ _ _ _ _).
       - unfold mapping_formats. set_solver.
       - unfold mapping_formats. set_solver.
       - vm_compute. reflexivity.
       - reflexivity.
       - intros [=]. }
  assert (Ht : mapping_typed 5 9 sample_mapping) by (split; unfold is_u32, is_u64; cbn; lia).
  destruct (mapping_encoder mode_map_format (replicate 240 7) 240 sample_mapping) as [ok b'] eqn:E.
  assert (Hok : ok = true) by (apply (f_equal fst) in E; cbn [fst] in E; rewrite <- E; vm_compute; reflexivity).
  subst ok. unfold mapping_bytes. rewrite E.
  refine (wire_roundtrip (WireFormat := Hw mode_map_format ltac:(unfold mapping_formats; set_solver))
    (replicate 240 7) b' 240 240 sample_mapping Ht _ E _); [vm_compute; discriminate | reflexivity].
Defined.
