(* ===== verification/GpuRequest.v ===== *)
(** GPU commands, the parts every command set shares (protocol/src/gpu.c,
    protocol/include/kobox2/gpu.h): the command sets of the device profiles, regions,
    spans, attachments and arguments, and the check of a request against the generated
    request catalogs.

    An array behind a pointer and a count is a list and the count, NULL is [None]; a
    loop that compares an element with the earlier ones carries them in [seen]. *)

From Stdlib Require Import ZArith Lia.
From stdpp Require Import base numbers tactics list_numbers list.
From S2P Require Import Prelude Bytes Layout Protocol GpuLayout GpuDrmLayout GpuCompletion.

Open Scope Z_scope.
Open Scope kobox_scope.

Record kb2_gpu_command_set := mkCommandSet {
  cs_set_id : Z;
  cs_queue_class : Z;
  cs_command_count : Z;
  cs_schema_digest : list Z;
}.

Record kb2_gpu_region := mkRegion {
  rg_region_id : Z;
  rg_rights : Z;
  rg_length : Z;
}.

Record kb2_gpu_argument := mkArgument {
  ar_argument_id : Z;
  ar_kind : Z;
  ar_flags : Z;
  ar_record_schema_id : Z;
  ar_value : Z;
  ar_count : Z;
}.

Record kb2_gpu_span := mkSpan {
  sp_span_id : Z;
  sp_region_id : Z;
  sp_offset : Z;
  sp_length : Z;
  sp_rights : Z;
  sp_record_schema_id : Z;
  sp_element_count : Z;
  sp_flags : Z;
}.

Record kb2_gpu_command_source := mkCommandSource {
  so_generation : Z;
  so_session_id : Z;
  so_profile_kind : Z;
  so_queue_class : Z;
  so_command_set_id : Z;
  so_command_id : Z;
  so_flags : Z;
  so_deadline_ns : Z;
  so_arguments : option (list kb2_gpu_argument);
  so_argument_count : Z;
  so_spans : option (list kb2_gpu_span);
  so_span_count : Z;
  so_attachments : option (list kb2_gpu_attachment);
  so_attachment_count : Z;
  so_inline_data : option (list Z);
  so_inline_length : Z;
  so_regions : option (list kb2_gpu_region);
  so_region_count : Z;
}.

(** The elements behind the pointers. *)
Definition arguments_of (s : kb2_gpu_command_source) : list kb2_gpu_argument :=
  array_items (default [] (so_arguments s)) (so_argument_count s).
Definition spans_of (s : kb2_gpu_command_source) : list kb2_gpu_span :=
  array_items (default [] (so_spans s)) (so_span_count s).
Definition attachments_of (s : kb2_gpu_command_source) : list kb2_gpu_attachment :=
  array_items (default [] (so_attachments s)) (so_attachment_count s).
Definition regions_of (s : kb2_gpu_command_source) : list kb2_gpu_region :=
  array_items (default [] (so_regions s)) (so_region_count s).
Definition data_of (s : kb2_gpu_command_source) : list Z := default [] (so_inline_data s).

Definition size_add_multiply (base count width : Z) : option Z :=
  if negb (count =? 0) && ((SIZE_MAX - base) / count <? width) then None else Some (u64 (base + u64 (count * width))).

(** * Profiles and command sets *)

Definition profile_kind_valid (profile_kind : Z) : bool :=
  (profile_kind =? KB2_GPU_PROFILE_VIRGL) || (profile_kind =? KB2_GPU_PROFILE_I915) ||
  (profile_kind =? KB2_GPU_PROFILE_AMDGPU).

Definition kb2_gpu_copy_schema_digest (out_given : bool) (digest_size : Z) : kb2_protocol_status * option (list Z) :=
  if negb out_given then (KB2_PROTOCOL_INVALID_ARGUMENT, None)
  else if digest_size <? KB2_GPU_SCHEMA_DIGEST_SIZE then (KB2_PROTOCOL_BUFFER_TOO_SMALL, None)
  else (KB2_PROTOCOL_OK, Some KB2_GPU_SCHEMA_SHA256_BYTES).

Definition kb2_gpu_profile_command_set_count (profile_kind : Z) : Z := if profile_kind_valid profile_kind then 3 else 0.

Definition kb2_gpu_profile_command_set (profile_kind index : Z) (out_given : bool) :
    kb2_protocol_status * option kb2_gpu_command_set :=
  if negb out_given || negb (profile_kind_valid profile_kind) then (KB2_PROTOCOL_INVALID_ARGUMENT, None)
  else if kb2_gpu_profile_command_set_count profile_kind <=? index then (KB2_PROTOCOL_INVALID_ARGUMENT, None)
  else
    (KB2_PROTOCOL_OK, Some
      (if index =? 0 then
         mkCommandSet KB2_GPU_DRM_CORE_SET_ID KB2_GPU_QUEUE_EXECUTION KB2_GPU_DRM_CORE_COMMAND_COUNT
           KB2_GPU_DRM_CORE_SCHEMA_SHA256_BYTES
       else if index =? 1 then
         mkCommandSet KB2_GPU_DRM_MODE_SET_ID KB2_GPU_QUEUE_DISPLAY KB2_GPU_DRM_MODE_COMMAND_COUNT
           KB2_GPU_DRM_MODE_SCHEMA_SHA256_BYTES
       else if profile_kind =? KB2_GPU_PROFILE_VIRGL then
         mkCommandSet KB2_GPU_DRM_VIRTGPU_SET_ID KB2_GPU_QUEUE_EXECUTION KB2_GPU_DRM_VIRTGPU_COMMAND_COUNT
           KB2_GPU_DRM_VIRTGPU_SCHEMA_SHA256_BYTES
       else if profile_kind =? KB2_GPU_PROFILE_I915 then
         mkCommandSet KB2_GPU_DRM_I915_SET_ID KB2_GPU_QUEUE_EXECUTION KB2_GPU_DRM_I915_COMMAND_COUNT
           KB2_GPU_DRM_I915_SCHEMA_SHA256_BYTES
       else
         mkCommandSet KB2_GPU_DRM_AMDGPU_SET_ID KB2_GPU_QUEUE_EXECUTION KB2_GPU_DRM_AMDGPU_COMMAND_COUNT
           KB2_GPU_DRM_AMDGPU_SCHEMA_SHA256_BYTES)).

(** The loop of [command_allowed] from [index] on, [n] turns from its end. *)
Fixpoint command_allowed_from (n : nat) (index profile_kind queue_class command_set_id command_id : Z) : bool :=
  match n with
  | O => false
  | S n =>
      match kb2_gpu_profile_command_set profile_kind index true with
      | (KB2_PROTOCOL_OK, Some set) =>
          if cs_set_id set =? command_set_id then
            (cs_queue_class set =? queue_class) && negb (command_id =? 0) && (command_id <=? cs_command_count set)
          else command_allowed_from n (index + 1) profile_kind queue_class command_set_id command_id
      | _ => false
      end
  end.

Definition command_allowed (profile_kind queue_class command_set_id command_id : Z) : bool :=
  command_allowed_from (Z.to_nat (kb2_gpu_profile_command_set_count profile_kind)) 0 profile_kind queue_class command_set_id
    command_id.

Definition wait_command (command_set_id command_id : Z) : bool :=
  if command_set_id =? KB2_GPU_DRM_CORE_SET_ID then
    (command_id =? KB2_GPU_DRM_CORE_COMMAND_SYNCOBJ_WAIT) || (command_id =? KB2_GPU_DRM_CORE_COMMAND_SYNCOBJ_TIMELINE_WAIT)
  else if command_set_id =? KB2_GPU_DRM_MODE_SET_ID then command_id =? KB2_GPU_DRM_MODE_COMMAND_WAIT_VBLANK
  else if command_set_id =? KB2_GPU_DRM_VIRTGPU_SET_ID then command_id =? KB2_GPU_DRM_VIRTGPU_COMMAND_WAIT
  else if command_set_id =? KB2_GPU_DRM_AMDGPU_SET_ID then
    (command_id =? KB2_GPU_DRM_AMDGPU_COMMAND_GEM_WAIT_IDLE) || (command_id =? KB2_GPU_DRM_AMDGPU_COMMAND_WAIT_CS) ||
    (command_id =? KB2_GPU_DRM_AMDGPU_COMMAND_WAIT_FENCES) || (command_id =? KB2_GPU_DRM_AMDGPU_COMMAND_USERQ_WAIT)
  else false.

(** * Regions, spans, attachments *)

Definition known_span_rights : Z := Z.lor KB2_GPU_SPAN_RIGHT_READ KB2_GPU_SPAN_RIGHT_WRITE.
Definition known_span_flags : Z := Z.lor KB2_GPU_SPAN_FLAG_INPUT KB2_GPU_SPAN_FLAG_OUTPUT.
Definition known_argument_flags : Z := Z.lor KB2_GPU_ARGUMENT_FLAG_INPUT KB2_GPU_ARGUMENT_FLAG_OUTPUT.

(** C's [count != 0 && array == NULL]. *)
Definition array_missing {T} (array : option T) (count : Z) : bool := negb (count =? 0) && bool_decide (array = None).

Fixpoint regions_loop (seen regions : list kb2_gpu_region) : bool :=
  match regions with
  | [] => true
  | region :: rest =>
      if (rg_region_id region =? 0) || (rg_length region =? 0) || (rg_rights region =? 0) ||
         negb (rg_rights region &~ known_span_rights =? 0) then false
      else if existsb (fun previous => rg_region_id region =? rg_region_id previous) seen then false
      else regions_loop (seen ++ [region]) rest
  end.

Definition regions_valid (regions : option (list kb2_gpu_region)) (region_count : Z) : bool :=
  if (KB2_PROTOCOL_MAX_REGIONS <? region_count) || array_missing regions region_count then false
  else regions_loop [] (array_items (default [] regions) region_count).

Definition find_region (regions : list kb2_gpu_region) (region_id : Z) : option kb2_gpu_region :=
  List.find (fun region => rg_region_id region =? region_id) regions.

Definition spans_overlap (left right : kb2_gpu_span) : bool :=
  (sp_region_id left =? sp_region_id right) && (sp_offset left <? u64 (sp_offset right + sp_length right)) &&
  (sp_offset right <? u64 (sp_offset left + sp_length left)).

Definition required_rights (flags : Z) : Z :=
  let required := if negb (Z.land flags KB2_GPU_SPAN_FLAG_INPUT =? 0) then Z.lor 0 KB2_GPU_SPAN_RIGHT_READ else 0 in
  if negb (Z.land flags KB2_GPU_SPAN_FLAG_OUTPUT =? 0) then Z.lor required KB2_GPU_SPAN_RIGHT_WRITE else required.

(** C's [index != 0 && id <= array[index - 1].id]. *)
Definition out_of_order (id : Z) (previous : option Z) : bool :=
  match previous with Some previous => id <=? previous | None => false end.

Fixpoint spans_loop (regions : list kb2_gpu_region) (seen spans : list kb2_gpu_span) : bool :=
  match spans with
  | [] => true
  | span :: rest =>
      match find_region regions (sp_region_id span) with
      | None => false
      | Some region =>
          if (sp_span_id span =? 0) || out_of_order (sp_span_id span) (sp_span_id <$> last seen) ||
             (sp_length span =? 0) || (U64_MAX - sp_length span <? sp_offset span) ||
             (sp_rights span =? 0) || negb (sp_rights span &~ known_span_rights =? 0) ||
             (sp_element_count span =? 0) || (sp_flags span =? 0) || negb (sp_flags span &~ known_span_flags =? 0) ||
             (rg_length region <? sp_offset span) || (rg_length region - sp_offset span <? sp_length span) then false
          else
            let required := required_rights (sp_flags span) in
            if negb (Z.land (sp_rights span) required =? required) ||
               negb (Z.land (rg_rights region) (sp_rights span) =? sp_rights span) then false
            else if existsb (fun previous => spans_overlap span previous &&
                      negb (Z.land (Z.lor (sp_rights span) (sp_rights previous)) KB2_GPU_SPAN_RIGHT_WRITE =? 0)) seen
            then false
            else spans_loop regions (seen ++ [span]) rest
      end
  end.

Definition spans_valid (spans : option (list kb2_gpu_span)) (span_count : Z) (regions : list kb2_gpu_region) : bool :=
  if array_missing spans span_count then false else spans_loop regions [] (array_items (default [] spans) span_count).

Definition find_span (spans : list kb2_gpu_span) (span_id : Z) : option kb2_gpu_span :=
  List.find (fun span => sp_span_id span =? span_id) spans.

Fixpoint attachments_loop (generation : Z) (seen attachments : list kb2_gpu_attachment) : bool :=
  match attachments with
  | [] => true
  | attachment :: rest =>
      if (at_attachment_id attachment =? 0) ||
         out_of_order (at_attachment_id attachment) (at_attachment_id <$> last seen) ||
         (at_object_class attachment <? KB2_GPU_ATTACHMENT_MEMORY) ||
         (KB2_GPU_ATTACHMENT_SYNCOBJ <? at_object_class attachment) ||
         (at_exchange_id attachment =? 0) || negb (at_generation attachment =? generation) ||
         (at_rights attachment =? 0) || (at_ownership attachment <? KB2_GPU_ATTACHMENT_BORROW) ||
         (KB2_GPU_ATTACHMENT_MOVE <? at_ownership attachment) ||
         negb (at_flags attachment =? KB2_GPU_ATTACHMENT_FLAG_INPUT) then false
      else if existsb (fun previous => at_exchange_id attachment =? at_exchange_id previous) seen then false
      else attachments_loop generation (seen ++ [attachment]) rest
  end.

Definition attachments_valid (attachments : option (list kb2_gpu_attachment)) (attachment_count generation : Z) : bool :=
  if array_missing attachments attachment_count then false
  else attachments_loop generation [] (array_items (default [] attachments) attachment_count).

Definition find_attachment (attachments : list kb2_gpu_attachment) (attachment_id : Z) : option kb2_gpu_attachment :=
  List.find (fun attachment => at_attachment_id attachment =? attachment_id) attachments.

(** * Arguments *)

Definition argument_references_valid (s : kb2_gpu_command_source) (argument : kb2_gpu_argument) : bool :=
  let kind := ar_kind argument in
  if (kind =? KB2_GPU_ARGUMENT_U64) || (kind =? KB2_GPU_ARGUMENT_I64) || (kind =? KB2_GPU_ARGUMENT_ENUM) ||
     (kind =? KB2_GPU_ARGUMENT_BITSET) then
    (ar_record_schema_id argument =? 0) && (ar_count argument =? 1)
  else if kind =? KB2_GPU_ARGUMENT_BOOL then
    (ar_record_schema_id argument =? 0) && (ar_count argument =? 1) && (ar_value argument <=? 1)
  else if kind =? KB2_GPU_ARGUMENT_OBJECT then negb (ar_record_schema_id argument =? 0) && (ar_count argument =? 1)
  else if kind =? KB2_GPU_ARGUMENT_INLINE then
    negb (ar_count argument =? 0) && (ar_value argument <=? so_inline_length s) &&
    (ar_count argument <=? so_inline_length s - ar_value argument)
  else if kind =? KB2_GPU_ARGUMENT_SPAN then
    if U32_MAX <? ar_value argument then false
    else
      match find_span (spans_of s) (ar_value argument) with
      | Some span =>
          (ar_count argument =? sp_element_count span) && (ar_record_schema_id argument =? sp_record_schema_id span)
      | None => false
      end
  else if kind =? KB2_GPU_ARGUMENT_ATTACHMENT then
    (ar_record_schema_id argument =? 0) && (ar_count argument =? 1) && (ar_value argument <=? U32_MAX) &&
    bool_decide (is_Some (find_attachment (attachments_of s) (ar_value argument)))
  else false.

Fixpoint arguments_loop (s : kb2_gpu_command_source) (seen arguments : list kb2_gpu_argument) : bool :=
  match arguments with
  | [] => true
  | argument :: rest =>
      if (ar_argument_id argument =? 0) || out_of_order (ar_argument_id argument) (ar_argument_id <$> last seen) ||
         (ar_flags argument =? 0) || negb (ar_flags argument &~ known_argument_flags =? 0) ||
         negb (argument_references_valid s argument) then false
      else arguments_loop s (seen ++ [argument]) rest
  end.

(** Some argument of [kind] names [id]. *)
Definition referenced (s : kb2_gpu_command_source) (kind id : Z) : bool :=
  existsb (fun argument => (ar_kind argument =? kind) && (ar_value argument =? id)) (arguments_of s).

Definition arguments_valid (s : kb2_gpu_command_source) : bool :=
  if array_missing (so_arguments s) (so_argument_count s) then false
  else
    arguments_loop s [] (arguments_of s) &&
    forallb (fun span => referenced s KB2_GPU_ARGUMENT_SPAN (sp_span_id span)) (spans_of s) &&
    forallb (fun attachment => referenced s KB2_GPU_ARGUMENT_ATTACHMENT (at_attachment_id attachment)) (attachments_of s).

Definition find_argument (s : kb2_gpu_command_source) (argument_id : Z) : option kb2_gpu_argument :=
  List.find (fun argument => ar_argument_id argument =? argument_id) (arguments_of s).

Definition span_element_count (s : kb2_gpu_command_source) (argument_id : Z) : Z :=
  match find_argument s argument_id with None => 0 | Some argument => ar_count argument end.

(** * Contracts *)

Record kb2_gpu_inline_contract := mkInlineContract {
  ic_record_id : Z;
  ic_size : Z;
}.

Record kb2_gpu_request_contract := mkRequestContract {
  rc_command_id : Z;
  rc_inline_record_id : Z;
  rc_inline_size : Z;
  rc_span_capacity : Z;
  rc_attachment_capacity : Z;
}.

Record kb2_gpu_span_contract := mkSpanContract {
  sc_command_id : Z;
  sc_argument_id : Z;
  sc_direction : Z;
  sc_minimum : Z;
  sc_maximum : Z;
  sc_record_id : Z;
  sc_record_size : Z;
}.

Record kb2_gpu_attachment_contract := mkAttachmentContract {
  tc_command_id : Z;
  tc_argument_id : Z;
  tc_role : Z;
  tc_ownership : Z;
  tc_optional : Z;
  tc_object_class : Z;
}.

Definition kb2_gpu_core_request_contracts : list kb2_gpu_request_contract :=
  KB2_GPU_DRM_CORE_REQUEST_CONTRACT_CATALOG mkRequestContract.
Definition kb2_gpu_core_span_contracts : list kb2_gpu_span_contract := KB2_GPU_DRM_CORE_REQUEST_SPAN_CATALOG mkSpanContract.
Definition kb2_gpu_core_attachment_contracts : list kb2_gpu_attachment_contract :=
  KB2_GPU_DRM_CORE_REQUEST_ATTACHMENT_CATALOG mkAttachmentContract.
Definition kb2_gpu_mode_request_contracts : list kb2_gpu_request_contract :=
  KB2_GPU_DRM_MODE_REQUEST_CONTRACT_CATALOG mkRequestContract.
Definition kb2_gpu_mode_span_contracts : list kb2_gpu_span_contract := KB2_GPU_DRM_MODE_REQUEST_SPAN_CATALOG mkSpanContract.
Definition kb2_gpu_virtgpu_request_contracts : list kb2_gpu_request_contract :=
  KB2_GPU_DRM_VIRTGPU_REQUEST_CONTRACT_CATALOG mkRequestContract.
Definition kb2_gpu_i915_request_contracts : list kb2_gpu_request_contract :=
  KB2_GPU_DRM_I915_REQUEST_CONTRACT_CATALOG mkRequestContract.
Definition kb2_gpu_i915_span_contracts : list kb2_gpu_span_contract := KB2_GPU_DRM_I915_REQUEST_SPAN_CATALOG mkSpanContract.
Definition kb2_gpu_virtgpu_span_contracts : list kb2_gpu_span_contract :=
  KB2_GPU_DRM_VIRTGPU_REQUEST_SPAN_CATALOG mkSpanContract.
Definition kb2_gpu_virtgpu_attachment_contracts : list kb2_gpu_attachment_contract :=
  KB2_GPU_DRM_VIRTGPU_REQUEST_ATTACHMENT_CATALOG mkAttachmentContract.
Definition kb2_gpu_amdgpu_request_contracts : list kb2_gpu_inline_contract :=
  KB2_GPU_DRM_AMDGPU_REQUEST_INLINE_CATALOG mkInlineContract.

(** The out parameters of [request_catalog]. *)
Record catalog := mkCatalog {
  ct_requests : list kb2_gpu_request_contract;
  ct_spans : list kb2_gpu_span_contract;
  ct_attachments : list kb2_gpu_attachment_contract;
}.

Definition request_catalog (command_set_id : Z) : option catalog :=
  if command_set_id =? KB2_GPU_DRM_I915_SET_ID then
    Some (mkCatalog kb2_gpu_i915_request_contracts kb2_gpu_i915_span_contracts [])
  else if command_set_id =? KB2_GPU_DRM_CORE_SET_ID then
    Some (mkCatalog kb2_gpu_core_request_contracts kb2_gpu_core_span_contracts kb2_gpu_core_attachment_contracts)
  else if command_set_id =? KB2_GPU_DRM_MODE_SET_ID then
    Some (mkCatalog kb2_gpu_mode_request_contracts kb2_gpu_mode_span_contracts [])
  else if command_set_id =? KB2_GPU_DRM_VIRTGPU_SET_ID then
    Some (mkCatalog kb2_gpu_virtgpu_request_contracts kb2_gpu_virtgpu_span_contracts kb2_gpu_virtgpu_attachment_contracts)
  else None.

Definition direction_flags (direction : Z) : Z :=
  if direction =? 1 then KB2_GPU_ARGUMENT_FLAG_INPUT
  else if direction =? 2 then KB2_GPU_ARGUMENT_FLAG_OUTPUT
  else if direction =? 3 then Z.lor KB2_GPU_ARGUMENT_FLAG_INPUT KB2_GPU_ARGUMENT_FLAG_OUTPUT
  else 0.

Definition direction_rights (direction : Z) : Z :=
  if direction =? 1 then KB2_GPU_SPAN_RIGHT_READ
  else if direction =? 2 then KB2_GPU_SPAN_RIGHT_WRITE
  else if direction =? 3 then Z.lor KB2_GPU_SPAN_RIGHT_READ KB2_GPU_SPAN_RIGHT_WRITE
  else 0.

Definition find_span_contract (contracts : list kb2_gpu_span_contract) (command_id argument_id record_id : Z) :
    option kb2_gpu_span_contract :=
  List.find (fun contract => (sc_command_id contract =? command_id) && (sc_argument_id contract =? argument_id) &&
               (sc_record_id contract =? record_id)) contracts.

Definition find_attachment_contract (contracts : list kb2_gpu_attachment_contract)
    (command_id argument_id object_class : Z) : option kb2_gpu_attachment_contract :=
  List.find (fun contract => (tc_command_id contract =? command_id) && (tc_argument_id contract =? argument_id) &&
               (tc_object_class contract =? object_class)) contracts.

(** * The catalog check *)

(** The span branch of the loop over the arguments. *)
Definition span_argument_valid (contracts : list kb2_gpu_span_contract) (s : kb2_gpu_command_source)
    (argument : kb2_gpu_argument) : bool :=
  match find_span_contract contracts (so_command_id s) (ar_argument_id argument) (ar_record_schema_id argument) with
  | None => false
  | Some contract =>
      if (U32_MAX <? ar_value argument) || (ar_count argument <? sc_minimum contract) ||
         (sc_maximum contract <? ar_count argument) then false
      else
        let flags := direction_flags (sc_direction contract) in
        let rights := direction_rights (sc_direction contract) in
        match find_span (spans_of s) (ar_value argument) with
        | None => false
        | Some span =>
            negb ((flags =? 0) || negb (ar_flags argument =? flags) || negb (sp_flags span =? flags) ||
                  negb (sp_rights span =? rights) || (U64_MAX / sc_record_size contract <? ar_count argument) ||
                  negb (sp_length span =? u64 (ar_count argument * sc_record_size contract)))
        end
  end.

(** The attachment branch. *)
Definition attachment_argument_valid (contracts : list kb2_gpu_attachment_contract) (s : kb2_gpu_command_source)
    (argument : kb2_gpu_argument) : bool :=
  if U32_MAX <? ar_value argument then false
  else
    match find_attachment (attachments_of s) (ar_value argument) with
    | None => false
    | Some attachment =>
        match find_attachment_contract contracts (so_command_id s) (ar_argument_id argument) (at_object_class attachment) with
        | None => false
        | Some contract =>
            negb (negb (ar_flags argument =? KB2_GPU_ARGUMENT_FLAG_INPUT) || negb (at_role attachment =? tc_role contract) ||
                  negb (at_ownership attachment =? tc_ownership contract))
        end
    end.

(** The loop over the arguments: the span and attachment arguments counted. *)
Fixpoint match_arguments (c : catalog) (has_inline : bool) (s : kb2_gpu_command_source) (arguments : list kb2_gpu_argument)
    (span_arguments attachment_arguments : Z) : option (Z * Z) :=
  match arguments with
  | [] => Some (span_arguments, attachment_arguments)
  | argument :: rest =>
      if (ar_argument_id argument =? 1) && has_inline then match_arguments c has_inline s rest span_arguments attachment_arguments
      else if ar_kind argument =? KB2_GPU_ARGUMENT_SPAN then
        if span_argument_valid (ct_spans c) s argument
        then match_arguments c has_inline s rest (span_arguments + 1) attachment_arguments else None
      else if ar_kind argument =? KB2_GPU_ARGUMENT_ATTACHMENT then
        if attachment_argument_valid (ct_attachments c) s argument
        then match_arguments c has_inline s rest span_arguments (attachment_arguments + 1) else None
      else None
  end.

(** The loops over the contracts: a required argument must be there.  [earlier] holds
    the contracts before the current one. *)
Fixpoint required_spans (s : kb2_gpu_command_source) (earlier contracts : list kb2_gpu_span_contract) : bool :=
  match contracts with
  | [] => true
  | contract :: rest =>
      if negb (sc_command_id contract =? so_command_id s) || (sc_minimum contract =? 0) then
        required_spans s (earlier ++ [contract]) rest
      else if negb (existsb (fun e => (sc_command_id e =? so_command_id s) && (sc_argument_id e =? sc_argument_id contract)) earlier) &&
              bool_decide (find_argument s (sc_argument_id contract) = None) then false
      else required_spans s (earlier ++ [contract]) rest
  end.

Fixpoint required_attachments (s : kb2_gpu_command_source) (earlier contracts : list kb2_gpu_attachment_contract) : bool :=
  match contracts with
  | [] => true
  | contract :: rest =>
      if negb (tc_command_id contract =? so_command_id s) || negb (tc_optional contract =? 0) then
        required_attachments s (earlier ++ [contract]) rest
      else if negb (existsb (fun e => (tc_command_id e =? so_command_id s) && (tc_argument_id e =? tc_argument_id contract)) earlier) &&
              bool_decide (find_argument s (tc_argument_id contract) = None) then false
      else required_attachments s (earlier ++ [contract]) rest
  end.

(** The tests of the inline argument. *)
Definition inline_argument_matches (s : kb2_gpu_command_source) (argument : option kb2_gpu_argument)
    (record_id size : Z) : bool :=
  match argument with
  | None => false
  | Some argument =>
      negb (negb (ar_kind argument =? KB2_GPU_ARGUMENT_INLINE) || negb (ar_flags argument =? KB2_GPU_ARGUMENT_FLAG_INPUT) ||
            negb (ar_record_schema_id argument =? record_id) || negb (ar_value argument =? 0) ||
            negb (ar_count argument =? size) || negb (so_inline_length s =? size))
  end.

(** [generic_request_valid] once the catalog is chosen. *)
Definition catalog_request_valid (c : catalog) (s : kb2_gpu_command_source) : bool :=
  if (so_command_id s =? 0) || (Z.of_nat (length (ct_requests c)) <? so_command_id s) then false
  else
    match ct_requests c !! Z.to_nat (so_command_id s - 1) with
    | None => false
    | Some request =>
        if negb (rc_command_id request =? so_command_id s) || (rc_span_capacity request <? so_span_count s) ||
           (rc_attachment_capacity request <? so_attachment_count s) then false
        else
          let inline_argument := find_argument s 1 in
          let has_inline := negb (rc_inline_record_id request =? 0) in
          if negb (if has_inline
                   then inline_argument_matches s inline_argument (rc_inline_record_id request) (rc_inline_size request)
                   else bool_decide (inline_argument = None) && (so_inline_length s =? 0)) then false
          else
            match match_arguments c has_inline s (arguments_of s) 0 0 with
            | None => false
            | Some (span_arguments, attachment_arguments) =>
                if negb (span_arguments =? so_span_count s) || negb (attachment_arguments =? so_attachment_count s) ||
                   negb (so_argument_count s =? (if has_inline then 1 else 0) + span_arguments + attachment_arguments)
                then false
                else required_spans s [] (ct_spans c) && required_attachments s [] (ct_attachments c)
            end
    end.

Definition generic_request_valid (s : kb2_gpu_command_source) : bool :=
  match request_catalog (so_command_set_id s) with
  | None => false
  | Some c => catalog_request_valid c s
  end.
