(* ===== verification/GpuRequestSpec.v ===== *)
(** What a GPU request must be, without reference to the loops of the code: the regions
    and spans as sets of bytes, the arguments as references, and the shape of a request
    against a catalog. *)

From Stdlib Require Import ZArith Lia.
From stdpp Require Import base numbers tactics list_numbers list.
From S2P Require Import Prelude Bytes Layout Sorted Protocol GpuLayout GpuDrmLayout GpuCompletion GpuRequest.

Open Scope Z_scope.
Open Scope kobox_scope.

(** Every bit of [x] is in [m]. *)
Definition bits_in (x m : Z) : Prop := Z.land x m = x.

Lemma andn_spec x m : x &~ m = 0 <-> bits_in x m.
Proof.
  unfold andn, bits_in. rewrite <- Z.ldiff_land. split; intros H.
  - apply Z.bits_inj'. intros n Hn. rewrite Z.land_spec. apply (f_equal (fun z => Z.testbit z n)) in H.
    rewrite Z.ldiff_spec, Z.bits_0 in H. by destruct (Z.testbit x n), (Z.testbit m n).
  - apply Z.bits_inj'. intros n Hn. rewrite Z.ldiff_spec, Z.bits_0, <- H, Z.land_spec.
    by destruct (Z.testbit x n), (Z.testbit m n).
Qed.

(** * Types *)

Record region_typed (r : kb2_gpu_region) : Prop := {
  rt_region_id : is_u32 (rg_region_id r);
  rt_rights : is_u32 (rg_rights r);
  rt_length : is_u64 (rg_length r);
}.

Record span_typed (p : kb2_gpu_span) : Prop := {
  st_span_id : is_u32 (sp_span_id p);
  st_region_id : is_u32 (sp_region_id p);
  st_offset : is_u64 (sp_offset p);
  st_length : is_u64 (sp_length p);
  st_rights : is_u32 (sp_rights p);
  st_record : is_u32 (sp_record_schema_id p);
  st_elements : is_u32 (sp_element_count p);
  st_flags : is_u32 (sp_flags p);
}.

Record attachment_typed (a : kb2_gpu_attachment) : Prop := {
  tt_attachment_id : is_u32 (at_attachment_id a);
  tt_object_class : is_u32 (at_object_class a);
  tt_exchange_id : is_u64 (at_exchange_id a);
  tt_generation : is_u64 (at_generation a);
  tt_rights : is_u64 (at_rights a);
  tt_role : is_u32 (at_role a);
  tt_ownership : is_u32 (at_ownership a);
  tt_flags : is_u32 (at_flags a);
}.

Record argument_typed (a : kb2_gpu_argument) : Prop := {
  gt_argument_id : is_u32 (ar_argument_id a);
  gt_kind : is_u32 (ar_kind a);
  gt_flags : is_u32 (ar_flags a);
  gt_record : is_u32 (ar_record_schema_id a);
  gt_value : is_u64 (ar_value a);
  gt_count : is_u32 (ar_count a);
}.

(** A count comes with an array that holds as many elements. *)
Definition array_typed {T} (array : option (list T)) (count : Z) (element : T -> Prop) : Prop :=
  0 <= count /\ match array with None => True | Some l => count <= Z.of_nat (length l) /\ Forall element l end.

Record source_typed (s : kb2_gpu_command_source) : Prop := {
  ct_generation : is_u64 (so_generation s);
  ct_session_id : is_u64 (so_session_id s);
  ct_profile : is_u32 (so_profile_kind s);
  ct_queue : is_u32 (so_queue_class s);
  ct_set : is_u32 (so_command_set_id s);
  ct_command : is_u32 (so_command_id s);
  ct_flags : is_u32 (so_flags s);
  ct_deadline : is_u64 (so_deadline_ns s);
  ct_argument_array : array_typed (so_arguments s) (so_argument_count s) argument_typed;
  ct_span_array : array_typed (so_spans s) (so_span_count s) span_typed;
  ct_attachment_array : array_typed (so_attachments s) (so_attachment_count s) attachment_typed;
  ct_inline_array : array_typed (so_inline_data s) (so_inline_length s) is_u8;
  ct_region_array : array_typed (so_regions s) (so_region_count s) region_typed;
}.

Lemma array_present {T} (array : option (list T)) count element :
  array_typed array count element ->
  array_missing array count = false <-> count = Z.of_nat (length (array_items (default [] array) count)).
Proof.
  unfold array_missing, array_items. intros [Hc Ha]. destruct array as [l |]; cbn.
  - destruct Ha as [Hl _]. rewrite length_take. rewrite andb_false_r. split; [lia | done].
  - rewrite take_nil, andb_true_r, negb_false_iff, Z.eqb_eq. done.
Qed.

Lemma array_elements {T} (array : option (list T)) count element :
  array_typed array count element -> Forall element (array_items (default [] array) count).
Proof.
  intros [_ Ha]. unfold array_items. destruct array as [l |]; cbn; [| by rewrite take_nil]. by apply Forall_take, Ha.
Qed.

(** * Regions *)

Definition region_ok (r : kb2_gpu_region) : Prop :=
  rg_region_id r <> 0 /\ rg_length r <> 0 /\ rg_rights r <> 0 /\ bits_in (rg_rights r) 3.

Definition regions_ok (regions : list kb2_gpu_region) : Prop :=
  Forall region_ok regions /\ NoDup (rg_region_id <$> regions).

Lemma existsb_false_forall {T} (f : T -> bool) (P : T -> Prop) l :
  (forall x, f x = false <-> P x) -> existsb f l = false <-> Forall P l.
Proof.
  intros Hf. induction l as [|x l IH]; cbn; [by rewrite Forall_nil |]. by rewrite orb_false_iff, Hf, IH, Forall_cons.
Qed.

Lemma regions_loop_each seen l :
  regions_loop seen l = true <->
  each (fun seen r => region_ok r /\ Forall (fun q => rg_region_id q <> rg_region_id r) seen) seen l.
Proof.
  revert seen. induction l as [|r l IH]; intros seen; [done |]. cbn [regions_loop each]. rewrite <- IH.
  assert (Hd : existsb (fun q => rg_region_id r =? rg_region_id q) seen = false <->
    Forall (fun q => rg_region_id q <> rg_region_id r) seen).
  { apply existsb_false_forall. intros q. rewrite Z.eqb_neq. naive_solver. }
  assert (Ho : (rg_region_id r =? 0) || (rg_length r =? 0) || (rg_rights r =? 0) ||
         negb (rg_rights r &~ known_span_rights =? 0) = false <-> region_ok r).
  { unfold region_ok. rewrite !orb_false_iff, negb_false_iff, !Z.eqb_neq, Z.eqb_eq, andn_spec. tauto. }
  destruct (_ || _ || _ || _), (existsb _ _); naive_solver.
Qed.

Lemma regions_valid_spec s :
  array_typed (so_regions s) (so_region_count s) region_typed ->
  regions_valid (so_regions s) (so_region_count s) = true <->
  so_region_count s <= KB2_PROTOCOL_MAX_REGIONS /\ so_region_count s = Z.of_nat (length (regions_of s)) /\ regions_ok (regions_of s).
Proof.
  intros Ht. unfold regions_valid, regions_of. rewrite <- array_present by done.
  pose proof (regions_loop_each [] (array_items (default [] (so_regions s)) (so_region_count s))) as Hl.
  rewrite each_and, each_forall, each_pairs, pairs_distinct in Hl. fold (regions_of s) in *.
  unfold regions_ok. destruct (Z.ltb_spec KB2_PROTOCOL_MAX_REGIONS (so_region_count s)), (array_missing _ _); cbn [orb];
    [split; [done | intros; exfalso; intuition (lia || done)] .. |].
  rewrite Hl. split; [intuition lia | intros (_ & _ & ? & ?); split_and!; try done]. by apply Forall_true.
Qed.

Lemma find_region_spec regions id r :
  regions_ok regions -> find_region regions id = Some r <-> r ∈ regions /\ rg_region_id r = id.
Proof. intros [_ Hn]. by apply find_key. Qed.

(** * Spans *)

(** The bytes of a span are bytes of a region, and the rights are the region's. *)
Record span_ok (regions : list kb2_gpu_region) (p : kb2_gpu_span) : Prop := {
  sk_region : exists r, r ∈ regions /\ rg_region_id r = sp_region_id p /\
    sp_offset p + sp_length p <= rg_length r /\ bits_in (sp_rights p) (rg_rights r);
  sk_length : sp_length p <> 0;
  sk_elements : sp_element_count p <> 0;
  sk_rights : sp_rights p <> 0 /\ bits_in (sp_rights p) 3;
  sk_flags : sp_flags p <> 0 /\ bits_in (sp_flags p) 3;
  sk_input : Z.testbit (sp_flags p) 0 = true -> Z.testbit (sp_rights p) 0 = true;
  sk_output : Z.testbit (sp_flags p) 1 = true -> Z.testbit (sp_rights p) 1 = true;
}.

Definition writes (p : kb2_gpu_span) : Prop := Z.testbit (sp_rights p) 1 = true.

Definition holds_byte (p : kb2_gpu_span) (region i : Z) : Prop :=
  sp_region_id p = region /\ sp_offset p <= i < sp_offset p + sp_length p.

(** Two spans share no byte that one of them may write. *)
Definition compatible (p q : kb2_gpu_span) : Prop :=
  writes p \/ writes q -> forall region i, ~ (holds_byte p region i /\ holds_byte q region i).

Definition spans_ok (regions : list kb2_gpu_region) (spans : list kb2_gpu_span) : Prop :=
  Forall (span_ok regions) spans /\ increasing 0 (sp_span_id <$> spans) /\ ForallOrdPairs compatible spans.

(** A single bit of a word. *)
Lemma land_bit_0 x n : 0 <= n -> (Z.land x (2 ^ n) =? 0) = negb (Z.testbit x n).
Proof.
  intros Hn. destruct (Z.testbit x n) eqn:E.
  - apply Z.eqb_neq. intros H. apply (f_equal (fun z => Z.testbit z n)) in H.
    rewrite Z.land_spec, E, Z.pow2_bits_true, Z.bits_0 in H by done. done.
  - apply Z.eqb_eq, Z.bits_inj'. intros m Hm. rewrite Z.land_spec, Z.bits_0, Z.pow2_bits_eqb by done.
    destruct (Z.eqb_spec n m) as [<- |]; [by rewrite E | by rewrite andb_false_r].
Qed.

Lemma bits_in_bit x n : 0 <= n -> bits_in (2 ^ n) x <-> Z.testbit x n = true.
Proof.
  intros Hn. unfold bits_in. split; [intros E | intros E].
  - apply (f_equal (fun z => Z.testbit z n)) in E. rewrite Z.land_spec, Z.pow2_bits_true in E by done. done.
  - apply Z.bits_inj'. intros m Hm. rewrite Z.land_spec, Z.pow2_bits_eqb by done.
    destruct (Z.eqb_spec n m) as [<- |]; [by rewrite E | done].
Qed.

Lemma bits_in_lor x y m : bits_in (Z.lor x y) m <-> bits_in x m /\ bits_in y m.
Proof.
  rewrite <- !andn_spec. unfold andn. rewrite Z.land_lor_distr_l, Z.lor_eq_0_iff. done.
Qed.

Lemma required_rights_spec flags rights :
  Z.land rights (required_rights flags) = required_rights flags <->
  (Z.testbit flags 0 = true -> Z.testbit rights 0 = true) /\ (Z.testbit flags 1 = true -> Z.testbit rights 1 = true).
Proof.
  rewrite Z.land_comm. fold (bits_in (required_rights flags) rights).
  pose proof (land_bit_0 flags 0 ltac:(done)) as H0. pose proof (land_bit_0 flags 1 ltac:(done)) as H1.
  pose proof (bits_in_bit rights 0 ltac:(done)) as B0. pose proof (bits_in_bit rights 1 ltac:(done)) as B1.
  pose proof (bits_in_lor 1 2 rights) as B2. change (2 ^ 0) with 1 in *. change (2 ^ 1) with 2 in *.
  change (Z.lor 1 2) with 3 in B2.
  unfold required_rights. change KB2_GPU_SPAN_FLAG_INPUT with 1. change KB2_GPU_SPAN_FLAG_OUTPUT with 2.
  rewrite H0, H1. destruct (Z.testbit flags 0), (Z.testbit flags 1); cbn; rewrite ?B2, ?B0, ?B1; naive_solver.
Qed.

Lemma command_spans_overlap p q :
  is_u64 (sp_offset p) -> is_u64 (sp_offset q) -> sp_length p <> 0 -> sp_length q <> 0 -> is_u64 (sp_length p) ->
  is_u64 (sp_length q) -> is_u64 (sp_offset p + sp_length p) -> is_u64 (sp_offset q + sp_length q) ->
  spans_overlap p q = true <-> exists region i, holds_byte p region i /\ holds_byte q region i.
Proof.
  intros. unfold spans_overlap, holds_byte. rewrite !u64_small by done. rewrite !andb_true_iff, Z.eqb_eq, !Z.ltb_lt.
  unfold is_u64 in *. split.
  - intros [[Hr ?] ?]. exists (sp_region_id p), (Z.max (sp_offset p) (sp_offset q)). lia.
  - intros (r & i & [-> ?] & [Hr ?]). lia.
Qed.

(** The tests of one span in its region. *)
Lemma span_tests_spec regions r p previous :
  regions_ok regions -> region_typed r -> span_typed p -> 0 <= from_option id 0 previous ->
  find_region regions (sp_region_id p) = Some r ->
  (sp_span_id p =? 0) || out_of_order (sp_span_id p) previous || (sp_length p =? 0) || (U64_MAX - sp_length p <? sp_offset p) ||
    (sp_rights p =? 0) || negb (sp_rights p &~ known_span_rights =? 0) || (sp_element_count p =? 0) || (sp_flags p =? 0) ||
    negb (sp_flags p &~ known_span_flags =? 0) || (rg_length r <? sp_offset p) || (rg_length r - sp_offset p <? sp_length p) = false /\
  negb (Z.land (sp_rights p) (required_rights (sp_flags p)) =? required_rights (sp_flags p)) ||
    negb (Z.land (rg_rights r) (sp_rights p) =? sp_rights p) = false <->
  span_ok regions p /\ from_option id 0 previous < sp_span_id p.
Proof.
  intros Hro Hrt [] Hp Hf.
  assert (Ho : out_of_order (sp_span_id p) previous = false <-> (is_Some previous -> from_option id 0 previous < sp_span_id p)).
  { destruct previous as [q |]; cbn; [rewrite Z.leb_gt; naive_solver | split; [by intros _ [] | done]]. }
  rewrite !orb_false_iff, !negb_false_iff, !Z.eqb_neq, !Z.ltb_ge, !Z.eqb_eq, !andn_spec, Ho, required_rights_spec.
  assert (Hr : (exists r', r' ∈ regions /\ rg_region_id r' = sp_region_id p /\ sp_offset p + sp_length p <= rg_length r' /\
    bits_in (sp_rights p) (rg_rights r')) <-> sp_offset p + sp_length p <= rg_length r /\ bits_in (sp_rights p) (rg_rights r)).
  { split.
    - intros (r' & ? & ? & H). assert (Some r' = Some r) as [= ->]; [| done]. rewrite <- Hf. symmetry. by apply find_region_spec.
    - intros H. exists r. apply find_region_spec in Hf as [? ?]; [done | done]. }
  destruct Hrt. unfold is_u64, is_u32, U64_MAX, known_span_rights, known_span_flags in *.
  change (Z.lor KB2_GPU_SPAN_RIGHT_READ KB2_GPU_SPAN_RIGHT_WRITE) with 3.
  change (Z.lor KB2_GPU_SPAN_FLAG_INPUT KB2_GPU_SPAN_FLAG_OUTPUT) with 3.
  rewrite (Z.land_comm (rg_rights r)). fold (bits_in (sp_rights p) (rg_rights r)). split.
  - intros H. destruct_and! H. split; [split; try tauto; apply Hr; split; [lia | done] |].
    destruct previous; cbn in *; [naive_solver | lia].
  - intros [[Hreg] Hlt]. apply Hr in Hreg as [? ?]. split_and!; try tauto; lia.
Qed.

Lemma span_end_u64 regions p : Forall region_typed regions -> span_typed p -> span_ok regions p -> is_u64 (sp_offset p + sp_length p).
Proof.
  rewrite Forall_forall. intros Hrt [] [(r & Hr & _ & Hle & _)]. destruct (Hrt r Hr). unfold is_u64 in *. lia.
Qed.

(** The test against an earlier span. *)
Lemma conflict_spec regions p q :
  Forall region_typed regions -> span_typed p -> span_typed q -> span_ok regions p -> span_ok regions q ->
  spans_overlap p q && negb (Z.land (Z.lor (sp_rights p) (sp_rights q)) KB2_GPU_SPAN_RIGHT_WRITE =? 0) = false <->
  compatible q p.
Proof.
  intros Hrt Hp Hq Hpo Hqo. pose proof (span_end_u64 _ _ Hrt Hp Hpo). pose proof (span_end_u64 _ _ Hrt Hq Hqo).
  pose proof (command_spans_overlap p q) as Hov. destruct Hp, Hq, Hpo, Hqo. specialize (Hov ltac:(done) ltac:(done) ltac:(done)).
  specialize (Hov ltac:(done) ltac:(done) ltac:(done) ltac:(done) ltac:(done)).
  pose proof (land_bit_0 (Z.lor (sp_rights p) (sp_rights q)) 1 ltac:(done)) as Hw. change (2 ^ 1) with 2 in Hw.
  change KB2_GPU_SPAN_RIGHT_WRITE with 2. rewrite Hw, negb_involutive, Z.lor_spec.
  rewrite <- not_true_iff_false, andb_true_iff, Hov, orb_true_iff. unfold compatible, writes. naive_solver.
Qed.

Lemma spans_loop_each regions seen l :
  regions_ok regions -> Forall region_typed regions -> Forall span_typed l -> Forall span_typed seen -> Forall (span_ok regions) seen ->
  spans_loop regions seen l = true <->
  each (fun seen p => span_ok regions p /\ from_option sp_span_id 0 (last seen) < sp_span_id p /\
          Forall (fun q => compatible q p) seen) seen l.
Proof.
  intros Hr Hrt Hl. revert seen. induction Hl as [|p l Hp _ IH]; intros seen Hst Hso; [done |]. cbn [spans_loop each].
  destruct (find_region _ _) as [r |] eqn:Hf.
  2: { split; [done |]. intros [([(r & Hin & E & _)] & _) _]. assert (E' : find_region regions (sp_region_id p) = Some r) by
         (apply find_region_spec; done). congruence. }
  assert (Hrtr : region_typed r) by (rewrite Forall_forall in Hrt; apply Hrt; by apply find_region_spec in Hf as [? _]).
  assert (Hpos : 0 <= from_option id 0 (sp_span_id <$> last seen)).
  { destruct (last seen) as [q |] eqn:E; cbn; [| done]. apply last_Some in E as [l' ->].
    apply Forall_app in Hst as [_ [[Hq _ _ _ _ _ _ _] _]%Forall_cons]. unfold is_u32 in Hq. lia. }
  pose proof (span_tests_spec regions r p (sp_span_id <$> last seen) Hr Hrtr Hp Hpos Hf) as Hs.
  replace (from_option id 0 (sp_span_id <$> last seen)) with (from_option sp_span_id 0 (last seen)) in Hs by by destruct (last seen).
  destruct (_ || _ || _ || _ || _ || _ || _ || _ || _ || _ || _); [split; [done |]; intros [(? & ? & _) _]; exfalso; naive_solver |].
  cbv zeta. destruct (negb _ || negb _); [split; [done |]; intros [(? & ? & _) _]; exfalso; naive_solver |].
  destruct Hs as [Hs _]. destruct (Hs ltac:(done)) as [Hok Hlt].
  assert (Hc : existsb (fun previous => spans_overlap p previous &&
      negb (Z.land (Z.lor (sp_rights p) (sp_rights previous)) KB2_GPU_SPAN_RIGHT_WRITE =? 0)) seen = false <->
    Forall (fun q => compatible q p) seen).
  { clear -Hrt Hp Hst Hso Hok. induction Hst as [|q seen Hq Hst IH]; cbn; [by rewrite Forall_nil |].
    apply Forall_cons in Hso as [Hqo Hso]. rewrite orb_false_iff, IH, Forall_cons by done. by rewrite (conflict_spec regions). }
  destruct (existsb _ _); [split; [done | naive_solver] |].
  rewrite IH by (apply Forall_app_2; [done | by apply Forall_singleton]). tauto.
Qed.

Lemma command_spans_valid s :
  array_typed (so_spans s) (so_span_count s) span_typed -> Forall region_typed (regions_of s) -> regions_ok (regions_of s) ->
  spans_valid (so_spans s) (so_span_count s) (regions_of s) = true <->
  so_span_count s = Z.of_nat (length (spans_of s)) /\ spans_ok (regions_of s) (spans_of s).
Proof.
  intros Ht Hrt Hr. unfold spans_valid, spans_of. rewrite <- array_present by done.
  pose proof (spans_loop_each (regions_of s) [] (array_items (default [] (so_spans s)) (so_span_count s)) Hr Hrt) as Hl.
  specialize (Hl (array_elements _ _ _ Ht) ltac:(constructor) ltac:(constructor)).
  rewrite each_and, each_forall, each_and, each_increasing, each_pairs in Hl. cbn [last from_option] in Hl.
  unfold spans_ok. destruct (array_missing _ _); [split; [done | by intros [? _]] |]. rewrite Hl.
  split; [tauto | intros (_ & ? & ? & ?); split_and!; try done]. by apply Forall_true.
Qed.

Lemma increasing_keys {T} (key : T -> Z) l : increasing 0 (key <$> l) -> NoDup (key <$> l).
Proof. apply increasing_NoDup. Qed.

Lemma find_span_spec regions spans i p :
  spans_ok regions spans -> find_span spans i = Some p <-> p ∈ spans /\ sp_span_id p = i.
Proof. intros (_ & Hi & _). by apply find_key, increasing_keys. Qed.

(** * Attachments *)

Definition attachment_ok (generation : Z) (a : kb2_gpu_attachment) : Prop :=
  KB2_GPU_ATTACHMENT_MEMORY <= at_object_class a <= KB2_GPU_ATTACHMENT_SYNCOBJ /\ at_exchange_id a <> 0 /\
  at_generation a = generation /\ at_rights a <> 0 /\
  KB2_GPU_ATTACHMENT_BORROW <= at_ownership a <= KB2_GPU_ATTACHMENT_MOVE /\ at_flags a = KB2_GPU_ATTACHMENT_FLAG_INPUT.

(** The ids increase and no object is attached twice. *)
Definition attachments_ok (generation : Z) (attachments : list kb2_gpu_attachment) : Prop :=
  Forall (attachment_ok generation) attachments /\ increasing 0 (at_attachment_id <$> attachments) /\
  NoDup (at_exchange_id <$> attachments).

(** [out_of_order] against the last id seen, for an id that is not zero. *)
Lemma out_of_order_spec {T} (key : T -> Z) (seen : list T) k :
  0 <= k -> Forall (fun x => 0 <= key x) seen ->
  (k =? 0) || out_of_order k (key <$> last seen) = false <-> from_option key 0 (last seen) < k.
Proof.
  intros Hk Hs. destruct (last seen) as [x |] eqn:E; cbn; rewrite orb_false_iff, Z.eqb_neq.
  - rewrite Z.leb_gt. apply last_Some in E as [l' ->]. apply Forall_app in Hs as [_ [Hx _]%Forall_cons]. lia.
  - split; [lia | split; [lia | done]].
Qed.

Lemma attachments_loop_each generation seen l :
  Forall attachment_typed l -> Forall (fun a => 0 <= at_attachment_id a) seen ->
  attachments_loop generation seen l = true <->
  each (fun seen a => attachment_ok generation a /\ from_option at_attachment_id 0 (last seen) < at_attachment_id a /\
          Forall (fun q => at_exchange_id q <> at_exchange_id a) seen) seen l.
Proof.
  intros Hl. revert seen. induction Hl as [|a l Ha _ IH]; intros seen Hs; [done |]. cbn [attachments_loop each].
  assert (Hid : 0 <= at_attachment_id a) by (destruct Ha as [[] _ _ _ _ _ _ _]; lia).
  pose proof (out_of_order_spec at_attachment_id seen (at_attachment_id a) Hid Hs) as Ho.
  assert (Hd : existsb (fun q => at_exchange_id a =? at_exchange_id q) seen = false <->
    Forall (fun q => at_exchange_id q <> at_exchange_id a) seen).
  { apply existsb_false_forall. intros q. rewrite Z.eqb_neq. naive_solver. }
  rewrite <- Ho, <- Hd, <- IH by (apply Forall_app_2; [done | by apply Forall_singleton]).
  unfold attachment_ok. destruct ((at_attachment_id a =? 0) || _); cbn [orb]; [split; [done | naive_solver] |].
  destruct (Z.ltb_spec (at_object_class a) KB2_GPU_ATTACHMENT_MEMORY), (Z.ltb_spec KB2_GPU_ATTACHMENT_SYNCOBJ (at_object_class a)),
    (Z.eqb_spec (at_exchange_id a) 0), (Z.eqb_spec (at_generation a) generation), (Z.eqb_spec (at_rights a) 0),
    (Z.ltb_spec (at_ownership a) KB2_GPU_ATTACHMENT_BORROW), (Z.ltb_spec KB2_GPU_ATTACHMENT_MOVE (at_ownership a)),
    (Z.eqb_spec (at_flags a) KB2_GPU_ATTACHMENT_FLAG_INPUT); cbn [orb negb]; try (split; [done | intros; exfalso; intuition lia]).
  destruct (existsb _ _); [split; [done | naive_solver] | tauto].
Qed.

Lemma attachments_valid_spec s generation :
  array_typed (so_attachments s) (so_attachment_count s) attachment_typed ->
  attachments_valid (so_attachments s) (so_attachment_count s) generation = true <->
  so_attachment_count s = Z.of_nat (length (attachments_of s)) /\ attachments_ok generation (attachments_of s).
Proof.
  intros Ht. unfold attachments_valid, attachments_of. rewrite <- array_present by done.
  pose proof (attachments_loop_each generation [] (array_items (default [] (so_attachments s)) (so_attachment_count s))) as Hl.
  specialize (Hl (array_elements _ _ _ Ht) ltac:(constructor)).
  rewrite each_and, each_forall, each_and, each_increasing, each_pairs, pairs_distinct in Hl. cbn [last from_option] in Hl.
  unfold attachments_ok. destruct (array_missing _ _); [split; [done | by intros [? _]] |]. rewrite Hl.
  split; [tauto | intros (_ & ? & ? & ?); split_and!; try done]. by apply Forall_true.
Qed.

Lemma find_attachment_spec generation attachments i a :
  attachments_ok generation attachments -> find_attachment attachments i = Some a <-> a ∈ attachments /\ at_attachment_id a = i.
Proof. intros (_ & Hi & _). by apply find_key, increasing_keys. Qed.

(** * Arguments *)

(** What an argument of each kind stands for: a scalar, a bounded part of the inline
    data, or one of the spans or attachments. *)
Inductive reference_ok (s : kb2_gpu_command_source) (a : kb2_gpu_argument) : Prop :=
  | reference_scalar :
      ar_kind a ∈ [KB2_GPU_ARGUMENT_U64; KB2_GPU_ARGUMENT_I64; KB2_GPU_ARGUMENT_ENUM; KB2_GPU_ARGUMENT_BITSET] ->
      ar_record_schema_id a = 0 -> ar_count a = 1 -> reference_ok s a
  | reference_bool :
      ar_kind a = KB2_GPU_ARGUMENT_BOOL -> ar_record_schema_id a = 0 -> ar_count a = 1 -> ar_value a <= 1 -> reference_ok s a
  | reference_object :
      ar_kind a = KB2_GPU_ARGUMENT_OBJECT -> ar_record_schema_id a <> 0 -> ar_count a = 1 -> reference_ok s a
  | reference_inline :
      ar_kind a = KB2_GPU_ARGUMENT_INLINE -> ar_count a <> 0 -> ar_value a + ar_count a <= so_inline_length s -> reference_ok s a
  | reference_span p :
      ar_kind a = KB2_GPU_ARGUMENT_SPAN -> p ∈ spans_of s -> sp_span_id p = ar_value a ->
      ar_count a = sp_element_count p -> ar_record_schema_id a = sp_record_schema_id p -> reference_ok s a
  | reference_attachment t :
      ar_kind a = KB2_GPU_ARGUMENT_ATTACHMENT -> ar_record_schema_id a = 0 -> ar_count a = 1 ->
      t ∈ attachments_of s -> at_attachment_id t = ar_value a -> reference_ok s a.

Definition argument_ok (s : kb2_gpu_command_source) (a : kb2_gpu_argument) : Prop :=
  ar_flags a <> 0 /\ bits_in (ar_flags a) 3 /\ reference_ok s a.

(** The kind of an argument says what it refers to. *)
Ltac other_kind Ek :=
  try match goal with
  | H : ar_kind _ ∈ _ |- _ => rewrite Ek in H; repeat (apply elem_of_cons in H as [H | H]; [discriminate H |]); by apply elem_of_nil in H
  | H : ar_kind _ = _ |- _ => rewrite Ek in H; discriminate H
  end.

Lemma reference_span_inv s a :
  ar_kind a = KB2_GPU_ARGUMENT_SPAN -> reference_ok s a ->
  exists p, p ∈ spans_of s /\ sp_span_id p = ar_value a /\ ar_count a = sp_element_count p /\
    ar_record_schema_id a = sp_record_schema_id p.
Proof. intros Ek []; other_kind Ek. eauto. Qed.

Lemma reference_attachment_inv s a :
  ar_kind a = KB2_GPU_ARGUMENT_ATTACHMENT -> reference_ok s a -> exists t, t ∈ attachments_of s /\ at_attachment_id t = ar_value a.
Proof. intros Ek []; other_kind Ek. eauto. Qed.

(** Every span and every attachment is the value of an argument. *)
Definition names (a : kb2_gpu_argument) (kind id : Z) : Prop := ar_kind a = kind /\ ar_value a = id.

Record arguments_ok (s : kb2_gpu_command_source) : Prop := {
  ao_each : Forall (argument_ok s) (arguments_of s);
  ao_increasing : increasing 0 (ar_argument_id <$> arguments_of s);
  ao_spans : forall p, p ∈ spans_of s -> exists a, a ∈ arguments_of s /\ names a KB2_GPU_ARGUMENT_SPAN (sp_span_id p);
  ao_attachments : forall t, t ∈ attachments_of s ->
    exists a, a ∈ arguments_of s /\ names a KB2_GPU_ARGUMENT_ATTACHMENT (at_attachment_id t);
}.

(** The spans and attachments that arguments refer to can be found by id. *)
Record references (s : kb2_gpu_command_source) : Prop := {
  rf_spans : spans_ok (regions_of s) (spans_of s);
  rf_attachments : attachments_ok (so_generation s) (attachments_of s);
  rf_span_types : Forall span_typed (spans_of s);
  rf_attachment_types : Forall attachment_typed (attachments_of s);
}.

Section Arguments.
Context (s : kb2_gpu_command_source) (Hs : references s).

Lemma span_value_u32 p a : p ∈ spans_of s -> sp_span_id p = ar_value a -> ar_value a <= U32_MAX.
Proof.
  intros Hp <-. pose proof (rf_span_types s Hs) as Ht. rewrite Forall_forall in Ht. destruct (Ht p Hp) as [H _ _ _ _ _ _ _].
  unfold is_u32, U32_MAX in *. lia.
Qed.

Lemma attachment_value_u32 t a : t ∈ attachments_of s -> at_attachment_id t = ar_value a -> ar_value a <= U32_MAX.
Proof.
  intros Hp <-. pose proof (rf_attachment_types s Hs) as Ht. rewrite Forall_forall in Ht. destruct (Ht t Hp) as [H _ _ _ _ _ _ _].
  unfold is_u32, U32_MAX in *. lia.
Qed.

(** The value of a span argument, looked up. *)
Lemma argument_span_spec a (Q : kb2_gpu_span -> Prop) :
  (ar_value a <= U32_MAX /\ exists p, find_span (spans_of s) (ar_value a) = Some p /\ Q p) <->
  exists p, p ∈ spans_of s /\ sp_span_id p = ar_value a /\ Q p.
Proof.
  split.
  - intros [_ (p & [? ?]%(find_span_spec (regions_of s)) & ?)]; [eauto | apply Hs].
  - intros (p & Hp & E & HQ). split; [by eapply span_value_u32 |]. exists p. split; [| done].
    by apply (find_span_spec (regions_of s)); [apply Hs |].
Qed.

Lemma argument_attachment_spec a (Q : kb2_gpu_attachment -> Prop) :
  (ar_value a <= U32_MAX /\ exists t, find_attachment (attachments_of s) (ar_value a) = Some t /\ Q t) <->
  exists t, t ∈ attachments_of s /\ at_attachment_id t = ar_value a /\ Q t.
Proof.
  split.
  - intros [_ (t & [? ?]%(find_attachment_spec (so_generation s)) & ?)]; [eauto | apply Hs].
  - intros (t & Ht & E & HQ). split; [by eapply attachment_value_u32 |]. exists t. split; [| done].
    by apply (find_attachment_spec (so_generation s)); [apply Hs |].
Qed.

Lemma argument_references_spec a :
  argument_typed a -> argument_references_valid s a = true <-> reference_ok s a.
Proof.
  intros [_ _ _ _ Hv Hc].
  pose proof (argument_span_spec a (fun p => ar_count a = sp_element_count p /\ ar_record_schema_id a = sp_record_schema_id p)) as Hsp.
  pose proof (argument_attachment_spec a (fun _ => True)) as Hat.
  unfold argument_references_valid. cbv zeta. split.
  - destruct ((ar_kind a =? _) || _ || _ || _) eqn:Ek.
    { rewrite andb_true_iff, !Z.eqb_eq. intros []. apply reference_scalar; [| done | done].
      rewrite !orb_true_iff, !Z.eqb_eq in Ek. rewrite !elem_of_cons. tauto. }
    clear Ek. destruct (Z.eqb_spec (ar_kind a) KB2_GPU_ARGUMENT_BOOL).
    { rewrite !andb_true_iff, !Z.eqb_eq, Z.leb_le. intros [[? ?] ?]. by apply reference_bool. }
    destruct (Z.eqb_spec (ar_kind a) KB2_GPU_ARGUMENT_OBJECT).
    { rewrite !andb_true_iff, negb_true_iff, Z.eqb_eq, Z.eqb_neq. intros [? ?]. by apply reference_object. }
    destruct (Z.eqb_spec (ar_kind a) KB2_GPU_ARGUMENT_INLINE).
    { rewrite !andb_true_iff, negb_true_iff, Z.eqb_neq, !Z.leb_le. intros [[? ?] ?]. apply reference_inline; [done | done | lia]. }
    destruct (Z.eqb_spec (ar_kind a) KB2_GPU_ARGUMENT_SPAN).
    { destruct (Z.ltb_spec U32_MAX (ar_value a)); [done |]. destruct (find_span _ _) as [p |] eqn:Hf; [| done].
      rewrite andb_true_iff, !Z.eqb_eq. intros [? ?]. apply (find_span_spec (regions_of s)) in Hf as [? ?]; [| apply Hs].
      by eapply reference_span. }
    destruct (Z.eqb_spec (ar_kind a) KB2_GPU_ARGUMENT_ATTACHMENT); [| done].
    rewrite !andb_true_iff, !Z.eqb_eq, Z.leb_le, bool_decide_eq_true. intros [[[? ?] ?] [t Hf]].
    apply (find_attachment_spec (so_generation s)) in Hf as [? ?]; [| apply Hs]. by eapply reference_attachment.
  - intros [Hk ? ? | Hk ? ? ? | Hk ? ? | Hk ? ? | p Hk Hp E ? ? | t Hk ? ? Ht E].
    + replace (_ || _ || _ || _) with true.
      * rewrite andb_true_iff, !Z.eqb_eq. done.
      * symmetry. rewrite !orb_true_iff, !Z.eqb_eq. rewrite !elem_of_cons, elem_of_nil in Hk. tauto.
    + rewrite Hk. cbn. rewrite !andb_true_iff, !Z.eqb_eq, Z.leb_le. done.
    + rewrite Hk. cbn. rewrite !andb_true_iff, negb_true_iff, Z.eqb_neq, Z.eqb_eq. done.
    + rewrite Hk. cbn. unfold is_u64, is_u32 in *. rewrite !andb_true_iff, negb_true_iff, Z.eqb_neq, !Z.leb_le. lia.
    + rewrite Hk. cbn [Z.eqb]. destruct Hsp as [_ Hsp]. destruct Hsp as [Hm (p' & Hf & ? & ?)]; [by exists p |].
      cbn. destruct (Z.ltb_spec U32_MAX (ar_value a)); [lia |]. rewrite Hf, andb_true_iff, !Z.eqb_eq. done.
    + rewrite Hk. destruct Hat as [_ Hat]. destruct Hat as [Hm (t' & Hf & _)]; [by exists t |].
      cbn. rewrite !andb_true_iff, !Z.eqb_eq, Z.leb_le, bool_decide_eq_true. eauto.
Qed.

Lemma arguments_loop_each seen l :
  Forall argument_typed l -> Forall (fun a => 0 <= ar_argument_id a) seen ->
  arguments_loop s seen l = true <->
  each (fun seen a => argument_ok s a /\ from_option ar_argument_id 0 (last seen) < ar_argument_id a) seen l.
Proof.
  intros Hl. revert seen. induction Hl as [|a l Ha _ IH]; intros seen Hseen; [done |]. cbn [arguments_loop each].
  assert (Hid : 0 <= ar_argument_id a) by (destruct Ha as [[] _ _ _ _ _]; lia).
  pose proof (out_of_order_spec ar_argument_id seen (ar_argument_id a) Hid Hseen) as Ho.
  rewrite <- Ho, <- IH by (apply Forall_app_2; [done | by apply Forall_singleton]).
  assert (Ht : (ar_flags a =? 0) || negb (ar_flags a &~ known_argument_flags =? 0) || negb (argument_references_valid s a) = false <->
    argument_ok s a).
  { unfold argument_ok. rewrite !orb_false_iff, !negb_false_iff, Z.eqb_neq, Z.eqb_eq, andn_spec, argument_references_spec by done.
    change known_argument_flags with 3. tauto. }
  rewrite <- Ht. destruct ((ar_argument_id a =? 0) || _); cbn [orb]; [split; [done | naive_solver] |].
  destruct (_ || _ || _); [split; [done | naive_solver] | tauto].
Qed.

Lemma referenced_spec kind i :
  referenced s kind i = true <-> exists a, a ∈ arguments_of s /\ names a kind i.
Proof.
  unfold referenced, names. rewrite existsb_exists. setoid_rewrite <- list_elem_of_In. setoid_rewrite andb_true_iff.
  by setoid_rewrite Z.eqb_eq.
Qed.

Lemma arguments_valid_spec :
  array_typed (so_arguments s) (so_argument_count s) argument_typed ->
  arguments_valid s = true <-> so_argument_count s = Z.of_nat (length (arguments_of s)) /\ arguments_ok s.
Proof.
  intros Ht. unfold arguments_valid, arguments_of at 2. rewrite <- array_present by done.
  pose proof (arguments_loop_each [] (arguments_of s) (array_elements _ _ _ Ht) ltac:(constructor)) as Hl.
  rewrite each_and, each_forall, each_increasing in Hl. cbn [last from_option] in Hl.
  destruct (array_missing _ _); [split; [done | by intros [? _]] |].
  rewrite !andb_true_iff, Hl, !forallb_forall. setoid_rewrite <- list_elem_of_In. setoid_rewrite referenced_spec. split.
  - intros [[[? ?] ?] ?]. done.
  - by intros [_ []].
Qed.

Lemma find_argument_spec i a :
  increasing 0 (ar_argument_id <$> arguments_of s) -> find_argument s i = Some a <-> a ∈ arguments_of s /\ ar_argument_id a = i.
Proof. intros Hi. by apply find_key, increasing_keys. Qed.
End Arguments.
