(* ===== verification/GpuShapeSpec.v ===== *)
(** The shape of a request: its inline record and its span and attachment arguments are
    the ones a catalog declares for the command. *)

From Stdlib Require Import ZArith Lia.
From stdpp Require Import base numbers tactics list_numbers list.
From S2P Require Import Prelude Bytes Layout Sorted Protocol GpuLayout GpuDrmLayout GpuCompletion GpuRequest GpuRequestSpec.

Open Scope Z_scope.
Open Scope kobox_scope.

(** * Catalogs *)

(** A row of a table names the command and the argument it is about and whether the
    argument may be left out. *)
Class Row (T : Type) := {
  row_command : T -> Z;
  row_argument : T -> Z;
  row_choice : T -> Z;      (* which alternative of the argument the row describes *)
  row_needed : T -> bool;
}.

#[export] Instance span_row : Row kb2_gpu_span_contract := {|
  row_command := sc_command_id; row_argument := sc_argument_id; row_choice := sc_record_id;
  row_needed := fun r => negb (sc_minimum r =? 0);
|}.

#[export] Instance attachment_row : Row kb2_gpu_attachment_contract := {|
  row_command := tc_command_id; row_argument := tc_argument_id; row_choice := tc_object_class;
  row_needed := fun r => tc_optional r =? 0;
|}.

Definition same_argument `{Row T} (x y : T) : bool :=
  (row_command x =? row_command y) && (row_argument x =? row_argument y).

(** No two rows describe the same alternative, and the alternatives of an argument agree
    on whether it may be left out. *)
Fixpoint rows_wf `{Row T} (l : list T) : bool :=
  match l with
  | [] => true
  | x :: l =>
      forallb (fun y => negb (same_argument x y) ||
                        (negb (row_choice x =? row_choice y) && Bool.eqb (row_needed x) (row_needed y))) l && rows_wf l
  end.

Fixpoint numbered (i : Z) (l : list kb2_gpu_request_contract) : bool :=
  match l with [] => true | r :: l => (rc_command_id r =? i) && numbered (i + 1) l end.

Definition catalog_wf (c : catalog) : bool :=
  numbered 1 (ct_requests c) && rows_wf (ct_spans c) && rows_wf (ct_attachments c) &&
  forallb (fun r => (1 <=? sc_direction r) && (sc_direction r <=? 3) && (1 <=? sc_record_size r)) (ct_spans c).

(** The catalogs of the code. *)
Lemma request_catalog_wf set c : request_catalog set = Some c -> catalog_wf c = true.
Proof. unfold request_catalog. repeat case_match; intros [= <-]; vm_compute; reflexivity. Qed.

Section Rows.
Context `{Row T}.
Implicit Types (l : list T).

Lemma same_argument_spec (x y : T) :
  same_argument x y = true <-> row_command x = row_command y /\ row_argument x = row_argument y.
Proof. unfold same_argument. by rewrite andb_true_iff, !Z.eqb_eq. Qed.

Lemma rows_wf_spec l x y :
  rows_wf l = true -> x ∈ l -> y ∈ l -> same_argument x y = true ->
  (row_choice x = row_choice y -> x = y) /\ row_needed x = row_needed y.
Proof.
  induction l as [|z l IH]; [by intros _ ?%elem_of_nil |]. cbn [rows_wf]. rewrite andb_true_iff, forallb_forall.
  intros [Hz Hl] Hx Hy Hs. rewrite same_argument_spec in Hs.
  assert (Hd : forall w, w ∈ l -> same_argument z w = true -> row_choice z <> row_choice w /\ row_needed z = row_needed w).
  { intros w Hw E. specialize (Hz w). rewrite <- list_elem_of_In, E in Hz. specialize (Hz Hw). cbn in Hz.
    apply andb_true_iff in Hz as [?%negb_true_iff%Z.eqb_neq ?%Bool.eqb_prop]. done. }
  apply elem_of_cons in Hx as [-> | Hx], Hy as [-> | Hy]; [done | ..].
  - destruct (Hd y Hy) as [? ?]; [by apply same_argument_spec |]. done.
  - destruct (Hd x Hx) as [? ?]; [apply same_argument_spec; naive_solver |]. naive_solver.
  - apply IH; [done | done | done | by apply same_argument_spec].
Qed.

(** The row of an alternative. *)
Lemma find_row_spec l command argument choice x :
  rows_wf l = true ->
  List.find (fun r => (row_command r =? command) && (row_argument r =? argument) && (row_choice r =? choice)) l = Some x <->
  x ∈ l /\ row_command x = command /\ row_argument x = argument /\ row_choice x = choice.
Proof.
  intros Hwf. split.
  - intros Hf. pose proof (find_some _ _ Hf) as [Hin E]. rewrite !andb_true_iff, !Z.eqb_eq in E.
    rewrite list_elem_of_In. tauto.
  - intros (Hin & <- & <- & <-). destruct (List.find _ l) as [y |] eqn:Hf.
    + apply find_some in Hf as [Hy E]. rewrite !andb_true_iff, !Z.eqb_eq, <- list_elem_of_In in *. f_equal.
      apply (rows_wf_spec l y x Hwf); [tauto | done | rewrite same_argument_spec; tauto | tauto].
    + pose proof (find_none _ _ Hf x) as Hn. cbn in Hn. rewrite !Z.eqb_refl in Hn. apply list_elem_of_In in Hin.
      by specialize (Hn Hin).
Qed.

(** The loop over the rows: an argument that is needed must be present, and the
    alternatives after the first one are not looked at. *)
Fixpoint needed_present (s : kb2_gpu_command_source) (earlier l : list T) : bool :=
  match l with
  | [] => true
  | r :: rest =>
      if negb (row_command r =? so_command_id s) || negb (row_needed r) then needed_present s (earlier ++ [r]) rest
      else if negb (existsb (fun e => (row_command e =? so_command_id s) && (row_argument e =? row_argument r)) earlier) &&
              bool_decide (find_argument s (row_argument r) = None) then false
      else needed_present s (earlier ++ [r]) rest
  end.

(** Every argument the command needs is there. *)
Definition complete (s : kb2_gpu_command_source) l : Prop :=
  forall r, r ∈ l -> row_command r = so_command_id s -> row_needed r = true -> is_Some (find_argument s (row_argument r)).

Lemma complete_snoc s l r :
  complete s l -> (row_command r = so_command_id s -> row_needed r = true -> is_Some (find_argument s (row_argument r))) ->
  complete s (l ++ [r]).
Proof. intros Hl Hr x [Hx | ->%list_elem_of_singleton]%elem_of_app; [by apply Hl | done]. Qed.

Lemma needed_present_spec s earlier l :
  rows_wf (earlier ++ l) = true -> complete s earlier -> needed_present s earlier l = true <-> complete s (earlier ++ l).
Proof.
  revert earlier. induction l as [|r l IH]; intros earlier Hwf Hc; cbn [needed_present].
  { by rewrite app_nil_r. }
  replace (earlier ++ r :: l) with ((earlier ++ [r]) ++ l) in * by by rewrite <- app_assoc.
  assert (Hr : complete s ((earlier ++ [r]) ++ l) -> row_command r = so_command_id s -> row_needed r = true ->
    is_Some (find_argument s (row_argument r))).
  { intros H'. apply H'. rewrite !elem_of_app, list_elem_of_singleton. tauto. }
  destruct (Z.eqb_spec (row_command r) (so_command_id s)) as [Er |]; cbn [negb orb];
    [| apply IH; [done |]; apply complete_snoc; [done | by intros ?]].
  destruct (row_needed r) eqn:En; cbn [negb]; [| apply IH; [done |]; apply complete_snoc; [done | congruence]].
  destruct (find_argument s (row_argument r)) as [a |] eqn:Ea.
  { rewrite bool_decide_eq_false_2, andb_false_r by done. apply IH; [done |]. apply complete_snoc; [done |]. by rewrite Ea. }
  assert (Hno : existsb (fun e => (row_command e =? so_command_id s) && (row_argument e =? row_argument r)) earlier = false).
  { apply not_true_iff_false. intros (e & Hin & E)%existsb_exists. rewrite andb_true_iff, !Z.eqb_eq in E. destruct E as [E1 E2].
    apply list_elem_of_In in Hin. destruct (rows_wf_spec _ e r Hwf) as [_ Hn].
    - rewrite !elem_of_app. tauto.
    - rewrite !elem_of_app, list_elem_of_singleton. tauto.
    - apply same_argument_spec. by rewrite Er.
    - destruct (Hc e Hin E1) as [? Hf]; [by rewrite Hn |]. by rewrite E2, Ea in Hf. }
  rewrite Hno, bool_decide_eq_true_2 by done. cbn. split; [done |]. intros H'. by destruct (Hr H' Er eq_refl).
Qed.
End Rows.

Lemma required_spans_rows s earlier l : required_spans s earlier l = needed_present s earlier l.
Proof.
  revert earlier. induction l as [|r l IH]; intros earlier; [done |]. cbn [required_spans needed_present row_needed span_row].
  rewrite negb_involutive, !IH. done.
Qed.

Lemma required_attachments_rows s earlier l : required_attachments s earlier l = needed_present s earlier l.
Proof.
  revert earlier. induction l as [|r l IH]; intros earlier; [done |]. cbn [required_attachments needed_present row_needed attachment_row].
  rewrite !IH. done.
Qed.

(** * Shapes *)

Lemma filter_iff_in {T} (P Q : T -> Prop) `{!forall x, Decision (P x), !forall x, Decision (Q x)} (l : list T) :
  (forall x, x ∈ l -> P x <-> Q x) -> filter P l = filter Q l.
Proof.
  induction l as [|x l IH]; intros Hpq; [done |]. rewrite !filter_cons, IH by (intros y Hy; apply Hpq; by right).
  specialize (Hpq x ltac:(left)). repeat case_decide; naive_solver.
Qed.

Lemma filter_one {T} (key : T -> Z) (l : list T) x :
  NoDup (key <$> l) -> x ∈ l -> length (filter (fun y => key y = key x) l) = 1%nat.
Proof.
  induction l as [|y l IH]; [by intros _ ?%elem_of_nil |]. cbn [fmap list_fmap]. intros [Hy Hn]%NoDup_cons Hx.
  rewrite filter_cons. apply elem_of_cons in Hx as [-> | Hx].
  - rewrite decide_True by done. cbn. f_equal. apply length_zero_iff_nil, elem_of_nil_inv. intros z Hz.
    apply list_elem_of_filter in Hz as [E Hz]. apply Hy. rewrite <- E. by apply list_elem_of_fmap_2.
  - rewrite decide_False; [by apply IH |]. intros E. apply Hy. rewrite E. by apply list_elem_of_fmap_2.
Qed.

(** The argument is the span of the row: the size is the number of elements times the
    size of the record. *)
Definition span_row_matches (s : kb2_gpu_command_source) (a : kb2_gpu_argument) (r : kb2_gpu_span_contract) : Prop :=
  sc_command_id r = so_command_id s /\ sc_argument_id r = ar_argument_id a /\ sc_record_id r = ar_record_schema_id a /\
  sc_minimum r <= ar_count a <= sc_maximum r /\ ar_flags a = direction_flags (sc_direction r) /\
  exists p, p ∈ spans_of s /\ sp_span_id p = ar_value a /\ sp_flags p = direction_flags (sc_direction r) /\
    sp_rights p = direction_rights (sc_direction r) /\ sp_length p = ar_count a * sc_record_size r.

Definition attachment_row_matches (s : kb2_gpu_command_source) (a : kb2_gpu_argument) (r : kb2_gpu_attachment_contract) : Prop :=
  tc_command_id r = so_command_id s /\ tc_argument_id r = ar_argument_id a /\ ar_flags a = KB2_GPU_ARGUMENT_FLAG_INPUT /\
  exists t, t ∈ attachments_of s /\ at_attachment_id t = ar_value a /\ tc_object_class r = at_object_class t /\
    at_role t = tc_role r /\ at_ownership t = tc_ownership r.

(** The inline record is the whole inline data. *)
Definition inline_argument (s : kb2_gpu_command_source) (record size : Z) (a : kb2_gpu_argument) : Prop :=
  ar_argument_id a = 1 /\ ar_kind a = KB2_GPU_ARGUMENT_INLINE /\ ar_flags a = KB2_GPU_ARGUMENT_FLAG_INPUT /\
  ar_record_schema_id a = record /\ ar_value a = 0 /\ ar_count a = size /\ so_inline_length s = size.

(** The values of the arguments of a kind. *)
Definition values (s : kb2_gpu_command_source) (kind : Z) : list Z :=
  ar_value <$> filter (fun a => ar_kind a = kind) (arguments_of s).

Definition declared (c : catalog) (s : kb2_gpu_command_source) (a : kb2_gpu_argument) : Prop :=
  (ar_kind a = KB2_GPU_ARGUMENT_SPAN /\ exists r, r ∈ ct_spans c /\ span_row_matches s a r) \/
  (ar_kind a = KB2_GPU_ARGUMENT_ATTACHMENT /\ exists r, r ∈ ct_attachments c /\ attachment_row_matches s a r).

Record request_shape (c : catalog) (s : kb2_gpu_command_source) (request : kb2_gpu_request_contract) : Prop := {
  sh_command : request ∈ ct_requests c /\ rc_command_id request = so_command_id s;
  sh_span_capacity : so_span_count s <= rc_span_capacity request;
  sh_attachment_capacity : so_attachment_count s <= rc_attachment_capacity request;
  sh_inline : if rc_inline_record_id request =? 0
              then so_inline_length s = 0 /\ Forall (fun a => ar_argument_id a <> 1) (arguments_of s)
              else exists a, a ∈ arguments_of s /\
                     inline_argument s (rc_inline_record_id request) (rc_inline_size request) a;
  sh_declared : Forall (fun a => ar_argument_id a <> 1 -> declared c s a) (arguments_of s);
  sh_spans_once : NoDup (values s KB2_GPU_ARGUMENT_SPAN);
  sh_attachments_once : NoDup (values s KB2_GPU_ARGUMENT_ATTACHMENT);
  sh_spans_complete : complete s (ct_spans c);
  sh_attachments_complete : complete s (ct_attachments c);
}.

(** ** The loops of the code *)

Section Shape.
Context (s : kb2_gpu_command_source) (Href : references s) (Hargs : arguments_ok s)
  (Hat : Forall argument_typed (arguments_of s)) (c : catalog) (Hwf : catalog_wf c = true).

Lemma catalog_parts :
  numbered 1 (ct_requests c) = true /\ rows_wf (ct_spans c) = true /\ rows_wf (ct_attachments c) = true /\
  forall r, r ∈ ct_spans c -> 1 <= sc_direction r <= 3 /\ 1 <= sc_record_size r.
Proof.
  unfold catalog_wf in Hwf. rewrite !andb_true_iff, forallb_forall in Hwf. destruct Hwf as [[[? ?] ?] Hd].
  split_and!; try done. intros r Hr%list_elem_of_In%Hd. lia.
Qed.

Lemma direction_flags_nonzero d : 1 <= d <= 3 -> direction_flags d <> 0.
Proof.
  intros Hd. unfold direction_flags. destruct (Z.eqb_spec d 1), (Z.eqb_spec d 2), (Z.eqb_spec d 3); try done. lia.
Qed.

Lemma span_length_spec p a size :
  span_typed p -> argument_typed a -> 1 <= size ->
  (U64_MAX / size <? ar_count a) || negb (sp_length p =? u64 (ar_count a * size)) = false <-> sp_length p = ar_count a * size.
Proof.
  intros [_ _ _ Hl _ _ _ _] [_ _ _ _ _ Hc] Hsz. unfold is_u64, is_u32, U64_MAX in *.
  rewrite orb_false_iff, negb_false_iff, Z.ltb_ge, Z.eqb_eq. split.
  - intros [Hd ->]. apply u64_small. unfold is_u64. assert (ar_count a * size <= 2 ^ 64 - 1); [| nia].
    etransitivity; [| apply (Z.mul_div_le (2 ^ 64 - 1) size); lia]. nia.
  - intros E. split; [apply Z.div_le_lower_bound; lia |]. rewrite u64_small; [done | unfold is_u64; nia].
Qed.

Lemma span_argument_spec a :
  argument_typed a ->
  span_argument_valid (ct_spans c) s a = true <-> exists r, r ∈ ct_spans c /\ span_row_matches s a r.
Proof.
  intros Ha. destruct catalog_parts as (_ & Hrows & _ & Hdir). unfold span_argument_valid.
  pose proof (find_row_spec (ct_spans c) (so_command_id s) (ar_argument_id a) (ar_record_schema_id a)) as Hfind.
  change (List.find _ _) with (find_span_contract (ct_spans c) (so_command_id s) (ar_argument_id a) (ar_record_schema_id a)) in Hfind.
  cbn [row_command row_argument row_choice span_row] in Hfind.
  destruct (find_span_contract _ _ _ _) as [r |].
  2: { split; [done |]. intros (r & Hr & ? & ? & ? & _). destruct (Hfind r Hrows) as [_ Hf]. by specialize (Hf ltac:(done)). }
  destruct (Hfind r Hrows) as [(Hr & E1 & E2 & E3) _]; [done |]. destruct (Hdir r Hr) as [Hd Hsz].
  transitivity (span_row_matches s a r).
  2: { split; [by exists r |]. intros (r' & Hr' & HH). pose proof HH as (? & ? & ? & _).
       destruct (Hfind r' Hrows) as [_ Hf]. specialize (Hf ltac:(done)) as [= ->]. done. }
  unfold span_row_matches. cbv zeta.
  pose proof (argument_span_spec s Href a (fun p => sp_flags p = direction_flags (sc_direction r) /\
    sp_rights p = direction_rights (sc_direction r) /\ sp_length p = ar_count a * sc_record_size r)) as Hsp.
  rewrite <- Hsp. clear Hsp. pose proof (direction_flags_nonzero _ Hd) as Hnz. apply Z.eqb_neq in Hnz. rewrite Hnz. cbn [orb].
  destruct (Z.ltb_spec U32_MAX (ar_value a)), (Z.ltb_spec (ar_count a) (sc_minimum r)),
    (Z.ltb_spec (sc_maximum r) (ar_count a)); cbn [orb]; try (split; [done | intros; exfalso; intuition lia]).
  destruct (find_span _ _) as [p |] eqn:Hf; [| split; [done | intros; naive_solver]].
  assert (Hpt : span_typed p).
  { apply (find_span_spec (regions_of s)) in Hf as [Hp _]; [| apply Href]. pose proof (rf_span_types s Href) as Ht.
    rewrite Forall_forall in Ht. by apply Ht. }
  pose proof (span_length_spec p a (sc_record_size r) Hpt Ha Hsz) as Hlen.
  rewrite <- orb_assoc, negb_true_iff, orb_false_iff, Hlen, !orb_false_iff, !negb_false_iff, !Z.eqb_eq. split.
  - intros [[[? ?] ?] ?]. split_and!; try done. exists p. intuition.
  - intros (_ & _ & _ & _ & ? & _ & p' & [= <-] & ? & ? & ?). intuition.
Qed.

Lemma attachment_argument_spec a :
  attachment_argument_valid (ct_attachments c) s a = true <-> exists r, r ∈ ct_attachments c /\ attachment_row_matches s a r.
Proof.
  destruct catalog_parts as (_ & _ & Hrows & _). unfold attachment_argument_valid.
  transitivity (exists t, t ∈ attachments_of s /\ at_attachment_id t = ar_value a /\
    exists r, r ∈ ct_attachments c /\ tc_command_id r = so_command_id s /\ tc_argument_id r = ar_argument_id a /\
      tc_object_class r = at_object_class t /\ ar_flags a = KB2_GPU_ARGUMENT_FLAG_INPUT /\ at_role t = tc_role r /\
      at_ownership t = tc_ownership r).
  2: { unfold attachment_row_matches. split; [intros (t & ? & ? & r & ?) | intros (r & ? & ? & ? & ? & t & ?)]; naive_solver. }
  rewrite <- (argument_attachment_spec s Href).
  destruct (Z.ltb_spec U32_MAX (ar_value a)); [split; [done | intros [? _]; lia] |].
  destruct (find_attachment _ _) as [t |]; [| split; [done | intros; naive_solver]].
  pose proof (find_row_spec (ct_attachments c) (so_command_id s) (ar_argument_id a) (at_object_class t)) as Hfind.
  change (List.find _ _) with (find_attachment_contract (ct_attachments c) (so_command_id s) (ar_argument_id a) (at_object_class t)) in Hfind.
  cbn [row_command row_argument row_choice attachment_row] in Hfind.
  destruct (find_attachment_contract _ _ _ _) as [r |].
  - destruct (Hfind r Hrows) as [(Hr & E1 & E2 & E3) _]; [done |].
    rewrite negb_true_iff, !orb_false_iff, !negb_false_iff, !Z.eqb_eq. split; [naive_solver |].
    intros [_ (t' & [= <-] & r' & Hr' & H1 & H2 & H3 & ? & ? & ?)]. destruct (Hfind r' Hrows) as [_ Heq].
    specialize (Heq ltac:(done)) as [= ->]. done.
  - split; [done |]. intros [_ (t' & [= <-] & r & ? & ? & ? & ? & _)]. destruct (Hfind r Hrows) as [_ Hf]. by specialize (Hf ltac:(done)).
Qed.

(** The loop over the arguments counts the spans and the attachments. *)
Definition count_kind (h : bool) (kind : Z) (l : list kb2_gpu_argument) : Z :=
  Z.of_nat (length (filter (fun a => ar_kind a = kind /\ (h = true -> ar_argument_id a <> 1)) l)).

Lemma count_kind_cons h kind a l :
  count_kind h kind (a :: l) =
  (if bool_decide (ar_kind a = kind /\ (h = true -> ar_argument_id a <> 1)) then 1 else 0) + count_kind h kind l.
Proof. unfold count_kind. rewrite filter_cons. repeat case_decide || case_bool_decide; cbn [length]; (lia || done). Qed.

Lemma match_arguments_spec h l n m r :
  Forall argument_typed l ->
  match_arguments c h s l n m = Some r <->
  Forall (fun a => (h = true -> ar_argument_id a <> 1) -> declared c s a) l /\
  r = (n + count_kind h KB2_GPU_ARGUMENT_SPAN l, m + count_kind h KB2_GPU_ARGUMENT_ATTACHMENT l).
Proof.
  intros Hl. revert n m. induction Hl as [|a l Ha Hl IH]; intros n m; cbn [match_arguments].
  { unfold count_kind. cbn. rewrite !Z.add_0_r, Forall_nil. naive_solver. }
  rewrite !count_kind_cons, Forall_cons. unfold declared at 1. rewrite <- span_argument_spec, <- attachment_argument_spec by done.
  assert (Hb : (ar_argument_id a =? 1) && h = true <-> ~ (h = true -> ar_argument_id a <> 1)).
  { rewrite andb_true_iff, Z.eqb_eq. destruct h; [| naive_solver]. destruct (Z.eqb_spec (ar_argument_id a) 1); naive_solver. }
  destruct ((ar_argument_id a =? 1) && h).
  { rewrite IH, !bool_decide_eq_false_2, !Z.add_0_l by naive_solver. naive_solver. }
  assert (Hn : h = true -> ar_argument_id a <> 1).
  { intros -> E. rewrite E in Hb. destruct Hb as [_ Hb]. discriminate Hb. naive_solver. }
  destruct (Z.eqb_spec (ar_kind a) KB2_GPU_ARGUMENT_SPAN) as [E | E].
  { rewrite bool_decide_eq_true_2, (bool_decide_eq_false_2 (ar_kind a = KB2_GPU_ARGUMENT_ATTACHMENT /\ _)), Z.add_0_l, Z.add_assoc
      by (done || by rewrite E; intros []).
    destruct (span_argument_valid _ _ _); [rewrite IH; naive_solver | split; [done |]]. rewrite E. intros [[Hd _] _].
    destruct (Hd Hn) as [[_ ?] | [? _]]; done. }
  destruct (Z.eqb_spec (ar_kind a) KB2_GPU_ARGUMENT_ATTACHMENT) as [E' | E'].
  { rewrite (bool_decide_eq_true_2 (ar_kind a = KB2_GPU_ARGUMENT_ATTACHMENT /\ _)),
      (bool_decide_eq_false_2 (ar_kind a = KB2_GPU_ARGUMENT_SPAN /\ _)), Z.add_0_l, Z.add_assoc by (done || by intros []).
    destruct (attachment_argument_valid _ _ _); [rewrite IH; naive_solver | split; [done |]]. intros [[Hd _] _].
    destruct (Hd Hn) as [[? _] | [_ ?]]; done. }
  split; [done |]. intros [[Hd _] _]. destruct (Hd Hn) as [[? _] | [? _]]; done.
Qed.

(** Every value is an id and every id a value: there are as many values as ids exactly
    when no value is repeated. *)
Lemma once_spec (ids vals : list Z) :
  NoDup ids -> (forall x, x ∈ ids <-> x ∈ vals) -> length vals = length ids <-> NoDup vals.
Proof.
  intros Hn He. split; intros H.
  - apply NoDup_ListNoDup. eapply NoDup_incl_NoDup; [apply NoDup_ListNoDup; exact Hn | lia |].
    intros x. rewrite <- !list_elem_of_In. apply He.
  - apply Permutation_length, NoDup_Permutation; [done | done |]. intros x. by rewrite He.
Qed.

Lemma span_values x : x ∈ sp_span_id <$> spans_of s <-> x ∈ values s KB2_GPU_ARGUMENT_SPAN.
Proof.
  unfold values. split.
  - intros (p & -> & (a & Ha & Ek & Ev)%(ao_spans s Hargs))%list_elem_of_fmap. rewrite <- Ev. apply list_elem_of_fmap_2.
    by apply list_elem_of_filter.
  - intros (a & -> & [Ek Ha]%list_elem_of_filter)%list_elem_of_fmap. pose proof (ao_each s Hargs) as He.
    rewrite Forall_forall in He. destruct (He a Ha) as (_ & _ & (p & Hp & <- & _)%reference_span_inv); [| done].
    by apply list_elem_of_fmap_2.
Qed.

Lemma attachment_values x : x ∈ at_attachment_id <$> attachments_of s <-> x ∈ values s KB2_GPU_ARGUMENT_ATTACHMENT.
Proof.
  unfold values. split.
  - intros (p & -> & (a & Ha & Ek & Ev)%(ao_attachments s Hargs))%list_elem_of_fmap. rewrite <- Ev. apply list_elem_of_fmap_2.
    by apply list_elem_of_filter.
  - intros (a & -> & [Ek Ha]%list_elem_of_filter)%list_elem_of_fmap. pose proof (ao_each s Hargs) as He.
    rewrite Forall_forall in He. destruct (He a Ha) as (_ & _ & (t & Ht & <-)%reference_attachment_inv); [| done].
    by apply list_elem_of_fmap_2.
Qed.

Lemma numbered_lookup i l k r : numbered i l = true -> l !! k = Some r -> rc_command_id r = i + Z.of_nat k.
Proof.
  revert i k. induction l as [|x l IH]; intros i k; [done |]. cbn [numbered]. rewrite andb_true_iff, Z.eqb_eq. intros [Hx Hl].
  destruct k as [|k]; cbn; [intros [= <-]; lia |]. intros E. rewrite (IH (i + 1) k Hl E). lia.
Qed.

(** The row of a command is at its place. *)
Lemma request_lookup id r :
  id <> 0 -> 0 <= id -> r ∈ ct_requests c /\ rc_command_id r = id <-> ct_requests c !! Z.to_nat (id - 1) = Some r.
Proof.
  destruct catalog_parts as (Hn & _). intros Hz Hp. split.
  - intros [[k Hk]%list_elem_of_lookup E]. pose proof (numbered_lookup 1 _ _ _ Hn Hk) as E'.
    by replace (Z.to_nat (id - 1)) with k by lia.
  - intros Hk. split; [by eapply list_elem_of_lookup_2 |]. rewrite (numbered_lookup 1 _ _ _ Hn Hk). lia.
Qed.

Lemma inline_argument_matches_spec record size :
  inline_argument_matches s (find_argument s 1) record size = true <-> exists a, a ∈ arguments_of s /\ inline_argument s record size a.
Proof.
  pose proof (find_argument_spec s 1) as Hf. unfold inline_argument_matches, inline_argument.
  destruct (find_argument s 1) as [a |].
  - destruct (Hf a (ao_increasing s Hargs)) as [[Ha E] _]; [done |].
    rewrite negb_true_iff, !orb_false_iff, !negb_false_iff, !Z.eqb_eq. split; [exists a; naive_solver |].
    intros (b & Hb & Eb & H). destruct (Hf b (ao_increasing s Hargs)) as [_ Hab]. specialize (Hab ltac:(done)) as [= ->]. naive_solver.
  - split; [done |]. intros (a & Ha & E & _). destruct (Hf a (ao_increasing s Hargs)) as [_ Hab]. by specialize (Hab ltac:(done)).
Qed.

Lemma no_inline_spec :
  bool_decide (find_argument s 1 = None) && (so_inline_length s =? 0) = true <->
  so_inline_length s = 0 /\ Forall (fun a => ar_argument_id a <> 1) (arguments_of s).
Proof.
  rewrite andb_true_iff, bool_decide_eq_true, Z.eqb_eq. unfold find_argument. rewrite find_key_None.
  rewrite (and_comm _ (_ = 0)), Forall_forall. f_equiv. split.
  - intros H a Ha E. apply H. rewrite <- E. by apply list_elem_of_fmap_2.
  - intros H (a & E & Ha)%list_elem_of_fmap. by apply (H a Ha).
Qed.

(** The inline condition of a shape, and what it says about the arguments numbered 1. *)
Definition inline_shape (request : kb2_gpu_request_contract) : Prop :=
  if rc_inline_record_id request =? 0
  then so_inline_length s = 0 /\ Forall (fun a => ar_argument_id a <> 1) (arguments_of s)
  else exists a, a ∈ arguments_of s /\ inline_argument s (rc_inline_record_id request) (rc_inline_size request) a.

Lemma argument_ids_inj a b : a ∈ arguments_of s -> b ∈ arguments_of s -> ar_argument_id a = ar_argument_id b -> a = b.
Proof.
  intros Ha Hb E. pose proof (find_argument_spec s (ar_argument_id b)) as Hf.
  destruct (Hf a (ao_increasing s Hargs)) as [_ Ea]. destruct (Hf b (ao_increasing s Hargs)) as [_ Eb].
  specialize (Ea ltac:(done)). specialize (Eb ltac:(done)). congruence.
Qed.

Lemma numbered_one request a :
  inline_shape request -> a ∈ arguments_of s -> ar_argument_id a = 1 ->
  negb (rc_inline_record_id request =? 0) = true /\ ar_kind a = KB2_GPU_ARGUMENT_INLINE.
Proof.
  unfold inline_shape. intros Hi Ha E. destruct (rc_inline_record_id request =? 0); cbn.
  - destruct Hi as [_ Hi]. rewrite Forall_forall in Hi. by destruct (Hi a Ha).
  - destruct Hi as (b & Hb & E' & ? & _). rewrite (argument_ids_inj a b Ha Hb); [done | congruence].
Qed.

Lemma count_values request kind :
  inline_shape request -> kind <> KB2_GPU_ARGUMENT_INLINE ->
  count_kind (negb (rc_inline_record_id request =? 0)) kind (arguments_of s) = Z.of_nat (length (values s kind)).
Proof.
  intros Hi Hk. unfold count_kind, values. rewrite length_fmap. do 2 f_equal. apply filter_iff_in. intros a Ha.
  split; [by intros [? _] |]. intros E. split; [done |]. intros _ E1. apply Hk.
  by destruct (numbered_one request a Hi Ha E1) as [_ <-].
Qed.

(** Nothing but the inline record, spans and attachments: the arguments are counted. *)
Lemma declared_length h l :
  Forall (fun a => (h = true -> ar_argument_id a <> 1) -> declared c s a) l ->
  Z.of_nat (length l) = Z.of_nat (length (filter (fun a => h = true /\ ar_argument_id a = 1) l)) +
    count_kind h KB2_GPU_ARGUMENT_SPAN l + count_kind h KB2_GPU_ARGUMENT_ATTACHMENT l.
Proof.
  induction 1 as [|a l Ha _ IH]; [done |]. rewrite filter_cons, !count_kind_cons. cbn [length].
  destruct (decide (h = true /\ ar_argument_id a = 1)) as [[-> E] | Hn].
  - rewrite !bool_decide_eq_false_2 by naive_solver. cbn [length]. lia.
  - assert (Hn' : h = true -> ar_argument_id a <> 1) by naive_solver. destruct (Ha Hn') as [[E _] | [E _]].
    + rewrite bool_decide_eq_true_2, bool_decide_eq_false_2 by (done || by rewrite E; intros []). lia.
    + rewrite (bool_decide_eq_true_2 (_ = KB2_GPU_ARGUMENT_ATTACHMENT /\ _)), bool_decide_eq_false_2
        by (done || by rewrite E; intros []). lia.
Qed.

Lemma argument_total request :
  inline_shape request ->
  length (filter (fun a => negb (rc_inline_record_id request =? 0) = true /\ ar_argument_id a = 1) (arguments_of s)) =
  if negb (rc_inline_record_id request =? 0) then 1%nat else 0%nat.
Proof.
  intros Hi. unfold inline_shape in Hi. destruct (rc_inline_record_id request =? 0); cbn.
  - apply length_zero_iff_nil, elem_of_nil_inv. intros a [[? _] _]%list_elem_of_filter. done.
  - destruct Hi as (a & Ha & E & _). rewrite <- (filter_one ar_argument_id (arguments_of s) a); [| | done].
    + f_equal. apply filter_iff_in. intros b _. rewrite E. tauto.
    + apply increasing_keys, Hargs.
Qed.

Context (Hac : so_argument_count s = Z.of_nat (length (arguments_of s)))
  (Hsc : so_span_count s = Z.of_nat (length (spans_of s)))
  (Htc : so_attachment_count s = Z.of_nat (length (attachments_of s)))
  (Hid : is_u32 (so_command_id s)).

Lemma span_count_once : Z.of_nat (length (values s KB2_GPU_ARGUMENT_SPAN)) = so_span_count s <-> NoDup (values s KB2_GPU_ARGUMENT_SPAN).
Proof.
  rewrite Hsc, Nat2Z.inj_iff, <- (length_fmap sp_span_id). apply once_spec; [| apply span_values].
  apply increasing_keys. apply (rf_spans s Href).
Qed.

Lemma attachment_count_once :
  Z.of_nat (length (values s KB2_GPU_ARGUMENT_ATTACHMENT)) = so_attachment_count s <-> NoDup (values s KB2_GPU_ARGUMENT_ATTACHMENT).
Proof.
  rewrite Htc, Nat2Z.inj_iff, <- (length_fmap at_attachment_id). apply once_spec; [| apply attachment_values].
  apply increasing_keys. apply (rf_attachments s Href).
Qed.

Lemma declared_inline request :
  inline_shape request ->
  Forall (fun a => (negb (rc_inline_record_id request =? 0) = true -> ar_argument_id a <> 1) -> declared c s a) (arguments_of s) <->
  Forall (fun a => ar_argument_id a <> 1 -> declared c s a) (arguments_of s).
Proof.
  intros Hi. rewrite !Forall_forall. split; intros H a Ha Hn; apply (H a Ha).
  - by intros _.
  - intros E. by destruct (numbered_one request a Hi Ha E) as [Hh _]; apply Hn in Hh.
Qed.

(** The check of the code is the shape. *)
Lemma catalog_request_spec :
  catalog_request_valid c s = true <-> exists request, request_shape c s request.
Proof.
  destruct catalog_parts as (_ & Hrs & Hra & _). unfold catalog_request_valid.
  destruct (Z.eqb_spec (so_command_id s) 0) as [Ez | Ez]; cbn [orb].
  { split; [done |]. intros (r & [[Hr E] _ _ _ _ _ _ _ _]). destruct catalog_parts as (Hn & _).
    apply list_elem_of_lookup in Hr as [k Hk]. pose proof (numbered_lookup 1 _ _ _ Hn Hk). lia. }
  assert (Hlook : forall r, r ∈ ct_requests c /\ rc_command_id r = so_command_id s <->
    ct_requests c !! Z.to_nat (so_command_id s - 1) = Some r) by (intros r; apply request_lookup; unfold is_u32 in Hid; lia).
  destruct (Z.ltb_spec (Z.of_nat (length (ct_requests c))) (so_command_id s)).
  { split; [done |]. intros (r & [Hr _ _ _ _ _ _ _ _]). apply Hlook, lookup_lt_Some in Hr. lia. }
  destruct (_ !! _) as [request |] eqn:Hreq.
  2: { split; [done |]. intros (r & [Hr _ _ _ _ _ _ _ _]). apply Hlook in Hr. congruence. }
  transitivity (request_shape c s request).
  2: { split; [by exists request |]. intros (r & Hsh). pose proof Hsh as [Hr _ _ _ _ _ _ _ _]. apply Hlook in Hr. naive_solver. }
  pose proof (proj2 (Hlook request) eq_refl) as [Hin Hcmd]. rewrite (proj2 (Z.eqb_eq _ _) Hcmd). cbn [negb orb].
  assert (Hinl : (if negb (rc_inline_record_id request =? 0)
      then inline_argument_matches s (find_argument s 1) (rc_inline_record_id request) (rc_inline_size request)
      else bool_decide (find_argument s 1 = None) && (so_inline_length s =? 0)) = true <-> inline_shape request).
  { unfold inline_shape. destruct (rc_inline_record_id request =? 0); cbn [negb];
      [apply no_inline_spec | apply inline_argument_matches_spec]. }
  destruct (Z.ltb_spec (rc_span_capacity request) (so_span_count s)), (Z.ltb_spec (rc_attachment_capacity request) (so_attachment_count s));
    cbn [orb]; try (split; [done | intros []; lia]).
  destruct (if negb _ then _ else _); cbn [negb].
  2: { split; [done |]. intros [_ _ _ Hi _ _ _ _ _]. by apply Hinl in Hi. }
  destruct Hinl as [Hinl _]. specialize (Hinl eq_refl).
  set (h := negb (rc_inline_record_id request =? 0)) in *.
  pose proof (match_arguments_spec h (arguments_of s) 0 0) as Hm. rewrite !Z.add_0_l in Hm.
  pose proof (count_values request KB2_GPU_ARGUMENT_SPAN Hinl ltac:(done)) as Ecs.
  pose proof (count_values request KB2_GPU_ARGUMENT_ATTACHMENT Hinl ltac:(done)) as Ect. fold h in Ecs, Ect. rewrite Ecs, Ect in Hm.
  destruct (match_arguments _ _ _ _ _ _) as [[n m] |].
  2: { split; [done |]. intros [_ _ _ _ Hd%(declared_inline request Hinl) _ _ _ _].
       specialize (Hm (Z.of_nat (length (values s KB2_GPU_ARGUMENT_SPAN)), Z.of_nat (length (values s KB2_GPU_ARGUMENT_ATTACHMENT))) Hat).
       destruct Hm as [_ Hm]. by specialize (Hm ltac:(done)). }
  destruct (Hm (n, m) Hat) as [[Hd [= -> ->]] _]; [done |].
  pose proof (declared_length h _ Hd) as Hlen. pose proof (argument_total request Hinl) as Hone.
  fold h in Hone. rewrite Ecs, Ect, Hone in Hlen.
  assert (Etot : (so_argument_count s =? (if h then 1 else 0) + Z.of_nat (length (values s KB2_GPU_ARGUMENT_SPAN)) +
      Z.of_nat (length (values s KB2_GPU_ARGUMENT_ATTACHMENT))) = true).
  { apply Z.eqb_eq. rewrite Hac, Hlen. by destruct h. }
  rewrite Etot, orb_false_r, required_spans_rows, required_attachments_rows. clear Etot Hlen Hm.
  pose proof span_count_once as Hso. pose proof attachment_count_once as Hto. rewrite <- Z.eqb_eq in Hso, Hto.
  assert (Hns : needed_present s [] (ct_spans c) = true <-> complete s (ct_spans c)) by
    (apply needed_present_spec; [done | intros ? ?%elem_of_nil; done]).
  assert (Hnt : needed_present s [] (ct_attachments c) = true <-> complete s (ct_attachments c)) by
    (apply needed_present_spec; [done | intros ? ?%elem_of_nil; done]).
  apply declared_inline in Hd; [| done]. split.
  - destruct (Z.of_nat _ =? so_span_count s), (Z.of_nat _ =? so_attachment_count s); cbn [negb orb]; try done.
    rewrite andb_true_iff. intros [? ?]. split; try tauto.
  - intros [_ _ _ _ _ E1%Hso E2%Hto E3%Hns E4%Hnt]. rewrite E1, E2, E3, E4. done.
Qed.
End Shape.
