(* ===== verification/GpuSemantics.v ===== *)
(** GPU commands, the checks of each command set (protocol/src/gpu.c): the fields of the
    inline record of a virtgpu, core or mode request, and the whole AMDGPU request.

    [data_of s] is the inline record; the code reads it only after the checks of
    [GpuRequest] (or the start of [amdgpu_request_valid]) have fixed its length. *)

From Stdlib Require Import ZArith Lia.
From stdpp Require Import base numbers tactics list_numbers list.
From S2P Require Import Prelude Bytes Layout Protocol GpuLayout GpuDrmLayout GpuCompletion GpuRequest.

Open Scope Z_scope.
Open Scope kobox_scope.

(** [(flags & bit) != 0] *)
Definition has_bit (flags bit : Z) : bool := negb (Z.land flags bit =? 0).

(** * virtgpu *)

Definition virtgpu_request_semantics_valid (s : kb2_gpu_command_source) : bool :=
  let data := data_of s in
  let id := so_command_id s in
  if id =? KB2_GPU_DRM_VIRTGPU_COMMAND_MAP then
    (load_u32 data KB2_GPU_DRM_VIRTGPU_RECORD_MAP_REQUEST_MAPPING_RIGHTS_OFFSET &~
       Z.lor KB2_GPU_SPAN_RIGHT_READ KB2_GPU_SPAN_RIGHT_WRITE =? 0) &&
    negb (load_u32 data KB2_GPU_DRM_VIRTGPU_RECORD_MAP_REQUEST_MAPPING_RIGHTS_OFFSET =? 0)
  else if id =? KB2_GPU_DRM_VIRTGPU_COMMAND_EXECBUFFER then
    let flags := load_u32 data KB2_GPU_DRM_VIRTGPU_RECORD_EXECBUFFER_REQUEST_FLAGS_OFFSET in
    let has_input_fence := bool_decide (is_Some (find_argument s 6)) in
    (flags &~ Z.lor (Z.lor KB2_GPU_DRM_VIRTGPU_EXEC_FLAG_FENCE_IN KB2_GPU_DRM_VIRTGPU_EXEC_FLAG_FENCE_OUT)
                KB2_GPU_DRM_VIRTGPU_EXEC_FLAG_RING_INDEX =? 0) &&
    Bool.eqb (has_bit flags KB2_GPU_DRM_VIRTGPU_EXEC_FLAG_FENCE_IN) has_input_fence &&
    (has_bit flags KB2_GPU_DRM_VIRTGPU_EXEC_FLAG_RING_INDEX ||
       (load_u32 data KB2_GPU_DRM_VIRTGPU_RECORD_EXECBUFFER_REQUEST_RING_INDEX_OFFSET =? 0)) &&
    (load_u32 data KB2_GPU_DRM_VIRTGPU_RECORD_EXECBUFFER_REQUEST_COMMAND_BYTES_OFFSET =? span_element_count s 2) &&
    (load_u32 data KB2_GPU_DRM_VIRTGPU_RECORD_EXECBUFFER_REQUEST_BO_HANDLE_COUNT_OFFSET =? span_element_count s 3) &&
    (load_u32 data KB2_GPU_DRM_VIRTGPU_RECORD_EXECBUFFER_REQUEST_INPUT_SYNCOBJ_COUNT_OFFSET =? span_element_count s 4) &&
    (load_u32 data KB2_GPU_DRM_VIRTGPU_RECORD_EXECBUFFER_REQUEST_OUTPUT_SYNCOBJ_COUNT_OFFSET =? span_element_count s 5)
  else if id =? KB2_GPU_DRM_VIRTGPU_COMMAND_RESOURCE_CREATE then
    load_u32 data KB2_GPU_DRM_VIRTGPU_RECORD_RESOURCE_CREATE_REQUEST_RESERVED_OFFSET =? 0
  else if id =? KB2_GPU_DRM_VIRTGPU_COMMAND_RESOURCE_INFO then
    load_u32 data KB2_GPU_DRM_VIRTGPU_RECORD_RESOURCE_INFO_REQUEST_RESERVED_OFFSET =? 0
  else if id =? KB2_GPU_DRM_VIRTGPU_COMMAND_WAIT then
    load_u32 data KB2_GPU_DRM_VIRTGPU_RECORD_WAIT_REQUEST_FLAGS_OFFSET &~ 1 =? 0
  else if id =? KB2_GPU_DRM_VIRTGPU_COMMAND_GET_CAPS then
    (load_u32 data KB2_GPU_DRM_VIRTGPU_RECORD_GET_CAPS_REQUEST_RESPONSE_CAPACITY_OFFSET =? span_element_count s 2) &&
    (load_u32 data KB2_GPU_DRM_VIRTGPU_RECORD_GET_CAPS_REQUEST_RESERVED_OFFSET =? 0)
  else if id =? KB2_GPU_DRM_VIRTGPU_COMMAND_RESOURCE_CREATE_BLOB then
    (load_u32 data KB2_GPU_DRM_VIRTGPU_RECORD_RESOURCE_CREATE_BLOB_REQUEST_COMMAND_BYTES_OFFSET =? span_element_count s 2) &&
    (load_u32 data KB2_GPU_DRM_VIRTGPU_RECORD_RESOURCE_CREATE_BLOB_REQUEST_RESERVED_OFFSET =? 0)
  else if id =? KB2_GPU_DRM_VIRTGPU_COMMAND_CONTEXT_INIT then
    let mask := load_u32 data KB2_GPU_DRM_VIRTGPU_RECORD_CONTEXT_INIT_REQUEST_PARAMETER_MASK_OFFSET in
    let debug_name_bytes := load_u32 data KB2_GPU_DRM_VIRTGPU_RECORD_CONTEXT_INIT_REQUEST_DEBUG_NAME_BYTES_OFFSET in
    negb (mask =? 0) &&
    (mask &~ Z.lor (Z.lor (Z.lor KB2_GPU_DRM_VIRTGPU_CONTEXT_PARAMETER_CAPSET_ID
                              KB2_GPU_DRM_VIRTGPU_CONTEXT_PARAMETER_RING_COUNT)
                       KB2_GPU_DRM_VIRTGPU_CONTEXT_PARAMETER_POLL_RING_MASK)
                KB2_GPU_DRM_VIRTGPU_CONTEXT_PARAMETER_DEBUG_NAME =? 0) &&
    (debug_name_bytes =? span_element_count s 2) &&
    ((has_bit mask KB2_GPU_DRM_VIRTGPU_CONTEXT_PARAMETER_DEBUG_NAME && negb (debug_name_bytes =? 0)) ||
     ((Z.land mask KB2_GPU_DRM_VIRTGPU_CONTEXT_PARAMETER_DEBUG_NAME =? 0) && (debug_name_bytes =? 0))) &&
    (has_bit mask KB2_GPU_DRM_VIRTGPU_CONTEXT_PARAMETER_CAPSET_ID ||
       (load_u32 data KB2_GPU_DRM_VIRTGPU_RECORD_CONTEXT_INIT_REQUEST_CAPSET_ID_OFFSET =? 0)) &&
    (has_bit mask KB2_GPU_DRM_VIRTGPU_CONTEXT_PARAMETER_RING_COUNT ||
       (load_u32 data KB2_GPU_DRM_VIRTGPU_RECORD_CONTEXT_INIT_REQUEST_RING_COUNT_OFFSET =? 0)) &&
    (has_bit mask KB2_GPU_DRM_VIRTGPU_CONTEXT_PARAMETER_POLL_RING_MASK ||
       (load_u64 data KB2_GPU_DRM_VIRTGPU_RECORD_CONTEXT_INIT_REQUEST_POLL_RING_MASK_OFFSET =? 0))
  else true.

(** * DRM core *)

Definition core_request_semantics_valid (s : kb2_gpu_command_source) : bool :=
  let data := data_of s in
  let id := so_command_id s in
  if id =? KB2_GPU_DRM_CORE_COMMAND_VERSION then
    (load_u32 data KB2_GPU_DRM_CORE_RECORD_VERSION_REQUEST_NAME_CAPACITY_OFFSET =? span_element_count s 2) &&
    (load_u32 data KB2_GPU_DRM_CORE_RECORD_VERSION_REQUEST_DATE_CAPACITY_OFFSET =? span_element_count s 3) &&
    (load_u32 data KB2_GPU_DRM_CORE_RECORD_VERSION_REQUEST_DESCRIPTION_CAPACITY_OFFSET =? span_element_count s 4) &&
    (load_u32 data KB2_GPU_DRM_CORE_RECORD_VERSION_REQUEST_RESERVED_OFFSET =? 0)
  else if (id =? KB2_GPU_DRM_CORE_COMMAND_GET_UNIQUE) || (id =? KB2_GPU_DRM_CORE_COMMAND_READ_EVENTS) then
    (load_u32 data KB2_GPU_DRM_CORE_RECORD_LENGTH_REQUEST_CAPACITY_OFFSET =? span_element_count s 2) &&
    (load_u32 data KB2_GPU_DRM_CORE_RECORD_LENGTH_REQUEST_RESERVED_OFFSET =? 0)
  else if id =? KB2_GPU_DRM_CORE_COMMAND_POLL_EVENTS then load_u32 data 0 &~ KB2_GPU_DRM_CORE_POLL_READABLE =? 0
  else if id =? KB2_GPU_DRM_CORE_COMMAND_GET_CLIENT then
    load_u32 data KB2_GPU_DRM_CORE_RECORD_CLIENT_REQUEST_RESERVED_OFFSET =? 0
  else if id =? KB2_GPU_DRM_CORE_COMMAND_SET_CLIENT_NAME then
    (load_u32 data KB2_GPU_DRM_CORE_RECORD_CLIENT_NAME_REQUEST_NAME_BYTES_OFFSET =? span_element_count s 2) &&
    (load_u32 data KB2_GPU_DRM_CORE_RECORD_CLIENT_NAME_REQUEST_RESERVED_OFFSET =? 0)
  else if (id =? KB2_GPU_DRM_CORE_COMMAND_GEM_CLOSE) || (id =? KB2_GPU_DRM_CORE_COMMAND_GEM_FLINK) ||
          (id =? KB2_GPU_DRM_CORE_COMMAND_SYNCOBJ_DESTROY) then
    load_u32 data KB2_GPU_DRM_CORE_RECORD_GEM_HANDLE_REQUEST_RESERVED_OFFSET =? 0
  else if id =? KB2_GPU_DRM_CORE_COMMAND_GEM_OPEN then
    load_u32 data KB2_GPU_DRM_CORE_RECORD_GEM_OPEN_REQUEST_RESERVED_OFFSET =? 0
  else if id =? KB2_GPU_DRM_CORE_COMMAND_PRIME_ATTACHMENT_TO_HANDLE then
    (load_u32 data KB2_GPU_DRM_CORE_RECORD_PRIME_IMPORT_REQUEST_FLAGS_OFFSET =? 0) &&
    (load_u32 data KB2_GPU_DRM_CORE_RECORD_PRIME_IMPORT_REQUEST_RESERVED_OFFSET =? 0)
  else if id =? KB2_GPU_DRM_CORE_COMMAND_SYNCOBJ_CREATE then
    load_u32 data KB2_GPU_DRM_CORE_RECORD_SYNCOBJ_CREATE_REQUEST_RESERVED_OFFSET =? 0
  else if id =? KB2_GPU_DRM_CORE_COMMAND_SYNCOBJ_ATTACHMENT_TO_HANDLE then
    if has_bit (load_u32 data KB2_GPU_DRM_CORE_RECORD_SYNCOBJ_IMPORT_REQUEST_FLAGS_OFFSET) 1
    then negb (load_u32 data KB2_GPU_DRM_CORE_RECORD_SYNCOBJ_IMPORT_REQUEST_HANDLE_OFFSET =? 0)
    else load_u32 data KB2_GPU_DRM_CORE_RECORD_SYNCOBJ_IMPORT_REQUEST_HANDLE_OFFSET =? 0
  else if (id =? KB2_GPU_DRM_CORE_COMMAND_SYNCOBJ_WAIT) || (id =? KB2_GPU_DRM_CORE_COMMAND_SYNCOBJ_TIMELINE_WAIT) then
    let flags := load_u32 data KB2_GPU_DRM_CORE_RECORD_SYNCOBJ_WAIT_REQUEST_FLAGS_OFFSET in
    (load_u32 data KB2_GPU_DRM_CORE_RECORD_SYNCOBJ_WAIT_REQUEST_HANDLE_COUNT_OFFSET =? span_element_count s 2) &&
    (flags &~ 15 =? 0) &&
    (has_bit flags 8 || (load_u64 data KB2_GPU_DRM_CORE_RECORD_SYNCOBJ_WAIT_REQUEST_FENCE_DEADLINE_NS_OFFSET =? 0))
  else if (id =? KB2_GPU_DRM_CORE_COMMAND_SYNCOBJ_RESET) || (id =? KB2_GPU_DRM_CORE_COMMAND_SYNCOBJ_SIGNAL) ||
          (id =? KB2_GPU_DRM_CORE_COMMAND_SYNCOBJ_TIMELINE_SIGNAL) then
    (load_u32 data KB2_GPU_DRM_CORE_RECORD_SYNCOBJ_ARRAY_REQUEST_HANDLE_COUNT_OFFSET =? span_element_count s 2) &&
    (load_u32 data KB2_GPU_DRM_CORE_RECORD_SYNCOBJ_ARRAY_REQUEST_FLAGS_OFFSET =? 0)
  else if id =? KB2_GPU_DRM_CORE_COMMAND_SYNCOBJ_QUERY then
    (load_u32 data KB2_GPU_DRM_CORE_RECORD_SYNCOBJ_QUERY_REQUEST_HANDLE_COUNT_OFFSET =? span_element_count s 2) &&
    (load_u32 data KB2_GPU_DRM_CORE_RECORD_SYNCOBJ_QUERY_REQUEST_FLAGS_OFFSET &~ 1 =? 0)
  else true.

(** * Mode setting *)

Definition mode_topology_required (command_id : Z) : bool :=
  existsb (Z.eqb command_id)
    [KB2_GPU_DRM_MODE_COMMAND_WAIT_VBLANK; KB2_GPU_DRM_MODE_COMMAND_CRTC_GET_SEQUENCE;
     KB2_GPU_DRM_MODE_COMMAND_CRTC_QUEUE_SEQUENCE; KB2_GPU_DRM_MODE_COMMAND_GET_CRTC;
     KB2_GPU_DRM_MODE_COMMAND_SET_CRTC; KB2_GPU_DRM_MODE_COMMAND_CURSOR; KB2_GPU_DRM_MODE_COMMAND_GET_GAMMA;
     KB2_GPU_DRM_MODE_COMMAND_SET_GAMMA; KB2_GPU_DRM_MODE_COMMAND_GET_ENCODER; KB2_GPU_DRM_MODE_COMMAND_GET_CONNECTOR;
     KB2_GPU_DRM_MODE_COMMAND_ATTACH_MODE; KB2_GPU_DRM_MODE_COMMAND_DETACH_MODE;
     KB2_GPU_DRM_MODE_COMMAND_GET_PROPERTY; KB2_GPU_DRM_MODE_COMMAND_SET_PROPERTY;
     KB2_GPU_DRM_MODE_COMMAND_GET_PROPERTY_BLOB; KB2_GPU_DRM_MODE_COMMAND_GET_FB; KB2_GPU_DRM_MODE_COMMAND_ADD_FB;
     KB2_GPU_DRM_MODE_COMMAND_REMOVE_FB; KB2_GPU_DRM_MODE_COMMAND_PAGE_FLIP; KB2_GPU_DRM_MODE_COMMAND_DIRTY_FB;
     KB2_GPU_DRM_MODE_COMMAND_GET_PLANE; KB2_GPU_DRM_MODE_COMMAND_SET_PLANE; KB2_GPU_DRM_MODE_COMMAND_ADD_FB2;
     KB2_GPU_DRM_MODE_COMMAND_OBJECT_GET_PROPERTIES; KB2_GPU_DRM_MODE_COMMAND_OBJECT_SET_PROPERTY;
     KB2_GPU_DRM_MODE_COMMAND_CURSOR2; KB2_GPU_DRM_MODE_COMMAND_ATOMIC; KB2_GPU_DRM_MODE_COMMAND_CREATE_PROPERTY_BLOB;
     KB2_GPU_DRM_MODE_COMMAND_DESTROY_PROPERTY_BLOB; KB2_GPU_DRM_MODE_COMMAND_CREATE_LEASE;
     KB2_GPU_DRM_MODE_COMMAND_GET_LEASE; KB2_GPU_DRM_MODE_COMMAND_GET_FB2; KB2_GPU_DRM_MODE_COMMAND_CLOSE_FB].

Definition mode_request_semantics_valid (s : kb2_gpu_command_source) : bool :=
  let data := data_of s in
  let id := so_command_id s in
  if mode_topology_required id && (load_u64 data 0 =? 0) then false
  else if id =? KB2_GPU_DRM_MODE_COMMAND_GET_RESOURCES then
    (load_u32 data KB2_GPU_DRM_MODE_RECORD_RESOURCES_REQUEST_FB_CAPACITY_OFFSET =? span_element_count s 2) &&
    (load_u32 data KB2_GPU_DRM_MODE_RECORD_RESOURCES_REQUEST_CRTC_CAPACITY_OFFSET =? span_element_count s 3) &&
    (load_u32 data KB2_GPU_DRM_MODE_RECORD_RESOURCES_REQUEST_CONNECTOR_CAPACITY_OFFSET =? span_element_count s 4) &&
    (load_u32 data KB2_GPU_DRM_MODE_RECORD_RESOURCES_REQUEST_ENCODER_CAPACITY_OFFSET =? span_element_count s 5)
  else if id =? KB2_GPU_DRM_MODE_COMMAND_GET_CRTC then
    load_u32 data KB2_GPU_DRM_MODE_RECORD_CRTC_GET_REQUEST_RESERVED_OFFSET =? 0
  else if id =? KB2_GPU_DRM_MODE_COMMAND_SET_CRTC then
    (load_u32 data KB2_GPU_DRM_MODE_RECORD_CRTC_SET_REQUEST_CONNECTOR_COUNT_OFFSET =? span_element_count s 2) &&
    (load_u32 data KB2_GPU_DRM_MODE_RECORD_CRTC_SET_REQUEST_MODE_VALID_OFFSET =? span_element_count s 3)
  else if (id =? KB2_GPU_DRM_MODE_COMMAND_GET_GAMMA) || (id =? KB2_GPU_DRM_MODE_COMMAND_SET_GAMMA) then
    (load_u32 data KB2_GPU_DRM_MODE_RECORD_GAMMA_REQUEST_ENTRY_COUNT_OFFSET =? span_element_count s 2) &&
    (span_element_count s 2 =? span_element_count s 3) && (span_element_count s 2 =? span_element_count s 4)
  else if id =? KB2_GPU_DRM_MODE_COMMAND_GET_CONNECTOR then
    (load_u32 data KB2_GPU_DRM_MODE_RECORD_CONNECTOR_REQUEST_MODE_CAPACITY_OFFSET =? span_element_count s 2) &&
    (load_u32 data KB2_GPU_DRM_MODE_RECORD_CONNECTOR_REQUEST_PROPERTY_CAPACITY_OFFSET =? span_element_count s 3) &&
    (load_u32 data KB2_GPU_DRM_MODE_RECORD_CONNECTOR_REQUEST_ENCODER_CAPACITY_OFFSET =? span_element_count s 4) &&
    (load_u32 data KB2_GPU_DRM_MODE_RECORD_CONNECTOR_REQUEST_FLAGS_OFFSET &~ KB2_GPU_DRM_MODE_CONNECTOR_FLAG_FORCE_PROBE =? 0) &&
    (load_u32 data KB2_GPU_DRM_MODE_RECORD_CONNECTOR_REQUEST_RESERVED_OFFSET =? 0)
  else if id =? KB2_GPU_DRM_MODE_COMMAND_CURSOR then
    (load_u32 data KB2_GPU_DRM_MODE_RECORD_CURSOR_REQUEST_FLAGS_OFFSET &~
       Z.lor KB2_GPU_DRM_MODE_CURSOR_FLAG_BUFFER KB2_GPU_DRM_MODE_CURSOR_FLAG_MOVE =? 0) &&
    (load_u32 data KB2_GPU_DRM_MODE_RECORD_CURSOR_REQUEST_RESERVED_OFFSET =? 0)
  else if id =? KB2_GPU_DRM_MODE_COMMAND_CURSOR2 then
    load_u32 data KB2_GPU_DRM_MODE_RECORD_CURSOR2_REQUEST_FLAGS_OFFSET &~
      Z.lor KB2_GPU_DRM_MODE_CURSOR_FLAG_BUFFER KB2_GPU_DRM_MODE_CURSOR_FLAG_MOVE =? 0
  else if id =? KB2_GPU_DRM_MODE_COMMAND_GET_PROPERTY then
    (load_u32 data KB2_GPU_DRM_MODE_RECORD_PROPERTY_REQUEST_VALUE_CAPACITY_OFFSET =? span_element_count s 2) &&
    (load_u32 data KB2_GPU_DRM_MODE_RECORD_PROPERTY_REQUEST_ENUM_CAPACITY_OFFSET =? span_element_count s 3) &&
    (load_u32 data KB2_GPU_DRM_MODE_RECORD_PROPERTY_REQUEST_RESERVED_OFFSET =? 0)
  else if id =? KB2_GPU_DRM_MODE_COMMAND_GET_PROPERTY_BLOB then
    load_u32 data KB2_GPU_DRM_MODE_RECORD_BLOB_GET_REQUEST_CAPACITY_OFFSET =? span_element_count s 2
  else if id =? KB2_GPU_DRM_MODE_COMMAND_DIRTY_FB then
    (load_u32 data KB2_GPU_DRM_MODE_RECORD_DIRTY_FB_REQUEST_RECTANGLE_COUNT_OFFSET =? span_element_count s 2) &&
    (load_u32 data KB2_GPU_DRM_MODE_RECORD_DIRTY_FB_REQUEST_FLAGS_OFFSET &~
       Z.lor KB2_GPU_DRM_MODE_DIRTY_FLAG_COPY KB2_GPU_DRM_MODE_DIRTY_FLAG_FILL =? 0)
  else if id =? KB2_GPU_DRM_MODE_COMMAND_PAGE_FLIP then
    let flags := load_u32 data KB2_GPU_DRM_MODE_RECORD_PAGE_FLIP_REQUEST_FLAGS_OFFSET in
    let target := Z.land flags (Z.lor KB2_GPU_DRM_MODE_PAGE_FLIP_FLAG_TARGET_ABSOLUTE
                                  KB2_GPU_DRM_MODE_PAGE_FLIP_FLAG_TARGET_RELATIVE) in
    (flags &~ Z.lor (Z.lor (Z.lor KB2_GPU_DRM_MODE_PAGE_FLIP_FLAG_EVENT KB2_GPU_DRM_MODE_PAGE_FLIP_FLAG_ASYNC)
                       KB2_GPU_DRM_MODE_PAGE_FLIP_FLAG_TARGET_ABSOLUTE)
                KB2_GPU_DRM_MODE_PAGE_FLIP_FLAG_TARGET_RELATIVE =? 0) &&
    negb (target =? Z.lor KB2_GPU_DRM_MODE_PAGE_FLIP_FLAG_TARGET_ABSOLUTE KB2_GPU_DRM_MODE_PAGE_FLIP_FLAG_TARGET_RELATIVE) &&
    (negb (target =? 0) || (load_u32 data KB2_GPU_DRM_MODE_RECORD_PAGE_FLIP_REQUEST_SEQUENCE_OFFSET =? 0)) &&
    (has_bit flags KB2_GPU_DRM_MODE_PAGE_FLIP_FLAG_EVENT ||
       (load_u64 data KB2_GPU_DRM_MODE_RECORD_PAGE_FLIP_REQUEST_EVENT_TOKEN_OFFSET =? 0))
  else if id =? KB2_GPU_DRM_MODE_COMMAND_CREATE_DUMB then
    load_u32 data KB2_GPU_DRM_MODE_RECORD_DUMB_CREATE_REQUEST_FLAGS_OFFSET =? 0
  else if id =? KB2_GPU_DRM_MODE_COMMAND_MAP_DUMB then
    (load_u32 data KB2_GPU_DRM_MODE_RECORD_MAP_REQUEST_MAPPING_RIGHTS_OFFSET &~
       Z.lor KB2_GPU_SPAN_RIGHT_READ KB2_GPU_SPAN_RIGHT_WRITE =? 0) &&
    negb (load_u32 data KB2_GPU_DRM_MODE_RECORD_MAP_REQUEST_MAPPING_RIGHTS_OFFSET =? 0)
  else if id =? KB2_GPU_DRM_MODE_COMMAND_GET_PLANE_RESOURCES then
    (load_u32 data KB2_GPU_DRM_MODE_RECORD_PLANE_RESOURCES_REQUEST_PLANE_CAPACITY_OFFSET =? span_element_count s 2) &&
    (load_u32 data KB2_GPU_DRM_MODE_RECORD_PLANE_RESOURCES_REQUEST_RESERVED_OFFSET =? 0)
  else if id =? KB2_GPU_DRM_MODE_COMMAND_GET_PLANE then
    load_u32 data KB2_GPU_DRM_MODE_RECORD_PLANE_GET_REQUEST_FORMAT_CAPACITY_OFFSET =? span_element_count s 2
  else if id =? KB2_GPU_DRM_MODE_COMMAND_OBJECT_GET_PROPERTIES then
    (load_u32 data KB2_GPU_DRM_MODE_RECORD_OBJECT_PROPERTIES_REQUEST_PROPERTY_CAPACITY_OFFSET =? span_element_count s 2) &&
    (load_u32 data KB2_GPU_DRM_MODE_RECORD_OBJECT_PROPERTIES_REQUEST_RESERVED_OFFSET =? 0)
  else if id =? KB2_GPU_DRM_MODE_COMMAND_ATOMIC then
    let flags := load_u32 data KB2_GPU_DRM_MODE_RECORD_ATOMIC_REQUEST_FLAGS_OFFSET in
    (flags &~ Z.lor (Z.lor (Z.lor (Z.lor KB2_GPU_DRM_MODE_PAGE_FLIP_FLAG_EVENT KB2_GPU_DRM_MODE_PAGE_FLIP_FLAG_ASYNC)
                              KB2_GPU_DRM_MODE_ATOMIC_FLAG_TEST_ONLY)
                       KB2_GPU_DRM_MODE_ATOMIC_FLAG_NONBLOCK)
                KB2_GPU_DRM_MODE_ATOMIC_FLAG_ALLOW_MODESET =? 0) &&
    (load_u32 data KB2_GPU_DRM_MODE_RECORD_ATOMIC_REQUEST_OBJECT_COUNT_OFFSET =? span_element_count s 2) &&
    (load_u32 data KB2_GPU_DRM_MODE_RECORD_ATOMIC_REQUEST_PROPERTY_COUNT_OFFSET =? span_element_count s 3) &&
    (load_u32 data KB2_GPU_DRM_MODE_RECORD_ATOMIC_REQUEST_FENCE_CAPACITY_OFFSET =? span_element_count s 4) &&
    (has_bit flags KB2_GPU_DRM_MODE_PAGE_FLIP_FLAG_EVENT ||
       (load_u64 data KB2_GPU_DRM_MODE_RECORD_ATOMIC_REQUEST_EVENT_TOKEN_OFFSET =? 0))
  else if id =? KB2_GPU_DRM_MODE_COMMAND_ADD_FB2 then load_u32 data KB2_GPU_DRM_MODE_RECORD_FB2_FB_ID_OFFSET =? 0
  else if id =? KB2_GPU_DRM_MODE_COMMAND_CREATE_PROPERTY_BLOB then
    (load_u32 data KB2_GPU_DRM_MODE_RECORD_BLOB_CREATE_REQUEST_BYTES_OFFSET =? span_element_count s 2) &&
    (load_u32 data KB2_GPU_DRM_MODE_RECORD_BLOB_CREATE_REQUEST_RESERVED_OFFSET =? 0)
  else if id =? KB2_GPU_DRM_MODE_COMMAND_CREATE_LEASE then
    load_u32 data KB2_GPU_DRM_MODE_RECORD_LEASE_CREATE_REQUEST_OBJECT_COUNT_OFFSET =? span_element_count s 2
  else if id =? KB2_GPU_DRM_MODE_COMMAND_LIST_LESSEES then
    (load_u32 data KB2_GPU_DRM_MODE_RECORD_CAPACITY_REQUEST_CAPACITY_OFFSET =? span_element_count s 2) &&
    (load_u32 data KB2_GPU_DRM_MODE_RECORD_CAPACITY_REQUEST_RESERVED_OFFSET =? 0)
  else if id =? KB2_GPU_DRM_MODE_COMMAND_GET_LEASE then
    (load_u32 data KB2_GPU_DRM_MODE_RECORD_LEASE_GET_REQUEST_OBJECT_CAPACITY_OFFSET =? span_element_count s 2) &&
    (load_u32 data KB2_GPU_DRM_MODE_RECORD_LEASE_GET_REQUEST_RESERVED_OFFSET =? 0)
  else true.

(** * AMDGPU *)

(** The cases of the switch, one per row of the record catalog. *)
Definition amdgpu_record_size (record_id : Z) : Z :=
  match List.find (fun row => row.1 =? record_id) (KB2_GPU_DRM_AMDGPU_RECORD_CATALOG pair) with
  | Some row => row.2
  | None => 0
  end.

Definition cs_record (record_id : Z) : bool :=
  (KB2_GPU_DRM_AMDGPU_RECORD_CS_CHUNK_IB <=? record_id) && (record_id <=? KB2_GPU_DRM_AMDGPU_RECORD_CS_CHUNK_GFX_SHADOW).

Definition info_record (record_id : Z) : bool :=
  (KB2_GPU_DRM_AMDGPU_RECORD_SCALAR_U32 <=? record_id) && (record_id <=? KB2_GPU_DRM_AMDGPU_RECORD_INFO_USERQ_METADATA).

Definition handle_record (record_id : Z) : bool := record_id =? KB2_GPU_DRM_AMDGPU_RECORD_HANDLE_U32.

Definition gem_op_record (record_id : Z) : bool :=
  (record_id =? KB2_GPU_DRM_AMDGPU_RECORD_GEM_CREATE_INFO) || (record_id =? KB2_GPU_DRM_AMDGPU_RECORD_GEM_VM_ENTRY).

Definition userq_mqd_record (record_id : Z) : bool :=
  (KB2_GPU_DRM_AMDGPU_RECORD_USERQ_MQD_GFX11 <=? record_id) &&
  (record_id <=? KB2_GPU_DRM_AMDGPU_RECORD_USERQ_MQD_COMPUTE_GFX11).

Definition timeline_record (record_id : Z) : bool := record_id =? KB2_GPU_DRM_AMDGPU_RECORD_TIMELINE_SYNCOBJ.
Definition userq_fence_record (record_id : Z) : bool := record_id =? KB2_GPU_DRM_AMDGPU_RECORD_USERQ_FENCE_INFO.
Definition bo_list_record (record_id : Z) : bool := record_id =? KB2_GPU_DRM_AMDGPU_RECORD_BO_LIST_ENTRY.
Definition fence_record (record_id : Z) : bool := record_id =? KB2_GPU_DRM_AMDGPU_RECORD_FENCE.
Definition gem_list_record (record_id : Z) : bool := record_id =? KB2_GPU_DRM_AMDGPU_RECORD_GEM_LIST_HANDLES_ENTRY.

(** [None] is the return of 0, [Some span] the span written through [span_out]. *)
Definition amdgpu_span_valid (s : kb2_gpu_command_source) (argument_id flags minimum maximum : Z)
    (record_predicate : Z -> bool) : option (option kb2_gpu_span) :=
  match find_argument s argument_id with
  | None => if minimum =? 0 then Some None else None
  | Some argument =>
      if negb (ar_kind argument =? KB2_GPU_ARGUMENT_SPAN) || negb (ar_flags argument =? flags) ||
         negb (record_predicate (ar_record_schema_id argument)) || (ar_count argument <? minimum) ||
         (maximum <? ar_count argument) || (U32_MAX <? ar_value argument) then None
      else
        let size := amdgpu_record_size (ar_record_schema_id argument) in
        match find_span (spans_of s) (ar_value argument) with
        | None => None
        | Some span =>
            if (size =? 0) || negb (sp_flags span =? flags) ||
               negb (sp_rights span =? (if flags =? KB2_GPU_ARGUMENT_FLAG_INPUT then KB2_GPU_SPAN_RIGHT_READ
                                        else KB2_GPU_SPAN_RIGHT_WRITE)) ||
               (U64_MAX / size <? ar_count argument) || negb (sp_length span =? u64 (ar_count argument * size)) then None
            else Some (Some span)
        end
  end.

Definition amdgpu_attachment_valid (s : kb2_gpu_command_source) (argument_id object_class role ownership : Z) : bool :=
  match find_argument s argument_id with
  | None => false
  | Some argument =>
      if negb (ar_kind argument =? KB2_GPU_ARGUMENT_ATTACHMENT) || negb (ar_flags argument =? KB2_GPU_ARGUMENT_FLAG_INPUT) ||
         (U32_MAX <? ar_value argument) then false
      else
        match find_attachment (attachments_of s) (ar_value argument) with
        | None => false
        | Some attachment =>
            (at_object_class attachment =? object_class) && (at_role attachment =? role) && (at_ownership attachment =? ownership)
        end
  end.

Definition amdgpu_info_query_record_valid (query record_id : Z) : bool :=
  if existsb (Z.eqb query)
       [KB2_GPU_DRM_AMDGPU_INFO_QUERY_ACCELERATION_WORKING; KB2_GPU_DRM_AMDGPU_INFO_QUERY_CRTC_FROM_ID;
        KB2_GPU_DRM_AMDGPU_INFO_QUERY_HW_IP_COUNT; KB2_GPU_DRM_AMDGPU_INFO_QUERY_SENSOR;
        KB2_GPU_DRM_AMDGPU_INFO_QUERY_VRAM_LOST_COUNTER; KB2_GPU_DRM_AMDGPU_INFO_QUERY_MAXIMUM_IBS] then
    record_id =? KB2_GPU_DRM_AMDGPU_RECORD_SCALAR_U32
  else if existsb (Z.eqb query)
       [KB2_GPU_DRM_AMDGPU_INFO_QUERY_TIMESTAMP; KB2_GPU_DRM_AMDGPU_INFO_QUERY_BYTES_MOVED;
        KB2_GPU_DRM_AMDGPU_INFO_QUERY_VRAM_USAGE; KB2_GPU_DRM_AMDGPU_INFO_QUERY_GTT_USAGE;
        KB2_GPU_DRM_AMDGPU_INFO_QUERY_VISIBLE_VRAM_USAGE; KB2_GPU_DRM_AMDGPU_INFO_QUERY_EVICTION_COUNT;
        KB2_GPU_DRM_AMDGPU_INFO_QUERY_VRAM_CPU_PAGE_FAULTS; KB2_GPU_DRM_AMDGPU_INFO_QUERY_RAS_ENABLED_FEATURES] then
    record_id =? KB2_GPU_DRM_AMDGPU_RECORD_SCALAR_U64
  else if query =? KB2_GPU_DRM_AMDGPU_INFO_QUERY_HW_IP_INFO then record_id =? KB2_GPU_DRM_AMDGPU_RECORD_INFO_HW_IP
  else if query =? KB2_GPU_DRM_AMDGPU_INFO_QUERY_FIRMWARE_VERSION then record_id =? KB2_GPU_DRM_AMDGPU_RECORD_INFO_FIRMWARE
  else if query =? KB2_GPU_DRM_AMDGPU_INFO_QUERY_GDS_CONFIG then record_id =? KB2_GPU_DRM_AMDGPU_RECORD_INFO_GDS
  else if query =? KB2_GPU_DRM_AMDGPU_INFO_QUERY_VRAM_GTT then record_id =? KB2_GPU_DRM_AMDGPU_RECORD_INFO_VRAM_GTT
  else if query =? KB2_GPU_DRM_AMDGPU_INFO_QUERY_READ_MMR_REGISTER then record_id =? KB2_GPU_DRM_AMDGPU_RECORD_SCALAR_U32
  else if query =? KB2_GPU_DRM_AMDGPU_INFO_QUERY_DEVICE_INFO then record_id =? KB2_GPU_DRM_AMDGPU_RECORD_INFO_DEVICE
  else if query =? KB2_GPU_DRM_AMDGPU_INFO_QUERY_MEMORY_INFO then record_id =? KB2_GPU_DRM_AMDGPU_RECORD_INFO_MEMORY
  else if query =? KB2_GPU_DRM_AMDGPU_INFO_QUERY_VCE_CLOCK_TABLE then
    record_id =? KB2_GPU_DRM_AMDGPU_RECORD_INFO_VCE_CLOCK_ENTRY
  else if query =? KB2_GPU_DRM_AMDGPU_INFO_QUERY_VBIOS then
    (record_id =? KB2_GPU_DRM_AMDGPU_RECORD_SCALAR_U32) || (record_id =? KB2_GPU_DRM_AMDGPU_RECORD_BYTE) ||
    (record_id =? KB2_GPU_DRM_AMDGPU_RECORD_INFO_VBIOS)
  else if query =? KB2_GPU_DRM_AMDGPU_INFO_QUERY_VIDEO_HANDLE_COUNT then
    record_id =? KB2_GPU_DRM_AMDGPU_RECORD_INFO_NUM_HANDLES
  else if query =? KB2_GPU_DRM_AMDGPU_INFO_QUERY_VIDEO_CAPS then record_id =? KB2_GPU_DRM_AMDGPU_RECORD_INFO_VIDEO_CAPS
  else if query =? KB2_GPU_DRM_AMDGPU_INFO_QUERY_GPUVM_FAULT then record_id =? KB2_GPU_DRM_AMDGPU_RECORD_INFO_GPUVM_FAULT
  else if query =? KB2_GPU_DRM_AMDGPU_INFO_QUERY_USERQ_FIRMWARE_AREAS then
    record_id =? KB2_GPU_DRM_AMDGPU_RECORD_INFO_USERQ_METADATA
  else false.

(** The body of the loop over the chunks of a command submission: [index] counts the
    spans from 0. *)
Definition cs_chunk_valid (s : kb2_gpu_command_source) (index : Z) (argument : kb2_gpu_argument) : bool :=
  if negb (ar_argument_id argument =? index + 2) || negb (ar_kind argument =? KB2_GPU_ARGUMENT_SPAN) ||
     negb (ar_flags argument =? KB2_GPU_ARGUMENT_FLAG_INPUT) ||
     (ar_count argument <? KB2_GPU_DRM_AMDGPU_COMMAND_CS_REQUEST_SPAN_CHUNKS_ELEMENT_MINIMUM) ||
     (KB2_GPU_DRM_AMDGPU_COMMAND_CS_REQUEST_SPAN_CHUNKS_ELEMENT_MAXIMUM <? ar_count argument) ||
     negb (cs_record (ar_record_schema_id argument)) || (U32_MAX <? ar_value argument) then false
  else
    let size := amdgpu_record_size (ar_record_schema_id argument) in
    match find_span (spans_of s) (ar_value argument) with
    | None => false
    | Some span =>
        negb ((size =? 0) || negb (sp_flags span =? KB2_GPU_SPAN_FLAG_INPUT) ||
              negb (sp_rights span =? KB2_GPU_SPAN_RIGHT_READ) || (U64_MAX / size <? ar_count argument) ||
              negb (sp_length span =? u64 (ar_count argument * size)))
    end.

Fixpoint cs_chunks_valid (s : kb2_gpu_command_source) (index : Z) (arguments : list kb2_gpu_argument) : bool :=
  match arguments with
  | [] => true
  | argument :: rest => cs_chunk_valid s index argument && cs_chunks_valid s (index + 1) rest
  end.

Definition amdgpu_cs_spans_valid (s : kb2_gpu_command_source) : bool :=
  if (so_span_count s <? KB2_GPU_DRM_AMDGPU_COMMAND_CS_REQUEST_SPAN_CHUNKS_MINIMUM) ||
     (KB2_GPU_DRM_AMDGPU_COMMAND_CS_REQUEST_SPAN_CHUNKS_MAXIMUM <? so_span_count s) ||
     negb (so_argument_count s =? so_span_count s + 1) || negb (so_attachment_count s =? 0) then false
  else
    cs_chunks_valid s 0 (take (Z.to_nat (so_span_count s)) (drop 1 (arguments_of s))) &&
    (load_u32 (data_of s) KB2_GPU_DRM_AMDGPU_RECORD_CS_REQUEST_CHUNK_COUNT_OFFSET =? so_span_count s).

(** The array [spans] of the function, NULL entries as [None]. *)
Definition elements_at (spans : list (option kb2_gpu_span)) (i : nat) : Z :=
  match nth i spans None with None => 0 | Some span => sp_element_count span end.

(** The first switch of [amdgpu_request_valid], without the command submission: the
    spans found and the attachment count.  The span of an INFO request is there, since
    its minimum is 1. *)
Definition amdgpu_spans (s : kb2_gpu_command_source) : option (list (option kb2_gpu_span) * Z) :=
  let id := so_command_id s in
  let data := data_of s in
  if id =? KB2_GPU_DRM_AMDGPU_COMMAND_BO_LIST then
    a ← amdgpu_span_valid s 2 KB2_GPU_ARGUMENT_FLAG_INPUT 0 KB2_GPU_DRM_AMDGPU_MAX_BO_LIST_ENTRIES bo_list_record;
    Some ([a], 0)
  else if id =? KB2_GPU_DRM_AMDGPU_COMMAND_INFO then
    a ← amdgpu_span_valid s 2 KB2_GPU_ARGUMENT_FLAG_OUTPUT 1 KB2_GPU_DRM_AMDGPU_MAX_INFO_BYTES info_record;
    span ← a;
    if (KB2_GPU_DRM_AMDGPU_MAX_INFO_BYTES <? sp_length span) ||
       negb (load_u32 data KB2_GPU_DRM_AMDGPU_RECORD_INFO_REQUEST_RESPONSE_RECORD_ID_OFFSET =? sp_record_schema_id span) ||
       negb (load_u32 data KB2_GPU_DRM_AMDGPU_RECORD_INFO_REQUEST_RESPONSE_CAPACITY_OFFSET =? sp_length span) ||
       negb (amdgpu_info_query_record_valid (load_u32 data KB2_GPU_DRM_AMDGPU_RECORD_INFO_REQUEST_QUERY_OFFSET)
               (sp_record_schema_id span)) then None
    else Some ([a], 0)
  else if id =? KB2_GPU_DRM_AMDGPU_COMMAND_GEM_VA then
    a ← amdgpu_span_valid s 2 KB2_GPU_ARGUMENT_FLAG_INPUT 0 KB2_GPU_DRM_AMDGPU_MAX_SYNC_HANDLES handle_record;
    Some ([a], 0)
  else if id =? KB2_GPU_DRM_AMDGPU_COMMAND_GEM_OP then
    a ← amdgpu_span_valid s 2 KB2_GPU_ARGUMENT_FLAG_OUTPUT 0 KB2_GPU_DRM_AMDGPU_MAX_VM_MAPPINGS gem_op_record;
    Some ([a], 0)
  else if id =? KB2_GPU_DRM_AMDGPU_COMMAND_GEM_USERPTR then
    if negb (so_span_count s =? 0) || negb (so_attachment_count s =? 1) ||
       negb (amdgpu_attachment_valid s 2 KB2_GPU_ATTACHMENT_MEMORY 1 KB2_GPU_ATTACHMENT_SHARE) then None
    else Some ([], 1)
  else if id =? KB2_GPU_DRM_AMDGPU_COMMAND_WAIT_FENCES then
    a ← amdgpu_span_valid s 2 KB2_GPU_ARGUMENT_FLAG_INPUT 1 KB2_GPU_DRM_AMDGPU_MAX_SYNC_HANDLES fence_record;
    Some ([a], 0)
  else if id =? KB2_GPU_DRM_AMDGPU_COMMAND_SCHED then
    if negb (so_span_count s =? 0) || negb (so_attachment_count s =? 1) ||
       negb (amdgpu_attachment_valid s 2 KB2_GPU_ATTACHMENT_SESSION 1 KB2_GPU_ATTACHMENT_BORROW) then None
    else Some ([], 1)
  else if id =? KB2_GPU_DRM_AMDGPU_COMMAND_USERQ then
    a ← amdgpu_span_valid s 2 KB2_GPU_ARGUMENT_FLAG_INPUT 0 1 userq_mqd_record;
    Some ([a], 0)
  else if id =? KB2_GPU_DRM_AMDGPU_COMMAND_USERQ_SIGNAL then
    a ← amdgpu_span_valid s 2 KB2_GPU_ARGUMENT_FLAG_INPUT 0 KB2_GPU_DRM_AMDGPU_MAX_SYNC_HANDLES handle_record;
    b ← amdgpu_span_valid s 3 KB2_GPU_ARGUMENT_FLAG_INPUT 0 KB2_GPU_DRM_AMDGPU_MAX_SYNC_HANDLES handle_record;
    c ← amdgpu_span_valid s 4 KB2_GPU_ARGUMENT_FLAG_INPUT 0 KB2_GPU_DRM_AMDGPU_MAX_SYNC_HANDLES handle_record;
    Some ([a; b; c], 0)
  else if id =? KB2_GPU_DRM_AMDGPU_COMMAND_USERQ_WAIT then
    a ← amdgpu_span_valid s 2 KB2_GPU_ARGUMENT_FLAG_INPUT 0 KB2_GPU_DRM_AMDGPU_MAX_SYNC_HANDLES handle_record;
    b ← amdgpu_span_valid s 3 KB2_GPU_ARGUMENT_FLAG_INPUT 0 KB2_GPU_DRM_AMDGPU_MAX_SYNC_HANDLES timeline_record;
    c ← amdgpu_span_valid s 4 KB2_GPU_ARGUMENT_FLAG_INPUT 0 KB2_GPU_DRM_AMDGPU_MAX_SYNC_HANDLES handle_record;
    d ← amdgpu_span_valid s 5 KB2_GPU_ARGUMENT_FLAG_INPUT 0 KB2_GPU_DRM_AMDGPU_MAX_SYNC_HANDLES handle_record;
    e ← amdgpu_span_valid s 6 KB2_GPU_ARGUMENT_FLAG_OUTPUT 0 KB2_GPU_DRM_AMDGPU_MAX_SYNC_HANDLES userq_fence_record;
    Some ([a; b; c; d; e], 0)
  else if id =? KB2_GPU_DRM_AMDGPU_COMMAND_GEM_LIST_HANDLES then
    a ← amdgpu_span_valid s 2 KB2_GPU_ARGUMENT_FLAG_OUTPUT 0 KB2_GPU_DRM_AMDGPU_MAX_BO_LIST_ENTRIES gem_list_record;
    Some ([a], 0)
  else if negb (so_span_count s =? 0) || negb (so_attachment_count s =? 0) then None
  else Some ([], 0).

(** The second switch: the fields of the inline record against the spans. *)
Definition amdgpu_fields_valid (s : kb2_gpu_command_source) (spans : list (option kb2_gpu_span)) : bool :=
  let id := so_command_id s in
  let data := data_of s in
  if id =? KB2_GPU_DRM_AMDGPU_COMMAND_BO_LIST then
    (load_u32 data KB2_GPU_DRM_AMDGPU_RECORD_BO_LIST_REQUEST_ENTRY_COUNT_OFFSET =? elements_at spans 0) &&
    (load_u32 data KB2_GPU_DRM_AMDGPU_RECORD_BO_LIST_REQUEST_RESERVED_OFFSET =? 0)
  else if id =? KB2_GPU_DRM_AMDGPU_COMMAND_INFO then
    load_u32 data KB2_GPU_DRM_AMDGPU_RECORD_INFO_REQUEST_FLAGS_OFFSET =? 0
  else if id =? KB2_GPU_DRM_AMDGPU_COMMAND_GEM_METADATA then
    (load_u32 data KB2_GPU_DRM_AMDGPU_RECORD_GEM_METADATA_REQUEST_DATA_SIZE_OFFSET <=? 256) &&
    (load_u32 data KB2_GPU_DRM_AMDGPU_RECORD_GEM_METADATA_REQUEST_RESERVED_OFFSET =? 0)
  else if id =? KB2_GPU_DRM_AMDGPU_COMMAND_GEM_VA then
    (load_u32 data KB2_GPU_DRM_AMDGPU_RECORD_GEM_VA_REQUEST_INPUT_SYNCOBJ_COUNT_OFFSET =? elements_at spans 0) &&
    (load_u32 data KB2_GPU_DRM_AMDGPU_RECORD_GEM_VA_REQUEST_RESERVED_OFFSET =? 0)
  else if id =? KB2_GPU_DRM_AMDGPU_COMMAND_GEM_OP then
    (load_u32 data KB2_GPU_DRM_AMDGPU_RECORD_GEM_OP_REQUEST_MAPPING_CAPACITY_OFFSET =? elements_at spans 0) &&
    (load_u32 data KB2_GPU_DRM_AMDGPU_RECORD_GEM_OP_REQUEST_RESERVED_OFFSET =? 0)
  else if id =? KB2_GPU_DRM_AMDGPU_COMMAND_GEM_USERPTR then
    load_u32 data KB2_GPU_DRM_AMDGPU_RECORD_GEM_USERPTR_REQUEST_RESERVED_OFFSET =? 0
  else if id =? KB2_GPU_DRM_AMDGPU_COMMAND_WAIT_FENCES then
    load_u32 data KB2_GPU_DRM_AMDGPU_RECORD_WAIT_FENCES_REQUEST_FENCE_COUNT_OFFSET =? elements_at spans 0
  else if id =? KB2_GPU_DRM_AMDGPU_COMMAND_FENCE_TO_HANDLE then
    load_u32 data KB2_GPU_DRM_AMDGPU_RECORD_FENCE_TO_HANDLE_REQUEST_RESERVED_OFFSET =? 0
  else if id =? KB2_GPU_DRM_AMDGPU_COMMAND_SCHED then
    load_u32 data KB2_GPU_DRM_AMDGPU_RECORD_SCHED_REQUEST_RESERVED_OFFSET =? 0
  else if id =? KB2_GPU_DRM_AMDGPU_COMMAND_USERQ then
    (load_u32 data KB2_GPU_DRM_AMDGPU_RECORD_USERQ_REQUEST_MQD_RECORD_ID_OFFSET =?
       match nth 0 spans None with None => 0 | Some span => sp_record_schema_id span end) &&
    (load_u32 data KB2_GPU_DRM_AMDGPU_RECORD_USERQ_REQUEST_MQD_SIZE_OFFSET =?
       match nth 0 spans None with None => 0 | Some span => sp_length span end)
  else if id =? KB2_GPU_DRM_AMDGPU_COMMAND_USERQ_SIGNAL then
    (load_u32 data KB2_GPU_DRM_AMDGPU_RECORD_USERQ_SIGNAL_REQUEST_SYNCOBJ_COUNT_OFFSET =? elements_at spans 0) &&
    (load_u32 data KB2_GPU_DRM_AMDGPU_RECORD_USERQ_SIGNAL_REQUEST_READ_BO_COUNT_OFFSET =? elements_at spans 1) &&
    (load_u32 data KB2_GPU_DRM_AMDGPU_RECORD_USERQ_SIGNAL_REQUEST_WRITE_BO_COUNT_OFFSET =? elements_at spans 2)
  else if id =? KB2_GPU_DRM_AMDGPU_COMMAND_USERQ_WAIT then
    (load_u32 data KB2_GPU_DRM_AMDGPU_RECORD_USERQ_WAIT_REQUEST_SYNCOBJ_COUNT_OFFSET =? elements_at spans 0) &&
    (load_u32 data KB2_GPU_DRM_AMDGPU_RECORD_USERQ_WAIT_REQUEST_TIMELINE_SYNCOBJ_COUNT_OFFSET =? elements_at spans 1) &&
    (load_u32 data KB2_GPU_DRM_AMDGPU_RECORD_USERQ_WAIT_REQUEST_READ_BO_COUNT_OFFSET =? elements_at spans 2) &&
    (load_u32 data KB2_GPU_DRM_AMDGPU_RECORD_USERQ_WAIT_REQUEST_WRITE_BO_COUNT_OFFSET =? elements_at spans 3) &&
    (load_u32 data KB2_GPU_DRM_AMDGPU_RECORD_USERQ_WAIT_REQUEST_OUTPUT_CAPACITY_OFFSET =? elements_at spans 4)
  else if id =? KB2_GPU_DRM_AMDGPU_COMMAND_GEM_LIST_HANDLES then
    (load_u32 data KB2_GPU_DRM_AMDGPU_RECORD_GEM_LIST_HANDLES_REQUEST_ENTRY_CAPACITY_OFFSET =? elements_at spans 0) &&
    (load_u32 data KB2_GPU_DRM_AMDGPU_RECORD_GEM_LIST_HANDLES_REQUEST_RESERVED_OFFSET =? 0)
  else true.

Definition amdgpu_request_valid (s : kb2_gpu_command_source) : bool :=
  if (so_command_id s =? 0) || (Z.of_nat (length kb2_gpu_amdgpu_request_contracts) <? so_command_id s) then false
  else
    match kb2_gpu_amdgpu_request_contracts !! Z.to_nat (so_command_id s - 1) with
    | None => false
    | Some contract =>
        if negb (inline_argument_matches s (find_argument s KB2_GPU_DRM_AMDGPU_INLINE_ARGUMENT_ID)
                   (ic_record_id contract) (ic_size contract)) then false
        else if so_command_id s =? KB2_GPU_DRM_AMDGPU_COMMAND_CS then amdgpu_cs_spans_valid s
        else
          match amdgpu_spans s with
          | None => false
          | Some (spans, attachment_count) =>
              let span_count := Z.of_nat (length (filter (fun span => is_Some span) spans)) in
              if negb (amdgpu_fields_valid s spans) then false
              else
                (so_span_count s =? span_count) && (so_attachment_count s =? attachment_count) &&
                (so_argument_count s =? 1 + span_count + attachment_count)
          end
    end.

(** * The whole check *)

(** A command that waits has a deadline, another has none; GEM_WAIT_IDLE may poll. *)
Definition deadline_valid (s : kb2_gpu_command_source) : bool :=
  Bool.eqb (wait_command (so_command_set_id s) (so_command_id s)) (negb (so_deadline_ns s =? 0)) ||
  ((so_command_set_id s =? KB2_GPU_DRM_AMDGPU_SET_ID) && (so_command_id s =? KB2_GPU_DRM_AMDGPU_COMMAND_GEM_WAIT_IDLE) &&
   (so_deadline_ns s =? 0)).

Definition validate_source (source : option kb2_gpu_command_source) : kb2_protocol_status :=
  match source with
  | None => KB2_PROTOCOL_MALFORMED
  | Some s =>
      if (so_generation s =? 0) || (so_session_id s =? 0) || negb (profile_kind_valid (so_profile_kind s)) ||
         negb (so_flags s =? 0) || (KB2_GPU_MAX_ARGUMENTS <? so_argument_count s) ||
         (KB2_GPU_MAX_SPANS <? so_span_count s) || (KB2_GPU_MAX_ATTACHMENTS <? so_attachment_count s) ||
         (KB2_GPU_MAX_INLINE_BYTES <? so_inline_length s) || array_missing (so_inline_data s) (so_inline_length s) ||
         negb (command_allowed (so_profile_kind s) (so_queue_class s) (so_command_set_id s) (so_command_id s)) ||
         negb (deadline_valid s) || negb (regions_valid (so_regions s) (so_region_count s)) ||
         negb (spans_valid (so_spans s) (so_span_count s) (regions_of s)) ||
         negb (attachments_valid (so_attachments s) (so_attachment_count s) (so_generation s)) || negb (arguments_valid s)
      then KB2_PROTOCOL_MALFORMED
      else if (so_command_set_id s =? KB2_GPU_DRM_AMDGPU_SET_ID) && negb (amdgpu_request_valid s) then KB2_PROTOCOL_MALFORMED
      else if negb (so_command_set_id s =? KB2_GPU_DRM_AMDGPU_SET_ID) && negb (generic_request_valid s)
      then KB2_PROTOCOL_MALFORMED
      else if (so_command_set_id s =? KB2_GPU_DRM_VIRTGPU_SET_ID) && negb (virtgpu_request_semantics_valid s)
      then KB2_PROTOCOL_MALFORMED
      else if (so_command_set_id s =? KB2_GPU_DRM_CORE_SET_ID) && negb (core_request_semantics_valid s)
      then KB2_PROTOCOL_MALFORMED
      else if (so_command_set_id s =? KB2_GPU_DRM_MODE_SET_ID) && negb (mode_request_semantics_valid s)
      then KB2_PROTOCOL_MALFORMED
      else KB2_PROTOCOL_OK
  end.
