(* ===== verification/GpuRules.v ===== *)
(** What the checks of the command sets ask of the inline record, as a table of rules
    per command, and that the code decides exactly these rules.  A rule names the
    fields it reads, so the table also bounds what the code reads. *)

From Stdlib Require Import ZArith Lia.
From stdpp Require Import base numbers tactics list_numbers list.
From S2P Require Import Prelude Bytes Layout Protocol GpuLayout GpuDrmLayout GpuCompletion GpuRequest GpuSemantics.

Open Scope Z_scope.
Open Scope kobox_scope.

(** * Rules

    [o] and [p] are offsets of fields of the inline record (32 bits wide unless the
    rule says otherwise), [a] and [b] argument ids, [m] a mask. *)
Inductive rule :=
  | Reserved (o : Z)            (* the field is zero *)
  | Nonzero (o : Z)
  | NonzeroWide (o : Z)         (* the 64-bit field is not zero *)
  | AtMost (o n : Z)
  | Bits (o m : Z)              (* no bit outside the mask *)
  | NotAll (o m : Z)            (* not every bit of the mask *)
  | Needs (o m p : Z)           (* [p] is zero unless a bit of the mask is set in [o] *)
  | NeedsWide (o m p : Z)       (* the same with [p] 64 bits wide *)
  | Selects (o m p : Z)         (* [p] is nonzero exactly when a bit of the mask is set *)
  | Elements (o a : Z)          (* the field counts the elements of the argument *)
  | SameElements (a b : Z)
  | Present (o m a : Z)         (* the argument is there exactly when a bit is set *)
  | RecordOf (o a : Z)          (* the field is the record of the argument's span *)
  | BytesOf (o a : Z)           (* the field is the length of the argument's span *)
  | SpanAtMost (a n : Z)        (* the argument's span has at most [n] bytes *)
  | InfoQuery (o a : Z).        (* the query of the field is answered in the span's record *)

(** The span of an argument. *)
Definition argument_span (s : kb2_gpu_command_source) (a : Z) : option kb2_gpu_span :=
  argument ← find_argument s a; find_span (spans_of s) (ar_value argument).

Definition rule_holds (s : kb2_gpu_command_source) (r : rule) : bool :=
  let data := data_of s in
  match r with
  | Reserved o => load_u32 data o =? 0
  | Nonzero o => negb (load_u32 data o =? 0)
  | NonzeroWide o => negb (load_u64 data o =? 0)
  | AtMost o n => load_u32 data o <=? n
  | Bits o m => load_u32 data o &~ m =? 0
  | NotAll o m => negb (Z.land (load_u32 data o) m =? m)
  | Needs o m p => has_bit (load_u32 data o) m || (load_u32 data p =? 0)
  | NeedsWide o m p => has_bit (load_u32 data o) m || (load_u64 data p =? 0)
  | Selects o m p => Bool.eqb (has_bit (load_u32 data o) m) (negb (load_u32 data p =? 0))
  | Elements o a => load_u32 data o =? span_element_count s a
  | SameElements a b => span_element_count s a =? span_element_count s b
  | Present o m a => Bool.eqb (has_bit (load_u32 data o) m) (bool_decide (is_Some (find_argument s a)))
  | RecordOf o a => load_u32 data o =? from_option sp_record_schema_id 0 (argument_span s a)
  | BytesOf o a => load_u32 data o =? from_option sp_length 0 (argument_span s a)
  | SpanAtMost a n => from_option sp_length 0 (argument_span s a) <=? n
  | InfoQuery o a =>
      amdgpu_info_query_record_valid (load_u32 data o) (from_option sp_record_schema_id 0 (argument_span s a))
  end.

(** The end of the last field a rule reads. *)
Definition rule_end (r : rule) : Z :=
  match r with
  | Reserved o | Nonzero o | AtMost o _ | Bits o _ | NotAll o _ | Elements o _ | Present o _ _ | RecordOf o _ | BytesOf o _
  | InfoQuery o _ => o + 4
  | NonzeroWide o => o + 8
  | Needs o _ p | Selects o _ p => Z.max (o + 4) (p + 4)
  | NeedsWide o _ p => Z.max (o + 4) (p + 8)
  | SameElements _ _ | SpanAtMost _ _ => 0
  end.

Definition rule_start (r : rule) : Z :=
  match r with
  | Reserved o | Nonzero o | AtMost o _ | Bits o _ | NotAll o _ | Elements o _ | Present o _ _ | RecordOf o _ | BytesOf o _
  | InfoQuery o _ | NonzeroWide o => o
  | Needs o _ p | Selects o _ p | NeedsWide o _ p => Z.min o p
  | SameElements _ _ | SpanAtMost _ _ => 0
  end.

(** A rule table: the rules of each command that has any. *)
Definition rules_of (table : list (Z * list rule)) (id : Z) : list rule :=
  match List.find (fun row => id =? row.1) table with Some row => row.2 | None => [] end.

(** ** The tables *)

Definition virtgpu_rules : list (Z * list rule) :=
  [(KB2_GPU_DRM_VIRTGPU_COMMAND_MAP, [Bits 4 3; Nonzero 4]);
   (KB2_GPU_DRM_VIRTGPU_COMMAND_EXECBUFFER,
    [Bits 0 7; Present 0 1 6; Needs 0 4 4; Elements 8 2; Elements 12 3; Elements 16 4; Elements 20 5]);
   (KB2_GPU_DRM_VIRTGPU_COMMAND_RESOURCE_CREATE, [Reserved 52]);
   (KB2_GPU_DRM_VIRTGPU_COMMAND_RESOURCE_INFO, [Reserved 4]);
   (KB2_GPU_DRM_VIRTGPU_COMMAND_WAIT, [Bits 4 1]);
   (KB2_GPU_DRM_VIRTGPU_COMMAND_GET_CAPS, [Elements 8 2; Reserved 12]);
   (KB2_GPU_DRM_VIRTGPU_COMMAND_RESOURCE_CREATE_BLOB, [Elements 16 2; Reserved 20]);
   (KB2_GPU_DRM_VIRTGPU_COMMAND_CONTEXT_INIT,
    [Nonzero 0; Bits 0 15; Elements 12 2; Selects 0 8 12; Needs 0 1 4; Needs 0 2 8; NeedsWide 0 4 16])].

Definition core_rules : list (Z * list rule) :=
  [(KB2_GPU_DRM_CORE_COMMAND_VERSION, [Elements 0 2; Elements 4 3; Elements 8 4; Reserved 12]);
   (KB2_GPU_DRM_CORE_COMMAND_GET_UNIQUE, [Elements 0 2; Reserved 4]);
   (KB2_GPU_DRM_CORE_COMMAND_READ_EVENTS, [Elements 0 2; Reserved 4]);
   (KB2_GPU_DRM_CORE_COMMAND_POLL_EVENTS, [Bits 0 1]);
   (KB2_GPU_DRM_CORE_COMMAND_GET_CLIENT, [Reserved 4]);
   (KB2_GPU_DRM_CORE_COMMAND_SET_CLIENT_NAME, [Elements 0 2; Reserved 4]);
   (KB2_GPU_DRM_CORE_COMMAND_GEM_CLOSE, [Reserved 4]);
   (KB2_GPU_DRM_CORE_COMMAND_GEM_FLINK, [Reserved 4]);
   (KB2_GPU_DRM_CORE_COMMAND_SYNCOBJ_DESTROY, [Reserved 4]);
   (KB2_GPU_DRM_CORE_COMMAND_GEM_OPEN, [Reserved 4]);
   (KB2_GPU_DRM_CORE_COMMAND_PRIME_ATTACHMENT_TO_HANDLE, [Reserved 0; Reserved 4]);
   (KB2_GPU_DRM_CORE_COMMAND_SYNCOBJ_CREATE, [Reserved 4]);
   (KB2_GPU_DRM_CORE_COMMAND_SYNCOBJ_ATTACHMENT_TO_HANDLE, [Selects 0 1 4]);
   (KB2_GPU_DRM_CORE_COMMAND_SYNCOBJ_WAIT, [Elements 0 2; Bits 4 15; NeedsWide 4 8 8]);
   (KB2_GPU_DRM_CORE_COMMAND_SYNCOBJ_TIMELINE_WAIT, [Elements 0 2; Bits 4 15; NeedsWide 4 8 8]);
   (KB2_GPU_DRM_CORE_COMMAND_SYNCOBJ_RESET, [Elements 0 2; Reserved 4]);
   (KB2_GPU_DRM_CORE_COMMAND_SYNCOBJ_SIGNAL, [Elements 0 2; Reserved 4]);
   (KB2_GPU_DRM_CORE_COMMAND_SYNCOBJ_TIMELINE_SIGNAL, [Elements 0 2; Reserved 4]);
   (KB2_GPU_DRM_CORE_COMMAND_SYNCOBJ_QUERY, [Elements 0 2; Bits 4 1])].

(** The rules of a mode command beyond the topology epoch. *)
Definition mode_rules : list (Z * list rule) :=
  [(KB2_GPU_DRM_MODE_COMMAND_GET_RESOURCES, [Elements 0 2; Elements 4 3; Elements 8 4; Elements 12 5]);
   (KB2_GPU_DRM_MODE_COMMAND_GET_CRTC, [Reserved 12]);
   (KB2_GPU_DRM_MODE_COMMAND_SET_CRTC, [Elements 28 2; Elements 24 3]);
   (KB2_GPU_DRM_MODE_COMMAND_GET_GAMMA, [Elements 12 2; SameElements 2 3; SameElements 2 4]);
   (KB2_GPU_DRM_MODE_COMMAND_SET_GAMMA, [Elements 12 2; SameElements 2 3; SameElements 2 4]);
   (KB2_GPU_DRM_MODE_COMMAND_GET_CONNECTOR, [Elements 12 2; Elements 16 3; Elements 20 4; Bits 24 1; Reserved 28]);
   (KB2_GPU_DRM_MODE_COMMAND_CURSOR, [Bits 8 3; Reserved 36]);
   (KB2_GPU_DRM_MODE_COMMAND_CURSOR2, [Bits 8 3]);
   (KB2_GPU_DRM_MODE_COMMAND_GET_PROPERTY, [Elements 12 2; Elements 16 3; Reserved 20]);
   (KB2_GPU_DRM_MODE_COMMAND_GET_PROPERTY_BLOB, [Elements 12 2]);
   (KB2_GPU_DRM_MODE_COMMAND_DIRTY_FB, [Elements 20 2; Bits 12 3]);
   (KB2_GPU_DRM_MODE_COMMAND_PAGE_FLIP, [Bits 16 15; NotAll 16 12; Needs 16 12 20; NeedsWide 16 1 24]);
   (KB2_GPU_DRM_MODE_COMMAND_CREATE_DUMB, [Reserved 12]);
   (KB2_GPU_DRM_MODE_COMMAND_MAP_DUMB, [Bits 4 3; Nonzero 4]);
   (KB2_GPU_DRM_MODE_COMMAND_GET_PLANE_RESOURCES, [Elements 0 2; Reserved 4]);
   (KB2_GPU_DRM_MODE_COMMAND_GET_PLANE, [Elements 12 2]);
   (KB2_GPU_DRM_MODE_COMMAND_OBJECT_GET_PROPERTIES, [Elements 16 2; Reserved 20]);
   (KB2_GPU_DRM_MODE_COMMAND_ATOMIC,
    [Bits 16 1795; Elements 20 2; Elements 24 3; Elements 28 4; NeedsWide 16 1 8]);
   (KB2_GPU_DRM_MODE_COMMAND_ADD_FB2, [Reserved 8]);
   (KB2_GPU_DRM_MODE_COMMAND_CREATE_PROPERTY_BLOB, [Elements 8 2; Reserved 12]);
   (KB2_GPU_DRM_MODE_COMMAND_CREATE_LEASE, [Elements 8 2]);
   (KB2_GPU_DRM_MODE_COMMAND_LIST_LESSEES, [Elements 0 2; Reserved 4]);
   (KB2_GPU_DRM_MODE_COMMAND_GET_LEASE, [Elements 8 2; Reserved 12])].

Definition epoch_rules (id : Z) : list rule := if mode_topology_required id then [NonzeroWide 0] else [].

Definition amdgpu_rules : list (Z * list rule) :=
  [(KB2_GPU_DRM_AMDGPU_COMMAND_BO_LIST, [Elements 8 2; Reserved 12]);
   (KB2_GPU_DRM_AMDGPU_COMMAND_INFO, [SpanAtMost 2 KB2_GPU_DRM_AMDGPU_MAX_INFO_BYTES; RecordOf 4 2; BytesOf 8 2; InfoQuery 0 2; Reserved 12]);
   (KB2_GPU_DRM_AMDGPU_COMMAND_GEM_METADATA, [AtMost 24 256; Reserved 28]);
   (KB2_GPU_DRM_AMDGPU_COMMAND_GEM_VA, [Elements 12 2; Reserved 52]);
   (KB2_GPU_DRM_AMDGPU_COMMAND_GEM_OP, [Elements 16 2; Reserved 20]);
   (KB2_GPU_DRM_AMDGPU_COMMAND_GEM_USERPTR, [Reserved 20]);
   (KB2_GPU_DRM_AMDGPU_COMMAND_WAIT_FENCES, [Elements 0 2]);
   (KB2_GPU_DRM_AMDGPU_COMMAND_FENCE_TO_HANDLE, [Reserved 28]);
   (KB2_GPU_DRM_AMDGPU_COMMAND_SCHED, [Reserved 12]);
   (KB2_GPU_DRM_AMDGPU_COMMAND_USERQ, [RecordOf 56 2; BytesOf 60 2]);
   (KB2_GPU_DRM_AMDGPU_COMMAND_USERQ_SIGNAL, [Elements 4 2; Elements 8 3; Elements 12 4]);
   (KB2_GPU_DRM_AMDGPU_COMMAND_USERQ_WAIT, [Elements 4 2; Elements 8 3; Elements 12 4; Elements 16 5; Elements 20 6]);
   (KB2_GPU_DRM_AMDGPU_COMMAND_GEM_LIST_HANDLES, [Elements 0 2; Reserved 4])].

(** The rules of a command, whatever its set; the submission of AMDGPU chunks has a
    shape of its own and i915 records have no rules. *)
Definition command_rules (set_id id : Z) : list rule :=
  if set_id =? KB2_GPU_DRM_VIRTGPU_SET_ID then rules_of virtgpu_rules id
  else if set_id =? KB2_GPU_DRM_CORE_SET_ID then rules_of core_rules id
  else if set_id =? KB2_GPU_DRM_MODE_SET_ID then epoch_rules id ++ rules_of mode_rules id
  else if set_id =? KB2_GPU_DRM_AMDGPU_SET_ID then rules_of amdgpu_rules id
  else [].

(** * The code decides the rules *)

Lemma selects_spec f m z :
  Bool.eqb (has_bit f m) (negb z) = (has_bit f m && negb z) || ((Z.land f m =? 0) && z).
Proof. unfold has_bit. by destruct (Z.land f m =? 0), z. Qed.

(** Both sides test the command against the same ids: decide them one by one, and
    compare the checks when a row is found. *)
Ltac decide_rows :=
  repeat lazymatch goal with
  | |- context [so_command_id ?s =? ?c] =>
      destruct (so_command_id s =? c); cbn [orb]; [cbn [snd forallb rule_holds]; rewrite ?andb_assoc, ?andb_true_r |]
  end.

Lemma virtgpu_rules_spec s :
  virtgpu_request_semantics_valid s = forallb (rule_holds s) (rules_of virtgpu_rules (so_command_id s)).
Proof.
  unfold virtgpu_request_semantics_valid, rules_of, virtgpu_rules. cbn [List.find fst snd].
  decide_rows; rewrite ?selects_spec; reflexivity.
Qed.

Lemma core_rules_spec s :
  core_request_semantics_valid s = forallb (rule_holds s) (rules_of core_rules (so_command_id s)).
Proof.
  unfold core_request_semantics_valid, rules_of, core_rules. cbn [List.find fst snd].
  decide_rows; first [reflexivity | by destruct (has_bit _ _), (load_u32 _ _ =? 0)].
Qed.

Lemma mode_rules_spec s :
  mode_request_semantics_valid s =
  forallb (rule_holds s) (epoch_rules (so_command_id s) ++ rules_of mode_rules (so_command_id s)).
Proof.
  unfold mode_request_semantics_valid, epoch_rules. rewrite forallb_app.
  replace (forallb (rule_holds s) (if mode_topology_required (so_command_id s) then [NonzeroWide 0] else []))
    with (negb (mode_topology_required (so_command_id s) && (load_u64 (data_of s) 0 =? 0)))
    by (destruct (mode_topology_required _); [cbn; by rewrite andb_true_r | done]).
  destruct (mode_topology_required _ && _); [done |]. cbn [negb andb].
  unfold rules_of, mode_rules. cbn [List.find fst snd].
  decide_rows; reflexivity.
Qed.
