(* ===== verification/GpuAmdgpuSpec.v ===== *)
(** The AMDGPU check against the AMDGPU schema.  The code lists the spans and
    attachments of each AMDGPU command by hand; the generated catalogs, which the check
    of the other command sets reads, are not used for it.  Here the two are compared:
    but for the submission of chunks, the hand-written check accepts exactly the
    requests that have the shape the catalogs declare and obey the rules of the
    command. *)

From Stdlib Require Import ZArith Lia.
From stdpp Require Import base numbers tactics list_numbers list.
From S2P Require Import Prelude Bytes Layout Sorted Protocol GpuLayout GpuDrmLayout GpuCompletion GpuRequest GpuRequestSpec.
From S2P Require Import GpuShapeSpec GpuSemantics GpuRules.

Open Scope Z_scope.
Open Scope kobox_scope.

Definition amdgpu_catalog : catalog :=
  mkCatalog (KB2_GPU_DRM_AMDGPU_REQUEST_CONTRACT_CATALOG mkRequestContract)
    (KB2_GPU_DRM_AMDGPU_REQUEST_SPAN_CATALOG mkSpanContract) (KB2_GPU_DRM_AMDGPU_REQUEST_ATTACHMENT_CATALOG mkAttachmentContract).

Lemma amdgpu_catalog_wf : catalog_wf amdgpu_catalog = true.
Proof. vm_compute. reflexivity. Qed.

(** * The tables in the code *)

(** A call of [amdgpu_span_valid]. *)
Record span_call := mkCall {
  ca_argument : Z;
  ca_flags : Z;
  ca_minimum : Z;
  ca_maximum : Z;
  ca_records : Z -> bool;
}.

Definition span_calls (id : Z) : list span_call :=
  let input := KB2_GPU_ARGUMENT_FLAG_INPUT in
  let output := KB2_GPU_ARGUMENT_FLAG_OUTPUT in
  let handles := KB2_GPU_DRM_AMDGPU_MAX_SYNC_HANDLES in
  if id =? KB2_GPU_DRM_AMDGPU_COMMAND_BO_LIST then [mkCall 2 input 0 KB2_GPU_DRM_AMDGPU_MAX_BO_LIST_ENTRIES bo_list_record]
  else if id =? KB2_GPU_DRM_AMDGPU_COMMAND_INFO then [mkCall 2 output 1 KB2_GPU_DRM_AMDGPU_MAX_INFO_BYTES info_record]
  else if id =? KB2_GPU_DRM_AMDGPU_COMMAND_GEM_VA then [mkCall 2 input 0 handles handle_record]
  else if id =? KB2_GPU_DRM_AMDGPU_COMMAND_GEM_OP then [mkCall 2 output 0 KB2_GPU_DRM_AMDGPU_MAX_VM_MAPPINGS gem_op_record]
  else if id =? KB2_GPU_DRM_AMDGPU_COMMAND_WAIT_FENCES then [mkCall 2 input 1 handles fence_record]
  else if id =? KB2_GPU_DRM_AMDGPU_COMMAND_USERQ then [mkCall 2 input 0 1 userq_mqd_record]
  else if id =? KB2_GPU_DRM_AMDGPU_COMMAND_USERQ_SIGNAL then
    [mkCall 2 input 0 handles handle_record; mkCall 3 input 0 handles handle_record; mkCall 4 input 0 handles handle_record]
  else if id =? KB2_GPU_DRM_AMDGPU_COMMAND_USERQ_WAIT then
    [mkCall 2 input 0 handles handle_record; mkCall 3 input 0 handles timeline_record; mkCall 4 input 0 handles handle_record;
     mkCall 5 input 0 handles handle_record; mkCall 6 output 0 handles userq_fence_record]
  else if id =? KB2_GPU_DRM_AMDGPU_COMMAND_GEM_LIST_HANDLES then
    [mkCall 2 output 0 KB2_GPU_DRM_AMDGPU_MAX_BO_LIST_ENTRIES gem_list_record]
  else [].

(** Object class, role and ownership of the attachment a command takes. *)
Definition attachment_call (id : Z) : option (Z * Z * Z) :=
  if id =? KB2_GPU_DRM_AMDGPU_COMMAND_GEM_USERPTR then Some (KB2_GPU_ATTACHMENT_MEMORY, 1, KB2_GPU_ATTACHMENT_SHARE)
  else if id =? KB2_GPU_DRM_AMDGPU_COMMAND_SCHED then Some (KB2_GPU_ATTACHMENT_SESSION, 1, KB2_GPU_ATTACHMENT_BORROW)
  else None.

Definition call_valid (s : kb2_gpu_command_source) (c : span_call) : bool :=
  match amdgpu_span_valid s (ca_argument c) (ca_flags c) (ca_minimum c) (ca_maximum c) (ca_records c) with
  | Some _ => true
  | None => false
  end.

Definition attachment_valid (s : kb2_gpu_command_source) (c : option (Z * Z * Z)) : bool :=
  match c with None => true | Some (class, role, ownership) => amdgpu_attachment_valid s 2 class role ownership end.

Definition attachments_expected (c : option (Z * Z * Z)) : Z := if c then 1 else 0.

Definition spans_present (s : kb2_gpu_command_source) (calls : list span_call) : list (option kb2_gpu_span) :=
  (fun c => argument_span s (ca_argument c)) <$> calls.

(** The check as one expression: the calls, the rules, and the counts. *)
Definition calls_valid (s : kb2_gpu_command_source) : bool :=
  let calls := span_calls (so_command_id s) in
  let attachment := attachment_call (so_command_id s) in
  let spans := Z.of_nat (length (filter is_Some (spans_present s calls))) in
  forallb (call_valid s) calls && attachment_valid s attachment &&
  forallb (rule_holds s) (rules_of amdgpu_rules (so_command_id s)) && (so_span_count s =? spans) &&
  (so_attachment_count s =? attachments_expected attachment) &&
  (so_argument_count s =? 1 + spans + attachments_expected attachment).

Lemma argument_span_of s a flags minimum maximum records o :
  amdgpu_span_valid s a flags minimum maximum records = Some o -> o = argument_span s a.
Proof.
  unfold amdgpu_span_valid, argument_span. destruct (find_argument s a) as [x |]; cbn; [| by case_match; intros [= <-]].
  cbv zeta. repeat case_match; by intros [= <-].
Qed.

(** The element count of a span is the count of its argument. *)
Lemma call_elements s a flags minimum maximum records o :
  references s -> arguments_ok s -> amdgpu_span_valid s a flags minimum maximum records = Some o ->
  match o with None => 0 | Some p => sp_element_count p end = span_element_count s a.
Proof.
  intros Hr Ha. unfold amdgpu_span_valid, span_element_count. destruct (find_argument s a) as [x |] eqn:Hf; [| by case_match; intros [= <-]].
  destruct (_ || _ || _ || _ || _ || _) eqn:Ht; [done |]. rewrite !orb_false_iff, !negb_false_iff, Z.eqb_eq in Ht.
  destruct Ht as [[[[[Hk _] _] _] _] _]. cbv zeta. destruct (find_span _ _) as [p |] eqn:Hp; [| done].
  case_match; [done |]. intros [= <-]. apply find_argument_spec in Hf as [Hx _]; [| apply Ha].
  pose proof (ao_each s Ha) as He. rewrite Forall_forall in He. destruct (He x Hx) as (_ & _ & Hx').
  apply reference_span_inv in Hx' as (q & Hq & Eq & -> & _); [| done].
  assert (E : find_span (spans_of s) (ar_value x) = Some q) by (apply (find_span_spec (regions_of s)); [apply Hr | done]).
  by simplify_eq.
Qed.

(** Decide the tests of the command id [v]. *)
Ltac decide_ids v :=
  repeat match goal with
  | |- context [Z.eqb v ?b] => let r := eval vm_compute in (Z.eqb v b) in change (Z.eqb v b) with r; cbn match
  end.

(** The calls of the code one after another: each gives the span the rules speak of. *)
Ltac take_calls Hr Ha :=
  repeat match goal with
  | |- context [amdgpu_span_valid ?s ?a ?f ?m ?n ?r] =>
      destruct (amdgpu_span_valid s a f m n r) as [?o |] eqn:?E; cbn [mbind option_bind andb];
      [| rewrite ?andb_false_r; reflexivity];
      let H := fresh in pose proof (call_elements s a f m n r _ Hr Ha E) as H; apply argument_span_of in E; subst
  end.

Lemma if_negb (x y : bool) : (if negb x then false else y) = x && y.
Proof. by destruct x. Qed.

(** A command without spans: the counts are tested twice. *)
Lemma no_spans (s : kb2_gpu_command_source) (attachment : bool) (k : Z) (fields : list (option kb2_gpu_span) -> bool) :
  match (if negb (so_span_count s =? 0) || negb (so_attachment_count s =? k) || negb attachment then None
         else Some ([], k)) with
  | None => false
  | Some (spans, attachment_count) =>
      if negb (fields spans) then false
      else (so_span_count s =? Z.of_nat (length (filter (fun span => is_Some span) spans))) &&
           (so_attachment_count s =? attachment_count) &&
           (so_argument_count s =? 1 + Z.of_nat (length (filter (fun span => is_Some span) spans)) + attachment_count)
  end = attachment && fields [] && (so_span_count s =? 0) && (so_attachment_count s =? k) && (so_argument_count s =? 1 + 0 + k).
Proof.
  destruct (so_span_count s =? 0) eqn:E1, (so_attachment_count s =? k) eqn:E2, attachment; cbn [negb orb andb];
    rewrite ?andb_false_r; try reflexivity.
  cbn. change (Z.of_nat 0) with 0. rewrite E1, E2. by destruct (fields []).
Qed.

Ltac no_spans_case s :=
  match goal with
  | |- context [if negb (amdgpu_attachment_valid _ _ _ _ _) then false else _] => fail 1
  | |- context [if negb ?fields then false else _] =>
      first
        [match goal with |- context [negb (amdgpu_attachment_valid s ?a ?c ?r ?o)] =>
           etransitivity; [refine (no_spans s (amdgpu_attachment_valid s a c r o) 1 (fun _ => fields)) |] end
        | etransitivity; [refine (no_spans s true 0 (fun _ => fields)) |]]
  end; cbv beta.

Lemma info_query_no_record query : amdgpu_info_query_record_valid query 0 = false.
Proof. unfold amdgpu_info_query_record_valid. by repeat case_match. Qed.

Lemma amdgpu_calls_spec s :
  references s -> arguments_ok s -> 1 <= so_command_id s <= 20 -> so_command_id s <> KB2_GPU_DRM_AMDGPU_COMMAND_CS ->
  match amdgpu_spans s with
  | None => false
  | Some (spans, attachment_count) =>
      let span_count := Z.of_nat (length (filter (fun span => is_Some span) spans)) in
      if negb (amdgpu_fields_valid s spans) then false
      else (so_span_count s =? span_count) && (so_attachment_count s =? attachment_count) &&
           (so_argument_count s =? 1 + span_count + attachment_count)
  end = calls_valid s.
Proof.
  intros Hr Ha Hid Hcs. unfold calls_valid.
  assert (Hin : so_command_id s ∈ seqZ 1 20) by (apply elem_of_seqZ; lia).
  change (seqZ 1 20) with [1;2;3;4;5;6;7;8;9;10;11;12;13;14;15;16;17;18;19;20] in Hin.
  repeat (apply elem_of_cons in Hin as [Hin | Hin]); [.. | by apply elem_of_nil in Hin].
  all: unfold amdgpu_spans, amdgpu_fields_valid, span_calls, attachment_call, rules_of, amdgpu_rules; cbn [List.find fst snd];
    rewrite Hin in *; match type of Hin with _ = ?v => decide_ids v end.
  all: try by destruct Hcs.
  all: unfold call_valid, spans_present; cbv zeta; cbn [forallb fmap list_fmap ca_argument ca_flags ca_minimum ca_maximum ca_records
    attachment_valid attachments_expected rule_holds snd].
  all: take_calls Hr Ha; unfold elements_at; cbn [nth].
  all: repeat match goal with H : match _ with _ => _ end = span_element_count _ _ |- _ => rewrite H end.
  all: try (rewrite if_negb, ?andb_true_r, ?andb_assoc; reflexivity).
  all: try (rewrite <- (orb_false_r (_ || negb (so_attachment_count s =? 0))); change false with (negb true) at 1).
  all: try no_spans_case s; try (change (Z.of_nat (length (filter is_Some []))) with 0; rewrite ?andb_true_r, ?andb_assoc; reflexivity).
  (* INFO *)
  destruct (argument_span s 2) as [p |]; cbn [mbind option_bind from_option];
    [| rewrite info_query_no_record; cbn [andb]; by rewrite !andb_false_r].
  change KB2_GPU_DRM_AMDGPU_RECORD_INFO_REQUEST_RESPONSE_RECORD_ID_OFFSET with 4.
  change KB2_GPU_DRM_AMDGPU_RECORD_INFO_REQUEST_RESPONSE_CAPACITY_OFFSET with 8.
  change KB2_GPU_DRM_AMDGPU_RECORD_INFO_REQUEST_QUERY_OFFSET with 0. rewrite (Z.leb_antisym _ (sp_length p)).
  destruct (_ <? sp_length p), (load_u32 _ 4 =? _), (load_u32 _ 8 =? _), (amdgpu_info_query_record_valid _ _); cbn [negb orb andb];
    try reflexivity.
  rewrite if_negb, ?andb_true_r, ?andb_assoc. reflexivity.
Qed.

(** * The code and the schema agree *)

Definition call_rows (id : Z) (c : span_call) : list kb2_gpu_span_contract :=
  List.filter (fun r => (sc_command_id r =? id) && (sc_argument_id r =? ca_argument c)) (ct_spans amdgpu_catalog).

(** The rows of a call are the records it accepts, with its direction, counts and sizes. *)
Definition call_agrees (id : Z) (c : span_call) : bool :=
  negb (bool_decide (call_rows id c = [])) && (2 <=? ca_argument c) &&
  forallb (fun record => negb (ca_records c record) || existsb (fun r => sc_record_id r =? record) (call_rows id c)) (seqZ 100 100) &&
  forallb (fun r =>
    ca_records c (sc_record_id r) && (direction_flags (sc_direction r) =? ca_flags c) &&
    (direction_rights (sc_direction r) =? (if ca_flags c =? KB2_GPU_ARGUMENT_FLAG_INPUT then KB2_GPU_SPAN_RIGHT_READ
                                           else KB2_GPU_SPAN_RIGHT_WRITE)) &&
    (sc_minimum r =? ca_minimum c) && (sc_maximum r =? ca_maximum c) &&
    (sc_record_size r =? amdgpu_record_size (sc_record_id r))) (call_rows id c).

(** The attachment of a command is its only row. *)
Definition attachment_agrees (id : Z) : bool :=
  let rows := List.filter (fun r => tc_command_id r =? id) (ct_attachments amdgpu_catalog) in
  match attachment_call id with
  | None => bool_decide (rows = [])
  | Some (class, role, ownership) =>
      bool_decide (span_calls id = []) &&
      match rows with
      | [r] => (tc_argument_id r =? 2) && (tc_object_class r =? class) && (tc_role r =? role) && (tc_ownership r =? ownership) &&
               (tc_optional r =? 0)
      | _ => false
      end
  end.

Definition request_agrees (id : Z) : bool :=
  match ct_requests amdgpu_catalog !! Z.to_nat (id - 1), kb2_gpu_amdgpu_request_contracts !! Z.to_nat (id - 1) with
  | Some r, Some c =>
      (rc_inline_record_id r =? ic_record_id c) && (rc_inline_size r =? ic_size c) && negb (ic_record_id c =? 0) &&
      (rc_span_capacity r =? Z.of_nat (length (span_calls id))) && (rc_attachment_capacity r =? attachments_expected (attachment_call id))
  | _, _ => false
  end.

Definition command_agrees (id : Z) : bool :=
  forallb (call_agrees id) (span_calls id) && bool_decide (NoDup (ca_argument <$> span_calls id)) &&
  forallb (fun r => negb (sc_command_id r =? id) || existsb (fun c => ca_argument c =? sc_argument_id r) (span_calls id))
    (ct_spans amdgpu_catalog) &&
  attachment_agrees id && request_agrees id.

Lemma schema_agrees id : 1 <= id <= 20 -> id <> KB2_GPU_DRM_AMDGPU_COMMAND_CS -> command_agrees id = true.
Proof.
  intros Hid Hcs.
  assert (H : forallb (fun id => (id =? KB2_GPU_DRM_AMDGPU_COMMAND_CS) || command_agrees id) (seqZ 1 20) = true) by (vm_compute; reflexivity).
  rewrite forallb_forall in H. specialize (H id). rewrite <- list_elem_of_In, elem_of_seqZ in H. specialize (H ltac:(lia)).
  apply Z.eqb_neq in Hcs. by rewrite Hcs in H.
Qed.

(** Every record a call accepts has a number of a record of the schema. *)
Lemma call_records_bound id c record : c ∈ span_calls id -> ca_records c record = true -> 100 <= record < 200.
Proof.
  unfold span_calls. cbv zeta. intros Hin. repeat case_match;
    repeat (apply elem_of_cons in Hin as [-> | Hin]; [cbn [ca_records] |]); try by apply elem_of_nil in Hin.
  all: unfold bo_list_record, info_record, handle_record, gem_op_record, fence_record, userq_mqd_record, timeline_record, userq_fence_record,
    gem_list_record, KB2_GPU_DRM_AMDGPU_RECORD_BO_LIST_ENTRY, KB2_GPU_DRM_AMDGPU_RECORD_SCALAR_U32,
    KB2_GPU_DRM_AMDGPU_RECORD_INFO_USERQ_METADATA, KB2_GPU_DRM_AMDGPU_RECORD_HANDLE_U32, KB2_GPU_DRM_AMDGPU_RECORD_GEM_CREATE_INFO,
    KB2_GPU_DRM_AMDGPU_RECORD_GEM_VM_ENTRY, KB2_GPU_DRM_AMDGPU_RECORD_FENCE, KB2_GPU_DRM_AMDGPU_RECORD_USERQ_MQD_GFX11,
    KB2_GPU_DRM_AMDGPU_RECORD_USERQ_MQD_COMPUTE_GFX11, KB2_GPU_DRM_AMDGPU_RECORD_TIMELINE_SYNCOBJ,
    KB2_GPU_DRM_AMDGPU_RECORD_USERQ_FENCE_INFO, KB2_GPU_DRM_AMDGPU_RECORD_GEM_LIST_HANDLES_ENTRY; lia.
Qed.

#[local] Opaque amdgpu_catalog seqZ.

Section Calls.
Context (s : kb2_gpu_command_source) (Href : references s) (Hargs : arguments_ok s)
  (Hat : Forall argument_typed (arguments_of s)) (Hid : 1 <= so_command_id s <= 20)
  (Hcs : so_command_id s <> KB2_GPU_DRM_AMDGPU_COMMAND_CS).

Notation id := (so_command_id s).
Notation calls := (span_calls id).
Notation attachment := (attachment_call id).

Lemma call_row c :
  c ∈ calls ->
  2 <= ca_argument c /\ call_rows id c <> [] /\
  (forall record, ca_records c record = true -> exists r, r ∈ call_rows id c /\ sc_record_id r = record) /\
  forall r, r ∈ ct_spans amdgpu_catalog -> sc_command_id r = id -> sc_argument_id r = ca_argument c ->
    ca_records c (sc_record_id r) = true /\ direction_flags (sc_direction r) = ca_flags c /\
    direction_rights (sc_direction r) = (if ca_flags c =? KB2_GPU_ARGUMENT_FLAG_INPUT then KB2_GPU_SPAN_RIGHT_READ
                                         else KB2_GPU_SPAN_RIGHT_WRITE) /\
    sc_minimum r = ca_minimum c /\ sc_maximum r = ca_maximum c /\ sc_record_size r = amdgpu_record_size (sc_record_id r).
Proof.
  intros Hc. pose proof (schema_agrees id Hid Hcs) as H. unfold command_agrees in H. rewrite !andb_true_iff in H.
  destruct H as [[[[H _] _] _] _]. rewrite forallb_forall in H.
  pose proof (H c (proj1 (list_elem_of_In _ _) Hc)) as Hag. unfold call_agrees in Hag.
  rewrite !andb_true_iff, negb_true_iff, bool_decide_eq_false, Z.leb_le, !forallb_forall in Hag. destruct Hag as [[[Hne Hge] Hrec] Hrows].
  split_and!; [done | done | |].
  - intros record E. pose proof (call_records_bound id c record Hc E) as Hb. specialize (Hrec record).
    rewrite <- list_elem_of_In, elem_of_seqZ, E in Hrec. specialize (Hrec ltac:(lia)). cbn [negb orb] in Hrec.
    apply existsb_exists in Hrec as (r & Hr%list_elem_of_In & Er%Z.eqb_eq). by exists r.
  - intros r Hr E1 E2. specialize (Hrows r). rewrite !andb_true_iff, !Z.eqb_eq in Hrows. assert (Hin : In r (call_rows id c)).
    { apply filter_In. split; [by apply list_elem_of_In |]. by rewrite E1, E2, !Z.eqb_refl. }
    specialize (Hrows Hin). tauto.
Qed.

Lemma call_rows_in c r : r ∈ call_rows id c -> r ∈ ct_spans amdgpu_catalog /\ sc_command_id r = id /\ sc_argument_id r = ca_argument c.
Proof.
  unfold call_rows. rewrite list_elem_of_In, filter_In, andb_true_iff, !Z.eqb_eq, <- list_elem_of_In. done.
Qed.

(** A call accepts an argument that is declared, or none if the minimum is zero. *)
Lemma call_valid_spec c :
  c ∈ calls ->
  call_valid s c = true <->
  match find_argument s (ca_argument c) with
  | None => ca_minimum c = 0
  | Some a => ar_kind a = KB2_GPU_ARGUMENT_SPAN /\ exists r, r ∈ ct_spans amdgpu_catalog /\ span_row_matches s a r
  end.
Proof.
  intros Hc. destruct (call_row c Hc) as (_ & _ & Hrec & Hrow). unfold call_valid, amdgpu_span_valid.
  destruct (find_argument s (ca_argument c)) as [a |] eqn:Hf; [| destruct (Z.eqb_spec (ca_minimum c) 0); done].
  apply find_argument_spec in Hf as [Ha Eid]; [| apply Hargs].
  assert (Hta : argument_typed a) by (rewrite Forall_forall in Hat; by apply Hat).
  rewrite <- (span_argument_spec s Href amdgpu_catalog amdgpu_catalog_wf a Hta). unfold span_argument_valid.
  pose proof (find_row_spec (ct_spans amdgpu_catalog) id (ar_argument_id a) (ar_record_schema_id a)) as Hfind.
  change (List.find _ _) with (find_span_contract (ct_spans amdgpu_catalog) id (ar_argument_id a) (ar_record_schema_id a)) in Hfind.
  cbn [row_command row_argument row_choice span_row] in Hfind. destruct (find_span_contract _ _ _ _) as [r |].
  - destruct (Hfind r) as [(Hr & E1 & E2 & E3) _]; [apply (catalog_parts _ amdgpu_catalog_wf) | done |].
    destruct (Hrow r Hr E1 ltac:(congruence)) as (Hp & <- & Hrt & <- & <- & Hsz). rewrite E3 in Hp, Hsz. rewrite <- Hrt, <- Hsz, Hp.
    destruct (catalog_parts _ amdgpu_catalog_wf) as (_ & _ & _ & Hdir). destruct (Hdir r Hr) as [Hd Hone].
    pose proof (direction_flags_nonzero _ Hd) as Hnz%Z.eqb_neq. rewrite Hnz, (proj2 (Z.eqb_neq (sc_record_size r) 0)) by lia.
    rewrite <- Z.eqb_eq. destruct (ar_kind a =? _), (ar_flags a =? _), (ar_count a <? _), (_ <? ar_count a), (U32_MAX <? _);
      cbn [negb orb]; try (split; [done | by intros []]).
    all: destruct (find_span _ _) as [p |]; [| split; [done | by intros []]].
    all: destruct (sp_flags p =? direction_flags (sc_direction r)), (sp_rights p =? direction_rights (sc_direction r)),
      (U64_MAX / sc_record_size r <? ar_count a), (sp_length p =? u64 (ar_count a * sc_record_size r)); cbn [negb orb];
      split; (done || by intros []).
  - replace (ca_records c (ar_record_schema_id a)) with false; [| symmetry].
    + cbn [negb]. rewrite !orb_true_r. split; [done | by intros []].
    + apply not_true_iff_false. intros (r & Hr & E)%Hrec. apply call_rows_in in Hr as (Hr & E1 & E2).
      destruct (Hfind r) as [_ Hn]; [apply (catalog_parts _ amdgpu_catalog_wf) |]. specialize (Hn ltac:(split_and!; congruence)). done.
Qed.

Lemma calls_distinct : NoDup (ca_argument <$> calls).
Proof.
  pose proof (schema_agrees id Hid Hcs) as H. unfold command_agrees in H. rewrite !andb_true_iff, bool_decide_eq_true in H. tauto.
Qed.

Lemma row_call r :
  r ∈ ct_spans amdgpu_catalog -> sc_command_id r = id -> exists c, c ∈ calls /\ ca_argument c = sc_argument_id r.
Proof.
  pose proof (schema_agrees id Hid Hcs) as H. unfold command_agrees in H. rewrite !andb_true_iff in H.
  destruct H as [[[_ H] _] _]. rewrite forallb_forall in H. intros Hr%list_elem_of_In%H E. rewrite E, Z.eqb_refl in Hr.
  apply existsb_exists in Hr as (c & Hc%list_elem_of_In & Ec%Z.eqb_eq). by exists c.
Qed.

(** The attachment row of the command, if it has one. *)
Lemma attachment_rows :
  match attachment with
  | None => forall r, r ∈ ct_attachments amdgpu_catalog -> tc_command_id r <> id
  | Some (class, role, ownership) =>
      calls = [] /\ exists r, r ∈ ct_attachments amdgpu_catalog /\ tc_command_id r = id /\ tc_argument_id r = 2 /\
        tc_object_class r = class /\ tc_role r = role /\ tc_ownership r = ownership /\ tc_optional r = 0 /\
        forall r', r' ∈ ct_attachments amdgpu_catalog -> tc_command_id r' = id -> r' = r
  end.
Proof.
  pose proof (schema_agrees id Hid Hcs) as H. unfold command_agrees in H. rewrite !andb_true_iff in H. destruct H as [[_ H] _].
  unfold attachment_agrees in H.
  assert (Hf : forall r, r ∈ List.filter (fun r => tc_command_id r =? id) (ct_attachments amdgpu_catalog) <->
    r ∈ ct_attachments amdgpu_catalog /\ tc_command_id r = id).
  { intros r. by rewrite !list_elem_of_In, filter_In, Z.eqb_eq. }
  destruct attachment as [[[class role] ownership] |].
  - rewrite andb_true_iff, bool_decide_eq_true in H. destruct H as [Hc H]. split; [done |].
    destruct (List.filter _ _) as [| r [|]]; [done | | done]. rewrite !andb_true_iff, !Z.eqb_eq in H. exists r.
    destruct (Hf r) as [[? ?] _]; [by left |]. split_and!; try tauto.
    intros r' Hr' E'. destruct (Hf r') as [_ Hin]. by specialize (Hin ltac:(done)) as ?%list_elem_of_singleton.
  - apply bool_decide_eq_true in H. intros r Hr E. destruct (Hf r) as [_ Hin]. specialize (Hin ltac:(done)). rewrite H in Hin.
    by apply elem_of_nil in Hin.
Qed.

Lemma request_rows :
  exists request contract, ct_requests amdgpu_catalog !! Z.to_nat (id - 1) = Some request /\
    kb2_gpu_amdgpu_request_contracts !! Z.to_nat (id - 1) = Some contract /\
    rc_inline_record_id request = ic_record_id contract /\ rc_inline_size request = ic_size contract /\
    rc_inline_record_id request <> 0 /\ rc_span_capacity request = Z.of_nat (length calls) /\
    rc_attachment_capacity request = attachments_expected attachment.
Proof.
  pose proof (schema_agrees id Hid Hcs) as H. unfold command_agrees in H. rewrite !andb_true_iff in H. destruct H as [_ H].
  unfold request_agrees in H. destruct (ct_requests amdgpu_catalog !! _) as [r |], (kb2_gpu_amdgpu_request_contracts !! _) as [c |]; try done.
  rewrite !andb_true_iff, negb_true_iff, Z.eqb_neq, !Z.eqb_eq in H. exists r, c. destruct_and! H. split_and!; congruence || done.
Qed.

(** The attachment the code asks for is a declared one. *)
Lemma attachment_call_valid call :
  attachment = Some call ->
  attachment_valid s attachment = true <->
  exists a, find_argument s 2 = Some a /\ ar_kind a = KB2_GPU_ARGUMENT_ATTACHMENT /\
    exists r, r ∈ ct_attachments amdgpu_catalog /\ attachment_row_matches s a r.
Proof.
  intros Ea. pose proof attachment_rows as Hrows. rewrite Ea in *. destruct call as [[class role] ownership].
  destruct Hrows as (_ & r & Hr & E1 & E2 & E3 & E4 & E5 & _ & Huniq). cbn [attachment_valid]. unfold amdgpu_attachment_valid.
  destruct (find_argument s 2) as [a |] eqn:Hf; [| split; [done | by intros (a & ? & _)]].
  apply find_argument_spec in Hf as [Hin Eid]; [| apply Hargs].
  pose proof (argument_attachment_spec s Href a (fun t => class = at_object_class t /\ at_role t = role /\ at_ownership t = ownership)) as Hat'.
  transitivity (ar_kind a = KB2_GPU_ARGUMENT_ATTACHMENT /\ attachment_row_matches s a r).
  - unfold attachment_row_matches. rewrite E1, E2, E3, E4, E5, Eid, <- Hat'.
    rewrite <- !Z.eqb_eq. destruct (ar_kind a =? _), (ar_flags a =? _); cbn [negb orb]; try (split; [done | naive_solver]).
    destruct (Z.ltb_spec U32_MAX (ar_value a)); [split; [done | intros (_ & _ & _ & _ & ? & _); lia] |].
    destruct (find_attachment _ _) as [t |]; [| split; [done | naive_solver]].
    rewrite !andb_true_iff, !Z.eqb_eq. split; [| naive_solver]. intros [[? ?] ?]. split_and!; try done; try lia. exists t. naive_solver.
  - split; [intros [? ?]; exists a; eauto |]. intros (a' & [= <-] & ? & r' & Hr' & Hm). split; [done |].
    pose proof Hm as (Ec & _). by rewrite <- (Huniq r' Hr' Ec).
Qed.

(** ** Counting the arguments *)

Definition present_ids : list Z := filter (fun i => is_Some (find_argument s i)) (ca_argument <$> calls).
Definition attachment_ids : list Z := if attachment then [2] else [].

Lemma present_span c :
  c ∈ calls -> call_valid s c = true -> is_Some (argument_span s (ca_argument c)) <-> is_Some (find_argument s (ca_argument c)).
Proof.
  intros Hc Hv. apply call_valid_spec in Hv; [| done]. unfold argument_span. destruct (find_argument s _) as [a |]; cbn; [| done].
  destruct Hv as (_ & r & _ & _ & _ & _ & _ & _ & p & Hp & E & _). split; [done | intros _]. exists p.
  by apply (find_span_spec (regions_of s)); [apply Href |].
Qed.

Lemma present_count :
  forallb (call_valid s) calls = true -> length (filter is_Some (spans_present s calls)) = length present_ids.
Proof.
  rewrite forallb_forall. intros Hv. assert (Hl : forall c, c ∈ calls ->
    is_Some (argument_span s (ca_argument c)) <-> is_Some (find_argument s (ca_argument c))).
  { intros c Hc. apply present_span; [done |]. by apply Hv, list_elem_of_In. }
  unfold present_ids, spans_present. clear Hv. induction calls as [|c l IH]; [done |]. cbn [fmap list_fmap]. rewrite !filter_cons.
  specialize (IH ltac:(intros; apply Hl; by right)). specialize (Hl c ltac:(left)).
  repeat case_decide; cbn [length]; (lia || tauto).
Qed.

(** Every argument but the inline record is one of the call's or the attachment. *)
Definition accounted : Prop :=
  Forall (fun a => ar_argument_id a <> 1 -> ar_argument_id a ∈ ca_argument <$> calls \/ ar_argument_id a ∈ attachment_ids) (arguments_of s).

Context (Hcalls : forallb (call_valid s) calls = true) (Hatt : attachment_valid s attachment = true).

Lemma found a : a ∈ arguments_of s -> find_argument s (ar_argument_id a) = Some a.
Proof. intros Ha. by apply find_argument_spec; [apply Hargs |]. Qed.

Lemma called_declared a :
  a ∈ arguments_of s -> ar_argument_id a ∈ ca_argument <$> calls ->
  ar_kind a = KB2_GPU_ARGUMENT_SPAN /\ exists r, r ∈ ct_spans amdgpu_catalog /\ span_row_matches s a r.
Proof.
  intros Ha (c & E & Hc)%list_elem_of_fmap. rewrite forallb_forall in Hcalls.
  pose proof (Hcalls c (proj1 (list_elem_of_In _ _) Hc)) as Hv. apply call_valid_spec in Hv; [| done].
  by rewrite <- E, (found a Ha) in Hv.
Qed.

Lemma attached_declared a :
  a ∈ arguments_of s -> ar_argument_id a ∈ attachment_ids ->
  ar_kind a = KB2_GPU_ARGUMENT_ATTACHMENT /\ exists r, r ∈ ct_attachments amdgpu_catalog /\ attachment_row_matches s a r.
Proof.
  unfold attachment_ids. destruct attachment as [call |] eqn:E; [| by intros _ ?%elem_of_nil].
  intros Ha Ei%list_elem_of_singleton. rewrite <- E in Hatt. apply (attachment_call_valid call) in Hatt as (b & Hb & ?); [| done].
  rewrite <- Ei, (found a Ha) in Hb. by simplify_eq.
Qed.

Lemma declared_accounted :
  Forall (fun a => ar_argument_id a <> 1 -> declared amdgpu_catalog s a) (arguments_of s) <-> accounted.
Proof.
  unfold accounted. rewrite !Forall_forall. split; intros H a Ha Hn; destruct (H a Ha Hn) as [Hd | Hd].
  - left. destruct Hd as (_ & r & Hr & Ec & Ei & _). destruct (row_call r Hr Ec) as (c & Hc & E). rewrite <- Ei, <- E.
    by apply list_elem_of_fmap_2.
  - right. destruct Hd as (_ & r & Hr & Ec & Ei & _). pose proof attachment_rows as Hrows. unfold attachment_ids.
    destruct attachment as [[[class role] ownership] |]; [| by destruct (Hrows r)].
    destruct Hrows as (_ & r' & _ & _ & E2 & _ & _ & _ & _ & Hu). rewrite <- Ei, (Hu r Hr Ec), E2. by left.
  - left. by apply called_declared.
  - right. by apply attached_declared.
Qed.

Context (inline : kb2_gpu_argument) (Hin : inline ∈ arguments_of s) (Eone : ar_argument_id inline = 1)
  (Ekind : ar_kind inline = KB2_GPU_ARGUMENT_INLINE).

Lemma not_inline a : a ∈ arguments_of s -> ar_kind a <> KB2_GPU_ARGUMENT_INLINE -> ar_argument_id a <> 1.
Proof.
  intros Ha Hk E. apply Hk. rewrite <- Ekind. f_equal. pose proof (found a Ha) as Hf. rewrite E, <- Eone, (found inline Hin) in Hf.
  by simplify_eq.
Qed.

Lemma ids_of_kind kind ids :
  NoDup ids -> (forall a, a ∈ arguments_of s -> ar_kind a = kind <-> ar_argument_id a ∈ ids) ->
  (forall i, i ∈ ids -> is_Some (find_argument s i)) -> length (values s kind) = length ids.
Proof.
  intros Hn Hk Hp. unfold values. rewrite length_fmap, <- (length_fmap ar_argument_id). apply Permutation_length, NoDup_Permutation; [| done |].
  - eapply sublist_NoDup; [apply (increasing_keys ar_argument_id), Hargs |]. apply fmap_sublist, sublist_filter.
  - intros i. rewrite list_elem_of_fmap. setoid_rewrite list_elem_of_filter. split.
    + intros (a & -> & Ek & Ha). by apply Hk.
    + intros Hi. destruct (Hp i Hi) as [a Hf]. apply find_argument_spec in Hf as [Ha <-]; [| apply Hargs]. exists a.
      rewrite Hk by done. done.
Qed.

Lemma kind_counts :
  accounted -> length (values s KB2_GPU_ARGUMENT_SPAN) = length present_ids /\
  length (values s KB2_GPU_ARGUMENT_ATTACHMENT) = length attachment_ids.
Proof.
  unfold accounted. rewrite Forall_forall. intros Hacc. split; apply ids_of_kind.
  - apply NoDup_filter, calls_distinct.
  - intros a Ha. unfold present_ids. rewrite list_elem_of_filter. split.
    + intros Ek. assert (Hn : ar_argument_id a <> 1) by (apply not_inline; [done | by rewrite Ek]).
      destruct (Hacc a Ha Hn) as [H | [Ek' _]%attached_declared]; [| by rewrite Ek in Ek' | done].
      split; [rewrite (found a Ha); done | done].
    + intros [_ Hc]. by apply called_declared.
  - intros i [Hp _]%list_elem_of_filter. done.
  - unfold attachment_ids. destruct attachment; [apply NoDup_singleton | constructor].
  - intros a Ha. split; [| by intros; apply attached_declared].
    intros Ek. assert (Hn : ar_argument_id a <> 1) by (apply not_inline; [done | by rewrite Ek]).
    destruct (Hacc a Ha Hn) as [[Ek' _]%called_declared | H]; [by rewrite Ek in Ek' | done | done].
  - unfold attachment_ids. destruct attachment as [call |] eqn:E; [| by intros i ?%elem_of_nil]. intros i ->%list_elem_of_singleton.
    rewrite <- E in Hatt. apply (attachment_call_valid call) in Hatt as (b & Hb & _); [| done]. by rewrite Hb.
Qed.

(** There is no room for other arguments. *)
Lemma counted_accounted :
  (length (arguments_of s) <= 1 + length present_ids + length attachment_ids)%nat -> accounted.
Proof.
  intros Hlen. set (ids := 1 :: present_ids ++ attachment_ids).
  assert (Hge : forall i, i ∈ present_ids -> 2 <= i /\ i ∈ ca_argument <$> calls).
  { intros i [_ Hi]%list_elem_of_filter. split; [| done]. apply list_elem_of_fmap in Hi as (c & -> & Hc). by apply call_row. }
  assert (Hnone : attachment_ids <> [] -> present_ids = []).
  { unfold attachment_ids, present_ids. pose proof attachment_rows as Hrows. destruct attachment as [[[? ?] ?] |]; [| done].
    destruct Hrows as [-> _]. done. }
  assert (Hsub : incl (ar_argument_id <$> arguments_of s) ids).
  { apply NoDup_length_incl.
    - apply NoDup_ListNoDup. unfold ids. apply NoDup_cons. split.
      + intros [Hi%Hge | Hi]%elem_of_app; [lia |]. unfold attachment_ids in Hi. destruct attachment; [| by apply elem_of_nil in Hi].
        by apply list_elem_of_singleton in Hi.
      + apply NoDup_app. split_and!.
        * apply NoDup_filter, calls_distinct.
        * intros i Hi Hi'. rewrite Hnone in Hi; [by apply elem_of_nil in Hi |]. intros E. rewrite E in Hi'. by apply elem_of_nil in Hi'.
        * unfold attachment_ids. destruct attachment; [apply NoDup_singleton | constructor].
    - rewrite length_fmap. unfold ids. cbn [length]. rewrite length_app. lia.
    - intros i. rewrite <- !list_elem_of_In. assert (Hel : is_Some (find_argument s i) -> i ∈ ar_argument_id <$> arguments_of s).
      { intros [a [Ha <-]%find_argument_spec]; [by apply list_elem_of_fmap_2 | apply Hargs]. }
      intros [-> | [[Hi _]%list_elem_of_filter | Hi]%elem_of_app]%elem_of_cons; apply Hel; [| done |].
      + rewrite <- Eone, (found inline Hin). done.
      + unfold attachment_ids in Hi. destruct attachment as [call |] eqn:E; [| by apply elem_of_nil in Hi].
        apply list_elem_of_singleton in Hi as ->. rewrite <- E in Hatt.
        apply (attachment_call_valid call) in Hatt as (b & Hb & _); [| done]. by rewrite Hb. }
  apply Forall_forall. intros a Ha Hn. specialize (Hsub (ar_argument_id a)). rewrite <- !list_elem_of_In in Hsub.
  specialize (Hsub (list_elem_of_fmap_2 _ _ _ Ha)). apply elem_of_cons in Hsub as [? | [Hi%Hge | Hi]%elem_of_app]; [done | |].
  - left. apply Hi.
  - by right.
Qed.
End Calls.

Section Request.
Context (s : kb2_gpu_command_source) (Href : references s) (Hargs : arguments_ok s)
  (Hat : Forall argument_typed (arguments_of s)) (Hu : is_u32 (so_command_id s))
  (Hac : so_argument_count s = Z.of_nat (length (arguments_of s)))
  (Hsc : so_span_count s = Z.of_nat (length (spans_of s)))
  (Htc : so_attachment_count s = Z.of_nat (length (attachments_of s))).

Notation id := (so_command_id s).

Lemma amdgpu_request_count : length (ct_requests amdgpu_catalog) = 20%nat.
Proof. vm_compute. reflexivity. Qed.

Lemma attachment_ids_length : Z.of_nat (length (attachment_ids s)) = attachments_expected (attachment_call id).
Proof. unfold attachment_ids, attachments_expected. by destruct (attachment_call id). Qed.

(** The calls pass on a request of the declared shape. *)
Lemma shape_calls request :
  1 <= id <= 20 -> id <> KB2_GPU_DRM_AMDGPU_COMMAND_CS -> request_shape amdgpu_catalog s request ->
  forallb (call_valid s) (span_calls id) = true /\ attachment_valid s (attachment_call id) = true.
Proof.
  intros Hid Hcs [_ _ _ _ Hd _ _ Hcs' Hct]. rewrite Forall_forall in Hd.
  assert (Hno : forall a i, find_argument s i = Some a -> 2 <= i -> a ∈ arguments_of s /\ ar_argument_id a = i /\ declared amdgpu_catalog s a).
  { intros a i [Ha E]%find_argument_spec Hi; [| apply Hargs]. split_and!; [done | done |]. apply Hd; [done | lia]. }
  pose proof (attachment_rows s Hid Hcs) as Hrows. split.
  - apply forallb_forall. intros c Hc%list_elem_of_In. apply (call_valid_spec s Href Hargs Hat Hid Hcs c Hc).
    destruct (call_row s Hid Hcs c Hc) as (Hge & Hne & _ & Hrow). destruct (find_argument s (ca_argument c)) as [a |] eqn:Hf.
    + destruct (Hno a _ Hf Hge) as (_ & _ & [? | (_ & r & Hr & Ec & _)]); [done |]. exfalso.
      destruct (attachment_call id) as [[[? ?] ?] |]; [| by apply (Hrows r)]. destruct Hrows as [E _]. rewrite E in Hc. by apply elem_of_nil in Hc.
    + destruct (call_rows id c) as [| r l] eqn:El; [done |]. destruct (call_rows_in s c r) as (Hr & Ec & Ei); [rewrite El; left |].
      destruct (Hrow r Hr Ec Ei) as (_ & _ & _ & Em & _). destruct (Z.eq_dec (ca_minimum c) 0) as [| Hz]; [done |]. exfalso.
      rewrite <- Em in Hz. apply Z.eqb_neq in Hz. destruct (Hcs' r Hr Ec) as [a Ha]; [cbn; by rewrite Hz |].
      cbn in Ha. rewrite Ei in Ha. congruence.
  - destruct (attachment_call id) as [call |] eqn:E; [| done]. rewrite <- E.
    apply (attachment_call_valid s Href Hargs Hid Hcs call E). destruct call as [[class role] ownership].
    destruct Hrows as (Ecalls & r & Hr & Ec & Ei & _ & _ & _ & Eo & _).
    destruct (Hct r Hr Ec) as [a Ha]; [cbn; by rewrite Eo |]. cbn in Ha. rewrite Ei in Ha. exists a. split; [done |].
    destruct (Hno a 2 Ha ltac:(lia)) as (_ & _ & [(_ & r' & Hr' & Ec' & _) | ?]); [| done]. exfalso.
    destruct (row_call s Hid Hcs r' Hr' Ec') as (c & Hc & _). rewrite Ecalls in Hc. by apply elem_of_nil in Hc.
Qed.

(** An argument that a call found is not missing. *)
Lemma calls_complete :
  1 <= id <= 20 -> id <> KB2_GPU_DRM_AMDGPU_COMMAND_CS -> forallb (call_valid s) (span_calls id) = true ->
  attachment_valid s (attachment_call id) = true ->
  complete s (ct_spans amdgpu_catalog) /\ complete s (ct_attachments amdgpu_catalog).
Proof.
  intros Hid Hcs Hv Hatt. split; intros r Hr Ec Hn; cbn in Ec, Hn |- *.
  - destruct (row_call s Hid Hcs r Hr Ec) as (c & Hc & Ei). destruct (call_row s Hid Hcs c Hc) as (_ & _ & _ & Hrow).
    destruct (Hrow r Hr Ec ltac:(done)) as (_ & _ & _ & Em & _). rewrite forallb_forall in Hv.
    pose proof (Hv c (proj1 (list_elem_of_In _ _) Hc)) as Hvc.
    apply (call_valid_spec s Href Hargs Hat Hid Hcs c Hc) in Hvc. rewrite Ei in Hvc.
    destruct (find_argument s _); [done |]. by rewrite Em, Hvc in Hn.
  - pose proof (attachment_rows s Hid Hcs) as Hrows. destruct (attachment_call id) as [call |] eqn:E; [| by apply Hrows in Ec].
    rewrite <- E in Hatt. apply (attachment_call_valid s Href Hargs Hid Hcs call E) in Hatt as (a & Ha & _).
    destruct call as [[? ?] ?]. destruct Hrows as (_ & r' & _ & _ & Ei & _ & _ & _ & _ & Hu'). by rewrite (Hu' r Hr Ec), Ei, Ha.
Qed.

Lemma calls_shape_spec request inline :
  1 <= id <= 20 -> id <> KB2_GPU_DRM_AMDGPU_COMMAND_CS ->
  ct_requests amdgpu_catalog !! Z.to_nat (id - 1) = Some request ->
  rc_inline_record_id request <> 0 -> rc_span_capacity request = Z.of_nat (length (span_calls id)) ->
  rc_attachment_capacity request = attachments_expected (attachment_call id) ->
  inline ∈ arguments_of s -> inline_argument s (rc_inline_record_id request) (rc_inline_size request) inline ->
  calls_valid s = true <-> request_shape amdgpu_catalog s request /\ forallb (rule_holds s) (rules_of amdgpu_rules id) = true.
Proof.
  intros Hid Hcs Hreq Hrec Hcap Hcap' Hin Hinl. pose proof Hinl as (Eone & Ekind & _).
  unfold calls_valid. rewrite !andb_true_iff, !Z.eqb_eq. split.
  - intros [[[[[Hv Hatt] Hrules] Esc] Eac] Earg]. split; [| done].
    rewrite (present_count s Href Hargs Hat Hid Hcs Hv), <- attachment_ids_length in *.
    assert (Hacc : accounted s) by (eapply (counted_accounted s); eauto; lia).
    destruct (kind_counts s Href Hargs Hat Hid Hcs Hv Hatt inline Hin Eone Ekind Hacc) as [En Ek].
    destruct (calls_complete Hid Hcs Hv Hatt) as [Hcs' Hct'].
    assert (Hle : (length (present_ids s) <= length (span_calls id))%nat).
    { unfold present_ids. rewrite <- (length_fmap ca_argument (span_calls id)). apply length_filter. }
    split; try done.
    + apply request_lookup; [apply amdgpu_catalog_wf | lia | lia | done].
    + lia.
    + lia.
    + apply Z.eqb_neq in Hrec. rewrite Hrec. by exists inline.
    + apply declared_accounted; done.
    + apply span_count_once; try done. lia.
    + apply attachment_count_once; try done. lia.
  - intros [Hsh Hrules]. destruct (shape_calls request Hid Hcs Hsh) as [Hv Hatt]. pose proof Hsh as [_ _ _ Hi Hd Hs1 Ht1 _ _].
    apply (declared_accounted s Href Hargs Hat Hid Hcs Hv Hatt) in Hd as Hacc.
    destruct (kind_counts s Href Hargs Hat Hid Hcs Hv Hatt inline Hin Eone Ekind Hacc) as [En Ek].
    apply span_count_once in Hs1; [| done | done | done]. apply attachment_count_once in Ht1; [| done | done | done].
    rewrite (present_count s Href Hargs Hat Hid Hcs Hv), <- attachment_ids_length.
    pose proof (declared_inline s Hargs amdgpu_catalog request Hi) as Hdi. apply Hdi in Hd.
    pose proof (declared_length s amdgpu_catalog _ _ Hd) as Hlen. rewrite (argument_total s Hargs request Hi) in Hlen.
    rewrite !(count_values s Hargs request _ Hi) in Hlen by done. apply Z.eqb_neq in Hrec. rewrite Hrec in Hlen. cbn [negb] in Hlen.
    split_and!; try done; lia.
Qed.

(** For every command but the submission of chunks, the hand-written check is the
    schema's. *)
Lemma amdgpu_request_spec :
  id <> KB2_GPU_DRM_AMDGPU_COMMAND_CS ->
  amdgpu_request_valid s = true <->
  (exists request, request_shape amdgpu_catalog s request) /\ forallb (rule_holds s) (rules_of amdgpu_rules id) = true.
Proof.
  intros Hcs. unfold amdgpu_request_valid. change (Z.of_nat (length kb2_gpu_amdgpu_request_contracts)) with 20.
  assert (Hrange : (exists request, request_shape amdgpu_catalog s request) -> 1 <= id <= 20).
  { intros (r & [[[k Hk]%list_elem_of_lookup E] _ _ _ _ _ _ _ _]).
    rewrite (numbered_lookup 1 _ _ _ (proj1 (catalog_parts _ amdgpu_catalog_wf)) Hk) in E.
    apply lookup_lt_Some in Hk. rewrite amdgpu_request_count in Hk. lia. }
  destruct (Z.eqb_spec id 0), (Z.ltb_spec 20 id); cbn [orb]; try (split; [done | intros [Hsh _]; apply Hrange in Hsh; lia]).
  assert (Hid : 1 <= id <= 20) by (unfold is_u32 in Hu; lia).
  destruct (request_rows s Hid Hcs) as (request & contract & Hreq & -> & Er & Es & Hz & Hcap & Hcap').
  change KB2_GPU_DRM_AMDGPU_INLINE_ARGUMENT_ID with 1. rewrite <- Er, <- Es.
  apply Z.eqb_neq in Hcs as Hcs'. pose proof (amdgpu_calls_spec s Href Hargs Hid Hcs) as Hcalls. cbv zeta in Hcalls. rewrite Hcs', Hcalls.
  pose proof (inline_argument_matches_spec s Hargs (rc_inline_record_id request) (rc_inline_size request)) as Hinl.
  assert (Huniq : forall r, request_shape amdgpu_catalog s r -> r = request).
  { intros r [Hr _ _ _ _ _ _ _ _]. apply (request_lookup amdgpu_catalog amdgpu_catalog_wf) in Hr; [| lia | lia]. congruence. }
  destruct (inline_argument_matches _ _ _ _); cbn [negb].
  - destruct Hinl as [Hinl _]. destruct (Hinl eq_refl) as (inline & Hin & Hi).
    rewrite (calls_shape_spec request inline Hid Hcs Hreq Hz Hcap Hcap' Hin Hi). split; [naive_solver |].
    intros [(r & Hr) ?]. by rewrite (Huniq r Hr) in Hr.
  - split; [done |]. intros [(r & Hr) _]. rewrite (Huniq r Hr) in Hr. destruct Hr as [_ _ _ Hi _ _ _ _ _].
    apply Z.eqb_neq in Hz. rewrite Hz in Hi. by apply Hinl in Hi.
Qed.
End Request.

(** * The submission of chunks

    The schema declares the chunks as one argument whose rows are the kinds of chunk
    and whose count is the number of chunks; each chunk is an argument of its own, and
    the inline record holds their number. *)

Definition chunk_ok (s : kb2_gpu_command_source) (i : nat) (a : kb2_gpu_argument) : Prop :=
  ar_argument_id a = Z.of_nat i + 2 /\ ar_kind a = KB2_GPU_ARGUMENT_SPAN /\ ar_flags a = KB2_GPU_ARGUMENT_FLAG_INPUT /\
  1 <= ar_count a <= 65536 /\
  exists r, r ∈ ct_spans amdgpu_catalog /\ sc_command_id r = KB2_GPU_DRM_AMDGPU_COMMAND_CS /\ sc_record_id r = ar_record_schema_id a /\
  exists p, p ∈ spans_of s /\ sp_span_id p = ar_value a /\ sp_flags p = KB2_GPU_SPAN_FLAG_INPUT /\
    sp_rights p = KB2_GPU_SPAN_RIGHT_READ /\ sp_length p = ar_count a * sc_record_size r.

Record chunks_shape (s : kb2_gpu_command_source) : Prop := {
  ch_arguments : exists inline chunks, arguments_of s = inline :: chunks /\
    inline_argument s KB2_GPU_DRM_AMDGPU_COMMAND_CS_REQUEST_INLINE_RECORD KB2_GPU_DRM_AMDGPU_RECORD_CS_REQUEST_SIZE inline /\
    length chunks = length (spans_of s) /\ forall i a, chunks !! i = Some a -> chunk_ok s i a;
  ch_count : 1 <= so_span_count s <= 64;
  ch_attachments : so_attachment_count s = 0;
  ch_recorded : load_u32 (data_of s) 8 = so_span_count s;
}.

Definition chunk_rows_agree : bool :=
  let rows := List.filter (fun r => sc_command_id r =? KB2_GPU_DRM_AMDGPU_COMMAND_CS) (ct_spans amdgpu_catalog) in
  forallb (fun record => negb (cs_record record) || existsb (fun r => sc_record_id r =? record) rows) (seqZ 100 100) &&
  forallb (fun r => cs_record (sc_record_id r) && (sc_record_size r =? amdgpu_record_size (sc_record_id r)) && (1 <=? sc_record_size r)) rows.

Lemma chunk_rows :
  (forall record, cs_record record = true -> exists r, r ∈ ct_spans amdgpu_catalog /\
     sc_command_id r = KB2_GPU_DRM_AMDGPU_COMMAND_CS /\ sc_record_id r = record) /\
  forall r, r ∈ ct_spans amdgpu_catalog -> sc_command_id r = KB2_GPU_DRM_AMDGPU_COMMAND_CS ->
    cs_record (sc_record_id r) = true /\ sc_record_size r = amdgpu_record_size (sc_record_id r) /\ 1 <= sc_record_size r.
Proof.
  assert (H : chunk_rows_agree = true) by (vm_compute; reflexivity). unfold chunk_rows_agree in H. cbv zeta in H.
  rewrite andb_true_iff, !forallb_forall in H. destruct H as [Hrec Hrows].
  assert (Hf : forall r, In r (List.filter (fun r => sc_command_id r =? KB2_GPU_DRM_AMDGPU_COMMAND_CS) (ct_spans amdgpu_catalog)) <->
    r ∈ ct_spans amdgpu_catalog /\ sc_command_id r = KB2_GPU_DRM_AMDGPU_COMMAND_CS).
  { intros r. by rewrite list_elem_of_In, filter_In, Z.eqb_eq. }
  split.
  - intros record E. specialize (Hrec record). rewrite <- list_elem_of_In, elem_of_seqZ, E in Hrec. cbn [negb orb] in Hrec.
    destruct (proj1 (existsb_exists _ _) (Hrec ltac:(unfold cs_record, KB2_GPU_DRM_AMDGPU_RECORD_CS_CHUNK_IB,
      KB2_GPU_DRM_AMDGPU_RECORD_CS_CHUNK_GFX_SHADOW in E; lia))) as (r & Hr%Hf & Er%Z.eqb_eq). exists r. tauto.
  - intros r Hr E. specialize (Hrows r (proj2 (Hf r) (conj Hr E))). rewrite !andb_true_iff, Z.eqb_eq, Z.leb_le in Hrows. tauto.
Qed.

Section Chunks.
Context (s : kb2_gpu_command_source) (Href : references s) (Hargs : arguments_ok s)
  (Hat : Forall argument_typed (arguments_of s))
  (Hac : so_argument_count s = Z.of_nat (length (arguments_of s)))
  (Hsc : so_span_count s = Z.of_nat (length (spans_of s)))
  (Htc : so_attachment_count s = Z.of_nat (length (attachments_of s))).

Lemma cs_chunk_spec i a : argument_typed a -> cs_chunk_valid s (Z.of_nat i) a = true <-> chunk_ok s i a.
Proof.
  intros Ha. destruct chunk_rows as [Hrec Hrow]. unfold cs_chunk_valid, chunk_ok. cbv zeta.
  transitivity (ar_argument_id a = Z.of_nat i + 2 /\ ar_kind a = KB2_GPU_ARGUMENT_SPAN /\ ar_flags a = KB2_GPU_ARGUMENT_FLAG_INPUT /\
    1 <= ar_count a <= 65536 /\ cs_record (ar_record_schema_id a) = true /\
    exists p, p ∈ spans_of s /\ sp_span_id p = ar_value a /\ sp_flags p = KB2_GPU_SPAN_FLAG_INPUT /\
      sp_rights p = KB2_GPU_SPAN_RIGHT_READ /\ sp_length p = ar_count a * amdgpu_record_size (ar_record_schema_id a)).
  2: { split.
       - intros (? & ? & ? & ? & (r & Hr & Ec & <-)%Hrec & Hp). split_and!; try done; try lia. exists r. split_and!; try done.
         by destruct (Hrow r Hr Ec) as (_ & -> & _).
       - intros (? & ? & ? & ? & r & Hr & Ec & <- & Hp). destruct (Hrow r Hr Ec) as (? & <- & _). split_and!; try done; lia. }
  rewrite <- (argument_span_spec s Href). rewrite <- !Z.eqb_eq.
  change KB2_GPU_DRM_AMDGPU_COMMAND_CS_REQUEST_SPAN_CHUNKS_ELEMENT_MINIMUM with 1.
  change KB2_GPU_DRM_AMDGPU_COMMAND_CS_REQUEST_SPAN_CHUNKS_ELEMENT_MAXIMUM with 65536.
  destruct (ar_argument_id a =? _), (ar_kind a =? _), (ar_flags a =? _); cbn [negb orb]; try (split; [done | naive_solver]).
  destruct (Z.ltb_spec (ar_count a) 1), (Z.ltb_spec 65536 (ar_count a)); cbn [orb]; try (split; [done | intuition lia]).
  destruct (cs_record _) eqn:Ecs; cbn [negb orb]; [| split; [done | naive_solver]].
  destruct (Z.ltb_spec U32_MAX (ar_value a)); [split; [done | intuition lia] |].
  destruct (find_span _ _) as [p |] eqn:Hf; [| split; [done | naive_solver]].
  apply (find_span_spec (regions_of s)) in Hf as [Hp _]; [| apply Href].
  assert (Hpt : span_typed p) by (pose proof (rf_span_types s Href) as Ht; rewrite Forall_forall in Ht; by apply Ht).
  destruct (Hrec _ Ecs) as (r & Hr & Ec & Er). destruct (Hrow r Hr Ec) as (_ & Esz & Hge). rewrite Er in Esz. rewrite <- Esz.
  rewrite (proj2 (Z.eqb_neq (sc_record_size r) 0)) by lia. cbn [orb].
  pose proof (span_length_spec p a (sc_record_size r) Hpt Ha Hge) as Hl. rewrite <- orb_assoc, negb_true_iff, orb_false_iff, Hl.
  rewrite orb_false_iff, !negb_false_iff, !Z.eqb_eq. split; [| naive_solver]. intros [[? ?] ?]. split_and!; try done; try lia. eauto.
Qed.

Lemma cs_chunks_spec k l :
  Forall argument_typed l ->
  cs_chunks_valid s (Z.of_nat k) l = true <-> forall i a, l !! i = Some a -> chunk_ok s (k + i) a.
Proof.
  intros Hl. revert k. induction Hl as [|a l Ha _ IH]; intros k; cbn [cs_chunks_valid]; [done |].
  rewrite andb_true_iff, cs_chunk_spec by done. replace (Z.of_nat k + 1) with (Z.of_nat (S k)) by lia. rewrite IH. split.
  - intros [H1 H2] [|i] b E; cbn in E; [injection E as <-; by rewrite Nat.add_0_r |]. rewrite Nat.add_succ_r. by apply (H2 i b).
  - intros H. split; [specialize (H 0%nat a eq_refl); by rewrite Nat.add_0_r in H |]. intros i b E.
    specialize (H (S i) b E). by rewrite Nat.add_succ_r in H.
Qed.

(** The inline record is the first argument: the ids increase from 1. *)
Lemma inline_first record size :
  (exists a, a ∈ arguments_of s /\ inline_argument s record size a) ->
  exists inline chunks, arguments_of s = inline :: chunks /\ inline_argument s record size inline.
Proof.
  intros (a & Ha & Hi). pose proof (ao_increasing s Hargs) as Hinc. destruct (arguments_of s) as [|b l]; [by apply elem_of_nil in Ha |].
  exists b, l. split; [done |]. cbn in Hinc. destruct Hinc as [Hb Hl]. apply elem_of_cons in Ha as [-> | Ha]; [done |].
  pose proof (increasing_above _ _ _ Hl (list_elem_of_fmap_2 ar_argument_id _ _ Ha)) as Hlt. destruct Hi as [E _]. lia.
Qed.

Lemma amdgpu_chunks_spec :
  so_command_id s = KB2_GPU_DRM_AMDGPU_COMMAND_CS -> amdgpu_request_valid s = true <-> chunks_shape s.
Proof.
  intros Hcmd. unfold amdgpu_request_valid. rewrite Hcmd.
  change (kb2_gpu_amdgpu_request_contracts !! Z.to_nat (KB2_GPU_DRM_AMDGPU_COMMAND_CS - 1)) with
    (Some (mkInlineContract KB2_GPU_DRM_AMDGPU_COMMAND_CS_REQUEST_INLINE_RECORD KB2_GPU_DRM_AMDGPU_RECORD_CS_REQUEST_SIZE)).
  change (KB2_GPU_DRM_AMDGPU_COMMAND_CS =? 0) with false. rewrite Z.eqb_refl.
  change (Z.of_nat (length kb2_gpu_amdgpu_request_contracts) <? KB2_GPU_DRM_AMDGPU_COMMAND_CS) with false.
  change KB2_GPU_DRM_AMDGPU_INLINE_ARGUMENT_ID with 1. cbn [orb ic_record_id ic_size].
  pose proof (inline_argument_matches_spec s Hargs KB2_GPU_DRM_AMDGPU_COMMAND_CS_REQUEST_INLINE_RECORD
    KB2_GPU_DRM_AMDGPU_RECORD_CS_REQUEST_SIZE) as Hinl.
  destruct (inline_argument_matches _ _ _ _); cbn [negb].
  2: { split; [done |]. intros [(a & l & E & Hi & _) _ _ _]. apply Hinl. exists a. rewrite E. split; [left | done]. }
  destruct Hinl as [Hinl _]. destruct (inline_first _ _ (Hinl eq_refl)) as (a & l & E & Hi).
  assert (Hl : Forall argument_typed l) by (rewrite E in Hat; by apply Forall_cons in Hat as [_ ?]).
  unfold amdgpu_cs_spans_valid. rewrite Hac, E. cbn [length drop].
  change KB2_GPU_DRM_AMDGPU_COMMAND_CS_REQUEST_SPAN_CHUNKS_MINIMUM with 1.
  change KB2_GPU_DRM_AMDGPU_COMMAND_CS_REQUEST_SPAN_CHUNKS_MAXIMUM with 64.
  change KB2_GPU_DRM_AMDGPU_RECORD_CS_REQUEST_CHUNK_COUNT_OFFSET with 8.
  assert (Hshape : chunks_shape s <-> length l = length (spans_of s) /\ (forall i a, l !! i = Some a -> chunk_ok s i a) /\
    1 <= so_span_count s <= 64 /\ so_attachment_count s = 0 /\ load_u32 (data_of s) 8 = so_span_count s).
  { split.
    - intros [(a' & l' & E' & _ & ? & ?) ? ? ?]. rewrite E in E'. by simplify_eq.
    - intros (? & ? & ? & ? & ?). split; try done. by exists a, l. }
  rewrite Hshape, Hsc. pose proof (cs_chunks_spec 0 l Hl) as Hch. cbn in Hch.
  destruct (Z.ltb_spec (Z.of_nat (length (spans_of s))) 1), (Z.ltb_spec 64 (Z.of_nat (length (spans_of s)))),
    (Z.eqb_spec (Z.of_nat (S (length l))) (Z.of_nat (length (spans_of s)) + 1)), (Z.eqb_spec (so_attachment_count s) 0);
    cbn [negb orb]; try (split; [done | intuition lia]).
  rewrite drop_0, take_ge by lia. change 0 with (Z.of_nat 0) at 1. rewrite andb_true_iff, Hch, Z.eqb_eq. intuition lia.
Qed.
End Chunks.
