(* ===== verification/GpuValidateSpec.v ===== *)
(** What the whole check of a GPU command accepts, and that it reads nothing but the
    inline data it was given. *)

From Stdlib Require Import ZArith Lia.
From stdpp Require Import base numbers tactics list_numbers list.
From S2P Require Import Prelude Bytes Layout Sorted Protocol GpuLayout GpuDrmLayout GpuCompletion GpuRequest GpuRequestSpec.
From S2P Require Import GpuShapeSpec GpuSemantics GpuRules GpuAmdgpuSpec.

Open Scope Z_scope.
Open Scope kobox_scope.

(** * The specification *)

(** The command sets of a profile: id, queue class and number of commands. *)
Definition profile_sets (profile : Z) : list (Z * Z * Z) :=
  let shared driver :=
    [(KB2_GPU_DRM_CORE_SET_ID, KB2_GPU_QUEUE_EXECUTION, 28); (KB2_GPU_DRM_MODE_SET_ID, KB2_GPU_QUEUE_DISPLAY, 44); driver] in
  if profile =? KB2_GPU_PROFILE_VIRGL then shared (KB2_GPU_DRM_VIRTGPU_SET_ID, KB2_GPU_QUEUE_EXECUTION, 11)
  else if profile =? KB2_GPU_PROFILE_I915 then shared (KB2_GPU_DRM_I915_SET_ID, KB2_GPU_QUEUE_EXECUTION, 16)
  else if profile =? KB2_GPU_PROFILE_AMDGPU then shared (KB2_GPU_DRM_AMDGPU_SET_ID, KB2_GPU_QUEUE_EXECUTION, 20)
  else [].

(** The catalog of a command set. *)
Definition schema (set_id : Z) : option catalog :=
  if set_id =? KB2_GPU_DRM_AMDGPU_SET_ID then Some amdgpu_catalog else request_catalog set_id.

Definition submits_chunks (s : kb2_gpu_command_source) : bool :=
  (so_command_set_id s =? KB2_GPU_DRM_AMDGPU_SET_ID) && (so_command_id s =? KB2_GPU_DRM_AMDGPU_COMMAND_CS).

Definition waits (s : kb2_gpu_command_source) : bool := wait_command (so_command_set_id s) (so_command_id s).

(** The one wait that may have no deadline. *)
Definition may_poll (s : kb2_gpu_command_source) : Prop :=
  so_command_set_id s = KB2_GPU_DRM_AMDGPU_SET_ID /\ so_command_id s = KB2_GPU_DRM_AMDGPU_COMMAND_GEM_WAIT_IDLE.

Record command_ok (s : kb2_gpu_command_source) : Prop := {
  ck_identity : so_generation s <> 0 /\ so_session_id s <> 0 /\ so_flags s = 0;
  ck_limits : so_argument_count s <= KB2_GPU_MAX_ARGUMENTS /\ so_span_count s <= KB2_GPU_MAX_SPANS /\
    so_attachment_count s <= KB2_GPU_MAX_ATTACHMENTS /\ so_inline_length s <= KB2_GPU_MAX_INLINE_BYTES /\
    so_region_count s <= KB2_PROTOCOL_MAX_REGIONS;
  ck_arrays : so_argument_count s = Z.of_nat (length (arguments_of s)) /\ so_span_count s = Z.of_nat (length (spans_of s)) /\
    so_attachment_count s = Z.of_nat (length (attachments_of s)) /\ so_region_count s = Z.of_nat (length (regions_of s)) /\
    so_inline_length s = blen (array_items (data_of s) (so_inline_length s));
  ck_set : exists n, (so_command_set_id s, so_queue_class s, n) ∈ profile_sets (so_profile_kind s) /\ 1 <= so_command_id s <= n;
  ck_deadline : (so_deadline_ns s <> 0 -> waits s = true) /\ (waits s = true -> so_deadline_ns s <> 0 \/ may_poll s);
  ck_regions : regions_ok (regions_of s);
  ck_spans : spans_ok (regions_of s) (spans_of s);
  ck_attachments : attachments_ok (so_generation s) (attachments_of s);
  ck_arguments : arguments_ok s;
  ck_shape : if submits_chunks s then chunks_shape s
             else exists c request, schema (so_command_set_id s) = Some c /\ request_shape c s request;
  ck_rules : Forall (fun r => rule_holds s r = true) (command_rules (so_command_set_id s) (so_command_id s));
}.

(** * The checks *)

(** The first set with the id decides. *)
Fixpoint sets_allow (l : list (Z * Z * Z)) (queue set_id id : Z) : bool :=
  match l with
  | [] => false
  | (s, q, n) :: l => if s =? set_id then (q =? queue) && negb (id =? 0) && (id <=? n) else sets_allow l queue set_id id
  end.

Lemma sets_allow_spec l queue set_id id :
  0 <= id -> NoDup (l.*1.*1) ->
  sets_allow l queue set_id id = true <-> exists n, (set_id, queue, n) ∈ l /\ 1 <= id <= n.
Proof.
  intros Hid. induction l as [|[[s q] n] l IH]; cbn; [intros _; split; [done | by intros (n & ?%elem_of_nil & _)] |].
  intros [Hn Hl]%NoDup_cons. setoid_rewrite elem_of_cons. destruct (Z.eqb_spec s set_id) as [-> | Hne].
  - rewrite !andb_true_iff, negb_true_iff, Z.eqb_eq, Z.eqb_neq, Z.leb_le. split; [intros [[-> ?] ?]; exists n; split; [by left | lia] |].
    intros (m & [E | Hin] & ?); [simplify_eq; lia |]. destruct Hn. apply (list_elem_of_fmap_2 fst l.*1 (set_id, queue)).
    by apply (list_elem_of_fmap_2 fst l (set_id, queue, m)).
  - rewrite IH by done. split; intros (m & H); exists m; [tauto |]. destruct H as [[E | ?] ?]; [by simplify_eq | done].
Qed.

Lemma command_allowed_spec profile queue set_id id :
  0 <= id ->
  profile_kind_valid profile && command_allowed profile queue set_id id = true <->
  exists n, (set_id, queue, n) ∈ profile_sets profile /\ 1 <= id <= n.
Proof.
  intros Hid. rewrite <- sets_allow_spec; [| done |].
  - apply eq_iff_eq_true. unfold command_allowed, kb2_gpu_profile_command_set_count, profile_kind_valid, profile_sets.
    destruct (Z.eqb_spec profile KB2_GPU_PROFILE_VIRGL) as [-> |]; [reflexivity |].
    destruct (Z.eqb_spec profile KB2_GPU_PROFILE_I915) as [-> |]; [reflexivity |].
    destruct (Z.eqb_spec profile KB2_GPU_PROFILE_AMDGPU) as [-> |]; reflexivity.
  - unfold profile_sets. cbv zeta. repeat case_match; apply (bool_decide_unpack _); vm_compute; exact I.
Qed.

Lemma deadline_valid_spec s :
  deadline_valid s = true <-> (so_deadline_ns s <> 0 -> waits s = true) /\ (waits s = true -> so_deadline_ns s <> 0 \/ may_poll s).
Proof.
  unfold deadline_valid, may_poll. fold (waits s). rewrite orb_true_iff, !andb_true_iff, !Z.eqb_eq.
  assert (Hp : may_poll s -> waits s = true) by (intros [E1 E2]; unfold waits; rewrite E1, E2; reflexivity). unfold may_poll in Hp.
  destruct (Z.eqb_spec (so_deadline_ns s) 0), (waits s); cbn; naive_solver.
Qed.

(** The catalog of a set that a profile has. *)
Lemma schema_present s : (exists n, (so_command_set_id s, so_queue_class s, n) ∈ profile_sets (so_profile_kind s) /\ 1 <= so_command_id s <= n) ->
  is_Some (schema (so_command_set_id s)).
Proof.
  intros (n & Hin & _). unfold profile_sets in Hin. cbv zeta in Hin. repeat case_match; try by apply elem_of_nil in Hin.
  all: repeat (apply elem_of_cons in Hin as [Hin | Hin]; [injection Hin as -> _ _; vm_compute; eauto |]); by apply elem_of_nil in Hin.
Qed.

Lemma schema_wf set_id c : schema set_id = Some c -> catalog_wf c = true.
Proof. unfold schema. case_match; [intros [= <-]; apply amdgpu_catalog_wf | apply request_catalog_wf]. Qed.

Lemma forallb_Forall {T} (f : T -> bool) l : forallb f l = true <-> Forall (fun x => f x = true) l.
Proof. rewrite forallb_forall, Forall_forall. by setoid_rewrite list_elem_of_In. Qed.

Section Checks.
Context (s : kb2_gpu_command_source) (Href : references s) (Hargs : arguments_ok s)
  (Hat : Forall argument_typed (arguments_of s)) (Hu : is_u32 (so_command_id s))
  (Hac : so_argument_count s = Z.of_nat (length (arguments_of s)))
  (Hsc : so_span_count s = Z.of_nat (length (spans_of s)))
  (Htc : so_attachment_count s = Z.of_nat (length (attachments_of s))).

Lemma generic_request_spec :
  so_command_set_id s <> KB2_GPU_DRM_AMDGPU_SET_ID ->
  generic_request_valid s = true <-> exists c request, schema (so_command_set_id s) = Some c /\ request_shape c s request.
Proof.
  intros Hne. apply Z.eqb_neq in Hne. unfold generic_request_valid, schema. rewrite Hne.
  destruct (request_catalog _) as [c |] eqn:Hc; [| split; [done | by intros (? & ? & ? & _)]].
  rewrite (catalog_request_spec s Href Hargs Hat c); [| by eapply request_catalog_wf | done ..].
  split; [intros [r ?]; by exists c, r | intros (c' & r & [= <-] & ?); by exists r].
Qed.

(** The check of the shape of a request and of the fields of its record. *)
Lemma request_checks_spec :
  negb (so_command_set_id s =? KB2_GPU_DRM_AMDGPU_SET_ID) || amdgpu_request_valid s = true /\
  (so_command_set_id s =? KB2_GPU_DRM_AMDGPU_SET_ID) || generic_request_valid s = true /\
  negb (so_command_set_id s =? KB2_GPU_DRM_VIRTGPU_SET_ID) || virtgpu_request_semantics_valid s = true /\
  negb (so_command_set_id s =? KB2_GPU_DRM_CORE_SET_ID) || core_request_semantics_valid s = true /\
  negb (so_command_set_id s =? KB2_GPU_DRM_MODE_SET_ID) || mode_request_semantics_valid s = true <->
  (if submits_chunks s then chunks_shape s else exists c request, schema (so_command_set_id s) = Some c /\ request_shape c s request) /\
  Forall (fun r => rule_holds s r = true) (command_rules (so_command_set_id s) (so_command_id s)).
Proof.
  rewrite virtgpu_rules_spec, core_rules_spec, mode_rules_spec, <- forallb_Forall. unfold submits_chunks, command_rules.
  destruct (Z.eqb_spec (so_command_set_id s) KB2_GPU_DRM_AMDGPU_SET_ID) as [E | E]; cbn [negb orb andb].
  - rewrite E. change (KB2_GPU_DRM_AMDGPU_SET_ID =? KB2_GPU_DRM_VIRTGPU_SET_ID) with false.
    change (KB2_GPU_DRM_AMDGPU_SET_ID =? KB2_GPU_DRM_CORE_SET_ID) with false.
    change (KB2_GPU_DRM_AMDGPU_SET_ID =? KB2_GPU_DRM_MODE_SET_ID) with false. cbn [negb orb].
    change (schema KB2_GPU_DRM_AMDGPU_SET_ID) with (Some amdgpu_catalog).
    destruct (Z.eqb_spec (so_command_id s) KB2_GPU_DRM_AMDGPU_COMMAND_CS) as [Ec | Ec].
    + rewrite (amdgpu_chunks_spec s Href Hargs Hat Hac Hsc Ec), Ec. change (rules_of amdgpu_rules _) with (@nil rule). naive_solver.
    + rewrite (amdgpu_request_spec s Href Hargs Hat Hu Hac Hsc Htc Ec). naive_solver.
  - rewrite generic_request_spec by done.
    destruct (Z.eqb_spec (so_command_set_id s) KB2_GPU_DRM_VIRTGPU_SET_ID) as [-> |]; [cbn; naive_solver |].
    destruct (Z.eqb_spec (so_command_set_id s) KB2_GPU_DRM_CORE_SET_ID) as [-> |]; [cbn; naive_solver |].
    destruct (Z.eqb_spec (so_command_set_id s) KB2_GPU_DRM_MODE_SET_ID) as [-> |]; cbn; naive_solver.
Qed.
End Checks.

(** The check of the whole command is the specification. *)
Lemma validate_source_spec s :
  source_typed s -> validate_source (Some s) = KB2_PROTOCOL_OK <-> command_ok s.
Proof.
  intros Ht. pose proof Ht as [_ _ _ _ _ Hu _ _ Ta Ts Tt Ti Tr].
  transitivity (((so_generation s =? 0) || (so_session_id s =? 0) || negb (profile_kind_valid (so_profile_kind s)) ||
         negb (so_flags s =? 0) || (KB2_GPU_MAX_ARGUMENTS <? so_argument_count s) ||
         (KB2_GPU_MAX_SPANS <? so_span_count s) || (KB2_GPU_MAX_ATTACHMENTS <? so_attachment_count s) ||
         (KB2_GPU_MAX_INLINE_BYTES <? so_inline_length s) || array_missing (so_inline_data s) (so_inline_length s) ||
         negb (command_allowed (so_profile_kind s) (so_queue_class s) (so_command_set_id s) (so_command_id s)) ||
         negb (deadline_valid s) || negb (regions_valid (so_regions s) (so_region_count s)) ||
         negb (spans_valid (so_spans s) (so_span_count s) (regions_of s)) ||
         negb (attachments_valid (so_attachments s) (so_attachment_count s) (so_generation s)) || negb (arguments_valid s)) = false /\
    negb (so_command_set_id s =? KB2_GPU_DRM_AMDGPU_SET_ID) || amdgpu_request_valid s = true /\
    (so_command_set_id s =? KB2_GPU_DRM_AMDGPU_SET_ID) || generic_request_valid s = true /\
    negb (so_command_set_id s =? KB2_GPU_DRM_VIRTGPU_SET_ID) || virtgpu_request_semantics_valid s = true /\
    negb (so_command_set_id s =? KB2_GPU_DRM_CORE_SET_ID) || core_request_semantics_valid s = true /\
    negb (so_command_set_id s =? KB2_GPU_DRM_MODE_SET_ID) || mode_request_semantics_valid s = true).
  { unfold validate_source. destruct (_ || _); [split; [done | naive_solver] |].
    destruct (_ =? KB2_GPU_DRM_AMDGPU_SET_ID), (amdgpu_request_valid s), (generic_request_valid s), (_ =? KB2_GPU_DRM_VIRTGPU_SET_ID),
      (virtgpu_request_semantics_valid s), (_ =? KB2_GPU_DRM_CORE_SET_ID), (core_request_semantics_valid s),
      (_ =? KB2_GPU_DRM_MODE_SET_ID), (mode_request_semantics_valid s); cbn; split; (done || by intros (? & ? & ? & ? & ? & ?)). }
  rewrite !orb_false_iff, !negb_false_iff, !Z.eqb_neq, !Z.ltb_ge, Z.eqb_eq.
  rewrite regions_valid_spec, attachments_valid_spec, deadline_valid_spec by done. rewrite (array_present _ _ _ Ti). fold (data_of s).
  pose proof (command_allowed_spec (so_profile_kind s) (so_queue_class s) (so_command_set_id s) (so_command_id s)) as Hset.
  rewrite andb_true_iff in Hset. unfold is_u32 in Hu. specialize (Hset ltac:(lia)).
  pose proof (array_elements _ _ _ Tr) as Hrt. fold (regions_of s) in Hrt.
  pose proof (command_spans_valid s Ts Hrt) as Hspans.
  assert (Hrefs : spans_ok (regions_of s) (spans_of s) -> attachments_ok (so_generation s) (attachments_of s) -> references s).
  { intros. split; [done | done | by apply (array_elements _ _ _ Ts) | by apply (array_elements _ _ _ Tt)]. }
  assert (Hat : Forall argument_typed (arguments_of s)) by by apply (array_elements _ _ _ Ta).
  split.
  - intros [Hc Hreq]. destruct_and! Hc.
    match goal with H : spans_valid _ _ _ = true |- _ => apply Hspans in H as [? ?]; [| done] end.
    pose proof (Hrefs ltac:(done) ltac:(done)) as Href.
    match goal with H : arguments_valid s = true |- _ => apply arguments_valid_spec in H as [? ?]; [| done | done] end.
    apply request_checks_spec in Hreq as [? ?]; [| done ..]. split; tauto.
  - intros [Hi Hl (? & ? & ? & ? & ?) Hs Hd Hr Hsp Hta Harg Hsh Hrules]. pose proof (Hrefs Hsp Hta) as Href. split.
    + assert (arguments_valid s = true) by by apply arguments_valid_spec. split_and!; tauto.
    + by apply request_checks_spec.
Qed.

(** * The record is read inside the inline data *)

Definition with_data (s : kb2_gpu_command_source) (d : list Z) : kb2_gpu_command_source :=
  mkCommandSource (so_generation s) (so_session_id s) (so_profile_kind s) (so_queue_class s) (so_command_set_id s) (so_command_id s)
    (so_flags s) (so_deadline_ns s) (so_arguments s) (so_argument_count s) (so_spans s) (so_span_count s) (so_attachments s)
    (so_attachment_count s) (Some d) (so_inline_length s) (so_regions s) (so_region_count s).

Definition inline_size_of (request : kb2_gpu_request_contract) : Z :=
  if rc_inline_record_id request =? 0 then 0 else rc_inline_size request.

Definition rules_inside (set_id : Z) : bool :=
  match schema set_id with
  | None => true
  | Some c => forallb (fun request => forallb (fun r => (0 <=? rule_start r) && (rule_end r <=? inline_size_of request))
                (command_rules set_id (rc_command_id request))) (ct_requests c)
  end.

(** Every rule of a command is about fields of the command's record. *)
Lemma rules_inside_spec set_id c request r :
  schema set_id = Some c -> request ∈ ct_requests c -> r ∈ command_rules set_id (rc_command_id request) ->
  0 <= rule_start r /\ rule_end r <= inline_size_of request.
Proof.
  intros Hc Hreq Hr. assert (H : rules_inside set_id = true).
  { destruct (decide (set_id ∈ [1; 2; 3; 4; 5])) as [Hin | Hout].
    - repeat (apply elem_of_cons in Hin as [-> | Hin]; [vm_compute; reflexivity |]). by apply elem_of_nil in Hin.
    - unfold rules_inside. replace (schema set_id) with (@None catalog); [done |]. symmetry. unfold schema, request_catalog.
      rewrite !elem_of_cons in Hout. repeat case_match; try done; rewrite Z.eqb_eq in *; subst; exfalso; apply Hout; vm_compute; tauto. }
  unfold rules_inside in H. rewrite Hc, forallb_forall in H. specialize (H request). rewrite forallb_forall in H.
  specialize (H (proj1 (list_elem_of_In _ _) Hreq) r (proj1 (list_elem_of_In _ _) Hr)). lia.
Qed.

Lemma rule_local s d d' n r :
  so_inline_data s = Some d -> agree d d' 0 n -> 0 <= rule_start r -> rule_end r <= n -> rule_holds (with_data s d') r = rule_holds s r.
Proof.
  intros Hd Ha Hs He. unfold rule_holds, data_of. cbn [with_data so_inline_data default]. rewrite Hd. unfold default, from_option, id.
  destruct r; cbn [rule_start rule_end] in *; try reflexivity;
    rewrite ?(agree_load_u32 d d' 0 n o), ?(agree_load_u64 d d' 0 n o), ?(agree_load_u32 d d' 0 n p), ?(agree_load_u64 d d' 0 n p)
      by (done || lia); reflexivity.
Qed.

Lemma arguments_ok_data s d : arguments_ok s -> arguments_ok (with_data s d).
Proof.
  intros [He Hi Hs Ht]. split; [| exact Hi | exact Hs | exact Ht]. eapply Forall_impl; [exact He |]. intros a (? & ? & Hr).
  split_and!; [done | done |]. destruct Hr.
  - by apply reference_scalar.
  - by apply reference_bool.
  - by apply reference_object.
  - by apply reference_inline.
  - by apply (reference_span _ _ p).
  - by apply (reference_attachment _ _ t).
Qed.

Lemma request_shape_data c s request d : request_shape c s request -> request_shape c (with_data s d) request.
Proof. intros []. by split. Qed.

(** The bytes past the inline data do not matter. *)
Lemma command_ok_data s d d' :
  so_inline_data s = Some d -> agree d d' 0 (so_inline_length s) -> 0 <= so_inline_length s <= blen d' ->
  command_ok s -> command_ok (with_data s d').
Proof.
  intros Hd Ha Hl Hok. pose proof (ck_shape s Hok) as Hsh. pose proof (ck_rules s Hok) as Hrules. destruct Hok.
  split; try done.
  - destruct_and! ck_arrays0. split_and!; try done. cbn. unfold array_items, blen in *. cbn. rewrite length_take. lia.
  - by apply arguments_ok_data.
  - unfold submits_chunks in *. cbn [with_data so_command_set_id so_command_id]. destruct (_ && _).
    + destruct Hsh as [Hargs Hc Htc Hrec]. split; [exact Hargs | exact Hc | exact Htc |]. cbn. rewrite <- Hrec. unfold data_of. rewrite Hd. cbn.
      symmetry. eapply agree_load_u32; [exact Ha | done |]. destruct Hargs as (a & l & _ & (_ & _ & _ & _ & _ & _ & ->) & _). by vm_compute.
    + destruct Hsh as (c & request & Hc & Hsh). exists c, request. split; [done | by apply request_shape_data].
  - cbn [with_data so_command_set_id so_command_id]. rewrite Forall_forall in Hrules |- *. intros r Hr. rewrite <- (Hrules r Hr).
    unfold submits_chunks in Hsh. destruct ((so_command_set_id s =? _) && _) eqn:E.
    + apply andb_true_iff in E as [E1%Z.eqb_eq E2%Z.eqb_eq]. rewrite E1, E2 in Hr. vm_compute in Hr. by apply elem_of_nil in Hr.
    + destruct Hsh as (c & request & Hc & [[Hreq Ecmd] _ _ Hinl _ _ _ _ _]). rewrite <- Ecmd in Hr.
      destruct (rules_inside_spec _ c request r Hc Hreq Hr) as [Hs He]. apply (rule_local s d d' (so_inline_length s)); [done | done | done |].
      unfold inline_size_of in He. destruct (rc_inline_record_id request =? 0).
      * destruct Hinl as [-> _]. done.
      * by destruct Hinl as (a & _ & (_ & _ & _ & _ & _ & _ & ->)).
Qed.
