(* ===== verification/GpuCommand.v ===== *)
(** GPU commands, the message (protocol/src/gpu.c): size, encoder, decoder and accessors.

    A decoded command keeps the buffer it points into; the pointer to the inline data
    is the rest of the buffer from its offset on. *)

From Stdlib Require Import ZArith Lia.
From stdpp Require Import base numbers tactics list_numbers list.
From S2P Require Import Prelude Bytes Layout Protocol GpuLayout GpuDrmLayout GpuCompletion GpuRequest GpuSemantics.

Open Scope Z_scope.
Open Scope kobox_scope.

Record kb2_gpu_command := mkCommand {
  cm_bytes : list Z;
  cm_size : Z;
  cm_generation : Z;
  cm_session_id : Z;
  cm_command_set_id : Z;
  cm_command_id : Z;
  cm_flags : Z;
  cm_deadline_ns : Z;
  cm_counts : list Z;
  cm_offsets : list Z;
  cm_inline_length : Z;
}.

Definition cm_count (c : kb2_gpu_command) (i : nat) : Z := nth i (cm_counts c) 0.
Definition cm_offset (c : kb2_gpu_command) (i : nat) : Z := nth i (cm_offsets c) 0.

Definition kb2_gpu_command_encoded_size (source : option kb2_gpu_command_source) (size_given : bool) :
    kb2_protocol_status * option Z :=
  if negb size_given then (KB2_PROTOCOL_INVALID_ARGUMENT, None)
  else
    match source, validate_source source with
    | Some s, KB2_PROTOCOL_OK =>
        let total :=
          size ← size_add_multiply KB2_GPU_COMMAND_HEADER_SIZE (so_argument_count s) KB2_GPU_ARGUMENT_DESCRIPTOR_SIZE;
          size ← size_add_multiply size (so_span_count s) KB2_GPU_SPAN_DESCRIPTOR_SIZE;
          size ← size_add_multiply size (so_attachment_count s) KB2_GPU_ATTACHMENT_DESCRIPTOR_SIZE;
          if SIZE_MAX - size <? so_inline_length s then None else Some (u64 (size + so_inline_length s)) in
        match total with
        | None => (KB2_PROTOCOL_OVERFLOW, Some 0)
        | Some size => if U32_MAX <? size then (KB2_PROTOCOL_OVERFLOW, Some 0) else (KB2_PROTOCOL_OK, Some size)
        end
    | None, _ => (KB2_PROTOCOL_INVALID_ARGUMENT, Some 0)
    | Some _, _ => (KB2_PROTOCOL_MALFORMED, Some 0)
    end.

(** The stores of the descriptor encoders. *)
Definition encode_argument (argument : kb2_gpu_argument) : list field :=
  [U32 KB2_GPU_ARGUMENT_DESCRIPTOR_ARGUMENT_ID_OFFSET (ar_argument_id argument);
   U32 KB2_GPU_ARGUMENT_DESCRIPTOR_KIND_OFFSET (ar_kind argument);
   U32 KB2_GPU_ARGUMENT_DESCRIPTOR_FLAGS_OFFSET (ar_flags argument);
   U32 KB2_GPU_ARGUMENT_DESCRIPTOR_RECORD_SCHEMA_ID_OFFSET (ar_record_schema_id argument);
   U64 KB2_GPU_ARGUMENT_DESCRIPTOR_VALUE_OFFSET (ar_value argument);
   U32 KB2_GPU_ARGUMENT_DESCRIPTOR_COUNT_OFFSET (ar_count argument)].

Definition encode_span (span : kb2_gpu_span) : list field :=
  [U32 KB2_GPU_SPAN_DESCRIPTOR_SPAN_ID_OFFSET (sp_span_id span);
   U32 KB2_GPU_SPAN_DESCRIPTOR_REGION_ID_OFFSET (sp_region_id span);
   U64 KB2_GPU_SPAN_DESCRIPTOR_OFFSET_OFFSET (sp_offset span);
   U64 KB2_GPU_SPAN_DESCRIPTOR_LENGTH_OFFSET (sp_length span);
   U32 KB2_GPU_SPAN_DESCRIPTOR_RIGHTS_OFFSET (sp_rights span);
   U32 KB2_GPU_SPAN_DESCRIPTOR_RECORD_SCHEMA_ID_OFFSET (sp_record_schema_id span);
   U32 KB2_GPU_SPAN_DESCRIPTOR_ELEMENT_COUNT_OFFSET (sp_element_count span);
   U32 KB2_GPU_SPAN_DESCRIPTOR_FLAGS_OFFSET (sp_flags span)].

Definition encode_attachment (attachment : kb2_gpu_attachment) : list field :=
  [U32 KB2_GPU_ATTACHMENT_DESCRIPTOR_ATTACHMENT_ID_OFFSET (at_attachment_id attachment);
   U32 KB2_GPU_ATTACHMENT_DESCRIPTOR_OBJECT_CLASS_OFFSET (at_object_class attachment);
   U64 KB2_GPU_ATTACHMENT_DESCRIPTOR_EXCHANGE_ID_OFFSET (at_exchange_id attachment);
   U64 KB2_GPU_ATTACHMENT_DESCRIPTOR_GENERATION_OFFSET (at_generation attachment);
   U64 KB2_GPU_ATTACHMENT_DESCRIPTOR_RIGHTS_OFFSET (at_rights attachment);
   U32 KB2_GPU_ATTACHMENT_DESCRIPTOR_ROLE_OFFSET (at_role attachment);
   U32 KB2_GPU_ATTACHMENT_DESCRIPTOR_OWNERSHIP_OFFSET (at_ownership attachment);
   U32 KB2_GPU_ATTACHMENT_DESCRIPTOR_FLAGS_OFFSET (at_flags attachment)].

(** A loop that writes one descriptor of [size] bytes per element. *)
Fixpoint encode_table {T} (encode : T -> list field) (b : list Z) (offset size : Z) (items : list T) : list Z :=
  match items with
  | [] => b
  | item :: rest => encode_table encode (put_fields b offset (encode item)) (offset + size) size rest
  end.

Definition kb2_gpu_command_encode (buffer : option (list Z)) (buffer_size : Z) (size_given : bool)
    (source : option kb2_gpu_command_source) : kb2_protocol_status * option Z * option (list Z) :=
  match buffer with
  | None => (KB2_PROTOCOL_INVALID_ARGUMENT, None, None)
  | Some b =>
      if negb size_given then (KB2_PROTOCOL_INVALID_ARGUMENT, None, Some b)
      else
        match kb2_gpu_command_encoded_size source true, source with
        | (KB2_PROTOCOL_OK, Some size), Some s =>
            if buffer_size <? size then (KB2_PROTOCOL_BUFFER_TOO_SMALL, Some 0, Some b)
            else
              let argument_offset := KB2_GPU_COMMAND_HEADER_SIZE in
              let span_offset := u64 (argument_offset + u64 (so_argument_count s * KB2_GPU_ARGUMENT_DESCRIPTOR_SIZE)) in
              let attachment_offset := u64 (span_offset + u64 (so_span_count s * KB2_GPU_SPAN_DESCRIPTOR_SIZE)) in
              let inline_offset := u64 (attachment_offset + u64 (so_attachment_count s * KB2_GPU_ATTACHMENT_DESCRIPTOR_SIZE)) in
              let b := zero_bytes b 0 size in
              let b := put_fields b 0
                [U32 KB2_GPU_COMMAND_HEADER_TOTAL_SIZE_OFFSET (u32 size);
                 Raw KB2_GPU_COMMAND_HEADER_ABI_IDENTITY_OFFSET 4 KB2_GPU_ABI_IDENTITY_BYTES;
                 Raw KB2_GPU_COMMAND_HEADER_SCHEMA_DIGEST_OFFSET 32 KB2_GPU_SCHEMA_SHA256_BYTES;
                 U64 KB2_GPU_COMMAND_HEADER_GENERATION_OFFSET (so_generation s);
                 U64 KB2_GPU_COMMAND_HEADER_SESSION_ID_OFFSET (so_session_id s);
                 U32 KB2_GPU_COMMAND_HEADER_COMMAND_SET_ID_OFFSET (so_command_set_id s);
                 U32 KB2_GPU_COMMAND_HEADER_COMMAND_ID_OFFSET (so_command_id s);
                 U32 KB2_GPU_COMMAND_HEADER_FLAGS_OFFSET (so_flags s);
                 U32 KB2_GPU_COMMAND_HEADER_ARGUMENT_COUNT_OFFSET (u32 (so_argument_count s));
                 U32 KB2_GPU_COMMAND_HEADER_SPAN_COUNT_OFFSET (u32 (so_span_count s));
                 U32 KB2_GPU_COMMAND_HEADER_ATTACHMENT_COUNT_OFFSET (u32 (so_attachment_count s));
                 U32 KB2_GPU_COMMAND_HEADER_INLINE_LENGTH_OFFSET (u32 (so_inline_length s));
                 U32 KB2_GPU_COMMAND_HEADER_ARGUMENT_TABLE_OFFSET_OFFSET (u32 argument_offset);
                 U32 KB2_GPU_COMMAND_HEADER_SPAN_TABLE_OFFSET_OFFSET (u32 span_offset);
                 U32 KB2_GPU_COMMAND_HEADER_ATTACHMENT_TABLE_OFFSET_OFFSET (u32 attachment_offset);
                 U32 KB2_GPU_COMMAND_HEADER_INLINE_OFFSET_OFFSET (u32 inline_offset);
                 U64 KB2_GPU_COMMAND_HEADER_DEADLINE_NS_OFFSET (so_deadline_ns s)] in
              let b := encode_table encode_argument b argument_offset KB2_GPU_ARGUMENT_DESCRIPTOR_SIZE (arguments_of s) in
              let b := encode_table encode_span b span_offset KB2_GPU_SPAN_DESCRIPTOR_SIZE (spans_of s) in
              let b := encode_table encode_attachment b attachment_offset KB2_GPU_ATTACHMENT_DESCRIPTOR_SIZE
                         (attachments_of s) in
              let b := if so_inline_length s =? 0 then b
                       else put_bytes b inline_offset (array_items (data_of s) (so_inline_length s)) in
              (KB2_PROTOCOL_OK, Some size, Some b)
        | (status, _), _ => (status, Some 0, Some b)
        end
  end.

Definition decode_argument (b : list Z) (at_ : Z) : kb2_gpu_argument :=
  mkArgument
    (load_u32 b (at_ + KB2_GPU_ARGUMENT_DESCRIPTOR_ARGUMENT_ID_OFFSET))
    (load_u32 b (at_ + KB2_GPU_ARGUMENT_DESCRIPTOR_KIND_OFFSET))
    (load_u32 b (at_ + KB2_GPU_ARGUMENT_DESCRIPTOR_FLAGS_OFFSET))
    (load_u32 b (at_ + KB2_GPU_ARGUMENT_DESCRIPTOR_RECORD_SCHEMA_ID_OFFSET))
    (load_u64 b (at_ + KB2_GPU_ARGUMENT_DESCRIPTOR_VALUE_OFFSET))
    (load_u32 b (at_ + KB2_GPU_ARGUMENT_DESCRIPTOR_COUNT_OFFSET)).

Definition decode_span (b : list Z) (at_ : Z) : kb2_gpu_span :=
  mkSpan
    (load_u32 b (at_ + KB2_GPU_SPAN_DESCRIPTOR_SPAN_ID_OFFSET))
    (load_u32 b (at_ + KB2_GPU_SPAN_DESCRIPTOR_REGION_ID_OFFSET))
    (load_u64 b (at_ + KB2_GPU_SPAN_DESCRIPTOR_OFFSET_OFFSET))
    (load_u64 b (at_ + KB2_GPU_SPAN_DESCRIPTOR_LENGTH_OFFSET))
    (load_u32 b (at_ + KB2_GPU_SPAN_DESCRIPTOR_RIGHTS_OFFSET))
    (load_u32 b (at_ + KB2_GPU_SPAN_DESCRIPTOR_RECORD_SCHEMA_ID_OFFSET))
    (load_u32 b (at_ + KB2_GPU_SPAN_DESCRIPTOR_ELEMENT_COUNT_OFFSET))
    (load_u32 b (at_ + KB2_GPU_SPAN_DESCRIPTOR_FLAGS_OFFSET)).

Definition decode_attachment (b : list Z) (at_ : Z) : kb2_gpu_attachment :=
  mkAttachment
    (load_u32 b (at_ + KB2_GPU_ATTACHMENT_DESCRIPTOR_ATTACHMENT_ID_OFFSET))
    (load_u32 b (at_ + KB2_GPU_ATTACHMENT_DESCRIPTOR_OBJECT_CLASS_OFFSET))
    (load_u64 b (at_ + KB2_GPU_ATTACHMENT_DESCRIPTOR_EXCHANGE_ID_OFFSET))
    (load_u64 b (at_ + KB2_GPU_ATTACHMENT_DESCRIPTOR_GENERATION_OFFSET))
    (load_u64 b (at_ + KB2_GPU_ATTACHMENT_DESCRIPTOR_RIGHTS_OFFSET))
    (load_u32 b (at_ + KB2_GPU_ATTACHMENT_DESCRIPTOR_ROLE_OFFSET))
    (load_u32 b (at_ + KB2_GPU_ATTACHMENT_DESCRIPTOR_OWNERSHIP_OFFSET))
    (load_u32 b (at_ + KB2_GPU_ATTACHMENT_DESCRIPTOR_FLAGS_OFFSET)).

Definition all_zero (b : list Z) (off size : Z) : bool := forallb (fun i => get_byte b (off + i) =? 0) (seqZ 0 size).

Definition command_offsets_valid (b : list Z) (buffer_size : Z) : bool :=
  let argument_count := load_u32 b KB2_GPU_COMMAND_HEADER_ARGUMENT_COUNT_OFFSET in
  let span_count := load_u32 b KB2_GPU_COMMAND_HEADER_SPAN_COUNT_OFFSET in
  let attachment_count := load_u32 b KB2_GPU_COMMAND_HEADER_ATTACHMENT_COUNT_OFFSET in
  let inline_length := load_u32 b KB2_GPU_COMMAND_HEADER_INLINE_LENGTH_OFFSET in
  if (KB2_GPU_MAX_ARGUMENTS <? argument_count) || (KB2_GPU_MAX_SPANS <? span_count) ||
     (KB2_GPU_MAX_ATTACHMENTS <? attachment_count) || (KB2_GPU_MAX_INLINE_BYTES <? inline_length) ||
     negb (load_u32 b KB2_GPU_COMMAND_HEADER_ARGUMENT_TABLE_OFFSET_OFFSET =? KB2_GPU_COMMAND_HEADER_SIZE) then false
  else
    match size_add_multiply KB2_GPU_COMMAND_HEADER_SIZE argument_count KB2_GPU_ARGUMENT_DESCRIPTOR_SIZE with
    | None => false
    | Some expected =>
        if negb (load_u32 b KB2_GPU_COMMAND_HEADER_SPAN_TABLE_OFFSET_OFFSET =? expected) then false
        else
          match size_add_multiply expected span_count KB2_GPU_SPAN_DESCRIPTOR_SIZE with
          | None => false
          | Some expected =>
              if negb (load_u32 b KB2_GPU_COMMAND_HEADER_ATTACHMENT_TABLE_OFFSET_OFFSET =? expected) then false
              else
                match size_add_multiply expected attachment_count KB2_GPU_ATTACHMENT_DESCRIPTOR_SIZE with
                | None => false
                | Some expected =>
                    if negb (load_u32 b KB2_GPU_COMMAND_HEADER_INLINE_OFFSET_OFFSET =? expected) ||
                       (SIZE_MAX - expected <? inline_length) then false
                    else
                      let expected := u64 (expected + inline_length) in
                      (expected =? buffer_size) && (load_u32 b KB2_GPU_COMMAND_HEADER_TOTAL_SIZE_OFFSET =? buffer_size)
                end
          end
    end.

(** The fields of [command] filled from the header. *)
Definition decode_header (b : list Z) (buffer_size : Z) : kb2_gpu_command :=
  mkCommand b buffer_size
    (load_u64 b KB2_GPU_COMMAND_HEADER_GENERATION_OFFSET)
    (load_u64 b KB2_GPU_COMMAND_HEADER_SESSION_ID_OFFSET)
    (load_u32 b KB2_GPU_COMMAND_HEADER_COMMAND_SET_ID_OFFSET)
    (load_u32 b KB2_GPU_COMMAND_HEADER_COMMAND_ID_OFFSET)
    (load_u32 b KB2_GPU_COMMAND_HEADER_FLAGS_OFFSET)
    (load_u64 b KB2_GPU_COMMAND_HEADER_DEADLINE_NS_OFFSET)
    [load_u32 b KB2_GPU_COMMAND_HEADER_ARGUMENT_COUNT_OFFSET; load_u32 b KB2_GPU_COMMAND_HEADER_SPAN_COUNT_OFFSET;
     load_u32 b KB2_GPU_COMMAND_HEADER_ATTACHMENT_COUNT_OFFSET]
    [load_u32 b KB2_GPU_COMMAND_HEADER_ARGUMENT_TABLE_OFFSET_OFFSET;
     load_u32 b KB2_GPU_COMMAND_HEADER_SPAN_TABLE_OFFSET_OFFSET;
     load_u32 b KB2_GPU_COMMAND_HEADER_ATTACHMENT_TABLE_OFFSET_OFFSET;
     load_u32 b KB2_GPU_COMMAND_HEADER_INLINE_OFFSET_OFFSET]
    (load_u32 b KB2_GPU_COMMAND_HEADER_INLINE_LENGTH_OFFSET).

(** The descriptors of a table of [count] rows of [size] bytes. *)
Definition decode_rows {T} (decode : list Z -> Z -> T) (b : list Z) (offset size count : Z) : list T :=
  (fun i => decode b (offset + i * size)) <$> seqZ 0 count.
Definition reserved_zero (b : list Z) (offset size count reserved : Z) : bool :=
  forallb (fun i => all_zero b (offset + i * size + reserved) 4) (seqZ 0 count).

Definition decoded_source (c : kb2_gpu_command) (profile_kind queue_class : Z) (regions : option (list kb2_gpu_region))
    (region_count : Z) : kb2_gpu_command_source :=
  let b := cm_bytes c in
  mkCommandSource (cm_generation c) (cm_session_id c) profile_kind queue_class (cm_command_set_id c) (cm_command_id c)
    (cm_flags c) (cm_deadline_ns c)
    (Some (decode_rows decode_argument b (cm_offset c 0) KB2_GPU_ARGUMENT_DESCRIPTOR_SIZE (cm_count c 0))) (cm_count c 0)
    (Some (decode_rows decode_span b (cm_offset c 1) KB2_GPU_SPAN_DESCRIPTOR_SIZE (cm_count c 1))) (cm_count c 1)
    (Some (decode_rows decode_attachment b (cm_offset c 2) KB2_GPU_ATTACHMENT_DESCRIPTOR_SIZE (cm_count c 2))) (cm_count c 2)
    (Some (drop (Z.to_nat (cm_offset c 3)) b)) (cm_inline_length c) regions region_count.

Definition kb2_gpu_command_decode (buffer : option (list Z)) (buffer_size expected_generation profile_kind queue_class : Z)
    (regions : option (list kb2_gpu_region)) (region_count : Z) (out_given : bool) :
    kb2_protocol_status * option kb2_gpu_command :=
  match buffer with
  | None => (KB2_PROTOCOL_INVALID_ARGUMENT, None)
  | Some b =>
      if negb out_given || (expected_generation =? 0) || negb (profile_kind_valid profile_kind)
      then (KB2_PROTOCOL_INVALID_ARGUMENT, None)
      else if buffer_size <? KB2_GPU_COMMAND_HEADER_SIZE then (KB2_PROTOCOL_BUFFER_TOO_SMALL, None)
      else if negb (bytes_equal b KB2_GPU_COMMAND_HEADER_ABI_IDENTITY_OFFSET KB2_GPU_ABI_IDENTITY_BYTES) ||
              negb (bytes_equal b KB2_GPU_COMMAND_HEADER_SCHEMA_DIGEST_OFFSET KB2_GPU_SCHEMA_SHA256_BYTES)
      then (KB2_PROTOCOL_SCHEMA_MISMATCH, None)
      else if negb (all_zero b KB2_GPU_COMMAND_HEADER_RESERVED_0_OFFSET 4) ||
              negb (all_zero b KB2_GPU_COMMAND_HEADER_RESERVED_1_OFFSET 16) || negb (command_offsets_valid b buffer_size)
      then (KB2_PROTOCOL_MALFORMED, None)
      else
        let command := decode_header b buffer_size in
        if negb (reserved_zero b (cm_offset command 0) KB2_GPU_ARGUMENT_DESCRIPTOR_SIZE (cm_count command 0)
                   KB2_GPU_ARGUMENT_DESCRIPTOR_RESERVED_OFFSET) then (KB2_PROTOCOL_MALFORMED, None)
        else if negb (reserved_zero b (cm_offset command 2) KB2_GPU_ATTACHMENT_DESCRIPTOR_SIZE (cm_count command 2)
                        KB2_GPU_ATTACHMENT_DESCRIPTOR_RESERVED_OFFSET) then (KB2_PROTOCOL_MALFORMED, None)
        else
          let source := decoded_source command profile_kind queue_class regions region_count in
          match validate_source (Some source) with
          | KB2_PROTOCOL_OK =>
              if negb (cm_generation command =? expected_generation) then (KB2_PROTOCOL_MALFORMED, None)
              else (KB2_PROTOCOL_OK, Some command)
          | _ => (KB2_PROTOCOL_MALFORMED, None)
          end
  end.

(** * Accessors *)

Definition kb2_gpu_command_argument_count (command : option kb2_gpu_command) : Z :=
  match command with None => 0 | Some c => cm_count c 0 end.
Definition kb2_gpu_command_span_count (command : option kb2_gpu_command) : Z :=
  match command with None => 0 | Some c => cm_count c 1 end.
Definition kb2_gpu_command_attachment_count (command : option kb2_gpu_command) : Z :=
  match command with None => 0 | Some c => cm_count c 2 end.

Definition kb2_gpu_command_argument (command : option kb2_gpu_command) (index : Z) (out_given : bool) :
    kb2_protocol_status * option kb2_gpu_argument :=
  match command with
  | None => (KB2_PROTOCOL_INVALID_ARGUMENT, None)
  | Some c =>
      if negb out_given || (cm_count c 0 <=? index) then (KB2_PROTOCOL_INVALID_ARGUMENT, None)
      else (KB2_PROTOCOL_OK,
            Some (decode_argument (cm_bytes c) (cm_offset c 0 + index * KB2_GPU_ARGUMENT_DESCRIPTOR_SIZE)))
  end.

Definition kb2_gpu_command_span (command : option kb2_gpu_command) (index : Z) (out_given : bool) :
    kb2_protocol_status * option kb2_gpu_span :=
  match command with
  | None => (KB2_PROTOCOL_INVALID_ARGUMENT, None)
  | Some c =>
      if negb out_given || (cm_count c 1 <=? index) then (KB2_PROTOCOL_INVALID_ARGUMENT, None)
      else (KB2_PROTOCOL_OK, Some (decode_span (cm_bytes c) (cm_offset c 1 + index * KB2_GPU_SPAN_DESCRIPTOR_SIZE)))
  end.

Definition kb2_gpu_command_attachment (command : option kb2_gpu_command) (index : Z) (out_given : bool) :
    kb2_protocol_status * option kb2_gpu_attachment :=
  match command with
  | None => (KB2_PROTOCOL_INVALID_ARGUMENT, None)
  | Some c =>
      if negb out_given || (cm_count c 2 <=? index) then (KB2_PROTOCOL_INVALID_ARGUMENT, None)
      else (KB2_PROTOCOL_OK,
            Some (decode_attachment (cm_bytes c) (cm_offset c 2 + index * KB2_GPU_ATTACHMENT_DESCRIPTOR_SIZE)))
  end.

(** The pointer and the length it comes with. *)
Definition kb2_gpu_command_inline_data (command : option kb2_gpu_command) (length_given : bool) : option (list Z * Z) :=
  match command with
  | None => None
  | Some c => if negb length_given then None else Some (drop (Z.to_nat (cm_offset c 3)) (cm_bytes c), cm_inline_length c)
  end.
