(* ===== verification/GpuCommandWire.v ===== *)
(** GPU commands on the wire: the encoder writes a header, three tables and the inline
    data, the decoder accepts exactly the buffers that hold a valid command. *)

From Stdlib Require Import ZArith Lia.
From stdpp Require Import base numbers tactics sets list_numbers list.
From S2P Require Import Prelude Bytes Layout Tables Sorted Protocol ProtocolSpec GpuLayout GpuDrmLayout GpuCompletion GpuRequest.
From S2P Require Import GpuRequestSpec GpuShapeSpec GpuSemantics GpuRules GpuAmdgpuSpec GpuValidateSpec GpuCommand.

Open Scope Z_scope.
Open Scope kobox_scope.

(** A command without the session's own data: what travels. *)
Record command_value := mkValue {
  vl_generation : Z;
  vl_session_id : Z;
  vl_command_set_id : Z;
  vl_command_id : Z;
  vl_flags : Z;
  vl_deadline_ns : Z;
  vl_arguments : list kb2_gpu_argument;
  vl_spans : list kb2_gpu_span;
  vl_attachments : list kb2_gpu_attachment;
  vl_inline : list Z;
}.

Lemma value_ext x y :
  vl_generation x = vl_generation y -> vl_session_id x = vl_session_id y -> vl_command_set_id x = vl_command_set_id y ->
  vl_command_id x = vl_command_id y -> vl_flags x = vl_flags y -> vl_deadline_ns x = vl_deadline_ns y ->
  vl_arguments x = vl_arguments y -> vl_spans x = vl_spans y -> vl_attachments x = vl_attachments y -> vl_inline x = vl_inline y ->
  x = y.
Proof. destruct x, y. cbn. congruence. Qed.

Record value_typed (x : command_value) : Prop := {
  vt_generation : is_u64 (vl_generation x);
  vt_session_id : is_u64 (vl_session_id x);
  vt_command_set_id : is_u32 (vl_command_set_id x);
  vt_command_id : is_u32 (vl_command_id x);
  vt_flags : is_u32 (vl_flags x);
  vt_deadline : is_u64 (vl_deadline_ns x);
  vt_arguments : Forall argument_typed (vl_arguments x);
  vt_spans : Forall span_typed (vl_spans x);
  vt_attachments : Forall attachment_typed (vl_attachments x);
  vt_inline : Forall is_u8 (vl_inline x);
}.

(** ** Layout *)

Definition span_base (x : command_value) : Z := 128 + 32 * Z.of_nat (length (vl_arguments x)).
Definition attachment_base (x : command_value) : Z := span_base x + 40 * Z.of_nat (length (vl_spans x)).
Definition inline_base (x : command_value) : Z := attachment_base x + 48 * Z.of_nat (length (vl_attachments x)).
Definition command_size (x : command_value) : Z := inline_base x + blen (vl_inline x).

Definition command_header (x : command_value) : list field :=
  [U32 0 (command_size x); Raw 4 4 KB2_GPU_ABI_IDENTITY_BYTES; Raw 8 32 KB2_GPU_SCHEMA_SHA256_BYTES;
   U64 40 (vl_generation x); U64 48 (vl_session_id x); U32 56 (vl_command_set_id x); U32 60 (vl_command_id x);
   U32 64 (vl_flags x); U32 68 (Z.of_nat (length (vl_arguments x))); U32 72 (Z.of_nat (length (vl_spans x)));
   U32 76 (Z.of_nat (length (vl_attachments x))); U32 80 (blen (vl_inline x)); U32 84 128; U32 88 (span_base x);
   U32 92 (attachment_base x); U32 96 (inline_base x); U64 104 (vl_deadline_ns x)].

Definition command_header_reserved : list field := [Raw 100 4 (replicate 4 0); Raw 112 16 (replicate 16 0)].

Definition argument_fields (a : kb2_gpu_argument) : list field :=
  [U32 0 (ar_argument_id a); U32 4 (ar_kind a); U32 8 (ar_flags a); U32 12 (ar_record_schema_id a); U64 16 (ar_value a);
   U32 24 (ar_count a)].
Definition argument_reserved : list field := [Raw 28 4 (replicate 4 0)].

Definition span_fields (p : kb2_gpu_span) : list field :=
  [U32 0 (sp_span_id p); U32 4 (sp_region_id p); U64 8 (sp_offset p); U64 16 (sp_length p); U32 24 (sp_rights p);
   U32 28 (sp_record_schema_id p); U32 32 (sp_element_count p); U32 36 (sp_flags p)].

Definition attachment_fields (t : kb2_gpu_attachment) : list field :=
  [U32 0 (at_attachment_id t); U32 4 (at_object_class t); U64 8 (at_exchange_id t); U64 16 (at_generation t); U64 24 (at_rights t);
   U32 32 (at_role t); U32 36 (at_ownership t); U32 40 (at_flags t)].
Definition attachment_reserved : list field := [Raw 44 4 (replicate 4 0)].

Definition command_written (x : command_value) : list field :=
  command_header x ++
  (table 128 32 (argument_fields <$> vl_arguments x) ++
   (table (span_base x) 40 (span_fields <$> vl_spans x) ++
    (table (attachment_base x) 48 (attachment_fields <$> vl_attachments x) ++
     [Raw (inline_base x) (blen (vl_inline x)) (vl_inline x)]))).

Definition command_reserved (x : command_value) : list field :=
  command_header_reserved ++
  (table 128 32 ((fun _ => argument_reserved) <$> vl_arguments x) ++
   (table (span_base x) 40 ((fun _ => []) <$> vl_spans x) ++
    (table (attachment_base x) 48 ((fun _ => attachment_reserved) <$> vl_attachments x) ++ []))).

Lemma command_tiled x : tiled 0 (command_size x) (command_written x) (command_reserved x).
Proof.
  assert (Hrec : forall size w r, 0 <= size -> separate size w = true ->
    forallb (fun f => inside size f && forallb (apart f) w) r && Layout.covered size (w ++ r) = true -> tiled 0 size w r).
  { intros size w r ? ? [? ?]%andb_true_iff. by apply tiled_record. }
  unfold command_written, command_reserved. apply (tiled_app 0 128); [apply Hrec; [done | vm_compute; reflexivity ..] |].
  apply (tiled_app 128 (span_base x)); [| apply (tiled_app _ (attachment_base x)); [| apply (tiled_app _ (inline_base x))]].
  - apply tiled_rows; [done |]. intros a. apply Hrec; [done | vm_compute; reflexivity ..].
  - apply tiled_rows; [done |]. intros a. apply Hrec; [done | vm_compute; reflexivity ..].
  - apply tiled_rows; [done |]. intros a. apply Hrec; [done | vm_compute; reflexivity ..].
  - apply tiled_raw, blen_nonneg.
Qed.

Lemma command_reserved_zero x : Forall zeroed (command_reserved x).
Proof.
  unfold command_reserved. rewrite !Forall_app. split_and!; [by repeat constructor | ..]; try (by constructor);
    apply table_zeroed, Forall_fmap, Forall_true; intros; by repeat constructor.
Qed.

Section Wire.
Context (profile queue : Z) (regions : option (list kb2_gpu_region)) (region_count expected : Z)
  (Hprofile : is_u32 profile) (Hqueue : is_u32 queue) (Hregions : array_typed regions region_count region_typed).

(** The request the code is given for the value. *)
Definition as_source (x : command_value) : kb2_gpu_command_source :=
  mkCommandSource (vl_generation x) (vl_session_id x) profile queue (vl_command_set_id x) (vl_command_id x) (vl_flags x)
    (vl_deadline_ns x) (Some (vl_arguments x)) (Z.of_nat (length (vl_arguments x))) (Some (vl_spans x))
    (Z.of_nat (length (vl_spans x))) (Some (vl_attachments x)) (Z.of_nat (length (vl_attachments x))) (Some (vl_inline x))
    (blen (vl_inline x)) regions region_count.

Definition value_ok (x : command_value) : Prop := command_ok (as_source x).

Definition command_encoder (b : list Z) (n : Z) (x : command_value) : bool * list Z :=
  let '(st, _, out) := kb2_gpu_command_encode (Some b) n true (Some (as_source x)) in status_encoded b st out.

(** What the accessors give. *)
Definition value_of (c : kb2_gpu_command) : command_value :=
  mkValue (cm_generation c) (cm_session_id c) (cm_command_set_id c) (cm_command_id c) (cm_flags c) (cm_deadline_ns c)
    (omap (fun i => (kb2_gpu_command_argument (Some c) i true).2) (seqZ 0 (kb2_gpu_command_argument_count (Some c))))
    (omap (fun i => (kb2_gpu_command_span (Some c) i true).2) (seqZ 0 (kb2_gpu_command_span_count (Some c))))
    (omap (fun i => (kb2_gpu_command_attachment (Some c) i true).2) (seqZ 0 (kb2_gpu_command_attachment_count (Some c))))
    (match kb2_gpu_command_inline_data (Some c) true with Some (data, length) => array_items data length | None => [] end).

(** The decoder is given a buffer of [n] bytes. *)
Definition command_decoder (b : list Z) (n : Z) : option command_value :=
  value_of <$> status_decoded (kb2_gpu_command_decode (Some (get_bytes b 0 n)) n expected profile queue regions region_count true).

Lemma as_source_typed x : value_typed x -> source_typed (as_source x).
Proof.
  intros []. split; try done; cbn; (split; [unfold blen; lia | split; [unfold blen; lia | done]]).
Qed.

Lemma command_source_items x :
  arguments_of (as_source x) = vl_arguments x /\ spans_of (as_source x) = vl_spans x /\
  attachments_of (as_source x) = vl_attachments x /\ array_items (data_of (as_source x)) (blen (vl_inline x)) = vl_inline x.
Proof.
  unfold arguments_of, spans_of, attachments_of, data_of, array_items, blen. cbn. rewrite !Nat2Z.id. split_and!; by rewrite firstn_all.
Qed.

(** A valid command is small. *)
Lemma command_sizes x :
  value_ok x -> Z.of_nat (length (vl_arguments x)) <= 256 /\ Z.of_nat (length (vl_spans x)) <= 128 /\
    Z.of_nat (length (vl_attachments x)) <= 64 /\ blen (vl_inline x) <= 4096 /\ command_size x < 2 ^ 32.
Proof.
  intros [_ Hl _ _ _ _ _ _ _ _ _]. cbn in Hl. destruct Hl as (Ha & Hs & Ht & Hi & _).
  unfold KB2_GPU_MAX_ARGUMENTS, KB2_GPU_MAX_SPANS, KB2_GPU_MAX_ATTACHMENTS, KB2_GPU_MAX_INLINE_BYTES in *.
  split_and!; try done. unfold command_size, inline_base, attachment_base, span_base. lia.
Qed.

Lemma size_add_multiply_small base count width :
  0 <= base -> 0 <= count -> 0 <= width -> base + count * width <= SIZE_MAX ->
  size_add_multiply base count width = Some (base + count * width).
Proof.
  intros Hb Hc Hw Hs. unfold size_add_multiply.
  assert (Hno : negb (count =? 0) && ((SIZE_MAX - base) / count <? width) = false).
  { destruct (Z.eqb_spec count 0); [done |]. cbn [negb andb]. apply Z.ltb_ge, Z.div_le_lower_bound; lia. }
  rewrite Hno. unfold SIZE_MAX, U64_MAX in Hs. f_equal.
  rewrite !u64_small; unfold is_u64; [done | nia | rewrite u64_small; unfold is_u64; nia].
Qed.

Lemma command_encoded_size_spec x :
  value_ok x -> validate_source (Some (as_source x)) = KB2_PROTOCOL_OK ->
  kb2_gpu_command_encoded_size (Some (as_source x)) true = (KB2_PROTOCOL_OK, Some (command_size x)).
Proof.
  intros Hok Hv. destruct (command_sizes x Hok) as (Ha & Hs & Ht & Hi & Hsz). pose proof (blen_nonneg (vl_inline x)) as Hi0.
  unfold kb2_gpu_command_encoded_size. cbn [negb]. rewrite Hv. cbn [as_source so_argument_count so_span_count so_attachment_count
    so_inline_length].
  change KB2_GPU_COMMAND_HEADER_SIZE with 128. change KB2_GPU_ARGUMENT_DESCRIPTOR_SIZE with 32.
  change KB2_GPU_SPAN_DESCRIPTOR_SIZE with 40. change KB2_GPU_ATTACHMENT_DESCRIPTOR_SIZE with 48.
  rewrite !size_add_multiply_small by (unfold SIZE_MAX, U64_MAX; lia). cbn [mbind option_bind].
  rewrite size_add_multiply_small by (unfold SIZE_MAX, U64_MAX; lia). cbn [mbind option_bind].
  rewrite size_add_multiply_small by (unfold SIZE_MAX, U64_MAX; lia). cbn [mbind option_bind].
  rewrite (proj2 (Z.ltb_ge _ _)) by (unfold SIZE_MAX, U64_MAX; lia).
  replace (128 + Z.of_nat (length (vl_arguments x)) * 32 + Z.of_nat (length (vl_spans x)) * 40 +
    Z.of_nat (length (vl_attachments x)) * 48 + blen (vl_inline x)) with (command_size x)
    by (unfold command_size, inline_base, attachment_base, span_base; lia).
  rewrite u64_small by (unfold is_u64, command_size, inline_base, attachment_base, span_base in *; lia).
  rewrite (proj2 (Z.ltb_ge _ _)) by (unfold U32_MAX; lia). done.
Qed.

Lemma encode_table_fields {T} (encode : T -> list field) b offset size items :
  encode_table encode b offset size items = put_fields b 0 (table offset size (encode <$> items)).
Proof.
  revert b offset. induction items as [|i items IH]; intros b offset; [done |]. cbn [encode_table fmap list_fmap table].
  by rewrite IH, put_fields_app, <- put_fields_shift.
Qed.

Lemma put_bytes_empty b o l : blen l = 0 -> put_bytes b o l = b.
Proof. destruct l; [done | unfold blen; cbn; lia]. Qed.

Lemma command_encode_spec b n x :
  value_typed x ->
  (command_size x <= n /\ value_ok x /\
     command_encoder b n x = (true, put_fields (zero_bytes b 0 (command_size x)) 0 (command_written x))) \/
  (~ (command_size x <= n /\ value_ok x) /\ command_encoder b n x = (false, b)).
Proof.
  intros Ht. pose proof (validate_source_spec _ (as_source_typed x Ht)) as Hv. fold (value_ok x) in Hv.
  unfold command_encoder, kb2_gpu_command_encode. cbn [negb].
  destruct (decide (validate_source (Some (as_source x)) = KB2_PROTOCOL_OK)) as [Hok | Hno].
  2: { right. rewrite <- Hv. split; [tauto |]. unfold kb2_gpu_command_encoded_size. cbn [negb].
       by destruct (validate_source _). }
  pose proof (proj1 Hv Hok) as Hvok. rewrite (command_encoded_size_spec x Hvok Hok).
  destruct (Z.ltb_spec n (command_size x)); [right; split; [lia | done] |]. left. split_and!; [done | done |].
  unfold status_encoded. rewrite bool_decide_eq_true_2 by done. cbn [default]. f_equal.
  destruct (command_sizes x Hvok) as (Ha & Hs & Ht' & Hi & Hsz). pose proof (blen_nonneg (vl_inline x)) as Hi0.
  destruct (command_source_items x) as (-> & -> & -> & Einl).
  cbn [as_source so_argument_count so_span_count so_attachment_count so_inline_length so_generation so_session_id so_command_set_id
    so_command_id so_flags so_deadline_ns] in *.
  rewrite Einl. change KB2_GPU_COMMAND_HEADER_SIZE with 128. change KB2_GPU_ARGUMENT_DESCRIPTOR_SIZE with 32.
  change KB2_GPU_SPAN_DESCRIPTOR_SIZE with 40. change KB2_GPU_ATTACHMENT_DESCRIPTOR_SIZE with 48.
  cbv zeta. rewrite !(u64_small (Z.of_nat _ * _)) by (unfold is_u64; lia).
  rewrite !(u64_small (128 + _)) by (unfold is_u64; lia). rewrite !(u64_small (128 + _ + _)) by (unfold is_u64; lia).
  rewrite !(u64_small (128 + _ + _ + _)) by (unfold is_u64; lia).
  replace (128 + Z.of_nat (length (vl_arguments x)) * 32 + Z.of_nat (length (vl_spans x)) * 40 +
    Z.of_nat (length (vl_attachments x)) * 48) with (inline_base x) by (unfold inline_base, attachment_base, span_base; lia).
  replace (128 + Z.of_nat (length (vl_arguments x)) * 32 + Z.of_nat (length (vl_spans x)) * 40) with (attachment_base x)
    by (unfold attachment_base, span_base; lia).
  replace (128 + Z.of_nat (length (vl_arguments x)) * 32) with (span_base x) by (unfold span_base; lia).
  rewrite !u32_small by (unfold is_u32, command_size, inline_base, attachment_base, span_base in *; lia).
  rewrite !encode_table_fields. unfold command_written. rewrite !put_fields_app. cbn [put_fields put_field]. rewrite Z.add_0_l.
  destruct (Z.eqb_spec (blen (vl_inline x)) 0) as [Ez |]; [| done].
  by rewrite (put_bytes_empty _ _ _ Ez).
Qed.

(** ** Decoding *)

Lemma decode_argument_spec c at_ a : decode_argument c at_ = a <-> Forall (reads c at_) (argument_fields a).
Proof.
  unfold argument_fields. rewrite !Forall_cons, Forall_nil. cbn [reads]. unfold decode_argument. split.
  - intros <-. done.
  - intros (? & ? & ? & ? & ? & ? & _). destruct a. cbn in *. f_equal; done.
Qed.

Lemma decode_span_spec c at_ p : decode_span c at_ = p <-> Forall (reads c at_) (span_fields p).
Proof.
  unfold span_fields. rewrite !Forall_cons, Forall_nil. cbn [reads]. unfold decode_span. split.
  - intros <-. done.
  - intros (? & ? & ? & ? & ? & ? & ? & ? & _). destruct p. cbn in *. f_equal; done.
Qed.

Lemma decode_attachment_spec c at_ t : decode_attachment c at_ = t <-> Forall (reads c at_) (attachment_fields t).
Proof.
  unfold attachment_fields. rewrite !Forall_cons, Forall_nil. cbn [reads]. unfold decode_attachment. split.
  - intros <-. done.
  - intros (? & ? & ? & ? & ? & ? & ? & ? & _). destruct t. cbn in *. f_equal; done.
Qed.

Lemma decode_rows_spec {T} (decode : list Z -> Z -> T) (fields : T -> list field) c offset size l :
  (forall at_ v, decode c at_ = v <-> Forall (reads c at_) (fields v)) ->
  decode_rows decode c offset size (Z.of_nat (length l)) = l <-> Forall (reads c 0) (table offset size (fields <$> l)).
Proof.
  intros Hd. rewrite table_reads. setoid_rewrite list_lookup_fmap. unfold decode_rows. split.
  - intros <- i r E. rewrite list_lookup_fmap in E. destruct (seqZ _ _ !! i) as [j |] eqn:Ej; [| done].
    apply lookup_seqZ in Ej as [-> _]. cbn in E. injection E as <-. apply Hd. f_equal. lia.
  - intros H. apply list_eq. intros i. rewrite list_lookup_fmap. destruct (l !! i) as [v |] eqn:Ev.
    + pose proof (lookup_lt_Some _ _ _ Ev). rewrite lookup_seqZ_lt by lia. cbn. f_equal. apply Hd.
      specialize (H i (fields v)). rewrite Ev in H. specialize (H eq_refl). by replace (offset + (0 + Z.of_nat i) * size) with
        (offset + size * Z.of_nat i) by lia.
    + apply lookup_ge_None in Ev. rewrite lookup_seqZ_ge by lia. done.
Qed.

Lemma reserved_rows_spec {T} c offset size o (l : list T) :
  reserved_zero c offset size (Z.of_nat (length l)) o = true <->
  Forall (reads c 0) (table offset size ((fun _ => [Raw o 4 (replicate 4 0)]) <$> l)).
Proof.
  rewrite table_reads. setoid_rewrite list_lookup_fmap. unfold reserved_zero. rewrite forallb_forall.
  setoid_rewrite <- list_elem_of_In. split.
  - intros H i r E. destruct (l !! i) eqn:El; [| done]. injection E as <-. apply Forall_singleton.
    apply (zero_run_reads c _ o 4); [done |]. rewrite <- (H (Z.of_nat i)); [| apply lookup_lt_Some in El; apply elem_of_seqZ; lia].
    unfold all_zero. by replace (offset + Z.of_nat i * size) with (offset + size * Z.of_nat i) by lia.
  - intros H i Hi%elem_of_seqZ. destruct (lookup_lt_is_Some_2 l (Z.to_nat i)) as [v Ev]; [lia |].
    specialize (H (Z.to_nat i)). rewrite Ev in H. specialize (H _ eq_refl). rewrite Forall_singleton in H.
    apply (zero_run_reads c _ o 4) in H; [| done]. rewrite Z2Nat.id, (Z.mul_comm size) in H by lia. exact H.
Qed.

Lemma length_decode_rows {T} (decode : list Z -> Z -> T) c offset size count :
  0 <= count -> Z.of_nat (length (decode_rows decode c offset size count)) = count.
Proof. intros. unfold decode_rows. rewrite length_fmap, length_seqZ. lia. Qed.

Lemma omap_rows {T} (f : Z -> option T) (g : Z -> T) count :
  (forall i, 0 <= i < count -> f i = Some (g i)) -> omap f (seqZ 0 count) = g <$> seqZ 0 count.
Proof.
  intros H. assert (Hl : forall l : list Z, (forall i, i ∈ l -> 0 <= i < count) -> omap f l = g <$> l).
  { induction l as [|i l IH]; intros Hi; [done |]. cbn. rewrite H by (apply Hi; left). f_equal. apply IH. intros. apply Hi. by right. }
  apply Hl. intros i ?%elem_of_seqZ. lia.
Qed.

(** The accessors give the rows. *)
Lemma value_rows c n :
  let command := decode_header c n in
  vl_arguments (value_of command) = decode_rows decode_argument c (load_u32 c 84) 32 (load_u32 c 68) /\
  vl_spans (value_of command) = decode_rows decode_span c (load_u32 c 88) 40 (load_u32 c 72) /\
  vl_attachments (value_of command) = decode_rows decode_attachment c (load_u32 c 92) 48 (load_u32 c 76) /\
  vl_inline (value_of command) = take (Z.to_nat (load_u32 c 80)) (drop (Z.to_nat (load_u32 c 96)) c).
Proof.
  split_and!; [apply omap_rows; intros i Hi .. | done].
  - unfold kb2_gpu_command_argument. rewrite (proj2 (Z.leb_gt _ _)) by apply Hi. done.
  - unfold kb2_gpu_command_span. rewrite (proj2 (Z.leb_gt _ _)) by apply Hi. done.
  - unfold kb2_gpu_command_attachment. rewrite (proj2 (Z.leb_gt _ _)) by apply Hi. done.
Qed.

(** The offsets of the header are those of tables one after another. *)
Definition offsets_hold (c : list Z) (n na ns nt ni : Z) : Prop :=
  na <= 256 /\ ns <= 128 /\ nt <= 64 /\ ni <= 4096 /\ load_u32 c 84 = 128 /\ load_u32 c 88 = 128 + 32 * na /\
  load_u32 c 92 = 128 + 32 * na + 40 * ns /\ load_u32 c 96 = 128 + 32 * na + 40 * ns + 48 * nt /\
  n = 128 + 32 * na + 40 * ns + 48 * nt + ni /\ load_u32 c 0 = n.

Lemma command_offsets_spec c n :
  command_offsets_valid c n = true <-> offsets_hold c n (load_u32 c 68) (load_u32 c 72) (load_u32 c 76) (load_u32 c 80).
Proof.
  unfold command_offsets_valid, offsets_hold. cbv zeta.
  change KB2_GPU_COMMAND_HEADER_ARGUMENT_COUNT_OFFSET with 68. change KB2_GPU_COMMAND_HEADER_SPAN_COUNT_OFFSET with 72.
  change KB2_GPU_COMMAND_HEADER_ATTACHMENT_COUNT_OFFSET with 76. change KB2_GPU_COMMAND_HEADER_INLINE_LENGTH_OFFSET with 80.
  change KB2_GPU_COMMAND_HEADER_ARGUMENT_TABLE_OFFSET_OFFSET with 84. change KB2_GPU_COMMAND_HEADER_SPAN_TABLE_OFFSET_OFFSET with 88.
  change KB2_GPU_COMMAND_HEADER_ATTACHMENT_TABLE_OFFSET_OFFSET with 92. change KB2_GPU_COMMAND_HEADER_INLINE_OFFSET_OFFSET with 96.
  change KB2_GPU_COMMAND_HEADER_TOTAL_SIZE_OFFSET with 0. change KB2_GPU_COMMAND_HEADER_SIZE with 128.
  change KB2_GPU_ARGUMENT_DESCRIPTOR_SIZE with 32. change KB2_GPU_SPAN_DESCRIPTOR_SIZE with 40.
  change KB2_GPU_ATTACHMENT_DESCRIPTOR_SIZE with 48. change KB2_GPU_MAX_ARGUMENTS with 256. change KB2_GPU_MAX_SPANS with 128.
  change KB2_GPU_MAX_ATTACHMENTS with 64. change KB2_GPU_MAX_INLINE_BYTES with 4096.
  pose proof (load_u32_range c 68) as H1. pose proof (load_u32_range c 72) as H2. pose proof (load_u32_range c 76) as H3.
  pose proof (load_u32_range c 80) as H4. unfold is_u32 in *.
  set (na := load_u32 c 68) in *. set (ns := load_u32 c 72) in *. set (nt := load_u32 c 76) in *. set (ni := load_u32 c 80) in *.
  destruct (Z.ltb_spec 256 na), (Z.ltb_spec 128 ns), (Z.ltb_spec 64 nt), (Z.ltb_spec 4096 ni); cbn [orb];
    try (split; [done | lia]).
  destruct (Z.eqb_spec (load_u32 c 84) 128); cbn [negb]; [| split; [done | tauto]].
  rewrite size_add_multiply_small by (unfold SIZE_MAX, U64_MAX; lia).
  destruct (Z.eqb_spec (load_u32 c 88) (128 + na * 32)); cbn [negb]; [| split; [done | lia]].
  rewrite size_add_multiply_small by (unfold SIZE_MAX, U64_MAX; lia).
  destruct (Z.eqb_spec (load_u32 c 92) (128 + na * 32 + ns * 40)); cbn [negb]; [| split; [done | lia]].
  rewrite size_add_multiply_small by (unfold SIZE_MAX, U64_MAX; lia).
  destruct (Z.eqb_spec (load_u32 c 96) (128 + na * 32 + ns * 40 + nt * 48)); cbn [negb orb]; [| split; [done | lia]].
  rewrite (proj2 (Z.ltb_ge _ _)) by (unfold SIZE_MAX, U64_MAX; lia). rewrite u64_small by (unfold is_u64; lia).
  rewrite andb_true_iff, !Z.eqb_eq. lia.
Qed.

Lemma get_bytes_suffix c off len :
  Forall is_u8 c -> 0 <= off -> 0 <= len -> blen c = off + len -> get_bytes c off len = drop (Z.to_nat off) c.
Proof.
  intros Hu Ho Hl E. unfold blen in E. apply list_eq. intros i. unfold get_bytes. rewrite list_lookup_fmap, lookup_drop.
  destruct (decide (Z.of_nat i < len)) as [Hlt |].
  - rewrite lookup_seqZ_lt by lia. cbn. destruct (lookup_lt_is_Some_2 c (Z.to_nat off + i)) as [v Hv]; [lia |]. rewrite Hv. f_equal.
    unfold get_byte. replace (Z.to_nat (off + (0 + Z.of_nat i))) with (Z.to_nat off + i)%nat by lia.
    rewrite (nth_lookup_Some _ _ _ _ Hv). apply u8_small. by eapply Forall_lookup_1 in Hu.
  - rewrite lookup_seqZ_ge by lia. symmetry. apply lookup_ge_None. lia.
Qed.

(** The tests of the decoder before the check of the command. *)
Definition header_tests (c : list Z) (n : Z) : Prop :=
  bytes_equal c 4 KB2_GPU_ABI_IDENTITY_BYTES = true /\ bytes_equal c 8 KB2_GPU_SCHEMA_SHA256_BYTES = true /\
  all_zero c 100 4 = true /\ all_zero c 112 16 = true /\ command_offsets_valid c n = true /\
  reserved_zero c (load_u32 c 84) 32 (load_u32 c 68) 28 = true /\ reserved_zero c (load_u32 c 92) 48 (load_u32 c 76) 44 = true.

Section Buffer.
Context (c : list Z) (n : Z) (Hu : Forall is_u8 c) (Hlen : blen c = n).

Notation command := (decode_header c n).
Notation x := (value_of command).

(** The value has as many rows as the header says. *)
Lemma value_counts :
  offsets_hold c n (load_u32 c 68) (load_u32 c 72) (load_u32 c 76) (load_u32 c 80) ->
  Z.of_nat (length (vl_arguments x)) = load_u32 c 68 /\ Z.of_nat (length (vl_spans x)) = load_u32 c 72 /\
  Z.of_nat (length (vl_attachments x)) = load_u32 c 76 /\ blen (vl_inline x) = load_u32 c 80 /\
  vl_inline x = drop (Z.to_nat (load_u32 c 96)) c.
Proof.
  intros (_ & _ & _ & _ & _ & _ & _ & H96 & Hn & _). destruct (value_rows c n) as (-> & -> & -> & ->).
  pose proof (load_u32_range c 68). pose proof (load_u32_range c 72). pose proof (load_u32_range c 76). pose proof (load_u32_range c 80).
  unfold is_u32 in *. rewrite !length_decode_rows by lia. unfold blen in *.
  assert (Hd : length (drop (Z.to_nat (load_u32 c 96)) c) = Z.to_nat (load_u32 c 80)) by (rewrite length_drop; lia).
  rewrite take_ge by lia. split_and!; try done. lia.
Qed.

Lemma value_bases :
  offsets_hold c n (load_u32 c 68) (load_u32 c 72) (load_u32 c 76) (load_u32 c 80) ->
  load_u32 c 84 = 128 /\ load_u32 c 88 = span_base x /\ load_u32 c 92 = attachment_base x /\ load_u32 c 96 = inline_base x /\
  n = command_size x /\ load_u32 c 0 = command_size x.
Proof.
  intros H. destruct (value_counts H) as (E1 & E2 & E3 & E4 & _).
  destruct H as (_ & _ & _ & _ & ? & ? & ? & ? & ? & ?). unfold command_size, inline_base, attachment_base, span_base.
  rewrite E1, E2, E3, E4. lia.
Qed.

Lemma value_of_typed : value_typed x.
Proof.
  destruct (value_rows c n) as (E1 & E2 & E3 & E4).
  split; [apply load_u64_range | apply load_u64_range | apply load_u32_range | apply load_u32_range | apply load_u32_range
    | apply load_u64_range | rewrite E1 | rewrite E2 | rewrite E3 | rewrite E4; by apply Forall_take, Forall_drop];
    apply Forall_fmap, Forall_true; intros i; split; (apply load_u32_range || apply load_u64_range).
Qed.

Lemma value_source :
  offsets_hold c n (load_u32 c 68) (load_u32 c 72) (load_u32 c 76) (load_u32 c 80) ->
  as_source x = decoded_source command profile queue regions region_count.
Proof.
  intros H. destruct (value_counts H) as (E1 & E2 & E3 & E4 & E5). unfold as_source. rewrite E1, E2, E3, E4, E5.
  destruct (value_rows c n) as (-> & -> & -> & _). reflexivity.
Qed.

Lemma all_zero_reads o k : 0 <= k -> all_zero c o k = true <-> reads c 0 (Raw o k (replicate (Z.to_nat k) 0)).
Proof. intros Hk. rewrite <- (zero_run_reads c 0 o k Hk). by rewrite Z.add_0_l. Qed.

(** The tests pass exactly on a buffer with the fields of the value. *)
Lemma header_tests_reads :
  header_tests c n -> n = command_size x /\ Forall (reads c 0) (command_written x ++ command_reserved x).
Proof.
  intros (Hi & Hd & Hz0 & Hz1 & Ho%command_offsets_spec & Hra & Hrt).
  destruct (value_counts Ho) as (E1 & E2 & E3 & E4 & E5). destruct (value_bases Ho) as (B0 & B1 & B2 & B3 & B4 & B5).
  destruct (value_rows c n) as (R1 & R2 & R3 & _). split; [done |].
  apply bytes_equal_reads in Hi. apply bytes_equal_reads in Hd. apply all_zero_reads in Hz0; [| done]. apply all_zero_reads in Hz1; [| done].
  rewrite <- E1, B0 in Hra, R1. rewrite <- E2, B1 in R2. rewrite <- E3, B2 in Hrt, R3.
  apply reserved_rows_spec in Hra. apply reserved_rows_spec in Hrt.
  symmetry in R1, R2, R3. apply (decode_rows_spec _ argument_fields) in R1; [| apply decode_argument_spec].
  apply (decode_rows_spec _ span_fields) in R2; [| apply decode_span_spec].
  apply (decode_rows_spec _ attachment_fields) in R3; [| apply decode_attachment_spec].
  assert (Hempty : Forall (reads c 0) (table (span_base x) 40 ((fun _ => []) <$> vl_spans x))).
  { apply table_reads. intros i r Er. rewrite list_lookup_fmap in Er. destruct (vl_spans x !! i); [| done]. injection Er as <-. constructor. }
  unfold command_written, command_reserved, command_header_reserved. rewrite !Forall_app. split_and!; try done.
  - unfold command_header. change (blen KB2_GPU_ABI_IDENTITY_BYTES) with 4 in Hi. change (blen KB2_GPU_SCHEMA_SHA256_BYTES) with 32 in Hd.
    repeat (apply Forall_cons; split); [.. | constructor]; cbn [reads]; rewrite ?Z.add_0_l; try done; by rewrite ?E1, ?E2, ?E3, ?E4.
  - apply Forall_singleton. cbn [reads]. rewrite Z.add_0_l, E5, <- B3. rewrite get_bytes_suffix; [done | done | | apply blen_nonneg |].
    + apply load_u32_range.
    + rewrite <- E5, Hlen, B4. unfold command_size. by rewrite B3.
  - repeat constructor; done.
Qed.
End Buffer.

(** A buffer with the fields of a value passes, and decodes to it. *)
Lemma reads_header_tests c n v :
  Forall is_u8 c -> blen c = n -> n = command_size v -> value_ok v ->
  Forall (reads c 0) (command_written v ++ command_reserved v) -> header_tests c n /\ value_of (decode_header c n) = v.
Proof.
  intros Hu Hlen Hn Hok Hr. destruct (command_sizes v Hok) as (Ha & Hs & Ht & Hi & Hsz). pose proof (blen_nonneg (vl_inline v)) as Hi0.
  unfold command_written, command_reserved, command_header_reserved in Hr. rewrite !Forall_app in Hr.
  destruct Hr as ((Hh & Hta & Hts & Htt & Hin) & Hz & Hza & _ & Hzt & _).
  unfold command_header in Hh. solve_reads.
  assert (Ho : offsets_hold c n (load_u32 c 68) (load_u32 c 72) (load_u32 c 76) (load_u32 c 80)).
  { unfold offsets_hold. rewrite_loads c. unfold command_size, inline_base, attachment_base, span_base in *. lia. }
  assert (Hx : value_of (decode_header c n) = v).
  { destruct (value_rows c n) as (R1 & R2 & R3 & _). destruct (value_counts c n Hlen Ho) as (_ & _ & _ & _ & R4).
    apply (decode_rows_spec decode_argument argument_fields) in Hta; [| apply decode_argument_spec].
    apply (decode_rows_spec decode_span span_fields) in Hts; [| apply decode_span_spec].
    apply (decode_rows_spec decode_attachment attachment_fields) in Htt; [| apply decode_attachment_spec].
    assert (Hinl : load_u32 c 96 = inline_base v) by done.
    assert (E4 : drop (Z.to_nat (load_u32 c 96)) c = vl_inline v).
    { rewrite Hinl. rewrite <- (get_bytes_suffix c (inline_base v) (blen (vl_inline v))); [done | done | | done |].
      - unfold inline_base, attachment_base, span_base. lia.
      - rewrite Hlen, Hn. done. }
    rewrite E4 in R4. revert R1 R2 R3. rewrite_loads c. rewrite Hta, Hts, Htt. intros R1 R2 R3.
    apply value_ext; done. }
  split; [| done]. unfold header_tests. rewrite command_offsets_spec.
  assert (Hraa : reserved_zero c 128 32 (Z.of_nat (length (vl_arguments v))) 28 = true) by by apply reserved_rows_spec.
  assert (Hrtt : reserved_zero c (attachment_base v) 48 (Z.of_nat (length (vl_attachments v))) 44 = true) by by apply reserved_rows_spec.
  split_and!; [apply bytes_equal_reads; done | apply bytes_equal_reads; done | by apply all_zero_reads | by apply all_zero_reads | done | ..];
    rewrite_loads c; done.
Qed.

(** ** The format *)

Lemma agree_get_bytes_prefix b n : agree (get_bytes b 0 n) b 0 n.
Proof.
  intros j Hj. unfold get_byte at 1, get_bytes. rewrite (nth_lookup_Some _ (Z.to_nat j) _ (get_byte b j)); [apply u8_small, get_byte_u8 |].
  rewrite list_lookup_fmap, lookup_seqZ_lt by lia. cbn. do 2 f_equal. lia.
Qed.

Lemma profile_known s : command_ok s -> profile_kind_valid (so_profile_kind s) = true.
Proof.
  intros [_ _ _ (n & Hin & _) _ _ _ _ _ _ _]. unfold profile_sets in Hin. cbv zeta in Hin. unfold profile_kind_valid.
  destruct (so_profile_kind s =? KB2_GPU_PROFILE_VIRGL); [done |]. destruct (so_profile_kind s =? KB2_GPU_PROFILE_I915); [done |].
  destruct (so_profile_kind s =? KB2_GPU_PROFILE_AMDGPU); [done | by apply elem_of_nil in Hin].
Qed.

(** The decoder in terms of its tests. *)
Lemma command_decode_spec c n v :
  Forall is_u8 c -> blen c = n ->
  status_decoded (kb2_gpu_command_decode (Some c) n expected profile queue regions region_count true) = Some v <->
  v = decode_header c n /\ expected <> 0 /\ profile_kind_valid profile = true /\ 128 <= n /\ header_tests c n /\
  validate_source (Some (decoded_source v profile queue regions region_count)) = KB2_PROTOCOL_OK /\
  cm_generation v = expected.
Proof.
  intros Hu Hlen. unfold kb2_gpu_command_decode, status_decoded, header_tests. cbn [negb orb].
  change KB2_GPU_COMMAND_HEADER_SIZE with 128. change KB2_GPU_COMMAND_HEADER_ABI_IDENTITY_OFFSET with 4.
  change KB2_GPU_COMMAND_HEADER_SCHEMA_DIGEST_OFFSET with 8. change KB2_GPU_COMMAND_HEADER_RESERVED_0_OFFSET with 100.
  change KB2_GPU_COMMAND_HEADER_RESERVED_1_OFFSET with 112. change KB2_GPU_ARGUMENT_DESCRIPTOR_SIZE with 32.
  change KB2_GPU_ATTACHMENT_DESCRIPTOR_SIZE with 48. change KB2_GPU_ARGUMENT_DESCRIPTOR_RESERVED_OFFSET with 28.
  change KB2_GPU_ATTACHMENT_DESCRIPTOR_RESERVED_OFFSET with 44. cbv zeta.
  change (cm_offset (decode_header c n) 0) with (load_u32 c 84). change (cm_count (decode_header c n) 0) with (load_u32 c 68).
  change (cm_offset (decode_header c n) 2) with (load_u32 c 92). change (cm_count (decode_header c n) 2) with (load_u32 c 76).
  destruct (Z.eqb_spec expected 0), (profile_kind_valid profile); cbn [orb negb]; try (split; [done | naive_solver]).
  destruct (Z.ltb_spec n 128); [split; [done | intuition lia] |].
  destruct (bytes_equal c 4 _), (bytes_equal c 8 _); cbn [orb negb]; try (split; [done | naive_solver]).
  destruct (all_zero c 100 4), (all_zero c 112 16), (command_offsets_valid c n); cbn [orb negb]; try (split; [done | naive_solver]).
  destruct (reserved_zero c (load_u32 c 84) 32 _ 28); cbn [negb]; [| split; [done | naive_solver]].
  destruct (reserved_zero c (load_u32 c 92) 48 _ 44); cbn [negb]; [| split; [done | naive_solver]].
  destruct (validate_source _) eqn:Ev; try (split; [done | intros (-> & _ & _ & _ & _ & ? & _); congruence]).
  destruct (Z.eqb_spec (cm_generation (decode_header c n)) expected); cbn [negb].
  - rewrite bool_decide_eq_true_2 by done. cbn. split; [intros [= <-]; split_and!; done | by intros (-> & _)].
  - split; [done |]. intros (-> & _ & _ & _ & _ & _ & ?). done.
Qed.

Lemma command_decode_reads b n v :
  command_decoder b n = Some v ->
  value_typed v /\ value_ok v /\ (n = command_size v /\ vl_generation v = expected) /\
  Forall (reads b 0) (command_written v ++ command_reserved v).
Proof.
  unfold command_decoder. intros (cmd & Hd & ->)%fmap_Some. set (c := get_bytes b 0 n) in *.
  assert (Hn : 0 <= n).
  { destruct (Z.le_gt_cases 0 n) as [| Hneg]; [done |]. unfold kb2_gpu_command_decode, status_decoded in Hd. cbn [negb orb] in Hd.
    destruct (_ || _); [done |]. rewrite (proj2 (Z.ltb_lt n KB2_GPU_COMMAND_HEADER_SIZE)) in Hd; [done |].
    change KB2_GPU_COMMAND_HEADER_SIZE with 128. lia. }
  destruct (get_bytes_typed b 0 n Hn) as [Hlen Hu]. fold c in Hlen, Hu.
  apply command_decode_spec in Hd as (-> & _ & _ & _ & Htests & Hv & Hg); [| done | done].
  destruct (header_tests_reads c n Hu Hlen Htests) as [Hsz Hr]. pose proof (value_of_typed c n Hu) as Ht.
  destruct Htests as (_ & _ & _ & _ & Ho%command_offsets_spec & _).
  rewrite <- (value_source c n Hlen Ho) in Hv. apply validate_source_spec in Hv; [| by apply as_source_typed].
  split_and!; [done | exact Hv | done | exact Hg |].
  eapply fields_agree; [| | exact Hr].
  - apply forallb_forall. intros f Hf%list_elem_of_In. apply inside_spec. destruct (command_tiled (value_of (decode_header c n))) as [_ Hi _ _ _].
    apply (Hi f Hf).
  - rewrite Z.add_0_l, <- Hsz. apply agree_get_bytes_prefix.
Qed.

Lemma command_reads_decode b n v :
  value_typed v -> value_ok v -> n = command_size v /\ vl_generation v = expected ->
  Forall (reads b 0) (command_written v ++ command_reserved v) -> command_decoder b n = Some v.
Proof.
  intros Ht Hok [Hsz Hg] Hr. pose proof (blen_nonneg (vl_inline v)) as Hi0.
  assert (Hn : 128 <= n) by (unfold command_size, inline_base, attachment_base, span_base in *; lia).
  destruct (get_bytes_typed b 0 n ltac:(lia)) as [Hlen Hu]. set (c := get_bytes b 0 n) in *.
  assert (Hrc : Forall (reads c 0) (command_written v ++ command_reserved v)).
  { eapply fields_agree; [| | exact Hr].
    - apply forallb_forall. intros f Hf%list_elem_of_In. apply inside_spec. destruct (command_tiled v) as [_ Hi _ _ _]. apply (Hi f Hf).
    - rewrite Z.add_0_l, <- Hsz. apply agree_sym, agree_get_bytes_prefix. }
  destruct (reads_header_tests c n v Hu Hlen Hsz Hok Hrc) as [Htests Hx].
  unfold command_decoder. fold c. apply fmap_Some. exists (decode_header c n). split; [| done].
  apply command_decode_spec; [done | done |]. pose proof Htests as (_ & _ & _ & _ & Ho%command_offsets_spec & _).
  pose proof (ck_identity _ Hok) as (Hg0 & _ & _). cbn in Hg0. split_and!; try done.
  - by rewrite <- Hg.
  - apply (profile_known _ Hok).
  - rewrite <- (value_source c n Hlen Ho), Hx. apply validate_source_spec; [by apply as_source_typed | done].
  - rewrite <- Hg, <- Hx. done.
Qed.

Lemma command_written_typed v : value_typed v -> value_ok v -> Forall field_typed (command_written v).
Proof.
  intros Ht Hok. destruct (command_sizes v Hok) as (Ha & Hs & Htt & Hi & Hsz). pose proof (blen_nonneg (vl_inline v)) as Hi0.
  destruct Ht as [? ? ? ? ? ? Hta Hts Htat Hti]. unfold command_written. rewrite !Forall_app. split_and!.
  - unfold command_header. repeat (apply Forall_cons; split); [.. | constructor]; cbn [field_typed]; unfold is_u32;
      try (unfold command_size, inline_base, attachment_base, span_base in *; lia); try done;
      split; [done | repeat constructor; done | done | repeat constructor; done].
  - apply table_typed, Forall_fmap. eapply Forall_impl; [exact Hta |]. intros a []. by repeat (apply Forall_cons; split).
  - apply table_typed, Forall_fmap. eapply Forall_impl; [exact Hts |]. intros a []. by repeat (apply Forall_cons; split).
  - apply table_typed, Forall_fmap. eapply Forall_impl; [exact Htat |]. intros a []. by repeat (apply Forall_cons; split).
  - apply Forall_singleton. cbn. done.
Qed.

Lemma command_wire :
  WireFormat command_encoder command_decoder value_typed value_ok (fun n v => command_size v <= n)
    (fun n v => n = command_size v /\ vl_generation v = expected) command_size.
Proof.
  apply (record_wire command_size command_written command_reserved).
  - intros v _. pose proof (blen_nonneg (vl_inline v)). unfold command_size, inline_base, attachment_base, span_base. lia.
  - apply command_written_typed.
  - intros v _. apply command_reserved_zero.
  - intros v _. eapply tiled_separate, command_tiled.
  - intros v _. eapply tiled_apart, command_tiled.
  - intros v _. eapply tiled_covered, command_tiled.
  - apply command_encode_spec.
  - intros b n v. unfold command_encoder, kb2_gpu_command_encode, status_encoded. cbn [negb].
    destruct (kb2_gpu_command_encoded_size _ _) as [[] [size |]]; try done. by destruct (n <? size).
  - apply command_decode_reads.
  - apply command_reads_decode.
  - done.
  - intros n v _ [-> _]. lia.
Qed.
End Wire.
