(* ===== verification/GpuCommandClaims.v ===== *)
(** The properties of GPU commands. *)

From Stdlib Require Import ZArith Lia.
From stdpp Require Import base numbers tactics list_numbers list.
From S2P Require Import Prelude Bytes Layout Sorted Protocol GpuLayout GpuDrmLayout GpuCompletion GpuRequest GpuRequestSpec.
From S2P Require Import GpuShapeSpec GpuSemantics GpuRules GpuAmdgpuSpec GpuValidateSpec GpuCommand GpuCommandWire.

Open Scope Z_scope.
Open Scope kobox_scope.

(** * Concrete commands *)

Definition sample_regions : list kb2_gpu_region := [mkRegion 7 3 4096; mkRegion 9 2 4096].

(** A virtgpu EXECBUFFER with 16 bytes of commands in region 7. *)
Definition execbuffer : command_value :=
  mkValue 4 11 KB2_GPU_DRM_VIRTGPU_SET_ID KB2_GPU_DRM_VIRTGPU_COMMAND_EXECBUFFER 0 0
    [mkArgument 1 KB2_GPU_ARGUMENT_INLINE 1 KB2_GPU_DRM_VIRTGPU_COMMAND_EXECBUFFER_REQUEST_INLINE_RECORD 0 24;
     mkArgument 2 KB2_GPU_ARGUMENT_SPAN 1 104 1 16]
    [mkSpan 1 7 64 16 1 104 16 1] []
    [0;0;0;0; 0;0;0;0; 16;0;0;0; 0;0;0;0; 0;0;0;0; 0;0;0;0].

Definition execbuffer_source : kb2_gpu_command_source :=
  as_source KB2_GPU_PROFILE_VIRGL KB2_GPU_QUEUE_EXECUTION (Some sample_regions) 2 execbuffer.

(** An AMDGPU BO_LIST with two entries. *)
Definition bo_list : command_value :=
  mkValue 4 11 KB2_GPU_DRM_AMDGPU_SET_ID KB2_GPU_DRM_AMDGPU_COMMAND_BO_LIST 0 0
    [mkArgument 1 KB2_GPU_ARGUMENT_INLINE 1 KB2_GPU_DRM_AMDGPU_COMMAND_BO_LIST_REQUEST_INLINE_RECORD 0
       KB2_GPU_DRM_AMDGPU_RECORD_BO_LIST_REQUEST_SIZE;
     mkArgument 2 KB2_GPU_ARGUMENT_SPAN 1 KB2_GPU_DRM_AMDGPU_RECORD_BO_LIST_ENTRY 3 2]
    [mkSpan 3 7 0 16 1 KB2_GPU_DRM_AMDGPU_RECORD_BO_LIST_ENTRY 2 1] []
    ([0;0;0;0; 0;0;0;0; 2;0;0;0; 0;0;0;0] ++ replicate (Z.to_nat (KB2_GPU_DRM_AMDGPU_RECORD_BO_LIST_REQUEST_SIZE - 16)) 0).

Definition bo_list_source : kb2_gpu_command_source :=
  as_source KB2_GPU_PROFILE_AMDGPU KB2_GPU_QUEUE_EXECUTION (Some sample_regions) 2 bo_list.

(** A transfer between syncobjs with the value [reserved] in its reserved field. *)
Definition transfer (reserved : Z) : command_value :=
  mkValue 4 11 KB2_GPU_DRM_CORE_SET_ID 24 0 0
    [mkArgument 1 KB2_GPU_ARGUMENT_INLINE 1 KB2_GPU_DRM_CORE_COMMAND_SYNCOBJ_TRANSFER_REQUEST_INLINE_RECORD 0 32] [] []
    ([1;0;0;0; 2;0;0;0] ++ replicate 20 0 ++ [reserved;0;0;0]).

Lemma sample_regions_typed : array_typed (Some sample_regions) 2 region_typed.
Proof. split; [done |]. split; [done |]. by repeat constructor. Qed.

Lemma execbuffer_typed : value_typed execbuffer.
Proof. split; first [by vm_compute | repeat constructor; by vm_compute]. Qed.

Lemma bo_list_typed : value_typed bo_list.
Proof. split; first [by vm_compute | repeat constructor; by vm_compute]. Qed.

(** C34. GPU commands are an exact wire format, for every profile, queue class, set of
    regions and expected generation: the encoder accepts exactly the commands that the
    specification of a request allows and that fit the buffer, writes nothing past the
    message and leaves the buffer alone when it refuses; what it wrote decodes, through
    the accessors, to the same arguments, spans, attachments and inline bytes; the
    decoder accepts nothing but what the encoder writes, of exactly the message's size
    and of the expected generation, and looks at no other byte. *)
Theorem gpu_command_wire profile queue regions region_count expected :
  is_u32 profile -> is_u32 queue -> array_typed regions region_count region_typed ->
  WireFormat (command_encoder profile queue regions region_count)
    (command_decoder profile queue regions region_count expected) value_typed
    (value_ok profile queue regions region_count) (fun n v => command_size v <= n)
    (fun n v => n = command_size v /\ vl_generation v = expected) command_size.
Proof. apply command_wire. Qed.

Definition execbuffer_encoded : bool * list Z :=
  command_encoder KB2_GPU_PROFILE_VIRGL KB2_GPU_QUEUE_EXECUTION (Some sample_regions) 2 (replicate 300 255) 300 execbuffer.

Lemma gpu_command_wire_witness :
  execbuffer_encoded.1 = true /\
  command_decoder KB2_GPU_PROFILE_VIRGL KB2_GPU_QUEUE_EXECUTION (Some sample_regions) 2 4 execbuffer_encoded.2 256 = Some execbuffer /\
  command_decoder KB2_GPU_PROFILE_VIRGL KB2_GPU_QUEUE_EXECUTION (Some sample_regions) 2 5 execbuffer_encoded.2 256 = None.
Proof.
  split; [vm_compute; reflexivity |]. split; [| vm_compute; reflexivity].
  refine (@wire_roundtrip _ _ _ _ _ _ _ _
    (gpu_command_wire KB2_GPU_PROFILE_VIRGL KB2_GPU_QUEUE_EXECUTION (Some sample_regions) 2 4
       ltac:(vm_compute; split; discriminate || reflexivity) ltac:(vm_compute; split; discriminate || reflexivity) sample_regions_typed)
    (replicate 300 255) execbuffer_encoded.2 300 256 execbuffer execbuffer_typed _ _ _).
  - vm_compute. discriminate.
  - vm_compute. reflexivity.
  - vm_compute. split; reflexivity.
Defined.

(** C35. The check of a GPU command accepts exactly the commands the specification of a
    request allows, and refuses every other as malformed: nonzero generation and
    session, no flags, bounded tables, a command of one of the profile's sets on the
    queue of that set, a deadline for the commands that wait and for no other (an
    idle wait may poll), regions with distinct ids, spans inside their regions that
    share no byte one of them may write, attachments of distinct objects, arguments
    that refer to existing spans and attachments and leave none out, the inline record
    and arguments the schema declares for the command, and the rules of its record. *)
Theorem gpu_validate_decides s :
  source_typed s ->
  (validate_source (Some s) = KB2_PROTOCOL_OK <-> command_ok s) /\
  (validate_source (Some s) = KB2_PROTOCOL_MALFORMED <-> ~ command_ok s).
Proof.
  intros Ht. rewrite <- (validate_source_spec s Ht). split; [done |]. unfold validate_source. repeat case_match; split; congruence || done.
Qed.

Lemma gpu_validate_decides_witness : command_ok execbuffer_source /\ ~ command_ok (with_data execbuffer_source (replicate 24 255)).
Proof.
  assert (Ht : forall d, blen d = 24 -> Forall is_u8 d -> source_typed (with_data execbuffer_source d)).
  { intros d Hd Hu. destruct (as_source_typed KB2_GPU_PROFILE_VIRGL KB2_GPU_QUEUE_EXECUTION (Some sample_regions) 2
      ltac:(vm_compute; split; discriminate || reflexivity) ltac:(vm_compute; split; discriminate || reflexivity) sample_regions_typed
      execbuffer execbuffer_typed). split; try done. split; [done |]. split; [unfold blen in Hd; change (24 <= Z.of_nat (length d)); lia | done]. }
  split.
  - refine (proj1 (proj1 (gpu_validate_decides (with_data execbuffer_source (vl_inline execbuffer)) (Ht _ _ _))) _).
    + reflexivity.
    + apply (vt_inline _ execbuffer_typed).
    + vm_compute. reflexivity.
  - refine (proj1 (proj2 (gpu_validate_decides _ (Ht _ _ _))) _).
    + reflexivity.
    + repeat constructor; done.
    + vm_compute. reflexivity.
Defined.

(** C36. The AMDGPU requests are checked by hand-written tables, not by the generated
    catalogs that the other command sets use.  For every command but the submission of
    chunks the two agree: once the checks all sets share have passed, the hand-written
    check is the catalog check of the AMDGPU schema together with the rules of the
    command's record. *)
Theorem gpu_amdgpu_schema_agrees s :
  source_typed s -> so_command_id s <> KB2_GPU_DRM_AMDGPU_COMMAND_CS ->
  regions_valid (so_regions s) (so_region_count s) = true -> spans_valid (so_spans s) (so_span_count s) (regions_of s) = true ->
  attachments_valid (so_attachments s) (so_attachment_count s) (so_generation s) = true -> arguments_valid s = true ->
  amdgpu_request_valid s =
  catalog_request_valid amdgpu_catalog s && forallb (rule_holds s) (rules_of amdgpu_rules (so_command_id s)).
Proof.
  intros Ht Hcs Hr Hs Hta Ha. pose proof Ht as [_ _ _ _ _ Hu _ _ Ta Ts Tt _ Tr].
  apply regions_valid_spec in Hr as (_ & _ & Hr); [| done]. pose proof (array_elements _ _ _ Tr) as Hrt.
  apply command_spans_valid in Hs as [Hsc Hs]; [| done | done | done]. apply attachments_valid_spec in Hta as [Htc Hta]; [| done].
  assert (Href : references s) by (split; [done | done | by apply (array_elements _ _ _ Ts) | by apply (array_elements _ _ _ Tt)]).
  apply arguments_valid_spec in Ha as [Hac Ha]; [| done | done]. pose proof (array_elements _ _ _ Ta) as Hat.
  apply eq_iff_eq_true. rewrite andb_true_iff, (amdgpu_request_spec s Href Ha Hat Hu Hac Hsc Htc Hcs).
  by rewrite (catalog_request_spec s Href Ha Hat amdgpu_catalog amdgpu_catalog_wf Hac Hsc Htc Hu).
Qed.

Lemma gpu_amdgpu_schema_agrees_witness :
  amdgpu_request_valid bo_list_source = true /\
  amdgpu_request_valid bo_list_source =
  catalog_request_valid amdgpu_catalog bo_list_source && forallb (rule_holds bo_list_source) (rules_of amdgpu_rules 4).
Proof.
  split; [vm_compute; reflexivity |]. refine (gpu_amdgpu_schema_agrees bo_list_source _ _ _ _ _ _).
  - refine (as_source_typed KB2_GPU_PROFILE_AMDGPU KB2_GPU_QUEUE_EXECUTION (Some sample_regions) 2
      ltac:(vm_compute; split; discriminate || reflexivity) ltac:(vm_compute; split; discriminate || reflexivity) sample_regions_typed
      bo_list bo_list_typed).
  - vm_compute. discriminate.
  - vm_compute. reflexivity.
  - vm_compute. reflexivity.
  - vm_compute. reflexivity.
  - vm_compute. reflexivity.
Defined.

(** C37. The check of a command reads its inline record only inside the inline data:
    commands that differ in the memory behind it are accepted or refused alike. *)
Theorem gpu_validate_reads_inside s d d' :
  source_typed s -> so_inline_data s = Some d -> so_inline_length s <= blen d' -> Forall is_u8 d' ->
  agree d d' 0 (so_inline_length s) ->
  validate_source (Some (with_data s d')) = validate_source (Some s).
Proof.
  intros Ht Hd Hl Hu Ha. pose proof Ht as [? ? ? ? ? ? ? ? ? ? ? [Hn _] ?].
  assert (Ht' : source_typed (with_data s d')) by by split.
  assert (Hiff : command_ok (with_data s d') <-> command_ok s).
  { split; intros H; [| by apply (command_ok_data s d d')].
    replace s with (with_data (with_data s d') d) by (destruct s; cbn in *; by rewrite Hd).
    apply (command_ok_data (with_data s d') d' d); [done | by apply agree_sym | | done].
    destruct Ht as [_ _ _ _ _ _ _ _ _ _ _ [_ Hi] _]. rewrite Hd in Hi. unfold blen. cbn. lia. }
  rewrite <- (validate_source_spec _ Ht), <- (validate_source_spec _ Ht') in Hiff.
  assert (Hout : forall x, validate_source (Some x) = KB2_PROTOCOL_OK \/ validate_source (Some x) = KB2_PROTOCOL_MALFORMED).
  { intros x. unfold validate_source. repeat case_match; tauto. }
  destruct Hiff as [H1 H2]. destruct (Hout s) as [E | E]; [by rewrite E, H2 |].
  destruct (Hout (with_data s d')) as [E' | E']; [by rewrite E', H1 | congruence].
Qed.

Lemma gpu_validate_reads_inside_witness :
  validate_source (Some (with_data execbuffer_source (vl_inline execbuffer ++ [255; 255]))) = validate_source (Some execbuffer_source).
Proof.
  refine (gpu_validate_reads_inside execbuffer_source (vl_inline execbuffer) _ _ eq_refl _ _ _).
  - refine (as_source_typed KB2_GPU_PROFILE_VIRGL KB2_GPU_QUEUE_EXECUTION (Some sample_regions) 2
      ltac:(vm_compute; split; discriminate || reflexivity) ltac:(vm_compute; split; discriminate || reflexivity) sample_regions_typed
      execbuffer execbuffer_typed).
  - vm_compute. discriminate.
  - repeat first [apply Forall_nil_2 | apply Forall_cons_2; [vm_compute; split; discriminate || reflexivity |]].
  - intros j Hj. unfold get_byte. rewrite app_nth1; [reflexivity |]. change (so_inline_length execbuffer_source) with 24 in Hj. cbn. lia.
Defined.

(** The documentation asks that nonzero reserved fields be refused; the reserved field
    of this record is not looked at. *)
Lemma gpu_reserved_field_accepted :
  validate_source (Some (as_source KB2_GPU_PROFILE_VIRGL KB2_GPU_QUEUE_EXECUTION (Some sample_regions) 2 (transfer 1))) = KB2_PROTOCOL_OK.
Proof. vm_compute. reflexivity. Qed.
