(* ===== verification/I915Shape.v ===== *)
(** The shapes of the i915 requests (protocol/include/kobox2/i915_bo_shape.h,
    i915_context_shape.h, i915_exec_shape.h): which records and parameter streams the
    two ends of the i915 bridge admit.

    A predicate of the headers is a [bool]; a function with an output cell gives [None]
    where C returns 0 and the value of the cell where it returns 1.  An input is the
    list of its bytes, a null pointer is [None].

    What the i915 shapes admit: buffer-object records that agree with their ioctls and
    with the schema, parameter streams whose engine lists tile the engines, and
    execution requests inside their limits. *)

From Stdlib Require Import ZArith Lia.
From stdpp Require Import base numbers tactics list_numbers list.
From S2P Require Import Prelude Bytes Layout GpuDrmLayout.

Open Scope Z_scope.
Open Scope kobox_scope.

(** * Buffer objects *)

Record kb2_i915_bo_shape := mkBoShape {
  bo_command : Z;
  bo_ioctl : Z;
  bo_record : Z;
  bo_bytes : Z;
  bo_result_bytes : Z;
}.

(** The macro BO_SHAPE. *)
Definition BO_SHAPE (command request record bytes result : Z) : kb2_i915_bo_shape :=
  mkBoShape command request record bytes (if result =? 0 then 0 else bytes).

Definition set_result_bytes (shape : kb2_i915_bo_shape) (bytes : Z) : kb2_i915_bo_shape :=
  mkBoShape (bo_command shape) (bo_ioctl shape) (bo_record shape) (bo_bytes shape) bytes.

Definition kb2_i915_bo_shape_command (command : Z) : option kb2_i915_bo_shape :=
  let shape :=
    if command =? KB2_GPU_DRM_I915_COMMAND_GEM_CREATE then
      Some (BO_SHAPE command 0xc010645b KB2_GPU_DRM_I915_RECORD_GEM_CREATE KB2_GPU_DRM_I915_RECORD_GEM_CREATE_SIZE 1)
    else if command =? KB2_GPU_DRM_I915_COMMAND_GEM_BUSY then
      Some (BO_SHAPE command 0xc0086457 KB2_GPU_DRM_I915_RECORD_GEM_BUSY KB2_GPU_DRM_I915_RECORD_GEM_BUSY_SIZE 1)
    else if command =? KB2_GPU_DRM_I915_COMMAND_GEM_MADVISE then
      Some (BO_SHAPE command 0xc00c6466 KB2_GPU_DRM_I915_RECORD_GEM_MADVISE KB2_GPU_DRM_I915_RECORD_GEM_MADVISE_SIZE 1)
    else if command =? KB2_GPU_DRM_I915_COMMAND_GEM_WAIT then
      Some (BO_SHAPE command 0xc010646c KB2_GPU_DRM_I915_RECORD_GEM_WAIT KB2_GPU_DRM_I915_RECORD_GEM_WAIT_SIZE 1)
    else if command =? KB2_GPU_DRM_I915_COMMAND_GEM_SET_DOMAIN then
      Some (BO_SHAPE command 0x400c645f KB2_GPU_DRM_I915_RECORD_GEM_SET_DOMAIN KB2_GPU_DRM_I915_RECORD_GEM_SET_DOMAIN_SIZE 0)
    else if command =? KB2_GPU_DRM_I915_COMMAND_GEM_SET_CACHING then
      Some (BO_SHAPE command 0x4008646f KB2_GPU_DRM_I915_RECORD_GEM_SET_CACHING KB2_GPU_DRM_I915_RECORD_GEM_SET_CACHING_SIZE 0)
    else None in
  shape ← shape;
  Some (if command =? KB2_GPU_DRM_I915_COMMAND_GEM_WAIT
        then set_result_bytes shape KB2_GPU_DRM_I915_RECORD_GEM_WAIT_RESULT_SIZE else shape).

(** The loop over the commands: the first whose shape has the ioctl. *)
Definition kb2_i915_bo_shape_ioctl (request : Z) : option kb2_i915_bo_shape :=
  let commands := seqZ KB2_GPU_DRM_I915_COMMAND_GEM_CREATE
                    (KB2_GPU_DRM_I915_COMMAND_GEM_SET_CACHING - KB2_GPU_DRM_I915_COMMAND_GEM_CREATE + 1) in
  List.find (fun shape => bo_ioctl shape =? request) (omap kb2_i915_bo_shape_command commands).

Definition kb2_i915_bo_u32 (p : list Z) (o : Z) : Z :=
  Z.lor (Z.lor (Z.lor (get_byte p o) (Z.shiftl (get_byte p (o + 1)) 8)) (Z.shiftl (get_byte p (o + 2)) 16))
    (Z.shiftl (get_byte p (o + 3)) 24).

Definition kb2_i915_bo_input_valid (command : Z) (input : option (list Z)) (bytes : Z) : bool :=
  match input, kb2_i915_bo_shape_command command with
  | Some p, Some shape =>
      if negb (bytes =? bo_bytes shape) then false
      else if command =? KB2_GPU_DRM_I915_COMMAND_GEM_CREATE then
        (kb2_i915_bo_u32 p 8 =? 0) && (kb2_i915_bo_u32 p 12 =? 0)
      else if command =? KB2_GPU_DRM_I915_COMMAND_GEM_BUSY then kb2_i915_bo_u32 p 4 =? 0
      else if command =? KB2_GPU_DRM_I915_COMMAND_GEM_MADVISE then
        (kb2_i915_bo_u32 p 4 <=? 1) && (kb2_i915_bo_u32 p 8 =? 0)
      else if command =? KB2_GPU_DRM_I915_COMMAND_GEM_WAIT then kb2_i915_bo_u32 p 4 =? 0
      else if command =? KB2_GPU_DRM_I915_COMMAND_GEM_SET_DOMAIN then
        (kb2_i915_bo_u32 p 4 &~ 0xff =? 0) && (kb2_i915_bo_u32 p 8 &~ 0xff =? 0)
      else if command =? KB2_GPU_DRM_I915_COMMAND_GEM_SET_CACHING then kb2_i915_bo_u32 p 4 <=? 2
      else false
  | _, _ => false
  end.

(** * Contexts *)

Definition kb2_i915_context_u32 (p : list Z) (o : Z) : Z :=
  Z.lor (Z.lor (Z.lor (get_byte p o) (Z.shiftl (get_byte p (o + 1)) 8)) (Z.shiftl (get_byte p (o + 2)) 16))
    (Z.shiftl (get_byte p (o + 3)) 24).

Definition kb2_i915_context_u64 (p : list Z) (o : Z) : Z :=
  Z.lor (kb2_i915_context_u32 p o) (Z.shiftl (kb2_i915_context_u32 p (o + 4)) 32).

Definition kb2_i915_context_scalar (parameter : Z) : bool :=
  existsb (Z.eqb parameter) [4; 5; 6; 8; 9; 11; 12; 13; 14].

Definition kb2_i915_context_command (command : Z) : bool :=
  (KB2_GPU_DRM_I915_COMMAND_CONTEXT_CREATE <=? command) && (command <=? KB2_GPU_DRM_I915_COMMAND_CONTEXT_DESTROY).

(** The value is what is written to [aux_bytes]. *)
Definition kb2_i915_context_header (command : Z) (input : option (list Z)) (bytes : Z) : option Z :=
  match input with
  | None => None
  | Some p =>
      if negb (kb2_i915_context_command command) then None
      else if command =? KB2_GPU_DRM_I915_COMMAND_CONTEXT_DESTROY then
        if negb (bytes =? 8) || negb (kb2_i915_context_u32 p 4 =? 0) then None else Some 0
      else if negb (bytes =? 16) || negb (kb2_i915_context_u32 p 12 =? 0) then None
      else
        let params := kb2_i915_context_u32 p 4 in
        let engines := kb2_i915_context_u32 p 8 in
        if (KB2_GPU_DRM_I915_MAX_CONTEXT_PARAMS <? params) || (KB2_GPU_DRM_I915_MAX_CONTEXT_ENGINES <? engines) ||
           ((params =? 0) && negb (engines =? 0)) then None
        else if
          (if command =? KB2_GPU_DRM_I915_COMMAND_CONTEXT_CREATE then
             let flags := kb2_i915_context_u32 p 0 in
             negb (flags &~ 3 =? 0) || (negb (params =? 0) && (Z.land flags 1 =? 0))
           else negb (params =? 1)) then None
        else Some (params * 32 + engines * 4)
  end.

(** The body of the loop: [next] is the engine that the next list must start with,
    [None] the return of 0. *)
Definition context_param (p : list Z) (engines next i : Z) : option Z :=
  let q := i * 32 in
  let parameter := kb2_i915_context_u64 p q in
  let value := kb2_i915_context_u64 p (q + 8) in
  let size := kb2_i915_context_u32 p (q + 16) in
  let first := kb2_i915_context_u32 p (q + 20) in
  let count := kb2_i915_context_u32 p (q + 24) in
  if negb (kb2_i915_context_u32 p (q + 28) =? 0) then None
  else if parameter =? 10 then
    if negb (value =? 0) || (KB2_GPU_DRM_I915_MAX_CONTEXT_ENGINES_PER_PARAM <? count) then None
    else if size =? 0 then if negb (first =? 0) || negb (count =? 0) then None else Some next
    else if negb (size =? u32 (8 + u32 (count * 4))) || negb (first =? next) || (u32 (engines - next) <? count) then None
    else Some (u32 (next + count))
  else if negb (kb2_i915_context_scalar parameter) || negb (size =? 0) || negb (first =? 0) || negb (count =? 0) then None
  else Some next.

Fixpoint context_params_loop (p : list Z) (engines next : Z) (indices : list Z) : option Z :=
  match indices with
  | [] => Some next
  | i :: indices => next ← context_param p engines next i; context_params_loop p engines next indices
  end.

Definition kb2_i915_context_params (data : option (list Z)) (bytes params engines : Z) : bool :=
  if (KB2_GPU_DRM_I915_MAX_CONTEXT_PARAMS <? params) || (KB2_GPU_DRM_I915_MAX_CONTEXT_ENGINES <? engines) ||
     negb (bytes =? params * 32 + engines * 4) || (bool_decide (data = None) && negb (bytes =? 0)) then false
  else
    match context_params_loop (default [] data) engines 0 (seqZ 0 params) with
    | None => false
    | Some next => next =? engines
    end.

(** * Execution *)

Definition KB2_I915_EXEC_FLAGS : Z := 0x000cfdff.

Definition kb2_i915_exec_header (input : option (list Z)) (bytes : Z) : option Z :=
  match input with
  | None => None
  | Some p =>
      if negb (bytes =? 32) then None
      else
        let objects := kb2_i915_context_u32 p 0 in
        let fences := kb2_i915_context_u32 p 4 in
        let flags := kb2_i915_context_u64 p 16 in
        if (objects =? 0) || (KB2_GPU_DRM_I915_MAX_EXEC_OBJECTS <? objects) ||
           (KB2_GPU_DRM_I915_MAX_EXEC_FENCES <? fences) || negb (flags &~ KB2_I915_EXEC_FLAGS =? 0) ||
           ((Z.land flags (Z.shiftl 1 19) =? 0) && negb (fences =? 0)) || negb (kb2_i915_context_u32 p 28 =? 0) then None
        else
          let total := objects * 40 + fences * 8 in
          if KB2_GPU_DRM_I915_MAX_EXEC_BYTES <? total then None else Some total
  end.

Definition exec_object_valid (p : list Z) (i : Z) : bool :=
  let q := i * 40 in
  let flags := kb2_i915_context_u64 p (q + 24) in
  negb (negb (kb2_i915_context_u32 p (q + 4) =? 0) || negb (flags &~ 0xff =? 0) ||
        ((Z.land flags (Z.shiftl 1 5) =? 0) && negb (kb2_i915_context_u64 p (q + 32) =? 0))).

Definition exec_fence_valid (p : list Z) (objects i : Z) : bool :=
  kb2_i915_context_u32 p (objects * 40 + i * 8 + 4) &~ 3 =? 0.

Definition kb2_i915_exec_payload (input : option (list Z)) (bytes objects fences : Z) : bool :=
  match input with
  | None => false
  | Some p =>
      if (objects =? 0) || (KB2_GPU_DRM_I915_MAX_EXEC_OBJECTS <? objects) || (KB2_GPU_DRM_I915_MAX_EXEC_FENCES <? fences) ||
         negb (bytes =? objects * 40 + fences * 8) || (KB2_GPU_DRM_I915_MAX_EXEC_BYTES <? bytes) then false
      else forallb (exec_object_valid p) (seqZ 0 objects) && forallb (exec_fence_valid p objects) (seqZ 0 fences)
  end.

(** * Words *)

Lemma bo_word p o : kb2_i915_bo_u32 p o = load_u32 p o.
Proof. done. Qed.

Lemma context_word p o : kb2_i915_context_u32 p o = load_u32 p o.
Proof. done. Qed.

Lemma context_long p o : kb2_i915_context_u64 p o = load_u64 p o.
Proof. done. Qed.

Lemma context_word_range p o : 0 <= kb2_i915_context_u32 p o < 2 ^ 32.
Proof. rewrite context_word. apply load_u32_range. Qed.

(** * Buffer objects *)

#[export] Instance bo_shape_eq_dec : EqDecision kb2_i915_bo_shape.
Proof. solve_decision. Defined.

Definition bo_commands : list Z := [5; 7; 8; 9; 10; 11].

Lemma bo_command_known command shape :
  kb2_i915_bo_shape_command command = Some shape -> command ∈ bo_commands.
Proof.
  unfold kb2_i915_bo_shape_command, bo_commands.
  repeat match goal with |- context [?a =? ?b] => destruct (Z.eqb_spec a b) as [-> |]; [intros _; apply (bool_decide_unpack _); vm_compute; exact I |] end. done.
Qed.

(** A property of the six shapes is evaluated. *)
Lemma bo_shapes_forall (P : Z -> kb2_i915_bo_shape -> bool) :
  forallb (fun c => match kb2_i915_bo_shape_command c with Some x => P c x | None => true end) bo_commands = true ->
  forall command shape, kb2_i915_bo_shape_command command = Some shape -> P command shape = true.
Proof.
  intros HP command shape E. pose proof (bo_command_known _ _ E) as Hin. apply list_elem_of_In in Hin.
  apply (proj1 (forallb_forall _ _) HP) in Hin. by rewrite E in Hin.
Qed.

Lemma bo_ioctl_inverse request shape :
  kb2_i915_bo_shape_ioctl request = Some shape <->
  exists command, kb2_i915_bo_shape_command command = Some shape /\ bo_ioctl shape = request.
Proof.
  split.
  - intros [Hin Hr%Z.eqb_eq]%find_some. apply list_elem_of_In, list_elem_of_omap in Hin as (command & _ & E).
    by exists command.
  - intros (command & E & <-). revert command shape E.
    refine (fun command shape E => _ (bo_shapes_forall (fun c x => bool_decide (kb2_i915_bo_shape_ioctl (bo_ioctl x) = Some x)) _ command shape E)).
    + intros H. by apply bool_decide_eq_true in H.
    + vm_compute. reflexivity.
Qed.

(** The ioctl of a shape is Linux's: direction, size of the record, the DRM type and the
    number of the command's UAPI; a result comes back exactly when the kernel writes
    one. *)
Definition ioctl_matches (shape : kb2_i915_bo_shape) (uapi_number : Z) : Prop :=
  Z.land (Z.shiftr (bo_ioctl shape) 16) 0x3fff = bo_bytes shape /\
  Z.land (Z.shiftr (bo_ioctl shape) 8) 0xff = 0x64 /\
  Z.land (bo_ioctl shape) 0xff = 0x40 + uapi_number /\
  Z.shiftr (bo_ioctl shape) 30 = (if bo_result_bytes shape =? 0 then 1 else 3).

#[export] Instance ioctl_matches_dec shape n : Decision (ioctl_matches shape n).
Proof. unfold ioctl_matches. apply _. Defined.

(** * Parameter streams *)

Record context_parameter := mkContextParameter {
  cq_parameter : Z;
  cq_value : Z;
  cq_size : Z;
  cq_first : Z;
  cq_count : Z;
  cq_reserved : Z;
}.

Definition parameter_at (p : list Z) (i : Z) : context_parameter :=
  mkContextParameter (load_u64 p (i * 32)) (load_u64 p (i * 32 + 8)) (load_u32 p (i * 32 + 16)) (load_u32 p (i * 32 + 20))
    (load_u32 p (i * 32 + 24)) (load_u32 p (i * 32 + 28)).

(** The parameter that sets the engines, with a list of them. *)
Definition engine_list (x : context_parameter) : bool := (cq_parameter x =? 10) && negb (cq_size x =? 0).

(** A parameter is a scalar, the engines by default, or a list of at most 64. *)
Definition parameter_ok (x : context_parameter) : Prop :=
  cq_reserved x = 0 /\
  if cq_parameter x =? 10 then
    cq_value x = 0 /\ cq_count x <= 64 /\
    (cq_size x = 0 /\ cq_first x = 0 /\ cq_count x = 0 \/ cq_size x = 8 + 4 * cq_count x)
  else cq_parameter x ∈ [4; 5; 6; 8; 9; 11; 12; 13; 14] /\ cq_size x = 0 /\ cq_first x = 0 /\ cq_count x = 0.

(** The lists follow each other from engine [next] and end at [engines]. *)
Fixpoint lists_tile (next engines : Z) (l : list context_parameter) : Prop :=
  match l with
  | [] => next = engines
  | x :: l => cq_first x = next /\ lists_tile (next + cq_count x) engines l
  end.

Definition engine_lists (p : list Z) (params : Z) : list context_parameter :=
  filter (fun x => engine_list x = true) (parameter_at p <$> seqZ 0 params).

Definition stream_ok (p : list Z) (params engines : Z) : Prop :=
  Forall parameter_ok (parameter_at p <$> seqZ 0 params) /\ lists_tile 0 engines (engine_lists p params).

Lemma context_param_spec p engines next i next' :
  0 <= next <= engines -> engines <= 4096 ->
  context_param p engines next i = Some next' <->
  parameter_ok (parameter_at p i) /\
  if engine_list (parameter_at p i)
  then cq_first (parameter_at p i) = next /\ next' = next + cq_count (parameter_at p i) /\ next' <= engines
  else next' = next.
Proof.
  intros Hn He. unfold context_param, parameter_ok, engine_list, parameter_at, kb2_i915_context_scalar.
  cbn [cq_parameter cq_value cq_size cq_first cq_count cq_reserved]. cbv zeta.
  change kb2_i915_context_u32 with load_u32. change kb2_i915_context_u64 with load_u64.
  pose proof (load_u32_range p (i * 32 + 24)) as Hc. unfold is_u32 in Hc.
  set (count := load_u32 p (i * 32 + 24)) in *. set (size := load_u32 p (i * 32 + 16)). set (first := load_u32 p (i * 32 + 20)).
  set (parameter := load_u64 p (i * 32)). set (value := load_u64 p (i * 32 + 8)). set (reserved := load_u32 p (i * 32 + 28)).
  change KB2_GPU_DRM_I915_MAX_CONTEXT_ENGINES_PER_PARAM with 64.
  destruct (Z.eqb_spec reserved 0) as [Hr | Hr]; cbn [negb]; [| by intuition].
  destruct (Z.eqb_spec parameter 10) as [Hp | Hp]; cbn [andb].
  - destruct (Z.eqb_spec value 0) as [Hv | Hv]; cbn [negb orb]; [| by intuition].
    destruct (Z.ltb_spec 64 count) as [Hl | Hl]; [split; [done | lia] |].
    destruct (Z.eqb_spec size 0) as [Hs | Hs]; cbn [negb].
    + destruct (Z.eqb_spec first 0), (Z.eqb_spec count 0); cbn [negb orb];
        (split; [first [done | intros [= <-]; lia] | intros [(_ & _ & _ & Hshape) Hx]; first [lia | by rewrite Hx]]).
    + rewrite (u32_small (engines - next)) by (unfold is_u32; lia). rewrite (u32_small (count * 4)) by (unfold is_u32; lia).
      rewrite (u32_small (8 + count * 4)) by (unfold is_u32; lia). rewrite (u32_small (next + count)) by (unfold is_u32; lia).
      destruct (Z.eqb_spec size (8 + count * 4)), (Z.eqb_spec first next), (Z.ltb_spec (engines - next) count); cbn [negb orb];
        (split; [first [done | intros [= <-]; lia] | intros [(_ & _ & _ & Hshape) (H1 & H2 & H3)]; first [lia | by rewrite H2]]).
  - assert (Hs : existsb (Z.eqb parameter) [4; 5; 6; 8; 9; 11; 12; 13; 14] = true <-> parameter ∈ [4; 5; 6; 8; 9; 11; 12; 13; 14]).
    { rewrite existsb_exists. split.
      - intros (x & Hx & ->%Z.eqb_eq). by apply list_elem_of_In.
      - intros Hx. exists parameter. split; [by apply list_elem_of_In | apply Z.eqb_refl]. }
    destruct (existsb _ _); cbn [negb orb].
    + destruct (Z.eqb_spec size 0), (Z.eqb_spec first 0), (Z.eqb_spec count 0); cbn [negb orb];
        (split; [first [done | intros [= <-]; intuition] | intros [(_ & _ & Hshape) ->]; first [lia | done]]).
    + split; [done |]. intros [(_ & Hin & _) _]. by apply Hs in Hin.
Qed.

Lemma lists_tile_mono next engines l :
  Forall (fun x => 0 <= cq_count x) l -> lists_tile next engines l -> next <= engines.
Proof.
  revert next. induction l as [| x l IH]; intros next HF H; simpl in H; [lia |].
  apply Forall_cons in HF as [? HF]. destruct H as [_ H]. apply IH in H; [lia | done].
Qed.

Lemma count_nonneg p (indices : list Z) : Forall (fun x => 0 <= cq_count x) (filter (fun x => engine_list x = true) (parameter_at p <$> indices)).
Proof.
  apply Forall_forall. intros x [_ Hx]%list_elem_of_filter. apply list_elem_of_fmap in Hx as (i & -> & _).
  apply load_u32_range.
Qed.

Lemma context_loop_spec p engines next (indices : list Z) :
  0 <= next <= engines -> engines <= 4096 ->
  context_params_loop p engines next indices = Some engines <->
  Forall parameter_ok (parameter_at p <$> indices) /\
  lists_tile next engines (filter (fun x => engine_list x = true) (parameter_at p <$> indices)).
Proof.
  revert next. induction indices as [| i indices IH]; intros next Hn He; cbn [context_params_loop fmap list_fmap].
  { rewrite Forall_nil. cbn. split; [by intros [= ->] | by intros [_ ->]]. }
  rewrite Forall_cons. destruct (context_param p engines next i) as [next' |] eqn:E; cbn [mbind option_bind].
  - apply context_param_spec in E as [Hok Hn']; [| done | done].
    destruct (engine_list (parameter_at p i)) eqn:Hl.
    + destruct Hn' as (Hf & -> & Hle). rewrite filter_cons_True by done. cbn [lists_tile].
      assert (0 <= cq_count (parameter_at p i)) by apply load_u32_range.
      rewrite IH by lia. tauto.
    + subst next'. rewrite filter_cons_False by congruence. rewrite IH by done. tauto.
  - split; [done |]. intros [[Hok _] Ht]. exfalso. destruct (engine_list (parameter_at p i)) eqn:Hl.
    + rewrite filter_cons_True in Ht by done. destruct Ht as [Hf Ht]. pose proof (lists_tile_mono _ _ _ (count_nonneg p indices) Ht).
      rewrite (proj2 (context_param_spec p engines next i (next + cq_count (parameter_at p i)) Hn He)) in E; [done |].
      by rewrite Hl.
    + rewrite (proj2 (context_param_spec p engines next i next Hn He)) in E; [done |]. by rewrite Hl.
Qed.

Lemma context_params_spec data bytes params engines :
  0 <= params -> 0 <= engines ->
  kb2_i915_context_params data bytes params engines = true <->
  params <= 64 /\ engines <= 4096 /\ bytes = params * 32 + engines * 4 /\ (data = None -> bytes = 0) /\
  stream_ok (default [] data) params engines.
Proof.
  intros Hp He. unfold kb2_i915_context_params.
  change KB2_GPU_DRM_I915_MAX_CONTEXT_PARAMS with 64. change KB2_GPU_DRM_I915_MAX_CONTEXT_ENGINES with 4096.
  destruct (Z.ltb_spec 64 params); [split; [done | lia] |]. destruct (Z.ltb_spec 4096 engines); [split; [done | lia] |].
  destruct (Z.eqb_spec bytes (params * 32 + engines * 4)) as [Hb |]; [| split; [done | lia]]. cbn [negb orb].
  assert (Hd : bool_decide (data = None) && negb (bytes =? 0) = false <-> (data = None -> bytes = 0)).
  { rewrite andb_false_iff, bool_decide_eq_false, negb_false_iff, Z.eqb_eq. split; [by intros [] |].
    intros H'. destruct data; [by left | right; by apply H']. }
  destruct (bool_decide (data = None) && negb (bytes =? 0)).
  { split; [done |]. intros (_ & _ & _ & Hn & _). by apply Hd in Hn. }
  unfold stream_ok, engine_lists. rewrite <- (context_loop_spec (default [] data) engines 0 (seqZ 0 params)) by lia.
  destruct (context_params_loop _ engines 0 _) as [next |]; [rewrite Z.eqb_eq |]; naive_solver.
Qed.

(** Lists that tile the engines put every engine into exactly one list. *)
Lemma lists_tile_unique next engines l e :
  Forall (fun x => 0 <= cq_count x) l -> lists_tile next engines l -> next <= e < engines ->
  exists i x, l !! i = Some x /\ cq_first x <= e < cq_first x + cq_count x /\
    forall j y, l !! j = Some y -> cq_first y <= e < cq_first y + cq_count y -> j = i.
Proof.
  revert next. induction l as [| x l IH]; intros next HF Ht He; simpl in Ht; [lia |].
  apply Forall_cons in HF as [Hx HF]. destruct Ht as [Hf Ht]. destruct (decide (e < next + cq_count x)) as [Hlt | Hge].
  - exists 0%nat, x. split_and!; [done | lia | lia |]. intros [| j] y Hy Hin; [done |]. exfalso. simpl in Hy.
    assert (Hge : forall k n z, lists_tile n engines k -> Forall (fun x => 0 <= cq_count x) k -> z ∈ k -> n <= cq_first z).
    { intros k. induction k as [| a k IHk]; intros n z Hk HFk Hz; [by apply elem_of_nil in Hz |].
      destruct Hk as [Ha Hk]. apply Forall_cons in HFk as [? HFk]. apply elem_of_cons in Hz as [-> | Hz]; [lia |].
      specialize (IHk _ _ Hk HFk Hz). lia. }
    apply list_elem_of_lookup_2 in Hy. specialize (Hge _ _ _ Ht HF Hy). lia.
  - destruct (IH (next + cq_count x) HF Ht ltac:(lia)) as (i & y & Hy & Hin & Hu).
    exists (S i), y. split_and!; [done | lia | lia |]. intros [| j] z Hz Hz'; simpl in Hz; [simplify_eq; lia |].
    f_equal. by apply (Hu j z).
Qed.

(** * Execution *)

Lemma land_bit x n : 0 <= n -> (Z.land x (Z.shiftl 1 n) =? 0) = negb (Z.testbit x n).
Proof.
  intros Hn. destruct (Z.testbit x n) eqn:Hb; cbn [negb].
  - apply Z.eqb_neq. intros E. assert (Ht : Z.testbit (Z.land x (Z.shiftl 1 n)) n = false) by (by rewrite E, Z.bits_0).
    rewrite Z.land_spec, Hb, Z.shiftl_spec, Z.sub_diag in Ht by done. done.
  - apply Z.eqb_eq, Z.bits_inj'. intros i Hi. rewrite Z.land_spec, Z.bits_0, Z.shiftl_spec by done.
    destruct (decide (i = n)) as [-> |]; [by rewrite Hb |].
    destruct (Z.lt_ge_cases i n); [by rewrite (Z.testbit_neg_r 1), andb_false_r by lia |].
    rewrite andb_comm. replace (Z.testbit 1 (i - n)) with false; [done |]. symmetry. apply Z.bits_above_log2; simpl; lia.
Qed.

(** A handle with flags of one byte; the size to pad to is given with its flag only. *)
Definition exec_object_ok (q : list Z) (i : Z) : Prop :=
  load_u32 q (i * 40 + 4) = 0 /\ load_u64 q (i * 40 + 24) < 2 ^ 8 /\
  (Z.testbit (load_u64 q (i * 40 + 24)) 5 = false -> load_u64 q (i * 40 + 32) = 0).

(** A fence waits, signals or both. *)
Definition exec_fence_ok (q : list Z) (objects i : Z) : Prop := load_u32 q (objects * 40 + i * 8 + 4) < 4.

Lemma exec_object_spec q i : exec_object_valid q i = true <-> exec_object_ok q i.
Proof.
  unfold exec_object_valid, exec_object_ok. change kb2_i915_context_u32 with load_u32. change kb2_i915_context_u64 with load_u64.
  cbv zeta. rewrite negb_true_iff, !orb_false_iff, !negb_false_iff, andb_false_iff, negb_false_iff, !Z.eqb_eq, land_bit by lia.
  pose proof (load_u64_range q (i * 40 + 24)) as Hr. unfold is_u64 in Hr. rewrite negb_false_iff.
  change 0xff with (Z.ones 8). rewrite andn_ones_0 by lia.
  destruct (Z.testbit (load_u64 q (i * 40 + 24)) 5); naive_solver.
Qed.

Lemma exec_fence_spec q objects i : exec_fence_valid q objects i = true <-> exec_fence_ok q objects i.
Proof.
  unfold exec_fence_valid, exec_fence_ok. change kb2_i915_context_u32 with load_u32. rewrite Z.eqb_eq.
  pose proof (load_u32_range q (objects * 40 + i * 8 + 4)) as Hr. unfold is_u32 in Hr. change 3 with (Z.ones 2). by rewrite andn_ones_0 by lia.
Qed.

Definition exec_payload_ok (q : list Z) (objects fences : Z) : Prop :=
  (forall i, 0 <= i < objects -> exec_object_ok q i) /\ (forall i, 0 <= i < fences -> exec_fence_ok q objects i).

Lemma forallb_seqZ (f : Z -> bool) (P : Z -> Prop) n :
  (forall i, f i = true <-> P i) -> forallb f (seqZ 0 n) = true <-> forall i, 0 <= i < n -> P i.
Proof.
  intros Hf. rewrite forallb_forall. split.
  - intros H i Hi. apply Hf, H, list_elem_of_In, elem_of_seqZ. lia.
  - intros H i Hi%list_elem_of_In%elem_of_seqZ. apply Hf, H. lia.
Qed.

Lemma exec_payload_spec q bytes objects fences :
  kb2_i915_exec_payload (Some q) bytes objects fences = true <->
  objects <> 0 /\ objects <= 8192 /\ fences <= 65536 /\ bytes = objects * 40 + fences * 8 /\ bytes <= 1048576 /\
  exec_payload_ok q objects fences.
Proof.
  unfold kb2_i915_exec_payload. change KB2_GPU_DRM_I915_MAX_EXEC_OBJECTS with 8192.
  change KB2_GPU_DRM_I915_MAX_EXEC_FENCES with 65536. change KB2_GPU_DRM_I915_MAX_EXEC_BYTES with 1048576.
  destruct (Z.eqb_spec objects 0); [split; [done | lia] |]. destruct (Z.ltb_spec 8192 objects); [split; [done | lia] |].
  destruct (Z.ltb_spec 65536 fences); [split; [done | lia] |].
  destruct (Z.eqb_spec bytes (objects * 40 + fences * 8)); [| split; [done | lia]].
  destruct (Z.ltb_spec 1048576 bytes); [split; [done | lia] |]. cbn [negb orb].
  rewrite andb_true_iff, (forallb_seqZ _ (exec_object_ok q)), (forallb_seqZ _ (exec_fence_ok q objects));
    [| intros; apply exec_fence_spec | intros; apply exec_object_spec]. unfold exec_payload_ok. intuition.
Qed.

(** A header of an execution request: its counts, and the bytes of its payload. *)
Definition exec_header_ok (p : list Z) (total : Z) : Prop :=
  let objects := load_u32 p 0 in
  let fences := load_u32 p 4 in
  let flags := load_u64 p 16 in
  1 <= objects <= 8192 /\ fences <= 65536 /\ Z.land flags 0x000cfdff = flags /\
  (Z.testbit flags 19 = false -> fences = 0) /\ load_u32 p 28 = 0 /\
  total = objects * 40 + fences * 8 /\ total <= 1048576.

Lemma andn_land x m : 0 <= x -> x &~ m = 0 <-> Z.land x m = x.
Proof.
  intros Hx. unfold andn. rewrite <- Z.ldiff_land. split; intros E; apply Z.bits_inj'; intros i Hi;
    apply (f_equal (fun z => Z.testbit z i)) in E; rewrite ?Z.ldiff_spec, ?Z.land_spec, ?Z.bits_0 in *;
    destruct (Z.testbit x i), (Z.testbit m i); done.
Qed.

Lemma exec_header_spec p bytes total :
  kb2_i915_exec_header (Some p) bytes = Some total <-> bytes = 32 /\ exec_header_ok p total.
Proof.
  unfold kb2_i915_exec_header, exec_header_ok. change kb2_i915_context_u32 with load_u32. change kb2_i915_context_u64 with load_u64.
  cbv zeta. change KB2_GPU_DRM_I915_MAX_EXEC_OBJECTS with 8192. change KB2_GPU_DRM_I915_MAX_EXEC_FENCES with 65536.
  change KB2_GPU_DRM_I915_MAX_EXEC_BYTES with 1048576. rewrite land_bit by lia.
  pose proof (load_u32_range p 0) as H0. pose proof (load_u64_range p 16) as H1. unfold is_u32, is_u64 in *.
  assert (Hm : (load_u64 p 16 &~ KB2_I915_EXEC_FLAGS =? 0) = bool_decide (Z.land (load_u64 p 16) 0x000cfdff = load_u64 p 16)).
  { apply eq_bool_prop_intro. rewrite !Is_true_true, bool_decide_eq_true, Z.eqb_eq. apply andn_land; lia. }
  rewrite Hm. destruct (Z.eqb_spec bytes 32); cbn [negb]; [| split; [done | lia]].
  destruct (Z.eqb_spec (load_u32 p 0) 0); cbn [orb]; [split; [done | lia] |].
  destruct (Z.ltb_spec 8192 (load_u32 p 0)); cbn [orb]; [split; [done | lia] |].
  destruct (Z.ltb_spec 65536 (load_u32 p 4)); cbn [orb]; [split; [done | lia] |].
  case_bool_decide; cbn [negb orb]; [| split; [done | tauto]].
  destruct (Z.eqb_spec (load_u32 p 28) 0); cbn [negb orb]; [| rewrite orb_true_r; split; [done | tauto]]. rewrite orb_false_r.
  destruct (negb (Z.testbit (load_u64 p 16) 19) && negb (load_u32 p 4 =? 0)) eqn:Hf.
  - rewrite andb_true_iff, !negb_true_iff, Z.eqb_neq in Hf. split; [done | tauto].
  - rewrite andb_false_iff, !negb_false_iff, Z.eqb_eq in Hf.
    destruct (Z.ltb_spec 1048576 (load_u32 p 0 * 40 + load_u32 p 4 * 8)); split; [done | lia | intros [= <-] | intros; f_equal; lia].
    split_and!; try done; try lia. intros E. rewrite E in Hf. naive_solver.
Qed.

(** * Context requests *)

(** The fields of a request to create, to set or to destroy a context: padding zero,
    known flags, extensions only with their flag, one parameter to set, and the bytes
    of the parameter stream and of its engines. *)
Definition context_header_ok (command : Z) (p : list Z) (bytes aux : Z) : Prop :=
  let params := load_u32 p 4 in
  let engines := load_u32 p 8 in
  (command = 15 /\ bytes = 8 /\ params = 0 /\ aux = 0) \/
  (command = 13 \/ command = 14) /\ bytes = 16 /\ load_u32 p 12 = 0 /\
  params <= 64 /\ engines <= 4096 /\ (params = 0 -> engines = 0) /\
  (if command =? 13 then load_u32 p 0 < 4 /\ (params <> 0 -> Z.testbit (load_u32 p 0) 0 = true) else params = 1) /\
  aux = params * 32 + engines * 4.

Lemma context_header_spec command p bytes aux :
  kb2_i915_context_header command (Some p) bytes = Some aux <-> context_header_ok command p bytes aux.
Proof.
  unfold kb2_i915_context_header, context_header_ok, kb2_i915_context_command. change kb2_i915_context_u32 with load_u32. cbv zeta.
  change KB2_GPU_DRM_I915_COMMAND_CONTEXT_CREATE with 13. change KB2_GPU_DRM_I915_COMMAND_CONTEXT_DESTROY with 15.
  change KB2_GPU_DRM_I915_MAX_CONTEXT_PARAMS with 64. change KB2_GPU_DRM_I915_MAX_CONTEXT_ENGINES with 4096.
  destruct (decide (13 <= command <= 15)) as [Hc |].
  2: { destruct (Z.leb_spec 13 command), (Z.leb_spec command 15); cbn [andb negb]; try lia; (split; [done | lia]). }
  rewrite !(proj2 (Z.leb_le _ _)) by lia. cbn [andb negb].
  destruct (Z.eqb_spec command 15) as [-> | H15].
  { destruct (Z.eqb_spec bytes 8), (Z.eqb_spec (load_u32 p 4) 0); cbn [negb orb];
      (split; [first [done | intros [= <-]; lia] | intros [(_ & ? & ? & ->) | ([? | ?] & _)]; done || lia]). }
  destruct (Z.eqb_spec bytes 16); cbn [negb orb]; [| split; [done | lia]].
  destruct (Z.eqb_spec (load_u32 p 12) 0); cbn [negb]; [| split; [done | lia]].
  destruct (Z.ltb_spec 64 (load_u32 p 4)); cbn [orb]; [split; [done | lia] |].
  destruct (Z.ltb_spec 4096 (load_u32 p 8)); cbn [orb]; [split; [done | lia] |].
  destruct ((load_u32 p 4 =? 0) && negb (load_u32 p 8 =? 0)) eqn:He.
  { rewrite andb_true_iff, negb_true_iff, Z.eqb_eq, Z.eqb_neq in He. split; [done | lia]. }
  rewrite andb_false_iff, negb_false_iff, Z.eqb_eq, Z.eqb_neq in He.
  assert (Hflags : negb (load_u32 p 0 &~ 3 =? 0) || (negb (load_u32 p 4 =? 0) && (Z.land (load_u32 p 0) 1 =? 0)) = false <->
            load_u32 p 0 < 4 /\ (load_u32 p 4 <> 0 -> Z.testbit (load_u32 p 0) 0 = true)).
  { rewrite orb_false_iff, andb_false_iff, !negb_false_iff, !Z.eqb_eq. pose proof (load_u32_range p 0) as [Hr _].
    assert (Hz : (Z.land (load_u32 p 0) 1 =? 0) = negb (Z.testbit (load_u32 p 0) 0)) by (apply (land_bit _ 0); lia).
    rewrite Hz, negb_false_iff. change 3 with (Z.ones 2). rewrite andn_ones_0 by lia.
    destruct (Z.eq_dec (load_u32 p 4) 0); tauto. }
  destruct (Z.eqb_spec command 13) as [-> | H13].
  - destruct (_ || _).
    + split; [done |]. intros [? | (_ & _ & _ & _ & _ & _ & Hok & _)]; [lia |]. by apply Hflags in Hok.
    + pose proof (proj1 Hflags eq_refl) as [? ?]. split; [intros [= <-]; right; intuition lia | intros [? | ?]; [lia | f_equal; lia]].
  - destruct (Z.eqb_spec (load_u32 p 4) 1) as [E | E]; cbn [negb]; [| split; [done | lia]].
    split; [intros [= <-]; right; intuition lia | intros [? | ?]; [lia | f_equal; lia]].
Qed.

(** * Buffer-object records *)

(** The fields of a record besides the handle: what the kernel fills in is zero and a
    choice is one of those there are. *)
Definition bo_input_ok (command : Z) (p : list Z) : Prop :=
  match command with
  | 5 => load_u32 p 8 = 0 /\ load_u32 p 12 = 0
  | 7 | 9 => load_u32 p 4 = 0
  | 8 => load_u32 p 4 <= 1 /\ load_u32 p 8 = 0
  | 10 => load_u32 p 4 < 2 ^ 8 /\ load_u32 p 8 < 2 ^ 8
  | 11 => load_u32 p 4 <= 2
  | _ => False
  end.

Lemma bo_input_spec command p bytes :
  kb2_i915_bo_input_valid command (Some p) bytes = true <->
  (exists shape, kb2_i915_bo_shape_command command = Some shape /\ bytes = bo_bytes shape) /\ bo_input_ok command p.
Proof.
  unfold kb2_i915_bo_input_valid. change kb2_i915_bo_u32 with load_u32.
  destruct (kb2_i915_bo_shape_command command) as [shape |] eqn:E; [| split; [done | by intros [(? & [=] & _) _]]].
  destruct (Z.eqb_spec bytes (bo_bytes shape)) as [-> | Hb]; cbn [negb]; [| split; [done | by intros [(? & [= <-] & ->) _]]].
  transitivity (bo_input_ok command p).
  2: { split; [intros ?; split; [by exists shape | done] | by intros [_ ?]]. }
  pose proof (load_u32_range p 4) as [H4 _]. pose proof (load_u32_range p 8) as [H8 _].
  apply bo_command_known in E. unfold bo_commands in E. change 0xff with (Z.ones 8). rewrite !elem_of_cons, elem_of_nil in E.
  repeat destruct E as [-> | E]; cbn -[load_u32 Z.ones andn Z.pow]; [.. | done];
    rewrite ?andb_true_iff, ?Z.eqb_eq, ?Z.leb_le, ?andn_ones_0 by lia; done.
Qed.

(** * Reads

    The checks look at no byte behind the given size. *)

Lemma and_iff_under (A B C : Prop) : (A -> B <-> C) -> A /\ B <-> A /\ C.
Proof. tauto. Qed.

Section Reads.
Context (p p' : list Z) (bytes : Z) (Ha : agree p p' 0 bytes).

Lemma word_inside o : 0 <= o -> o + 4 <= bytes -> load_u32 p o = load_u32 p' o.
Proof. by apply agree_load_u32. Qed.

Lemma long_inside o : 0 <= o -> o + 8 <= bytes -> load_u64 p o = load_u64 p' o.
Proof. by apply agree_load_u64. Qed.

Lemma bo_input_inside command :
  kb2_i915_bo_input_valid command (Some p) bytes = kb2_i915_bo_input_valid command (Some p') bytes.
Proof.
  apply eq_iff_eq_true. rewrite !bo_input_spec. apply and_iff_under. intros (shape & E & Hb).
  pose proof (bo_command_known _ _ E) as Hc. unfold bo_commands in Hc. rewrite !elem_of_cons, elem_of_nil in Hc.
  repeat destruct Hc as [-> | Hc]; [vm_compute in E; injection E as <-; cbn in Hb; cbn -[load_u32 Z.pow]; rewrite !word_inside by lia; done .. | done].
Qed.

Lemma context_header_inside command :
  kb2_i915_context_header command (Some p) bytes = kb2_i915_context_header command (Some p') bytes.
Proof.
  unfold kb2_i915_context_header. change kb2_i915_context_u32 with load_u32. destruct (negb (kb2_i915_context_command command)); [done |].
  destruct (command =? _).
  - destruct (Z.eqb_spec bytes 8); [| done]. by rewrite !word_inside by lia.
  - destruct (Z.eqb_spec bytes 16); [| done]. by rewrite !word_inside by lia.
Qed.

Lemma parameter_inside i n : 0 <= i < n -> n * 32 <= bytes -> parameter_at p i = parameter_at p' i.
Proof. intros Hi Hn. unfold parameter_at. rewrite !word_inside, !long_inside by lia. done. Qed.

Lemma context_params_inside params engines :
  0 <= params -> 0 <= engines ->
  kb2_i915_context_params (Some p) bytes params engines = kb2_i915_context_params (Some p') bytes params engines.
Proof.
  intros Hp He. apply eq_iff_eq_true. rewrite !context_params_spec by done.
  destruct (decide (bytes = params * 32 + engines * 4)) as [Hb |]; [| tauto].
  assert (E : parameter_at p <$> seqZ 0 params = parameter_at p' <$> seqZ 0 params).
  { apply list_fmap_ext. intros i x Hx%list_elem_of_lookup_2%elem_of_seqZ. apply (parameter_inside x params); lia. }
  unfold stream_ok, engine_lists. change (default [] (Some p)) with p. change (default [] (Some p')) with p'. rewrite E. naive_solver.
Qed.

Lemma exec_header_inside : kb2_i915_exec_header (Some p) bytes = kb2_i915_exec_header (Some p') bytes.
Proof.
  unfold kb2_i915_exec_header. change kb2_i915_context_u32 with load_u32. change kb2_i915_context_u64 with load_u64.
  destruct (Z.eqb_spec bytes 32); [| done]. by rewrite !word_inside, !long_inside by lia.
Qed.

Lemma exec_payload_inside objects fences :
  0 <= objects -> 0 <= fences ->
  kb2_i915_exec_payload (Some p) bytes objects fences = kb2_i915_exec_payload (Some p') bytes objects fences.
Proof.
  intros Ho Hf. apply eq_iff_eq_true. rewrite !exec_payload_spec. do 3 (apply and_iff_under; intros _).
  apply and_iff_under. intros Hb. apply and_iff_under. intros _. unfold exec_payload_ok, exec_object_ok, exec_fence_ok.
  split; intros [HO HF]; (split; [intros i Hi; specialize (HO i Hi) | intros i Hi; specialize (HF i Hi)]);
    rewrite ?word_inside, ?long_inside in * by lia; done.
Qed.
End Reads.
