(* ===== verification/AmdgpuShape.v ===== *)
(** The shapes of the amdgpu requests (protocol/include/kobox2/amdgpu_cs_shape.h,
    amdgpu_info_shape.h, amdgpu_info_bridge.h): the parts of a command submission, the
    records an INFO query is answered with, and the fields that the bridge copies from
    Linux's structures to the records of the wire.

    What the amdgpu shapes admit: chunks of a command submission that lie inside the
    submission, answers to INFO queries that are records the check of the request
    accepts, and a bridge that covers the fields of its records. *)

From Stdlib Require Import ZArith Lia String.
From stdpp Require Import base numbers tactics strings list_numbers list.
From S2P Require Import Prelude GpuDrmLayout GpuDrmSchema GpuAmdgpuSchema GpuCompletion GpuRequest GpuSemantics.

Open Scope string_scope.
Open Scope list_scope.
Open Scope Z_scope.

(** * Command submission *)

Definition KB2_AMDGPU_CS_PARTS : Z := 64.
Definition KB2_AMDGPU_CS_BYTES : Z := 1048576.

Record kb2_amdgpu_cs_part := mkCsPart { cp_record : Z; cp_count : Z; cp_offset : Z; cp_bytes : Z }.

Definition kb2_amdgpu_cs_element_size (record : Z) : Z :=
  if record =? KB2_GPU_DRM_AMDGPU_RECORD_CS_CHUNK_IB then KB2_GPU_DRM_AMDGPU_RECORD_CS_CHUNK_IB_SIZE
  else if record =? KB2_GPU_DRM_AMDGPU_RECORD_CS_CHUNK_USER_FENCE then KB2_GPU_DRM_AMDGPU_RECORD_CS_CHUNK_USER_FENCE_SIZE
  else if record =? KB2_GPU_DRM_AMDGPU_RECORD_CS_CHUNK_DEPENDENCY then KB2_GPU_DRM_AMDGPU_RECORD_CS_CHUNK_DEPENDENCY_SIZE
  else if record =? KB2_GPU_DRM_AMDGPU_RECORD_CS_CHUNK_SYNCOBJ_IN then KB2_GPU_DRM_AMDGPU_RECORD_CS_CHUNK_SYNCOBJ_IN_SIZE
  else if record =? KB2_GPU_DRM_AMDGPU_RECORD_CS_CHUNK_SYNCOBJ_OUT then KB2_GPU_DRM_AMDGPU_RECORD_CS_CHUNK_SYNCOBJ_OUT_SIZE
  else if record =? KB2_GPU_DRM_AMDGPU_RECORD_CS_CHUNK_BO_HANDLE then KB2_GPU_DRM_AMDGPU_RECORD_CS_CHUNK_BO_HANDLE_SIZE
  else if record =? KB2_GPU_DRM_AMDGPU_RECORD_CS_CHUNK_SCHEDULED_DEPENDENCY then KB2_GPU_DRM_AMDGPU_RECORD_CS_CHUNK_SCHEDULED_DEPENDENCY_SIZE
  else if record =? KB2_GPU_DRM_AMDGPU_RECORD_CS_CHUNK_TIMELINE_WAIT then KB2_GPU_DRM_AMDGPU_RECORD_CS_CHUNK_TIMELINE_WAIT_SIZE
  else if record =? KB2_GPU_DRM_AMDGPU_RECORD_CS_CHUNK_TIMELINE_SIGNAL then KB2_GPU_DRM_AMDGPU_RECORD_CS_CHUNK_TIMELINE_SIGNAL_SIZE
  else if record =? KB2_GPU_DRM_AMDGPU_RECORD_CS_CHUNK_GFX_SHADOW then KB2_GPU_DRM_AMDGPU_RECORD_CS_CHUNK_GFX_SHADOW_SIZE
  else 0.

(** [size * count] is a product of [uint32_t]. *)
Definition kb2_amdgpu_cs_part_valid (p : kb2_amdgpu_cs_part) : bool :=
  let size := kb2_amdgpu_cs_element_size (cp_record p) in
  if (size =? 0) || (cp_count p =? 0) || (65536 <? cp_count p) || (KB2_AMDGPU_CS_BYTES / size <? cp_count p) ||
     negb (cp_bytes p =? u32 (size * cp_count p)) || (u32 (KB2_AMDGPU_CS_BYTES - cp_bytes p) <? cp_offset p) then false
  else if ((cp_record p =? KB2_GPU_DRM_AMDGPU_RECORD_CS_CHUNK_IB) ||
           (cp_record p =? KB2_GPU_DRM_AMDGPU_RECORD_CS_CHUNK_USER_FENCE) ||
           (cp_record p =? KB2_GPU_DRM_AMDGPU_RECORD_CS_CHUNK_GFX_SHADOW)) && negb (cp_count p =? 1) then false
  else true.

(** * Information queries *)

Record kb2_amdgpu_info_shape_t := mkInfoShape { is_record : Z; is_count : Z; is_bytes : Z }.

(** What the switch assigns: record, element size, count and number of selectors.
    [None] is a return of 0. *)
Definition info_query_shape (query : Z) (s : list Z) : option (Z * Z * Z * Z) :=
  let selector i := nth i s 0 in
  let u32_record := (KB2_GPU_DRM_AMDGPU_RECORD_SCALAR_U32, KB2_GPU_DRM_AMDGPU_RECORD_SCALAR_U32_SIZE) in
  let u64_record := (KB2_GPU_DRM_AMDGPU_RECORD_SCALAR_U64, KB2_GPU_DRM_AMDGPU_RECORD_SCALAR_U64_SIZE) in
  if query =? KB2_GPU_DRM_AMDGPU_INFO_QUERY_READ_MMR_REGISTER then
    let count := selector 1%nat in
    if (count =? 0) || (128 <? count) || (U32_MAX - u32 (count - 1) <? selector 0%nat) then None
    else Some (u32_record, count, 4)
  else if query =? KB2_GPU_DRM_AMDGPU_INFO_QUERY_MAXIMUM_IBS then Some (u32_record, 10, 0)
  else if existsb (Z.eqb query) [KB2_GPU_DRM_AMDGPU_INFO_QUERY_HW_IP_COUNT; KB2_GPU_DRM_AMDGPU_INFO_QUERY_SENSOR] then
    Some (u32_record, 1, 1)
  else if existsb (Z.eqb query)
       [KB2_GPU_DRM_AMDGPU_INFO_QUERY_ACCELERATION_WORKING; KB2_GPU_DRM_AMDGPU_INFO_QUERY_VRAM_LOST_COUNTER] then
    Some (u32_record, 1, 0)
  else if existsb (Z.eqb query)
       [KB2_GPU_DRM_AMDGPU_INFO_QUERY_TIMESTAMP; KB2_GPU_DRM_AMDGPU_INFO_QUERY_BYTES_MOVED;
        KB2_GPU_DRM_AMDGPU_INFO_QUERY_VRAM_USAGE; KB2_GPU_DRM_AMDGPU_INFO_QUERY_GTT_USAGE;
        KB2_GPU_DRM_AMDGPU_INFO_QUERY_VISIBLE_VRAM_USAGE; KB2_GPU_DRM_AMDGPU_INFO_QUERY_EVICTION_COUNT;
        KB2_GPU_DRM_AMDGPU_INFO_QUERY_VRAM_CPU_PAGE_FAULTS; KB2_GPU_DRM_AMDGPU_INFO_QUERY_RAS_ENABLED_FEATURES] then
    Some (u64_record, 1, 0)
  else if query =? KB2_GPU_DRM_AMDGPU_INFO_QUERY_DEVICE_INFO then
    Some ((KB2_GPU_DRM_AMDGPU_RECORD_INFO_DEVICE, KB2_GPU_DRM_AMDGPU_RECORD_INFO_DEVICE_SIZE), 1, 0)
  else if query =? KB2_GPU_DRM_AMDGPU_INFO_QUERY_HW_IP_INFO then
    Some ((KB2_GPU_DRM_AMDGPU_RECORD_INFO_HW_IP, KB2_GPU_DRM_AMDGPU_RECORD_INFO_HW_IP_SIZE), 1, 2)
  else if query =? KB2_GPU_DRM_AMDGPU_INFO_QUERY_FIRMWARE_VERSION then
    Some ((KB2_GPU_DRM_AMDGPU_RECORD_INFO_FIRMWARE, KB2_GPU_DRM_AMDGPU_RECORD_INFO_FIRMWARE_SIZE), 1, 3)
  else if query =? KB2_GPU_DRM_AMDGPU_INFO_QUERY_VRAM_GTT then
    Some ((KB2_GPU_DRM_AMDGPU_RECORD_INFO_VRAM_GTT, KB2_GPU_DRM_AMDGPU_RECORD_INFO_VRAM_GTT_SIZE), 1, 0)
  else if query =? KB2_GPU_DRM_AMDGPU_INFO_QUERY_MEMORY_INFO then
    Some ((KB2_GPU_DRM_AMDGPU_RECORD_INFO_MEMORY, KB2_GPU_DRM_AMDGPU_RECORD_INFO_MEMORY_SIZE), 1, 0)
  else if query =? KB2_GPU_DRM_AMDGPU_INFO_QUERY_VIDEO_CAPS then
    if 1 <? selector 0%nat then None
    else Some ((KB2_GPU_DRM_AMDGPU_RECORD_INFO_VIDEO_CAPS, KB2_GPU_DRM_AMDGPU_RECORD_INFO_VIDEO_CAPS_SIZE), 1, 1)
  else None.

Definition kb2_amdgpu_info_shape (query : Z) (s : list Z) : option kb2_amdgpu_info_shape_t :=
  match info_query_shape query s with
  | None => None
  | Some (record, size, count, selectors) =>
      if forallb (fun i => nth (Z.to_nat i) s 0 =? 0) (seqZ selectors (4 - selectors)) then
        Some (mkInfoShape record count (u32 (size * count)))
      else None
  end.

(** * The bridge

    Fields of Linux's structures with the fields of the records they are copied to. *)

Definition KB2_AMDGPU_HW_IP_FIELDS : list (string * string) :=
  [("hw_ip_version_major", "VERSION_MAJOR"); ("hw_ip_version_minor", "VERSION_MINOR");
   ("capabilities_flags", "CAPABILITIES"); ("ib_start_alignment", "IB_START_ALIGNMENT");
   ("ib_size_alignment", "IB_SIZE_ALIGNMENT"); ("available_rings", "AVAILABLE_RINGS");
   ("ip_discovery_version", "IP_DISCOVERY_VERSION"); ("userq_num_slots", "USERQ_NUM_SLOTS")].

Definition KB2_AMDGPU_DEVICE_FIELDS : list (string * string) :=
  [("device_id", "DEVICE_ID"); ("chip_rev", "CHIP_REV"); ("external_rev", "EXTERNAL_REV"); ("pci_rev", "PCI_REV");
   ("family", "FAMILY"); ("num_shader_engines", "NUM_SHADER_ENGINES");
   ("num_shader_arrays_per_engine", "NUM_SHADER_ARRAYS_PER_ENGINE"); ("gpu_counter_freq", "GPU_COUNTER_FREQUENCY");
   ("max_engine_clock", "MAX_ENGINE_CLOCK"); ("max_memory_clock", "MAX_MEMORY_CLOCK");
   ("cu_active_number", "CU_ACTIVE_NUMBER"); ("cu_ao_mask", "CU_ALWAYS_ON_MASK"); ("cu_bitmap", "CU_BITMAP");
   ("enabled_rb_pipes_mask", "ENABLED_RB_PIPES_MASK"); ("num_rb_pipes", "NUM_RB_PIPES");
   ("num_hw_gfx_contexts", "NUM_HW_GFX_CONTEXTS"); ("pcie_gen", "PCIE_GENERATION"); ("ids_flags", "IDS_FLAGS");
   ("virtual_address_offset", "VIRTUAL_ADDRESS_OFFSET"); ("virtual_address_max", "VIRTUAL_ADDRESS_MAX");
   ("virtual_address_alignment", "VIRTUAL_ADDRESS_ALIGNMENT"); ("pte_fragment_size", "PTE_FRAGMENT_SIZE");
   ("gart_page_size", "GART_PAGE_SIZE"); ("ce_ram_size", "CE_RAM_SIZE"); ("vram_type", "VRAM_TYPE");
   ("vram_bit_width", "VRAM_BIT_WIDTH"); ("vce_harvest_config", "VCE_HARVEST_CONFIG");
   ("gc_double_offchip_lds_buf", "GC_DOUBLE_OFFCHIP_LDS_BUF"); ("prim_buf_gpu_addr", "PRIM_BUF_GPU_ADDR");
   ("pos_buf_gpu_addr", "POS_BUF_GPU_ADDR"); ("cntl_sb_buf_gpu_addr", "CONTROL_SIDEBAND_GPU_ADDR");
   ("param_buf_gpu_addr", "PARAMETER_CACHE_GPU_ADDR"); ("prim_buf_size", "PRIM_BUF_SIZE");
   ("pos_buf_size", "POS_BUF_SIZE"); ("cntl_sb_buf_size", "CONTROL_SIDEBAND_SIZE");
   ("param_buf_size", "PARAMETER_CACHE_SIZE"); ("wave_front_size", "WAVEFRONT_SIZE");
   ("num_shader_visible_vgprs", "NUM_SHADER_VISIBLE_VGPRS"); ("num_cu_per_sh", "NUM_CU_PER_SHADER_ARRAY");
   ("num_tcc_blocks", "NUM_TCC_BLOCKS"); ("gs_vgt_table_depth", "GS_VGT_TABLE_DEPTH");
   ("gs_prim_buffer_depth", "GS_PRIM_BUFFER_DEPTH"); ("max_gs_waves_per_vgt", "MAX_GS_WAVES_PER_VGT");
   ("pcie_num_lanes", "PCIE_NUM_LANES"); ("cu_ao_bitmap", "CU_ALWAYS_ON_BITMAP");
   ("high_va_offset", "HIGH_VA_OFFSET"); ("high_va_max", "HIGH_VA_MAX");
   ("pa_sc_tile_steering_override", "PA_SC_TILE_STEERING_OVERRIDE"); ("tcc_disabled_mask", "TCC_DISABLED_MASK");
   ("min_engine_clock", "MIN_ENGINE_CLOCK"); ("min_memory_clock", "MIN_MEMORY_CLOCK");
   ("tcp_cache_size", "TCP_CACHE_SIZE"); ("num_sqc_per_wgp", "NUM_SQC_PER_WGP");
   ("sqc_data_cache_size", "SQC_DATA_CACHE_SIZE"); ("sqc_inst_cache_size", "SQC_INSTRUCTION_CACHE_SIZE");
   ("gl1c_cache_size", "GL1_CACHE_SIZE"); ("gl2c_cache_size", "GL2_CACHE_SIZE"); ("mall_size", "MALL_SIZE");
   ("enabled_rb_pipes_mask_hi", "ENABLED_RB_PIPES_MASK_HIGH"); ("shadow_size", "SHADOW_SIZE");
   ("shadow_alignment", "SHADOW_ALIGNMENT"); ("csa_size", "CSA_SIZE"); ("csa_alignment", "CSA_ALIGNMENT");
   ("userq_ip_mask", "USERQ_IP_MASK")].

(** * Command submission *)

Definition cs_records : list Z := seqZ 111 10.

Lemma cs_record_in record : cs_record record = true <-> record ∈ cs_records.
Proof.
  unfold cs_record, cs_records. change KB2_GPU_DRM_AMDGPU_RECORD_CS_CHUNK_IB with 111.
  change KB2_GPU_DRM_AMDGPU_RECORD_CS_CHUNK_GFX_SHADOW with 120. rewrite elem_of_seqZ. lia.
Qed.

(** The sizes are those of the schema's chunk records, 0 for every other record. *)
Lemma cs_element_size_spec record :
  kb2_amdgpu_cs_element_size record = if cs_record record then amdgpu_record_size record else 0.
Proof.
  destruct (cs_record record) eqn:Hr.
  - apply cs_record_in, list_elem_of_In in Hr.
    assert (H : forallb (fun r => kb2_amdgpu_cs_element_size r =? amdgpu_record_size r) cs_records = true) by (vm_compute; reflexivity).
    apply (proj1 (forallb_forall _ _) H) in Hr. by apply Z.eqb_eq in Hr.
  - assert (Hn : ~ (111 <= record <= 120)).
    { intros Hin. apply not_true_iff_false in Hr. apply Hr, cs_record_in, elem_of_seqZ. lia. }
    unfold kb2_amdgpu_cs_element_size.
    repeat match goal with |- context [?a =? ?b] => destruct (Z.eqb_spec a b) as [-> |]; [exfalso; apply Hn; by vm_compute |] end. done.
Qed.

Lemma cs_element_size_bounds record : cs_record record = true -> 4 <= kb2_amdgpu_cs_element_size record <= 32.
Proof.
  intros Hr. apply cs_record_in, list_elem_of_In in Hr.
  assert (H : forallb (fun r => (4 <=? kb2_amdgpu_cs_element_size r) && (kb2_amdgpu_cs_element_size r <=? 32)) cs_records = true)
    by (vm_compute; reflexivity).
  apply (proj1 (forallb_forall _ _) H), andb_true_iff in Hr as [?%Z.leb_le ?%Z.leb_le]. done.
Qed.

Definition cs_part_typed (p : kb2_amdgpu_cs_part) : Prop :=
  is_u32 (cp_record p) /\ is_u32 (cp_count p) /\ is_u32 (cp_offset p) /\ is_u32 (cp_bytes p).

(** A part is whole records of a chunk's schema inside the megabyte of a submission; an
    IB, a user fence and a shadow come one at a time. *)
Definition cs_part_ok (p : kb2_amdgpu_cs_part) : Prop :=
  cs_record (cp_record p) = true /\ 1 <= cp_count p <= 65536 /\
  cp_bytes p = cp_count p * amdgpu_record_size (cp_record p) /\ cp_offset p + cp_bytes p <= KB2_AMDGPU_CS_BYTES /\
  (cp_record p ∈ [KB2_GPU_DRM_AMDGPU_RECORD_CS_CHUNK_IB; KB2_GPU_DRM_AMDGPU_RECORD_CS_CHUNK_USER_FENCE;
                  KB2_GPU_DRM_AMDGPU_RECORD_CS_CHUNK_GFX_SHADOW] -> cp_count p = 1).

Lemma cs_part_spec p : cs_part_typed p -> kb2_amdgpu_cs_part_valid p = true <-> cs_part_ok p.
Proof.
  intros (_ & [Hc _] & [Ho _] & Hb). unfold kb2_amdgpu_cs_part_valid, cs_part_ok. pose proof (cs_element_size_spec (cp_record p)) as Hs.
  destruct (cs_record (cp_record p)) eqn:Hr; [| rewrite Hs; split; [done | by intros []]].
  pose proof (cs_element_size_bounds _ Hr) as Hsz. rewrite <- Hs. set (size := kb2_amdgpu_cs_element_size (cp_record p)) in *.
  change KB2_AMDGPU_CS_BYTES with 1048576. unfold is_u32 in Hb.
  destruct (Z.eqb_spec size 0); [lia |]. destruct (Z.eqb_spec (cp_count p) 0); cbn [orb]; [split; [done | lia] |].
  destruct (Z.ltb_spec 65536 (cp_count p)); cbn [orb]; [split; [done | lia] |].
  assert (Hdiv : (1048576 / size <? cp_count p) = (1048576 <? cp_count p * size)).
  { apply eq_bool_prop_intro. rewrite !Is_true_true, !Z.ltb_lt. split; intros H'.
    - apply Z.nle_gt. intros Hle. apply Z.lt_nge in H'. apply H', Z.div_le_lower_bound; lia.
    - apply Z.div_lt_upper_bound; lia. }
  rewrite Hdiv. destruct (Z.ltb_spec 1048576 (cp_count p * size)); cbn [orb]; [split; [done | lia] |].
  rewrite (u32_small (size * cp_count p)) by (unfold is_u32; lia).
  destruct (Z.eqb_spec (cp_bytes p) (size * cp_count p)) as [Eb |]; cbn [negb orb]; [| split; [done | lia]].
  rewrite u32_small by (unfold is_u32; lia).
  destruct (Z.ltb_spec (1048576 - cp_bytes p) (cp_offset p)); [split; [done | lia] |].
  destruct (_ && _) eqn:Hone.
  - split; [done |]. intros (_ & _ & _ & _ & Hsingle). exfalso. apply andb_true_iff in Hone as [Hin Hn]. apply negb_true_iff, Z.eqb_neq in Hn.
    apply Hn, Hsingle. rewrite !orb_true_iff, !Z.eqb_eq in Hin. destruct Hin as [[-> | ->] | ->]; repeat constructor.
  - split; [| done]. intros _. split_and!; [done | lia | lia | lia | lia |].
    intros Hin. apply andb_false_iff in Hone as [Hf | Hf]; [| by apply negb_false_iff, Z.eqb_eq in Hf].
    exfalso. rewrite !orb_false_iff, !Z.eqb_neq in Hf. rewrite !elem_of_cons, elem_of_nil in Hin. intuition.
Qed.

(** * Information queries *)

(** How many of its four selectors a query has. *)
Definition info_selectors (query : Z) : Z :=
  if query =? KB2_GPU_DRM_AMDGPU_INFO_QUERY_READ_MMR_REGISTER then 4
  else if query =? KB2_GPU_DRM_AMDGPU_INFO_QUERY_FIRMWARE_VERSION then 3
  else if query =? KB2_GPU_DRM_AMDGPU_INFO_QUERY_HW_IP_INFO then 2
  else if bool_decide (query ∈ [KB2_GPU_DRM_AMDGPU_INFO_QUERY_HW_IP_COUNT; KB2_GPU_DRM_AMDGPU_INFO_QUERY_SENSOR;
                                KB2_GPU_DRM_AMDGPU_INFO_QUERY_VIDEO_CAPS]) then 1
  else 0.

(** The answer to a query: records that the check of the request admits for the query,
    counted, their bytes below the limit; the selectors the query does not have are 0, and
    a range of registers ends inside the registers. *)
Definition info_shape_ok (query : Z) (s : list Z) (shape : kb2_amdgpu_info_shape_t) : Prop :=
  info_record (is_record shape) = true /\ amdgpu_info_query_record_valid query (is_record shape) = true /\
  1 <= is_count shape <= 128 /\ is_bytes shape = is_count shape * amdgpu_record_size (is_record shape) /\
  0 < is_bytes shape <= KB2_GPU_DRM_AMDGPU_MAX_INFO_BYTES /\
  (forall i, info_selectors query <= i < 4 -> nth (Z.to_nat i) s 0 = 0) /\
  (query = KB2_GPU_DRM_AMDGPU_INFO_QUERY_READ_MMR_REGISTER ->
   is_count shape = nth 1 s 0 /\ nth 0 s 0 + (is_count shape - 1) <= U32_MAX).

Definition info_row_ok (query record size count selectors : Z) : Prop :=
  info_record record = true /\ amdgpu_info_query_record_valid query record = true /\
  amdgpu_record_size record = size /\ 0 < size <= 436 /\ 1 <= count <= 128 /\ selectors = info_selectors query.

#[export] Instance info_row_ok_dec query record size count selectors : Decision (info_row_ok query record size count selectors).
Proof. unfold info_row_ok. apply _. Defined.

(** Apart from the registers, the selectors decide only whether there is an answer. *)
Lemma info_query_other query s x :
  info_query_shape query s = Some x -> query <> KB2_GPU_DRM_AMDGPU_INFO_QUERY_READ_MMR_REGISTER ->
  query ∈ seqZ 0 36 /\ info_query_shape query [] = Some x.
Proof.
  intros E Hq. destruct (decide (query ∈ seqZ 0 36)) as [Hin | Hin].
  - split; [done |]. change (seqZ 0 36) with (ltac:(let l := eval vm_compute in (seqZ 0 36) in exact l)) in Hin.
    rewrite !elem_of_cons, elem_of_nil in Hin. repeat destruct Hin as [-> | Hin]; try done; unfold info_query_shape in E |- *;
      cbn in E |- *; repeat case_match; congruence.
  - exfalso. assert (Hb : forall k, 0 <= k < 36 -> (query =? k) = false).
    { intros k Hk. apply Z.eqb_neq. intros ->. apply Hin, elem_of_seqZ. lia. }
    unfold info_query_shape in E. cbn [existsb] in E.
    repeat match type of E with context [query =? ?k] => rewrite (Hb k) in E by (vm_compute; split; congruence) end. done.
Qed.

Lemma info_query_shape_spec query s record size count selectors :
  info_query_shape query s = Some (record, size, count, selectors) -> is_u32 (nth 1 s 0) ->
  info_row_ok query record size count selectors /\
  (query = KB2_GPU_DRM_AMDGPU_INFO_QUERY_READ_MMR_REGISTER -> count = nth 1 s 0 /\ nth 0 s 0 + (count - 1) <= U32_MAX).
Proof.
  intros E H1. unfold is_u32 in H1. destruct (decide (query = KB2_GPU_DRM_AMDGPU_INFO_QUERY_READ_MMR_REGISTER)) as [-> | Hq].
  - unfold info_query_shape in E. rewrite Z.eqb_refl in E. cbv zeta in E.
    destruct (Z.eqb_spec (nth 1 s 0) 0); [done |]. destruct (Z.ltb_spec 128 (nth 1 s 0)); [done |].
    rewrite u32_small in E by (unfold is_u32; lia). cbn [orb] in E.
    destruct (Z.ltb_spec (U32_MAX - (nth 1 s 0 - 1)) (nth 0 s 0)); [done |]. injection E as <- <- <- <-.
    split; [| lia]. split_and!; try (by vm_compute); lia.
  - split; [| done]. apply info_query_other in E as [Hin E]; [| done]. apply list_elem_of_In in Hin.
    assert (H : forallb (fun q => match info_query_shape q [] with
        | Some (r, z, c, n) => bool_decide (info_row_ok q r z c n) | None => true end) (seqZ 0 36) = true) by (vm_compute; reflexivity).
    apply (proj1 (forallb_forall _ _) H) in Hin. rewrite E in Hin. by apply bool_decide_eq_true in Hin.
Qed.

Lemma info_shape_spec query s shape :
  Forall is_u32 s -> kb2_amdgpu_info_shape query s = Some shape -> info_shape_ok query s shape.
Proof.
  intros Hs E. unfold kb2_amdgpu_info_shape in E. destruct (info_query_shape query s) as [[[[record size] count] selectors] |] eqn:Eq; [| done].
  destruct (forallb _ _) eqn:Hf; [| done]. injection E as <-.
  assert (Hn : is_u32 (nth 1 s 0)).
  { destruct (nth_in_or_default 1 s 0) as [Hin | ->]; [| by vm_compute]. by apply (proj1 (List.Forall_forall _ _) Hs). }
  destruct (info_query_shape_spec _ _ _ _ _ _ Eq Hn) as [(Hi & Hr & Hz & ? & ? & Hsel) Hm].
  unfold info_shape_ok. cbn [is_record is_count is_bytes]. change KB2_GPU_DRM_AMDGPU_MAX_INFO_BYTES with 1048576. rewrite Hz.
  assert (0 < count * size <= 1048576) by nia.
  rewrite u32_small by (unfold is_u32; lia). split_and!; [done | done | lia | lia | lia | lia | lia | | exact Hm].
  intros i Hi'. rewrite <- Hsel in Hi'. apply (proj1 (forallb_forall _ _)) with (x := i) in Hf; [by apply Z.eqb_eq |].
  apply list_elem_of_In, elem_of_seqZ. lia.
Qed.

(** * The bridge *)

(** Every field of Linux's structure is named once, and the fields of the record are
    the schema's, in its order. *)
Definition bridge_covers (l : list (string * string)) (r : record_schema) : Prop :=
  NoDup l.*1 /\ l.*2 = (rs_fields r).*1.

Lemma bridge_lists :
  bridge_covers KB2_AMDGPU_DEVICE_FIELDS amdgpu_record_INFO_DEVICE /\ bridge_covers KB2_AMDGPU_HW_IP_FIELDS amdgpu_record_INFO_HW_IP.
Proof. unfold bridge_covers. apply (bool_decide_unpack _). vm_compute. exact I. Qed.
