(* ===== verification/GpuSchemaClaims.v ===== *)
(** Requests and schemas: the checks of gpu.c decide conformity to the schemas of the
    command sets, whose headers, catalogs and types are consistent.

    Claims about the hand-written shapes of the i915 and amdgpu requests: they agree
    with the generated schemas, and the checks of i915 requests decide what they say. *)

From Stdlib Require Import ZArith Lia String.
From stdpp Require Import base numbers tactics strings list_numbers list.
From S2P Require Import GpuValidateSpec GpuCommand GpuCommandWire.
From S2P Require Import Prelude Bytes Layout GpuDrmLayout GpuDrmSchema GpuCoreSchema GpuModeSchema GpuVirtgpuSchema GpuAmdgpuSchema.
From S2P Require Import GpuI915Schema Sorted Protocol GpuLayout GpuCompletion GpuRequest GpuRequestSpec GpuShapeSpec GpuSemantics.
From S2P Require Import GpuRules GpuAmdgpuSpec GpuCommandClaims I915Shape AmdgpuShape.

Open Scope list_scope.
Open Scope Z_scope.
Open Scope kobox_scope.

(** * Decidability

    The checks are decidable, so that a schema's consistency is evaluated. *)

#[export] Instance record_follows_dec types r : Decision (record_follows types r).
Proof. unfold record_follows. destruct (types_of _ _); apply _. Defined.

#[export] Instance record_known_dec s id : Decision (record_known s id).
Proof. unfold record_known. apply _. Defined.

#[export] Instance side_consistent_dec s i x : Decision (side_consistent s i x).
Proof. unfold side_consistent. apply _. Defined.

#[export] Instance schema_consistent_dec types s : Decision (schema_consistent types s).
Proof. unfold schema_consistent. apply _. Defined.

(** * The layout of a record *)






(** * The contracts of a schema *)





Lemma amdgpu_record_size_schema id : amdgpu_record_size id = record_size_of amdgpu_schema id.
Proof.
  unfold amdgpu_record_size, record_size_of.
  assert (E : KB2_GPU_DRM_AMDGPU_RECORD_CATALOG pair = (fun r => (rs_id r, rs_size r)) <$> sc_records amdgpu_schema) by (vm_compute; reflexivity).
  rewrite E. generalize (sc_records amdgpu_schema). intros l. induction l as [| r l IH]; [done |].
  cbn [fmap list_fmap List.find fst]. by destruct (rs_id r =? id).
Qed.

(** * The claim *)

#[export] Instance request_contract_eq_dec : EqDecision kb2_gpu_request_contract.
Proof. solve_decision. Defined.

#[export] Instance span_contract_eq_dec : EqDecision kb2_gpu_span_contract.
Proof. solve_decision. Defined.

#[export] Instance attachment_contract_eq_dec : EqDecision kb2_gpu_attachment_contract.
Proof. solve_decision. Defined.

#[export] Instance catalog_eq_dec : EqDecision catalog.
Proof. solve_decision. Defined.





(** * Requests that conform to a schema *)







(** ** From the rows of the catalog *)

Section Conforms.
Context (S : schema) (types : type_table) (Hcon : schema_consistent types S).
Context (source : kb2_gpu_command_source) (Hinc : increasing 0 (ar_argument_id <$> arguments_of source)).





Context (command : command_schema) (Hcmd : command ∈ sc_commands S) (Hid : cs_id command = so_command_id source).








End Conforms.








(** The widths matter: a record whose second field starts inside its first follows no
    table of types. *)
Lemma overlap_refused :
  ~ record_follows [(1, [("WIDE", TU64); ("NEXT", TU32)])] (mkRecordSchema 1 8 [("WIDE", 0); ("NEXT", 4)]).
Proof. intros (Hf & _). vm_compute in Hf. congruence. Qed.

(** * Shapes and schemas *)

Definition command_of (s : schema) (id : Z) : option command_schema := List.find (fun c => cs_id c =? id) (sc_commands s).

Definition request_bytes (s : schema) (c : command_schema) : Z := record_size_of s (sd_inline_record (cs_request c)).
Definition completion_bytes (s : schema) (c : command_schema) : Z := record_size_of s (sd_inline_record (cs_completion c)).

(** The numbers of elements are within the bounds of the request's spans. *)
Definition spans_admit (c : command_schema) (counts : list Z) : Prop :=
  Forall2 (fun x n => ss_minimum x <= n <= ss_maximum x) (sd_spans (cs_request c)) counts.

(** The bytes of so many elements of the request's spans, each of its one record. *)
Definition span_bytes (s : schema) (c : command_schema) (counts : list Z) : Z :=
  foldr Z.add 0 (zip_with (fun x n => n * record_size_of s (default 0 (head (ss_records x)))) (sd_spans (cs_request c)) counts).

(** A shape of a buffer object is that of its command: its records in the request and
    in the completion, and the ioctl of the command's UAPI number. *)
Definition bo_shape_follows (command : Z) (shape : kb2_i915_bo_shape) : bool :=
  match command_of i915_schema command with
  | Some c =>
      match cs_uapi_number c with
      | Some number =>
          bool_decide (bo_command shape = command /\ bo_record shape = sd_inline_record (cs_request c) /\
                       bo_bytes shape = request_bytes i915_schema c /\ bo_result_bytes shape = completion_bytes i915_schema c /\
                       ioctl_matches shape number)
      | None => false
      end
  | None => false
  end.

Lemma bo_shapes_follow command shape :
  kb2_i915_bo_shape_command command = Some shape ->
  exists c number, command_of i915_schema command = Some c /\ cs_uapi_number c = Some number /\
    bo_command shape = command /\ bo_record shape = sd_inline_record (cs_request c) /\
    bo_bytes shape = request_bytes i915_schema c /\ bo_result_bytes shape = completion_bytes i915_schema c /\
    ioctl_matches shape number.
Proof.
  intros E. pose proof (bo_shapes_forall bo_shape_follows ltac:(vm_compute; reflexivity) _ _ E) as H. unfold bo_shape_follows in H.
  destruct (command_of i915_schema command) as [c |]; [| discriminate H].
  destruct (cs_uapi_number c) as [number |] eqn:En; [| discriminate H].
  apply bool_decide_eq_true in H. exists c, number. exact (conj eq_refl (conj En H)).
Qed.

(** The header of a context request has the bytes of its record, and the payload it
    announces is that of the spans. *)
Lemma context_header_follows command p bytes aux :
  kb2_i915_context_header command (Some p) bytes = Some aux ->
  exists c, command_of i915_schema command = Some c /\ bytes = request_bytes i915_schema c /\
    (sd_spans (cs_request c) = [] /\ aux = 0 \/
     spans_admit c [load_u32 p 4; load_u32 p 8] /\ aux = span_bytes i915_schema c [load_u32 p 4; load_u32 p 8]).
Proof.
  rewrite context_header_spec. pose proof (load_u32_range p 4) as [H4 _]. pose proof (load_u32_range p 8) as [H8 _].
  intros [(-> & -> & _ & ->) | ([-> | ->] & -> & _ & ? & ? & _ & _ & ->)]; eexists; (split; [reflexivity |]); (split; [reflexivity |]);
    [by left | right ..]; (split; [repeat constructor; cbn; lia |]);
    unfold span_bytes; cbn -[load_u32 record_size_of Z.mul Z.add];
    change (record_size_of i915_schema 126) with 32; change (record_size_of i915_schema 127) with 4; lia.
Qed.

Lemma exec_header_follows p bytes aux :
  kb2_i915_exec_header (Some p) bytes = Some aux ->
  exists c, command_of i915_schema 16 = Some c /\ bytes = request_bytes i915_schema c /\
    spans_admit c [load_u32 p 0; load_u32 p 4] /\ aux = span_bytes i915_schema c [load_u32 p 0; load_u32 p 4].
Proof.
  rewrite exec_header_spec. intros (-> & ? & ? & _ & _ & _ & -> & _). pose proof (load_u32_range p 4) as [H4 _].
  eexists. split; [reflexivity |]. split; [reflexivity |]. split; [repeat constructor; cbn; lia |].
  unfold span_bytes. cbn -[load_u32 record_size_of Z.mul Z.add].
  change (record_size_of i915_schema 129) with 40. change (record_size_of i915_schema 130) with 8. lia.
Qed.

(** C39. The shapes written by hand follow the generated schemas.  A shape of an i915
    buffer object has the record and the sizes of its command and the ioctl number
    that Linux builds from them, and is found by either number; the header of a
    context or execution request has the bytes of its record and announces a payload
    of as many elements as the spans of the schema admit.  A part of an amdgpu
    submission is valid exactly when it is whole chunk records of the schema inside
    the megabyte of a submission; the shape of an amdgpu INFO answer is records that
    the check of the request accepts for the query, within its limit, without a
    product or a register range that wraps; and the bridge maps the fields of Linux's
    structures onto exactly the fields of the records. *)
Theorem driver_shapes_follow_schemas :
  (forall command shape, kb2_i915_bo_shape_command command = Some shape ->
     exists c number, command_of i915_schema command = Some c /\ cs_uapi_number c = Some number /\
       bo_command shape = command /\ bo_record shape = sd_inline_record (cs_request c) /\
       bo_bytes shape = request_bytes i915_schema c /\ bo_result_bytes shape = completion_bytes i915_schema c /\
       ioctl_matches shape number) /\
  (forall request shape, kb2_i915_bo_shape_ioctl request = Some shape <->
     exists command, kb2_i915_bo_shape_command command = Some shape /\ bo_ioctl shape = request) /\
  (forall command p bytes aux, kb2_i915_context_header command (Some p) bytes = Some aux ->
     exists c, command_of i915_schema command = Some c /\ bytes = request_bytes i915_schema c /\
       (sd_spans (cs_request c) = [] /\ aux = 0 \/
        spans_admit c [load_u32 p 4; load_u32 p 8] /\ aux = span_bytes i915_schema c [load_u32 p 4; load_u32 p 8])) /\
  (forall p bytes aux, kb2_i915_exec_header (Some p) bytes = Some aux ->
     exists c, command_of i915_schema 16 = Some c /\ bytes = request_bytes i915_schema c /\
       spans_admit c [load_u32 p 0; load_u32 p 4] /\ aux = span_bytes i915_schema c [load_u32 p 0; load_u32 p 4]) /\
  (forall part, cs_part_typed part -> kb2_amdgpu_cs_part_valid part = true <-> cs_part_ok part) /\
  (forall query s shape, Forall is_u32 s -> kb2_amdgpu_info_shape query s = Some shape -> info_shape_ok query s shape) /\
  bridge_covers KB2_AMDGPU_DEVICE_FIELDS amdgpu_record_INFO_DEVICE /\
  bridge_covers KB2_AMDGPU_HW_IP_FIELDS amdgpu_record_INFO_HW_IP.
Proof.
  split_and!.
  - apply bo_shapes_follow.
  - apply bo_ioctl_inverse.
  - apply context_header_follows.
  - apply exec_header_follows.
  - apply cs_part_spec.
  - apply info_shape_spec.
  - apply bridge_lists.
  - apply bridge_lists.
Qed.

(** Three dependencies at offset 96 of a submission, and the registers from 16 on. *)
Lemma driver_shapes_follow_schemas_witness :
  cs_part_ok (mkCsPart 113 3 96 72) /\ info_shape_ok 21 [16; 4; 0; 7] (mkInfoShape 124 4 16).
Proof.
  split.
  - apply (proj1 (proj2 (proj2 (proj2 (proj2 driver_shapes_follow_schemas)))) (mkCsPart 113 3 96 72)).
    + vm_compute. repeat split; discriminate || reflexivity.
    + vm_compute. reflexivity.
  - apply (proj1 (proj2 (proj2 (proj2 (proj2 (proj2 driver_shapes_follow_schemas))))) 21 [16; 4; 0; 7]).
    + repeat constructor; vm_compute; discriminate || reflexivity.
    + vm_compute. reflexivity.
Defined.

(** * Checks of i915 requests *)

(** C40. The checks of the i915 requests decide what they say.  A buffer-object record
    is accepted exactly when it has the size of its command and its fields are
    admissible, a context header exactly when its fields are and with the size of
    what follows; a parameter stream exactly when every parameter is one of the known
    forms and the engine lists follow each other over the engines, so that every
    engine is in exactly one list; an execution request exactly when its counts,
    flags, objects and fences are within their limits.  None of the checks looks at a
    byte behind the given size. *)
Theorem i915_requests_decided p bytes :
  (forall command, kb2_i915_bo_input_valid command (Some p) bytes = true <->
     (exists shape, kb2_i915_bo_shape_command command = Some shape /\ bytes = bo_bytes shape) /\ bo_input_ok command p) /\
  (forall command aux, kb2_i915_context_header command (Some p) bytes = Some aux <-> context_header_ok command p bytes aux) /\
  (forall params engines, is_u32 params -> is_u32 engines ->
     (kb2_i915_context_params (Some p) bytes params engines = true <->
      params <= 64 /\ engines <= 4096 /\ bytes = params * 32 + engines * 4 /\ stream_ok p params engines) /\
     (stream_ok p params engines -> forall e, 0 <= e < engines ->
        exists i x, engine_lists p params !! i = Some x /\ cq_first x <= e < cq_first x + cq_count x /\
          forall j y, engine_lists p params !! j = Some y -> cq_first y <= e < cq_first y + cq_count y -> j = i)) /\
  (forall total, kb2_i915_exec_header (Some p) bytes = Some total <-> bytes = 32 /\ exec_header_ok p total) /\
  (forall objects fences, is_u32 objects -> is_u32 fences ->
     kb2_i915_exec_payload (Some p) bytes objects fences = true <->
     1 <= objects <= 8192 /\ fences <= 65536 /\ bytes = objects * 40 + fences * 8 /\ bytes <= 1048576 /\
     exec_payload_ok p objects fences) /\
  (forall p', agree p p' 0 bytes ->
     (forall command, kb2_i915_bo_input_valid command (Some p) bytes = kb2_i915_bo_input_valid command (Some p') bytes) /\
     (forall command, kb2_i915_context_header command (Some p) bytes = kb2_i915_context_header command (Some p') bytes) /\
     (forall params engines, is_u32 params -> is_u32 engines ->
        kb2_i915_context_params (Some p) bytes params engines = kb2_i915_context_params (Some p') bytes params engines) /\
     kb2_i915_exec_header (Some p) bytes = kb2_i915_exec_header (Some p') bytes /\
     (forall objects fences, is_u32 objects -> is_u32 fences ->
        kb2_i915_exec_payload (Some p) bytes objects fences = kb2_i915_exec_payload (Some p') bytes objects fences)).
Proof.
  split_and!.
  - intros command. apply bo_input_spec.
  - intros command aux. apply context_header_spec.
  - intros params engines [Hp _] [He _]. split.
    + rewrite context_params_spec by done. cbn [default]. naive_solver.
    + intros [_ Ht] e Hin. apply (lists_tile_unique 0 engines); [apply count_nonneg | done | done].
  - intros total. apply exec_header_spec.
  - intros objects fences [Ho _] _. rewrite exec_payload_spec. intuition lia.
  - intros p' Ha. split_and!.
    + intros command. by apply bo_input_inside.
    + intros command. by apply context_header_inside.
    + intros params engines [? _] [? _]. by apply context_params_inside.
    + by apply exec_header_inside.
    + intros objects fences [? _] [? _]. by apply exec_payload_inside.
Qed.

(** Two lists of one engine each. *)
Definition two_lists : list Z :=
  [10;0;0;0; 0;0;0;0; 0;0;0;0; 0;0;0;0; 12;0;0;0; 0;0;0;0; 1;0;0;0; 0;0;0;0;
   10;0;0;0; 0;0;0;0; 0;0;0;0; 0;0;0;0; 12;0;0;0; 1;0;0;0; 1;0;0;0; 0;0;0;0; 0;0;0;0; 0;0;0;0].

Lemma i915_requests_decided_witness :
  stream_ok two_lists 2 2 /\
  exists i x, engine_lists two_lists 2 !! i = Some x /\ cq_first x <= 1 < cq_first x + cq_count x.
Proof.
  assert (Hu : is_u32 2) by (vm_compute; split; discriminate || reflexivity).
  destruct (proj1 (proj2 (proj2 (i915_requests_decided two_lists 72))) 2 2 Hu Hu) as [Hd Hl].
  assert (Hok : stream_ok two_lists 2 2).
  { apply Hd. vm_compute. reflexivity. }
  split; [exact Hok |]. destruct (Hl Hok 1 ltac:(lia)) as (i & x & Hx & Hin & _). exists i, x. exact (conj Hx Hin).
Defined.
