(* ===== verification/Virtqueue.v ===== *)
(** The split-ring engine (protocol/src/virtqueue.c, protocol/include/kobox2/virtqueue.h).

    A chain is a caller-owned object that the queue's slot array, [last_taken] and
    the caller all point to, so chains live in a store indexed by their address
    ([loc]) and every operation names a chain by its address; [None] is NULL.  The
    shared memory is reached through the callbacks of kb2_vq_memory_t, here the
    class [VqMemory]: a backend state, which the peer may change between two calls,
    and the callbacks as operations on it.

    An operation takes the engine state and gives back its status, its output cells
    and the new state.  uint16_t, uint32_t and uint64_t values are [Z], truncated
    where C truncates; array lengths and indices of type size_t are [nat]. *)

From Stdlib Require Import ZArith Lia.
From stdpp Require Import base numbers tactics gmap list_numbers list.
From S2P Require Import Prelude Bytes Protocol.

Open Scope Z_scope.

Inductive kb2_vq_status : Type :=
| KB2_VQ_OK
| KB2_VQ_EMPTY
| KB2_VQ_FULL
| KB2_VQ_INVALID
| KB2_VQ_STALE
| KB2_VQ_FAULTED
| KB2_VQ_IO.

#[export] Instance kb2_vq_status_eq_dec : EqDecision kb2_vq_status.
Proof. solve_decision. Defined.

Inductive kb2_vq_side : Type := KB2_VQ_DRIVER | KB2_VQ_DEVICE.

#[export] Instance kb2_vq_side_eq_dec : EqDecision kb2_vq_side.
Proof. solve_decision. Defined.

Inductive chain_state : Type := FREE | SUBMITTED | ACCEPTED | RETURNED.

#[export] Instance chain_state_eq_dec : EqDecision chain_state.
Proof. solve_decision. Defined.

Definition DESC_SIZE : Z := 16.
Definition DESC_NEXT : Z := 1.
Definition DESC_WRITE : Z := 2.
Definition DESC_INDIRECT : Z := 4.

(** * The memory callbacks *)

Class VqMemory (M : Type) : Type := {
  mem_read : M -> Z -> Z -> option (list Z) * M;
  mem_write : M -> Z -> list Z -> bool * M;
  mem_load_acquire : M -> Z -> option Z * M;
  mem_store_release : M -> Z -> Z -> bool * M;
  mem_fence : M -> M;
  (** The policy is private and immutable; it only reads the backend. *)
  mem_payload_allowed : M -> Z -> Z -> Z -> Z -> bool;
}.

(** * Data *)

Record kb2_vq_segment := mkSegment {
  sg_address : Z;
  sg_length : Z;
  sg_descriptor : Z;
  sg_writable : Z;
}.

(** The address of a chain object. *)
Notation loc := positive.

Record kb2_vq_chain := mkChain {
  c_segments : option (list kb2_vq_segment);
  c_capacity : nat;
  c_count : nat;
  c_head : Z;
  c_indirect : Z;
  c_indirect_length : Z;
  c_indirect_descriptor : Z;
  c_indirect_first : nat;
  c_readable : Z;
  c_writable : Z;
  c_written : Z;
  c_used_length : Z;
  c_state : chain_state;
}.

Record kb2_vq_channel := mkVqChannel {
  vc_identity : kb2_protocol_channel;
  vc_queues : list kb2_protocol_queue;
  vc_regions : list kb2_protocol_region;
  vc_faulted : bool;
}.

Record kb2_vq := mkVq {
  vq_channel : option kb2_vq_channel;
  vq_queue : kb2_protocol_queue;
  vq_side : kb2_vq_side;
  vq_slots : list (option loc);
  vq_last_taken : option loc;
  vq_descriptor_owner : list Z;
  vq_produced : Z;
  vq_consumed : Z;
  vq_owned : Z;
}.

(** The queue object, the chains of its owner and the backend. *)
Record engine (M : Type) := mkEngine {
  e_vq : kb2_vq;
  e_chains : gmap loc kb2_vq_chain;
  e_mem : M;
}.
Arguments mkEngine {M} _ _ _.
Arguments e_vq {M} _.
Arguments e_chains {M} _.
Arguments e_mem {M} _.

(** A chain object the caller has just zeroed. *)
Definition zero_chain : kb2_vq_chain :=
  mkChain None 0 0 0 0 0 0 0 0 0 0 0 FREE.

(** The object behind a chain pointer. *)
Definition chain_at (chains : gmap loc kb2_vq_chain) (p : loc) : kb2_vq_chain :=
  default zero_chain (chains !! p).

(** * Assignments to fields *)

Definition set_state (c : kb2_vq_chain) (state : chain_state) : kb2_vq_chain :=
  mkChain (c_segments c) (c_capacity c) (c_count c) (c_head c) (c_indirect c) (c_indirect_length c)
    (c_indirect_descriptor c) (c_indirect_first c) (c_readable c) (c_writable c) (c_written c)
    (c_used_length c) state.

Definition set_head (c : kb2_vq_chain) (head : Z) : kb2_vq_chain :=
  mkChain (c_segments c) (c_capacity c) (c_count c) head (c_indirect c) (c_indirect_length c)
    (c_indirect_descriptor c) (c_indirect_first c) (c_readable c) (c_writable c) (c_written c)
    (c_used_length c) (c_state c).

Definition set_totals (c : kb2_vq_chain) (readable writable : Z) : kb2_vq_chain :=
  mkChain (c_segments c) (c_capacity c) (c_count c) (c_head c) (c_indirect c) (c_indirect_length c)
    (c_indirect_descriptor c) (c_indirect_first c) readable writable 0 0 (c_state c).

Definition set_written (c : kb2_vq_chain) (written : Z) : kb2_vq_chain :=
  mkChain (c_segments c) (c_capacity c) (c_count c) (c_head c) (c_indirect c) (c_indirect_length c)
    (c_indirect_descriptor c) (c_indirect_first c) (c_readable c) (c_writable c) written
    (c_used_length c) (c_state c).

Definition set_returned (c : kb2_vq_chain) (used_length : Z) : kb2_vq_chain :=
  mkChain (c_segments c) (c_capacity c) (c_count c) (c_head c) (c_indirect c) (c_indirect_length c)
    (c_indirect_descriptor c) (c_indirect_first c) (c_readable c) (c_writable c) (c_written c)
    used_length RETURNED.

Definition set_indirect (c : kb2_vq_chain) (address length descriptor : Z) (first : nat) : kb2_vq_chain :=
  mkChain (c_segments c) (c_capacity c) (c_count c) (c_head c) address length descriptor first
    (c_readable c) (c_writable c) (c_written c) (c_used_length c) (c_state c).

Definition reset_chain (c : kb2_vq_chain) : kb2_vq_chain :=
  mkChain (c_segments c) (c_capacity c) 0 (c_head c) 0 0 0 0
    (c_readable c) (c_writable c) (c_written c) (c_used_length c) (c_state c).

(** chain->segments[chain->count++] = s *)
Definition push_segment (c : kb2_vq_chain) (s : kb2_vq_segment) : kb2_vq_chain :=
  mkChain (insert (c_count c) s <$> c_segments c) (c_capacity c) (S (c_count c)) (c_head c) (c_indirect c)
    (c_indirect_length c) (c_indirect_descriptor c) (c_indirect_first c) (c_readable c) (c_writable c)
    (c_written c) (c_used_length c) (c_state c).

(** The first [count] segments. *)
Definition chain_segments (c : kb2_vq_chain) : list kb2_vq_segment :=
  take (c_count c) (default [] (c_segments c)).

Definition direct_count (c : kb2_vq_chain) : nat :=
  if c_indirect_length c =? 0 then c_count c else c_indirect_first c.

(** * Little-endian fields of the ring structures *)

Definition read_u16 (b : list Z) (off : Z) : Z :=
  Z.lor (get_byte b off) (Z.shiftl (get_byte b (off + 1)) 8).

Definition read_u32 (b : list Z) (off : Z) : Z :=
  Z.lor (read_u16 b off) (Z.shiftl (read_u16 b (off + 2)) 16).

Definition read_u64 (b : list Z) (off : Z) : Z :=
  Z.lor (read_u32 b off) (Z.shiftl (read_u32 b (off + 4)) 32).

Definition write_u16 (b : list Z) (off v : Z) : list Z :=
  put_byte (put_byte b off v) (off + 1) (Z.shiftr v 8).

Definition write_u32 (b : list Z) (off v : Z) : list Z :=
  write_u16 (write_u16 b off (u16 v)) (off + 2) (u16 (Z.shiftr v 16)).

Definition write_u64 (b : list Z) (off v : Z) : list Z :=
  write_u32 (write_u32 b off (u32 v)) (off + 4) (u32 (Z.shiftr v 32)).

(** * Ranges *)

Definition range_valid (address size : Z) : bool :=
  negb (size =? 0) && (address <=? U64_MAX - size).

Definition overlaps (a n b m : Z) : bool :=
  negb (n =? 0) && negb (m =? 0) && (a <? u64 (b + m)) && (b <? u64 (a + n)).

Definition ring_base (q : kb2_protocol_queue) (ring : Z) : Z :=
  if ring =? 0 then q_descriptor_address q
  else if ring =? 1 then q_available_address q else q_used_address q.

Definition ring_size (q : kb2_protocol_queue) (ring : Z) : Z :=
  if ring =? 0 then q_queue_size q * 16 else 6 + q_queue_size q * (if ring =? 1 then 2 else 8).

Section Engine.
Context {M : Type} `{VqMemory M}.

Notation engine := (engine M).
Implicit Types e : engine.

Definition set_vq e (vq : kb2_vq) : engine := mkEngine vq (e_chains e) (e_mem e).
Definition set_mem e (mem : M) : engine := mkEngine (e_vq e) (e_chains e) mem.
Definition set_chain e (p : loc) (c : kb2_vq_chain) : engine :=
  mkEngine (e_vq e) (<[p := c]> (e_chains e)) (e_mem e).
Definition e_chain e (p : loc) : kb2_vq_chain := chain_at (e_chains e) p.
Definition e_queue e : kb2_protocol_queue := vq_queue (e_vq e).

Definition payload_range e (address size rights : Z) : bool :=
  match vq_channel (e_vq e) with
  | None => false
  | Some channel =>
      if size =? 0 then true
      else if negb (range_valid address size) then false
      else if negb (existsb (fun r =>
                (rg_transport_base r <=? address) &&
                (u64 (address + size) <=? u64 (rg_transport_base r + rg_length r)) &&
                (Z.land (rg_rights r) rights =? rights)) (vc_regions channel)) then false
      else if existsb (fun q => existsb (fun ring =>
                overlaps address size (ring_base q ring) (ring_size q ring)) [0; 1; 2])
                (vc_queues channel) then false
      else mem_payload_allowed (e_mem e) (q_queue_id (e_queue e)) address size rights
  end.

Definition kb2_vq_channel_fault (channel : option kb2_vq_channel) : option kb2_vq_channel :=
  match channel with
  | None => None
  | Some c => Some (mkVqChannel (vc_identity c) (vc_queues c) (vc_regions c) true)
  end.

Definition fault e (io : bool) : kb2_vq_status * engine :=
  let vq := e_vq e in
  (if io then KB2_VQ_IO else KB2_VQ_FAULTED,
   set_vq e (mkVq (kb2_vq_channel_fault (vq_channel vq)) (vq_queue vq) (vq_side vq) (vq_slots vq)
               (vq_last_taken vq) (vq_descriptor_owner vq) (vq_produced vq) (vq_consumed vq) (vq_owned vq))).

(** [vq_given]: the queue pointer is not NULL. *)
Definition check e (vq_given : bool) (generation : Z) : kb2_vq_status :=
  match vq_channel (e_vq e) with
  | None => KB2_VQ_INVALID
  | Some channel =>
      if negb vq_given || (generation =? 0) then KB2_VQ_INVALID
      else if negb (ch_generation (vc_identity channel) =? generation) then KB2_VQ_STALE
      else if vc_faulted channel then KB2_VQ_FAULTED else KB2_VQ_OK
  end.

Definition kb2_vq_channel_init (out_given : bool) (identity : option kb2_protocol_channel)
    (queues : option (list kb2_protocol_queue)) (queue_count : Z)
    (regions : option (list kb2_protocol_region)) (region_count : Z) : kb2_vq_status * option kb2_vq_channel :=
  if negb out_given ||
     negb (bool_decide (kb2_protocol_channel_validate identity queues queue_count regions region_count =
                        KB2_PROTOCOL_OK)) then (KB2_VQ_INVALID, None)
  else
    match identity, queues, regions with
    | Some identity, Some queues, Some regions =>
        (KB2_VQ_OK, Some (mkVqChannel identity (array_items queues queue_count)
                            (array_items regions region_count) false))
    | _, _, _ => (KB2_VQ_INVALID, None)
    end.

(** The last queue of the table with the id. *)
Fixpoint find_queue (queues : list kb2_protocol_queue) (queue_id : Z) (found : option kb2_protocol_queue) :
    option kb2_protocol_queue :=
  match queues with
  | [] => found
  | q :: queues => find_queue queues queue_id (if q_queue_id q =? queue_id then Some q else found)
  end.

(** [pointers_given]: every pointer argument and callback is there.  The queue
    object when it was written, the channel and the backend. *)
Definition kb2_vq_bind (pointers_given : bool) (channel : option kb2_vq_channel) (queue_id : Z)
    (side : option kb2_vq_side) (mem : M) (capacity : Z) :
    kb2_vq_status * option kb2_vq * option kb2_vq_channel * M :=
  match channel, side with
  | Some c, Some side =>
      if negb pointers_given then (KB2_VQ_INVALID, None, channel, mem)
      else if vc_faulted c then (KB2_VQ_FAULTED, None, channel, mem)
      else
        match find_queue (vc_queues c) queue_id None with
        | None => (KB2_VQ_INVALID, None, channel, mem)
        | Some queue =>
            if capacity <? q_queue_size queue then (KB2_VQ_INVALID, None, channel, mem)
            else
              let owned_ring := if decide (side = KB2_VQ_DRIVER) then q_available_address queue
                                else q_used_address queue in
              match mem_load_acquire mem (u64 (owned_ring + 2)) with
              | (None, mem) => (KB2_VQ_IO, None, kb2_vq_channel_fault channel, mem)
              | (Some index, mem) =>
                  if negb (index =? 0) then (KB2_VQ_FAULTED, None, kb2_vq_channel_fault channel, mem)
                  else
                    let n := Z.to_nat (q_queue_size queue) in
                    (KB2_VQ_OK, Some (mkVq channel queue side (replicate n None) None (replicate n 0) 0 0 0),
                     channel, mem)
              end
        end
  | _, _ => (KB2_VQ_INVALID, None, channel, mem)
  end.

(** * Ownership *)

Definition slot_at e (head : Z) : option loc := mjoin (vq_slots (e_vq e) !! Z.to_nat head).
Definition owner_at e (descriptor : Z) : Z := default 0 (vq_descriptor_owner (e_vq e) !! Z.to_nat descriptor).

Definition owned e (chain : option loc) (state : chain_state) : bool :=
  match chain with
  | None => false
  | Some p =>
      let c := e_chain e p in
      (c_head c <? q_queue_size (e_queue e)) && bool_decide (c_state c = state) &&
      bool_decide (slot_at e (c_head c) = Some p)
  end.

Definition chains_overlap (a b : kb2_vq_chain) : bool :=
  let at_ := c_indirect_length a in
  let bt := c_indirect_length b in
  if overlaps (c_indirect a) at_ (c_indirect b) bt then true
  else if existsb (fun left =>
            overlaps (sg_address left) (sg_length left) (c_indirect b) bt ||
            existsb (fun right =>
              (negb (sg_writable left =? 0) || negb (sg_writable right =? 0)) &&
              overlaps (sg_address left) (sg_length left) (sg_address right) (sg_length right))
              (chain_segments b)) (chain_segments a) then true
  else existsb (fun s => overlaps (c_indirect a) at_ (sg_address s) (sg_length s)) (chain_segments b).

(** The checks on one segment, [i] its index and [previous] the earlier ones. *)
Definition segment_valid e (c : kb2_vq_chain) (i : nat) (previous : list kb2_vq_segment)
    (seen_writable : bool) (s : kb2_vq_segment) : bool :=
  let in_table := (direct_count c <=? i)%nat in
  if (1 <? sg_writable s) || ((sg_writable s =? 0) && seen_writable) ||
     negb (payload_range e (sg_address s) (sg_length s)
             (if sg_writable s =? 0 then KB2_PROTOCOL_REGION_RIGHT_READ else KB2_PROTOCOL_REGION_RIGHT_WRITE)) ||
     overlaps (sg_address s) (sg_length s) (c_indirect c) (c_indirect_length c) then false
  else if (if in_table then c_indirect_length c / DESC_SIZE <=? sg_descriptor s
           else (q_queue_size (e_queue e) <=? sg_descriptor s) ||
                negb (owner_at e (sg_descriptor s) =? 0) ||
                (negb (c_indirect_length c =? 0) && (sg_descriptor s =? c_indirect_descriptor c))) then false
  else
    negb (existsb (fun '(j, p) =>
      (Bool.eqb (direct_count c <=? j)%nat in_table && (sg_descriptor s =? sg_descriptor p)) ||
      ((negb (sg_writable s =? 0) || negb (sg_writable p =? 0)) &&
       overlaps (sg_address s) (sg_length s) (sg_address p) (sg_length p)))
      (zip (seq 0 (length previous)) previous)).

(** The loop over the segments: the readable and writable totals. *)
Fixpoint validate_segments e (c : kb2_vq_chain) (i : nat) (previous : list kb2_vq_segment)
    (seen_writable : bool) (readable writable : Z) (rest : list kb2_vq_segment) : option (Z * Z) :=
  match rest with
  | [] => Some (readable, writable)
  | s :: rest =>
      if negb (segment_valid e c i previous seen_writable s) then None
      else
        let w := negb (sg_writable s =? 0) in
        validate_segments e c (S i) (previous ++ [s]) (seen_writable || w)
          (if w then readable else u64 (readable + sg_length s))
          (if w then u64 (writable + sg_length s) else writable) rest
  end.

Definition indirect_valid e (c : kb2_vq_chain) : bool :=
  let q := e_queue e in
  if negb (c_indirect_length c =? 0) then
    negb (negb (Z.land (c_indirect c) 15 =? 0) || negb (c_indirect_length c mod DESC_SIZE =? 0) ||
          (q_max_indirect_length q <? c_indirect_length c / DESC_SIZE) ||
          (c_count c <=? direct_count c)%nat || (q_queue_size q <=? c_indirect_descriptor c) ||
          negb (owner_at e (c_indirect_descriptor c) =? 0) ||
          negb (default 0 (sg_descriptor <$> chain_segments c !! direct_count c) =? 0) ||
          negb (payload_range e (c_indirect c) (c_indirect_length c) KB2_PROTOCOL_REGION_RIGHT_READ))
  else
    negb (negb (c_indirect c =? 0) || negb (c_indirect_first c =? 0)%nat ||
          negb (c_indirect_descriptor c =? 0)).

Definition totals_valid e (readable writable : Z) : bool :=
  negb (writable =? 0) &&
  (if q_role (e_queue e) =? KB2_PROTOCOL_QUEUE_ROLE_REQUEST then negb (readable =? 0) else readable =? 0).

(** The chain with its totals filled in, when it is valid. *)
Definition validate_chain e (c : kb2_vq_chain) : option kb2_vq_chain :=
  let q := e_queue e in
  match c_segments c with
  | None => None
  | Some _ =>
      if (c_count c =? 0)%nat || (c_capacity c <? c_count c)%nat ||
         (q_max_chain_length q <? Z.of_nat (c_count c)) || (q_queue_size q <=? c_head c) ||
         bool_decide (slot_at e (c_head c) <> None) || negb (owner_at e (c_head c) =? 0) then None
      else if negb (indirect_valid e c) then None
      else
        let first := if (direct_count c =? 0)%nat then c_indirect_descriptor c
                     else default 0 (sg_descriptor <$> chain_segments c !! 0%nat) in
        if negb (first =? c_head c) then None
        else
          match validate_segments e c 0 [] false 0 0 (chain_segments c) with
          | None => None
          | Some (readable, writable) =>
              if negb (totals_valid e readable writable) then None
              else if existsb (fun slot =>
                        match slot with
                        | None => false
                        | Some p => chains_overlap c (e_chain e p)
                        end) (vq_slots (e_vq e)) then None
              else Some (set_totals c readable writable)
          end
  end.

(** Assign [v] to the owner cell of every direct descriptor of the chain. *)
Definition set_owners (owner : list Z) (c : kb2_vq_chain) (v : Z) : list Z :=
  let owner := if c_indirect_length c =? 0 then owner
               else <[Z.to_nat (c_indirect_descriptor c) := v]> owner in
  foldl (fun owner s => <[Z.to_nat (sg_descriptor s) := v]> owner) owner
    (take (direct_count c) (chain_segments c)).

Definition claim e (p : loc) (state : chain_state) : engine :=
  let vq := e_vq e in
  let c := e_chain e p in
  mkEngine
    (mkVq (vq_channel vq) (vq_queue vq) (vq_side vq) (<[Z.to_nat (c_head c) := Some p]> (vq_slots vq))
       (vq_last_taken vq) (set_owners (vq_descriptor_owner vq) c (u16 (c_head c + 1)))
       (vq_produced vq) (vq_consumed vq) (u32 (vq_owned vq + 1)))
    (<[p := set_state c state]> (e_chains e)) (e_mem e).

Definition drop_chain e (p : loc) : engine :=
  let vq := e_vq e in
  let c := e_chain e p in
  mkEngine
    (mkVq (vq_channel vq) (vq_queue vq) (vq_side vq) (<[Z.to_nat (c_head c) := None]> (vq_slots vq))
       (if decide (vq_last_taken vq = Some p) then None else vq_last_taken vq)
       (set_owners (vq_descriptor_owner vq) c 0)
       (vq_produced vq) (vq_consumed vq) (u32 (vq_owned vq - 1)))
    (<[p := set_state c FREE]> (e_chains e)) (e_mem e).

Definition set_produced e (produced : Z) : engine :=
  let vq := e_vq e in
  set_vq e (mkVq (vq_channel vq) (vq_queue vq) (vq_side vq) (vq_slots vq) (vq_last_taken vq)
              (vq_descriptor_owner vq) produced (vq_consumed vq) (vq_owned vq)).

Definition set_consumed e (consumed : Z) : engine :=
  let vq := e_vq e in
  set_vq e (mkVq (vq_channel vq) (vq_queue vq) (vq_side vq) (vq_slots vq) (vq_last_taken vq)
              (vq_descriptor_owner vq) (vq_produced vq) consumed (vq_owned vq)).

Definition set_last_taken e (last : option loc) : engine :=
  let vq := e_vq e in
  set_vq e (mkVq (vq_channel vq) (vq_queue vq) (vq_side vq) (vq_slots vq) last
              (vq_descriptor_owner vq) (vq_produced vq) (vq_consumed vq) (vq_owned vq)).

(** * Publication *)

(** Whether the peer asked to be woken for the entry just published. *)
Definition wants_notify (old next threshold : Z) : bool :=
  u16 (next - threshold - 1) <? u16 (next - old).

Definition publish_index e (ring event : Z) : kb2_vq_status * option bool * engine :=
  let old := vq_produced (e_vq e) in
  let next := u16 (old + 1) in
  match mem_store_release (e_mem e) (u64 (ring + 2)) next with
  | (false, mem) => let '(s, e) := fault (set_mem e mem) true in (s, None, e)
  | (true, mem) =>
      let e := set_produced (set_mem e mem) next in
      let e := set_mem e (mem_fence (e_mem e)) in
      match mem_load_acquire (e_mem e) event with
      | (None, mem) => let '(s, e) := fault (set_mem e mem) true in (s, None, e)
      | (Some threshold, mem) =>
          (KB2_VQ_OK, Some (wants_notify old next threshold), set_mem e mem)
      end
  end.

(** The 16 bytes of a descriptor. *)
Definition descriptor_bytes (address length flags next : Z) : list Z :=
  let b := write_u64 (replicate 16 0) 0 address in
  let b := write_u32 b 8 length in
  let b := write_u16 b 12 flags in
  write_u16 b 14 next.

Definition segment_flags (s : kb2_vq_segment) (more : bool) : Z :=
  Z.lor (if sg_writable s =? 0 then 0 else DESC_WRITE) (if more then DESC_NEXT else 0).

(** The loop that writes the descriptors, from segment [i] on. *)
Fixpoint write_descriptors e (c : kb2_vq_chain) (i : nat) (rest : list kb2_vq_segment) : kb2_vq_status * engine :=
  match rest with
  | [] => (KB2_VQ_OK, e)
  | s :: rest =>
      let table := if (direct_count c <=? i)%nat then c_indirect c else q_descriptor_address (e_queue e) in
      let more := (S i <? c_count c)%nat in
      let next := if more then
                    if (S i =? direct_count c)%nat then c_indirect_descriptor c
                    else default 0 (sg_descriptor <$> chain_segments c !! S i)
                  else 0 in
      match mem_write (e_mem e) (u64 (table + sg_descriptor s * DESC_SIZE))
              (descriptor_bytes (sg_address s) (sg_length s) (segment_flags s more) next) with
      | (false, mem) => fault (set_mem e mem) true
      | (true, mem) => write_descriptors (set_mem e mem) c (S i) rest
      end
  end.

Definition write_indirect_reference e (c : kb2_vq_chain) : kb2_vq_status * engine :=
  if c_indirect_length c =? 0 then (KB2_VQ_OK, e)
  else
    match mem_write (e_mem e)
            (u64 (q_descriptor_address (e_queue e) + c_indirect_descriptor c * DESC_SIZE))
            (descriptor_bytes (c_indirect c) (c_indirect_length c) DESC_INDIRECT 0) with
    | (false, mem) => fault (set_mem e mem) true
    | (true, mem) => (KB2_VQ_OK, set_mem e mem)
    end.

Definition ring_slot e (index : Z) : Z := Z.land index (q_queue_size (e_queue e) - 1).

(** Everything kb2_vq_publish does once the chain is claimed. *)
Definition publish_claimed e (c : kb2_vq_chain) : kb2_vq_status * option bool * engine :=
  match write_descriptors e c 0 (chain_segments c) with
  | (KB2_VQ_OK, e) =>
      match write_indirect_reference e c with
      | (KB2_VQ_OK, e) =>
          let q := e_queue e in
          let slot := ring_slot e (vq_produced (e_vq e)) in
          match mem_write (e_mem e) (u64 (q_available_address q + 4 + 2 * slot))
                  (write_u16 [0; 0] 0 (c_head c)) with
          | (false, mem) => let '(s, e) := fault (set_mem e mem) true in (s, None, e)
          | (true, mem) =>
              publish_index (set_mem e mem) (q_available_address q)
                (u64 (q_used_address q + 4 + q_queue_size q * 8))
          end
      | (s, e) => (s, None, e)
      end
  | (s, e) => (s, None, e)
  end.

Definition kb2_vq_publish e (vq_given : bool) (generation : Z) (chain : option loc) (notify_given : bool) :
    kb2_vq_status * option bool * engine :=
  match check e vq_given generation with
  | KB2_VQ_OK =>
      match chain with
      | None => (KB2_VQ_INVALID, None, e)
      | Some p =>
          if negb (bool_decide (vq_side (e_vq e) = KB2_VQ_DRIVER)) ||
             negb (bool_decide (c_state (e_chain e p) = FREE)) || negb notify_given then
            (KB2_VQ_INVALID, None, e)
          else if vq_owned (e_vq e) =? q_max_outstanding (e_queue e) then (KB2_VQ_FULL, None, e)
          else
            match validate_chain e (e_chain e p) with
            | None => (KB2_VQ_INVALID, None, e)
            | Some c => publish_claimed (claim (set_chain e p c) p SUBMITTED) c
            end
      end
  | s => (s, None, e)
  end.

(** * Taking chains from the peer *)

(** The loop of read_chain: [table] and [limit] of the table being read, the
    descriptor [index], whether the table is the indirect one, and the chain read so
    far at [p].  [None] when the fuel does not suffice. *)
Fixpoint read_descriptors (fuel : nat) e (p : loc) (table limit index : Z) (indirect : bool) :
    option (kb2_vq_status * engine) :=
  match fuel with
  | O => None
  | S fuel =>
      let q := e_queue e in
      let c := e_chain e p in
      if (limit <=? index) || (q_max_chain_length q <=? Z.of_nat (c_count c)) ||
         (c_capacity c <=? c_count c)%nat then Some (fault e false)
      else
        match mem_read (e_mem e) (u64 (table + index * DESC_SIZE)) DESC_SIZE with
        | (None, mem) => Some (fault (set_mem e mem) true)
        | (Some bytes, mem) =>
            let e := set_mem e mem in
            let address := read_u64 bytes 0 in
            let length := read_u32 bytes 8 in
            let flags := read_u16 bytes 12 in
            let next := read_u16 bytes 14 in
            let first := if indirect then c_indirect_first c else 0%nat in
            if negb (flags &~ Z.lor (Z.lor DESC_NEXT DESC_WRITE) DESC_INDIRECT =? 0) then Some (fault e false)
            else if existsb (fun s => sg_descriptor s =? index) (drop first (chain_segments c)) then
              Some (fault e false)
            else if negb (Z.land flags DESC_INDIRECT =? 0) then
              if indirect || negb (Z.land flags DESC_NEXT =? 0) || negb (Z.land address 15 =? 0) ||
                 (length =? 0) || negb (length mod DESC_SIZE =? 0) ||
                 (q_max_indirect_length q <? length / DESC_SIZE) ||
                 negb (payload_range e address length KB2_PROTOCOL_REGION_RIGHT_READ) then Some (fault e false)
              else
                let e := set_chain e p (set_indirect c address length index (c_count c)) in
                read_descriptors fuel e p address (length / DESC_SIZE) 0 true
            else
              let writable := if Z.land flags DESC_WRITE =? 0 then 0 else 1 in
              let e := set_chain e p (push_segment c (mkSegment address length index writable)) in
              if Z.land flags DESC_NEXT =? 0 then Some (KB2_VQ_OK, e)
              else read_descriptors fuel e p table limit next indirect
        end
  end.

(** One iteration per segment, one for the indirect reference and one that fails. *)
Definition read_fuel e : nat := (Z.to_nat (q_max_chain_length (e_queue e)) + 2)%nat.

Definition read_chain e (p : loc) : kb2_vq_status * engine :=
  let e := set_chain e p (reset_chain (e_chain e p)) in
  match read_descriptors (read_fuel e) e p (q_descriptor_address (e_queue e)) (q_queue_size (e_queue e))
          (c_head (e_chain e p)) false with
  | Some (KB2_VQ_OK, e) =>
      match validate_chain e (e_chain e p) with
      | Some c => (KB2_VQ_OK, set_chain e p c)
      | None => fault e false
      end
  | Some (s, e) => (s, e)
  | None => fault e false
  end.

(** *distance when the status is OK or EMPTY. *)
Definition pending_index e : kb2_vq_status * Z * engine :=
  let vq := e_vq e in
  let peer_ring := if decide (vq_side vq = KB2_VQ_DRIVER) then q_used_address (e_queue e)
                   else q_available_address (e_queue e) in
  match mem_load_acquire (e_mem e) (u64 (peer_ring + 2)) with
  | (None, mem) => let '(s, e) := fault (set_mem e mem) true in (s, 0, e)
  | (Some index, mem) =>
      let e := set_mem e mem in
      let distance := u16 (index - vq_consumed vq) in
      if (q_max_outstanding (e_queue e) <? distance) ||
         (bool_decide (vq_side vq = KB2_VQ_DRIVER) && (u16 (vq_produced vq - vq_consumed vq) <? distance)) then
        let '(s, e) := fault e false in (s, distance, e)
      else (if distance =? 0 then KB2_VQ_EMPTY else KB2_VQ_OK, distance, e)
  end.

Definition kb2_vq_peek_available e (vq_given : bool) (generation : Z) (pending_given : bool) :
    kb2_vq_status * option bool * engine :=
  match check e vq_given generation with
  | KB2_VQ_OK =>
      if negb (bool_decide (vq_side (e_vq e) = KB2_VQ_DEVICE)) || negb pending_given then
        (KB2_VQ_INVALID, None, e)
      else
        match pending_index e with
        | (KB2_VQ_OK, _, e) => (KB2_VQ_OK, Some true, e)
        | (KB2_VQ_EMPTY, _, e) => (KB2_VQ_OK, Some false, e)
        | (s, _, e) => (s, None, e)
        end
  | s => (s, None, e)
  end.

(** The head read from the available ring, then the chain behind it. *)
Definition take_entry e (p : loc) : kb2_vq_status * engine :=
  let q := e_queue e in
  let slot := ring_slot e (vq_consumed (e_vq e)) in
  match mem_read (e_mem e) (u64 (q_available_address q + 4 + 2 * slot)) 2 with
  | (None, mem) => fault (set_mem e mem) true
  | (Some bytes, mem) =>
      let e := set_mem e mem in
      let e := set_chain e p (set_head (e_chain e p) (read_u16 bytes 0)) in
      let head := c_head (e_chain e p) in
      if (q_queue_size q <=? head) || bool_decide (slot_at e head <> None) ||
         negb (owner_at e head =? 0) then fault e false
      else
        match read_chain e p with
        | (KB2_VQ_OK, e) =>
            let e := claim e p ACCEPTED in
            let e := set_consumed e (u16 (vq_consumed (e_vq e) + 1)) in
            (KB2_VQ_OK, set_last_taken e (Some p))
        | (s, e) => (s, e)
        end
  end.

Definition kb2_vq_take_available e (vq_given : bool) (generation : Z) (chain : option loc) :
    kb2_vq_status * engine :=
  match check e vq_given generation with
  | KB2_VQ_OK =>
      match chain with
      | None => (KB2_VQ_INVALID, e)
      | Some p =>
          let c := e_chain e p in
          if negb (bool_decide (vq_side (e_vq e) = KB2_VQ_DEVICE)) || negb (bool_decide (c_state c = FREE)) ||
             bool_decide (c_segments c = None) ||
             (Z.of_nat (c_capacity c) <? q_max_chain_length (e_queue e)) then (KB2_VQ_INVALID, e)
          else
            match pending_index e with
            | (KB2_VQ_OK, distance, e) =>
                if q_max_outstanding (e_queue e) <? u32 (vq_owned (e_vq e) + distance) then fault e false
                else take_entry e p
            | (s, _, e) => (s, e)
            end
      end
  | s => (s, e)
  end.

(** *destination = *source, keeping the destination's array. *)
Definition move_chain (source destination : kb2_vq_chain) : kb2_vq_chain :=
  let segments := (fun segments => chain_segments source ++ drop (c_count source) segments) <$> c_segments destination in
  mkChain segments (c_capacity destination) (c_count source) (c_head source) (c_indirect source)
    (c_indirect_length source) (c_indirect_descriptor source) (c_indirect_first source) (c_readable source)
    (c_writable source) (c_written source) (c_used_length source) (c_state source).

Definition kb2_vq_move_accepted e (vq_given : bool) (generation : Z) (source destination : option loc) :
    kb2_vq_status * engine :=
  match check e vq_given generation with
  | KB2_VQ_OK =>
      match source, destination with
      | Some src, Some dst =>
          let s := e_chain e src in
          let d := e_chain e dst in
          if negb (bool_decide (vq_side (e_vq e) = KB2_VQ_DEVICE)) || negb (owned e source ACCEPTED) ||
             bool_decide (dst = src) || negb (bool_decide (c_state d = FREE)) ||
             bool_decide (c_segments d = None) || (c_capacity d <? c_count s)%nat then (KB2_VQ_INVALID, e)
          else
            let e := set_chain e dst (move_chain s d) in
            let vq := e_vq e in
            let e := set_vq e (mkVq (vq_channel vq) (vq_queue vq) (vq_side vq)
                                 (<[Z.to_nat (c_head s) := Some dst]> (vq_slots vq))
                                 (if decide (vq_last_taken vq = Some src) then Some dst else vq_last_taken vq)
                                 (vq_descriptor_owner vq) (vq_produced vq) (vq_consumed vq) (vq_owned vq)) in
            (KB2_VQ_OK, set_chain e src (set_state s FREE))
      | _, _ => (KB2_VQ_INVALID, e)
      end
  | s => (s, e)
  end.

Definition kb2_vq_return_available e (vq_given : bool) (generation : Z) (chain : option loc) :
    kb2_vq_status * engine :=
  match check e vq_given generation with
  | KB2_VQ_OK =>
      match chain with
      | None => (KB2_VQ_INVALID, e)
      | Some p =>
          if negb (bool_decide (vq_side (e_vq e) = KB2_VQ_DEVICE)) || negb (owned e chain ACCEPTED) ||
             negb (bool_decide (vq_last_taken (e_vq e) = Some p)) || negb (c_written (e_chain e p) =? 0) then
            (KB2_VQ_INVALID, e)
          else
            let e := drop_chain e p in
            (KB2_VQ_OK, set_consumed e (u16 (vq_consumed (e_vq e) - 1)))
      end
  | s => (s, e)
  end.

(** * Payload *)

(** The loop of copy_data when reading: the bytes copied so far are [out]. *)
Fixpoint copy_in e (segments : list kb2_vq_segment) (writable offset size : Z) (out : list Z) :
    kb2_vq_status * list Z * engine :=
  match segments with
  | [] => if size =? 0 then (KB2_VQ_OK, out, e) else let '(s, e) := fault e false in (s, out, e)
  | s :: segments =>
      if size =? 0 then (KB2_VQ_OK, out, e)
      else if negb (sg_writable s =? writable) then copy_in e segments writable offset size out
      else if sg_length s <=? offset then copy_in e segments writable (offset - sg_length s) size out
      else
        let part := Z.min (sg_length s - offset) size in
        match mem_read (e_mem e) (u64 (sg_address s + offset)) part with
        | (None, mem) => let '(st, e) := fault (set_mem e mem) true in (st, out, e)
        | (Some bytes, mem) => copy_in (set_mem e mem) segments writable 0 (size - part) (out ++ bytes)
        end
  end.

(** The same loop when writing [bytes]. *)
Fixpoint copy_out e (segments : list kb2_vq_segment) (writable offset : Z) (bytes : list Z) :
    kb2_vq_status * engine :=
  match segments with
  | [] => if (length bytes =? 0)%nat then (KB2_VQ_OK, e) else fault e false
  | s :: segments =>
      if (length bytes =? 0)%nat then (KB2_VQ_OK, e)
      else if negb (sg_writable s =? writable) then copy_out e segments writable offset bytes
      else if sg_length s <=? offset then copy_out e segments writable (offset - sg_length s) bytes
      else
        let part := Z.to_nat (Z.min (sg_length s - offset) (blen bytes)) in
        match mem_write (e_mem e) (u64 (sg_address s + offset)) (take part bytes) with
        | (false, mem) => fault (set_mem e mem) true
        | (true, mem) => copy_out (set_mem e mem) segments writable 0 (drop part bytes)
        end
  end.

(** The bytes stored through [out], when [out] is there. *)
Definition kb2_vq_copy_request e (vq_given : bool) (generation : Z) (chain : option loc) (offset : Z)
    (out_given : bool) (size : Z) : kb2_vq_status * list Z * engine :=
  match check e vq_given generation with
  | KB2_VQ_OK =>
      match chain with
      | None => (KB2_VQ_INVALID, [], e)
      | Some p =>
          let c := e_chain e p in
          if negb (bool_decide (vq_side (e_vq e) = KB2_VQ_DEVICE)) || negb (owned e chain ACCEPTED) ||
             (negb out_given && negb (size =? 0)) || (c_readable c <? offset) ||
             (c_readable c - offset <? size) then (KB2_VQ_INVALID, [], e)
          else copy_in e (chain_segments c) 0 offset size []
      end
  | s => (s, [], e)
  end.

(** [bytes] is [None] for a NULL pointer, and then [size] says what was asked. *)
Definition kb2_vq_write_response e (vq_given : bool) (generation : Z) (chain : option loc)
    (bytes : option (list Z)) (size : Z) : kb2_vq_status * engine :=
  match check e vq_given generation with
  | KB2_VQ_OK =>
      match chain with
      | None => (KB2_VQ_INVALID, e)
      | Some p =>
          let c := e_chain e p in
          if negb (bool_decide (vq_side (e_vq e) = KB2_VQ_DEVICE)) || negb (owned e chain ACCEPTED) ||
             (bool_decide (bytes = None) && negb (size =? 0)) ||
             (u64 (c_writable c - c_written c) <? size) || (u64 (U32_MAX - c_written c) <? size) then
            (KB2_VQ_INVALID, e)
          else
            match copy_out e (chain_segments c) 1 (c_written c) (take (Z.to_nat size) (default [] bytes)) with
            | (KB2_VQ_OK, e) =>
                (KB2_VQ_OK, set_chain e p (set_written (e_chain e p) (u64 (c_written (e_chain e p) + size))))
            | (s, e) => (s, e)
            end
      end
  | s => (s, e)
  end.

(** * Completion *)

Definition kb2_vq_complete e (vq_given : bool) (generation : Z) (chain : option loc) (notify_given : bool) :
    kb2_vq_status * option bool * engine :=
  match check e vq_given generation with
  | KB2_VQ_OK =>
      match chain with
      | None => (KB2_VQ_INVALID, None, e)
      | Some p =>
          if negb (bool_decide (vq_side (e_vq e) = KB2_VQ_DEVICE)) || negb (owned e chain ACCEPTED) ||
             negb notify_given then (KB2_VQ_INVALID, None, e)
          else
            let q := e_queue e in
            let c := e_chain e p in
            let slot := ring_slot e (vq_produced (e_vq e)) in
            let bytes := write_u32 (write_u32 (replicate 8 0) 0 (c_head c)) 4 (u32 (c_written c)) in
            match mem_write (e_mem e) (u64 (q_used_address q + 4 + 8 * slot)) bytes with
            | (false, mem) => let '(s, e) := fault (set_mem e mem) true in (s, None, e)
            | (true, mem) =>
                match publish_index (set_mem e mem) (q_used_address q)
                        (u64 (q_available_address q + 4 + q_queue_size q * 2)) with
                | (KB2_VQ_OK, notify, e) => (KB2_VQ_OK, notify, drop_chain e p)
                | r => r
                end
            end
      end
  | s => (s, None, e)
  end.

Definition kb2_vq_take_used e (vq_given : bool) (generation : Z) (out_given : bool) :
    kb2_vq_status * option loc * engine :=
  match check e vq_given generation with
  | KB2_VQ_OK =>
      if negb (bool_decide (vq_side (e_vq e) = KB2_VQ_DRIVER)) || negb out_given then (KB2_VQ_INVALID, None, e)
      else
        match pending_index e with
        | (KB2_VQ_OK, _, e) =>
            let q := e_queue e in
            let slot := ring_slot e (vq_consumed (e_vq e)) in
            match mem_read (e_mem e) (u64 (q_used_address q + 4 + 8 * slot)) 8 with
            | (None, mem) => let '(s, e) := fault (set_mem e mem) true in (s, None, e)
            | (Some bytes, mem) =>
                let e := set_mem e mem in
                let head := read_u32 bytes 0 in
                let length := read_u32 bytes 4 in
                if q_queue_size q <=? head then let '(s, e) := fault e false in (s, None, e)
                else
                  match slot_at e head with
                  | None => let '(s, e) := fault e false in (s, None, e)
                  | Some p =>
                      if negb (owned e (Some p) SUBMITTED) || (c_writable (e_chain e p) <? length) then
                        let '(s, e) := fault e false in (s, None, e)
                      else
                        let e := set_chain e p (set_returned (e_chain e p) length) in
                        (KB2_VQ_OK, Some p, set_consumed e (u16 (vq_consumed (e_vq e) + 1)))
                  end
            end
        | (s, _, e) => (s, None, e)
        end
  | s => (s, None, e)
  end.

Definition kb2_vq_copy_response e (vq_given : bool) (generation : Z) (chain : option loc) (offset : Z)
    (out_given : bool) (size : Z) : kb2_vq_status * list Z * engine :=
  match check e vq_given generation with
  | KB2_VQ_OK =>
      match chain with
      | None => (KB2_VQ_INVALID, [], e)
      | Some p =>
          let c := e_chain e p in
          if negb (bool_decide (vq_side (e_vq e) = KB2_VQ_DRIVER)) || negb (owned e chain RETURNED) ||
             (negb out_given && negb (size =? 0)) || (c_used_length c <? offset) ||
             (c_used_length c - offset <? size) then (KB2_VQ_INVALID, [], e)
          else copy_in e (chain_segments c) 1 offset size []
      end
  | s => (s, [], e)
  end.

Definition kb2_vq_release e (vq_given : bool) (generation : Z) (chain : option loc) : kb2_vq_status * engine :=
  match check e vq_given generation with
  | KB2_VQ_OK =>
      match chain with
      | None => (KB2_VQ_INVALID, e)
      | Some p =>
          if negb (bool_decide (vq_side (e_vq e) = KB2_VQ_DRIVER)) || negb (owned e chain RETURNED) then
            (KB2_VQ_INVALID, e)
          else (KB2_VQ_OK, drop_chain e p)
      end
  | s => (s, e)
  end.

Definition kb2_vq_arm e (vq_given : bool) (generation : Z) (ready_given : bool) :
    kb2_vq_status * option bool * engine :=
  match check e vq_given generation with
  | KB2_VQ_OK =>
      if negb ready_given then (KB2_VQ_INVALID, None, e)
      else
        let q := e_queue e in
        let event := if decide (vq_side (e_vq e) = KB2_VQ_DRIVER)
                     then u64 (q_available_address q + 4 + q_queue_size q * 2)
                     else u64 (q_used_address q + 4 + q_queue_size q * 8) in
        match mem_store_release (e_mem e) event (vq_consumed (e_vq e)) with
        | (false, mem) => let '(s, e) := fault (set_mem e mem) true in (s, None, e)
        | (true, mem) =>
            let e := set_mem e (mem_fence mem) in
            match pending_index e with
            | (KB2_VQ_OK, _, e) => (KB2_VQ_OK, Some true, e)
            | (KB2_VQ_EMPTY, _, e) => (KB2_VQ_OK, Some false, e)
            | (s, _, e) => (s, None, e)
            end
        end
  | s => (s, None, e)
  end.

End Engine.
