(* ===== verification/VirtqueueSpec.v ===== *)
(** What a valid descriptor chain is, and that validate_chain decides it. *)

From Stdlib Require Import ZArith Lia.
From stdpp Require Import base numbers tactics sets gmap list_numbers list.
From S2P Require Import Prelude Bytes Protocol ProtocolSpec Virtqueue.

Open Scope Z_scope.

(** * Ranges *)

(** A range that does not wrap, or is empty. *)
Definition fits (a n : Z) : Prop := 0 <= a /\ 0 <= n /\ (n = 0 \/ a + n <= U64_MAX).

Lemma overlaps_spec a n b m : fits a n -> fits b m -> overlaps a n b m = true <-> ranges_meet a n b m.
Proof.
  intros (Ha & Hn & Fa) (Hb & Hm & Fb). unfold overlaps.
  destruct (Z.eqb_spec n 0) as [-> | Hn0].
  { cbn. split; [done |]. intros (x & ? & ?). lia. }
  destruct (Z.eqb_spec m 0) as [-> | Hm0].
  { cbn. split; [done |]. intros (x & ? & ?). lia. }
  unfold U64_MAX in *. rewrite !u64_small by (unfold is_u64; lia). cbn.
  rewrite andb_true_iff, !Z.ltb_lt. rewrite ranges_meet_iff by lia. lia.
Qed.

Lemma overlaps_false a n b m : fits a n -> fits b m -> overlaps a n b m = false <-> ~ ranges_meet a n b m.
Proof. intros Ha Hb. rewrite <- overlaps_spec by done. by destruct (overlaps a n b m). Qed.

(** * Leases

    The memory a chain uses while it is owned: its indirect table and its
    segments; the table and the writable segments are exclusive. *)

Record lease := mkLease { l_address : Z; l_length : Z; l_exclusive : bool }.

Definition compatible (x y : lease) : Prop :=
  l_exclusive x = true \/ l_exclusive y = true ->
  ~ ranges_meet (l_address x) (l_length x) (l_address y) (l_length y).

Definition segment_lease (s : kb2_vq_segment) : lease :=
  mkLease (sg_address s) (sg_length s) (negb (sg_writable s =? 0)).

Definition table_lease (c : kb2_vq_chain) : lease := mkLease (c_indirect c) (c_indirect_length c) true.

Definition leases (c : kb2_vq_chain) : list lease := table_lease c :: (segment_lease <$> chain_segments c).

Lemma compatible_sym x y : compatible x y -> compatible y x.
Proof. unfold compatible. intros Hc He Hm%ranges_meet_sym. by apply Hc; [tauto |]. Qed.

Definition lease_fits (x : lease) : Prop := fits (l_address x) (l_length x).

(** ** chains_overlap *)

Definition chains_meet (a b : kb2_vq_chain) : Prop :=
  exists x y, x ∈ leases a /\ y ∈ leases b /\ ~ compatible x y.

Lemma not_compatible_overlaps x y :
  lease_fits x -> lease_fits y ->
  ~ compatible x y <->
  (l_exclusive x || l_exclusive y) && overlaps (l_address x) (l_length x) (l_address y) (l_length y) = true.
Proof.
  intros Hx Hy. rewrite andb_true_iff, orb_true_iff, overlaps_spec by done. unfold compatible. split.
  - intros Hn. destruct (overlaps (l_address x) (l_length x) (l_address y) (l_length y)) eqn:E.
    + apply overlaps_spec in E; [| done | done]. split; [| done].
      destruct (l_exclusive x), (l_exclusive y); try tauto. exfalso. apply Hn. intros []; done.
    + apply overlaps_false in E; [| done | done]. exfalso. apply Hn. done.
  - tauto.
Qed.

Lemma chains_overlap_spec a b :
  Forall lease_fits (leases a) -> Forall lease_fits (leases b) ->
  chains_overlap a b = true <-> chains_meet a b.
Proof.
  intros Ha Hb. apply Forall_cons in Ha as [Ha0 Ha], Hb as [Hb0 Hb].
  rewrite Forall_fmap, Forall_forall in Ha, Hb.
  unfold chains_overlap, chains_meet, leases.
  transitivity (~ compatible (table_lease a) (table_lease b) \/
    (exists s, s ∈ chain_segments a /\
       (~ compatible (segment_lease s) (table_lease b) \/
        exists t, t ∈ chain_segments b /\ ~ compatible (segment_lease s) (segment_lease t))) \/
    exists t, t ∈ chain_segments b /\ ~ compatible (table_lease a) (segment_lease t)).
  2: { set_unfold. naive_solver. }
  rewrite (not_compatible_overlaps (table_lease a) (table_lease b)) by done. cbn.
  destruct (overlaps (c_indirect a) _ (c_indirect b) _); [naive_solver |].
  match goal with |- context [existsb ?f (chain_segments a)] => destruct (existsb f (chain_segments a)) eqn:E end.
  - split; [intros _ | done]. right. left. apply existsb_exists in E as (s & Hs & E).
    rewrite <- list_elem_of_In in Hs. exists s. split; [done |]. apply orb_true_iff in E as [E | E].
    + left. rewrite not_compatible_overlaps by first [done | by apply Ha]. cbn. by rewrite orb_true_r.
    + right. apply existsb_exists in E as (t & Ht & E). rewrite <- list_elem_of_In in Ht.
      exists t. split; [done |]. rewrite not_compatible_overlaps; [done | by apply Ha | by apply Hb].
  - rewrite existsb_exists. split.
    + intros (t & Ht & E'). rewrite <- list_elem_of_In in Ht. right. right. exists t. split; [done |].
      rewrite not_compatible_overlaps; [done | done | by apply Hb].
    + intros [? | [(s & Hs & Hn) | (t & Ht & Hn)]]; [done | |].
      * exfalso. apply not_true_iff_false in E. apply E. apply existsb_exists. exists s.
        rewrite <- list_elem_of_In. split; [done |]. apply orb_true_iff. destruct Hn as [Hn | (t & Ht & Hn)].
        -- left. rewrite not_compatible_overlaps in Hn by first [done | by apply Ha]. by apply andb_true_iff in Hn as [_ ?].
        -- right. apply existsb_exists. exists t. rewrite <- list_elem_of_In. split; [done |].
           by rewrite not_compatible_overlaps in Hn by first [by apply Ha | by apply Hb].
      * exists t. rewrite <- list_elem_of_In. split; [done |].
        rewrite not_compatible_overlaps in Hn by first [done | by apply Hb]. done.
Qed.

Lemma chains_meet_sym a b : chains_meet a b -> chains_meet b a.
Proof.
  intros (x & y & Hx & Hy & Hn). exists y, x. split_and!; [done | done |].
  intros Hc%compatible_sym. done.
Qed.

(** * Valid chains *)

Definition segment_typed (s : kb2_vq_segment) : Prop :=
  is_u64 (sg_address s) /\ is_u32 (sg_length s) /\ is_u16 (sg_descriptor s) /\ is_u16 (sg_writable s).

(** A chain object as its C type allows it, with an array of [capacity] segments. *)
Record chain_typed (c : kb2_vq_chain) : Prop := {
  ct_array : forall segments, c_segments c = Some segments ->
    length segments = c_capacity c /\ Forall segment_typed segments;
  ct_head : is_u16 (c_head c);
  ct_indirect : is_u64 (c_indirect c);
  ct_indirect_length : is_u32 (c_indirect_length c);
  ct_indirect_descriptor : is_u16 (c_indirect_descriptor c);
}.

Lemma chain_segments_typed c : chain_typed c -> Forall segment_typed (chain_segments c).
Proof.
  intros [Ha _ _ _ _]. unfold chain_segments. destruct (c_segments c) as [l |] eqn:E; cbn.
  - apply Forall_take. by apply Ha.
  - rewrite take_nil. constructor.
Qed.

Definition writable_total (l : list kb2_vq_segment) : Z :=
  foldr (fun s n => (if sg_writable s =? 0 then 0 else sg_length s) + n) 0 l.
Definition readable_total (l : list kb2_vq_segment) : Z :=
  foldr (fun s n => (if sg_writable s =? 0 then sg_length s else 0) + n) 0 l.

(** The main-table descriptors a chain occupies. *)
Definition direct_descriptors (c : kb2_vq_chain) : list Z :=
  (if c_indirect_length c =? 0 then [] else [c_indirect_descriptor c]) ++
  (sg_descriptor <$> take (direct_count c) (chain_segments c)).

(** The descriptors of the indirect table it uses. *)
Definition table_descriptors (c : kb2_vq_chain) : list Z :=
  sg_descriptor <$> drop (direct_count c) (chain_segments c).

Section Spec.
Context {M : Type} `{VqMemory M}.
Implicit Types e : engine M.

Definition e_regions e : list kb2_protocol_region :=
  match vq_channel (e_vq e) with Some c => vc_regions c | None => [] end.
Definition e_queues e : list kb2_protocol_queue :=
  match vq_channel (e_vq e) with Some c => vc_queues c | None => [] end.

(** The engine works on a validated channel. *)
Record channel_bound e : Prop := {
  cb_channel : exists c, vq_channel (e_vq e) = Some c;
  cb_regions : Forall (fun r => 0 <= rg_transport_base r /\ region_ok r) (e_regions e);
  cb_rings : Forall (fun q => Forall (fun '(a, n) => 0 <= a /\ 0 < n /\ a + n <= U64_MAX) (rings q)) (e_queues e);
  cb_size : exists k, 0 <= k <= 15 /\ q_queue_size (e_queue e) = 2 ^ k;
  cb_chain : 1 <= q_max_chain_length (e_queue e) <= q_queue_size (e_queue e);
  cb_indirect : 1 <= q_max_indirect_length (e_queue e) <= KB2_PROTOCOL_QUEUE_SIZE_MAX;
  cb_outstanding : 1 <= q_max_outstanding (e_queue e) <= q_queue_size (e_queue e);
}.

(** A range a descriptor may name: empty, or inside a registered region with the
    rights, clear of every ring of the channel, and allowed by the host's policy. *)
Definition payload_ok e (a n rights : Z) : Prop :=
  n = 0 \/
  (0 < n /\ a + n <= U64_MAX /\
   (exists r, r ∈ e_regions e /\ rg_transport_base r <= a /\ a + n <= rg_transport_base r + rg_length r /\
      Z.land (rg_rights r) rights = rights) /\
   (forall q ring, q ∈ e_queues e -> ring ∈ rings q -> ~ ranges_meet a n ring.1 ring.2) /\
   mem_payload_allowed (e_mem e) (q_queue_id (e_queue e)) a n rights = true).

Lemma payload_range_spec e a n rights :
  channel_bound e -> is_u64 a -> 0 <= n < 2 ^ 32 ->
  payload_range e a n rights = true <-> payload_ok e a n rights.
Proof.
  intros [[ch Hch] Hr Hq _ _ _ _] Ha Hn. unfold payload_range, payload_ok, e_regions, e_queues, is_u64 in *. rewrite Hch in *.
  destruct (Z.eqb_spec n 0) as [-> | Hn0]; [tauto |].
  unfold range_valid. rewrite (proj2 (Z.eqb_neq n 0)) by done. cbn [negb andb].
  destruct (Z.leb_spec a (U64_MAX - n)) as [Hfit | Hwrap]; cbn [negb]; [| split; [done | lia]].
  rewrite (Forall_forall _ (vc_regions ch)) in Hr. rewrite (Forall_forall _ (vc_queues ch)) in Hq.
  match goal with |- context [existsb ?f (vc_regions ch)] => destruct (existsb f (vc_regions ch)) eqn:E1 end; cbn [negb].
  2: { split; [done |]. intros [| (_ & _ & (r & Hin & H1 & H2 & H3) & _)]; [done |].
       apply not_true_iff_false in E1. exfalso. apply E1, existsb_exists. exists r.
       rewrite <- list_elem_of_In. split; [done |]. destruct (Hr r Hin) as [? []]. unfold U64_MAX in *.
       rewrite !u64_small by (unfold is_u64; lia). rewrite !andb_true_iff, !Z.leb_le, Z.eqb_eq. lia. }
  assert (Hreg : exists r, r ∈ vc_regions ch /\ rg_transport_base r <= a /\ a + n <= rg_transport_base r + rg_length r /\
      Z.land (rg_rights r) rights = rights).
  { apply existsb_exists in E1 as (r & Hin & E1). rewrite <- list_elem_of_In in Hin. exists r. split; [done |].
    destruct (Hr r Hin) as [? []]. unfold U64_MAX in *.
    rewrite !u64_small in E1 by (unfold is_u64; lia). rewrite !andb_true_iff, !Z.leb_le, Z.eqb_eq in E1. lia. }
  assert (Hrings : existsb (fun q => existsb (fun ring =>
             overlaps a n (ring_base q ring) (ring_size q ring)) [0; 1; 2]) (vc_queues ch) = false <->
          forall q ring, q ∈ vc_queues ch -> ring ∈ rings q -> ~ ranges_meet a n ring.1 ring.2).
  { rewrite <- not_true_iff_false, existsb_exists.
    assert (Hone : forall q, q ∈ vc_queues ch ->
      existsb (fun ring => overlaps a n (ring_base q ring) (ring_size q ring)) [0; 1; 2] = true <->
      exists ring, ring ∈ rings q /\ ranges_meet a n ring.1 ring.2).
    { intros q Hin. specialize (Hq q Hin).
      rewrite (Forall_forall _ (rings q)) in Hq.
      assert (Hov : forall b m, (b, m) ∈ rings q -> overlaps a n b m = true <-> ranges_meet a n b m).
      { intros b m Hbm. destruct (Hq _ Hbm) as (? & ? & ?). apply overlaps_spec; split_and!; lia. }
      unfold rings in Hov. cbn [existsb]. rewrite !orb_true_iff. unfold ring_base, ring_size. cbn [Z.eqb Pos.eqb].
      rewrite (Z.mul_comm _ 16), (Z.mul_comm _ 2), (Z.mul_comm _ 8).
      rewrite !Hov by (set_unfold; tauto). unfold rings. set_unfold. naive_solver. }
    split.
    - intros Hn' q ring Hin Hrg Hm. apply Hn'. exists q. rewrite <- list_elem_of_In. split; [done |].
      apply Hone; [done |]. by exists ring.
    - intros Hf (q & Hin & Hb). rewrite <- list_elem_of_In in Hin. apply Hone in Hb as (ring & Hrg & Hm); [| done].
      by apply (Hf q ring). }
  match goal with |- context [if ?b then false else _] => destruct b eqn:E2 end.
  - split; [done |]. intros [| (_ & _ & _ & Hf & _)]; [done |]. apply Hrings in Hf. congruence.
  - split.
    + intros Hp. right. split_and!; [lia | lia | done | by apply Hrings | done].
    + intros [| (_ & _ & _ & _ & Hp)]; done.
Qed.

Definition segment_rights (s : kb2_vq_segment) : Z :=
  if sg_writable s =? 0 then KB2_PROTOCOL_REGION_RIGHT_READ else KB2_PROTOCOL_REGION_RIGHT_WRITE.

Definition segment_payload_ok e (s : kb2_vq_segment) : Prop :=
  payload_ok e (sg_address s) (sg_length s) (segment_rights s).

(** The descriptor at which the chain starts. *)
Definition entry_descriptor (c : kb2_vq_chain) : Z :=
  if (direct_count c =? 0)%nat then c_indirect_descriptor c
  else default 0 (sg_descriptor <$> chain_segments c !! 0%nat).

(** The indirect table: absent, or aligned, of whole descriptors, not too long, in
    readable payload memory, holding at least the first segment behind the direct
    ones, in its entry 0. *)
Definition table_ok e (c : kb2_vq_chain) : Prop :=
  if decide (c_indirect_length c = 0) then
    c_indirect c = 0 /\ c_indirect_first c = 0%nat /\ c_indirect_descriptor c = 0
  else
    c_indirect c mod 16 = 0 /\ c_indirect_length c mod DESC_SIZE = 0 /\
    c_indirect_length c / DESC_SIZE <= q_max_indirect_length (e_queue e) /\
    (c_indirect_first c < c_count c)%nat /\
    default 0 (sg_descriptor <$> chain_segments c !! c_indirect_first c) = 0 /\
    payload_ok e (c_indirect c) (c_indirect_length c) KB2_PROTOCOL_REGION_RIGHT_READ.

(** A valid chain, by itself. *)
Record chain_ok e (c : kb2_vq_chain) : Prop := {
  ck_array : c_segments c <> None;
  ck_count : (1 <= c_count c <= c_capacity c)%nat;
  ck_length : Z.of_nat (c_count c) <= q_max_chain_length (e_queue e);
  ck_head : c_head c < q_queue_size (e_queue e) /\ entry_descriptor c = c_head c;
  ck_table : table_ok e c;
  ck_direct : Forall (fun d => d < q_queue_size (e_queue e)) (direct_descriptors c);
  ck_direct_distinct : NoDup (direct_descriptors c);
  ck_indirect : Forall (fun d => d < c_indirect_length c / DESC_SIZE) (table_descriptors c);
  ck_indirect_distinct : NoDup (table_descriptors c);
  ck_flags : Forall (fun s => sg_writable s = 0 \/ sg_writable s = 1) (chain_segments c);
  ck_order : pairwise (fun s t => sg_writable s <= sg_writable t) (chain_segments c);
  ck_payload : Forall (segment_payload_ok e) (chain_segments c);
  ck_leases : pairwise compatible (leases c);
  ck_totals : c_readable c = readable_total (chain_segments c) /\
              c_writable c = writable_total (chain_segments c);
  ck_role : c_writable c <> 0 /\
            if q_role (e_queue e) =? KB2_PROTOCOL_QUEUE_ROLE_REQUEST then c_readable c <> 0
            else c_readable c = 0;
}.

(** What the loop over the segments establishes of the ones it has passed. *)
Record prefix_ok e (c : kb2_vq_chain) (l : list kb2_vq_segment) : Prop := {
  px_flags : Forall (fun s => sg_writable s = 0 \/ sg_writable s = 1) l;
  px_order : pairwise (fun s t => sg_writable s <= sg_writable t) l;
  px_payload : Forall (segment_payload_ok e) l;
  px_table : Forall (fun s => compatible (segment_lease s) (table_lease c)) l;
  px_leases : pairwise (fun s t => compatible (segment_lease s) (segment_lease t)) l;
  px_direct : Forall (fun d => d < q_queue_size (e_queue e) /\ owner_at e d = 0 /\
                       (c_indirect_length c <> 0 -> d <> c_indirect_descriptor c))
                (sg_descriptor <$> take (direct_count c) l);
  px_direct_distinct : NoDup (sg_descriptor <$> take (direct_count c) l);
  px_indirect : Forall (fun d => d < c_indirect_length c / DESC_SIZE) (sg_descriptor <$> drop (direct_count c) l);
  px_indirect_distinct : NoDup (sg_descriptor <$> drop (direct_count c) l);
}.

Lemma payload_ok_fits e a n rights : is_u64 a -> 0 <= n -> payload_ok e a n rights -> fits a n.
Proof. intros Ha Hn [Hz | (? & ? & _)]; unfold fits, is_u64 in *; split_and!; lia. Qed.

Lemma compatible_overlaps s t :
  lease_fits (segment_lease s) -> lease_fits (segment_lease t) ->
  (negb (sg_writable s =? 0) || negb (sg_writable t =? 0)) &&
  overlaps (sg_address s) (sg_length s) (sg_address t) (sg_length t) = false <->
  compatible (segment_lease s) (segment_lease t).
Proof.
  intros Hs Ht. pose proof (not_compatible_overlaps _ _ Hs Ht) as Hn. cbn [segment_lease l_exclusive l_address l_length] in Hn.
  destruct ((_ || _) && _) eqn:E; cbn in *.
  - split; [done |]. intros Hc. by apply Hn in Hc.
  - split; [| done]. intros _ He Hm. apply andb_false_iff in E as [E | E].
    + apply orb_false_iff in E as [E1 E2]. cbn in He. rewrite E1, E2 in He. naive_solver.
    + apply overlaps_false in E; [| done | done]. done.
Qed.

Lemma if_false_iff (b x : bool) : (if b then false else x) = true <-> b = false /\ x = true.
Proof. destruct b; naive_solver. Qed.

(** The conditions the loop checks on the segment at index [length prev]. *)
Lemma segment_valid_spec e c prev s :
  channel_bound e -> lease_fits (table_lease c) -> segment_typed s ->
  Forall (fun p => lease_fits (segment_lease p)) prev ->
  segment_valid e c (length prev) prev (existsb (fun p => negb (sg_writable p =? 0)) prev) s = true <->
  (sg_writable s = 0 \/ sg_writable s = 1) /\ (forall p, p ∈ prev -> sg_writable p <> 0 -> sg_writable s <> 0) /\
  segment_payload_ok e s /\ compatible (segment_lease s) (table_lease c) /\
  (if (direct_count c <=? length prev)%nat then sg_descriptor s < c_indirect_length c / DESC_SIZE
   else sg_descriptor s < q_queue_size (e_queue e) /\ owner_at e (sg_descriptor s) = 0 /\
        (c_indirect_length c <> 0 -> sg_descriptor s <> c_indirect_descriptor c)) /\
  forall j p, prev !! j = Some p ->
    ((direct_count c <=? j)%nat = (direct_count c <=? length prev)%nat -> sg_descriptor s <> sg_descriptor p) /\
    compatible (segment_lease s) (segment_lease p).
Proof.
  intros Hb Htab (Ha & Hl & Hd & Hw) Hprev. unfold segment_valid.
  rewrite !if_false_iff, !orb_false_iff, negb_false_iff. fold (segment_rights s).
  rewrite (payload_range_spec e (sg_address s)) by done. fold (segment_payload_ok e s).
  assert (HA : (1 <? sg_writable s) = false <-> sg_writable s = 0 \/ sg_writable s = 1).
  { rewrite Z.ltb_ge. unfold is_u16 in Hw. lia. }
  assert (HB : (sg_writable s =? 0) && existsb (fun p => negb (sg_writable p =? 0)) prev = false <->
               forall p, p ∈ prev -> sg_writable p <> 0 -> sg_writable s <> 0).
  { rewrite andb_false_iff, Z.eqb_neq, <- not_true_iff_false, existsb_exists. split.
    - intros [Hs | Hs] p Hp Hpw; [done |]. exfalso. apply Hs. exists p. rewrite <- list_elem_of_In.
      split; [done |]. by apply negb_true_iff, Z.eqb_neq.
    - intros Hs. destruct (decide (sg_writable s = 0)) as [H0 | H0]; [right | by left].
      intros (p & Hp & Hpw%negb_true_iff%Z.eqb_neq). rewrite <- list_elem_of_In in Hp. by apply (Hs p). }
  assert (HE : (if (direct_count c <=? length prev)%nat then c_indirect_length c / DESC_SIZE <=? sg_descriptor s
                else (q_queue_size (e_queue e) <=? sg_descriptor s) || negb (owner_at e (sg_descriptor s) =? 0) ||
                     negb (c_indirect_length c =? 0) && (sg_descriptor s =? c_indirect_descriptor c)) = false <->
    if (direct_count c <=? length prev)%nat then sg_descriptor s < c_indirect_length c / DESC_SIZE
    else sg_descriptor s < q_queue_size (e_queue e) /\ owner_at e (sg_descriptor s) = 0 /\
         (c_indirect_length c <> 0 -> sg_descriptor s <> c_indirect_descriptor c)).
  { destruct (direct_count c <=? length prev)%nat; [apply Z.leb_gt |].
    rewrite !orb_false_iff, andb_false_iff, !negb_false_iff, Z.leb_gt, !Z.eqb_eq, Z.eqb_neq. lia. }
  rewrite HA, HB, HE.
  enough (HDF : segment_payload_ok e s ->
    (overlaps (sg_address s) (sg_length s) (c_indirect c) (c_indirect_length c) = false <->
     compatible (segment_lease s) (table_lease c)) /\
    (negb (existsb (fun '(j, p) =>
       eqb (direct_count c <=? j)%nat (direct_count c <=? length prev)%nat && (sg_descriptor s =? sg_descriptor p) ||
       (negb (sg_writable s =? 0) || negb (sg_writable p =? 0)) &&
       overlaps (sg_address s) (sg_length s) (sg_address p) (sg_length p)) (zip (seq 0 (length prev)) prev)) = true <->
     forall j p, prev !! j = Some p ->
       ((direct_count c <=? j)%nat = (direct_count c <=? length prev)%nat -> sg_descriptor s <> sg_descriptor p) /\
       compatible (segment_lease s) (segment_lease p))).
  { split; [intros ((((? & ?) & Hp) & ?) & ? & ?) | intros (? & ? & Hp & ? & ? & ?)]; destruct (HDF Hp); tauto. }
  intros Hp. assert (Hs : lease_fits (segment_lease s)) by (eapply payload_ok_fits; [done | apply Hl | exact Hp]).
  split.
  - rewrite overlaps_false by done. unfold compatible. cbn. tauto.
  - rewrite negb_true_iff, <- not_true_iff_false, existsb_exists. rewrite Forall_forall in Hprev.
    assert (Hpair : forall j p, prev !! j = Some p ->
      eqb (direct_count c <=? j)%nat (direct_count c <=? length prev)%nat && (sg_descriptor s =? sg_descriptor p) ||
      (negb (sg_writable s =? 0) || negb (sg_writable p =? 0)) &&
      overlaps (sg_address s) (sg_length s) (sg_address p) (sg_length p) = false <->
      ((direct_count c <=? j)%nat = (direct_count c <=? length prev)%nat -> sg_descriptor s <> sg_descriptor p) /\
      compatible (segment_lease s) (segment_lease p)).
    { intros j p Hj. rewrite orb_false_iff, compatible_overlaps;
        [| done | by eapply Hprev, list_elem_of_lookup_2].
      apply and_iff_compat_r. rewrite andb_false_iff, eqb_false_iff, Z.eqb_neq. clear. 
      destruct (decide ((direct_count c <=? j)%nat = (direct_count c <=? length prev)%nat)); tauto. }
    split.
    + intros Hn j p Hj. apply Hpair; [done |]. apply not_true_iff_false. intros Ht. apply Hn. exists (j, p).
      split; [| done]. apply list_elem_of_In, list_elem_of_lookup. exists j.
      apply lookup_zip_Some. split; [| done]. apply lookup_seq. split; [done | by eapply lookup_lt_Some].
    + intros Hf ([j p] & Hin & Ht). apply list_elem_of_In, list_elem_of_lookup in Hin as [k Hk].
      apply lookup_zip_Some in Hk as [Hk1 Hk2]. apply lookup_seq in Hk1 as [-> _].
      apply (Hpair k p Hk2) in Hf; [| done]. cbn in Ht. congruence.
Qed.

(** The segments before and behind the direct count, with one more segment. *)
Lemma split_snoc (n : nat) (l : list kb2_vq_segment) s :
  if (n <=? length l)%nat
  then take n (l ++ [s]) = take n l /\ drop n (l ++ [s]) = drop n l ++ [s]
  else take n (l ++ [s]) = l ++ [s] /\ take n l = l /\ drop n (l ++ [s]) = [] /\ drop n l = [].
Proof.
  destruct (Nat.leb_spec n (length l)).
  - by rewrite take_app_le, drop_app_le by lia.
  - rewrite !take_ge, !drop_ge by (rewrite ?length_app; cbn; lia). done.
Qed.

Lemma prefix_ok_snoc e c prev s :
  prefix_ok e c (prev ++ [s]) <->
  prefix_ok e c prev /\
  (sg_writable s = 0 \/ sg_writable s = 1) /\ (forall p, p ∈ prev -> sg_writable p <> 0 -> sg_writable s <> 0) /\
  segment_payload_ok e s /\ compatible (segment_lease s) (table_lease c) /\
  (if (direct_count c <=? length prev)%nat then sg_descriptor s < c_indirect_length c / DESC_SIZE
   else sg_descriptor s < q_queue_size (e_queue e) /\ owner_at e (sg_descriptor s) = 0 /\
        (c_indirect_length c <> 0 -> sg_descriptor s <> c_indirect_descriptor c)) /\
  (forall j p, prev !! j = Some p ->
    ((direct_count c <=? j)%nat = (direct_count c <=? length prev)%nat -> sg_descriptor s <> sg_descriptor p) /\
    compatible (segment_lease s) (segment_lease p)).
Proof.
  assert (Hfl : Forall (fun s => sg_writable s = 0 \/ sg_writable s = 1) prev ->
    (sg_writable s = 0 \/ sg_writable s = 1) ->
    (forall y, y ∈ prev -> sg_writable y <= sg_writable s) <->
    forall p, p ∈ prev -> sg_writable p <> 0 -> sg_writable s <> 0).
  { rewrite Forall_forall. intros Hf Hs. split; intros Ho p Hp.
    - intros Hw. specialize (Ho p Hp). destruct (Hf p Hp); lia.
    - specialize (Ho p Hp). destruct (Hf p Hp); lia. }
  assert (Hcm : (forall y, y ∈ prev -> compatible (segment_lease y) (segment_lease s)) <->
    forall j p, prev !! j = Some p -> compatible (segment_lease s) (segment_lease p)).
  { split.
    - intros Hc j p Hj. apply compatible_sym, Hc. by eapply list_elem_of_lookup_2.
    - intros Hc y [j Hj]%list_elem_of_lookup. by apply compatible_sym, (Hc j). }
  pose proof (split_snoc (direct_count c) prev s) as Hsplit.
  assert (Hmap : forall l, sg_descriptor <$> (l ++ [s]) = (sg_descriptor <$> l) ++ [sg_descriptor s])
    by (intros l; by rewrite fmap_app).
  assert (Hdd : forall l : list kb2_vq_segment, sg_descriptor s ∉ (sg_descriptor <$> l) <->
             forall j p, l !! j = Some p -> sg_descriptor s <> sg_descriptor p).
  { intros l. rewrite list_elem_of_fmap. split.
    - intros Hn j p Hj Heq. apply Hn. exists p. split; [done | by eapply list_elem_of_lookup_2].
    - intros Hf (p & Heq & [j Hj]%list_elem_of_lookup). by apply (Hf j p). }
  split.
  - intros [F O P T L D DD I ID]. rewrite Forall_app, Forall_singleton in F, P, T.
    rewrite pairwise_snoc in O, L. destruct F as [F Fs], P as [P Ps], T as [T Ts], O as [O Os], L as [L Ls].
    rewrite Hcm in Ls. destruct (direct_count c <=? length prev)%nat eqn:E.
    + destruct Hsplit as [H1 H2]. rewrite H1 in D, DD. rewrite H2, Hmap in I, ID.
      rewrite Forall_app, Forall_singleton in I. rewrite NoDup_snoc, Hdd in ID.
      split; [by constructor; destruct_and? |]. split_and!; [done | by apply Hfl | done | done | apply I |].
      intros j p Hj. split; [| by eapply Ls]. intros Hle%Nat.leb_le. apply (proj2 ID (j - direct_count c)%nat).
      rewrite lookup_drop. by replace (direct_count c + (j - direct_count c))%nat with j by lia.
    + destruct Hsplit as (H1 & H2 & H3 & H4). rewrite H1, Hmap in D, DD.
      rewrite Forall_app, Forall_singleton in D. rewrite NoDup_snoc, Hdd in DD.
      split; [constructor; rewrite ?H2, ?H4; try done; [apply D | apply DD | constructor] |].
      split_and!; [done | by apply Hfl | done | done | apply D ..|].
      intros j p Hj. split; [| by eapply Ls]. intros _. by apply (proj2 DD j).
  - intros ([F O P T L D DD I ID] & Fs & Os & Ps & Ts & Ds & Js).
    assert (Ls : forall j p, prev !! j = Some p -> compatible (segment_lease s) (segment_lease p)) by apply Js.
    rewrite <- Hcm in Ls. rewrite <- Hfl in Os by done.
    destruct (direct_count c <=? length prev)%nat eqn:E.
    + destruct Hsplit as [H1 H2].
      constructor; rewrite ?H1, ?H2, ?Hmap, ?Forall_app, ?Forall_singleton, ?pairwise_snoc, ?NoDup_snoc, ?Hdd;
        try done.
      split; [done |]. intros j p Hj. rewrite lookup_drop in Hj. apply (Js _ _ Hj), Nat.leb_le. lia.
    + destruct Hsplit as (H1 & H2 & H3 & H4). rewrite H2 in D, DD.
      constructor; rewrite ?H1, ?H3, ?Hmap, ?Forall_app, ?Forall_singleton, ?pairwise_snoc, ?NoDup_snoc, ?Hdd;
        try done; [| constructor].
      split; [done |]. intros j p Hj. apply (Js _ _ Hj). apply Nat.leb_gt in E. apply Nat.leb_gt.
      apply lookup_lt_Some in Hj. lia.
Qed.

Lemma prefix_ok_app e c l k : prefix_ok e c (l ++ k) -> prefix_ok e c l.
Proof.
  induction k as [|x k IH] using rev_ind; [by rewrite app_nil_r |].
  rewrite app_assoc, prefix_ok_snoc. intros [Hp _]. by apply IH.
Qed.

Lemma prefix_ok_nil e c : prefix_ok e c [].
Proof.
  constructor; rewrite ?take_nil, ?drop_nil; first [constructor | apply pairwise_nil].
Qed.

Lemma totals_bounds l :
  Forall segment_typed l ->
  0 <= readable_total l <= 2 ^ 32 * Z.of_nat (length l) /\
  0 <= writable_total l <= 2 ^ 32 * Z.of_nat (length l).
Proof.
  induction 1 as [|s l (_ & Hl & _) _ IH]; [cbn; lia |].
  cbn [readable_total writable_total foldr length]. fold (readable_total l) (writable_total l).
  unfold is_u32 in Hl. destruct (sg_writable s =? 0); lia.
Qed.

Lemma prefix_fits e c l :
  Forall segment_typed l -> prefix_ok e c l -> Forall (fun p => lease_fits (segment_lease p)) l.
Proof.
  intros Ht Hp. apply px_payload in Hp. rewrite Forall_forall in *. intros p Hin.
  destruct (Ht p Hin) as (Ha & Hl & _). eapply payload_ok_fits; [exact Ha | apply Hl | by apply Hp].
Qed.

Lemma validate_segments_spec e c prev rest r w r' w' :
  channel_bound e -> lease_fits (table_lease c) -> Forall segment_typed (prev ++ rest) -> prefix_ok e c prev ->
  0 <= r -> 0 <= w -> r + 2 ^ 32 * Z.of_nat (length rest) < 2 ^ 64 -> w + 2 ^ 32 * Z.of_nat (length rest) < 2 ^ 64 ->
  validate_segments e c (length prev) prev (existsb (fun p => negb (sg_writable p =? 0)) prev) r w rest =
    Some (r', w') <->
  prefix_ok e c (prev ++ rest) /\ r' = r + readable_total rest /\ w' = w + writable_total rest.
Proof.
  intros Hb Htab. revert prev r w. induction rest as [|s rest IH]; intros prev r w Ht Hp Hr Hw Hrb Hwb.
  { cbn [validate_segments readable_total writable_total foldr]. rewrite app_nil_r, !Z.add_0_r. naive_solver. }
  cbn [validate_segments]. rewrite (app_assoc prev [s] rest : prev ++ s :: rest = _) in Ht |- *.
  assert (Hts : segment_typed s) by (rewrite Forall_forall in Ht; apply Ht; set_solver).
  assert (Hprev : Forall segment_typed prev) by (by apply Forall_app in Ht as [[? _]%Forall_app _]).
  assert (Hv : segment_valid e c (length prev) prev (existsb (fun p => negb (sg_writable p =? 0)) prev) s = true <->
               prefix_ok e c (prev ++ [s])).
  { rewrite segment_valid_spec, prefix_ok_snoc by (first [done | by eapply prefix_fits]). tauto. }
  destruct (segment_valid e c (length prev) prev _ s); cbn [negb].
  2: { split; [done |]. intros [Hall%prefix_ok_app _]. by apply Hv in Hall. }
  assert (Hps : prefix_ok e c (prev ++ [s])) by by apply Hv.
  replace (S (length prev)) with (length (prev ++ [s])) by (rewrite length_app; cbn; lia).
  replace (existsb (fun p => negb (sg_writable p =? 0)) prev || negb (sg_writable s =? 0))
    with (existsb (fun p => negb (sg_writable p =? 0)) (prev ++ [s]))
    by (rewrite existsb_app; cbn; by rewrite orb_false_r).
  destruct Hts as (_ & Hl & _). unfold is_u32 in Hl. cbn [length] in Hrb, Hwb.
  rewrite !u64_small by (unfold is_u64; lia).
  cbn [readable_total writable_total foldr]. fold (readable_total rest) (writable_total rest).
  rewrite IH by (first [done | destruct (sg_writable s =? 0); cbn [negb]; lia]).
  destruct (sg_writable s =? 0); cbn [negb]; rewrite ?Z.add_0_l, ?Z.add_assoc; done.
Qed.

(** * The decision *)

(** The chain whose totals are filled in. *)
Definition with_totals (c : kb2_vq_chain) : kb2_vq_chain :=
  set_totals c (readable_total (chain_segments c)) (writable_total (chain_segments c)).

(** What validate_chain checks of the queue's state. *)
Record admissible e (c : kb2_vq_chain) : Prop := {
  ad_slot : slot_at e (c_head c) = None;
  ad_owners : Forall (fun d => owner_at e d = 0) (direct_descriptors c);
  ad_apart : forall p, Some p ∈ vq_slots (e_vq e) -> ~ chains_meet c (e_chain e p);
}.

Lemma mask15 x : Z.land x 15 = x mod 16.
Proof. change 15 with (Z.ones 4). rewrite Z.land_ones by lia. done. Qed.

Lemma indirect_valid_spec e c :
  channel_bound e -> chain_typed c ->
  indirect_valid e c = true <->
  table_ok e c /\ (c_indirect_length c <> 0 ->
    c_indirect_descriptor c < q_queue_size (e_queue e) /\ owner_at e (c_indirect_descriptor c) = 0).
Proof.
  intros Hb [_ _ Hi Hil _]. unfold indirect_valid, table_ok, direct_count.
  destruct (Z.eqb_spec (c_indirect_length c) 0) as [Hz | Hz]; cbn [negb].
  - rewrite decide_True by done. rewrite negb_true_iff, !orb_false_iff, !negb_false_iff, !Z.eqb_eq, Nat.eqb_eq.
    naive_solver.
  - rewrite decide_False by done.
    rewrite negb_true_iff, !orb_false_iff, !negb_false_iff, !Z.eqb_eq, Z.leb_gt, Z.ltb_ge, Nat.leb_gt, mask15.
    rewrite payload_range_spec by done. tauto.
Qed.

Lemma table_fits e c : chain_typed c -> table_ok e c -> lease_fits (table_lease c).
Proof.
  intros [_ _ Hi Hil _] Ht. unfold table_ok in Ht. unfold lease_fits. cbn. case_decide as Hz.
  - rewrite Hz. unfold fits, is_u64 in *. lia.
  - eapply payload_ok_fits; [done | apply Hil | apply Ht].
Qed.

Lemma chain_ok_fits e c : chain_typed c -> chain_ok e c -> Forall lease_fits (leases c).
Proof.
  intros Ht Hok. constructor; [by eapply table_fits, ck_table |]. apply Forall_fmap.
  apply ck_payload in Hok. pose proof (chain_segments_typed c Ht) as Hs. rewrite Forall_forall in *.
  intros p Hin. destruct (Hs p Hin) as (Ha & Hl & _). eapply payload_ok_fits; [exact Ha | apply Hl | by apply Hok].
Qed.

Lemma entry_is_direct c :
  c_segments c <> None -> (1 <= length (chain_segments c))%nat -> c_count c = length (chain_segments c) ->
  entry_descriptor c ∈ direct_descriptors c.
Proof.
  intros Hs Hn Hc. unfold entry_descriptor, direct_descriptors, direct_count.
  destruct (Z.eqb_spec (c_indirect_length c) 0) as [Hz | Hz].
  - rewrite (proj2 (Nat.eqb_neq _ _)) by lia. destruct (chain_segments c) as [|s l] eqn:E; [cbn in Hn; lia |].
    rewrite Hc. cbn. by left.
  - destruct (Nat.eqb_spec (c_indirect_first c) 0); [by left |]. right.
    destruct (chain_segments c) as [|s l] eqn:E; [cbn in Hn; lia |].
    destruct (c_indirect_first c); [done |]. cbn. by left.
Qed.

Lemma length_chain_segments c :
  chain_typed c -> c_segments c <> None -> (c_count c <= c_capacity c)%nat ->
  length (chain_segments c) = c_count c.
Proof.
  intros [Ha _ _ _ _] Hs Hc. unfold chain_segments. destruct (c_segments c) as [l |]; [| done]. cbn.
  destruct (Ha l eq_refl) as [Hl _]. rewrite length_take. lia.
Qed.

(** The loop over the slots. *)
Lemma chain_apart_spec e c :
  Forall lease_fits (leases c) ->
  (forall p, Some p ∈ vq_slots (e_vq e) -> Forall lease_fits (leases (e_chain e p))) ->
  existsb (fun slot => match slot with None => false | Some p => chains_overlap c (e_chain e p) end)
    (vq_slots (e_vq e)) = false <->
  forall p, Some p ∈ vq_slots (e_vq e) -> ~ chains_meet c (e_chain e p).
Proof.
  intros Hc Hp. rewrite <- not_true_iff_false, existsb_exists. split.
  - intros Hn p Hin Hm. apply Hn. exists (Some p). rewrite <- list_elem_of_In. split; [done |].
    apply chains_overlap_spec; auto.
  - intros Hf ([p |] & Hin & Ht); [| done]. rewrite <- list_elem_of_In in Hin.
    apply chains_overlap_spec in Ht; auto. by apply (Hf p).
Qed.

(** The static part of the specification, from what the loops establish. *)
Lemma chain_ok_prefix e c :
  chain_typed c -> c_segments c <> None -> (1 <= c_count c <= c_capacity c)%nat ->
  Z.of_nat (c_count c) <= q_max_chain_length (e_queue e) -> c_head c < q_queue_size (e_queue e) ->
  chain_ok e (with_totals c) /\ Forall (fun d => owner_at e d = 0) (direct_descriptors c) <->
  (table_ok e c /\ (c_indirect_length c <> 0 ->
    c_indirect_descriptor c < q_queue_size (e_queue e) /\ owner_at e (c_indirect_descriptor c) = 0)) /\
  entry_descriptor c = c_head c /\ prefix_ok e c (chain_segments c) /\
  totals_valid e (readable_total (chain_segments c)) (writable_total (chain_segments c)) = true.
Proof.
  intros Ht Hs Hc Hm Hh.
  assert (Htot : totals_valid e (readable_total (chain_segments c)) (writable_total (chain_segments c)) = true <->
    writable_total (chain_segments c) <> 0 /\
    if q_role (e_queue e) =? KB2_PROTOCOL_QUEUE_ROLE_REQUEST then readable_total (chain_segments c) <> 0
    else readable_total (chain_segments c) = 0).
  { unfold totals_valid. rewrite andb_true_iff, negb_true_iff, Z.eqb_neq.
    destruct (q_role (e_queue e) =? _); rewrite ?negb_true_iff, ?Z.eqb_neq, ?Z.eqb_eq; done. }
  rewrite Htot. clear Htot.
  assert (Hleases : pairwise compatible (leases c) <->
    Forall (fun s => compatible (segment_lease s) (table_lease c)) (chain_segments c) /\
    pairwise (fun s t => compatible (segment_lease s) (segment_lease t)) (chain_segments c)).
  { unfold leases. rewrite pairwise_cons, pairwise_fmap. apply and_iff_compat_r. rewrite Forall_forall. split.
    - intros Hf s Hin. apply compatible_sym, Hf. by apply list_elem_of_fmap_2.
    - intros Hf y (s & -> & Hin)%list_elem_of_fmap. by apply compatible_sym, Hf. }
  assert (Hdirect : (Forall (fun d => d < q_queue_size (e_queue e)) (direct_descriptors c) /\
      NoDup (direct_descriptors c)) /\ Forall (fun d => owner_at e d = 0) (direct_descriptors c) <->
    (c_indirect_length c <> 0 ->
      c_indirect_descriptor c < q_queue_size (e_queue e) /\ owner_at e (c_indirect_descriptor c) = 0) /\
    Forall (fun d => d < q_queue_size (e_queue e) /\ owner_at e d = 0 /\
              (c_indirect_length c <> 0 -> d <> c_indirect_descriptor c))
      (sg_descriptor <$> take (direct_count c) (chain_segments c)) /\
    NoDup (sg_descriptor <$> take (direct_count c) (chain_segments c))).
  { unfold direct_descriptors. generalize (sg_descriptor <$> take (direct_count c) (chain_segments c)). intros l.
    destruct (Z.eqb_spec (c_indirect_length c) 0) as [Hz | Hz]; cbn [app].
    - rewrite !Forall_forall. naive_solver.
    - rewrite NoDup_cons, !Forall_cons, !Forall_forall. naive_solver. }
  split.
  - intros [[K1 K2 K3 K4 K5 K6 K7 K8 K9 K10 K11 K12 K13 K14 K15] Ho].
    destruct (proj1 Hdirect) as (Hi & Hd & Hdd); [by split_and! |]. destruct (proj1 Hleases K13) as [Hl1 Hl2].
    split_and!; [done | done | apply K4 | by constructor | apply K15 ..].
  - intros ((Htab & Hi) & He & [P1 P2 P3 P4 P5 P6 P7 P8 P9] & Hw & Hr).
    destruct (proj2 Hdirect) as [[Hd Hdd] Ho]; [by split_and! |].
    split; [| done]. constructor; try done. by apply Hleases.
Qed.

(** validate_chain accepts exactly the valid chains whose head and descriptors are
    free and whose memory no owned chain uses, and fills in their totals. *)
Lemma validate_chain_spec e c c' :
  channel_bound e -> chain_typed c ->
  (forall p, Some p ∈ vq_slots (e_vq e) -> chain_typed (e_chain e p) /\ chain_ok e (e_chain e p)) ->
  validate_chain e c = Some c' <-> c' = with_totals c /\ chain_ok e (with_totals c) /\ admissible e c.
Proof.
  intros Hb Ht Hslots. unfold validate_chain.
  destruct (c_segments c) as [l |] eqn:Es.
  2: { split; [done |]. intros (_ & [K1 _ _ _ _ _ _ _ _ _ _ _ _ _ _] & _). by cbn in K1. }
  match goal with |- context [if ?b then _ else _] => destruct b eqn:E1 end.
  { split; [done |]. intros (_ & [_ K2 K3 [K4 K4'] _ K6 _ _ _ _ _ _ _ _ _] & [A1 A2 _]). exfalso.
    cbn in K2, K3, K4, K4'.
    rewrite !orb_true_iff, Nat.eqb_eq, Nat.ltb_lt, Z.ltb_lt, Z.leb_le, bool_decide_eq_true, negb_true_iff, Z.eqb_neq in E1.
    destruct E1 as [[[[[E1 | E1] | E1] | E1] | E1] | E1]; [lia | lia | lia | lia | done |].
    apply E1. rewrite Forall_forall in A2. apply A2.
    assert (Hlen : length (chain_segments c) = c_count c) by (apply length_chain_segments; [done | by rewrite Es | lia]).
    assert (entry_descriptor c ∈ direct_descriptors c) by (apply entry_is_direct; [by rewrite Es | lia | lia]).
    by rewrite <- K4'. }
  rewrite !orb_false_iff, Nat.eqb_neq, Nat.ltb_ge, Z.ltb_ge, Z.leb_gt, bool_decide_eq_false, negb_false_iff, Z.eqb_eq in E1.
  destruct E1 as [[[[[C1 C2] C3] C4] C5] C6]. apply dec_stable in C5.
  assert (Hlen : length (chain_segments c) = c_count c) by (apply length_chain_segments; [done | by rewrite Es | lia]).
  pose proof (chain_ok_prefix e c Ht ltac:(by rewrite Es) ltac:(lia) C3 C4) as Hstatic.
  rewrite <- (indirect_valid_spec e c) in Hstatic by done.
  assert (Hrw : chain_ok e (with_totals c) /\ admissible e c <->
    (chain_ok e (with_totals c) /\ Forall (fun d => owner_at e d = 0) (direct_descriptors c)) /\
    forall p, Some p ∈ vq_slots (e_vq e) -> ~ chains_meet c (e_chain e p)).
  { split; [intros [? []]; done | intros [[? ?] ?]; split; [done | by constructor]]. }
  rewrite Hrw, Hstatic. clear Hrw Hstatic.
  destruct (indirect_valid e c) eqn:Hi; cbn [negb]; [| naive_solver].
  fold (entry_descriptor c). destruct (Z.eqb_spec (entry_descriptor c) (c_head c)) as [He | He]; cbn [negb]; [| naive_solver].
  assert (Htab : table_ok e c) by (by apply indirect_valid_spec in Hi as [? _]).
  pose proof (validate_segments_spec e c [] (chain_segments c) 0 0) as Hv. cbn [app length existsb] in Hv.
  assert (Hbound : 2 ^ 32 * Z.of_nat (length (chain_segments c)) < 2 ^ 64).
  { destruct Hb as [_ _ _ Hk Hc _ _]. apply pow2_bounds in Hk. rewrite Hlen. lia. }
  destruct (validate_segments e c 0 [] false 0 0 (chain_segments c)) as [[r w] |] eqn:Evs.
  - destruct (Hv r w) as [Hv1 _]; try done; try lia.
    { by eapply table_fits. } { by apply chain_segments_typed. } { apply prefix_ok_nil. }
    destruct Hv1 as (Hpre & -> & ->); [done |]. rewrite !Z.add_0_l.
    destruct (totals_valid e _ _) eqn:Etv; cbn [negb]; [| naive_solver].
    rewrite <- chain_apart_spec.
    + match goal with |- context [existsb ?f ?l] => destruct (existsb f l) end; [naive_solver |].
      unfold with_totals. naive_solver.
    + constructor; [by eapply table_fits |]. apply Forall_fmap. eapply prefix_fits; [by apply chain_segments_typed | done].
    + intros p Hin. destruct (Hslots p Hin). by eapply chain_ok_fits.
  - split; [done |]. intros (_ & (_ & _ & Hpre & _) & _).
    destruct (Hv (readable_total (chain_segments c)) (writable_total (chain_segments c))) as [_ Hv2]; try done; try lia.
    { by eapply table_fits. } { by apply chain_segments_typed. } { apply prefix_ok_nil. }
    by discriminate Hv2.
Qed.
End Spec.
