(* ===== verification/VirtqueueInv.v ===== *)
(** The invariant of a queue, and that every operation keeps it whatever the peer
    puts into the shared memory. *)

From Stdlib Require Import ZArith Lia.
From stdpp Require Import base numbers tactics sets gmap list_numbers list.
From S2P Require Import Prelude Bytes Protocol ProtocolSpec Virtqueue VirtqueueSpec.

Open Scope Z_scope.

(** * What the engine relies on in the backend

    The payload policy is private and immutable: no callback changes it.  Nothing is
    assumed of the bytes or indices the backend delivers. *)

Definition same_policy {M} `{VqMemory M} (m m' : M) : Prop :=
  forall q a n r, mem_payload_allowed m' q a n r = mem_payload_allowed m q a n r.

#[export] Instance same_policy_equiv {M} `{VqMemory M} : Equivalence same_policy.
Proof.
  split.
  - intros m q a n r. done.
  - intros m m' Hm q a n r. by rewrite Hm.
  - intros m1 m2 m3 H12 H23 q a n r. by rewrite H23, H12.
Qed.

Class VqMemoryLaws (M : Type) `{VqMemory M} : Prop := {
  policy_read : forall m a n r m', mem_read m a n = (r, m') -> same_policy m m';
  policy_write : forall m a b r m', mem_write m a b = (r, m') -> same_policy m m';
  policy_load : forall m a r m', mem_load_acquire m a = (r, m') -> same_policy m m';
  policy_store : forall m a v r m', mem_store_release m a v = (r, m') -> same_policy m m';
  policy_fence : forall m, same_policy m (mem_fence m);
}.

(** * Counting slots *)

Definition slot_weight (f : loc -> bool) (slot : option loc) : Z :=
  match slot with Some p => if f p then 1 else 0 | None => 0 end.

Definition slot_count (f : loc -> bool) (slots : list (option loc)) : Z :=
  foldr (fun slot n => slot_weight f slot + n) 0 slots.

Lemma slot_count_ext f g slots :
  (forall p, Some p ∈ slots -> f p = g p) -> slot_count f slots = slot_count g slots.
Proof.
  unfold slot_count. induction slots as [|[p |] slots IH]; intros Hf; cbn; [done | |].
  - rewrite IH by (intros; apply Hf; by right). by rewrite Hf by by left.
  - apply IH. intros. apply Hf. by right.
Qed.

Lemma slot_count_cons f slot slots : slot_count f (slot :: slots) = slot_weight f slot + slot_count f slots.
Proof. done. Qed.

Lemma slot_count_insert f g slots h x y :
  slots !! h = Some x -> (forall i p, i <> h -> slots !! i = Some (Some p) -> g p = f p) ->
  slot_count g (<[h := y]> slots) = slot_count f slots - slot_weight f x + slot_weight g y.
Proof.
  revert h. induction slots as [|z slots IH]; intros h Hh Hf; [done |]. destruct h as [|h].
  - injection Hh as ->. change (<[0%nat := y]> (x :: slots)) with (y :: slots). rewrite !slot_count_cons.
    rewrite (slot_count_ext f g slots); [lia |].
    intros p [i Hi]%list_elem_of_lookup. symmetry. by apply (Hf (S i)).
  - change (<[S h := y]> (z :: slots)) with (z :: <[h := y]> slots). rewrite !slot_count_cons.
    rewrite IH; [| exact Hh | intros i p Hi; apply (Hf (S i)); lia].
    replace (slot_weight g z) with (slot_weight f z); [lia |].
    destruct z as [p |]; [| done]. cbn. by rewrite (Hf 0%nat p).
Qed.

Lemma slot_count_bounds f slots : 0 <= slot_count f slots <= Z.of_nat (length slots).
Proof.
  induction slots as [|[p |] slots IH]; cbn [slot_count foldr length slot_weight]; [lia | |];
    fold (slot_count f slots); [destruct (f p); lia | lia].
Qed.

(** * The invariant *)

Section Invariant.
Context {M : Type} `{VqMemoryLaws M}.
Implicit Types e : engine M.

Definition in_slot e (h : nat) (p : loc) : Prop := vq_slots (e_vq e) !! h = Some (Some p).

Definition state_allowed (side : kb2_vq_side) (st : chain_state) : Prop :=
  match side with
  | KB2_VQ_DRIVER => st = SUBMITTED \/ st = RETURNED
  | KB2_VQ_DEVICE => st = ACCEPTED
  end.

(** The progress a chain records never exceeds what the peer offered. *)
Definition progress_ok (c : kb2_vq_chain) : Prop :=
  0 <= c_written c <= c_writable c /\ c_written c <= U32_MAX /\ 0 <= c_used_length c <= c_writable c.

Definition e_faulted e : bool :=
  match vq_channel (e_vq e) with Some c => vc_faulted c | None => false end.

Record struct_inv e : Prop := {
  si_bound : channel_bound e;
  si_typed : forall p, chain_typed (e_chain e p);
  si_slots : length (vq_slots (e_vq e)) = Z.to_nat (q_queue_size (e_queue e));
  si_owners : length (vq_descriptor_owner (e_vq e)) = Z.to_nat (q_queue_size (e_queue e));
  si_chain : forall h p, in_slot e h p ->
    c_head (e_chain e p) = Z.of_nat h /\ chain_ok e (e_chain e p) /\
    state_allowed (vq_side (e_vq e)) (c_state (e_chain e p)) /\ progress_ok (e_chain e p);
  si_owner : forall h p d, in_slot e h p -> d ∈ direct_descriptors (e_chain e p) -> owner_at e d = Z.of_nat h + 1;
  si_owned_by : forall d, 0 <= d -> owner_at e d <> 0 ->
    exists h p, in_slot e h p /\ d ∈ direct_descriptors (e_chain e p);
  si_apart : forall h p h' p', in_slot e h p -> in_slot e h' p' -> h <> h' ->
    ~ chains_meet (e_chain e p) (e_chain e p');
  si_count : vq_owned (e_vq e) = slot_count (fun _ => true) (vq_slots (e_vq e)) /\
             vq_owned (e_vq e) <= q_max_outstanding (e_queue e);
  si_last : forall p, vq_last_taken (e_vq e) = Some p -> exists h, in_slot e h p;
  si_indices : is_u16 (vq_produced (e_vq e)) /\ is_u16 (vq_consumed (e_vq e));
}.

Definition submitted e (p : loc) : bool := bool_decide (c_state (e_chain e p) = SUBMITTED).

(** Until the channel faults, the ring indices count the chains: the driver's
    distance from published to consumed entries is the number of chains the peer
    still has, the device's is the number of chains it has taken and not completed. *)
Definition counters_inv e : Prop :=
  match vq_side (e_vq e) with
  | KB2_VQ_DRIVER => u16 (vq_produced (e_vq e) - vq_consumed (e_vq e)) =
                     slot_count (submitted e) (vq_slots (e_vq e))
  | KB2_VQ_DEVICE => u16 (vq_consumed (e_vq e) - vq_produced (e_vq e)) = vq_owned (e_vq e)
  end.

Record vq_inv e : Prop := {
  inv_struct : struct_inv e;
  inv_counters : e_faulted e = false -> counters_inv e;
}.

(** ** Frames: what the subroutines may change *)

Definition set_faulted (vq : kb2_vq) : kb2_vq :=
  mkVq (kb2_vq_channel_fault (vq_channel vq)) (vq_queue vq) (vq_side vq) (vq_slots vq)
    (vq_last_taken vq) (vq_descriptor_owner vq) (vq_produced vq) (vq_consumed vq) (vq_owned vq).

Definition failed (st : kb2_vq_status) : bool :=
  match st with KB2_VQ_IO | KB2_VQ_FAULTED => true | _ => false end.

(** The backend, the chain objects in [P], and the fault flag when the status says so. *)
Record frame (P : loc -> Prop) e (st : kb2_vq_status) e' : Prop := {
  fr_vq : e_vq e' = if failed st then set_faulted (e_vq e) else e_vq e;
  fr_chains : forall p, ~ P p -> e_chain e' p = e_chain e p;
  fr_typed : (forall p, chain_typed (e_chain e p)) -> forall p, chain_typed (e_chain e' p);
  fr_policy : same_policy (e_mem e) (e_mem e');
}.

Lemma frame_refl P e st : failed st = false -> frame P e st e.
Proof. intros Hst. split; [by rewrite Hst | done | done | reflexivity]. Qed.

Lemma frame_mem P e st m : failed st = false -> same_policy (e_mem e) m -> frame P e st (set_mem e m).
Proof. intros Hst Hm. split; [by rewrite Hst | done | done | done]. Qed.

Lemma frame_trans P e st e' st' e'' :
  failed st = false -> frame P e st e' -> frame P e' st' e'' -> frame P e st' e''.
Proof.
  intros Hst [V C T Q] [V' C' T' Q']. rewrite Hst in V. split.
  - by rewrite V', V.
  - intros p Hp. by rewrite C', C.
  - auto.
  - by transitivity (e_mem e').
Qed.

Lemma frame_fault P e io : frame P e (fst (fault e io)) (snd (fault e io)).
Proof. split; [by destruct io | done | done | reflexivity]. Qed.

Lemma frame_fault_mem P e io m :
  same_policy (e_mem e) m -> frame P e (fst (fault (set_mem e m) io)) (snd (fault (set_mem e m) io)).
Proof.
  intros Hm. eapply (frame_trans _ _ KB2_VQ_OK (set_mem e m)); [done | by apply frame_mem | apply frame_fault].
Qed.

Lemma e_chain_set e p c p' : e_chain (set_chain e p c) p' = if decide (p' = p) then c else e_chain e p'.
Proof.
  unfold e_chain, chain_at. cbn. case_decide as Hp; [subst; by rewrite lookup_insert_eq |].
  by rewrite lookup_insert_ne.
Qed.

Lemma frame_chain (P : loc -> Prop) e (p : loc) c : P p -> chain_typed c -> frame P e KB2_VQ_OK (set_chain e p c).
Proof.
  intros Hp Hc. split; [done | | | reflexivity].
  - intros p' Hp'. rewrite e_chain_set, decide_False; [done |]. by intros ->.
  - intros Ht p'. rewrite e_chain_set. by case_decide.
Qed.

Lemma frame_weaken (P Q : loc -> Prop) e st e' : (forall p, P p -> Q p) -> frame P e st e' -> frame Q e st e'.
Proof. intros HPQ [V C T R]. split; [done | | done | done]. intros p Hp. apply C. auto. Qed.

Definition nothing : loc -> Prop := fun _ => False.

(** ** The static context *)

Record same_env e e' : Prop := {
  en_channel : (exists c, vq_channel (e_vq e) = Some c) -> exists c, vq_channel (e_vq e') = Some c;
  en_regions : e_regions e' = e_regions e;
  en_queues : e_queues e' = e_queues e;
  en_queue : e_queue e' = e_queue e;
  en_policy : same_policy (e_mem e) (e_mem e');
}.

Lemma same_env_set_vq e vq :
  vq_channel vq = vq_channel (e_vq e) -> vq_queue vq = vq_queue (e_vq e) ->
  same_env e (set_vq e vq).
Proof.
  intros Hc Hq. split; unfold e_regions, e_queues, e_queue; cbn; rewrite ?Hc, ?Hq; [done .. | reflexivity].
Qed.

Lemma same_env_vq e e' :
  vq_channel (e_vq e') = vq_channel (e_vq e) -> vq_queue (e_vq e') = vq_queue (e_vq e) ->
  same_policy (e_mem e) (e_mem e') -> same_env e e'.
Proof. intros Hc Hq Hp. split; unfold e_regions, e_queues, e_queue; rewrite ?Hc, ?Hq; done. Qed.

Lemma frame_env P e st e' : frame P e st e' -> same_env e e'.
Proof.
  intros [V _ _ Q]. destruct (failed st).
  - split; unfold e_regions, e_queues, e_queue; rewrite ?V; cbn; [| by destruct (vq_channel (e_vq e)) .. | done].
    intros [c ->]. cbn. by eexists.
  - apply same_env_vq; [by rewrite V .. | done].
Qed.

Lemma channel_bound_env e e' : same_env e e' -> channel_bound e -> channel_bound e'.
Proof.
  intros [C R Q U _] [B1 B2 B3 B4 B5 B6 B7]. split; rewrite ?R, ?Q, ?U; auto.
Qed.

Lemma payload_ok_env e e' a n r : same_env e e' -> payload_ok e a n r -> payload_ok e' a n r.
Proof. intros [_ R Q U P]. unfold payload_ok. by rewrite R, Q, U, P. Qed.

Lemma chain_ok_env e e' c : same_env e e' -> chain_ok e c -> chain_ok e' c.
Proof.
  intros Henv [K1 K2 K3 K4 K5 K6 K7 K8 K9 K10 K11 K12 K13 K14 K15].
  pose proof (en_queue _ _ Henv) as HU. split; rewrite ?HU; try done.
  - unfold table_ok in *. case_decide; [done |]. rewrite HU.
    destruct K5 as (T1 & T2 & T3 & T4 & T5 & T6). split_and!; try done. by eapply payload_ok_env.
  - eapply Forall_impl; [exact K12 |]. intros s Hs. by eapply payload_ok_env.
Qed.

Lemma chain_ok_state e c st : chain_ok e c -> chain_ok e (set_state c st).
Proof. intros []. by split. Qed.

(** ** Owner cells *)

Lemma set_owners_fold owner c v :
  set_owners owner c v = foldl (fun owner d => <[Z.to_nat d := v]> owner) owner (direct_descriptors c).
Proof.
  unfold set_owners, direct_descriptors. rewrite foldl_app.
  assert (Hf : forall l (owner : list Z), foldl (fun owner s => <[Z.to_nat (sg_descriptor s) := v]> owner) owner l =
                        foldl (fun owner d => <[Z.to_nat d := v]> owner) owner (sg_descriptor <$> l)).
  { induction l as [|s l IH]; intros o; cbn; [done | apply IH]. }
  rewrite Hf. by destruct (c_indirect_length c =? 0).
Qed.

Lemma length_set_owners owner c v : length (set_owners owner c v) = length owner.
Proof.
  rewrite set_owners_fold. generalize (direct_descriptors c). intros l. revert owner.
  induction l as [|d l IH]; intros owner; cbn; [done |]. by rewrite IH, length_insert.
Qed.

Lemma lookup_set_owners owner c v d :
  0 <= d -> Forall (fun d => 0 <= d < Z.of_nat (length owner)) (direct_descriptors c) ->
  default 0 (set_owners owner c v !! Z.to_nat d) =
  if decide (d ∈ direct_descriptors c) then v else default 0 (owner !! Z.to_nat d).
Proof.
  intros Hd. rewrite set_owners_fold. generalize (direct_descriptors c). intros l. revert owner.
  induction l as [|x l IH]; intros owner Hl; [done |]. apply Forall_cons in Hl as [Hx Hl]. cbn [foldl].
  rewrite IH by (by rewrite length_insert). destruct (decide (d ∈ l)) as [Hin | Hin].
  { rewrite decide_True; [done | by right]. }
  destruct (decide (d = x)) as [-> | Hne].
  - rewrite decide_True by (by left). rewrite list_lookup_insert_eq by lia. done.
  - rewrite list_lookup_insert_ne by lia. rewrite decide_False; [done |].
    by rewrite elem_of_cons; intros [|].
Qed.

(** ** Frames keep the invariant *)

Definition outside_slots e (P : loc -> Prop) : Prop := forall p h, P p -> ~ in_slot e h p.

Lemma frame_slots P e st e' : frame P e st e' ->
  vq_slots (e_vq e') = vq_slots (e_vq e) /\ vq_descriptor_owner (e_vq e') = vq_descriptor_owner (e_vq e) /\
  vq_side (e_vq e') = vq_side (e_vq e) /\ vq_owned (e_vq e') = vq_owned (e_vq e) /\
  vq_last_taken (e_vq e') = vq_last_taken (e_vq e) /\ vq_produced (e_vq e') = vq_produced (e_vq e) /\
  vq_consumed (e_vq e') = vq_consumed (e_vq e).
Proof. intros [V _ _ _]. rewrite V. by destruct (failed st). Qed.

Lemma frame_struct P e st e' :
  frame P e st e' -> outside_slots e P -> struct_inv e -> struct_inv e'.
Proof.
  intros Hf Hout [S1 S2 S3 S4 S5 S6 S7 S8 S9 S10 S11].
  pose proof (frame_env _ _ _ _ Hf) as Henv. pose proof (en_queue _ _ Henv) as HU.
  destruct (frame_slots _ _ _ _ Hf) as (Es & Eo & Eside & Ec & El & Ep & Ecs).
  assert (Hin : forall h p, in_slot e' h p -> in_slot e h p /\ e_chain e' p = e_chain e p).
  { intros h p Hp. unfold in_slot in *. rewrite Es in Hp. split; [done |]. apply (fr_chains _ _ _ _ Hf).
    intros HP. by apply (Hout p h HP). }
  assert (Hback : forall h p, in_slot e h p -> in_slot e' h p) by (intros h p; unfold in_slot; by rewrite Es).
  split; unfold owner_at in *; rewrite ?Es, ?Eo, ?Eside, ?Ec, ?El, ?Ep, ?Ecs, ?HU; try done.
  - by eapply channel_bound_env.
  - by apply (fr_typed _ _ _ _ Hf).
  - intros h p [Hp ->]%Hin. destruct (S5 h p Hp) as (? & ? & ? & ?). split_and!; try done. by eapply chain_ok_env.
  - intros h p d [Hp ->]%Hin. by apply S6.
  - intros d Hd Ho. destruct (S7 d Hd Ho) as (h & p & Hp & Hdd). exists h, p.
    apply Hback in Hp as Hp'. split; [done |]. by destruct (Hin _ _ Hp') as [_ ->].
  - intros h p h' p' [Hp ->]%Hin [Hp' ->]%Hin. by apply S8.
  - intros p Hp. destruct (S10 p Hp) as [h Hh]. exists h. auto.
Qed.

Lemma frame_inv P e st e' :
  frame P e st e' -> outside_slots e P -> vq_inv e -> vq_inv e'.
Proof.
  intros Hf Hout [Hs Hc]. split; [by eapply frame_struct |].
  destruct (frame_slots _ _ _ _ Hf) as (Es & Eo & Eside & Ec & El & Ep & Ecs).
  intros Hnf. assert (Hst : failed st = false).
  { destruct (failed st) eqn:E; [| done]. unfold e_faulted in Hnf. rewrite (fr_vq _ _ _ _ Hf), E in Hnf.
    destruct (cb_channel _ (si_bound _ Hs)) as [c Hch]. cbn in Hnf. by rewrite Hch in Hnf. }
  pose proof (fr_vq _ _ _ _ Hf) as V. rewrite Hst in V. unfold e_faulted in *. rewrite V in Hnf.
  specialize (Hc Hnf). unfold counters_inv in *. rewrite Eside, Ep, Ecs, Ec, Es.
  destruct (vq_side (e_vq e)); [| done]. rewrite Hc. apply slot_count_ext.
  intros p [h Hh]%list_elem_of_lookup. unfold submitted. rewrite (fr_chains _ _ _ _ Hf); [done |].
  intros HP. by apply (Hout p h HP).
Qed.

Lemma nothing_outside e : outside_slots e nothing.
Proof. by intros p h []. Qed.

(** A free chain is in no slot. *)
Lemma free_outside e p : struct_inv e -> c_state (e_chain e p) = FREE -> outside_slots e (eq p).
Proof.
  intros Hs Hfree q h <- Hp. destruct (si_chain _ Hs h p Hp) as (_ & _ & Ha & _). rewrite Hfree in Ha.
  destruct (vq_side (e_vq e)); cbn in Ha; [destruct Ha |]; done.
Qed.

(** ** Ownership moves *)

Lemma queue_size_bounds e : channel_bound e -> 1 <= q_queue_size (e_queue e) <= 32768.
Proof. intros Hb. apply pow2_bounds, (cb_size _ Hb). Qed.

Lemma direct_nonneg c d : chain_typed c -> d ∈ direct_descriptors c -> is_u16 d.
Proof.
  intros Ht. pose proof (chain_segments_typed c Ht) as Hs. unfold direct_descriptors. rewrite elem_of_app.
  intros [Hd | (s & -> & Hin)%list_elem_of_fmap].
  - destruct (c_indirect_length c =? 0); [by apply not_elem_of_nil in Hd |].
    apply list_elem_of_singleton in Hd as ->. apply Ht.
  - rewrite Forall_forall in Hs. destruct (Hs s) as (_ & _ & ? & _); [| done].
    apply list_elem_of_lookup in Hin as [i Hi]. eapply list_elem_of_lookup_2.
    by apply lookup_take_Some in Hi as [? _].
Qed.

(** The descriptors of a valid chain are cells of the owner array. *)
Lemma direct_in_range e c :
  channel_bound e -> chain_typed c -> chain_ok e c ->
  length (vq_descriptor_owner (e_vq e)) = Z.to_nat (q_queue_size (e_queue e)) ->
  Forall (fun d => 0 <= d < Z.of_nat (length (vq_descriptor_owner (e_vq e)))) (direct_descriptors c).
Proof.
  intros Hb Ht Hok Hl. pose proof (queue_size_bounds _ Hb). apply ck_direct in Hok. rewrite Forall_forall in *.
  intros d Hd. specialize (Hok d Hd). pose proof (direct_nonneg c d Ht Hd) as Hu. unfold is_u16 in Hu. cbn in Hok. lia.
Qed.

Lemma slot_at_None e h : (h < length (vq_slots (e_vq e)))%nat -> slot_at e (Z.of_nat h) = None ->
  vq_slots (e_vq e) !! h = Some None.
Proof.
  unfold slot_at. rewrite Nat2Z.id. intros Hlt Hn.
  destruct (lookup_lt_is_Some_2 _ _ Hlt) as [[q |] Hx]; rewrite Hx in Hn |- *; done.
Qed.

Lemma slot_at_Some e z p : 0 <= z -> slot_at e z = Some p -> in_slot e (Z.to_nat z) p.
Proof.
  unfold slot_at, in_slot. intros Hz. destruct (vq_slots (e_vq e) !! Z.to_nat z) as [x |]; [| done].
  cbn. by intros ->.
Qed.

(** A chain can sit in one slot only: the one its head names. *)
Lemma in_slot_unique e h h' p : struct_inv e -> in_slot e h p -> in_slot e h' p -> h = h'.
Proof.
  intros Hs Hp Hp'. destruct (si_chain _ Hs _ _ Hp) as [Hh _]. destruct (si_chain _ Hs _ _ Hp') as [Hh' _]. lia.
Qed.

Lemma claim_env e p st : same_env e (claim e p st).
Proof. by apply same_env_vq. Qed.

Lemma drop_env e p : same_env e (drop_chain e p).
Proof. by apply same_env_vq. Qed.

Lemma e_chain_claim e p st p' :
  e_chain (claim e p st) p' = if decide (p' = p) then set_state (e_chain e p) st else e_chain e p'.
Proof. exact (e_chain_set e p (set_state (e_chain e p) st) p'). Qed.

Lemma e_chain_drop e p p' :
  e_chain (drop_chain e p) p' = if decide (p' = p) then set_state (e_chain e p) FREE else e_chain e p'.
Proof. exact (e_chain_set e p (set_state (e_chain e p) FREE) p'). Qed.

Lemma chain_typed_state c st : chain_typed c -> chain_typed (set_state c st).
Proof. intros []. by split. Qed.

Lemma in_slot_insert e e' h x h' p' :
  vq_slots (e_vq e') = <[h := x]> (vq_slots (e_vq e)) -> (h < length (vq_slots (e_vq e)))%nat ->
  in_slot e' h' p' <-> (h' = h /\ x = Some p') \/ (h' <> h /\ in_slot e h' p').
Proof.
  intros Hs Hlt. unfold in_slot. rewrite Hs. destruct (decide (h' = h)) as [-> | Hne].
  - rewrite list_lookup_insert_eq by done. naive_solver.
  - rewrite list_lookup_insert_ne by done. naive_solver.
Qed.

Lemma claim_struct e p st :
  let c := e_chain e p in
  struct_inv e -> outside_slots e (eq p) -> chain_ok e c -> admissible e c -> progress_ok c ->
  state_allowed (vq_side (e_vq e)) st -> vq_owned (e_vq e) < q_max_outstanding (e_queue e) ->
  struct_inv (claim e p st) /\ in_slot (claim e p st) (Z.to_nat (c_head c)) p.
Proof.
  intros c Hs Hout Hok [A1 A2 A3] Hprog Hst Hmax. pose proof Hs as [S1 S2 S3 S4 S5 S6 S7 S8 S9 S10 S11].
  pose proof (claim_env e p st) as Henv. pose proof (queue_size_bounds _ S1) as Hqs.
  pose proof (ct_head _ (S2 p)) as Hhead. unfold is_u16 in Hhead. fold c in Hhead.
  assert (Hh : c_head c < q_queue_size (e_queue e)) by apply Hok.
  set (h := Z.to_nat (c_head c)). assert (Hlt : (h < length (vq_slots (e_vq e)))%nat) by (unfold h; lia).
  assert (Hslot : vq_slots (e_vq e) !! h = Some None).
  { apply slot_at_None; [done |]. unfold h. by rewrite Z2Nat.id by lia. }
  assert (Hin : forall h' p', in_slot (claim e p st) h' p' <-> (h' = h /\ Some p = Some p') \/ (h' <> h /\ in_slot e h' p'))
    by (intros; by apply in_slot_insert).
  assert (Hother : forall h' p', in_slot e h' p' -> p' <> p) by (intros h' p' Hp' ->; by apply (Hout p h')).
  assert (Hown : forall d, 0 <= d -> owner_at (claim e p st) d =
                   if decide (d ∈ direct_descriptors c) then c_head c + 1 else owner_at e d).
  { intros d Hd. unfold owner_at. cbn. rewrite lookup_set_owners by (done || by apply direct_in_range).
    fold c. rewrite u16_small by (unfold is_u16; lia). done. }
  split; [split | apply Hin; by left].
  - by eapply channel_bound_env.
  - intros p'. rewrite e_chain_claim. case_decide; [by apply chain_typed_state | done].
  - cbn. rewrite length_insert. done.
  - cbn. rewrite length_set_owners. done.
  - intros h' p' [[-> [= <-]] | [Hne Hp']]%Hin.
    + rewrite e_chain_claim, decide_True by done. split_and!; [change (c_head c = Z.of_nat h); unfold h; lia | | done | done ..].
      eapply chain_ok_env; [exact Henv |]. by apply chain_ok_state.
    + rewrite e_chain_claim, decide_False by (by eapply Hother). destruct (S5 h' p' Hp') as (? & ? & ? & ?).
      split_and!; try done. by eapply chain_ok_env.
  - intros h' p' d Hp' Hd. apply Hin in Hp' as [[-> [= <-]] | [Hne Hp']].
    + rewrite e_chain_claim, decide_True in Hd by done. change (d ∈ direct_descriptors c) in Hd.
      pose proof (direct_nonneg c d (S2 p) Hd) as Hu. unfold is_u16 in Hu.
      rewrite Hown, decide_True by (done || lia). unfold h. lia.
    + rewrite e_chain_claim, decide_False in Hd by (by eapply Hother).
      pose proof (direct_nonneg _ d (S2 p') Hd) as Hu. unfold is_u16 in Hu. rewrite Hown by lia.
      rewrite decide_False; [by apply (S6 h' p') |]. intros Hd'.
      rewrite Forall_forall in A2. specialize (A2 d Hd'). rewrite (S6 h' p') in A2 by done. lia.
  - intros d Hd. rewrite Hown by done. case_decide as Hin'.
    + intros _. exists h, p. split; [apply Hin; by left |]. by rewrite e_chain_claim, decide_True.
    + intros Ho. destruct (S7 d Hd Ho) as (h' & p' & Hp' & Hdd). exists h', p'. split.
      * apply Hin. right. split; [| done]. intros ->. unfold in_slot in Hp'. congruence.
      * by rewrite e_chain_claim, decide_False by (by eapply Hother).
  - intros h1 p1 h2 p2 Hp1 Hp2 Hne. apply Hin in Hp1 as [[-> [= <-]] | [Hn1 Hp1]], Hp2 as [[-> [= <-]] | [Hn2 Hp2]].
    + done.
    + rewrite !e_chain_claim, decide_True, decide_False by (done || by eapply Hother).
      apply A3. by eapply list_elem_of_lookup_2.
    + rewrite !e_chain_claim, decide_False, decide_True by (done || by eapply Hother).
      intros Hm%chains_meet_sym. apply (A3 p1); [by eapply list_elem_of_lookup_2 | done].
    + rewrite !e_chain_claim, !decide_False by (by eapply Hother). by apply (S8 h1 p1 h2 p2).
  - destruct S9 as [S9 S9']. cbn [claim e_vq vq_owned vq_slots].
    assert (Hw : u32 (vq_owned (e_vq e) + 1) = vq_owned (e_vq e) + 1).
    { apply u32_small. unfold is_u32. pose proof (slot_count_bounds (fun _ => true) (vq_slots (e_vq e))).
      pose proof (cb_outstanding _ S1). lia. }
    rewrite Hw. change (e_queue (claim e p st)) with (e_queue e). split; [| lia].
    rewrite (slot_count_insert (fun _ => true) (fun _ => true) _ _ None) by done. cbn [slot_weight]. lia.
  - intros p' Hl. cbn in Hl. destruct (S10 p' Hl) as [h' Hp']. exists h'. apply Hin. right. split; [| done].
    intros ->. unfold in_slot in Hp'. congruence.
  - done.
Qed.

(** Two slots never share a descriptor. *)
Lemma direct_disjoint e h p h' p' d :
  struct_inv e -> in_slot e h p -> in_slot e h' p' -> d ∈ direct_descriptors (e_chain e p) ->
  d ∈ direct_descriptors (e_chain e p') -> h = h'.
Proof.
  intros Hs Hp Hp' Hd Hd'. pose proof (si_owner _ Hs _ _ _ Hp Hd). pose proof (si_owner _ Hs _ _ _ Hp' Hd'). lia.
Qed.

Lemma drop_struct e h p : struct_inv e -> in_slot e h p -> struct_inv (drop_chain e p).
Proof.
  intros Hs Hp. pose proof Hs as [S1 S2 S3 S4 S5 S6 S7 S8 S9 S10 S11].
  pose proof (drop_env e p) as Henv. pose proof (queue_size_bounds _ S1) as Hqs.
  destruct (S5 h p Hp) as (Hh & Hok & _).
  assert (Hlt : (h < length (vq_slots (e_vq e)))%nat) by (by eapply lookup_lt_Some).
  assert (Hin : forall h' p', in_slot (drop_chain e p) h' p' <-> (h' = h /\ None = Some p') \/ (h' <> h /\ in_slot e h' p')).
  { intros. apply in_slot_insert; [| done]. cbn. by rewrite Hh, Nat2Z.id. }
  assert (Hin' : forall h' p', in_slot (drop_chain e p) h' p' -> h' <> h /\ in_slot e h' p' /\ p' <> p).
  { intros h' p' [[_ ?] | [Hne Hp']]%Hin; [done |]. split_and!; [done | done |]. intros ->.
    by apply Hne, (in_slot_unique e _ _ p). }
  assert (Hown : forall d, 0 <= d -> owner_at (drop_chain e p) d =
                   if decide (d ∈ direct_descriptors (e_chain e p)) then 0 else owner_at e d).
  { intros d Hd. unfold owner_at. cbn. by rewrite lookup_set_owners by (done || by apply direct_in_range). }
  split.
  - by eapply channel_bound_env.
  - intros p'. rewrite e_chain_drop. case_decide; [by apply chain_typed_state | done].
  - cbn. rewrite length_insert. done.
  - cbn. rewrite length_set_owners. done.
  - intros h' p' (Hne & Hp' & Hpp)%Hin'. rewrite e_chain_drop, decide_False by done.
    destruct (S5 h' p' Hp') as (? & ? & ? & ?). split_and!; try done. by eapply chain_ok_env.
  - intros h' p' d (Hne & Hp' & Hpp)%Hin'. rewrite e_chain_drop, decide_False by done. intros Hd.
    pose proof (direct_nonneg _ d (S2 p') Hd) as Hu. unfold is_u16 in Hu. rewrite Hown by lia.
    rewrite decide_False; [by apply (S6 h' p') |]. intros Hd'. by apply Hne, (direct_disjoint e h' p' h p d).
  - intros d Hd. rewrite Hown by done. case_decide as Hd'; [done |]. intros Ho.
    destruct (S7 d Hd Ho) as (h' & p' & Hp' & Hdd).
    assert (Hpp : p' <> p) by (by intros ->).
    exists h', p'. rewrite e_chain_drop, decide_False by done. split; [| done]. apply Hin. right. split; [| done].
    intros ->. unfold in_slot in *. congruence.
  - intros h1 p1 h2 p2 (Hn1 & Hp1 & Hpp1)%Hin' (Hn2 & Hp2 & Hpp2)%Hin' Hne.
    rewrite !e_chain_drop, !decide_False by done. by apply (S8 h1 p1 h2 p2).
  - destruct S9 as [S9 S9']. cbn [drop_chain e_vq vq_owned vq_slots]. rewrite Hh, Nat2Z.id.
    pose proof (slot_count_insert (fun _ => true) (fun _ => true) _ _ _ None Hp ltac:(done)) as Hc. cbn [slot_weight] in Hc.
    pose proof (slot_count_bounds (fun _ => true) (<[h := None]> (vq_slots (e_vq e)))) as Hbn.
    pose proof (cb_outstanding _ S1).
    rewrite u32_small by (unfold is_u32; lia). change (e_queue (drop_chain e p)) with (e_queue e). lia.
  - intros p' Hl. cbn in Hl. case_decide as Hd; [done |]. destruct (S10 p' Hl) as [h' Hp']. exists h'. apply Hin. right.
    split; [| done]. intros ->. unfold in_slot in *. congruence.
  - done.
Qed.

(** Replacing an owned chain by one with the same descriptors and leases. *)
Lemma update_struct e h p c' :
  let c := e_chain e p in
  struct_inv e -> in_slot e h p -> chain_typed c' -> c_head c' = c_head c -> chain_ok e c' ->
  state_allowed (vq_side (e_vq e)) (c_state c') -> progress_ok c' ->
  direct_descriptors c' = direct_descriptors c -> leases c' = leases c ->
  struct_inv (set_chain e p c').
Proof.
  intros c Hs Hp Ht Hh Hok Hst Hpr Hdd Hle. pose proof Hs as [S1 S2 S3 S4 S5 S6 S7 S8 S9 S10 S11].
  assert (Henv : same_env e (set_chain e p c')) by by apply same_env_vq.
  assert (Hmeet : forall p', leases (e_chain (set_chain e p c') p') = leases (e_chain e p')).
  { intros p'. rewrite e_chain_set. case_decide; by subst. }
  assert (Hdir : forall p', direct_descriptors (e_chain (set_chain e p c') p') = direct_descriptors (e_chain e p')).
  { intros p'. rewrite e_chain_set. case_decide; by subst. }
  split; try done.
  - by eapply channel_bound_env.
  - intros p'. rewrite e_chain_set. by case_decide.
  - intros h' p' Hp'. rewrite e_chain_set. case_decide as Heq.
    + subst p'. rewrite Hh. split_and!; [by apply S5 | by eapply chain_ok_env | done | done ..].
    + destruct (S5 h' p' Hp') as (? & ? & ? & ?). split_and!; try done. by eapply chain_ok_env.
  - intros h' p' d Hp'. rewrite Hdir. by apply S6.
  - intros d Hd Ho. destruct (S7 d Hd Ho) as (h' & p' & Hp' & Hin). exists h', p'. by rewrite Hdir.
  - intros h1 p1 h2 p2 Hp1 Hp2 Hne. unfold chains_meet. rewrite !Hmeet. by apply (S8 h1 p1 h2 p2).
Qed.
End Invariant.
