(* ===== verification/VirtqueueMemory.v ===== *)
(** The mapped-memory backend of the ring engine (protocol/src/virtqueue_memory.c,
    protocol/arch/x86_64/virtqueue_atomic.c).

    Native memory is a map from addresses to bytes; the backend state is the tables
    of mappings and arenas and the native memory behind them.  The atomics are those
    of the x86_64 backend: a u16 in two little-endian bytes.  Memory orders have no
    effect on one endpoint's view of its own accesses, so a fence changes nothing
    here. *)

From Stdlib Require Import ZArith Lia.
From stdpp Require Import base numbers tactics gmap list_numbers list.
From S2P Require Import Prelude Bytes Protocol Virtqueue VirtqueueInv.

Open Scope Z_scope.

Record kb2_vq_mapping := mkMapping {
  mp_transport_base : Z;
  mp_length : Z;
  mp_address : Z;
  mp_local_rights : Z;
}.

Record kb2_vq_arena := mkArena {
  ar_queue_id : Z;
  ar_rights : Z;
  ar_transport_base : Z;
  ar_length : Z;
}.

Record kb2_vq_mapped_memory := mkMapped {
  mm_mappings : list kb2_vq_mapping;
  mm_arenas : list kb2_vq_arena;
  mm_native : gmap Z Z;
}.

(** The width of a pointer. *)
Definition UINTPTR_MAX : Z := U64_MAX.

Definition valid_rights (rights : Z) : bool :=
  negb (rights =? 0) &&
  (rights &~ Z.lor KB2_PROTOCOL_REGION_RIGHT_READ KB2_PROTOCOL_REGION_RIGHT_WRITE =? 0).

Definition mapped_overlaps (a size_a b size_b : Z) : bool := (a <? u64 (b + size_b)) && (b <? u64 (a + size_a)).

(** The native address behind a transport range. *)
Fixpoint resolve (mappings : list kb2_vq_mapping) (address size rights : Z) : option Z :=
  match mappings with
  | [] => None
  | mapping :: mappings =>
      if (address <? mp_transport_base mapping) ||
         negb (Z.land (mp_local_rights mapping) rights =? rights) then resolve mappings address size rights
      else
        let offset := address - mp_transport_base mapping in
        if (offset <=? mp_length mapping) && (size <=? mp_length mapping - offset)
        then Some (mp_address mapping + offset)
        else resolve mappings address size rights
  end.

(** The loop over the mappings, [seen] the earlier ones. *)
Fixpoint mappings_valid (seen mappings : list kb2_vq_mapping) : bool :=
  match mappings with
  | [] => true
  | mapping :: rest =>
      let native := mp_address mapping in
      if (native =? 0) || (mp_length mapping =? 0) ||
         (U64_MAX - mp_length mapping <? mp_transport_base mapping) ||
         (UINTPTR_MAX - mp_length mapping <? native) || negb (valid_rights (mp_local_rights mapping)) then false
      else if existsb (fun other =>
                mapped_overlaps (mp_transport_base mapping) (mp_length mapping)
                  (mp_transport_base other) (mp_length other) ||
                mapped_overlaps native (mp_length mapping) (mp_address other) (mp_length other)) seen then false
      else mappings_valid (seen ++ [mapping]) rest
  end.

Fixpoint arenas_valid (mappings : list kb2_vq_mapping) (seen arenas : list kb2_vq_arena) : bool :=
  match arenas with
  | [] => true
  | arena :: rest =>
      if (ar_queue_id arena =? 0) || (ar_length arena =? 0) ||
         (U64_MAX - ar_length arena <? ar_transport_base arena) || negb (valid_rights (ar_rights arena)) then false
      else if negb (existsb (fun mapping =>
                (mp_transport_base mapping <=? ar_transport_base arena) &&
                (u64 (ar_transport_base arena + ar_length arena) <=?
                 u64 (mp_transport_base mapping + mp_length mapping))) mappings) then false
      else if existsb (fun other =>
                mapped_overlaps (ar_transport_base arena) (ar_length arena)
                  (ar_transport_base other) (ar_length other)) seen then false
      else arenas_valid mappings (seen ++ [arena]) rest
  end.

(** [given]: every pointer argument and atomic operation is there. *)
Definition kb2_vq_mapped_memory_init (given : bool) (mappings : list kb2_vq_mapping)
    (arenas : list kb2_vq_arena) (native : gmap Z Z) : kb2_vq_status * option kb2_vq_mapped_memory :=
  if negb given || (length mappings =? 0)%nat || (length arenas =? 0)%nat then (KB2_VQ_INVALID, None)
  else if negb (mappings_valid [] mappings) then (KB2_VQ_INVALID, None)
  else if negb (arenas_valid mappings [] arenas) then (KB2_VQ_INVALID, None)
  else (KB2_VQ_OK, Some (mkMapped mappings arenas native)).

(** * Native memory *)

Definition load_byte (native : gmap Z Z) (a : Z) : Z := u8 (default 0 (native !! a)).

Definition load_bytes (native : gmap Z Z) (a n : Z) : list Z := (fun i => load_byte native (a + i)) <$> seqZ 0 n.

Fixpoint store_bytes (native : gmap Z Z) (a : Z) (bytes : list Z) : gmap Z Z :=
  match bytes with
  | [] => native
  | b :: bytes => store_bytes (<[a := u8 b]> native) (a + 1) bytes
  end.

Definition set_native (memory : kb2_vq_mapped_memory) (native : gmap Z Z) : kb2_vq_mapped_memory :=
  mkMapped (mm_mappings memory) (mm_arenas memory) native.

(** load_acquire and store_release of virtqueue_atomic.c. *)
Definition atomic_load (native : gmap Z Z) (a : Z) : Z :=
  Z.lor (load_byte native a) (Z.shiftl (load_byte native (a + 1)) 8).

Definition atomic_store (native : gmap Z Z) (a v : Z) : gmap Z Z :=
  store_bytes native a [v; Z.shiftr v 8].

(** * The callbacks *)

Definition read_bytes (memory : kb2_vq_mapped_memory) (address size : Z) : option (list Z) :=
  match resolve (mm_mappings memory) address size KB2_PROTOCOL_REGION_RIGHT_READ with
  | None => None
  | Some source => Some (load_bytes (mm_native memory) source size)
  end.

Definition write_bytes (memory : kb2_vq_mapped_memory) (address : Z) (bytes : list Z) :
    bool * kb2_vq_mapped_memory :=
  match resolve (mm_mappings memory) address (blen bytes) KB2_PROTOCOL_REGION_RIGHT_WRITE with
  | None => (false, memory)
  | Some destination => (true, set_native memory (store_bytes (mm_native memory) destination bytes))
  end.

Definition load_index (memory : kb2_vq_mapped_memory) (address : Z) : option Z :=
  match resolve (mm_mappings memory) address 2 KB2_PROTOCOL_REGION_RIGHT_READ with
  | None => None
  | Some source =>
      if negb (Z.land address 1 =? 0) || negb (Z.land source 1 =? 0) then None
      else Some (atomic_load (mm_native memory) source)
  end.

Definition store_index (memory : kb2_vq_mapped_memory) (address value : Z) : bool * kb2_vq_mapped_memory :=
  match resolve (mm_mappings memory) address 2 KB2_PROTOCOL_REGION_RIGHT_WRITE with
  | None => (false, memory)
  | Some destination =>
      if negb (Z.land address 1 =? 0) || negb (Z.land destination 1 =? 0) then (false, memory)
      else (true, set_native memory (atomic_store (mm_native memory) destination value))
  end.

Definition payload_allowed (memory : kb2_vq_mapped_memory) (queue_id address size rights : Z) : bool :=
  if (size =? 0) || (U64_MAX - size <? address) then false
  else existsb (fun arena =>
         (ar_queue_id arena =? queue_id) && (Z.land (ar_rights arena) rights =? rights) &&
         (ar_transport_base arena <=? address) &&
         (u64 (address + size) <=? u64 (ar_transport_base arena + ar_length arena))) (mm_arenas memory).

(** kb2_vq_mapped_memory_ops *)
#[export] Instance kb2_vq_mapped_memory_ops : VqMemory kb2_vq_mapped_memory := {
  mem_read memory address size := (read_bytes memory address size, memory);
  mem_write := write_bytes;
  mem_load_acquire memory address := (load_index memory address, memory);
  mem_store_release := store_index;
  mem_fence memory := memory;
  mem_payload_allowed := payload_allowed;
}.

(** The arenas are never written: the policy is immutable, as the engine requires. *)
#[export] Instance mapped_memory_laws : VqMemoryLaws kb2_vq_mapped_memory.
Proof.
  split; cbn.
  - by intros m a n r m' [= _ <-].
  - intros m a b r m'. unfold write_bytes. case_match; by intros [= _ <-].
  - by intros m a r m' [= _ <-].
  - intros m a v r m'. unfold store_index. repeat case_match; by intros [= _ <-].
  - done.
Qed.
