(* ===== verification/VirtqueueOps.v ===== *)
(** Every operation of the engine keeps the invariant of the queue. *)

From Stdlib Require Import ZArith Lia.
From stdpp Require Import base numbers tactics sets gmap list_numbers list.
From S2P Require Import Prelude Bytes Protocol ProtocolSpec Virtqueue VirtqueueSpec.
From S2P Require Import VirtqueueInv.

Open Scope Z_scope.

(** * The ring fields are the little-endian fields of the protocol *)

Lemma read_u16_add b off : read_u16 b off = get_byte b off + get_byte b (off + 1) * 2 ^ 8.
Proof. unfold read_u16. apply lor_shiftl_add; [lia | apply get_byte_u8]. Qed.

Lemma read_u16_range b off : is_u16 (read_u16 b off).
Proof.
  rewrite read_u16_add. pose proof (get_byte_u8 b off). pose proof (get_byte_u8 b (off + 1)).
  unfold is_u8, is_u16 in *. lia.
Qed.

Lemma read_u32_load b off : read_u32 b off = load_u32 b off.
Proof.
  unfold read_u32. pose proof (read_u16_range b off). pose proof (read_u16_range b (off + 2)).
  unfold is_u16 in *. rewrite lor_shiftl_add by lia. rewrite !read_u16_add, load_u32_add.
  replace (off + 2 + 1) with (off + 3) by lia. lia.
Qed.

Lemma read_u64_load b off : read_u64 b off = load_u64 b off.
Proof. unfold read_u64, load_u64. by rewrite !read_u32_load. Qed.

Lemma u8_u16 v : u8 (u16 v) = u8 v.
Proof. unfold u8, u16. change (2 ^ 16) with (2 ^ 8 * 2 ^ 8). by rewrite Z.rem_mul_r, Z.mul_comm, Z.mod_add, Z.mod_mod by lia. Qed.

Lemma u8_shiftr_u16 v : u8 (Z.shiftr (u16 v) 8) = u8 (Z.shiftr v 8).
Proof.
  unfold u8, u16. rewrite !Z.shiftr_div_pow2 by lia. change (2 ^ 16) with 65536. change (2 ^ 8) with 256.
  Z.div_mod_to_equations. lia.
Qed.

Lemma put_byte_ext b off v w : u8 v = u8 w -> put_byte b off v = put_byte b off w.
Proof. unfold put_byte. by intros ->. Qed.

Lemma write_u32_store b off v : write_u32 b off v = store_u32 b off v.
Proof.
  unfold write_u32, write_u16, store_u32. replace (off + 2 + 1) with (off + 3) by lia.
  rewrite (put_byte_ext b off (u16 v) v) by apply u8_u16.
  rewrite (put_byte_ext _ (off + 1) (Z.shiftr (u16 v) 8) (Z.shiftr v 8)) by apply u8_shiftr_u16.
  rewrite (put_byte_ext _ (off + 2) (u16 (Z.shiftr v 16)) (Z.shiftr v 16)) by apply u8_u16.
  rewrite (put_byte_ext _ (off + 3) (Z.shiftr (u16 (Z.shiftr v 16)) 8) (Z.shiftr v 24)); [done |].
  rewrite u8_shiftr_u16, Z.shiftr_shiftr by lia. done.
Qed.

Lemma write_u64_store b off v : write_u64 b off v = store_u64 b off v.
Proof. unfold write_u64, store_u64. by rewrite !write_u32_store. Qed.

Section Ops.
Context {M : Type} `{VqMemoryLaws M}.
Implicit Types e : engine M.

(** * Subroutines *)

(** Changes of the indices and of [last_taken]. *)
Lemma vq_struct e vq :
  struct_inv e -> vq_channel vq = vq_channel (e_vq e) -> vq_queue vq = vq_queue (e_vq e) ->
  vq_side vq = vq_side (e_vq e) -> vq_slots vq = vq_slots (e_vq e) ->
  vq_descriptor_owner vq = vq_descriptor_owner (e_vq e) -> vq_owned vq = vq_owned (e_vq e) ->
  (forall p, vq_last_taken vq = Some p -> exists h, in_slot e h p) ->
  is_u16 (vq_produced vq) -> is_u16 (vq_consumed vq) -> struct_inv (set_vq e vq).
Proof.
  intros [S1 S2 S3 S4 S5 S6 S7 S8 S9 S10 S11] Hc Hq Hsd Hs Ho Hw Hl Hp Hcs.
  assert (Henv : same_env e (set_vq e vq)) by by apply same_env_set_vq.
  assert (Hin : forall h p, in_slot (set_vq e vq) h p <-> in_slot e h p) by (intros; unfold in_slot; cbn; by rewrite Hs).
  assert (HU : e_queue (set_vq e vq) = e_queue e) by apply Henv.
  assert (Hch : forall p, e_chain (set_vq e vq) p = e_chain e p) by done.
  assert (Hoa : forall d, owner_at (set_vq e vq) d = owner_at e d) by (intros; unfold owner_at; cbn; by rewrite Ho).
  split; rewrite ?HU; cbn [e_vq set_vq]; rewrite ?Hs, ?Ho, ?Hsd, ?Hw; try done.
  - by eapply channel_bound_env.
  - intros h p Hp'%Hin. rewrite Hch. destruct (S5 h p Hp') as (? & ? & ? & ?). split_and!; try done. by eapply chain_ok_env.
  - intros h p d Hp'%Hin. rewrite Hoa, Hch. by apply S6.
  - intros d Hd. rewrite Hoa. intros Hne. destruct (S7 d Hd Hne) as (h & p & Hp' & Hdd). exists h, p. by rewrite Hin.
  - intros h p h' p' Hp1%Hin Hp2%Hin. rewrite !Hch. by apply S8.
  - intros p Hp'. destruct (Hl p Hp') as [h Hh]. exists h. by apply Hin.
Qed.

Lemma set_produced_struct e v : struct_inv e -> is_u16 v -> struct_inv (set_produced e v).
Proof. intros Hs Hv. apply vq_struct; try done; apply Hs. Qed.

Lemma set_consumed_struct e v : struct_inv e -> is_u16 v -> struct_inv (set_consumed e v).
Proof. intros Hs Hv. apply vq_struct; try done; apply Hs. Qed.

Lemma set_last_taken_struct e h p : struct_inv e -> in_slot e h p -> struct_inv (set_last_taken e (Some p)).
Proof. intros Hs Hv. apply vq_struct; try done; [| apply Hs ..]. intros ? [= <-]. by exists h. Qed.

(** A subroutine that touches only the backend: success changes nothing else, and
    failure raises the fault flag. *)
Definition quiet e (st : kb2_vq_status) e' : Prop :=
  (st = KB2_VQ_OK \/ failed st = true) /\ frame nothing e st e'.

Lemma quiet_fault e io : quiet e (fst (fault e io)) (snd (fault e io)).
Proof. split; [right; by destruct io | apply frame_fault]. Qed.

Lemma quiet_fault_mem e io m :
  same_policy (e_mem e) m -> quiet e (fst (fault (set_mem e m) io)) (snd (fault (set_mem e m) io)).
Proof. intros Hm. split; [right; by destruct io | by apply frame_fault_mem]. Qed.

Lemma quiet_step e m st e' :
  same_policy (e_mem e) m -> quiet (set_mem e m) st e' -> quiet e st e'.
Proof.
  intros Hm [Hst Hf]. split; [done |]. eapply (frame_trans _ _ KB2_VQ_OK); [done | by apply frame_mem | done].
Qed.

Lemma quiet_refl e : quiet e KB2_VQ_OK e.
Proof. split; [by left | by apply frame_refl]. Qed.

Lemma quiet_mem e m : same_policy (e_mem e) m -> quiet e KB2_VQ_OK (set_mem e m).
Proof. intros Hm. split; [by left | by apply frame_mem]. Qed.

Lemma quiet_inv e st e' : quiet e st e' -> vq_inv e -> vq_inv e'.
Proof. intros [_ Hf] Hi. eapply frame_inv; [exact Hf | apply nothing_outside | done]. Qed.

Lemma write_descriptors_quiet e c i rest :
  quiet e (write_descriptors e c i rest).1 (write_descriptors e c i rest).2.
Proof.
  revert e i. induction rest as [|s rest IH]; intros e i; cbn [write_descriptors]; [apply quiet_refl |].
  destruct (mem_write _ _ _) as [[] m] eqn:E; apply policy_write in E.
  - eapply quiet_step; [done | apply IH].
  - by apply quiet_fault_mem.
Qed.

Lemma write_indirect_quiet e c :
  quiet e (write_indirect_reference e c).1 (write_indirect_reference e c).2.
Proof.
  unfold write_indirect_reference. destruct (_ =? 0); [apply quiet_refl |].
  destruct (mem_write _ _ _) as [[] m] eqn:E; apply policy_write in E; [by apply quiet_mem | by apply quiet_fault_mem].
Qed.

Lemma copy_in_quiet e segments w off size out :
  quiet e (copy_in e segments w off size out).1.1 (copy_in e segments w off size out).2.
Proof.
  revert e off size out. induction segments as [|s segments IH]; intros e off size out; cbn [copy_in].
  { destruct (size =? 0); [apply quiet_refl | exact (quiet_fault e false)]. }
  destruct (size =? 0); [apply quiet_refl |]. destruct (negb _); [apply IH |].
  destruct (sg_length s <=? off); [apply IH |].
  destruct (mem_read _ _ _) as [[bytes |] m] eqn:E; apply policy_read in E.
  - eapply quiet_step; [done | apply IH].
  - exact (quiet_fault_mem e true m E).
Qed.

Lemma copy_out_quiet e segments w off bytes :
  quiet e (copy_out e segments w off bytes).1 (copy_out e segments w off bytes).2.
Proof.
  revert e off bytes. induction segments as [|s segments IH]; intros e off bytes; cbn [copy_out].
  { destruct (_ =? 0)%nat; [apply quiet_refl | apply quiet_fault]. }
  destruct (_ =? 0)%nat; [apply quiet_refl |]. destruct (negb _); [apply IH |].
  destruct (sg_length s <=? off); [apply IH |].
  destruct (mem_write _ _ _) as [[] m] eqn:E; apply policy_write in E.
  - eapply quiet_step; [done | apply IH].
  - by apply quiet_fault_mem.
Qed.

(** pending_index: what its statuses mean. *)
Lemma pending_index_spec e st d e' :
  pending_index e = (st, d, e') ->
  frame nothing e st e' /\
  ((st = KB2_VQ_OK /\ 0 < d <= q_max_outstanding (e_queue e)) \/ (st = KB2_VQ_EMPTY /\ d = 0) \/ failed st = true) /\
  (vq_side (e_vq e) = KB2_VQ_DRIVER -> failed st = false -> d <= u16 (vq_produced (e_vq e) - vq_consumed (e_vq e))).
Proof.
  unfold pending_index. destruct (mem_load_acquire _ _) as [[index |] m] eqn:E; apply policy_load in E.
  2: { intros [= <- <- <-]. split; [exact (frame_fault_mem nothing e true m E) | split; [by right; right | done]]. }
  set (dist := u16 (index - vq_consumed (e_vq e))). pose proof (u16_range (index - vq_consumed (e_vq e))) as Hu.
  fold dist in Hu. unfold is_u16 in Hu. change (e_queue (set_mem e m)) with (e_queue e).
  destruct (_ || _) eqn:Eb.
  { intros [= <- <- <-]. split; [exact (frame_fault_mem nothing e false m E) | split; [by right; right | done]]. }
  apply orb_false_iff in Eb as [E1%Z.ltb_ge E2]. intros [= <- <- <-].
  destruct (Z.eqb_spec dist 0) as [Hz | Hz].
  - split; [by apply frame_mem |]. split; [by right; left |]. intros ? _. rewrite Hz. apply u16_range.
  - split; [by apply frame_mem |]. split; [left; split; [done | lia] |]. intros Hside _.
    rewrite bool_decide_true in E2 by done. cbn in E2. by apply Z.ltb_ge in E2.
Qed.

(** * Reading a chain *)

Lemma chain_typed_push c s : chain_typed c -> segment_typed s -> chain_typed (push_segment c s).
Proof.
  intros [Ha H1 H2 H3 H4] Hs. split; try done. intros l Hl. cbn in Hl |- *.
  destruct (c_segments c) as [l0 |]; [| done]. injection Hl as <-. destruct (Ha l0 eq_refl) as [Hlen Hall].
  split; [by rewrite length_insert | by apply Forall_insert].
Qed.

Lemma chain_typed_indirect c a n d f :
  chain_typed c -> is_u64 a -> is_u32 n -> is_u16 d -> chain_typed (set_indirect c a n d f).
Proof. intros [Ha H1 _ _ _] ? ? ?. by split. Qed.

Lemma chain_typed_reset c : chain_typed c -> chain_typed (reset_chain c).
Proof. intros [Ha H1 _ _ _]. split; try done; unfold is_u64, is_u32, is_u16; cbn; lia. Qed.

Lemma chain_typed_head c h : chain_typed c -> is_u16 h -> chain_typed (set_head c h).
Proof. intros [Ha _ H2 H3 H4] ?. by split. Qed.

Lemma chain_typed_totals c r w : chain_typed c -> chain_typed (set_totals c r w).
Proof. intros []. by split. Qed.

Lemma e_chain_set_eq e p c : e_chain (set_chain e p c) p = c.
Proof. rewrite e_chain_set. by rewrite decide_True. Qed.

(** What the loop leaves alone: everything but the backend, the chain at [p] and, on
    failure, the fault flag; of the chain, head and state. *)
Lemma read_descriptors_frame fuel e p table limit index indirect st e' :
  chain_typed (e_chain e p) -> is_u16 index ->
  read_descriptors fuel e p table limit index indirect = Some (st, e') ->
  (st = KB2_VQ_OK \/ failed st = true) /\ frame (eq p) e st e' /\
  chain_typed (e_chain e' p) /\ c_head (e_chain e' p) = c_head (e_chain e p) /\
  c_state (e_chain e' p) = c_state (e_chain e p).
Proof.
  revert e table limit index indirect.
  induction fuel as [|fuel IH]; intros e table limit index indirect Ht Hi E; [done |]. cbn [read_descriptors] in E.
  destruct (_ || _ || _) in E.
  { injection E as <- <-. split_and!; [by right | exact (frame_fault _ e false) | done ..]. }
  destruct (mem_read _ _ _) as [[bytes |] m] eqn:Er; apply policy_read in Er.
  2: { injection E as <- <-. split_and!; [by right | exact (frame_fault_mem _ e true m Er) | done ..]. }
  assert (Hfault : Some (fault (set_mem e m) false) = Some (st, e') ->
    (st = KB2_VQ_OK \/ failed st = true) /\ frame (eq p) e st e' /\ chain_typed (e_chain e' p) /\
    c_head (e_chain e' p) = c_head (e_chain e p) /\ c_state (e_chain e' p) = c_state (e_chain e p)).
  { intros [= <- <-]. split_and!; [by right | exact (frame_fault_mem _ e false m Er) | done ..]. }
  assert (Hmem : frame (eq p) e KB2_VQ_OK (set_mem e m)) by (by apply frame_mem).
  destruct (negb _) in E; [by apply Hfault |]. destruct (existsb _ _) in E; [by apply Hfault |].
  destruct (negb _) in E.
  - destruct (_ || _) in E; [by apply Hfault |].
    set (c1 := set_indirect _ _ _ _ _) in E.
    assert (Hc1 : chain_typed c1).
    { apply chain_typed_indirect; [done | rewrite read_u64_load; apply load_u64_range |
        rewrite read_u32_load; apply load_u32_range | done]. }
    apply IH in E as (Hst & Hf & Hty & Hh & Hs); [| by rewrite e_chain_set_eq | done].
    rewrite e_chain_set_eq in Hh, Hs. split_and!; try done.
    eapply frame_trans; [| exact Hmem |]; [done |].
    eapply frame_trans; [| by apply (frame_chain _ _ p c1) | exact Hf]. done.
  - set (c1 := push_segment _ _) in E.
    assert (Hc1 : chain_typed c1).
    { apply chain_typed_push; [done |]. split_and!; cbn [sg_address sg_length sg_descriptor sg_writable]; [rewrite read_u64_load; apply load_u64_range |
        rewrite read_u32_load; apply load_u32_range | done |]. by destruct (Z.land _ _ =? 0). }
    assert (Hf1 : frame (eq p) e KB2_VQ_OK (set_chain (set_mem e m) p c1)).
    { eapply frame_trans; [| exact Hmem | by apply frame_chain]. done. }
    destruct (_ =? 0) in E.
    + injection E as <- <-. rewrite e_chain_set_eq. split_and!; [by left | done ..].
    + apply IH in E as (Hst & Hf & Hty & Hh & Hs); [| by rewrite e_chain_set_eq | apply read_u16_range].
      rewrite e_chain_set_eq in Hh, Hs. split_and!; try done. eapply frame_trans; [| exact Hf1 | exact Hf]. done.
Qed.

(** The loop ends: every iteration adds a segment or enters the indirect table. *)
Lemma read_descriptors_total fuel e p table limit index (indirect : bool) :
  (Z.to_nat (q_max_chain_length (e_queue e)) - c_count (e_chain e p) + (if indirect then 0 else 1) < fuel)%nat ->
  is_Some (read_descriptors fuel e p table limit index indirect).
Proof.
  revert e table limit index indirect. induction fuel as [|fuel IH]; intros e table limit index indirect Hf; [lia |].
  cbn [read_descriptors]. destruct (_ || _ || _) eqn:Eg; [by eexists |].
  apply orb_false_iff in Eg as [[_ Hc%Z.leb_gt]%orb_false_iff _].
  destruct (mem_read _ _ _) as [[bytes |] m]; [| by eexists].
  destruct (negb _); [by eexists |]. destruct (existsb _ _); [by eexists |]. destruct (negb _).
  - destruct indirect; cbn [orb]; [by eexists |]. destruct (_ || _); [by eexists |]. apply IH.
    rewrite e_chain_set_eq. cbn. unfold e_queue in *. cbn. lia.
  - destruct (_ =? 0); [by eexists |]. apply IH. rewrite e_chain_set_eq. cbn. unfold e_queue in *. cbn.
    destruct indirect; lia.
Qed.

(** read_chain: on success the chain is valid and can be claimed. *)
Lemma read_chain_spec e p st e' :
  struct_inv e -> outside_slots e (eq p) -> read_chain e p = (st, e') ->
  (st = KB2_VQ_OK \/ failed st = true) /\ frame (eq p) e st e' /\
  c_head (e_chain e' p) = c_head (e_chain e p) /\
  (st = KB2_VQ_OK -> chain_ok e' (e_chain e' p) /\ admissible e' (e_chain e' p) /\ progress_ok (e_chain e' p)).
Proof.
  intros Hs Hout E. unfold read_chain in E. set (c0 := reset_chain _) in E.
  assert (Hc0 : chain_typed c0) by (apply chain_typed_reset, Hs).
  assert (Hf0 : frame (eq p) e KB2_VQ_OK (set_chain e p c0)) by (by apply frame_chain).
  destruct (read_descriptors_total (read_fuel (set_chain e p c0)) (set_chain e p c0) p
    (q_descriptor_address (e_queue (set_chain e p c0))) (q_queue_size (e_queue (set_chain e p c0)))
    (c_head (e_chain (set_chain e p c0) p)) false) as [[st1 e1] Er].
  { rewrite e_chain_set_eq. unfold read_fuel. cbn. lia. }
  rewrite Er in E. apply read_descriptors_frame in Er as (Hst & Hf & Hty & Hh & _);
    [| by rewrite e_chain_set_eq | rewrite e_chain_set_eq; apply Hc0].
  rewrite e_chain_set_eq in Hh. assert (Hf1 : frame (eq p) e st1 e1) by (eapply frame_trans; [| exact Hf0 | exact Hf]; done).
  destruct Hst as [-> | Hst].
  2: { assert (E' : (st1, e1) = (st, e')) by (destruct st1; done). injection E' as <- <-.
       split_and!; [by right | done | done |]. by intros ->. }
  assert (Hs1 : struct_inv e1) by (by eapply frame_struct).
  destruct (validate_chain e1 (e_chain e1 p)) as [c |] eqn:Ev.
  - injection E as <- <-.
    apply validate_chain_spec in Ev as (-> & Hok & Had); [| apply Hs1 | apply Hs1 |].
    2: { intros q [h Hq]%list_elem_of_lookup. split; [apply Hs1 | by apply (si_chain _ Hs1 h q)]. }
    assert (Hft : frame (eq p) e1 KB2_VQ_OK (set_chain e1 p (with_totals (e_chain e1 p))))
      by (apply frame_chain; [done | by apply chain_typed_totals]).
    rewrite e_chain_set_eq. split_and!; [by left | eapply frame_trans; [| exact Hf1 | exact Hft]; done | done |]. intros _. split_and!.
    + eapply chain_ok_env; [by eapply frame_env | done].
    + destruct Had as [A1 A2 A3]. split; [done | done |]. intros q Hq. rewrite e_chain_set, decide_False; [by apply A3 |].
      intros ->. apply list_elem_of_lookup in Hq as [h Hq]. apply (Hout p h eq_refl).
      unfold in_slot in *. cbn in Hq. by rewrite (proj1 (frame_slots _ _ _ _ Hf1)) in Hq.
    + pose proof (totals_bounds _ (chain_segments_typed _ (si_typed _ Hs1 p))). unfold progress_ok, U32_MAX. cbn. lia.
  - injection E as <- <-. split_and!; [by right | | done | done].
    eapply frame_trans; [| exact Hf1 | exact (frame_fault _ e1 false)]. done.
Qed.

(** * The operations *)

Lemma check_ok e given gen : check e given gen = KB2_VQ_OK -> e_faulted e = false.
Proof.
  unfold check, e_faulted. destruct (vq_channel (e_vq e)) as [c |]; [| done].
  repeat (case_match; try done).
Qed.

Lemma failed_inv P e st e' :
  struct_inv e -> outside_slots e P -> frame P e st e' -> failed st = true -> vq_inv e'.
Proof.
  intros Hs Hout Hf Hst. split; [by eapply frame_struct |]. intros Hnf. unfold e_faulted in Hnf.
  rewrite (fr_vq _ _ _ _ Hf), Hst in Hnf. destruct (cb_channel _ (si_bound _ Hs)) as [c Hc]. cbn in Hnf.
  by rewrite Hc in Hnf.
Qed.

Lemma frame_ok e st e' :
  frame nothing e st e' -> failed st = false -> e_vq e' = e_vq e /\ forall p, e_chain e' p = e_chain e p.
Proof.
  intros [V C _ _] Hst. rewrite Hst in V. split; [done |]. intros p. apply C. intros [].  
Qed.

Lemma counters_ext e e' :
  e_vq e' = e_vq e -> (forall p, e_chain e' p = e_chain e p) -> counters_inv e -> counters_inv e'.
Proof.
  intros Hv Hc. unfold counters_inv. rewrite Hv. destruct (vq_side (e_vq e)); [| done]. intros ->.
  apply slot_count_ext. intros p _. unfold submitted. by rewrite Hc.
Qed.

(** Success of a subroutine keeps the counters, failure makes them irrelevant. *)
Lemma frame_counters e st e' :
  struct_inv e -> frame nothing e st e' -> counters_inv e -> vq_inv e'.
Proof.
  intros Hs Hf Hc. destruct (failed st) eqn:Hst.
  - eapply failed_inv; [exact Hs | apply nothing_outside | exact Hf | done].
  - split; [eapply frame_struct; [exact Hf | apply nothing_outside | done] |]. intros _.
    destruct (frame_ok _ _ _ Hf Hst) as [Hv Hch]. by eapply counters_ext.
Qed.

(** publish_index: the index is published or not, and the peer's threshold read or not. *)
Lemma publish_index_spec e ring event st n e' :
  publish_index e ring event = (st, n, e') ->
  let e1 := set_produced e (u16 (vq_produced (e_vq e) + 1)) in
  (st = KB2_VQ_OK /\ frame nothing e1 st e' /\ is_Some n) \/
  (failed st = true /\ n = None /\ (frame nothing e st e' \/ frame nothing e1 st e')).
Proof.
  unfold publish_index. destruct (mem_store_release _ _ _) as [[] m] eqn:E; apply policy_store in E.
  2: { intros [= <- <- <-]. right. split_and!; [done | done |]. left. exact (frame_fault_mem nothing e true m E). }
  set (e0 := set_produced e _). set (m' := mem_fence _).
  change (set_mem (set_produced (set_mem e m) _) _) with (set_mem e0 m').
  assert (Hm' : same_policy (e_mem e0) m') by (transitivity m; [exact E | apply policy_fence]).
  destruct (mem_load_acquire _ _) as [[t |] m2] eqn:E2; apply policy_load in E2; intros [= <- <- <-].
  - left. split_and!; [done | | done]. apply (frame_mem nothing e0 KB2_VQ_OK m2); [done | by transitivity m'].
  - right. split_and!; [done | done |]. right.
    apply (frame_fault_mem nothing e0 true m2). by transitivity m'.
Qed.

Lemma u16_add_small x y n : u16 (x - y) = n -> 0 <= n -> n + 1 < 2 ^ 16 -> u16 (u16 (x + 1) - y) = n + 1.
Proof.
  intros Hn Hlo Hhi. unfold u16 in *. rewrite Zminus_mod_idemp_l.
  replace (x + 1 - y) with (x - y + 1) by lia. rewrite <- Z.add_mod_idemp_l, Hn by lia. apply Z.mod_small. lia.
Qed.

Lemma u16_sub_small x y n : u16 (x - y) = n -> 1 <= n < 2 ^ 16 -> u16 (x - u16 (y + 1)) = n - 1.
Proof.
  intros Hn Hlo. unfold u16 in *. rewrite Zminus_mod_idemp_r.
  replace (x - (y + 1)) with (x - y - 1) by lia. rewrite <- Zminus_mod_idemp_l, Hn by lia. apply Z.mod_small. lia.
Qed.

Lemma u16_pred_small x y n : u16 (x - y) = n -> 1 <= n < 2 ^ 16 -> u16 (u16 (x - 1) - y) = n - 1.
Proof.
  intros Hn Hlo. unfold u16 in *. rewrite Zminus_mod_idemp_l.
  replace (x - 1 - y) with (x - y - 1) by lia. rewrite <- Zminus_mod_idemp_l, Hn by lia. apply Z.mod_small. lia.
Qed.

Lemma owned_bounds e : struct_inv e -> 0 <= vq_owned (e_vq e) <= 32768.
Proof.
  intros Hs. destruct (si_count _ Hs) as [-> _]. pose proof (queue_size_bounds _ (si_bound _ Hs)).
  pose proof (slot_count_bounds (fun _ => true) (vq_slots (e_vq e))). rewrite (si_slots _ Hs) in *. lia.
Qed.

Lemma submitted_bounds e : struct_inv e -> 0 <= slot_count (submitted e) (vq_slots (e_vq e)) <= 32768.
Proof.
  intros Hs. pose proof (queue_size_bounds _ (si_bound _ Hs)).
  pose proof (slot_count_bounds (submitted e) (vq_slots (e_vq e))). rewrite (si_slots _ Hs) in *. lia.
Qed.

(** What claiming adds to the counts. *)
Lemma claim_submitted e p st :
  let c := e_chain e p in
  struct_inv e -> outside_slots e (eq p) -> admissible e c -> chain_ok e c ->
  slot_count (submitted (claim e p st)) (vq_slots (e_vq (claim e p st))) =
  slot_count (submitted e) (vq_slots (e_vq e)) + (if decide (st = SUBMITTED) then 1 else 0).
Proof.
  intros c Hs Hout [A1 _ _] Hok. pose proof (ct_head _ (si_typed _ Hs p)) as Hu. unfold is_u16 in Hu. fold c in Hu.
  assert (Hh : c_head c < q_queue_size (e_queue e)) by apply Hok.
  assert (Hslot : vq_slots (e_vq e) !! Z.to_nat (c_head c) = Some None).
  { apply slot_at_None; [rewrite (si_slots _ Hs); lia |]. by rewrite Z2Nat.id by lia. }
  cbn [claim e_vq vq_slots].
  rewrite (slot_count_insert (submitted e) _ _ _ None) by (first [exact Hslot |
    intros i q _ Hq; unfold submitted; rewrite e_chain_claim, decide_False; [done |];
    intros ->; by apply (Hout p i eq_refl)]).
  cbn [slot_weight]. unfold submitted. rewrite e_chain_claim, decide_True by done. cbn.
  case_decide; [rewrite bool_decide_true by done | rewrite bool_decide_false by done]; lia.
Qed.

(** A validated chain, written back with its totals, can be claimed. *)
Lemma validated_claim e p c st :
  struct_inv e -> outside_slots e (eq p) -> validate_chain e (e_chain e p) = Some c ->
  state_allowed (vq_side (e_vq e)) st -> vq_owned (e_vq e) < q_max_outstanding (e_queue e) ->
  let e1 := set_chain e p c in
  struct_inv (claim e1 p st) /\ in_slot (claim e1 p st) (Z.to_nat (c_head (e_chain e p))) p /\
  slot_count (submitted (claim e1 p st)) (vq_slots (e_vq (claim e1 p st))) =
    slot_count (submitted e) (vq_slots (e_vq e)) + (if decide (st = SUBMITTED) then 1 else 0).
Proof.
  intros Hs Hout Ev Hst Hmax e1.
  apply validate_chain_spec in Ev as (-> & Hok & [A1 A2 A3]); [| apply Hs | apply Hs |].
  2: { intros q [h Hq]%list_elem_of_lookup. split; [apply Hs | by apply (si_chain _ Hs h q)]. }
  assert (Hf : frame (eq p) e KB2_VQ_OK e1) by (apply frame_chain; [done | apply chain_typed_totals, Hs]).
  assert (Hs1 : struct_inv e1) by (by eapply frame_struct).
  assert (Hout1 : outside_slots e1 (eq p)) by done.
  assert (Hc : e_chain e1 p = with_totals (e_chain e p)) by apply e_chain_set_eq.
  assert (Hok1 : chain_ok e1 (e_chain e1 p)).
  { rewrite Hc. eapply chain_ok_env; [by eapply frame_env | done]. }
  assert (Had1 : admissible e1 (e_chain e1 p)).
  { rewrite Hc. split; [done | done |]. intros q Hq. unfold e1. rewrite e_chain_set, decide_False; [by apply A3 |].
    intros ->. apply list_elem_of_lookup in Hq as [h Hq]. by apply (Hout p h eq_refl). }
  assert (Hpr : progress_ok (e_chain e1 p)).
  { rewrite Hc. pose proof (totals_bounds _ (chain_segments_typed _ (si_typed _ Hs p))).
    unfold progress_ok, U32_MAX. cbn. lia. }
  destruct (claim_struct e1 p st Hs1 Hout1 Hok1 Had1 Hpr Hst Hmax) as [HS Hin].
  split_and!; [done | by rewrite Hc in Hin |].
  rewrite claim_submitted by done. f_equal. apply slot_count_ext. intros q [h Hq]%list_elem_of_lookup.
  unfold submitted, e1. rewrite e_chain_set, decide_False; [done |]. intros ->. by apply (Hout p h eq_refl).
Qed.

(** Frames reach through an assignment of [produced]. *)
Lemma frame_produced e e' st st' e'' v :
  failed st = false -> frame nothing e st e' -> frame nothing (set_produced e' v) st' e'' ->
  frame nothing (set_produced e v) st' e''.
Proof.
  intros Hst Hf [V C T Q]. destruct (frame_ok _ _ _ Hf Hst) as [Hv Hch]. split.
  - rewrite V. unfold set_produced. by rewrite Hv.
  - intros p Hp. rewrite C by done. apply Hch.
  - intros Ht p. apply T. intros q. change (chain_typed (e_chain e' q)). rewrite Hch. apply Ht.
  - transitivity (e_mem e'); [apply Hf | exact Q].
Qed.

(** Once a chain is claimed: its descriptors and ring entry are written and the
    index is published, or the channel faults, before or after the publication. *)
Lemma publish_claimed_spec e c st n e' :
  publish_claimed e c = (st, n, e') ->
  let e1 := set_produced e (u16 (vq_produced (e_vq e) + 1)) in
  (st = KB2_VQ_OK /\ frame nothing e1 st e' /\ is_Some n) \/
  (failed st = true /\ n = None /\ (frame nothing e st e' \/ frame nothing e1 st e')).
Proof.
  unfold publish_claimed.
  pose proof (write_descriptors_quiet e c 0 (chain_segments c)) as [Hst1 Hf1].
  destruct (write_descriptors e c 0 (chain_segments c)) as [st1 e1]. cbn [fst snd] in *.
  destruct Hst1 as [-> | Hst1].
  2: { intros E. assert (E' : (st1, None, e1) = (st, n, e')) by (by destruct st1).
       injection E' as <- <- <-. right. split_and!; [done | done | by left]. }
  pose proof (write_indirect_quiet e1 c) as [Hst2 Hf2].
  destruct (write_indirect_reference e1 c) as [st2 e2]. cbn [fst snd] in *.
  assert (Hf12 : frame nothing e st2 e2) by (eapply frame_trans; [| exact Hf1 | exact Hf2]; done).
  destruct Hst2 as [-> | Hst2].
  2: { intros E. assert (E' : (st2, None, e2) = (st, n, e')) by (by destruct st2).
       injection E' as <- <- <-. right. split_and!; [done | done | by left]. }
  destruct (mem_write _ _ _) as [[] m] eqn:E; apply policy_write in E.
  2: { intros [= <- <- <-]. right. split_and!; [done | done | left].
       eapply frame_trans; [| exact Hf12 | exact (frame_fault_mem nothing e2 true m E)]. done. }
  assert (Hf3 : frame nothing e KB2_VQ_OK (set_mem e2 m)).
  { eapply frame_trans; [| exact Hf12 | by apply frame_mem]. done. }
  destruct (frame_ok _ _ _ Hf3 eq_refl) as [Hv _]. intros Ep. apply publish_index_spec in Ep.
  cbv zeta in Ep. rewrite Hv in Ep. destruct Ep as [(-> & Hf & Hn) | (Hst & -> & [Hf | Hf])].
  - left. split_and!; [done | | done]. by eapply frame_produced; [| exact Hf3 |].
  - right. split_and!; [done | done | left]. eapply frame_trans; [| exact Hf3 | exact Hf]. done.
  - right. split_and!; [done | done | right]. by eapply frame_produced; [| exact Hf3 |].
Qed.

Lemma publish_claimed_inv e c :
  struct_inv e -> vq_side (e_vq e) = KB2_VQ_DRIVER ->
  u16 (u16 (vq_produced (e_vq e) + 1) - vq_consumed (e_vq e)) = slot_count (submitted e) (vq_slots (e_vq e)) ->
  vq_inv (publish_claimed e c).2.
Proof.
  intros Hs Hside Hcnt. destruct (publish_claimed e c) as [[st n] e'] eqn:E. apply publish_claimed_spec in E.
  assert (Hs1 : struct_inv (set_produced e (u16 (vq_produced (e_vq e) + 1))))
    by (apply set_produced_struct; [done | apply u16_range]).
  cbn [snd]. destruct E as [(-> & Hf & _) | (Hst & _ & [Hf | Hf])].
  - eapply frame_counters; [exact Hs1 | exact Hf |]. unfold counters_inv.
    cbn [set_produced set_vq e_vq vq_side vq_produced vq_consumed vq_slots]. by rewrite Hside, Hcnt.
  - eapply failed_inv; [exact Hs | apply nothing_outside | exact Hf | done].
  - eapply failed_inv; [exact Hs1 | apply nothing_outside | exact Hf | done].
Qed.

Lemma publish_inv e given gen chain notify : vq_inv e -> vq_inv (kb2_vq_publish e given gen chain notify).2.
Proof.
  intros Hi. pose proof (inv_struct _ Hi) as Hs. unfold kb2_vq_publish. destruct (check e given gen) eqn:Ec; try done.
  apply check_ok in Ec. destruct chain as [p |]; [| done].
  destruct (_ || _) eqn:Eg; [done |]. rewrite !orb_false_iff, !negb_false_iff, !bool_decide_eq_true in Eg.
  destruct Eg as [[Hside Hfree] _]. destruct (Z.eqb_spec (vq_owned (e_vq e)) (q_max_outstanding (e_queue e))) as [| Hne]; [done |].
  destruct (validate_chain e (e_chain e p)) as [c |] eqn:Ev; [| done].
  destruct (si_count _ Hs) as [_ Hmax].
  destruct (validated_claim e p c SUBMITTED Hs (free_outside e p Hs Hfree) Ev) as (Hcl & Hin & Hcnt);
    [rewrite Hside; by left | lia |].
  apply publish_claimed_inv; [done | done |]. rewrite Hcnt, decide_True by done. cbn.
  pose proof (inv_counters _ Hi Ec) as Hc. unfold counters_inv in Hc. rewrite Hside in Hc.
  pose proof (submitted_bounds e Hs). apply u16_add_small; [done | lia | lia].
Qed.

Lemma pending_inv e : vq_inv e -> vq_inv (pending_index e).2.
Proof.
  intros Hi. destruct (pending_index e) as [[st d] e'] eqn:E. apply pending_index_spec in E as (Hf & _ & _).
  eapply frame_inv; [exact Hf | apply nothing_outside | done].
Qed.

Lemma peek_inv e given gen out : vq_inv e -> vq_inv (kb2_vq_peek_available e given gen out).2.
Proof.
  intros Hi. unfold kb2_vq_peek_available. destruct (check e given gen); try done. destruct (_ || _); [done |].
  pose proof (pending_inv e Hi). destruct (pending_index e) as [[[] d] e']; done.
Qed.

Lemma arm_inv e given gen out : vq_inv e -> vq_inv (kb2_vq_arm e given gen out).2.
Proof.
  intros Hi. unfold kb2_vq_arm. destruct (check e given gen); try done. destruct (negb out); [done |].
  destruct (mem_store_release _ _ _) as [[] m] eqn:E; apply policy_store in E.
  - assert (Hi1 : vq_inv (set_mem e (mem_fence m))).
    { eapply quiet_inv; [apply quiet_mem | done]. transitivity m; [done | apply policy_fence]. }
    pose proof (pending_inv _ Hi1). destruct (pending_index _) as [[[] d] e']; done.
  - eapply (quiet_inv e); [exact (quiet_fault_mem e true m E) | done].
Qed.

Lemma copy_request_inv e given gen chain off out size :
  vq_inv e -> vq_inv (kb2_vq_copy_request e given gen chain off out size).2.
Proof.
  intros Hi. unfold kb2_vq_copy_request. destruct (check e given gen); try done. destruct chain; [| done].
  destruct (_ || _); [done |]. eapply quiet_inv; [apply copy_in_quiet | done].
Qed.

Lemma copy_response_inv e given gen chain off out size :
  vq_inv e -> vq_inv (kb2_vq_copy_response e given gen chain off out size).2.
Proof.
  intros Hi. unfold kb2_vq_copy_response. destruct (check e given gen); try done. destruct chain; [| done].
  destruct (_ || _); [done |]. eapply quiet_inv; [apply copy_in_quiet | done].
Qed.

Lemma owned_slot e p st :
  struct_inv e -> owned e (Some p) st = true ->
  in_slot e (Z.to_nat (c_head (e_chain e p))) p /\ c_state (e_chain e p) = st.
Proof.
  intros Hs. unfold owned. rewrite !andb_true_iff, !bool_decide_eq_true. intros [[_ Hst] Hsl].
  split; [| done]. apply slot_at_Some; [| done]. apply (ct_head _ (si_typed _ Hs p)).
Qed.

Lemma write_response_inv e given gen chain bytes size :
  0 <= size -> vq_inv e -> vq_inv (kb2_vq_write_response e given gen chain bytes size).2.
Proof.
  intros Hsz Hi. pose proof (inv_struct _ Hi) as Hs. unfold kb2_vq_write_response.
  destruct (check e given gen); try done. destruct chain as [p |]; [| done].
  destruct (_ || _) eqn:Eg; [done |]. rewrite !orb_false_iff, !negb_false_iff, !Z.ltb_ge, !bool_decide_eq_true in Eg.
  destruct Eg as [[[[Hside Hown] _] Hw1] Hw2]. destruct (owned_slot _ _ _ Hs Hown) as [Hin Hst].
  destruct (si_chain _ Hs _ _ Hin) as (_ & Hok & Hal & Hpr).
  pose proof (copy_out_quiet e (chain_segments (e_chain e p)) 1 (c_written (e_chain e p))
                (take (Z.to_nat size) (default [] bytes))) as Hq.
  destruct (copy_out _ _ _ _ _) as [st e1]. cbn [fst snd] in Hq. pose proof (quiet_inv _ _ _ Hq Hi) as Hi1.
  destruct Hq as [Hst1 Hf]. destruct (decide (st = KB2_VQ_OK)) as [-> | Hne]; [| by destruct st].
  destruct (frame_ok _ _ _ Hf eq_refl) as [Hv Hch].
  destruct Hpr as (P1 & P2 & P3). unfold U32_MAX in *.
  assert (Hwr : c_writable (e_chain e p) < 2 ^ 64).
  { destruct (ck_totals _ _ Hok) as [_ ->]. pose proof (totals_bounds _ (chain_segments_typed _ (si_typed _ Hs p))) as [_ Hb].
    rewrite length_chain_segments in Hb by (first [apply Hs | apply Hok]).
    pose proof (ck_length _ _ Hok). pose proof (cb_chain _ (si_bound _ Hs)). pose proof (queue_size_bounds _ (si_bound _ Hs)). lia. }
  rewrite u64_small in Hw1, Hw2 by (unfold is_u64; lia).
  assert (Hpr1 : progress_ok (set_written (e_chain e1 p) (u64 (c_written (e_chain e1 p) + size)))).
  { rewrite Hch. unfold progress_ok, U32_MAX. cbn. rewrite u64_small by (unfold is_u64; lia). lia. }
  assert (Hin1 : in_slot e1 (Z.to_nat (c_head (e_chain e p))) p) by (unfold in_slot; by rewrite Hv).
  pose proof (inv_struct _ Hi1) as Hs1. destruct (si_chain _ Hs1 _ _ Hin1) as (_ & [] & Hal1 & _).
  cbn [snd]. split.
  - eapply update_struct; [done | exact Hin1 | | done | by split | done | done | done | done].
    destruct (si_typed _ Hs1 p). by split.
  - intros Hnf. pose proof (inv_counters _ Hi1 Hnf) as Hc. unfold counters_inv in *. cbn. rewrite Hv in *.
    by rewrite Hside in *.
Qed.

(** take_available, from the point where an entry is known to be pending. *)
Lemma take_entry_inv e p :
  vq_inv e -> vq_side (e_vq e) = KB2_VQ_DEVICE -> e_faulted e = false -> c_state (e_chain e p) = FREE ->
  vq_owned (e_vq e) < q_max_outstanding (e_queue e) -> vq_inv (take_entry e p).2.
Proof.
  intros Hi Hside Hnf Hfree Hmax. pose proof (inv_struct _ Hi) as Hs. unfold take_entry.
  pose proof (free_outside e p Hs Hfree) as Hout.
  destruct (mem_read _ _ _) as [[bytes |] m] eqn:Er; apply policy_read in Er.
  2: { eapply quiet_inv; [exact (quiet_fault_mem e true m Er) | done]. }
  set (e1 := set_chain _ _ _).
  assert (Hf1 : frame (eq p) e KB2_VQ_OK e1).
  { eapply frame_trans; [| by apply (frame_mem _ e KB2_VQ_OK m) | apply frame_chain]; [done | done |].
    apply chain_typed_head; [apply Hs | apply read_u16_range]. }
  assert (Hs1 : struct_inv e1) by (by eapply frame_struct).
  destruct (_ || _) in |- *.
  { eapply (failed_inv (eq p) e KB2_VQ_FAULTED); [done | done | | done].
    eapply frame_trans; [| exact Hf1 | exact (frame_fault _ e1 false)]. done. }
  destruct (read_chain e1 p) as [st e2] eqn:Ec. apply read_chain_spec in Ec as (Hst & Hf2 & _ & Hok); [| done | done].
  assert (Hf : frame (eq p) e st e2) by (eapply frame_trans; [| exact Hf1 | exact Hf2]; done).
  destruct Hst as [-> | Hst].
  2: { replace (_.2) with e2 by (by destruct st). by eapply failed_inv. }
  destruct (Hok eq_refl) as (Hok2 & Had2 & Hpr2). clear Hok.
  assert (Hs2 : struct_inv e2) by (by eapply frame_struct).
  pose proof (fr_vq _ _ _ _ Hf) as Hv. cbn in Hv.
  assert (Hout2 : outside_slots e2 (eq p)) by (intros q h Hq; unfold in_slot; rewrite Hv; by apply Hout).
  destruct (claim_struct e2 p ACCEPTED) as [Hs3 Hin3]; try done.
  { by rewrite Hv, Hside. } { unfold e_queue in *. by rewrite Hv. }
  cbn [snd]. split.
  - eapply set_last_taken_struct; [| exact Hin3]. apply set_consumed_struct; [done | apply u16_range].
  - intros _. unfold counters_inv. cbn. rewrite Hv, Hside.
    pose proof (inv_counters _ Hi Hnf) as Hc. unfold counters_inv in Hc. rewrite Hside in Hc.
    pose proof (owned_bounds e Hs). rewrite u32_small by (unfold is_u32; lia). apply u16_add_small; [done | lia | lia].
Qed.

Lemma take_available_inv e given gen chain : vq_inv e -> vq_inv (kb2_vq_take_available e given gen chain).2.
Proof.
  intros Hi. pose proof (inv_struct _ Hi) as Hs. unfold kb2_vq_take_available.
  destruct (check e given gen) eqn:Ec; try done. apply check_ok in Ec. destruct chain as [p |]; [| done].
  destruct (_ || _) eqn:Eg; [done |]. rewrite !orb_false_iff, !negb_false_iff, !bool_decide_eq_true in Eg.
  destruct Eg as [[[Hside Hfree] _] _].
  pose proof (pending_inv e Hi) as Hi1. destruct (pending_index e) as [[st d] e1] eqn:Ep. cbn [snd] in Hi1.
  apply pending_index_spec in Ep as (Hf & Hd & _). destruct (decide (st = KB2_VQ_OK)) as [-> | Hne]; [| by destruct st].
  destruct Hd as [[_ Hd] | [[? _] | ?]]; [| done | done]. destruct (frame_ok _ _ _ Hf eq_refl) as [Hv Hch].
  assert (HU : e_queue e1 = e_queue e) by (unfold e_queue; by rewrite Hv).
  destruct (Z.ltb_spec (q_max_outstanding (e_queue e1)) (u32 (vq_owned (e_vq e1) + d))) as [| Hle].
  { eapply quiet_inv; [exact (quiet_fault e1 false) | done]. }
  apply take_entry_inv; [done | by rewrite Hv | unfold e_faulted in *; by rewrite Hv | by rewrite Hch |].
  pose proof (inv_struct _ Hi1) as Hs1. pose proof (owned_bounds _ Hs1) as Hob.
  pose proof (cb_outstanding _ (si_bound _ Hs)) as Hcb. pose proof (queue_size_bounds _ (si_bound _ Hs)).
  rewrite u32_small in Hle by (unfold is_u32; lia). lia.
Qed.

Lemma drop_counters_device e h p :
  struct_inv e -> in_slot e h p -> vq_owned (e_vq (drop_chain e p)) = vq_owned (e_vq e) - 1 /\ 1 <= vq_owned (e_vq e).
Proof.
  intros Hs Hp. pose proof (owned_bounds e Hs) as Hb. destruct (si_count _ Hs) as [Hc _].
  pose proof (slot_count_insert (fun _ => true) (fun _ => true) _ _ _ None Hp ltac:(done)) as Hi.
  pose proof (slot_count_bounds (fun _ => true) (<[h := None]> (vq_slots (e_vq e)))). cbn [slot_weight] in Hi.
  cbn. rewrite u32_small by (unfold is_u32; lia). lia.
Qed.

Lemma return_available_inv e given gen chain : vq_inv e -> vq_inv (kb2_vq_return_available e given gen chain).2.
Proof.
  intros Hi. pose proof (inv_struct _ Hi) as Hs. unfold kb2_vq_return_available.
  destruct (check e given gen) eqn:Ec; try done. apply check_ok in Ec. destruct chain as [p |]; [| done].
  destruct (_ || _) eqn:Eg; [done |]. rewrite !orb_false_iff, !negb_false_iff, !bool_decide_eq_true in Eg.
  destruct Eg as [[[Hside Hown] _] _]. destruct (owned_slot _ _ _ Hs Hown) as [Hin _].
  destruct (drop_counters_device _ _ _ Hs Hin) as [Hd H1]. pose proof (owned_bounds e Hs).
  cbn [snd]. split.
  - apply set_consumed_struct; [by eapply drop_struct | apply u16_range].
  - intros _. pose proof (inv_counters _ Hi Ec) as Hc. unfold counters_inv in *. rewrite Hside in Hc.
    cbn [set_consumed set_vq e_vq vq_side vq_produced vq_consumed vq_owned]. rewrite Hd.
    cbn [drop_chain e_vq vq_side vq_produced vq_consumed]. rewrite Hside. apply u16_pred_small; [done | lia].
Qed.

Lemma complete_inv e given gen chain notify : vq_inv e -> vq_inv (kb2_vq_complete e given gen chain notify).2.
Proof.
  intros Hi. pose proof (inv_struct _ Hi) as Hs. unfold kb2_vq_complete.
  destruct (check e given gen) eqn:Ec; try done. apply check_ok in Ec. destruct chain as [p |]; [| done].
  destruct (_ || _) eqn:Eg; [done |]. rewrite !orb_false_iff, !negb_false_iff, !bool_decide_eq_true in Eg.
  destruct Eg as [[Hside Hown] _]. destruct (owned_slot _ _ _ Hs Hown) as [Hin _].
  destruct (mem_write _ _ _) as [[] m] eqn:E; apply policy_write in E.
  2: { eapply (quiet_inv e); [exact (quiet_fault_mem e true m E) | done]. }
  set (e1 := set_mem e m). assert (Hf1 : frame nothing e KB2_VQ_OK e1) by (by apply frame_mem).
  assert (Hs1 : struct_inv e1) by (eapply frame_struct; [exact Hf1 | apply nothing_outside | done]).
  assert (Hs2 : struct_inv (set_produced e1 (u16 (vq_produced (e_vq e1) + 1))))
    by (apply set_produced_struct; [done | apply u16_range]).
  destruct (publish_index e1 _ _) as [[st n] e'] eqn:Ep. apply publish_index_spec in Ep.
  destruct Ep as [(-> & Hf & _) | (Hst & -> & Hf)].
  - destruct (frame_ok _ _ _ Hf eq_refl) as [Hv Hch].
    assert (Hs' : struct_inv e') by (eapply frame_struct; [exact Hf | apply nothing_outside | done]).
    assert (Hin' : in_slot e' (Z.to_nat (c_head (e_chain e p))) p) by (unfold in_slot; by rewrite Hv).
    destruct (drop_counters_device _ _ _ Hs' Hin') as [Hd H1]. pose proof (owned_bounds e Hs).
    cbn [snd]. split; [by eapply drop_struct |]. intros _.
    pose proof (inv_counters _ Hi Ec) as Hc. unfold counters_inv in *. rewrite Hside in Hc. rewrite Hd.
    cbn [drop_chain e_vq vq_side vq_produced vq_consumed]. rewrite Hv in H1 |- *. cbn in H1 |- *. rewrite Hside.
    apply u16_sub_small; [done | lia].
  - replace (_.2) with e' by (by destruct st).
    destruct Hf as [Hf | Hf]; [eapply (failed_inv nothing e1) | eapply failed_inv]; try done; apply nothing_outside.
Qed.

(** What returning or dropping a chain does to the number of submitted ones. *)
Lemma drop_submitted e h p :
  struct_inv e -> in_slot e h p ->
  slot_count (submitted (drop_chain e p)) (vq_slots (e_vq (drop_chain e p))) =
  slot_count (submitted e) (vq_slots (e_vq e)) - (if submitted e p then 1 else 0).
Proof.
  intros Hs Hp. destruct (si_chain _ Hs _ _ Hp) as (Hh & _). cbn [drop_chain e_vq vq_slots]. rewrite Hh, Nat2Z.id.
  rewrite (slot_count_insert (submitted e) _ _ _ (Some p)).
  - cbn [slot_weight]. lia.
  - exact Hp.
  - intros i q Hne Hq. unfold submitted. rewrite e_chain_drop, decide_False; [done |]. intros ->.
    by apply Hne, (in_slot_unique e _ _ p).
Qed.

Lemma release_inv e given gen chain : vq_inv e -> vq_inv (kb2_vq_release e given gen chain).2.
Proof.
  intros Hi. pose proof (inv_struct _ Hi) as Hs. unfold kb2_vq_release.
  destruct (check e given gen) eqn:Ec; try done. apply check_ok in Ec. destruct chain as [p |]; [| done].
  destruct (_ || _) eqn:Eg; [done |]. rewrite !orb_false_iff, !negb_false_iff, !bool_decide_eq_true in Eg.
  destruct Eg as [Hside Hown]. destruct (owned_slot _ _ _ Hs Hown) as [Hin Hst]. cbn [snd].
  split; [by eapply drop_struct |]. intros _. pose proof (inv_counters _ Hi Ec) as Hc. unfold counters_inv in *.
  rewrite Hside in Hc. rewrite (drop_submitted _ _ _ Hs Hin). replace (submitted e p) with false
    by (unfold submitted; by rewrite Hst). cbn [drop_chain e_vq vq_side vq_produced vq_consumed]. rewrite Hside, Hc. lia.
Qed.

Lemma return_submitted e h p c' :
  struct_inv e -> in_slot e h p -> c_state (e_chain e p) = SUBMITTED -> c_state c' = RETURNED ->
  slot_count (submitted (set_chain e p c')) (vq_slots (e_vq e)) = slot_count (submitted e) (vq_slots (e_vq e)) - 1.
Proof.
  intros Hs Hin Hst Hst'.
  pose proof (slot_count_insert (submitted e) (submitted (set_chain e p c')) _ h (Some p) (Some p) Hin) as Hcount.
  rewrite list_insert_id in Hcount by exact Hin. cbn [slot_weight] in Hcount.
  replace (submitted e p) with true in Hcount by (unfold submitted; by rewrite Hst).
  replace (submitted (set_chain e p c') p) with false in Hcount
    by (unfold submitted; by rewrite e_chain_set_eq, Hst').
  rewrite Hcount; [lia |]. intros i q Hne Hq. unfold submitted. rewrite e_chain_set, decide_False; [done |].
  intros ->. by apply Hne, (in_slot_unique e _ _ p).
Qed.

Lemma take_used_inv e given gen out : vq_inv e -> vq_inv (kb2_vq_take_used e given gen out).2.
Proof.
  intros Hi. unfold kb2_vq_take_used.
  destruct (check e given gen) eqn:Ec; try done. apply check_ok in Ec.
  destruct (_ || _) eqn:Eg; [done |]. rewrite !orb_false_iff, !negb_false_iff, !bool_decide_eq_true in Eg.
  destruct Eg as [Hside _]. pose proof (pending_inv e Hi) as Hi1.
  destruct (pending_index e) as [[st d] e1] eqn:Ep. cbn [snd] in Hi1.
  apply pending_index_spec in Ep as (Hf & _ & _). destruct (decide (st = KB2_VQ_OK)) as [-> | Hne]; [| by destruct st].
  destruct (frame_ok _ _ _ Hf eq_refl) as [Hv _].
  destruct (mem_read _ _ _) as [[bytes |] m] eqn:Er; apply policy_read in Er.
  2: { eapply (quiet_inv e1); [exact (quiet_fault_mem e1 true m Er) | done]. }
  set (e2 := set_mem e1 m). assert (Hi2 : vq_inv e2) by (eapply quiet_inv; [by apply quiet_mem | done]).
  pose proof (inv_struct _ Hi2) as Hs. assert (Hbad : vq_inv (fault e2 false).2).
  { eapply quiet_inv; [exact (quiet_fault e2 false) | done]. }
  destruct (_ <=? _); [exact Hbad |]. destruct (slot_at e2 _) as [p |] eqn:Esl; [| exact Hbad].
  destruct (_ || _) eqn:Eb; [exact Hbad |]. apply orb_false_iff in Eb as [Hown%negb_false_iff Hlen%Z.ltb_ge].
  destruct (owned_slot _ _ _ Hs Hown) as [Hin Hst]. destruct (si_chain _ Hs _ _ Hin) as (_ & Hok & Hal & Hpr).
  assert (Hc : u16 (vq_produced (e_vq e2) - vq_consumed (e_vq e2)) = slot_count (submitted e2) (vq_slots (e_vq e2))).
  { assert (Hnf : e_faulted e2 = false) by (unfold e_faulted in *; cbn; by rewrite Hv).
    pose proof (inv_counters _ Hi2 Hnf) as Hc. unfold counters_inv in Hc. cbn [e2 set_mem e_vq] in Hc.
    rewrite Hv, Hside in Hc. cbn [e2 set_mem e_vq]. by rewrite Hv. }
  set (c' := set_returned (e_chain e2 p) (read_u32 bytes 4)).
  assert (Hs3 : struct_inv (set_chain e2 p c')).
  { destruct (si_typed _ Hs p), Hok. eapply update_struct; [done | exact Hin | by split | done | by split | | | done | done].
    - cbn [e2 set_mem e_vq]. rewrite Hv, Hside. by right.
    - destruct Hpr as (P1 & P2 & P3). pose proof (load_u32_range bytes 4) as Hu. rewrite <- read_u32_load in Hu.
      unfold is_u32 in Hu. split_and!; cbn; try lia; apply P1. }
  cbn [snd]. split; [apply set_consumed_struct; [done | apply u16_range] |]. intros _.
  unfold counters_inv. cbn [set_consumed set_vq set_chain e_vq vq_side vq_produced vq_consumed vq_slots].
  cbn [e2 set_mem e_vq] in Hin |- *. rewrite Hv, Hside. rewrite <- Hv. change (e_vq e1) with (e_vq e2).
  change (submitted (set_consumed (set_chain e2 p c') _)) with (submitted (set_chain e2 p c')).
  pose proof (return_submitted e2 _ p c' Hs Hin Hst eq_refl) as Hcount. rewrite Hcount.
  pose proof (submitted_bounds e2 Hs). pose proof (submitted_bounds _ Hs3) as Hb3.
  change (vq_slots (e_vq (set_chain e2 p c'))) with (vq_slots (e_vq e2)) in Hb3.
  apply u16_sub_small; [done | lia].
Qed.

(** Moving an accepted chain into other storage. *)
Lemma move_segments src dst :
  chain_typed src -> chain_typed dst -> c_segments src <> None -> c_segments dst <> None ->
  (c_count src <= c_capacity src)%nat -> (c_count src <= c_capacity dst)%nat ->
  chain_segments (move_chain src dst) = chain_segments src /\ chain_typed (move_chain src dst).
Proof.
  intros Hts Htd Hs Hd Hc Hcap. pose proof (length_chain_segments src Hts Hs Hc) as Hl.
  pose proof (chain_segments_typed src Hts) as Hall. destruct Htd as [Ha _ _ _ _].
  destruct (c_segments dst) as [l |] eqn:El; [| done]. destruct (Ha l eq_refl) as [Hll Hlt]. split.
  - unfold chain_segments at 1. cbn. rewrite El. cbn. rewrite take_app_le by lia. rewrite take_ge; [done | lia].
  - destruct Hts as [_ T1 T2 T3 T4]. split; try done. intros l' Hl'. cbn in Hl'. rewrite El in Hl'. injection Hl' as <-.
    rewrite length_app, length_drop. cbn. split; [lia |]. apply Forall_app. split; [done | by apply Forall_drop].
Qed.

(** The state after kb2_vq_move_accepted. *)
Definition moved e (src dst : loc) : engine M :=
  let s := e_chain e src in
  let e1 := set_chain e dst (move_chain s (e_chain e dst)) in
  let vq := e_vq e1 in
  set_chain (set_vq e1 (mkVq (vq_channel vq) (vq_queue vq) (vq_side vq)
    (<[Z.to_nat (c_head s) := Some dst]> (vq_slots vq))
    (if decide (vq_last_taken vq = Some src) then Some dst else vq_last_taken vq)
    (vq_descriptor_owner vq) (vq_produced vq) (vq_consumed vq) (vq_owned vq))) src (set_state s FREE).

Lemma e_chain_moved e src dst p :
  e_chain (moved e src dst) p =
  if decide (p = src) then set_state (e_chain e src) FREE
  else if decide (p = dst) then move_chain (e_chain e src) (e_chain e dst) else e_chain e p.
Proof. unfold moved. rewrite e_chain_set. case_decide; [done |]. apply e_chain_set. Qed.

Section Moved.
Context (e : engine M) (src dst : loc) (h : nat).
Context (inv : struct_inv e) (in_src : in_slot e h src) (out_dst : outside_slots e (eq dst)) (ne : dst <> src)
  (array : c_segments (e_chain e dst) <> None) (room : (c_count (e_chain e src) <= c_capacity (e_chain e dst))%nat).

Lemma moved_slot h' p' :
  in_slot (moved e src dst) h' p' <-> (h' = h /\ dst = p') \/ (h' <> h /\ in_slot e h' p').
Proof.
  assert (Hlt : (h < length (vq_slots (e_vq e)))%nat) by (by eapply lookup_lt_Some).
  destruct (si_chain _ inv _ _ in_src) as [Hh _].
  rewrite (in_slot_insert e (moved e src dst) h (Some dst)); [naive_solver | | done].
  cbn. by rewrite Hh, Nat2Z.id.
Qed.

Lemma moved_segments :
  chain_segments (move_chain (e_chain e src) (e_chain e dst)) = chain_segments (e_chain e src) /\
  chain_typed (move_chain (e_chain e src) (e_chain e dst)).
Proof.
  destruct (si_chain _ inv _ _ in_src) as (_ & Hok & _).
  apply move_segments; [apply inv | apply inv | apply Hok | done | apply Hok | done].
Qed.

(** Every owned chain of the new state stands for the one in its slot before. *)
Lemma moved_old h' p' :
  in_slot (moved e src dst) h' p' -> exists p, in_slot e h' p /\
    leases (e_chain (moved e src dst) p') = leases (e_chain e p) /\
    direct_descriptors (e_chain (moved e src dst) p') = direct_descriptors (e_chain e p).
Proof.
  intros [[-> <-] | [Hn Hp']]%moved_slot; rewrite e_chain_moved.
  - exists src. rewrite decide_False, decide_True by done. destruct moved_segments as [Hsegs _].
    unfold leases, direct_descriptors. by rewrite Hsegs.
  - exists p'. rewrite !decide_False; [done | |].
    + intros ->. by apply (out_dst dst h' eq_refl).
    + intros ->. by apply Hn, (in_slot_unique e _ _ src).
Qed.

Lemma moved_new h' p :
  in_slot e h' p -> exists p', in_slot (moved e src dst) h' p' /\
    direct_descriptors (e_chain (moved e src dst) p') = direct_descriptors (e_chain e p).
Proof.
  intros Hp. set (p' := if decide (h' = h) then dst else p).
  assert (Hp' : in_slot (moved e src dst) h' p') by (apply moved_slot; unfold p'; case_decide; naive_solver).
  exists p'. split; [done |]. destruct (moved_old _ _ Hp') as (q & Hq & _ & ->).
  unfold in_slot in *. congruence.
Qed.

Lemma move_struct : struct_inv (moved e src dst).
Proof.
  assert (Henv : same_env e (moved e src dst)) by by apply same_env_vq.
  destruct moved_segments as [Hsegs Hty]. pose proof inv as [S1 S2 S3 S4 S5 S6 S7 S8 S9 S10 S11].
  destruct (S5 h src in_src) as (Hh & Hok & Hal & Hpr). split.
  - by eapply channel_bound_env.
  - intros p. rewrite e_chain_moved. repeat case_decide; [by apply chain_typed_state | done | done].
  - cbn. by rewrite length_insert.
  - done.
  - intros h' p' [[-> <-] | [Hn Hp']]%moved_slot; rewrite e_chain_moved.
    + rewrite decide_False, decide_True by done. split_and!; [done | | done | apply Hpr ..].
      eapply chain_ok_env; [exact Henv |]. destruct Hok as [K1 K2 K3 K4 K5 K6 K7 K8 K9 K10 K11 K12 K13 K14 K15].
      unfold entry_descriptor, table_ok, direct_descriptors, table_descriptors, leases in *.
      split; unfold entry_descriptor, table_ok, direct_descriptors, table_descriptors, leases; rewrite ?Hsegs; try done.
      * cbn. by destruct (c_segments (e_chain e dst)).
      * cbn. lia.
    + rewrite !decide_False; [| by intros ->; apply (out_dst dst h' eq_refl) |
        by intros ->; apply Hn, (in_slot_unique e _ _ src)].
      destruct (S5 h' p' Hp') as (? & ? & ? & ?). split_and!; try done. by eapply chain_ok_env.
  - intros h' p' d (p & Hp & _ & ->)%moved_old Hd. by apply (S6 h' p).
  - intros d Hd Ho. destruct (S7 d Hd Ho) as (h' & p & Hp & Hin). destruct (moved_new _ _ Hp) as (p' & Hp' & Heq).
    exists h', p'. by rewrite Heq.
  - intros h1 p1 h2 p2 (q1 & Hq1 & L1 & _)%moved_old (q2 & Hq2 & L2 & _)%moved_old Hne.
    unfold chains_meet. rewrite L1, L2. by apply (S8 h1 q1 h2 q2).
  - cbn. rewrite Hh, Nat2Z.id.
    pose proof (slot_count_insert (fun _ => true) (fun _ => true) _ _ _ (Some dst) in_src ltac:(done)) as Hc.
    cbn [slot_weight] in Hc. unfold slot_count at 1 in Hc. rewrite Hc. change (vq_queue (e_vq e)) with (e_queue e). lia.
  - intros p. cbn. case_decide as Hl.
    + intros [= <-]. exists h. apply moved_slot. by left.
    + intros Hp. destruct (S10 p Hp) as [h' Hp']. exists h'. apply moved_slot. right. split; [| done].
      intros ->. unfold in_slot in *. congruence.
  - done.
Qed.
End Moved.

Lemma move_accepted_inv e given gen source destination :
  vq_inv e -> vq_inv (kb2_vq_move_accepted e given gen source destination).2.
Proof.
  intros Hi. pose proof (inv_struct _ Hi) as Hs. unfold kb2_vq_move_accepted.
  destruct (check e given gen) eqn:Ec; try done. apply check_ok in Ec.
  destruct source as [src |]; [| done]. destruct destination as [dst |]; [| done].
  destruct (_ || _) eqn:Eg; [done |].
  rewrite !orb_false_iff, !negb_false_iff, !bool_decide_eq_true, !bool_decide_eq_false, Nat.ltb_ge in Eg.
  destruct Eg as [[[[[Hside Hown] Hne] Hfree] Hseg] Hcap]. destruct (owned_slot _ _ _ Hs Hown) as [Hin Hst].
  change (vq_inv (moved e src dst)). split.
  - eapply move_struct; [done | exact Hin | by apply free_outside | done ..].
  - intros _. pose proof (inv_counters _ Hi Ec) as Hc. unfold counters_inv in *. cbn. by rewrite Hside in *.
Qed.
End Ops.
