(* ===== verification/VirtqueueBytes.v ===== *)
(** Shared memory as bytes: the class of backends that deliver the bytes that were
    written, and lists of writes.

    [VirtqueueInv] assumes nothing of the bytes a backend delivers, because the peer
    may write them.  What two honest ends say to each other needs more: a backend
    gives a view of the shared memory, one byte at each transport address, that its
    callbacks read and write.  The mapped memory of virtqueue_memory.c is one.

    Two ends of a queue: what a driver publishes is what a device reads.

    [linked] says that a driver and a device work on the same queue of the same channel,
    over backends that deliver each other's bytes.  A chain whose descriptors the driver
    wrote ([encoded]) is read back by the device segment by segment, through the chain's
    own table where it has one, and is valid there. *)

From Stdlib Require Import ZArith Lia.
From stdpp Require Import base numbers tactics sets gmap list_numbers list.
From S2P Require Import Prelude Bytes Layout Protocol ProtocolSpec Virtqueue VirtqueueSpec VirtqueueInv VirtqueueMemory.
From S2P Require Import VirtqueueOps.

Open Scope Z_scope.

(** * Views *)

Notation view := (Z -> Z).

Definition view_bytes (V : view) (a n : Z) : list Z := (fun i => V (a + i)) <$> seqZ 0 n.

Definition view_u16 (V : view) (a : Z) : Z := Z.lor (V a) (Z.shiftl (V (a + 1)) 8).

(** A write: its address and its bytes. *)
Notation access := (Z * list Z)%type.

Definition inside (w : access) (x : Z) : Prop := w.1 <= x < w.1 + blen w.2.

#[export] Instance inside_dec w x : Decision (inside w x).
Proof. unfold inside. apply _. Defined.

Definition overlay (V : view) (w : access) : view := fun x => if decide (inside w x) then get_byte w.2 (x - w.1) else V x.

Lemma overlay_in V w x : inside w x -> overlay V w x = get_byte w.2 (x - w.1).
Proof. intros Hx. unfold overlay. by rewrite decide_True. Qed.

Lemma overlay_out V w x : ~ inside w x -> overlay V w x = V x.
Proof. intros Hx. unfold overlay. by rewrite decide_False. Qed.

Definition apart (v w : access) : Prop := forall x, inside v x -> ~ inside w x.

Lemma overlay_ext V V' w x : V x = V' x -> overlay V w x = overlay V' w x.
Proof. intros E. unfold overlay. by rewrite E. Qed.

Lemma overlays_ext V V' ws x : V x = V' x -> foldl overlay V ws x = foldl overlay V' ws x.
Proof.
  revert V V'. induction ws as [| w ws IH]; intros V V' E; [done |]. apply IH. by apply overlay_ext.
Qed.

(** Bytes that no write covers stay. *)
Lemma overlays_outside V ws x : (forall w, w ∈ ws -> ~ inside w x) -> foldl overlay V ws x = V x.
Proof.
  revert V. induction ws as [| w ws IH]; intros V Hw; [done |]. cbn [foldl]. rewrite IH by (intros; apply Hw; by right).
  unfold overlay. rewrite decide_False; [done | apply Hw; by left].
Qed.

(** Of writes that are apart each is there at the end. *)
Lemma overlays_inside V ws w x :
  pairwise apart ws -> w ∈ ws -> inside w x -> foldl overlay V ws x = get_byte w.2 (x - w.1).
Proof.
  revert V. induction ws as [| v ws IH]; intros V Hp Hw Hx; [by apply not_elem_of_nil in Hw |].
  apply pairwise_cons in Hp as [Hv Hp]. apply elem_of_cons in Hw as [-> | Hw]; cbn [foldl]; [| by apply IH].
  rewrite overlays_outside by (intros u Hu; by apply (Hv u Hu)). unfold overlay. by rewrite decide_True.
Qed.

Lemma get_byte_view V a n i : 0 <= i < n -> is_u8 (V (a + i)) -> get_byte (view_bytes V a n) i = V (a + i).
Proof.
  intros Hi Hu. unfold get_byte, view_bytes.
  assert (E : ((fun i => V (a + i)) <$> seqZ 0 n) !! Z.to_nat i = Some (V (a + i))).
  { rewrite list_lookup_fmap, (proj2 (lookup_seqZ 0 n (Z.to_nat i) i)) by lia. done. }
  rewrite (nth_lookup_Some _ _ _ _ E). by apply Z.mod_small.
Qed.

(** * The class *)

Class VqBytes (M : Type) : Type := {
  (** What the initialisation of the backend has checked. *)
  bm_good : M -> Prop;
  bm_byte : M -> view;
  (** The ranges that can be read, and the indices that can be loaded. *)
  bm_readable : M -> Z -> Z -> bool;
  bm_loadable : M -> Z -> bool;
}.

Section Bytes.
Context {M : Type} `{VqBytes M}.

Record same_maps (m m' : M) : Prop := {
  sm_good : bm_good m';
  sm_readable : forall a n, bm_readable m' a n = bm_readable m a n;
  sm_loadable : forall a, bm_loadable m' a = bm_loadable m a;
}.

Definition same_bytes (m m' : M) : Prop := same_maps m m' /\ forall x, bm_byte m' x = bm_byte m x.

Definition wrote (m m' : M) (ws : list access) : Prop :=
  same_maps m m' /\ forall x, bm_byte m' x = foldl overlay (bm_byte m) ws x.

Lemma same_maps_trans m1 m2 m3 : same_maps m1 m2 -> same_maps m2 m3 -> same_maps m1 m3.
Proof. intros [_ R L] [G' R' L']. split; [done | |]; intros; [by rewrite R' | by rewrite L']. Qed.


Lemma wrote_app m1 m2 m3 ws ws' : wrote m1 m2 ws -> wrote m2 m3 ws' -> wrote m1 m3 (ws ++ ws').
Proof.
  intros [S B] [S' B']. split; [by eapply same_maps_trans |]. intros x. rewrite B', foldl_app. by apply overlays_ext.
Qed.
End Bytes.

Class VqBytesLaws (M : Type) `{VqMemory M} `{VqBytes M} : Prop := {
  bytes_u8 : forall m x, bm_good m -> is_u8 (bm_byte m x);
  bytes_read : forall m a n, bm_good m -> 0 < n -> exists m',
    mem_read m a n = (if bm_readable m a n then Some (view_bytes (bm_byte m) a n) else None, m') /\ same_bytes m m';
  bytes_write : forall m a b m', bm_good m -> 0 < blen b -> mem_write m a b = (true, m') -> wrote m m' [(a, b)];
  bytes_load : forall m a, bm_good m -> exists m',
    mem_load_acquire m a = (if bm_loadable m a then Some (view_u16 (bm_byte m) a) else None, m') /\ same_bytes m m';
  bytes_store : forall m a v m', bm_good m -> mem_store_release m a v = (true, m') -> wrote m m' [(a, [u8 v; u8 (Z.shiftr v 8)])];
  bytes_fence : forall m, bm_good m -> same_bytes m (mem_fence m);
}.

(** * The mapped memory *)

#[export] Instance mapping_eq_dec : EqDecision kb2_vq_mapping.
Proof. solve_decision. Defined.

Definition mapping_typed (x : kb2_vq_mapping) : Prop :=
  is_u64 (mp_transport_base x) /\ is_u64 (mp_length x) /\ is_u64 (mp_address x).

Definition mapping_fits (x : kb2_vq_mapping) : Prop :=
  0 < mp_length x /\ mp_transport_base x + mp_length x <= U64_MAX /\ mp_address x + mp_length x <= U64_MAX.

(** Neither the transport ranges nor the native ranges meet. *)
Definition mappings_apart (x y : kb2_vq_mapping) : Prop :=
  (mp_transport_base x + mp_length x <= mp_transport_base y \/ mp_transport_base y + mp_length y <= mp_transport_base x) /\
  (mp_address x + mp_length x <= mp_address y \/ mp_address y + mp_length y <= mp_address x).

Lemma mapped_overlaps_false a n b m :
  0 <= a -> 0 < n -> a + n <= U64_MAX -> 0 <= b -> 0 < m -> b + m <= U64_MAX ->
  mapped_overlaps a n b m = false -> a + n <= b \/ b + m <= a.
Proof.
  intros ? ? ? ? ? ? E. unfold mapped_overlaps, U64_MAX in *. rewrite !u64_small in E by (unfold is_u64; lia).
  apply andb_false_iff in E. rewrite !Z.ltb_ge in E. lia.
Qed.

Lemma mappings_valid_spec seen l :
  Forall mapping_typed (seen ++ l) -> Forall mapping_fits seen -> mappings_valid seen l = true ->
  Forall mapping_fits l /\ pairwise mappings_apart l /\ forall x y, x ∈ seen -> y ∈ l -> mappings_apart x y.
Proof.
  revert seen. induction l as [| z l IH]; intros seen Ht Hs Hv.
  { split_and!; [constructor | apply pairwise_nil | by intros x y _ ?%not_elem_of_nil]. }
  cbn [mappings_valid] in Hv.
  match type of Hv with (if ?b then _ else _) = _ => destruct b eqn:E1; [done |] end.
  match type of Hv with (if ?b then _ else _) = _ => destruct b eqn:E2; [done |] end.
  assert (Htz : mapping_typed z) by (apply Forall_app in Ht as [_ Ht]; by apply Forall_cons in Ht as [? _]).
  destruct Htz as ([? ?] & [? ?] & [? ?]). rewrite !orb_false_iff, !Z.eqb_neq, !Z.ltb_ge in E1.
  assert (Hfz : mapping_fits z) by (unfold mapping_fits, UINTPTR_MAX in *; lia).
  destruct (IH (seen ++ [z])) as (Hfl & Hpl & Hx); [by rewrite <- app_assoc | apply Forall_app; split; [done | by constructor] | done |].
  split_and!; [by constructor | apply pairwise_cons; split; [| done] |].
  - intros y Hy. apply Hx; [apply elem_of_app; right; by left | done].
  - intros x y Hxs [-> | Hy]%elem_of_cons; [| apply Hx; [apply elem_of_app; by left | done]].
    assert (Htx : mapping_typed x) by (apply Forall_app in Ht as [Ht _]; by apply (proj1 (Forall_forall _ _) Ht)).
    destruct Htx as ([? ?] & [? ?] & [? ?]). destruct (proj1 (Forall_forall _ _) Hs x Hxs) as (? & ? & ?).
    destruct Hfz as (? & ? & ?).
    assert (Hov : mapped_overlaps (mp_transport_base z) (mp_length z) (mp_transport_base x) (mp_length x) = false /\
              mapped_overlaps (mp_address z) (mp_length z) (mp_address x) (mp_length x) = false).
    { rewrite <- orb_false_iff. apply not_true_iff_false. intros Hb. apply not_true_iff_false in E2. apply E2, existsb_exists.
      exists x. split; [by apply list_elem_of_In | done]. }
    destruct Hov as [Ho1%mapped_overlaps_false Ho2%mapped_overlaps_false]; unfold mappings_apart; [lia | done ..].
Qed.

Definition mapping_holds (x : Z) (mp : kb2_vq_mapping) : bool :=
  (mp_transport_base mp <=? x) && (x <? mp_transport_base mp + mp_length mp).

Lemma mapping_holds_iff x mp :
  mapping_holds x mp = true <-> mp_transport_base mp <= x < mp_transport_base mp + mp_length mp.
Proof. unfold mapping_holds. rewrite andb_true_iff, Z.leb_le, Z.ltb_lt. done. Qed.

(** The native address behind a transport address. *)
Definition native_at (mappings : list kb2_vq_mapping) (x : Z) : option Z :=
  (fun mp => mp_address mp + (x - mp_transport_base mp)) <$> List.find (mapping_holds x) mappings.

Definition mapped_good (m : kb2_vq_mapped_memory) : Prop :=
  Forall mapping_typed (mm_mappings m) /\ mappings_valid [] (mm_mappings m) = true.

(** The range lies in the mapping, and the mapping grants the rights. *)
Definition mapping_grants (rights a n : Z) (mp : kb2_vq_mapping) : Prop :=
  mp_transport_base mp <= a /\ a + n <= mp_transport_base mp + mp_length mp /\
  Z.land (mp_local_rights mp) rights = rights.

#[export] Instance mapping_grants_dec rights a n mp : Decision (mapping_grants rights a n mp).
Proof. unfold mapping_grants. apply _. Defined.

Lemma resolve_Some mappings a n r s :
  resolve mappings a n r = Some s ->
  exists mp, mp ∈ mappings /\ mapping_grants r a n mp /\ s = mp_address mp + (a - mp_transport_base mp).
Proof.
  induction mappings as [| mp l IH]; [done |]. cbn [resolve]. intros E. destruct (_ || _) eqn:E1 in E.
  - destruct (IH E) as (x & ? & ?). exists x. split; [by right | done].
  - rewrite orb_false_iff, negb_false_iff, Z.ltb_ge, Z.eqb_eq in E1. destruct (_ && _) eqn:E2 in E.
    + injection E as <-. rewrite andb_true_iff, !Z.leb_le in E2. exists mp. split; [by left |].
      unfold mapping_grants. split_and!; lia.
    + destruct (IH E) as (x & ? & ?). exists x. split; [by right | done].
Qed.

(** A range resolves exactly when one mapping grants it. *)
Lemma resolve_is_Some mappings a n r :
  0 <= n -> is_Some (resolve mappings a n r) <-> Exists (mapping_grants r a n) mappings.
Proof.
  intros Hn. split.
  - intros [s (mp & Hin & Hg & _)%resolve_Some]. apply Exists_exists. by exists mp.
  - induction 1 as [mp l (Hlo & Hhi & Hr) | mp l _ IH]; cbn [resolve].
    + rewrite (proj2 (Z.ltb_ge _ _)), (proj2 (Z.eqb_eq _ _)) by done. cbn.
      rewrite !(proj2 (Z.leb_le _ _)) by lia. done.
    + destruct (_ || _); [done |]. by destruct (_ && _).
Qed.

Section Mapped.
Context (mappings : list kb2_vq_mapping) (Ht : Forall mapping_typed mappings) (Hv : mappings_valid [] mappings = true).

Lemma valid_mappings : Forall mapping_fits mappings /\ pairwise mappings_apart mappings.
Proof. by destruct (mappings_valid_spec [] mappings) as (? & ? & _). Qed.

Lemma apart_distinct x y : x ∈ mappings -> y ∈ mappings -> x <> y -> mappings_apart x y.
Proof.
  intros [i Hi]%list_elem_of_lookup [j Hj]%list_elem_of_lookup Hne. destruct valid_mappings as [_ Hp].
  destruct (Nat.lt_trichotomy i j) as [Hlt | [-> | Hlt]]; [by apply (Hp i j) | congruence |].
  destruct (Hp j i y x Hlt Hj Hi). unfold mappings_apart. lia.
Qed.

Lemma native_holder x mp :
  mp ∈ mappings -> mapping_holds x mp = true -> native_at mappings x = Some (mp_address mp + (x - mp_transport_base mp)).
Proof.
  intros Hin Hh. unfold native_at. destruct (List.find (mapping_holds x) mappings) as [mp' |] eqn:E.
  2: { apply find_none with (x := mp) in E; [congruence | by apply list_elem_of_In]. }
  apply find_some in E as [Hin'%list_elem_of_In Hh']. destruct (decide (mp = mp')) as [-> | Hne]; [done |]. exfalso.
  destruct (apart_distinct mp mp' Hin Hin' Hne) as [Ha _].
  apply mapping_holds_iff in Hh, Hh'. lia.
Qed.

Lemma native_at_Some x u :
  native_at mappings x = Some u ->
  exists mp, mp ∈ mappings /\ mapping_holds x mp = true /\ u = mp_address mp + (x - mp_transport_base mp).
Proof.
  unfold native_at. destruct (List.find _ _) as [mp |] eqn:E; [| done]. intros [= <-].
  apply find_some in E as [?%list_elem_of_In ?]. by exists mp.
Qed.

(** Two transport addresses never share a native one. *)
Lemma native_injective x y u : native_at mappings x = Some u -> native_at mappings y = Some u -> x = y.
Proof.
  intros (mp & Hin & Hh & ->)%native_at_Some (mp' & Hin' & Hh' & E)%native_at_Some.
  apply mapping_holds_iff in Hh, Hh'.
  destruct (decide (mp = mp')) as [-> | Hne]; [lia |]. destruct (apart_distinct mp mp' Hin Hin' Hne) as [_ Ha]. lia.
Qed.

Lemma resolve_native a n r s i :
  resolve mappings a n r = Some s -> 0 <= i < n -> native_at mappings (a + i) = Some (s + i).
Proof.
  intros (mp & Hin & (Hlo & Hhi & _) & ->)%resolve_Some Hi.
  rewrite (native_holder (a + i) mp); [f_equal; lia | done |]. apply mapping_holds_iff. lia.
Qed.

(** The mapping of a range that is not empty is the only one. *)
Lemma mapping_unique a n r r' mp mp' :
  0 < n -> mp ∈ mappings -> mp' ∈ mappings -> mapping_grants r a n mp -> mapping_grants r' a n mp' -> mp = mp'.
Proof.
  intros Hn Hin Hin' (? & ? & _) (? & ? & _). destruct (decide (mp = mp')) as [| Hne]; [done |]. exfalso.
  destruct (apart_distinct mp mp' Hin Hin' Hne) as [Ha _]. lia.
Qed.
End Mapped.

Lemma load_store_bytes native d b u :
  load_byte (store_bytes native d b) u = if decide (d <= u < d + blen b) then get_byte b (u - d) else load_byte native u.
Proof.
  revert native d. induction b as [| v b IH]; intros native d; cbn [store_bytes].
  { rewrite decide_False; [done |]. unfold blen. cbn. lia. }
  rewrite IH. unfold blen. cbn [length]. destruct (decide (u = d)) as [-> | Hne].
  - rewrite decide_False by lia. rewrite decide_True by lia. unfold load_byte, get_byte. rewrite lookup_insert_eq, Z.sub_diag. cbn.
    unfold u8. by rewrite Z.mod_mod.
  - destruct (decide (d + 1 <= u < d + 1 + Z.of_nat (length b))).
    + rewrite decide_True by lia. unfold get_byte. by replace (Z.to_nat (u - d)) with (S (Z.to_nat (u - (d + 1)))) by lia.
    + rewrite decide_False by lia. unfold load_byte. by rewrite lookup_insert_ne.
Qed.

#[export] Instance mapped_bytes : VqBytes kb2_vq_mapped_memory := {
  bm_good := mapped_good;
  bm_byte m x := match native_at (mm_mappings m) x with Some u => load_byte (mm_native m) u | None => 0 end;
  bm_readable m a n := bool_decide (is_Some (resolve (mm_mappings m) a n KB2_PROTOCOL_REGION_RIGHT_READ));
  bm_loadable m a := bool_decide (is_Some (load_index m a));
}.

Lemma mapped_store m a d b r :
  mapped_good m -> resolve (mm_mappings m) a (blen b) r = Some d -> wrote m (set_native m (store_bytes (mm_native m) d b)) [(a, b)].
Proof.
  intros [Ht Hv] E. split.
  - split; [done .. |]. intros x. cbn. apply bool_decide_ext. unfold load_index. cbn.
    destruct (resolve _ x 2 _) as [u |]; [| done]. by destruct (negb _ || negb _).
  - intros x. cbn [foldl]. unfold overlay, inside. cbn [fst snd]. cbn [bm_byte mapped_bytes set_native mm_mappings mm_native].
    case_decide as Hx.
    + replace x with (a + (x - a)) at 1 by lia. rewrite (resolve_native _ Ht Hv a (blen b) r d) by (done || lia).
      rewrite load_store_bytes, decide_True by lia. f_equal. lia.
    + destruct (native_at (mm_mappings m) x) as [u |] eqn:Eu; [| done]. rewrite load_store_bytes.
      case_decide as Hu; [| done]. exfalso. apply Hx.
      assert (a + (u - d) = x) as <-; [| lia].
      apply (native_injective _ Ht Hv _ _ u); [| done].
      rewrite (resolve_native _ Ht Hv a (blen b) r d) by (done || lia). f_equal. lia.
Qed.

Lemma same_bytes_refl m : mapped_good m -> same_bytes m m.
Proof. intros Hg. split; [by split | done]. Qed.

#[export] Instance mapped_bytes_laws : VqBytesLaws kb2_vq_mapped_memory.
Proof.
  split.
  - intros m x _. cbn. destruct (native_at _ _); [apply Z.mod_pos_bound; lia | by vm_compute].
  - intros m a n Hg Hn. exists m. split; [| by apply same_bytes_refl]. cbn. unfold read_bytes.
    destruct (resolve _ _ _ _) as [s |] eqn:E; [| by rewrite bool_decide_false by (by intros [])].
    rewrite bool_decide_true by done. do 2 f_equal. unfold load_bytes, view_bytes. apply list_fmap_ext.
    intros i x Hx%list_elem_of_lookup_2%elem_of_seqZ. destruct Hg as [Ht Hv]. cbn.
    by rewrite (resolve_native _ Ht Hv a n _ s) by (done || lia).
  - intros m a b m' Hg _. cbn. unfold write_bytes. destruct (resolve _ _ _ _) as [d |] eqn:E; [| done].
    intros [= <-]. by apply (mapped_store _ _ _ _ _ Hg E).
  - intros m a Hg. exists m. split; [| by apply same_bytes_refl]. cbn. destruct (load_index m a) as [v |] eqn:El.
    2: { by rewrite bool_decide_false by (by intros []). }
    rewrite bool_decide_true by done. unfold load_index in El. destruct (resolve _ _ _ _) as [s |] eqn:E; [| done].
    destruct (_ || _); [done |]. injection El as <-. do 2 f_equal. unfold view_u16, atomic_load. cbn. destruct Hg as [Ht Hv].
    pose proof (resolve_native _ Ht Hv a 2 _ s 0 E ltac:(lia)) as H0. pose proof (resolve_native _ Ht Hv a 2 _ s 1 E ltac:(lia)) as H1.
    rewrite !Z.add_0_r in H0. by rewrite H0, H1.
  - intros m a v m' Hg. cbn. unfold store_index. destruct (resolve _ _ _ _) as [d |] eqn:E; [| done].
    destruct (_ || _); [done |]. intros [= <-].
    assert (Hw : atomic_store (mm_native m) d v = store_bytes (mm_native m) d [u8 v; u8 (Z.shiftr v 8)]).
    { unfold atomic_store. cbn [store_bytes]. by rewrite !u8_idemp. }
    rewrite Hw. by apply (mapped_store _ _ _ _ KB2_PROTOCOL_REGION_RIGHT_WRITE Hg).
  - intros m Hg. by apply same_bytes_refl.
Qed.

(** * What publication writes *)

Definition in_table (c : kb2_vq_chain) (i : nat) : bool := (direct_count c <=? i)%nat.

Definition more_after (c : kb2_vq_chain) (i : nat) : bool := (S i <? c_count c)%nat.

Definition next_after (c : kb2_vq_chain) (i : nat) : Z :=
  if more_after c i then
    if (S i =? direct_count c)%nat then c_indirect_descriptor c
    else default 0 (sg_descriptor <$> chain_segments c !! S i)
  else 0.

Definition cell (q : kb2_protocol_queue) (c : kb2_vq_chain) (table : bool) (d : Z) : Z :=
  (if table then c_indirect c else q_descriptor_address q) + d * DESC_SIZE.

Definition descriptor_write (q : kb2_protocol_queue) (c : kb2_vq_chain) (i : nat) (s : kb2_vq_segment) : access :=
  (cell q c (in_table c i) (sg_descriptor s),
   descriptor_bytes (sg_address s) (sg_length s) (segment_flags s (more_after c i)) (next_after c i)).

Definition reference_write (q : kb2_protocol_queue) (c : kb2_vq_chain) : access :=
  (cell q c false (c_indirect_descriptor c), descriptor_bytes (c_indirect c) (c_indirect_length c) DESC_INDIRECT 0).

Definition chain_writes (q : kb2_protocol_queue) (c : kb2_vq_chain) : list access :=
  imap (descriptor_write q c) (chain_segments c) ++ (if c_indirect_length c =? 0 then [] else [reference_write q c]).

Definition entry_address (q : kb2_protocol_queue) (index : Z) : Z :=
  q_available_address q + 4 + 2 * Z.land index (q_queue_size q - 1).

Definition entry_write (q : kb2_protocol_queue) (index head : Z) : access := (entry_address q index, write_u16 [0; 0] 0 head).

Definition index_write (ring index : Z) : access := (ring + 2, [u8 index; u8 (Z.shiftr index 8)]).

(** The entry of the used ring. *)
Definition used_entry_address (q : kb2_protocol_queue) (index : Z) : Z :=
  q_used_address q + 4 + 8 * Z.land index (q_queue_size q - 1).

Definition used_write (q : kb2_protocol_queue) (index head len : Z) : access :=
  (used_entry_address q index, write_u32 (write_u32 (replicate 8 0) 0 head) 4 len).

(** The view holds what was written. *)
Definition holds_write (V : view) (w : access) : Prop := forall x, inside w x -> V x = get_byte w.2 (x - w.1).

Definition encoded (V : view) (q : kb2_protocol_queue) (c : kb2_vq_chain) : Prop :=
  forall w, w ∈ chain_writes q c -> holds_write V w.

Lemma holds_write_ext V V' w : (forall x, inside w x -> V' x = V x) -> holds_write V w -> holds_write V' w.
Proof. intros HV Hw x Hx. rewrite HV by done. by apply Hw. Qed.

Lemma blen_descriptor a n f d : blen (descriptor_bytes a n f d) = 16.
Proof. unfold descriptor_bytes, write_u64, write_u32, write_u16. by rewrite !blen_put_byte. Qed.

Lemma blen_chain_write q c w : w ∈ chain_writes q c -> blen w.2 = 16.
Proof.
  intros [Hw | Hw]%elem_of_app.
  - apply list_elem_of_lookup in Hw as [i Hi]. rewrite list_lookup_imap in Hi. destruct (_ !! i); [| done].
    injection Hi as <-. apply blen_descriptor.
  - destruct (_ =? 0); [by apply not_elem_of_nil in Hw |]. apply list_elem_of_singleton in Hw as ->. apply blen_descriptor.
Qed.

(** * Where the queue lies *)

Section Layout.
Context {M : Type} `{VqMemory M}.
Implicit Types e : engine M.

Record placed e : Prop := {
  pl_queue : e_queue e ∈ e_queues e;
  pl_covered : forall range, range ∈ rings (e_queue e) -> covered (e_regions e) range;
  pl_fits : forall range, range ∈ rings (e_queue e) -> 0 <= range.1 /\ 0 < range.2 /\ range.1 + range.2 <= U64_MAX;
  pl_apart : pairwise disjoint_ranges (rings (e_queue e));
  pl_aligned : q_available_address (e_queue e) mod 2 = 0;
}.

Section Chain.
Context e (c : kb2_vq_chain) (Hp : placed e) (Hb : channel_bound e) (Ht : chain_typed c) (Hok : chain_ok e c).
Notation q := (e_queue e).
Notation size := (q_queue_size (e_queue e)).

Lemma desc_ring : 0 <= q_descriptor_address q /\ q_descriptor_address q + 16 * size <= U64_MAX.
Proof. destruct (pl_fits e Hp (q_descriptor_address q, 16 * size)) as (? & ? & ?); [by left | done]. Qed.

Lemma segment_count : length (chain_segments c) = c_count c.
Proof. apply length_chain_segments; [done | apply Hok | apply Hok]. Qed.

Lemma segment_descriptor i s : chain_segments c !! i = Some s -> is_u16 (sg_descriptor s).
Proof. intros Hs. by apply (Forall_lookup_1 _ _ _ _ (chain_segments_typed c Ht)) in Hs as (_ & _ & ? & _). Qed.

(** A segment is described in the main table or in the chain's own. *)
Lemma direct_segment i s :
  chain_segments c !! i = Some s -> in_table c i = false ->
  sg_descriptor s ∈ direct_descriptors c /\ 0 <= sg_descriptor s < size.
Proof.
  intros Hs Hi. apply Nat.leb_gt in Hi. assert (Hd : sg_descriptor s ∈ direct_descriptors c).
  { apply elem_of_app. right. apply list_elem_of_fmap. exists s. split; [done |]. apply list_elem_of_lookup. exists i.
    by rewrite lookup_take_lt. }
  split; [done |]. pose proof (proj1 (Forall_forall _ _) (ck_direct _ _ Hok) _ Hd). pose proof (segment_descriptor i s Hs).
  unfold is_u16 in *. lia.
Qed.

Lemma table_segment i s :
  chain_segments c !! i = Some s -> in_table c i = true ->
  c_indirect_length c <> 0 /\ 0 <= sg_descriptor s < c_indirect_length c / DESC_SIZE.
Proof.
  intros Hs Hi. apply Nat.leb_le in Hi. pose proof (lookup_lt_Some _ _ _ Hs) as Hlt. rewrite segment_count in Hlt.
  split.
  - intros Hz. unfold direct_count in Hi. rewrite Hz in Hi. cbn in Hi. lia.
  - assert (Hd : sg_descriptor s ∈ table_descriptors c).
    { apply list_elem_of_fmap. exists s. split; [done |]. apply list_elem_of_lookup. exists (i - direct_count c)%nat.
      rewrite lookup_drop. by replace (direct_count c + (i - direct_count c))%nat with i by lia. }
    pose proof (proj1 (Forall_forall _ _) (ck_indirect _ _ Hok) _ Hd). pose proof (segment_descriptor i s Hs).
    unfold is_u16 in *. lia.
Qed.

Lemma table_shape :
  c_indirect_length c <> 0 ->
  c_indirect c mod 16 = 0 /\ c_indirect_length c mod 16 = 0 /\ 0 <= c_indirect c /\
  c_indirect c + c_indirect_length c <= U64_MAX /\ 0 <= c_indirect_descriptor c < size /\
  c_indirect_length c / 16 <= q_max_indirect_length q /\ 0 < c_indirect_length c /\
  (c_indirect_first c < c_count c)%nat /\ default 0 (sg_descriptor <$> chain_segments c !! c_indirect_first c) = 0 /\
  payload_ok e (c_indirect c) (c_indirect_length c) KB2_PROTOCOL_REGION_RIGHT_READ.
Proof.
  intros Hn. pose proof (ck_table _ _ Hok) as T. unfold table_ok in T. rewrite decide_False in T by done.
  destruct T as (T1 & T2 & T3 & T4 & T5 & T6). destruct (ct_indirect _ Ht) as [? _]. destruct (ct_indirect_length _ Ht) as [? _].
  destruct (ct_indirect_descriptor _ Ht) as [? _].
  assert (c_indirect_descriptor c < size).
  { apply (proj1 (Forall_forall _ _) (ck_direct _ _ Hok)). unfold direct_descriptors. rewrite (proj2 (Z.eqb_neq _ _)) by done. by left. }
  assert (Hfit : 0 < c_indirect_length c /\ c_indirect c + c_indirect_length c <= U64_MAX) by (destruct T6 as [? | (? & ? & _)]; [done | lia]).
  split_and!; try done; lia.
Qed.

(** The table is clear of the queue's rings. *)
Lemma table_clear x range :
  range ∈ rings q -> c_indirect c <= x < c_indirect c + c_indirect_length c -> ~ (range.1 <= x < range.1 + range.2).
Proof.
  intros Hr Hx Hx'. destruct table_shape as (_ & _ & _ & _ & _ & _ & _ & _ & _ & [? | (_ & _ & _ & Hc & _)]); [lia | lia |].
  apply (Hc q range (pl_queue e Hp) Hr). by exists x.
Qed.

(** A write to a chain's descriptors stays inside the descriptor ring or the table. *)
Lemma chain_write_inside w x :
  w ∈ chain_writes q c -> inside w x ->
  blen w.2 = 16 /\ 0 <= w.1 < 2 ^ 64 /\
  ((exists d, d ∈ direct_descriptors c /\ 0 <= d < size /\ w.1 = cell q c false d) \/
   c_indirect c <= x < c_indirect c + c_indirect_length c).
Proof.
  intros Hw Hx. pose proof desc_ring. unfold U64_MAX in *. apply elem_of_app in Hw as [Hw | Hw].
  - apply list_elem_of_lookup in Hw as [i Hi]. rewrite list_lookup_imap in Hi.
    destruct (chain_segments c !! i) as [s |] eqn:Es; [| done]. injection Hi as <-. cbn [fst snd] in *.
    unfold inside in Hx. cbn [fst snd descriptor_write] in *. rewrite blen_descriptor in *. split; [done |].
    unfold cell, DESC_SIZE in *. destruct (in_table c i) eqn:Et.
    + destruct (table_segment i s Es Et) as [Hn Hd]. destruct (table_shape Hn) as (_ & Hm & ? & Hfit & _). unfold DESC_SIZE, U64_MAX in *.
      assert (16 * (c_indirect_length c / 16) = c_indirect_length c) by (pose proof (Z.div_mod (c_indirect_length c) 16); lia).
      split; [lia |]. right. lia.
    + destruct (direct_segment i s Es Et) as [Hd Hr]. split; [lia |]. left. by exists (sg_descriptor s).
  - destruct (Z.eqb_spec (c_indirect_length c) 0) as [| Hn]; [by apply not_elem_of_nil in Hw |].
    apply list_elem_of_singleton in Hw as ->. destruct (table_shape Hn) as (_ & _ & _ & _ & Hd & _).
    unfold reference_write, cell, DESC_SIZE. cbn [fst snd]. rewrite blen_descriptor. split; [done |]. split; [lia |]. left.
    exists (c_indirect_descriptor c). split; [| done]. unfold direct_descriptors. rewrite (proj2 (Z.eqb_neq _ _)) by done. by left.
Qed.

Lemma cells_apart (t u : bool) d d' b b' :
  blen b = 16 -> blen b' = 16 -> (t = u -> d <> d') ->
  (t = true -> 0 <= d < c_indirect_length c / DESC_SIZE /\ c_indirect_length c <> 0) -> (t = false -> 0 <= d < size) ->
  (u = true -> 0 <= d' < c_indirect_length c / DESC_SIZE /\ c_indirect_length c <> 0) -> (u = false -> 0 <= d' < size) ->
  apart (cell q c t d, b) (cell q c u d', b').
Proof.
  intros Hlb Hlb' Hne Ht1 Ht0 Hu1 Hu0 x Hx Hx'. unfold inside, cell, DESC_SIZE in *. cbn [fst snd] in *.
  assert (Hring : (q_descriptor_address q, 16 * size) ∈ rings q) by (by left).
  assert (Hdiv : c_indirect_length c <> 0 -> 16 * (c_indirect_length c / 16) = c_indirect_length c).
  { intros Hn. destruct (table_shape Hn) as (_ & Hm & _). pose proof (Z.div_mod (c_indirect_length c) 16). lia. }
  destruct t, u.
  - specialize (Hne eq_refl). lia.
  - destruct (Ht1 eq_refl) as [? Hn]. specialize (Hdiv Hn). specialize (Hu0 eq_refl).
    apply (table_clear x _ Hring); cbn [fst snd]; lia.
  - destruct (Hu1 eq_refl) as [? Hn]. specialize (Hdiv Hn). specialize (Ht0 eq_refl).
    apply (table_clear x _ Hring); cbn [fst snd]; lia.
  - specialize (Hne eq_refl). lia.
Qed.

Lemma segment_cell_range i s :
  chain_segments c !! i = Some s ->
  (in_table c i = true -> 0 <= sg_descriptor s < c_indirect_length c / DESC_SIZE /\ c_indirect_length c <> 0) /\
  (in_table c i = false -> 0 <= sg_descriptor s < size).
Proof.
  intros Hs. split; intros Hi; [destruct (table_segment i s Hs Hi) | destruct (direct_segment i s Hs Hi)]; done.
Qed.

(** The descriptors of a chain are written to different places. *)
Lemma segments_differ i j s t :
  (i < j)%nat -> chain_segments c !! i = Some s -> chain_segments c !! j = Some t ->
  in_table c i = in_table c j -> sg_descriptor s <> sg_descriptor t.
Proof.
  intros Hij Hs Hj Heq E. unfold in_table in *. destruct (Nat.leb_spec (direct_count c) i), (Nat.leb_spec (direct_count c) j); try done.
  - assert ((i - direct_count c)%nat = (j - direct_count c)%nat); [| lia].
    apply (NoDup_lookup (table_descriptors c) _ _ (sg_descriptor s)); [apply Hok | |]; unfold table_descriptors;
      rewrite list_lookup_fmap, lookup_drop, Nat.add_sub_assoc, Nat.add_comm, Nat.add_sub by lia; [by rewrite Hs | by rewrite Hj, E].
  - assert (i = j); [| lia]. pose proof (ck_direct_distinct _ _ Hok) as Hn. apply NoDup_app in Hn as (_ & _ & Hn).
    apply (NoDup_lookup _ _ _ (sg_descriptor s) Hn); rewrite list_lookup_fmap, lookup_take_lt by done; [by rewrite Hs | by rewrite Hj, E].
Qed.

Lemma chain_writes_apart : pairwise apart (chain_writes q c).
Proof.
  unfold chain_writes. apply pairwise_app. split_and!.
  - intros i j v w Hij Hv Hw. rewrite list_lookup_imap in Hv, Hw.
    destruct (chain_segments c !! i) as [s |] eqn:Es; [| done]. destruct (chain_segments c !! j) as [t |] eqn:Et; [| done].
    injection Hv as <-. injection Hw as <-. destruct (segment_cell_range i s Es), (segment_cell_range j t Et).
    apply cells_apart; try done; [apply blen_descriptor .. |]. intros E. by apply (segments_differ i j).
  - destruct (_ =? 0); [apply pairwise_nil | apply pairwise_singleton].
  - intros v w Hv Hw. destruct (Z.eqb_spec (c_indirect_length c) 0) as [| Hn]; [by apply not_elem_of_nil in Hw |].
    apply list_elem_of_singleton in Hw as ->. apply list_elem_of_lookup in Hv as [i Hi]. rewrite list_lookup_imap in Hi.
    destruct (chain_segments c !! i) as [s |] eqn:Es; [| done]. injection Hi as <-. destruct (segment_cell_range i s Es) as [S1 S2].
    destruct (table_shape Hn) as (_ & _ & _ & _ & Hd & _). apply cells_apart; try done; [apply blen_descriptor .. |].
    intros Hi E. pose proof (ck_direct_distinct _ _ Hok) as Hnd. unfold direct_descriptors in Hnd.
    rewrite (proj2 (Z.eqb_neq _ _)) in Hnd by done. apply NoDup_cons in Hnd as [Hnd _]. apply Hnd. rewrite <- E.
    apply list_elem_of_fmap. exists s. split; [done |]. apply list_elem_of_lookup. exists i. apply Nat.leb_gt in Hi.
    by rewrite lookup_take_lt.
Qed.

(** The descriptors are clear of the other two rings. *)
Lemma chain_writes_off w x i range :
  w ∈ chain_writes q c -> inside w x -> rings q !! S i = Some range -> ~ (range.1 <= x < range.1 + range.2).
Proof.
  intros Hw Hx Hr Hin. destruct (chain_write_inside w x Hw Hx) as (Hl & _ & [(d & _ & Hd & E) | Htab]).
  - unfold inside, cell, DESC_SIZE in *. apply (pl_apart e Hp 0%nat (S i) _ _ ltac:(lia) eq_refl Hr).
    exists x. cbn [fst snd]. lia.
  - by apply (table_clear x range (list_elem_of_lookup_2 _ _ _ Hr)).
Qed.

Lemma chain_writes_clear w x :
  w ∈ chain_writes q c -> inside w x -> ~ (q_available_address q <= x < q_available_address q + (6 + 2 * size)).
Proof. intros Hw Hx. by apply (chain_writes_off w x 0%nat _ Hw Hx eq_refl). Qed.

Lemma chain_writes_clear_used w x :
  w ∈ chain_writes q c -> inside w x -> ~ (q_used_address q <= x < q_used_address q + (6 + 8 * size)).
Proof. intros Hw Hx. by apply (chain_writes_off w x 1%nat _ Hw Hx eq_refl). Qed.
End Chain.
End Layout.

(** * Publication *)

Definition publication (q : kb2_protocol_queue) (index : Z) (c : kb2_vq_chain) : list access :=
  chain_writes q c ++ [entry_write q index (c_head c); index_write (q_available_address q) (u16 (index + 1))].

Section Publication.
Context {M : Type} `{VqMemoryLaws M} `{VqBytes M} `{!VqBytesLaws M}.
Implicit Types e : engine M.

Lemma wrote_same_bytes (m1 m2 m3 : M) ws : wrote m1 m2 ws -> same_bytes m2 m3 -> wrote m1 m3 ws.
Proof.
  intros [S B] [S' B']. split; [by eapply same_maps_trans |]. intros x. by rewrite B'.
Qed.

Lemma write_descriptors_wrote e c (prev rest : list kb2_vq_segment) e' :
  (forall w, w ∈ imap (fun j => descriptor_write (e_queue e) c (length prev + j)) rest -> 0 <= w.1 < 2 ^ 64) ->
  bm_good (e_mem e) -> write_descriptors e c (length prev) rest = (KB2_VQ_OK, e') ->
  wrote (e_mem e) (e_mem e') (imap (fun j => descriptor_write (e_queue e) c (length prev + j)) rest).
Proof.
  revert e prev. induction rest as [| s rest IH]; intros e prev Hw Hg E; cbn [write_descriptors] in E.
  { injection E as <-. by repeat split. }
  cbn [imap] in Hw |- *.
  destruct (mem_write _ _ _) as [[] m] eqn:Ew in E; [| done].
  set (w := descriptor_write (e_queue e) c (length prev + 0) s) in *.
  assert (Hone : wrote (e_mem e) m [w]).
  { assert (Haddr : 0 <= w.1 < 2 ^ 64) by (apply Hw; by left). unfold w in *.
    rewrite Nat.add_0_r in *. apply bytes_write in Ew; [| done | by rewrite blen_descriptor].
    rewrite u64_small in Ew by exact Haddr. exact Ew. }
  change (w :: ?l) with ([w] ++ l). apply (wrote_app _ m); [done |].
  assert (Hshift : imap (fun j => descriptor_write (e_queue e) c (length (prev ++ [s]) + j)) rest =
            imap ((fun j => descriptor_write (e_queue e) c (length prev + j)) ∘ S) rest).
  { apply imap_ext. intros j t _. cbn. f_equal. rewrite length_app. cbn. lia. }
  rewrite <- Hshift. apply (IH (set_mem e m) (prev ++ [s])).
  - intros v Hv. apply Hw. right. by rewrite <- Hshift.
  - apply Hone.
  - rewrite length_app, Nat.add_1_r. exact E.
Qed.

Lemma ring_slot_range e index :
  channel_bound e -> 0 <= Z.land index (q_queue_size (e_queue e) - 1) < q_queue_size (e_queue e).
Proof.
  intros Hb. destruct (cb_size e Hb) as (k & Hk & ->). rewrite Z.sub_1_r, <- Z.ones_equiv, Z.land_ones by lia.
  apply Z.mod_pos_bound, Z.pow_pos_nonneg; lia.
Qed.

Lemma blen_entry (h : Z) : blen (write_u16 [0; 0] 0 h) = 2.
Proof. unfold write_u16. by rewrite !blen_put_byte. Qed.

Lemma publish_index_wrote e ring event n e' :
  0 <= ring + 2 < 2 ^ 64 -> bm_good (e_mem e) -> publish_index e ring event = (KB2_VQ_OK, n, e') ->
  wrote (e_mem e) (e_mem e') [index_write ring (u16 (vq_produced (e_vq e) + 1))].
Proof.
  intros Hr Hg E. unfold publish_index in E. destruct (mem_store_release _ _ _) as [[] m] eqn:Es in E; [| done].
  apply bytes_store in Es; [| done]. rewrite u64_small in Es by exact Hr.
  destruct (mem_load_acquire _ _) as [[threshold |] m2] eqn:El in E; [| done]. injection E as _ <-.
  apply (wrote_same_bytes _ m); [done |]. pose proof (bytes_fence m (sm_good _ _ (proj1 Es))) as [Sf Bf].
  destruct (bytes_load (mem_fence m) event (sm_good _ _ Sf)) as (m2' & E2 & [Sl Bl]). cbn in El. rewrite E2 in El.
  injection El as _ <-. cbn [e_mem set_mem]. split; [by eapply same_maps_trans |]. intros x. by rewrite Bl.
Qed.

Lemma available_fits e :
  placed e -> 0 <= q_available_address (e_queue e) /\
  q_available_address (e_queue e) + (6 + 2 * q_queue_size (e_queue e)) < 2 ^ 64.
Proof.
  intros Hp. destruct (pl_fits e Hp (q_available_address (e_queue e), 6 + 2 * q_queue_size (e_queue e))) as (? & ? & ?);
    [right; by left |]. unfold U64_MAX in *. cbn [fst snd] in *. lia.
Qed.

Lemma used_fits e :
  placed e -> 0 <= q_used_address (e_queue e) /\
  q_used_address (e_queue e) + (6 + 8 * q_queue_size (e_queue e)) < 2 ^ 64.
Proof.
  intros Hp. destruct (pl_fits e Hp (q_used_address (e_queue e), 6 + 8 * q_queue_size (e_queue e))) as (? & ? & ?);
    [right; right; by left |]. unfold U64_MAX in *. cbn [fst snd] in *. lia.
Qed.

Lemma chain_write_address e c w :
  placed e -> chain_typed c -> chain_ok e c -> w ∈ chain_writes (e_queue e) c -> 0 <= w.1 < 2 ^ 64.
Proof.
  intros Hp Ht Hok Hw. pose proof (blen_chain_write _ _ _ Hw). apply (chain_write_inside e c Hp Ht Hok w w.1 Hw).
  unfold inside. lia.
Qed.

(** The descriptors and the reference to the chain's own table. *)
Lemma write_chain_wrote e c e1 e2 :
  placed e -> chain_typed c -> chain_ok e c -> bm_good (e_mem e) -> e_queue e1 = e_queue e ->
  write_descriptors e c 0 (chain_segments c) = (KB2_VQ_OK, e1) -> write_indirect_reference e1 c = (KB2_VQ_OK, e2) ->
  wrote (e_mem e) (e_mem e2) (chain_writes (e_queue e) c).
Proof.
  intros Hp Ht Hok Hg Hq1 E1 E2. pose proof (fun w => chain_write_address e c w Hp Ht Hok) as Haddr.
  assert (Hw1 : wrote (e_mem e) (e_mem e1) (imap (descriptor_write (e_queue e) c) (chain_segments c))).
  { apply (write_descriptors_wrote e c [] _ e1); [| done | exact E1]. intros w Hw. apply Haddr, elem_of_app. by left. }
  apply (wrote_app _ (e_mem e1)); [done |]. unfold write_indirect_reference in E2.
  destruct (Z.eqb_spec (c_indirect_length c) 0) as [Hz | Hz].
  - injection E2 as <-. split; [| done]. split; [apply Hw1 | done | done].
  - destruct (mem_write _ _ _) as [[] m] eqn:Ew in E2; [| done]. injection E2 as <-. rewrite Hq1 in Ew.
    assert (Hr : 0 <= (reference_write (e_queue e) c).1 < 2 ^ 64).
    { apply Haddr, elem_of_app. right. rewrite (proj2 (Z.eqb_neq _ _)) by done. by left. }
    apply bytes_write in Ew; [| apply Hw1 | by rewrite blen_descriptor]. rewrite u64_small in Ew by exact Hr. exact Ew.
Qed.

Lemma publish_claimed_wrote e c n e' :
  placed e -> channel_bound e -> chain_typed c -> chain_ok e c -> bm_good (e_mem e) ->
  publish_claimed e c = (KB2_VQ_OK, n, e') ->
  wrote (e_mem e) (e_mem e') (publication (e_queue e) (vq_produced (e_vq e)) c).
Proof.
  intros Hp Hb Ht Hok Hg E. unfold publish_claimed in E.
  destruct (write_descriptors e c 0 (chain_segments c)) as [st1 e1] eqn:E1.
  pose proof (write_descriptors_quiet e c 0 (chain_segments c)) as [Hst1 Hf1]. rewrite E1 in Hst1, Hf1. cbn in Hst1, Hf1.
  destruct st1; try done; try (by destruct Hst1). destruct (frame_ok _ _ _ Hf1 eq_refl) as [Hv1 _].
  destruct (write_indirect_reference e1 c) as [st2 e2] eqn:E2.
  pose proof (write_indirect_quiet e1 c) as [Hst2 Hf2]. rewrite E2 in Hst2, Hf2. cbn in Hst2, Hf2.
  destruct st2; try done; try (by destruct Hst2). destruct (frame_ok _ _ _ Hf2 eq_refl) as [Hv2 _].
  assert (Hw2 : wrote (e_mem e) (e_mem e2) (chain_writes (e_queue e) c)).
  { apply (write_chain_wrote e c e1 e2); try done. unfold e_queue. by rewrite Hv1. }
  rewrite Hv1 in Hv2. assert (Hq2 : e_queue e2 = e_queue e) by (unfold e_queue; by rewrite Hv2).
  unfold ring_slot in E. rewrite Hq2, Hv2 in E. destruct (mem_write _ _ _) as [[] m3] eqn:E3 in E; [| done].
  pose proof (available_fits e Hp). pose proof (ring_slot_range e (vq_produced (e_vq e)) Hb).
  rewrite u64_small in E3 by (unfold is_u64; lia). apply bytes_write in E3; [| apply Hw2 | by rewrite blen_entry].
  apply publish_index_wrote in E; [| lia | apply E3]. cbn [set_mem e_mem e_vq] in E. rewrite Hv2 in E. unfold publication.
  apply (wrote_app _ (e_mem e2)); [done |]. change [?a; ?b] with ([a] ++ [b]). by apply (wrote_app _ m3).
Qed.

(** ** What the view holds afterwards *)

Lemma ring_write_inside e c index w x :
  channel_bound e -> w ∈ [entry_write (e_queue e) index (c_head c); index_write (q_available_address (e_queue e)) (u16 (index + 1))] -> inside w x ->
  q_available_address (e_queue e) <= x < q_available_address (e_queue e) + (6 + 2 * q_queue_size (e_queue e)).
Proof.
  intros Hb Hw Hx. pose proof (ring_slot_range e index Hb). pose proof (queue_size_bounds e Hb).
  apply elem_of_cons in Hw as [-> | ->%list_elem_of_singleton]; unfold inside, entry_write, entry_address, index_write in Hx;
    cbn [fst snd] in Hx; [rewrite blen_entry in Hx; lia |]. change (blen [_; _]) with 2 in Hx. lia.
Qed.

Lemma publication_apart e c index :
  placed e -> channel_bound e -> chain_typed c -> chain_ok e c -> pairwise apart (publication (e_queue e) index c).
Proof.
  intros Hp Hb Ht Hok. apply pairwise_app. split_and!.
  - by apply chain_writes_apart.
  - apply pairwise_cons. split; [| apply pairwise_singleton]. intros w ->%list_elem_of_singleton x Hx Hx'.
    pose proof (ring_slot_range e index Hb). unfold inside, entry_write, entry_address, index_write in *. cbn [fst snd] in *.
    rewrite blen_entry in Hx. change (blen [_; _]) with 2 in Hx'. lia.
  - intros v w Hv Hw x Hx Hx'. apply (chain_writes_clear e c Hp Ht Hok v x Hv Hx). by eapply ring_write_inside.
Qed.

(** Two owned chains have their descriptors in different places. *)
Lemma chains_writes_apart e h p h' p' v w :
  struct_inv e -> placed e -> in_slot e h p -> in_slot e h' p' -> h <> h' ->
  v ∈ chain_writes (e_queue e) (e_chain e p) -> w ∈ chain_writes (e_queue e) (e_chain e p') -> apart v w.
Proof.
  intros Hs Hp Hin Hin' Hne Hv Hw x Hx Hx'. pose proof (si_typed _ Hs) as Ht.
  destruct (si_chain _ Hs _ _ Hin) as (_ & Hok & _), (si_chain _ Hs _ _ Hin') as (_ & Hok' & _).
  destruct (chain_write_inside e _ Hp (Ht p) Hok v x Hv Hx) as (Hl & _ & Hcase).
  destruct (chain_write_inside e _ Hp (Ht p') Hok' w x Hw Hx') as (Hl' & _ & Hcase').
  unfold inside, cell, DESC_SIZE in *.
  assert (Hring : forall d, 0 <= d < q_queue_size (e_queue e) -> q_descriptor_address (e_queue e) + d * 16 <= x ->
    x < q_descriptor_address (e_queue e) + d * 16 + 16 ->
    q_descriptor_address (e_queue e) <= x < q_descriptor_address (e_queue e) + 16 * q_queue_size (e_queue e)) by lia.
  assert (Hdesc : (q_descriptor_address (e_queue e), 16 * q_queue_size (e_queue e)) ∈ rings (e_queue e)) by (by left).
  destruct Hcase as [(d & Hd & Hr & E) | Htab], Hcase' as [(d' & Hd' & Hr' & E') | Htab'].
  - apply Hne, (direct_disjoint e _ p _ p' d Hs Hin Hin' Hd). by replace d with d' by lia.
  - apply (table_clear e _ Hp (Ht p') Hok' x _ Hdesc Htab'). apply (Hring d); lia.
  - apply (table_clear e _ Hp (Ht p) Hok x _ Hdesc Htab). apply (Hring d'); lia.
  - apply (si_apart _ Hs _ _ _ _ Hin Hin' Hne). exists (table_lease (e_chain e p)), (table_lease (e_chain e p')).
    split_and!; [by left | by left |]. intros Hc. apply Hc; [by left |]. by exists x.
Qed.

Section Published.
Context e e' h p (Hs : struct_inv e) (Hp : placed e) (Hin : in_slot e h p).
Notation q := (e_queue e).
Notation index := (vq_produced (e_vq e)).
Context (Hw : wrote (e_mem e) (e_mem e') (publication q index (e_chain e p))).

Lemma published_holds w : w ∈ publication q index (e_chain e p) -> holds_write (bm_byte (e_mem e')) w.
Proof.
  intros Hin' x Hx. rewrite (proj2 Hw). apply overlays_inside; [| done ..].
  apply publication_apart; [done | apply Hs .. |]. apply (si_chain _ Hs _ _ Hin).
Qed.

Lemma published_outside x :
  (forall w, w ∈ publication q index (e_chain e p) -> ~ inside w x) -> bm_byte (e_mem e') x = bm_byte (e_mem e) x.
Proof. intros Hx. rewrite (proj2 Hw). by apply overlays_outside. Qed.

Lemma published_used x :
  q_used_address q <= x < q_used_address q + (6 + 8 * q_queue_size q) -> bm_byte (e_mem e') x = bm_byte (e_mem e) x.
Proof.
  intros Hx. apply published_outside. intros w [Hv | Hv]%elem_of_app Hx'.
  - by apply (chain_writes_clear_used e (e_chain e p) Hp (si_typed _ Hs p) ltac:(by apply (si_chain _ Hs _ _ Hin)) w x Hv Hx').
  - apply (pl_apart e Hp 1%nat 2%nat _ _ ltac:(lia) eq_refl eq_refl). exists x. cbn [fst snd].
    split; [| lia]. eapply ring_write_inside; [apply Hs | exact Hv | done].
Qed.

Lemma published_other h' p' :
  in_slot e h' p' -> h' <> h -> encoded (bm_byte (e_mem e)) q (e_chain e p') ->
  encoded (bm_byte (e_mem e')) q (e_chain e p').
Proof.
  intros Hin' Hne Henc w Hw'. eapply holds_write_ext; [| by apply Henc]. intros x Hx. apply published_outside.
  intros v [Hv | Hv]%elem_of_app Hx'.
  - by apply (chains_writes_apart e h' p' h p w v Hs Hp Hin' Hin Hne Hw' Hv x).
  - apply (chain_writes_clear e (e_chain e p') Hp (si_typed _ Hs p') ltac:(by apply (si_chain _ Hs _ _ Hin')) w x Hw' Hx).
    eapply ring_write_inside; [apply Hs | exact Hv | done].
Qed.

Lemma published_entry i v :
  Z.land i (q_queue_size q - 1) <> Z.land index (q_queue_size q - 1) ->
  holds_write (bm_byte (e_mem e)) (entry_write q i v) -> holds_write (bm_byte (e_mem e')) (entry_write q i v).
Proof.
  intros Hne Hh. eapply holds_write_ext; [| done]. intros x Hx. apply published_outside.
  pose proof (ring_slot_range e i (si_bound _ Hs)). pose proof (ring_slot_range e index (si_bound _ Hs)).
  unfold inside, entry_write, entry_address in Hx. cbn [fst snd] in Hx. rewrite blen_entry in Hx.
  intros w [Hv | Hv]%elem_of_app Hx'.
  - apply (chain_writes_clear e (e_chain e p) Hp (si_typed _ Hs p) ltac:(by apply (si_chain _ Hs _ _ Hin)) w x Hv Hx'). lia.
  - unfold inside in Hx'. apply elem_of_cons in Hv as [-> | ->%list_elem_of_singleton]; unfold entry_write, entry_address, index_write in Hx';
      cbn [fst snd] in Hx'; [rewrite blen_entry in Hx'; lia |]. change (blen [_; _]) with 2 in Hx'. lia.
Qed.
End Published.
End Publication.

(** * Reading a descriptor back *)

Lemma read_u16_ext b b' off :
  get_byte b off = get_byte b' off -> get_byte b (off + 1) = get_byte b' (off + 1) -> read_u16 b off = read_u16 b' off.
Proof. intros H1 H2. unfold read_u16. by rewrite H1, H2. Qed.

Lemma read_write_u16 b off v : 0 <= off -> off + 2 <= blen b -> read_u16 (write_u16 b off v) off = u16 v.
Proof.
  intros Ho Hl. rewrite read_u16_add. unfold write_u16. rewrite (get_byte_put_byte_eq _ (off + 1)) by (rewrite blen_put_byte; lia).
  rewrite get_byte_put_byte_ne, get_byte_put_byte_eq by lia. rewrite Z.shiftr_div_pow2 by lia. unfold u8, u16.
  change (2 ^ 16) with 65536. change (2 ^ 8) with 256. Z.div_mod_to_equations. lia.
Qed.

Lemma get_byte_write_u16_ne b off v j :
  0 <= off -> 0 <= j -> (j < off \/ off + 2 <= j) -> get_byte (write_u16 b off v) j = get_byte b j.
Proof. intros. unfold write_u16. by rewrite !get_byte_put_byte_ne by lia. Qed.

Lemma descriptor_fields (a n f d : Z) :
  let b := descriptor_bytes a n f d in
  read_u64 b 0 = u64 a /\ read_u32 b 8 = u32 n /\ read_u16 b 12 = u16 f /\ read_u16 b 14 = u16 d.
Proof.
  intros b. unfold b, descriptor_bytes. rewrite !write_u64_store, !write_u32_store.
  set (b0 := store_u64 (replicate 16 0) 0 a). set (b1 := store_u32 b0 8 n). set (b2 := write_u16 b1 12 f).
  assert (L0 : blen b0 = 16) by (unfold b0; by rewrite blen_store_u64).
  assert (L1 : blen b1 = 16) by (unfold b1; by rewrite blen_store_u32).
  assert (L2 : blen b2 = 16) by (unfold b2, write_u16; by rewrite !blen_put_byte).
  split_and!.
  - rewrite read_u64_load, (load_u64_ext _ b0).
    + by apply load_store_u64_eq.
    + intros i Hi. rewrite get_byte_write_u16_ne by lia. unfold b2. rewrite get_byte_write_u16_ne by lia.
      unfold b1. by rewrite get_byte_store_u32_ne by lia.
  - rewrite read_u32_load, (load_u32_ext _ b1).
    + apply load_store_u32_eq; lia.
    + intros i Hi. rewrite get_byte_write_u16_ne by lia. unfold b2. by rewrite get_byte_write_u16_ne by lia.
  - rewrite (read_u16_ext _ b2) by (apply get_byte_write_u16_ne; lia). apply read_write_u16; lia.
  - apply read_write_u16; lia.
Qed.

(** What holds a descriptor reads as one. *)
Lemma holds_descriptor (V : view) (x a n f d : Z) :
  (forall y, is_u8 (V y)) -> holds_write V (x, descriptor_bytes a n f d) ->
  let b := view_bytes V x 16 in
  read_u64 b 0 = u64 a /\ read_u32 b 8 = u32 n /\ read_u16 b 12 = u16 f /\ read_u16 b 14 = u16 d.
Proof.
  intros HV Hh b. assert (Hb : forall i, 0 <= i < 16 -> get_byte b i = get_byte (descriptor_bytes a n f d) i).
  { intros i Hi. unfold b. rewrite get_byte_view by done. rewrite Hh; [f_equal; cbn; lia |].
    unfold inside. cbn [fst snd]. rewrite blen_descriptor. lia. }
  destruct (descriptor_fields a n f d) as (<- & <- & <- & <-). split_and!.
  - rewrite !read_u64_load. apply load_u64_ext. intros i Hi. apply Hb. lia.
  - rewrite !read_u32_load. apply load_u32_ext. intros i Hi. apply Hb. lia.
  - apply read_u16_ext; apply Hb; lia.
  - apply read_u16_ext; apply Hb; lia.
Qed.

Lemma holds_entry V q (index head : Z) :
  (forall y, is_u8 (V y)) -> is_u16 head -> holds_write V (entry_write q index head) ->
  read_u16 (view_bytes V (entry_address q index) 2) 0 = head.
Proof.
  intros HV Hh Hw. assert (Hb : forall i, 0 <= i < 2 ->
    get_byte (view_bytes V (entry_address q index) 2) i = get_byte (write_u16 [0; 0] 0 head) i).
  { intros i Hi. rewrite get_byte_view by done. rewrite Hw; [f_equal; cbn; lia |]. unfold inside, entry_write. cbn [fst snd].
    rewrite blen_entry. lia. }
  rewrite (read_u16_ext _ (write_u16 [0; 0] 0 head)) by (apply Hb; lia). rewrite read_write_u16 by (done || vm_compute; congruence).
  by apply u16_small.
Qed.

Lemma holds_index V (ring index : Z) :
  is_u16 index -> holds_write V (index_write ring index) -> view_u16 V (ring + 2) = index.
Proof.
  intros Hi Hw. unfold view_u16, index_write in *.
  rewrite (Hw (ring + 2)), (Hw (ring + 2 + 1)); unfold inside; cbn [fst snd];
    [| change (blen [_; _]) with 2; lia ..].
  replace (ring + 2 + 1 - (ring + 2)) with 1 by lia.
  rewrite Z.sub_diag. unfold get_byte. change (nth (Z.to_nat 0) [u8 index; u8 (Z.shiftr index 8)] 0) with (u8 index).
  change (nth (Z.to_nat 1) [u8 index; u8 (Z.shiftr index 8)] 0) with (u8 (Z.shiftr index 8)). rewrite !u8_idemp.
  rewrite lor_shiftl_add by (lia || apply Z.mod_pos_bound; lia). rewrite Z.shiftr_div_pow2 by lia. unfold u8, is_u16 in *.
  change (2 ^ 16) with 65536 in *. change (2 ^ 8) with 256. Z.div_mod_to_equations. lia.
Qed.

Lemma blen_used q index head n : blen (used_write q index head n).2 = 8.
Proof. cbn. by rewrite !write_u32_store, !blen_store_u32. Qed.

Lemma holds_used V q (index head n : Z) :
  (forall y, is_u8 (V y)) -> is_u32 head -> is_u32 n -> holds_write V (used_write q index head n) ->
  let b := view_bytes V (used_entry_address q index) 8 in read_u32 b 0 = head /\ read_u32 b 4 = n.
Proof.
  intros HV Hh Hn Hw b. set (c := (used_write q index head n).2).
  assert (Hb : forall i, 0 <= i < 8 -> get_byte b i = get_byte c i).
  { intros i Hi. unfold b. rewrite get_byte_view by done. rewrite Hw; [f_equal; cbn; lia |]. unfold inside. rewrite blen_used. cbn; lia. }
  rewrite !read_u32_load, (load_u32_ext b c 0), (load_u32_ext b c 4) by (intros; apply Hb; lia). unfold c, used_write. cbn [snd].
  rewrite !write_u32_store, load_u32_store_u32_ne, !load_store_u32_eq by (rewrite ?blen_store_u32; done || lia).
  split; by apply u32_small.
Qed.

(** The flag bits of a descriptor. *)
Lemma segment_flags_bits s more :
  u16 (segment_flags s more) = segment_flags s more /\
  segment_flags s more &~ Z.lor (Z.lor DESC_NEXT DESC_WRITE) DESC_INDIRECT = 0 /\
  Z.land (segment_flags s more) DESC_INDIRECT = 0 /\
  (Z.land (segment_flags s more) DESC_WRITE =? 0) = (sg_writable s =? 0) /\
  (Z.land (segment_flags s more) DESC_NEXT =? 0) = negb more.
Proof. unfold segment_flags. by destruct (sg_writable s =? 0), more. Qed.

(** * Payload *)

(** The addresses of the bytes of a chain that the driver offers to read ([w] = 0) or to
    write ([w] = 1), in order. *)
Definition cells (w : Z) (segments : list kb2_vq_segment) : list Z :=
  segments ≫= (fun s => if sg_writable s =? w then seqZ (sg_address s) (sg_length s) else []).

(** A cell of a response: in a segment the device may write. *)
Lemma cells_segment w segments i a :
  cells w segments !! i = Some a -> exists s, s ∈ segments /\ sg_writable s = w /\ sg_address s <= a < sg_address s + sg_length s.
Proof.
  intros (s & Ha & Hs)%list_elem_of_lookup_2%list_elem_of_bind. exists s. destruct (Z.eqb_spec (sg_writable s) w) as [E | E].
  - apply elem_of_seqZ in Ha. done.
  - by apply not_elem_of_nil in Ha.
Qed.

Lemma cells_cons w s segments :
  cells w (s :: segments) = (if sg_writable s =? w then seqZ (sg_address s) (sg_length s) else []) ++ cells w segments.
Proof. done. Qed.

(** The range of a segment does not wrap. *)
Definition segment_fits (s : kb2_vq_segment) : Prop :=
  is_u64 (sg_address s) /\ 0 <= sg_length s /\ (sg_length s = 0 \/ sg_address s + sg_length s <= U64_MAX).

Lemma view_bytes_seqZ (V : view) a n : view_bytes V a n = V <$> seqZ a n.
Proof.
  transitivity (V <$> (Z.add a <$> seqZ 0 n)); [by rewrite <- list_fmap_compose | by rewrite fmap_add_seqZ, Z.add_0_r].
Qed.

Lemma seqZ_split a n k : 0 <= k <= n -> seqZ a n = seqZ a k ++ seqZ (a + k) (n - k).
Proof. intros Hk. rewrite <- seqZ_app by lia. f_equal. lia. Qed.

(** The first [size] cells behind [off] start with a part of the segment [off] is in. *)
Lemma take_cells a n off size (rest : list Z) :
  0 <= off < n -> 0 < size ->
  let part := Z.min (n - off) size in
  take (Z.to_nat size) (drop (Z.to_nat off) (seqZ a n ++ rest)) = seqZ (a + off) part ++ take (Z.to_nat (size - part)) rest.
Proof.
  intros Ho Hs part. rewrite drop_app_le by (rewrite length_seqZ; lia). rewrite (seqZ_split a n off) by lia.
  rewrite drop_app_length' by (by rewrite length_seqZ). destruct (Z.leb_spec size (n - off)) as [Hle | Hgt].
  - unfold part. rewrite Z.min_r, Z.sub_diag, take_0, app_nil_r by lia. rewrite (seqZ_split (a + off) (n - off) size) by lia.
    rewrite <- app_assoc. by rewrite take_app_length' by (by rewrite length_seqZ).
  - unfold part. rewrite Z.min_l by lia. rewrite take_app_ge by (rewrite length_seqZ; lia). rewrite length_seqZ. do 2 f_equal. lia.
Qed.

(** A cell is in the first segment, or behind it and elsewhere. *)
Lemma lookup_first_cells a n (rest : list Z) i x :
  0 <= n -> (forall y, y ∈ seqZ a n -> y ∉ rest) -> (seqZ a n ++ rest) !! i = Some x ->
  (Z.of_nat i < n /\ x = a + Z.of_nat i /\ x ∉ rest) \/ (n <= Z.of_nat i /\ rest !! (i - Z.to_nat n)%nat = Some x).
Proof.
  intros Hn Hd [Hi | [Hge Hi]]%lookup_app_Some.
  - left. pose proof (list_elem_of_lookup_2 _ _ _ Hi) as Hin. apply lookup_seqZ in Hi as [-> Hi].
    split_and!; [done | done | by apply Hd].
  - rewrite length_seqZ in Hge, Hi. right. split; [lia | done].
Qed.

Section Payload.
Context {M : Type} `{VqMemoryLaws M} `{VqBytes M} `{!VqBytesLaws M}.
Implicit Types e : engine M.

(** Reading delivers the bytes of the cells, in order. *)
Lemma copy_in_bytes e segments w off size out bytes e' :
  Forall segment_fits segments -> bm_good (e_mem e) -> 0 <= off -> 0 <= size ->
  copy_in e segments w off size out = (KB2_VQ_OK, bytes, e') ->
  same_bytes (e_mem e) (e_mem e') /\
  bytes = out ++ (bm_byte (e_mem e) <$> take (Z.to_nat size) (drop (Z.to_nat off) (cells w segments))).
Proof.
  revert e off size out. induction segments as [| s segments IH]; intros e off size out Hf Hg Ho Hs E; cbn [copy_in] in E.
  { destruct (Z.eqb_spec size 0) as [-> |]; [| done]. injection E as <- <-. rewrite take_0, app_nil_r. by repeat split. }
  destruct (Z.eqb_spec size 0) as [-> | Hne].
  { injection E as <- <-. rewrite take_0, app_nil_r. by repeat split. }
  apply Forall_cons in Hf as [(Ha & Hl & Hfit) Hf]. rewrite cells_cons.
  destruct (Z.eqb_spec (sg_writable s) w) as [Hw | Hw]; cbn [negb] in E; [| by apply IH in E].
  destruct (Z.leb_spec (sg_length s) off) as [Hle | Hlt].
  { apply IH in E as [E1 ->]; [| done .. | lia | done]. split; [done |]. do 3 f_equal.
    rewrite drop_app_ge by (rewrite length_seqZ; lia). rewrite length_seqZ. f_equal. lia. }
  set (part := Z.min (sg_length s - off) size) in *. unfold is_u64 in Ha. rewrite u64_small in E by (unfold is_u64, U64_MAX in *; lia).
  destruct (bytes_read (e_mem e) (sg_address s + off) part Hg ltac:(lia)) as (m & Er & Hm). rewrite Er in E.
  destruct (bm_readable _ _ _); [| done]. apply IH in E as [E1 ->]; [| done | apply Hm | lia .. ]. split.
  - destruct Hm as [S1 B1], E1 as [S2 B2]. split; [by eapply same_maps_trans |]. intros x. by rewrite B2.
  - rewrite <- app_assoc. f_equal. rewrite view_bytes_seqZ. cbn [set_mem e_mem].
    assert (HV : forall l, bm_byte m <$> l = bm_byte (e_mem e) <$> l) by (intros l; apply list_fmap_ext; intros; apply Hm).
    rewrite HV, <- fmap_app, drop_0. by rewrite take_cells by lia.
Qed.

(** Writing puts the bytes into the cells, in order, and nothing anywhere else. *)
Lemma copy_out_bytes e segments off bytes e' :
  Forall segment_fits segments -> NoDup (cells 1 segments) -> bm_good (e_mem e) -> 0 <= off ->
  copy_out e segments 1 off bytes = (KB2_VQ_OK, e') ->
  same_maps (e_mem e) (e_mem e') /\
  (forall x, x ∉ cells 1 segments -> bm_byte (e_mem e') x = bm_byte (e_mem e) x) /\
  (forall i a, cells 1 segments !! i = Some a ->
     bm_byte (e_mem e') a =
     if decide (off <= Z.of_nat i < off + blen bytes) then get_byte bytes (Z.of_nat i - off) else bm_byte (e_mem e) a).
Proof.
  revert e off bytes. induction segments as [| s segments IH]; intros e off bytes Hf Hnd Hg Ho E; cbn [copy_out] in E.
  { destruct (Nat.eqb_spec (length bytes) 0); [| done]. injection E as <-. by split_and!. }
  destruct (Nat.eqb_spec (length bytes) 0) as [Hz | Hz].
  { injection E as <-. split_and!; [by split | done |]. intros i a _. rewrite decide_False; [done | unfold blen; lia]. }
  apply Forall_cons in Hf as [(Ha & Hl & Hfit) Hf]. rewrite cells_cons in *.
  destruct (Z.eqb_spec (sg_writable s) 1) as [Hw | Hw]; cbn [negb] in E; [| by apply IH].
  apply NoDup_app in Hnd as (Hn1 & Hn2 & Hnd).
  pose proof (fun i a => lookup_first_cells (sg_address s) (sg_length s) (cells 1 segments) i a Hl Hn2) as Hlook.
  destruct (Z.leb_spec (sg_length s) off) as [Hle | Hlt].
  - apply IH in E as (E1 & E2 & E3); [| done | done | done | lia]. split_and!; [done | |].
    + intros x Hx. apply E2. intros Hx'. apply Hx, elem_of_app. by right.
    + intros i a [(Hi & -> & Hn) | (Hi & Hc)]%Hlook.
      * rewrite E2, decide_False by (done || lia). done.
      * rewrite (E3 _ _ Hc). destruct (decide (off <= Z.of_nat i < off + blen bytes)); [rewrite decide_True by lia | by rewrite decide_False by lia].
        f_equal. lia.
  - set (part := Z.min (sg_length s - off) (blen bytes)) in *.
    assert (Hpart : blen (take (Z.to_nat part) bytes) = part) by (unfold blen in *; rewrite length_take; lia).
    unfold is_u64 in Ha. rewrite u64_small in E by (unfold is_u64, U64_MAX in *; lia).
    destruct (mem_write _ _ _) as [[] m] eqn:Ew in E; [| done].
    apply bytes_write in Ew as [Sm Bm]; [| done | unfold blen in *; lia].
    apply IH in E as (E1 & E2 & E3); [| done | done | apply Sm | done]. cbn [set_mem e_mem] in *. split_and!.
    + by eapply same_maps_trans.
    + intros x Hx. rewrite not_elem_of_app, elem_of_seqZ in Hx. rewrite E2 by tauto. rewrite Bm. cbn [foldl].
      apply overlay_out. unfold inside. cbn [fst snd]. rewrite Hpart. lia.
    + intros i a [(Hi & -> & Hn) | (Hi & Hc)]%Hlook.
      * rewrite E2, Bm by done. cbn [foldl].
        destruct (decide (off <= Z.of_nat i < off + blen bytes)).
        -- rewrite overlay_in by (unfold inside; cbn [fst snd]; rewrite Hpart; lia). cbn [fst snd].
           unfold get_byte. rewrite !nth_lookup, lookup_take_lt by lia. do 4 f_equal. lia.
        -- apply overlay_out. unfold inside. cbn [fst snd]. rewrite Hpart. lia.
      * rewrite (E3 _ _ Hc), Bm. cbn [foldl].
        assert (Hdrop : blen (drop (Z.to_nat part) bytes) = blen bytes - part) by (unfold blen in *; rewrite length_drop; lia).
        assert (Hout : ~ (sg_address s + off <= a < sg_address s + off + part)).
        { intros Hin. apply (Hn2 a); [apply elem_of_seqZ; lia | by eapply list_elem_of_lookup_2]. }
        rewrite overlay_out by (unfold inside; cbn [fst snd]; rewrite Hpart; lia). rewrite Hdrop.
        destruct (decide (off <= Z.of_nat i < off + blen bytes)); [rewrite decide_True by lia | by rewrite decide_False by lia].
        unfold get_byte. rewrite !nth_lookup, lookup_drop. do 3 f_equal. unfold part. unfold blen in *. lia.
Qed.
End Payload.

(** * The other end *)

Record same_chain (a b : kb2_vq_chain) : Prop := {
  sc_count : c_count b = c_count a;
  sc_segments : chain_segments b = chain_segments a;
  sc_head : c_head b = c_head a;
  sc_indirect : c_indirect b = c_indirect a;
  sc_indirect_length : c_indirect_length b = c_indirect_length a;
  sc_indirect_descriptor : c_indirect_descriptor b = c_indirect_descriptor a;
  sc_indirect_first : c_indirect_first b = c_indirect_first a;
}.

Section Ends.
Context {M : Type} `{VqMemoryLaws M} `{VqBytes M} `{!VqBytesLaws M}.
Implicit Types e d : engine M.

(** A range inside a region of the channel that may be read. *)
Definition readable_range e (a n : Z) : Prop :=
  exists r, r ∈ e_regions e /\ Z.land (rg_rights r) KB2_PROTOCOL_REGION_RIGHT_READ = KB2_PROTOCOL_REGION_RIGHT_READ /\
    rg_transport_base r <= a /\ a + n <= rg_transport_base r + rg_length r.

(** An address inside a region of the channel. *)
Definition shared e (x : Z) : Prop :=
  exists r, r ∈ e_regions e /\ rg_transport_base r <= x < rg_transport_base r + rg_length r.

(** The two ends work on the same queue of the same channel; each backend can read its
    regions and the ring index of the other end; the backends deliver the same bytes; the
    device's policy allows what the driver's does. *)
Record linked e d : Prop := {
  lk_queue : e_queue d = e_queue e;
  lk_regions : e_regions d = e_regions e;
  lk_queues : e_queues d = e_queues e;
  lk_policy : forall id a n r, mem_payload_allowed (e_mem e) id a n r = true -> mem_payload_allowed (e_mem d) id a n r = true;
  lk_good : bm_good (e_mem d);
  lk_good_driver : bm_good (e_mem e);
  lk_bytes : forall x, shared e x -> bm_byte (e_mem d) x = bm_byte (e_mem e) x;
  lk_readable : forall a n, 0 < n -> readable_range e a n -> bm_readable (e_mem d) a n = true;
  lk_readable_driver : forall a n, 0 < n -> readable_range e a n -> bm_readable (e_mem e) a n = true;
  lk_loadable : bm_loadable (e_mem d) (q_available_address (e_queue e) + 2) = true;
  lk_loadable_driver : bm_loadable (e_mem e) (q_used_address (e_queue e) + 2) = true;
}.

Lemma readable_sub e a n b m : a <= b -> b + m <= a + n -> readable_range e a n -> readable_range e b m.
Proof. intros ? ? (r & ? & ? & ? & ?). exists r. split_and!; [done | done | lia | lia]. Qed.

Lemma readable_shared e a n x : readable_range e a n -> a <= x < a + n -> shared e x.
Proof. intros (r & Hr & _ & ? & ?) Hx. exists r. split; [done | lia]. Qed.

Lemma ring_readable e range : placed e -> range ∈ rings (e_queue e) -> readable_range e range.1 range.2.
Proof. intros Hp Hr. destruct (pl_covered e Hp range Hr) as (r & Hin & Hri & ? & ?). exists r. by rewrite Hri. Qed.

(** The link outlives every change of the backends that keeps the maps, the policies and
    the agreement on the shared bytes. *)
Lemma linked_ext e d e' d' :
  same_env e e' -> same_env d d' -> same_maps (e_mem e) (e_mem e') -> same_maps (e_mem d) (e_mem d') ->
  (forall x, shared e x -> bm_byte (e_mem d') x = bm_byte (e_mem e') x) -> linked e d -> linked e' d'.
Proof.
  intros [_ R Q U P] [_ R' Q' U' P'] [G Rd Ld] [G' Rd' Ld'] B [L1 L2 L3 L4 L5 L5' L6 L7 L7' L8 L8'].
  assert (Hrange : forall a n, readable_range e' a n <-> readable_range e a n) by (intros; unfold readable_range; by rewrite R).
  assert (Hshared : forall x, shared e' x <-> shared e x) by (intros; unfold shared; by rewrite R).
  split; rewrite ?R, ?Q, ?U, ?R', ?Q', ?U', ?Ld, ?Ld'; try done.
  - intros id a n r. rewrite P, P'. apply L4.
  - intros x Hx%Hshared. by apply B.
  - intros a n Hn Hr%Hrange. rewrite Rd'. by apply L7.
  - intros a n Hn Hr%Hrange. rewrite Rd. by apply L7'.
Qed.

Lemma same_maps_refl (m : M) : bm_good m -> same_maps m m.
Proof. by split. Qed.

Lemma linked_mem e d m :
  same_bytes (e_mem d) m -> same_policy (e_mem d) m -> linked e d -> linked e (set_mem d m).
Proof.
  intros [S B] P L. apply (linked_ext e d e (set_mem d m)); [by apply same_env_vq | by apply same_env_vq |
    apply same_maps_refl, L | done | | done]. intros x Hx. cbn [set_mem e_mem]. rewrite B. by apply L.
Qed.

Lemma linked_vq e d d' :
  e_mem d' = e_mem d -> vq_queue (e_vq d') = vq_queue (e_vq d) -> vq_channel (e_vq d') = vq_channel (e_vq d) ->
  linked e d -> linked e d'.
Proof.
  intros Hm Hq Hc L. apply (linked_ext e d e d'); rewrite ?Hm; [by apply same_env_vq | | apply same_maps_refl, L .. | apply L | done].
  apply same_env_vq; [done | done | by rewrite Hm].
Qed.

Lemma payload_ok_linked e d a n r : linked e d -> payload_ok e a n r -> payload_ok d a n r.
Proof.
  intros [L1 L2 L3 L4 _ _ _ _ _ _ _] [Hz | (? & ? & Hr & Hc & Ha)]; [by left |]. right. rewrite L1, L2, L3. split_and!; try done.
  by apply L4.
Qed.

Lemma same_chain_leases a b : same_chain a b -> leases b = leases a.
Proof. intros [S1 S2 S3 S4 S5 S6 S7]. unfold leases, table_lease. by rewrite S2, S4, S5. Qed.

Lemma same_chain_direct_count a b : same_chain a b -> direct_count b = direct_count a.
Proof. intros [S1 S2 S3 S4 S5 S6 S7]. unfold direct_count. by rewrite S1, S5, S7. Qed.

Lemma same_chain_direct a b : same_chain a b -> direct_descriptors b = direct_descriptors a.
Proof.
  intros S. pose proof (same_chain_direct_count a b S) as Hd. destruct S as [S1 S2 S3 S4 S5 S6 S7].
  unfold direct_descriptors. by rewrite Hd, S2, S5, S6.
Qed.

(** What is valid at one end is valid at the other. *)
Lemma chain_ok_linked e d a b :
  linked e d -> chain_ok e a -> same_chain a b -> c_segments b <> None -> (c_count b <= c_capacity b)%nat ->
  chain_ok d (with_totals b).
Proof.
  intros Hl Hok S Harr Hcap. pose proof (same_chain_direct_count a b S) as Hdc. pose proof (same_chain_direct a b S) as Hdd.
  pose proof (same_chain_leases a b S) as Hle. destruct S as [S1 S2 S3 S4 S5 S6 S7].
  destruct Hok as [K1 K2 K3 K4 K5 K6 K7 K8 K9 K10 K11 K12 K13 K14 K15]. pose proof (lk_queue _ _ Hl) as HU.
  assert (Hpay : forall s, segment_payload_ok e s -> segment_payload_ok d s) by (intros s; by apply payload_ok_linked).
  split; unfold entry_descriptor, table_ok, table_descriptors, direct_descriptors, leases, table_lease in *;
    change (chain_segments (with_totals b)) with (chain_segments b); change (direct_count (with_totals b)) with (direct_count b);
    cbn [with_totals set_totals c_segments c_count c_capacity c_head c_indirect c_indirect_length c_indirect_descriptor
         c_indirect_first c_readable c_writable]; rewrite ?HU, ?Hdc, ?S2, ?S3, ?S4, ?S5, ?S6, ?S7; try done.
  - lia.
  - lia.
  - case_decide; [done |]. rewrite S1. destruct K5 as (T1 & T2 & T3 & T4 & T5 & T6). split_and!; try done.
    by eapply payload_ok_linked.
  - eapply Forall_impl; [exact K12 | exact Hpay].
  - destruct K14 as [<- <-]. done.
Qed.

(** * Reading a chain back *)

(** The first [i] segments of [K] are read, in the main table or in its own. *)
Record reading (K c : kb2_vq_chain) (i : nat) (indirect : bool) : Prop := {
  rd_typed : chain_typed c;
  rd_array : c_segments c <> None;
  rd_capacity : (c_count K <= c_capacity c)%nat;
  rd_count : c_count c = i;
  rd_segments : chain_segments c = take i (chain_segments K);
  rd_indirect : c_indirect c = (if indirect then c_indirect K else 0);
  rd_length : c_indirect_length c = (if indirect then c_indirect_length K else 0);
  rd_descriptor : c_indirect_descriptor c = (if indirect then c_indirect_descriptor K else 0);
  rd_first : c_indirect_first c = (if indirect then c_indirect_first K else 0%nat);
}.

Section ReadBack.
Context e K (Hp : placed e) (Ht : chain_typed K) (Hok : chain_ok e K).
Notation q := (e_queue e).
Notation size := (q_queue_size (e_queue e)).
Context (Henc : encoded (bm_byte (e_mem e)) q K).

Lemma write_readable w : w ∈ chain_writes q K -> readable_range e w.1 16.
Proof.
  intros Hw. pose proof (blen_chain_write _ _ _ Hw) as Hl.
  assert (Hdirect : (exists i, i ∈ direct_descriptors K /\ 0 <= i < size /\ w.1 = cell q K false i) -> readable_range e w.1 16).
  { intros (i & _ & Hi & E). eapply readable_sub; [| | apply (ring_readable e (q_descriptor_address q, 16 * size) Hp); by left]; rewrite E; unfold cell, DESC_SIZE; cbn [fst snd]; lia. }
  destruct (chain_write_inside e K Hp Ht Hok w w.1 Hw) as (_ & _ & Hlo); [unfold inside; lia |].
  destruct Hlo as [Hc | Hlo]; [by apply Hdirect |].
  destruct (chain_write_inside e K Hp Ht Hok w (w.1 + 15) Hw) as (_ & _ & Hhi); [unfold inside; lia |].
  destruct Hhi as [Hc | Hhi]; [by apply Hdirect |].
  destruct (table_shape e K Ht Hok) as (_ & _ & _ & _ & _ & _ & _ & _ & _ & [? | (_ & _ & (r & Hr & ? & ? & ?) & _)]);
    [lia | lia |]. exists r. split_and!; [done | done | lia | lia].
Qed.

(** A descriptor that was written is read back at the other end. *)
Lemma read_back d x a n f y :
  linked e d -> (x, descriptor_bytes a n f y) ∈ chain_writes q K ->
  exists b m, mem_read (e_mem d) (u64 x) DESC_SIZE = (Some b, m) /\ linked e (set_mem d m) /\
    read_u64 b 0 = u64 a /\ read_u32 b 8 = u32 n /\ read_u16 b 12 = u16 f /\ read_u16 b 14 = u16 y.
Proof.
  intros Hl Hw. pose proof (write_readable _ Hw) as Hr. pose proof (chain_write_address e K _ Hp Ht Hok Hw) as Ha. cbn [fst] in Hr, Ha.
  destruct (bytes_read (e_mem d) x DESC_SIZE (lk_good _ _ Hl) ltac:(done)) as (m & E & Hm).
  rewrite (lk_readable _ _ Hl) in E by (done || exact Hr). rewrite u64_small by exact Ha.
  exists (view_bytes (bm_byte (e_mem d)) x 16), m. split; [exact E |]. apply policy_read in E. split; [by apply linked_mem |].
  apply holds_descriptor; [intros z; apply bytes_u8, Hl |]. eapply holds_write_ext; [| by apply Henc].
  intros z Hz. unfold inside in Hz. cbn [fst snd] in Hz. rewrite blen_descriptor in Hz. apply (lk_bytes _ _ Hl).
  eapply readable_shared; [exact Hr | lia].
Qed.

Lemma chain_segments_push c s :
  chain_typed c -> c_segments c <> None -> (c_count c < c_capacity c)%nat ->
  chain_segments (push_segment c s) = chain_segments c ++ [s].
Proof.
  intros [Ha _ _ _ _] Harr Hcap. unfold chain_segments. cbn. destruct (c_segments c) as [l |]; [| done]. cbn.
  destruct (Ha l eq_refl) as [Hl _]. rewrite (take_S_r _ _ s) by (apply list_lookup_insert_eq; lia).
  by rewrite take_insert_ge by lia.
Qed.

Lemma reading_push c i s (indirect : bool) :
  (i < c_count K)%nat -> reading K c i indirect -> segment_typed s -> chain_segments K !! i = Some s ->
  reading K (push_segment c s) (S i) indirect.
Proof.
  intros Hi [R1 R2 R3 R4 R5 R6 R7 R8 R9] Hs Hlk. split; try done.
  - by apply chain_typed_push.
  - cbn. by destruct (c_segments c).
  - cbn. lia.
  - rewrite chain_segments_push by (done || lia). rewrite R5. by rewrite (take_S_r _ _ s).
Qed.

(** The table, its limit and the index at which segment [i] is described. *)
Lemma no_repeat c i s :
  chain_segments K !! i = Some s -> reading K c i (in_table K i) ->
  existsb (fun t => sg_descriptor t =? sg_descriptor s) (drop (if in_table K i then c_indirect_first c else 0%nat) (chain_segments c)) = false.
Proof.
  intros Hs [R1 R2 R3 R4 R5 R6 R7 R8 R9]. apply not_true_iff_false. intros (t & Hin & E%Z.eqb_eq)%existsb_exists.
  apply list_elem_of_In, list_elem_of_lookup in Hin as [j Hj]. rewrite lookup_drop, R5 in Hj.
  apply lookup_take_Some in Hj as [Hj Hlt]. set (k := (_ + j)%nat) in *.
  apply (segments_differ e K Hok k i t s Hlt Hj Hs); [| done]. pose proof (lookup_lt_Some _ _ _ Hs) as Hi.
  rewrite (segment_count e K Ht Hok) in Hi. revert R9. unfold k. clear E Hj. revert Hlt. unfold k, in_table.
  destruct (Nat.leb_spec (direct_count K) i) as [Hd | Hd]; intros Hlt R9.
  - apply Nat.leb_le. rewrite R9. unfold direct_count in *. destruct (c_indirect_length K =? 0); lia.
  - apply Nat.leb_gt. lia.
Qed.

Lemma next_after_u16 i : u16 (next_after K i) = next_after K i.
Proof.
  apply u16_small. unfold next_after. destruct (more_after K i); [| by vm_compute]. destruct (_ =? _)%nat; [apply Ht |].
  destruct (chain_segments K !! S i) as [t |] eqn:Et; [| by vm_compute]. by apply (segment_descriptor K Ht (S i)).
Qed.

Definition table_at (i : nat) : Z := if in_table K i then c_indirect K else q_descriptor_address q.
Definition limit_at (i : nat) : Z := if in_table K i then c_indirect_length K / DESC_SIZE else size.

Lemma segment_below i s : chain_segments K !! i = Some s -> sg_descriptor s < limit_at i.
Proof.
  intros Hs. unfold limit_at. destruct (in_table K i) eqn:Ei.
  - by apply (table_segment e K Ht Hok i).
  - by apply (direct_segment e K Ht Hok i).
Qed.

Definition with_segment d (m : M) (p : loc) (s : kb2_vq_segment) : engine M :=
  set_chain (set_mem d m) p (push_segment (e_chain d p) s).

(** One turn of the loop reads one segment. *)
Lemma read_segment d p i s fuel :
  linked e d -> reading K (e_chain d p) i (in_table K i) -> chain_segments K !! i = Some s ->
  exists m, linked e (with_segment d m p s) /\ reading K (e_chain (with_segment d m p s) p) (S i) (in_table K i) /\
    read_descriptors (S fuel) d p (table_at i) (limit_at i) (sg_descriptor s) (in_table K i) =
      (if more_after K i then
         read_descriptors fuel (with_segment d m p s) p (table_at i) (limit_at i) (next_after K i) (in_table K i)
       else Some (KB2_VQ_OK, with_segment d m p s)).
Proof.
  intros Hl Hr Hs. pose proof (lookup_lt_Some _ _ _ Hs) as Hi. rewrite (segment_count e K Ht Hok) in Hi.
  destruct (proj1 (Forall_lookup _ _) (chain_segments_typed K Ht) i s Hs) as (Ta & Tl & Td & Tw).
  assert (Hin : descriptor_write q K i s ∈ chain_writes q K).
  { apply elem_of_app. left. apply list_elem_of_lookup. exists i. by rewrite list_lookup_imap, Hs. }
  destruct (read_back d _ _ _ _ _ Hl Hin) as (b & m & E & Hlm & F0 & F8 & F12 & F14).
  destruct (segment_flags_bits s (more_after K i)) as (B1 & B2 & B3 & B4 & B5).
  rewrite u64_small in F0 by done. rewrite u32_small in F8 by done. rewrite B1 in F12. rewrite next_after_u16 in F14.
  exists m. assert (Hseg : mkSegment (sg_address s) (sg_length s) (sg_descriptor s) (if sg_writable s =? 0 then 0 else 1) = s).
  { destruct (proj1 (Forall_lookup _ _) (ck_flags _ _ Hok) i s Hs) as [Hw | Hw]; rewrite Hw; destruct s; cbn in *; by subst. }
  split_and!.
  - by eapply (linked_vq e (set_mem d m)).
  - unfold with_segment. rewrite e_chain_set_eq. by apply reading_push.
  - cbn [read_descriptors]. rewrite (proj2 (Z.leb_gt _ _)) by (by apply segment_below). rewrite (lk_queue _ _ Hl).
    pose proof (ck_length _ _ Hok). rewrite (rd_count _ _ _ _ Hr).
    rewrite (proj2 (Z.leb_gt (q_max_chain_length q) _)) by lia. pose proof (rd_capacity _ _ _ _ Hr).
    rewrite (proj2 (Nat.leb_gt _ _)) by lia. cbn [orb].
    replace (table_at i + sg_descriptor s * DESC_SIZE) with (cell q K (in_table K i) (sg_descriptor s)) by (unfold cell, table_at; by destruct (in_table K i)).
    rewrite E. change (e_chain (set_mem d m) p) with (e_chain d p). rewrite F0, F8, F12, F14, B2, B3, B4, B5. cbn [Z.eqb negb].
    rewrite (no_repeat _ i s Hs Hr), Hseg. unfold with_segment. by destruct (more_after K i).
Qed.

Definition with_table d (m : M) (p : loc) : engine M :=
  set_chain (set_mem d m) p (set_indirect (e_chain d p) (c_indirect K) (c_indirect_length K) (c_indirect_descriptor K) (direct_count K)).

(** One turn enters the chain's own table. *)
Lemma read_reference d p fuel :
  linked e d -> channel_bound d -> c_indirect_length K <> 0 -> reading K (e_chain d p) (direct_count K) false ->
  exists m, linked e (with_table d m p) /\ reading K (e_chain (with_table d m p) p) (direct_count K) true /\
    read_descriptors (S fuel) d p (q_descriptor_address q) size (c_indirect_descriptor K) false =
    read_descriptors fuel (with_table d m p) p (c_indirect K) (c_indirect_length K / DESC_SIZE) 0 true.
Proof.
  intros Hl Hb Hn Hr. destruct (table_shape e K Ht Hok Hn) as (T1 & T2 & T3 & T4 & T5 & T6 & T7 & T8 & T9 & T10).
  destruct Ht as [_ _ Ta Tl Td].
  assert (Hin : reference_write q K ∈ chain_writes q K).
  { apply elem_of_app. right. rewrite (proj2 (Z.eqb_neq _ _)) by done. by left. }
  destruct (read_back d _ _ _ _ _ Hl Hin) as (b & m & E & Hlm & F0 & F8 & F12 & F14).
  rewrite u64_small in F0 by done. rewrite u32_small in F8 by done. change (u16 DESC_INDIRECT) with 4 in F12.
  assert (Hdc : direct_count K = c_indirect_first K) by (unfold direct_count; by rewrite (proj2 (Z.eqb_neq _ _))).
  exists m. split_and!.
  - by eapply (linked_vq e (set_mem d m)).
  - unfold with_table. rewrite e_chain_set_eq. destruct Hr as [R1 R2 R3 R4 R5 R6 R7 R8 R9]. split; try done.
    apply chain_typed_indirect; done.
  - cbn [read_descriptors]. rewrite (proj2 (Z.leb_gt size _)) by lia. rewrite (lk_queue _ _ Hl), (rd_count _ _ _ _ Hr).
    pose proof (ck_length _ _ Hok). rewrite (proj2 (Z.leb_gt (q_max_chain_length q) _)) by lia.
    pose proof (rd_capacity _ _ _ _ Hr). rewrite (proj2 (Nat.leb_gt _ _)) by lia. cbn [orb].
    change (q_descriptor_address q + _ * DESC_SIZE) with (cell q K false (c_indirect_descriptor K)).
    rewrite E. change (e_chain (set_mem d m) p) with (e_chain d p). rewrite F0, F8, F12. cbn [Z.eqb negb orb].
    change (4 &~ Z.lor (Z.lor DESC_NEXT DESC_WRITE) DESC_INDIRECT) with 0. change (Z.land 4 DESC_INDIRECT) with 4.
    change (Z.land 4 DESC_NEXT) with 0. cbn [Z.eqb negb orb]. rewrite drop_0.
    replace (existsb _ (chain_segments (e_chain d p))) with false.
    2: { symmetry. apply not_true_iff_false. intros (t & Hint & Et%Z.eqb_eq)%existsb_exists.
         apply list_elem_of_In in Hint. rewrite (rd_segments _ _ _ _ Hr) in Hint.
         pose proof (ck_direct_distinct _ _ Hok) as Hnd. unfold direct_descriptors in Hnd.
         rewrite (proj2 (Z.eqb_neq _ _)) in Hnd by done. apply NoDup_cons in Hnd as [Hnd _]. apply Hnd. rewrite <- Et.
         by apply list_elem_of_fmap_2. }
    rewrite mask15, T1, (proj2 (Z.eqb_neq (c_indirect_length K) 0)) by done. unfold DESC_SIZE in *. rewrite T2.
    rewrite (proj2 (Z.ltb_ge _ _)) by done. cbn [Z.eqb negb orb].
    assert (Hbm : channel_bound (set_mem d m)) by (by destruct Hb).
    rewrite (proj2 (payload_range_spec (set_mem d m) (c_indirect K) (c_indirect_length K) _ Hbm Ta Tl)).
    + done.
    + by eapply payload_ok_linked.
Qed.

Lemma table_after i :
  (S i < c_count K)%nat -> in_table K (S i) = in_table K i \/ S i = direct_count K /\ in_table K i = false /\ in_table K (S i) = true.
Proof.
  intros Hi. unfold in_table. destruct (Nat.leb_spec (direct_count K) i), (Nat.leb_spec (direct_count K) (S i)); try tauto; lia.
Qed.

Lemma direct_count_indirect : (direct_count K < c_count K)%nat -> c_indirect_length K <> 0.
Proof. intros Hi Hz. unfold direct_count in Hi. rewrite Hz in Hi. cbn in Hi. lia. Qed.

Lemma in_table_last i : S i = c_count K -> in_table K i = negb (c_indirect_length K =? 0).
Proof.
  intros Hi. unfold in_table, direct_count. destruct (Z.eqb_spec (c_indirect_length K) 0) as [Hz | Hn].
  - apply Nat.leb_gt. lia.
  - destruct (table_shape e K Ht Hok Hn) as (_ & _ & _ & _ & _ & _ & _ & Hf & _). apply Nat.leb_le. lia.
Qed.

Definition turns_left (n i : nat) : nat := n + (if in_table K i then 1 else if c_indirect_length K =? 0 then 1 else 2).

(** The loop reads the chain to its end. *)
Lemma read_segments p n i s d fuel :
  (i + S n = c_count K)%nat -> channel_bound d -> linked e d -> reading K (e_chain d p) i (in_table K i) ->
  chain_segments K !! i = Some s -> (turns_left n i <= fuel)%nat ->
  exists d', read_descriptors fuel d p (table_at i) (limit_at i) (sg_descriptor s) (in_table K i) = Some (KB2_VQ_OK, d') /\
    linked e d' /\ reading K (e_chain d' p) (c_count K) (negb (c_indirect_length K =? 0)).
Proof.
  revert i s d fuel. induction n as [| n IH]; intros i s d fuel Hn Hb Hl Hr Hs Hfuel; unfold turns_left in Hfuel;
    (destruct fuel as [| fuel]; [destruct (in_table K i), (c_indirect_length K =? 0); lia |]);
    destruct (read_segment d p i s fuel Hl Hr Hs) as (m & Hl1 & Hr1 & ->); set (d1 := with_segment d m p s) in *;
    assert (Hb1 : channel_bound d1) by (by destruct Hb); unfold more_after.
  - rewrite (proj2 (Nat.ltb_ge _ _)) by lia. exists d1. split_and!; [done | done |].
    rewrite <- (in_table_last i) by lia. by replace (c_count K) with (S i) by lia.
  - rewrite (proj2 (Nat.ltb_lt _ _)) by lia.
    assert (Hlt : (S i < length (chain_segments K))%nat) by (rewrite (segment_count e K Ht Hok); lia).
    destruct (lookup_lt_is_Some_2 _ _ Hlt) as [t Et]. unfold next_after, more_after.
    rewrite (proj2 (Nat.ltb_lt (S i) _)) by lia. destruct (table_after i ltac:(lia)) as [Heq | (Hd & Ei & Ei')].
    + rewrite (proj2 (Nat.eqb_neq _ _)).
      2: { intros Hd. revert Heq. unfold in_table. rewrite (proj2 (Nat.leb_le _ _)) by lia.
           rewrite (proj2 (Nat.leb_gt _ _)) by lia. done. }
      rewrite Et. cbn [fmap option_fmap option_map default]. unfold table_at, limit_at in *. rewrite <- Heq in *.
      apply IH; [lia | done | done | done | done |]. unfold turns_left. lia.
    + rewrite (proj2 (Nat.eqb_eq _ _)) by done. assert (Hne : c_indirect_length K <> 0) by (apply direct_count_indirect; lia).
      rewrite Ei in *. rewrite (proj2 (Z.eqb_neq _ _)) in Hfuel by done. destruct fuel as [| fuel]; [lia |].
      rewrite Hd in Hr1. destruct (read_reference d1 p fuel Hl1 Hb1 Hne Hr1) as (m2 & Hl2 & Hr2 & E2).
      unfold table_at, limit_at. rewrite Ei, E2. set (d2 := with_table d1 m2 p) in *.
      destruct (table_shape e K Ht Hok Hne) as (_ & _ & _ & _ & _ & _ & _ & _ & T9 & _).
      assert (Hdc : direct_count K = c_indirect_first K) by (unfold direct_count; by rewrite (proj2 (Z.eqb_neq _ _))).
      rewrite <- Hdc, <- Hd, Et in T9. cbn in T9.
      destruct (IH (S i) t d2 fuel) as (d' & E' & Hd'); [lia | by destruct Hb1 | done | by rewrite Ei', Hd | done |
        unfold turns_left; rewrite Ei'; lia |].
      unfold table_at, limit_at in E'. rewrite Ei', T9 in E'. by exists d'.
Qed.

(** read_chain from the head of a chain that was published at the other end. *)
Lemma read_descriptors_linked d p fuel :
  channel_bound d -> linked e d -> reading K (e_chain d p) 0 false -> (Z.to_nat (q_max_chain_length q) + 2 <= fuel)%nat ->
  exists d', read_descriptors fuel d p (q_descriptor_address q) size (c_head K) false = Some (KB2_VQ_OK, d') /\
    linked e d' /\ reading K (e_chain d' p) (c_count K) (negb (c_indirect_length K =? 0)).
Proof.
  intros Hb Hl Hr Hfuel. pose proof (ck_count _ _ Hok) as [Hc _]. pose proof (ck_length _ _ Hok).
  destruct (ck_head _ _ Hok) as [_ <-]. unfold entry_descriptor.
  assert (Hlt : (0 < length (chain_segments K))%nat) by (rewrite (segment_count e K Ht Hok); lia).
  destruct (lookup_lt_is_Some_2 _ _ Hlt) as [s Es]. destruct (Nat.eqb_spec (direct_count K) 0) as [Hz | Hz].
  - assert (Hne : c_indirect_length K <> 0) by (apply direct_count_indirect; lia). destruct fuel as [| fuel]; [lia |].
    rewrite <- Hz in Hr. destruct (read_reference d p fuel Hl Hb Hne Hr) as (m & Hl1 & Hr1 & ->).
    destruct (table_shape e K Ht Hok Hne) as (_ & _ & _ & _ & _ & _ & _ & _ & T9 & _).
    assert (Hdc : direct_count K = c_indirect_first K) by (unfold direct_count; by rewrite (proj2 (Z.eqb_neq _ _))).
    rewrite <- Hdc, Hz, Es in T9. cbn in T9.
    assert (Hi : in_table K 0 = true) by (unfold in_table; by rewrite Hz).
    destruct (read_segments p (c_count K - 1) 0 s (with_table d m p) fuel) as (d' & E' & Hd');
      [lia | by destruct Hb | done | by rewrite Hi, <- Hz | done | unfold turns_left; rewrite Hi; lia |].
    unfold table_at, limit_at in E'. rewrite Hi, T9 in E'. by exists d'.
  - assert (Hi : in_table K 0 = false) by (apply Nat.leb_gt; lia).
    destruct (read_segments p (c_count K - 1) 0 s d fuel) as (d' & E' & Hd');
      [lia | done | done | by rewrite Hi | done | unfold turns_left; rewrite Hi; destruct (_ =? 0); lia |].
    unfold table_at, limit_at in E'. rewrite Hi in E'. rewrite Es. by exists d'.
Qed.

Lemma reading_same c :
  reading K c (c_count K) (negb (c_indirect_length K =? 0)) -> c_head c = c_head K -> same_chain K c.
Proof.
  intros [R1 R2 R3 R4 R5 R6 R7 R8 R9] Hh. rewrite take_ge in R5 by (by rewrite (segment_count e K Ht Hok)).
  pose proof (ck_table _ _ Hok) as T. unfold table_ok in T.
  destruct (Z.eqb_spec (c_indirect_length K) 0) as [Hz | Hn]; cbn [negb] in *.
  - rewrite decide_True in T by done. destruct T as (T1 & T2 & T3). split; congruence.
  - split; done.
Qed.
End ReadBack.
End Ends.
