(* ===== verification/VirtqueueFifo.v ===== *)
(** A queue between two honest ends: first in, first out, in both directions.

    [VirtqueueOps] shows that a queue stays consistent whatever the peer writes.  Here
    the peer is the other end of the same code.  The chains the driver published and the
    device has not taken are a list, and so are the chains the device completed and the
    driver has not taken back.  [paired] relates the two engines, the two lists and what
    the shared memory says; every operation of either end keeps it. *)

From Stdlib Require Import ZArith Lia.
From stdpp Require Import base numbers tactics sets gmap list_numbers list.
From S2P Require Import Prelude Bytes Layout Protocol ProtocolSpec Virtqueue VirtqueueSpec VirtqueueInv VirtqueueOps VirtqueueBytes.
From S2P Require Import VirtqueueBytes.

Open Scope Z_scope.

Section Pair.
Context {M : Type} `{VqMemoryLaws M} `{VqBytes M} `{!VqBytesLaws M}.
Implicit Types e d : engine M.

(** For every chain of the driver the bytes of its request, as they were when it was
    published ([Q]), and what the device has written so far as its response ([R]). *)
Notation payloads := (loc -> list Z).
Implicit Types l u : list loc.
Implicit Types Q R : payloads.

Definition respond R (p : loc) (b : list Z) : payloads := fun x => if decide (x = p) then b else R x.

Lemma respond_eq R p b : respond R p b p = b.
Proof. unfold respond. by rewrite decide_True. Qed.

Lemma respond_ne R p b x : x <> p -> respond R p b x = R x.
Proof. intros Hne. unfold respond. by rewrite decide_False. Qed.

(** The bytes that belong into the cells of a chain that the driver offers to write ([w] = 1)
    or to read ([w] = 0). *)
Definition payload Q R (w : Z) (p : loc) : list Z := if w =? 1 then R p else if w =? 0 then Q p else [].

(** What the shared memory says: the two indices, the available entries of the chains
    that wait and of the one the device may give back, the used entries, the descriptors
    of every chain the driver has submitted, and the payload of all it owns. *)
Inductive said e d (l u : list loc) (Q R : payloads) : access -> Prop :=
| said_available : said e d l u Q R (index_write (q_available_address (e_queue e)) (vq_produced (e_vq e)))
| said_used : said e d l u Q R (index_write (q_used_address (e_queue e)) (vq_produced (e_vq d)))
| said_waiting i p : l !! i = Some p ->
    said e d l u Q R (entry_write (e_queue e) (u16 (vq_consumed (e_vq d) + Z.of_nat i)) (c_head (e_chain e p)))
| said_last p' : vq_last_taken (e_vq d) = Some p' ->
    said e d l u Q R (entry_write (e_queue e) (u16 (vq_consumed (e_vq d) - 1)) (c_head (e_chain d p')))
| said_completed i p : u !! i = Some p ->
    said e d l u Q R (used_write (e_queue e) (u16 (vq_consumed (e_vq e) + Z.of_nat i)) (c_head (e_chain e p)) (blen (R p)))
| said_chain h p w : in_slot e h p -> c_state (e_chain e p) = SUBMITTED -> w ∈ chain_writes (e_queue e) (e_chain e p) ->
    said e d l u Q R w
| said_payload h p w i a v : in_slot e h p -> cells w (chain_segments (e_chain e p)) !! i = Some a -> payload Q R w p !! i = Some v ->
    said e d l u Q R (a, [v]).

(** The bytes the driver offers to read, as they are now. *)
Definition request e (p : loc) : list Z := bm_byte (e_mem e) <$> cells 0 (chain_segments (e_chain e p)).

(** A chain the driver has submitted, in the slot its head names. *)
Definition outstanding e (p : loc) : Prop :=
  in_slot e (Z.to_nat (c_head (e_chain e p))) p /\ c_state (e_chain e p) = SUBMITTED.

Record paired e d (l u : list loc) (Q R : payloads) : Prop := {
  pr_driver : vq_inv e /\ vq_side (e_vq e) = KB2_VQ_DRIVER;
  pr_device : vq_inv d /\ vq_side (e_vq d) = KB2_VQ_DEVICE;
  pr_placed : placed e;
  pr_linked : linked e d;
  pr_available : vq_produced (e_vq e) = u16 (vq_consumed (e_vq d) + Z.of_nat (length l));
  pr_used : vq_produced (e_vq d) = u16 (vq_consumed (e_vq e) + Z.of_nat (length u));
  pr_said : forall w, said e d l u Q R w -> holds_write (bm_byte (e_mem e)) w;
  pr_distinct : NoDup (l ++ u);
  pr_outstanding : forall p, p ∈ l ++ u -> outstanding e p;
  pr_requests : forall h p, in_slot e h p -> length (Q p) = length (cells 0 (chain_segments (e_chain e p)));
  pr_waiting : forall p, p ∈ l -> R p = [];
  pr_completed : forall p, p ∈ u -> blen (R p) <= c_writable (e_chain e p) /\ blen (R p) <= U32_MAX;
  pr_returned : forall h p, in_slot e h p -> c_state (e_chain e p) = RETURNED -> c_used_length (e_chain e p) = blen (R p);
  pr_taken : forall h p', in_slot d h p' ->
    exists p, in_slot e h p /\ c_state (e_chain e p) = SUBMITTED /\ p ∉ l ++ u /\ same_chain (e_chain e p) (e_chain d p') /\
      c_written (e_chain d p') = blen (R p);
  pr_count : vq_owned (e_vq d) + Z.of_nat (length l) + Z.of_nat (length u) <= slot_count (submitted e) (vq_slots (e_vq e));
}.

(** ** Bounds *)

Lemma submitted_owned e : struct_inv e -> slot_count (submitted e) (vq_slots (e_vq e)) <= vq_owned (e_vq e).
Proof.
  intros Hs. destruct (si_count _ Hs) as [-> _]. unfold slot_count.
  induction (vq_slots (e_vq e)) as [| [p |] slots IH]; cbn; [lia | destruct (submitted e p); lia | lia].
Qed.

Lemma paired_bounds e d l u Q R :
  paired e d l u Q R -> 0 <= vq_owned (e_vq d) /\
  vq_owned (e_vq d) + Z.of_nat (length l) + Z.of_nat (length u) <= slot_count (submitted e) (vq_slots (e_vq e)) <= vq_owned (e_vq e) /\
  vq_owned (e_vq e) <= q_max_outstanding (e_queue e) /\ q_max_outstanding (e_queue e) <= q_queue_size (e_queue e) <= 32768.
Proof.
  intros P. destruct (pr_driver _ _ _ _ _ _ P) as [[Hs _] _], (pr_device _ _ _ _ _ _ P) as [[Hsd _] _].
  pose proof (owned_bounds _ Hsd). destruct (si_count _ Hs) as [_ Hm]. pose proof (pr_count _ _ _ _ _ _ P).
  pose proof (cb_outstanding _ (si_bound _ Hs)). pose proof (queue_size_bounds _ (si_bound _ Hs)).
  pose proof (submitted_owned e Hs). lia.
Qed.

Lemma u16_distance x n : 0 <= n < 2 ^ 16 -> u16 (u16 (x + n) - x) = n.
Proof. intros Hn. unfold u16. rewrite Zminus_mod_idemp_l. replace (x + n - x) with n by lia. by apply Z.mod_small. Qed.

Lemma u16_plus x n k : u16 (u16 (x + n) + k) = u16 (x + (n + k)).
Proof. unfold u16. rewrite Zplus_mod_idemp_l. f_equal. lia. Qed.

Lemma u16_minus x n k : u16 (u16 (x + n) - k) = u16 (x + (n - k)).
Proof. unfold u16. rewrite Zminus_mod_idemp_l. f_equal. lia. Qed.

(** Distinct indices of a window of the ring have distinct slots. *)
Lemma slots_apart size x i n :
  (exists k, 0 <= k <= 15 /\ size = 2 ^ k) -> 0 <= i < n -> n < size ->
  Z.land (u16 (x + i)) (size - 1) <> Z.land (u16 (x + n)) (size - 1).
Proof.
  intros (k & Hk & ->) Hi Hn. assert (Hp : 0 < 2 ^ k) by (apply Z.pow_pos_nonneg; lia).
  rewrite Z.sub_1_r, <- Z.ones_equiv, !Z.land_ones by lia. unfold u16.
  assert (Hmod : forall y, (y mod 2 ^ 16) mod 2 ^ k = y mod 2 ^ k).
  { intros y. replace 16 with (k + (16 - k)) by lia. rewrite Z.pow_add_r by lia.
    assert (0 < 2 ^ (16 - k)) by (apply Z.pow_pos_nonneg; lia). rewrite Z.rem_mul_r by lia. rewrite Z.mul_comm, Z_mod_plus_full.
    apply Z.mod_mod. lia. }
  rewrite !Hmod. intros E. assert (Hd : (n - i) mod 2 ^ k = 0).
  { replace (n - i) with ((x + n) - (x + i)) by lia. rewrite Zminus_mod, E, Z.sub_diag. apply Z.mod_0_l. lia. }
  rewrite Z.mod_small in Hd by lia. lia.
Qed.

(** ** Where things are said *)

Definition available_range (q : kb2_protocol_queue) (x : Z) : Prop :=
  q_available_address q + 2 <= x < q_available_address q + (4 + 2 * q_queue_size q).

Definition used_range (q : kb2_protocol_queue) (x : Z) : Prop :=
  q_used_address q + 2 <= x < q_used_address q + (4 + 8 * q_queue_size q).

Lemma index_write_inside ring index x : inside (index_write ring index) x -> ring + 2 <= x < ring + 4.
Proof. unfold inside, index_write. cbn [fst snd]. change (blen [_; _]) with 2. lia. Qed.

Lemma entry_write_inside q index v x :
  inside (entry_write q index v) x -> entry_address q index <= x < entry_address q index + 2.
Proof. unfold inside, entry_write. cbn [fst snd]. by rewrite blen_entry. Qed.

Lemma used_write_inside q index v n x :
  inside (used_write q index v n) x -> used_entry_address q index <= x < used_entry_address q index + 8.
Proof. unfold inside. by rewrite blen_used. Qed.

Definition payload_range e (x : Z) : Prop :=
  exists h p s, in_slot e h p /\ s ∈ chain_segments (e_chain e p) /\
    sg_address s <= x < sg_address s + sg_length s.

Lemma said_where e d l u Q R w x :
  channel_bound e -> said e d l u Q R w -> inside w x ->
  available_range (e_queue e) x \/ used_range (e_queue e) x \/ payload_range e x \/
  exists h p, in_slot e h p /\ c_state (e_chain e p) = SUBMITTED /\ w ∈ chain_writes (e_queue e) (e_chain e p).
Proof.
  intros Hb Hw Hx. unfold available_range, used_range. pose proof (fun i => ring_slot_range e i Hb) as Hr.
  pose proof (queue_size_bounds _ Hb).
  destruct Hw as [| | i p Hi | p' Hp' | i p Hi | h p w Hin Hst Hw | h p ww i a v Hin Ha Hv].
  - apply index_write_inside in Hx. lia.
  - apply index_write_inside in Hx. lia.
  - apply entry_write_inside in Hx. unfold entry_address in Hx. specialize (Hr (u16 (vq_consumed (e_vq d) + Z.of_nat i))). lia.
  - apply entry_write_inside in Hx. unfold entry_address in Hx. specialize (Hr (u16 (vq_consumed (e_vq d) - 1))). lia.
  - apply used_write_inside in Hx. unfold used_entry_address in Hx. specialize (Hr (u16 (vq_consumed (e_vq e) + Z.of_nat i))). lia.
  - right. right. right. by exists h, p.
  - right. right. left. apply cells_segment in Ha as (s & Hs & _ & Ha). exists h, p, s. split_and!; try done;
      unfold inside in Hx; cbn [fst snd] in Hx; change (blen [v]) with 1 in Hx; lia.
Qed.

(** The segments of an owned chain are clear of the rings and of the descriptors. *)
Lemma payload_clear e h p s x range :
  struct_inv e -> placed e -> in_slot e h p -> s ∈ chain_segments (e_chain e p) ->
  sg_address s <= x < sg_address s + sg_length s -> range ∈ rings (e_queue e) -> ~ (range.1 <= x < range.1 + range.2).
Proof.
  intros Hs Hp Hin Hsg Hx Hr Hx'. destruct (si_chain _ Hs _ _ Hin) as (_ & Hok & _).
  destruct (proj1 (Forall_forall _ _) (ck_payload _ _ Hok) s Hsg) as [? | (_ & _ & _ & Hc & _)]; [lia |].
  apply (Hc (e_queue e) range (pl_queue e Hp) Hr). by exists x.
Qed.

Lemma payload_off e x w h' p' :
  struct_inv e -> placed e -> payload_range e x -> in_slot e h' p' -> w ∈ chain_writes (e_queue e) (e_chain e p') -> ~ inside w x.
Proof.
  intros Hs Hp (h & p & s & Hin & Hsg & Hx) Hin' Hw Hx'. destruct (si_chain _ Hs _ _ Hin') as (_ & Hok' & _).
  destruct (chain_write_inside e _ Hp (si_typed _ Hs p') Hok' w x Hw Hx') as (Hl & _ & [(i & _ & Hi & E) | Htab]).
  - apply (payload_clear e h p s x (q_descriptor_address (e_queue e), 16 * q_queue_size (e_queue e)) Hs Hp Hin Hsg Hx); [by left |].
    unfold inside, cell, DESC_SIZE in *. cbn [fst snd]. lia.
  - assert (Hnc : ~ compatible (segment_lease s) (table_lease (e_chain e p'))).
    { intros Hc. apply Hc; [by right |]. exists x. done. }
    assert (Hls : segment_lease s ∈ leases (e_chain e p)) by (right; by apply list_elem_of_fmap_2).
    destruct (decide (h = h')) as [<- | Hne].
    + assert (p = p') as <- by (unfold in_slot in *; congruence).
      pose proof (ck_leases _ _ Hok') as Hpw. apply pairwise_cons in Hpw as [Hpw _]. apply Hnc, compatible_sym, Hpw.
      by apply list_elem_of_fmap_2.
    + apply (si_apart _ Hs _ _ _ _ Hin Hin' Hne). exists (segment_lease s), (table_lease (e_chain e p')).
      split_and!; [done | by left | done].
Qed.

(** * Taking *)

Lemma same_chain_refl c : same_chain c c.
Proof. done. Qed.

(** A chain the driver owns and the device does not have conflicts with none of the device's. *)
Lemma waiting_admissible e d h k c :
  struct_inv e -> struct_inv d -> in_slot e h k -> same_chain (e_chain e k) c ->
  (forall h' p', in_slot d h' p' -> exists p, in_slot e h' p /\ p <> k /\ same_chain (e_chain e p) (e_chain d p')) ->
  admissible d c.
Proof.
  intros Hs Hsd Hin Hc Htaken. destruct (si_chain _ Hs _ _ Hin) as (Hh & _).
  assert (Hnot : forall p', ~ in_slot d h p').
  { intros p' Hp'. destruct (Htaken _ _ Hp') as (p & Hp & Hne & _). unfold in_slot in *. congruence. }
  split.
  - destruct (slot_at d (c_head c)) as [p' |] eqn:E; [| done]. rewrite (sc_head _ _ Hc), Hh in E.
    apply slot_at_Some in E; [| lia]. rewrite Nat2Z.id in E. by apply Hnot in E.
  - apply Forall_forall. intros x Hx. rewrite (same_chain_direct _ _ Hc) in Hx.
    destruct (decide (owner_at d x = 0)) as [| Hne]; [done |]. exfalso.
    pose proof (direct_nonneg _ x (si_typed _ Hs k) Hx) as Hu. unfold is_u16 in Hu.
    destruct (si_owned_by _ Hsd x ltac:(lia) Hne) as (h' & p' & Hp' & Hx').
    destruct (Htaken _ _ Hp') as (p & Hp & Hpk & Hsc). rewrite (same_chain_direct _ _ Hsc) in Hx'.
    assert (h = h') as <- by (by eapply (direct_disjoint e h k h' p x)). by apply Hnot in Hp'.
  - intros p' [h' Hp']%list_elem_of_lookup. destruct (Htaken _ _ Hp') as (p & Hp & Hpk & Hsc).
    unfold chains_meet. rewrite (same_chain_leases _ _ Hc), (same_chain_leases _ _ Hsc).
    apply (si_apart _ Hs h k h' p Hin Hp). intros <-. by apply Hnot in Hp'.
Qed.

(** The rings are shared. *)
Lemma available_shared e x :
  placed e -> q_available_address (e_queue e) <= x < q_available_address (e_queue e) + (6 + 2 * q_queue_size (e_queue e)) -> shared e x.
Proof.
  intros Hp Hx. apply (readable_shared e (q_available_address (e_queue e)) (6 + 2 * q_queue_size (e_queue e))); [| done].
  apply (ring_readable e (_, _) Hp). right. by left.
Qed.

Lemma used_shared e x :
  placed e -> q_used_address (e_queue e) <= x < q_used_address (e_queue e) + (6 + 8 * q_queue_size (e_queue e)) -> shared e x.
Proof.
  intros Hp Hx. apply (readable_shared e (q_used_address (e_queue e)) (6 + 8 * q_queue_size (e_queue e))); [| done].
  apply (ring_readable e (_, _) Hp). right. right. by left.
Qed.

Lemma available_readable e a n :
  placed e -> q_available_address (e_queue e) <= a -> a + n <= q_available_address (e_queue e) + (6 + 2 * q_queue_size (e_queue e)) ->
  readable_range e a n.
Proof.
  intros Hp Hlo Hhi.
  eapply readable_sub; [| | apply (ring_readable e (q_available_address (e_queue e), 6 + 2 * q_queue_size (e_queue e)) Hp); right; by left];
    cbn [fst snd]; lia.
Qed.

(** The device sees as many entries as there are chains waiting. *)
Lemma paired_pending e d l u Q R :
  paired e d l u Q R ->
  exists m, pending_index d = (match l with [] => KB2_VQ_EMPTY | _ => KB2_VQ_OK end, Z.of_nat (length l), set_mem d m) /\
    same_bytes (e_mem d) m /\ same_policy (e_mem d) m.
Proof.
  intros P. pose proof (paired_bounds _ _ _ _ _ _ P) as B. pose proof (pr_linked _ _ _ _ _ _ P) as L.
  pose proof (available_fits e (pr_placed _ _ _ _ _ _ P)) as Hfit. unfold pending_index. destruct (pr_device _ _ _ _ _ _ P) as [Hid ->].
  destruct (bytes_load (e_mem d) (q_available_address (e_queue e) + 2) (lk_good _ _ L)) as (m & E & Hm).
  rewrite (lk_loadable _ _ L) in E. cbn [decide decide_rel]. rewrite (lk_queue _ _ L).
  rewrite decide_False by done. rewrite u64_small by (unfold is_u64; lia). rewrite E.
  assert (Hv : view_u16 (bm_byte (e_mem d)) (q_available_address (e_queue e) + 2) = vq_produced (e_vq e)).
  { rewrite <- (holds_index (bm_byte (e_mem e)) (q_available_address (e_queue e)) (vq_produced (e_vq e))).
    - unfold view_u16. by rewrite !(lk_bytes _ _ L) by (apply available_shared; [apply P | lia]).
    - by apply (si_indices _ (inv_struct _ (proj1 (pr_driver _ _ _ _ _ _ P)))).
    - apply P. constructor. }
  rewrite Hv, (pr_available _ _ _ _ _ _ P), u16_distance by lia. change (e_queue (set_mem d m)) with (e_queue d).
  rewrite (lk_queue _ _ L), (proj2 (Z.ltb_ge _ _)) by lia. rewrite bool_decide_false by done. cbn [orb andb].
  exists m. apply policy_load in E. split_and!; [| done | done].
  destruct l; [done |]. by rewrite (proj2 (Z.eqb_neq _ _)) by (cbn [length]; lia).
Qed.

(** The device after it took the chain at [p] of [d]. *)
Definition taken d (p : loc) : engine M :=
  set_last_taken (set_consumed (claim d p ACCEPTED) (u16 (vq_consumed (e_vq d) + 1))) (Some p).

(** An empty chain object that can hold [K]. *)
Definition room_for (K c : kb2_vq_chain) : Prop :=
  chain_typed c /\ c_segments c <> None /\ (c_count K <= c_capacity c)%nat.

Lemma read_chain_linked e d p K :
  placed e -> chain_typed K -> chain_ok e K -> encoded (bm_byte (e_mem e)) (e_queue e) K ->
  linked e d -> struct_inv d -> outside_slots d (eq p) -> room_for K (e_chain d p) -> c_head (e_chain d p) = c_head K ->
  (forall d' c, frame (eq p) d KB2_VQ_OK d' -> same_chain K c -> admissible d' c) ->
  exists d', read_chain d p = (KB2_VQ_OK, d') /\ frame (eq p) d KB2_VQ_OK d' /\ linked e d' /\ same_chain K (e_chain d' p) /\
    c_written (e_chain d' p) = 0.
Proof.
  intros Hp Ht Hok Henc L Hs Hout (Hty & Harr & Hcap) Hh Had. unfold read_chain. set (d0 := set_chain d p _).
  assert (Hc0 : chain_typed (reset_chain (e_chain d p))) by (by apply chain_typed_reset).
  assert (Hf0 : frame (eq p) d KB2_VQ_OK d0) by (by apply frame_chain).
  assert (Hr : reading K (e_chain d0 p) 0 false) by (unfold d0; rewrite e_chain_set_eq; by split).
  assert (L0 : linked e d0) by (by eapply (linked_vq e d)).
  assert (Hh0 : c_head (e_chain d0 p) = c_head K) by (unfold d0; by rewrite e_chain_set_eq).
  destruct (read_descriptors_linked e K Hp Ht Hok Henc d0 p (read_fuel d0)) as (d1 & E & L1 & Hr1);
    [by eapply channel_bound_env; [eapply frame_env | apply Hs] | done | done | unfold read_fuel; by rewrite (lk_queue _ _ L0) |].
  rewrite Hh0, (lk_queue _ _ L0), E.
  apply read_descriptors_frame in E as (_ & Hf1 & _ & Hh1 & _); [| apply Hr | apply Ht].
  assert (Hf : frame (eq p) d KB2_VQ_OK d1) by (eapply frame_trans; [| exact Hf0 | exact Hf1]; done).
  assert (Hs1 : struct_inv d1) by (by eapply frame_struct).
  assert (Hsc : same_chain K (e_chain d1 p)) by (apply (reading_same e); [done | done | done | congruence]).
  assert (Hv : validate_chain d1 (e_chain d1 p) = Some (with_totals (e_chain d1 p))).
  { apply validate_chain_spec; [apply Hs1 | apply Hs1 | |].
    - intros q [h Hq]%list_elem_of_lookup. split; [apply Hs1 | by apply (si_chain _ Hs1 h q)].
    - split_and!; [done | | by apply Had]. apply (chain_ok_linked e d1 K); [done | done | done | apply Hr1 |].
      rewrite (rd_count _ _ _ _ Hr1). apply Hr1. }
  rewrite Hv. exists (set_chain d1 p (with_totals (e_chain d1 p))). split_and!.
  - done.
  - eapply frame_trans; [| exact Hf | apply frame_chain]; [done | done |]. apply chain_typed_totals, Hs1.
  - by eapply (linked_vq e d1).
  - rewrite e_chain_set_eq. by destruct Hsc.
  - by rewrite e_chain_set_eq.
Qed.

(** The entry the device reads next names the oldest chain. *)
Lemma paired_entry e d k l u Q R :
  paired e d (k :: l) u Q R ->
  exists b m, mem_read (e_mem d) (u64 (q_available_address (e_queue d) + 4 + 2 * ring_slot d (vq_consumed (e_vq d)))) 2 = (Some b, m) /\
    read_u16 b 0 = c_head (e_chain e k) /\ same_bytes (e_mem d) m /\ same_policy (e_mem d) m.
Proof.
  intros P. pose proof (pr_linked _ _ _ _ _ _ P) as L. destruct (pr_driver _ _ _ _ _ _ P) as [[Hs _] _], (pr_device _ _ _ _ _ _ P) as [[Hsd _] _].
  destruct (si_indices _ Hsd) as [_ Hcons].
  assert (Hentry : holds_write (bm_byte (e_mem e)) (entry_write (e_queue e) (vq_consumed (e_vq d)) (c_head (e_chain e k)))).
  { pose proof (pr_said _ _ _ _ _ _ P _ (said_waiting e d (k :: l) u Q R 0%nat k eq_refl)) as Hw. rewrite Z.add_0_r, u16_small in Hw by done. exact Hw. }
  pose proof (available_fits e (pr_placed _ _ _ _ _ _ P)) as Hfit. pose proof (ring_slot_range e (vq_consumed (e_vq d)) (si_bound _ Hs)) as Hslot.
  unfold ring_slot. rewrite (lk_queue _ _ L).
  change (q_available_address (e_queue e) + 4 + _) with (entry_address (e_queue e) (vq_consumed (e_vq d))).
  destruct (bytes_read (e_mem d) (entry_address (e_queue e) (vq_consumed (e_vq d))) 2 (lk_good _ _ L) ltac:(done)) as (m & E & Hm).
  assert (Hrd : readable_range e (entry_address (e_queue e) (vq_consumed (e_vq d))) 2)
    by (unfold entry_address in *; apply available_readable; [apply P | lia | lia]).
  rewrite (lk_readable _ _ L) in E by done. rewrite u64_small by (unfold entry_address, is_u64; lia). rewrite E.
  apply policy_read in E. eexists _, m. split_and!; [done | | done | done].
  apply holds_entry; [intros y; apply bytes_u8, L | apply (si_typed _ Hs k) |].
  eapply holds_write_ext; [| exact Hentry]. intros x Hx%entry_write_inside. apply (lk_bytes _ _ L).
  eapply readable_shared; [exact Hrd | lia].
Qed.

(** No chain the device has stands in the way of the one it takes. *)
Lemma paired_admissible e d k l u Q R p d' c :
  paired e d (k :: l) u Q R -> outside_slots d (eq p) -> frame (eq p) d KB2_VQ_OK d' -> same_chain (e_chain e k) c -> admissible d' c.
Proof.
  intros P Hout Hf Hsc. destruct (pr_driver _ _ _ _ _ _ P) as [[Hs _] _], (pr_device _ _ _ _ _ _ P) as [[Hsd _] _].
  destruct (pr_outstanding _ _ _ _ _ _ P k) as [Hin _]; [by left |].
  apply (waiting_admissible e d' (Z.to_nat (c_head (e_chain e k))) k); [done | by eapply frame_struct | done | done |].
  intros h' p' Hp'. unfold in_slot in Hp'. rewrite (proj1 (frame_slots _ _ _ _ Hf)) in Hp'.
  destruct (pr_taken _ _ _ _ _ _ P h' p' Hp') as (x & Hx & _ & Hnin & Hx' & _). exists x. split_and!; [done | by intros ->; apply Hnin; left |].
  rewrite (fr_chains _ _ _ _ Hf); [done |]. intros ->. by apply (Hout p' h').
Qed.

Lemma outstanding_encoded e d l u Q R p :
  paired e d l u Q R -> outstanding e p -> encoded (bm_byte (e_mem e)) (e_queue e) (e_chain e p).
Proof. intros P [Hin Hst] w Hw. apply (pr_said _ _ _ _ _ _ P). by eapply said_chain. Qed.

Lemma take_entry_linked e d k l u Q R p :
  paired e d (k :: l) u Q R -> c_state (e_chain d p) = FREE -> room_for (e_chain e k) (e_chain d p) ->
  exists d', take_entry d p = (KB2_VQ_OK, taken d' p) /\ frame (eq p) d KB2_VQ_OK d' /\ linked e d' /\
    same_chain (e_chain e k) (e_chain d' p) /\ c_written (e_chain d' p) = 0.
Proof.
  intros P Hfree (Hty & Harr & Hcap). pose proof (pr_linked _ _ _ _ _ _ P) as L.
  destruct (pr_driver _ _ _ _ _ _ P) as [[Hs _] _], (pr_device _ _ _ _ _ _ P) as [[Hsd _] _].
  pose proof (free_outside d p Hsd Hfree) as Hout. pose proof (fun d' c => paired_admissible e d k l u Q R p d' c P Hout) as Hadm.
  assert (Hk : outstanding e k) by (apply P; by left). pose proof (outstanding_encoded _ _ _ _ _ _ _ P Hk) as Henc.
  destruct (si_chain _ Hs _ _ (proj1 Hk)) as (Hhk & Hok & _). set (K := e_chain e k) in *.
  assert (Hhead : is_u16 (c_head K)) by apply (si_typed _ Hs k).
  unfold take_entry. destruct (paired_entry _ _ _ _ _ _ _ P) as (b & m & E & Hb & Hm & Hpol). rewrite E, Hb. fold K.
  set (d1 := set_chain (set_mem d m) p _).
  assert (Hf1 : frame (eq p) d KB2_VQ_OK d1).
  { eapply frame_trans; [| by apply (frame_mem _ d KB2_VQ_OK m) | apply frame_chain]; [done | done |].
    by apply chain_typed_head. }
  assert (L1 : linked e d1) by (eapply (linked_vq e (set_mem d m)); [done | done | done | by apply linked_mem]).
  assert (Hs1 : struct_inv d1) by (by eapply frame_struct).
  assert (Hc1 : e_chain d1 p = set_head (e_chain d p) (c_head K)) by (unfold d1; by rewrite e_chain_set_eq).
  destruct (ck_head _ _ Hok) as [Hlt Hent]. destruct (Hadm d1 K Hf1 (same_chain_refl K)) as [A1 A2 _].
  rewrite Hc1, (lk_queue _ _ L). cbn [set_head c_head]. rewrite (proj2 (Z.leb_gt _ _)) by done.
  rewrite (bool_decide_false (slot_at d1 _ <> None)) by (rewrite A1; tauto).
  rewrite (proj1 (Forall_forall _ _) A2 (c_head K)).
  2: { rewrite <- Hent. pose proof (segment_count e K (si_typed _ Hs k) Hok). destruct (ck_count _ _ Hok).
       apply entry_is_direct; [apply Hok | lia | done]. }
  cbn [orb negb Z.eqb].
  destruct (read_chain_linked e d1 p K) as (d2 & E2 & Hf2 & L2 & Hsc2 & Hw2); try done.
  { apply P. } { apply (si_typed _ Hs k). } { rewrite Hc1. split_and!; [by apply chain_typed_head | done | done]. } { by rewrite Hc1. }
  { intros d' c Hf'. apply Hadm. eapply frame_trans; [| exact Hf1 | exact Hf']. done. }
  rewrite E2. exists d2. split_and!; [done | | done | done | done]. eapply frame_trans; [| exact Hf1 | exact Hf2]. done.
Qed.

(** ** The step *)

(** A new state of the device says nothing new when it keeps what it produced and, of the
    waiting chains and the last one taken, the entries. *)
Lemma paired_device e d d' l l' u Q R :
  paired e d l u Q R -> vq_inv d' -> vq_side (e_vq d') = KB2_VQ_DEVICE -> linked e d' ->
  vq_produced (e_vq d') = vq_produced (e_vq d) ->
  vq_produced (e_vq e) = u16 (vq_consumed (e_vq d') + Z.of_nat (length l')) ->
  (forall i p, l' !! i = Some p ->
     said e d l u Q R (entry_write (e_queue e) (u16 (vq_consumed (e_vq d') + Z.of_nat i)) (c_head (e_chain e p)))) ->
  (forall p', vq_last_taken (e_vq d') = Some p' ->
     said e d l u Q R (entry_write (e_queue e) (u16 (vq_consumed (e_vq d') - 1)) (c_head (e_chain d' p')))) ->
  NoDup (l' ++ u) -> (forall p, p ∈ l' -> outstanding e p /\ R p = []) ->
  (forall h p', in_slot d' h p' ->
    exists p, in_slot e h p /\ c_state (e_chain e p) = SUBMITTED /\ p ∉ l' ++ u /\ same_chain (e_chain e p) (e_chain d' p') /\
      c_written (e_chain d' p') = blen (R p)) ->
  vq_owned (e_vq d') + Z.of_nat (length l') = vq_owned (e_vq d) + Z.of_nat (length l) ->
  paired e d' l' u Q R.
Proof.
  intros P Hi Hside L Hpr Hav Hwait Hlast Hnd Hout Htk Hown. split; try done; try apply P.
  - by rewrite Hpr, (pr_used _ _ _ _ _ _ P).
  - intros w Hw. apply (pr_said _ _ _ _ _ _ P). destruct Hw as [| | i p Hp | p' Hp' | i p Hp | h p w Hin Hst Hw | h p ww i a v Hin Ha Hv].
    + constructor.
    + rewrite Hpr. constructor.
    + by apply Hwait.
    + by apply Hlast.
    + by constructor.
    + by eapply said_chain.
    + by eapply said_payload.
  - intros p [Hp | Hp]%elem_of_app; [by apply Hout |]. apply P, elem_of_app. by right.
  - intros p Hp. by apply Hout.
  - pose proof (pr_count _ _ _ _ _ _ P). lia.
Qed.

Lemma paired_taken e d k l u Q R p d' :
  paired e d (k :: l) u Q R -> outside_slots d (eq p) -> frame (eq p) d KB2_VQ_OK d' -> linked e d' ->
  same_chain (e_chain e k) (e_chain d' p) -> c_written (e_chain d' p) = 0 -> vq_inv (taken d' p) -> paired e (taken d' p) l u Q R.
Proof.
  intros P Hout Hf L Hsc Hwr Hi. pose proof (paired_bounds _ _ _ _ _ _ P) as B. cbn [length] in B.
  pose proof (fr_vq _ _ _ _ Hf) as Hv. cbn in Hv. destruct (pr_device _ _ _ _ _ _ P) as [[Hsd _] Hside].
  pose proof (pr_distinct _ _ _ _ _ _ P) as Hnd. apply NoDup_cons in Hnd as [Hk Hnd]. fold (l ++ u) in Hk, Hnd.
  pose proof (si_indices _ Hsd) as [_ Hcons]. destruct (pr_driver _ _ _ _ _ _ P) as [[Hs _] _].
  destruct (pr_outstanding _ _ _ _ _ _ P k) as [Hin Hst]; [by left |].
  assert (Hch : forall y, e_chain (taken d' p) y = if decide (y = p) then set_state (e_chain d' p) ACCEPTED else e_chain d' y)
    by (intros y; apply e_chain_claim).
  assert (Hcs : vq_consumed (e_vq (taken d' p)) = u16 (vq_consumed (e_vq d) + 1)) by (cbn; by rewrite Hv).
  apply (paired_device e d _ (k :: l)); rewrite ?Hcs; try done.
  - cbn. by rewrite Hv.
  - by eapply (linked_vq e d').
  - cbn. by rewrite Hv.
  - rewrite (pr_available _ _ _ _ _ _ P), u16_plus. cbn [length]. f_equal. lia.
  - intros i x Hx. rewrite u16_plus. replace (1 + Z.of_nat i) with (Z.of_nat (S i)) by lia. by apply said_waiting.
  - intros p' [= <-]. rewrite Hch, decide_True, u16_minus, Z.sub_diag by done. cbn [set_state c_head]. rewrite (sc_head _ _ Hsc).
    by apply (said_waiting e d (k :: l) u Q R 0%nat).
  - intros x Hx. split; [apply P; right; apply elem_of_app; by left | apply P; by right].
  - intros h x Hx. apply (in_slot_insert d' (taken d' p) (Z.to_nat (c_head (e_chain d' p))) (Some p)) in Hx; [| done |].
    2: { rewrite Hv, (sc_head _ _ Hsc). destruct (si_chain _ Hs _ _ Hin) as (_ & Hok & _).
         destruct (ck_head _ _ Hok) as [Hlt _]. rewrite (si_slots _ Hsd), (lk_queue _ _ (pr_linked _ _ _ _ _ _ P)).
         pose proof (ct_head _ (si_typed _ Hs k)) as Hu. unfold is_u16 in Hu. lia. }
    rewrite Hch. destruct Hx as [[-> [= <-]] | [Hne Hx]].
    + exists k. rewrite decide_True, (sc_head _ _ Hsc) by done. split_and!; [done .. | by destruct Hsc |].
      rewrite (pr_waiting _ _ _ _ _ _ P k) by (by left). exact Hwr.
    + unfold in_slot in Hx. rewrite Hv in Hx.
      assert (Hxp : x <> p) by (intros ->; by apply (Hout p h)). rewrite decide_False by done.
      rewrite (fr_chains _ _ _ _ Hf) by congruence.
      destruct (pr_taken _ _ _ _ _ _ P h x Hx) as (y & Hy & Hys & Hyn & Hsy & Hyw). exists y. split_and!; [done | done | | done | done].
      intros Hyl. apply Hyn. by right.
  - cbn [length]. cbn. rewrite Hv, u32_small by (unfold is_u32; lia). lia.
Qed.

(** A call that take_available does not refuse. *)
Record can_take d (p : loc) (generation : Z) : Prop := {
  tk_check : check d true generation = KB2_VQ_OK;
  tk_free : c_state (e_chain d p) = FREE;
  tk_array : c_segments (e_chain d p) <> None;
  tk_capacity : q_max_chain_length (e_queue d) <= Z.of_nat (c_capacity (e_chain d p));
}.

Lemma take_available_pending d p gen :
  can_take d p gen -> vq_side (e_vq d) = KB2_VQ_DEVICE ->
  kb2_vq_take_available d true gen (Some p) =
  match pending_index d with
  | (KB2_VQ_OK, distance, d) =>
      if q_max_outstanding (e_queue d) <? u32 (vq_owned (e_vq d) + distance) then fault d false else take_entry d p
  | (s, _, d) => (s, d)
  end.
Proof.
  intros [Hc Hfree Harr Hcap] Hside. unfold kb2_vq_take_available. rewrite Hc, Hside, Hfree.
  rewrite !bool_decide_true, (bool_decide_false (_ = None)) by done. by rewrite (proj2 (Z.ltb_ge _ _)).
Qed.

Lemma taken_owned d p :
  c_head (e_chain d p) < q_queue_size (e_queue d) -> (Z.to_nat (c_head (e_chain d p)) < length (vq_slots (e_vq d)))%nat ->
  owned (taken d p) (Some p) ACCEPTED = true.
Proof.
  intros Hlt Hslot. unfold owned, slot_at. change (e_chain (taken d p) p) with (e_chain (claim d p ACCEPTED) p).
  rewrite e_chain_claim, decide_True by done. cbn [set_state c_head c_state]. change (e_queue (taken d p)) with (e_queue d).
  rewrite (proj2 (Z.ltb_lt _ _)), (bool_decide_true (ACCEPTED = _)) by done. cbn. by rewrite list_lookup_insert_eq, bool_decide_true by done.
Qed.

Lemma paired_device_mem e d l u Q R m :
  paired e d l u Q R -> same_bytes (e_mem d) m -> same_policy (e_mem d) m -> paired e (set_mem d m) l u Q R.
Proof.
  intros P Hm Hp. apply (paired_device e d _ l); try done; try apply P.
  - eapply quiet_inv; [by apply quiet_mem | apply P].
  - apply linked_mem; [done | done | apply P].
  - intros i p Hi. exact (said_waiting e d l u Q R i p Hi).
  - intros p' Hp'. exact (said_last e d l u Q R p' Hp').
  - intros p Hin. split; [apply P, elem_of_app; by left | by apply P].
Qed.

(** Taking gives the oldest chain, and finds nothing when there is none. *)
Lemma paired_take e d l u Q R p gen :
  paired e d l u Q R -> can_take d p gen ->
  let '(st, d') := kb2_vq_take_available d true gen (Some p) in
  match l with
  | [] => st = KB2_VQ_EMPTY /\ paired e d' [] u Q R
  | k :: l => st = KB2_VQ_OK /\ paired e d' l u Q R /\ same_chain (e_chain e k) (e_chain d' p) /\ owned d' (Some p) ACCEPTED = true
  end.
Proof.
  intros P Htk. pose proof (take_available_inv d true gen (Some p) (proj1 (pr_device _ _ _ _ _ _ P))) as Hi.
  destruct (pr_device _ _ _ _ _ _ P) as [Hid Hside]. rewrite (take_available_pending d p gen Htk Hside) in *.
  pose proof (inv_struct _ Hid) as Hsd. pose proof (paired_bounds _ _ _ _ _ _ P) as B.
  destruct (paired_pending _ _ _ _ _ _ P) as (m & E & Hm & Hpol). rewrite E in *. clear E.
  pose proof (paired_device_mem _ _ _ _ _ _ m P Hm Hpol) as P1.
  destruct l as [| k l]; [done |]. change (e_queue (set_mem d m)) with (e_queue d) in *. pose proof (pr_linked _ _ _ _ _ _ P) as L.
  change (e_vq (set_mem d m)) with (e_vq d) in *. rewrite (lk_queue _ _ L) in *. cbn [length] in *.
  rewrite u32_small in * by (unfold is_u32; lia). rewrite (proj2 (Z.ltb_ge _ _)) in * by lia.
  destruct (pr_driver _ _ _ _ _ _ P) as [[Hs _] _]. destruct (pr_outstanding _ _ _ _ _ _ P k) as [Hin _]; [by left |].
  destruct (si_chain _ Hs _ _ Hin) as (_ & Hok & _). destruct Htk as [_ Hfree Harr Hcap].
  destruct (take_entry_linked e (set_mem d m) k l u Q R p P1) as (d' & E & Hf & L' & Hsc & Hwr); [done | |].
  { split_and!; [apply Hsd | done |]. pose proof (ck_length _ _ Hok). rewrite (lk_queue _ _ L) in Hcap.
    change (e_chain (set_mem d m) p) with (e_chain d p). lia. }
  rewrite E in *. split_and!; [done | | |].
  - eapply (paired_taken e (set_mem d m)); try done. by apply free_outside; [apply P1 |].
  - change (e_chain (taken d' p) p) with (e_chain (claim d' p ACCEPTED) p). rewrite e_chain_claim, decide_True by done. by destruct Hsc.
  - destruct (ck_head _ _ Hok) as [Hlt _]. pose proof (ct_head _ (si_typed _ Hs k)) as Hu. unfold is_u16 in Hu.
    apply taken_owned; rewrite (sc_head _ _ Hsc); [by rewrite (lk_queue _ _ L') |]. destruct (frame_slots _ _ _ _ Hf) as [-> _].
    change (vq_slots (e_vq (set_mem d m))) with (vq_slots (e_vq d)).
    rewrite (si_slots _ Hsd), (lk_queue _ _ L). lia.
Qed.

(** * Giving back and moving *)

(** Giving the last chain back puts it at the head again. *)
Lemma paired_return e d l u Q R p gen d' :
  paired e d l u Q R -> kb2_vq_return_available d true gen (Some p) = (KB2_VQ_OK, d') ->
  exists k, in_slot e (Z.to_nat (c_head (e_chain d p))) k /\ same_chain (e_chain e k) (e_chain d p) /\ paired e d' (k :: l) u Q R.
Proof.
  intros P E. destruct (pr_device _ _ _ _ _ _ P) as [Hid Hside]. pose proof (inv_struct _ Hid) as Hsd.
  pose proof (return_available_inv d true gen (Some p) Hid) as Hi. rewrite E in Hi. cbn [snd] in Hi.
  unfold kb2_vq_return_available in E. destruct (check d true gen) eqn:Hc; try done. destruct (_ || _) eqn:Eg in E; [done |].
  rewrite !orb_false_iff, !negb_false_iff, !bool_decide_eq_true in Eg. destruct Eg as [[[_ Hown] Hlast] Hzero%Z.eqb_eq].
  injection E as <-. destruct (owned_slot _ _ _ Hsd Hown) as [Hin Hst]. set (h := Z.to_nat (c_head (e_chain d p))) in *.
  destruct (pr_taken _ _ _ _ _ _ P h p Hin) as (k & Hk & Hks & Hkn & Hsc & Hwr). exists k. split_and!; [done | done |].
  assert (Hempty : R k = []) by (destruct (R k); [done | unfold blen in Hwr; cbn [length] in Hwr; lia]).
  destruct (pr_driver _ _ _ _ _ _ P) as [[Hs _] _]. destruct (drop_counters_device _ _ _ Hsd Hin) as [Hd _].
  set (d1 := set_consumed (drop_chain d p) _) in *.
  assert (Hcs : vq_consumed (e_vq d1) = u16 (vq_consumed (e_vq d) - 1)) by done.
  assert (Hslot : forall h' x, in_slot d1 h' x -> h' <> h /\ in_slot d h' x).
  { intros h' x Hx. apply (in_slot_insert d d1 h None) in Hx as [[_ ?] | ?]; [done | done | done |]. by eapply lookup_lt_Some. }
  assert (Hold : forall h' x, in_slot d1 h' x -> e_chain d1 x = e_chain d x).
  { intros h' x [Hne Hx]%Hslot. change (e_chain d1 x) with (e_chain (drop_chain d p) x). rewrite e_chain_drop, decide_False; [done |].
    intros ->. by apply Hne, (in_slot_unique d _ _ p). }
  assert (Hkslot : Z.to_nat (c_head (e_chain e k)) = h).
  { unfold h. by rewrite (sc_head _ _ Hsc). }
  apply (paired_device e d _ l); rewrite ?Hcs; try done.
  - by eapply (linked_vq e d); [| | | apply P].
  - rewrite (pr_available _ _ _ _ _ _ P). cbn [length]. replace (vq_consumed (e_vq d) - 1) with (vq_consumed (e_vq d) + -1) by lia.
    rewrite u16_plus. f_equal. lia.
  - intros [| i] x Hx; replace (vq_consumed (e_vq d) - 1) with (vq_consumed (e_vq d) + -1) by lia; rewrite u16_plus.
    + injection Hx as <-. rewrite <- (sc_head _ _ Hsc). exact (said_last e d l u Q R p Hlast).
    + replace (-1 + Z.of_nat (S i)) with (Z.of_nat i) by lia. by apply said_waiting.
  - intros p'. cbn. by rewrite decide_True.
  - apply NoDup_cons. split; [done | apply P].
  - intros x [-> | Hx]%elem_of_cons; [split; [split; [by rewrite Hkslot | done] | done] |].
    split; [apply P, elem_of_app; by left | by apply P].
  - intros h' x Hx. rewrite (Hold h' x Hx). apply Hslot in Hx as [Hne Hx].
    destruct (pr_taken _ _ _ _ _ _ P h' x Hx) as (y & Hy & Hys & Hyn & Hsy & Hyw). exists y. split_and!; [done | done | | done | done].
    intros [-> | Hyl]%elem_of_cons; [by apply Hne, (in_slot_unique e _ _ k) | done].
  - change (vq_owned (e_vq d1)) with (vq_owned (e_vq (drop_chain d p))). rewrite Hd. cbn [length]. lia.
Qed.

(** Moving a chain to other storage changes nothing for the driver. *)
Lemma paired_move e d l u Q R src dst gen d' :
  paired e d l u Q R -> kb2_vq_move_accepted d true gen (Some src) (Some dst) = (KB2_VQ_OK, d') -> paired e d' l u Q R.
Proof.
  intros P E. destruct (pr_device _ _ _ _ _ _ P) as [Hid Hside]. pose proof (inv_struct _ Hid) as Hsd.
  pose proof (move_accepted_inv d true gen (Some src) (Some dst) Hid) as Hi. rewrite E in Hi. cbn [snd] in Hi.
  unfold kb2_vq_move_accepted in E. destruct (check d true gen) eqn:Hc; try done. destruct (_ || _) eqn:Eg in E; [done |].
  rewrite !orb_false_iff, !negb_false_iff, !bool_decide_eq_true, !bool_decide_eq_false, Nat.ltb_ge in Eg.
  destruct Eg as [[[[[_ Hown] Hne] Hfree] Hseg] Hcap]. destruct (owned_slot _ _ _ Hsd Hown) as [Hin Hst].
  change (set_chain _ src _) with (moved d src dst) in E. injection E as <-.
  pose proof (free_outside d dst Hsd Hfree) as Hout.
  assert (Hlk : forall p', vq_last_taken (e_vq (moved d src dst)) = Some p' ->
    exists x, vq_last_taken (e_vq d) = Some x /\ c_head (e_chain (moved d src dst) p') = c_head (e_chain d x)).
  { intros p'. cbn. rewrite e_chain_moved. case_decide as Hls.
    - intros [= <-]. exists src. by rewrite decide_False, decide_True.
    - intros Hl. exists p'. split; [done |]. rewrite !decide_False; [done | | congruence].
      intros ->. destruct (si_last _ Hsd dst Hl) as [h Hh]. by apply (Hout dst h). }
  apply (paired_device e d _ l); try done; try apply P.
  - by eapply (linked_vq e d); [| | | apply P].
  - intros i p Hp. exact (said_waiting e d l u Q R i p Hp).
  - intros p' (x & Hx & ->)%Hlk. exact (said_last e d l u Q R x Hx).
  - intros p Hp. split; [apply P, elem_of_app; by left | by apply P].
  - intros h' p' Hp'. apply (moved_slot d src dst _ Hsd Hin Hout Hne Hseg Hcap) in Hp' as [[-> <-] | [Hn Hp']].
    + destruct (pr_taken _ _ _ _ _ _ P _ src Hin) as (y & Hy & Hys & Hyn & Hsy & Hyw). exists y.
      rewrite e_chain_moved, decide_False, decide_True by done.
      destruct (moved_segments d src dst _ Hsd Hin Hseg Hcap) as [Hsegs _]. destruct Hsy as [S1 S2 S3 S4 S5 S6 S7].
      split_and!; [done | done | done | split; rewrite ?Hsegs; done | done].
    + destruct (pr_taken _ _ _ _ _ _ P h' p' Hp') as (y & Hy & Hys & Hyn & Hsy & Hyw). exists y.
      rewrite e_chain_moved, !decide_False; [done | |].
      * intros ->. by apply (Hout dst h').
      * intros ->. by apply Hn, (in_slot_unique d _ _ src).
Qed.

(** * Publishing *)

(** The backend [m] of the other end after [e] wrote: the shared bytes are those of [e]. *)
Record delivered e d (m : M) : Prop := {
  dv_maps : same_maps (e_mem d) m;
  dv_policy : same_policy (e_mem d) m;
  dv_bytes : forall x, shared e x -> bm_byte m x = bm_byte (e_mem e) x;
}.

Lemma placed_env e e' : same_env e e' -> placed e -> placed e'.
Proof. intros [_ R Q U _] [P1 P2 P3 P4 P5]. split; rewrite ?R, ?Q, ?U; done. Qed.

(** The driver [e'] that published the chain at [p]; [e1] is [e] with the chain claimed. *)
Record published e p e1 e' : Prop := {
  pb_struct : struct_inv e1;
  pb_env : same_env e e1;
  pb_env' : same_env e1 e';
  pb_outside : outside_slots e (eq p);
  pb_chains : forall x, e_chain e' x = e_chain e1 x;
  pb_others : forall x, x <> p -> e_chain e1 x = e_chain e x;
  pb_segments : chain_segments (e_chain e1 p) = chain_segments (e_chain e p);
  pb_state : c_state (e_chain e1 p) = SUBMITTED;
  pb_slot : in_slot e1 (Z.to_nat (c_head (e_chain e1 p))) p;
  pb_free : vq_slots (e_vq e) !! Z.to_nat (c_head (e_chain e1 p)) = Some None;
  pb_slots : vq_slots (e_vq e1) = <[Z.to_nat (c_head (e_chain e1 p)) := Some p]> (vq_slots (e_vq e));
  pb_slots' : vq_slots (e_vq e') = vq_slots (e_vq e1);
  pb_produced : vq_produced (e_vq e1) = vq_produced (e_vq e) /\ vq_produced (e_vq e') = u16 (vq_produced (e_vq e) + 1);
  pb_consumed : vq_consumed (e_vq e') = vq_consumed (e_vq e);
  pb_owned : vq_owned (e_vq e') = vq_owned (e_vq e) + 1;
  pb_count : slot_count (submitted e1) (vq_slots (e_vq e1)) = slot_count (submitted e) (vq_slots (e_vq e)) + 1;
  pb_side : vq_side (e_vq e') = KB2_VQ_DRIVER;
  pb_mem : e_mem e1 = e_mem e;
  pb_wrote : wrote (e_mem e1) (e_mem e') (publication (e_queue e1) (vq_produced (e_vq e1)) (e_chain e1 p));
}.

Lemma publish_linked e p gen given notify e' :
  vq_inv e -> vq_side (e_vq e) = KB2_VQ_DRIVER -> placed e -> bm_good (e_mem e) ->
  kb2_vq_publish e true gen (Some p) given = (KB2_VQ_OK, notify, e') -> exists e1, published e p e1 e'.
Proof.
  intros Hi Hside Hp Hg E. pose proof (inv_struct _ Hi) as Hs. unfold kb2_vq_publish in E.
  destruct (check e true gen) eqn:Hc; try done. destruct (_ || _) eqn:Eg in E; [done |].
  rewrite !orb_false_iff, !negb_false_iff, !bool_decide_eq_true in Eg. destruct Eg as [[_ Hfree] _].
  destruct (Z.eqb_spec (vq_owned (e_vq e)) (q_max_outstanding (e_queue e))) as [| Hne]; [done |].
  destruct (validate_chain e (e_chain e p)) as [c |] eqn:Ev; [| done]. destruct (si_count _ Hs) as [_ Hmax].
  pose proof (free_outside e p Hs Hfree) as Hout.
  destruct (validated_claim e p c SUBMITTED Hs Hout Ev) as (Hcl & Hin & Hcnt); [rewrite Hside; by left | lia |].
  apply validate_chain_spec in Ev as (Ec & Hok & [Hfr _ _]); [| apply Hs | apply Hs |].
  2: { intros q [h Hq]%list_elem_of_lookup. split; [apply Hs | by apply (si_chain _ Hs h q)]. }
  set (e1 := claim (set_chain e p c) p SUBMITTED) in *.
  assert (Hch1 : forall x, e_chain e1 x = if decide (x = p) then set_state c SUBMITTED else e_chain e x).
  { intros x. unfold e1. rewrite e_chain_claim, e_chain_set_eq, e_chain_set. by repeat case_decide. }
  assert (Hc1 : e_chain e1 p = set_state c SUBMITTED) by (rewrite Hch1; by rewrite decide_True).
  assert (Hhead : c_head (e_chain e p) = c_head (e_chain e1 p)) by (rewrite Hc1, Ec; done). rewrite Hhead in Hin.
  assert (Henv : same_env e e1) by by apply same_env_vq.
  destruct (si_chain _ Hcl _ _ Hin) as (_ & Hok1 & _).
  assert (Hw : wrote (e_mem e1) (e_mem e') (publication (e_queue e) (vq_produced (e_vq e)) (e_chain e1 p))).
  { rewrite Hc1. apply (publish_claimed_wrote e1 c notify); [by eapply placed_env | apply Hcl | | | done | exact E].
    - rewrite Ec. apply chain_typed_totals, Hs.
    - rewrite Hc1 in Hok1. by destruct Hok1. }
  apply publish_claimed_spec in E as [(_ & Hf & _) | (? & _)]; [| done].
  destruct (frame_ok _ _ _ Hf eq_refl) as [Hvq Hch]. pose proof (si_typed _ Hs p) as [_ Hu _ _ _]. unfold is_u16 in Hu.
  exists e1. split; rewrite ?Hvq; try done.
  - eapply same_env_vq; [by rewrite Hvq | by rewrite Hvq | apply (fr_policy _ _ _ _ Hf)].
  - intros x Hx. by rewrite Hch1, decide_False.
  - by rewrite Hc1, Ec.
  - by rewrite Hc1.
  - rewrite <- Hhead in Hin |- *. apply slot_at_None; [| by rewrite Z2Nat.id by lia].
    apply lookup_lt_Some in Hin. cbn in Hin. by rewrite length_insert in Hin.
  - cbn. rewrite e_chain_set_eq. by rewrite Hc1.
  - cbn. apply u32_small. pose proof (owned_bounds e Hs). unfold is_u32. lia.
Qed.

(** The link after the driver wrote and the device's backend delivered. *)
Lemma linked_delivered e d e' m :
  same_env e e' -> same_maps (e_mem e) (e_mem e') -> linked e d -> delivered e' d m -> linked e' (set_mem d m).
Proof.
  intros Henv Hm L [Dm Dp Db]. apply (linked_ext e d e' (set_mem d m)); [done | by apply same_env_vq | done | done | | done].
  intros x Hx. apply Db. unfold shared in *. by rewrite (en_regions _ _ Henv).
Qed.

Section Published.
Context e d l u Q R p e1 e' (P : paired e d l u Q R) (B : published e p e1 e').
Notation h0 := (Z.to_nat (c_head (e_chain e1 p))).

Lemma published_slots h x : in_slot e' h x <-> (h = h0 /\ Some p = Some x) \/ (h <> h0 /\ in_slot e h x).
Proof.
  apply in_slot_insert; [by rewrite (pb_slots' _ _ _ _ B), (pb_slots _ _ _ _ B) |].
  eapply lookup_lt_Some. apply B.
Qed.

Lemma published_keeps h x :
  in_slot e h x -> in_slot e' h x /\ in_slot e1 h x /\ h <> h0 /\ e_chain e' x = e_chain e x /\ e_chain e1 x = e_chain e x.
Proof.
  intros Hx. assert (Hxp : x <> p) by (intros ->; by apply (pb_outside _ _ _ _ B p h)).
  assert (Hh : h <> h0). { intros ->. unfold in_slot in Hx. rewrite (pb_free _ _ _ _ B) in Hx. done. }
  assert (Hx' : in_slot e' h x) by (apply published_slots; by right). pose proof (pb_others _ _ _ _ B x Hxp) as Ho.
  split_and!; [done | | done | by rewrite (pb_chains _ _ _ _ B) | done].
  unfold in_slot in *. by rewrite <- (pb_slots' _ _ _ _ B).
Qed.

Lemma published_head x : x ∈ l ++ u -> c_head (e_chain e' x) = c_head (e_chain e x).
Proof. intros Hx. destruct (pr_outstanding _ _ _ _ _ _ P x Hx) as [Hin _]. by destruct (published_keeps _ _ Hin) as (_ & _ & _ & -> & _). Qed.

Lemma published_fresh x : x ∈ l ++ u -> x <> p.
Proof. intros Hx ->. destruct (pr_outstanding _ _ _ _ _ _ P p Hx) as [Hin _]. by apply (pb_outside _ _ _ _ B p _ eq_refl Hin). Qed.

(** The publication does not write into the payload of a chain. *)
Lemma published_payload h x s a :
  in_slot e1 h x -> s ∈ chain_segments (e_chain e1 x) -> sg_address s <= a < sg_address s + sg_length s ->
  bm_byte (e_mem e') a = bm_byte (e_mem e) a.
Proof.
  intros Hx Hs Hsa. pose proof B as [Hs1 Henv _ _ _ _ _ _ Hin _ _ _ _ _ _ _ _ Hmem Hwr].
  pose proof (placed_env _ _ Henv (pr_placed _ _ _ _ _ _ P)) as Hp1. rewrite <- Hmem.
  apply (published_outside e1 e' p Hwr). intros w [Hw | Hw]%elem_of_app Hyw.
  - apply (payload_off e1 a w h0 p Hs1 Hp1); [by exists h, x, s | done | done | done].
  - apply (payload_clear e1 h x s a (q_available_address (e_queue e1), 6 + 2 * q_queue_size (e_queue e1)) Hs1 Hp1 Hx Hs Hsa);
      [right; by left |]. cbn [fst snd]. eapply ring_write_inside; [apply Hs1 | exact Hw | done].
Qed.

Lemma inside_one a v x : inside (a, [v]) x -> x = a.
Proof. unfold inside. cbn [fst snd]. change (blen [v]) with 1. lia. Qed.

Lemma published_payloads h x w i a v :
  in_slot e' h x -> cells w (chain_segments (e_chain e' x)) !! i = Some a ->
  payload (respond Q p (request e p)) (respond R p []) w x !! i = Some v -> holds_write (bm_byte (e_mem e')) (a, [v]).
Proof.
  rewrite (pb_chains _ _ _ _ B). intros Hx Ha Hv. pose proof Ha as (s & Hs & _ & Hsa)%cells_segment.
  assert (Hx1 : in_slot e1 h x) by (unfold in_slot in *; by rewrite <- (pb_slots' _ _ _ _ B)).
  apply (holds_write_ext (bm_byte (e_mem e))). { intros y ->%inside_one. by eapply published_payload. }
  unfold payload in Hv. apply published_slots in Hx as [[_ [= <-]] | [_ Hx]].
  - rewrite !respond_eq in Hv. destruct (w =? 1); [done |]. destruct (Z.eqb_spec w 0) as [-> |]; [| done].
    intros y Hy. apply inside_one in Hy as ->. unfold request in Hv. rewrite list_lookup_fmap in Hv.
    rewrite (pb_segments _ _ _ _ B) in Ha. rewrite Ha in Hv. injection Hv as <-. cbn [fst snd]. rewrite Z.sub_diag.
    symmetry. apply u8_small, bytes_u8, (pr_linked _ _ _ _ _ _ P).
  - destruct (published_keeps _ _ Hx) as (_ & _ & _ & _ & K4). rewrite K4 in Ha.
    assert (Hne : x <> p) by (intros ->; by apply (pb_outside _ _ _ _ B p h)). rewrite !respond_ne in Hv by done.
    apply (pr_said _ _ _ _ _ _ P). by eapply said_payload.
Qed.

(** What the memory says of the old chains survives, and what is new is said. *)
Lemma published_said m : vq_owned (e_vq e') <= q_max_outstanding (e_queue e') -> forall w, said e' (set_mem d m) (l ++ [p]) u (respond Q p (request e p)) (respond R p []) w -> holds_write (bm_byte (e_mem e')) w.
Proof.
  intros Hmax w Hw. pose proof B as [Hs1 Henv Henv' Hout Hch Hold _ Hst Hin Hfree Hins Hsl [Hpr Hpr'] Hcs Hown Hcnt Hside' Hmem Hwr].
  assert (HU : e_queue e1 = e_queue e) by apply Henv. assert (HU' : e_queue e' = e_queue e1) by apply Henv'.
  pose proof (placed_env _ _ Henv (pr_placed _ _ _ _ _ _ P)) as Hp1. pose proof (si_bound _ Hs1) as Hb1.
  pose proof (fun w => published_holds e1 e' h0 p Hs1 Hp1 Hin Hwr w) as Hholds.
  pose proof (fun i v => published_entry e1 e' h0 p Hs1 Hp1 Hin Hwr i v) as Hentry.
  assert (Hused : forall w, said e d l u Q R w -> (forall x, inside w x -> used_range (e_queue e) x) -> holds_write (bm_byte (e_mem e')) w).
  { intros v Hv Hin'. eapply holds_write_ext; [| by apply (pr_said _ _ _ _ _ _ P)]. intros x Hx%Hin'. rewrite <- Hmem.
    unfold used_range in Hx. pose proof (queue_size_bounds _ Hb1). rewrite <- HU in Hx.
    apply (published_used e1 e' h0 p Hs1 Hp1 Hin Hwr). lia. }
  pose proof (paired_bounds _ _ _ _ _ _ P) as Bd. rewrite Hown, HU', HU in Hmax. pose proof (pr_available _ _ _ _ _ _ P) as Hav.
  assert (Hslot : forall i v, -1 <= i < Z.of_nat (length l) -> (i = -1 -> 1 <= vq_owned (e_vq d)) ->
    said e d l u Q R (entry_write (e_queue e) (u16 (vq_consumed (e_vq d) + i)) v) ->
    holds_write (bm_byte (e_mem e')) (entry_write (e_queue e1) (u16 (vq_consumed (e_vq d) + i)) v)).
  { intros i v Hi H1i Hv. apply Hentry; [| rewrite Hmem, HU; by apply P]. rewrite HU, Hpr, Hav.
    assert (Hsz : exists k, 0 <= k <= 15 /\ q_queue_size (e_queue e) = 2 ^ k) by (rewrite <- HU; apply Hb1).
    destruct (decide (i = -1)) as [-> | Hne]; [| apply slots_apart; [done | lia | lia]].
    replace (vq_consumed (e_vq d) + -1) with ((vq_consumed (e_vq d) - 1) + 0) by lia.
    replace (vq_consumed (e_vq d) + Z.of_nat (length l)) with ((vq_consumed (e_vq d) - 1) + (Z.of_nat (length l) + 1)) by lia.
    apply slots_apart; [done | lia | lia]. }
  destruct Hw as [| | i x Hx | p' Hp' | i x Hx | h x w Hx Hxs Hw | h x ww i a v Hx Ha Hv]; rewrite ?HU'.
  - apply Hholds, elem_of_app. right. right. rewrite Hpr', <- Hpr. by left.
  - apply Hused; [rewrite HU; exact (said_used e d l u Q R) |]. intros x Hx%index_write_inside. unfold used_range. rewrite HU in Hx.
    pose proof (queue_size_bounds _ Hb1). rewrite HU in *. lia.
  - apply lookup_snoc_Some in Hx as [[Hlt Hx] | [-> ->]].
    + rewrite published_head by (apply elem_of_app; left; by eapply list_elem_of_lookup_2). cbn [set_mem e_vq].
      apply Hslot; [lia | lia |]. exact (said_waiting e d l u Q R i x Hx).
    + rewrite Hch. cbn [set_mem e_vq]. rewrite <- Hav, <- Hpr. apply Hholds, elem_of_app. right. by left.
  - cbn [set_mem e_vq] in *. replace (vq_consumed (e_vq d) - 1) with (vq_consumed (e_vq d) + -1) by lia.
    apply Hslot; [lia | | exact (said_last e d l u Q R p' Hp')]. intros _. destruct (pr_device _ _ _ _ _ _ P) as [[Hsd _] _].
    destruct (si_last _ Hsd p' Hp') as [h Hh]. by destruct (drop_counters_device d h p' Hsd Hh).
  - assert (Hxl : x ∈ l ++ u) by (apply elem_of_app; right; by eapply list_elem_of_lookup_2).
    rewrite published_head, respond_ne by (done || by apply published_fresh).
    rewrite Hcs. apply Hused; [rewrite HU; by apply said_completed |]. intros y Hy%used_write_inside.
    unfold used_range, used_entry_address in *. rewrite HU in Hy.
    pose proof (ring_slot_range e (u16 (vq_consumed (e_vq e) + Z.of_nat i)) (si_bound _ (inv_struct _ (proj1 (pr_driver _ _ _ _ _ _ P))))). lia.
  - apply published_slots in Hx as [[-> [= <-]] | [Hne Hx]].
    + apply Hholds, elem_of_app. left. by rewrite Hch, HU' in Hw.
    + destruct (published_keeps _ _ Hx) as (_ & K1 & K2 & K3 & K4). rewrite K3 in Hxs, Hw. rewrite HU' in Hw.
      apply (published_other e1 e' h0 p Hs1 Hp1 Hin Hwr _ x K1 K2); rewrite K4; [| done].
      intros v Hv. rewrite Hmem. apply P. rewrite HU in Hv. by eapply said_chain.
  - by eapply published_payloads.
Qed.
End Published.

(** Publishing appends a chain. *)
Lemma paired_publish e d l u Q R p gen given notify e' m :
  paired e d l u Q R -> kb2_vq_publish e true gen (Some p) given = (KB2_VQ_OK, notify, e') -> delivered e' d m ->
  paired e' (set_mem d m) (l ++ [p]) u (respond Q p (request e p)) (respond R p []).
Proof.
  intros P E Hd. destruct (pr_driver _ _ _ _ _ _ P) as [Hi Hside]. pose proof (inv_struct _ Hi) as Hs.
  pose proof (publish_inv e true gen (Some p) given Hi) as Hi'. rewrite E in Hi'. cbn [snd] in Hi'.
  destruct (publish_linked e p gen given notify e' Hi Hside (pr_placed _ _ _ _ _ _ P) (lk_good_driver _ _ (pr_linked _ _ _ _ _ _ P)) E) as [e1 B].
  pose proof (published_said e d l u Q R p e1 e' P B m (proj2 (si_count _ (inv_struct _ Hi')))) as Hsaid.
  pose proof (published_keeps e p e1 e' B) as Hkeep. pose proof (published_slots e p e1 e' B) as Hslot.
  assert (Henv : same_env e e').
  { destruct (pb_env _ _ _ _ B) as [C1 R1 Q1 U1 P1], (pb_env' _ _ _ _ B) as [C2 R2 Q2 U2 P2].
    split; [auto | congruence .. | etransitivity; [exact P1 | exact P2]]. }
  assert (Hcount : slot_count (submitted e') (vq_slots (e_vq e')) = slot_count (submitted e) (vq_slots (e_vq e)) + 1).
  { rewrite <- (pb_count _ _ _ _ B), (pb_slots' _ _ _ _ B). apply slot_count_ext. intros x _. unfold submitted. by rewrite (pb_chains _ _ _ _ B). }
  assert (Hp : p ∉ l ++ u).
  { intros Hin. destruct (pr_outstanding _ _ _ _ _ _ P p Hin) as [Hx _]. by apply (pb_outside _ _ _ _ B p _ eq_refl Hx). }
  assert (Hold : forall x, outstanding e x -> outstanding e' x).
  { intros x [Hx Hst]. destruct (Hkeep _ _ Hx) as (K1 & _ & _ & K3 & _). unfold outstanding. by rewrite K3. }
  assert (Hperm : forall x, x ∈ (l ++ [p]) ++ u <-> x = p \/ x ∈ l ++ u).
  { intros x. rewrite !elem_of_app, list_elem_of_singleton. tauto. }
  split.
  - split; [done | apply B].
  - split; [| apply P]. eapply quiet_inv; [apply quiet_mem, Hd | apply P].
  - eapply placed_env; [exact Henv | apply P].
  - apply (linked_delivered e d); [done | rewrite <- (pb_mem _ _ _ _ B); apply B | apply P | done].
  - rewrite (proj2 (pb_produced _ _ _ _ B)), (pr_available _ _ _ _ _ _ P), u16_plus, length_app. cbn [length set_mem e_vq]. f_equal. lia.
  - rewrite (pb_consumed _ _ _ _ B). apply P.
  - exact Hsaid.
  - rewrite <- app_assoc. apply NoDup_app. pose proof (pr_distinct _ _ _ _ _ _ P) as Hnd. apply NoDup_app in Hnd as (N1 & N2 & N3).
    rewrite elem_of_app in Hp. split_and!; [done | | apply NoDup_cons; split; [tauto | done]].
    intros x Hx [-> | Hx']%elem_of_cons; [tauto | by apply (N2 x)].
  - intros x [-> | Hx]%Hperm; [| by apply Hold, P]. unfold outstanding. rewrite (pb_chains _ _ _ _ B). split; [apply Hslot; by left | apply B].
  - intros h x [[-> [= <-]] | [_ Hx]]%Hslot.
    + rewrite respond_eq, (pb_chains _ _ _ _ B), (pb_segments _ _ _ _ B). unfold request. by rewrite length_fmap.
    + destruct (Hkeep _ _ Hx) as (_ & _ & _ & -> & _).
      rewrite respond_ne by (intros ->; by apply (pb_outside _ _ _ _ B p h eq_refl Hx)). by apply (pr_requests _ _ _ _ _ _ P h).
  - intros x [Hx | ->%list_elem_of_singleton]%elem_of_app; [| apply respond_eq].
    rewrite respond_ne; [by apply P | intros ->; apply Hp, elem_of_app; by left].
  - intros x Hx. assert (Hxl : x ∈ l ++ u) by (apply elem_of_app; by right). destruct (pr_outstanding _ _ _ _ _ _ P x Hxl) as [Hin _].
    destruct (Hkeep _ _ Hin) as (_ & _ & _ & -> & _). rewrite respond_ne by (by intros ->). by apply P.
  - intros h x [[-> [= <-]] | [Hne Hx]]%Hslot Hst.
    + rewrite (pb_chains _ _ _ _ B), (pb_state _ _ _ _ B) in Hst. done.
    + destruct (Hkeep _ _ Hx) as (_ & _ & _ & K3 & _). rewrite K3 in *.
      rewrite respond_ne by (intros ->; by apply (pb_outside _ _ _ _ B p h eq_refl Hx)). by apply (pr_returned _ _ _ _ _ _ P h).
  - intros h x Hx. destruct (pr_taken _ _ _ _ _ _ P h x Hx) as (y & Hy & Hys & Hyn & Hsc & Hyw). destruct (Hkeep _ _ Hy) as (K1 & _ & K2 & K3 & _).
    assert (Hyp : y <> p) by (intros ->; by apply (pb_outside _ _ _ _ B p h)).
    exists y. rewrite K3, respond_ne by done. split_and!; [done | done | | done | done]. by intros [-> | ?]%Hperm.
  - rewrite Hcount, length_app. cbn [length set_mem e_vq]. pose proof (pr_count _ _ _ _ _ _ P). lia.
Qed.

(** * Completing *)

Lemma said_shared e d l u Q R w x : paired e d l u Q R -> said e d l u Q R w -> inside w x -> shared e x.
Proof.
  intros P Hw Hx. destruct (pr_driver _ _ _ _ _ _ P) as [[Hs _] _]. pose proof (queue_size_bounds _ (si_bound _ Hs)).
  destruct (said_where e d l u Q R w x (si_bound _ Hs) Hw Hx) as [Ha | [Hu | [(h & p & s & Hin & Hsg & Hsx) | (h & p & Hin & Hst & Hc)]]].
  - unfold available_range in Ha. apply available_shared; [apply P | lia].
  - unfold used_range in Hu. apply used_shared; [apply P | lia].
  - destruct (si_chain _ Hs _ _ Hin) as (_ & Hok & _).
    destruct (proj1 (Forall_forall _ _) (ck_payload _ _ Hok) s Hsg) as [? | (_ & _ & (r & Hr & ? & ? & _) & _)]; [lia |].
    exists r. split; [done | lia].
  - destruct (si_chain _ Hs _ _ Hin) as (_ & Hok & _). pose proof (blen_chain_write _ _ _ Hc) as Hl. unfold inside in Hx.
    eapply readable_shared; [apply (write_readable e (e_chain e p) (pr_placed _ _ _ _ _ _ P) (si_typed _ Hs p) Hok w Hc) | lia].
Qed.

(** The device [d'] that completed the chain at [p]. *)
Record finished d p d' : Prop := {
  fn_slot : in_slot d (Z.to_nat (c_head (e_chain d p))) p;
  fn_slots : vq_slots (e_vq d') = <[Z.to_nat (c_head (e_chain d p)) := None]> (vq_slots (e_vq d));
  fn_chains : forall x, x <> p -> e_chain d' x = e_chain d x;
  fn_env : same_env d d';
  fn_side : vq_side (e_vq d') = KB2_VQ_DEVICE;
  fn_produced : vq_produced (e_vq d') = u16 (vq_produced (e_vq d) + 1);
  fn_consumed : vq_consumed (e_vq d') = vq_consumed (e_vq d);
  fn_owned : vq_owned (e_vq d') = vq_owned (e_vq d) - 1;
  fn_last : forall x, vq_last_taken (e_vq d') = Some x -> vq_last_taken (e_vq d) = Some x /\ x <> p;
  fn_wrote : wrote (e_mem d) (e_mem d')
    [used_write (e_queue d) (vq_produced (e_vq d)) (c_head (e_chain d p)) (u32 (c_written (e_chain d p)));
     index_write (q_used_address (e_queue d)) (u16 (vq_produced (e_vq d) + 1))];
}.

Lemma complete_finished d p gen given notify d' :
  vq_inv d -> placed d -> bm_good (e_mem d) -> kb2_vq_complete d true gen (Some p) given = (KB2_VQ_OK, notify, d') -> finished d p d'.
Proof.
  intros Hi Hp Hg E. pose proof (inv_struct _ Hi) as Hs. unfold kb2_vq_complete in E. destruct (check d true gen); try done.
  destruct (_ || _) eqn:Eg in E; [done |]. rewrite !orb_false_iff, !negb_false_iff, !bool_decide_eq_true in Eg.
  destruct Eg as [[Hside Hown] _]. destruct (owned_slot _ _ _ Hs Hown) as [Hin _].
  pose proof (used_fits d Hp) as Hfit. pose proof (ring_slot_range d (vq_produced (e_vq d)) (si_bound _ Hs)) as Hslot.
  unfold ring_slot in E. destruct (mem_write _ _ _) as [[] m] eqn:Ew in E; [| done].
  rewrite u64_small in Ew by (unfold is_u64; lia). pose proof (policy_write _ _ _ _ _ Ew) as Hpol.
  apply bytes_write in Ew; [| done | by rewrite !write_u32_store, !blen_store_u32].
  destruct (publish_index _ _ _) as [[st n] d2] eqn:Ei. destruct st; try done. injection E as _ <-.
  pose proof (publish_index_wrote (set_mem d m) (q_used_address (e_queue d)) _ _ _ ltac:(lia) (sm_good _ _ (proj1 Ew)) Ei) as Hi2.
  apply publish_index_spec in Ei as [(_ & Hf & _) | (? & _)]; [| done]. destruct (frame_ok _ _ _ Hf eq_refl) as [Hv Hch].
  destruct (drop_counters_device _ _ _ Hs Hin) as [Hd _].
  assert (Hcd : forall x, e_chain d2 x = e_chain d x) by done.
  split; try done.
  - cbn. by rewrite Hv, Hcd.
  - intros x Hx. by rewrite e_chain_drop, decide_False.
  - apply same_env_vq; [cbn; by rewrite Hv .. |]. etransitivity; [exact Hpol | apply (fr_policy _ _ _ _ Hf)].
  - cbn. by rewrite Hv.
  - cbn. by rewrite Hv.
  - cbn. by rewrite Hv.
  - cbn. rewrite Hv. exact Hd.
  - intros x. cbn. rewrite Hv. case_decide as Hl; [done |]. cbn. intros Hx. split; [done |]. by intros ->.
  - change [?a; ?b] with ([a] ++ [b]). by apply (wrote_app _ m).
Qed.

Section Finished.
Context e d l u Q R p (k : loc) d' (m : M) (P : paired e d l u Q R) (F : finished d p d').
Context (Hk : in_slot e (Z.to_nat (c_head (e_chain d p))) k) (Hks : c_state (e_chain e k) = SUBMITTED).
Context (Hkn : k ∉ l ++ u) (Hsc : same_chain (e_chain e k) (e_chain d p)) (Hwr : c_written (e_chain d p) = blen (R k)).
Context (Hdel : forall x, shared e x -> bm_byte m x = bm_byte (e_mem d') x).
Notation n := (blen (R k)).
Notation q := (e_queue e).
Notation index := (vq_produced (e_vq d)).

Lemma finished_length : n <= c_writable (e_chain e k) /\ n <= U32_MAX.
Proof.
  destruct (pr_driver _ _ _ _ _ _ P) as [[Hs _] _], (pr_device _ _ _ _ _ _ P) as [[Hsd _] _].
  destruct (si_chain _ Hsd _ _ (fn_slot _ _ _ F)) as (_ & Hok & _ & (Hw & Hm & _)). destruct (si_chain _ Hs _ _ Hk) as (_ & Hoke & _).
  destruct (ck_totals _ _ Hok) as [_ E], (ck_totals _ _ Hoke) as [_ ->]. rewrite E, (sc_segments _ _ Hsc), Hwr in Hw. rewrite Hwr in Hm. lia.
Qed.

Notation writes := [used_write q index (c_head (e_chain e k)) n; index_write (q_used_address q) (u16 (index + 1))].

Lemma finished_bytes x : shared e x -> bm_byte m x = foldl overlay (bm_byte (e_mem e)) writes x.
Proof.
  intros Hx. pose proof finished_length as Hn. pose proof (pr_linked _ _ _ _ _ _ P) as L. rewrite (Hdel x Hx), (proj2 (fn_wrote _ _ _ F)).
  pose proof (blen_nonneg (R k)). rewrite (lk_queue _ _ L), (sc_head _ _ Hsc), Hwr, (u32_small n) by (unfold is_u32, U32_MAX in *; lia). apply overlays_ext. by apply L.
Qed.

Lemma finished_apart : pairwise apart writes.
Proof.
  destruct (pr_driver _ _ _ _ _ _ P) as [[Hs _] _]. apply pairwise_cons. split; [| apply pairwise_singleton].
  intros w ->%list_elem_of_singleton x Hx%used_write_inside Hx'%index_write_inside. unfold used_entry_address in Hx.
  pose proof (ring_slot_range e index (si_bound _ Hs)). lia.
Qed.

Lemma finished_holds w : w ∈ writes -> (forall x, inside w x -> shared e x) -> holds_write (bm_byte m) w.
Proof.
  intros Hw Hr x Hx. rewrite finished_bytes by by apply Hr. apply overlays_inside; [apply finished_apart | done | done].
Qed.

Lemma finished_keeps w :
  said e d l u Q R w -> (forall x, inside w x -> forall v, v ∈ writes -> ~ inside v x) -> holds_write (bm_byte m) w.
Proof.
  intros Hw Hx x Hin. rewrite finished_bytes by by eapply said_shared. rewrite overlays_outside by (intros; by eapply Hx).
  by apply (pr_said _ _ _ _ _ _ P).
Qed.

Lemma writes_inside w x :
  w ∈ writes -> inside w x -> q_used_address q <= x < q_used_address q + (6 + 8 * q_queue_size q).
Proof.
  destruct (pr_driver _ _ _ _ _ _ P) as [[Hs _] _]. pose proof (ring_slot_range e index (si_bound _ Hs)).
  pose proof (queue_size_bounds _ (si_bound _ Hs)).
  intros [-> | ->%list_elem_of_singleton]%elem_of_cons Hx; [apply used_write_inside in Hx; unfold used_entry_address in Hx; lia |].
  apply index_write_inside in Hx. lia.
Qed.

Lemma finished_available w :
  said e d l u Q R w -> (forall x, inside w x -> available_range q x) -> holds_write (bm_byte m) w.
Proof.
  intros Hw Hr. apply finished_keeps; [done |]. intros x Hx v Hv Hin. apply (writes_inside v x Hv) in Hin. apply Hr in Hx.
  unfold available_range in Hx.
  apply (pl_apart e (pr_placed _ _ _ _ _ _ P) 1%nat 2%nat _ _ ltac:(lia) eq_refl eq_refl). exists x. cbn [fst snd]. lia.
Qed.

Lemma finished_said w : said (set_mem e m) d' l (u ++ [k]) Q R w -> holds_write (bm_byte m) w.
Proof.
  intros Hw. destruct (pr_driver _ _ _ _ _ _ P) as [[Hs _] _]. pose proof (si_bound _ Hs) as Hb.
  pose proof (fun i => ring_slot_range e i Hb) as Hslot. pose proof (queue_size_bounds _ Hb) as Hqs.
  pose proof (paired_bounds _ _ _ _ _ _ P) as B. pose proof (fn_owned _ _ _ F).
  destruct (drop_counters_device d _ p (inv_struct _ (proj1 (pr_device _ _ _ _ _ _ P))) (fn_slot _ _ _ F)) as [_ H1d].
  assert (Hent : forall i v x, inside (entry_write q i v) x -> available_range q x).
  { intros i v x Hx%entry_write_inside. unfold available_range, entry_address in *. specialize (Hslot i). lia. }
  assert (Hnew : forall v x, v ∈ writes -> inside v x -> shared e x).
  { intros v x Hv Hx. apply used_shared; [apply P |]. by eapply writes_inside. }
  destruct Hw as [| | i x Hx | p' Hp' | i x Hx | h x w Hx Hxs Hw | h x ww i a v Hx Ha Hv]; cbn [set_mem e_vq].
  - apply finished_available; [exact (said_available e d l u Q R) |]. intros x Hx%index_write_inside.
    change (e_queue (set_mem e m)) with q in Hx. unfold available_range. lia.
  - rewrite (fn_produced _ _ _ F). apply finished_holds; [right; by left |]. intros x. apply Hnew. right. by left.
  - rewrite (fn_consumed _ _ _ F). apply finished_available; [exact (said_waiting e d l u Q R i x Hx) |]. apply Hent.
  - rewrite (fn_consumed _ _ _ F). destruct (fn_last _ _ _ F p' Hp') as [Hl Hne]. rewrite (fn_chains _ _ _ F) by done.
    apply finished_available; [exact (said_last e d l u Q R p' Hl) |]. apply Hent.
  - apply lookup_snoc_Some in Hx as [[Hlt Hx] | [-> <-]].
    + apply finished_keeps; [exact (said_completed e d l u Q R i x Hx) |].
      intros y Hy%used_write_inside z [-> | ->%list_elem_of_singleton]%elem_of_cons Hz.
      * apply used_write_inside in Hz. unfold used_entry_address in *. change (e_queue (set_mem e m)) with q in Hy.
        assert (Hne : Z.land (u16 (vq_consumed (e_vq e) + Z.of_nat i)) (q_queue_size q - 1) <> Z.land index (q_queue_size q - 1)).
        { rewrite (pr_used _ _ _ _ _ _ P). apply slots_apart; [apply Hb | lia | lia]. }
        lia.
      * apply index_write_inside in Hz. unfold used_entry_address in *. change (e_queue (set_mem e m)) with q in Hy.
        specialize (Hslot (u16 (vq_consumed (e_vq e) + Z.of_nat i))). lia.
    + rewrite <- (pr_used _ _ _ _ _ _ P). apply finished_holds; [by left |]. intros x. apply Hnew. by left.
  - apply finished_keeps; [by eapply (said_chain e d l u Q R h x) |]. intros y Hy v Hv Hz.
    apply (chain_writes_clear_used e (e_chain e x) (pr_placed _ _ _ _ _ _ P) (si_typed _ Hs x) ltac:(by apply (si_chain _ Hs _ _ Hx)) w y Hw Hy).
    by eapply writes_inside.
  - apply finished_keeps; [exact (said_payload e d l u Q R h x ww i a v Hx Ha Hv) |]. intros y Hy w Hw Hz.
    pose proof Ha as (sg & Hsg & _ & Hsa)%cells_segment.
    assert (Ey : y = a) by (unfold inside in Hy; cbn [fst snd] in Hy; change (blen [v]) with 1 in Hy; lia). subst y.
    apply (payload_clear e h x sg a (q_used_address q, 6 + 8 * q_queue_size q) Hs (pr_placed _ _ _ _ _ _ P) Hx Hsg Hsa);
      [right; right; by left |]. cbn [fst snd]. by eapply writes_inside.
Qed.
End Finished.

Lemma placed_linked e d : linked e d -> placed e -> placed d.
Proof. intros [L1 L2 L3 _ _ _ _ _ _ _ _] [P1 P2 P3 P4 P5]. split; rewrite ?L1, ?L2, ?L3; done. Qed.

Lemma shared_linked e d x : e_regions d = e_regions e -> shared d x <-> shared e x.
Proof. intros Hr. unfold shared. by rewrite Hr. Qed.

(** The link after the device wrote and the driver's backend delivered. *)
Lemma linked_answered e d d' m :
  same_env d d' -> same_maps (e_mem d) (e_mem d') -> linked e d -> delivered d' e m -> linked (set_mem e m) d'.
Proof.
  intros Henv Hm L [Dm Dp Db]. apply (linked_ext e d (set_mem e m) d'); [by apply same_env_vq | done | done | done | | done].
  intros x Hx. symmetry. apply Db, (shared_linked e d'); [| done]. rewrite (en_regions _ _ Henv). apply L.
Qed.

(** Completing appends the driver's chain, with the length that was written. *)
Lemma paired_complete e d l u Q R p gen given notify d' m :
  paired e d l u Q R -> kb2_vq_complete d true gen (Some p) given = (KB2_VQ_OK, notify, d') -> delivered d' e m ->
  exists k, in_slot e (Z.to_nat (c_head (e_chain d p))) k /\ same_chain (e_chain e k) (e_chain d p) /\
    paired (set_mem e m) d' l (u ++ [k]) Q R.
Proof.
  intros P E Hd. destruct (pr_device _ _ _ _ _ _ P) as [Hid Hside]. destruct (pr_driver _ _ _ _ _ _ P) as [Hie Hsidee].
  pose proof (pr_linked _ _ _ _ _ _ P) as L. pose proof (inv_struct _ Hie) as Hs.
  pose proof (complete_inv d true gen (Some p) given Hid) as Hi. rewrite E in Hi. cbn [snd] in Hi.
  pose proof (complete_finished d p gen given notify d' Hid (placed_linked _ _ L (pr_placed _ _ _ _ _ _ P)) (lk_good _ _ L) E) as F.
  destruct (pr_taken _ _ _ _ _ _ P _ p (fn_slot _ _ _ F)) as (k & Hk & Hks & Hkn & Hsc & Hwr). exists k. split_and!; [done | done |].
  assert (Hdel : forall x, shared e x -> bm_byte m x = bm_byte (e_mem d') x).
  { intros x Hx. apply Hd, (shared_linked e d'); [| done]. rewrite (en_regions _ _ (fn_env _ _ _ F)). apply L. }
  assert (Hkslot : Z.to_nat (c_head (e_chain e k)) = Z.to_nat (c_head (e_chain d p))) by (by rewrite (sc_head _ _ Hsc)).
  rewrite elem_of_app in Hkn.
  split.
  - split; [| done]. eapply quiet_inv; [apply quiet_mem, Hd | done].
  - split; [done | apply F].
  - by apply (placed_env e (set_mem e m)); [apply same_env_vq; [done | done | apply Hd] | apply P].
  - apply (linked_answered e d); [apply F | apply (fn_wrote _ _ _ F) | done | done].
  - rewrite (fn_consumed _ _ _ F). apply P.
  - rewrite (fn_produced _ _ _ F), (pr_used _ _ _ _ _ _ P), u16_plus, length_app. cbn [length set_mem e_vq]. f_equal. lia.
  - by apply (finished_said e d l u Q R p k d' m P F).
  - rewrite app_assoc. apply NoDup_snoc. split; [apply P |]. by rewrite elem_of_app.
  - intros x. rewrite app_assoc, elem_of_app. intros [Hx | ->%list_elem_of_singleton]; [by apply P |].
    split; [| done]. change (in_slot e (Z.to_nat (c_head (e_chain e k))) k). by rewrite Hkslot.
  - apply P.
  - apply P.
  - intros x [Hx | ->%list_elem_of_singleton]%elem_of_app; [by apply P |]. by apply (finished_length e d l u Q R p k d' P F).
  - apply P.
  - intros h x Hx. apply (in_slot_insert d d' _ None _ _ (fn_slots _ _ _ F)) in Hx; [| eapply lookup_lt_Some, F].
    destruct Hx as [[_ ?] | [Hne Hx]]; [done |].
    assert (Hxp : x <> p) by (intros ->; by apply Hne, (in_slot_unique d _ _ p (inv_struct _ Hid) Hx (fn_slot _ _ _ F))).
    rewrite (fn_chains _ _ _ F) by done. destruct (pr_taken _ _ _ _ _ _ P h x Hx) as (y & Hy & Hys & Hyn & Hsy & Hyw).
    exists y. split_and!; [done | done | | done | done]. rewrite app_assoc, elem_of_app.
    intros [? | ->%list_elem_of_singleton]; [done |]. by apply Hne, (in_slot_unique e _ _ k).
  - pose proof (pr_count _ _ _ _ _ _ P) as Hc. pose proof (fn_owned _ _ _ F). rewrite length_app. cbn [length].
    change (slot_count _ _) with (slot_count (submitted e) (vq_slots (e_vq e))). lia.
Qed.

(** * Taking back *)

(** A new state of the driver says nothing new when it keeps what it produced, of the
    completed chains the entries, and the chains that stay submitted. *)
Lemma paired_driver e e' d l u u' Q R :
  paired e d l u Q R -> vq_inv e' -> vq_side (e_vq e') = KB2_VQ_DRIVER -> same_env e e' -> same_bytes (e_mem e) (e_mem e') ->
  vq_produced (e_vq e') = vq_produced (e_vq e) ->
  vq_produced (e_vq d) = u16 (vq_consumed (e_vq e') + Z.of_nat (length u')) ->
  (forall i p, u' !! i = Some p ->
     said e d l u Q R (used_write (e_queue e) (u16 (vq_consumed (e_vq e') + Z.of_nat i)) (c_head (e_chain e p)) (blen (R p)))) ->
  (forall h x, in_slot e' h x -> in_slot e h x /\ chain_segments (e_chain e' x) = chain_segments (e_chain e x) /\
     (c_state (e_chain e' x) = SUBMITTED -> e_chain e' x = e_chain e x) /\
     (c_state (e_chain e' x) = RETURNED -> c_used_length (e_chain e' x) = blen (R x))) ->
  (forall h x, in_slot e h x -> c_state (e_chain e x) = SUBMITTED -> x ∈ l ++ u' \/ x ∉ l ++ u ->
     in_slot e' h x /\ e_chain e' x = e_chain e x) ->
  l ++ u' `sublist_of` l ++ u -> (forall x, x ∈ u' -> x ∈ u) ->
  Z.of_nat (length u) - Z.of_nat (length u') =
    slot_count (submitted e) (vq_slots (e_vq e)) - slot_count (submitted e') (vq_slots (e_vq e')) ->
  paired e' d l u' Q R.
Proof.
  intros P Hi Hside Henv [Hmaps Hbytes] Hpr Hus Hent Hback Hkeep Hsub Hin Hcnt.
  pose proof (en_queue _ _ Henv) as HU.
  assert (Hout : forall x, x ∈ l ++ u' -> outstanding e x /\ outstanding e' x /\ e_chain e' x = e_chain e x).
  { intros x Hx. assert (Ho : outstanding e x) by (apply P; by eapply elem_of_sublist). split; [done |]. destruct Ho as [Ho1 Ho2].
    destruct (Hkeep _ _ Ho1 Ho2 (or_introl Hx)) as [K1 K2]. unfold outstanding. by rewrite K2. }
  assert (Houtl : forall x, x ∈ l -> e_chain e' x = e_chain e x) by (intros x Hx; apply Hout, elem_of_app; by left).
  assert (Houtu : forall x, x ∈ u' -> e_chain e' x = e_chain e x) by (intros x Hx; apply Hout, elem_of_app; by right).
  split; try done; try apply P.
  - eapply placed_env; [exact Henv | apply P].
  - pose proof (pr_linked _ _ _ _ _ _ P) as L. apply (linked_ext e d e' d); [done | by apply same_env_vq | done | apply same_maps_refl, L | | done].
    intros x Hx. rewrite Hbytes. by apply L.
  - rewrite Hpr. apply P.
  - intros w Hw x Hx. rewrite Hbytes. apply (pr_said _ _ _ _ _ _ P); [| done].
    destruct Hw as [| | i y Hy | p' Hp' | i y Hy | h y w Hy Hys Hw | h y ww i a v Hy Ha Hv]; rewrite ?HU.
    + rewrite Hpr. constructor.
    + constructor.
    + rewrite Houtl by (by eapply list_elem_of_lookup_2). by constructor.
    + by apply said_last.
    + rewrite Houtu by (by eapply list_elem_of_lookup_2). by apply Hent.
    + destruct (Hback _ _ Hy) as (Hy' & _ & Hc & _). specialize (Hc Hys). rewrite Hc in Hys, Hw. rewrite HU in Hw. by eapply said_chain.
    + destruct (Hback _ _ Hy) as (Hy' & Hc & _). rewrite Hc in Ha. by eapply said_payload.
  - eapply sublist_NoDup; [apply P | exact Hsub].
  - intros x Hx. apply Hout, Hx.
  - intros h x Hx. destruct (Hback _ _ Hx) as (Hx' & -> & _). by apply (pr_requests _ _ _ _ _ _ P h).
  - intros x Hx. rewrite Houtu by done. by apply P, Hin.
  - intros h x Hx Hst. destruct (Hback _ _ Hx) as (_ & _ & _ & Hr). by apply Hr.
  - intros h p' Hp'. destruct (pr_taken _ _ _ _ _ _ P h p' Hp') as (y & Hy & Hys & Hyn & Hsy & Hyw).
    destruct (Hkeep h y Hy Hys (or_intror Hyn)) as [K1 K2]. exists y. rewrite K2. split_and!; [done | done | | done | done].
    intros Hyl. apply Hyn. by eapply elem_of_sublist.
  - pose proof (pr_count _ _ _ _ _ _ P). lia.
Qed.

Lemma paired_driver_mem e d l u Q R m :
  paired e d l u Q R -> same_bytes (e_mem e) m -> same_policy (e_mem e) m -> paired (set_mem e m) d l u Q R.
Proof.
  intros P Hm Hp. apply (paired_driver e _ d l u u); [done | | apply P | by apply same_env_vq | done | done | apply P | .. | done | |].
  - eapply quiet_inv; [by apply quiet_mem | apply P].
  - intros i p Hi. exact (said_completed e d l u Q R i p Hi).
  - intros h x Hx. split_and!; [done | done | done | by apply (pr_returned _ _ _ _ _ _ P h)].
  - done.
  - done.
  - change (slot_count (submitted (set_mem e m)) (vq_slots (e_vq (set_mem e m)))) with (slot_count (submitted e) (vq_slots (e_vq e))). lia.
Qed.

(** The driver sees as many entries as there are completed chains. *)
Lemma paired_pending_driver e d l u Q R :
  paired e d l u Q R -> e_faulted e = false ->
  exists m, pending_index e = (match u with [] => KB2_VQ_EMPTY | _ => KB2_VQ_OK end, Z.of_nat (length u), set_mem e m) /\
    same_bytes (e_mem e) m /\ same_policy (e_mem e) m.
Proof.
  intros P Hnf. pose proof (paired_bounds _ _ _ _ _ _ P) as B. pose proof (pr_linked _ _ _ _ _ _ P) as L.
  pose proof (used_fits e (pr_placed _ _ _ _ _ _ P)) as Hfit. unfold pending_index. destruct (pr_driver _ _ _ _ _ _ P) as [Hie Hside].
  pose proof (inv_counters _ Hie Hnf) as Hc. unfold counters_inv in Hc. rewrite Hside in Hc |- *. cbn [decide decide_rel].
  destruct (bytes_load (e_mem e) (q_used_address (e_queue e) + 2) (lk_good_driver _ _ L)) as (m & E & Hm).
  rewrite (lk_loadable_driver _ _ L) in E. rewrite decide_True by done. rewrite u64_small by (unfold is_u64; lia). rewrite E.
  rewrite (holds_index _ _ (vq_produced (e_vq d))).
  2: { by apply (si_indices _ (inv_struct _ (proj1 (pr_device _ _ _ _ _ _ P)))). }
  2: { apply P. constructor. }
  rewrite (pr_used _ _ _ _ _ _ P), u16_distance by lia. change (e_queue (set_mem e m)) with (e_queue e).
  rewrite (proj2 (Z.ltb_ge _ _)) by lia. rewrite bool_decide_true by done. rewrite Hc, (proj2 (Z.ltb_ge _ _)) by lia. cbn [orb andb].
  exists m. apply policy_load in E. split_and!; [| done | done].
  destruct u; [done |]. by rewrite (proj2 (Z.eqb_neq _ _)) by (cbn [length]; lia).
Qed.

(** The used entry the driver reads next. *)
Lemma paired_used_entry e d l p u Q R :
  paired e d l (p :: u) Q R ->
  exists b m, mem_read (e_mem e) (u64 (q_used_address (e_queue e) + 4 + 8 * ring_slot e (vq_consumed (e_vq e)))) 8 = (Some b, m) /\
    read_u32 b 0 = c_head (e_chain e p) /\ read_u32 b 4 = blen (R p) /\ same_bytes (e_mem e) m /\ same_policy (e_mem e) m.
Proof.
  intros P. pose proof (pr_linked _ _ _ _ _ _ P) as L. destruct (pr_driver _ _ _ _ _ _ P) as [[Hs _] _].
  destruct (si_indices _ Hs) as [_ Hcons].
  assert (Hentry : holds_write (bm_byte (e_mem e)) (used_write (e_queue e) (vq_consumed (e_vq e)) (c_head (e_chain e p)) (blen (R p)))).
  { pose proof (pr_said _ _ _ _ _ _ P _ (said_completed e d l (p :: u) Q R 0%nat p eq_refl)) as Hw.
    rewrite Z.add_0_r, u16_small in Hw by done. exact Hw. }
  pose proof (used_fits e (pr_placed _ _ _ _ _ _ P)) as Hfit. pose proof (ring_slot_range e (vq_consumed (e_vq e)) (si_bound _ Hs)) as Hslot.
  unfold ring_slot. change (q_used_address (e_queue e) + 4 + _) with (used_entry_address (e_queue e) (vq_consumed (e_vq e))).
  destruct (bytes_read (e_mem e) (used_entry_address (e_queue e) (vq_consumed (e_vq e))) 8 (lk_good_driver _ _ L) ltac:(done)) as (m & E & Hm).
  assert (Hrd : readable_range e (used_entry_address (e_queue e) (vq_consumed (e_vq e))) 8).
  { eapply readable_sub; [| | apply (ring_readable e (q_used_address (e_queue e), 6 + 8 * q_queue_size (e_queue e)) (pr_placed _ _ _ _ _ _ P)); right; right; by left];
      unfold used_entry_address; cbn [fst snd]; lia. }
  rewrite (lk_readable_driver _ _ L) in E by done. rewrite u64_small by (unfold used_entry_address, is_u64; lia). rewrite E.
  destruct (pr_completed _ _ _ _ _ _ P p) as [_ Hn]; [by left |]. pose proof (ct_head _ (si_typed _ Hs p)) as Hu. pose proof (blen_nonneg (R p)).
  destruct (holds_used (bm_byte (e_mem e)) (e_queue e) (vq_consumed (e_vq e)) (c_head (e_chain e p)) (blen (R p))) as [H0' H4'];
    [intros y; apply bytes_u8, L | unfold is_u16, is_u32 in *; lia | unfold is_u32, U32_MAX in *; lia | exact Hentry |].
  apply policy_read in E. by eexists _, m.
Qed.

(** The driver after it took the chain at [p] back with the length [n]. *)
Definition reaped e (p : loc) (n : Z) : engine M :=
  set_consumed (set_chain e p (set_returned (e_chain e p) n)) (u16 (vq_consumed (e_vq e) + 1)).

Lemma outstanding_owned e p : struct_inv e -> outstanding e p -> owned e (Some p) SUBMITTED = true.
Proof.
  intros Hs [Hin Hst]. destruct (si_chain _ Hs _ _ Hin) as (Hh & Hok & _). destruct (ck_head _ _ Hok) as [Hlt _].
  unfold owned, slot_at. unfold in_slot in Hin. rewrite Hin, Hst. cbn. rewrite !bool_decide_true by done.
  by rewrite (proj2 (Z.ltb_lt _ _)).
Qed.

Lemma take_used_reaped e d l u Q R gen :
  paired e d l u Q R -> check e true gen = KB2_VQ_OK ->
  exists m, kb2_vq_take_used e true gen true =
    match u with
    | [] => (KB2_VQ_EMPTY, None, set_mem e m)
    | p :: _ => (KB2_VQ_OK, Some p, reaped (set_mem e m) p (blen (R p)))
    end /\ paired (set_mem e m) d l u Q R.
Proof.
  intros P Hc. destruct (pr_driver _ _ _ _ _ _ P) as [Hie Hside]. pose proof (inv_struct _ Hie) as Hs.
  unfold kb2_vq_take_used. rewrite Hc, (bool_decide_true (_ = KB2_VQ_DRIVER)) by done. cbn [negb orb].
  destruct (paired_pending_driver _ _ _ _ _ _ P (check_ok _ _ _ Hc)) as (m1 & -> & Hm1 & Hp1).
  pose proof (paired_driver_mem _ _ _ _ _ _ m1 P Hm1 Hp1) as P1. destruct u as [| p u]; [by exists m1 |].
  destruct (paired_used_entry _ _ _ _ _ _ _ P1) as (b & m2 & -> & -> & -> & Hm2 & Hp2). exists m2.
  pose proof (paired_driver_mem _ _ _ _ _ _ m2 P1 Hm2 Hp2) as P2. split; [| done].
  assert (Hpo : outstanding e p) by (apply P, elem_of_app; right; by left).
  pose proof (outstanding_owned e p Hs Hpo) as Hown. destruct Hpo as [Hin _].
  destruct (si_chain _ Hs _ _ Hin) as (_ & Hok & _). destruct (ck_head _ _ Hok) as [Hlt _].
  change (e_chain (set_mem e m1) p) with (e_chain e p). change (e_queue (set_mem e m1)) with (e_queue e).
  rewrite (proj2 (Z.leb_gt _ _)) by done. change (set_mem (set_mem e m1) m2) with (set_mem e m2).
  assert (Hsl : slot_at (set_mem e m2) (c_head (e_chain e p)) = Some p) by (unfold slot_at; unfold in_slot in Hin; cbn; by rewrite Hin).
  rewrite Hsl. change (owned (set_mem e m2) (Some p) SUBMITTED) with (owned e (Some p) SUBMITTED). rewrite Hown.
  destruct (pr_completed _ _ _ _ _ _ P p) as [Hn _]; [by left |].
  change (e_chain (set_mem e m2) p) with (e_chain e p). by rewrite (proj2 (Z.ltb_ge (c_writable (e_chain e p)) (blen (R p)))) by lia.
Qed.

Lemma paired_reaped e d l p u Q R :
  paired e d l (p :: u) Q R -> vq_inv (reaped e p (blen (R p))) -> paired (reaped e p (blen (R p))) d l u Q R.
Proof.
  intros P Hi. destruct (pr_driver _ _ _ _ _ _ P) as [[Hs _] Hside]. set (n := blen (R p)) in *.
  assert (Hpo : outstanding e p) by (apply P, elem_of_app; right; by left). destruct Hpo as [Hin Hst].
  assert (Hch : forall x, e_chain (reaped e p n) x = if decide (x = p) then set_returned (e_chain e p) n else e_chain e x)
    by (intros x; apply (e_chain_set e p (set_returned (e_chain e p) n))).
  pose proof (pr_distinct _ _ _ _ _ _ P) as Hnd. pose proof (pr_linked _ _ _ _ _ _ P) as L.
  assert (Hp : p ∉ l ++ u).
  { apply NoDup_app in Hnd as (N1 & N2 & N3). apply NoDup_cons in N3 as [N3 _].
    intros [Hx | Hx]%elem_of_app; [apply (N2 p Hx); by left | done]. }
  apply (paired_driver e _ d l (p :: u) u); [done | done | done | by apply same_env_vq | | done | ..].
  - split; [apply same_maps_refl, L | done].
  - cbn [reaped set_consumed set_vq e_vq vq_consumed]. rewrite (pr_used _ _ _ _ _ _ P). cbn [length].
    change (vq_consumed (e_vq (set_chain e p _))) with (vq_consumed (e_vq e)).
    rewrite u16_plus. f_equal. lia.
  - intros i x Hx. cbn [reaped set_consumed set_vq e_vq vq_consumed]. rewrite u16_plus.
    replace (1 + Z.of_nat i) with (Z.of_nat (S i)) by lia. by apply said_completed.
  - intros h x Hx. rewrite Hch. case_decide as Hxp.
    + subst x. by split_and!.
    + split_and!; [done | done | done | by apply (pr_returned _ _ _ _ _ _ P h)].
  - intros h x Hx Hxs Hxin. rewrite Hch, decide_False; [done |]. intros ->. destruct Hxin as [Hxin | Hxin]; [done |].
    apply Hxin, elem_of_app. right. by left.
  - apply sublist_app; [done |]. by apply sublist_cons.
  - intros x Hx. by right.
  - pose proof (return_submitted e _ p (set_returned (e_chain e p) n) Hs Hin Hst eq_refl) as Hr.
    change (slot_count (submitted (reaped e p n)) (vq_slots (e_vq (reaped e p n)))) with
      (slot_count (submitted (set_chain e p (set_returned (e_chain e p) n))) (vq_slots (e_vq e))). cbn [length]. lia.
Qed.

(** Taking back gives the chain that was completed first, and finds nothing when there is none. *)
Lemma paired_take_used e d l u Q R gen :
  paired e d l u Q R -> check e true gen = KB2_VQ_OK ->
  let '(st, p', e') := kb2_vq_take_used e true gen true in
  match u with
  | [] => st = KB2_VQ_EMPTY /\ p' = None /\ paired e' d l [] Q R
  | p :: u => st = KB2_VQ_OK /\ p' = Some p /\ paired e' d l u Q R /\ owned e' (Some p) RETURNED = true /\
      c_used_length (e_chain e' p) = blen (R p) /\ chain_segments (e_chain e' p) = chain_segments (e_chain e p)
  end.
Proof.
  intros P Hc. pose proof (take_used_inv e true gen true (proj1 (pr_driver _ _ _ _ _ _ P))) as Hi.
  destruct (take_used_reaped e d l u Q R gen P Hc) as (m & E & P1). rewrite E in *. destruct u as [| p u]; [done |].
  cbn [snd] in Hi. destruct (pr_outstanding _ _ _ _ _ _ P p) as [Hin Hst]; [apply elem_of_app; right; by left |].
  assert (Hch : e_chain (reaped (set_mem e m) p (blen (R p))) p = set_returned (e_chain e p) (blen (R p))) by apply e_chain_set_eq.
  rewrite Hch. split_and!; [done | done | by apply paired_reaped | | done | done].
  pose proof (outstanding_owned e p (inv_struct _ (proj1 (pr_driver _ _ _ _ _ _ P))) (conj Hin Hst)) as Hown.
  unfold owned in *. rewrite Hch. cbn [set_returned c_head c_state]. rewrite !andb_true_iff in *. split; [| apply Hown].
  split; [apply Hown | by apply bool_decide_eq_true].
Qed.
End Pair.
