(* ===== verification/VirtqueuePayload.v ===== *)
(** The payload of a queue between two honest ends.

    What remains of [VirtqueueFifo]: the bytes of a request arrive at the device as they
    were when the driver published them, the bytes of a response arrive at the driver as
    the device wrote them, and nothing else the two owners do disturbs the queue. *)

From Stdlib Require Import ZArith Lia.
From stdpp Require Import base numbers tactics sets gmap list_numbers list.
From S2P Require Import Prelude Bytes Layout Protocol ProtocolSpec Virtqueue VirtqueueSpec VirtqueueInv VirtqueueOps VirtqueueBytes.
From S2P Require Import VirtqueueBytes VirtqueueFifo.

Open Scope Z_scope.

Section Payload.
Context {M : Type} `{VqMemoryLaws M} `{VqBytes M} `{!VqBytesLaws M}.
Implicit Types e d : engine M.
Implicit Types l u : list loc.
Notation payloads := (loc -> list Z).
Implicit Types Q R : payloads.

(** * Writing elsewhere *)

(** A byte of the rings, or of memory that a chain of the queue has claimed. *)
Definition claimed e (x : Z) : Prop :=
  (exists range, range ∈ rings (e_queue e) /\ range.1 <= x < range.1 + range.2) \/
  (exists h p y, in_slot e h p /\ y ∈ leases (e_chain e p) /\ l_address y <= x < l_address y + l_length y).

Lemma said_claimed e d l u Q R w x : paired e d l u Q R -> said e d l u Q R w -> inside w x -> claimed e x.
Proof.
  intros P Hw Hx. destruct (pr_driver _ _ _ _ _ _ P) as [[Hs _] _]. pose proof (queue_size_bounds _ (si_bound _ Hs)).
  destruct (said_where e d l u Q R w x (si_bound _ Hs) Hw Hx) as [Ha | [Hu | [(h & p & s & Hin & Hsg & Hsx) | (h & p & Hin & Hst & Hc)]]].
  - left. exists (q_available_address (e_queue e), 6 + 2 * q_queue_size (e_queue e)).
    unfold available_range in Ha. cbn [fst snd]. split; [right; by left | lia].
  - left. exists (q_used_address (e_queue e), 6 + 8 * q_queue_size (e_queue e)).
    unfold used_range in Hu. cbn [fst snd]. split; [right; right; by left | lia].
  - right. exists h, p, (segment_lease s). split_and!; [done | right; by apply list_elem_of_fmap_2 | apply Hsx ..].
  - destruct (si_chain _ Hs _ _ Hin) as (_ & Hok & _).
    destruct (chain_write_inside e (e_chain e p) (pr_placed _ _ _ _ _ _ P) (si_typed _ Hs p) Hok w x Hc Hx) as (_ & _ & [(i & _ & Hi & E) | Htab]).
    + left. exists (q_descriptor_address (e_queue e), 16 * q_queue_size (e_queue e)). split; [by left |].
      pose proof (blen_chain_write _ _ _ Hc). unfold inside, cell, DESC_SIZE in *. cbn [fst snd]. lia.
    + right. exists h, p, (table_lease (e_chain e p)). split_and!; [done | by left | apply Htab ..].
Qed.

Lemma said_set_mem e d l u Q R m m' w : said (set_mem e m) (set_mem d m') l u Q R w -> said e d l u Q R w.
Proof.
  intros Hw. destruct Hw as [| | i p Hi | p' Hp' | i p Hi | h p w Hin Hst Hw | h p ww i a v Hin Ha Hv].
  - exact (said_available e d l u Q R).
  - exact (said_used e d l u Q R).
  - exact (said_waiting e d l u Q R i p Hi).
  - exact (said_last e d l u Q R p' Hp').
  - exact (said_completed e d l u Q R i p Hi).
  - exact (said_chain e d l u Q R h p w Hin Hst Hw).
  - exact (said_payload e d l u Q R h p ww i a v Hin Ha Hv).
Qed.

(** Both backends may change where the queue says nothing. *)
Lemma paired_memory e d l u Q R m m' :
  paired e d l u Q R -> same_maps (e_mem e) m -> same_policy (e_mem e) m -> same_maps (e_mem d) m' -> same_policy (e_mem d) m' ->
  (forall x, shared e x -> bm_byte m' x = bm_byte m x) ->
  (forall w x, said e d l u Q R w -> inside w x -> bm_byte m x = bm_byte (e_mem e) x) ->
  paired (set_mem e m) (set_mem d m') l u Q R.
Proof.
  intros P Hm Hp Hm' Hp' Hb Hk. split; try apply P.
  - split; [| apply P]. eapply quiet_inv; [by apply quiet_mem | apply P].
  - split; [| apply P]. eapply quiet_inv; [by apply quiet_mem | apply P].
  - apply (placed_env e); [by apply same_env_vq | apply P].
  - by apply (linked_ext e d); [apply same_env_vq .. | done | done | | apply P].
  - intros w Hw%said_set_mem. apply (holds_write_ext (bm_byte (e_mem e))); [| by apply (pr_said _ _ _ _ _ _ P)].
    intros x Hx. by eapply Hk.
Qed.

(** The driver's caller writes into memory that no chain has claimed. *)
Lemma paired_client e d l u Q R m m' :
  paired e d l u Q R -> same_maps (e_mem e) m -> same_policy (e_mem e) m -> delivered (set_mem e m) d m' ->
  (forall x, claimed e x -> bm_byte m x = bm_byte (e_mem e) x) ->
  paired (set_mem e m) (set_mem d m') l u Q R.
Proof.
  intros P Hm Hp [Dm Dp Db] Hk. apply paired_memory; try done. intros w x Hw Hx. by eapply Hk, said_claimed.
Qed.

(** ** Chain objects *)

Lemma outside_chain e p c h x : outside_slots e (eq p) -> in_slot e h x -> e_chain (set_chain e p c) x = e_chain e x.
Proof. intros Hout Hx. rewrite e_chain_set, decide_False; [done |]. intros ->. by apply (Hout p h). Qed.

(** The owner of an end rewrites a chain object that is free. *)
Lemma paired_driver_chain e d l u Q R p c :
  paired e d l u Q R -> c_state (e_chain e p) = FREE -> chain_typed c -> paired (set_chain e p c) d l u Q R.
Proof.
  intros P Hf Hc. destruct (pr_driver _ _ _ _ _ _ P) as [Hi Hside]. pose proof (inv_struct _ Hi) as Hs.
  pose proof (free_outside e p Hs Hf) as Hout. pose proof (fun h x => outside_chain e p c h x Hout) as Hch.
  assert (Hout' : forall x, outstanding e x -> e_chain (set_chain e p c) x = e_chain e x) by (intros x [Hx _]; by eapply Hch).
  apply (paired_driver e _ d l u u); try done; try apply P.
  - eapply (frame_inv (eq p)); [by apply (frame_chain (eq p)) | done | done].
  - split; [apply same_maps_refl, (lk_good_driver _ _ (pr_linked _ _ _ _ _ _ P)) | done].
  - intros i x Hx. exact (said_completed e d l u Q R i x Hx).
  - intros h x Hx. change (in_slot e h x) in Hx. rewrite (Hch _ _ Hx). split_and!; [done | done | done | by apply (pr_returned _ _ _ _ _ _ P h)].
  - intros h x Hx Hst _. split; [exact Hx | by eapply Hch].
  - rewrite Z.sub_diag. symmetry. apply Z.sub_move_0_r. apply slot_count_ext. intros x [h Hx]%list_elem_of_lookup. unfold submitted. by rewrite (Hch _ _ Hx).
Qed.

Lemma paired_device_chain e d l u Q R p c :
  paired e d l u Q R -> c_state (e_chain d p) = FREE -> chain_typed c -> paired e (set_chain d p c) l u Q R.
Proof.
  intros P Hf Hc. destruct (pr_device _ _ _ _ _ _ P) as [Hi Hside]. pose proof (inv_struct _ Hi) as Hs.
  pose proof (free_outside d p Hs Hf) as Hout. pose proof (fun h x => outside_chain d p c h x Hout) as Hch.
  apply (paired_device e d _ l); try done; try apply P.
  - eapply (frame_inv (eq p)); [by apply (frame_chain (eq p)) | done | done].
  - by eapply (linked_vq e d); [| | | apply P].
  - intros i x Hx. exact (said_waiting e d l u Q R i x Hx).
  - intros x Hx. destruct (si_last _ Hs x Hx) as [h Hh]. rewrite (Hch _ _ Hh). exact (said_last e d l u Q R x Hx).
  - intros x Hx. split; [apply P, elem_of_app; by left | by apply P].
  - intros h x Hx. change (in_slot d h x) in Hx. rewrite (Hch _ _ Hx). by apply (pr_taken _ _ _ _ _ _ P h x).
Qed.

(** * Releasing *)

(** A chain that was taken back is forgotten. *)
Lemma paired_release e d l u Q R p gen e' :
  paired e d l u Q R -> kb2_vq_release e true gen (Some p) = (KB2_VQ_OK, e') -> paired e' d l u Q R.
Proof.
  intros P E. destruct (pr_driver _ _ _ _ _ _ P) as [Hi Hside]. pose proof (inv_struct _ Hi) as Hs.
  pose proof (release_inv e true gen (Some p) Hi) as Hi'. rewrite E in Hi'. cbn [snd] in Hi'.
  unfold kb2_vq_release in E. destruct (check e true gen); try done. destruct (_ || _) eqn:Eg in E; [done |].
  injection E as <-. rewrite !orb_false_iff, !negb_false_iff in Eg. destruct Eg as [_ Hown].
  destruct (owned_slot _ _ _ Hs Hown) as [Hin Hst]. set (h0 := Z.to_nat (c_head (e_chain e p))) in *.
  assert (Hslot : forall h x, in_slot (drop_chain e p) h x <-> h <> h0 /\ in_slot e h x).
  { intros h x. rewrite (in_slot_insert e (drop_chain e p) h0 None) by (done || by eapply lookup_lt_Some). naive_solver. }
  assert (Hch : forall h x, h <> h0 -> in_slot e h x -> e_chain (drop_chain e p) x = e_chain e x).
  { intros h x Hne Hx. rewrite e_chain_drop, decide_False; [done |]. intros ->. by apply Hne, (in_slot_unique e _ _ p). }
  assert (Hsub : forall h x, in_slot e h x -> c_state (e_chain e x) = SUBMITTED -> h <> h0) by (intros h x Hx Hxs ->; unfold in_slot in *; congruence).
  apply (paired_driver e _ d l u u); try done; try apply P.
  - split; [apply same_maps_refl, (lk_good_driver _ _ (pr_linked _ _ _ _ _ _ P)) | done].
  - intros i x Hx. exact (said_completed e d l u Q R i x Hx).
  - intros h x [Hne Hx]%Hslot. rewrite (Hch _ _ Hne Hx). split_and!; [done | done | done | by apply (pr_returned _ _ _ _ _ _ P h)].
  - intros h x Hx Hxs _. pose proof (Hsub _ _ Hx Hxs). split; [by apply Hslot | by eapply Hch].
  - assert (Hc : slot_count (submitted (drop_chain e p)) (<[h0 := None]> (vq_slots (e_vq e))) = slot_count (submitted e) (vq_slots (e_vq e))).
    { rewrite (slot_count_insert (submitted e) _ _ _ (Some p) None Hin).
      - cbn [slot_weight]. unfold submitted. rewrite bool_decide_false by (by rewrite Hst). lia.
      - intros h x Hne Hx. unfold submitted. by rewrite (Hch h x Hne Hx). }
    change (vq_slots (e_vq (drop_chain e p))) with (<[h0 := None]> (vq_slots (e_vq e))). lia.
Qed.

(** * Reading the payload *)

Lemma chain_fits e c : chain_typed c -> chain_ok e c -> Forall segment_fits (chain_segments c).
Proof.
  intros Ht Hok. pose proof (chain_segments_typed _ Ht) as Hty. apply Forall_forall. intros s Hs.
  destruct (proj1 (Forall_forall _ _) Hty s Hs) as (Ha & Hl & _). unfold is_u32 in Hl.
  destruct (payload_ok_fits e _ _ _ Ha (proj1 Hl) (proj1 (Forall_forall _ _) (ck_payload _ _ Hok) s Hs)) as (_ & ? & ?). by split_and!.
Qed.

Lemma length_cells segments :
  Forall (fun s => sg_writable s = 0 \/ sg_writable s = 1) segments -> Forall (fun s => 0 <= sg_length s) segments ->
  Z.of_nat (length (cells 0 segments)) = readable_total segments /\ Z.of_nat (length (cells 1 segments)) = writable_total segments.
Proof.
  induction segments as [| s segments IH]; intros Hf Hl; [done |].
  apply Forall_cons in Hf as [Hw Hf], Hl as [Hs Hl]. destruct (IH Hf Hl) as [E0 E1].
  rewrite !cells_cons, !length_app, !Nat2Z.inj_add, E0, E1.
  cbn [readable_total writable_total foldr]. fold (readable_total segments) (writable_total segments).
  destruct Hw as [-> | ->]; cbn [Z.eqb Pos.eqb length]; rewrite length_seqZ; lia.
Qed.

Lemma chain_cells e c :
  chain_typed c -> chain_ok e c ->
  Z.of_nat (length (cells 0 (chain_segments c))) = c_readable c /\ Z.of_nat (length (cells 1 (chain_segments c))) = c_writable c.
Proof.
  intros Ht Hok. destruct (ck_totals _ _ Hok) as [-> ->]. apply length_cells; [apply Hok |].
  eapply Forall_impl; [by apply chain_segments_typed |]. intros s (_ & Hl & _). apply Hl.
Qed.

(** The bytes of a payload are in its cells. *)
Lemma payload_bytes e d l u Q R h k w off size :
  paired e d l u Q R -> in_slot e h k -> 0 <= off -> 0 <= size -> off + size <= blen (payload Q R w k) ->
  blen (payload Q R w k) <= Z.of_nat (length (cells w (chain_segments (e_chain e k)))) ->
  bm_byte (e_mem e) <$> take (Z.to_nat size) (drop (Z.to_nat off) (cells w (chain_segments (e_chain e k)))) =
  u8 <$> take (Z.to_nat size) (drop (Z.to_nat off) (payload Q R w k)).
Proof.
  intros P Hk Ho Hs Hfit Hlen. unfold blen in *. apply list_eq. intros j. rewrite !list_lookup_fmap.
  destruct (decide (j < Z.to_nat size)%nat) as [Hj | Hj].
  2: { by rewrite !lookup_take_ge by lia. }
  rewrite !lookup_take_lt, !lookup_drop by done.
  destruct (lookup_lt_is_Some_2 (payload Q R w k) (Z.to_nat off + j)) as [v Hv]; [lia |].
  destruct (lookup_lt_is_Some_2 (cells w (chain_segments (e_chain e k))) (Z.to_nat off + j)) as [a Ha]; [lia |].
  rewrite Hv, Ha. cbn. f_equal. pose proof (pr_said _ _ _ _ _ _ P _ (said_payload e d l u Q R h k w _ a v Hk Ha Hv)) as Hsaid.
  specialize (Hsaid a). cbn [fst snd] in Hsaid. rewrite Hsaid by (unfold inside; cbn [fst snd]; change (blen [v]) with 1; lia).
  by rewrite Z.sub_diag.
Qed.

(** A copy touches the backend only. *)
Lemma copy_in_mem e segments w off size out bytes e' :
  copy_in e segments w off size out = (KB2_VQ_OK, bytes, e') ->
  e' = set_mem e (e_mem e') /\ same_policy (e_mem e) (e_mem e').
Proof.
  revert e off size out. induction segments as [| s segments IH]; intros e off size out E; cbn [copy_in] in E.
  { destruct (size =? 0); [| done]. injection E as <- <-. by destruct e. }
  destruct (size =? 0); [injection E as <- <-; by destruct e |]. destruct (negb _); [by eapply IH |].
  destruct (sg_length s <=? off); [by eapply IH |]. destruct (mem_read _ _ _) as [[b |] m] eqn:Er; [| done].
  apply policy_read in Er. apply IH in E as [-> Hp]. split; [done |]. etransitivity; [exact Er | exact Hp].
Qed.

Lemma copy_out_mem e segments w off bytes e' :
  copy_out e segments w off bytes = (KB2_VQ_OK, e') -> e' = set_mem e (e_mem e') /\ same_policy (e_mem e) (e_mem e').
Proof.
  revert e off bytes. induction segments as [| s segments IH]; intros e off bytes E; cbn [copy_out] in E.
  { destruct (_ =? 0)%nat; [| done]. injection E as <-. by destruct e. }
  destruct (_ =? 0)%nat; [injection E as <-; by destruct e |]. destruct (negb _); [by eapply IH |].
  destruct (sg_length s <=? off); [by eapply IH |]. destruct (mem_write _ _ _) as [[] m] eqn:Er; [| done].
  apply policy_write in Er. apply IH in E as [-> Hp]. split; [done |]. etransitivity; [exact Er | exact Hp].
Qed.

(** The device reads the request as it was published. *)
Lemma paired_copy_request e d l u Q R p gen off given size out d' :
  paired e d l u Q R -> 0 <= off -> 0 <= size ->
  kb2_vq_copy_request d true gen (Some p) off given size = (KB2_VQ_OK, out, d') ->
  exists k, in_slot e (Z.to_nat (c_head (e_chain d p))) k /\ same_chain (e_chain e k) (e_chain d p) /\
    out = u8 <$> take (Z.to_nat size) (drop (Z.to_nat off) (Q k)) /\ paired e d' l u Q R.
Proof.
  intros P Ho Hsz E. destruct (pr_driver _ _ _ _ _ _ P) as [Hie _], (pr_device _ _ _ _ _ _ P) as [Hid Hside].
  pose proof (inv_struct _ Hie) as Hs. pose proof (inv_struct _ Hid) as Hsd. pose proof (pr_linked _ _ _ _ _ _ P) as L.
  unfold kb2_vq_copy_request in E. destruct (check d true gen); try done. destruct (_ || _) eqn:Eg in E; [done |].
  rewrite !orb_false_iff, !negb_false_iff, !Z.ltb_ge in Eg. destruct Eg as [[[[_ Hown] _] H1'] H2'].
  destruct (owned_slot _ _ _ Hsd Hown) as [Hin Hst]. destruct (si_chain _ Hsd _ _ Hin) as (_ & Hokd & _).
  destruct (pr_taken _ _ _ _ _ _ P _ p Hin) as (k & Hk & Hks & Hkn & Hsc & Hwr). exists k. split_and!; [done | done | |].
  - pose proof (copy_in_bytes d _ _ _ _ _ _ _ (chain_fits d _ (si_typed _ Hsd p) Hokd) (lk_good _ _ L) Ho Hsz E) as [_ ->].
    destruct (si_chain _ Hs _ _ Hk) as (_ & Hok & _). destruct (chain_cells e _ (si_typed _ Hs k) Hok) as [Hc _].
    destruct (chain_cells d _ (si_typed _ Hsd p) Hokd) as [Hcd _]. rewrite (sc_segments _ _ Hsc) in Hcd |- *.
    pose proof (pr_requests _ _ _ _ _ _ P _ _ Hk) as Hq. rewrite app_nil_l.
    change (Q k) with (payload Q R 0 k). rewrite <- (payload_bytes e d l u Q R _ k 0 off size P Hk Ho Hsz); [| unfold payload, blen; cbn [Z.eqb]; lia ..].
    apply list_fmap_ext. intros i a Ha%list_elem_of_lookup_2. apply (lk_bytes _ _ L).
    apply elem_of_take in Ha as (j & Ha & _). rewrite lookup_drop in Ha. apply cells_segment in Ha as (s & Hsg & _ & Ha).
    destruct (proj1 (Forall_forall _ _) (ck_payload _ _ Hok) s Hsg) as [? | (_ & _ & (r & Hr & ? & ? & _) & _)]; [lia |].
    exists r. split; [done | lia].
  - destruct (copy_in_bytes d _ _ _ _ _ _ _ (chain_fits d _ (si_typed _ Hsd p) Hokd) (lk_good _ _ L) Ho Hsz E) as [Hb _].
    apply copy_in_mem in E as [-> Hp]. by apply paired_device_mem.
Qed.

(** The driver reads the response as it was written. *)
Lemma paired_copy_response e d l u Q R p gen off given size out e' :
  paired e d l u Q R -> 0 <= off -> 0 <= size ->
  kb2_vq_copy_response e true gen (Some p) off given size = (KB2_VQ_OK, out, e') ->
  out = u8 <$> take (Z.to_nat size) (drop (Z.to_nat off) (R p)) /\ paired e' d l u Q R.
Proof.
  intros P Ho Hsz E. destruct (pr_driver _ _ _ _ _ _ P) as [Hie Hside]. pose proof (inv_struct _ Hie) as Hs.
  pose proof (pr_linked _ _ _ _ _ _ P) as L.
  unfold kb2_vq_copy_response in E. destruct (check e true gen); try done. destruct (_ || _) eqn:Eg in E; [done |].
  rewrite !orb_false_iff, !negb_false_iff, !Z.ltb_ge in Eg. destruct Eg as [[[[_ Hown] _] H1'] H2'].
  destruct (owned_slot _ _ _ Hs Hown) as [Hin Hst]. destruct (si_chain _ Hs _ _ Hin) as (_ & Hok & _ & (_ & _ & Hused)).
  pose proof (pr_returned _ _ _ _ _ _ P _ p Hin Hst) as Hlen. destruct (chain_cells e _ (si_typed _ Hs p) Hok) as [_ Hc].
  destruct (copy_in_bytes e _ _ _ _ _ _ _ (chain_fits e _ (si_typed _ Hs p) Hok) (lk_good_driver _ _ L) Ho Hsz E) as [Hb ->].
  apply copy_in_mem in E as [-> Hp]. split; [| by apply paired_driver_mem].
  rewrite app_nil_l. apply (payload_bytes e d l u Q R _ p 1 off size P Hin Ho Hsz); unfold payload; cbn [Z.eqb Pos.eqb]; lia.
Qed.

(** * Responding *)

Lemma cells_in w segments a : a ∈ cells w segments -> exists s, s ∈ segments /\ sg_writable s = w /\ sg_address s <= a < sg_address s + sg_length s.
Proof. intros [i Ha]%list_elem_of_lookup. by eapply cells_segment. Qed.

(** The cells of a response are distinct. *)
Lemma cells_distinct segments : pairwise compatible (segment_lease <$> segments) -> NoDup (cells 1 segments).
Proof.
  induction segments as [| s segments IH]; [intros _; apply NoDup_nil_2 |]. rewrite fmap_cons, pairwise_cons. intros [Hs Hp].
  rewrite cells_cons. destruct (Z.eqb_spec (sg_writable s) 1) as [Hw | Hw]; [| by apply IH].
  apply NoDup_app. split_and!; [apply NoDup_seqZ | | by apply IH]. intros a Ha%elem_of_seqZ (t & Ht & Htw & Hta)%cells_in.
  apply (Hs (segment_lease t)); [by apply list_elem_of_fmap_2 | | by exists a].
  left. unfold segment_lease. cbn [l_exclusive]. by rewrite Hw.
Qed.

(** A cell of a response belongs to no other payload. *)
Lemma cell_owner e h k h' x w a :
  struct_inv e -> in_slot e h k -> in_slot e h' x -> a ∈ cells 1 (chain_segments (e_chain e k)) ->
  a ∈ cells w (chain_segments (e_chain e x)) -> x = k /\ w = 1.
Proof.
  intros Hs Hk Hx (s & Hsg & Hsw & Hsa)%cells_in (t & Htg & Htw & Hta)%cells_in.
  assert (Hnc : ~ compatible (segment_lease s) (segment_lease t)).
  { intros Hc. apply Hc; [| by exists a]. left. unfold segment_lease. cbn [l_exclusive]. by rewrite Hsw. }
  destruct (decide (h = h')) as [<- | Hne].
  - assert (k = x) as <- by (unfold in_slot in *; congruence). split; [done |].
    destruct (decide (w = 1)) as [| Hw]; [done |]. exfalso. apply Hnc.
    destruct (si_chain _ Hs _ _ Hk) as (_ & Hok & _). pose proof (ck_leases _ _ Hok) as Hp. apply pairwise_cons in Hp as [_ Hp].
    apply (pairwise_fmap compatible segment_lease) in Hp. apply list_elem_of_lookup in Hsg as [i Hi], Htg as [j Hj].
    destruct (Nat.lt_trichotomy i j) as [Hlt | [-> | Hlt]]; [by apply (Hp i j s t) | congruence |].
    apply compatible_sym. by apply (Hp j i).
  - exfalso. apply (si_apart _ Hs _ _ _ _ Hk Hx Hne). exists (segment_lease s), (segment_lease t).
    split_and!; [right; by apply list_elem_of_fmap_2 .. | done].
Qed.

(** The device [d'] that wrote [bytes] behind what it had written for the chain at [p]. *)
Record responded d p bytes d' : Prop := {
  rs_slot : in_slot d (Z.to_nat (c_head (e_chain d p))) p;
  rs_state : e_vq d' = e_vq d;
  rs_chains : forall x, x <> p -> e_chain d' x = e_chain d x;
  rs_chain : e_chain d' p = set_written (e_chain d p) (c_written (e_chain d p) + blen bytes);
  rs_policy : same_policy (e_mem d) (e_mem d');
  rs_maps : same_maps (e_mem d) (e_mem d');
  rs_else : forall x, x ∉ cells 1 (chain_segments (e_chain d p)) -> bm_byte (e_mem d') x = bm_byte (e_mem d) x;
  rs_cells : forall i a, cells 1 (chain_segments (e_chain d p)) !! i = Some a ->
    bm_byte (e_mem d') a =
    if decide (c_written (e_chain d p) <= Z.of_nat i < c_written (e_chain d p) + blen bytes)
    then get_byte bytes (Z.of_nat i - c_written (e_chain d p)) else bm_byte (e_mem d) a;
}.

Lemma response_responded d p gen bytes d' :
  struct_inv d -> bm_good (e_mem d) ->
  kb2_vq_write_response d true gen (Some p) (Some bytes) (blen bytes) = (KB2_VQ_OK, d') -> responded d p bytes d'.
Proof.
  intros Hs Hg E. unfold kb2_vq_write_response in E. destruct (check d true gen); try done. destruct (_ || _) eqn:Eg in E; [done |].
  rewrite !orb_false_iff, !negb_false_iff, !Z.ltb_ge, !bool_decide_eq_true in Eg.
  destruct Eg as [[[[Hside Hown] _] Hw1] Hw2]. destruct (owned_slot _ _ _ Hs Hown) as [Hin Hst].
  destruct (si_chain _ Hs _ _ Hin) as (_ & Hok & _ & (P1 & P2 & P3)). pose proof (blen_nonneg bytes) as Hb. cbn [default id] in E.
  rewrite take_ge in E by (unfold blen; lia). destruct (copy_out _ _ _ _ _) as [[] d1] eqn:Eo; try done. injection E as <-.
  pose proof (ck_leases _ _ Hok) as Hp. apply pairwise_cons in Hp as [_ Hp].
  destruct (copy_out_bytes d _ _ _ _ (chain_fits d _ (si_typed _ Hs p) Hok) (cells_distinct _ Hp) Hg (proj1 P1) Eo) as (Sm & B1 & B2).
  apply copy_out_mem in Eo as [-> Hpol]. unfold U32_MAX in *. rewrite u64_small in Hw2 by (unfold is_u64; lia).
  split; try done.
  - intros x Hx. by rewrite e_chain_set, decide_False.
  - rewrite e_chain_set_eq. by rewrite u64_small by (unfold is_u64; change (e_chain (set_mem d _) p) with (e_chain d p); lia).
Qed.

Section Responded.
Context e d l u Q R p (k : loc) bytes d' (m : M) (P : paired e d l u Q R) (F : responded d p bytes d').
Context (Hk : in_slot e (Z.to_nat (c_head (e_chain d p))) k) (Hks : c_state (e_chain e k) = SUBMITTED).
Context (Hkn : k ∉ l ++ u) (Hsc : same_chain (e_chain e k) (e_chain d p)) (Hwr : c_written (e_chain d p) = blen (R k)).
Context (Hdel : forall x, shared e x -> bm_byte m x = bm_byte (e_mem d') x).
Notation R' := (respond R k (R k ++ bytes)).
Notation q := (e_queue e).

Lemma responded_else w x :
  said e d l u Q R w -> inside w x -> x ∉ cells 1 (chain_segments (e_chain e k)) -> bm_byte m x = bm_byte (e_mem e) x.
Proof.
  intros Hw Hx Hn. pose proof (said_shared e d l u Q R w x P Hw Hx) as Hsh. rewrite (Hdel _ Hsh).
  rewrite (rs_else _ _ _ _ F) by (by rewrite (sc_segments _ _ Hsc)). by apply (pr_linked _ _ _ _ _ _ P).
Qed.

Lemma responded_keeps w :
  said e d l u Q R w -> (forall x, inside w x -> x ∉ cells 1 (chain_segments (e_chain e k))) -> holds_write (bm_byte m) w.
Proof.
  intros Hw Hn. apply (holds_write_ext (bm_byte (e_mem e))); [| by apply (pr_said _ _ _ _ _ _ P)].
  intros x Hx. apply (responded_else w); [done | done | by apply Hn].
Qed.

Lemma responded_rings w range :
  said e d l u Q R w -> range ∈ rings (e_queue e) -> (forall x, inside w x -> range.1 <= x < range.1 + range.2) -> holds_write (bm_byte m) w.
Proof.
  intros Hw Hr Hin. destruct (pr_driver _ _ _ _ _ _ P) as [[Hs _] _]. apply responded_keeps; [done |].
  intros x Hx%Hin (s & Hsg & _ & Hsa)%cells_in. by apply (payload_clear e _ k s x range Hs (pr_placed _ _ _ _ _ _ P) Hk Hsg Hsa Hr).
Qed.

Lemma responded_said w : said (set_mem e m) d' l u Q R' w -> holds_write (bm_byte m) w.
Proof.
  intros Hw. destruct (pr_driver _ _ _ _ _ _ P) as [[Hs _] _]. pose proof (si_bound _ Hs) as Hb.
  pose proof (fun i => ring_slot_range e i Hb) as Hslot. pose proof (queue_size_bounds _ Hb) as Hqs.
  assert (Hav : (q_available_address q, 6 + 2 * q_queue_size q) ∈ rings q) by (right; by left).
  assert (Hus : (q_used_address q, 6 + 8 * q_queue_size q) ∈ rings q) by (right; right; by left).
  destruct Hw as [| | i x Hx | p' Hp' | i x Hx | h x w Hx Hxs Hw | h x ww i a v Hx Ha Hv]; change (e_queue (set_mem e m)) with q;
    rewrite ?(rs_state _ _ _ _ F) in *; cbn [set_mem e_vq].
  - apply (responded_rings _ _ (said_available e d l u Q R) Hav). intros x Hx%index_write_inside. cbn [fst snd]. lia.
  - apply (responded_rings _ _ (said_used e d l u Q R) Hus). intros x Hx%index_write_inside. cbn [fst snd]. lia.
  - apply (responded_rings _ _ (said_waiting e d l u Q R i x Hx) Hav). intros y Hy%entry_write_inside.
    unfold entry_address in Hy. specialize (Hslot (u16 (vq_consumed (e_vq d) + Z.of_nat i))). cbn [fst snd]. lia.
  - assert (Hhead : c_head (e_chain d' p') = c_head (e_chain d p')).
    { destruct (decide (p' = p)) as [-> | Hne]; [by rewrite (rs_chain _ _ _ _ F) | by rewrite (rs_chains _ _ _ _ F)]. }
    rewrite Hhead. apply (responded_rings _ _ (said_last e d l u Q R p' Hp') Hav). intros y Hy%entry_write_inside.
    unfold entry_address in Hy. specialize (Hslot (u16 (vq_consumed (e_vq d) - 1))). cbn [fst snd]. lia.
  - rewrite respond_ne by (intros ->; apply Hkn, elem_of_app; right; by eapply list_elem_of_lookup_2).
    apply (responded_rings _ _ (said_completed e d l u Q R i x Hx) Hus). intros y Hy%used_write_inside.
    unfold used_entry_address in Hy. specialize (Hslot (u16 (vq_consumed (e_vq e) + Z.of_nat i))). cbn [fst snd]. lia.
  - apply responded_keeps; [by eapply (said_chain e d l u Q R h x) |]. intros y Hy (s & Hsg & _ & Hsa)%cells_in.
    apply (payload_off e y w h x Hs (pr_placed _ _ _ _ _ _ P)); [by eexists _, k, s | done | done | done].
  - change (e_chain (set_mem e m) x) with (e_chain e x) in Ha. change (in_slot e h x) in Hx.
    destruct (decide (x = k /\ ww = 1)) as [[-> ->] | Hne].
    + unfold payload in Hv. cbn [Z.eqb Pos.eqb] in Hv. rewrite respond_eq in Hv. intros y ->%inside_one. cbn [fst snd]. rewrite Z.sub_diag.
      assert (Hsh : shared e a).
      { pose proof Ha as (s & Hsg & _ & Hsa)%cells_segment. destruct (si_chain _ Hs _ _ Hx) as (_ & Hok & _).
        destruct (proj1 (Forall_forall _ _) (ck_payload _ _ Hok) s Hsg) as [? | (_ & _ & (r & Hr & ? & ? & _) & _)]; [lia |].
        exists r. split; [done | lia]. }
      pose proof Ha as Had. rewrite <- (sc_segments _ _ Hsc) in Had. rewrite (Hdel _ Hsh), (rs_cells _ _ _ _ F _ _ Had), Hwr.
      apply lookup_app_Some in Hv as [Hv | [Hge Hv]].
      * pose proof (lookup_lt_Some _ _ _ Hv). rewrite decide_False by (unfold blen; lia). rewrite (lk_bytes _ _ (pr_linked _ _ _ _ _ _ P) a Hsh).
        pose proof (pr_said _ _ _ _ _ _ P _ (said_payload e d l u Q R h k 1 i a v Hx Ha Hv) a) as Hold. cbn [fst snd] in Hold.
        rewrite Z.sub_diag in Hold. apply Hold. unfold inside. cbn [fst snd]. change (blen [v]) with 1. lia.
      * pose proof (lookup_lt_Some _ _ _ Hv). rewrite decide_True by (unfold blen; lia).
        unfold get_byte. f_equal. rewrite !nth_lookup. replace (Z.to_nat (Z.of_nat i - blen (R k))) with (i - length (R k))%nat by (unfold blen; lia).
        by rewrite Hv.
    + assert (Hv' : payload Q R ww x !! i = Some v).
      { unfold payload in *. destruct (Z.eqb_spec ww 1); [| done]. rewrite respond_ne in Hv; [done |]. intros ->. by apply Hne. }
      apply responded_keeps; [exact (said_payload e d l u Q R h x ww i a v Hx Ha Hv') |]. intros y ->%inside_one Hy.
      apply Hne. apply (cell_owner e _ k h x ww a Hs Hk Hx Hy). by eapply list_elem_of_lookup_2.
Qed.
End Responded.

(** Responding appends to the response of the driver's chain. *)
Lemma paired_respond e d l u Q R p gen bytes d' m :
  paired e d l u Q R -> kb2_vq_write_response d true gen (Some p) (Some bytes) (blen bytes) = (KB2_VQ_OK, d') -> delivered d' e m ->
  exists k, in_slot e (Z.to_nat (c_head (e_chain d p))) k /\ same_chain (e_chain e k) (e_chain d p) /\
    paired (set_mem e m) d' l u Q (respond R k (R k ++ bytes)).
Proof.
  intros P E Hd. destruct (pr_driver _ _ _ _ _ _ P) as [Hie Hsidee], (pr_device _ _ _ _ _ _ P) as [Hid Hside].
  pose proof (pr_linked _ _ _ _ _ _ P) as L. pose proof (inv_struct _ Hie) as Hs. pose proof (inv_struct _ Hid) as Hsd.
  pose proof (write_response_inv d true gen (Some p) (Some bytes) (blen bytes) (blen_nonneg bytes) Hid) as Hi. rewrite E in Hi. cbn [snd] in Hi.
  pose proof (response_responded d p gen bytes d' Hsd (lk_good _ _ L) E) as F.
  destruct (pr_taken _ _ _ _ _ _ P _ p (rs_slot _ _ _ _ F)) as (k & Hk & Hks & Hkn & Hsc & Hwr). exists k. split_and!; [done | done |].
  assert (Hv : e_vq d' = e_vq d) by apply F.
  assert (Henv : same_env d d') by (apply same_env_vq; rewrite ?Hv; [done | done | apply F]).
  assert (Hdel : forall x, shared e x -> bm_byte m x = bm_byte (e_mem d') x).
  { intros x Hx. apply Hd, (shared_linked e d'); [| done]. rewrite (en_regions _ _ Henv). apply L. }
  assert (Hin : forall x, x ∈ l ++ u -> respond R k (R k ++ bytes) x = R x) by (intros x Hx; apply respond_ne; by intros ->).
  split; rewrite ?Hv; try apply P.
  - split; [| done]. eapply quiet_inv; [apply quiet_mem, Hd | done].
  - split; [done | apply P].
  - apply (placed_env e); [by apply same_env_vq; [done | done | apply Hd] | apply P].
  - by apply (linked_answered e d); [| apply F | |].
  - by apply (responded_said e d l u Q R p k bytes d' m P F).
  - intros x Hx. rewrite Hin by (apply elem_of_app; by left). by apply P.
  - intros x Hx. rewrite Hin by (apply elem_of_app; by right). by apply P.
  - intros h x Hx Hxs. change (in_slot e h x) in Hx. change (c_state (e_chain e x) = RETURNED) in Hxs.
    rewrite respond_ne by (intros ->; congruence). by apply (pr_returned _ _ _ _ _ _ P h).
  - intros h x Hx. unfold in_slot in Hx. rewrite Hv in Hx. change (in_slot d h x) in Hx.
    destruct (pr_taken _ _ _ _ _ _ P h x Hx) as (y & Hy & Hys & Hyn & Hsy & Hyw). exists y.
    destruct (decide (x = p)) as [-> | Hne].
    + pose proof (in_slot_unique d _ _ p Hsd Hx (rs_slot _ _ _ _ F)) as ->. assert (y = k) as -> by (unfold in_slot in *; congruence).
      rewrite (rs_chain _ _ _ _ F), respond_eq. split_and!; [done .. | by destruct Hsc |]. cbn [set_written c_written].
      rewrite Hwr. unfold blen. rewrite length_app. lia.
    + rewrite (rs_chains _ _ _ _ F) by done. rewrite respond_ne; [by split_and! |]. intros ->. apply Hne.
      pose proof (in_slot_unique e _ _ k Hs Hy Hk) as ->. pose proof (rs_slot _ _ _ _ F). unfold in_slot in *. congruence.
Qed.

(** * Asking to be notified *)

Lemma pending_index_mem e st n e' :
  bm_good (e_mem e) -> pending_index e = (st, n, e') -> st = KB2_VQ_OK \/ st = KB2_VQ_EMPTY ->
  e' = set_mem e (e_mem e') /\ same_bytes (e_mem e) (e_mem e') /\ same_policy (e_mem e) (e_mem e').
Proof.
  intros Hg E Hst. unfold pending_index in E. cbv zeta in E.
  match type of E with context [mem_load_acquire _ ?a] => destruct (bytes_load (e_mem e) a Hg) as (m & El & Hm); rewrite El in E end.
  apply policy_load in El. destruct (bm_loadable _ _).
  - destruct (_ || _) in E; [injection E as <- _ _; by destruct Hst |]. by injection E as _ _ <-.
  - injection E as <- _ _. by destruct Hst.
Qed.

(** The word in which an end says from which index on it wants to be notified. *)
Definition event_of e : Z :=
  if decide (vq_side (e_vq e) = KB2_VQ_DRIVER) then q_available_address (e_queue e) + 4 + q_queue_size (e_queue e) * 2
  else q_used_address (e_queue e) + 4 + q_queue_size (e_queue e) * 8.

Lemma arm_armed e gen ready e' :
  placed e -> channel_bound e -> bm_good (e_mem e) -> kb2_vq_arm e true gen true = (KB2_VQ_OK, ready, e') ->
  exists m st n,
    wrote (e_mem e) m [(event_of e, [u8 (vq_consumed (e_vq e)); u8 (Z.shiftr (vq_consumed (e_vq e)) 8)])] /\ same_policy (e_mem e) m /\
    pending_index (set_mem e m) = (st, n, e') /\ (st = KB2_VQ_OK /\ ready = Some true \/ st = KB2_VQ_EMPTY /\ ready = Some false).
Proof.
  intros Hp Hb Hg E. unfold kb2_vq_arm in E. destruct (check e true gen); try done. cbn [negb] in E. cbv zeta in E.
  pose proof (available_fits e Hp). pose proof (used_fits e Hp). pose proof (queue_size_bounds _ Hb).
  assert (Hev : (if decide (vq_side (e_vq e) = KB2_VQ_DRIVER) then u64 (q_available_address (e_queue e) + 4 + q_queue_size (e_queue e) * 2)
             else u64 (q_used_address (e_queue e) + 4 + q_queue_size (e_queue e) * 8)) = event_of e).
  { unfold event_of. case_decide; apply u64_small; unfold is_u64; lia. }
  rewrite Hev in E. destruct (mem_store_release _ _ _) as [[] m] eqn:Es; [| done].
  pose proof (policy_store _ _ _ _ _ Es) as Hpol. apply bytes_store in Es as [Sm Bm]; [| done].
  destruct (bytes_fence m (sm_good _ _ Sm)) as [Sf Bf]. destruct (pending_index _) as [[st n] e1] eqn:Ep.
  exists (mem_fence m), st, n. split_and!.
  - split; [by eapply same_maps_trans | intros x; by rewrite Bf].
  - etransitivity; [exact Hpol | apply policy_fence].
  - destruct st; try done; by injection E as _ <-.
  - destruct st; try done; injection E as <- _; [by left | by right].
Qed.

(** Nothing is said in the event words. *)
Lemma said_event e d l u Q R w x :
  paired e d l u Q R -> said e d l u Q R w -> inside w x ->
  ~ (event_of e <= x < event_of e + 2) /\ ~ (event_of d <= x < event_of d + 2).
Proof.
  intros P Hw Hx. destruct (pr_driver _ _ _ _ _ _ P) as [[Hs _] Hside], (pr_device _ _ _ _ _ _ P) as [[Hsd _] Hsided].
  pose proof (queue_size_bounds _ (si_bound _ Hs)) as Hqs. pose proof (pr_placed _ _ _ _ _ _ P) as Hp.
  unfold event_of. rewrite Hside, Hsided, (lk_queue _ _ (pr_linked _ _ _ _ _ _ P)), decide_True, decide_False by done.
  set (q := e_queue e) in *.
  assert (Hav : forall y, q_available_address q + 4 + q_queue_size q * 2 <= y < q_available_address q + 4 + q_queue_size q * 2 + 2 ->
    (q_available_address q <= y < q_available_address q + (6 + 2 * q_queue_size q))) by (intros; lia).
  assert (Hus : forall y, q_used_address q + 4 + q_queue_size q * 8 <= y < q_used_address q + 4 + q_queue_size q * 8 + 2 ->
    (q_used_address q <= y < q_used_address q + (6 + 8 * q_queue_size q))) by (intros; lia).
  assert (Hrings : ~ (q_available_address q <= x < q_available_address q + (6 + 2 * q_queue_size q) /\
                      q_used_address q <= x < q_used_address q + (6 + 8 * q_queue_size q))).
  { intros [Ha Hu]. apply (pl_apart e Hp 1%nat 2%nat _ _ ltac:(lia) eq_refl eq_refl). exists x. cbn [fst snd]. fold q. lia. }
  destruct (said_where e d l u Q R w x (si_bound _ Hs) Hw Hx) as [Ha | [Hu | [(h & p & s & Hin & Hsg & Hsx) | (h & p & Hin & Hst & Hc)]]].
  - unfold available_range in Ha. fold q in Ha. split; intros Hy; [lia |]. apply Hrings. specialize (Hus _ Hy). lia.
  - unfold used_range in Hu. fold q in Hu. split; intros Hy; [|lia]. apply Hrings. specialize (Hav _ Hy). lia.
  - split; intros Hy.
    + apply (payload_clear e h p s x (q_available_address q, 6 + 2 * q_queue_size q) Hs Hp Hin Hsg Hsx); [right; by left | by apply Hav].
    + apply (payload_clear e h p s x (q_used_address q, 6 + 8 * q_queue_size q) Hs Hp Hin Hsg Hsx); [right; right; by left | by apply Hus].
  - destruct (si_chain _ Hs _ _ Hin) as (_ & Hok & _). split; intros Hy.
    + apply (chain_writes_clear e (e_chain e p) Hp (si_typed _ Hs p) Hok w x Hc Hx). fold q. by apply Hav.
    + apply (chain_writes_clear_used e (e_chain e p) Hp (si_typed _ Hs p) Hok w x Hc Hx). fold q. by apply Hus.
Qed.

Lemma armed_else e m x v :
  wrote (e_mem e) m [(event_of e, [u8 v; u8 (Z.shiftr v 8)])] -> ~ (event_of e <= x < event_of e + 2) -> bm_byte m x = bm_byte (e_mem e) x.
Proof. intros [_ B] Hx. rewrite B. cbn [foldl]. apply overlay_out. exact Hx. Qed.

(** An end that asks to be notified learns whether there is something for it already. *)
Lemma paired_arm_driver e d l u Q R gen ready e' m :
  paired e d l u Q R -> kb2_vq_arm e true gen true = (KB2_VQ_OK, ready, e') -> delivered e' d m ->
  ready = Some (negb (length u =? 0)%nat) /\ paired e' (set_mem d m) l u Q R.
Proof.
  intros P E [Dm Dp Db]. destruct (pr_driver _ _ _ _ _ _ P) as [Hi Hside]. pose proof (pr_linked _ _ _ _ _ _ P) as L.
  assert (Hnf : e_faulted e = false).
  { unfold kb2_vq_arm in E. destruct (check e true gen) eqn:Hc; try done. by eapply check_ok. }
  apply arm_armed in E as (m1 & st & n & Hw & Hp1 & Ep & Hst); [| apply P | apply (inv_struct _ Hi) | apply L].
  destruct (pending_index_mem (set_mem e m1) st n e' (sm_good _ _ (proj1 Hw)) Ep) as (He' & [Sb Bb] & Hp2);
    [destruct Hst as [[? _] | [? _]]; tauto |]. cbn [set_mem e_mem] in *.
  assert (P1 : paired (set_mem e m1) (set_mem d m) l u Q R).
  { apply paired_memory; [done | apply Hw | done | done | done | |].
    - intros x Hx. rewrite <- Bb. apply Db. rewrite He'. exact Hx.
    - intros w x Hsaid Hx. apply (armed_else e m1 x _ Hw). by apply (said_event e d l u Q R w x P). }
  destruct (paired_pending_driver _ _ _ _ _ _ P1 Hnf) as (m2 & Ep2 & Hb2 & Hpol2). rewrite Ep in Ep2. injection Ep2 as Hst2 _ ->.
  split; [| by apply (paired_driver_mem _ _ _ _ _ _ m2 P1)].
  destruct u; subst st; destruct Hst as [[? ->] | [? ->]]; done.
Qed.

Lemma paired_arm_device e d l u Q R gen ready d' m :
  paired e d l u Q R -> kb2_vq_arm d true gen true = (KB2_VQ_OK, ready, d') -> delivered d' e m ->
  ready = Some (negb (length l =? 0)%nat) /\ paired (set_mem e m) d' l u Q R.
Proof.
  intros P E [Dm Dp Db]. destruct (pr_device _ _ _ _ _ _ P) as [Hi Hside]. pose proof (pr_linked _ _ _ _ _ _ P) as L.
  apply arm_armed in E as (m1 & st & n & Hw & Hp1 & Ep & Hst); [| by eapply placed_linked, P | apply (inv_struct _ Hi) | apply L].
  destruct (pending_index_mem (set_mem d m1) st n d' (sm_good _ _ (proj1 Hw)) Ep) as (Hd' & [Sb Bb] & Hp2);
    [destruct Hst as [[? _] | [? _]]; tauto |]. cbn [set_mem e_mem] in *.
  assert (Hsh : forall x, shared e x -> bm_byte m x = bm_byte m1 x).
  { intros x Hx. rewrite <- Bb. apply Db. rewrite Hd'. apply (shared_linked e d); [apply L | done]. }
  assert (P1 : paired (set_mem e m) (set_mem d m1) l u Q R).
  { apply paired_memory; [done | done | done | apply Hw | done | |].
    - intros x Hx. symmetry. by apply Hsh.
    - intros w x Hsaid Hx. pose proof (said_shared e d l u Q R w x P Hsaid Hx) as Hx'. rewrite Hsh by done.
      rewrite (armed_else d m1 x _ Hw); [by apply L | by apply (said_event e d l u Q R w x P)]. }
  destruct (paired_pending _ _ _ _ _ _ P1) as (m2 & Ep2 & Hb2 & Hpol2). rewrite Ep in Ep2. injection Ep2 as Hst2 _ ->.
  split; [| by apply (paired_device_mem _ _ _ _ _ _ m2 P1)].
  destruct l; subst st; destruct Hst as [[? ->] | [? ->]]; done.
Qed.

(** Peeking tells the device whether a chain waits. *)
Lemma paired_peek e d l u Q R gen :
  paired e d l u Q R -> check d true gen = KB2_VQ_OK ->
  exists d', kb2_vq_peek_available d true gen true = (KB2_VQ_OK, Some (negb (length l =? 0)%nat), d') /\ paired e d' l u Q R.
Proof.
  intros P Hc. unfold kb2_vq_peek_available. destruct (pr_device _ _ _ _ _ _ P) as [_ Hside].
  rewrite Hc, bool_decide_true by done. cbn [negb orb]. destruct (paired_pending _ _ _ _ _ _ P) as (m & -> & Hb & Hp).
  exists (set_mem d m). split; [by destruct l | by apply paired_device_mem].
Qed.
End Payload.
