(* ===== verification/VirtqueueClaims.v ===== *)
(** Claims about the split-ring engine: a queue against an arbitrary peer, a queue
    between two honest ends, and the mapped memory that the queue lives in. *)

From Stdlib Require Import ZArith Lia.
From stdpp Require Import base numbers tactics relations sets gmap list_numbers list.
From S2P Require Import Prelude Bytes Protocol ProtocolSpec Virtqueue VirtqueueSpec VirtqueueInv VirtqueueMemory VirtqueueOps.
From S2P Require Import VirtqueueBytes VirtqueueFifo VirtqueuePayload.

Open Scope Z_scope.

(** * The interface of a queue *)

(** The operations a queue owner can call, with their pointer arguments. *)
Inductive vq_call : Type :=
| Publish (chain : option loc) (notify_given : bool)
| PeekAvailable (pending_given : bool)
| TakeAvailable (chain : option loc)
| MoveAccepted (source destination : option loc)
| ReturnAvailable (chain : option loc)
| CopyRequest (chain : option loc) (offset : Z) (out_given : bool) (size : N)
| WriteResponse (chain : option loc) (bytes : option (list Z)) (size : N)
| Complete (chain : option loc) (notify_given : bool)
| TakeUsed (out_given : bool)
| CopyResponse (chain : option loc) (offset : Z) (out_given : bool) (size : N)
| Release (chain : option loc)
| Arm (ready_given : bool).

Section Calls.
Context {M : Type} `{VqMemory M}.
Implicit Types e : engine M.

(** The status and the state after a call. *)
Definition run_vq e (given : bool) (generation : Z) (call : vq_call) : kb2_vq_status * engine M :=
  match call with
  | Publish chain n => let '(s, _, e) := kb2_vq_publish e given generation chain n in (s, e)
  | PeekAvailable n => let '(s, _, e) := kb2_vq_peek_available e given generation n in (s, e)
  | TakeAvailable chain => kb2_vq_take_available e given generation chain
  | MoveAccepted source destination => kb2_vq_move_accepted e given generation source destination
  | ReturnAvailable chain => kb2_vq_return_available e given generation chain
  | CopyRequest chain offset out size =>
      let '(s, _, e) := kb2_vq_copy_request e given generation chain offset out (Z.of_N size) in (s, e)
  | WriteResponse chain bytes size => kb2_vq_write_response e given generation chain bytes (Z.of_N size)
  | Complete chain n => let '(s, _, e) := kb2_vq_complete e given generation chain n in (s, e)
  | TakeUsed out => let '(s, _, e) := kb2_vq_take_used e given generation out in (s, e)
  | CopyResponse chain offset out size =>
      let '(s, _, e) := kb2_vq_copy_response e given generation chain offset out (Z.of_N size) in (s, e)
  | Release chain => kb2_vq_release e given generation chain
  | Arm n => let '(s, _, e) := kb2_vq_arm e given generation n in (s, e)
  end.

(** What can happen to a queue: its owner calls an operation; the peer writes into
    the shared memory; the owner rewrites a chain object that is free; another lane
    of the channel raises the fault flag. *)
Inductive vq_step : relation (engine M) :=
| step_call e given generation call : vq_step e (run_vq e given generation call).2
| step_peer e m : same_policy (e_mem e) m -> vq_step e (set_mem e m)
| step_caller e p c :
    c_state (e_chain e p) = FREE -> c_state c = FREE -> chain_typed c -> vq_step e (set_chain e p c)
| step_lane e : vq_step e (fault e false).2.

(** A queue that was just bound: the channel passed kb2_vq_channel_init, the bind
    succeeded and every chain object is free. *)
Inductive vq_bound : engine M -> Prop :=
| bound_intro identity queues regions channel queue_id side mem0 capacity vq channel' mem chains :
    channel_typed identity -> Forall queue_typed queues -> Forall region_typed regions ->
    kb2_vq_channel_init true (Some identity) (Some queues) (Z.of_nat (length queues))
      (Some regions) (Z.of_nat (length regions)) = (KB2_VQ_OK, Some channel) ->
    kb2_vq_bind true (Some channel) queue_id (Some side) mem0 capacity = (KB2_VQ_OK, Some vq, channel', mem) ->
    (forall p, chain_typed (chain_at chains p)) ->
    (forall p, c_state (chain_at chains p) = FREE) ->
    vq_bound (mkEngine vq chains mem).
End Calls.

(** * The invariant of every reachable state *)

Lemma find_queue_In queues id found q :
  find_queue queues id found = Some q -> q ∈ queues \/ found = Some q.
Proof.
  revert found. induction queues as [|x queues IH]; intros found E; cbn in E; [by right |].
  apply IH in E as [E | E]; [left; by right |]. destruct (_ =? _); [| by right].
  injection E as ->. left. by left.
Qed.

Lemma slot_count_free f n : slot_count f (replicate n None) = 0.
Proof. induction n; [done |]. cbn [replicate]. by rewrite slot_count_cons, IHn. Qed.

Section Reachable.
Context {M : Type} `{VqMemoryLaws M}.
Implicit Types e : engine M.

(** What kb2_vq_channel_init has checked. *)
Lemma init_channel_ok identity queues regions channel :
  channel_typed identity -> Forall queue_typed queues -> Forall region_typed regions ->
  kb2_vq_channel_init true (Some identity) (Some queues) (Z.of_nat (length queues))
    (Some regions) (Z.of_nat (length regions)) = (KB2_VQ_OK, Some channel) ->
  channel = mkVqChannel identity queues regions false /\ channel_ok identity queues regions.
Proof.
  intros Hit Hqt Hrt Hinit. unfold kb2_vq_channel_init in Hinit. cbn [negb orb] in Hinit.
  destruct (negb _) eqn:Ev in Hinit; [done |]. apply negb_false_iff, bool_decide_eq_true in Ev.
  unfold array_items in Hinit. rewrite !Nat2Z.id, !firstn_all in Hinit. injection Hinit as <-. split; [done |].
  unfold kb2_protocol_channel_validate in Ev. destruct (kb2_validate_channel_model _ _ _ _ _) eqn:Em in Ev; [| done].
  by apply channel_model_spec in Em as (_ & _ & Hok).
Qed.

(** What kb2_vq_bind leaves behind. *)
Lemma bind_fresh channel queue_id side mem0 capacity vq channel' (mem : M) :
  kb2_vq_bind true (Some channel) queue_id (Some side) mem0 capacity = (KB2_VQ_OK, Some vq, channel', mem) ->
  exists q, q ∈ vc_queues channel /\ mem_load_acquire mem0 (u64 ((if decide (side = KB2_VQ_DRIVER) then q_available_address q else q_used_address q) + 2)) = (Some 0, mem) /\
    vq = mkVq (Some channel) q side (replicate (Z.to_nat (q_queue_size q)) None) None (replicate (Z.to_nat (q_queue_size q)) 0) 0 0 0.
Proof.
  intros Hbind. unfold kb2_vq_bind in Hbind. cbn [negb] in Hbind. destruct (vc_faulted channel); [done |].
  destruct (find_queue (vc_queues channel) queue_id None) as [q |] eqn:Ef; [| done].
  apply find_queue_In in Ef as [Hq | ?]; [| done]. destruct (_ <? _) in Hbind; [done |].
  destruct (mem_load_acquire _ _) as [[index |] mem1] eqn:El in Hbind; [| done].
  destruct (Z.eqb_spec index 0) as [-> |]; [| done]. cbn [negb] in Hbind. injection Hbind as <- _ <-. by exists q.
Qed.

Lemma bound_inv e : vq_bound e -> vq_inv e.
Proof.
  intros Hb. destruct Hb as [identity queues regions channel queue_id side mem0 capacity vq channel' mem chains
    Hit Hqt Hrt Hinit Hbind Hct Hfree].
  apply init_channel_ok in Hinit as [-> Hok]; [| done ..]. apply bind_fresh in Hbind as (q & Hq & _ & ->). cbn [vc_queues] in Hq.
  pose proof (co_queues _ _ _ Hok) as Hqs. pose proof (co_regions _ _ _ Hok) as Hrs.
  rewrite (Forall_forall _ queues) in Hqs. rewrite (Forall_forall region_ok) in Hrs.
  rewrite (Forall_forall region_typed) in Hrt. destruct (Hqs q Hq) as [_ _ _ Q4 _ _ Q7 Q8 Q9 _ _].
  apply pow2_bounds in Q4 as Hsz. split; [split |].
  - split; unfold e_regions, e_queues, e_queue; cbn; try done.
    + by eexists.
    + apply Forall_forall. intros r Hr. split; [apply (Hrt r Hr) | by apply Hrs].
    + apply Forall_forall. intros q' Hq'. apply Forall_forall. intros [a n] Hin.
      destruct (Hqs q' Hq') as [_ _ _ Hk _ _ _ _ _ _ Hcov]. apply pow2_bounds in Hk.
      destruct (Hcov _ Hin) as (r & Hr & _ & Hlo & Hhi). cbn in Hlo, Hhi.
      destruct (Hrt r Hr) as [_ _ Hbase _], (Hrs r Hr) as [_ _ _ Hfit]. unfold is_u64 in Hbase.
      split_and!; [lia | | lia]. unfold rings in Hin.
      rewrite !elem_of_cons, elem_of_nil in Hin. destruct Hin as [[= -> ->] | [[= -> ->] | [[= -> ->] | []]]]; lia.
  - done.
  - cbn. by rewrite length_replicate.
  - cbn. by rewrite length_replicate.
  - intros h p Hp. unfold in_slot in Hp. cbn in Hp. by apply lookup_replicate in Hp as [? _].
  - intros h p d Hp. unfold in_slot in Hp. cbn in Hp. by apply lookup_replicate in Hp as [? _].
  - intros d _ Ho. exfalso. apply Ho. unfold owner_at. cbn. destruct (replicate _ 0 !! _) eqn:E; [| done].
    by apply lookup_replicate in E as [-> _].
  - intros h p h' p' Hp. unfold in_slot in Hp. cbn in Hp. by apply lookup_replicate in Hp as [? _].
  - cbn [e_vq vq_owned vq_slots]. rewrite slot_count_free. unfold e_queue. cbn. lia.
  - done.
  - done.
  - intros _. unfold counters_inv. cbn [e_vq vq_side vq_produced vq_consumed vq_slots vq_owned].
    rewrite slot_count_free. by destruct side.
Qed.

(** A call, projected to its state. *)
Lemma run_vq_state e given gen call :
  (run_vq e given gen call).2 =
  match call with
  | Publish chain n => (kb2_vq_publish e given gen chain n).2
  | PeekAvailable n => (kb2_vq_peek_available e given gen n).2
  | TakeAvailable chain => (kb2_vq_take_available e given gen chain).2
  | MoveAccepted source destination => (kb2_vq_move_accepted e given gen source destination).2
  | ReturnAvailable chain => (kb2_vq_return_available e given gen chain).2
  | CopyRequest chain offset out size => (kb2_vq_copy_request e given gen chain offset out (Z.of_N size)).2
  | WriteResponse chain bytes size => (kb2_vq_write_response e given gen chain bytes (Z.of_N size)).2
  | Complete chain n => (kb2_vq_complete e given gen chain n).2
  | TakeUsed out => (kb2_vq_take_used e given gen out).2
  | CopyResponse chain offset out size => (kb2_vq_copy_response e given gen chain offset out (Z.of_N size)).2
  | Release chain => (kb2_vq_release e given gen chain).2
  | Arm n => (kb2_vq_arm e given gen n).2
  end.
Proof.
  destruct call; cbn [run_vq]; try done;
    match goal with |- _ = ?r.2 => by destruct r as [[? ?] ?] end.
Qed.

Lemma run_vq_inv e given gen call : vq_inv e -> vq_inv (run_vq e given gen call).2.
Proof.
  intros Hi. rewrite run_vq_state. destruct call.
  - by apply publish_inv.
  - by apply peek_inv.
  - by apply take_available_inv.
  - by apply move_accepted_inv.
  - by apply return_available_inv.
  - by apply copy_request_inv.
  - apply write_response_inv; [lia | done].
  - by apply complete_inv.
  - by apply take_used_inv.
  - by apply copy_response_inv.
  - by apply release_inv.
  - by apply arm_inv.
Qed.

Lemma step_inv e e' : vq_step e e' -> vq_inv e -> vq_inv e'.
Proof.
  intros Hstep Hi. destruct Hstep as [e given gen call | e m Hm | e p c Hf Hc Ht | e].
  - by apply run_vq_inv.
  - eapply quiet_inv; [by apply quiet_mem | done].
  - eapply (frame_inv (eq p)); [by apply (frame_chain (eq p)) | by apply free_outside; [apply Hi |] | done].
  - eapply quiet_inv; [exact (quiet_fault e false) | done].
Qed.

(** C17. In every state a queue can reach, whatever the peer writes and however the
    owner calls the operations: each slot holds the valid chain whose head names it,
    each descriptor cell names the one chain that uses the descriptor, no two owned
    chains share memory of which one is exclusive, at most max_outstanding chains are
    owned, no recorded length exceeds what was offered, and until a fault the ring
    indices count exactly the chains in flight. *)
Theorem reachable_queue_invariant e0 e : vq_bound e0 -> rtc vq_step e0 e -> vq_inv e.
Proof.
  intros Hb Hr. apply bound_inv in Hb. induction Hr as [| x y z Hs _ IH]; [done |].
  apply IH. by eapply step_inv.
Qed.
End Reachable.

(** ** A sample queue *)

Module SampleQueue.

Definition mappings : list kb2_vq_mapping := [mkMapping 4096 4096 65536 3].
Definition arenas : list kb2_vq_arena := [mkArena 1 3 4608 1024; mkArena 2 3 6144 512].
Definition memory : kb2_vq_mapped_memory := mkMapped mappings arenas ∅.

Definition identity : kb2_protocol_channel :=
  mkChannel KB2_PROTOCOL_TRANSPORT_FEATURES_REQUIRED 7 3 9 KB2_PROTOCOL_CHANNEL_FLAG_DATA.
Definition queues : list kb2_protocol_queue :=
  [mkQueue 1 KB2_PROTOCOL_QUEUE_ROLE_REQUEST 4 0 4096 4160 4176 1 2 4 8 4;
   mkQueue 2 KB2_PROTOCOL_QUEUE_ROLE_EVENT 2 0 4224 4256 4268 3 4 2 1 2].
Definition regions : list kb2_protocol_region := [mkRegion 5 3 4096 4096].
Definition channel : kb2_vq_channel := mkVqChannel identity queues regions false.

Definition segments : list kb2_vq_segment := [mkSegment 4608 8 0 0; mkSegment 4624 16 1 1].
Definition chain : kb2_vq_chain := mkChain (Some segments) 2 2 0 0 0 0 0 0 0 0 0 FREE.
(** Empty storage for the device. *)
Definition workspace : kb2_vq_chain := mkChain (Some (replicate 4 (mkSegment 0 0 0 0))) 4 0 0 0 0 0 0 0 0 0 0 FREE.
Definition chains : gmap loc kb2_vq_chain := {[ 1%positive := chain; 2%positive := workspace ]}.

Definition bind (side : kb2_vq_side) (mem : kb2_vq_mapped_memory) : option (engine kb2_vq_mapped_memory) :=
  match kb2_vq_bind true (Some channel) 1 (Some side) mem 4 with
  | (KB2_VQ_OK, Some vq, _, mem) => Some (mkEngine vq chains mem)
  | _ => None
  end.

Definition queue (side : kb2_vq_side) : kb2_vq :=
  mkVq (Some channel) (mkQueue 1 KB2_PROTOCOL_QUEUE_ROLE_REQUEST 4 0 4096 4160 4176 1 2 4 8 4) side
    (replicate 4 None) None (replicate 4 0) 0 0 0.
Definition engine0 (side : kb2_vq_side) : engine kb2_vq_mapped_memory := mkEngine (queue side) chains memory.

Lemma chains_free p : c_state (chain_at chains p) = FREE.
Proof.
  unfold chain_at, chains. destruct (decide (p = 1%positive)) as [-> |]; [done |].
  destruct (decide (p = 2%positive)) as [-> |]; [done |]. by rewrite lookup_insert_ne, lookup_singleton_ne by done.
Qed.

Ltac typed_fields := unfold segment_typed, is_u64, is_u32, is_u16; cbn; lia.

Lemma chain_ok_typed : chain_typed chain.
Proof.
  split; [| typed_fields ..]. intros l [= <-]. split; [done |].
  repeat (apply List.Forall_cons; [typed_fields |]). apply List.Forall_nil.
Qed.

Lemma workspace_typed : chain_typed workspace.
Proof.
  split; [| typed_fields ..]. intros l [= <-]. split; [done |].
  repeat (apply List.Forall_cons; [typed_fields |]). apply List.Forall_nil.
Qed.

Lemma chains_typed p : chain_typed (chain_at chains p).
Proof.
  unfold chain_at, chains. destruct (decide (p = 1%positive)) as [-> |]; [apply chain_ok_typed |].
  destruct (decide (p = 2%positive)) as [-> |]; [apply workspace_typed |].
  rewrite lookup_insert_ne, lookup_singleton_ne by done. split; [done | typed_fields ..].
Qed.

Lemma bound side : vq_bound (engine0 side).
Proof.
  apply (bound_intro identity queues regions channel 1 side memory 4 (queue side) (Some channel) memory chains).
  - split; vm_compute; split; congruence.
  - repeat (apply List.Forall_cons; [split; vm_compute; split; congruence |]). apply List.Forall_nil.
  - repeat (apply List.Forall_cons; [split; vm_compute; split; congruence |]). apply List.Forall_nil.
  - vm_compute. reflexivity.
  - destruct side; vm_compute; reflexivity.
  - apply chains_typed.
  - apply chains_free.
Qed.

End SampleQueue.

Definition sample_published : engine kb2_vq_mapped_memory :=
  (run_vq (SampleQueue.engine0 KB2_VQ_DRIVER) true 3 (Publish (Some 1%positive) true)).2.

Lemma reachable_queue_invariant_witness :
  vq_inv sample_published /\ vq_produced (e_vq sample_published) = 1 /\ vq_owned (e_vq sample_published) = 1.
Proof.
  split; [| split; vm_compute; reflexivity].
  apply (reachable_queue_invariant (SampleQueue.engine0 KB2_VQ_DRIVER)).
  - apply SampleQueue.bound.
  - apply rtc_once. exact (step_call _ true 3 (Publish (Some 1%positive) true)).
Defined.

(** * Validation *)

Section Claims.
Context {M : Type} `{VqMemoryLaws M}.
Implicit Types e : engine M.

(** C18. In a reachable queue, validate_chain accepts exactly the chains that are
    valid by themselves (count and table limits, read segments before write
    segments, every range in a region with the right, clear of all ring metadata and
    allowed by the host, descriptors distinct and in range, no overlap inside the
    chain, totals that fit the queue's role) and that are free of conflicts with the
    queue (head, descriptors and memory unused); it fills in the totals. *)
Theorem validate_chain_decides e c :
  vq_inv e -> chain_typed c ->
  match validate_chain e c with
  | Some c' => c' = with_totals c /\ chain_ok e c' /\ admissible e c
  | None => ~ (chain_ok e (with_totals c) /\ admissible e c)
  end.
Proof.
  intros [Hs _] Ht.
  assert (Hslots : forall p, Some p ∈ vq_slots (e_vq e) -> chain_typed (e_chain e p) /\ chain_ok e (e_chain e p)).
  { intros q [h Hq]%list_elem_of_lookup. split; [apply Hs | by apply (si_chain _ Hs h q)]. }
  destruct (validate_chain e c) as [c' |] eqn:E.
  - apply validate_chain_spec in E as (-> & Hok & Had); [done | apply Hs | done | done].
  - intros [Hok Had]. assert (validate_chain e c = Some (with_totals c)); [| congruence].
    apply validate_chain_spec; [apply Hs | done | done | done].
Qed.

(** * Failures *)

(** A failing status comes with the fault flag. *)
Definition fault_reported (r : kb2_vq_status * engine M) : Prop := failed r.1 = true -> e_faulted r.2 = true.

Lemma frame_faulted P e st e' : struct_inv e -> frame P e st e' -> fault_reported (st, e').
Proof.
  intros Hs Hf Hst. cbn in *. unfold e_faulted. rewrite (fr_vq _ _ _ _ Hf), Hst.
  destruct (cb_channel _ (si_bound _ Hs)) as [c Hc]. cbn. by rewrite Hc.
Qed.

Lemma check_reported e given gen : fault_reported (check e given gen, e).
Proof.
  unfold fault_reported, check, e_faulted. cbn. destruct (vq_channel (e_vq e)) as [c |]; [| done].
  repeat case_match; done.
Qed.

Lemma publish_claimed_reported e c :
  struct_inv e -> fault_reported ((publish_claimed e c).1.1, (publish_claimed e c).2).
Proof.
  intros Hs. destruct (publish_claimed e c) as [[st n] e'] eqn:E. apply publish_claimed_spec in E.
  destruct E as [(-> & _) | (Hst & _ & [Hf | Hf])]; [done | by eapply frame_faulted |].
  eapply frame_faulted; [| exact Hf]. apply set_produced_struct; [done | apply u16_range].
Qed.

Lemma pending_reported e : struct_inv e -> fault_reported ((pending_index e).1.1, (pending_index e).2).
Proof.
  intros Hs. destruct (pending_index e) as [[st d] e'] eqn:E. apply pending_index_spec in E as (Hf & _ & _).
  by eapply frame_faulted.
Qed.

Lemma take_entry_reported e p :
  struct_inv e -> c_state (e_chain e p) = FREE -> fault_reported (take_entry e p).
Proof.
  intros Hs Hfree. unfold take_entry. pose proof (free_outside e p Hs Hfree) as Hout.
  destruct (mem_read _ _ _) as [[bytes |] m] eqn:Er; apply policy_read in Er.
  2: { exact (frame_faulted _ _ _ _ Hs (frame_fault_mem nothing e true m Er)). }
  set (e1 := set_chain _ _ _).
  assert (Hf1 : frame (eq p) e KB2_VQ_OK e1).
  { eapply frame_trans; [| by apply (frame_mem _ e KB2_VQ_OK m) | apply frame_chain]; [done | done |].
    apply chain_typed_head; [apply Hs | apply read_u16_range]. }
  assert (Hs1 : struct_inv e1) by (by eapply frame_struct).
  destruct (_ || _) in |- *; [exact (frame_faulted _ _ _ _ Hs1 (frame_fault nothing e1 false)) |].
  destruct (read_chain e1 p) as [st e2] eqn:Ec. apply read_chain_spec in Ec as (Hst & Hf2 & _ & _); [| done | done].
  destruct Hst as [-> | Hst]; [done |]. pose proof (frame_faulted _ _ _ _ Hs1 Hf2). by destruct st.
Qed.

Lemma run_vq_reported e given gen call :
  struct_inv e -> check e given gen = KB2_VQ_OK -> fault_reported (run_vq e given gen call).
Proof.
  intros Hs Hc.
  assert (Hp : fault_reported ((pending_index e).1.1, (pending_index e).2)) by by apply pending_reported.
  assert (Hquiet : forall st e', quiet e st e' -> fault_reported (st, e')) by (intros ? ? []; by eapply frame_faulted).
  destruct call as [chain n | n | chain | source destination | chain | chain offset out size | chain bytes size |
    chain n | out | chain offset out size | chain | n]; cbn [run_vq].
  - unfold kb2_vq_publish. rewrite Hc. destruct chain as [p |]; [| done]. destruct (_ || _) eqn:Eg; [done |].
    rewrite !orb_false_iff, !negb_false_iff, !bool_decide_eq_true in Eg. destruct Eg as [[Hside Hfree] _].
    destruct (Z.eqb_spec (vq_owned (e_vq e)) (q_max_outstanding (e_queue e))); [done |].
    destruct (validate_chain e (e_chain e p)) as [c |] eqn:Ev; [| done]. destruct (si_count _ Hs) as [_ Hmax].
    destruct (validated_claim e p c SUBMITTED Hs (free_outside e p Hs Hfree) Ev) as (Hcl & _);
      [rewrite Hside; by left | lia |].
    pose proof (publish_claimed_reported _ c Hcl). by destruct (publish_claimed _ _) as [[? ?] ?].
  - unfold kb2_vq_peek_available. rewrite Hc. destruct (_ || _); [done |].
    destruct (pending_index e) as [[[] d] e']; done.
  - unfold kb2_vq_take_available. rewrite Hc. destruct chain as [p |]; [| done]. destruct (_ || _) eqn:Eg; [done |].
    rewrite !orb_false_iff, !negb_false_iff, !bool_decide_eq_true in Eg. destruct Eg as [[[Hside Hfree] _] _].
    destruct (pending_index e) as [[st d] e1] eqn:Ep. apply pending_index_spec in Ep as (Hf & Hd & _).
    destruct (decide (st = KB2_VQ_OK)) as [-> | Hne]; [| by destruct st].
    assert (Hs1 : struct_inv e1) by (eapply frame_struct; [exact Hf | apply nothing_outside | done]).
    destruct (_ <? _); [exact (frame_faulted _ _ _ _ Hs1 (frame_fault nothing e1 false)) |].
    apply take_entry_reported; [done |]. destruct (frame_ok _ _ _ Hf eq_refl) as [_ Hch]. by rewrite Hch.
  - unfold kb2_vq_move_accepted. rewrite Hc. repeat case_match; done.
  - unfold kb2_vq_return_available. rewrite Hc. repeat case_match; done.
  - unfold kb2_vq_copy_request. rewrite Hc. destruct chain as [p |]; [| done]. destruct (_ || _); [done |].
    pose proof (Hquiet _ _ (copy_in_quiet e (chain_segments (e_chain e p)) 0 offset (Z.of_N size) [])) as Hq.
    by destruct (copy_in _ _ _ _ _ _) as [[? ?] ?].
  - unfold kb2_vq_write_response. rewrite Hc. destruct chain as [p |]; [| done]. destruct (_ || _); [done |].
    pose proof (Hquiet _ _ (copy_out_quiet e (chain_segments (e_chain e p)) 1 (c_written (e_chain e p))
                (take (Z.to_nat (Z.of_N size)) (default [] bytes)))) as Hq.
    by destruct (copy_out _ _ _ _ _) as [[] ?].
  - unfold kb2_vq_complete. rewrite Hc. destruct chain as [p |]; [| done]. destruct (_ || _); [done |].
    destruct (mem_write _ _ _) as [[] m] eqn:E; apply policy_write in E.
    2: { exact (frame_faulted _ _ _ _ Hs (frame_fault_mem nothing e true m E)). }
    assert (Hs1 : struct_inv (set_mem e m))
      by (eapply frame_struct; [by apply (frame_mem nothing e KB2_VQ_OK m) | apply nothing_outside | done]).
    destruct (publish_index _ _ _) as [[st n'] e'] eqn:Ep. apply publish_index_spec in Ep.
    destruct Ep as [(-> & _) | (Hst & _ & [Hf | Hf])]; [done | |].
    + pose proof (frame_faulted _ _ _ _ Hs1 Hf). by destruct st.
    + pose proof (frame_faulted _ _ _ _ (set_produced_struct _ _ Hs1 (u16_range _)) Hf). by destruct st.
  - unfold kb2_vq_take_used. rewrite Hc. destruct (_ || _); [done |].
    destruct (pending_index e) as [[st d] e1] eqn:Ep. apply pending_index_spec in Ep as (Hf & Hd & _).
    destruct (decide (st = KB2_VQ_OK)) as [-> | Hne]; [| by destruct st].
    assert (Hs1 : struct_inv e1) by (eapply frame_struct; [exact Hf | apply nothing_outside | done]).
    destruct (mem_read _ _ _) as [[bytes |] m] eqn:Er; apply policy_read in Er.
    2: { exact (frame_faulted _ _ _ _ Hs1 (frame_fault_mem nothing e1 true m Er)). }
    pose proof (frame_faulted _ _ _ _ Hs1 (frame_fault_mem nothing e1 false m Er)) as Hbad.
    destruct (_ <=? _); [exact Hbad |]. destruct (slot_at _ _); [| exact Hbad]. destruct (_ || _); [exact Hbad | done].
  - unfold kb2_vq_copy_response. rewrite Hc. destruct chain as [p |]; [| done]. destruct (_ || _); [done |].
    pose proof (Hquiet _ _ (copy_in_quiet e (chain_segments (e_chain e p)) 1 offset (Z.of_N size) [])) as Hq.
    by destruct (copy_in _ _ _ _ _ _) as [[? ?] ?].
  - unfold kb2_vq_release. rewrite Hc. repeat case_match; done.
  - unfold kb2_vq_arm. rewrite Hc. destruct (negb n); [done |].
    destruct (mem_store_release _ _ _) as [[] m] eqn:E; apply policy_store in E.
    2: { exact (frame_faulted _ _ _ _ Hs (frame_fault_mem nothing e true m E)). }
    assert (Hs1 : struct_inv (set_mem e (mem_fence m))).
    { eapply frame_struct; [apply (frame_mem nothing e KB2_VQ_OK); [done |] | apply nothing_outside | done].
      transitivity m; [done | apply policy_fence]. }
    clear Hp. pose proof (pending_reported _ Hs1) as Hp.
    destruct (pending_index (set_mem e (mem_fence m))) as [[[] d] e']; exact Hp || done.
Qed.

Lemma check_blocks e given gen call :
  check e given gen <> KB2_VQ_OK -> run_vq e given gen call = (check e given gen, e).
Proof.
  intros Hne. destruct call; cbn [run_vq];
    unfold kb2_vq_publish, kb2_vq_peek_available, kb2_vq_take_available, kb2_vq_move_accepted,
      kb2_vq_return_available, kb2_vq_copy_request, kb2_vq_write_response, kb2_vq_complete, kb2_vq_take_used,
      kb2_vq_copy_response, kb2_vq_release, kb2_vq_arm;
    by destruct (check e given gen).
Qed.

(** C19. A call that fails the first check (no queue, no channel, a zero or stale
    generation, a faulted channel) returns that status and changes nothing, shared
    memory included; and a call that returns IO or FAULTED leaves the channel
    faulted, so that every later call of that generation returns FAULTED and changes
    nothing. *)
Theorem faults_are_final e given gen call gen' call' :
  vq_inv e ->
  (check e given gen <> KB2_VQ_OK -> run_vq e given gen call = (check e given gen, e)) /\
  (failed (run_vq e given gen call).1 = true ->
   let e' := (run_vq e given gen call).2 in
   (run_vq e' true gen' call').1 <> KB2_VQ_OK /\ (run_vq e' true gen' call').2 = e').
Proof.
  intros [Hs _]. split; [apply check_blocks |]. intros Hst e'.
  assert (Hf : e_faulted e' = true).
  { unfold e'. destruct (decide (check e given gen = KB2_VQ_OK)) as [Hc | Hc].
    - by apply run_vq_reported.
    - rewrite check_blocks in Hst |- * by done. by apply (check_reported e given gen). }
  assert (Hne : check e' true gen' <> KB2_VQ_OK) by (intros Hc%check_ok; congruence).
  by rewrite check_blocks by done.
Qed.

(** * Ownership *)

Definition same_ownership e e' : Prop :=
  vq_slots (e_vq e') = vq_slots (e_vq e) /\ vq_descriptor_owner (e_vq e') = vq_descriptor_owner (e_vq e) /\
  vq_owned (e_vq e') = vq_owned (e_vq e) /\ vq_last_taken (e_vq e') = vq_last_taken (e_vq e) /\
  vq_produced (e_vq e') = vq_produced (e_vq e) /\ vq_consumed (e_vq e') = vq_consumed (e_vq e).

Lemma frame_ownership P e st e' : frame P e st e' -> same_ownership e e'.
Proof. intros Hf. destruct (frame_slots _ _ _ _ Hf) as (? & ? & ? & ? & ? & ? & ?). by split_and!. Qed.

(** Publication fails by a failing callback only. *)
Lemma write_descriptors_status e c i rest :
  (write_descriptors e c i rest).1 = KB2_VQ_OK \/ (write_descriptors e c i rest).1 = KB2_VQ_IO.
Proof.
  revert e i. induction rest as [|s rest IH]; intros e i; cbn [write_descriptors]; [by left |].
  destruct (mem_write _ _ _) as [[] m]; [apply IH | by right].
Qed.

Lemma publish_claimed_status e c :
  (publish_claimed e c).1.1 = KB2_VQ_OK \/ (publish_claimed e c).1.1 = KB2_VQ_IO.
Proof.
  unfold publish_claimed. pose proof (write_descriptors_status e c 0 (chain_segments c)) as Hw.
  destruct (write_descriptors e c 0 (chain_segments c)) as [st e1]. cbn in Hw. destruct Hw as [-> | ->]; [| by right].
  unfold write_indirect_reference, publish_index. repeat (case_match; simplify_eq; try by (left + right)).
Qed.

(** C20. Publishing a chain, outcome by outcome.  FULL exactly when max_outstanding
    chains are owned and INVALID for a chain that is in use or not valid; then
    nothing changed, shared memory included.  On success the chain is submitted and
    owned and the index advanced by one.  On a backend failure the chain stays owned. *)
Theorem publish_outcomes e gen p :
  vq_inv e -> check e true gen = KB2_VQ_OK -> vq_side (e_vq e) = KB2_VQ_DRIVER ->
  let c := e_chain e p in
  let '(st, notify, e') := kb2_vq_publish e true gen (Some p) true in
  match st with
  | KB2_VQ_OK =>
      c_state c = FREE /\ chain_ok e (with_totals c) /\ admissible e c /\ is_Some notify /\
      in_slot e' (Z.to_nat (c_head c)) p /\ c_state (e_chain e' p) = SUBMITTED /\
      chain_segments (e_chain e' p) = chain_segments c /\
      vq_owned (e_vq e') = vq_owned (e_vq e) + 1 /\ vq_produced (e_vq e') = u16 (vq_produced (e_vq e) + 1)
  | KB2_VQ_FULL => vq_owned (e_vq e) = q_max_outstanding (e_queue e) /\ c_state c = FREE /\ notify = None /\ e' = e
  | KB2_VQ_INVALID =>
      (c_state c <> FREE \/ ~ (chain_ok e (with_totals c) /\ admissible e c)) /\ notify = None /\ e' = e
  | KB2_VQ_IO =>
      notify = None /\ e_faulted e' = true /\ in_slot e' (Z.to_nat (c_head c)) p /\
      c_state (e_chain e' p) = SUBMITTED
  | _ => False
  end.
Proof.
  intros Hi Hc Hside c. pose proof (inv_struct _ Hi) as Hs. unfold kb2_vq_publish. rewrite Hc.
  rewrite (bool_decide_true (vq_side _ = _)) by done. cbn [negb orb]. rewrite orb_false_r.
  destruct (bool_decide_reflect (c_state (e_chain e p) = FREE)) as [Hfree | Hnf]; cbn [negb]; [| by auto].
  destruct (Z.eqb_spec (vq_owned (e_vq e)) (q_max_outstanding (e_queue e))) as [Hfull | Hne]; [done |].
  assert (Hslots : forall p, Some p ∈ vq_slots (e_vq e) -> chain_typed (e_chain e p) /\ chain_ok e (e_chain e p)).
  { intros q [h Hq]%list_elem_of_lookup. split; [apply Hs | by apply (si_chain _ Hs h q)]. }
  pose proof (fun c' => validate_chain_spec e c c' (si_bound _ Hs) (si_typed _ Hs p) Hslots) as Hv. unfold c in *.
  destruct (validate_chain e (e_chain e p)) as [c' |] eqn:Ev.
  2: { split_and!; [right | done | done]. intros [Hok Had].
       assert (None = Some (with_totals (e_chain e p))) by (apply Hv; done). done. }
  destruct (proj1 (Hv c') eq_refl) as (Ec' & Hok & Had). destruct (si_count _ Hs) as [_ Hmax].
  destruct (validated_claim e p c' SUBMITTED Hs (free_outside e p Hs Hfree) Ev) as (Hcl & Hin & _);
    [rewrite Hside; by left | lia |].
  set (e1 := claim (set_chain e p c') p SUBMITTED) in *.
  assert (Hch1 : e_chain e1 p = set_state c' SUBMITTED).
  { unfold e1. rewrite e_chain_claim, decide_True, e_chain_set_eq by done. done. }
  assert (Hs1 : struct_inv (set_produced e1 (u16 (vq_produced (e_vq e1) + 1))))
    by (apply set_produced_struct; [done | apply u16_range]).
  destruct (publish_claimed e1 c') as [[st n] e'] eqn:Ep'. apply publish_claimed_spec in Ep' as Ep.
  destruct Ep as [(-> & Hf & Hn) | (Hst & -> & Hf)].
  - destruct (frame_ok _ _ _ Hf eq_refl) as [Hvq Hch]. specialize (Hch p).
    change (e_chain (set_produced _ _) p) with (e_chain e1 p) in Hch.
    rewrite Hch, Hch1, Hvq. unfold in_slot. rewrite Hvq. split_and!; try done.
    + by rewrite Ec'.
    + cbn. apply u32_small. pose proof (owned_bounds e Hs). unfold is_u32. lia.
  - assert (Hrep : e_faulted e' = true) by (destruct Hf as [Hf | Hf]; [by apply (frame_faulted _ _ _ _ Hcl Hf) |
      by apply (frame_faulted _ _ _ _ Hs1 Hf)]).
    assert (Hst' : e_chain e' p = e_chain e1 p /\ vq_slots (e_vq e') = vq_slots (e_vq e1)).
    { destruct Hf as [Hf | Hf]; (split; [by apply (fr_chains _ _ _ _ Hf); intros [] | by apply (frame_slots _ _ _ _ Hf)]). }
    destruct Hst' as [Hch Hsl].
    assert (Hio : st = KB2_VQ_IO).
    { pose proof (publish_claimed_status e1 c') as Hio. rewrite Ep' in Hio. cbn in Hio.
      destruct Hio as [-> | ->]; done. }
    subst st. rewrite Hch, Hch1. unfold in_slot. rewrite Hsl. by split_and!.
Qed.
End Claims.

(** ** Witnesses on the sample queue *)

Lemma sample_driver_inv : vq_inv (SampleQueue.engine0 KB2_VQ_DRIVER).
Proof. apply bound_inv, SampleQueue.bound. Qed.

Lemma sample_device_inv : vq_inv (SampleQueue.engine0 KB2_VQ_DEVICE).
Proof. apply bound_inv, SampleQueue.bound. Qed.

Lemma validate_chain_decides_witness :
  chain_ok (SampleQueue.engine0 KB2_VQ_DRIVER) (with_totals SampleQueue.chain) /\
  admissible (SampleQueue.engine0 KB2_VQ_DRIVER) SampleQueue.chain.
Proof.
  pose proof (validate_chain_decides (SampleQueue.engine0 KB2_VQ_DRIVER) SampleQueue.chain
                sample_driver_inv SampleQueue.chain_ok_typed) as Hv.
  assert (E : validate_chain (SampleQueue.engine0 KB2_VQ_DRIVER) SampleQueue.chain =
              Some (with_totals SampleQueue.chain)) by (vm_compute; reflexivity).
  rewrite E in Hv. exact (proj2 Hv).
Defined.

Lemma faults_are_final_witness :
  run_vq (SampleQueue.engine0 KB2_VQ_DRIVER) true 9 (Publish (Some 1%positive) true) =
  (KB2_VQ_STALE, SampleQueue.engine0 KB2_VQ_DRIVER).
Proof.
  refine (proj1 (faults_are_final (SampleQueue.engine0 KB2_VQ_DRIVER) true 9 (Publish (Some 1%positive) true)
                   3 (Arm true) sample_driver_inv) _).
  vm_compute. discriminate.
Defined.

Lemma publish_outcomes_witness :
  let e := SampleQueue.engine0 KB2_VQ_DRIVER in
  let e' := (kb2_vq_publish e true 3 (Some 1%positive) true).2 in
  (kb2_vq_publish e true 3 (Some 1%positive) true).1.1 = KB2_VQ_OK /\
  c_state (e_chain e' 1%positive) = SUBMITTED.
Proof.
  cbv zeta.
  pose proof (publish_outcomes (SampleQueue.engine0 KB2_VQ_DRIVER) 3 1%positive sample_driver_inv
                ltac:(vm_compute; reflexivity) ltac:(reflexivity)) as Ho. cbv zeta in Ho.
  assert (Es : (kb2_vq_publish (SampleQueue.engine0 KB2_VQ_DRIVER) true 3 (Some 1%positive) true).1.1 = KB2_VQ_OK)
    by (vm_compute; reflexivity).
  split; [exact Es |].
  destruct (kb2_vq_publish (SampleQueue.engine0 KB2_VQ_DRIVER) true 3 (Some 1%positive) true) as [[st n] e'].
  cbn in Es. subst st. exact (proj1 (proj2 (proj2 (proj2 (proj2 (proj2 Ho)))))).
Defined.

(** * Two ends of a queue *)

Section Ends.
Context {M : Type} `{VqMemoryLaws M} `{VqBytes M} `{!VqBytesLaws M}.
Implicit Types e d : engine M.

(** The two engines, the chains that wait for the device in the order they were published,
    the ones that wait for the driver in the order they were completed, and for each chain
    the request as it was published and the response as far as it was written. *)
Record ends : Type := mkEnds {
  en_driver : engine M;
  en_device : engine M;
  en_waiting : list loc;
  en_completed : list loc;
  en_request : loc -> list Z;
  en_response : loc -> list Z;
}.

(** The chain of the driver that the device holds at [p]. *)
Definition held_as (s : ends) (p k : loc) : Prop :=
  in_slot (en_driver s) (Z.to_nat (c_head (e_chain (en_device s) p))) k.

(** A queue of a channel that passed kb2_vq_channel_init, bound at both ends over linked
    backends; every chain object is free. *)
Inductive joined : ends -> Prop :=
| joined_intro identity queues regions channel queue_id
    mem0 capacity vq channel' mem chains mem0' capacity' vq' channel'' mem' chains' :
    channel_typed identity -> Forall queue_typed queues -> Forall region_typed regions ->
    kb2_vq_channel_init true (Some identity) (Some queues) (Z.of_nat (length queues))
      (Some regions) (Z.of_nat (length regions)) = (KB2_VQ_OK, Some channel) ->
    kb2_vq_bind true (Some channel) queue_id (Some KB2_VQ_DRIVER) mem0 capacity = (KB2_VQ_OK, Some vq, channel', mem) ->
    kb2_vq_bind true (Some channel) queue_id (Some KB2_VQ_DEVICE) mem0' capacity' = (KB2_VQ_OK, Some vq', channel'', mem') ->
    (forall p, chain_typed (chain_at chains p)) -> (forall p, c_state (chain_at chains p) = FREE) ->
    (forall p, chain_typed (chain_at chains' p)) -> (forall p, c_state (chain_at chains' p) = FREE) ->
    bm_good mem0 -> bm_good mem0' ->
    linked (mkEngine vq chains mem) (mkEngine vq' chains' mem') ->
    joined (mkEnds (mkEngine vq chains mem) (mkEngine vq' chains' mem') [] [] (fun _ => []) (fun _ => [])).

(** What the two owners can do.  A write of one end is [delivered] to the backend of the
    other before the other acts again. *)
Inductive ends_step : relation ends :=
| ends_publish e d l u Q R p gen notify e' m :
    kb2_vq_publish e true gen (Some p) true = (KB2_VQ_OK, notify, e') -> delivered e' d m ->
    ends_step (mkEnds e d l u Q R) (mkEnds e' (set_mem d m) (l ++ [p]) u (respond Q p (request e p)) (respond R p []))
| ends_peek e d l u Q R gen pending d' :
    kb2_vq_peek_available d true gen true = (KB2_VQ_OK, pending, d') ->
    ends_step (mkEnds e d l u Q R) (mkEnds e d' l u Q R)
| ends_take e d l u Q R p gen st d' :
    can_take d p gen -> kb2_vq_take_available d true gen (Some p) = (st, d') ->
    ends_step (mkEnds e d l u Q R) (mkEnds e d' (tail l) u Q R)
| ends_return e d l u Q R p k gen d' :
    kb2_vq_return_available d true gen (Some p) = (KB2_VQ_OK, d') -> held_as (mkEnds e d l u Q R) p k ->
    ends_step (mkEnds e d l u Q R) (mkEnds e d' (k :: l) u Q R)
| ends_move e d l u Q R source destination gen d' :
    kb2_vq_move_accepted d true gen (Some source) (Some destination) = (KB2_VQ_OK, d') ->
    ends_step (mkEnds e d l u Q R) (mkEnds e d' l u Q R)
| ends_copy_request e d l u Q R p gen off size out d' :
    kb2_vq_copy_request d true gen (Some p) (Z.of_N off) true (Z.of_N size) = (KB2_VQ_OK, out, d') ->
    ends_step (mkEnds e d l u Q R) (mkEnds e d' l u Q R)
| ends_write_response e d l u Q R p k gen bytes d' m :
    kb2_vq_write_response d true gen (Some p) (Some bytes) (blen bytes) = (KB2_VQ_OK, d') -> delivered d' e m ->
    held_as (mkEnds e d l u Q R) p k ->
    ends_step (mkEnds e d l u Q R) (mkEnds (set_mem e m) d' l u Q (respond R k (R k ++ bytes)))
| ends_complete e d l u Q R p k gen notify d' m :
    kb2_vq_complete d true gen (Some p) true = (KB2_VQ_OK, notify, d') -> delivered d' e m ->
    held_as (mkEnds e d l u Q R) p k ->
    ends_step (mkEnds e d l u Q R) (mkEnds (set_mem e m) d' l (u ++ [k]) Q R)
| ends_take_used e d l u Q R gen st p e' :
    check e true gen = KB2_VQ_OK -> kb2_vq_take_used e true gen true = (st, p, e') ->
    ends_step (mkEnds e d l u Q R) (mkEnds e' d l (tail u) Q R)
| ends_copy_response e d l u Q R p gen off size out e' :
    kb2_vq_copy_response e true gen (Some p) (Z.of_N off) true (Z.of_N size) = (KB2_VQ_OK, out, e') ->
    ends_step (mkEnds e d l u Q R) (mkEnds e' d l u Q R)
| ends_release e d l u Q R p gen e' :
    kb2_vq_release e true gen (Some p) = (KB2_VQ_OK, e') ->
    ends_step (mkEnds e d l u Q R) (mkEnds e' d l u Q R)
| ends_arm_driver e d l u Q R gen ready e' m :
    kb2_vq_arm e true gen true = (KB2_VQ_OK, ready, e') -> delivered e' d m ->
    ends_step (mkEnds e d l u Q R) (mkEnds e' (set_mem d m) l u Q R)
| ends_arm_device e d l u Q R gen ready d' m :
    kb2_vq_arm d true gen true = (KB2_VQ_OK, ready, d') -> delivered d' e m ->
    ends_step (mkEnds e d l u Q R) (mkEnds (set_mem e m) d' l u Q R)
(** Either owner rewrites a chain object that is free; memory that the queue has not
    claimed changes. *)
| ends_driver_chain e d l u Q R p c :
    c_state (e_chain e p) = FREE -> c_state c = FREE -> chain_typed c ->
    ends_step (mkEnds e d l u Q R) (mkEnds (set_chain e p c) d l u Q R)
| ends_device_chain e d l u Q R p c :
    c_state (e_chain d p) = FREE -> c_state c = FREE -> chain_typed c ->
    ends_step (mkEnds e d l u Q R) (mkEnds e (set_chain d p c) l u Q R)
| ends_memory e d l u Q R m m' :
    same_maps (e_mem e) m -> same_policy (e_mem e) m -> delivered (set_mem e m) d m' ->
    (forall x, claimed e x -> bm_byte m x = bm_byte (e_mem e) x) ->
    ends_step (mkEnds e d l u Q R) (mkEnds (set_mem e m) (set_mem d m') l u Q R).

Definition ends_paired (s : ends) : Prop :=
  paired (en_driver s) (en_device s) (en_waiting s) (en_completed s) (en_request s) (en_response s).

(** ** The start *)

Lemma pairwise_part {S T} (R : T -> T -> Prop) (f : S -> list T) x (xs : list S) :
  x ∈ xs -> pairwise R (mjoin (f <$> xs)) -> pairwise R (f x).
Proof.
  induction xs as [| y xs IH]; intros Hx Hp; [by apply not_elem_of_nil in Hx |]. cbn in Hp. apply pairwise_app in Hp as (Hy & Hp & _).
  apply elem_of_cons in Hx as [-> | Hx]; [done | by apply IH].
Qed.

Lemma zero_index (V : view) ring : (forall x, is_u8 (V x)) -> view_u16 V (ring + 2) = 0 -> holds_write V (index_write ring 0).
Proof.
  intros Hu Hz. unfold view_u16 in Hz. apply Z.lor_eq_0_iff in Hz as [H0' H1']. apply Z.shiftl_eq_0_iff in H1'; [| lia].
  intros x Hx%index_write_inside. cbn [index_write fst snd].
  assert (x = ring + 2 \/ x = ring + 2 + 1) as [-> | ->] by lia; [rewrite Z.sub_diag | replace (_ - _) with 1 by lia]; [done |].
  rewrite H1'. done.
Qed.

(** The index that an end loads when it binds is the one in the memory. *)
Lemma loaded_zero (mem0 mem : M) ring :
  bm_good mem0 -> is_u64 (ring + 2) -> mem_load_acquire mem0 (u64 (ring + 2)) = (Some 0, mem) ->
  holds_write (bm_byte mem) (index_write ring 0).
Proof.
  intros Hg Ha E. rewrite u64_small in E by done. destruct (bytes_load mem0 (ring + 2) Hg) as (m & El & [Sm Bm]).
  rewrite E in El. destruct (bm_loadable _ _); [| done]. injection El as Hz <-.
  apply (holds_write_ext (bm_byte mem0)); [by intros |]. apply zero_index; [| done]. intros x. by apply bytes_u8.
Qed.

Lemma bound_placed identity queues regions q side (mem : M) chains :
  channel_ok identity queues regions -> q ∈ queues ->
  let vq := mkVq (Some (mkVqChannel identity queues regions false)) q side
              (replicate (Z.to_nat (q_queue_size q)) None) None (replicate (Z.to_nat (q_queue_size q)) 0) 0 0 0 in
  vq_inv (mkEngine vq chains mem) -> placed (mkEngine vq chains mem).
Proof.
  intros Hok Hq vq Hi. pose proof (proj1 (Forall_forall _ _) (co_queues _ _ _ Hok) q Hq) as Hqok.
  split.
  - exact Hq.
  - exact (qo_covered _ _ Hqok).
  - intros [a n] Hr. pose proof (cb_rings _ (si_bound _ (inv_struct _ Hi))) as Hc.
    exact (proj1 (Forall_forall _ _) (proj1 (Forall_forall _ _) Hc q Hq) (a, n) Hr).
  - exact (pairwise_part _ rings q queues Hq (co_rings _ _ _ Hok)).
  - apply (qo_aligned _ _ Hqok).
Qed.

(** Two ends that were just bound are paired. *)
Lemma joined_paired s : joined s -> ends_paired s.
Proof.
  intros Hj. destruct Hj as [identity queues regions channel queue_id mem0 capacity vq channel' mem chains
    mem0' capacity' vq' channel'' mem' chains' Hit Hqt Hrt Hinit Hb Hb' Hct Hf Hct' Hf' Hg Hg' L].
  pose proof (bound_inv _ (bound_intro _ _ _ _ _ _ _ _ _ _ _ chains Hit Hqt Hrt Hinit Hb Hct Hf)) as Hi.
  pose proof (bound_inv _ (bound_intro _ _ _ _ _ _ _ _ _ _ _ chains' Hit Hqt Hrt Hinit Hb' Hct' Hf')) as Hi'.
  apply init_channel_ok in Hinit as [-> Hok]; [| done ..].
  apply bind_fresh in Hb as (q & Hq & Hl & ->). apply bind_fresh in Hb' as (q' & Hq' & Hl' & ->). cbn [vc_queues decide decide_rel] in *.
  rewrite decide_True in Hl by done. rewrite decide_False in Hl' by done.
  assert (q' = q) as -> by exact (lk_queue _ _ L).
  pose proof (bound_placed identity queues regions q KB2_VQ_DRIVER mem chains Hok Hq Hi) as Hp.
  set (e := mkEngine _ chains mem) in *. set (d := mkEngine _ chains' mem') in *.
  pose proof (available_fits e Hp) as Ha. pose proof (used_fits e Hp) as Hu. change (e_queue e) with q in Ha, Hu.
  pose proof (queue_size_bounds _ (si_bound _ (inv_struct _ Hi))) as Hqs. change (e_queue e) with q in Hqs.
  assert (Hslot : forall h p, ~ in_slot e h p) by (intros h p Hp'; by apply lookup_replicate in Hp' as [? _]).
  assert (Hslot' : forall h p, ~ in_slot d h p) by (intros h p Hp'; by apply lookup_replicate in Hp' as [? _]).
  assert (HA : holds_write (bm_byte mem) (index_write (q_available_address q) 0)).
  { apply (loaded_zero mem0); [done | unfold is_u64; lia | done]. }
  assert (HU : holds_write (bm_byte mem) (index_write (q_used_address q) 0)).
  { apply (holds_write_ext (bm_byte mem')).
    - intros x Hx%index_write_inside. symmetry. apply (lk_bytes _ _ L), used_shared; [done |]. change (e_queue e) with q. lia.
    - apply (loaded_zero mem0'); [done | unfold is_u64; lia | done]. }
  split; cbn [en_driver en_device en_waiting en_completed en_request en_response]; try done.
  - intros w Hw. destruct Hw as [| | i p Hx | p' Hx | i p Hx | h p w Hin | h p ww i a v Hin]; try done; by apply Hslot in Hin.
  - apply NoDup_nil_2.
  - intros p Hx. by apply not_elem_of_nil in Hx.
  - intros h p Hin. by apply Hslot in Hin.
  - intros p Hx. by apply not_elem_of_nil in Hx.
  - intros h p Hin. by apply Hslot in Hin.
  - intros h p Hin. by apply Hslot' in Hin.
  - change (vq_owned (e_vq d)) with 0. change (vq_slots (e_vq e)) with (replicate (Z.to_nat (q_queue_size q)) (None : option loc)).
    rewrite slot_count_free. cbn [length]. lia.
Qed.

(** ** Every step keeps the ends paired *)

Lemma held_unique s p k k' : held_as s p k -> held_as s p k' -> k = k'.
Proof. unfold held_as, in_slot. congruence. Qed.

Lemma ends_step_paired s s' : ends_step s s' -> ends_paired s -> ends_paired s'.
Proof.
  unfold ends_paired. intros Hstep P. destruct Hstep as [e d l u Q R p gen notify e' m E Hd | e d l u Q R gen pending d' E |
    e d l u Q R p gen st d' Hcan E | e d l u Q R p k gen d' E Hk | e d l u Q R source destination gen d' E |
    e d l u Q R p gen off size out d' E | e d l u Q R p k gen bytes d' m E Hd Hk | e d l u Q R p k gen notify d' m E Hd Hk |
    e d l u Q R gen st p e' Hc E | e d l u Q R p gen off size out e' E | e d l u Q R p gen e' E |
    e d l u Q R gen ready e' m E Hd | e d l u Q R gen ready d' m E Hd | e d l u Q R p c Hf Hf' Hc | e d l u Q R p c Hf Hf' Hc |
    e d l u Q R m m' Hm Hp Hd Hkeep]; cbn [en_driver en_device en_waiting en_completed en_request en_response] in *.
  - by eapply paired_publish.
  - assert (Hc : check d true gen = KB2_VQ_OK) by (unfold kb2_vq_peek_available in E; by destruct (check d true gen)).
    destruct (paired_peek _ _ _ _ _ _ gen P Hc) as (d1 & E1 & P1). rewrite E in E1. by injection E1 as _ <-.
  - pose proof (paired_take _ _ _ _ _ _ p gen P Hcan) as Ht. rewrite E in Ht. destruct l; [by destruct Ht | by destruct Ht as (_ & Ht & _)].
  - destruct (paired_return _ _ _ _ _ _ _ _ _ P E) as (k' & Hk' & _ & P'). by rewrite (held_unique _ _ _ _ Hk Hk').
  - by eapply paired_move.
  - by destruct (paired_copy_request _ _ _ _ _ _ _ _ _ _ _ _ _ P (N2Z.is_nonneg off) (N2Z.is_nonneg size) E) as (k & _ & _ & _ & P').
  - destruct (paired_respond _ _ _ _ _ _ _ _ _ _ m P E Hd) as (k' & Hk' & _ & P'). by rewrite (held_unique _ _ _ _ Hk Hk').
  - destruct (paired_complete _ _ _ _ _ _ _ _ _ _ _ m P E Hd) as (k' & Hk' & _ & P'). by rewrite (held_unique _ _ _ _ Hk Hk').
  - pose proof (paired_take_used _ _ _ _ _ _ gen P Hc) as Ht. rewrite E in Ht. destruct u; [by destruct Ht as (_ & _ & Ht) | by destruct Ht as (_ & _ & Ht & _)].
  - by destruct (paired_copy_response _ _ _ _ _ _ _ _ _ _ _ _ _ P (N2Z.is_nonneg off) (N2Z.is_nonneg size) E) as (_ & P').
  - by eapply paired_release.
  - by destruct (paired_arm_driver _ _ _ _ _ _ _ _ _ m P E Hd) as (_ & P').
  - by destruct (paired_arm_device _ _ _ _ _ _ _ _ _ m P E Hd) as (_ & P').
  - by apply paired_driver_chain.
  - by apply paired_device_chain.
  - by apply paired_client.
Qed.

Lemma reachable_paired s0 s : joined s0 -> rtc ends_step s0 s -> ends_paired s.
Proof.
  intros Hj%joined_paired Hr. induction Hr as [| x y z Hs _ IH]; [done |]. apply IH. by eapply ends_step_paired.
Qed.

(** C16. Between two ends that run this code, a queue delivers every chain once, first in
    first out, in both directions: what the device takes next is the chain published first
    of those it has not taken, with the segments the driver gave it, and what it copies in
    is the request as it was when it was published; what the driver takes back next is the
    chain completed first, with the length that was written for it, and what it copies out
    is what was written.  Neither end finds the other at fault: taking gives OK exactly
    when there is something to take, and EMPTY otherwise. *)
Theorem queue_is_fifo s0 s :
  joined s0 -> rtc ends_step s0 s ->
  let e := en_driver s in
  let d := en_device s in
  (forall p gen, can_take d p gen ->
     let '(st, d') := kb2_vq_take_available d true gen (Some p) in
     match en_waiting s with
     | [] => st = KB2_VQ_EMPTY
     | k :: _ => st = KB2_VQ_OK /\ owned d' (Some p) ACCEPTED = true /\ same_chain (e_chain e k) (e_chain d' p)
     end) /\
  (forall p gen off size out d',
     kb2_vq_copy_request d true gen (Some p) (Z.of_N off) true (Z.of_N size) = (KB2_VQ_OK, out, d') ->
     exists k, held_as s p k /\ same_chain (e_chain e k) (e_chain d p) /\
       out = u8 <$> take (N.to_nat size) (drop (N.to_nat off) (en_request s k))) /\
  (forall gen, check e true gen = KB2_VQ_OK ->
     let '(st, p', e') := kb2_vq_take_used e true gen true in
     match en_completed s with
     | [] => st = KB2_VQ_EMPTY /\ p' = None
     | k :: _ => st = KB2_VQ_OK /\ p' = Some k /\ owned e' (Some k) RETURNED = true /\
         c_used_length (e_chain e' k) = blen (en_response s k)
     end) /\
  (forall p gen off size out e',
     kb2_vq_copy_response e true gen (Some p) (Z.of_N off) true (Z.of_N size) = (KB2_VQ_OK, out, e') ->
     out = u8 <$> take (N.to_nat size) (drop (N.to_nat off) (en_response s p))).
Proof.
  intros Hj Hr e d. pose proof (reachable_paired s0 s Hj Hr) as P. unfold ends_paired in P. split_and!.
  - intros p gen Hcan. pose proof (paired_take _ _ _ _ _ _ p gen P Hcan) as Ht. fold d in Ht.
    destruct (kb2_vq_take_available d true gen (Some p)) as [st d']. destruct (en_waiting s); [by destruct Ht |].
    by destruct Ht as (? & _ & ? & ?).
  - intros p gen off size out d' E.
    destruct (paired_copy_request _ _ _ _ _ _ _ _ _ _ _ _ _ P (N2Z.is_nonneg off) (N2Z.is_nonneg size) E) as (k & Hk & Hsc & -> & _).
    exists k. by rewrite <- !N_nat_Z, !Nat2Z.id.
  - intros gen Hc. pose proof (paired_take_used _ _ _ _ _ _ gen P Hc) as Ht. fold e in Ht.
    destruct (kb2_vq_take_used e true gen true) as [[st p'] e']. destruct (en_completed s); [by destruct Ht as (? & ? & _) |].
    by destruct Ht as (? & ? & _ & ? & ? & _).
  - intros p gen off size out e' E.
    destruct (paired_copy_response _ _ _ _ _ _ _ _ _ _ _ _ _ P (N2Z.is_nonneg off) (N2Z.is_nonneg size) E) as (-> & _).
    by rewrite <- !N_nat_Z, !Nat2Z.id.
Qed.
End Ends.

(** ** A sample exchange *)

Module SampleExchange.
Import SampleQueue.

(** Every state of the sample has these mappings and arenas. *)
Definition sampled (m : kb2_vq_mapped_memory) : Prop := mm_mappings m = mappings /\ mm_arenas m = arenas.

Lemma sampled_maps m m' : sampled m -> sampled m' -> same_maps m m' /\ same_policy m m'.
Proof.
  intros [Hm Ha] [Hm' Ha']. split; [split |].
  - split; rewrite Hm'; [| vm_compute; reflexivity]. apply List.Forall_cons; [| apply List.Forall_nil].
    unfold mapping_typed, is_u64. cbn. lia.
  - intros a n. cbn. by rewrite Hm, Hm'.
  - intros a. cbn. unfold load_index. rewrite Hm, Hm'. destruct (resolve _ _ _ _); [| done].
    destruct (_ || _); [done | by rewrite !bool_decide_true by done].
  - intros id a n r. cbn. unfold payload_allowed. by rewrite Ha, Ha'.
Qed.

Lemma sampled_delivered (e d : engine kb2_vq_mapped_memory) : sampled (e_mem e) -> sampled (e_mem d) -> delivered e d (e_mem e).
Proof. intros He Hd. destruct (sampled_maps _ _ Hd He). by split. Qed.

Lemma sample_linked : linked (engine0 KB2_VQ_DRIVER) (engine0 KB2_VQ_DEVICE).
Proof.
  assert (Hr : forall a n, 0 < n -> readable_range (engine0 KB2_VQ_DRIVER) a n -> bm_readable memory a n = true).
  { intros a n Hn (r & Hr & _ & Hlo & Hhi). change (e_regions _) with regions in Hr. apply list_elem_of_singleton in Hr as ->.
    cbn in Hlo, Hhi |- *. apply bool_decide_eq_true. rewrite (proj2 (Z.ltb_ge _ _)) by lia. cbn.
    rewrite !(proj2 (Z.leb_le _ _)) by lia. by eexists. }
  assert (Hg : bm_good memory) by (by apply (sampled_maps memory memory)).
  split; try done; vm_compute; reflexivity.
Qed.

Definition start : ends := mkEnds (engine0 KB2_VQ_DRIVER) (engine0 KB2_VQ_DEVICE) [] [] (fun _ => []) (fun _ => []).

Lemma sample_joined : joined start.
Proof.
  apply (joined_intro identity queues regions channel 1 memory 4 (queue KB2_VQ_DRIVER) (Some channel) memory chains
           memory 4 (queue KB2_VQ_DEVICE) (Some channel) memory chains).
  - split; vm_compute; split; congruence.
  - repeat (apply List.Forall_cons; [split; vm_compute; split; congruence |]). apply List.Forall_nil.
  - repeat (apply List.Forall_cons; [split; vm_compute; split; congruence |]). apply List.Forall_nil.
  - vm_compute. reflexivity.
  - vm_compute. reflexivity.
  - vm_compute. reflexivity.
  - apply chains_typed.
  - apply chains_free.
  - apply chains_typed.
  - apply chains_free.
  - by apply (sampled_maps memory memory).
  - by apply (sampled_maps memory memory).
  - apply sample_linked.
Qed.

(** The driver publishes its chain, the device takes it, answers with three bytes and
    completes it. *)
Definition e1 := (kb2_vq_publish (engine0 KB2_VQ_DRIVER) true 3 (Some 1%positive) true).2.
Definition d1 := set_mem (engine0 KB2_VQ_DEVICE) (e_mem e1).
Definition d2 := (kb2_vq_take_available d1 true 3 (Some 2%positive)).2.
Definition d3 := (kb2_vq_write_response d2 true 3 (Some 2%positive) (Some [7; 8; 9]) 3).2.
Definition e3 := set_mem e1 (e_mem d3).
Definition d4 := (kb2_vq_complete d3 true 3 (Some 2%positive) true).2.
Definition e4 := set_mem e3 (e_mem d4).

Definition requests : loc -> list Z := respond (fun _ => []) 1%positive (request (engine0 KB2_VQ_DRIVER) 1%positive).
Definition responses : loc -> list Z := respond (respond (fun _ => []) 1%positive []) 1%positive [7; 8; 9].
Definition finish : ends := mkEnds e4 d4 [] [1%positive] requests responses.

Lemma sample_reachable : rtc ends_step start finish.
Proof.
  eapply rtc_l; [| eapply rtc_l; [| eapply rtc_l; [| eapply rtc_once]]].
  - refine (ends_publish _ _ _ _ _ _ 1%positive 3 _ e1 (e_mem e1) _ _); [vm_compute; reflexivity | by apply sampled_delivered].
  - refine (ends_take _ _ _ _ _ _ 2%positive 3 KB2_VQ_OK d2 _ _); [| vm_compute; reflexivity].
    split; [vm_compute; reflexivity | vm_compute; reflexivity | vm_compute; congruence | vm_compute; congruence].
  - refine (ends_write_response _ _ _ _ _ _ 2%positive 1%positive 3 [7; 8; 9] d3 (e_mem d3) _ _ _);
      [vm_compute; reflexivity | by apply sampled_delivered | vm_compute; reflexivity].
  - refine (ends_complete _ _ _ _ _ _ 2%positive 1%positive 3 _ d4 (e_mem d4) _ _ _);
      [vm_compute; reflexivity | by apply sampled_delivered | vm_compute; reflexivity].
Qed.
End SampleExchange.

Lemma queue_is_fifo_witness :
  let '(st, p, e) := kb2_vq_take_used SampleExchange.e4 true 3 true in
  st = KB2_VQ_OK /\ p = Some 1%positive /\ owned e (Some 1%positive) RETURNED = true /\ c_used_length (e_chain e 1%positive) = 3.
Proof.
  exact (proj1 (proj2 (proj2 (queue_is_fifo SampleExchange.start SampleExchange.finish
           SampleExchange.sample_joined SampleExchange.sample_reachable))) 3 ltac:(vm_compute; reflexivity)).
Defined.

(** * The mapped memory as a flat store

    What virtqueue_memory.c promises the ring engine: the tables of mappings and arenas
    give one byte for each transport address, and the callbacks are the accesses to
    these bytes. *)

Definition known_rights_of (rights : Z) : Prop := 1 <= rights <= 3.

Record vq_mapping_ok (x : kb2_vq_mapping) : Prop := {
  mpo_native : mp_address x <> 0;
  mpo_fits : mapping_fits x;
  mpo_rights : known_rights_of (mp_local_rights x);
}.

Definition vq_mapping_typed (x : kb2_vq_mapping) : Prop := mapping_typed x /\ is_u32 (mp_local_rights x).

Definition arena_typed (x : kb2_vq_arena) : Prop :=
  is_u32 (ar_queue_id x) /\ is_u32 (ar_rights x) /\ is_u64 (ar_transport_base x) /\ is_u64 (ar_length x).

(** The arena is a part of one mapping. *)
Definition arena_mapped (mappings : list kb2_vq_mapping) (x : kb2_vq_arena) : Prop :=
  Exists (fun mp => mp_transport_base mp <= ar_transport_base x /\
    ar_transport_base x + ar_length x <= mp_transport_base mp + mp_length mp) mappings.

Record arena_ok (mappings : list kb2_vq_mapping) (x : kb2_vq_arena) : Prop := {
  aro_queue : ar_queue_id x <> 0;
  aro_fits : 0 < ar_length x /\ ar_transport_base x + ar_length x <= U64_MAX;
  aro_rights : known_rights_of (ar_rights x);
  aro_mapped : arena_mapped mappings x;
}.

Definition arenas_apart (x y : kb2_vq_arena) : Prop :=
  ar_transport_base x + ar_length x <= ar_transport_base y \/ ar_transport_base y + ar_length y <= ar_transport_base x.

Record tables_ok (mappings : list kb2_vq_mapping) (arenas : list kb2_vq_arena) : Prop := {
  tok_counts : mappings <> [] /\ arenas <> [];
  tok_mappings : Forall vq_mapping_ok mappings;
  tok_apart : pairwise mappings_apart mappings;
  tok_arenas : Forall (arena_ok mappings) arenas;
  tok_arenas_apart : pairwise arenas_apart arenas;
}.

(** ** The accesses *)

Inductive memory_op : Type :=
| OpRead (a n : Z)
| OpWrite (a : Z) (bytes : list Z)
| OpLoad (a : Z)
| OpStore (a v : Z)
| OpPayload (queue a n rights : Z).

Inductive memory_answer : Type :=
| GotBytes (bytes : option (list Z))
| GotStatus (ok : bool)
| GotIndex (value : option Z).

Definition op_typed (op : memory_op) : Prop :=
  match op with
  | OpRead a n | OpPayload _ a n _ => is_u64 a /\ is_u64 n
  | OpWrite a bytes => is_u64 a
  | OpLoad a => is_u64 a
  | OpStore a v => is_u64 a /\ is_u16 v
  end.

(** The access through the callbacks. *)
Definition mapped_step (m : kb2_vq_mapped_memory) (op : memory_op) : memory_answer * kb2_vq_mapped_memory :=
  match op with
  | OpRead a n => let '(bytes, m) := mem_read m a n in (GotBytes bytes, m)
  | OpWrite a bytes => let '(ok, m) := mem_write m a bytes in (GotStatus ok, m)
  | OpLoad a => let '(value, m) := mem_load_acquire m a in (GotIndex value, m)
  | OpStore a v => let '(ok, m) := mem_store_release m a v in (GotStatus ok, m)
  | OpPayload queue a n rights => (GotStatus (mem_payload_allowed m queue a n rights), m)
  end.

(** The range lies in one mapping with the right. *)
Definition range_granted (mappings : list kb2_vq_mapping) (rights a n : Z) : Prop :=
  Exists (mapping_grants rights a n) mappings.

(** A ring index: two bytes in one mapping, even there and in native memory. *)
Definition index_granted (mappings : list kb2_vq_mapping) (rights a : Z) : Prop :=
  a mod 2 = 0 /\
  Exists (fun mp => mapping_grants rights a 2 mp /\ (mp_address mp + (a - mp_transport_base mp)) mod 2 = 0) mappings.

Definition payload_granted (arenas : list kb2_vq_arena) (queue a n rights : Z) : Prop :=
  0 < n /\
  Exists (fun ar => ar_queue_id ar = queue /\ Z.land (ar_rights ar) rights = rights /\
    ar_transport_base ar <= a /\ a + n <= ar_transport_base ar + ar_length ar) arenas.

#[export] Instance range_granted_dec mappings rights a n : Decision (range_granted mappings rights a n).
Proof. unfold range_granted. apply _. Defined.

#[export] Instance index_granted_dec mappings rights a : Decision (index_granted mappings rights a).
Proof. unfold index_granted. apply _. Defined.

#[export] Instance payload_granted_dec arenas queue a n rights : Decision (payload_granted arenas queue a n rights).
Proof. unfold payload_granted. apply _. Defined.

Section Flat.
Context (mappings : list kb2_vq_mapping) (arenas : list kb2_vq_arena).

(** The access to a byte per transport address. *)
Definition flat_step (V : view) (op : memory_op) : memory_answer * view :=
  match op with
  | OpRead a n =>
      (GotBytes (if decide (range_granted mappings KB2_PROTOCOL_REGION_RIGHT_READ a n)
                 then Some (view_bytes V a n) else None), V)
  | OpWrite a bytes =>
      if decide (range_granted mappings KB2_PROTOCOL_REGION_RIGHT_WRITE a (blen bytes))
      then (GotStatus true, overlay V (a, bytes)) else (GotStatus false, V)
  | OpLoad a =>
      (GotIndex (if decide (index_granted mappings KB2_PROTOCOL_REGION_RIGHT_READ a)
                 then Some (V a + 256 * V (a + 1)) else None), V)
  | OpStore a v =>
      if decide (index_granted mappings KB2_PROTOCOL_REGION_RIGHT_WRITE a)
      then (GotStatus true, overlay V (a, [v mod 256; v / 256])) else (GotStatus false, V)
  | OpPayload queue a n rights => (GotStatus (bool_decide (payload_granted arenas queue a n rights)), V)
  end.
End Flat.

(** The answers of a sequence of accesses, and the state after it. *)
Fixpoint run {S : Type} (step : S -> memory_op -> memory_answer * S) (s : S) (ops : list memory_op) :
    list memory_answer * S :=
  match ops with
  | [] => ([], s)
  | op :: ops => let '(answer, s) := step s op in let '(answers, s) := run step s ops in (answer :: answers, s)
  end.

(** The byte of a transport address at the start. *)
Definition mapped_byte (mappings : list kb2_vq_mapping) (native : gmap Z Z) : view :=
  fun x => match native_at mappings x with Some u => load_byte native u | None => 0 end.

(** ** Initialisation *)

Lemma valid_rights_spec r : 0 <= r -> valid_rights r = true <-> known_rights_of r.
Proof.
  intros Hr. unfold valid_rights, known_rights_of. rewrite andb_true_iff, negb_true_iff, Z.eqb_neq, Z.eqb_eq.
  change (Z.lor _ _) with (Z.ones 2). rewrite andn_ones_0 by lia. lia.
Qed.

Lemma mapped_overlaps_spec a n b m :
  0 <= a -> 0 < n -> a + n <= U64_MAX -> 0 <= b -> 0 < m -> b + m <= U64_MAX ->
  mapped_overlaps a n b m = false <-> (b + m <= a \/ a + n <= b).
Proof.
  intros. unfold mapped_overlaps, U64_MAX in *. rewrite !u64_small by (unfold is_u64; lia).
  rewrite andb_false_iff, !Z.ltb_ge. lia.
Qed.

Lemma mapping_test_spec z :
  vq_mapping_typed z ->
  (mp_address z =? 0) || (mp_length z =? 0) || (U64_MAX - mp_length z <? mp_transport_base z) ||
    (UINTPTR_MAX - mp_length z <? mp_address z) || negb (valid_rights (mp_local_rights z)) = false <-> vq_mapping_ok z.
Proof.
  intros [([? ?] & [? ?] & [? ?]) [Hr _]]. pose proof (valid_rights_spec _ Hr) as Hv.
  rewrite !orb_false_iff, negb_false_iff, Hv, !Z.eqb_neq, !Z.ltb_ge. unfold UINTPTR_MAX, U64_MAX in *.
  split; [intros; split; [| split_and! |]; unfold U64_MAX; tauto || lia |].
  intros [? (? & ? & ?) ?]. unfold U64_MAX in *. split_and!; done || lia.
Qed.

Lemma mapping_meets_spec z x :
  vq_mapping_typed z -> vq_mapping_typed x -> vq_mapping_ok z -> vq_mapping_ok x ->
  mapped_overlaps (mp_transport_base z) (mp_length z) (mp_transport_base x) (mp_length x) ||
    mapped_overlaps (mp_address z) (mp_length z) (mp_address x) (mp_length x) = false <-> mappings_apart x z.
Proof.
  intros [([? ?] & [? ?] & [? ?]) _] [([? ?] & [? ?] & [? ?]) _] [_ (? & ? & ?) _] [_ (? & ? & ?) _].
  rewrite orb_false_iff, !mapped_overlaps_spec by done. unfold mappings_apart. tauto.
Qed.

(** A loop that checks each element by itself and against the earlier ones. *)
Lemma existsb_apart {T} (meets : T -> T -> bool) (R : T -> T -> Prop) z seen :
  Forall (fun x => meets z x = false <-> R x z) seen ->
  existsb (meets z) seen = false <-> forall x, x ∈ seen -> R x z.
Proof.
  rewrite Forall_forall. intros Hm. rewrite <- not_true_iff_false, existsb_exists. split.
  - intros Hn x Hx. apply (Hm x Hx). apply not_true_is_false. intros Hb. apply Hn. exists x.
    by rewrite <- list_elem_of_In.
  - intros Ha (x & Hx%list_elem_of_In & Hb). pose proof (proj2 (Hm x Hx) (Ha x Hx)). congruence.
Qed.

Lemma loop_step {T} (ok : T -> Prop) (R : T -> T -> Prop) seen z l (P : Prop) :
  Forall ok seen -> pairwise R seen ->
  (ok z -> (forall x, x ∈ seen -> R x z) ->
    P <-> Forall ok ((seen ++ [z]) ++ l) /\ pairwise R ((seen ++ [z]) ++ l)) ->
  (ok z /\ (forall x, x ∈ seen -> R x z)) /\ P <-> Forall ok (seen ++ z :: l) /\ pairwise R (seen ++ z :: l).
Proof.
  intros Hs Hp HP. replace (seen ++ z :: l) with ((seen ++ [z]) ++ l) by by rewrite <- app_assoc.
  split; [intros [[Hz Ha] ?]; by apply HP |]. intros [Hf Hpw]. pose proof Hf as Hf'. pose proof Hpw as Hpw'.
  apply Forall_app in Hf as [[_ [Hz _]%Forall_cons]%Forall_app _].
  apply pairwise_app in Hpw as ([_ Ha]%pairwise_snoc & _ & _). split; [done |]. by apply HP.
Qed.

Lemma mappings_valid_iff seen l :
  Forall vq_mapping_typed (seen ++ l) -> Forall vq_mapping_ok seen -> pairwise mappings_apart seen ->
  mappings_valid seen l = true <-> Forall vq_mapping_ok (seen ++ l) /\ pairwise mappings_apart (seen ++ l).
Proof.
  revert seen. induction l as [| z l IH]; intros seen Ht Hok Hp; cbn [mappings_valid]; [by rewrite app_nil_r |].
  pose proof Ht as Ht'. apply Forall_app in Ht as [Hts [Hz _]%Forall_cons].
  rewrite <- (loop_step vq_mapping_ok mappings_apart seen z l (mappings_valid (seen ++ [z]) l = true)); [| done | done |].
  - pose proof (mapping_test_spec z Hz) as Hz'. destruct (_ || negb _) eqn:E.
    { split; [done |]. intros [[Hzok _] _]. apply Hz' in Hzok. congruence. }
    apply proj1 in Hz'. specialize (Hz' eq_refl).
    rewrite <- (existsb_apart (fun z x => mapped_overlaps (mp_transport_base z) (mp_length z) (mp_transport_base x) (mp_length x) ||
      mapped_overlaps (mp_address z) (mp_length z) (mp_address x) (mp_length x)) mappings_apart z seen).
    { destruct (existsb _ seen); intuition done. }
    rewrite Forall_forall in *. intros x Hx. apply mapping_meets_spec; auto.
  - intros Hzok Ha. apply IH; [by rewrite <- app_assoc | apply Forall_app; split; [done | by constructor] | by apply pairwise_snoc].
Qed.

Lemma arena_test_spec z :
  arena_typed z ->
  (ar_queue_id z =? 0) || (ar_length z =? 0) || (U64_MAX - ar_length z <? ar_transport_base z) ||
    negb (valid_rights (ar_rights z)) = false <->
  ar_queue_id z <> 0 /\ (0 < ar_length z /\ ar_transport_base z + ar_length z <= U64_MAX) /\ known_rights_of (ar_rights z).
Proof.
  intros ([? ?] & [Hr _] & [? ?] & [? ?]). pose proof (valid_rights_spec _ Hr) as Hv.
  rewrite !orb_false_iff, negb_false_iff, Hv, !Z.eqb_neq, !Z.ltb_ge. unfold U64_MAX in *. intuition lia.
Qed.

Lemma arena_mapped_spec mappings z :
  Forall vq_mapping_ok mappings -> Forall vq_mapping_typed mappings -> arena_typed z ->
  0 < ar_length z /\ ar_transport_base z + ar_length z <= U64_MAX ->
  negb (existsb (fun mapping =>
    (mp_transport_base mapping <=? ar_transport_base z) &&
    (u64 (ar_transport_base z + ar_length z) <=? u64 (mp_transport_base mapping + mp_length mapping))) mappings) = false <->
  arena_mapped mappings z.
Proof.
  intros Hok Ht (_ & _ & [? ?] & [? ?]) [? ?]. unfold arena_mapped. rewrite negb_false_iff, existsb_exists, Exists_exists.
  rewrite Forall_forall in *. split; intros (mp & Hin & Hb); exists mp; rewrite <- list_elem_of_In in *;
    (split; [done |]); destruct (Ht mp Hin) as [([? ?] & [? ?] & _) _], (mpo_fits _ (Hok mp Hin)) as (? & ? & _);
    unfold U64_MAX in *; revert Hb; rewrite andb_true_iff, !Z.leb_le, !u64_small by (unfold is_u64; lia); lia.
Qed.

Lemma arena_meets_spec mappings z x :
  arena_typed z -> arena_typed x -> arena_ok mappings z -> arena_ok mappings x ->
  mapped_overlaps (ar_transport_base z) (ar_length z) (ar_transport_base x) (ar_length x) = false <-> arenas_apart x z.
Proof.
  intros (_ & _ & [? ?] & [? ?]) (_ & _ & [? ?] & [? ?]) [_ (? & ?) _ _] [_ (? & ?) _ _].
  rewrite mapped_overlaps_spec by done. unfold arenas_apart. tauto.
Qed.

Lemma arenas_valid_iff mappings seen l :
  Forall vq_mapping_ok mappings -> Forall vq_mapping_typed mappings ->
  Forall arena_typed (seen ++ l) -> Forall (arena_ok mappings) seen -> pairwise arenas_apart seen ->
  arenas_valid mappings seen l = true <-> Forall (arena_ok mappings) (seen ++ l) /\ pairwise arenas_apart (seen ++ l).
Proof.
  intros Hmok Hmt. revert seen. induction l as [| z l IH]; intros seen Ht Hok Hp; cbn [arenas_valid]; [by rewrite app_nil_r |].
  pose proof Ht as Ht'. apply Forall_app in Ht as [Hts [Hz _]%Forall_cons].
  rewrite <- (loop_step (arena_ok mappings) arenas_apart seen z l (arenas_valid mappings (seen ++ [z]) l = true)); [| done | done |].
  - pose proof (arena_test_spec z Hz) as Hz'. destruct (_ || negb _) eqn:E.
    { split; [done |]. intros [[[? ? ? _] _] _]. enough (true = false) by done. by apply Hz'. }
    destruct (proj1 Hz' eq_refl) as (Hq & Hf & Hr). pose proof (arena_mapped_spec mappings z Hmok Hmt Hz Hf) as Hm.
    match type of Hm with ?b = false <-> _ => destruct b eqn:Em end.
    { split; [done |]. intros [[[_ _ _ Ha] _] _]. enough (true = false) by done. by apply Hm. }
    apply proj1 in Hm. specialize (Hm eq_refl). assert (Hzok : arena_ok mappings z) by by split.
    rewrite <- (existsb_apart (fun z x =>
      mapped_overlaps (ar_transport_base z) (ar_length z) (ar_transport_base x) (ar_length x)) arenas_apart z seen).
    { destruct (existsb _ seen); intuition done. }
    rewrite Forall_forall in *. intros x Hx. apply (arena_meets_spec mappings); auto.
  - intros Hzok Ha. apply IH; [by rewrite <- app_assoc | apply Forall_app; split; [done | by constructor] | by apply pairwise_snoc].
Qed.

Lemma init_decides mappings arenas native :
  Forall vq_mapping_typed mappings -> Forall arena_typed arenas ->
  kb2_vq_mapped_memory_init true mappings arenas native = (KB2_VQ_OK, Some (mkMapped mappings arenas native)) /\
    tables_ok mappings arenas \/
  kb2_vq_mapped_memory_init true mappings arenas native = (KB2_VQ_INVALID, None) /\ ~ tables_ok mappings arenas.
Proof.
  intros Hm Ha. pose proof (mappings_valid_iff [] mappings Hm ltac:(constructor) (pairwise_nil _)) as Hmv.
  unfold kb2_vq_mapped_memory_init. destruct (Nat.eqb_spec (length mappings) 0) as [E%nil_length_inv | Hne].
  { right. split; [done |]. by intros [[? _] _ _ _ _]. }
  destruct (Nat.eqb_spec (length arenas) 0) as [E%nil_length_inv | Hne'].
  { right. split; [done |]. by intros [[_ ?] _ _ _ _]. }
  cbn [negb orb]. cbn [app] in Hmv. destruct (mappings_valid [] mappings); cbn [negb].
  2: { right. split; [done |]. intros [_ ? ? _ _]. enough (false = true) by done. by apply Hmv. }
  destruct (proj1 Hmv eq_refl) as [Hok Hap].
  pose proof (arenas_valid_iff mappings [] arenas Hok Hm Ha ltac:(constructor) (pairwise_nil _)) as Hav.
  cbn [app] in Hav. destruct (arenas_valid mappings [] arenas); cbn [negb].
  2: { right. split; [done |]. intros [_ _ _ ? ?]. enough (false = true) by done. by apply Hav. }
  left. split; [done |]. destruct (proj1 Hav eq_refl). split; try done. split; intros ->; done.
Qed.

(** ** Refinement *)

Lemma test_odd a : negb (Z.land a 1 =? 0) = false <-> a mod 2 = 0.
Proof. rewrite negb_false_iff, Z.eqb_eq. apply (land_ones_eqb_0 a 1). lia. Qed.

Section Refines.
Context (mappings : list kb2_vq_mapping) (arenas : list kb2_vq_arena).
Context (Hmt : Forall vq_mapping_typed mappings) (Hat : Forall arena_typed arenas) (Hok : tables_ok mappings arenas).

Lemma tables_typed : Forall mapping_typed mappings.
Proof. eapply Forall_impl; [exact Hmt |]. by intros x [? _]. Qed.

Lemma tables_valid : mappings_valid [] mappings = true.
Proof. apply mappings_valid_iff; [done | constructor | apply pairwise_nil |]. destruct Hok. done. Qed.

(** The state behind a view. *)
Record mirrors (native0 : gmap Z Z) (m : kb2_vq_mapped_memory) (V : view) : Prop := {
  mi_mappings : mm_mappings m = mappings;
  mi_arenas : mm_arenas m = arenas;
  mi_bytes : forall x, mapped_byte mappings (mm_native m) x = V x;
  mi_outside : forall u, (forall x, native_at mappings x <> Some u) -> load_byte (mm_native m) u = load_byte native0 u;
}.

Lemma mirrors_good native0 m V : mirrors native0 m V -> mapped_good m.
Proof. intros [Em _ _ _]. unfold mapped_good. rewrite Em. split; [apply tables_typed | apply tables_valid]. Qed.

Lemma mirrors_read native0 m V a n r s :
  mirrors native0 m V -> resolve mappings a n r = Some s -> load_bytes (mm_native m) s n = view_bytes V a n.
Proof.
  intros Hm E. unfold load_bytes, view_bytes. apply list_fmap_ext. intros i x Hx%list_elem_of_lookup_2%elem_of_seqZ.
  rewrite <- (mi_bytes _ _ _ Hm). unfold mapped_byte.
  by rewrite (resolve_native mappings tables_typed tables_valid a n r s) by (done || lia).
Qed.

Lemma mirrors_write native0 m V a b r d :
  mirrors native0 m V -> resolve mappings a (blen b) r = Some d ->
  mirrors native0 (set_native m (store_bytes (mm_native m) d b)) (overlay V (a, b)).
Proof.
  intros Hm E. pose proof (mirrors_good _ _ _ Hm) as Hg. destruct Hm as [Em Ea Eb Eo]. split; [done | done | |].
  - rewrite <- Em in E. destruct (mapped_store m a d b r Hg E) as [_ Hb]. intros x. specialize (Hb x).
    change (mapped_byte (mm_mappings m) (store_bytes (mm_native m) d b) x =
      overlay (mapped_byte (mm_mappings m) (mm_native m)) (a, b) x) in Hb.
    rewrite Em in Hb. cbn [mm_native set_native]. rewrite Hb. apply overlay_ext, Eb.
  - intros u Hu. cbn [mm_native set_native]. rewrite load_store_bytes. case_decide as Hin; [| by apply Eo].
    exfalso. apply (Hu (a + (u - d))).
    rewrite (resolve_native mappings tables_typed tables_valid a (blen b) r d) by (done || lia). f_equal. lia.
Qed.

Definition index_at (a r : Z) : option Z :=
  match resolve mappings a 2 r with
  | None => None
  | Some s => if negb (Z.land a 1 =? 0) || negb (Z.land s 1 =? 0) then None else Some s
  end.

Lemma index_at_resolve a r s : index_at a r = Some s -> resolve mappings a 2 r = Some s.
Proof. unfold index_at. destruct (resolve _ _ _ _); [| done]. by destruct (_ || _). Qed.

Lemma index_at_spec a r : is_Some (index_at a r) <-> index_granted mappings r a.
Proof.
  unfold index_at, index_granted. pose proof (resolve_is_Some mappings a 2 r ltac:(lia)) as Hr.
  destruct (resolve mappings a 2 r) as [s |] eqn:E.
  - apply resolve_Some in E as (mp & Hin & Hg & ->). set (s := mp_address mp + _).
    split.
    + destruct (negb (Z.land a 1 =? 0)) eqn:E1, (negb (Z.land s 1 =? 0)) eqn:E2; cbn [orb]; try by intros [].
      apply test_odd in E1, E2. intros _. split; [done |]. apply Exists_exists. by exists mp.
    + intros [Ha (mp' & Hin' & Hg' & Hs)%Exists_exists].
      assert (mp' = mp) as -> by (eapply (mapping_unique mappings tables_typed tables_valid a 2); [lia | done ..]).
      rewrite (proj2 (test_odd a) Ha), (proj2 (test_odd s) Hs). done.
  - split; [by intros [] |]. intros [_ (mp & Hin & Hg & _)%Exists_exists].
    apply Hr, Exists_exists. by exists mp.
Qed.

Lemma mirrors_load native0 m V a r s :
  mirrors native0 m V -> resolve mappings a 2 r = Some s -> atomic_load (mm_native m) s = V a + 256 * V (a + 1).
Proof.
  intros Hm E. pose proof (resolve_native mappings tables_typed tables_valid a 2 r s 0 E ltac:(lia)) as H0.
  pose proof (resolve_native mappings tables_typed tables_valid a 2 r s 1 E ltac:(lia)) as H1. rewrite !Z.add_0_r in H0.
  rewrite <- !(mi_bytes _ _ _ Hm). unfold mapped_byte, atomic_load. rewrite H0, H1.
  pose proof (Z.mod_pos_bound (default 0 (mm_native m !! s)) (2 ^ 8) ltac:(lia)) as Hs. unfold load_byte at 1 3. unfold u8.
  rewrite lor_shiftl_add by done. lia.
Qed.

Lemma payload_spec queue a n r native :
  is_u64 a -> is_u64 n ->
  payload_allowed (mkMapped mappings arenas native) queue a n r = bool_decide (payload_granted arenas queue a n r).
Proof.
  intros [? ?] [? ?]. apply (Bool.eq_iff_eq_true). rewrite bool_decide_eq_true. unfold payload_allowed, payload_granted.
  cbn [mm_arenas]. pose proof (tok_arenas _ _ Hok) as Ha. rewrite Forall_forall in Ha, Hat. rewrite Exists_exists.
  assert (Hfit : forall ar, ar ∈ arenas -> 0 <= ar_transport_base ar /\ 0 < ar_length ar /\ ar_transport_base ar + ar_length ar < 2 ^ 64).
  { intros ar Hin. destruct (Hat ar Hin) as (_ & _ & [? ?] & _), (Ha ar Hin) as [_ [? ?] _ _]. unfold U64_MAX in *. lia. }
  destruct (_ || _) eqn:E.
  - split; [done |]. intros [Hn (ar & Hin & _ & _ & ? & ?)]. specialize (Hfit ar Hin). unfold U64_MAX in *. lia.
  - rewrite orb_false_iff, Z.eqb_neq, Z.ltb_ge in E. unfold U64_MAX in E. rewrite existsb_exists. split.
    + intros (ar & Hin & Hb). rewrite <- list_elem_of_In in Hin. specialize (Hfit ar Hin).
      rewrite !andb_true_iff, !Z.eqb_eq, !Z.leb_le, (u64_small (a + n)), (u64_small (_ + ar_length ar)) in Hb by (unfold is_u64; lia). split; [lia |]. exists ar. tauto.
    + intros [_ (ar & Hin & ? & ? & ? & ?)]. exists ar. rewrite <- list_elem_of_In. specialize (Hfit ar Hin).
      rewrite !andb_true_iff, !Z.eqb_eq, !Z.leb_le, (u64_small (a + n)), (u64_small (_ + ar_length ar)) by (unfold is_u64; lia). tauto.
Qed.

Lemma step_refines native0 m V op :
  mirrors native0 m V -> op_typed op ->
  (mapped_step m op).1 = (flat_step mappings arenas V op).1 /\
  mirrors native0 (mapped_step m op).2 (flat_step mappings arenas V op).2.
Proof.
  intros Hm Hop. destruct op as [a n | a b | a | a v | queue a n r]; cbn [mapped_step flat_step mem_read mem_write
    mem_load_acquire mem_store_release mem_payload_allowed kb2_vq_mapped_memory_ops].
  - cbn [fst snd]. split; [| done]. f_equal. unfold read_bytes. rewrite (mi_mappings _ _ _ Hm).
    pose proof (resolve_is_Some mappings a n KB2_PROTOCOL_REGION_RIGHT_READ ltac:(apply Hop)) as Hr.
    destruct (resolve _ _ _ _) as [s |] eqn:E.
    + rewrite decide_True by by apply Hr. f_equal. by eapply mirrors_read.
    + rewrite decide_False; [done |]. intros [? ?]%Hr. done.
  - unfold write_bytes. rewrite (mi_mappings _ _ _ Hm).
    pose proof (resolve_is_Some mappings a (blen b) KB2_PROTOCOL_REGION_RIGHT_WRITE ltac:(unfold blen; lia)) as Hr.
    destruct (resolve _ _ _ _) as [d |] eqn:E.
    + rewrite decide_True by by apply Hr. split; [done |]. by eapply mirrors_write.
    + rewrite decide_False; [done |]. intros [? ?]%Hr. done.
  - cbn [fst snd]. split; [| done]. f_equal. pose proof (index_at_spec a KB2_PROTOCOL_REGION_RIGHT_READ) as Hi.
    replace (load_index m a) with (atomic_load (mm_native m) <$> index_at a KB2_PROTOCOL_REGION_RIGHT_READ).
    2: { unfold load_index, index_at. rewrite (mi_mappings _ _ _ Hm). destruct (resolve _ _ _ _); [| done]. by destruct (_ || _). }
    destruct (index_at _ _) as [s |] eqn:E.
    + rewrite decide_True by by apply Hi. cbn. f_equal. apply index_at_resolve in E. by eapply mirrors_load.
    + rewrite decide_False; [done |]. intros [? ?]%Hi. done.
  - pose proof (index_at_spec a KB2_PROTOCOL_REGION_RIGHT_WRITE) as Hi. destruct Hop as [_ [? ?]].
    replace (store_index m a v) with (match index_at a KB2_PROTOCOL_REGION_RIGHT_WRITE with
      | None => (false, m) | Some d => (true, set_native m (atomic_store (mm_native m) d v)) end).
    2: { unfold store_index, index_at. rewrite (mi_mappings _ _ _ Hm). destruct (resolve _ _ _ _); [| done]. by destruct (_ || _). }
    destruct (index_at _ _) as [d |] eqn:E.
    + rewrite decide_True by by apply Hi. split; [done |]. apply index_at_resolve in E. cbn [snd].
      replace (atomic_store (mm_native m) d v) with (store_bytes (mm_native m) d [v mod 256; v / 256]).
      * by eapply mirrors_write.
      * unfold atomic_store. cbn [store_bytes]. rewrite Z.shiftr_div_pow2 by done. change (2 ^ 8) with 256.
        by rewrite (u8_idemp v : u8 (v mod 256) = u8 v).
    + rewrite decide_False; [done |]. intros [? ?]%Hi. done.
  - cbn [fst snd]. split; [| done]. f_equal. destruct Hop. destruct Hm as [Em Ea _ _]. destruct m. cbn in Em, Ea. subst.
    by apply payload_spec.
Qed.

Lemma run_refines native0 m V ops :
  mirrors native0 m V -> Forall op_typed ops ->
  (run mapped_step m ops).1 = (run (flat_step mappings arenas) V ops).1 /\
  mirrors native0 (run mapped_step m ops).2 (run (flat_step mappings arenas) V ops).2.
Proof.
  revert m V. induction ops as [| op ops IH]; intros m V Hm Hops; [done |]. apply Forall_cons in Hops as [Hop Hops].
  destruct (step_refines native0 m V op Hm Hop) as [Ea Hs]. cbn [run].
  destruct (mapped_step m op) as [answer m1], (flat_step mappings arenas V op) as [answer' V1]. cbn [fst snd] in *. subst.
  destruct (IH m1 V1 Hs Hops) as [Eas Hr]. destruct (run mapped_step m1 ops), (run _ V1 ops). cbn [fst snd] in *. by subst.
Qed.
End Refines.

(** C25. What virtqueue_memory.c promises the ring engine.  The initialisation accepts
    exactly the tables of which no range wraps, no two mappings meet in transport or in
    native memory, no two arenas meet, every arena lies in a mapping and every right is
    known.  After that any sequence of reads, writes, index loads and stores and payload
    tests answers as a store of one byte per transport address does: an access is granted
    when one mapping with the right holds all of it (an index at an even address, in
    transport and native memory), a read delivers the bytes written last, a refused
    access changes nothing, and native bytes behind no mapping are never written. *)
Theorem mapped_memory_is_flat mappings arenas native :
  Forall vq_mapping_typed mappings -> Forall arena_typed arenas ->
  match kb2_vq_mapped_memory_init true mappings arenas native with
  | (status, None) => status = KB2_VQ_INVALID /\ ~ tables_ok mappings arenas
  | (status, Some m) =>
      status = KB2_VQ_OK /\ tables_ok mappings arenas /\
      forall ops, Forall op_typed ops ->
        let '(answers, m') := run mapped_step m ops in
        let '(flat_answers, V) := run (flat_step mappings arenas) (mapped_byte mappings native) ops in
        answers = flat_answers /\ mirrors mappings arenas native m' V
  end.
Proof.
  intros Hm Ha. destruct (init_decides mappings arenas native Hm Ha) as [[-> Hok] | [-> Hno]]; [| done].
  split_and!; [done | done |]. intros ops Hops.
  destruct (run_refines mappings arenas Hm Ha Hok native (mkMapped mappings arenas native) (mapped_byte mappings native) ops)
    as [E Hr]; [by split | done |].
  destruct (run mapped_step _ ops), (run _ (mapped_byte _ _) ops). done.
Qed.

Module SampleMemory.

(** Two mappings, the second for reading only, and an arena in the first. *)
Definition mappings : list kb2_vq_mapping := [mkMapping 4096 4096 65536 3; mkMapping 12288 4096 131072 1].
Definition arenas : list kb2_vq_arena := [mkArena 1 3 4608 1024].

Definition ops : list memory_op :=
  [OpWrite 4608 [1; 2; 3; 4]; OpStore 4610 513; OpRead 4608 6; OpLoad 4610; OpLoad 4609; OpWrite 12288 [5];
   OpWrite 8190 [6; 7; 8]; OpRead 8190 2; OpPayload 1 4608 8 2; OpPayload 1 4600 16 2].

Definition answers : list memory_answer :=
  [GotStatus true; GotStatus true; GotBytes (Some [1; 2; 1; 2; 0; 0]); GotIndex (Some 513); GotIndex None;
   GotStatus false; GotStatus false; GotBytes (Some [0; 0]); GotStatus true; GotStatus false].

End SampleMemory.

Lemma mapped_memory_is_flat_witness :
  tables_ok SampleMemory.mappings SampleMemory.arenas /\
  (run mapped_step (mkMapped SampleMemory.mappings SampleMemory.arenas ∅) SampleMemory.ops).1 = SampleMemory.answers.
Proof.
  assert (Hm : Forall vq_mapping_typed SampleMemory.mappings).
  { repeat first [apply List.Forall_nil | apply List.Forall_cons];
      (split; [split_and! |]); vm_compute; (split; congruence). }
  assert (Ha : Forall arena_typed SampleMemory.arenas).
  { repeat first [apply List.Forall_nil | apply List.Forall_cons]; split_and!; vm_compute; (split; congruence). }
  pose proof (mapped_memory_is_flat SampleMemory.mappings SampleMemory.arenas ∅ Hm Ha) as H.
  replace (kb2_vq_mapped_memory_init true SampleMemory.mappings SampleMemory.arenas ∅)
    with (KB2_VQ_OK, Some (mkMapped SampleMemory.mappings SampleMemory.arenas ∅)) in H by (vm_compute; reflexivity).
  destruct H as (_ & Hok & H). split; [exact Hok |]. specialize (H SampleMemory.ops).
  destruct (run mapped_step _ _) as [answers m'], (run (flat_step _ _) _ _) as [flat_answers V] eqn:E.
  cbn [fst]. rewrite (proj1 (H ltac:(repeat constructor; vm_compute; congruence))).
  apply (f_equal fst) in E. cbn [fst] in E. rewrite <- E. vm_compute. reflexivity.
Defined.
