(* ===== verification/CoreRuntimeLayout.v ===== *)
(** The constants of the core runtime
    (protocol/generated/include/kobox2/core_runtime_layout.h). *)

From Stdlib Require Import ZArith List.
Import ListNotations.

Open Scope Z_scope.

Definition KB2_CORE_RUNTIME_SCHEMA_DIGEST_SIZE : Z := 32.
Definition KB2_CORE_RUNTIME_ABI_IDENTITY_SIZE : Z := 4.
Definition KB2_CORE_RUNTIME_POINTER_BITS : Z := 64.
Definition KB2_CORE_RUNTIME_SIZE_BITS : Z := 64.
Definition KB2_CORE_RUNTIME_NAME_MAXIMUM_BYTES : Z := 63.
Definition KB2_CORE_RUNTIME_DIRECTORY_SIZE : Z := 56.
Definition KB2_CORE_RUNTIME_BINDING_SIZE : Z := 16.
Definition KB2_CORE_RUNTIME_INTERFACE_HEADER_SIZE : Z := 48.
Definition KB2_CORE_RUNTIME_INTERFACE_COUNT : Z := 7.
Definition KB2_CORE_RUNTIME_INTERFACE_MEMORY : Z := 1.
Definition KB2_CORE_RUNTIME_INTERFACE_CPU : Z := 2.
Definition KB2_CORE_RUNTIME_INTERFACE_SYNC : Z := 3.
Definition KB2_CORE_RUNTIME_INTERFACE_THREAD : Z := 4.
Definition KB2_CORE_RUNTIME_INTERFACE_TIME : Z := 5.
Definition KB2_CORE_RUNTIME_INTERFACE_WORKQUEUE : Z := 6.
Definition KB2_CORE_RUNTIME_INTERFACE_RCU : Z := 7.
Definition KB2_CORE_RUNTIME_DIRECTORY_OPERATION_COUNT : Z := 2.
Definition KB2_CORE_RUNTIME_DIRECTORY_OPERATION_BIND : Z := 1.
Definition KB2_CORE_RUNTIME_DIRECTORY_OPERATION_UNBIND : Z := 2.
Definition KB2_CORE_RUNTIME_STATUS_OK : Z := 0.
Definition KB2_CORE_RUNTIME_STATUS_INVALID_ARGUMENT : Z := 1.
Definition KB2_CORE_RUNTIME_STATUS_INVALID_STATE : Z := 2.
Definition KB2_CORE_RUNTIME_STATUS_STALE : Z := 3.
Definition KB2_CORE_RUNTIME_STATUS_OWNER : Z := 4.
Definition KB2_CORE_RUNTIME_STATUS_NO_MEMORY : Z := 5.
Definition KB2_CORE_RUNTIME_STATUS_BUSY : Z := 6.
Definition KB2_CORE_RUNTIME_STATUS_DEADLOCK : Z := 7.
Definition KB2_CORE_RUNTIME_STATUS_WOULD_BLOCK : Z := 8.
Definition KB2_CORE_RUNTIME_STATUS_TIMED_OUT : Z := 9.
Definition KB2_CORE_RUNTIME_STATUS_INTERRUPTED : Z := 10.
Definition KB2_CORE_RUNTIME_STATUS_CANCELED : Z := 11.
Definition KB2_CORE_RUNTIME_STATUS_EXHAUSTED : Z := 12.
Definition KB2_CORE_RUNTIME_STATUS_CORRUPT : Z := 13.
Definition KB2_CORE_RUNTIME_STATUS_INTERFACE : Z := 14.
Definition KB2_CORE_RUNTIME_WAIT_DEADLINE_INFINITE : Z := 0.
Definition KB2_CORE_RUNTIME_MEMORY_OPERATION_COUNT : Z := 11.
Definition KB2_CORE_RUNTIME_MEMORY_TABLE_SIZE : Z := 136.
Definition KB2_CORE_RUNTIME_MEMORY_OPERATION_PAGE_ALLOCATE : Z := 1.
Definition KB2_CORE_RUNTIME_MEMORY_OPERATION_PAGE_RELEASE : Z := 2.
Definition KB2_CORE_RUNTIME_MEMORY_OPERATION_ALLOCATE : Z := 3.
Definition KB2_CORE_RUNTIME_MEMORY_OPERATION_REALLOCATE : Z := 4.
Definition KB2_CORE_RUNTIME_MEMORY_OPERATION_RELEASE : Z := 5.
Definition KB2_CORE_RUNTIME_MEMORY_OPERATION_USABLE_SIZE : Z := 6.
Definition KB2_CORE_RUNTIME_MEMORY_OPERATION_CACHE_CREATE : Z := 7.
Definition KB2_CORE_RUNTIME_MEMORY_OPERATION_CACHE_DESTROY : Z := 8.
Definition KB2_CORE_RUNTIME_MEMORY_OPERATION_CACHE_ALLOCATE : Z := 9.
Definition KB2_CORE_RUNTIME_MEMORY_OPERATION_CACHE_RELEASE : Z := 10.
Definition KB2_CORE_RUNTIME_MEMORY_OPERATION_STATISTICS : Z := 11.
Definition KB2_CORE_RUNTIME_MEMORY_FLAG_ZERO : Z := 1.
Definition KB2_CORE_RUNTIME_MEMORY_FLAG_ATOMIC : Z := 2.
Definition KB2_CORE_RUNTIME_MEMORY_FLAG_RECLAIMABLE : Z := 4.
Definition KB2_CORE_RUNTIME_CPU_OPERATION_COUNT : Z := 20.
Definition KB2_CORE_RUNTIME_CPU_TABLE_SIZE : Z := 208.
Definition KB2_CORE_RUNTIME_CPU_OPERATION_POSSIBLE_COUNT : Z := 1.
Definition KB2_CORE_RUNTIME_CPU_OPERATION_ONLINE_COUNT : Z := 2.
Definition KB2_CORE_RUNTIME_CPU_OPERATION_CURRENT : Z := 3.
Definition KB2_CORE_RUNTIME_CPU_OPERATION_IS_ONLINE : Z := 4.
Definition KB2_CORE_RUNTIME_CPU_OPERATION_CONTEXT_CLASS : Z := 5.
Definition KB2_CORE_RUNTIME_CPU_OPERATION_PREEMPT_DISABLE : Z := 6.
Definition KB2_CORE_RUNTIME_CPU_OPERATION_PREEMPT_ENABLE : Z := 7.
Definition KB2_CORE_RUNTIME_CPU_OPERATION_PREEMPT_COUNT : Z := 8.
Definition KB2_CORE_RUNTIME_CPU_OPERATION_MIGRATE_DISABLE : Z := 9.
Definition KB2_CORE_RUNTIME_CPU_OPERATION_MIGRATE_ENABLE : Z := 10.
Definition KB2_CORE_RUNTIME_CPU_OPERATION_MIGRATE_COUNT : Z := 11.
Definition KB2_CORE_RUNTIME_CPU_OPERATION_LOCAL_IRQ_DISABLE : Z := 12.
Definition KB2_CORE_RUNTIME_CPU_OPERATION_LOCAL_IRQ_ENABLE : Z := 13.
Definition KB2_CORE_RUNTIME_CPU_OPERATION_LOCAL_IRQ_SAVE : Z := 14.
Definition KB2_CORE_RUNTIME_CPU_OPERATION_LOCAL_IRQ_RESTORE : Z := 15.
Definition KB2_CORE_RUNTIME_CPU_OPERATION_BOTTOM_HALF_DISABLE : Z := 16.
Definition KB2_CORE_RUNTIME_CPU_OPERATION_BOTTOM_HALF_ENABLE : Z := 17.
Definition KB2_CORE_RUNTIME_CPU_OPERATION_PERCPU_ALLOCATE : Z := 18.
Definition KB2_CORE_RUNTIME_CPU_OPERATION_PERCPU_RELEASE : Z := 19.
Definition KB2_CORE_RUNTIME_CPU_OPERATION_PERCPU_ADDRESS : Z := 20.
Definition KB2_CORE_RUNTIME_CPU_CONTEXT_THREAD : Z := 1.
Definition KB2_CORE_RUNTIME_CPU_CONTEXT_SOFTIRQ : Z := 2.
Definition KB2_CORE_RUNTIME_CPU_CONTEXT_HARDIRQ : Z := 3.
Definition KB2_CORE_RUNTIME_CPU_PERCPU_FLAG_ZERO : Z := 1.
Definition KB2_CORE_RUNTIME_SYNC_OPERATION_COUNT : Z := 42.
Definition KB2_CORE_RUNTIME_SYNC_TABLE_SIZE : Z := 384.
Definition KB2_CORE_RUNTIME_SYNC_OPERATION_SPIN_CREATE : Z := 1.
Definition KB2_CORE_RUNTIME_SYNC_OPERATION_SPIN_DESTROY : Z := 2.
Definition KB2_CORE_RUNTIME_SYNC_OPERATION_SPIN_LOCK : Z := 3.
Definition KB2_CORE_RUNTIME_SYNC_OPERATION_SPIN_TRY_LOCK : Z := 4.
Definition KB2_CORE_RUNTIME_SYNC_OPERATION_SPIN_UNLOCK : Z := 5.
Definition KB2_CORE_RUNTIME_SYNC_OPERATION_MUTEX_CREATE : Z := 6.
Definition KB2_CORE_RUNTIME_SYNC_OPERATION_MUTEX_DESTROY : Z := 7.
Definition KB2_CORE_RUNTIME_SYNC_OPERATION_MUTEX_LOCK : Z := 8.
Definition KB2_CORE_RUNTIME_SYNC_OPERATION_MUTEX_TRY_LOCK : Z := 9.
Definition KB2_CORE_RUNTIME_SYNC_OPERATION_MUTEX_LOCK_UNTIL : Z := 10.
Definition KB2_CORE_RUNTIME_SYNC_OPERATION_MUTEX_UNLOCK : Z := 11.
Definition KB2_CORE_RUNTIME_SYNC_OPERATION_RWLOCK_CREATE : Z := 12.
Definition KB2_CORE_RUNTIME_SYNC_OPERATION_RWLOCK_DESTROY : Z := 13.
Definition KB2_CORE_RUNTIME_SYNC_OPERATION_RWLOCK_READ_LOCK : Z := 14.
Definition KB2_CORE_RUNTIME_SYNC_OPERATION_RWLOCK_READ_TRY_LOCK : Z := 15.
Definition KB2_CORE_RUNTIME_SYNC_OPERATION_RWLOCK_READ_LOCK_UNTIL : Z := 16.
Definition KB2_CORE_RUNTIME_SYNC_OPERATION_RWLOCK_READ_UNLOCK : Z := 17.
Definition KB2_CORE_RUNTIME_SYNC_OPERATION_RWLOCK_WRITE_LOCK : Z := 18.
Definition KB2_CORE_RUNTIME_SYNC_OPERATION_RWLOCK_WRITE_TRY_LOCK : Z := 19.
Definition KB2_CORE_RUNTIME_SYNC_OPERATION_RWLOCK_WRITE_LOCK_UNTIL : Z := 20.
Definition KB2_CORE_RUNTIME_SYNC_OPERATION_RWLOCK_WRITE_UNLOCK : Z := 21.
Definition KB2_CORE_RUNTIME_SYNC_OPERATION_SEMAPHORE_CREATE : Z := 22.
Definition KB2_CORE_RUNTIME_SYNC_OPERATION_SEMAPHORE_DESTROY : Z := 23.
Definition KB2_CORE_RUNTIME_SYNC_OPERATION_SEMAPHORE_DOWN : Z := 24.
Definition KB2_CORE_RUNTIME_SYNC_OPERATION_SEMAPHORE_TRY_DOWN : Z := 25.
Definition KB2_CORE_RUNTIME_SYNC_OPERATION_SEMAPHORE_DOWN_UNTIL : Z := 26.
Definition KB2_CORE_RUNTIME_SYNC_OPERATION_SEMAPHORE_UP : Z := 27.
Definition KB2_CORE_RUNTIME_SYNC_OPERATION_EVENT_CREATE : Z := 28.
Definition KB2_CORE_RUNTIME_SYNC_OPERATION_EVENT_DESTROY : Z := 29.
Definition KB2_CORE_RUNTIME_SYNC_OPERATION_EVENT_WAIT : Z := 30.
Definition KB2_CORE_RUNTIME_SYNC_OPERATION_EVENT_TRY_WAIT : Z := 31.
Definition KB2_CORE_RUNTIME_SYNC_OPERATION_EVENT_WAIT_UNTIL : Z := 32.
Definition KB2_CORE_RUNTIME_SYNC_OPERATION_EVENT_SIGNAL : Z := 33.
Definition KB2_CORE_RUNTIME_SYNC_OPERATION_EVENT_RESET : Z := 34.
Definition KB2_CORE_RUNTIME_SYNC_OPERATION_COMPLETION_CREATE : Z := 35.
Definition KB2_CORE_RUNTIME_SYNC_OPERATION_COMPLETION_DESTROY : Z := 36.
Definition KB2_CORE_RUNTIME_SYNC_OPERATION_COMPLETION_WAIT : Z := 37.
Definition KB2_CORE_RUNTIME_SYNC_OPERATION_COMPLETION_TRY_WAIT : Z := 38.
Definition KB2_CORE_RUNTIME_SYNC_OPERATION_COMPLETION_WAIT_UNTIL : Z := 39.
Definition KB2_CORE_RUNTIME_SYNC_OPERATION_COMPLETION_COMPLETE : Z := 40.
Definition KB2_CORE_RUNTIME_SYNC_OPERATION_COMPLETION_COMPLETE_ALL : Z := 41.
Definition KB2_CORE_RUNTIME_SYNC_OPERATION_COMPLETION_REINIT : Z := 42.
Definition KB2_CORE_RUNTIME_SYNC_INLINE_OPERATION_COUNT : Z := 22.
Definition KB2_CORE_RUNTIME_SYNC_INLINE_OPERATION_READ_ONCE : Z := 1.
Definition KB2_CORE_RUNTIME_SYNC_INLINE_OPERATION_WRITE_ONCE : Z := 2.
Definition KB2_CORE_RUNTIME_SYNC_INLINE_OPERATION_FENCE : Z := 3.
Definition KB2_CORE_RUNTIME_SYNC_INLINE_OPERATION_ATOMIC_LOAD : Z := 4.
Definition KB2_CORE_RUNTIME_SYNC_INLINE_OPERATION_ATOMIC_STORE : Z := 5.
Definition KB2_CORE_RUNTIME_SYNC_INLINE_OPERATION_ATOMIC_EXCHANGE : Z := 6.
Definition KB2_CORE_RUNTIME_SYNC_INLINE_OPERATION_ATOMIC_COMPARE_EXCHANGE : Z := 7.
Definition KB2_CORE_RUNTIME_SYNC_INLINE_OPERATION_ATOMIC_FETCH_ADD : Z := 8.
Definition KB2_CORE_RUNTIME_SYNC_INLINE_OPERATION_ATOMIC_FETCH_SUB : Z := 9.
Definition KB2_CORE_RUNTIME_SYNC_INLINE_OPERATION_ATOMIC_FETCH_AND : Z := 10.
Definition KB2_CORE_RUNTIME_SYNC_INLINE_OPERATION_ATOMIC_FETCH_OR : Z := 11.
Definition KB2_CORE_RUNTIME_SYNC_INLINE_OPERATION_ATOMIC_FETCH_XOR : Z := 12.
Definition KB2_CORE_RUNTIME_SYNC_INLINE_OPERATION_BIT_TEST : Z := 13.
Definition KB2_CORE_RUNTIME_SYNC_INLINE_OPERATION_BIT_SET : Z := 14.
Definition KB2_CORE_RUNTIME_SYNC_INLINE_OPERATION_BIT_CLEAR : Z := 15.
Definition KB2_CORE_RUNTIME_SYNC_INLINE_OPERATION_BIT_TEST_AND_SET : Z := 16.
Definition KB2_CORE_RUNTIME_SYNC_INLINE_OPERATION_BIT_TEST_AND_CLEAR : Z := 17.
Definition KB2_CORE_RUNTIME_SYNC_INLINE_OPERATION_REFCOUNT_SET : Z := 18.
Definition KB2_CORE_RUNTIME_SYNC_INLINE_OPERATION_REFCOUNT_READ : Z := 19.
Definition KB2_CORE_RUNTIME_SYNC_INLINE_OPERATION_REFCOUNT_INCREMENT : Z := 20.
Definition KB2_CORE_RUNTIME_SYNC_INLINE_OPERATION_REFCOUNT_INCREMENT_NOT_ZERO : Z := 21.
Definition KB2_CORE_RUNTIME_SYNC_INLINE_OPERATION_REFCOUNT_DECREMENT_AND_TEST : Z := 22.
Definition KB2_CORE_RUNTIME_SYNC_ATOMIC32_SIZE : Z := 4.
Definition KB2_CORE_RUNTIME_SYNC_ATOMIC32_ALIGNMENT : Z := 4.
Definition KB2_CORE_RUNTIME_SYNC_ATOMIC64_SIZE : Z := 8.
Definition KB2_CORE_RUNTIME_SYNC_ATOMIC64_ALIGNMENT : Z := 8.
Definition KB2_CORE_RUNTIME_SYNC_REFCOUNT_SIZE : Z := 4.
Definition KB2_CORE_RUNTIME_SYNC_REFCOUNT_ALIGNMENT : Z := 4.
Definition KB2_CORE_RUNTIME_SYNC_BITMAP_WORD_BITS : Z := 64.
Definition KB2_CORE_RUNTIME_SYNC_MEMORY_ORDER_RELAXED : Z := 1.
Definition KB2_CORE_RUNTIME_SYNC_MEMORY_ORDER_ACQUIRE : Z := 2.
Definition KB2_CORE_RUNTIME_SYNC_MEMORY_ORDER_RELEASE : Z := 3.
Definition KB2_CORE_RUNTIME_SYNC_MEMORY_ORDER_ACQ_REL : Z := 4.
Definition KB2_CORE_RUNTIME_SYNC_MEMORY_ORDER_SEQ_CST : Z := 5.
Definition KB2_CORE_RUNTIME_SYNC_WAIT_FLAG_INTERRUPTIBLE : Z := 1.
Definition KB2_CORE_RUNTIME_SYNC_EVENT_FLAG_MANUAL_RESET : Z := 1.
Definition KB2_CORE_RUNTIME_SYNC_EVENT_FLAG_INITIAL_SIGNALED : Z := 2.
Definition KB2_CORE_RUNTIME_THREAD_OPERATION_COUNT : Z := 16.
Definition KB2_CORE_RUNTIME_THREAD_TABLE_SIZE : Z := 176.
Definition KB2_CORE_RUNTIME_THREAD_OPERATION_CURRENT : Z := 1.
Definition KB2_CORE_RUNTIME_THREAD_OPERATION_CREATE : Z := 2.
Definition KB2_CORE_RUNTIME_THREAD_OPERATION_JOIN : Z := 3.
Definition KB2_CORE_RUNTIME_THREAD_OPERATION_DETACH : Z := 4.
Definition KB2_CORE_RUNTIME_THREAD_OPERATION_REQUEST_STOP : Z := 5.
Definition KB2_CORE_RUNTIME_THREAD_OPERATION_STOP_REQUESTED : Z := 6.
Definition KB2_CORE_RUNTIME_THREAD_OPERATION_INTERRUPT : Z := 7.
Definition KB2_CORE_RUNTIME_THREAD_OPERATION_IS_INTERRUPTED : Z := 8.
Definition KB2_CORE_RUNTIME_THREAD_OPERATION_CLEAR_INTERRUPT : Z := 9.
Definition KB2_CORE_RUNTIME_THREAD_OPERATION_PARK : Z := 10.
Definition KB2_CORE_RUNTIME_THREAD_OPERATION_UNPARK : Z := 11.
Definition KB2_CORE_RUNTIME_THREAD_OPERATION_WAKE : Z := 12.
Definition KB2_CORE_RUNTIME_THREAD_OPERATION_YIELD : Z := 13.
Definition KB2_CORE_RUNTIME_THREAD_OPERATION_SET_NAME : Z := 14.
Definition KB2_CORE_RUNTIME_THREAD_OPERATION_SET_AFFINITY : Z := 15.
Definition KB2_CORE_RUNTIME_THREAD_OPERATION_SET_PRIORITY : Z := 16.
Definition KB2_CORE_RUNTIME_THREAD_FLAG_START_PARKED : Z := 1.
Definition KB2_CORE_RUNTIME_THREAD_FLAG_HIGH_PRIORITY : Z := 2.
Definition KB2_CORE_RUNTIME_THREAD_STACK_MINIMUM_BYTES : Z := 65536.
Definition KB2_CORE_RUNTIME_THREAD_STACK_ALIGNMENT : Z := 4096.
Definition KB2_CORE_RUNTIME_THREAD_PRIORITY_HIGHEST : Z := 0.
Definition KB2_CORE_RUNTIME_THREAD_PRIORITY_DEFAULT : Z := 20.
Definition KB2_CORE_RUNTIME_THREAD_PRIORITY_LOWEST : Z := 39.
Definition KB2_CORE_RUNTIME_TIME_OPERATION_COUNT : Z := 12.
Definition KB2_CORE_RUNTIME_TIME_TABLE_SIZE : Z := 144.
Definition KB2_CORE_RUNTIME_TIME_OPERATION_MONOTONIC_NS : Z := 1.
Definition KB2_CORE_RUNTIME_TIME_OPERATION_BOOTTIME_NS : Z := 2.
Definition KB2_CORE_RUNTIME_TIME_OPERATION_REALTIME_NS : Z := 3.
Definition KB2_CORE_RUNTIME_TIME_OPERATION_SLEEP_UNTIL : Z := 4.
Definition KB2_CORE_RUNTIME_TIME_OPERATION_BUSY_WAIT_UNTIL : Z := 5.
Definition KB2_CORE_RUNTIME_TIME_OPERATION_TIMER_CREATE : Z := 6.
Definition KB2_CORE_RUNTIME_TIME_OPERATION_TIMER_DESTROY : Z := 7.
Definition KB2_CORE_RUNTIME_TIME_OPERATION_TIMER_ARM : Z := 8.
Definition KB2_CORE_RUNTIME_TIME_OPERATION_TIMER_CANCEL : Z := 9.
Definition KB2_CORE_RUNTIME_TIME_OPERATION_TIMER_CANCEL_SYNC : Z := 10.
Definition KB2_CORE_RUNTIME_TIME_OPERATION_TIMER_REMAINING : Z := 11.
Definition KB2_CORE_RUNTIME_TIME_OPERATION_TIMER_IS_PENDING : Z := 12.
Definition KB2_CORE_RUNTIME_TIME_CLOCK_MONOTONIC : Z := 1.
Definition KB2_CORE_RUNTIME_TIME_CLOCK_BOOTTIME : Z := 2.
Definition KB2_CORE_RUNTIME_TIME_CLOCK_REALTIME : Z := 3.
Definition KB2_CORE_RUNTIME_TIME_WAIT_FLAG_INTERRUPTIBLE : Z := 1.
Definition KB2_CORE_RUNTIME_TIME_TIMER_CONTEXT_ATOMIC : Z := 1.
Definition KB2_CORE_RUNTIME_TIME_TIMER_CONTEXT_THREAD : Z := 2.
Definition KB2_CORE_RUNTIME_TIME_TIMER_FLAG_DEFERRABLE : Z := 1.
Definition KB2_CORE_RUNTIME_TIME_TIMER_FLAG_PINNED : Z := 2.
Definition KB2_CORE_RUNTIME_WORKQUEUE_OPERATION_COUNT : Z := 12.
Definition KB2_CORE_RUNTIME_WORKQUEUE_TABLE_SIZE : Z := 144.
Definition KB2_CORE_RUNTIME_WORKQUEUE_OPERATION_QUEUE_CREATE : Z := 1.
Definition KB2_CORE_RUNTIME_WORKQUEUE_OPERATION_QUEUE_DESTROY : Z := 2.
Definition KB2_CORE_RUNTIME_WORKQUEUE_OPERATION_WORK_CREATE : Z := 3.
Definition KB2_CORE_RUNTIME_WORKQUEUE_OPERATION_WORK_DESTROY : Z := 4.
Definition KB2_CORE_RUNTIME_WORKQUEUE_OPERATION_SUBMIT : Z := 5.
Definition KB2_CORE_RUNTIME_WORKQUEUE_OPERATION_SUBMIT_AT : Z := 6.
Definition KB2_CORE_RUNTIME_WORKQUEUE_OPERATION_RESCHEDULE_AT : Z := 7.
Definition KB2_CORE_RUNTIME_WORKQUEUE_OPERATION_CANCEL : Z := 8.
Definition KB2_CORE_RUNTIME_WORKQUEUE_OPERATION_CANCEL_SYNC : Z := 9.
Definition KB2_CORE_RUNTIME_WORKQUEUE_OPERATION_FLUSH_WORK : Z := 10.
Definition KB2_CORE_RUNTIME_WORKQUEUE_OPERATION_FLUSH_QUEUE : Z := 11.
Definition KB2_CORE_RUNTIME_WORKQUEUE_OPERATION_IS_PENDING : Z := 12.
Definition KB2_CORE_RUNTIME_WORKQUEUE_FLAG_UNBOUND : Z := 1.
Definition KB2_CORE_RUNTIME_WORKQUEUE_FLAG_HIGH_PRIORITY : Z := 2.
Definition KB2_CORE_RUNTIME_WORKQUEUE_FLAG_MEMORY_RECLAIM : Z := 4.
Definition KB2_CORE_RUNTIME_WORKQUEUE_FLAG_FREEZABLE : Z := 8.
Definition KB2_CORE_RUNTIME_WORKQUEUE_FLAG_ORDERED : Z := 16.
Definition KB2_CORE_RUNTIME_WORKQUEUE_CPU_ANY : Z := 4294967295.
Definition KB2_CORE_RUNTIME_RCU_OPERATION_COUNT : Z := 9.
Definition KB2_CORE_RUNTIME_RCU_TABLE_SIZE : Z := 120.
Definition KB2_CORE_RUNTIME_RCU_OPERATION_DEFAULT_DOMAIN : Z := 1.
Definition KB2_CORE_RUNTIME_RCU_OPERATION_DOMAIN_CREATE : Z := 2.
Definition KB2_CORE_RUNTIME_RCU_OPERATION_DOMAIN_DESTROY : Z := 3.
Definition KB2_CORE_RUNTIME_RCU_OPERATION_READ_LOCK : Z := 4.
Definition KB2_CORE_RUNTIME_RCU_OPERATION_READ_UNLOCK : Z := 5.
Definition KB2_CORE_RUNTIME_RCU_OPERATION_CALL : Z := 6.
Definition KB2_CORE_RUNTIME_RCU_OPERATION_SYNCHRONIZE : Z := 7.
Definition KB2_CORE_RUNTIME_RCU_OPERATION_BARRIER : Z := 8.
Definition KB2_CORE_RUNTIME_RCU_OPERATION_QUIESCENT_STATE : Z := 9.
Definition KB2_CORE_RUNTIME_RCU_DOMAIN_CLASSIC : Z := 1.
Definition KB2_CORE_RUNTIME_RCU_DOMAIN_SRCU : Z := 2.
Definition KB2_CORE_RUNTIME_RCU_SYNC_FLAG_EXPEDITED : Z := 1.
Definition KB2_CORE_RUNTIME_SCHEMA_SHA256_BYTES : list Z :=
  [211; 65; 150; 68; 54; 43; 109; 160; 85; 225; 212; 230; 226; 73; 202; 58;
   166; 192; 127; 69; 80; 83; 171; 37; 142; 104; 93; 82; 212; 138; 228; 66].
Definition KB2_CORE_RUNTIME_ABI_IDENTITY_BYTES : list Z :=
  [100; 101; 118; 0].
