(* ===== verification/CoreRuntime.v ===== *)
(** The inline primitives of the core runtime
    (protocol/generated/include/kobox2/core_runtime.h): single accesses, atomics,
    bitmap words and reference counts.

    A primitive is an interaction tree over the atomic builtins of the compiler, so
    that the primitives of several threads can be interleaved builtin by builtin; the
    loops of the reference counts are [ITree.iter].  An address holds one object, of
    the width of the functions that access it.  The memory orders are recorded in the
    events and do not restrict the interleavings; that a call passes on the orders it
    was given is stated by itself ([orders_used] in CoreRuntimeSpec.v). *)

From Stdlib Require Import ZArith Lia.
From ITree Require Import Core.ITreeDefinition.
From stdpp Require Import base numbers tactics gmap list_numbers list.
From S2P Require Import Prelude CoreRuntimeLayout.

Open Scope Z_scope.
Open Scope kobox_scope.

(** * The builtins *)

(** C's [__ATOMIC_RELAXED] and so on. *)
Inductive memory_order := ORDER_RELAXED | ORDER_ACQUIRE | ORDER_RELEASE | ORDER_ACQ_REL | ORDER_SEQ_CST.

Inductive fetch_operation := FETCH_ADD | FETCH_SUB | FETCH_AND | FETCH_OR | FETCH_XOR.

(** [Read] and [Write] are plain accesses; a [width] is in bits; a compare-exchange
    answers with its result and the value then in the expected object. *)
Inductive atomicE : Type -> Type :=
| Load (address : Z) (order : memory_order) : atomicE Z
| Store (address value : Z) (order : memory_order) : atomicE unit
| Exchange (address value : Z) (order : memory_order) : atomicE Z
| CompareExchange (address expected desired : Z) (success failure : memory_order) : atomicE (bool * Z)
| Fetch (operation : fetch_operation) (width address value : Z) (order : memory_order) : atomicE Z
| Fence (order : memory_order) : atomicE unit
| Read (address : Z) : atomicE Z
| Write (address value : Z) : atomicE unit
| Trap : atomicE Empty_set.

Notation memory := (gmap Z Z).

Definition fetch_value (operation : fetch_operation) (width old value : Z) : Z :=
  match operation with
  | FETCH_ADD => (old + value) mod 2 ^ width
  | FETCH_SUB => (old - value) mod 2 ^ width
  | FETCH_AND => Z.land old value
  | FETCH_OR => Z.lor old value
  | FETCH_XOR => Z.lxor old value
  end.

(** What a builtin answers and leaves in memory; [None] for a trap and for an address
    without an object. *)
Definition perform {T} (e : atomicE T) (m : memory) : option (T * memory) :=
  match e in atomicE T return option (T * memory) with
  | Load a _ | Read a => v ← m !! a; Some (v, m)
  | Store a v _ | Write a v => _ ← m !! a; Some (tt, <[a := v]> m)
  | Exchange a v _ => old ← m !! a; Some (old, <[a := v]> m)
  | CompareExchange a expected desired _ _ =>
      v ← m !! a; if v =? expected then Some ((true, expected), <[a := desired]> m) else Some ((false, v), m)
  | Fetch operation width a v _ => old ← m !! a; Some (old, <[a := fetch_value operation width old v]> m)
  | Fence _ => Some (tt, m)
  | Trap => None
  end.

#[export] Instance itree_ret E : MRet (itree E) := fun _ x => Ret x.
#[export] Instance itree_bind E : MBind (itree E) := fun _ _ f t => ITree.bind t f.

Notation code := (itree atomicE).

Definition kb2_core_sync_contract_fault {T} : code T := Vis Trap (fun x : Empty_set => match x with end).

(** * Memory orders *)

Definition kb2_core_sync_load_order (order : Z) : code memory_order :=
  if order =? KB2_CORE_RUNTIME_SYNC_MEMORY_ORDER_RELAXED then mret ORDER_RELAXED
  else if order =? KB2_CORE_RUNTIME_SYNC_MEMORY_ORDER_ACQUIRE then mret ORDER_ACQUIRE
  else if order =? KB2_CORE_RUNTIME_SYNC_MEMORY_ORDER_SEQ_CST then mret ORDER_SEQ_CST
  else kb2_core_sync_contract_fault.

Definition kb2_core_sync_store_order (order : Z) : code memory_order :=
  if order =? KB2_CORE_RUNTIME_SYNC_MEMORY_ORDER_RELAXED then mret ORDER_RELAXED
  else if order =? KB2_CORE_RUNTIME_SYNC_MEMORY_ORDER_RELEASE then mret ORDER_RELEASE
  else if order =? KB2_CORE_RUNTIME_SYNC_MEMORY_ORDER_SEQ_CST then mret ORDER_SEQ_CST
  else kb2_core_sync_contract_fault.

Definition kb2_core_sync_rmw_order (order : Z) : code memory_order :=
  if order =? KB2_CORE_RUNTIME_SYNC_MEMORY_ORDER_RELAXED then mret ORDER_RELAXED
  else if order =? KB2_CORE_RUNTIME_SYNC_MEMORY_ORDER_ACQUIRE then mret ORDER_ACQUIRE
  else if order =? KB2_CORE_RUNTIME_SYNC_MEMORY_ORDER_RELEASE then mret ORDER_RELEASE
  else if order =? KB2_CORE_RUNTIME_SYNC_MEMORY_ORDER_ACQ_REL then mret ORDER_ACQ_REL
  else if order =? KB2_CORE_RUNTIME_SYNC_MEMORY_ORDER_SEQ_CST then mret ORDER_SEQ_CST
  else kb2_core_sync_contract_fault.

Definition kb2_core_sync_failure_order (order : Z) : code memory_order := kb2_core_sync_load_order order.

Definition kb2_core_sync_compare_orders_valid (success_order failure_order : Z) : bool :=
  if success_order =? KB2_CORE_RUNTIME_SYNC_MEMORY_ORDER_RELAXED then
    failure_order =? KB2_CORE_RUNTIME_SYNC_MEMORY_ORDER_RELAXED
  else if success_order =? KB2_CORE_RUNTIME_SYNC_MEMORY_ORDER_ACQUIRE then
    (failure_order =? KB2_CORE_RUNTIME_SYNC_MEMORY_ORDER_RELAXED) ||
    (failure_order =? KB2_CORE_RUNTIME_SYNC_MEMORY_ORDER_ACQUIRE)
  else if success_order =? KB2_CORE_RUNTIME_SYNC_MEMORY_ORDER_RELEASE then
    failure_order =? KB2_CORE_RUNTIME_SYNC_MEMORY_ORDER_RELAXED
  else if success_order =? KB2_CORE_RUNTIME_SYNC_MEMORY_ORDER_ACQ_REL then
    (failure_order =? KB2_CORE_RUNTIME_SYNC_MEMORY_ORDER_RELAXED) ||
    (failure_order =? KB2_CORE_RUNTIME_SYNC_MEMORY_ORDER_ACQUIRE)
  else if success_order =? KB2_CORE_RUNTIME_SYNC_MEMORY_ORDER_SEQ_CST then
    (failure_order =? KB2_CORE_RUNTIME_SYNC_MEMORY_ORDER_RELAXED) ||
    (failure_order =? KB2_CORE_RUNTIME_SYNC_MEMORY_ORDER_ACQUIRE) ||
    (failure_order =? KB2_CORE_RUNTIME_SYNC_MEMORY_ORDER_SEQ_CST)
  else false.

(** C's [!address || (uintptr_t)address % sizeof( *address)]. *)
Definition bad_pointer (address size : Z) : bool := (address =? 0) || negb (address mod size =? 0).

(** * Single accesses *)

Definition read_once (size address : Z) : code Z :=
  if bad_pointer address size then kb2_core_sync_contract_fault else ITree.trigger (Load address ORDER_RELAXED).
Definition write_once (size address value : Z) : code unit :=
  if bad_pointer address size then kb2_core_sync_contract_fault else ITree.trigger (Store address value ORDER_RELAXED).

Definition kb2_core_read_once_u8 : Z -> code Z := read_once 1.
Definition kb2_core_write_once_u8 : Z -> Z -> code unit := write_once 1.
Definition kb2_core_read_once_u16 : Z -> code Z := read_once 2.
Definition kb2_core_write_once_u16 : Z -> Z -> code unit := write_once 2.
Definition kb2_core_read_once_u32 : Z -> code Z := read_once 4.
Definition kb2_core_write_once_u32 : Z -> Z -> code unit := write_once 4.
Definition kb2_core_read_once_u64 : Z -> code Z := read_once 8.
Definition kb2_core_write_once_u64 : Z -> Z -> code unit := write_once 8.

Definition kb2_core_fence (order : Z) : code unit :=
  order ← kb2_core_sync_rmw_order order;
  ITree.trigger (Fence order).

(** * Atomics

    The functions on 32 and on 64 bits differ in the size of the object only. *)

Definition word_load (size atomic order : Z) : code Z :=
  if bad_pointer atomic size then kb2_core_sync_contract_fault
  else order ← kb2_core_sync_load_order order; ITree.trigger (Load atomic order).

Definition word_store (size atomic value order : Z) : code unit :=
  if bad_pointer atomic size then kb2_core_sync_contract_fault
  else order ← kb2_core_sync_store_order order; ITree.trigger (Store atomic value order).

Definition word_exchange (size atomic value order : Z) : code Z :=
  if bad_pointer atomic size then kb2_core_sync_contract_fault
  else order ← kb2_core_sync_rmw_order order; ITree.trigger (Exchange atomic value order).

(** The builtin reads the expected value and writes the one it saw back when it fails. *)
Definition word_compare_exchange (size atomic expected desired success_order failure_order : Z) : code Z :=
  if bad_pointer atomic size || bad_pointer expected size ||
     negb (kb2_core_sync_compare_orders_valid success_order failure_order) then kb2_core_sync_contract_fault
  else
    success_builtin ← kb2_core_sync_rmw_order success_order;
    failure_builtin ← kb2_core_sync_failure_order failure_order;
    value ← ITree.trigger (Read expected);
    '(exchanged, seen) ← ITree.trigger (CompareExchange atomic value desired success_builtin failure_builtin);
    if exchanged : bool then mret 1
    else _ ← ITree.trigger (Write expected seen); mret 0.

Definition word_fetch (operation : fetch_operation) (size atomic value order : Z) : code Z :=
  if bad_pointer atomic size then kb2_core_sync_contract_fault
  else order ← kb2_core_sync_rmw_order order; ITree.trigger (Fetch operation (size * 8) atomic value order).

Definition kb2_core_atomic32_load : Z -> Z -> code Z := word_load KB2_CORE_RUNTIME_SYNC_ATOMIC32_SIZE.
Definition kb2_core_atomic32_store : Z -> Z -> Z -> code unit := word_store KB2_CORE_RUNTIME_SYNC_ATOMIC32_SIZE.
Definition kb2_core_atomic32_exchange : Z -> Z -> Z -> code Z := word_exchange KB2_CORE_RUNTIME_SYNC_ATOMIC32_SIZE.
Definition kb2_core_atomic32_compare_exchange : Z -> Z -> Z -> Z -> Z -> code Z :=
  word_compare_exchange KB2_CORE_RUNTIME_SYNC_ATOMIC32_SIZE.
Definition kb2_core_atomic32_fetch_add : Z -> Z -> Z -> code Z := word_fetch FETCH_ADD KB2_CORE_RUNTIME_SYNC_ATOMIC32_SIZE.
Definition kb2_core_atomic32_fetch_sub : Z -> Z -> Z -> code Z := word_fetch FETCH_SUB KB2_CORE_RUNTIME_SYNC_ATOMIC32_SIZE.
Definition kb2_core_atomic32_fetch_and : Z -> Z -> Z -> code Z := word_fetch FETCH_AND KB2_CORE_RUNTIME_SYNC_ATOMIC32_SIZE.
Definition kb2_core_atomic32_fetch_or : Z -> Z -> Z -> code Z := word_fetch FETCH_OR KB2_CORE_RUNTIME_SYNC_ATOMIC32_SIZE.
Definition kb2_core_atomic32_fetch_xor : Z -> Z -> Z -> code Z := word_fetch FETCH_XOR KB2_CORE_RUNTIME_SYNC_ATOMIC32_SIZE.

Definition kb2_core_atomic64_load : Z -> Z -> code Z := word_load KB2_CORE_RUNTIME_SYNC_ATOMIC64_SIZE.
Definition kb2_core_atomic64_store : Z -> Z -> Z -> code unit := word_store KB2_CORE_RUNTIME_SYNC_ATOMIC64_SIZE.
Definition kb2_core_atomic64_exchange : Z -> Z -> Z -> code Z := word_exchange KB2_CORE_RUNTIME_SYNC_ATOMIC64_SIZE.
Definition kb2_core_atomic64_compare_exchange : Z -> Z -> Z -> Z -> Z -> code Z :=
  word_compare_exchange KB2_CORE_RUNTIME_SYNC_ATOMIC64_SIZE.
Definition kb2_core_atomic64_fetch_add : Z -> Z -> Z -> code Z := word_fetch FETCH_ADD KB2_CORE_RUNTIME_SYNC_ATOMIC64_SIZE.
Definition kb2_core_atomic64_fetch_sub : Z -> Z -> Z -> code Z := word_fetch FETCH_SUB KB2_CORE_RUNTIME_SYNC_ATOMIC64_SIZE.
Definition kb2_core_atomic64_fetch_and : Z -> Z -> Z -> code Z := word_fetch FETCH_AND KB2_CORE_RUNTIME_SYNC_ATOMIC64_SIZE.
Definition kb2_core_atomic64_fetch_or : Z -> Z -> Z -> code Z := word_fetch FETCH_OR KB2_CORE_RUNTIME_SYNC_ATOMIC64_SIZE.
Definition kb2_core_atomic64_fetch_xor : Z -> Z -> Z -> code Z := word_fetch FETCH_XOR KB2_CORE_RUNTIME_SYNC_ATOMIC64_SIZE.

(** * Bitmap words *)

Definition bad_bit (bitmap bit : Z) : bool := bad_pointer bitmap 8 || (KB2_CORE_RUNTIME_SYNC_BITMAP_WORD_BITS <=? bit).

(** C's [UINT64_C(1) << bit], its complement, and [!!(word & mask)]. *)
Definition bit_mask (bit : Z) : Z := u64 (Z.shiftl 1 bit).
Definition bit_mask_complement (bit : Z) : Z := U64_MAX - bit_mask bit.
Definition bit_present (word bit : Z) : Z := if Z.land word (bit_mask bit) =? 0 then 0 else 1.

Definition kb2_core_bit_test (bitmap bit order : Z) : code Z :=
  if bad_bit bitmap bit then kb2_core_sync_contract_fault
  else
    order ← kb2_core_sync_load_order order;
    word ← ITree.trigger (Load bitmap order);
    mret (bit_present word bit).

Definition kb2_core_bit_set (bitmap bit order : Z) : code unit :=
  if bad_bit bitmap bit then kb2_core_sync_contract_fault
  else
    order ← kb2_core_sync_rmw_order order;
    _ ← ITree.trigger (Fetch FETCH_OR 64 bitmap (bit_mask bit) order);
    mret tt.

Definition kb2_core_bit_clear (bitmap bit order : Z) : code unit :=
  if bad_bit bitmap bit then kb2_core_sync_contract_fault
  else
    order ← kb2_core_sync_rmw_order order;
    _ ← ITree.trigger (Fetch FETCH_AND 64 bitmap (bit_mask_complement bit) order);
    mret tt.

Definition kb2_core_bit_test_and_set (bitmap bit order : Z) : code Z :=
  if bad_bit bitmap bit then kb2_core_sync_contract_fault
  else
    order ← kb2_core_sync_rmw_order order;
    previous ← ITree.trigger (Fetch FETCH_OR 64 bitmap (bit_mask bit) order);
    mret (bit_present previous bit).

Definition kb2_core_bit_test_and_clear (bitmap bit order : Z) : code Z :=
  if bad_bit bitmap bit then kb2_core_sync_contract_fault
  else
    order ← kb2_core_sync_rmw_order order;
    previous ← ITree.trigger (Fetch FETCH_AND 64 bitmap (bit_mask_complement bit) order);
    mret (bit_present previous bit).

(** * Reference counts *)

Definition bad_refcount (refcount : Z) : bool := bad_pointer refcount KB2_CORE_RUNTIME_SYNC_REFCOUNT_SIZE.

Definition kb2_core_refcount_set (refcount value : Z) : code unit :=
  if bad_refcount refcount || (value =? U32_MAX) then kb2_core_sync_contract_fault
  else ITree.trigger (Store refcount value ORDER_RELAXED).

Definition kb2_core_refcount_read (refcount : Z) : code Z :=
  if bad_refcount refcount then kb2_core_sync_contract_fault
  else ITree.trigger (Load refcount ORDER_RELAXED).

(** The compare-exchange of a loop: [&observed] is the expected object, a local. *)
Definition replace_count (refcount observed value : Z) (success : memory_order) : code (bool * Z) :=
  ITree.trigger (CompareExchange refcount observed value success ORDER_RELAXED).

(** The bodies of the loops: [inl] goes on with the value seen, [inr] returns. *)
Definition increment_body (refcount observed : Z) : code (Z + unit) :=
  if observed =? U32_MAX then kb2_core_sync_contract_fault
  else if (observed =? 0) || (observed =? U32_MAX - 1) then
    '(exchanged, observed) ← replace_count refcount observed U32_MAX ORDER_RELAXED;
    if exchanged : bool then kb2_core_sync_contract_fault else mret (inl observed)
  else
    '(exchanged, seen) ← replace_count refcount observed (u32 (observed + 1)) ORDER_RELAXED;
    if exchanged : bool then mret (inr tt) else mret (inl seen).

Definition increment_not_zero_body (refcount observed : Z) : code (Z + Z) :=
  if observed =? 0 then mret (inr 0)
  else if observed =? U32_MAX then kb2_core_sync_contract_fault
  else if observed =? U32_MAX - 1 then
    '(exchanged, observed) ← replace_count refcount observed U32_MAX ORDER_RELAXED;
    if exchanged : bool then kb2_core_sync_contract_fault else mret (inl observed)
  else
    '(exchanged, seen) ← replace_count refcount observed (u32 (observed + 1)) ORDER_RELAXED;
    if exchanged : bool then mret (inr 1) else mret (inl seen).

Definition decrement_and_test_body (refcount observed : Z) : code (Z + Z) :=
  if observed =? 0 then
    '(exchanged, observed) ← replace_count refcount observed U32_MAX ORDER_RELAXED;
    if exchanged : bool then kb2_core_sync_contract_fault else mret (inl observed)
  else if observed =? U32_MAX then kb2_core_sync_contract_fault
  else
    '(exchanged, seen) ← replace_count refcount observed (u32 (observed - 1)) ORDER_ACQ_REL;
    if exchanged : bool then mret (inr (if observed =? 1 then 1 else 0)) else mret (inl seen).

Definition kb2_core_refcount_increment (refcount : Z) : code unit :=
  if bad_refcount refcount then kb2_core_sync_contract_fault
  else
    observed ← ITree.trigger (Load refcount ORDER_RELAXED);
    ITree.iter (increment_body refcount) observed.

Definition kb2_core_refcount_increment_not_zero (refcount : Z) : code Z :=
  if bad_refcount refcount then kb2_core_sync_contract_fault
  else
    observed ← ITree.trigger (Load refcount ORDER_RELAXED);
    ITree.iter (increment_not_zero_body refcount) observed.

Definition kb2_core_refcount_decrement_and_test (refcount : Z) : code Z :=
  if bad_refcount refcount then kb2_core_sync_contract_fault
  else
    observed ← ITree.trigger (Load refcount ORDER_RELAXED);
    ITree.iter (decrement_and_test_body refcount) observed.
