(* ===== verification/Interleaving.v ===== *)
(** Programs over the atomic builtins: one program alone, several threads interleaved,
    and when a set of concurrent procedures implements an atomic object.

    A thread is idle, runs the code of a call, or has trapped.  An execution is a
    sequence of steps of any threads in any order; its trace lists the calls, the
    answers and the traps. *)

From Stdlib Require Import ZArith Lia.
From ITree Require Import Core.ITreeDefinition.
From stdpp Require Import base numbers tactics gmap list_numbers list.
From S2P Require Import Prelude CoreRuntime.

Open Scope Z_scope.

(** * One program alone *)

Inductive outcome (A : Type) :=
| Returned (r : A) (m : memory)
| Trapped (m : memory)
| Stuck.
Arguments Returned {A}. Arguments Trapped {A}. Arguments Stuck {A}.

Definition is_trap {T} (e : atomicE T) : bool := match e with Trap => true | _ => false end.

Fixpoint run {A} (fuel : nat) (t : code A) (m : memory) : option (outcome A) :=
  match fuel with
  | O => None
  | S fuel =>
      match observe t with
      | RetF r => Some (Returned r m)
      | TauF t => run fuel t m
      | VisF e k =>
          if is_trap e then Some (Trapped m)
          else match perform e m with Some (x, m) => run fuel (k x) m | None => Some Stuck end
      end
  end.

(** One builtin of a program, and whether it traps next. *)
Definition builtin_step {A} (t : itree' atomicE A) (m : memory) : option (code A * memory) :=
  match t with VisF e k => '(x, m) ← perform e m; Some (k x, m) | _ => None end.
Definition at_trap {A} (t : itree' atomicE A) : bool := match t with VisF e _ => is_trap e | _ => false end.

(** How a loop and a sequence unfold. *)
Lemma observe_bind {A B} (t : code A) (k : A -> code B) :
  observe (t ≫= k) =
  match observe t with RetF r => observe (k r) | TauF t => TauF (t ≫= k) | VisF e h => VisF e (fun x => h x ≫= k) end.
Proof.
  change (observe (t ≫= k)) with (observe (match observe t with
    RetF r => k r | TauF t => Tau (t ≫= k) | VisF e h => Vis e (fun x => h x ≫= k) end)).
  by destruct (observe t).
Qed.

Lemma observe_bind_ret {A B} (k : A -> code B) x : observe (y ← Ret x; k y) = observe (k x).
Proof. done. Qed.

Lemma observe_iter {A B} (body : A -> code (A + B)) x :
  observe (ITree.iter body x) =
  observe (next ← body x; match next with inl y => Tau (ITree.iter body y) | inr r => Ret r end).
Proof. done. Qed.

(** Sums over the threads. *)
Lemma sum_list_cons x l : sum_list (x :: l) = (x + sum_list l)%nat.
Proof. done. Qed.

Lemma sum_list_insert l i x y : l !! i = Some y -> (sum_list (<[i := x]> l) + y = sum_list l + x)%nat.
Proof.
  revert i. induction l as [| z l IH]; intros [| i] E; try done; simpl in *; [injection E as ->; lia |].
  specialize (IH i E). simpl in IH. lia.
Qed.

Lemma sum_list_shift d l : sum_list ((fun n => n + d)%nat <$> l) = (sum_list l + d * length l)%nat.
Proof. induction l as [| n l IH]; cbn; [| rewrite IH]; lia. Qed.

Lemma sum_list_lookup l i x : l !! i = Some x -> (x <= sum_list l)%nat.
Proof. intros E. pose proof (sum_list_insert l i 0 x E). lia. Qed.

(** * Threads *)

Section Threads.
Context {C : Type} (prog : C -> code Z).

Inductive thread :=
| Idle
| Running (c : C) (t : code Z)
| Dead.

Inductive label :=
| Invoke (i : nat) (c : C)
| Respond (i : nat) (c : C) (r : Z)
| Fault (i : nat) (c : C).

Notation config := (memory * list thread)%type.

Inductive step : config -> list label -> config -> Prop :=
| step_invoke m ts i c :
    ts !! i = Some Idle -> step (m, ts) [Invoke i c] (m, <[i := Running c (prog c)]> ts)
| step_return m ts i c t r :
    ts !! i = Some (Running c t) -> observe t = RetF r -> step (m, ts) [Respond i c r] (m, <[i := Idle]> ts)
| step_tau m ts i c t t' :
    ts !! i = Some (Running c t) -> observe t = TauF t' -> step (m, ts) [] (m, <[i := Running c t']> ts)
| step_builtin m ts i c t t' m' :
    ts !! i = Some (Running c t) -> builtin_step (observe t) m = Some (t', m') ->
    step (m, ts) [] (m', <[i := Running c t']> ts)
| step_trap m ts i c t :
    ts !! i = Some (Running c t) -> at_trap (observe t) = true -> step (m, ts) [Fault i c] (m, <[i := Dead]> ts).

(** The length of an execution is counted. *)
Inductive execution : config -> nat -> list label -> config -> Prop :=
| execution_nil g : execution g 0 [] g
| execution_snoc g n tr g' l g'' :
    execution g n tr g' -> step g' l g'' -> execution g (S n) (tr ++ l) g''.

(** ** Running a schedule

    A schedule names the thread of each step, with the call it makes if it is idle. *)

Definition advance (g : config) (s : nat * option C) : option (list label * config) :=
  let '(m, ts) := g in
  let '(i, call) := s in
  match ts !! i, call with
  | Some Idle, Some c => Some ([Invoke i c], (m, <[i := Running c (prog c)]> ts))
  | Some (Running c t), None =>
      match observe t with
      | RetF r => Some ([Respond i c r], (m, <[i := Idle]> ts))
      | TauF t' => Some ([], (m, <[i := Running c t']> ts))
      | o =>
          if at_trap o then Some ([Fault i c], (m, <[i := Dead]> ts))
          else '(t', m') ← builtin_step o m; Some ([], (m', <[i := Running c t']> ts))
      end
  | _, _ => None
  end.

Fixpoint follow (g : config) (schedule : list (nat * option C)) : option (list label * config) :=
  match schedule with
  | [] => Some ([], g)
  | s :: schedule =>
      '(l, g) ← advance g s;
      '(tr, g) ← follow g schedule;
      Some (l ++ tr, g)
  end.

Lemma advance_step g s l g' : advance g s = Some (l, g') -> step g l g'.
Proof.
  destruct g as [m ts], s as [i call]. cbn. destruct (ts !! i) as [[| c t |] |] eqn:Ei; try done; destruct call; try done.
  - intros [= <- <-]. by constructor.
  - destruct (observe t) as [r | t' | T e k] eqn:E.
    + intros [= <- <-]. by apply (step_return _ _ _ _ t).
    + intros [= <- <-]. by apply (step_tau _ _ _ _ t).
    + cbn. destruct (is_trap e) eqn:Et.
      * intros [= <- <-]. apply (step_trap _ _ _ _ t); [done | by rewrite E].
      * destruct (perform e m) as [[x m1] |] eqn:Ep; [| done]. intros [= <- <-].
        apply (step_builtin _ _ _ _ t); [done |]. rewrite E. cbn. by rewrite Ep.
Qed.

Lemma execution_cons g l g' n tr g'' : step g l g' -> execution g' n tr g'' -> execution g (S n) (l ++ tr) g''.
Proof.
  intros Hs He. induction He as [g' | g' n tr h l' h' He IH Hs'].
  - rewrite app_nil_r. apply (execution_snoc g 0 [] g l); [constructor | done].
  - rewrite app_assoc. apply (execution_snoc _ _ _ h); [by apply IH | done].
Qed.

Lemma follow_execution schedule : forall g tr g', follow g schedule = Some (tr, g') -> execution g (length schedule) tr g'.
Proof.
  induction schedule as [| s schedule IH]; intros g tr g' E; cbn in E; [injection E as <- <-; constructor |].
  destruct (advance g s) as [[l h] |] eqn:Ea; [| done]. cbn in E.
  destruct (follow h schedule) as [[tr' h'] |] eqn:Ef; [| done]. injection E as <- <-.
  apply (execution_cons _ _ h); [by eapply advance_step | by apply IH].
Qed.

Definition is_invocation (l : label) : bool := match l with Invoke _ _ => true | _ => false end.
Definition invocations (tr : list label) : nat := length (filter (fun l => is_invocation l = true) tr).

Lemma invocations_app tr tr' : invocations (tr ++ tr') = (invocations tr + invocations tr')%nat.
Proof. unfold invocations. by rewrite filter_app, length_app. Qed.

(** * Atomic objects

    The effect of a call on the state of the object, and its answer; [None] is a
    trap.  A call takes effect at one moment between its start and its answer. *)

Context {X : Type} (effect : C -> X -> option Z * X).

Inductive athread :=
| AIdle
| APending (c : C)
| ADone (c : C) (r : option Z)
| ADead.

Notation aconfig := (X * list athread)%type.

Inductive astep : aconfig -> list label -> aconfig -> Prop :=
| astep_invoke x ts i c :
    ts !! i = Some AIdle -> astep (x, ts) [Invoke i c] (x, <[i := APending c]> ts)
| astep_effect x ts i c r x' :
    ts !! i = Some (APending c) -> effect c x = (r, x') -> astep (x, ts) [] (x', <[i := ADone c r]> ts)
| astep_respond x ts i c r :
    ts !! i = Some (ADone c (Some r)) -> astep (x, ts) [Respond i c r] (x, <[i := AIdle]> ts)
| astep_fault x ts i c :
    ts !! i = Some (ADone c None) -> astep (x, ts) [Fault i c] (x, <[i := ADead]> ts).

Inductive aexecution : aconfig -> list label -> aconfig -> Prop :=
| aexecution_nil g : aexecution g [] g
| aexecution_snoc g tr g' l g'' : aexecution g tr g' -> astep g' l g'' -> aexecution g (tr ++ l) g''.

(** ** Implementing one

    [rep] relates the memory to the state of the object; [sim c t a] says where in
    its code a call [c] is when the atomic object has [a] for it. *)

Record implements (rep : memory -> X -> Prop) (sim : C -> code Z -> athread -> Prop) : Prop := {
  im_start c : sim c (prog c) (APending c);
  im_return c t a r : sim c t a -> observe t = RetF r -> a = ADone c (Some r);
  im_tau c t a t' : sim c t a -> observe t = TauF t' -> sim c t' a;
  im_trap c t a x :
    sim c t a -> at_trap (observe t) = true -> a = ADone c None \/ a = APending c /\ effect c x = (None, x);
  im_builtin c t a t' m m' x :
    sim c t a -> builtin_step (observe t) m = Some (t', m') -> rep m x ->
    (rep m' x /\ sim c t' a) \/
    (a = APending c /\ exists r x', effect c x = (r, x') /\ rep m' x' /\ sim c t' (ADone c r));
}.

Context {rep : memory -> X -> Prop} {sim : C -> code Z -> athread -> Prop} (Himp : implements rep sim).

Inductive thread_sim : thread -> athread -> Prop :=
| sim_idle : thread_sim Idle AIdle
| sim_running c t a : sim c t a -> thread_sim (Running c t) a
| sim_dead : thread_sim Dead ADead.

Definition config_sim (g : config) (h : aconfig) : Prop := rep g.1 h.1 /\ Forall2 thread_sim g.2 h.2.

Lemma aexecution_one g l g' : astep g l g' -> aexecution g l g'.
Proof. intros H. apply (aexecution_snoc g [] g l g'); [constructor | done]. Qed.

Lemma aexecution_app g tr g' tr' g'' : aexecution g tr g' -> aexecution g' tr' g'' -> aexecution g (tr ++ tr') g''.
Proof.
  intros H H'. induction H' as [| g' tr' h l h' H' IH Hs]; [by rewrite app_nil_r |].
  rewrite app_assoc. econstructor; [by apply IH | done].
Qed.

(** A step of the threads is some steps of the object. *)
Lemma step_simulated g l g' h :
  step g l g' -> config_sim g h -> exists h', config_sim g' h' /\ aexecution h l h'.
Proof.
  destruct h as [x as']. intros Hs [Hr Ht]. cbn in Hr, Ht.
  destruct Hs as [m ts i c Ei | m ts i c t r Ei E | m ts i c t t' Ei E | m ts i c t t' m' Ei E | m ts i c t Ei E];
    cbn in Hr, Ht; destruct (Forall2_lookup_l _ _ _ _ _ Ht Ei) as (a & Ea & Hsim); inversion Hsim as [| ??? Hc |]; subst; cbn.
  - exists (x, <[i := APending c]> as'). split; [split; [done |] | apply aexecution_one; by constructor].
    apply Forall2_insert; [done |]. constructor. apply (im_start _ _ Himp).
  - rewrite (im_return _ _ Himp _ _ _ _ Hc E) in Ea.
    exists (x, <[i := AIdle]> as'). split; [split; [done |] | apply aexecution_one; by econstructor].
    apply Forall2_insert; [done | constructor].
  - exists (x, as'). split; [split; [done |] | constructor].
    rewrite <- (list_insert_id as' i a Ea). apply Forall2_insert; [done |]. constructor. by apply (im_tau _ _ Himp _ t).
  - destruct (im_builtin _ _ Himp _ _ _ _ _ _ _ Hc E Hr) as [[Hr' Hs'] | (-> & r & x' & He & Hr' & Hs')].
    + exists (x, as'). split; [split; [done |] | constructor].
      rewrite <- (list_insert_id as' i a Ea). apply Forall2_insert; [done |]. by constructor.
    + exists (x', <[i := ADone c r]> as'). split; [split; [done |] | apply aexecution_one; by econstructor].
      apply Forall2_insert; [done |]. by constructor.
  - exists (x, <[i := ADead]> as'). split; [split; [done |]; apply Forall2_insert; [done | constructor] |].
    destruct (im_trap _ _ Himp _ _ _ x Hc E) as [-> | [-> He]].
    + apply aexecution_one. by econstructor.
    + apply (aexecution_app _ [] (x, <[i := ADone c None]> as')); apply aexecution_one; [by econstructor |].
      rewrite <- (list_insert_insert_eq as' i ADead (ADone c None)). econstructor.
      apply list_lookup_insert_eq. by eapply lookup_lt_Some.
Qed.

(** Every trace of the threads is a trace of the object. *)
Lemma execution_simulated g n tr g' h :
  execution g n tr g' -> config_sim g h -> exists h', config_sim g' h' /\ aexecution h tr h'.
Proof.
  intros He Hg. induction He as [| g n tr g' l g'' He IH Hs]; [by exists h; split; [| constructor] |].
  destruct (IH Hg) as (h' & Hh & Ha). destruct (step_simulated _ _ _ _ Hs Hh) as (h'' & Hh' & Hs').
  exists h''. split; [done |]. by apply (aexecution_app _ _ h').
Qed.

Lemma idle_sim s a : (forall c t, ~ sim c t AIdle) -> thread_sim s a -> s = Idle <-> a = AIdle.
Proof. intros Hn []; split; try done. intros ->. by destruct (Hn c t). Qed.

Lemma config_sim_idle m x n : rep m x -> config_sim (m, replicate n Idle) (x, replicate n AIdle).
Proof. intros Hr. split; [done |]. cbn. apply Forall2_replicate; constructor. Qed.
End Threads.

Arguments Idle {C}. Arguments Running {C}. Arguments Dead {C}.
Arguments Invoke {C}. Arguments Respond {C}. Arguments Fault {C}.
Arguments invocations {C}. Arguments is_invocation {C}.
Arguments AIdle {C}. Arguments APending {C}. Arguments ADone {C}. Arguments ADead {C}.
