(* ===== verification/CoreRefcount.v ===== *)
(** Reference counts under interleaving: the loops of core_runtime.h implement an
    atomic counter, and a bounded number of calls takes a bounded number of steps. *)

From Stdlib Require Import ZArith Lia.
From ITree Require Import Core.ITreeDefinition.
From stdpp Require Import base numbers tactics gmap list_numbers list.
From S2P Require Import Prelude CoreRuntimeLayout CoreRuntime Interleaving.

Open Scope Z_scope.

(** The calls on one reference count and their code; a void function answers 0, and an
    argument is converted to its type. *)
Inductive refcount_call :=
| Increment
| IncrementNotZero
| DecrementAndTest
| ReadCount
| SetCount (value : Z).

Definition refcount_code (refcount : Z) (c : refcount_call) : code Z :=
  match c with
  | Increment => _ ← kb2_core_refcount_increment refcount; mret 0
  | IncrementNotZero => kb2_core_refcount_increment_not_zero refcount
  | DecrementAndTest => kb2_core_refcount_decrement_and_test refcount
  | ReadCount => kb2_core_refcount_read refcount
  | SetCount value => _ ← kb2_core_refcount_set refcount (u32 value); mret 0
  end.

(** The atomic counter: its value is 2^32 - 1 once it is saturated, and a saturated
    counter faults every call but a read and a new start. *)
Definition refcount_effect (c : refcount_call) (n : Z) : option Z * Z :=
  match c with
  | Increment => if (n =? 0) || (U32_MAX - 1 <=? n) then (None, U32_MAX) else (Some 0, n + 1)
  | IncrementNotZero =>
      if n =? 0 then (Some 0, 0) else if U32_MAX - 1 <=? n then (None, U32_MAX) else (Some 1, n + 1)
  | DecrementAndTest =>
      if (n =? 0) || (n =? U32_MAX) then (None, U32_MAX) else (Some (if n =? 1 then 1 else 0), n - 1)
  | ReadCount => (Some n, n)
  | SetCount value => if u32 value =? U32_MAX then (None, n) else (Some 0, u32 value)
  end.

(** The exchange of a loop: what it does, where it ends and where it goes on. *)
Ltac exchange_step :=
  rewrite ?observe_bind; cbn; do 2 eexists; split; [reflexivity |]; split; [reflexivity |];
  intros; rewrite ?observe_bind; cbn; eexists; split; [reflexivity |]; rewrite ?observe_bind; reflexivity.

Section Refcount.
Context (refcount : Z) (Hgood : bad_refcount refcount = false).

Notation call_code := (refcount_code refcount).

(** The rest of a call after a read of [v]. *)
Definition after (c : refcount_call) (v : Z) : code Z :=
  match c with
  | Increment => _ ← ITree.iter (increment_body refcount) v; mret 0
  | IncrementNotZero => ITree.iter (increment_not_zero_body refcount) v
  | DecrementAndTest => ITree.iter (decrement_and_test_body refcount) v
  | _ => Ret v
  end.

(** The value read decides the call without another builtin. *)
Definition settled (c : refcount_call) (v : Z) : bool :=
  match c with
  | Increment | DecrementAndTest => v =? U32_MAX
  | IncrementNotZero => (v =? 0) || (v =? U32_MAX)
  | _ => true
  end.

Definition loops (c : refcount_call) : bool := match c with SetCount _ => false | _ => true end.

(** The next thing a program does is to end with the answer [r]. *)
Definition ends (t : code Z) (r : option Z) : Prop :=
  match r with Some r => observe t = RetF r | None => at_trap (observe t) = true end.

Lemma code_loads c :
  loops c = true -> exists k, observe (call_code c) = VisF (Load refcount ORDER_RELAXED) k /\
    forall v, observe (k v) = observe (after c v).
Proof.
  destruct c; try done; intros _; unfold refcount_code, kb2_core_refcount_increment, kb2_core_refcount_increment_not_zero,
    kb2_core_refcount_decrement_and_test, kb2_core_refcount_read; rewrite Hgood, ?observe_bind; cbn; eexists; split; reflexivity.
Qed.

Lemma code_stores v :
  (u32 v =? U32_MAX) = false ->
  exists k, observe (call_code (SetCount v)) = VisF (Store refcount (u32 v) ORDER_RELAXED) k /\ ends (k tt) (Some 0).
Proof.
  intros Hv. unfold refcount_code, kb2_core_refcount_set. rewrite Hgood, Hv. cbn [orb]. rewrite observe_bind. cbn. eexists. split; reflexivity.
Qed.

Lemma code_faults v : (u32 v =? U32_MAX) = true -> at_trap (observe (call_code (SetCount v))) = true.
Proof. intros Hv. unfold refcount_code, kb2_core_refcount_set. rewrite Hgood, Hv. reflexivity. Qed.

Lemma starts_builtin c : exists T (e : atomicE T) k, observe (call_code c) = VisF e k.
Proof.
  destruct (loops c) eqn:Hl; [destruct (code_loads c Hl) as (k & -> & _); by do 3 eexists |].
  destruct c as [| | | | v]; try done. destruct (u32 v =? U32_MAX) eqn:E.
  - pose proof (code_faults v E) as Hf. destruct (observe _) as [| | T e k]; try done. by do 3 eexists.
  - destruct (code_stores v E) as (k & -> & _). by do 3 eexists.
Qed.

Lemma after_settled c v : settled c v = true -> loops c = true -> ends (after c v) (refcount_effect c v).1 /\ (refcount_effect c v).2 = v.
Proof.
  destruct c; cbn [settled loops after refcount_effect]; try done.
  - intros ->%Z.eqb_eq _. split; reflexivity.
  - rewrite orb_true_iff. intros [->%Z.eqb_eq | ->%Z.eqb_eq] _; split; reflexivity.
  - intros ->%Z.eqb_eq _. split; reflexivity.
Qed.

(** An undecided call compares and exchanges: on success it is over, otherwise it
    goes on with the value it saw. *)
Lemma after_pending c v :
  loops c = true -> settled c v = false -> is_u32 v ->
  exists order k, observe (after c v) = VisF (CompareExchange refcount v (refcount_effect c v).2 order ORDER_RELAXED) k /\
    ends (k (true, v)) (refcount_effect c v).1 /\
    forall w, exists t, observe (k (false, w)) = TauF t /\ observe t = observe (after c w).
Proof.
  intros Hl Hs Hr. assert (Hv : 0 <= v <= U32_MAX) by (unfold is_u32, U32_MAX in *; lia).
  assert (Hmax : v <> U32_MAX -> (U32_MAX - 1 <=? v) = (v =? U32_MAX - 1)) by lia.
  assert (Hu : v <> U32_MAX -> u32 (v + 1) = v + 1) by (intros; apply u32_small; unfold is_u32, U32_MAX in *; lia).
  assert (Hd : v <> 0 -> u32 (v - 1) = v - 1) by (intros; apply u32_small; unfold is_u32, U32_MAX in *; lia).
  destruct c; cbn [settled loops] in *; try done; unfold after, refcount_effect;
    rewrite ?observe_bind, observe_iter, observe_bind.
  - rewrite Hmax by lia. unfold increment_body at 1. rewrite Hs.
    destruct ((v =? 0) || (v =? U32_MAX - 1)); [exchange_step |]. rewrite Hu by lia. exchange_step.
  - rewrite Hmax by lia. apply orb_false_iff in Hs as [Hz Hs]. unfold increment_not_zero_body at 1. rewrite Hz, Hs.
    destruct (v =? U32_MAX - 1); [exchange_step |]. rewrite Hu by lia. exchange_step.
  - unfold decrement_and_test_body at 1. rewrite Hs.
    destruct (v =? 0) eqn:E; cbn [orb]; [exchange_step |]. rewrite Hd by lia. exchange_step.
Qed.

(** * The simulation *)

(** Where a call is in its code, and the state of the atomic call: a value that
    decides the call has taken effect when it was read. *)
Definition after_state (c : refcount_call) (v : Z) : athread :=
  if settled c v then ADone c (refcount_effect c v).1 else APending c.

Inductive call_sim (c : refcount_call) (t : code Z) : athread -> Prop :=
| at_start : observe t = observe (call_code c) -> call_sim c t (APending c)
| at_value v : loops c = true -> is_u32 v -> observe t = observe (after c v) -> call_sim c t (after_state c v)
| at_tau v t' : loops c = true -> is_u32 v -> observe t = TauF t' -> observe t' = observe (after c v) ->
    call_sim c t (after_state c v)
| at_end r : ends t r -> call_sim c t (ADone c r).

Context (m0 : memory).
Definition holds (m : memory) (n : Z) : Prop := is_u32 n /\ m = <[refcount := n]> m0.

Lemma effect_u32 c n : is_u32 n -> is_u32 (refcount_effect c n).2.
Proof.
  intros Hn. destruct c; cbn [refcount_effect]; repeat case_match; cbn; try done; try apply u32_range;
    unfold is_u32, U32_MAX in *; lia.
Qed.

Lemma after_ends c v t :
  loops c = true -> observe t = observe (after c v) -> settled c v = true -> ends t (refcount_effect c v).1.
Proof.
  intros Hl Ht Hs. destruct (after_settled c v Hs Hl) as [He _]. unfold ends in *. by rewrite Ht.
Qed.

Lemma ends_returns t r x : ends t r -> observe t = RetF x -> r = Some x.
Proof. intros He E. destruct r as [r |]; cbn in He; rewrite E in He; [by injection He as -> | done]. Qed.

Lemma ends_traps t r : ends t r -> at_trap (observe t) = true -> r = None.
Proof. intros He E. destruct r as [r |]; cbn in He; [| done]. by rewrite He in E. Qed.

Lemma ends_stops t r m : ends t r -> builtin_step (observe t) m = None.
Proof.
  intros He. destruct r as [r |]; cbn in He; [by rewrite He |]. destruct (observe t) as [| | T e k]; try done. by destruct e.
Qed.

(** A builtin of a loop. *)
Lemma loop_builtin c v m n t t' m' :
  loops c = true -> is_u32 v -> holds m n -> observe t = observe (after c v) -> builtin_step (observe t) m = Some (t', m') ->
  settled c v = false /\
  ((n = v /\ m' = <[refcount := (refcount_effect c n).2]> m /\ ends t' (refcount_effect c n).1) \/
   (n <> v /\ m' = m /\ exists u, observe t' = TauF u /\ observe u = observe (after c n))).
Proof.
  intros Hl Hv [Hn ->] Ht Hb. destruct (settled c v) eqn:Hs.
  - by rewrite (ends_stops t (refcount_effect c v).1) in Hb by by apply after_ends.
  - split; [done |]. destruct (after_pending c v Hl Hs Hv) as (o & k & E & He & Hk).
    rewrite Ht, E in Hb. cbn in Hb. rewrite lookup_insert_eq in Hb. cbn in Hb. case_match eqn:Ec.
    + apply Z.eqb_eq in Ec as ->. injection Hb as <- <-. left. by repeat split.
    + apply Z.eqb_neq in Ec. injection Hb as <- <-. right. split; [done |]. split; [done |]. apply Hk.
Qed.

(** A read of the current value: it takes effect there and then if it decides. *)
Lemma read_outcome c t n m :
  loops c = true -> holds m n -> call_sim c t (after_state c n) ->
  (holds m n /\ call_sim c t (APending c)) \/
  (APending c = APending c /\ exists r n', refcount_effect c n = (r, n') /\ holds m n' /\ call_sim c t (ADone c r)).
Proof.
  intros Hl Hm Hs. unfold after_state in Hs. destruct (settled c n) eqn:Es; [| by left].
  destruct (after_settled c n Es Hl) as [_ En]. right. split; [done |].
  exists (refcount_effect c n).1, n. split; [| done]. destruct (refcount_effect c n). cbn in *. by subst.
Qed.

Lemma refcount_implements : implements call_code refcount_effect holds call_sim.
Proof.
  split.
  - intros c. by apply at_start.
  - intros c t a r [Ht | v Hl Hv Ht | v t' Hl Hv Ht Ht' | r' He] E; [| | congruence | by rewrite (ends_returns t r' r)].
    + destruct (starts_builtin c) as (T & e & k & Ek). congruence.
    + unfold after_state. destruct (settled c v) eqn:Es.
      * by rewrite (ends_returns t (refcount_effect c v).1 r) by (done || by apply after_ends).
      * destruct (after_pending c v Hl Es Hv) as (o & k & Ek & _). congruence.
  - intros c t a t' [Ht | v Hl Hv Ht | v u Hl Hv Ht Hu | r' He] E.
    + destruct (starts_builtin c) as (T & e & k & Ek). congruence.
    + destruct (settled c v) eqn:Es.
      * pose proof (after_ends c v t Hl Ht Es) as He. destruct (refcount_effect c v).1; cbn in He; rewrite E in He; done.
      * destruct (after_pending c v Hl Es Hv) as (o & k & Ek & _). congruence.
    + rewrite Ht in E. injection E as ->. by apply at_value.
    + destruct r' as [r' |]; cbn in He; rewrite E in He; done.
  - intros c t a x [Ht | v Hl Hv Ht | v u Hl Hv Ht Hu | r' He] E; [| | by rewrite Ht in E | left; by rewrite (ends_traps t r')].
    + destruct (loops c) eqn:Hl; [destruct (code_loads c Hl) as (k & Ek & _); by rewrite Ht, Ek in E |].
      destruct c as [| | | | v]; try done. cbn [refcount_effect]. destruct (u32 v =? U32_MAX) eqn:Ev; [by right |].
      destruct (code_stores v Ev) as (k & Ek & _). by rewrite Ht, Ek in E.
    + unfold after_state. destruct (settled c v) eqn:Es.
      * left. by rewrite (ends_traps t (refcount_effect c v).1) by (done || by apply after_ends).
      * destruct (after_pending c v Hl Es Hv) as (o & k & Ek & _). by rewrite Ht, Ek in E.
  - intros c t a t' m m' n [Ht | v Hl Hv Ht | v u Hl Hv Ht Hu | r' He] E Hm;
      [| | by rewrite Ht in E | by rewrite (ends_stops t r') in E].
    + destruct (loops c) eqn:Hl.
      * destruct (code_loads c Hl) as (k & Ek & Hk). rewrite Ht, Ek in E. destruct Hm as [Hn ->]. cbn in E.
        rewrite lookup_insert_eq in E. injection E as <- <-.
        by apply (read_outcome c _ n _ Hl (conj Hn eq_refl)), at_value.
      * destruct c as [| | | | v]; try done. destruct Hm as [Hn ->]. destruct (u32 v =? U32_MAX) eqn:Ev.
        -- pose proof (code_faults v Ev) as Hf. rewrite Ht in E. by rewrite (ends_stops _ None) in E.
        -- destruct (code_stores v Ev) as (k & Ek & Hk). rewrite Ht, Ek in E. cbn in E.
           rewrite lookup_insert_eq in E. injection E as <- <-. right. split; [done |].
           exists (Some 0), (u32 v). cbn [refcount_effect]. rewrite Ev. split; [done |].
           split; [split; [apply u32_range | by rewrite insert_insert_eq] | by apply at_end].
    + destruct (loop_builtin c v m n t t' m' Hl Hv Hm Ht E) as [Es [(-> & -> & He) | (Hne & -> & u & Hu & Hu')]];
        unfold after_state at 1 2; rewrite Es.
      * right. split; [done |]. exists (refcount_effect c v).1, (refcount_effect c v).2. split; [by destruct (refcount_effect c v) |].
        destruct Hm as [Hn ->]. split; [split; [by apply effect_u32 | by rewrite insert_insert_eq] | by apply at_end].
      * apply (read_outcome c _ n _ Hl Hm). by apply (at_tau _ _ n u); [| apply Hm | |].
Qed.

Lemma call_sim_active c t : ~ call_sim c t AIdle.
Proof. intros H. inversion H; unfold after_state in *; by case_match. Qed.

(** * The number of steps

    What a call has left to do while the count is [n]: to read, to exchange, to start
    over, to answer.  An exchange that succeeds may make the exchange of every other
    thread fail once; a call that has not taken effect pays for that, two steps for
    each of the [threads]. *)

Context (threads : nat).

Inductive call_cost (n : Z) (c : refcount_call) (t : code Z) (k : nat) : Prop :=
| cost_start : observe t = observe (call_code c) -> (3 + 2 * threads <= k)%nat -> call_cost n c t k
| cost_value v : loops c = true -> is_u32 v -> settled c v = false -> observe t = observe (after c v) ->
    ((if decide (v = n) then 2 else 4) + 2 * threads <= k)%nat -> call_cost n c t k
| cost_tau v t' : loops c = true -> is_u32 v -> settled c v = false -> observe t = TauF t' -> observe t' = observe (after c v) ->
    ((if decide (v = n) then 3 else 5) + 2 * threads <= k)%nat -> call_cost n c t k
| cost_ends_tau t' r : observe t = TauF t' -> ends t' r -> (2 <= k)%nat -> call_cost n c t k
| cost_ends r : ends t r -> (1 <= k)%nat -> call_cost n c t k.

Definition thread_cost (n : Z) (s : thread) (k : nat) : Prop :=
  match s with Running c t => call_cost n c t k | _ => True end.

(** Another thread changes the count. *)
Lemma thread_cost_change n n' s k : thread_cost n s k -> thread_cost n' s (k + 2).
Proof.
  destruct s as [| c t |]; [done | | done]. intros [Ht H | v Hl Hv Hs Ht H | v t' Hl Hv Hs Ht Ht' H | t' r Ht Hr H | r Hr H].
  - apply cost_start; [done | lia].
  - apply (cost_value _ _ _ _ v); try done. repeat case_decide; lia.
  - apply (cost_tau _ _ _ _ v t'); try done. repeat case_decide; lia.
  - apply (cost_ends_tau _ _ _ _ t' r); try done. lia.
  - apply (cost_ends _ _ _ _ r); try done. lia.
Qed.

Lemma cost_observed n c t k :
  loops c = true -> is_u32 n -> observe t = observe (after c n) -> (2 + 2 * threads <= k)%nat -> call_cost n c t k.
Proof.
  intros Hl Hn Ht Hk. destruct (settled c n) eqn:Es.
  - apply (cost_ends _ _ _ _ (refcount_effect c n).1); [by apply after_ends | lia].
  - apply (cost_value _ _ _ _ n); try done. by rewrite decide_True.
Qed.

(** A builtin costs one step, or changes the count and ends the call. *)
Lemma builtin_cost n c t k t' m m' :
  holds m n -> call_cost n c t k -> builtin_step (observe t) m = Some (t', m') ->
  (m' = m /\ exists k', (k' < k)%nat /\ call_cost n c t' k') \/
  (exists n', holds m' n' /\ (2 + 2 * threads <= k)%nat /\ call_cost n' c t' 1).
Proof.
  intros Hm Hc E. destruct Hc as [Ht H | v Hl Hv Hs Ht H | v u Hl Hv Hs Ht Hu H | u r Ht Hr H | r Hr H];
    [| | by rewrite Ht in E | by rewrite Ht in E | by rewrite (ends_stops t r) in E].
  - destruct (loops c) eqn:Hl.
    + destruct (code_loads c Hl) as (h & Eh & Hh). rewrite Ht, Eh in E. destruct Hm as [Hn ->]. cbn in E.
      rewrite lookup_insert_eq in E. injection E as <- <-. left. split; [done |].
      exists (2 + 2 * threads)%nat. split; [lia |]. by apply cost_observed.
    + destruct c as [| | | | v]; try done. destruct Hm as [Hn ->]. destruct (u32 v =? U32_MAX) eqn:Ev.
      * pose proof (code_faults v Ev) as Hf. rewrite Ht in E. by rewrite (ends_stops _ None) in E.
      * destruct (code_stores v Ev) as (h & Eh & Hh). rewrite Ht, Eh in E. cbn in E.
        rewrite lookup_insert_eq in E. injection E as <- <-. right. exists (u32 v).
        split; [split; [apply u32_range | by rewrite insert_insert_eq] |]. split; [lia |]. by apply (cost_ends _ _ _ _ (Some 0)).
  - destruct (loop_builtin c v m n t t' m' Hl Hv Hm Ht E) as [Es [(-> & -> & He) | (Hne & -> & u & Hu & Hu')]].
    + right. exists (refcount_effect c v).2. destruct Hm as [Hn ->].
      split; [split; [by apply effect_u32 | by rewrite insert_insert_eq] |]. split; [case_decide; lia | by eapply cost_ends].
    + left. split; [done |]. rewrite decide_False in H by done. exists (3 + 2 * threads)%nat. split; [lia |].
      destruct Hm as [Hn _]. destruct (settled c n) eqn:En.
      * apply (cost_ends_tau _ _ _ _ u (refcount_effect c n).1); [done | by apply after_ends | lia].
      * apply (cost_tau _ _ _ _ n u); try done. by rewrite decide_True.
Qed.

Lemma call_cost_pos n c t k : call_cost n c t k -> (1 <= k)%nat.
Proof. intros []; repeat case_decide; lia. Qed.

Lemma tau_cost n c t k t' : call_cost n c t k -> observe t = TauF t' -> exists k', (k' < k)%nat /\ call_cost n c t' k'.
Proof.
  intros Hc E. pose proof (call_cost_pos _ _ _ _ Hc) as Hpos.
  destruct Hc as [Ht H | v Hl Hv Hs Ht H | v u Hl Hv Hs Ht Hu H | u r Ht Hr H | r Hr H].
  - destruct (starts_builtin c) as (T & e & h & Eh). congruence.
  - destruct (after_pending c v Hl Hs Hv) as (o & h & Eh & _). congruence.
  - rewrite Ht in E. injection E as ->. exists (k - 1)%nat. split; [lia |].
    apply (cost_value _ _ _ _ v); try done. repeat case_decide; lia.
  - rewrite Ht in E. injection E as ->. exists 1%nat. split; [lia |]. by apply (cost_ends _ _ _ _ r).
  - destruct r as [r |]; cbn in Hr; rewrite E in Hr; done.
Qed.

Definition costs (n : Z) (ts : list thread) (ks : list nat) : Prop := Forall2 (thread_cost n) ts ks.

Lemma step_cost m ts l m' ts' n ks :
  step call_code (m, ts) l (m', ts') -> holds m n -> costs n ts ks -> length ts = threads ->
  exists n' ks', holds m' n' /\ costs n' ts' ks' /\ length ts' = threads /\
    (1 + sum_list ks' <= sum_list ks + (4 + 2 * threads) * invocations l)%nat.
Proof.
  intros Hs Hm Hc Hl. inversion Hs as [? ? i c Ei | ? ? i c t r Ei E | ? ? i c t t' Ei E | ? ? i c t t' ? Ei E | ? ? i c t Ei E];
    subst; destruct (Forall2_lookup_l _ _ _ _ _ Hc Ei) as (k & Ek & Hk); cbn [thread_cost] in Hk; rewrite ?length_insert.
  - exists n, (<[i := (3 + 2 * length ts)%nat]> ks). split; [done |].
    split; [apply Forall2_insert; [done |]; apply cost_start; [done | lia] |]. split; [done |].
    pose proof (sum_list_insert ks i (3 + 2 * length ts) k Ek). change (invocations [Invoke i c]) with 1%nat. lia.
  - exists n, (<[i := 0%nat]> ks). split; [done |]. split; [by apply Forall2_insert |]. split; [done |].
    pose proof (sum_list_insert ks i 0 k Ek). apply call_cost_pos in Hk. lia.
  - destruct (tau_cost _ _ _ _ _ Hk E) as (k' & Hlt & Hk'). exists n, (<[i := k']> ks). split; [done |].
    split; [by apply Forall2_insert |]. split; [done |]. pose proof (sum_list_insert ks i k' k Ek). lia.
  - destruct (builtin_cost _ _ _ _ _ _ _ Hm Hk E) as [[-> (k' & Hlt & Hk')] | (n' & Hm' & Hge & Hk')].
    + exists n, (<[i := k']> ks). split; [done |]. split; [by apply Forall2_insert |]. split; [done |].
      pose proof (sum_list_insert ks i k' k Ek). lia.
    + exists n', (<[i := 1%nat]> ((fun k => k + 2)%nat <$> ks)). split; [done |]. split.
      * apply Forall2_insert; [| done]. apply Forall2_fmap_r. eapply Forall2_impl; [done |]. intros s k'. apply thread_cost_change.
      * split; [done |]. pose proof (sum_list_shift 2 ks) as Hshift.
        assert (Ek' : ((fun k => k + 2)%nat <$> ks) !! i = Some (k + 2)%nat) by (by rewrite list_lookup_fmap, Ek).
        pose proof (sum_list_insert _ _ 1%nat _ Ek'). pose proof (Forall2_length _ _ _ Hc). lia.
  - exists n, (<[i := 0%nat]> ks). split; [done |]. split; [by apply Forall2_insert |]. split; [done |].
    pose proof (sum_list_insert ks i 0 k Ek). apply call_cost_pos in Hk. lia.
Qed.

Lemma execution_cost n0 cnt tr m' ts :
  is_u32 n0 -> execution call_code (<[refcount := n0]> m0, replicate threads Idle) cnt tr (m', ts) ->
  exists n ks, holds m' n /\ costs n ts ks /\ length ts = threads /\
    (cnt + sum_list ks <= (4 + 2 * threads) * invocations tr)%nat.
Proof.
  intros Hn He. remember (<[refcount := n0]> m0, replicate threads Idle) as g eqn:Eg. remember (m', ts) as g' eqn:Eg'.
  revert m' ts Eg'. induction He as [| g cnt tr [m ts] l g'' He IH Hs]; intros m' ts' ->.
  - injection Eg as -> ->. exists n0, (replicate threads 0%nat). split; [done |].
    split; [by apply Forall2_replicate |]. rewrite length_replicate, sum_list_replicate. split; [done |]. lia.
  - destruct (IH Eg m ts eq_refl) as (n & ks & Hm & Hc & Hl & Hle).
    destruct (step_cost _ _ _ _ _ _ _ Hs Hm Hc Hl) as (n' & ks' & Hm' & Hc' & Hl' & Hle').
    exists n', ks'. split; [done |]. split; [done |]. split; [done |]. rewrite invocations_app. lia.
Qed.

(** An unfinished call can go on. *)
Lemma running_advances n c t k m ts i :
  holds m n -> ts !! i = Some (Running c t) -> call_cost n c t k -> is_Some (advance call_code (m, ts) (i, None)).
Proof.
  intros [Hn ->] Ei Hc. cbn. rewrite Ei.
  assert (Hends : forall r, ends t r -> is_Some (advance call_code (<[refcount := n]> m0, ts) (i, None))).
  { intros r Hr. cbn. rewrite Ei. destruct r as [r |]; cbn in Hr; [by rewrite Hr |].
    destruct (observe t) as [| | T e h]; try done. cbn in *. by rewrite Hr. }
  cbn in Hends. rewrite Ei in Hends.
  destruct Hc as [Ht H | v Hl Hv Hs Ht H | v u Hl Hv Hs Ht Hu H | u r Ht Hr H | r Hr H]; [| | by rewrite Ht | by rewrite Ht | by apply (Hends r)].
  - destruct (loops c) eqn:Hl.
    + destruct (code_loads c Hl) as (h & Eh & _). rewrite Ht, Eh. cbn. by rewrite lookup_insert_eq.
    + destruct c as [| | | | v]; try done. destruct (u32 v =? U32_MAX) eqn:Ev.
      * apply (Hends None). cbn. rewrite Ht. by apply code_faults.
      * destruct (code_stores v Ev) as (h & Eh & _). rewrite Ht, Eh. cbn. by rewrite lookup_insert_eq.
  - destruct (after_pending c v Hl Hs Hv) as (o & h & Eh & _). rewrite Ht, Eh. cbn. rewrite lookup_insert_eq. cbn. destruct (n =? v); by eexists.
Qed.
End Refcount.
