(* ===== verification/CoreOwnership.v ===== *)
(** Threads that own references: as long as nobody gives up a reference it does not
    hold, the atomic counter of [CoreRefcount] never faults and reports the last
    release exactly once, when nobody holds a reference any more. *)

From Stdlib Require Import ZArith Lia.
From stdpp Require Import base numbers tactics gmap list_numbers list.
From S2P Require Import Prelude CoreRuntime Interleaving CoreRefcount.

Open Scope Z_scope.

(** * The books

    A thread gains a reference when an increment has answered, and gives one up when it
    calls a decrement. *)

Definition credit (i : nat) (h : list nat) : list nat := match h !! i with Some k => <[i := S k]> h | None => h end.
Definition debit (i : nat) (h : list nat) : list nat := match h !! i with Some k => <[i := pred k]> h | None => h end.

Definition account (h : list nat) (l : label (C := refcount_call)) : list nat :=
  match l with
  | Invoke i DecrementAndTest => debit i h
  | Respond i Increment _ => credit i h
  | Respond i IncrementNotZero r => if r =? 1 then credit i h else h
  | _ => h
  end.

Definition holdings (h : list nat) (tr : list label) : list nat := foldl account h tr.

(** The calls a thread may make: an increment or a decrement if it holds a reference, a
    conditional increment always, and in all fewer than 2^32 - 2 references. *)
Definition allowed (h : list nat) (l : label) : Prop :=
  match l with
  | Invoke i Increment => (exists k, h !! i = Some (S k)) /\ Z.of_nat (sum_list h + length h) < U32_MAX - 1
  | Invoke i IncrementNotZero => Z.of_nat (sum_list h + length h) < U32_MAX - 1
  | Invoke i DecrementAndTest => exists k, h !! i = Some (S k)
  | Invoke _ (SetCount _) => False
  | _ => True
  end.

Fixpoint disciplined (h : list nat) (tr : list label) : Prop :=
  match tr with [] => True | l :: tr => allowed h l /\ disciplined (account h l) tr end.

(** The last releases reported. *)
Definition is_release (l : label) : bool := match l with Respond _ DecrementAndTest r => r =? 1 | _ => false end.
Definition releases (tr : list label) : nat := length (filter (fun l => is_release l = true) tr).
Definition is_fault (l : label (C := refcount_call)) : bool := match l with Fault _ _ => true | _ => false end.

Lemma disciplined_app h tr tr' : disciplined h (tr ++ tr') <-> disciplined h tr /\ disciplined (holdings h tr) tr'.
Proof. revert h. induction tr as [| l tr IH]; intros h; cbn; [tauto |]. rewrite IH. tauto. Qed.

Lemma holdings_app h tr tr' : holdings h (tr ++ tr') = holdings (holdings h tr) tr'.
Proof. apply foldl_app. Qed.

Lemma releases_app tr tr' : releases (tr ++ tr') = (releases tr + releases tr')%nat.
Proof. unfold releases. by rewrite filter_app, length_app. Qed.

Lemma releases_one l : releases [l] = if is_release l then 1%nat else 0%nat.
Proof. unfold releases. rewrite filter_cons, filter_nil. by destruct (is_release l). Qed.

Lemma length_account h l : length (account h l) = length h.
Proof. unfold account, credit, debit. repeat case_match; rewrite ?length_insert; done. Qed.

(** * The invariant *)

(** References that are counted but not held: a decrement that has not taken effect, an
    increment that has and has not answered. *)
Definition in_flight (a : athread) : nat :=
  match a with
  | APending DecrementAndTest => 1
  | ADone Increment _ => 1
  | ADone IncrementNotZero (Some r) => if r =? 1 then 1 else 0
  | _ => 0
  end.

(** Increments to come, and last releases to be reported. *)
Definition to_come (a : athread) : nat :=
  match a with APending Increment | APending IncrementNotZero => 1 | _ => 0 end.
Definition to_report (a : athread) : nat :=
  match a with ADone DecrementAndTest (Some r) => if r =? 1 then 1 else 0 | _ => 0 end.

Definition in_order (a : athread) (k : nat) : Prop :=
  match a with
  | APending Increment => (0 < k)%nat
  | APending (SetCount _) | ADone _ None | ADead => False
  | _ => True
  end.

Record books (h : list nat) (n : Z) (ts : list athread) (released : nat) : Prop := {
  bk_orderly : Forall2 in_order ts h;
  bk_count : n = Z.of_nat (sum_list h + sum_list (in_flight <$> ts));
  bk_bound : n + Z.of_nat (sum_list (to_come <$> ts)) < U32_MAX - 1;
  bk_released : (released + sum_list (to_report <$> ts))%nat = if n =? 0 then 1%nat else 0%nat;
}.

(** A thread counts once. *)
Lemma counted_once ts : (sum_list (in_flight <$> ts) + sum_list (to_come <$> ts) <= length ts)%nat.
Proof.
  induction ts as [| a ts IH]; [done |]. cbn [length]. rewrite !fmap_cons, !sum_list_cons.
  assert (in_flight a + to_come a <= 1)%nat; [| lia]. destruct a as [| [] | [] [r |] |]; cbn; try lia; case_match; lia.
Qed.

Lemma sum_list_fmap_insert {A} (f : A -> nat) l i x y :
  l !! i = Some y -> (sum_list (f <$> <[i := x]> l) + f y = sum_list (f <$> l) + f x)%nat.
Proof. intros E. rewrite list_fmap_insert. apply sum_list_insert. by rewrite list_lookup_fmap, E. Qed.

(** A step changes the state of one thread and its holdings from [k] to [k']. *)
Lemma books_step h n ts released i a b k k' n' released' :
  books h n ts released -> ts !! i = Some a -> h !! i = Some k -> in_order b k' ->
  (n' + Z.of_nat (k + in_flight a) = n + Z.of_nat (k' + in_flight b)) ->
  (n' + Z.of_nat (sum_list (to_come <$> <[i := b]> ts)) < U32_MAX - 1) ->
  ((released' + to_report b) + (if (n =? 0)%Z then 1 else 0) = (released + to_report a) + (if (n' =? 0)%Z then 1 else 0))%nat ->
  books (<[i := k']> h) n' (<[i := b]> ts) released'.
Proof.
  intros [Ho Hc Hb Hr] Ea Ek Hin Hn Hbound Hrel.
  pose proof (sum_list_insert h i k' k Ek). pose proof (sum_list_fmap_insert in_flight ts i b a Ea).
  pose proof (sum_list_fmap_insert to_report ts i b a Ea). split.
  - by apply Forall2_insert.
  - lia.
  - done.
  - lia.
Qed.

Lemma books_step_same h n ts released i a b k n' released' :
  books h n ts released -> ts !! i = Some a -> h !! i = Some k -> in_order b k ->
  (n' + Z.of_nat (in_flight a) = n + Z.of_nat (in_flight b)) ->
  (n' + Z.of_nat (sum_list (to_come <$> <[i := b]> ts)) < U32_MAX - 1) ->
  ((released' + to_report b) + (if (n =? 0)%Z then 1 else 0) = (released + to_report a) + (if (n' =? 0)%Z then 1 else 0))%nat ->
  books h n' (<[i := b]> ts) released'.
Proof.
  intros Hb Ea Ek Hin Hn Hbound Hrel. rewrite <- (list_insert_id h i k Ek). apply (books_step _ n _ released _ a _ k); try done. lia.
Qed.

Notation refcount_step := (astep refcount_effect).

(** The new bound: the threads that count are at most all of them. *)
Lemma bound_from_holdings h n ts released i b :
  books h n ts released -> (in_flight b = in_flight (default AIdle (ts !! i))) ->
  Z.of_nat (sum_list h + length h) < U32_MAX - 1 -> n + Z.of_nat (sum_list (to_come <$> <[i := b]> ts)) < U32_MAX - 1.
Proof.
  intros [Ho Hc _ _] Hi Hlt. pose proof (counted_once (<[i := b]> ts)) as Hone. rewrite length_insert in Hone.
  pose proof (Forall2_length _ _ _ Ho). destruct (ts !! i) as [a |] eqn:Ea; cbn in Hi.
  - pose proof (sum_list_fmap_insert in_flight ts i b a Ea). lia.
  - rewrite list_insert_ge in * by by apply lookup_ge_None. lia.
Qed.

Lemma invoke_books h n ts released i c :
  books h n ts released -> ts !! i = Some AIdle -> allowed h (Invoke i c) ->
  books (account h (Invoke i c)) n (<[i := APending c]> ts) released.
Proof.
  intros Hb Ea Hal. destruct (Forall2_lookup_l _ _ _ _ _ (bk_orderly _ _ _ _ Hb) Ea) as (k & Ek & _).
  pose proof (sum_list_fmap_insert to_come ts i (APending c) AIdle Ea) as Hcome. pose proof (bk_bound _ _ _ _ Hb) as Hbound.
  destruct c; cbn [account allowed to_come] in *; try done.
  - destruct Hal as [[k' Ek'] Hlt]. rewrite Ek in Ek'. injection Ek' as ->.
    apply (books_step_same _ n _ released _ AIdle _ (S k')); try done.
    + cbn. lia.
    + apply (bound_from_holdings h n ts released); [done | by rewrite Ea | done].
  - apply (books_step_same _ n _ released _ AIdle _ k); try done.
    apply (bound_from_holdings h n ts released); [done | by rewrite Ea | done].
  - destruct Hal as [k' Ek']. unfold debit. rewrite Ek in *. injection Ek' as ->.
    apply (books_step _ n _ released _ AIdle _ (S k')); try done; cbn; lia.
  - apply (books_step_same _ n _ released _ AIdle _ k); try done. lia.
Qed.

Lemma effect_books h n ts released i c r n' :
  books h n ts released -> ts !! i = Some (APending c) -> refcount_effect c n = (r, n') ->
  books h n' (<[i := ADone c r]> ts) released.
Proof.
  intros Hb Ea He. destruct (Forall2_lookup_l _ _ _ _ _ (bk_orderly _ _ _ _ Hb) Ea) as (k & Ek & Hk).
  pose proof (sum_list_fmap_insert to_come ts i (ADone c r) _ Ea) as Hcome. pose proof (bk_bound _ _ _ _ Hb) as Hbound.
  pose proof (bk_count _ _ _ _ Hb) as Hcount. pose proof (sum_list_lookup h i k Ek) as Hh.
  assert (Hin : (in_flight (APending c) <= sum_list (in_flight <$> ts))%nat)
    by (apply (sum_list_lookup _ i); by rewrite list_lookup_fmap, Ea).
  destruct c; cbn [refcount_effect in_order in_flight to_come] in *; try done.
  - assert (E : (n =? 0) || (U32_MAX - 1 <=? n) = false) by lia. rewrite E in He. injection He as <- <-.
    apply (books_step_same _ n _ released _ _ _ k _ _ Hb Ea Ek); cbn [in_order in_flight to_report]; try done; repeat case_match; lia.
  - destruct (n =? 0) eqn:E.
    + injection He as <- <-. apply (books_step_same _ n _ released _ _ _ k _ _ Hb Ea Ek); cbn; try done; repeat case_match; lia.
    + assert (E' : (U32_MAX - 1 <=? n) = false) by lia. rewrite E' in He. injection He as <- <-.
      apply (books_step_same _ n _ released _ _ _ k _ _ Hb Ea Ek); cbn [in_order in_flight to_report]; try done; repeat case_match; lia.
  - assert (E : (n =? 0) || (n =? U32_MAX) = false) by lia. rewrite E in He. injection He as <- <-.
    apply (books_step_same _ n _ released _ _ _ k _ _ Hb Ea Ek); cbn [in_order in_flight to_report]; try done; repeat case_match; lia.
  - injection He as <- <-. apply (books_step_same _ n _ released _ _ _ k _ _ Hb Ea Ek); cbn; try done; lia.
Qed.

Lemma respond_books h n ts released i c r :
  books h n ts released -> ts !! i = Some (ADone c (Some r)) ->
  books (account h (Respond i c r)) n (<[i := AIdle]> ts) (released + releases [Respond i c r]).
Proof.
  intros Hb Ea. destruct (Forall2_lookup_l _ _ _ _ _ (bk_orderly _ _ _ _ Hb) Ea) as (k & Ek & Hk).
  pose proof (sum_list_fmap_insert to_come ts i AIdle _ Ea) as Hcome. pose proof (bk_bound _ _ _ _ Hb) as Hbound.
  rewrite releases_one. destruct c; cbn [account to_come is_release] in *; unfold credit; rewrite ?Ek.
  - apply (books_step _ n _ released _ _ _ k _ _ _ Hb Ea Ek); cbn [in_order in_flight to_report]; try done; lia.
  - destruct (r =? 1) eqn:E.
    + apply (books_step _ n _ released _ _ _ k _ _ _ Hb Ea Ek); cbn [in_order in_flight to_report]; rewrite ?E; try done; lia.
    + apply (books_step_same _ n _ released _ _ _ k _ _ Hb Ea Ek); cbn [in_order in_flight to_report]; rewrite ?E; try done; lia.
  - apply (books_step_same _ n _ released _ _ _ k _ _ Hb Ea Ek); cbn [in_order in_flight to_report]; try done; lia.
  - apply (books_step_same _ n _ released _ _ _ k _ _ Hb Ea Ek); cbn [in_order in_flight to_report]; try done; lia.
  - apply (books_step_same _ n _ released _ _ _ k _ _ Hb Ea Ek); cbn [in_order in_flight to_report]; try done; lia.
Qed.

Lemma astep_books h n ts released n' l ts' :
  refcount_step (n, ts) l (n', ts') -> books h n ts released -> disciplined h l ->
  books (holdings h l) n' ts' (released + releases l) /\ Forall (fun l => is_fault l = false) l.
Proof.
  intros Hs Hb Hd. inversion Hs as [? ? i c Ea | ? ? i c r ? Ea He | ? ? i c r Ea | ? ? i c Ea]; subst; cbn [holdings foldl].
  - split; [| by repeat constructor]. rewrite releases_one. cbn [is_release]. rewrite Nat.add_0_r.
    apply invoke_books; [done | done | apply Hd].
  - split; [| constructor]. rewrite Nat.add_0_r. by apply (effect_books _ n _ _ _ _ r).
  - split; [by apply respond_books | by repeat constructor].
  - by destruct (Forall2_lookup_l _ _ _ _ _ (bk_orderly _ _ _ _ Hb) Ea) as (k & Ek & []).
Qed.

Lemma books_start h :
  0 < Z.of_nat (sum_list h) < U32_MAX - 1 -> books h (Z.of_nat (sum_list h)) (replicate (length h) AIdle) 0.
Proof.
  intros Hn.
  assert (Hz : forall f : athread (C := refcount_call) -> nat, f AIdle = 0%nat -> sum_list (f <$> replicate (length h) AIdle) = 0%nat).
  { intros f Hf. rewrite fmap_replicate, sum_list_replicate, Hf. lia. }
  split.
  - apply Forall2_same_length_lookup. split; [by rewrite length_replicate |]. intros i a k Ha _.
    by apply lookup_replicate in Ha as [-> _].
  - rewrite Hz by done. lia.
  - rewrite Hz by done. lia.
  - rewrite Hz by done. case_match; lia.
Qed.

Lemma aexecution_books h g tr g' released :
  aexecution refcount_effect g tr g' -> books h g.1 g.2 released -> disciplined h tr ->
  books (holdings h tr) g'.1 g'.2 (released + releases tr) /\ Forall (fun l => is_fault l = false) tr.
Proof.
  intros He Hb. induction He as [g | g tr [n ts] l [n' ts'] He IH Hs]; intros Hd.
  - rewrite Nat.add_0_r. by split.
  - apply disciplined_app in Hd as [Hd1 Hd2]. destruct (IH Hb Hd1) as [Hb' Hf].
    destruct (astep_books _ _ _ _ _ _ _ Hs Hb' Hd2) as [Hb'' Hf']. rewrite holdings_app, releases_app, Nat.add_assoc.
    split; [done | by apply Forall_app].
Qed.

Lemma books_outcome h n ts released :
  books h n ts released ->
  Z.of_nat (sum_list h) <= n /\ (released <= 1)%nat /\ (released = 1%nat -> sum_list h = 0%nat) /\
  (Forall (fun a => a = AIdle) ts -> n = Z.of_nat (sum_list h) /\ (released = 1%nat <-> sum_list h = 0%nat)).
Proof.
  intros [_ Hc _ Hr]. split; [lia |]. split; [case_match; lia |]. split; [case_match; lia |]. intros Hall.
  assert (Hz : forall f : athread -> nat, f AIdle = 0%nat -> sum_list (f <$> ts) = 0%nat).
  { intros f Hf. clear -Hall Hf. induction Hall as [| a ts -> _ IH]; [done |]. rewrite fmap_cons, sum_list_cons, Hf. lia. }
  rewrite Hz in Hc, Hr by done. case_match; lia.
Qed.
