(* ===== verification/CoreRuntimeSpec.v ===== *)
(** The primitives of the core runtime one by one: the contract of each call, and what
    it answers and changes within the contract. *)

From Stdlib Require Import ZArith Lia.
From ITree Require Import Core.ITreeDefinition.
From stdpp Require Import base numbers tactics gmap list_numbers list.
From S2P Require Import Prelude CoreRuntimeLayout CoreRuntime Interleaving.

Open Scope Z_scope.

(** * Calls *)

Inductive word := Word32 | Word64.
Definition word_bytes (w : word) : Z := match w with Word32 => 4 | Word64 => 8 end.
Definition word_bits (w : word) : Z := match w with Word32 => 32 | Word64 => 64 end.

(** [ReadOnce] and [WriteOnce] have the width in bits. *)
Inductive primitive :=
| ReadOnce (width : once_width) (address : Z)
| WriteOnce (width : once_width) (address value : Z)
| FenceCall (order : Z)
| AtomicLoad (w : word) (atomic order : Z)
| AtomicStore (w : word) (atomic value order : Z)
| AtomicExchange (w : word) (atomic value order : Z)
| AtomicCompareExchange (w : word) (atomic expected desired success failure : Z)
| AtomicFetch (operation : fetch_operation) (w : word) (atomic value order : Z)
| BitTest (bitmap bit order : Z)
| BitSet (bitmap bit order : Z)
| BitClear (bitmap bit order : Z)
| BitTestAndSet (bitmap bit order : Z)
| BitTestAndClear (bitmap bit order : Z)
with once_width := Once8 | Once16 | Once32 | Once64.

Definition once_bytes (w : once_width) : Z := match w with Once8 => 1 | Once16 => 2 | Once32 => 4 | Once64 => 8 end.

Definition answers (t : code unit) : code Z := _ ← t; mret 0.

Definition primitive_code (p : primitive) : code Z :=
  match p with
  | ReadOnce Once8 a => kb2_core_read_once_u8 a
  | ReadOnce Once16 a => kb2_core_read_once_u16 a
  | ReadOnce Once32 a => kb2_core_read_once_u32 a
  | ReadOnce Once64 a => kb2_core_read_once_u64 a
  | WriteOnce Once8 a v => answers (kb2_core_write_once_u8 a v)
  | WriteOnce Once16 a v => answers (kb2_core_write_once_u16 a v)
  | WriteOnce Once32 a v => answers (kb2_core_write_once_u32 a v)
  | WriteOnce Once64 a v => answers (kb2_core_write_once_u64 a v)
  | FenceCall o => answers (kb2_core_fence o)
  | AtomicLoad Word32 a o => kb2_core_atomic32_load a o
  | AtomicLoad Word64 a o => kb2_core_atomic64_load a o
  | AtomicStore Word32 a v o => answers (kb2_core_atomic32_store a v o)
  | AtomicStore Word64 a v o => answers (kb2_core_atomic64_store a v o)
  | AtomicExchange Word32 a v o => kb2_core_atomic32_exchange a v o
  | AtomicExchange Word64 a v o => kb2_core_atomic64_exchange a v o
  | AtomicCompareExchange Word32 a e d s f => kb2_core_atomic32_compare_exchange a e d s f
  | AtomicCompareExchange Word64 a e d s f => kb2_core_atomic64_compare_exchange a e d s f
  | AtomicFetch FETCH_ADD Word32 a v o => kb2_core_atomic32_fetch_add a v o
  | AtomicFetch FETCH_SUB Word32 a v o => kb2_core_atomic32_fetch_sub a v o
  | AtomicFetch FETCH_AND Word32 a v o => kb2_core_atomic32_fetch_and a v o
  | AtomicFetch FETCH_OR Word32 a v o => kb2_core_atomic32_fetch_or a v o
  | AtomicFetch FETCH_XOR Word32 a v o => kb2_core_atomic32_fetch_xor a v o
  | AtomicFetch FETCH_ADD Word64 a v o => kb2_core_atomic64_fetch_add a v o
  | AtomicFetch FETCH_SUB Word64 a v o => kb2_core_atomic64_fetch_sub a v o
  | AtomicFetch FETCH_AND Word64 a v o => kb2_core_atomic64_fetch_and a v o
  | AtomicFetch FETCH_OR Word64 a v o => kb2_core_atomic64_fetch_or a v o
  | AtomicFetch FETCH_XOR Word64 a v o => kb2_core_atomic64_fetch_xor a v o
  | BitTest b i o => kb2_core_bit_test b i o
  | BitSet b i o => answers (kb2_core_bit_set b i o)
  | BitClear b i o => answers (kb2_core_bit_clear b i o)
  | BitTestAndSet b i o => kb2_core_bit_test_and_set b i o
  | BitTestAndClear b i o => kb2_core_bit_test_and_clear b i o
  end.

(** * The contract *)

(** The orders of the C standard: which side of an access they order. *)
Definition acquires (o : memory_order) : bool := match o with ORDER_ACQUIRE | ORDER_ACQ_REL | ORDER_SEQ_CST => true | _ => false end.
Definition publishes (o : memory_order) : bool := match o with ORDER_RELEASE | ORDER_ACQ_REL | ORDER_SEQ_CST => true | _ => false end.
Definition sequential (o : memory_order) : bool := match o with ORDER_SEQ_CST => true | _ => false end.

(** A load cannot release, a store cannot acquire, but for sequential consistency; a
    failed compare-exchange is a load, no stronger than the exchange. *)
Definition for_load (o : memory_order) : Prop := publishes o = sequential o.
Definition for_store (o : memory_order) : Prop := acquires o = sequential o.
Definition weaker (o p : memory_order) : Prop :=
  (acquires o -> acquires p) /\ (publishes o -> publishes p) /\ (sequential o -> sequential p).

(** The number of an order in the interface. *)
Definition order_of (order : Z) : option memory_order :=
  if bool_decide (1 <= order) then
    [ORDER_RELAXED; ORDER_ACQUIRE; ORDER_RELEASE; ORDER_ACQ_REL; ORDER_SEQ_CST] !! Z.to_nat (order - 1)
  else None.

Definition pointer_ok (address size : Z) : Prop := address <> 0 /\ (size | address).
Definition order_ok (kind : memory_order -> Prop) (order : Z) : Prop := exists o, order_of order = Some o /\ kind o.

Definition within (p : primitive) : Prop :=
  match p with
  | ReadOnce w a | WriteOnce w a _ => pointer_ok a (once_bytes w)
  | FenceCall o => order_ok (fun _ => True) o
  | AtomicLoad w a o => pointer_ok a (word_bytes w) /\ order_ok for_load o
  | AtomicStore w a _ o => pointer_ok a (word_bytes w) /\ order_ok for_store o
  | AtomicExchange w a _ o | AtomicFetch _ w a _ o => pointer_ok a (word_bytes w) /\ order_ok (fun _ => True) o
  | AtomicCompareExchange w a e _ s f =>
      pointer_ok a (word_bytes w) /\ pointer_ok e (word_bytes w) /\
      exists so fo, order_of s = Some so /\ order_of f = Some fo /\ for_load fo /\ weaker fo so
  | BitTest b i o => pointer_ok b 8 /\ i < 64 /\ order_ok for_load o
  | BitSet b i o | BitClear b i o | BitTestAndSet b i o | BitTestAndClear b i o =>
      pointer_ok b 8 /\ i < 64 /\ order_ok (fun _ => True) o
  end.

(** * The effect *)

(** The object of a call, and a value before and after with the answer. *)
Definition object (p : primitive) : option Z :=
  match p with
  | FenceCall _ => None
  | ReadOnce _ a | WriteOnce _ a _ | AtomicLoad _ a _ | AtomicStore _ a _ _ | AtomicExchange _ a _ _
  | AtomicCompareExchange _ a _ _ _ _ | AtomicFetch _ _ a _ _ => Some a
  | BitTest b _ _ | BitSet b _ _ | BitClear b _ _ | BitTestAndSet b _ _ | BitTestAndClear b _ _ => Some b
  end.

Definition fetched (operation : fetch_operation) (w : word) (old v : Z) : Z :=
  match operation with
  | FETCH_ADD => (old + v) mod 2 ^ word_bits w
  | FETCH_SUB => (old - v) mod 2 ^ word_bits w
  | FETCH_AND => Z.land old v
  | FETCH_OR => Z.lor old v
  | FETCH_XOR => Z.lxor old v
  end.

Definition primitive_effect (p : primitive) (m : memory) (old : Z) : Z * memory :=
  match p with
  | ReadOnce _ _ | AtomicLoad _ _ _ => (old, m)
  | WriteOnce _ a v | AtomicStore _ a v _ => (0, <[a := v]> m)
  | FenceCall _ => (0, m)
  | AtomicExchange _ a v _ => (old, <[a := v]> m)
  | AtomicCompareExchange _ a e d _ _ =>
      if bool_decide (m !! e = Some old) then (1, <[a := d]> m) else (0, <[e := old]> m)
  | AtomicFetch operation w a v _ => (old, <[a := fetched operation w old v]> m)
  | BitTest _ i _ => (Z.b2z (Z.testbit old i), m)
  | BitSet b i _ => (0, <[b := Z.setbit old i]> m)
  | BitClear b i _ => (0, <[b := Z.clearbit old i]> m)
  | BitTestAndSet b i _ => (Z.b2z (Z.testbit old i), <[b := Z.setbit old i]> m)
  | BitTestAndClear b i _ => (Z.b2z (Z.testbit old i), <[b := Z.clearbit old i]> m)
  end.

(** The objects a call needs, with values of 64 bits, and arguments of their types. *)
Record callable (p : primitive) (m : memory) (old : Z) : Prop := {
  ca_object : match object p with Some a => m !! a = Some old | None => True end;
  ca_value : is_u64 old;
  ca_expected : match p with AtomicCompareExchange _ _ e _ _ _ => is_Some (m !! e) | _ => True end;
  ca_bit : match p with
           | BitTest _ i _ | BitSet _ i _ | BitClear _ i _ | BitTestAndSet _ i _ | BitTestAndClear _ i _ => 0 <= i
           | _ => True
           end;
}.

(** * Every call meets its contract *)

Lemma bad_pointer_spec address size : 0 < size -> bad_pointer address size = false <-> pointer_ok address size.
Proof.
  intros Hs. unfold bad_pointer, pointer_ok. rewrite orb_false_iff, negb_false_iff, Z.eqb_neq, Z.eqb_eq.
  by rewrite Z.mod_divide by lia.
Qed.

(** The orders the functions take, one by one. *)
Lemma order_cases (P : Z -> Prop) :
  P 1 -> P 2 -> P 3 -> P 4 -> P 5 ->
  (forall o, order_of o = None -> o <> 1 -> o <> 2 -> o <> 3 -> o <> 4 -> o <> 5 -> P o) -> forall o, P o.
Proof.
  intros H1 H2 H3 H4 H5 H o. destruct (decide (1 <= o <= 5)) as [Ho | Ho].
  - assert (o = 1 \/ o = 2 \/ o = 3 \/ o = 4 \/ o = 5) as [-> | [-> | [-> | [-> | ->]]]] by lia; done.
  - apply H; try lia. unfold order_of. case_bool_decide; [| done]. apply lookup_ge_None. cbn. lia.
Qed.

Definition decodes (decode : Z -> code memory_order) (kind : memory_order -> Prop) : Prop :=
  forall o, (exists ord, order_of o = Some ord /\ kind ord /\ decode o = mret ord) \/
            (~ order_ok kind o /\ decode o = kb2_core_sync_contract_fault).

Ltac decode_orders decode :=
  intros o; pattern o; apply order_cases; clear o;
  [.. | intros o Ho H1 H2 H3 H4 H5; right; split;
        [by intros (ord & E & _); rewrite Ho in E |];
        unfold decode; repeat (rewrite (proj2 (Z.eqb_neq _ _)) by done); reflexivity];
  first [left; eexists; split; [reflexivity |]; split; [reflexivity || exact I | reflexivity]
        | right; split; [intros (ord & [= <-] & [=]) | reflexivity]].

Lemma load_order_decodes : decodes kb2_core_sync_load_order for_load.
Proof. decode_orders kb2_core_sync_load_order. Qed.
Lemma store_order_decodes : decodes kb2_core_sync_store_order for_store.
Proof. decode_orders kb2_core_sync_store_order. Qed.
Lemma rmw_order_decodes : decodes kb2_core_sync_rmw_order (fun _ => True).
Proof. decode_orders kb2_core_sync_rmw_order. Qed.

Definition orders_ok (s f : Z) : Prop :=
  exists so fo, order_of s = Some so /\ order_of f = Some fo /\ for_load fo /\ weaker fo so.

#[export] Instance weaker_dec o p : Decision (weaker o p).
Proof. unfold weaker. apply _. Defined.
#[export] Instance for_load_dec o : Decision (for_load o).
Proof. unfold for_load. apply _. Defined.

(** The orders of a compare-exchange as a table. *)
Definition orders_table (s f : Z) : bool :=
  match order_of s, order_of f with
  | Some so, Some fo => bool_decide (for_load fo /\ weaker fo so)
  | _, _ => false
  end.

Lemma orders_table_spec s f : orders_table s f = true <-> orders_ok s f.
Proof.
  unfold orders_table, orders_ok. split.
  - destruct (order_of s) as [so |], (order_of f) as [fo |]; try done. rewrite bool_decide_eq_true. intros H. by exists so, fo.
  - intros (so & fo & -> & -> & H). by apply bool_decide_eq_true.
Qed.

Lemma orders_table_agrees s f : kb2_core_sync_compare_orders_valid s f = orders_table s f.
Proof.
  pattern s. apply order_cases; clear s; [pattern f; apply order_cases; clear f; try reflexivity .. |].
  all: try (intros f Hf H1 H2 H3 H4 H5; unfold orders_table; rewrite Hf; unfold kb2_core_sync_compare_orders_valid; cbn;
    repeat (rewrite (proj2 (Z.eqb_neq f _)) by done); reflexivity).
  intros s Hs H1 H2 H3 H4 H5. unfold orders_table. rewrite Hs. unfold kb2_core_sync_compare_orders_valid.
  repeat (rewrite (proj2 (Z.eqb_neq s _)) by done). reflexivity.
Qed.

Lemma compare_orders_spec s f : kb2_core_sync_compare_orders_valid s f = true <-> orders_ok s f.
Proof. rewrite orders_table_agrees. apply orders_table_spec. Qed.

Definition forget {A} (o : outcome A) : outcome Z :=
  match o with Returned _ m => Returned 0 m | Trapped m => Trapped m | Stuck => Stuck end.

Lemma run_answers fuel t m : run fuel (answers t) m = forget <$> run fuel t m.
Proof.
  revert t m. induction fuel as [| fuel IH]; intros t m; [done |]. cbn [run]. unfold answers. rewrite observe_bind.
  destruct (observe t) as [r | u | T e k]; [done | apply IH |].
  destruct (is_trap e); [done |]. destruct (perform e m) as [[x m'] |]; [apply IH | done].
Qed.

(** A primitive checks its pointer and decodes its order before anything else. *)
Lemma guarded_run {A} (bad : bool) (C : Prop) decode kind order (rest : memory_order -> code A) fuel m :
  (bad = false <-> C) -> decodes decode kind ->
  (C /\ exists o, order_of order = Some o /\ kind o /\
     run (S fuel) (if bad then kb2_core_sync_contract_fault else o ← decode order; rest o) m = run (S fuel) (rest o) m) \/
  (~ (C /\ order_ok kind order) /\
     run (S fuel) (if bad then kb2_core_sync_contract_fault else o ← decode order; rest o) m = Some (Trapped m)).
Proof.
  intros Hb Hd. destruct bad; [right; split; [intros [HC _]; by apply Hb in HC | done] |].
  destruct (Hd order) as [(o & Eo & Ho & ->) | (Hn & ->)].
  - left. split; [by apply Hb |]. by exists o.
  - right. split; [tauto | done].
Qed.

(** The bits of a word. *)
Lemma bit_mask_pow2 i : 0 <= i < 64 -> bit_mask i = 2 ^ i.
Proof.
  intros Hi. unfold bit_mask. rewrite Z.shiftl_1_l. apply u64_small. split; [lia |]. apply Z.pow_lt_mono_r; lia.
Qed.

Lemma bit_present_testbit old i : 0 <= i < 64 -> bit_present old i = Z.b2z (Z.testbit old i).
Proof.
  intros Hi. unfold bit_present. rewrite bit_mask_pow2 by done.
  assert (E : Z.land old (2 ^ i) = if Z.testbit old i then 2 ^ i else 0).
  { apply Z.bits_inj'. intros j Hj. rewrite Z.land_spec, Z.pow2_bits_eqb by lia.
    destruct (Z.testbit old i) eqn:Et; rewrite ?Z.pow2_bits_eqb, ?Z.bits_0 by lia; destruct (i =? j) eqn:Ej;
      rewrite ?andb_true_r, ?andb_false_r; try done; apply Z.eqb_eq in Ej as ->; done. }
  rewrite E. destruct (Z.testbit old i); [| done]. by rewrite (proj2 (Z.eqb_neq _ _)) by (apply Z.pow_nonzero; lia).
Qed.

Lemma lor_bit_mask old i : 0 <= i < 64 -> Z.lor old (bit_mask i) = Z.setbit old i.
Proof. intros Hi. by rewrite bit_mask_pow2, Z.setbit_spec', Z.lor_comm by done. Qed.

Lemma land_bit_mask_complement old i : is_u64 old -> 0 <= i < 64 -> Z.land old (bit_mask_complement i) = Z.clearbit old i.
Proof.
  intros Ho Hi. unfold bit_mask_complement. rewrite bit_mask_pow2, Z.clearbit_spec' by done. change U64_MAX with (Z.ones 64).
  rewrite Z.sub_nocarry_ldiff.
  - rewrite <- (land_ones_small old 64) at 2 by done. apply Z.bits_inj'. intros j Hj.
    rewrite Z.land_spec, !Z.ldiff_spec, Z.land_spec. apply andb_assoc.
  - rewrite Z.ldiff_ones_r, Z.shiftr_div_pow2 by done. rewrite Z.div_small; [done |].
    split; [lia |]. apply Z.pow_lt_mono_r; lia.
Qed.

Definition meets (p : primitive) (m : memory) (old : Z) : Prop :=
  (within p -> run 6 (primitive_code p) m = Some (Returned (primitive_effect p m old).1 (primitive_effect p m old).2)) /\
  (~ within p -> run 6 (primitive_code p) m = Some (Trapped m)).

Lemma once_meets p m old :
  callable p m old -> match p with ReadOnce _ _ | WriteOnce _ _ _ => meets p m old | _ => True end.
Proof.
  intros [Ho _ _ _]. destruct p as [w a | w a v | | | | | | | | | | |]; try done; unfold meets; cbn [object within primitive_effect fst snd] in *.
  - assert (E : primitive_code (ReadOnce w a) = read_once (once_bytes w) a) by by destruct w. rewrite E. unfold read_once.
    pose proof (bad_pointer_spec a (once_bytes w) ltac:(by destruct w)) as Hb. destruct (bad_pointer _ _).
    + split; [intros Hc; by apply Hb in Hc | done].
    + split; [intros _; cbn; by rewrite Ho | intros Hn; destruct Hn; by apply Hb].
  - assert (E : primitive_code (WriteOnce w a v) = answers (write_once (once_bytes w) a v)) by by destruct w.
    rewrite E, run_answers. unfold write_once.
    pose proof (bad_pointer_spec a (once_bytes w) ltac:(by destruct w)) as Hb. destruct (bad_pointer _ _).
    + split; [intros Hc; by apply Hb in Hc | done].
    + split; [intros _; cbn; by rewrite Ho | intros Hn; destruct Hn; by apply Hb].
Qed.

Lemma fence_meets o m old : meets (FenceCall o) m old.
Proof.
  unfold meets. cbn [primitive_code within]. unfold kb2_core_fence. rewrite run_answers.
  destruct (rmw_order_decodes o) as [(ord & Eo & Hk & ->) | (Hn & ->)]; (split; [intros Hw | intros Hw]); try done.
  destruct Hw. by exists ord.
Qed.

Lemma word_pointer a w : bad_pointer a (word_bytes w) = false <-> pointer_ok a (word_bytes w).
Proof. apply bad_pointer_spec. by destruct w. Qed.

(** One builtin after the checks: [Hw] is the contract, [Ho] the object. *)
Ltac guarded_call pointer decoded Ho :=
  let C := type of pointer in
  match C with ?b = false <-> ?P =>
    lazymatch goal with
    | |- context [run 6 (if b then _ else mbind ?rest (?decode ?order)) ?m] =>
        let Hn := fresh "Hn" in let E := fresh "E" in
        destruct (guarded_run b P decode _ order rest 5 m pointer decoded) as [(? & ord & ? & ? & E) | (Hn & E)];
        rewrite E; clear E; split; intros Hw;
        [ cbn; rewrite ?Ho; try reflexivity | destruct Hw; split; [done | by exists ord] | by destruct Hn | reflexivity ]
    end
  end.

Lemma atomic_meets p m old :
  callable p m old ->
  match p with AtomicLoad _ _ _ | AtomicStore _ _ _ _ | AtomicExchange _ _ _ _ | AtomicFetch _ _ _ _ _ => meets p m old | _ => True end.
Proof.
  intros [Ho _ _ _]. destruct p as [| | | w a o | w a v o | w a v o | | op w a v o | | | | |]; try done;
    unfold meets; cbn [object within primitive_effect fst snd] in *.
  - assert (E : primitive_code (AtomicLoad w a o) = word_load (word_bytes w) a o) by by destruct w. rewrite E. unfold word_load.
    guarded_call (word_pointer a w) load_order_decodes Ho.
  - assert (E : primitive_code (AtomicStore w a v o) = answers (word_store (word_bytes w) a v o)) by by destruct w.
    rewrite E, run_answers. unfold word_store. guarded_call (word_pointer a w) store_order_decodes Ho.
  - assert (E : primitive_code (AtomicExchange w a v o) = word_exchange (word_bytes w) a v o) by by destruct w.
    rewrite E. unfold word_exchange. guarded_call (word_pointer a w) rmw_order_decodes Ho.
  - assert (E : primitive_code (AtomicFetch op w a v o) = word_fetch op (word_bytes w) a v o) by by destruct w, op.
    rewrite E. unfold word_fetch. guarded_call (word_pointer a w) rmw_order_decodes Ho. by destruct w, op.
Qed.

Lemma bitmap_pointer b i : bad_bit b i = false <-> pointer_ok b 8 /\ i < 64.
Proof. unfold bad_bit. rewrite orb_false_iff, bad_pointer_spec by done. by rewrite Z.leb_gt. Qed.

(** The contract of a bitmap call has its parts in another order. *)
Ltac bit_call b i decoded Ho :=
  let pointer := constr:(bitmap_pointer b i) in
  lazymatch goal with
  | |- context [run 6 (if bad_bit b i then _ else mbind ?rest (?decode ?order)) ?m] =>
      let Hn := fresh "Hn" in let E := fresh "E" in
      destruct (guarded_run (bad_bit b i) _ decode _ order rest 5 m pointer decoded) as [([Hp Hi] & ord & Eo & Hk & E) | (Hn & E)];
      rewrite E; clear E; split; intros Hw;
      [ cbn; rewrite ?Ho; cbn; rewrite ?bit_present_testbit, ?lor_bit_mask, ?land_bit_mask_complement by (done || lia); reflexivity
      | destruct Hw; split; [done |]; split; [done | by exists ord] | destruct Hn; tauto | reflexivity ]
  end.

Lemma bit_meets p m old :
  callable p m old ->
  match p with
  | BitTest _ _ _ | BitSet _ _ _ | BitClear _ _ _ | BitTestAndSet _ _ _ | BitTestAndClear _ _ _ => meets p m old | _ => True
  end.
Proof.
  intros [Ho Hu _ Hb]. destruct p as [| | | | | | | | b i o | b i o | b i o | b i o | b i o]; try done;
    unfold meets; cbn [object within primitive_effect primitive_code fst snd] in *; rewrite ?run_answers.
  - unfold kb2_core_bit_test. bit_call b i load_order_decodes Ho.
  - unfold kb2_core_bit_set. bit_call b i rmw_order_decodes Ho.
  - unfold kb2_core_bit_clear. bit_call b i rmw_order_decodes Ho.
  - unfold kb2_core_bit_test_and_set. bit_call b i rmw_order_decodes Ho.
  - unfold kb2_core_bit_test_and_clear. bit_call b i rmw_order_decodes Ho.
Qed.

Lemma compare_exchange_meets w a e d s f m old :
  callable (AtomicCompareExchange w a e d s f) m old -> meets (AtomicCompareExchange w a e d s f) m old.
Proof.
  intros [Ho _ He _]. unfold meets. cbn [object within primitive_effect] in *.
  assert (E : primitive_code (AtomicCompareExchange w a e d s f) = word_compare_exchange (word_bytes w) a e d s f) by by destruct w.
  rewrite E. unfold word_compare_exchange. pose proof (word_pointer a w) as Hpa. pose proof (word_pointer e w) as Hpe.
  pose proof (compare_orders_spec s f) as Hord. destruct (bad_pointer a _), (bad_pointer e _), (kb2_core_sync_compare_orders_valid s f);
    cbn [orb negb]; try (split; [intros (Ha & Hb & Hc); (by apply Hpa in Ha) || (by apply Hpe in Hb) || (by apply Hord in Hc) | reflexivity]).
  destruct (proj1 Hord eq_refl) as (so & fo & Es & Ef & Hl & Hw).
  split; [intros _ | intros Hn; destruct Hn; split; [by apply Hpa |]; split; [by apply Hpe |]; by exists so, fo].
  destruct (rmw_order_decodes s) as [(? & ? & _ & ->) | (Hn & _)]; [| destruct Hn; by exists so].
  destruct (load_order_decodes f) as [(? & ? & _ & Hd) | (Hn & _)]; [| destruct Hn; by exists fo].
  unfold kb2_core_sync_failure_order. rewrite Hd. destruct He as [v Hv]. cbn. rewrite Hv. cbn. rewrite Ho. cbn.
  destruct (old =? v) eqn:Ev; cbn.
  - apply Z.eqb_eq in Ev as ->. by rewrite bool_decide_true.
  - apply Z.eqb_neq in Ev. rewrite Hv. cbn. by rewrite bool_decide_false by congruence.
Qed.

Lemma primitive_meets p m old : callable p m old -> meets p m old.
Proof.
  intros H. destruct p as [w a | w a v | o | w a o | w a v o | w a v o | w a e d s f | op w a v o | b i o | b i o | b i o | b i o | b i o];
    first [ exact (once_meets _ m old H) | exact (fence_meets o m old) | exact (atomic_meets _ m old H)
          | exact (compare_exchange_meets _ _ _ _ _ _ m old H) | exact (bit_meets _ m old H) ].
Qed.

(** * The orders of the builtins

    The orders do not restrict the interleavings of the model, so what a call passes to
    the builtins is stated by itself. *)

Definition event_orders {T} (e : atomicE T) : list memory_order :=
  match e with
  | Load _ o | Store _ _ o | Exchange _ _ o | Fetch _ _ _ _ o | Fence o => [o]
  | CompareExchange _ _ _ s f => [s; f]
  | Read _ | Write _ _ | Trap => []
  end.

(** The orders along the run of [run], one after the other. *)
Fixpoint orders_used {A} (fuel : nat) (t : code A) (m : memory) : option (list memory_order) :=
  match fuel with
  | O => None
  | S fuel =>
      match observe t with
      | RetF _ => Some []
      | TauF t => orders_used fuel t m
      | VisF e k =>
          if is_trap e then Some []
          else match perform e m with Some (x, m) => (event_orders e ++.) <$> orders_used fuel (k x) m | None => Some [] end
      end
  end.

Definition decoded_order (order : Z) : list memory_order := match order_of order with Some o => [o] | None => [] end.

(** The orders of a call: relaxed for a single access, else those the caller names. *)
Definition orders_asked (p : primitive) : list memory_order :=
  match p with
  | ReadOnce _ _ | WriteOnce _ _ _ => [ORDER_RELAXED]
  | FenceCall o | AtomicLoad _ _ o | AtomicStore _ _ _ o | AtomicExchange _ _ _ o | AtomicFetch _ _ _ _ o
  | BitTest _ _ o | BitSet _ _ o | BitClear _ _ o | BitTestAndSet _ _ o | BitTestAndClear _ _ o => decoded_order o
  | AtomicCompareExchange _ _ _ _ s f => decoded_order s ++ decoded_order f
  end.

Lemma orders_answers fuel t m : orders_used fuel (answers t) m = orders_used fuel t m.
Proof.
  revert t m. induction fuel as [| fuel IH]; intros t m; [done |]. cbn [orders_used]. unfold answers. rewrite observe_bind.
  destruct (observe t) as [r | u | T e k]; [done | apply IH |].
  destruct (is_trap e); [done |]. destruct (perform e m) as [[x m'] |]; [| done]. f_equal. apply IH.
Qed.

Lemma decodes_within decode kind order : decodes decode kind -> order_ok kind order ->
  exists o, decode order = mret o /\ decoded_order order = [o].
Proof.
  intros Hd Hk. unfold decoded_order. destruct (Hd order) as [(o & -> & _ & ->) | (Hn & _)]; [by exists o | done].
Qed.

(** The pointer test passes and the order is decoded: one builtin is left. *)
Ltac one_builtin bad decoded Hk Ho :=
  rewrite bad; let o := fresh "ord" in let E1 := fresh "E" in let E2 := fresh "E" in
  destruct (decodes_within _ _ _ decoded Hk) as (o & E1 & E2); rewrite E1, E2; cbn; rewrite ?Ho; reflexivity.

Lemma primitive_orders p m old : callable p m old -> within p -> orders_used 6 (primitive_code p) m = Some (orders_asked p).
Proof.
  intros [Ho _ He _] Hw. destruct p as [w a | w a v | o | w a o | w a v o | w a v o | w a e d s f | op w a v o | b i o | b i o | b i o | b i o | b i o];
    cbn [object within orders_asked] in *.
  - apply (bad_pointer_spec a (once_bytes w) ltac:(by destruct w)) in Hw.
    destruct w; cbn [primitive_code]; unfold kb2_core_read_once_u8, kb2_core_read_once_u16, kb2_core_read_once_u32,
      kb2_core_read_once_u64, read_once; cbn [once_bytes] in Hw; rewrite Hw; cbn; by rewrite Ho.
  - apply (bad_pointer_spec a (once_bytes w) ltac:(by destruct w)) in Hw.
    destruct w; cbn [primitive_code]; rewrite orders_answers; unfold kb2_core_write_once_u8, kb2_core_write_once_u16,
      kb2_core_write_once_u32, kb2_core_write_once_u64, write_once; cbn [once_bytes] in Hw; rewrite Hw; cbn; by rewrite Ho.
  - cbn [primitive_code]. rewrite orders_answers. unfold kb2_core_fence.
    destruct (decodes_within _ _ _ rmw_order_decodes Hw) as (ord & -> & ->). reflexivity.
  - destruct Hw as [Hp%word_pointer Hk].
    assert (E : primitive_code (AtomicLoad w a o) = word_load (word_bytes w) a o) by by destruct w. rewrite E. unfold word_load.
    one_builtin Hp load_order_decodes Hk Ho.
  - destruct Hw as [Hp%word_pointer Hk].
    assert (E : primitive_code (AtomicStore w a v o) = answers (word_store (word_bytes w) a v o)) by by destruct w.
    rewrite E, orders_answers. unfold word_store. one_builtin Hp store_order_decodes Hk Ho.
  - destruct Hw as [Hp%word_pointer Hk].
    assert (E : primitive_code (AtomicExchange w a v o) = word_exchange (word_bytes w) a v o) by by destruct w.
    rewrite E. unfold word_exchange. one_builtin Hp rmw_order_decodes Hk Ho.
  - destruct Hw as (Hp%word_pointer & Hq%word_pointer & Hord).
    assert (E : primitive_code (AtomicCompareExchange w a e d s f) = word_compare_exchange (word_bytes w) a e d s f) by by destruct w.
    rewrite E. unfold word_compare_exchange. rewrite Hp, Hq, (proj2 (compare_orders_spec s f) Hord). cbn [orb negb].
    destruct Hord as (so & fo & Es & Ef & Hl & _).
    destruct (decodes_within _ _ s rmw_order_decodes) as (o1 & -> & ->); [by exists so |].
    unfold kb2_core_sync_failure_order.
    destruct (decodes_within _ _ f load_order_decodes) as (o2 & -> & ->); [by exists fo |].
    destruct He as [x Hx]. cbn. rewrite Hx. cbn. rewrite Ho. cbn. destruct (old =? x); cbn; [done |]. by rewrite Hx.
  - destruct Hw as [Hp%word_pointer Hk].
    assert (E : primitive_code (AtomicFetch op w a v o) = word_fetch op (word_bytes w) a v o) by by destruct w, op.
    rewrite E. unfold word_fetch. one_builtin Hp rmw_order_decodes Hk Ho.
  - destruct Hw as (Hp & Hi & Hk). pose proof (proj2 (bitmap_pointer b i) (conj Hp Hi)) as Hb.
    cbn [primitive_code]. unfold kb2_core_bit_test. one_builtin Hb load_order_decodes Hk Ho.
  - destruct Hw as (Hp & Hi & Hk). pose proof (proj2 (bitmap_pointer b i) (conj Hp Hi)) as Hb.
    cbn [primitive_code]. rewrite orders_answers. unfold kb2_core_bit_set. one_builtin Hb rmw_order_decodes Hk Ho.
  - destruct Hw as (Hp & Hi & Hk). pose proof (proj2 (bitmap_pointer b i) (conj Hp Hi)) as Hb.
    cbn [primitive_code]. rewrite orders_answers. unfold kb2_core_bit_clear. one_builtin Hb rmw_order_decodes Hk Ho.
  - destruct Hw as (Hp & Hi & Hk). pose proof (proj2 (bitmap_pointer b i) (conj Hp Hi)) as Hb.
    cbn [primitive_code]. unfold kb2_core_bit_test_and_set. one_builtin Hb rmw_order_decodes Hk Ho.
  - destruct Hw as (Hp & Hi & Hk). pose proof (proj2 (bitmap_pointer b i) (conj Hp Hi)) as Hb.
    cbn [primitive_code]. unfold kb2_core_bit_test_and_clear. one_builtin Hb rmw_order_decodes Hk Ho.
Qed.
