(* ===== verification/CoreTables.v ===== *)
(** The operation tables of the core runtime
    (protocol/generated/include/kobox2/core_runtime.h): the structures, the prototypes
    of their operations, the static assertions of the header and the layout that the
    LP64 ABI gives to a structure. *)

From Stdlib Require Import ZArith Lia String.
From stdpp Require Import base numbers tactics strings list.
From S2P Require Import Prelude CoreRuntimeLayout.

Open Scope Z_scope.
Open Scope string_scope.

(** * Types

    [Handle] is a typedef of a pointer to an opaque structure, [Callback] a typedef of a
    pointer to a function. *)

Inductive ctype :=
| Void
| Char
| U8
| U32
| U64
| I32
| Size
| Pointer (t : ctype)
| Handle (name : string)
| Callback (name : string)
| Struct (name : string).

(** A member: a value, an array of bytes, a function with its parameters, or the
    header that every operation table starts with. *)
Inductive member_type :=
| Value (t : ctype)
| ByteArray (n : Z)
| Function (parameters : list (string * ctype))
| Header.

Definition member : Type := string * member_type.
Definition structure := list member.

(** * The LP64 layout *)

Definition type_size (t : ctype) : Z :=
  match t with
  | Void | Char | U8 => 1
  | U32 | I32 => 4
  | U64 | Size | Pointer _ | Handle _ | Callback _ => 8
  | Struct _ => 0
  end.

Definition align_up (offset alignment : Z) : Z := (offset + alignment - 1) / alignment * alignment.

(** The offsets of members with given sizes and alignments from [offset] on, and the
    end of the last. *)
Fixpoint place (members : list (Z * Z)) (offset : Z) : list Z * Z :=
  match members with
  | [] => ([], offset)
  | (size, alignment) :: members =>
      let at_ := align_up offset alignment in
      let '(offsets, end_) := place members (at_ + size) in
      (at_ :: offsets, end_)
  end.

Definition largest (l : list Z) : Z := foldr Z.max 1 l.

(** Size and alignment of a structure whose members have the given ones. *)
Definition extent (members : list (Z * Z)) : Z * Z :=
  let alignment := largest (snd <$> members) in
  (align_up (place members 0).2 alignment, alignment).

(** * The structures *)

Definition kb2_core_binding : structure :=
  [("operations", Value (Pointer Void));
   ("object", Value (Pointer Void))].

Definition kb2_core_interface_header : structure :=
  [("size", Value U32);
   ("identity", ByteArray KB2_CORE_RUNTIME_ABI_IDENTITY_SIZE);
   ("interface_id", Value U32);
   ("reserved", Value U32);
   ("schema_digest", ByteArray KB2_CORE_RUNTIME_SCHEMA_DIGEST_SIZE)].

Definition kb2_core_directory : structure :=
  [("size", Value U32);
   ("identity", ByteArray KB2_CORE_RUNTIME_ABI_IDENTITY_SIZE);
   ("schema_digest", ByteArray KB2_CORE_RUNTIME_SCHEMA_DIGEST_SIZE);
   ("bind", Function [("module_context", Pointer (Struct "kobox_module_context")); ("interface_id", U32);
      ("schema_digest", Pointer U8); ("binding_out", Pointer (Struct "kb2_core_binding"))]);
   ("unbind", Function [("module_context", Pointer (Struct "kobox_module_context"));
      ("binding", Pointer (Struct "kb2_core_binding"))])].

Definition kb2_core_memory_operations : structure :=
  [("header", Header);
   ("page_allocate", Function [("binding_object", Pointer Void); ("order", U32); ("flags", U32);
      ("page_allocation_out", Pointer (Pointer Void))]);
   ("page_release", Function [("binding_object", Pointer Void); ("page_allocation", Pointer Void); ("order", U32)]);
   ("allocate", Function [("binding_object", Pointer Void); ("size", Size); ("alignment", Size); ("flags", U32);
      ("allocation_out", Pointer (Pointer Void))]);
   ("reallocate", Function [("binding_object", Pointer Void); ("allocation", Pointer Void); ("size", Size);
      ("alignment", Size); ("flags", U32); ("allocation_out", Pointer (Pointer Void))]);
   ("release", Function [("binding_object", Pointer Void); ("allocation", Pointer Void)]);
   ("usable_size", Function [("binding_object", Pointer Void); ("allocation", Pointer Void);
      ("size_out", Pointer Size)]);
   ("cache_create", Function [("binding_object", Pointer Void); ("name", Pointer Char); ("name_length", Size);
      ("object_size", Size); ("alignment", Size); ("flags", U32);
      ("cache_constructor", Callback "kb2_core_cache_constructor_fn");
      ("cache_destructor", Callback "kb2_core_cache_destructor_fn"); ("argument", Pointer Void);
      ("cache_out", Pointer (Handle "kb2_core_memory_cache_t"))]);
   ("cache_destroy", Function [("binding_object", Pointer Void); ("cache", Handle "kb2_core_memory_cache_t")]);
   ("cache_allocate", Function [("binding_object", Pointer Void); ("cache", Handle "kb2_core_memory_cache_t");
      ("flags", U32); ("allocation_out", Pointer (Pointer Void))]);
   ("cache_release", Function [("binding_object", Pointer Void); ("cache", Handle "kb2_core_memory_cache_t");
      ("allocation", Pointer Void)]);
   ("statistics", Function [("binding_object", Pointer Void); ("total_pages_out", Pointer Size);
      ("free_pages_out", Pointer Size); ("largest_order_out", Pointer U32)])].

Definition kb2_core_cpu_operations : structure :=
  [("header", Header);
   ("possible_count", Function [("binding_object", Pointer Void); ("count_out", Pointer U32)]);
   ("online_count", Function [("binding_object", Pointer Void); ("count_out", Pointer U32)]);
   ("current", Function [("binding_object", Pointer Void); ("cpu_id_out", Pointer U32)]);
   ("is_online", Function [("binding_object", Pointer Void); ("cpu_id", U32); ("online_out", Pointer U32)]);
   ("context_class", Function [("binding_object", Pointer Void); ("context_class_out", Pointer U32)]);
   ("preempt_disable", Function [("binding_object", Pointer Void)]);
   ("preempt_enable", Function [("binding_object", Pointer Void)]);
   ("preempt_count", Function [("binding_object", Pointer Void); ("count_out", Pointer U32)]);
   ("migrate_disable", Function [("binding_object", Pointer Void)]);
   ("migrate_enable", Function [("binding_object", Pointer Void)]);
   ("migrate_count", Function [("binding_object", Pointer Void); ("count_out", Pointer U32)]);
   ("local_irq_disable", Function [("binding_object", Pointer Void)]);
   ("local_irq_enable", Function [("binding_object", Pointer Void)]);
   ("local_irq_save", Function [("binding_object", Pointer Void); ("irq_state_out", Pointer U64)]);
   ("local_irq_restore", Function [("binding_object", Pointer Void); ("irq_state", U64)]);
   ("bottom_half_disable", Function [("binding_object", Pointer Void)]);
   ("bottom_half_enable", Function [("binding_object", Pointer Void)]);
   ("percpu_allocate", Function [("binding_object", Pointer Void); ("size", Size); ("alignment", Size);
      ("flags", U32); ("percpu_allocation_out", Pointer (Handle "kb2_core_cpu_percpu_allocation_t"))]);
   ("percpu_release", Function [("binding_object", Pointer Void);
      ("percpu_allocation", Handle "kb2_core_cpu_percpu_allocation_t")]);
   ("percpu_address", Function [("binding_object", Pointer Void);
      ("percpu_allocation", Handle "kb2_core_cpu_percpu_allocation_t"); ("cpu_id", U32);
      ("address_out", Pointer (Pointer Void))])].

Definition kb2_core_sync_operations : structure :=
  [("header", Header);
   ("spin_create", Function [("binding_object", Pointer Void);
      ("spin_out", Pointer (Handle "kb2_core_sync_spin_t"))]);
   ("spin_destroy", Function [("binding_object", Pointer Void); ("spin", Handle "kb2_core_sync_spin_t")]);
   ("spin_lock", Function [("binding_object", Pointer Void); ("spin", Handle "kb2_core_sync_spin_t")]);
   ("spin_try_lock", Function [("binding_object", Pointer Void); ("spin", Handle "kb2_core_sync_spin_t");
      ("acquired_out", Pointer U32)]);
   ("spin_unlock", Function [("binding_object", Pointer Void); ("spin", Handle "kb2_core_sync_spin_t")]);
   ("mutex_create", Function [("binding_object", Pointer Void);
      ("mutex_out", Pointer (Handle "kb2_core_sync_mutex_t"))]);
   ("mutex_destroy", Function [("binding_object", Pointer Void); ("mutex", Handle "kb2_core_sync_mutex_t")]);
   ("mutex_lock", Function [("binding_object", Pointer Void); ("mutex", Handle "kb2_core_sync_mutex_t");
      ("wait_flags", U32)]);
   ("mutex_try_lock", Function [("binding_object", Pointer Void); ("mutex", Handle "kb2_core_sync_mutex_t");
      ("acquired_out", Pointer U32)]);
   ("mutex_lock_until", Function [("binding_object", Pointer Void); ("mutex", Handle "kb2_core_sync_mutex_t");
      ("deadline_ns", U64); ("wait_flags", U32)]);
   ("mutex_unlock", Function [("binding_object", Pointer Void); ("mutex", Handle "kb2_core_sync_mutex_t")]);
   ("rwlock_create", Function [("binding_object", Pointer Void);
      ("rwlock_out", Pointer (Handle "kb2_core_sync_rwlock_t"))]);
   ("rwlock_destroy", Function [("binding_object", Pointer Void); ("rwlock", Handle "kb2_core_sync_rwlock_t")]);
   ("rwlock_read_lock", Function [("binding_object", Pointer Void); ("rwlock", Handle "kb2_core_sync_rwlock_t");
      ("wait_flags", U32)]);
   ("rwlock_read_try_lock", Function [("binding_object", Pointer Void);
      ("rwlock", Handle "kb2_core_sync_rwlock_t"); ("acquired_out", Pointer U32)]);
   ("rwlock_read_lock_until", Function [("binding_object", Pointer Void);
      ("rwlock", Handle "kb2_core_sync_rwlock_t"); ("deadline_ns", U64); ("wait_flags", U32)]);
   ("rwlock_read_unlock", Function [("binding_object", Pointer Void); ("rwlock", Handle "kb2_core_sync_rwlock_t")]);
   ("rwlock_write_lock", Function [("binding_object", Pointer Void);
      ("rwlock", Handle "kb2_core_sync_rwlock_t"); ("wait_flags", U32)]);
   ("rwlock_write_try_lock", Function [("binding_object", Pointer Void);
      ("rwlock", Handle "kb2_core_sync_rwlock_t"); ("acquired_out", Pointer U32)]);
   ("rwlock_write_lock_until", Function [("binding_object", Pointer Void);
      ("rwlock", Handle "kb2_core_sync_rwlock_t"); ("deadline_ns", U64); ("wait_flags", U32)]);
   ("rwlock_write_unlock", Function [("binding_object", Pointer Void);
      ("rwlock", Handle "kb2_core_sync_rwlock_t")]);
   ("semaphore_create", Function [("binding_object", Pointer Void); ("initial_count", U32);
      ("maximum_count", U32); ("semaphore_out", Pointer (Handle "kb2_core_sync_semaphore_t"))]);
   ("semaphore_destroy", Function [("binding_object", Pointer Void);
      ("semaphore", Handle "kb2_core_sync_semaphore_t")]);
   ("semaphore_down", Function [("binding_object", Pointer Void);
      ("semaphore", Handle "kb2_core_sync_semaphore_t"); ("wait_flags", U32)]);
   ("semaphore_try_down", Function [("binding_object", Pointer Void);
      ("semaphore", Handle "kb2_core_sync_semaphore_t"); ("acquired_out", Pointer U32)]);
   ("semaphore_down_until", Function [("binding_object", Pointer Void);
      ("semaphore", Handle "kb2_core_sync_semaphore_t"); ("deadline_ns", U64); ("wait_flags", U32)]);
   ("semaphore_up", Function [("binding_object", Pointer Void);
      ("semaphore", Handle "kb2_core_sync_semaphore_t"); ("count", U32)]);
   ("event_create", Function [("binding_object", Pointer Void); ("flags", U32);
      ("event_out", Pointer (Handle "kb2_core_sync_event_t"))]);
   ("event_destroy", Function [("binding_object", Pointer Void); ("event", Handle "kb2_core_sync_event_t")]);
   ("event_wait", Function [("binding_object", Pointer Void); ("event", Handle "kb2_core_sync_event_t");
      ("wait_flags", U32)]);
   ("event_try_wait", Function [("binding_object", Pointer Void); ("event", Handle "kb2_core_sync_event_t");
      ("signaled_out", Pointer U32)]);
   ("event_wait_until", Function [("binding_object", Pointer Void); ("event", Handle "kb2_core_sync_event_t");
      ("deadline_ns", U64); ("wait_flags", U32)]);
   ("event_signal", Function [("binding_object", Pointer Void); ("event", Handle "kb2_core_sync_event_t")]);
   ("event_reset", Function [("binding_object", Pointer Void); ("event", Handle "kb2_core_sync_event_t")]);
   ("completion_create", Function [("binding_object", Pointer Void);
      ("completion_out", Pointer (Handle "kb2_core_sync_completion_t"))]);
   ("completion_destroy", Function [("binding_object", Pointer Void);
      ("completion", Handle "kb2_core_sync_completion_t")]);
   ("completion_wait", Function [("binding_object", Pointer Void);
      ("completion", Handle "kb2_core_sync_completion_t"); ("wait_flags", U32)]);
   ("completion_try_wait", Function [("binding_object", Pointer Void);
      ("completion", Handle "kb2_core_sync_completion_t"); ("completed_out", Pointer U32)]);
   ("completion_wait_until", Function [("binding_object", Pointer Void);
      ("completion", Handle "kb2_core_sync_completion_t"); ("deadline_ns", U64); ("wait_flags", U32)]);
   ("completion_complete", Function [("binding_object", Pointer Void);
      ("completion", Handle "kb2_core_sync_completion_t")]);
   ("completion_complete_all", Function [("binding_object", Pointer Void);
      ("completion", Handle "kb2_core_sync_completion_t")]);
   ("completion_reinit", Function [("binding_object", Pointer Void);
      ("completion", Handle "kb2_core_sync_completion_t")])].

Definition kb2_core_thread_operations : structure :=
  [("header", Header);
   ("current", Function [("binding_object", Pointer Void); ("thread_out", Pointer (Handle "kb2_core_thread_t"))]);
   ("create", Function [("binding_object", Pointer Void); ("thread_entry", Callback "kb2_core_thread_entry_fn");
      ("argument", Pointer Void); ("name", Pointer Char); ("name_length", Size); ("stack_size", Size);
      ("cpu_mask_words", Pointer U64); ("cpu_mask_word_count", Size); ("flags", U32);
      ("thread_out", Pointer (Handle "kb2_core_thread_t"))]);
   ("join", Function [("binding_object", Pointer Void); ("thread", Handle "kb2_core_thread_t");
      ("deadline_ns", U64); ("exit_status_out", Pointer I32)]);
   ("detach", Function [("binding_object", Pointer Void); ("thread", Handle "kb2_core_thread_t")]);
   ("request_stop", Function [("binding_object", Pointer Void); ("thread", Handle "kb2_core_thread_t")]);
   ("stop_requested", Function [("binding_object", Pointer Void); ("thread", Handle "kb2_core_thread_t");
      ("requested_out", Pointer U32)]);
   ("interrupt", Function [("binding_object", Pointer Void); ("thread", Handle "kb2_core_thread_t")]);
   ("is_interrupted", Function [("binding_object", Pointer Void); ("thread", Handle "kb2_core_thread_t");
      ("interrupted_out", Pointer U32)]);
   ("clear_interrupt", Function [("binding_object", Pointer Void); ("thread", Handle "kb2_core_thread_t")]);
   ("park", Function [("binding_object", Pointer Void); ("thread", Handle "kb2_core_thread_t");
      ("deadline_ns", U64)]);
   ("unpark", Function [("binding_object", Pointer Void); ("thread", Handle "kb2_core_thread_t")]);
   ("wake", Function [("binding_object", Pointer Void); ("thread", Handle "kb2_core_thread_t")]);
   ("yield", Function [("binding_object", Pointer Void)]);
   ("set_name", Function [("binding_object", Pointer Void); ("thread", Handle "kb2_core_thread_t");
      ("name", Pointer Char); ("name_length", Size)]);
   ("set_affinity", Function [("binding_object", Pointer Void); ("thread", Handle "kb2_core_thread_t");
      ("cpu_mask_words", Pointer U64); ("cpu_mask_word_count", Size)]);
   ("set_priority", Function [("binding_object", Pointer Void); ("thread", Handle "kb2_core_thread_t");
      ("priority", I32)])].

Definition kb2_core_time_operations : structure :=
  [("header", Header);
   ("monotonic_ns", Function [("binding_object", Pointer Void); ("time_ns_out", Pointer U64)]);
   ("boottime_ns", Function [("binding_object", Pointer Void); ("time_ns_out", Pointer U64)]);
   ("realtime_ns", Function [("binding_object", Pointer Void); ("time_ns_out", Pointer U64)]);
   ("sleep_until", Function [("binding_object", Pointer Void); ("clock_id", U32); ("deadline_ns", U64);
      ("wait_flags", U32)]);
   ("busy_wait_until", Function [("binding_object", Pointer Void); ("clock_id", U32); ("deadline_ns", U64)]);
   ("timer_create", Function [("binding_object", Pointer Void); ("clock_id", U32); ("timer_context", U32);
      ("timer_callback", Callback "kb2_core_timer_callback_fn"); ("argument", Pointer Void); ("flags", U32);
      ("timer_out", Pointer (Handle "kb2_core_time_timer_t"))]);
   ("timer_destroy", Function [("binding_object", Pointer Void); ("timer", Handle "kb2_core_time_timer_t")]);
   ("timer_arm", Function [("binding_object", Pointer Void); ("timer", Handle "kb2_core_time_timer_t");
      ("deadline_ns", U64); ("period_ns", U64)]);
   ("timer_cancel", Function [("binding_object", Pointer Void); ("timer", Handle "kb2_core_time_timer_t");
      ("canceled_out", Pointer U32)]);
   ("timer_cancel_sync", Function [("binding_object", Pointer Void); ("timer", Handle "kb2_core_time_timer_t");
      ("canceled_out", Pointer U32)]);
   ("timer_remaining", Function [("binding_object", Pointer Void); ("timer", Handle "kb2_core_time_timer_t");
      ("remaining_ns_out", Pointer U64)]);
   ("timer_is_pending", Function [("binding_object", Pointer Void); ("timer", Handle "kb2_core_time_timer_t");
      ("pending_out", Pointer U32)])].

Definition kb2_core_workqueue_operations : structure :=
  [("header", Header);
   ("queue_create", Function [("binding_object", Pointer Void); ("name", Pointer Char); ("name_length", Size);
      ("flags", U32); ("maximum_active", U32);
      ("queue_out", Pointer (Handle "kb2_core_workqueue_queue_t"))]);
   ("queue_destroy", Function [("binding_object", Pointer Void); ("queue", Handle "kb2_core_workqueue_queue_t")]);
   ("work_create", Function [("binding_object", Pointer Void);
      ("work_callback", Callback "kb2_core_work_callback_fn"); ("argument", Pointer Void);
      ("work_out", Pointer (Handle "kb2_core_workqueue_work_t"))]);
   ("work_destroy", Function [("binding_object", Pointer Void); ("work", Handle "kb2_core_workqueue_work_t")]);
   ("submit", Function [("binding_object", Pointer Void); ("queue", Handle "kb2_core_workqueue_queue_t");
      ("work", Handle "kb2_core_workqueue_work_t"); ("cpu_id", U32); ("queued_out", Pointer U32)]);
   ("submit_at", Function [("binding_object", Pointer Void); ("queue", Handle "kb2_core_workqueue_queue_t");
      ("work", Handle "kb2_core_workqueue_work_t"); ("cpu_id", U32); ("deadline_ns", U64);
      ("queued_out", Pointer U32)]);
   ("reschedule_at", Function [("binding_object", Pointer Void); ("queue", Handle "kb2_core_workqueue_queue_t");
      ("work", Handle "kb2_core_workqueue_work_t"); ("cpu_id", U32); ("deadline_ns", U64);
      ("pending_was_replaced_out", Pointer U32)]);
   ("cancel", Function [("binding_object", Pointer Void); ("work", Handle "kb2_core_workqueue_work_t");
      ("canceled_out", Pointer U32)]);
   ("cancel_sync", Function [("binding_object", Pointer Void); ("work", Handle "kb2_core_workqueue_work_t");
      ("canceled_out", Pointer U32)]);
   ("flush_work", Function [("binding_object", Pointer Void); ("work", Handle "kb2_core_workqueue_work_t")]);
   ("flush_queue", Function [("binding_object", Pointer Void); ("queue", Handle "kb2_core_workqueue_queue_t")]);
   ("is_pending", Function [("binding_object", Pointer Void); ("work", Handle "kb2_core_workqueue_work_t");
      ("pending_out", Pointer U32)])].

Definition kb2_core_rcu_operations : structure :=
  [("header", Header);
   ("default_domain", Function [("binding_object", Pointer Void);
      ("rcu_domain_out", Pointer (Handle "kb2_core_rcu_domain_t"))]);
   ("domain_create", Function [("binding_object", Pointer Void); ("domain_class", U32);
      ("rcu_domain_out", Pointer (Handle "kb2_core_rcu_domain_t"))]);
   ("domain_destroy", Function [("binding_object", Pointer Void); ("rcu_domain", Handle "kb2_core_rcu_domain_t")]);
   ("read_lock", Function [("binding_object", Pointer Void); ("rcu_domain", Handle "kb2_core_rcu_domain_t");
      ("rcu_read_token_out", Pointer (Handle "kb2_core_rcu_read_token_t"))]);
   ("read_unlock", Function [("binding_object", Pointer Void); ("rcu_domain", Handle "kb2_core_rcu_domain_t");
      ("rcu_read_token", Handle "kb2_core_rcu_read_token_t")]);
   ("call", Function [("binding_object", Pointer Void); ("rcu_domain", Handle "kb2_core_rcu_domain_t");
      ("rcu_callback", Callback "kb2_core_rcu_callback_fn"); ("argument", Pointer Void)]);
   ("synchronize", Function [("binding_object", Pointer Void); ("rcu_domain", Handle "kb2_core_rcu_domain_t");
      ("flags", U32)]);
   ("barrier", Function [("binding_object", Pointer Void); ("rcu_domain", Handle "kb2_core_rcu_domain_t")]);
   ("quiescent_state", Function [("binding_object", Pointer Void); ("rcu_domain", Handle "kb2_core_rcu_domain_t")])].

(** * Sizes and alignments of the members *)

Definition byte_members (members : list member) (header : Z * Z) : list (Z * Z) :=
  (fun m : member => match m.2 with
            | Value t => (type_size t, type_size t)
            | ByteArray n => (n, 1)
            | Function _ => (8, 8)
            | Header => header
            end) <$> members.

Definition header_extent : Z * Z := extent (byte_members kb2_core_interface_header (0, 1)).
Definition struct_members (s : structure) : list (Z * Z) := byte_members s header_extent.
Definition sizeof (s : structure) : Z := (extent (struct_members s)).1.
Definition offsets (s : structure) : list (string * Z) := zip s.*1 (place (struct_members s) 0).1.
Definition offsetof (s : structure) (name : string) : option Z := snd <$> List.find (fun m => String.eqb m.1 name) (offsets s).

(** * The static assertions

    The sizes and the offsets that the header asserts, a list for each structure. *)

Definition asserted_sizes : list (structure * Z) :=
  [(kb2_core_binding, KB2_CORE_RUNTIME_BINDING_SIZE);
   (kb2_core_interface_header, KB2_CORE_RUNTIME_INTERFACE_HEADER_SIZE);
   (kb2_core_directory, KB2_CORE_RUNTIME_DIRECTORY_SIZE);
   (kb2_core_memory_operations, KB2_CORE_RUNTIME_MEMORY_TABLE_SIZE);
   (kb2_core_cpu_operations, KB2_CORE_RUNTIME_CPU_TABLE_SIZE);
   (kb2_core_sync_operations, KB2_CORE_RUNTIME_SYNC_TABLE_SIZE);
   (kb2_core_thread_operations, KB2_CORE_RUNTIME_THREAD_TABLE_SIZE);
   (kb2_core_time_operations, KB2_CORE_RUNTIME_TIME_TABLE_SIZE);
   (kb2_core_workqueue_operations, KB2_CORE_RUNTIME_WORKQUEUE_TABLE_SIZE);
   (kb2_core_rcu_operations, KB2_CORE_RUNTIME_RCU_TABLE_SIZE)].

Definition kb2_core_binding_asserted : list (string * Z) :=
  [("operations", 0); ("object", 8)].

Definition kb2_core_interface_header_asserted : list (string * Z) :=
  [("size", 0); ("identity", 4); ("interface_id", 8); ("reserved", 12); ("schema_digest", 16)].

Definition kb2_core_directory_asserted : list (string * Z) :=
  [("bind", 40); ("unbind", 48)].

Definition kb2_core_memory_operations_asserted : list (string * Z) :=
  [("page_allocate", 48); ("page_release", 56); ("allocate", 64); ("reallocate", 72); ("release", 80);
   ("usable_size", 88); ("cache_create", 96); ("cache_destroy", 104); ("cache_allocate", 112);
   ("cache_release", 120); ("statistics", 128)].

Definition kb2_core_cpu_operations_asserted : list (string * Z) :=
  [("possible_count", 48); ("online_count", 56); ("current", 64); ("is_online", 72); ("context_class", 80);
   ("preempt_disable", 88); ("preempt_enable", 96); ("preempt_count", 104); ("migrate_disable", 112);
   ("migrate_enable", 120); ("migrate_count", 128); ("local_irq_disable", 136); ("local_irq_enable", 144);
   ("local_irq_save", 152); ("local_irq_restore", 160); ("bottom_half_disable", 168);
   ("bottom_half_enable", 176); ("percpu_allocate", 184); ("percpu_release", 192); ("percpu_address", 200)].

Definition kb2_core_sync_operations_asserted : list (string * Z) :=
  [("spin_create", 48); ("spin_destroy", 56); ("spin_lock", 64); ("spin_try_lock", 72); ("spin_unlock", 80);
   ("mutex_create", 88); ("mutex_destroy", 96); ("mutex_lock", 104); ("mutex_try_lock", 112);
   ("mutex_lock_until", 120); ("mutex_unlock", 128); ("rwlock_create", 136); ("rwlock_destroy", 144);
   ("rwlock_read_lock", 152); ("rwlock_read_try_lock", 160); ("rwlock_read_lock_until", 168);
   ("rwlock_read_unlock", 176); ("rwlock_write_lock", 184); ("rwlock_write_try_lock", 192);
   ("rwlock_write_lock_until", 200); ("rwlock_write_unlock", 208); ("semaphore_create", 216);
   ("semaphore_destroy", 224); ("semaphore_down", 232); ("semaphore_try_down", 240);
   ("semaphore_down_until", 248); ("semaphore_up", 256); ("event_create", 264); ("event_destroy", 272);
   ("event_wait", 280); ("event_try_wait", 288); ("event_wait_until", 296); ("event_signal", 304);
   ("event_reset", 312); ("completion_create", 320); ("completion_destroy", 328); ("completion_wait", 336);
   ("completion_try_wait", 344); ("completion_wait_until", 352); ("completion_complete", 360);
   ("completion_complete_all", 368); ("completion_reinit", 376)].

Definition kb2_core_thread_operations_asserted : list (string * Z) :=
  [("current", 48); ("create", 56); ("join", 64); ("detach", 72); ("request_stop", 80); ("stop_requested", 88);
   ("interrupt", 96); ("is_interrupted", 104); ("clear_interrupt", 112); ("park", 120); ("unpark", 128);
   ("wake", 136); ("yield", 144); ("set_name", 152); ("set_affinity", 160); ("set_priority", 168)].

Definition kb2_core_time_operations_asserted : list (string * Z) :=
  [("monotonic_ns", 48); ("boottime_ns", 56); ("realtime_ns", 64); ("sleep_until", 72);
   ("busy_wait_until", 80); ("timer_create", 88); ("timer_destroy", 96); ("timer_arm", 104);
   ("timer_cancel", 112); ("timer_cancel_sync", 120); ("timer_remaining", 128); ("timer_is_pending", 136)].

Definition kb2_core_workqueue_operations_asserted : list (string * Z) :=
  [("queue_create", 48); ("queue_destroy", 56); ("work_create", 64); ("work_destroy", 72); ("submit", 80);
   ("submit_at", 88); ("reschedule_at", 96); ("cancel", 104); ("cancel_sync", 112); ("flush_work", 120);
   ("flush_queue", 128); ("is_pending", 136)].

Definition kb2_core_rcu_operations_asserted : list (string * Z) :=
  [("default_domain", 48); ("domain_create", 56); ("domain_destroy", 64); ("read_lock", 72);
   ("read_unlock", 80); ("call", 88); ("synchronize", 96); ("barrier", 104); ("quiescent_state", 112)].

Definition asserted_offsets : list (structure * list (string * Z)) :=
  [(kb2_core_binding, kb2_core_binding_asserted);
   (kb2_core_interface_header, kb2_core_interface_header_asserted);
   (kb2_core_directory, kb2_core_directory_asserted);
   (kb2_core_memory_operations, kb2_core_memory_operations_asserted);
   (kb2_core_cpu_operations, kb2_core_cpu_operations_asserted);
   (kb2_core_sync_operations, kb2_core_sync_operations_asserted);
   (kb2_core_thread_operations, kb2_core_thread_operations_asserted);
   (kb2_core_time_operations, kb2_core_time_operations_asserted);
   (kb2_core_workqueue_operations, kb2_core_workqueue_operations_asserted);
   (kb2_core_rcu_operations, kb2_core_rcu_operations_asserted)].

(** The asserted sizes and alignments of the primitive types. *)
Definition kb2_core_atomic32 : structure := [("value", Value U32)].
Definition kb2_core_atomic64 : structure := [("value", Value U64)].
Definition kb2_core_refcount : structure := [("value", Value U32)].

Definition asserted_extents : list (structure * (Z * Z)) :=
  [(kb2_core_atomic32, (KB2_CORE_RUNTIME_SYNC_ATOMIC32_SIZE, KB2_CORE_RUNTIME_SYNC_ATOMIC32_ALIGNMENT));
   (kb2_core_atomic64, (KB2_CORE_RUNTIME_SYNC_ATOMIC64_SIZE, KB2_CORE_RUNTIME_SYNC_ATOMIC64_ALIGNMENT));
   (kb2_core_refcount, (KB2_CORE_RUNTIME_SYNC_REFCOUNT_SIZE, KB2_CORE_RUNTIME_SYNC_REFCOUNT_ALIGNMENT))].

Definition asserted_types : list (ctype * Z) := [(Pointer Void, 8); (Size, 8)].

(** * The interfaces

    Identifier, operation table, its asserted size, the number of operations and their
    identifiers in the order of the table, and the dependency mask. *)

Record interface := mkInterface {
  if_id : Z;
  if_table : structure;
  if_size : Z;
  if_count : Z;
  if_operations : list Z;
  if_dependencies : Z;
}.

Definition KB2_CORE_RUNTIME_INTERFACE_MEMORY_DEPENDENCY_MASK : Z := 0.
Definition KB2_CORE_RUNTIME_INTERFACE_CPU_DEPENDENCY_MASK : Z := 1.
Definition KB2_CORE_RUNTIME_INTERFACE_SYNC_DEPENDENCY_MASK : Z := 3.
Definition KB2_CORE_RUNTIME_INTERFACE_THREAD_DEPENDENCY_MASK : Z := 7.
Definition KB2_CORE_RUNTIME_INTERFACE_TIME_DEPENDENCY_MASK : Z := 12.
Definition KB2_CORE_RUNTIME_INTERFACE_WORKQUEUE_DEPENDENCY_MASK : Z := 31.
Definition KB2_CORE_RUNTIME_INTERFACE_RCU_DEPENDENCY_MASK : Z := 63.

Definition memory_interface : interface :=
  mkInterface KB2_CORE_RUNTIME_INTERFACE_MEMORY kb2_core_memory_operations KB2_CORE_RUNTIME_MEMORY_TABLE_SIZE
    KB2_CORE_RUNTIME_MEMORY_OPERATION_COUNT
    [KB2_CORE_RUNTIME_MEMORY_OPERATION_PAGE_ALLOCATE; KB2_CORE_RUNTIME_MEMORY_OPERATION_PAGE_RELEASE;
     KB2_CORE_RUNTIME_MEMORY_OPERATION_ALLOCATE; KB2_CORE_RUNTIME_MEMORY_OPERATION_REALLOCATE;
     KB2_CORE_RUNTIME_MEMORY_OPERATION_RELEASE; KB2_CORE_RUNTIME_MEMORY_OPERATION_USABLE_SIZE;
     KB2_CORE_RUNTIME_MEMORY_OPERATION_CACHE_CREATE; KB2_CORE_RUNTIME_MEMORY_OPERATION_CACHE_DESTROY;
     KB2_CORE_RUNTIME_MEMORY_OPERATION_CACHE_ALLOCATE; KB2_CORE_RUNTIME_MEMORY_OPERATION_CACHE_RELEASE;
     KB2_CORE_RUNTIME_MEMORY_OPERATION_STATISTICS]
    KB2_CORE_RUNTIME_INTERFACE_MEMORY_DEPENDENCY_MASK.

Definition cpu_interface : interface :=
  mkInterface KB2_CORE_RUNTIME_INTERFACE_CPU kb2_core_cpu_operations KB2_CORE_RUNTIME_CPU_TABLE_SIZE
    KB2_CORE_RUNTIME_CPU_OPERATION_COUNT
    [KB2_CORE_RUNTIME_CPU_OPERATION_POSSIBLE_COUNT; KB2_CORE_RUNTIME_CPU_OPERATION_ONLINE_COUNT;
     KB2_CORE_RUNTIME_CPU_OPERATION_CURRENT; KB2_CORE_RUNTIME_CPU_OPERATION_IS_ONLINE;
     KB2_CORE_RUNTIME_CPU_OPERATION_CONTEXT_CLASS; KB2_CORE_RUNTIME_CPU_OPERATION_PREEMPT_DISABLE;
     KB2_CORE_RUNTIME_CPU_OPERATION_PREEMPT_ENABLE; KB2_CORE_RUNTIME_CPU_OPERATION_PREEMPT_COUNT;
     KB2_CORE_RUNTIME_CPU_OPERATION_MIGRATE_DISABLE; KB2_CORE_RUNTIME_CPU_OPERATION_MIGRATE_ENABLE;
     KB2_CORE_RUNTIME_CPU_OPERATION_MIGRATE_COUNT; KB2_CORE_RUNTIME_CPU_OPERATION_LOCAL_IRQ_DISABLE;
     KB2_CORE_RUNTIME_CPU_OPERATION_LOCAL_IRQ_ENABLE; KB2_CORE_RUNTIME_CPU_OPERATION_LOCAL_IRQ_SAVE;
     KB2_CORE_RUNTIME_CPU_OPERATION_LOCAL_IRQ_RESTORE; KB2_CORE_RUNTIME_CPU_OPERATION_BOTTOM_HALF_DISABLE;
     KB2_CORE_RUNTIME_CPU_OPERATION_BOTTOM_HALF_ENABLE; KB2_CORE_RUNTIME_CPU_OPERATION_PERCPU_ALLOCATE;
     KB2_CORE_RUNTIME_CPU_OPERATION_PERCPU_RELEASE; KB2_CORE_RUNTIME_CPU_OPERATION_PERCPU_ADDRESS]
    KB2_CORE_RUNTIME_INTERFACE_CPU_DEPENDENCY_MASK.

Definition sync_interface : interface :=
  mkInterface KB2_CORE_RUNTIME_INTERFACE_SYNC kb2_core_sync_operations KB2_CORE_RUNTIME_SYNC_TABLE_SIZE
    KB2_CORE_RUNTIME_SYNC_OPERATION_COUNT
    [KB2_CORE_RUNTIME_SYNC_OPERATION_SPIN_CREATE; KB2_CORE_RUNTIME_SYNC_OPERATION_SPIN_DESTROY;
     KB2_CORE_RUNTIME_SYNC_OPERATION_SPIN_LOCK; KB2_CORE_RUNTIME_SYNC_OPERATION_SPIN_TRY_LOCK;
     KB2_CORE_RUNTIME_SYNC_OPERATION_SPIN_UNLOCK; KB2_CORE_RUNTIME_SYNC_OPERATION_MUTEX_CREATE;
     KB2_CORE_RUNTIME_SYNC_OPERATION_MUTEX_DESTROY; KB2_CORE_RUNTIME_SYNC_OPERATION_MUTEX_LOCK;
     KB2_CORE_RUNTIME_SYNC_OPERATION_MUTEX_TRY_LOCK; KB2_CORE_RUNTIME_SYNC_OPERATION_MUTEX_LOCK_UNTIL;
     KB2_CORE_RUNTIME_SYNC_OPERATION_MUTEX_UNLOCK; KB2_CORE_RUNTIME_SYNC_OPERATION_RWLOCK_CREATE;
     KB2_CORE_RUNTIME_SYNC_OPERATION_RWLOCK_DESTROY; KB2_CORE_RUNTIME_SYNC_OPERATION_RWLOCK_READ_LOCK;
     KB2_CORE_RUNTIME_SYNC_OPERATION_RWLOCK_READ_TRY_LOCK;
     KB2_CORE_RUNTIME_SYNC_OPERATION_RWLOCK_READ_LOCK_UNTIL; KB2_CORE_RUNTIME_SYNC_OPERATION_RWLOCK_READ_UNLOCK;
     KB2_CORE_RUNTIME_SYNC_OPERATION_RWLOCK_WRITE_LOCK; KB2_CORE_RUNTIME_SYNC_OPERATION_RWLOCK_WRITE_TRY_LOCK;
     KB2_CORE_RUNTIME_SYNC_OPERATION_RWLOCK_WRITE_LOCK_UNTIL;
     KB2_CORE_RUNTIME_SYNC_OPERATION_RWLOCK_WRITE_UNLOCK; KB2_CORE_RUNTIME_SYNC_OPERATION_SEMAPHORE_CREATE;
     KB2_CORE_RUNTIME_SYNC_OPERATION_SEMAPHORE_DESTROY; KB2_CORE_RUNTIME_SYNC_OPERATION_SEMAPHORE_DOWN;
     KB2_CORE_RUNTIME_SYNC_OPERATION_SEMAPHORE_TRY_DOWN; KB2_CORE_RUNTIME_SYNC_OPERATION_SEMAPHORE_DOWN_UNTIL;
     KB2_CORE_RUNTIME_SYNC_OPERATION_SEMAPHORE_UP; KB2_CORE_RUNTIME_SYNC_OPERATION_EVENT_CREATE;
     KB2_CORE_RUNTIME_SYNC_OPERATION_EVENT_DESTROY; KB2_CORE_RUNTIME_SYNC_OPERATION_EVENT_WAIT;
     KB2_CORE_RUNTIME_SYNC_OPERATION_EVENT_TRY_WAIT; KB2_CORE_RUNTIME_SYNC_OPERATION_EVENT_WAIT_UNTIL;
     KB2_CORE_RUNTIME_SYNC_OPERATION_EVENT_SIGNAL; KB2_CORE_RUNTIME_SYNC_OPERATION_EVENT_RESET;
     KB2_CORE_RUNTIME_SYNC_OPERATION_COMPLETION_CREATE; KB2_CORE_RUNTIME_SYNC_OPERATION_COMPLETION_DESTROY;
     KB2_CORE_RUNTIME_SYNC_OPERATION_COMPLETION_WAIT; KB2_CORE_RUNTIME_SYNC_OPERATION_COMPLETION_TRY_WAIT;
     KB2_CORE_RUNTIME_SYNC_OPERATION_COMPLETION_WAIT_UNTIL; KB2_CORE_RUNTIME_SYNC_OPERATION_COMPLETION_COMPLETE;
     KB2_CORE_RUNTIME_SYNC_OPERATION_COMPLETION_COMPLETE_ALL; KB2_CORE_RUNTIME_SYNC_OPERATION_COMPLETION_REINIT]
    KB2_CORE_RUNTIME_INTERFACE_SYNC_DEPENDENCY_MASK.

Definition thread_interface : interface :=
  mkInterface KB2_CORE_RUNTIME_INTERFACE_THREAD kb2_core_thread_operations KB2_CORE_RUNTIME_THREAD_TABLE_SIZE
    KB2_CORE_RUNTIME_THREAD_OPERATION_COUNT
    [KB2_CORE_RUNTIME_THREAD_OPERATION_CURRENT; KB2_CORE_RUNTIME_THREAD_OPERATION_CREATE;
     KB2_CORE_RUNTIME_THREAD_OPERATION_JOIN; KB2_CORE_RUNTIME_THREAD_OPERATION_DETACH;
     KB2_CORE_RUNTIME_THREAD_OPERATION_REQUEST_STOP; KB2_CORE_RUNTIME_THREAD_OPERATION_STOP_REQUESTED;
     KB2_CORE_RUNTIME_THREAD_OPERATION_INTERRUPT; KB2_CORE_RUNTIME_THREAD_OPERATION_IS_INTERRUPTED;
     KB2_CORE_RUNTIME_THREAD_OPERATION_CLEAR_INTERRUPT; KB2_CORE_RUNTIME_THREAD_OPERATION_PARK;
     KB2_CORE_RUNTIME_THREAD_OPERATION_UNPARK; KB2_CORE_RUNTIME_THREAD_OPERATION_WAKE;
     KB2_CORE_RUNTIME_THREAD_OPERATION_YIELD; KB2_CORE_RUNTIME_THREAD_OPERATION_SET_NAME;
     KB2_CORE_RUNTIME_THREAD_OPERATION_SET_AFFINITY; KB2_CORE_RUNTIME_THREAD_OPERATION_SET_PRIORITY]
    KB2_CORE_RUNTIME_INTERFACE_THREAD_DEPENDENCY_MASK.

Definition time_interface : interface :=
  mkInterface KB2_CORE_RUNTIME_INTERFACE_TIME kb2_core_time_operations KB2_CORE_RUNTIME_TIME_TABLE_SIZE
    KB2_CORE_RUNTIME_TIME_OPERATION_COUNT
    [KB2_CORE_RUNTIME_TIME_OPERATION_MONOTONIC_NS; KB2_CORE_RUNTIME_TIME_OPERATION_BOOTTIME_NS;
     KB2_CORE_RUNTIME_TIME_OPERATION_REALTIME_NS; KB2_CORE_RUNTIME_TIME_OPERATION_SLEEP_UNTIL;
     KB2_CORE_RUNTIME_TIME_OPERATION_BUSY_WAIT_UNTIL; KB2_CORE_RUNTIME_TIME_OPERATION_TIMER_CREATE;
     KB2_CORE_RUNTIME_TIME_OPERATION_TIMER_DESTROY; KB2_CORE_RUNTIME_TIME_OPERATION_TIMER_ARM;
     KB2_CORE_RUNTIME_TIME_OPERATION_TIMER_CANCEL; KB2_CORE_RUNTIME_TIME_OPERATION_TIMER_CANCEL_SYNC;
     KB2_CORE_RUNTIME_TIME_OPERATION_TIMER_REMAINING; KB2_CORE_RUNTIME_TIME_OPERATION_TIMER_IS_PENDING]
    KB2_CORE_RUNTIME_INTERFACE_TIME_DEPENDENCY_MASK.

Definition workqueue_interface : interface :=
  mkInterface KB2_CORE_RUNTIME_INTERFACE_WORKQUEUE kb2_core_workqueue_operations KB2_CORE_RUNTIME_WORKQUEUE_TABLE_SIZE
    KB2_CORE_RUNTIME_WORKQUEUE_OPERATION_COUNT
    [KB2_CORE_RUNTIME_WORKQUEUE_OPERATION_QUEUE_CREATE; KB2_CORE_RUNTIME_WORKQUEUE_OPERATION_QUEUE_DESTROY;
     KB2_CORE_RUNTIME_WORKQUEUE_OPERATION_WORK_CREATE; KB2_CORE_RUNTIME_WORKQUEUE_OPERATION_WORK_DESTROY;
     KB2_CORE_RUNTIME_WORKQUEUE_OPERATION_SUBMIT; KB2_CORE_RUNTIME_WORKQUEUE_OPERATION_SUBMIT_AT;
     KB2_CORE_RUNTIME_WORKQUEUE_OPERATION_RESCHEDULE_AT; KB2_CORE_RUNTIME_WORKQUEUE_OPERATION_CANCEL;
     KB2_CORE_RUNTIME_WORKQUEUE_OPERATION_CANCEL_SYNC; KB2_CORE_RUNTIME_WORKQUEUE_OPERATION_FLUSH_WORK;
     KB2_CORE_RUNTIME_WORKQUEUE_OPERATION_FLUSH_QUEUE; KB2_CORE_RUNTIME_WORKQUEUE_OPERATION_IS_PENDING]
    KB2_CORE_RUNTIME_INTERFACE_WORKQUEUE_DEPENDENCY_MASK.

Definition rcu_interface : interface :=
  mkInterface KB2_CORE_RUNTIME_INTERFACE_RCU kb2_core_rcu_operations KB2_CORE_RUNTIME_RCU_TABLE_SIZE
    KB2_CORE_RUNTIME_RCU_OPERATION_COUNT
    [KB2_CORE_RUNTIME_RCU_OPERATION_DEFAULT_DOMAIN; KB2_CORE_RUNTIME_RCU_OPERATION_DOMAIN_CREATE;
     KB2_CORE_RUNTIME_RCU_OPERATION_DOMAIN_DESTROY; KB2_CORE_RUNTIME_RCU_OPERATION_READ_LOCK;
     KB2_CORE_RUNTIME_RCU_OPERATION_READ_UNLOCK; KB2_CORE_RUNTIME_RCU_OPERATION_CALL;
     KB2_CORE_RUNTIME_RCU_OPERATION_SYNCHRONIZE; KB2_CORE_RUNTIME_RCU_OPERATION_BARRIER;
     KB2_CORE_RUNTIME_RCU_OPERATION_QUIESCENT_STATE]
    KB2_CORE_RUNTIME_INTERFACE_RCU_DEPENDENCY_MASK.

Definition interfaces : list interface :=
  [memory_interface; cpu_interface; sync_interface; thread_interface; time_interface; workqueue_interface; rcu_interface].
