(* ===== verification/CoreTablesSpec.v ===== *)
(** What the operation tables promise the two sides of the ABI: members that are
    aligned, apart from each other and inside the structure, and operations that are
    found from their identifiers. *)

From Stdlib Require Import ZArith Lia String.
From stdpp Require Import base numbers tactics strings list_numbers list.
From S2P Require Import Prelude CoreRuntimeLayout CoreTables.

Open Scope string_scope.
Open Scope list_scope.
Open Scope Z_scope.

(** * Placement of members *)

Lemma align_up_spec offset alignment :
  0 < alignment -> offset <= align_up offset alignment < offset + alignment /\ (alignment | align_up offset alignment).
Proof.
  intros Ha. unfold align_up. split; [| by exists ((offset + alignment - 1) / alignment)].
  pose proof (Z.div_mod (offset + alignment - 1) alignment ltac:(lia)).
  pose proof (Z.mod_pos_bound (offset + alignment - 1) alignment Ha). nia.
Qed.

Definition placeable (m : Z * Z) : Prop := 0 <= m.1 /\ 0 < m.2.

Lemma place_cons size alignment members offset :
  place ((size, alignment) :: members) offset =
  (align_up offset alignment :: (place members (align_up offset alignment + size)).1,
   (place members (align_up offset alignment + size)).2).
Proof. simpl. by destruct (place members _). Qed.

Lemma length_place members offset : length (place members offset).1 = length members.
Proof. revert offset. induction members as [| [size alignment] members IH]; intros offset; [done |]. rewrite place_cons. simpl. by rewrite IH. Qed.

Lemma place_end members offset : Forall placeable members -> offset <= (place members offset).2.
Proof.
  revert offset. induction members as [| [size alignment] members IH]; intros offset H; [done |].
  apply Forall_cons in H as [[Hs Ha] H]. rewrite place_cons. cbn [fst snd] in *.
  pose proof (align_up_spec offset alignment Ha). pose proof (IH (align_up offset alignment + size) H). lia.
Qed.

(** Each member lies at a multiple of its alignment, after the start and before the
    end. *)
Lemma place_lookup members offset i size alignment at_ :
  Forall placeable members ->
  members !! i = Some (size, alignment) -> (place members offset).1 !! i = Some at_ ->
  (alignment | at_) /\ offset <= at_ /\ at_ + size <= (place members offset).2.
Proof.
  revert offset i. induction members as [| [size' alignment'] members IH]; intros offset i H Hi Ho; [done |].
  apply Forall_cons in H as [[Hs Ha] H]. simpl in Hs, Ha. rewrite place_cons in Ho |- *. cbn [fst snd] in *.
  pose proof (align_up_spec offset alignment' Ha) as [? Hd].
  destruct i as [| i]; simpl in Hi, Ho.
  - simplify_eq. split; [done |]. pose proof (place_end members (align_up offset alignment + size) H). lia.
  - destruct (IH _ _ H Hi Ho) as (? & ? & ?). split; [done |]. lia.
Qed.

(** A member ends before the next one starts. *)
Lemma place_separate members offset i j size alignment at_i at_j :
  Forall placeable members -> (i < j)%nat ->
  members !! i = Some (size, alignment) ->
  (place members offset).1 !! i = Some at_i -> (place members offset).1 !! j = Some at_j ->
  at_i + size <= at_j.
Proof.
  revert offset i j. induction members as [| [size' alignment'] members IH]; intros offset i j H Hij Hi Hoi Hoj; [done |].
  apply Forall_cons in H as [[Hs Ha] H]. simpl in Hs, Ha. rewrite place_cons in Hoi, Hoj. cbn [fst snd] in *.
  destruct j as [| j]; [lia |]. destruct i as [| i]; simpl in Hi, Hoi, Hoj.
  - simplify_eq. assert (Hlt : (j < length members)%nat).
    { rewrite <- (length_place members (align_up offset alignment + size)). by eapply lookup_lt_Some. }
    destruct (lookup_lt_is_Some_2 members j Hlt) as [[s a] Ej].
    by destruct (place_lookup _ _ _ _ _ _ H Ej Hoj) as (_ & ? & _).
  - by apply (IH _ i j H ltac:(lia) Hi Hoi Hoj).
Qed.

(** * A structure *)

Definition named (s : structure) (name : string) (at_ size alignment : Z) : Prop :=
  exists i, s.*1 !! i = Some name /\ (place (struct_members s) 0).1 !! i = Some at_ /\ struct_members s !! i = Some (size, alignment).

(** Members are aligned, inside the structure and apart. *)
Definition laid_out (s : structure) : Prop :=
  NoDup s.*1 /\
  (forall name at_ size alignment, named s name at_ size alignment ->
     offsetof s name = Some at_ /\ (alignment | at_) /\ 0 <= at_ /\ at_ + size <= sizeof s) /\
  (forall name at_ size alignment name' at' size' alignment',
     named s name at_ size alignment -> named s name' at' size' alignment' -> name <> name' ->
     at_ + size <= at' \/ at' + size' <= at_).

Definition placeableb (m : Z * Z) : bool := (0 <=? m.1) && (0 <? m.2).

Lemma placeableb_spec l : forallb placeableb l = true -> Forall placeable l.
Proof. intros H. apply Forall_forall. intros [x y] Hin. apply list_elem_of_In, (proj1 (forallb_forall _ _) H), andb_prop in Hin as [? ?]. split; simpl in *; lia. Qed.

Lemma find_named (names : list string) (places : list Z) i name at_ :
  NoDup names -> names !! i = Some name -> places !! i = Some at_ ->
  snd <$> List.find (fun m : string * Z => String.eqb m.1 name) (zip names places) = Some at_.
Proof.
  revert places i. induction names as [| n names IH]; intros places i Hnd Hn Hp; [done |].
  apply NoDup_cons in Hnd as [Hnotin Hnd]. destruct places as [| p places]; [done |].
  destruct i as [| i]; simpl in *; simplify_eq.
  - by rewrite String.eqb_refl.
  - destruct (String.eqb_spec n name) as [-> |]; [| by apply (IH places i)].
    destruct Hnotin. by eapply list_elem_of_lookup_2.
Qed.

Lemma largest_pos l : 0 < largest l.
Proof. unfold largest. induction l; simpl; lia. Qed.

Lemma structure_laid_out s : NoDup s.*1 -> forallb placeableb (struct_members s) = true -> laid_out s.
Proof.
  intros Hnd Hp. apply placeableb_spec in Hp.
  split; [done |]. split.
  - intros name at_ size alignment (i & Hn & Ho & Hm).
    split; [by apply (find_named s.*1 _ i) |].
    destruct (place_lookup _ 0 _ _ _ _ Hp Hm Ho) as (? & ? & Hend). split; [done |]. split; [done |].
    etransitivity; [exact Hend |]. unfold sizeof, extent. cbn [fst].
    by apply align_up_spec, largest_pos.
  - intros name at_ size alignment name' at' size' alignment' (i & Hn & Ho & Hm) (j & Hn' & Ho' & Hm') Hne.
    destruct (Nat.lt_trichotomy i j) as [Hij | [-> | Hij]]; [left | congruence | right].
    + by apply (place_separate _ 0 i j size alignment _ _ Hp Hij Hm Ho Ho').
    + by apply (place_separate _ 0 j i size' alignment' _ _ Hp Hij Hm' Ho' Ho).
Qed.

(** * An operation table *)

Definition binding_object : string * ctype := ("binding_object", Pointer Void).

(** The operations of a table, without its header. *)
Definition operations_of (f : interface) : list member := tail (if_table f).

Definition takes_binding (m : member) : Prop :=
  exists rest, m.2 = Function (binding_object :: rest).

(** The table has the asserted size and starts with the header; the operations are
    numbered from 1 in their order, operation [k] is a function of the binding, is the
    pointer at [48 + 8 (k - 1)], and nothing follows the last; the interface depends on
    interfaces before it. *)
Definition table_laid_out (f : interface) : Prop :=
  sizeof (if_table f) = if_size f /\
  head (if_table f) = Some ("header", Header) /\
  if_count f = Z.of_nat (length (operations_of f)) /\
  if_operations f = seqZ 1 (if_count f) /\
  (forall k name type, 1 <= k -> operations_of f !! Z.to_nat (k - 1) = Some (name, type) ->
     takes_binding (name, type) /\ offsetof (if_table f) name = Some (KB2_CORE_RUNTIME_INTERFACE_HEADER_SIZE + 8 * (k - 1))) /\
  if_size f = KB2_CORE_RUNTIME_INTERFACE_HEADER_SIZE + 8 * if_count f /\
  (forall j, 0 <= j -> Z.testbit (if_dependencies f) j = true -> 1 <= j + 1 < if_id f).

Definition takes_bindingb (m : member) : bool :=
  match m.2 with
  | Function ((name, Pointer Void) :: _) => String.eqb name "binding_object"
  | _ => false
  end.

Lemma takes_bindingb_spec m : takes_bindingb m = true -> takes_binding m.
Proof.
  destruct m as [name []]; try done. unfold takes_bindingb. cbn [snd].
  destruct parameters as [| [n [| | | | | | | [] | | |]] rest]; try done.
  intros ->%String.eqb_eq. by exists rest.
Qed.

#[global] Instance ctype_eq_dec : EqDecision ctype.
Proof. solve_decision. Defined.

#[global] Instance member_type_eq_dec : EqDecision member_type.
Proof. solve_decision. Defined.

(** The check that [table_laid_out] holds, by evaluation. *)
Definition operation_placed (t : structure) (k : nat) (m : member) : bool :=
  takes_bindingb m && bool_decide (offsetof t m.1 = Some (KB2_CORE_RUNTIME_INTERFACE_HEADER_SIZE + 8 * Z.of_nat k)).

Definition table_checked (f : interface) : bool :=
  (sizeof (if_table f) =? if_size f) &&
  bool_decide (head (if_table f) = Some ("header", Header)) &&
  (if_count f =? Z.of_nat (length (operations_of f))) &&
  bool_decide (if_operations f = seqZ 1 (if_count f)) &&
  forallb (fun x => x) (imap (operation_placed (if_table f)) (operations_of f)) &&
  (if_size f =? KB2_CORE_RUNTIME_INTERFACE_HEADER_SIZE + 8 * if_count f) &&
  (0 <? if_id f) && (0 <=? if_dependencies f) && (if_dependencies f <? 2 ^ (if_id f - 1)).

Lemma mask_below mask n j : 0 <= mask < 2 ^ n -> 0 <= j -> Z.testbit mask j = true -> j < n.
Proof.
  intros Hm Hj Hb. destruct (Z.lt_ge_cases j n) as [| Hge]; [done |].
  assert (mask < 2 ^ j) by (eapply Z.lt_le_trans; [apply Hm | by apply Z.pow_le_mono_r; lia]).
  rewrite Z.testbit_true in Hb by lia. rewrite Z.div_small in Hb by lia. done.
Qed.

Lemma table_checked_sound f : table_checked f = true -> table_laid_out f.
Proof.
  unfold table_checked. rewrite !andb_true_iff, !bool_decide_eq_true.
  intros [[[[[[[[H1 H2] H3] H4] H5] H6] H7] H8] H9].
  split; [lia |]. split; [done |]. split; [lia |]. split; [done |]. split; [| split; [lia |]].
  - intros k name type Hk Hop.
    assert (Hin : In (operation_placed (if_table f) (Z.to_nat (k - 1)) (name, type))
                     (imap (operation_placed (if_table f)) (operations_of f))).
    { apply list_elem_of_In. apply (list_elem_of_lookup_2 _ (Z.to_nat (k - 1))). rewrite list_lookup_imap. apply fmap_Some. by exists (name, type). }
    apply (proj1 (forallb_forall _ _) H5) in Hin.
    apply andb_prop in Hin as [Hb Ho]. apply bool_decide_eq_true in Ho. cbn [fst] in Ho.
    split; [by apply takes_bindingb_spec |]. rewrite Ho. by rewrite Z2Nat.id by lia.
  - intros j Hj Hb. apply (mask_below _ (if_id f - 1)) in Hb; lia.
Qed.

(** * The static assertions *)

Definition assertions_hold : Prop :=
  Forall (fun a => sizeof a.1 = a.2) asserted_sizes /\
  Forall (fun a => Forall (fun o => offsetof a.1 o.1 = Some o.2) a.2) asserted_offsets /\
  Forall (fun a => extent (struct_members a.1) = a.2) asserted_extents /\
  Forall (fun a => type_size a.1 = a.2) asserted_types.

Definition structures : list structure := asserted_sizes.*1 ++ asserted_extents.*1.
