(* ===== verification/CoreRuntimeClaims.v ===== *)
(** The properties of the core runtime's primitives. *)

From Stdlib Require Import ZArith Lia.
From stdpp Require Import base numbers tactics gmap list_numbers list.
From S2P Require Import Prelude CoreRuntimeLayout CoreRuntime Interleaving CoreRefcount CoreOwnership CoreRuntimeSpec CoreTables CoreTablesSpec.

Open Scope Z_scope.

(** A memory with a count at address 64, and two threads that drop one reference each,
    the second while the first is between its read and its exchange. *)
Definition count_at (n : Z) : memory := <[64 := n]> ∅.

Definition race : list (nat * option refcount_call) :=
  [(0%nat, Some DecrementAndTest); (1%nat, Some DecrementAndTest); (0%nat, None); (1%nat, None); (1%nat, None); (1%nat, None);
   (0%nat, None); (0%nat, None); (0%nat, None); (0%nat, None)].

Definition race_trace : list label :=
  [Invoke 0 DecrementAndTest; Invoke 1 DecrementAndTest; Respond 1 DecrementAndTest 0; Respond 0 DecrementAndTest 1].

Definition race_memory : memory :=
  default ∅ (fst ∘ snd <$> follow (refcount_code 64) (count_at 2, [Idle; Idle]) race).

Lemma race_runs : execution (refcount_code 64) (count_at 2, [Idle; Idle]) (length race) race_trace (race_memory, [Idle; Idle]).
Proof. apply follow_execution. vm_compute. reflexivity. Qed.

Lemma two_u32 : is_u32 2.
Proof. done. Qed.

(** C21. The reference counts are linearizable.  Threads that run the loops of the four
    functions on one count, interleaved builtin by builtin in any order, produce only
    traces (calls, answers, traps) that the atomic counter produces, in which every call
    takes effect at one moment between its start and its answer; the count in memory is
    the counter's, and no other object changes. *)
Theorem refcount_linearizable refcount m n threads steps tr m' ts :
  bad_refcount refcount = false -> is_u32 n ->
  execution (refcount_code refcount) (<[refcount := n]> m, replicate threads Idle) steps tr (m', ts) ->
  exists n' ts', aexecution refcount_effect (n, replicate threads AIdle) tr (n', ts') /\
    is_u32 n' /\ m' = <[refcount := n']> m /\ Forall2 (fun s a => s = Idle <-> a = AIdle) ts ts'.
Proof.
  intros Hgood Hn He.
  destruct (execution_simulated _ _ (refcount_implements refcount Hgood m) _ _ _ _ (n, replicate threads AIdle) He)
    as ([n' ts'] & [[Hn' Hm] Hs] & Ha); [by apply config_sim_idle |].
  exists n', ts'. split; [done |]. split; [done |]. split; [done |]. eapply Forall2_impl; [done |]. intros s a. apply idle_sim, call_sim_active.
Qed.

Lemma refcount_linearizable_witness :
  exists h, aexecution refcount_effect (2, replicate 2 AIdle) race_trace h /\ h.1 = 0.
Proof.
  destruct (refcount_linearizable 64 ∅ 2 2 (length race) race_trace race_memory [Idle; Idle] eq_refl two_u32 race_runs)
    as (n & as' & Ha & Hn & Hm & _).
  exists (n, as'). split; [exact Ha |]. assert (H : race_memory !! 64 = Some n) by (rewrite Hm; apply lookup_insert_eq).
  vm_compute in H. by injection H as <-.
Defined.

(** C23. The reference counts are lock-free and end: with N threads, an execution with
    K calls has at most (2N + 4)K steps, however the threads are scheduled, and while a
    call is unfinished its thread can make a step. *)
Theorem refcount_lock_free refcount m n threads steps tr m' ts :
  bad_refcount refcount = false -> is_u32 n ->
  execution (refcount_code refcount) (<[refcount := n]> m, replicate threads Idle) steps tr (m', ts) ->
  (steps <= (2 * threads + 4) * invocations tr)%nat /\
  forall i c t, ts !! i = Some (Running c t) -> exists s, advance (refcount_code refcount) (m', ts) (i, None) = Some s.
Proof.
  intros Hgood Hn He. destruct (execution_cost refcount Hgood m threads n steps tr m' ts Hn He) as (n' & ks & Hm & Hc & _ & Hle).
  split; [lia |]. intros i c t Ei. destruct (Forall2_lookup_l _ _ _ _ _ Hc Ei) as (k & _ & Hk).
  destruct (running_advances refcount Hgood m threads n' c t k m' ts i Hm Ei Hk) as [s Es]. by exists s.
Qed.

Lemma refcount_lock_free_witness : (length race <= 8 * invocations race_trace)%nat.
Proof.
  exact (proj1 (refcount_lock_free 64 ∅ 2 2 (length race) race_trace race_memory [Idle; Idle] eq_refl two_u32 race_runs)).
Defined.

(** C22. References are released exactly once.  Threads that start with the references
    [h], increment only what they hold and drop only what they hold, and never have
    2^32 - 2 references, in any interleaving: no call faults; the count covers all
    references held; the last release is reported at most once, and only when no
    reference is held, after which none can be taken; when every thread is idle the
    count is the number of references, and the last release has been reported if and
    only if there is none. *)
Theorem refcount_ownership refcount m h steps tr m' ts :
  bad_refcount refcount = false -> 0 < Z.of_nat (sum_list h) < U32_MAX - 1 ->
  execution (refcount_code refcount) (<[refcount := Z.of_nat (sum_list h)]> m, replicate (length h) Idle) steps tr (m', ts) ->
  disciplined h tr ->
  Forall (fun l => is_fault l = false) tr /\
  (exists n, m' !! refcount = Some n /\ Z.of_nat (sum_list (holdings h tr)) <= n) /\
  (releases tr <= 1)%nat /\ (releases tr = 1%nat -> sum_list (holdings h tr) = 0%nat) /\
  (Forall (fun s => s = Idle) ts ->
     m' !! refcount = Some (Z.of_nat (sum_list (holdings h tr))) /\ (releases tr = 1%nat <-> sum_list (holdings h tr) = 0%nat)).
Proof.
  intros Hgood Hh He Hd.
  destruct (execution_simulated _ _ (refcount_implements refcount Hgood m) _ _ _ _
    (Z.of_nat (sum_list h), replicate (length h) AIdle) He) as ([n ts'] & [[Hn Hm] Hs] & Ha).
  { apply config_sim_idle. split; [unfold is_u32, U32_MAX in *; lia | done]. }
  destruct (aexecution_books _ _ _ _ 0 Ha (books_start h Hh) Hd) as [Hb Hf]. cbn in Hb, Hs, Hm. subst m'.
  destruct (books_outcome _ _ _ _ Hb) as (Hle & Hone & Hlast & Hidle).
  split; [done |]. split; [exists n; by rewrite lookup_insert_eq |]. split; [done |]. split; [done |].
  intros Hall. rewrite lookup_insert_eq. destruct Hidle as [-> Hiff]; [| done].
  apply Forall_lookup. intros i a Ea. destruct (Forall2_lookup_r _ _ _ _ _ Hs Ea) as (s & Es & Hsim).
  apply (idle_sim s a (call_sim_active refcount) Hsim). by apply (Forall_lookup_1 _ _ _ _ Hall Es).
Qed.

Lemma refcount_ownership_witness : Forall (fun l => is_fault l = false) race_trace /\ releases race_trace = 1%nat.
Proof.
  assert (Hd : disciplined [1; 1]%nat race_trace) by (cbn; repeat split; by eexists).
  destruct (refcount_ownership 64 ∅ [1; 1]%nat (length race) race_trace race_memory [Idle; Idle] eq_refl
    ltac:(vm_compute; split; reflexivity) race_runs Hd) as (Hf & _ & _ & _ & Hidle).
  split; [exact Hf |]. apply Hidle; [by repeat constructor | done].
Defined.

(** C24. The single accesses, atomics and bitmap calls: within its contract (aligned
    pointers, an order its kind of access can have, a bit of the word, a failure order
    that the C standard allows) a call ends, answers and changes memory as its atomic operation
    says, and passes to the builtins exactly the memory orders the caller named (relaxed
    for a single access); outside it, it traps and has changed nothing. *)
Theorem core_primitives_contract p m old :
  callable p m old ->
  (within p -> run 6 (primitive_code p) m = Some (Returned (primitive_effect p m old).1 (primitive_effect p m old).2)) /\
  (~ within p -> run 6 (primitive_code p) m = Some (Trapped m)) /\
  (within p -> orders_used 6 (primitive_code p) m = Some (orders_asked p)).
Proof.
  intros H. destruct (primitive_meets p m old H). split; [done |]. split; [done |]. by apply (primitive_orders p m old).
Qed.

Lemma core_primitives_contract_witness :
  run 6 (kb2_core_bit_test_and_set 64 3 4) (count_at 5) = Some (Returned 0 (count_at 13)) /\
  run 6 (kb2_core_bit_test_and_set 64 64 4) (count_at 5) = Some (Trapped (count_at 5)) /\
  orders_used 6 (kb2_core_bit_test_and_set 64 3 4) (count_at 5) = Some [ORDER_ACQ_REL].
Proof.
  assert (H : forall b, 0 <= b -> callable (BitTestAndSet 64 b 4) (count_at 5) 5)
    by (intros b Hb; split; [reflexivity | vm_compute; split; discriminate || reflexivity | exact I | exact Hb]).
  assert (Hw : within (BitTestAndSet 64 3 4))
    by (split; [split; [done | by exists 8] |]; split; [done |]; by exists ORDER_ACQ_REL).
  split; [| split].
  - refine (proj1 (core_primitives_contract (BitTestAndSet 64 3 4) (count_at 5) 5 (H 3 _)) Hw). done.
  - refine (proj1 (proj2 (core_primitives_contract (BitTestAndSet 64 64 4) (count_at 5) 5 (H 64 _))) _); [done |].
    intros (_ & Hlt & _). done.
  - refine (proj2 (proj2 (core_primitives_contract (BitTestAndSet 64 3 4) (count_at 5) 5 (H 3 _))) Hw). done.
Defined.

(** The operation tables of the core runtime's ABI, checked as the compiler checks
    them: every static assertion of the header holds of the layout that LP64 gives to
    its structures; the members of a
    structure are aligned, inside it and apart from each other; and in every interface
    the operation with identifier [k] is the [k]th pointer after the header, takes the
    binding's object first, and is inside the asserted size, and the interface depends
    on interfaces with smaller identifiers only. *)
Lemma core_tables_layout :
  assertions_hold /\ Forall laid_out structures /\ Forall table_laid_out interfaces /\
  if_id <$> interfaces = seqZ 1 KB2_CORE_RUNTIME_INTERFACE_COUNT.
Proof.
  split; [| split; [| split]].
  - unfold assertions_hold. apply (bool_decide_unpack _). vm_compute. exact I.
  - apply Forall_forall. intros s Hs. apply structure_laid_out.
    + revert s Hs. apply Forall_forall. apply (bool_decide_unpack _). vm_compute. exact I.
    + apply list_elem_of_In in Hs. revert s Hs. apply forallb_forall. vm_compute. reflexivity.
  - apply Forall_forall. intros f Hf. apply table_checked_sound.
    apply list_elem_of_In in Hf. revert f Hf. apply forallb_forall. vm_compute. reflexivity.
  - vm_compute. reflexivity.
Qed.
